(* ===== verification/_CoqProject ===== *)
-Q . S2P
Prelude.v
PyDate.v
PyTime.v
PyInt.v
Json.v
JsonText.v
Utf8.v
JstTime.v
MembershipRuns.v
Budget.v
SourceCapability.v
CoverageContract.v
CoveragePlan.v
Backfill.v
RateLimit.v
RangeBatch.v
JQuantsClient.v
FetchJobs.v
Base64.v
Sha256.v
OfficialCalendar.v
DatasetContract.v
DatasetIdentity.v
Normalize.v
PinnedRegistries.v
ReceiptCrypto.v
Receipt.v
Transaction.v
LedgerStore.v
CoverageEval.v
Inventory.v
LedgerRefresh.v
LedgerSync.v
Publication.v
FactStore.v
Pipeline.v
PointInTime.v
CoverageProof.v
TransitionAuthority.v
CoverageTransition.v
Provenance.v
