(* ===== verification/Prelude.v ===== *)
(** * A verification development for the quant platform's data-plane core

    The repository collects Japanese market data, records which parts of the
    required history are covered, plans and schedules the missing collection, keeps
    what it collects with the times at which it became known, answers queries as of
    an instant, and budgets the research that uses the data.  This library models the pure and
    the transactional core of those parts, definition by definition, and proves
    the properties that make them correct.

    ** Parts of the program and files of the library

    - Prelude.v (this file): Python exceptions and the [result] monad ([Ok] or
      [Err] of an exception class), loops ([while] with fuel, [foldR], [mapR]),
      [sorted] and [max], [str.strip], string order, and the tactics and hints
      the other files share.
    - PyDate.v, PyTime.v, PyInt.v: [datetime.date] as proleptic ordinals, ISO text
      and its parser, UTC timestamps as microseconds, their text and its parser,
      and [int] of a text.
    - Json.v: decoded JSON values, [str] and [repr], and [json.dumps] in the
      canonical form digests are taken of and in the default form.
    - JsonText.v: [json.loads], with and without the hooks of the strict readers,
      and canonical JSON that refuses what is not finite.
    - Utf8.v: UTF-8, and JSON texts that are not restricted to ASCII.
    - JstTime.v: ingestion/common/timeutil.py, ingestion/common/available_at.py and
      [normalize_as_of] of pit/read_clock.py.  Times of Japan and texts read as times.
    - MembershipRuns.v: packages/data_plane/data_contracts/membership_runs.py.
      Universes as runs of days: validation, run-length encoding with code
      tuples interned by identity, binary search, day iteration, the streamed
      digest.
    - Budget.v: packages/product/selection/budget_ledger.py.  The SQLite ledger as
      three tables; every operation as a transaction on them; the step relation
      of all clients and its reachable states.
    - SourceCapability.v: packages/data_plane/data_contracts/source_capability.py.
      Fail-closed decoders, consistency rules, official domain, registry, query
      clamp.
    - CoverageContract.v: packages/data_plane/data_contracts/coverage.py and
      storage/receipt_policy.py.  Coverage policies, their document, digests and
      bindings, recovered evidence.
    - CoveragePlan.v: [plan_required_segments] and the declared and compiled
      windows of packages/data_plane/storage/coverage_ledger.py, with the official
      archive index of ingestion/jsda.
    - Backfill.v: packages/data_plane/ops/backfill_planner.py.  Jobs, their
      outcomes, the planner, inventories and status rows.
    - RateLimit.v: packages/data_plane/ingestion/common/rate_limit.py, on IEEE
      binary64 numbers.
    - RangeBatch.v: packages/data_plane/ops/range_batch_scheduler.py.  Filtering
      and queueing of jobs, and their concurrent execution as a step relation.
    - JQuantsClient.v: ingestion/common/retry.py, ingestion/common/http.py,
      ingestion/jquants/catalog.py and client.py.  Retries, the catalogue of datasets,
      the client that follows a chain of pages.
    - FetchJobs.v: ingestion/jquants/parallel.py.  Date grids as jobs, and the jobs on
      a pool of workers.
    - Base64.v, Sha256.v: the [base64] and [hashlib] functions receipts use.
    - OfficialCalendar.v: ingestion/jquants/official_business_calendar.py.  The official
      response of an interval as its business days.
    - DatasetContract.v: data_contracts/loader.py and the document it loads.  The
      datasets, their keys and their policies on times.
    - DatasetIdentity.v: data_contracts/identity.py.  The key of a row, and the instant
      at which it became available.
    - Normalize.v: ingestion/jquants/normalize.py.  Payloads as rows of facts.
    - PinnedRegistries.v: the key registries and authority documents of
      packages/data_plane/data_contracts, as they are checked in.
    - ReceiptCrypto.v: packages/data_plane/storage/receipt_crypto.py.  Registries of
      public keys, their status, the exact signed bytes, signature verification.
    - Receipt.v: packages/data_plane/storage/verified_receipt.py and the builder of
      storage/coverage_receipts.py.  From a receipt to a verified closure.
    - CoverageEval.v: the evaluation of segments in storage/coverage_ledger.py.
      Ranking, the judgement of a closure, aggregates.
    - Transaction.v: connections with a committed and a pending store, actions on
      them, and what transactions guarantee; for any store.
    - LedgerStore.v: storage/coverage_ledger_io.py and the ledger's tables in
      storage/migrations.py.  Constraints, writers, readers.
    - Inventory.v: the exact inventory in storage/coverage_ledger.py: identities,
      comparison with the regenerated segments, verification of selected receipts.
    - LedgerRefresh.v: the refresh of the ledger and its COMPLETE gate.
    - LedgerSync.v: re-aggregation from segments, summaries, and the step relation
      of all the clients of the ledger.
    - Publication.v: the writers of pit/ready_evidence.py on the tables of snapshot
      publications, the walk of a build through its states, and the cut-off dates
      of storage/coverage_ledger.py and storage/coverage_proof.py.
    - FactStore.v: storage/schema.py, storage/sqlite_store.py and
      [migrate_before_write] of storage/migrate_jquants_keys.py.  Facts, the versions
      that amendments displace, and the withdrawal of the snapshot by each write.
    - Pipeline.v: ingestion/pipeline.py and ingestion/common/paths.py.  Whole runs of
      the J-Quants ingestion: fetch, raw files, normalisation, registration, exit codes.
    - PointInTime.v: pit/read_clock.py, pit/query.py and readers of pit/api.py.  What a
      reader sees as of an instant.
    - CoverageProof.v: storage/coverage_proof.py.  Proofs of coverage: computed,
      persisted once for each build, reopened, embedded in an artifact.
    - TransitionAuthority.v: the registry, the documents and the times of
      storage/coverage_transition.py, and ops/trust_domain.py.
    - CoverageTransition.v: the rest of storage/coverage_transition.py: the request of
      a transition, and its application in one transaction.
    - Provenance.v: all the clients of the database together.

    Facts flow from the exchange to the readers: a range of dates becomes jobs
    (FetchJobs), each fetched page by page (JQuantsClient, behind RateLimit); the rows
    of the pages become rows of facts (Normalize) with the key and the availability
    that the contract of their dataset gives them (DatasetContract, DatasetIdentity);
    they are written beside the versions they amend (FactStore) and read as of an
    instant (PointInTime, on JstTime).  Pipeline composes the writing side into runs.

    What may be read rests on coverage: a coverage policy
    (CoverageContract) and the official domain of its dataset (SourceCapability)
    determine the required segments (CoveragePlan); a collection leaves a receipt
    whose signature is verified (Receipt, on ReceiptCrypto); the refresh evaluates
    the segments by their receipts (CoverageEval) and writes them and the aggregate
    of the dataset (LedgerRefresh, LedgerStore), which stays COMPLETE only when the
    exact inventory is verified (Inventory) and becomes COMPLETE only by a signed
    transition (TransitionAuthority, CoverageTransition) inside a build that is being
    published (Publication); the proof of the build (CoverageProof) is what its
    artifact has to show; the planner (Backfill) turns the
    segments the ledger does not hold as complete into jobs; the scheduler
    (RangeBatch) queues the pending jobs of a plan and dispatches them, each pool
    behind its limiter (RateLimit).  The snapshot that a publication makes readable is
    the one that a write of facts withdraws (FactStore, Publication).  MembershipRuns,
    Budget and OfficialCalendar stand alone.

    State is passed explicitly: the ledger of budgets in Budget.v; connections with
    a committed and a pending store, and actions on them, in Transaction.v (the store
    is the three tables of LedgerStore.v, the whole database of Publication.v
    that holds them, or the facts of FactStore.v); the world of an HTTP client and its
    limiter in JQuantsClient.v; that client, the raw files, the store and the log of runs
    in Pipeline.v; the tasks, limiters and reported rows of an execution in RangeBatch.v.

    Interfaces are classes.  [StrictWeak] (Prelude) is what [sorted] and [max] ask of
    an order.  [Attests] (CoverageEval) is what the evaluation asks of a verifier of
    receipts; Receipt.v provides it.  [Uncommitted] (Transaction), [Honest] and
    [AggregatesOnly] (LedgerStore) are what the transactions of the ledger ask of the writers they
    call: that no dataset becomes COMPLETE, that nothing is committed inside
    somebody's transaction, that segments and receipts are left alone; the writers
    are instances, and the refresh and the synchronisation follow.  [Tracks] (Pipeline)
    is what a relation between states must hold across for whole runs to keep it.

    ** What the theorems show

    - Provenance: whatever refreshes, synchronisations, publications and transitions
      do to the database in any order, every COMPLETE was there at the start or is
      named, under its policy, in a document that the active key of the pinned
      registry signed and that a committed tombstone keeps; with the registries of
      this commit nothing becomes COMPLETE.
    - Transitions: a document is authorised only closed, addressed by its digest,
      signed and current; a time has one text; a transition needs candidates a
      refresh computed COMPLETE and an exactly verified inventory at the cut-off of
      the active build; it changes exactly the rows it names, or nothing, and is not
      repeated.
    - Publications and proofs: only the build that is walking through its states
      gets a cut-off, in the file it is staged in; a withdrawal revokes it; a
      readable snapshot has its manifest embedded; a proof that is persisted reopens,
      a build has one proof, what reopens is what the ledgers give now, and a
      manifest is accepted only with such a proof.
    - The ledger: no sequence of calls of any client, with commits, rollbacks and
      failures anywhere, makes a dataset COMPLETE that was not; a refresh or a
      synchronisation leaves a dataset COMPLETE only on an exactly verified
      inventory, which means a signed receipt of its own for every required
      segment; a complete segment stays so while one of its receipts completes it;
      the writer is all or nothing; failures and dry runs change nothing; what is
      recorded is read back, on the strength of the round trip of JSON texts.
    - Evaluation: COMPLETE needs a receipt that verifies and closes over the segment
      under the active key of the pinned production registry; the judgement is
      characterised branch by branch; evaluation returns; both ways of aggregating
      agree.
    - Receipts: accepted signatures are those of the single active key of a pinned
      registry; the signed body fixes the receipt; verification fails closed (and
      one theorem shows the version claim with which it does not); Base64 spellings
      are unique; registries that parse are sound.
    - Budget: whatever sequence of operations, never more live leases than slots;
      counters never exceed their caps and account for what was granted; settling
      and finalising are idempotent or refused; consuming, acquiring and
      reopening do what they say on every branch; the schema migration keeps the
      ledger.
    - MembershipRuns: encoding and iterating are inverse; search agrees with
      iteration; validation is sound; the streamed digest is that of the document.
    - Ingestion: a fetch that returns has followed one chain of successful pages to its
      end, and with fewer faults in a row than retries it returns all rows; a parallel
      fetch accounts for each day of its range once, in whatever order workers finish;
      a derived calendar is the official one; two rows share a key exactly when they
      agree on the fields of the contract; an availability rests on a field of the
      contract or is the time of ingestion, and no payload can claim one; raw files are
      immutable whatever the file system does, a governed run registers nothing while no service issues receipts, and
      what a draft registers has each page it comes from on disk.
    - Facts and reads: an amendment keeps the row it displaces; fetching again keeps the
      earliest availability; a write withdraws the snapshot; a read returns the newest version that was known at its
      instant; later amendments leave it alone; pages make up the whole answer.
    - SourceCapability and CoverageContract: what decodes is consistent; decoding
      and encoding are inverse; loading covers exactly the expected datasets;
      bindings do not depend on order; one lemma shows a week date accepted as a
      start, which the decoder means to refuse.
    - CoveragePlan: a plan tiles its interval exactly, stays in the official
      domain, is a single day for snapshots and the listed days for archives, and
      raises [ValueError] only.
    - Backfill: a plan asks for every missing day and for nothing else, and is
      always returned; a worker summary never turns partial into pass; a dataset
      is reported complete exactly when all its rows are.
    - RateLimit and RangeBatch: slots are an interval apart in every
      interleaving; worker caps hold; no deadlock, at most four steps per entry;
      every queued job is attempted and reported exactly once; nothing is
      dispatched without an explicit request, a callback and a token; a last
      theorem shows that jobs of the fins pool wait for the general queue.

    ** Conventions, bounds and fuel

    Strings are lists of code points below 256; where the program can meet another
    character or a value the library does not represent, a definition raises
    [OutsideModel], which no theorem counts as success.  Exceptions keep their
    class and the constant part of their message.  A [while] loop has as fuel a
    measure its body decreases (the days left, the width of a search interval), the
    JSON parser two units for each character; running out is the exception
    [Diverges], which the theorems on returned results exclude ([json_loads_halts]
    for the parser).  Python integers are unbounded, as [Z] is, and those bound to a
    statement must fit SQLite's 64 bits; dates are bounded by 9999-12-31 and the
    operations that leave the calendar raise as Python's do.

    Parameters, taken as section variables by the files that use them: regular
    expressions and HTML unescaping; Ed25519 and the JSON schema of claims (third
    parties'); the file system (what [stat] and its relatives say of paths and
    descriptors) and the schema rows of SQLite; [sha256_hex], which Sha256.v implements, and the decoder of claims,
    which JsonText.v implements; [float_repr], what [repr] makes of the number a
    JSON literal denotes; [affinity], what SQLite makes of a value in a column; the HTTP
    client, the clock and the sleep, which act on a world, the order in which the
    workers of a pool finish, and [float(x)] of a payload's value; the clock on the wall,
    [str] of exceptions, [Path.resolve], and which calls of the file system fail or stop
    half way.  Clock readings,
    fresh ids and the callback's responses are arguments.

    ** What is not modelled

    Of the ledger: the daily checks on the fact tables (storage/coverage.py), whose
    results a refresh is given; the branches for a table that does not exist; the
    triggers on the tombstones, whose effect is a hypothesis of the steps in
    Provenance.v (committed tombstones stay) and a reading of the environment in
    CoverageTransition.v.  Of a publication: the gate of checks that decides on a
    build, the copy of the SQLite file and the files around it.
    Of ingestion: the collection of acquisition targets, the authority of receipts at
    run time (which at this commit always refuses), personal histories, and the parsers
    of JSDA files with the runs that use them.  Of the queries: the views of packages/data_plane/pit
    that merge dataframes.  The research runtime (floating-point dataframes), agents,
    workers and scripts are outside the library.  Within the modelled files: the dispatch estimates of the scheduler,
    sums of budget counters above 2^63, which raise [OutsideModel]. *)

From Stdlib Require Export ZArith Lia Sorted Ascii.
From stdpp Require Export base tactics list option gmap strings.
From stdpp Require sorting.

#[export] Set Default Goal Selector "!".

(** ** Python exceptions and fallible computations *)

(** The exception classes the modelled code raises; a class stands for the
    Python class of the same name.  [Diverges] is not a Python class: it is what
    a loop modelled with fuel returns when the fuel runs out, and the theorems
    that a loop terminates say that it is never returned.  [SqliteError] is
    [sqlite3.Error] but for its subclass [IntegrityError].  Not a class either is
    [OutsideModel]: it
    is what a definition returns where the program has a value the library does not
    represent, such as a character from 256 on.  [TransportError] stands for the
    exceptions an HTTP client raises on connection and timeout faults. *)
Inductive exn_class : Set :=
  | ValueError
  | KeyError
  | TypeError
  | RuntimeError
  | OverflowError
  | IntegrityError
  | AssertionError
  | OSError
  | FileNotFoundError
  | FileExistsError
  | BudgetExhaustedError
  | MassResearchDisabledError
  | ReceiptVerificationError
  | ReceiptKeyConfigurationError
  | CoverageInventoryAuthorityUnavailable
  | CoveragePublicationCutoffError
  | CoverageProofVerificationError
  | CoverageTransitionError
  | CoverageTransitionAlreadyConsumed
  | CoverageTransitionAuthorityPending
  | MissingAvailableAt
  | IndexError
  | AttributeError
  | SqliteError
  | PitError
  | AsOfRequired
  | InvalidAsOf
  | DatabaseNotFound
  | InvalidDataset
  | SnapshotNotReady
  | SnapshotObservationClockError
  | RawFixedUniverseError
  | Transient
  | TransportError
  | OutsideModel
  | Diverges.

#[export] Instance exn_class_eq_dec : EqDecision exn_class.
Proof. solve_decision. Defined.

(** An exception: its class and the constant part of its message.  Interpolated
    values of an f-string message are not kept. *)
Record exn : Set := Exn { exn_kind : exn_class; exn_msg : string }.

#[export] Instance exn_eq_dec : EqDecision exn.
Proof. solve_decision. Defined.

Inductive result (A : Type) : Type :=
  | Ok (a : A)
  | Err (e : exn).
Arguments Ok {A} _.
Arguments Err {A} _.

#[export] Instance result_eq_dec `{EqDecision A} : EqDecision (result A).
Proof. solve_decision. Defined.

#[export] Instance result_ret : MRet result := fun A a => Ok a.
#[export] Instance result_bind : MBind result :=
  fun A B f r => match r with Ok a => f a | Err e => Err e end.
#[export] Instance result_fmap : FMap result :=
  fun A B f r => match r with Ok a => Ok (f a) | Err e => Err e end.

Definition raise {A} (c : exn_class) (msg : string) : result A := Err (Exn c msg).

(** [ensure b c msg] is [if not b: raise c(msg)]. *)
Definition ensure (b : bool) (c : exn_class) (msg : string) : result unit :=
  if b then Ok tt else raise c msg.

Definition is_Ok {A} (r : result A) : bool :=
  match r with Ok _ => true | Err _ => false end.

(** The value of a computation that succeeds. *)
Definition ok_or {A} (default : A) (r : result A) : A := match r with Ok a => a | Err _ => default end.

Lemma run_Ok {C A} (d : A) (m : C * result A) : is_Ok m.2 = true -> m = (m.1, Ok (ok_or d m.2)).
Proof. by destruct m as [c [a|e]]. Qed.

Lemma value_Ok {A} (d : A) (r : result A) : is_Ok r = true -> r = Ok (ok_or d r).
Proof. by destruct r. Qed.

(** [o is not None] *)
Definition present {A} (o : option A) : bool := match o with Some _ => true | None => false end.

Definition of_option {A} (c : exn_class) (msg : string) (o : option A) : result A :=
  match o with Some a => Ok a | None => raise c msg end.

(** [try: r except kinds as exc: raise c(msg) from exc] *)
Definition on_error {A} (kinds : list exn_class) (c : exn_class) (msg : string) (r : result A) : result A :=
  match r with
  | Err e => if bool_decide (exn_kind e ∈ kinds) then raise c msg else Err e
  | r => r
  end.

(** [[x for x in l if f(x)]] for a condition that may raise. *)
Fixpoint filterR {A} (f : A -> result bool) (l : list A) : result (list A) :=
  match l with
  | [] => Ok []
  | x :: l => b ← f x; rest ← filterR f l; Ok (if b : bool then x :: rest else rest)
  end.

Fixpoint mapR {A B} (f : A -> result B) (l : list A) : result (list B) :=
  match l with
  | [] => Ok []
  | x :: l => y ← f x; ys ← mapR f l; Ok (y :: ys)
  end.

(** [l[i]]: a negative index counts from the end. *)
Definition py_index {A} (l : list A) (i : Z) : result A :=
  let n := Z.of_nat (length l) in
  let i := if (i <? 0)%Z then (i + n)%Z else i in
  if (0 <=? i)%Z then of_option IndexError "list index out of range" (l !! Z.to_nat i)
  else raise IndexError "list index out of range".

(** [while cond(s): s = body(s)] *)
Fixpoint while {St} (fuel : nat) (cond : St -> bool) (body : St -> result St) (s : St) : result St :=
  if cond s then
    match fuel with
    | O => raise Diverges ""
    | S fuel => s ← body s; while fuel cond body s
    end
  else Ok s.

(** [for x in l: s = f(s, x)] *)
Fixpoint foldR {St A} (f : St -> A -> result St) (s : St) (l : list A) : result St :=
  match l with
  | [] => Ok s
  | x :: l => s ← f s x; foldR f s l
  end.

Declare Scope qp_scope.
Delimit Scope qp_scope with qp.

(** [x in l] for Python's membership test on a tuple, list or frozenset. *)
Notation "x '∈?' l" := (bool_decide (x ∈ l)) (at level 70, no associativity) : qp_scope.
(** Python's [==] on strings. *)
Notation "s =s t" := (bool_decide (s = t :> string)) (at level 70, no associativity) : qp_scope.
Open Scope qp_scope.

(** ** Tactics *)

(** Split every [match] of a hypothesis that equates a computation to a result. *)
Ltac inv_ok H :=
  repeat first
    [ progress simplify_eq/=
    | match type of H with
      | context [ match ?x with _ => _ end ] => destruct x eqn:?
      end
    | match type of H with
      | context [ if ?b then _ else _ ] => destruct b eqn:?
      end ];
  simplify_eq/=.

(** Invert one monadic bind of a successful computation. *)
Ltac bind_ok H :=
  let a := fresh "a" in let Ha := fresh "E" in
  match type of H with
  | (?r ≫= _) = Ok _ => destruct r as [a|] eqn:Ha; simpl in H; [| discriminate H]
  end.

(** Turn boolean equations into propositions. *)
Ltac bools :=
  repeat match goal with
  | H : (_ && _)%bool = true |- _ => apply andb_true_iff in H as [? ?]
  | H : (_ || _)%bool = false |- _ => apply orb_false_iff in H as [? ?]
  | H : negb _ = true |- _ => apply negb_true_iff in H
  | H : negb _ = false |- _ => apply negb_false_iff in H
  | H : bool_decide _ = true |- _ => apply bool_decide_eq_true in H
  | H : bool_decide _ = false |- _ => apply bool_decide_eq_false in H
  | H : (_ <=? _)%Z = true |- _ => apply Z.leb_le in H
  | H : (_ <=? _)%Z = false |- _ => apply Z.leb_gt in H
  | H : (_ <? _)%Z = true |- _ => apply Z.ltb_lt in H
  | H : (_ <? _)%Z = false |- _ => apply Z.ltb_ge in H
  | H : (_ =? _)%Z = true |- _ => apply Z.eqb_eq in H
  | H : (_ =? _)%Z = false |- _ => apply Z.eqb_neq in H
  end.

(** Case analysis of the first [match] or [if] of the goal. *)
Ltac case_goal :=
  match goal with
  | |- context [ match ?x with _ => _ end ] => destruct x eqn:?
  end.

Create HintDb qp.

(** ** The result monad *)

Lemma bind_Ok {A B} (r : result A) (f : A -> result B) b :
  r ≫= f = Ok b <-> exists a, r = Ok a /\ f a = Ok b.
Proof. destruct r; simpl; split; [eauto | by intros (? & [= <-] & ?) | done | by intros (? & ? & _)]. Qed.

Lemma bind_Err {A B} (r : result A) (f : A -> result B) e :
  r ≫= f = Err e <-> r = Err e \/ exists a, r = Ok a /\ f a = Err e.
Proof.
  destruct r; simpl; split.
  - eauto.
  - by intros [?|(? & [= <-] & ?)].
  - intros [= ->]. by left.
  - by intros [[= ->]|(? & ? & _)].
Qed.

Lemma on_error_Ok {A} kinds c msg (r : result A) a : on_error kinds c msg r = Ok a <-> r = Ok a.
Proof. destruct r as [?|e]; simpl; [done|]. by case_bool_decide. Qed.

Lemma ensure_Ok b c msg u : ensure b c msg = Ok u <-> b = true.
Proof. destruct b, u; simpl; split; done. Qed.

Lemma ensure_true b c msg : b = true -> ensure b c msg = Ok tt.
Proof. by intros ->. Qed.

Lemma ensure_Err b c msg e : ensure b c msg = Err e -> e = Exn c msg.
Proof. destruct b; simpl; [done|]. by intros [= <-]. Qed.

Lemma filterR_total {A} (f : A -> result bool) l k : filterR f l = Ok k -> forall x, x ∈ l -> exists b, f x = Ok b.
Proof.
  revert k. induction l as [|y l IH]; intros k H x Hx; [by apply elem_of_nil in Hx|].
  simpl in H. apply bind_Ok in H as (b & Hb & H). apply bind_Ok in H as (r & Hr & _).
  apply elem_of_cons in Hx as [->|Hx]; [by exists b|by eapply IH].
Qed.

Lemma filterR_elem {A} (f : A -> result bool) l k : filterR f l = Ok k -> forall x, x ∈ k <-> x ∈ l /\ f x = Ok true.
Proof.
  revert k. induction l as [|y l IH]; intros k; simpl.
  { intros [= <-] x. rewrite elem_of_nil. naive_solver. }
  intros H x. apply bind_Ok in H as (b & Hb & H). apply bind_Ok in H as (r & Hr & [= <-]).
  destruct b; rewrite !elem_of_cons, (IH r Hr); [naive_solver|].
  split; [naive_solver|]. intros [[->|?] ?]; [congruence|done].
Qed.

Lemma mapR_Ok {A B} (f : A -> result B) l ys :
  mapR f l = Ok ys <-> Forall2 (fun x y => f x = Ok y) l ys.
Proof.
  revert ys. induction l as [|x l IH]; intros ys; simpl.
  { split; [intros [= <-]; constructor | by inversion 1]. }
  split.
  - rewrite bind_Ok. intros (y & Hy & H). apply bind_Ok in H as (ys' & Hys & [= <-]).
    constructor; [done|]. by apply IH.
  - inversion_clear 1 as [|? y ? ys' Hy Hys]. rewrite Hy. simpl.
    apply IH in Hys. by rewrite Hys.
Qed.

Lemma mapR_total {A B} (f : A -> result B) l :
  (forall x, x ∈ l -> exists y, f x = Ok y) -> exists ys, mapR f l = Ok ys.
Proof.
  induction l as [|x l IH]; intros H; simpl; [by eexists|].
  destruct (H x) as (y & ->); [by left|]. destruct IH as (ys & ->); [|simpl; by eexists].
  intros z Hz. apply H. by right.
Qed.

Lemma mapR_elem {A B} (f : A -> result B) l ys y :
  mapR f l = Ok ys -> y ∈ ys -> exists x, x ∈ l /\ f x = Ok y.
Proof.
  intros H Hy. apply mapR_Ok in H. apply list_elem_of_lookup in Hy as (i & Hi).
  destruct (Forall2_lookup_r _ _ _ _ _ H Hi) as (x & Hx & Hf). exists x.
  split; [by eapply list_elem_of_lookup_2|done].
Qed.

Lemma foldR_app {St A} (f : St -> A -> result St) s l k :
  foldR f s (l ++ k) = (s' ← foldR f s l; foldR f s' k).
Proof.
  revert s. induction l as [|x l IH]; intros s; simpl; [done|].
  destruct (f s x); simpl; [apply IH | done].
Qed.

(** An invariant of the fold's body holds of its result. *)
Lemma foldR_inv {St A} (P : St -> Prop) (f : St -> A -> result St) s l s' :
  (forall s x s', x ∈ l -> P s -> f s x = Ok s' -> P s') -> P s -> foldR f s l = Ok s' -> P s'.
Proof.
  revert s. induction l as [|x l IH]; intros s Hf Hs; simpl; [by intros [= <-]|].
  intros H. apply bind_Ok in H as (s1 & H1 & H). eapply IH; [|eapply Hf|exact H]; eauto.
  - intros. eapply Hf; eauto. by right.
  - by left.
Qed.

(** A loop whose measure is positive while its condition holds and decreases
    with every step ends within that measure, with an invariant kept and its
    condition false, or with an exception of its body. *)
Lemma while_terminates {St} (m : St -> nat) (P : St -> Prop) fuel cond body (s : St) :
  (forall s, P s -> cond s = true -> 0 < m s /\
    match body s with Ok s' => P s' /\ m s' < m s | Err e => exn_kind e <> Diverges end) ->
  P s -> m s <= fuel ->
  match while fuel cond body s with
  | Ok s' => P s' /\ cond s' = false
  | Err e => exn_kind e <> Diverges
  end.
Proof.
  intros Hb. revert s. induction fuel as [|fuel IH]; intros s HP Hm; simpl;
    destruct (cond s) eqn:E; try done; destruct (Hb s HP E) as [H0 Hs]; [lia|].
  destruct (body s) as [s'|e]; simpl; [|done]. destruct Hs. apply IH; [done|lia].
Qed.

Lemma fold_left_inv {St A} (P : St -> Prop) (f : St -> A -> St) l s :
  (forall s x, x ∈ l -> P s -> P (f s x)) -> P s -> P (fold_left f l s).
Proof.
  revert s. induction l as [|x l IH]; intros s Hf Hs; simpl; [done|].
  apply IH; [intros s' y Hy; apply Hf; by right|]. apply Hf; [by left|done].
Qed.

(** A loop whose body succeeds under an invariant ends, with the invariant kept. *)
Lemma while_ok {St} (m : St -> nat) (P : St -> Prop) fuel cond body (s : St) :
  (forall s, P s -> cond s = true -> exists s', body s = Ok s' /\ P s' /\ m s' < m s) ->
  P s -> m s <= fuel ->
  exists s', while fuel cond body s = Ok s' /\ P s' /\ cond s' = false.
Proof.
  intros Hb. revert s. induction fuel as [|fuel IH]; intros s HP Hm; simpl;
    destruct (cond s) eqn:E; eauto; destruct (Hb s HP E) as (s' & Hs & HP' & Hlt); [lia|].
  rewrite Hs. apply IH; [done|lia].
Qed.

(** What the body of a loop preserves holds of its result. *)
Lemma while_inv {St} (P : St -> Prop) fuel cond body (s s' : St) :
  (forall s s', P s -> cond s = true -> body s = Ok s' -> P s') -> P s ->
  while fuel cond body s = Ok s' -> P s'.
Proof.
  intros Hb. revert s. induction fuel as [|fuel IH]; intros s HP; simpl; destruct (cond s) eqn:E;
    try done; [by intros [= <-]| |by intros [= <-]].
  intros H. apply bind_Ok in H as (s1 & H1 & H). eauto.
Qed.

(** The computation raises exceptions of the class [c] only. *)
Definition raises_only {A} (c : exn_class) (r : result A) : Prop :=
  match r with Ok _ => True | Err e => exn_kind e = c end.

Lemma raises_only_Ok {A} c (a : A) : raises_only c (Ok a).
Proof. done. Qed.

Lemma raises_only_raise {A} c msg : raises_only c (raise c msg : result A).
Proof. done. Qed.

Lemma raises_only_ensure c b msg : raises_only c (ensure b c msg).
Proof. by destruct b. Qed.

Lemma raises_only_of_option {A} c msg (o : option A) : raises_only c (of_option c msg o).
Proof. by destruct o. Qed.

Lemma raises_only_bind {A B} c (r : result A) (f : A -> result B) :
  raises_only c r -> (forall a, r = Ok a -> raises_only c (f a)) -> raises_only c (r ≫= f).
Proof. destruct r; simpl; auto. Qed.

Lemma raises_only_mapR {A B} c (f : A -> result B) l :
  (forall x, x ∈ l -> raises_only c (f x)) -> raises_only c (mapR f l).
Proof.
  induction l as [|x l IH]; intros H; simpl; [done|].
  apply raises_only_bind; [apply H; by left|]. intros y _.
  apply raises_only_bind; [|done]. apply IH. intros z Hz. apply H. by right.
Qed.

(** A loop whose measure decreases raises what its body raises. *)
Lemma raises_only_while {St} c (m : St -> nat) fuel cond body (s : St) :
  (forall s, cond s = true -> 0 < m s /\ raises_only c (body s) /\
     forall s', body s = Ok s' -> m s' < m s) ->
  m s <= fuel -> raises_only c (while fuel cond body s).
Proof.
  intros Hb. revert s. induction fuel as [|fuel IH]; intros s Hm; simpl; destruct (cond s) eqn:E;
    try done; destruct (Hb s E) as (H0 & Hr & Hd); [lia|].
  apply raises_only_bind; [done|]. intros s' Hs'. apply IH. specialize (Hd s' Hs'). lia.
Qed.

#[export] Hint Resolve raises_only_Ok raises_only_raise raises_only_ensure raises_only_of_option : qp.

(** Split a successful chain of binds, keeping the equation of each computation. *)
Ltac binds H :=
  repeat match type of H with
  | _ ≫= _ = Ok _ =>
      let a := fresh "a" in let E := fresh "E" in apply bind_Ok in H as (a & E & H)
  end.

(** Use the guards a successful computation has passed. *)
Ltac ensures :=
  repeat match goal with
  | H : ensure _ _ _ = Ok _ |- _ => apply ensure_Ok in H
  end; bools.

(** ** Python's [sorted], [min] and [max]

    [sorted] is stable; an insertion sort in which an element is placed before
    the later elements it ties with computes the same list. *)
Section Sorting.
Context {A : Type} (leb : A -> A -> bool).

Fixpoint insert_sorted (x : A) (l : list A) : list A :=
  match l with
  | [] => [x]
  | y :: l' => if leb x y then x :: l else y :: insert_sorted x l'
  end.

Fixpoint py_sorted (l : list A) : list A :=
  match l with [] => [] | x :: l => insert_sorted x (py_sorted l) end.

Lemma insert_sorted_perm x l : insert_sorted x l ≡ₚ x :: l.
Proof.
  induction l as [|y l IH]; simpl; [done|]. destruct (leb x y); [done|].
  rewrite IH. by rewrite Permutation_swap.
Qed.

Lemma py_sorted_perm l : py_sorted l ≡ₚ l.
Proof. induction l as [|x l IH]; simpl; [done|]. by rewrite insert_sorted_perm, IH. Qed.

Lemma elem_of_py_sorted x l : x ∈ py_sorted l <-> x ∈ l.
Proof. by rewrite py_sorted_perm. Qed.

Context (leb_total : forall x y, leb x y = false -> leb y x = true)
        (leb_trans : forall x y z, leb x y = true -> leb y z = true -> leb x z = true).

Lemma insert_sorted_Sorted x l :
  StronglySorted (fun a b => leb a b = true) l ->
  StronglySorted (fun a b => leb a b = true) (insert_sorted x l).
Proof.
  induction 1 as [|y l Hs IH Hall]; simpl; [by repeat constructor|].
  destruct (leb x y) eqn:E.
  - constructor; [by constructor|]. constructor; [done|].
    eapply Forall_impl; [exact Hall|]. simpl. eauto.
  - constructor; [done|]. rewrite insert_sorted_perm. constructor; eauto.
Qed.

Lemma py_sorted_Sorted l : StronglySorted (fun a b => leb a b = true) (py_sorted l).
Proof. induction l; simpl; [constructor|]. by apply insert_sorted_Sorted. Qed.
End Sorting.

(** [max(xs, key=...)] returns the first element no other one exceeds. *)
Fixpoint py_max_from {A} (ltb : A -> A -> bool) (best : A) (l : list A) : A :=
  match l with
  | [] => best
  | x :: l => py_max_from ltb (if ltb best x then x else best) l
  end.

Definition py_max {A} (ltb : A -> A -> bool) (l : list A) : option A :=
  match l with [] => None | x :: l => Some (py_max_from ltb x l) end.

Lemma py_max_from_elem {A} (ltb : A -> A -> bool) best l :
  py_max_from ltb best l = best \/ py_max_from ltb best l ∈ l.
Proof.
  revert best. induction l as [|x l IH]; intros best; simpl; [by left|].
  destruct (IH (if ltb best x then x else best)) as [->|H].
  - destruct (ltb best x); [right; by left | by left].
  - right. by right.
Qed.

Lemma py_max_elem {A} (ltb : A -> A -> bool) l m : py_max ltb l = Some m -> m ∈ l.
Proof.
  destruct l as [|x l]; simpl; [done|]. intros [= <-].
  destruct (py_max_from_elem ltb x l) as [->|H]; [by left | by right].
Qed.

Lemma py_max_None {A} (ltb : A -> A -> bool) l : py_max ltb l = None <-> l = [].
Proof. destruct l; simpl; split; done. Qed.

Section MaxSpec.
Context {A : Type} (ltb : A -> A -> bool)
  (ltb_irrefl : forall x, ltb x x = false)
  (ltb_negtrans : forall x y z, ltb x y = false -> ltb y z = false -> ltb x z = false)
  (ltb_asym : forall x y, ltb x y = true -> ltb y x = false).

Lemma py_max_from_ub best l y :
  y = best \/ y ∈ l -> ltb (py_max_from ltb best l) y = false.
Proof.
  revert best y. induction l as [|x l IH]; intros best y Hy; simpl.
  { destruct Hy as [->|Hy]; [apply ltb_irrefl | by apply elem_of_nil in Hy]. }
  set (b := if ltb best x then x else best).
  assert (Hb : ltb b best = false /\ ltb b x = false).
  { unfold b. destruct (ltb best x) eqn:E; split; eauto. }
  destruct Hy as [->|Hy]; [eapply ltb_negtrans; [|exact (proj1 Hb)]; apply IH; by left|].
  apply elem_of_cons in Hy as [->|Hy].
  - eapply ltb_negtrans; [|exact (proj2 Hb)]. apply IH. by left.
  - apply IH. by right.
Qed.

Lemma py_max_ub l m y : py_max ltb l = Some m -> y ∈ l -> ltb m y = false.
Proof.
  destruct l as [|x l]; simpl; [done|]. intros [= <-] Hy.
  apply py_max_from_ub. by apply elem_of_cons in Hy as [->|Hy]; [left|right].
Qed.
End MaxSpec.

(** Keys that are tuples are compared lexicographically: [<] on them is built from
    three-way comparisons of the components and an order on the last one. *)
Class Comparison {K : Type} (cmp : K -> K -> comparison) : Prop := {
  cmp_eq : forall x y, cmp x y = Eq <-> x = y;
  cmp_antisym : forall x y, cmp y x = CompOpp (cmp x y);
  cmp_trans : forall x y z, cmp x y = Lt -> cmp y z = Lt -> cmp x z = Lt;
}.

Class StrictWeak {A : Type} (ltb : A -> A -> bool) : Prop := {
  sw_irrefl : forall x, ltb x x = false;
  sw_asym : forall x y, ltb x y = true -> ltb y x = false;
  sw_negtrans : forall x y z, ltb x y = false -> ltb y z = false -> ltb x z = false;
}.

#[export] Instance Z_comparison : Comparison Z.compare.
Proof.
  split.
  - apply Z.compare_eq_iff.
  - intros x y. by rewrite Z.compare_antisym.
  - intros x y z. rewrite !Z.compare_lt_iff. lia.
Qed.

#[export] Instance Z_strict_weak : StrictWeak Z.ltb.
Proof. split; intros *; rewrite ?Z.ltb_lt, ?Z.ltb_ge; lia. Qed.

Definition lex {A K} (f : A -> K) (cmp : K -> K -> comparison) (ltb : A -> A -> bool) (a b : A) : bool :=
  match cmp (f a) (f b) with Lt => true | Gt => false | Eq => ltb a b end.

#[export] Instance lex_strict_weak {A K} (f : A -> K) cmp ltb :
  Comparison cmp -> StrictWeak ltb -> StrictWeak (lex f cmp ltb).
Proof.
  intros Hc Hl. unfold lex. split.
  - intros x. rewrite (proj2 (cmp_eq (f x) (f x))) by done. apply sw_irrefl.
  - intros x y. rewrite (cmp_antisym (f x) (f y)). destruct (cmp (f x) (f y)); simpl; try done. apply sw_asym.
  - intros x y z. destruct (cmp (f x) (f y)) eqn:E1; try done; destruct (cmp (f y) (f z)) eqn:E2; try done.
    + apply cmp_eq in E1, E2. rewrite E1, E2, (proj2 (cmp_eq (f z) (f z))) by done. apply sw_negtrans.
    + apply cmp_eq in E1. by rewrite E1, E2.
    + apply cmp_eq in E2. by rewrite <- E2, E1.
    + intros _ _. assert (cmp (f z) (f x) = Lt) as E3.
      { apply (cmp_trans _ (f y)); [rewrite (cmp_antisym (f y)), E2|rewrite (cmp_antisym (f x)), E1]; done. }
      by rewrite (cmp_antisym (f z)), E3.
Qed.

#[export] Instance on_strict_weak {A B} (f : A -> B) ltb :
  StrictWeak ltb -> StrictWeak (fun a b => ltb (f a) (f b)).
Proof.
  intros Hl. split; intros *; [apply sw_irrefl|apply sw_asym|apply sw_negtrans].
Qed.

(** The maximum by a lexicographic key. *)
Lemma py_max_spec {A} (ltb : A -> A -> bool) `{!StrictWeak ltb} l m :
  py_max ltb l = Some m -> m ∈ l /\ Forall (fun y => ltb m y = false) l.
Proof.
  intros H. split; [by eapply py_max_elem|]. apply Forall_forall. intros y Hy.
  eapply py_max_ub; eauto using sw_irrefl, sw_negtrans, sw_asym.
Qed.

(** ** Strings: Python compares [str] by code point, [String.leb] does. *)

Lemma string_app_nil_r (s : string) : s +:+ "" = s.
Proof. induction s as [|c s IH]; [done|]. change (String c s +:+ "") with (String c (s +:+ "")). by rewrite IH. Qed.

Lemma string_app_assoc (s t u : string) : s +:+ (t +:+ u) = (s +:+ t) +:+ u.
Proof.
  induction s as [|c s IH]; [done|].
  change (String c (s +:+ (t +:+ u)) = String c ((s +:+ t) +:+ u)). by rewrite IH.
Qed.

Lemma length_string_app s t : String.length (s +:+ t) = (String.length s + String.length t)%nat.
Proof. induction s as [|c s IH]; [done|]. change (String c s +:+ t) with (String c (s +:+ t)). simpl. by rewrite IH. Qed.


Lemma string_leb_total (s t : string) : String.leb s t = false -> String.leb t s = true.
Proof. destruct (String.leb_total s t); congruence. Qed.

Lemma string_le_leb (s t : string) : String.le s t <-> String.leb s t = true.
Proof. unfold String.le. by rewrite Is_true_true. Qed.

Lemma string_leb_trans (s t u : string) :
  String.leb s t = true -> String.leb t u = true -> String.leb s u = true.
Proof. rewrite <- !string_le_leb. intros; by etrans. Qed.

Lemma string_leb_refl (s : string) : String.leb s s = true.
Proof. by apply string_le_leb. Qed.

Lemma string_ltb_negb (s t : string) : String.ltb s t = negb (String.leb t s).
Proof.
  unfold String.ltb, String.leb. rewrite (String.compare_antisym s t).
  by destruct (String.compare t s).
Qed.

Lemma string_leb_antisym (s t : string) :
  String.leb s t = true -> String.leb t s = true -> s = t.
Proof.
  unfold String.leb. rewrite (String.compare_antisym t s).
  destruct (String.compare s t) eqn:E; try done. intros _ _. by apply String.compare_eq_iff.
Qed.

Lemma string_ltb_leb_trans (s t u : string) :
  String.ltb s t = true -> String.leb t u = true -> String.ltb s u = true.
Proof.
  rewrite !string_ltb_negb, !negb_true_iff. intros Hst Htu.
  destruct (String.leb u s) eqn:E; [|done]. by rewrite (string_leb_trans t u s) in Hst.
Qed.

Lemma string_leb_ltb_trans (s t u : string) :
  String.leb s t = true -> String.ltb t u = true -> String.ltb s u = true.
Proof.
  rewrite !string_ltb_negb, !negb_true_iff. intros Hst Htu.
  destruct (String.leb u s) eqn:E; [|done]. by rewrite (string_leb_trans u s t) in Htu.
Qed.

Lemma string_ltb_leb (s t : string) : String.ltb s t = true -> String.leb s t = true.
Proof. rewrite string_ltb_negb, negb_true_iff. apply string_leb_total. Qed.

#[export] Instance string_comparison : Comparison String.compare.
Proof.
  split.
  - intros x y. split; [apply String.compare_eq_iff|]. intros ->.
    pose proof (String.compare_antisym y y) as H. by destruct (String.compare y y).
  - intros x y. apply String.compare_antisym.
  - intros x y z Hx Hy.
    assert (Hxy : String.ltb x y = true) by (unfold String.ltb; by rewrite Hx).
    assert (Hyz : String.ltb y z = true) by (unfold String.ltb; by rewrite Hy).
    pose proof (string_ltb_leb_trans _ _ _ Hxy (string_ltb_leb _ _ Hyz)) as H.
    unfold String.ltb in H. by destruct (String.compare x z).
Qed.

#[export] Hint Resolve string_leb_total string_leb_trans string_leb_refl : qp.

Definition sorted_strings : list string -> list string := py_sorted String.leb.

(** Two sorted arrangements of the same strings are equal. *)
Lemma sorted_strings_perm l l' : l ≡ₚ l' -> sorted_strings l = sorted_strings l'.
Proof.
  intros Hl. assert (AntiSymm (=) (fun a b => String.leb a b = true)).
  { intros a b. apply string_leb_antisym. }
  apply (sorting.StronglySorted_unique (fun a b => String.leb a b = true)).
  - apply py_sorted_Sorted; eauto with qp.
  - apply py_sorted_Sorted; eauto with qp.
  - unfold sorted_strings. by rewrite !py_sorted_perm.
Qed.

Lemma sorted_strings_ordered l : StronglySorted (fun a b => String.leb a b = true) (sorted_strings l).
Proof. apply py_sorted_Sorted; eauto with qp. Qed.

Lemma elem_of_sorted_strings x l : x ∈ sorted_strings l <-> x ∈ l.
Proof. apply elem_of_py_sorted. Qed.

(** The values of a constant list. *)
Lemma remove_dups_const {A} `{EqDecision A} (v : A) l :
  l <> [] -> Forall (fun x => x = v) l -> remove_dups l = [v].
Proof.
  induction l as [|x l IH]; [done|]. intros _ H. inversion_clear H as [|? ? -> Hl]. simpl.
  destruct l as [|y l]; [done|]. inversion Hl as [|? ? -> Hl']; subst.
  case_decide as Hc; [by apply IH|]. exfalso. apply Hc. by left.
Qed.

Lemma filter_all {A} (P : A -> Prop) `{forall x, Decision (P x)} (l : list A) :
  Forall P l -> filter P l = l.
Proof. induction 1 as [|x l Hx _ IH]; [done|]. by rewrite filter_cons_True, IH. Qed.

(** A pointwise relation follows a rearrangement of its right-hand side. *)
Lemma Forall2_perm_r {A B} (R : A -> B -> Prop) l k k' : Forall2 R l k -> k ≡ₚ k' ->
  exists l', l' ≡ₚ l /\ Forall2 R l' k'.
Proof.
  intros H Hk. revert l H. induction Hk as [|y k k' Hk IH|y z k|k1 k2 k3 _ IH1 _ IH2]; intros l H.
  - inversion H; subst. by exists [].
  - apply Forall2_cons_inv_r in H as (x & l' & Hx & Hl & ->). destruct (IH l' Hl) as (l2 & E & H2).
    exists (x :: l2). split; [by rewrite E|by constructor].
  - apply Forall2_cons_inv_r in H as (x & l' & Hx & Hl & ->).
    apply Forall2_cons_inv_r in Hl as (x' & l2 & Hx' & Hl & ->).
    exists (x' :: x :: l2). split; [apply Permutation_swap|]. by repeat constructor.
  - destruct (IH1 l H) as (l1 & E1 & H1). destruct (IH2 l1 H1) as (l2 & E2 & H2).
    exists l2. split; [by rewrite E2|done].
Qed.

(** [s[:n]] *)
Fixpoint str_take (n : nat) (s : string) : string :=
  match n, s with
  | S n, String c s => String c (str_take n s)
  | _, _ => EmptyString
  end.

(** [s[n:]] *)
Fixpoint str_drop (n : nat) (s : string) : string :=
  match n, s with S n, String _ s => str_drop n s | _, _ => s end.

Fixpoint starts_with (p s : string) : bool :=
  match p, s with
  | EmptyString, _ => true
  | String a p, String b s => bool_decide (a = b) && starts_with p s
  | _, _ => false
  end.

(** [p in s] for strings. *)
Fixpoint str_contains (p s : string) : bool :=
  starts_with p s || match s with EmptyString => false | String _ s => str_contains p s end.

(** The ASCII characters [str.strip] removes: tab, newline, vertical tab,
    form feed, carriage return, the separators 28 to 31 and the space; 133 and
    160 are the two further ones below 256. *)
Definition is_space (c : ascii) : bool :=
  let n := N_of_ascii c in
  ((9 <=? n) && (n <=? 13) || (28 <=? n) && (n <=? 32) || (n =? 133) || (n =? 160))%N.

Fixpoint lstrip (s : string) : string :=
  match s with
  | EmptyString => EmptyString
  | String c s' => if is_space c then lstrip s' else s
  end.

Fixpoint rstrip (s : string) : string :=
  match s with
  | EmptyString => EmptyString
  | String c s' =>
      match rstrip s' with
      | EmptyString => if is_space c then EmptyString else String c EmptyString
      | s'' => String c s''
      end
  end.

Definition strip (s : string) : string := rstrip (lstrip s).

Lemma str_take_all n s : String.length s = n -> str_take n s = s.
Proof.
  revert n. induction s as [|c s IH]; intros [|n] H; try done.
  simpl in *. injection H as H. by rewrite IH.
Qed.

Definition blank (s : string) : bool := bool_decide (strip s = EmptyString).

Fixpoint no_space (s : string) : bool :=
  match s with EmptyString => true | String c s => negb (is_space c) && no_space s end.

Lemma no_space_app s t : no_space (s +:+ t) = no_space s && no_space t.
Proof.
  induction s as [|c s IH]; [done|]. change (String c s +:+ t) with (String c (s +:+ t)).
  simpl. by rewrite IH, andb_assoc.
Qed.

Lemma strip_no_space s : no_space s = true -> strip s = s.
Proof.
  intros H. assert (Hr : rstrip s = s).
  { induction s as [|c s IH]; [done|]. simpl in *. bools. rewrite IH by done.
    destruct s; [|done]. by destruct (is_space c). }
  unfold strip. destruct s as [|c s]; [done|]. simpl in H. bools.
  simpl lstrip. by destruct (is_space c).
Qed.

Lemma lstrip_idem s : lstrip (lstrip s) = lstrip s.
Proof.
  induction s as [|c s IH]; [done|]. simpl.
  destruct (is_space c) eqn:E; [done|]. simpl. by rewrite E.
Qed.

Lemma rstrip_idem s : rstrip (rstrip s) = rstrip s.
Proof.
  induction s as [|c s IH]; [done|]. simpl. destruct (rstrip s) as [|c' s'] eqn:Es.
  - destruct (is_space c) eqn:E; simpl; [done|]. by rewrite E.
  - change (rstrip (String c (String c' s'))) with
      (match rstrip (String c' s') with EmptyString => if is_space c then EmptyString
        else String c EmptyString | s'' => String c s'' end). by rewrite IH.
Qed.

Lemma lstrip_rstrip s : lstrip s = s -> lstrip (rstrip s) = rstrip s.
Proof.
  destruct s as [|c s]; [done|]. simpl. intros H. destruct (is_space c) eqn:E.
  - exfalso. assert (Hl : forall t, String.length (lstrip t) <= String.length t).
    { intros t. induction t as [|c' t IH]; simpl; [lia|]. destruct (is_space c'); simpl; lia. }
    specialize (Hl s). rewrite H in Hl. simpl in Hl. lia.
  - destruct (rstrip s); simpl; by rewrite E.
Qed.

Lemma strip_idem s : strip (strip s) = strip s.
Proof.
  unfold strip. rewrite (lstrip_rstrip (lstrip s)) by apply lstrip_idem. apply rstrip_idem.
Qed.

(** [s.lower()] of characters below 256. *)
Definition lower_char (c : ascii) : ascii :=
  let n := N_of_ascii c in
  if (((65 <=? n) && (n <=? 90)) || ((192 <=? n) && (n <=? 222) && negb (n =? 215)))%N
  then ascii_of_N (n + 32) else c.

Fixpoint lower (s : string) : string :=
  match s with EmptyString => EmptyString | String c s => String (lower_char c) (lower s) end.
