(* ===== verification/PyDate.v ===== *)
(** * PyDate: the part of Python's [datetime.date] and of decimal numerals that
    the modelled modules use.

    A date is its proleptic Gregorian ordinal, the number [date.toordinal]
    returns; comparison and subtraction of dates are those of the ordinals.
    [ord2ymd] recovers year, month and day.  The file proves that ordinals and
    calendar triples are in bijection, that ISO text determines the date and is
    parsed back by [fromisoformat], and that ISO text is ordered as dates are. *)

From S2P Require Import Prelude.

Local Open Scope Z_scope.

(** ** Decimal numerals *)

Definition digit (n : Z) : ascii := ascii_of_N (Z.to_N (48 + n)).

Definition digit_val (c : ascii) : option Z :=
  let n := Z.of_N (N_of_ascii c) in
  if (48 <=? n) && (n <=? 57) then Some (n - 48) else None.

(** Decimal digits of [n >= 0], most significant first, in front of [acc]. *)
Fixpoint digits_onto (fuel : nat) (n : Z) (acc : string) : string :=
  match fuel with
  | O => acc
  | S fuel =>
      let acc := String (digit (n mod 10)) acc in
      if n <? 10 then acc else digits_onto fuel (n / 10) acc
  end.

Definition show_nonneg (n : Z) : string :=
  digits_onto (S (Z.to_nat (Z.log2 n))) n EmptyString.

(** [str(n)] *)
Definition show_Z (n : Z) : string :=
  if n <? 0 then String "-"%char (show_nonneg (- n)) else show_nonneg n.

Definition pad2 (n : Z) : string :=
  String (digit (n / 10)) (String (digit (n mod 10)) EmptyString).

Definition pad4 (n : Z) : string :=
  String (digit (n / 1000)) (String (digit (n / 100 mod 10))
    (String (digit (n / 10 mod 10)) (String (digit (n mod 10)) EmptyString))).

(** ** The proleptic Gregorian calendar *)

Definition MINYEAR : Z := 1.
Definition MAXYEAR : Z := 9999.
Definition MAXORDINAL : Z := 3652059.

Abbreviation date := Z (only parsing).

Definition is_leap (y : Z) : bool :=
  (y mod 4 =? 0) && (negb (y mod 100 =? 0) || (y mod 400 =? 0)).

Definition leap_day (y : Z) : Z := if is_leap y then 1 else 0.

(** [calendar.monthrange(y, m)[1]] *)
Definition days_in_month (y m : Z) : Z :=
  if m =? 2 then 28 + leap_day y
  else if (m =? 4) || (m =? 6) || (m =? 9) || (m =? 11) then 30 else 31.

Definition days_before_month (y m : Z) : Z :=
  let l := leap_day y in
  if m <=? 1 then 0 else if m =? 2 then 31 else if m =? 3 then 59 + l
  else if m =? 4 then 90 + l else if m =? 5 then 120 + l
  else if m =? 6 then 151 + l else if m =? 7 then 181 + l
  else if m =? 8 then 212 + l else if m =? 9 then 243 + l
  else if m =? 10 then 273 + l else if m =? 11 then 304 + l else 334 + l.

Definition days_before_year (y : Z) : Z :=
  let p := y - 1 in p * 365 + p / 4 - p / 100 + p / 400.

Definition ymd2ord (y m d : Z) : date :=
  days_before_year y + days_before_month y m + d.

Definition year_of (n : date) : Z :=
  let y := 400 * (n - 1) / 146097 + 1 in
  if n <=? days_before_year y then y - 1
  else if days_before_year (y + 1) <? n then y + 1 else y.

Definition month_of_yday (l d : Z) : Z :=
  if d <=? 31 then 1 else if d <=? 59 + l then 2 else if d <=? 90 + l then 3
  else if d <=? 120 + l then 4 else if d <=? 151 + l then 5
  else if d <=? 181 + l then 6 else if d <=? 212 + l then 7
  else if d <=? 243 + l then 8 else if d <=? 273 + l then 9
  else if d <=? 304 + l then 10 else if d <=? 334 + l then 11 else 12.

Definition month_of (n : date) : Z :=
  let y := year_of n in month_of_yday (leap_day y) (n - days_before_year y).

Definition day_of (n : date) : Z :=
  let y := year_of n in n - days_before_year y - days_before_month y (month_of n).

Definition valid_ymd (y m d : Z) : bool :=
  (MINYEAR <=? y) && (y <=? MAXYEAR) && (1 <=? m) && (m <=? 12)
  && (1 <=? d) && (d <=? days_in_month y m).

Definition valid_date (n : date) : bool := (1 <=? n) && (n <=? MAXORDINAL).

(** [date(y, m, d)] *)
Definition mk_date (y m d : Z) : result date :=
  if valid_ymd y m d then Ok (ymd2ord y m d) else raise ValueError "date out of range".

(** [date.fromordinal(n)] *)
Definition fromordinal (n : Z) : result date :=
  if valid_date n then Ok n else raise ValueError "ordinal out of range".

(** [d + timedelta(days=k)] *)
Definition date_add (d k : Z) : result date :=
  if valid_date (d + k) then Ok (d + k) else raise OverflowError "date value out of range".

(** [d.isoformat()] *)
Definition isoformat (n : date) : string :=
  pad4 (year_of n) +:+ "-" +:+ pad2 (month_of n) +:+ "-" +:+ pad2 (day_of n).

(** [d.strftime("%Y-%m")]; glibc does not pad [%Y]. *)
Definition strftime_ym (n : date) : string :=
  show_Z (year_of n) +:+ "-" +:+ pad2 (month_of n).

(** ** [date.fromisoformat] (Python 3.11 and later)

    The accepted forms are [YYYY-MM-DD], [YYYYMMDD], [YYYY-Www-D], [YYYYWwwD],
    [YYYY-Www] and [YYYYWww]. *)

Fixpoint take_digits (n : nat) (acc : Z) (s : string) : option (Z * string) :=
  match n with
  | O => Some (acc, s)
  | S n =>
      match s with
      | String c s => v ← digit_val c; take_digits n (10 * acc + v) s
      | EmptyString => None
      end
  end.

Definition take_char (c : ascii) (s : string) : option string :=
  match s with
  | String c' s => if bool_decide (c = c') then Some s else None
  | EmptyString => None
  end.

(** Monday of ISO week 1 of [y]; weekday 0 is Monday. *)
Definition iso_week1_monday (y : Z) : Z :=
  let jan4 := ymd2ord y 1 4 in jan4 - (jan4 + 6) mod 7.

Definition iso_weeks_in_year (y : Z) : Z :=
  (iso_week1_monday (y + 1) - iso_week1_monday y) / 7.

Definition iso_to_date (y w d : Z) : result date :=
  if (MINYEAR <=? y) && (y <=? MAXYEAR) && (1 <=? w) && (w <=? iso_weeks_in_year y)
     && (1 <=? d) && (d <=? 7)
  then fromordinal (iso_week1_monday y + (w - 1) * 7 + (d - 1))
  else raise ValueError "invalid ISO week date".

(** The parsed components, before the range check. *)
Inductive iso_parts := IsoYmd (y m d : Z) | IsoWeek (y w d : Z).

(** What follows the year; [dash] reads the separator between the later parts. *)
Definition parse_iso_rest (y : Z) (dash : string -> option string) (s : string)
    : option iso_parts :=
  match take_char "W" s with
  | Some s =>
      '(w, s) ← take_digits 2 0 s;
      match s with
      | EmptyString => Some (IsoWeek y w 1)
      | _ =>
          s ← dash s; '(d, s) ← take_digits 1 0 s;
          if bool_decide (s = EmptyString) then Some (IsoWeek y w d) else None
      end
  | None =>
      '(m, s) ← take_digits 2 0 s; s ← dash s; '(d, s) ← take_digits 2 0 s;
      if bool_decide (s = EmptyString) then Some (IsoYmd y m d) else None
  end.

Definition parse_iso (s : string) : option iso_parts :=
  '(y, s) ← take_digits 4 0 s;
  match take_char "-" s with
  | Some s => parse_iso_rest y (take_char "-") s
  | None => parse_iso_rest y Some s
  end.

Definition fromisoformat (s : string) : result date :=
  match parse_iso s with
  | Some (IsoYmd y m d) => mk_date y m d
  | Some (IsoWeek y w d) => iso_to_date y w d
  | None => raise ValueError "Invalid isoformat string"
  end.

Example iso_example : isoformat 733169 = "2008-05-07" /\
  fromisoformat "2008-05-07" = Ok 733169 /\ fromisoformat "20080507" = Ok 733169 /\
  fromisoformat "2008-W19-3" = Ok 733169 /\ is_Ok (fromisoformat "2008-5-7") = false.
Proof. by vm_compute. Qed.

(** ** Calendar lemmas *)

#[local] Ltac Zify.zify_post_hook ::= Z.div_mod_to_equations.

Lemma leap_day_bounds y : 0 <= leap_day y <= 1.
Proof. unfold leap_day. destruct (is_leap y); lia. Qed.

Lemma days_before_year_succ y : days_before_year (y + 1) = days_before_year y + 365 + leap_day y.
Proof.
  unfold days_before_year, leap_day, is_leap.
  destruct (y mod 4 =? 0) eqn:E4, (y mod 100 =? 0) eqn:E100, (y mod 400 =? 0) eqn:E400;
    simpl; lia.
Qed.

Lemma days_before_year_mono y y' : y <= y' -> days_before_year y <= days_before_year y'.
Proof. unfold days_before_year. lia. Qed.

Lemma year_of_spec n : days_before_year (year_of n) < n <= days_before_year (year_of n + 1).
Proof.
  unfold year_of. set (y := 400 * (n - 1) / 146097 + 1).
  assert (Hlo : days_before_year (y - 1) < n) by (unfold days_before_year, y; lia).
  assert (Hhi : n <= days_before_year (y + 1 + 1)) by (unfold days_before_year, y; lia).
  destruct (n <=? days_before_year y) eqn:E1; bools.
  { replace (y - 1 + 1) with y by lia. lia. }
  destruct (days_before_year (y + 1) <? n) eqn:E2; bools; lia.
Qed.

Lemma year_of_unique n y : days_before_year y < n <= days_before_year (y + 1) -> year_of n = y.
Proof.
  intros H. pose proof (year_of_spec n) as H'.
  destruct (Z.lt_trichotomy (year_of n) y) as [Hlt|[Heq|Hgt]]; [|done|].
  - pose proof (days_before_year_mono (year_of n + 1) y). lia.
  - pose proof (days_before_year_mono (y + 1) (year_of n)). lia.
Qed.

Lemma year_of_mono n m : n <= m -> year_of n <= year_of m.
Proof.
  intros H. destruct (decide (year_of n <= year_of m)) as [|Hn]; [done|].
  pose proof (year_of_spec n). pose proof (year_of_spec m).
  pose proof (days_before_year_mono (year_of m + 1) (year_of n)). lia.
Qed.

(** Case analysis of the month tables. *)
Ltac month_cases :=
  repeat match goal with
  | |- context [ if ?b then _ else _ ] => destruct b eqn:?
  | H : context [ if ?b then _ else _ ] |- _ => destruct b eqn:?
  end; bools.

Lemma month_of_yday_spec l d y : l = leap_day y -> 1 <= d <= 365 + l ->
  1 <= month_of_yday l d <= 12 /\
  1 <= d - days_before_month y (month_of_yday l d) <= days_in_month y (month_of_yday l d).
Proof.
  intros -> Hd. pose proof (leap_day_bounds y).
  unfold month_of_yday. month_cases; unfold days_before_month, days_in_month; simpl; lia.
Qed.

Lemma month_of_yday_unique y m d :
  1 <= m <= 12 -> 1 <= d <= days_in_month y m ->
  month_of_yday (leap_day y) (days_before_month y m + d) = m.
Proof.
  intros Hm Hd. pose proof (leap_day_bounds y).
  unfold days_in_month, days_before_month, month_of_yday in *. month_cases; lia.
Qed.

Lemma days_in_month_fits y m d : 1 <= m <= 12 -> 1 <= d <= days_in_month y m ->
  1 <= days_before_month y m + d <= 365 + leap_day y.
Proof.
  intros Hm Hd. pose proof (leap_day_bounds y).
  unfold days_in_month, days_before_month in *. month_cases; lia.
Qed.

Lemma year_of_ymd2ord y m d : 1 <= m <= 12 -> 1 <= d <= days_in_month y m ->
  year_of (ymd2ord y m d) = y.
Proof.
  intros Hm Hd. apply year_of_unique. rewrite days_before_year_succ.
  pose proof (days_in_month_fits y m d Hm Hd). unfold ymd2ord. lia.
Qed.

Lemma month_of_ymd2ord y m d : 1 <= m <= 12 -> 1 <= d <= days_in_month y m ->
  month_of (ymd2ord y m d) = m.
Proof.
  intros Hm Hd. unfold month_of. rewrite year_of_ymd2ord by done.
  replace (ymd2ord y m d - days_before_year y) with (days_before_month y m + d)
    by (unfold ymd2ord; lia).
  by apply month_of_yday_unique.
Qed.

Lemma day_of_ymd2ord y m d : 1 <= m <= 12 -> 1 <= d <= days_in_month y m ->
  day_of (ymd2ord y m d) = d.
Proof.
  intros Hm Hd. unfold day_of. rewrite year_of_ymd2ord, month_of_ymd2ord by done.
  unfold ymd2ord. lia.
Qed.

Lemma ymd_bounds n : 1 <= month_of n <= 12 /\ 1 <= day_of n <= days_in_month (year_of n) (month_of n).
Proof.
  pose proof (year_of_spec n) as H. rewrite days_before_year_succ in H.
  destruct (month_of_yday_spec (leap_day (year_of n)) (n - days_before_year (year_of n))
    (year_of n)) as [Hm Hd]; [done|lia|].
  unfold day_of, month_of. lia.
Qed.

Lemma ymd2ord_ord2ymd n : ymd2ord (year_of n) (month_of n) (day_of n) = n.
Proof. unfold ymd2ord, day_of, month_of. lia. Qed.

Lemma year_of_valid n : valid_date n = true <-> 1 <= year_of n <= 9999.
Proof.
  unfold valid_date. rewrite andb_true_iff, !Z.leb_le.
  pose proof (year_of_spec n) as H.
  assert (days_before_year 1 = 0) as H1 by reflexivity.
  assert (days_before_year 10000 = MAXORDINAL) as H2 by reflexivity.
  split.
  - intros Hn. split.
    + destruct (decide (1 <= year_of n)); [done|].
      pose proof (days_before_year_mono (year_of n + 1) 1). lia.
    + destruct (decide (year_of n <= 9999)); [done|].
      pose proof (days_before_year_mono 10000 (year_of n)). lia.
  - intros Hy. pose proof (days_before_year_mono 1 (year_of n)).
    pose proof (days_before_year_mono (year_of n + 1) 10000). lia.
Qed.

Lemma mk_date_ymd n : valid_date n = true -> mk_date (year_of n) (month_of n) (day_of n) = Ok n.
Proof.
  intros Hn. apply year_of_valid in Hn. pose proof (ymd_bounds n).
  unfold mk_date, valid_ymd. replace (_ && _) with true; [by rewrite ymd2ord_ord2ymd|].
  symmetry. rewrite !andb_true_iff, !Z.leb_le. unfold MINYEAR, MAXYEAR. lia.
Qed.

Lemma mk_date_Ok y m d n : mk_date y m d = Ok n ->
  n = ymd2ord y m d /\ year_of n = y /\ month_of n = m /\ day_of n = d /\ valid_date n = true.
Proof.
  unfold mk_date. destruct (valid_ymd y m d) eqn:E; [|done]. intros [= <-].
  unfold valid_ymd, MINYEAR, MAXYEAR in E. bools.
  rewrite year_of_ymd2ord, month_of_ymd2ord, day_of_ymd2ord by lia.
  repeat split. apply year_of_valid. rewrite year_of_ymd2ord by lia. lia.
Qed.

(** Calendar triples in order have ordinals in order. *)
Lemma ord_le_ymd n m : n <= m <->
  year_of n < year_of m \/ year_of n = year_of m /\
    (month_of n < month_of m \/ month_of n = month_of m /\ day_of n <= day_of m).
Proof.
  assert (Hlt : forall a b, year_of a < year_of b \/ year_of a = year_of b /\
    (month_of a < month_of b \/ month_of a = month_of b /\ day_of a < day_of b) -> a < b).
  { intros a b H. destruct H as [H|[Hy [H|[Hm H]]]].
    - pose proof (year_of_spec a). pose proof (year_of_spec b).
      pose proof (days_before_year_mono (year_of a + 1) (year_of b)). lia.
    - pose proof (ymd_bounds a) as [Ha Hda]. pose proof (ymd_bounds b) as [Hb Hdb].
      rewrite <- (ymd2ord_ord2ymd a), <- (ymd2ord_ord2ymd b), Hy. unfold ymd2ord.
      rewrite Hy in Hda. revert Hda Hdb H Ha Hb.
      generalize (month_of a), (month_of b), (day_of a), (day_of b), (year_of b).
      intros ma mb da db y Hda Hdb H Ha Hb.
      pose proof (leap_day_bounds y).
      enough (days_before_month y ma + days_in_month y ma <= days_before_month y mb) by lia.
      clear Hda Hdb. unfold days_before_month, days_in_month. month_cases; lia.
    - rewrite <- (ymd2ord_ord2ymd a), <- (ymd2ord_ord2ymd b), Hy, Hm. unfold ymd2ord. lia. }
  split.
  - intros H.
    destruct (Z.lt_trichotomy (year_of n) (year_of m)) as [|[Hy|]]; [by left| |].
    + right. split; [done|].
      destruct (Z.lt_trichotomy (month_of n) (month_of m)) as [|[Hm|]]; [by left| |].
      * right. split; [done|]. destruct (decide (day_of n <= day_of m)); [done|].
        specialize (Hlt m n). lia.
      * specialize (Hlt m n). lia.
    + specialize (Hlt m n). lia.
  - intros H. destruct (decide (n <= m)); [done|].
    destruct H as [H|[Hy [H|[Hm H]]]].
    + specialize (Hlt n m). lia.
    + specialize (Hlt n m). lia.
    + pose proof (ymd2ord_ord2ymd n). pose proof (ymd2ord_ord2ymd m).
      unfold ymd2ord in *. rewrite Hy, Hm in *. lia.
Qed.

(** ** ISO text *)

(** A boolean test that holds of the ten digits. *)
Lemma digit_forall (f : Z -> bool) n :
  forallb f (map Z.of_nat (seq 0 10)) = true -> 0 <= n <= 9 -> f n = true.
Proof.
  rewrite forallb_forall. intros H Hn. apply H, in_map_iff. exists (Z.to_nat n).
  split; [lia|]. apply in_seq. lia.
Qed.

Lemma digit_val_digit n : 0 <= n <= 9 -> digit_val (digit n) = Some n.
Proof.
  intros H. apply (digit_forall (fun n => bool_decide (digit_val (digit n) = Some n))) in H;
    [|done]. by apply bool_decide_eq_true in H.
Qed.

Lemma digit_compare i j : 0 <= i <= 9 -> 0 <= j <= 9 ->
  Ascii.compare (digit i) (digit j) = (i ?= j).
Proof.
  intros Hi Hj. unfold Ascii.compare, digit.
  rewrite !N_ascii_embedding by lia. rewrite Z2N.inj_compare by lia.
  destruct (Z.compare_spec i j), (Z.compare_spec (48 + i) (48 + j)); (done || lia).
Qed.

Lemma take_digits_pad2 n s : 0 <= n <= 99 -> take_digits 2 0 (pad2 n +:+ s) = Some (n, s).
Proof.
  intros H. unfold pad2. simpl. rewrite !digit_val_digit by lia. simpl. do 2 f_equal. lia.
Qed.

Lemma take_digits_pad4 n s : 0 <= n <= 9999 -> take_digits 4 0 (pad4 n +:+ s) = Some (n, s).
Proof.
  intros H. unfold pad4. simpl. rewrite !digit_val_digit by lia. simpl. do 2 f_equal. lia.
Qed.

Lemma pad2_compare a b s t : 0 <= a <= 99 -> 0 <= b <= 99 ->
  String.compare (pad2 a +:+ s) (pad2 b +:+ t) =
  match a ?= b with Eq => String.compare s t | c => c end.
Proof.
  intros Ha Hb. unfold pad2. simpl. rewrite !digit_compare by lia.
  repeat (match goal with |- context [?x ?= ?y] =>
    destruct (Z.compare_spec x y) as [?|?|?] end; try lia); done.
Qed.

Lemma pad4_compare a b s t : 0 <= a <= 9999 -> 0 <= b <= 9999 ->
  String.compare (pad4 a +:+ s) (pad4 b +:+ t) =
  match a ?= b with Eq => String.compare s t | c => c end.
Proof.
  intros Ha Hb. unfold pad4. simpl. rewrite !digit_compare by lia.
  repeat (match goal with |- context [?x ?= ?y] =>
    destruct (Z.compare_spec x y) as [?|?|?] end; try lia); done.
Qed.

Lemma pad2_neq_dash n s : 0 <= n <= 99 -> take_char "W" (pad2 n +:+ s) = None.
Proof.
  intros H. assert (0 <= n / 10 <= 9) as Hq by lia. unfold pad2. simpl.
  apply (digit_forall (fun q => negb (bool_decide ("W"%char = digit q)))) in Hq; [|done].
  apply negb_true_iff in Hq. by rewrite Hq.
Qed.

Lemma valid_parts n : valid_date n = true ->
  1 <= year_of n <= 9999 /\ 1 <= month_of n <= 12 /\ 1 <= day_of n <= 31.
Proof.
  intros Hn. apply year_of_valid in Hn. pose proof (ymd_bounds n) as [Hm Hd].
  split_and!; try lia. unfold days_in_month in Hd. pose proof (leap_day_bounds (year_of n)).
  month_cases; lia.
Qed.

Lemma take_dash s : take_char "-" ("-" +:+ s) = Some s.
Proof. done. Qed.

Lemma parse_iso_isoformat n : valid_date n = true ->
  parse_iso (isoformat n) = Some (IsoYmd (year_of n) (month_of n) (day_of n)).
Proof.
  intros Hn. apply valid_parts in Hn as (Hy & Hm & Hd).
  unfold parse_iso, isoformat. rewrite take_digits_pad4 by lia.
  cbn [mbind option_bind]. rewrite take_dash. unfold parse_iso_rest.
  rewrite pad2_neq_dash, take_digits_pad2 by lia.
  cbn [mbind option_bind]. rewrite take_dash. cbn [mbind option_bind].
  rewrite <- (string_app_nil_r (pad2 (day_of n))), take_digits_pad2 by lia. done.
Qed.

Lemma fromisoformat_isoformat n : valid_date n = true -> fromisoformat (isoformat n) = Ok n.
Proof.
  intros Hn. unfold fromisoformat. rewrite parse_iso_isoformat by done. by apply mk_date_ymd.
Qed.

Lemma isoformat_inj n m :
  valid_date n = true -> valid_date m = true -> isoformat n = isoformat m -> n = m.
Proof.
  intros Hn Hm E. apply (f_equal fromisoformat) in E.
  rewrite !fromisoformat_isoformat in E by done. by simplify_eq.
Qed.

Lemma isoformat_length n : String.length (isoformat n) = 10%nat.
Proof. unfold isoformat, pad4, pad2. rewrite !length_string_app. reflexivity. Qed.

Lemma isoformat_compare_app n m s t : valid_date n = true -> valid_date m = true ->
  String.compare (isoformat n +:+ s) (isoformat m +:+ t) =
  match n ?= m with Eq => String.compare s t | c => c end.
Proof.
  intros Hn Hm. pose proof (valid_parts n Hn) as (? & ? & ?).
  pose proof (valid_parts m Hm) as (? & ? & ?).
  unfold isoformat. rewrite <- !string_app_assoc, pad4_compare by lia.
  assert (Hd : forall s t, String.compare ("-" +:+ s) ("-" +:+ t) = String.compare s t) by done.
  rewrite !Hd, pad2_compare, Hd by lia.
  rewrite pad2_compare by lia. pose proof (ord_le_ymd n m). pose proof (ord_le_ymd m n).
  destruct (Z.compare_spec (year_of n) (year_of m)),
    (Z.compare_spec (month_of n) (month_of m)), (Z.compare_spec (day_of n) (day_of m)),
    (Z.compare_spec n m); simpl; try done; lia.
Qed.

Lemma isoformat_compare n m : valid_date n = true -> valid_date m = true ->
  String.compare (isoformat n) (isoformat m) = (n ?= m).
Proof.
  intros Hn Hm.
  rewrite <- (string_app_nil_r (isoformat n)), <- (string_app_nil_r (isoformat m)).
  rewrite isoformat_compare_app by done. by destruct (n ?= m).
Qed.

Lemma isoformat_leb n m : valid_date n = true -> valid_date m = true ->
  String.leb (isoformat n) (isoformat m) = (n <=? m).
Proof.
  intros Hn Hm. unfold String.leb, Z.leb. by rewrite isoformat_compare.
Qed.

Lemma isoformat_ltb n m : valid_date n = true -> valid_date m = true ->
  String.ltb (isoformat n) (isoformat m) = (n <? m).
Proof.
  intros Hn Hm. unfold String.ltb, Z.ltb. by rewrite isoformat_compare.
Qed.

Lemma fromordinal_Ok n d : fromordinal n = Ok d <-> d = n /\ valid_date n = true.
Proof.
  unfold fromordinal. destruct (valid_date n); split; [by intros [= ->] | by intros [-> _] | done | by intros [_ ?]].
Qed.

Lemma fromisoformat_valid s n : fromisoformat s = Ok n -> valid_date n = true.
Proof.
  unfold fromisoformat. destruct (parse_iso s) as [[y m d|y w d]|]; [| |done].
  - intros H. by apply mk_date_Ok in H as (_ & _ & _ & _ & ?).
  - unfold iso_to_date. destruct (_ && _); [|done]. intros H. by apply fromordinal_Ok in H as [-> ?].
Qed.

#[export] Hint Resolve fromisoformat_valid : qp.

Lemma digit_no_space n : 0 <= n <= 9 -> is_space (digit n) = false.
Proof.
  intros H. apply (digit_forall (fun n => negb (is_space (digit n)))) in H; [|done].
  by apply negb_true_iff in H.
Qed.

Lemma isoformat_no_space n : valid_date n = true -> no_space (isoformat n) = true.
Proof.
  intros Hn. pose proof (valid_parts n Hn) as (? & ? & ?).
  unfold isoformat. rewrite !no_space_app. unfold pad4, pad2. simpl.
  by rewrite !digit_no_space by lia.
Qed.

(** [is_day t n]: the text [t] is the ISO form of the date [n]. *)
Definition is_day (t : string) (n : date) : Prop := valid_date n = true /\ t = isoformat n.

Lemma is_day_fromisoformat t n : is_day t n -> fromisoformat t = Ok n.
Proof. intros [? ->]. by apply fromisoformat_isoformat. Qed.

Lemma is_day_inj t n m : is_day t n -> is_day t m -> n = m.
Proof. intros H1%is_day_fromisoformat H2%is_day_fromisoformat. congruence. Qed.

Lemma is_day_det s t n : is_day s n -> is_day t n -> s = t.
Proof. intros [_ ->] [_ ->]. done. Qed.

Lemma is_day_leb s t n m : is_day s n -> is_day t m -> String.leb s t = (n <=? m).
Proof. intros [? ->] [? ->]. by apply isoformat_leb. Qed.

Lemma is_day_ltb s t n m : is_day s n -> is_day t m -> String.ltb s t = (n <? m).
Proof. intros [? ->] [? ->]. by apply isoformat_ltb. Qed.

Lemma is_day_strip t n : is_day t n -> strip t = t.
Proof. intros [? ->]. by apply strip_no_space, isoformat_no_space. Qed.

#[export] Hint Resolve is_day_fromisoformat is_day_strip : qp.

(** Parsing and constructing dates raise [ValueError] only. *)
Lemma raises_mk_date y m d : raises_only ValueError (mk_date y m d).
Proof. unfold mk_date. by destruct (valid_ymd y m d). Qed.

Lemma raises_fromordinal n : raises_only ValueError (fromordinal n).
Proof. unfold fromordinal. by destruct (valid_date n). Qed.

Lemma raises_fromisoformat s : raises_only ValueError (fromisoformat s).
Proof.
  unfold fromisoformat. destruct (parse_iso s) as [[y m d|y w d]|]; [|unfold iso_to_date|done].
  - apply raises_mk_date.
  - destruct (_ && _); [apply raises_fromordinal|done].
Qed.

#[export] Hint Resolve raises_mk_date raises_fromordinal raises_fromisoformat : qp.
