(* ===== verification/PyTime.v ===== *)
(** * PyTime: UTC timestamps and the text [datetime.isoformat] gives them

    A timezone-aware UTC [datetime] is its number of microseconds, counted so
    that the date part is the ordinal of PyDate.v.  The ledgers store and
    compare the ISO text, in which the fraction is left out when it is zero; the
    file proves that the order of the texts is still the order of the instants.
    [datetime_fromisoformat] reads texts back, with and without an offset; the date
    in UTC of a text and the canonical texts that end in Z are built on it. *)

From S2P Require Import Prelude PyDate.

Local Open Scope Z_scope.

Abbreviation datetime := Z (only parsing).

Definition day_micros : Z := 86400000000.

Definition dt_date (t : datetime) : date := t / day_micros.

Definition valid_datetime (t : datetime) : bool := valid_date (dt_date t).

Definition pad6 (n : Z) : string :=
  pad2 (n / 10000) +:+ pad2 (n / 100 mod 100) +:+ pad2 (n mod 100).

(** [t.isoformat()] of a UTC datetime. *)
Definition dt_isoformat (t : datetime) : string :=
  let r := t mod day_micros in
  let s := r / 1000000 in
  let us := r mod 1000000 in
  isoformat (dt_date t) +:+ "T" +:+ pad2 (s / 3600) +:+ ":" +:+ pad2 (s / 60 mod 60) +:+ ":"
  +:+ pad2 (s mod 60) +:+ (if us =? 0 then "" else "." +:+ pad6 us) +:+ "+00:00".

(** [t + timedelta(seconds=k)] *)
Definition dt_add_seconds (t : datetime) (k : Z) : result datetime :=
  let t' := t + k * 1000000 in
  if valid_datetime t' then Ok t' else raise OverflowError "date value out of range".

Example dt_example :
  dt_isoformat (733169 * day_micros + 3723000001) = "2008-05-07T01:02:03.000001+00:00" /\
  dt_isoformat (733169 * day_micros + 3723000000) = "2008-05-07T01:02:03+00:00".
Proof. by vm_compute. Qed.

#[local] Ltac Zify.zify_post_hook ::= Z.div_mod_to_equations.

Lemma pad6_compare a b s t : 0 <= a <= 999999 -> 0 <= b <= 999999 ->
  String.compare (pad6 a +:+ s) (pad6 b +:+ t) =
  match a ?= b with Eq => String.compare s t | c => c end.
Proof.
  intros Ha Hb. unfold pad6. rewrite <- !string_app_assoc, !pad2_compare by lia.
  repeat (match goal with |- context [?x ?= ?y] =>
    destruct (Z.compare_spec x y) as [?|?|?] end; try lia); done.
Qed.

(** The text after the seconds. *)
Definition frac_text (us : Z) : string := (if us =? 0 then "" else "." +:+ pad6 us) +:+ "+00:00".

Lemma frac_compare a b : 0 <= a <= 999999 -> 0 <= b <= 999999 ->
  String.compare (frac_text a) (frac_text b) = (a ?= b).
Proof.
  intros Ha Hb. unfold frac_text.
  destruct (a =? 0) eqn:Ea, (b =? 0) eqn:Eb; bools; subst; try done.
  - destruct (Z.compare_spec 0 b); (lia || done).
  - destruct (Z.compare_spec a 0); (lia || done).
  - rewrite <- !string_app_assoc. change (String.compare (pad6 a +:+ "+00:00") (pad6 b +:+ "+00:00") = (a ?= b)).
    rewrite pad6_compare by done. by destruct (a ?= b).
Qed.

(** Timestamps compare as their texts do. *)
Lemma dt_isoformat_compare t u : valid_datetime t = true -> valid_datetime u = true ->
  String.compare (dt_isoformat t) (dt_isoformat u) = (t ?= u).
Proof.
  intros Ht Hu. unfold dt_isoformat.
  fold (frac_text (t mod day_micros mod 1000000)) (frac_text (u mod day_micros mod 1000000)).
  rewrite isoformat_compare_app by done.
  assert (HT : forall s t, String.compare ("T" +:+ s) ("T" +:+ t) = String.compare s t) by done.
  assert (Hc : forall s t, String.compare (":" +:+ s) (":" +:+ t) = String.compare s t) by done.
  assert (0 <= t mod day_micros < day_micros) as Hrt by (apply Z.mod_pos_bound; done).
  assert (0 <= u mod day_micros < day_micros) as Hru by (apply Z.mod_pos_bound; done).
  pose proof (Z.div_mod t day_micros) as Hdt. pose proof (Z.div_mod u day_micros) as Hdu.
  unfold dt_date. unfold day_micros in *. revert Hdt Hdu Hrt Hru.
  generalize (t mod 86400000000), (u mod 86400000000), (t / 86400000000), (u / 86400000000).
  intros r r' d d' Hdt Hdu Hr Hr'. clear Ht Hu.
  rewrite HT, pad2_compare, Hc by lia. rewrite pad2_compare, Hc by lia.
  rewrite pad2_compare, frac_compare by lia.
  destruct (Z.compare_spec d d'), (Z.compare_spec t u); simpl; try lia; try done;
    (destruct (Z.compare_spec (r / 1000000 / 3600) (r' / 1000000 / 3600)); try lia; try done);
    (destruct (Z.compare_spec (r / 1000000 / 60 mod 60) (r' / 1000000 / 60 mod 60)); try lia; try done);
    (destruct (Z.compare_spec (r / 1000000 mod 60) (r' / 1000000 mod 60)); try lia; try done);
    destruct (Z.compare_spec (r mod 1000000) (r' mod 1000000)); try lia; done.
Qed.

Lemma dt_isoformat_ltb t u : valid_datetime t = true -> valid_datetime u = true ->
  String.ltb (dt_isoformat t) (dt_isoformat u) = (t <? u).
Proof. intros. unfold String.ltb, Z.ltb. by rewrite dt_isoformat_compare. Qed.

(** ** [datetime.fromisoformat] (Python 3.11 and later)

    A date, any separator, and [HH[:MM[:SS[.f]]]] with an offset of the same form or
    [Z].  The forms without separators and week dates, what the versions of Python
    disagree on, and texts beyond ASCII are outside the model. *)

(** The fraction of a second: six digits count, further ones are dropped. *)
Fixpoint fraction (n : nat) (acc : Z) (s : string) : option Z :=
  match s, n with
  | EmptyString, _ => Some (acc * 10 ^ Z.of_nat n)
  | String c s, S n => v ← digit_val c; fraction n (10 * acc + v) s
  | String c s, O => _ ← digit_val c; fraction O acc s
  end.

Record clock := mkClock { ck_hour : Z; ck_minute : Z; ck_second : Z; ck_micro : Z }.

Definition clock_micros (c : clock) : Z :=
  ((ck_hour c * 60 + ck_minute c) * 60 + ck_second c) * 1000000 + ck_micro c.

Definition parse_clock (s : string) : option clock :=
  '(h, s) ← take_digits 2 0 s;
  if s =s "" then Some (mkClock h 0 0 0) else
  s ← take_char ":" s; '(m, s) ← take_digits 2 0 s;
  if s =s "" then Some (mkClock h m 0 0) else
  s ← take_char ":" s; '(sec, s) ← take_digits 2 0 s;
  match s with
  | EmptyString => Some (mkClock h m sec 0)
  | String c s =>
      if ((c =? ".") || (c =? ","))%char && negb (s =s "")
      then us ← fraction 6 0 s; Some (mkClock h m sec us)
      else None
  end.

(** The text up to the first [+], [-] or [Z], and from there on. *)
Fixpoint split_zone (s : string) : string * string :=
  match s with
  | EmptyString => (EmptyString, EmptyString)
  | String c s' =>
      if ((c =? "+") || (c =? "-") || (c =? "Z"))%char then (EmptyString, s)
      else let p := split_zone s' in (String c p.1, p.2)
  end.

(** The offset in microseconds; none for a naive time. *)
Definition parse_zone (s : string) : option (option Z) :=
  match s with
  | EmptyString => Some None
  | String c s =>
      if (c =? "Z")%char then (if s =s "" then Some (Some 0) else None)
      else
        z ← parse_clock s;
        if (ck_minute z <=? 59) && (ck_second z <=? 59)
        then Some (Some (if (c =? "-")%char then - clock_micros z else clock_micros z)) else None
  end.

Fixpoint ascii7 (s : string) : bool :=
  match s with EmptyString => true | String c s => (N_of_ascii c <? 128)%N && ascii7 s end.

(** Where the date ends: calendar dates only. *)
Definition separator_at (s : string) : option nat :=
  if (String.length s =? 7)%nat then Some 7%nat
  else match String.get 4 s, String.get 5 s with
       | Some "-"%char, Some "W"%char => None
       | Some "-"%char, _ => Some 10%nat
       | Some "W"%char, _ => None
       | _, _ => Some 8%nat
       end.

(** Local time and offset. *)
Definition datetime_fromisoformat (s : string) : result (datetime * option Z) :=
  if negb (ascii7 s) then raise OutsideModel "text beyond ASCII" else
  _ ← ensure (7 <=? String.length s)%nat ValueError "Invalid isoformat string";
  at_ ← of_option OutsideModel "week date" (separator_at s);
  d ← fromisoformat (str_take at_ s);
  let rest := str_drop (S at_) s in
  if rest =s "" then Ok (d * day_micros, None)
  else
    let '(time, zone) := split_zone rest in
    c ← of_option OutsideModel "unusual time" (parse_clock time);
    zone ← of_option OutsideModel "unusual offset" (parse_zone zone);
    _ ← ensure (negb (ck_hour c =? 24)) OutsideModel "24:00";
    _ ← ensure ((ck_hour c <=? 23) && (ck_minute c <=? 59) && (ck_second c <=? 59)) ValueError
          "component must be in range";
    _ ← ensure (match zone with Some off => Z.abs off <? day_micros | None => true end) ValueError
          "offset must be strictly between -24 and 24 hours";
    Ok (d * day_micros + clock_micros c, zone).

(** [s.replace("Z", "+00:00")] *)
Fixpoint replace_z (s : string) : string :=
  match s with
  | EmptyString => EmptyString
  | String c s => if (c =? "Z")%char then "+00:00" +:+ replace_z s else String c (replace_z s)
  end.

(** [t.astimezone(timezone.utc)] *)
Definition to_utc (local offset : Z) : result datetime :=
  if valid_datetime (local - offset) then Ok (local - offset) else raise OverflowError "date value out of range".

(** [datetime.fromisoformat(text.replace("Z", "+00:00"))] in UTC, its date as text;
    what is not a timezone-aware text raises [c]. *)
Definition utc_date_text (c : exn_class) (text : string) : result string :=
  '(local, zone) ← (match datetime_fromisoformat (replace_z text) with
                    | Err e => if decide (exn_kind e = ValueError) then raise c "timestamp is malformed" else Err e
                    | r => r
                    end);
  offset ← of_option c "timestamp must be timezone-aware" zone;
  t ← to_utc local offset;
  Ok (isoformat (dt_date t)).

(** [t.isoformat(timespec="seconds")] of a UTC datetime, without the offset. *)
Definition seconds_text (t : datetime) : string :=
  let s := t mod day_micros / 1000000 in
  isoformat (dt_date t) +:+ "T" +:+ pad2 (s / 3600) +:+ ":" +:+ pad2 (s / 60 mod 60) +:+ ":" +:+ pad2 (s mod 60).

Definition utc_z (t : datetime) : string := seconds_text t +:+ "Z".
Definition dt_isoformat_seconds (t : datetime) : string := seconds_text t +:+ "+00:00".

Example datetime_example :
  map datetime_fromisoformat ["2008-05-07T01:02:03.000001+00:00"; "2008-05-07 01:02:03,5-09:30"; "20080507T10";
                              "2008-05-07"; "2008-05-07T01:02:60Z"; "2008-05-07T01:02+24:00"; "2008-05-7T00:00Z"]
  = [Ok (733169 * day_micros + 3723000001, Some 0); Ok (733169 * day_micros + 3723500000, Some (- 34200000000));
     Ok (733169 * day_micros + 36000000000, None); Ok (733169 * day_micros, None);
     raise ValueError "component must be in range"; raise ValueError "offset must be strictly between -24 and 24 hours";
     raise ValueError "Invalid isoformat string"] /\
  utc_date_text RuntimeError "2008-05-07T03:00:00+09:00" = Ok "2008-05-06" /\
  utc_date_text RuntimeError "2008-05-07T03:00:00Z" = Ok "2008-05-07" /\
  utc_date_text RuntimeError "2008-05-07" = raise RuntimeError "timestamp must be timezone-aware".
Proof. by vm_compute. Qed.

(** ** Reading back what is written *)

Definition plain_digit (c : ascii) : bool :=
  (N_of_ascii c <? 128)%N && negb ((c =? "+") || (c =? "-") || (c =? "Z"))%char && negb (c =? "W")%char.

Lemma digit_plain i : 0 <= i <= 9 -> plain_digit (digit i) = true.
Proof. by apply (digit_forall (fun i => plain_digit (digit i))). Qed.

Lemma ascii7_app s t : ascii7 (s +:+ t) = ascii7 s && ascii7 t.
Proof.
  induction s as [|c s IH]; [done|]. change (String c s +:+ t) with (String c (s +:+ t)). simpl.
  by rewrite IH, andb_assoc.
Qed.

(** A text without signs: [split_zone] passes over it. *)
Fixpoint unsigned (s : string) : bool :=
  match s with
  | EmptyString => true
  | String c s => negb ((c =? "+") || (c =? "-") || (c =? "Z"))%char && unsigned s
  end.

Lemma unsigned_app s t : unsigned (s +:+ t) = unsigned s && unsigned t.
Proof.
  induction s as [|c s IH]; [done|]. change (String c s +:+ t) with (String c (s +:+ t)). simpl.
  by rewrite IH, andb_assoc.
Qed.

Lemma split_zone_unsigned s t : unsigned s = true -> split_zone (s +:+ t) = (s +:+ (split_zone t).1, (split_zone t).2).
Proof.
  induction s as [|c s IH]; simpl unsigned; intros H; [exact (surjective_pairing (split_zone t))|].
  change (String c s +:+ t) with (String c (s +:+ t)). apply andb_true_iff in H as [Hc H]. apply negb_true_iff in Hc.
  simpl. by rewrite Hc, IH.
Qed.

Lemma pad2_plain n : 0 <= n <= 99 -> ascii7 (pad2 n) = true /\ unsigned (pad2 n) = true.
Proof.
  intros H. pose proof (digit_plain (n / 10)) as A. pose proof (digit_plain (n mod 10)) as B.
  unfold plain_digit in *. specialize (A ltac:(lia)). specialize (B ltac:(lia)). unfold pad2. cbn [ascii7 unsigned].
  rewrite !andb_true_iff in *. tauto.
Qed.

Lemma str_take_app s t : str_take (String.length s) (s +:+ t) = s.
Proof.
  induction s as [|c s IH]; [by destruct t|]. change (String c s +:+ t) with (String c (s +:+ t)). simpl. by rewrite IH.
Qed.

Lemma str_drop_app s t : str_drop (String.length s) (s +:+ t) = t.
Proof. induction s as [|c s IH]; [by destruct t|]. exact IH. Qed.

Lemma isoformat_plain d : valid_date d = true -> ascii7 (isoformat d) = true /\
  forall s, separator_at (isoformat d +:+ s) = Some 10%nat.
Proof.
  intros Hd. apply valid_parts in Hd as (Hy & Hm & Hday). split.
  - unfold isoformat. rewrite !ascii7_app. destruct (pad2_plain (month_of d)) as [-> _]; [lia|].
    destruct (pad2_plain (day_of d)) as [-> _]; [lia|].
    assert (ascii7 (pad4 (year_of d)) = true) as ->; [|done]. unfold pad4. cbn [ascii7].
    assert (forall i, 0 <= i <= 9 -> (N_of_ascii (digit i) <? 128)%N = true) as E.
    { intros i Hi. apply digit_plain in Hi. unfold plain_digit in Hi. by bools. }
    by rewrite !E by lia.
  - intros s. unfold separator_at. rewrite length_string_app.
    replace (String.get 4 _) with (Some "-"%char) by done.
    replace (String.get 5 (isoformat d +:+ s)) with (Some (digit (month_of d / 10))) by done.
    pose proof (digit_plain (month_of d / 10) ltac:(lia)) as HW. unfold plain_digit in HW. bools.
    destruct (digit (month_of d / 10)) as [[] [] [] [] [] [] [] []]; done.
Qed.

(** The seven parts of a moment's text. *)
Lemma clock_parts t : 0 <= t ->
  let r := t mod day_micros in let s := r / 1000000 in
  0 <= r < day_micros /\ 0 <= s / 3600 <= 23 /\ 0 <= s / 60 mod 60 <= 59 /\ 0 <= s mod 60 <= 59 /\
  0 <= r mod 1000000 <= 999999 /\ clock_micros (mkClock (s / 3600) (s / 60 mod 60) (s mod 60) (r mod 1000000)) = r.
Proof. intros Ht. unfold clock_micros, day_micros. cbn [ck_hour ck_minute ck_second ck_micro]. lia. Qed.

(** An offset a datetime may have. *)
Definition offset_ok (offset : option Z) : Prop :=
  match offset with Some off => Z.abs off < day_micros | None => True end.

(** A text of a date, [T], a time of day and an offset is read as one expects. *)
Lemma datetime_of_parts_at zone off d time c : ascii7 zone = true -> split_zone zone = (EmptyString, zone) ->
  parse_zone zone = Some off -> offset_ok off -> valid_date d = true -> ascii7 time = true ->
  unsigned time = true -> time <> "" -> parse_clock time = Some c ->
  ck_hour c <= 23 -> ck_minute c <= 59 -> ck_second c <= 59 ->
  datetime_fromisoformat (isoformat d +:+ "T" +:+ time +:+ zone) = Ok (d * day_micros + clock_micros c, off).
Proof.
  intros Hza Hzs Hzp Hoff Hd Ha Hu Hne Hc Hh Hm Hs. destruct (isoformat_plain d Hd) as [Hai Hsep]. unfold datetime_fromisoformat.
  rewrite !ascii7_app, Hai, Ha, Hza. cbn [ascii7 andb negb].
  assert (String.length time <> 0)%nat as Hlt by (by destruct time).
  rewrite length_string_app. replace (7 <=? _)%nat with true.
  2:{ symmetry; apply Nat.leb_le. rewrite !length_string_app. destruct (Nat.le_gt_cases 10 (String.length (isoformat d))); [lia|].
      exfalso. unfold isoformat, pad4, pad2 in *. simpl in *. lia. }
  cbn [ensure mbind result_bind]. rewrite Hsep. cbn [of_option mbind result_bind].
  replace (str_take 10 _) with (isoformat d) by (symmetry; exact (str_take_app (isoformat d) _)).
  rewrite fromisoformat_isoformat by done. cbn [mbind result_bind].
  replace (str_drop 11 _) with (time +:+ zone) by done.
  destruct (time +:+ zone =s "") eqn:E; bools; [by destruct time|].
  rewrite split_zone_unsigned, Hzs by done. cbn [fst snd]. rewrite string_app_nil_r, Hc. cbn [of_option mbind result_bind].
  rewrite Hzp. simpl.
  replace (ck_hour c =? 24) with false by lia. simpl.
  replace (ck_hour c <=? 23) with true by lia. replace (ck_minute c <=? 59) with true by lia.
  replace (ck_second c <=? 59) with true by lia. simpl. destruct off as [off|]; [|done]. cbn [offset_ok] in Hoff.
  by replace (Z.abs off <? day_micros) with true by lia.
Qed.

Lemma datetime_of_parts d time c : valid_date d = true -> ascii7 time = true -> unsigned time = true ->
  time <> "" -> parse_clock time = Some c -> ck_hour c <= 23 -> ck_minute c <= 59 -> ck_second c <= 59 ->
  datetime_fromisoformat (isoformat d +:+ "T" +:+ time +:+ "+00:00") = Ok (d * day_micros + clock_micros c, Some 0).
Proof. by apply (datetime_of_parts_at "+00:00" (Some 0)). Qed.

Lemma fraction_pad6 us : 0 <= us <= 999999 -> fraction 6 0 (pad6 us) = Some us.
Proof.
  intros H. unfold pad6, pad2.
  change (fraction 6 0 (String (digit (us / 10000 / 10)) (String (digit (us / 10000 mod 10))
    (String (digit (us / 100 mod 100 / 10)) (String (digit (us / 100 mod 100 mod 10))
    (String (digit (us mod 100 / 10)) (String (digit (us mod 100 mod 10)) ""))))))  = Some us).
  simpl fraction. rewrite !digit_val_digit by lia. simpl. f_equal. lia.
Qed.

(** The text of a time of day. *)
Definition time_text (h m s us : Z) : string :=
  pad2 h +:+ ":" +:+ pad2 m +:+ ":" +:+ pad2 s +:+ (if us =? 0 then "" else "." +:+ pad6 us).

Lemma take_colon s : take_char ":" (":" +:+ s) = Some s.
Proof. done. Qed.

Lemma time_text_reads h m s us : 0 <= h <= 99 -> 0 <= m <= 99 -> 0 <= s <= 99 -> 0 <= us <= 999999 ->
  ascii7 (time_text h m s us) = true /\ unsigned (time_text h m s us) = true /\ time_text h m s us <> "" /\
  parse_clock (time_text h m s us) = Some (mkClock h m s us).
Proof.
  intros Hh Hm Hs Hu. destruct (pad2_plain h Hh) as [Ah Uh], (pad2_plain m Hm) as [Am Um], (pad2_plain s Hs) as [As Us].
  assert (ascii7 (pad6 us) = true /\ unsigned (pad6 us) = true) as [A6 U6].
  { unfold pad6. rewrite !ascii7_app, !unsigned_app. split; rewrite !andb_true_iff; split_and!; apply pad2_plain; lia. }
  unfold time_text. split_and!.
  - rewrite !ascii7_app, Ah, Am, As. destruct (us =? 0); [done|]. by rewrite ascii7_app, A6.
  - rewrite !unsigned_app, Uh, Um, Us. destruct (us =? 0); [done|]. by rewrite unsigned_app, U6.
  - done.
  - unfold parse_clock.
    do 3 (rewrite take_digits_pad2 by done; cbn [mbind option_bind]; rewrite ?bool_decide_eq_false_2 by done;
          rewrite ?take_colon; cbn [mbind option_bind]).
    destruct (us =? 0) eqn:E; [bools; subst; done|].
    change ((us ← fraction 6 0 (pad6 us); Some (mkClock h m s us)) = Some (mkClock h m s us)).
    by rewrite fraction_pad6.
Qed.

Lemma valid_nonneg t : valid_datetime t = true -> 0 <= t.
Proof. unfold valid_datetime, valid_date, dt_date, day_micros. intros H. bools. lia. Qed.

Lemma string_app_app (s t u : string) : (s +:+ t) +:+ u = s +:+ (t +:+ u).
Proof. symmetry. apply string_app_assoc. Qed.

(** What [isoformat] writes, [fromisoformat] reads. *)
Lemma datetime_dt_isoformat t : valid_datetime t = true -> datetime_fromisoformat (dt_isoformat t) = Ok (t, Some 0).
Proof.
  intros Ht. destruct (clock_parts t (valid_nonneg t Ht)) as (Hr & Hh & Hm & Hs & Hu & Hc).
  set (r := t mod day_micros) in *. destruct (time_text_reads (r / 1000000 / 3600) (r / 1000000 / 60 mod 60)
    (r / 1000000 mod 60) (r mod 1000000)) as (Ha & Hun & Hne & Hp); try lia.
  replace (dt_isoformat t) with (isoformat (dt_date t) +:+ "T" +:+ time_text (r / 1000000 / 3600)
    (r / 1000000 / 60 mod 60) (r / 1000000 mod 60) (r mod 1000000) +:+ "+00:00").
  - erewrite datetime_of_parts; try done; cbn [ck_hour ck_minute ck_second]; try lia. rewrite Hc. unfold dt_date, r.
    do 2 f_equal. unfold day_micros. lia.
  - unfold dt_isoformat, time_text. cbv zeta. fold r. by rewrite !string_app_app.
Qed.

(** The canonical texts, to the second. *)
Lemma datetime_seconds_text_at zone off t : ascii7 zone = true -> split_zone zone = (EmptyString, zone) ->
  parse_zone zone = Some off -> offset_ok off -> valid_datetime t = true ->
  datetime_fromisoformat (seconds_text t +:+ zone) = Ok (t - t mod 1000000, off).
Proof.
  intros Hza Hzs Hzp Hoff Ht. destruct (clock_parts t (valid_nonneg t Ht)) as (Hr & Hh & Hm & Hs & Hu & Hc).
  set (r := t mod day_micros) in *. destruct (time_text_reads (r / 1000000 / 3600) (r / 1000000 / 60 mod 60)
    (r / 1000000 mod 60) 0) as (Ha & Hun & Hne & Hp); try lia.
  replace (seconds_text t +:+ zone) with (isoformat (dt_date t) +:+ "T" +:+ time_text (r / 1000000 / 3600)
    (r / 1000000 / 60 mod 60) (r / 1000000 mod 60) 0 +:+ zone).
  - erewrite datetime_of_parts_at; try done; cbn [ck_hour ck_minute ck_second]; try lia. unfold clock_micros, dt_date in *.
    cbn [ck_hour ck_minute ck_second ck_micro] in *. do 2 f_equal. unfold r, day_micros in *. lia.
  - unfold seconds_text, time_text. cbv zeta. fold r. by rewrite !string_app_app.
Qed.

Lemma datetime_seconds_text t : valid_datetime t = true ->
  datetime_fromisoformat (seconds_text t +:+ "+00:00") = Ok (t - t mod 1000000, Some 0).
Proof. by apply (datetime_seconds_text_at "+00:00" (Some 0)). Qed.

Lemma datetime_naive t : valid_datetime t = true -> datetime_fromisoformat (seconds_text t) = Ok (t - t mod 1000000, None).
Proof.
  intros Ht. rewrite <- (string_app_nil_r (seconds_text t)) at 1. by apply (datetime_seconds_text_at EmptyString None).
Qed.

(** The texts to the second compare as the seconds do. *)
Lemma seconds_text_compare zone t u : valid_datetime t = true -> valid_datetime u = true ->
  String.compare (seconds_text t +:+ zone) (seconds_text u +:+ zone) = (t / 1000000 ?= u / 1000000).
Proof.
  intros Ht Hu. unfold seconds_text. cbv zeta. rewrite !string_app_app, isoformat_compare_app by done.
  assert (HT : forall s t, String.compare ("T" +:+ s) ("T" +:+ t) = String.compare s t) by done.
  assert (Hc : forall s t, String.compare (":" +:+ s) (":" +:+ t) = String.compare s t) by done.
  assert (0 <= t mod day_micros < day_micros) as Hrt by (apply Z.mod_pos_bound; done).
  assert (0 <= u mod day_micros < day_micros) as Hru by (apply Z.mod_pos_bound; done).
  pose proof (Z.div_mod t day_micros) as Hdt. pose proof (Z.div_mod u day_micros) as Hdu.
  unfold dt_date. unfold day_micros in *. revert Hdt Hdu Hrt Hru.
  generalize (t mod 86400000000), (u mod 86400000000), (t / 86400000000), (u / 86400000000).
  intros r r' d d' Hdt Hdu Hr Hr'. clear Ht Hu.
  rewrite HT, pad2_compare, Hc by lia. rewrite pad2_compare, Hc by lia.
  rewrite pad2_compare by lia.
  assert (String.compare zone zone = Eq) as -> by (by pose proof (String.compare_antisym zone zone); destruct (String.compare zone zone)).
  assert (t / 1000000 = d * 86400 + r / 1000000) as -> by lia.
  assert (u / 1000000 = d' * 86400 + r' / 1000000) as -> by lia.
  assert (0 <= r / 1000000 < 86400) as Hs by lia. assert (0 <= r' / 1000000 < 86400) as Hs' by lia.
  generalize dependent (r / 1000000). generalize dependent (r' / 1000000). clear.
  intros s' Hs' s Hs.
  destruct (Z.compare_spec d d'), (Z.compare_spec (d * 86400 + s) (d' * 86400 + s')); simpl; try lia; try done;
    (destruct (Z.compare_spec (s / 3600) (s' / 3600)); try lia; try done);
    (destruct (Z.compare_spec (s / 60 mod 60) (s' / 60 mod 60)); try lia; try done);
    destruct (Z.compare_spec (s mod 60) (s' mod 60)); try lia; done.
Qed.

Lemma seconds_text_floor t u : valid_datetime t = true -> valid_datetime u = true -> seconds_text t = seconds_text u ->
  t - t mod 1000000 = u - u mod 1000000.
Proof.
  intros Ht Hu E. pose proof (datetime_seconds_text t Ht) as H. rewrite E, datetime_seconds_text in H by done.
  by injection H.
Qed.

(** A text without Z is not changed by the replacement. *)
Fixpoint no_z (s : string) : bool :=
  match s with EmptyString => true | String c s => negb (c =? "Z")%char && no_z s end.

Lemma replace_no_z s : no_z s = true -> replace_z s = s.
Proof.
  induction s as [|c s IH]; [done|]. simpl. intros H. apply andb_true_iff in H as [Hc H]. apply negb_true_iff in Hc.
  by rewrite Hc, IH.
Qed.

Lemma no_z_app s t : no_z (s +:+ t) = no_z s && no_z t.
Proof.
  induction s as [|c s IH]; [done|]. change (String c s +:+ t) with (String c (s +:+ t)). simpl.
  by rewrite IH, andb_assoc.
Qed.

Lemma no_z_digits i j : 0 <= i <= 9 -> 0 <= j <= 9 -> no_z (String (digit i) (String (digit j) "")) = true.
Proof.
  intros Hi Hj. apply digit_plain in Hi, Hj. unfold plain_digit in Hi, Hj. bools. simpl.
  repeat match goal with H : (digit _ =? "Z")%char = false |- _ => rewrite H end. done.
Qed.

Lemma no_z_pad2 n : 0 <= n <= 99 -> no_z (pad2 n) = true.
Proof. intros H. apply no_z_digits; pose proof (Z.div_mod n 10); pose proof (Z.mod_pos_bound n 10); lia. Qed.

Lemma no_z_isoformat d : valid_date d = true -> no_z (isoformat d) = true.
Proof.
  intros (Hy & Hm & Hd)%valid_parts. unfold isoformat. rewrite !no_z_app, !no_z_pad2 by lia.
  change (pad4 (year_of d)) with (String (digit (year_of d / 1000)) (String (digit (year_of d / 100 mod 10)) "")
    +:+ String (digit (year_of d / 10 mod 10)) (String (digit (year_of d mod 10)) "")).
  rewrite no_z_app, !no_z_digits by lia. done.
Qed.

Lemma no_z_dt_isoformat t : valid_datetime t = true -> no_z (dt_isoformat t) = true.
Proof.
  intros Ht. destruct (clock_parts t (valid_nonneg t Ht)) as (Hr & Hh & Hm & Hs & Hu & _).
  unfold dt_isoformat. cbv zeta. rewrite !no_z_app, no_z_isoformat, !no_z_pad2 by (done || lia).
  destruct (_ =? 0); [done|]. rewrite no_z_app. unfold pad6. rewrite !no_z_app.
  by rewrite !no_z_pad2 by lia.
Qed.

(** The date in UTC of the text of a moment. *)
Lemma utc_date_text_dt_isoformat c t : valid_datetime t = true -> utc_date_text c (dt_isoformat t) = Ok (isoformat (dt_date t)).
Proof.
  intros Ht. unfold utc_date_text. rewrite replace_no_z by by apply no_z_dt_isoformat.
  rewrite datetime_dt_isoformat by done. simpl. unfold to_utc. rewrite Z.sub_0_r, Ht. done.
Qed.
