(* ===== verification/PyInt.v ===== *)
(** * PyInt: [int(text)] and [int(text, 16)]

    Python's parser of integers is lenient: white space around the text, a sign, the
    prefix 0x in base 16 and single underscores between digits are accepted.  The
    characters are those below 256; the file shows what a text without any of this
    denotes. *)

From S2P Require Import Prelude PyDate.

Local Open Scope Z_scope.

Definition int_space (c : ascii) : bool :=
  let n := N_of_ascii c in ((9 <=? n) && (n <=? 13) || (n =? 32) || (n =? 133) || (n =? 160))%N.

Fixpoint int_lstrip (s : string) : string :=
  match s with
  | EmptyString => EmptyString
  | String c s' => if int_space c then int_lstrip s' else s
  end.

(** Nothing but white space. *)
Fixpoint all_space (s : string) : bool :=
  match s with EmptyString => true | String c s => int_space c && all_space s end.

Fixpoint int_rstrip (s : string) : string :=
  match s with
  | EmptyString => EmptyString
  | String c s' => if all_space s then EmptyString else String c (int_rstrip s')
  end.

Definition hex_char_value (c : ascii) : option Z :=
  let n := Z.of_N (N_of_ascii c) in
  if (48 <=? n) && (n <=? 57) then Some (n - 48)
  else if (97 <=? n) && (n <=? 102) then Some (n - 87)
  else if (65 <=? n) && (n <=? 70) then Some (n - 55) else None.

Definition base_digit (base : Z) (c : ascii) : option Z := if base =? 16 then hex_char_value c else digit_val c.

(** Digits, with an underscore only between two of them. *)
Fixpoint int_digits (base acc : Z) (after_digit : bool) (s : string) : option Z :=
  match s with
  | EmptyString => if after_digit then Some acc else None
  | String c s =>
      if (c =? "_")%char then if after_digit then int_digits base acc false s else None
      else v ← base_digit base c; int_digits base (base * acc + v) true s
  end.

Definition int_prefix (base : Z) (s : string) : string :=
  match s with
  | String "0" (String x s') =>
      if (base =? 16) && ((x =? "x")%char || (x =? "X")%char)
      then match s' with String "_" s'' => s'' | _ => s' end
      else s
  | _ => s
  end.

Fixpoint count_digits (s : string) : Z :=
  match s with
  | EmptyString => 0
  | String c s => (if (c =? "_")%char then 0 else 1) + count_digits s
  end.

(** [sys.get_int_max_str_digits()], for bases that are not powers of two. *)
Definition MAX_STR_DIGITS : Z := 4300.

Definition unsigned_int (base : Z) (s : string) : option Z :=
  let digits := int_prefix base s in
  if (base =? 10) && (MAX_STR_DIGITS <? count_digits digits) then None else int_digits base 0 false digits.

(** [None] stands for [ValueError]. *)
Definition int_text (base : Z) (s : string) : option Z :=
  match int_rstrip (int_lstrip s) with
  | String "-" s => Z.opp <$> unsigned_int base s
  | String "+" s => unsigned_int base s
  | s => unsigned_int base s
  end.

Example int_text_example :
  map (int_text 10) ["12"; " -1_000 "; "+7"; "1__0"; "_1"; "1_"; "0x1"; ""; "- 1"; "1 2"]
  = [Some 12; Some (-1000); Some 7; None; None; None; None; None; None; None] /\
  map (int_text 16) ["ff"; "0xFF"; "-0x_f"; "0x"; "0x__f"; "fg"; "f_f"] =
  [Some 255; Some 255; Some (-15); None; None; None; Some 255].
Proof. by vm_compute. Qed.

(** ** Plain numerals *)

Fixpoint plain_digits (base : Z) (s : string) : bool :=
  match s with
  | EmptyString => true
  | String c s => match base_digit base c with Some _ => true | None => false end && plain_digits base s
  end.

Lemma base_digit_plain base c v : base_digit base c = Some v ->
  int_space c = false /\ (c =? "_")%char = false /\ c <> "-"%char /\ c <> "+"%char /\ c <> "x"%char /\ c <> "X"%char.
Proof.
  unfold base_digit, hex_char_value, digit_val.
  destruct (base =? 16); destruct c as [[] [] [] [] [] [] [] []]; intros H; try (by vm_compute in H); by split_and!.
Qed.

Lemma int_digits_plain base acc s : plain_digits base s = true -> exists n, int_digits base acc true s = Some n.
Proof.
  revert acc. induction s as [|c s IH]; intros acc; simpl; [by exists acc|].
  destruct (base_digit base c) as [v|] eqn:E; [|done]. apply base_digit_plain in E as (_ & -> & _). apply IH.
Qed.

Lemma int_rstrip_plain base s : plain_digits base s = true -> int_rstrip s = s.
Proof.
  induction s as [|c s IH]; [done|]. simpl. destruct (base_digit base c) as [v|] eqn:E; [|done]. intros H.
  apply base_digit_plain in E as (-> & _). simpl. by rewrite IH.
Qed.

(** A text of hexadecimal digits is accepted. *)
Lemma int_text_hex s : s <> "" -> plain_digits 16 s = true -> exists n, int_text 16 s = Some n.
Proof.
  intros Hs H. unfold int_text. destruct s as [|c s]; [done|]. pose proof H as H'. simpl in H.
  destruct (base_digit 16 c) as [v|] eqn:E; [|done]. destruct (base_digit_plain _ _ _ E) as (Hsp & Hu & Hm & Hp & _).
  simpl int_lstrip. rewrite Hsp, (int_rstrip_plain 16) by done.
  assert (exists n, unsigned_int 16 (String c s) = Some n) as [n Hn].
  { assert (int_prefix 16 (String c s) = String c s) as Ep.
    { destruct s as [|x s]; [by destruct c as [[] [] [] [] [] [] [] []]|]. simpl in H.
      destruct (base_digit 16 x) as [v'|] eqn:E'; [|done]. destruct (base_digit_plain _ _ _ E') as (_ & _ & _ & _ & Hx & HX).
      unfold int_prefix. destruct (Ascii.eqb_spec x "x"), (Ascii.eqb_spec x "X"); try done.
      by destruct c as [[] [] [] [] [] [] [] []]. }
    unfold unsigned_int. rewrite Ep. simpl. rewrite Hu, E. simpl. by apply int_digits_plain. }
  exists n. rewrite <- Hn. destruct c as [[] [] [] [] [] [] [] []]; done.
Qed.
