(* ===== verification/Json.v ===== *)
(** * Json: JSON values and the canonical text [json.dumps] gives them

    Values as [json.loads] returns them, and the encoding
    [json.dumps(v, ensure_ascii=True, sort_keys=True, separators=(",", ":"))]
    which the digests of contracts, policies and memberships are taken of.  A
    string is a list of code points below 256; a dict is an association list
    with distinct keys; a float is kept as the text [repr] gives it. *)

From S2P Require Import Prelude PyDate.

Local Open Scope Z_scope.

Inductive json : Set :=
  | JNull
  | JBool (b : bool)
  | JInt (n : Z)
  | JFloat (repr : string)
  | JStr (s : string)
  | JList (l : list json)
  | JDict (d : list (string * json)).

Fixpoint json_ind' (P : json -> Prop)
    (Hnull : P JNull) (Hbool : forall b, P (JBool b)) (Hint : forall n, P (JInt n))
    (Hfloat : forall r, P (JFloat r)) (Hstr : forall s, P (JStr s))
    (Hlist : forall l, Forall P l -> P (JList l))
    (Hdict : forall d, Forall (fun p => P p.2) d -> P (JDict d)) (j : json) : P j :=
  let rec := json_ind' P Hnull Hbool Hint Hfloat Hstr Hlist Hdict in
  match j with
  | JNull => Hnull
  | JBool b => Hbool b
  | JInt n => Hint n
  | JFloat r => Hfloat r
  | JStr s => Hstr s
  | JList l => Hlist l ((fix go l := match l return Forall P l with
      | [] => Forall_nil_2 P | x :: l => Forall_cons_2 P x l (rec x) (go l) end) l)
  | JDict d => Hdict d ((fix go d := match d return Forall (fun p => P p.2) d with
      | [] => Forall_nil_2 _ | p :: d => Forall_cons_2 _ p d (rec p.2) (go d) end) d)
  end.

#[export] Instance json_eq_dec : EqDecision json.
Proof.
  refine (fix go (x y : json) : Decision (x = y) :=
    match x, y with
    | JNull, JNull => left eq_refl
    | JBool a, JBool b => cast_if (decide (a = b))
    | JInt a, JInt b => cast_if (decide (a = b))
    | JFloat a, JFloat b => cast_if (decide (a = b))
    | JStr a, JStr b => cast_if (decide (a = b))
    | JList a, JList b =>
        cast_if ((fix gol (a b : list json) : Decision (a = b) :=
          match a, b with
          | [], [] => left eq_refl
          | x :: a, y :: b => cast_if_and (go x y) (gol a b)
          | _, _ => right _
          end) a b)
    | JDict a, JDict b =>
        cast_if ((fix gol (a b : list (string * json)) : Decision (a = b) :=
          match a, b with
          | [], [] => left eq_refl
          | (k, x) :: a, (k', y) :: b => cast_if_and3 (decide (k = k')) (go x y) (gol a b)
          | _, _ => right _
          end) a b)
    | _, _ => right _
    end); abstract congruence.
Defined.

(** [d.get(k)] *)
Fixpoint get (k : string) (d : list (string * json)) : option json :=
  match d with
  | [] => None
  | (k', v) :: d => if k =s k' then Some v else get k d
  end.

(** [bool(v)]; a float is false when its text is that of a zero. *)
Definition truthy (j : json) : bool :=
  match j with
  | JNull => false
  | JBool b => b
  | JInt n => negb (n =? 0)
  | JFloat r => negb ((r =s "0.0") || (r =s "-0.0"))
  | JStr s => negb (s =s "")
  | JList l => match l with [] => false | _ => true end
  | JDict d => match d with [] => false | _ => true end
  end.

(** [d.get(k)], which is [None] when the key is missing. *)
Definition getv (k : string) (d : list (string * json)) : json := default JNull (get k d).

(** [a or b] *)
Definition or_ (a b : json) : json := if truthy a then a else b.

Definition keys (d : list (string * json)) : list string := map fst d.

Definition has_key (k : string) (d : list (string * json)) : bool := k ∈? keys d.

Lemma has_key_get k d : has_key k d = match get k d with Some _ => true | None => false end.
Proof.
  unfold has_key. induction d as [|[k' v] d IH]; simpl; [done|].
  destruct (k =s k') eqn:E; bools.
  - subst. apply bool_decide_eq_true_2. by left.
  - rewrite <- IH. apply bool_decide_ext. rewrite elem_of_cons. naive_solver.
Qed.

(** [d[k] = v] *)
Fixpoint dict_set {A} (k : string) (v : A) (d : list (string * A)) : list (string * A) :=
  match d with
  | [] => [(k, v)]
  | (k', v') :: d => if k =s k' then (k', v) :: d else (k', v') :: dict_set k v d
  end.

(** [{**d, **e}] *)
Definition dict_merge {A} (d e : list (string * A)) : list (string * A) :=
  fold_left (fun d p => dict_set p.1 p.2 d) e d.

Lemma keys_dict_set {A} k (v : A) d : map fst (dict_set k v d) =
  if k ∈? map fst d then map fst d else map fst d ++ [k].
Proof.
  induction d as [|[k1 v1] d IH]; simpl; [done|].
  destruct (k =s k1) eqn:E1; simpl; bools; subst.
  - by rewrite bool_decide_eq_true_2 by by left.
  - rewrite IH. destruct (k ∈? map fst d) eqn:E2; bools.
    + by rewrite bool_decide_eq_true_2 by by right.
    + rewrite bool_decide_eq_false_2; [done|]. by intros [?|?]%elem_of_cons.
Qed.


Lemma dict_set_fresh {A} k (v : A) d : k ∉ map fst d -> dict_set k v d = d ++ [(k, v)].
Proof.
  induction d as [|[k' v'] d IH]; simpl; [done|]. intros Hk. rewrite bool_decide_eq_false_2 by set_solver.
  rewrite IH by set_solver. done.
Qed.


Lemma get_dict_set k k' v d : get k (dict_set k' v d) = if k =s k' then Some v else get k d.
Proof.
  induction d as [|[k1 v1] d IH]; simpl; [by destruct (k =s k')|].
  destruct (k' =s k1) eqn:E1; simpl; bools; subst.
  - by destruct (k =s k1).
  - rewrite IH. destruct (k =s k1) eqn:E2, (k =s k') eqn:E3; bools; congruence.
Qed.

Lemma getv_dict_set k k' v d : getv k (dict_set k' v d) = if k =s k' then v else getv k d.
Proof. unfold getv. rewrite get_dict_set. by destruct (k =s k'). Qed.

(** [v == n] for an integer [n] that a float represents exactly. *)
Definition eq_int (v : json) (n : Z) : bool :=
  match v with
  | JInt m => m =? n
  | JBool b => (if b then 1 else 0) =? n
  | JFloat r => r =s (show_Z n +:+ ".0")
  | _ => false
  end.

(** ** [str] and [repr] *)

Definition hex_digit (n : Z) : ascii :=
  if n <? 10 then digit n else ascii_of_N (Z.to_N (87 + n)).

(** A character of [repr] of a string in the quotes [q]; the printable ones below
    256 are those from 32 to 126 and from 161 on, but for the soft hyphen. *)
Definition repr_char (q c : ascii) (rest : string) : string :=
  let n := Z.of_N (N_of_ascii c) in
  let esc (x : ascii) := String "\" (String x rest) in
  if bool_decide (c = q) then esc q
  else if n =? 92 then esc "\"%char
  else if n =? 10 then esc "n"%char
  else if n =? 13 then esc "r"%char
  else if n =? 9 then esc "t"%char
  else if ((32 <=? n) && (n <=? 126)) || ((161 <=? n) && negb (n =? 173)) then String c rest
  else String "\" (String "x" (String (hex_digit (n / 16)) (String (hex_digit (n mod 16)) rest))).

Fixpoint has_char (c : ascii) (s : string) : bool :=
  match s with EmptyString => false | String d s => bool_decide (c = d) || has_char c s end.

Definition quote : ascii := ascii_of_N 34.

Definition repr_str (s : string) : string :=
  let q := if has_char "'" s && negb (has_char quote s) then quote else "'"%char in
  String q ((fix go s := match s with EmptyString => String q EmptyString
    | String c s => repr_char q c (go s) end) s).

Fixpoint py_repr (j : json) : string :=
  match j with
  | JNull => "None"
  | JBool b => if b then "True" else "False"
  | JInt n => show_Z n
  | JFloat r => r
  | JStr s => repr_str s
  | JList l => "[" +:+ String.concat ", " (map py_repr l) +:+ "]"
  | JDict d => "{" +:+ String.concat ", " (map (fun p => repr_str p.1 +:+ ": " +:+ py_repr p.2) d) +:+ "}"
  end.

(** [str(v)] *)
Definition py_str (j : json) : string := match j with JStr s => s | _ => py_repr j end.

(** ** [json.dumps] *)

Definition escape_char (c : ascii) (rest : string) : string :=
  let n := Z.of_N (N_of_ascii c) in
  let esc (x : ascii) := String "\" (String x rest) in
  if n =? 34 then esc (ascii_of_N 34)
  else if n =? 92 then esc "\"%char
  else if n =? 10 then esc "n"%char
  else if n =? 13 then esc "r"%char
  else if n =? 9 then esc "t"%char
  else if n =? 12 then esc "f"%char
  else if n =? 8 then esc "b"%char
  else if (32 <=? n) && (n <=? 126) then String c rest
  else String "\" (String "u" (String "0" (String "0"
    (String (hex_digit (n / 16)) (String (hex_digit (n mod 16)) rest))))).

Fixpoint escape_onto (s rest : string) : string :=
  match s with
  | EmptyString => rest
  | String c s => escape_char c (escape_onto s rest)
  end.

(** [json.dumps(s)] of a string, in front of [rest]. *)
Definition dumps_str (s rest : string) : string :=
  String quote (escape_onto s (String quote rest)).

Definition key_leb {A} (p q : string * A) : bool := String.leb p.1 q.1.

Section Writers.
(** Writers put text in front of what follows. *)
Implicit Types w : string -> string.

Fixpoint join_writers (first : bool) (l : list (string -> string)) (rest : string) : string :=
  match l with
  | [] => rest
  | w :: l => (if first then fun s => s else String ",") (w (join_writers false l rest))
  end.

Definition entry_writer (p : string * (string -> string)) (rest : string) : string :=
  dumps_str p.1 (String ":" (p.2 rest)).
End Writers.

Fixpoint dumps_onto (j : json) (rest : string) {struct j} : string :=
  match j with
  | JNull => "null" +:+ rest
  | JBool true => "true" +:+ rest
  | JBool false => "false" +:+ rest
  | JInt n => show_Z n +:+ rest
  | JFloat r => r +:+ rest
  | JStr s => dumps_str s rest
  | JList l => String "[" (join_writers true (map dumps_onto l) (String "]" rest))
  | JDict d =>
      String "{" (join_writers true
        (map entry_writer (py_sorted key_leb (map (fun p => (p.1, dumps_onto p.2)) d)))
        (String "}" rest))
  end.

(** [json.dumps(v, ensure_ascii=True, sort_keys=True, separators=(",", ":"))] *)
Definition canonical_dumps (j : json) : string := dumps_onto j EmptyString.

Example dumps_example :
  canonical_dumps (JDict [("b", JList [JInt 12; JNull; JStr "a\"]); ("a", JBool true)])
  = "{" +:+ dumps_str "a" (":true," +:+ dumps_str "b" (":[12,null," +:+ dumps_str "a\" "]}")).
Proof. by vm_compute. Qed.

(** [list(v)]: the items a [for] loop visits; a string yields its characters, a
    dict its keys. *)
Definition py_iter (j : json) : result (list json) :=
  match j with
  | JList l => Ok l
  | JStr s => Ok (map (fun c => JStr (String c EmptyString)) (String.list_ascii_of_string s))
  | JDict d => Ok (map (fun p => JStr p.1) d)
  | _ => raise TypeError "object is not iterable"
  end.

(** [v[k]] for a string key. *)
Definition py_item (j : json) (k : string) : result json :=
  match j with
  | JDict d => of_option KeyError "key" (get k d)
  | _ => raise TypeError "indices must be integers"
  end.

(** [v[:n]]; a dict is not sliceable (Python 3.11 raises [TypeError]). *)
Definition py_slice_to (j : json) (n : nat) : result json :=
  match j with
  | JList l => Ok (JList (take n l))
  | JStr s => Ok (JStr (str_take n s))
  | _ => raise TypeError "object is not subscriptable"
  end.

(** [json.dumps(v, sort_keys=sort)] with the default separators. *)
Fixpoint py_dumps (sort : bool) (j : json) : string :=
  match j with
  | JNull => "null"
  | JBool b => if b then "true" else "false"
  | JInt n => show_Z n
  | JFloat r => r
  | JStr s => dumps_str s EmptyString
  | JList l => "[" +:+ String.concat ", " (map (py_dumps sort) l) +:+ "]"
  | JDict d =>
      let entries := map (fun p => (p.1, py_dumps sort p.2)) d in
      let entries := if sort then py_sorted key_leb entries else entries in
      "{" +:+ String.concat ", " (map (fun p => dumps_str p.1 EmptyString +:+ ": " +:+ p.2) entries) +:+ "}"
  end.

(** ** Encoding appends *)

Lemma escape_onto_app s a b : escape_onto s a +:+ b = escape_onto s (a +:+ b).
Proof.
  induction s as [|c s IH]; [done|]. simpl. rewrite <- IH. unfold escape_char.
  repeat match goal with |- context [ if ?b then _ else _ ] => destruct b end; done.
Qed.

Lemma dumps_str_app s a b : dumps_str s a +:+ b = dumps_str s (a +:+ b).
Proof.
  unfold dumps_str. change (String quote ?x +:+ ?y) with (String quote (x +:+ y)).
  f_equal. by rewrite escape_onto_app.
Qed.

Definition appends (w : string -> string) : Prop := forall a b, w a +:+ b = w (a +:+ b).

Lemma join_writers_app first l : Forall appends l -> appends (join_writers first l).
Proof.
  intros H a b. revert first. induction H as [|w l Hw _ IH]; intros first; simpl; [done|].
  destruct first; simpl; [by rewrite Hw, IH|].
  change (String "," ?x +:+ b) with (String "," (x +:+ b)). by rewrite Hw, IH.
Qed.

Lemma dumps_onto_app j : appends (dumps_onto j).
Proof.
  induction j as [| [] | | | s | l IH | d IH] using json_ind'; intros a b; simpl;
    try (by rewrite <- ?string_app_assoc).
  - by apply dumps_str_app.
  - change (String ?c ?x +:+ b) with (String c (x +:+ b)). by rewrite join_writers_app by by apply Forall_map.
  - change (String ?c ?x +:+ b) with (String c (x +:+ b)). rewrite join_writers_app; [done|].
    apply Forall_map, Forall_forall. intros [k w] Hw x y. unfold entry_writer. simpl.
    apply elem_of_py_sorted, list_elem_of_fmap in Hw as ([k' v] & [= -> ->] & Hv).
    rewrite dumps_str_app. rewrite Forall_forall in IH. f_equal.
    change (String ?c ?x +:+ y) with (String c (x +:+ y)). by rewrite (IH _ Hv).
Qed.

Lemma dumps_onto_canonical j rest : dumps_onto j rest = canonical_dumps j +:+ rest.
Proof. unfold canonical_dumps. by rewrite dumps_onto_app. Qed.
