(* ===== verification/JsonText.v ===== *)
(** * JsonText: [json.loads]

    The decoder of the standard library's json module on texts of code points
    below 256: white space, literals, numbers, strings with their escapes, arrays
    and objects, with the hooks [object_pairs_hook] and [parse_constant].  A text
    it refuses raises [ValueError] ([JSONDecodeError] is one); an escape of a
    character from 256 on is [OutsideModel].  What [repr] makes of a number with a
    fraction or an exponent is the parameter [float_repr].

    Reading what [json.dumps] wrote gives the value back, with the keys of its
    objects in order; so equal canonical texts are texts of the same value. *)

From S2P Require Import Prelude PyDate Json.

Local Open Scope Z_scope.

Definition code (c : ascii) : Z := Z.of_N (N_of_ascii c).

Definition is_json_space (c : ascii) : bool := code c ∈? [32; 9; 10; 13].

Fixpoint skip_ws (s : string) : string :=
  match s with
  | String c t => if is_json_space c then skip_ws t else s
  | EmptyString => s
  end.

Definition hex_val (c : ascii) : option Z :=
  let n := code c in
  if (48 <=? n) && (n <=? 57) then Some (n - 48)
  else if (97 <=? n) && (n <=? 102) then Some (n - 87)
  else if (65 <=? n) && (n <=? 70) then Some (n - 55)
  else None.

Definition hex4 (a b c d : ascii) : option Z :=
  a ← hex_val a; b ← hex_val b; c ← hex_val c; d ← hex_val d;
  Some (4096 * a + 256 * b + 16 * c + d).

(** The character that follows a backslash, other than [u]. *)
Definition unescape (c : ascii) : option ascii :=
  let n := code c in
  if (n =? 34) || (n =? 92) || (n =? 47) then Some c
  else if n =? 98 then Some (ascii_of_N 8)
  else if n =? 102 then Some (ascii_of_N 12)
  else if n =? 110 then Some (ascii_of_N 10)
  else if n =? 114 then Some (ascii_of_N 13)
  else if n =? 116 then Some (ascii_of_N 9)
  else None.

Abbreviation bad_json := (raise ValueError "JSONDecodeError") (only parsing).

(** The characters up to the closing quote, and what follows it. *)
Fixpoint scan_string (s : string) : result (string * string) :=
  match s with
  | EmptyString => bad_json
  | String c s =>
      if code c =? 34 then Ok (EmptyString, s)
      else if code c =? 92 then
        match s with
        | EmptyString => bad_json
        | String e s =>
            if code e =? 117 then
              match s with
              | String a (String b (String c (String d s))) =>
                  match hex4 a b c d with
                  | Some v =>
                      if v <? 256 then '(t, r) ← scan_string s; Ok (String (ascii_of_N (Z.to_N v)) t, r)
                      else raise OutsideModel "character from 256 on"
                  | None => bad_json
                  end
              | _ => bad_json
              end
            else
              match unescape e with
              | Some x => '(t, r) ← scan_string s; Ok (String x t, r)
              | None => bad_json
              end
        end
      else if code c <? 32 then bad_json
      else '(t, r) ← scan_string s; Ok (String c t, r)
  end.

(** The digits at the front, and what follows them. *)
Fixpoint span_digits (s : string) : string * string :=
  match s with
  | EmptyString => (EmptyString, EmptyString)
  | String c t =>
      match digit_val c with
      | Some _ => let '(ds, r) := span_digits t in (String c ds, r)
      | None => (EmptyString, s)
      end
  end.

Definition digits_value (ds : string) : Z :=
  fold_left (fun acc c => 10 * acc + default 0 (digit_val c)) (String.list_ascii_of_string ds) 0.

Definition head_is (c : ascii) (s : string) : option string :=
  match s with String d t => if decide (d = c) then Some t else None | EmptyString => None end.

(** A fraction and an exponent with their digits, if the text has them here. *)
Definition scan_fraction (s : string) : string * string :=
  match head_is "." s with
  | Some t => let '(ds, r) := span_digits t in if ds =s "" then (EmptyString, s) else (String "." ds, r)
  | None => (EmptyString, s)
  end.

Definition scan_exponent (s : string) : string * string :=
  match s with
  | String e t =>
      if bool_decide (e = "e"%char) || bool_decide (e = "E"%char) then
        let '(sign, t) := match t with
          | String c u => if bool_decide (c = "-"%char) || bool_decide (c = "+"%char) then (String c EmptyString, u)
                          else (EmptyString, t)
          | EmptyString => (EmptyString, t)
          end in
        let '(ds, r) := span_digits t in
        if ds =s "" then (EmptyString, s) else (String e (sign +:+ ds), r)
      else (EmptyString, s)
  | EmptyString => (EmptyString, s)
  end.

Fixpoint strip_prefix (p s : string) : option string :=
  match p, s with
  | EmptyString, _ => Some s
  | String a p, String b s => if decide (a = b) then strip_prefix p s else None
  | _, _ => None
  end.

Section Loads.
Variable float_repr : string -> string.
Variable object_hook : list (string * json) -> result json.
Variable constant_hook : string -> result json.

(** A number: an optional sign, a zero or digits that do not begin with one, then
    the fraction and the exponent. *)
Definition scan_number (s : string) : option (json * string) :=
  let '(sign, t) := match head_is "-" s with Some t => ("-", t) | None => (EmptyString, s) end in
  let '(ds, r) := match t with
    | String c u => if decide (c = "0"%char) then (String c EmptyString, u) else span_digits t
    | EmptyString => (EmptyString, t)
    end in
  if ds =s "" then None
  else
    let '(fraction, r) := scan_fraction r in
    let '(exponent, r) := scan_exponent r in
    if (fraction =s "") && (exponent =s "") then
      Some (JInt (if sign =s "" then digits_value ds else - digits_value ds), r)
    else Some (JFloat (float_repr (sign +:+ ds +:+ fraction +:+ exponent)), r).

Definition scan_constant (s : string) : result (json * string) :=
  match strip_prefix "null" s, strip_prefix "true" s, strip_prefix "false" s with
  | Some r, _, _ => Ok (JNull, r)
  | _, Some r, _ => Ok (JBool true, r)
  | _, _, Some r => Ok (JBool false, r)
  | None, None, None =>
      match strip_prefix "NaN" s, strip_prefix "Infinity" s, strip_prefix "-Infinity" s with
      | Some r, _, _ => v ← constant_hook "NaN"; Ok (v, r)
      | _, Some r, _ => v ← constant_hook "Infinity"; Ok (v, r)
      | _, _, Some r => v ← constant_hook "-Infinity"; Ok (v, r)
      | None, None, None => match scan_number s with Some x => Ok x | None => bad_json end
      end
  end.

Fixpoint parse_value (fuel : nat) (s : string) {struct fuel} : result (json * string) :=
  match fuel with
  | O => raise Diverges "fuel"
  | S fuel =>
      match head_is quote s, head_is "{" s, head_is "[" s with
      | Some r, _, _ => '(t, r) ← scan_string r; Ok (JStr t, r)
      | _, Some r, _ =>
          let r := skip_ws r in
          match head_is "}" r with
          | Some r => v ← object_hook []; Ok (v, r)
          | None => '(pairs, r) ← parse_members fuel r; v ← object_hook pairs; Ok (v, r)
          end
      | _, _, Some r =>
          let r := skip_ws r in
          match head_is "]" r with
          | Some r => Ok (JList [], r)
          | None => '(l, r) ← parse_elements fuel r; Ok (JList l, r)
          end
      | None, None, None => scan_constant s
      end
  end
with parse_members (fuel : nat) (s : string) {struct fuel} : result (list (string * json) * string) :=
  match fuel with
  | O => raise Diverges "fuel"
  | S fuel =>
      match head_is quote s with
      | None => bad_json
      | Some r =>
          '(k, r) ← scan_string r;
          match head_is ":" (skip_ws r) with
          | None => bad_json
          | Some r =>
              '(v, r) ← parse_value fuel (skip_ws r);
              let r := skip_ws r in
              match head_is "}" r, head_is "," r with
              | Some r, _ => Ok ([(k, v)], r)
              | _, Some r => '(pairs, r) ← parse_members fuel (skip_ws r); Ok ((k, v) :: pairs, r)
              | None, None => bad_json
              end
          end
      end
  end
with parse_elements (fuel : nat) (s : string) {struct fuel} : result (list json * string) :=
  match fuel with
  | O => raise Diverges "fuel"
  | S fuel =>
      '(v, r) ← parse_value fuel s;
      let r := skip_ws r in
      match head_is "]" r, head_is "," r with
      | Some r, _ => Ok ([v], r)
      | _, Some r => '(l, r) ← parse_elements fuel (skip_ws r); Ok (v :: l, r)
      | None, None => bad_json
      end
  end.

(** Two units of fuel for each character are enough: of two nested calls, one
    reads a character. *)
Definition loads_with (s : string) : result json :=
  '(v, r) ← parse_value (2 + 2 * String.length s) (skip_ws s);
  if skip_ws r =s "" then Ok v else bad_json.
End Loads.

(** [json.loads(s)] *)
Definition constant_repr (c : string) : string :=
  if c =s "NaN" then "nan" else if c =s "Infinity" then "inf" else "-inf".

Definition json_loads (float_repr : string -> string) : string -> result json :=
  loads_with float_repr (fun pairs => Ok (JDict (dict_merge [] pairs))) (fun c => Ok (JFloat (constant_repr c))).

(** [json.dumps(value, ensure_ascii=True, sort_keys=True, separators=(",", ":"),
    allow_nan=False)] *)
Fixpoint finite (j : json) : bool :=
  match j with
  | JFloat r => negb (r ∈? ["nan"; "inf"; "-inf"])
  | JList l => forallb finite l
  | JDict d => forallb (fun p => finite p.2) d
  | _ => true
  end.

Definition canonical_json (j : json) : result string :=
  _ ← ensure (finite j) ValueError "Out of range float values are not JSON compliant";
  Ok (canonical_dumps j).

(** With the hooks of storage/receipt_crypto.py and storage/verified_receipt.py,
    which refuse a repeated key and a constant that is not finite with an
    exception of their own. *)
Definition strict_loads (refused : exn_class) (float_repr : string -> string) : string -> result json :=
  loads_with float_repr
    (fun pairs => if bool_decide (NoDup (map fst pairs)) then Ok (JDict pairs)
                  else raise refused "duplicate key")
    (fun _ => raise refused "non-finite value").


Local Definition q : string := String quote EmptyString.

Example loads_values :
  json_loads id (" { " +:+ q +:+ "a" +:+ q +:+ " : [1, -20, true, null,1.50E3, {}],  " +:+ q +:+ "b\u0041\n" +:+ q
    +:+ ":" +:+ q +:+ q +:+ ", " +:+ q +:+ "a" +:+ q +:+ ": NaN} ")
  = Ok (JDict [("a", JFloat "nan"); ("bA" +:+ String (ascii_of_N 10) EmptyString, JStr "")]).
Proof. by vm_compute. Qed.

Example loads_numbers : json_loads id "[0, -0, 12.5, 1e5, 10]"
  = Ok (JList [JInt 0; JInt 0; JFloat "12.5"; JFloat "1e5"; JInt 10]).
Proof. by vm_compute. Qed.

Example loads_refused :
  map (fun s => is_Ok (json_loads id s)) ["01"; "[1,]"; "{1:2}"; "1 2"; ""; "-"; "1."; "nul"; "[1 2]"]
  = [false; false; false; false; false; false; false; false; false].
Proof. by vm_compute. Qed.

(** ** Reading strings and numbers back *)

Lemma scan_escaped c t :
  scan_string (escape_char c t) = ('(u, r) ← scan_string t; Ok (String c u, r)).
Proof. destruct c as [[] [] [] [] [] [] [] []]; reflexivity. Qed.

Lemma scan_dumped s rest : scan_string (escape_onto s (String quote rest)) = Ok (s, rest).
Proof. induction s as [|c s IH]; simpl; [done|]. by rewrite scan_escaped, IH. Qed.

(** What follows a value in a canonical text. *)
Definition delimited (rest : string) : Prop :=
  match rest with EmptyString => True | String c _ => c = ","%char \/ c = "]"%char \/ c = "}"%char end.

(** The decimal text of a number. *)
Record decimal (ds : string) (n : Z) : Prop := mkDecimal {
  dc_span : forall rest, delimited rest -> span_digits (ds +:+ rest) = (ds, rest);
  dc_value : digits_value ds = n;
  dc_zero : n = 0 -> ds = "0";
  dc_head : n <> 0 -> exists c t, ds = String c t /\ c <> "0"%char /\ digit_val c <> None;
}.

Lemma span_delimited rest : delimited rest -> span_digits rest = (EmptyString, rest).
Proof. by destruct rest as [|c rest]; [|intros [->|[->| ->]]]. Qed.

Lemma digits_value_snoc ds k : 0 <= k <= 9 ->
  digits_value (ds +:+ String (digit k) EmptyString) = 10 * digits_value ds + k.
Proof.
  intros Hk. unfold digits_value.
  assert (E : forall s t, String.list_ascii_of_string (s +:+ t) =
    String.list_ascii_of_string s ++ String.list_ascii_of_string t).
  { induction s as [|c s IH]; intros t; [done|]. simpl. by rewrite IH. }
  rewrite E, fold_left_app. simpl. by rewrite digit_val_digit by lia.
Qed.

Lemma span_app_digit ds k : 0 <= k <= 9 ->
  (forall rest, delimited rest -> span_digits (ds +:+ rest) = (ds, rest)) ->
  forall rest, delimited rest -> span_digits (ds +:+ String (digit k) rest) = (ds +:+ String (digit k) EmptyString, rest).
Proof.
  intros Hk. induction ds as [|c ds IH]; intros H rest Hr.
  - simpl. rewrite digit_val_digit by lia. by rewrite span_delimited.
  - pose proof (H EmptyString I) as Hc. simpl in Hc |- *. destruct (digit_val c) as [v|] eqn:Ev; [|done].
    rewrite IH; [done| |done]. intros rest' Hr'. specialize (H rest' Hr'). simpl in H. rewrite Ev in H.
    by destruct (span_digits (ds +:+ rest')); simplify_eq.
Qed.

Lemma digit_nonzero k : 0 < k <= 9 -> digit k <> "0"%char.
Proof.
  intros Hk. assert (k = 1 \/ k = 2 \/ k = 3 \/ k = 4 \/ k = 5 \/ k = 6 \/ k = 7 \/ k = 8 \/ k = 9) by lia.
  by destruct_or!; subst.
Qed.

Lemma digits_onto_decimal fuel n acc : 0 <= n < 2 ^ Z.of_nat fuel -> (0 < fuel)%nat ->
  exists ds, digits_onto fuel n acc = ds +:+ acc /\ decimal ds n.
Proof.
  revert n acc. induction fuel as [|fuel IH]; intros n acc Hn Hf; [lia|]. simpl.
  pose proof (Z.mod_pos_bound n 10 ltac:(lia)) as Hm. destruct (n <? 10) eqn:E.
  - apply Z.ltb_lt in E. rewrite Z.mod_small by lia. exists (String (digit n) EmptyString). split; [done|].
    split.
    + intros rest Hr. simpl. rewrite digit_val_digit by lia. by rewrite span_delimited.
    + unfold digits_value. simpl. by rewrite digit_val_digit by lia.
    + by intros ->.
    + intros Hz. exists (digit n), EmptyString. split; [done|]. split; [apply digit_nonzero; lia|].
      by rewrite digit_val_digit by lia.
  - apply Z.ltb_ge in E. rewrite Nat2Z.inj_succ, Z.pow_succ_r in Hn by lia.
    pose proof (Z.div_mod n 10 ltac:(lia)) as Hd.
    destruct fuel as [|fuel']; [simpl in Hn; lia|].
    assert (0 < 2 ^ Z.of_nat (S fuel')) by (apply Z.pow_pos_nonneg; lia).
    destruct (IH (n / 10) (String (digit (n mod 10)) acc)) as (ds & -> & Hs); [lia|lia|].
    exists (ds +:+ String (digit (n mod 10)) EmptyString). split; [by rewrite <- string_app_assoc|]. split.
    + intros rest Hr. rewrite <- string_app_assoc. change (String ?c EmptyString +:+ rest) with (String c rest).
      apply span_app_digit; [lia|apply dc_span with (n / 10)|]; done.
    + rewrite digits_value_snoc by lia. rewrite (dc_value _ _ Hs). lia.
    + lia.
    + intros _. destruct (dc_head _ _ Hs) as (c & t & -> & Hc & Hv); [lia|]. by exists c, (t +:+ String (digit (n mod 10)) EmptyString).
Qed.

Lemma show_nonneg_decimal n : 0 <= n -> decimal (show_nonneg n) n.
Proof.
  intros Hn. unfold show_nonneg.
  destruct (digits_onto_decimal (S (Z.to_nat (Z.log2 n))) n EmptyString) as (ds & -> & H); [|lia|].
  - rewrite Nat2Z.inj_succ, Z2Nat.id by apply Z.log2_nonneg.
    destruct (decide (n = 0)) as [->|]; [done|]. pose proof (Z.log2_spec n). lia.
  - by rewrite string_app_nil_r.
Qed.

Lemma delimited_plain rest : delimited rest ->
  scan_fraction rest = (EmptyString, rest) /\ scan_exponent rest = (EmptyString, rest).
Proof. by destruct rest as [|c rest]; [|intros [->|[->| ->]]]. Qed.

#[local] Arguments scan_fraction : simpl never.
#[local] Arguments scan_exponent : simpl never.
#[local] Arguments span_digits : simpl never.

Lemma scan_decimal float_repr ds n rest : decimal ds n -> delimited rest ->
  scan_number float_repr (ds +:+ rest) = Some (JInt n, rest) /\
  scan_number float_repr (String "-" (ds +:+ rest)) = Some (JInt (- n), rest).
Proof.
  intros Hd Hr. destruct (delimited_plain rest Hr) as [Hf He]. pose proof (dc_span _ _ Hd rest Hr) as Hs.
  assert (Hv : digits_value ds = n) by apply Hd.
  destruct (decide (n = 0)) as [->|Hn].
  - rewrite (dc_zero _ _ Hd) by done. unfold scan_number. simpl.
    change (EmptyString +:+ rest) with rest. by rewrite Hf, He.
  - destruct (dc_head _ _ Hd Hn) as (c & t & -> & Hc & Hdc). unfold scan_number.
    change (String c t +:+ rest) with (String c (t +:+ rest)) in *.
    assert (Hm : head_is "-" (String c (t +:+ rest)) = None).
    { simpl. rewrite decide_False; [done|]. by intros ->. }
    rewrite Hm. cbn [head_is].
    rewrite (decide_True (P := "-"%char = "-"%char)), !(decide_False (P := c = "0"%char)), !Hs by done.
    rewrite !(bool_decide_eq_false_2 (String c t = EmptyString)) by done. by rewrite Hf, He, Hv.
Qed.

#[local] Arguments span_digits !s /.

Lemma scan_integer float_repr n rest : delimited rest ->
  scan_number float_repr (show_Z n +:+ rest) = Some (JInt n, rest).
Proof.
  intros Hr. unfold show_Z. destruct (n <? 0) eqn:E.
  - apply Z.ltb_lt in E. change (String "-" ?s +:+ rest) with (String "-" (s +:+ rest)).
    destruct (scan_decimal float_repr _ _ rest (show_nonneg_decimal (- n) ltac:(lia)) Hr) as [_ ->].
    by rewrite Z.opp_involutive.
  - apply Z.ltb_ge in E. by destruct (scan_decimal float_repr _ _ rest (show_nonneg_decimal n E) Hr) as [-> _].
Qed.

(** A number begins with a minus sign or a digit. *)
Lemma show_Z_head n : exists c t, show_Z n = String c t /\ (c = "-"%char \/ digit_val c <> None).
Proof.
  unfold show_Z. destruct (n <? 0) eqn:E; [by repeat eexists; left|]. apply Z.ltb_ge in E.
  pose proof (show_nonneg_decimal n E) as Hd. destruct (decide (n = 0)) as [->|Hn].
  - exists "0"%char, EmptyString. split; [done|by right].
  - destruct (dc_head _ _ Hd Hn) as (c & t & -> & _ & Hc). exists c, t. split; [done|by right].
Qed.

(** ** Round trip *)

(** The value with the keys of its objects in order. *)
Fixpoint canon (j : json) : json :=
  match j with
  | JList l => JList (map canon l)
  | JDict d => JDict (py_sorted key_leb (map (fun p => (p.1, canon p.2)) d))
  | _ => j
  end.

(** Values without floats, whose objects have distinct keys. *)
Fixpoint plain (j : json) : bool :=
  match j with
  | JFloat _ => false
  | JList l => forallb plain l
  | JDict d => bool_decide (NoDup (map fst d)) && forallb (fun p => plain p.2) d
  | _ => true
  end.

(** Fuel that is enough to read a value back. *)
Fixpoint need (j : json) : nat :=
  match j with
  | JList l => S (list_sum (map (fun v => S (need v)) l))
  | JDict d => S (list_sum (map (fun p => S (need p.2)) d))
  | _ => 1
  end.

Lemma insert_sorted_map {A B} (f : A -> B) (leb : A -> A -> bool) (leb' : B -> B -> bool) x l :
  (forall a b, leb' (f a) (f b) = leb a b) ->
  insert_sorted leb' (f x) (map f l) = map f (insert_sorted leb x l).
Proof. intros H. induction l as [|y l IH]; simpl; [done|]. rewrite H. destruct (leb x y); simpl; [done|]. by rewrite IH. Qed.

Lemma py_sorted_map {A B} (f : A -> B) (leb : A -> A -> bool) (leb' : B -> B -> bool) l :
  (forall a b, leb' (f a) (f b) = leb a b) -> py_sorted leb' (map f l) = map f (py_sorted leb l).
Proof.
  intros H. induction l as [|x l IH]; simpl; [done|]. by rewrite IH, (insert_sorted_map f leb).
Qed.

(** The members of an object in the order they are written. *)
Abbreviation sorted_members d := (py_sorted key_leb d) (only parsing).

Lemma canon_dict d : canon (JDict d) = JDict (map (fun p => (p.1, canon p.2)) (sorted_members d)).
Proof. simpl. by rewrite (py_sorted_map _ key_leb). Qed.

Lemma dumps_dict d rest : dumps_onto (JDict d) rest =
  String "{" (join_writers true (map (fun p => entry_writer (p.1, dumps_onto p.2)) (sorted_members d)) (String "}" rest)).
Proof.
  simpl. rewrite (py_sorted_map (fun p => (p.1, dumps_onto p.2)) key_leb) by done. by rewrite map_map.
Qed.

Lemma insert_sorted_keys {A} (x : string * A) l :
  map fst (insert_sorted key_leb x l) = insert_sorted String.leb x.1 (map fst l).
Proof. induction l as [|y l IH]; simpl; [done|]. unfold key_leb at 1. destruct (String.leb x.1 y.1); simpl; [done|]. by rewrite IH. Qed.

Section RoundTrip.
Context (float_repr : string -> string) (object_hook : list (string * json) -> result json)
  (constant_hook : string -> result json)
  (hook_distinct : forall pairs, NoDup (map fst pairs) -> object_hook pairs = Ok (JDict pairs)).

Abbreviation read_value := (parse_value float_repr object_hook constant_hook).
Abbreviation read_members := (parse_members float_repr object_hook constant_hook).
Abbreviation read_elements := (parse_elements float_repr object_hook constant_hook).

Definition reads_back (j : json) : Prop := forall fuel rest, (need j <= fuel)%nat -> delimited rest ->
  read_value fuel (dumps_onto j rest) = Ok (canon j, rest).

(** How the text of a value begins. *)
Definition opens (s : string) : Prop :=
  exists c t, s = String c t /\ is_json_space c = false /\ c <> "]"%char /\ c <> "}"%char.

Lemma opens_skip s : opens s -> skip_ws s = s.
Proof. intros (c & t & -> & Hc & _). simpl. by rewrite Hc. Qed.

Lemma opens_close s : opens s -> head_is "]" s = None /\ head_is "}" s = None.
Proof. intros (c & t & -> & _ & H1 & H2). simpl. by rewrite !decide_False. Qed.

Lemma number_opens c : c = "-"%char \/ digit_val c <> None ->
  is_json_space c = false /\ c <> "]"%char /\ c <> "}"%char /\ c <> quote /\ c <> "{"%char /\ c <> "["%char /\
  c <> "n"%char /\ c <> "t"%char /\ c <> "f"%char /\ c <> "N"%char /\ c <> "I"%char.
Proof.
  intros H. destruct c as [[] [] [] [] [] [] [] []];
    first [by repeat split | exfalso; destruct H as [H|H]; [done|by apply H]].
Qed.

Lemma scan_constant_integer n rest : delimited rest ->
  scan_constant float_repr constant_hook (show_Z n +:+ rest) = Ok (JInt n, rest).
Proof.
  intros Hr. pose proof (scan_integer float_repr n rest Hr) as Hs. unfold scan_constant. rewrite Hs.
  assert (Hm : strip_prefix "-Infinity" (show_Z n +:+ rest) = None).
  { unfold show_Z. destruct (n <? 0) eqn:E; apply Z.ltb_lt in E || apply Z.ltb_ge in E.
    - destruct (dc_head _ _ (show_nonneg_decimal (- n) ltac:(lia)) ltac:(lia)) as (c & t & -> & _ & Hc).
      simpl. rewrite decide_False; [done|]. intros <-. by apply Hc.
    - destruct (decide (n = 0)) as [->|Hn]; [done|].
      destruct (dc_head _ _ (show_nonneg_decimal n E) Hn) as (c & t & -> & _ & Hc).
      simpl. rewrite decide_False; [done|]. intros <-. by apply Hc. }
  rewrite Hm. destruct (show_Z_head n) as (c & t & -> & Hc).
  destruct (number_opens c Hc) as (_ & _ & _ & _ & _ & _ & H4 & H5 & H6 & H7 & H8).
  simpl. by rewrite !decide_False by done.
Qed.

Lemma dumps_opens j rest : plain j = true -> opens (dumps_onto j rest).
Proof.
  destruct j as [|[]|n| |s|l|d]; intros Hj; try done; try (by repeat eexists).
  destruct (show_Z_head n) as (c & t & E & Hc). simpl. rewrite E. exists c, (t +:+ rest). split; [done|].
  by destruct (number_opens c Hc) as (? & ? & ? & _).
Qed.

Lemma read_elements_back l fuel rest : l <> [] -> Forall reads_back l -> forallb plain l = true ->
  (list_sum (map (fun v => S (need v)) l) <= fuel)%nat ->
  read_elements fuel (join_writers true (map dumps_onto l) (String "]" rest)) = Ok (map canon l, rest).
Proof.
  intros Hl Hr. revert fuel Hl. induction Hr as [|v l Hv Hr IH]; intros fuel Hl Hp Hf; [done|].
  simpl in Hp, Hf. apply andb_true_iff in Hp as [Hpv Hpl]. destruct fuel as [|fuel]; [lia|]. simpl.
  destruct l as [|u l].
  - simpl. rewrite Hv; [done|simpl in Hf; lia|simpl; tauto].
  - change (join_writers false (map dumps_onto (u :: l)) (String "]" rest))
      with (String "," (join_writers true (map dumps_onto (u :: l)) (String "]" rest))).
    rewrite Hv by first [lia|by left]. cbn [mbind result_bind].
    change (skip_ws (String "," ?s)) with (String "," s). cbn [head_is]. rewrite decide_False, decide_True by done.
    rewrite opens_skip.
    + rewrite IH; [done|done|done|lia].
    + apply dumps_opens. simpl in Hpl. by apply andb_true_iff in Hpl as [? _].
Qed.

Lemma read_members_back d fuel rest : d <> [] -> Forall (fun p => reads_back p.2) d ->
  forallb (fun p => plain p.2) d = true -> (list_sum (map (fun p => S (need p.2)) d) <= fuel)%nat ->
  read_members fuel (join_writers true (map (fun p => entry_writer (p.1, dumps_onto p.2)) d) (String "}" rest))
  = Ok (map (fun p => (p.1, canon p.2)) d, rest).
Proof.
  intros Hl Hr. revert fuel Hl. induction Hr as [|[k v] d Hv Hr IH]; intros fuel Hl Hp Hf; [done|].
  simpl in Hp, Hf, Hv. apply andb_true_iff in Hp as [Hpv Hpl]. destruct fuel as [|fuel]; [lia|]. simpl.
  unfold entry_writer at 1. simpl. rewrite scan_dumped. cbn [mbind result_bind]. change (skip_ws (String ":" ?s)) with (String ":" s).
  cbn [head_is]. rewrite decide_True by done. rewrite opens_skip by by apply dumps_opens.
  destruct d as [|p d].
  - simpl. rewrite Hv; [done|simpl in Hf; lia|simpl; tauto].
  - set (l := p :: d) in *.
    change (join_writers false (map ?f l) ?r) with (String "," (join_writers true (map f l) r)).
    rewrite Hv by first [lia|by left]. cbn [mbind result_bind].
    change (skip_ws (String "," ?s)) with (String "," s). cbn [head_is]. rewrite decide_False, decide_True by done.
    change (skip_ws (join_writers true (map (fun p => entry_writer (p.1, dumps_onto p.2)) l) ?r))
      with (join_writers true (map (fun p => entry_writer (p.1, dumps_onto p.2)) l) r).
    rewrite IH; [done|done|done|lia].
Qed.

Lemma need_sorted d : list_sum (map (fun p => S (need p.2)) (py_sorted key_leb d)) =
  list_sum (map (fun p => S (need p.2)) d).
Proof. apply Permutation_list_sum. apply Permutation_map, py_sorted_perm. Qed.

Lemma plain_sorted d : forallb (fun p => plain p.2) (py_sorted key_leb d) = forallb (fun p : string * json => plain p.2) d.
Proof.
  apply Bool.eq_iff_eq_true. rewrite !forallb_forall. setoid_rewrite <- list_elem_of_In.
  by setoid_rewrite elem_of_py_sorted.
Qed.

Lemma plain_reads_back j : plain j = true -> reads_back j.
Proof.
  induction j as [|b|n|r|s|l IH|d IH] using json_ind'; intros Hp fuel rest Hf Hr; (destruct fuel as [|fuel]; [simpl in Hf; lia|]).
  - done.
  - by destruct b.
  - simpl. destruct (show_Z_head n) as (c & t & E & Hc).
    rewrite scan_constant_integer by done. rewrite E.
    destruct (number_opens c Hc) as (_ & _ & _ & H1 & H2 & H3 & _). simpl. by rewrite !decide_False.
  - done.
  - cbn [dumps_onto]. unfold dumps_str. simpl. by rewrite scan_dumped.
  - simpl in Hp, Hf. simpl. destruct l as [|v l]; [done|].
    change (skip_ws (join_writers true (map dumps_onto (v :: l)) ?r))
      with (skip_ws (dumps_onto v (join_writers false (map dumps_onto l) r))).
    assert (Ho : forall r, opens (dumps_onto v r)) by (intros r; apply dumps_opens; simpl in Hp; by apply andb_true_iff in Hp as [? _]).
    rewrite opens_skip by done. destruct (opens_close _ (Ho (join_writers false (map dumps_onto l) (String "]" rest)))) as [-> _].
    change (dumps_onto v (join_writers false (map dumps_onto l) ?r)) with (join_writers true (map dumps_onto (v :: l)) r).
    rewrite read_elements_back; [done|done| |done|simpl in *; lia].
    rewrite Forall_forall in IH |- *. intros u Hu. apply IH; [done|]. rewrite forallb_forall in Hp. by apply Hp, list_elem_of_In.
  - rewrite canon_dict, dumps_dict. simpl in Hp, Hf. apply andb_true_iff in Hp as [Hn Hp]. bools.
    assert (Hperm := py_sorted_perm key_leb d). simpl.
    assert (Hs : NoDup (map fst (map (fun p => (p.1, canon p.2)) (py_sorted key_leb d)))).
    { rewrite map_map. change (map (fun p => (p.1, canon p.2).1) ?l) with (map fst l). by rewrite Hperm. }
    destruct (py_sorted key_leb d) as [|p s] eqn:Es.
    + simpl. by rewrite hook_distinct.
    + change (skip_ws (join_writers true (map ?f (p :: s)) ?r)) with (join_writers true (map f (p :: s)) r).
      change (head_is "}" (join_writers true (map ?f (p :: s)) ?r)) with (@None string).
      cbn match. rewrite <- Es in *. rewrite read_members_back.
      * cbn [mbind result_bind]. by rewrite hook_distinct.
      * by rewrite Es.
      * rewrite Hperm. rewrite Forall_forall in IH |- *. intros u Hu. apply IH; [done|]. rewrite forallb_forall in Hp. by apply Hp, list_elem_of_In.
      * by rewrite plain_sorted.
      * rewrite need_sorted. lia.
Qed.

(** ** The fuel is enough *)

Lemma escape_char_length c t : (String.length t < String.length (escape_char c t))%nat.
Proof.
  unfold escape_char. repeat match goal with |- context [ if ?b then _ else _ ] => destruct b end; simpl; lia.
Qed.

Lemma dumps_str_length s rest : (2 + String.length rest <= String.length (dumps_str s rest))%nat.
Proof.
  unfold dumps_str. simpl. assert (H : (String.length (String quote rest) <= String.length (escape_onto s (String quote rest)))%nat).
  { induction s as [|c s IH]; simpl in *; [lia|]. pose proof (escape_char_length c (escape_onto s (String quote rest))). lia. }
  simpl in H. lia.
Qed.

(** What [w] writes in front is worth [n] units. *)
Definition worth (n : nat) (w : string -> string) : Prop :=
  forall r, (n + 2 * String.length r <= 2 * String.length (w r))%nat.

Lemma join_worth {A} (n : A -> nat) (w : A -> string -> string) l first r :
  (forall x, x ∈ l -> worth (n x) (w x)) ->
  (list_sum (map (fun x => S (n x)) l) + 2 * String.length r <=
   2 * String.length (join_writers first (map w l) r) + if first then 1 else 0)%nat.
Proof.
  revert first. induction l as [|x l IH]; intros first H; simpl; [lia|].
  specialize (IH false ltac:(intros y Hy; apply H; by right)).
  pose proof (H x ltac:(by left) (join_writers false (map w l) r)). destruct first; simpl in *; lia.
Qed.

Lemma need_worth j : plain j = true -> worth (need j) (dumps_onto j).
Proof.
  induction j as [|b|n|t|s|l IH|d IH] using json_ind'; intros Hp r.
  - simpl. rewrite length_string_app. simpl. lia.
  - destruct b; simpl; rewrite length_string_app; simpl; lia.
  - destruct (show_Z_head n) as (c & t & E & _). simpl. rewrite length_string_app, E. simpl. lia.
  - done.
  - pose proof (dumps_str_length s r). simpl in *. lia.
  - simpl in Hp |- *. pose proof (join_worth need dumps_onto l true (String "]" r)) as H. simpl in H.
    enough (forall x, x ∈ l -> worth (need x) (dumps_onto x)) by (specialize (H ltac:(done)); lia).
    intros v Hv. rewrite Forall_forall in IH. apply IH; [done|].
    rewrite forallb_forall in Hp. by apply Hp, list_elem_of_In.
  - rewrite dumps_dict. simpl in Hp. apply andb_true_iff in Hp as [_ Hp].
    pose proof (join_worth (fun p => need p.2) (fun p => entry_writer (p.1, dumps_onto p.2)) (py_sorted key_leb d) true
      (String "}" r)) as H. rewrite need_sorted in H. simpl in *.
    match type of H with (?P -> _) => enough P by (specialize (H ltac:(done)); lia) end.
    intros [k v] Hv%elem_of_py_sorted r'. unfold entry_writer. simpl.
    rewrite Forall_forall in IH. rewrite forallb_forall in Hp.
    pose proof (IH _ Hv (Hp _ (proj1 (list_elem_of_In _ _) Hv)) r').
    pose proof (dumps_str_length k (String ":" (dumps_onto v r'))). simpl in *. lia.
Qed.

Lemma loads_with_dumps j : plain j = true ->
  loads_with float_repr object_hook constant_hook (canonical_dumps j) = Ok (canon j).
Proof.
  intros Hp. unfold loads_with, canonical_dumps. rewrite opens_skip by by apply dumps_opens.
  rewrite plain_reads_back; [done|done| |done]. pose proof (need_worth j Hp EmptyString). simpl in *. lia.
Qed.
End RoundTrip.

(** ** Termination *)

Definition halts {A} (r : result A) : Prop :=
  match r with Ok _ => True | Err e => exn_kind e <> Diverges end.

(** Halts, and what is left of the text has at most [n] characters. *)
Definition leaves {A} (n : nat) (r : result (A * string)) : Prop :=
  match r with Ok (_, rest) => (String.length rest <= n)%nat | Err e => exn_kind e <> Diverges end.

Lemma leaves_weaken {A} n m (r : result (A * string)) : leaves n r -> (n <= m)%nat -> leaves m r.
Proof. destruct r as [[]|]; simpl; [lia|done]. Qed.

Lemma leaves_bind {A B} n (r : result (A * string)) (f : A -> string -> result (B * string)) m :
  leaves n r -> (forall a rest, (String.length rest <= n)%nat -> leaves m (f a rest)) ->
  leaves m ('(a, rest) ← r; f a rest).
Proof. destruct r as [[a rest]|]; simpl; auto. Qed.

Lemma skip_ws_length s : (String.length (skip_ws s) <= String.length s)%nat.
Proof. induction s as [|c s IH]; simpl; [lia|]. destruct (is_json_space c); simpl; lia. Qed.

Lemma head_is_length c s t : head_is c s = Some t -> String.length s = S (String.length t).
Proof. destruct s as [|d s]; simpl; [done|]. case_decide; [|done]. by intros [= ->]. Qed.

Lemma strip_prefix_length p s t : strip_prefix p s = Some t -> (String.length t + String.length p = String.length s)%nat.
Proof.
  revert s. induction p as [|a p IH]; intros s; simpl; [intros [= ->]; lia|].
  destruct s as [|b s]; [done|]. case_decide; [|done]. intros E%IH. simpl. lia.
Qed.

Lemma span_digits_length s ds r : span_digits s = (ds, r) -> (String.length ds + String.length r = String.length s)%nat.
Proof.
  revert ds r. induction s as [|c s IH]; intros ds r; simpl.
  - intros E. by simplify_eq.
  - destruct (digit_val c); [|intros E; by simplify_eq]. destruct (span_digits s) as [ds' r']. intros E.
    simplify_eq. simpl. f_equal. by apply IH.
Qed.

Lemma scan_string_leaves_le k s n : (String.length s <= k)%nat -> (String.length s <= S n)%nat ->
  leaves n (scan_string s).
Proof.
  revert s n. induction k as [|k IH]; intros [|c s] n Hk Hn; simpl in Hk; try done; [lia|]. simpl in Hn |- *.
  assert (Hrec : forall t (x : ascii), (String.length t <= String.length s)%nat ->
    leaves n ('(u, r) ← scan_string t; Ok (String x u, r))).
  { intros t x Ht. eapply leaves_bind; [|intros a rest Hr; simpl; exact Hr]. apply IH; lia. }
  destruct (code c =? 34); [simpl; lia|]. destruct (code c =? 92).
  - destruct s as [|e s]; [done|]. destruct (code e =? 117).
    + destruct s as [|a [|b [|c' [|d s]]]]; try done. destruct (hex4 a b c' d); [|done].
      destruct (_ <? 256); [|done]. apply Hrec; simpl; lia.
    + destruct (unescape e); [|done]. apply Hrec; simpl; lia.
  - destruct (code c <? 32); [done|]. by apply Hrec.
Qed.

Lemma scan_string_leaves s n : (String.length s <= S n)%nat -> leaves n (scan_string s).
Proof. by apply (scan_string_leaves_le (String.length s)). Qed.

Lemma scan_fraction_length s f r : scan_fraction s = (f, r) -> (String.length r <= String.length s)%nat.
Proof.
  unfold scan_fraction. destruct (head_is "." s) as [t|] eqn:E; [|by intros ?; simplify_eq].
  apply head_is_length in E. destruct (span_digits t) as [ds r'] eqn:Es. apply span_digits_length in Es.
  destruct (ds =s ""); intros ?; simplify_eq; lia.
Qed.

Lemma scan_exponent_length s f r : scan_exponent s = (f, r) -> (String.length r <= String.length s)%nat.
Proof.
  unfold scan_exponent. destruct s as [|e t]; [intros ?; by simplify_eq|].
  destruct (_ || _); [|by intros ?; simplify_eq].
  assert (H : exists sign u, (match t with
          | String c u => if bool_decide (c = "-"%char) || bool_decide (c = "+"%char) then (String c EmptyString, u)
                          else (EmptyString, t)
          | EmptyString => (EmptyString, t)
          end) = (sign, u) /\ (String.length u <= String.length t)%nat).
  { destruct t as [|c u]; [by repeat eexists|]. destruct (_ || _); repeat eexists; simpl; lia. }
  destruct H as (sign & u & -> & Hu). destruct (span_digits u) as [ds r'] eqn:Es. apply span_digits_length in Es.
  destruct (ds =s ""); intros ?; simplify_eq; simpl; lia.
Qed.

Lemma scan_number_length float_repr s v r : scan_number float_repr s = Some (v, r) ->
  (String.length r < String.length s)%nat.
Proof.
  unfold scan_number.
  assert (H : exists sign t, (match head_is "-" s with Some t => ("-", t) | None => (EmptyString, s) end) = (sign, t) /\
    (String.length t <= String.length s)%nat).
  { destruct (head_is "-" s) eqn:E; [apply head_is_length in E|]; repeat eexists; lia. }
  destruct H as (sign & t & -> & Ht).
  destruct (match t with String c u => if decide (c = "0"%char) then (String c EmptyString, u) else span_digits t
            | EmptyString => (EmptyString, t) end) as [ds r1] eqn:Ed.
  destruct (ds =s "") eqn:E0; [done|]. bools.
  assert (Hr1 : (String.length r1 < String.length t)%nat).
  { destruct t as [|c u]; [by simplify_eq|]. case_decide; [simplify_eq; simpl; lia|].
    apply span_digits_length in Ed. destruct ds; simpl in *; [done|lia]. }
  destruct (scan_fraction r1) as [f r2] eqn:Ef. apply scan_fraction_length in Ef.
  destruct (scan_exponent r2) as [x r3] eqn:Ex. apply scan_exponent_length in Ex.
  destruct (_ && _); intros [= _ <-]; lia.
Qed.

Section Terminates.
Context (float_repr : string -> string) (object_hook : list (string * json) -> result json)
  (constant_hook : string -> result json)
  (object_halts : forall pairs, halts (object_hook pairs)) (constant_halts : forall c, halts (constant_hook c)).

Lemma scan_constant_leaves s n : (String.length s <= S n)%nat -> leaves n (scan_constant float_repr constant_hook s).
Proof.
  intros Hn. unfold scan_constant.
  assert (Hs : forall p (v : json) r, p <> EmptyString -> strip_prefix p s = Some r -> (String.length r <= n)%nat).
  { intros p v r Hp H%strip_prefix_length. destruct p; simpl in *; [done|lia]. }
  assert (Hc : forall c r, (String.length r <= n)%nat -> leaves n (v ← constant_hook c; Ok (v, r))).
  { intros c r Hr. pose proof (constant_halts c) as Hh. by destruct (constant_hook c). }
  destruct (strip_prefix "null" s) as [r|] eqn:E1; [by apply (Hs "null" JNull)|].
  destruct (strip_prefix "true" s) as [r|] eqn:E2; [by apply (Hs "true" JNull)|].
  destruct (strip_prefix "false" s) as [r|] eqn:E3; [by apply (Hs "false" JNull)|].
  destruct (strip_prefix "NaN" s) as [r|] eqn:E4; [by eapply Hc, (Hs "NaN" JNull)|].
  destruct (strip_prefix "Infinity" s) as [r|] eqn:E5; [by eapply Hc, (Hs "Infinity" JNull)|].
  destruct (strip_prefix "-Infinity" s) as [r|] eqn:E6; [by eapply Hc, (Hs "-Infinity" JNull)|].
  destruct (scan_number float_repr s) as [[v r]|] eqn:E7; [|done]. apply scan_number_length in E7. simpl. lia.
Qed.

Lemma parse_leaves fuel :
  (forall s n, (2 * String.length s < fuel)%nat -> (String.length s <= S n)%nat ->
     leaves n (parse_value float_repr object_hook constant_hook fuel s)) /\
  (forall s n, (2 * String.length s + 1 < fuel)%nat -> (String.length s <= S n)%nat ->
     leaves n (parse_members float_repr object_hook constant_hook fuel s)) /\
  (forall s n, (2 * String.length s + 1 < fuel)%nat -> (String.length s <= S n)%nat ->
     leaves n (parse_elements float_repr object_hook constant_hook fuel s)).
Proof.
  induction fuel as [|fuel (IHv & IHm & IHe)]; [by repeat split; intros; lia|].
  assert (Hhook : forall pairs r n, (String.length r <= n)%nat -> leaves n (v ← object_hook pairs; Ok (v, r))).
  { intros pairs r n Hr. pose proof (object_halts pairs) as Hh. by destruct (object_hook pairs). }
  split_and!; intros s n Hf Hn; simpl.
  - destruct (head_is quote s) as [r|] eqn:E1.
    { apply head_is_length in E1. eapply leaves_bind; [apply (scan_string_leaves _ n); lia|done]. }
    destruct (head_is "{" s) as [r|] eqn:E2.
    { apply head_is_length in E2. pose proof (skip_ws_length r).
      destruct (head_is "}" (skip_ws r)) as [r'|] eqn:E; [apply head_is_length in E; apply Hhook; lia|].
      eapply leaves_bind; [apply (IHm _ n); lia|]. intros. by apply Hhook. }
    destruct (head_is "[" s) as [r|] eqn:E3; [|by apply scan_constant_leaves].
    apply head_is_length in E3. pose proof (skip_ws_length r).
    destruct (head_is "]" (skip_ws r)) as [r'|] eqn:E; [apply head_is_length in E; simpl; lia|].
    eapply leaves_bind; [apply (IHe _ n); lia|done].
  - destruct (head_is quote s) as [r|] eqn:E1; [|done]. apply head_is_length in E1.
    eapply leaves_bind; [apply (scan_string_leaves _ (String.length r)); lia|]. intros k r1 Hr1.
    destruct (head_is ":" (skip_ws r1)) as [r2|] eqn:E2; [|done]. apply head_is_length in E2.
    pose proof (skip_ws_length r1). pose proof (skip_ws_length r2).
    eapply leaves_bind; [apply (IHv _ (String.length r)); lia|]. intros v r3 Hr3. pose proof (skip_ws_length r3).
    destruct (head_is "}" (skip_ws r3)) as [r4|] eqn:E3; [apply head_is_length in E3; simpl; lia|].
    destruct (head_is "," (skip_ws r3)) as [r4|] eqn:E4; [|done]. apply head_is_length in E4.
    pose proof (skip_ws_length r4). eapply leaves_bind; [apply (IHm _ n); lia|done].
  - eapply leaves_bind; [apply (IHv _ (pred (String.length s))); lia|]. intros v r3 Hr3. pose proof (skip_ws_length r3).
    destruct (head_is "]" (skip_ws r3)) as [r4|] eqn:E3; [apply head_is_length in E3; simpl; lia|].
    destruct (head_is "," (skip_ws r3)) as [r4|] eqn:E4; [|done]. apply head_is_length in E4.
    pose proof (skip_ws_length r4). eapply leaves_bind; [apply (IHe _ n); lia|done].
Qed.

Lemma loads_with_halts s : halts (loads_with float_repr object_hook constant_hook s).
Proof.
  unfold loads_with. pose proof (skip_ws_length s).
  destruct (parse_leaves (2 + 2 * String.length s)) as [Hv _].
  specialize (Hv (skip_ws s) (String.length s) ltac:(lia) ltac:(lia)).
  destruct (parse_value _ _ _ _ (skip_ws s)) as [[v r]|e]; [|done]. simpl. by destruct (skip_ws r =s "").
Qed.
End Terminates.

(** ** What reading canonical texts gives *)

Lemma dict_merge_distinct {A} (pairs : list (string * A)) : NoDup (map fst pairs) -> dict_merge [] pairs = pairs.
Proof.
  unfold dict_merge. intros Hn. rewrite <- (app_nil_l pairs) in Hn |- * at 2. generalize (@nil (string * A)) Hn.
  clear Hn. induction pairs as [|[k v] pairs IH]; intros acc Hn; simpl; [by rewrite app_nil_r|].
  rewrite map_app in Hn. rewrite dict_set_fresh.
  - rewrite IH; [by rewrite <- app_assoc|]. rewrite map_app, map_app, <- app_assoc. exact Hn.
  - apply NoDup_app in Hn as (_ & Hn & _). intros Hk. eapply Hn; [exact Hk|by left].
Qed.

Lemma json_hook_distinct (pairs : list (string * json)) : NoDup (map fst pairs) ->
  (Ok (JDict (dict_merge [] pairs)) : result json) = Ok (JDict pairs).
Proof. intros H. by rewrite dict_merge_distinct. Qed.

(** Reading what [json.dumps] wrote in the canonical form gives the
    value back, with the keys of every object in order: for values without floats
    whose objects have distinct keys, with the plain decoder and with the one that
    refuses repeated keys. *)
Theorem loads_dumps float_repr refused j : plain j = true ->
  json_loads float_repr (canonical_dumps j) = Ok (canon j) /\
  strict_loads refused float_repr (canonical_dumps j) = Ok (canon j).
Proof.
  intros Hp. split; apply loads_with_dumps; [|done| |done].
  - apply json_hook_distinct.
  - intros pairs Hn. by rewrite bool_decide_eq_true_2.
Qed.

Lemma json_loads_dumps float_repr j : plain j = true -> json_loads float_repr (canonical_dumps j) = Ok (canon j).
Proof. intros Hp. by apply loads_with_dumps; [apply json_hook_distinct|]. Qed.

Lemma strict_loads_dumps float_repr refused j : plain j = true -> strict_loads refused float_repr (canonical_dumps j) = Ok (canon j).
Proof. intros Hp. apply loads_with_dumps; [|done]. intros pairs Hn. by rewrite bool_decide_eq_true_2. Qed.

(** Equal canonical texts are texts of one value. *)
Lemma canonical_dumps_canon_inj a b : plain a = true -> plain b = true ->
  canonical_dumps a = canonical_dumps b -> canon a = canon b.
Proof.
  intros Ha Hb E. pose proof (json_loads_dumps id a Ha) as H. rewrite E, (json_loads_dumps id b Hb) in H. by injection H.
Qed.

(** Decoding halts on every text. *)
Lemma json_loads_halts float_repr s : halts (json_loads float_repr s).
Proof. by apply loads_with_halts. Qed.

Lemma sorted_fixed {A} (leb : A -> A -> bool) l : StronglySorted (fun a b => leb a b = true) l -> py_sorted leb l = l.
Proof.
  induction 1 as [|x l Hs IH Hx]; simpl; [done|]. rewrite IH. destruct l as [|y l]; [done|]. simpl.
  by rewrite (Forall_inv Hx).
Qed.

Lemma key_sorted {A} (d : list (string * A)) : StronglySorted (fun a b => key_leb a b = true) (py_sorted key_leb d).
Proof.
  apply py_sorted_Sorted; [intros a b; apply string_leb_total|intros a b c; apply string_leb_trans].
Qed.

Lemma canon_idem j : canon (canon j) = canon j.
Proof.
  induction j as [|b|n|r|s|l IH|d IH] using json_ind'; try done.
  - simpl. f_equal. rewrite map_map. apply map_ext_in. intros v Hv. rewrite Forall_forall in IH. by apply IH, list_elem_of_In.
  - rewrite canon_dict. rewrite canon_dict. f_equal.
    rewrite (py_sorted_map (fun p => (p.1, canon p.2)) key_leb) by done.
    rewrite (sorted_fixed _ _ (key_sorted d)), map_map. apply map_ext_in. intros [k v] Hv. simpl. f_equal.
    rewrite Forall_forall in IH. apply (IH (k, v)). by apply list_elem_of_In, elem_of_py_sorted in Hv.
Qed.

Lemma forallb_map {A B} (f : A -> B) (p : B -> bool) l : forallb p (map f l) = forallb (fun x => p (f x)) l.
Proof. induction l as [|x l IH]; simpl; [done|]. by rewrite IH. Qed.

Lemma forallb_ext_elem {A} (p q : A -> bool) l : (forall x, x ∈ l -> p x = q x) -> forallb p l = forallb q l.
Proof.
  induction l as [|x l IH]; intros H; simpl; [done|]. rewrite (H x) by by left. rewrite IH; [done|].
  intros y Hy. apply H. by right.
Qed.

Lemma plain_canon j : plain (canon j) = plain j.
Proof.
  induction j as [|b|n|r|s|l IH|d IH] using json_ind'; try done.
  - simpl. rewrite forallb_map. rewrite Forall_forall in IH. by apply forallb_ext_elem.
  - rewrite canon_dict. simpl. f_equal.
    + apply bool_decide_ext. rewrite map_map. simpl. by rewrite (py_sorted_perm key_leb d).
    + rewrite forallb_map. simpl. rewrite <- (plain_sorted d). rewrite Forall_forall in IH.
      apply forallb_ext_elem. intros p Hp%elem_of_py_sorted. by apply IH.
Qed.

Lemma dumps_onto_canon j rest : dumps_onto (canon j) rest = dumps_onto j rest.
Proof.
  revert rest. induction j as [|b|n|r|s|l IH|d IH] using json_ind'; intros rest; try done.
  - simpl. f_equal. rewrite map_map. generalize (String "]" rest). generalize true as first.
    induction IH as [|v l Hv _ IHl]; intros first r; simpl; [done|]. by rewrite Hv, IHl.
  - rewrite canon_dict, !dumps_dict. f_equal.
    rewrite (py_sorted_map (fun p => (p.1, canon p.2)) key_leb) by done.
    rewrite (sorted_fixed _ _ (key_sorted d)), map_map.
    assert (IH' : Forall (fun p => forall rest, dumps_onto (canon p.2) rest = dumps_onto p.2 rest) (py_sorted key_leb d)).
    { by rewrite (py_sorted_perm key_leb d). }
    generalize (String "}" rest). generalize true as first.
    induction IH' as [|[k v] s Hv _ IHs]; intros first r; simpl; [done|].
    rewrite IHs. unfold entry_writer. simpl in *. by rewrite Hv.
Qed.

Lemma canonical_dumps_canon j : canonical_dumps (canon j) = canonical_dumps j.
Proof. apply dumps_onto_canon. Qed.

Lemma loads_dumps_witness :
  json_loads id (canonical_dumps (JDict [("b", JList [JInt (-12); JNull]); ("a", JStr "x\")])) =
    Ok (JDict [("a", JStr "x\"); ("b", JList [JInt (-12); JNull])]).
Proof.
  apply (loads_dumps id ValueError (JDict [("b", JList [JInt (-12); JNull]); ("a", JStr "x\")])).
  vm_compute. reflexivity.
Defined.
