(* ===== verification/Utf8.v ===== *)
(** * Utf8: bytes of texts

    UTF-8 on texts of code points below 256, and [json.dumps] with [ensure_ascii=False].
    A string is a list of code points or of bytes, as its use says. *)

From S2P Require Import Prelude PyDate PyTime Json JsonText.

Local Open Scope Z_scope.

(** [text.encode("utf-8")] *)
Fixpoint utf8_encode (s : string) : string :=
  match s with
  | EmptyString => EmptyString
  | String c s =>
      if code c <? 128 then String c (utf8_encode s)
      else String (ascii_of_N (Z.to_N (192 + code c / 64))) (String (ascii_of_N (Z.to_N (128 + code c mod 64))) (utf8_encode s))
  end.

(** [raw.decode("utf-8")]: the bytes 194 and 195 start the code points from 128 to 255; what
    starts with a greater byte is outside the model. *)
Fixpoint utf8_decode (s : string) : result string :=
  match s with
  | EmptyString => Ok EmptyString
  | String c s =>
      if code c <? 128 then t ← utf8_decode s; Ok (String c t)
      else if (code c =? 194) || (code c =? 195) then
        match s with
        | String d s =>
            if (128 <=? code d) && (code d <=? 191)
            then t ← utf8_decode s; Ok (String (ascii_of_N (Z.to_N ((code c - 192) * 64 + (code d - 128)))) t)
            else raise ValueError "UnicodeDecodeError"
        | EmptyString => raise ValueError "UnicodeDecodeError"
        end
      else if (196 <=? code c) && (code c <=? 244) then raise OutsideModel "a code point from 256 on"
      else raise ValueError "UnicodeDecodeError"
  end.

(** [json.dumps(s, ensure_ascii=False)] of a string, in front of [rest]. *)
Definition escape_unicode (c : ascii) (rest : string) : string :=
  if 127 <=? code c then String c rest else escape_char c rest.

Fixpoint escape_unicode_onto (s rest : string) : string :=
  match s with
  | EmptyString => rest
  | String c s => escape_unicode c (escape_unicode_onto s rest)
  end.

Definition dumps_str_unicode (s rest : string) : string := String quote (escape_unicode_onto s (String quote rest)).

(** [json.dumps(v, ensure_ascii=False, sort_keys=True, separators=(",", ":"))] of a value
    without floats. *)
Fixpoint dumps_unicode_onto (j : json) (rest : string) {struct j} : string :=
  match j with
  | JStr s => dumps_str_unicode s rest
  | JList l => String "[" (join_writers true (map dumps_unicode_onto l) (String "]" rest))
  | JDict d =>
      String "{" (join_writers true
        (map (fun p => fun rest => dumps_str_unicode p.1 (String ":" (p.2 rest)))
           (py_sorted key_leb (map (fun p => (p.1, dumps_unicode_onto p.2)) d))) (String "}" rest))
  | _ => dumps_onto j rest
  end.

Example utf8_values :
  let e_acute := String (ascii_of_N 233) EmptyString in
  utf8_encode e_acute = String (ascii_of_N 195) (String (ascii_of_N 169) EmptyString) /\
  utf8_decode (utf8_encode e_acute) = Ok e_acute /\
  dumps_unicode_onto (JDict [("b", JStr e_acute); ("a", JList [JInt 1])]) EmptyString
    = "{" +:+ dumps_str "a" ":[1]," +:+ dumps_str "b" ":" +:+ String quote (e_acute +:+ String quote "}") /\
  utf8_decode e_acute = raise OutsideModel "a code point from 256 on" /\
  utf8_decode (String (ascii_of_N 195) "a") = raise ValueError "UnicodeDecodeError".
Proof. by vm_compute. Qed.

(** ** Round trips *)

Lemma code_bounds c : 0 <= code c <= 255.
Proof. unfold code. destruct c as [[] [] [] [] [] [] [] []]; vm_compute; split; discriminate. Qed.

Lemma ascii_code c : ascii_of_N (Z.to_N (code c)) = c.
Proof. unfold code. rewrite N2Z.id. apply ascii_N_embedding. Qed.

Lemma code_ascii n : 0 <= n <= 255 -> code (ascii_of_N (Z.to_N n)) = n.
Proof. intros H. unfold code. rewrite N_ascii_embedding; lia. Qed.

#[local] Ltac Zify.zify_post_hook ::= Z.div_mod_to_equations.

Lemma utf8_decode_encode s : utf8_decode (utf8_encode s) = Ok s.
Proof.
  induction s as [|c s IH]; [done|]. cbn [utf8_encode]. pose proof (code_bounds c) as Hc.
  destruct (code c <? 128) eqn:E; cbn [utf8_decode].
  - by rewrite E, IH.
  - apply Z.ltb_ge in E. rewrite !code_ascii by lia.
    replace (192 + code c / 64 <? 128) with false by (symmetry; apply Z.ltb_ge; lia).
    replace ((192 + code c / 64 =? 194) || (192 + code c / 64 =? 195)) with true
      by (symmetry; apply orb_true_iff; rewrite !Z.eqb_eq; lia).
    replace ((128 <=? 128 + code c mod 64) && (128 + code c mod 64 <=? 191)) with true
      by (symmetry; apply andb_true_iff; rewrite !Z.leb_le; lia).
    rewrite IH. cbn [mbind result_bind]. do 2 f_equal. etrans; [|apply ascii_code]. do 2 f_equal. lia.
Qed.

Lemma ascii7_code c s : ascii7 (String c s) = (code c <? 128) && ascii7 s.
Proof.
  cbn [ascii7]. f_equal. unfold code. destruct (N.ltb_spec (N_of_ascii c) 128), (Z.ltb_spec (Z.of_N (N_of_ascii c)) 128); try done; lia.
Qed.

Lemma utf8_ascii7 s : ascii7 s = true -> utf8_encode s = s /\ utf8_decode s = Ok s.
Proof.
  induction s as [|c s IH]; [done|]. rewrite ascii7_code. intros H. bools. destruct IH as [E1 E2]; [done|].
  cbn [utf8_encode utf8_decode]. rewrite (proj2 (Z.ltb_lt _ _)) by done. by rewrite E1, E2.
Qed.

(** ** What [json.dumps] writes with [ensure_ascii] is ASCII *)

Lemma ascii7_escape c rest : ascii7 (escape_char c rest) = ascii7 rest.
Proof. destruct c as [[] [] [] [] [] [] [] []]; reflexivity. Qed.

Lemma ascii7_dumps_str s rest : ascii7 (dumps_str s rest) = ascii7 rest.
Proof.
  unfold dumps_str. change (ascii7 (escape_onto s (String quote rest)) = ascii7 rest).
  induction s as [|c s IH]; [done|]. cbn [escape_onto]. by rewrite ascii7_escape.
Qed.

Lemma ascii7_digits fuel n acc : 0 <= n -> ascii7 (digits_onto fuel n acc) = ascii7 acc.
Proof.
  revert n acc. induction fuel as [|fuel IH]; intros n acc Hn; [done|]. cbn [digits_onto].
  assert (ascii7 (String (digit (n mod 10)) acc) = ascii7 acc) as Hd.
  { pose proof (Z.mod_pos_bound n 10 ltac:(lia)) as Hm. rewrite ascii7_code. unfold digit. rewrite code_ascii by lia.
    by rewrite (proj2 (Z.ltb_lt _ _)) by lia. }
  destruct (n <? 10) eqn:E.
  - apply Z.ltb_lt in E. rewrite Z.mod_small in Hd by lia. by rewrite Z.mod_small by lia.
  - rewrite IH by lia. done.
Qed.

Lemma ascii7_show_Z n : ascii7 (show_Z n) = true.
Proof.
  unfold show_Z, show_nonneg. destruct (n <? 0) eqn:E.
  - apply Z.ltb_lt in E. rewrite ascii7_code, ascii7_digits by lia. done.
  - apply Z.ltb_ge in E. by rewrite ascii7_digits by lia.
Qed.

Lemma ascii7_join (l : list (string -> string)) first rest : (forall w r, w ∈ l -> ascii7 (w r) = ascii7 r) ->
  ascii7 (join_writers first l rest) = ascii7 rest.
Proof.
  revert first. induction l as [|w l IH]; intros first H; [done|]. cbn [join_writers].
  assert (ascii7 (w (join_writers false l rest)) = ascii7 rest) as Hw
    by (rewrite H by (by left); apply IH; intros w' r Hw'; apply H; by right).
  destruct first; [done|]. by rewrite ascii7_code, Hw.
Qed.

Lemma ascii7_dumps j rest : plain j = true -> ascii7 (dumps_onto j rest) = ascii7 rest.
Proof.
  revert rest. induction j as [|[]|n|t|s|l IH|d IH] using json_ind'; intros rest Hp; try done.
  - cbn [dumps_onto]. by rewrite ascii7_app, ascii7_show_Z.
  - apply ascii7_dumps_str.
  - cbn [dumps_onto]. rewrite ascii7_code. cbn [plain] in Hp. rewrite ascii7_join; [by rewrite ascii7_code|].
    intros w r (v & -> & Hv)%list_elem_of_fmap. rewrite Forall_forall in IH. apply IH; [done|].
    rewrite forallb_forall in Hp. by apply Hp, list_elem_of_In.
  - rewrite dumps_dict, ascii7_code. cbn [plain] in Hp. apply andb_true_iff in Hp as [_ Hp].
    rewrite ascii7_join; [by rewrite ascii7_code|]. intros w r (p & -> & Hin)%list_elem_of_fmap. apply elem_of_py_sorted in Hin.
    unfold entry_writer. cbn [fst snd]. rewrite ascii7_dumps_str, ascii7_code. rewrite Forall_forall in IH. rewrite IH; [done|done|].
    rewrite forallb_forall in Hp. by apply Hp, list_elem_of_In.
Qed.

(** The canonical form of a value is its own encoding. *)
Lemma canonical_bytes j : plain j = true -> utf8_decode (canonical_dumps j) = Ok (canonical_dumps j).
Proof. intros Hp. apply utf8_ascii7. unfold canonical_dumps. by rewrite ascii7_dumps. Qed.
