(* ===== verification/JstTime.v ===== *)
(** * JstTime: times of Asia/Tokyo (packages/data_plane/ingestion/common/timeutil.py,
    ingestion/common/available_at.py, and [normalize_as_of] of pit/read_clock.py)

    A datetime in JST is its local time in microseconds, counted as in PyTime.v.
    From 1952 on Japan is nine hours ahead of UTC; before, its offset changed with
    summer times, and a time from before 1952 raises [OutsideModel]. *)

From S2P Require Import Prelude PyDate PyTime Json.

Local Open Scope Z_scope.

Definition jst_offset : Z := 32400000000.

Definition jst_epoch : date := ymd2ord 1952 1 1.

(** A Python datetime: local time, and offset unless it is naive. *)
Definition moment : Set := (datetime * option Z)%type.

Definition jst (local : Z) : result datetime :=
  _ ← ensure (jst_epoch <=? dt_date local) OutsideModel "before 1952";
  Ok local.

Definition ensure_jst (m : moment) : result datetime :=
  match m.2 with
  | None => jst m.1
  | Some offset =>
      utc ← to_utc m.1 offset;
      _ ← ensure (valid_datetime (utc + jst_offset)) OverflowError "date value out of range";
      jst (utc + jst_offset)
  end.

(** [to_iso], of a time that is in JST already. *)
Definition to_iso (t : datetime) : string := seconds_text t +:+ "+09:00".

(** ** [datetime.strptime] with year, month and day, and a character between them *)

Definition strptime_month (s : string) : option (Z * string) :=
  match s with
  | String a (String b r) =>
      x ← digit_val a;
      match digit_val b with
      | Some y => if ((x =? 1) && (y <=? 2)) || ((x =? 0) && (1 <=? y)) then Some (10 * x + y, r)
                  else if 1 <=? x then Some (x, String b r) else None
      | None => if 1 <=? x then Some (x, String b r) else None
      end
  | String a EmptyString => x ← digit_val a; if 1 <=? x then Some (x, EmptyString) else None
  | EmptyString => None
  end.

Definition strptime_day (s : string) : option (Z * string) :=
  match s with
  | String " " (String b r) => y ← digit_val b; if 1 <=? y then Some (y, r) else None
  | String a (String b r) =>
      x ← digit_val a;
      match digit_val b with
      | Some y => if ((x =? 3) && (y <=? 1)) || ((x =? 1) || (x =? 2)) || ((x =? 0) && (1 <=? y))
                  then Some (10 * x + y, r)
                  else if 1 <=? x then Some (x, String b r) else None
      | None => if 1 <=? x then Some (x, String b r) else None
      end
  | String a EmptyString => x ← digit_val a; if 1 <=? x then Some (x, EmptyString) else None
  | EmptyString => None
  end.

Definition strptime_parts (sep : ascii) (s : string) : option (Z * Z * Z) :=
  '(y, s) ← take_digits 4 0 s;
  s ← take_char sep s;
  '(m, s) ← strptime_month s;
  s ← take_char sep s;
  '(d, s) ← strptime_day s;
  if s =s "" then Some (y, m, d) else None.

(** [datetime.strptime(s, format)], a date. *)
Definition strptime (sep : ascii) (s : string) : result date :=
  '(y, m, d) ← of_option ValueError "time data does not match format" (strptime_parts sep s);
  mk_date y m d.

(** ** Parsing *)

Definition parse_dt (value : string) : result datetime :=
  let s := strip value in
  _ ← ensure (negb (s =s "")) ValueError "parse_dt: empty value";
  if (String.length s =? 10)%nat && bool_decide (String.get 4 s = Some "-"%char)
  then d ← strptime "-" s; jst (d * day_micros)
  else m ← datetime_fromisoformat s; ensure_jst m.

(** [parse_date_str]: the format with Japanese characters matches no text below 256,
    and [strftime] pads the years from 1000 on only. *)
Definition parse_date_str (value : string) : result string :=
  _ ← ensure (negb (value =s "")) ValueError "parse_date_str: empty";
  let s := strip value in
  match (match strptime "/" s with Ok d => Ok d | Err _ => strptime "-" s end) with
  | Ok d => _ ← ensure (1000 <=? year_of d) OutsideModel "year below 1000"; Ok (isoformat d)
  | Err _ => Ok (str_take 10 s)
  end.

(** [DateLike] *)
Inductive date_like := DLText (s : string) | DLDate (d : date) | DLMoment (m : moment).

Definition date_at (value : date_like) (hour minute : Z) : result datetime :=
  d ← (match value with
       | DLMoment m => t ← ensure_jst m; Ok (dt_date t)
       | DLDate d => Ok d
       | DLText s => strptime "-" (str_take 10 (strip s))
       end);
  jst (d * day_micros + (hour * 60 + minute) * 60000000).

(** ** [available_at] *)

Definition is_available_at_known (value : json) : bool :=
  match value with JNull => false | JStr s => negb (strip s =s "") | _ => true end.

(** [_coerce_str] *)
Definition coerce_str (value : string) : result moment :=
  match parse_dt value with
  | Ok t => Ok (t, Some jst_offset)
  | Err e => if decide (exn_kind e = ValueError) then datetime_fromisoformat value else Err e
  end.

(** A [datetime] is not a value of a row here. *)
Definition validate_available_at (value : json) : result string :=
  _ ← ensure (is_available_at_known value) ValueError
        "available_at is missing - PIT requires a non-empty available_at";
  match value with
  | JStr s => m ← coerce_str s; t ← ensure_jst m; Ok (to_iso t)
  | _ => raise ValueError "available_at unsupported type"
  end.

Definition conservative_available_at (event_time : date_like) : result datetime :=
  t ← date_at event_time 0 0;
  let t := t + day_micros + 8 * 3600000000 in
  _ ← ensure (valid_datetime t) OverflowError "date value out of range";
  Ok t.

(** ** [normalize_as_of] *)

Inductive as_of_arg := AsNone | AsText (s : string) | AsDate (d : date) | AsMoment (m : moment) | AsOther.

Definition normalize_as_of (as_of : as_of_arg) : result string :=
  match as_of with
  | AsNone => raise AsOfRequired "as_of is required (PIT has no 'latest' default)"
  | AsMoment m => t ← ensure_jst m; Ok (to_iso t)
  | AsDate d => t ← ensure_jst (d * day_micros, None); Ok (to_iso t)
  | AsText s =>
      let s := strip s in
      _ ← ensure (negb (s =s "")) AsOfRequired "as_of is required (an empty string is not allowed).";
      t ← on_error [ValueError] InvalidAsOf "as_of is not a valid ISO-8601 instant" (parse_dt s);
      Ok (to_iso t)
  | AsOther => raise InvalidAsOf "as_of unsupported type"
  end.

Example jst_example :
  map normalize_as_of [AsText " 2025-04-01 "; AsText "2025-04-01T00:00:00Z"; AsText "2025-04-01T15:30:00.9";
                       AsDate (ymd2ord 2025 4 1); AsText "2025-4-1"; AsText ""; AsNone; AsText "1949-07-01"]
  = [Ok "2025-04-01T00:00:00+09:00"; Ok "2025-04-01T09:00:00+09:00"; Ok "2025-04-01T15:30:00+09:00";
     Ok "2025-04-01T00:00:00+09:00"; raise InvalidAsOf "as_of is not a valid ISO-8601 instant";
     raise AsOfRequired "as_of is required (an empty string is not allowed).";
     raise AsOfRequired "as_of is required (PIT has no 'latest' default)"; raise OutsideModel "before 1952"] /\
  map parse_date_str ["2025/4/1"; "2025-04-01T10:00"; " 2025-12- 3"]
  = [Ok "2025-04-01"; Ok "2025-04-01"; Ok "2025-12-03"] /\
  (t ← conservative_available_at (DLText "2025-03-31"); Ok (to_iso t)) = Ok "2025-04-01T08:00:00+09:00".
Proof. by vm_compute. Qed.

(** ** Calendar dates are read back *)

Lemma strptime_isoformat n : valid_date n = true -> strptime "-" (isoformat n) = Ok n.
Proof.
  intros Hv. destruct (valid_parts n Hv) as (Hy & Hm & Hd). unfold strptime, strptime_parts, isoformat.
  rewrite take_digits_pad4 by lia. cbn [mbind option_bind]. rewrite take_dash. cbn [mbind option_bind].
  assert (forall s, strptime_month (pad2 (month_of n) +:+ s) = Some (month_of n, s)) as ->.
  { intros s. generalize (month_of n), Hm. intros m Hm'.
    assert (m = 1 \/ m = 2 \/ m = 3 \/ m = 4 \/ m = 5 \/ m = 6 \/ m = 7 \/ m = 8 \/ m = 9 \/ m = 10 \/ m = 11 \/ m = 12) as Hin by lia.
    clear -Hin. by repeat (destruct Hin as [->|Hin]; [reflexivity|]); subst m. }
  cbn [mbind option_bind]. rewrite take_dash. cbn [mbind option_bind].
  assert (strptime_day (pad2 (day_of n)) = Some (day_of n, EmptyString)) as ->.
  { generalize (day_of n), Hd. intros d Hd'.
    assert (forallb (fun i => bool_decide (strptime_day (pad2 (Z.of_nat i)) = Some (Z.of_nat i, EmptyString))) (seq 1 31) = true) as H
      by (vm_compute; reflexivity).
    rewrite forallb_forall in H. specialize (H (Z.to_nat d)). rewrite Z2Nat.id in H by lia.
    apply bool_decide_eq_true in H; [done|]. apply in_seq. lia. }
  cbn [mbind option_bind]. rewrite bool_decide_eq_true_2 by done. by apply mk_date_ymd.
Qed.

(** ** Canonical texts *)

#[local] Ltac Zify.zify_post_hook ::= Z.div_mod_to_equations.

(** [s] is the canonical text of the whole second [t]. *)
Definition canonical_time (t : datetime) (s : string) : Prop :=
  valid_datetime t = true /\ jst_epoch <= dt_date t /\ t mod 1000000 = 0 /\ s = to_iso t.

Lemma jst_Ok local t : jst local = Ok t <-> t = local /\ jst_epoch <= dt_date local.
Proof.
  unfold jst. rewrite bind_Ok. split.
  - intros (u & H & [= <-]). apply ensure_Ok in H. bools. done.
  - intros [-> H]. exists tt. split; [|done]. apply ensure_Ok. by apply Z.leb_le.
Qed.

Lemma floor_second t : t - t mod 1000000 = 1000000 * (t / 1000000).
Proof. lia. Qed.

Lemma dt_date_floor t : dt_date (t - t mod 1000000) = dt_date t.
Proof. rewrite floor_second. unfold dt_date, day_micros. lia. Qed.

(** The fraction of a second is not in the text. *)
Lemma to_iso_floor t : to_iso t = to_iso (t - t mod 1000000).
Proof.
  unfold to_iso, seconds_text. rewrite dt_date_floor.
  replace ((t - t mod 1000000) mod day_micros / 1000000) with (t mod day_micros / 1000000); [done|].
  rewrite floor_second. unfold day_micros. lia.
Qed.

Lemma canonical_floor t : valid_datetime t = true -> jst_epoch <= dt_date t ->
  canonical_time (t - t mod 1000000) (to_iso t).
Proof.
  intros Hv He. unfold canonical_time, valid_datetime. rewrite dt_date_floor. split_and!; try done.
  - rewrite floor_second. lia.
  - apply to_iso_floor.
Qed.

Lemma canonical_leb t u s r : canonical_time t s -> canonical_time u r -> String.leb s r = (t <=? u).
Proof.
  intros (Ht & _ & Et & ->) (Hu & _ & Eu & ->). unfold String.leb, to_iso. rewrite seconds_text_compare by done.
  unfold Z.leb. replace (t ?= u) with (t / 1000000 ?= u / 1000000); [done|].
  destruct (Z.compare_spec (t / 1000000) (u / 1000000)), (Z.compare_spec t u); try done; lia.
Qed.

Lemma canonical_inj t u s : canonical_time t s -> canonical_time u s -> t = u.
Proof.
  intros Ht Hu. pose proof (canonical_leb _ _ _ _ Ht Hu) as H1. pose proof (canonical_leb _ _ _ _ Hu Ht) as H2.
  rewrite string_leb_refl in H1, H2. symmetry in H1, H2. bools. lia.
Qed.

Lemma no_space_pad2 n : 0 <= n <= 99 -> no_space (pad2 n) = true.
Proof. intros H. unfold pad2. simpl. rewrite !digit_no_space by lia. done. Qed.

Lemma seconds_text_plain t : valid_datetime t = true ->
  no_space (seconds_text t) = true /\ (10 < String.length (seconds_text t))%nat.
Proof.
  intros Ht. destruct (clock_parts t (valid_nonneg t Ht)) as (Hr & Hh & Hm & Hs & Hu & _).
  unfold seconds_text. cbv zeta. split.
  - rewrite !no_space_app, isoformat_no_space, !no_space_pad2 by (lia || done). done.
  - rewrite !length_string_app. unfold pad2, isoformat, pad4. rewrite !length_string_app. simpl. lia.
Qed.

(** What is written is read. *)
Lemma parse_dt_canonical t s : canonical_time t s -> parse_dt s = Ok t.
Proof.
  intros (Hv & He & Hm & ->). destruct (seconds_text_plain t Hv) as [Hn Hl]. unfold parse_dt.
  rewrite strip_no_space by (unfold to_iso; rewrite no_space_app, Hn; done).
  assert (String.length (to_iso t) = String.length (seconds_text t) + 6)%nat as Hlen
    by (unfold to_iso; rewrite length_string_app; done).
  rewrite (bool_decide_eq_false_2 (to_iso t = EmptyString)) by (intros E; rewrite E in Hlen; simpl in Hlen; lia).
  cbn [negb ensure mbind result_bind].
  replace (String.length (to_iso t) =? 10)%nat with false by (symmetry; apply Nat.eqb_neq; lia). cbn [andb].
  unfold to_iso. rewrite (datetime_seconds_text_at _ (Some jst_offset)), Hm by done. simpl. unfold ensure_jst. simpl.
  unfold to_utc. rewrite Z.sub_0_r.
  assert (valid_datetime (t - jst_offset) = true) as ->.
  { unfold valid_datetime, valid_date, dt_date, jst_epoch, jst_offset, day_micros in *. bools.
    change (ymd2ord 1952 1 1) with 712588 in He. apply andb_true_iff. split; apply Z.leb_le; lia. }
  simpl. replace (t - jst_offset + jst_offset) with t by lia. rewrite Hv. simpl. by apply jst_Ok.
Qed.

Lemma parse_dt_naive t : valid_datetime t = true -> jst_epoch <= dt_date t -> t mod 1000000 = 0 -> parse_dt (seconds_text t) = Ok t.
Proof.
  intros Hv He Hm. destruct (seconds_text_plain t Hv) as [Hn Hl]. unfold parse_dt. rewrite strip_no_space by done.
  rewrite (bool_decide_eq_false_2 (seconds_text t = EmptyString)) by (intros E; rewrite E in Hl; simpl in Hl; lia).
  cbn [negb ensure mbind result_bind].
  replace (String.length (seconds_text t) =? 10)%nat with false by (symmetry; apply Nat.eqb_neq; lia). cbn [andb].
  rewrite datetime_naive, Hm, Z.sub_0_r by done. cbn [mbind result_bind]. unfold ensure_jst. cbn [fst snd]. by apply jst_Ok.
Qed.

Lemma fraction_bounds n acc s us : 0 <= acc -> fraction n acc s = Some us ->
  acc * 10 ^ Z.of_nat n <= us < (acc + 1) * 10 ^ Z.of_nat n.
Proof.
  revert acc us s. induction n as [|n IH]; intros acc us s Ha.
  - induction s as [|c s IHs]; simpl; [intros [= <-]; lia|]. destruct (digit_val c); simpl; [|done]. exact IHs.
  - destruct s as [|c s]; cbn [fraction].
    + intros [= <-]. assert (0 < 10 ^ Z.of_nat (S n)) by (apply Z.pow_pos_nonneg; lia). nia.
    + destruct (digit_val c) as [v|] eqn:Ev; [|done]. cbn [mbind option_bind]. intros H.
      assert (0 <= v <= 9) as Hv.
      { unfold digit_val in Ev. case_match; [|done]. injection Ev as <-. bools. lia. }
      apply IH in H; [|lia]. rewrite Nat2Z.inj_succ, Z.pow_succ_r by lia.
      assert (0 < 10 ^ Z.of_nat n) by (apply Z.pow_pos_nonneg; lia). nia.
Qed.

Lemma take_digits_bounds n acc s v r : 0 <= acc -> take_digits n acc s = Some (v, r) -> 0 <= v.
Proof.
  revert acc s. induction n as [|n IH]; intros acc s Ha; simpl; [by intros [= <- <-]|].
  destruct s as [|c s]; [done|]. destruct (digit_val c) as [x|] eqn:E; simpl; [|done].
  apply IH. unfold digit_val in E. case_match; [|done]. injection E as <-. bools. lia.
Qed.

Lemma parse_clock_bounds s c : parse_clock s = Some c ->
  0 <= ck_hour c /\ 0 <= ck_minute c /\ 0 <= ck_second c /\ 0 <= ck_micro c < 1000000.
Proof.
  unfold parse_clock. destruct (take_digits 2 0 s) as [[h r]|] eqn:Eh; cbn [mbind option_bind]; [|done].
  apply take_digits_bounds in Eh; [|done]. case_bool_decide; [intros [= <-]; simpl; lia|].
  destruct (take_char ":" r) as [r1|]; cbn [mbind option_bind]; [|done].
  destruct (take_digits 2 0 r1) as [[m r2]|] eqn:Em; cbn [mbind option_bind]; [|done].
  apply take_digits_bounds in Em; [|done]. case_bool_decide; [intros [= <-]; simpl; lia|].
  destruct (take_char ":" r2) as [r3|]; cbn [mbind option_bind]; [|done].
  destruct (take_digits 2 0 r3) as [[x r4]|] eqn:Ex; cbn [mbind option_bind]; [|done].
  apply take_digits_bounds in Ex; [|done]. destruct r4 as [|c' r4]; [intros [= <-]; simpl; lia|].
  case_match; [|done]. destruct (fraction 6 0 r4) as [us|] eqn:Eu; cbn [mbind option_bind]; [|done]. intros [= <-].
  apply fraction_bounds in Eu; [|done]. simpl in *. lia.
Qed.

(** A valid local time. *)
Lemma fromisoformat_local s m : datetime_fromisoformat s = Ok m -> valid_datetime m.1 = true.
Proof.
  unfold datetime_fromisoformat. destruct (negb (ascii7 s)); [done|]. intros H. binds H. destruct m as [t z].
  apply fromisoformat_valid in E1. destruct (_ =s ""); simpl in H.
  { injection H as <- <-. unfold valid_datetime, dt_date. simpl. by rewrite Z.div_mul. }
  destruct (split_zone _) as [time zone] eqn:Ez. binds H. injection H as <- <-. simpl. ensures.
  destruct (parse_clock time) as [c|] eqn:Ec; [|done]. apply parse_clock_bounds in Ec. simpl in E2. injection E2 as ->.
  unfold valid_datetime, dt_date. replace ((a1 * day_micros + clock_micros a2) / day_micros) with a1; [done|].
  unfold clock_micros, day_micros. lia.
Qed.

Definition moment_ok (m : moment) : bool := valid_datetime m.1.

Lemma ensure_jst_valid m t : moment_ok m = true -> ensure_jst m = Ok t -> valid_datetime t = true /\ jst_epoch <= dt_date t.
Proof.
  unfold ensure_jst, moment_ok. intros Hm. destruct m.2 as [off|].
  - intros H. binds H. apply ensure_Ok in E0. apply jst_Ok in H as [-> H]. done.
  - by intros [-> H]%jst_Ok.
Qed.

Lemma parse_dt_valid s t : parse_dt s = Ok t -> valid_datetime t = true /\ jst_epoch <= dt_date t.
Proof.
  unfold parse_dt. intros H. binds H. case_match; binds H.
  - apply jst_Ok in H as [-> H]. unfold strptime in E0. binds E0. destruct a1 as [[y m] d].
    apply mk_date_Ok in E0. split; [|done]. unfold valid_datetime, dt_date. rewrite Z.div_mul by done. tauto.
  - eapply ensure_jst_valid; [|done]. by apply fromisoformat_local in E0.
Qed.

Definition as_of_ok (a : as_of_arg) : bool :=
  match a with AsMoment m => moment_ok m | AsDate d => valid_date d | _ => true end.

Lemma normalize_canonical a s : as_of_ok a = true -> normalize_as_of a = Ok s -> exists t, canonical_time t s.
Proof.
  intros Ha H. assert (forall t, valid_datetime t = true /\ jst_epoch <= dt_date t ->
    exists t', canonical_time t' (to_iso t)) as Hc by (intros t []; eexists; by apply canonical_floor).
  destruct a as [|x|d|m|]; simpl in *; try done; binds H; injection H as <-; apply Hc.
  - apply on_error_Ok in E0. by eapply parse_dt_valid.
  - eapply ensure_jst_valid; [|done]. unfold moment_ok, valid_datetime, dt_date. simpl. by rewrite Z.div_mul.
  - by eapply ensure_jst_valid.
Qed.

Lemma canonical_plain t s : canonical_time t s -> strip s = s /\ s <> EmptyString.
Proof.
  intros (Hv & _ & _ & ->). destruct (seconds_text_plain t Hv) as [Hn Hl]. unfold to_iso. split.
  - apply strip_no_space. by rewrite no_space_app, Hn.
  - by destruct (seconds_text t).
Qed.

Lemma normalize_of_canonical t s : canonical_time t s -> normalize_as_of (AsText s) = Ok s.
Proof.
  intros H. destruct (canonical_plain t s H) as [Hs Hne]. simpl. rewrite Hs, bool_decide_eq_false_2 by done. simpl.
  rewrite (parse_dt_canonical t) by done. simpl. destruct H as (_ & _ & _ & ->). done.
Qed.

Lemma validate_canonical v s : validate_available_at v = Ok s -> exists t, canonical_time t s.
Proof.
  unfold validate_available_at. intros H. binds H. destruct v; try done. binds H. injection H as <-.
  assert (moment_ok a0 = true) as Hm.
  { unfold coerce_str in E0. destruct (parse_dt s0) as [t|e] eqn:Ep.
    - injection E0 as <-. by apply parse_dt_valid in Ep as [].
    - case_decide; [|done]. by apply fromisoformat_local in E0. }
  eexists. by apply canonical_floor; eapply ensure_jst_valid.
Qed.

Lemma validate_of_canonical t s : canonical_time t s -> validate_available_at (JStr s) = Ok s.
Proof.
  intros H. destruct (canonical_plain t s H) as [Hs Hne]. unfold validate_available_at, is_available_at_known, coerce_str.
  rewrite Hs, bool_decide_eq_false_2 by done. simpl. rewrite (parse_dt_canonical t) by done. simpl.
  destruct H as (Hv & He & _ & ->). unfold ensure_jst. simpl. unfold to_utc.
  assert (valid_datetime (t - jst_offset) = true) as ->.
  { unfold valid_datetime, valid_date, dt_date, jst_epoch, jst_offset, day_micros in *. bools.
    change (ymd2ord 1952 1 1) with 712588 in He. apply andb_true_iff. split; apply Z.leb_le; lia. }
  simpl. replace (t - jst_offset + jst_offset) with t by lia. rewrite Hv. simpl. by rewrite (proj2 (jst_Ok t t)).
Qed.

(** Normalising an instant of a point-in-time read is idempotent, and what it
    returns is the text of a whole second whose order, as text, is the order of time: the
    text comparisons of the queries compare instants. *)
Theorem as_of_canonical a b s r :
  as_of_ok a = true -> as_of_ok b = true -> normalize_as_of a = Ok s -> normalize_as_of b = Ok r ->
  normalize_as_of (AsText s) = Ok s /\
  exists t u, parse_dt s = Ok t /\ parse_dt r = Ok u /\ String.leb s r = (t <=? u).
Proof.
  intros Ha Hb Hs Hr. apply normalize_canonical in Hs as [t Ht]; [|done]. apply normalize_canonical in Hr as [u Hu]; [|done].
  split; [by eapply normalize_of_canonical|]. exists t, u. split_and!.
  - by apply parse_dt_canonical.
  - by apply parse_dt_canonical.
  - by apply canonical_leb.
Qed.

Lemma as_of_canonical_witness :
  normalize_as_of (AsText "2025-04-01T00:00:00+09:00") = Ok "2025-04-01T00:00:00+09:00" /\
  exists t u, parse_dt "2025-04-01T00:00:00+09:00" = Ok t /\ parse_dt "2025-04-01T09:00:00+09:00" = Ok u /\
    String.leb "2025-04-01T00:00:00+09:00" "2025-04-01T09:00:00+09:00" = (t <=? u).
Proof.
  apply (as_of_canonical (AsDate (ymd2ord 2025 4 1)) (AsText "2025-04-01T00:00:00Z")); vm_compute; reflexivity.
Defined.
