(* ===== verification/MembershipRuns.v ===== *)
(** * MembershipRuns: run-length universes
    (packages/data_plane/data_contracts/membership_runs.py)

    A point-in-time universe is stored as runs of consecutive days with one
    tuple of codes.  The file models validation, run-length encoding with its
    interning of code tuples by identity, day iteration, binary search and the
    streamed digest, and proves encoding and iteration inverse, search correct
    and the streamed digest that of the canonical JSON document. *)

From S2P Require Import Prelude PyDate Json.

Local Open Scope Z_scope.

(** [_iso_date] of a string; [value or ""] is the string itself. *)
Definition iso_date (value : string) : result string :=
  let text := strip value in
  parsed ← fromisoformat text;
  _ ← ensure (isoformat parsed =s text) ValueError "membership date is not ISO";
  Ok text.

Definition next_day (value : string) : result string :=
  d ← fromisoformat value; d ← date_add d 1; Ok (isoformat d).

(** The codes argument is a tuple or another sequence. *)
Definition canonical_tuple (is_tuple : bool) (codes : list string) : bool :=
  is_tuple && negb (bool_decide (codes = []))
  && forallb (fun code => negb (code =s "") && (strip code =s code)) codes
  && bool_decide (NoDup codes)
  && bool_decide (sorted_strings codes = codes).

Definition canonical_run_codes (is_tuple : bool) (codes : list string) : result (list string) :=
  if canonical_tuple is_tuple codes then Ok codes else
  let items := map strip codes in
  _ ← ensure (negb (bool_decide (items = []) || existsb (fun code => code =s "") items))
        ValueError "membership run codes are empty";
  _ ← ensure (bool_decide (NoDup items)) ValueError "membership run codes are not unique";
  _ ← ensure (bool_decide (sorted_strings items = items))
        ValueError "membership run codes are not sorted";
  Ok items.

Record MembershipRun := Run {
  run_start : string;
  run_end : string;
  run_codes : list string;
}.

#[export] Instance run_eq_dec : EqDecision MembershipRun.
Proof. solve_decision. Defined.

(** The constructor with its [__post_init__]. *)
Definition mk_run (start end_ : string) (is_tuple : bool) (codes : list string)
    : result MembershipRun :=
  start ← iso_date start;
  end_ ← iso_date end_;
  _ ← ensure (negb (String.ltb end_ start)) ValueError "membership run is reversed";
  codes ← canonical_run_codes is_tuple codes;
  Ok (Run start end_ codes).

Definition contains (run : MembershipRun) (day : string) : bool :=
  String.leb (run_start run) day && String.leb day (run_end run).

(** ** [validate_membership_runs] *)

(** An element of [runs] is a [MembershipRun] or an object with its attributes. *)
Inductive raw_run := IsRun (run : MembershipRun) | Duck (start end_ : string) (codes : list string).

Definition as_run (raw : raw_run) : result MembershipRun :=
  match raw with
  | IsRun run => Ok run
  | Duck start end_ codes => mk_run start end_ true codes
  end.

Definition set_last {A} (l : list A) (x : A) : list A := take (length l - 1) l ++ [x].

(** One iteration; the state is [(validated, previous)]. *)
Definition validate_step (start end_ : string) (require_coalesced : bool)
    (st : list MembershipRun * option MembershipRun) (raw : raw_run)
    : result (list MembershipRun * option MembershipRun) :=
  let '(validated, previous) := st in
  run ← as_run raw;
  _ ← ensure (negb (String.ltb (run_start run) start || String.ltb end_ (run_end run)))
        ValueError "membership run is outside its period";
  match previous with
  | None => Ok (validated ++ [run], Some run)
  | Some previous =>
      _ ← ensure (negb (String.leb (run_start run) (run_end previous)))
            ValueError "membership runs overlap or are out of order";
      adjacent ← (if require_coalesced && bool_decide (run_codes previous = run_codes run)
                  then n ← next_day (run_end previous); Ok (n =s run_start run)
                  else Ok false);
      if adjacent : bool then
        merged ← mk_run (run_start previous) (run_end run) true (run_codes previous);
        Ok (set_last validated merged, Some merged)
      else Ok (validated ++ [run], Some run)
  end.

Definition validate_membership_runs (runs : list raw_run) (period_start period_end : string)
    (require_coalesced : bool) : result (list MembershipRun) :=
  start ← iso_date period_start;
  end_ ← iso_date period_end;
  _ ← ensure (negb (String.ltb end_ start)) ValueError "membership period is reversed";
  st ← foldR (validate_step start end_ require_coalesced) ([], None) runs;
  _ ← ensure (negb (bool_decide (st.1 = []))) ValueError "membership runs are empty";
  Ok st.1.

(** ** [coalesce_daily_memberships]

    [is] compares addresses: a sequence object is its address, whether it is a
    tuple, and its items.  Address 0 is the empty tuple, of which there is one;
    [next] is the address of the next tuple allocated. *)
Record pyseq := Seq { addr : nat; is_tuple : bool; items : list string }.

Record coalesce_state := CState {
  c_runs : list MembershipRun;
  c_interned : gmap (list string) nat;
  c_current : nat * list string;
  c_start : string;
  c_end : string;
  c_next : nat;
}.

Definition flush (st : coalesce_state) : result (list MembershipRun) :=
  run ← mk_run (c_start st) (c_end st) true (c_current st).2;
  Ok (c_runs st ++ [run]).

Definition coalesce_step (st : coalesce_state) (pair : string * pyseq) : result coalesce_state :=
  let '(raw_day, raw) := pair in
  day ← iso_date raw_day;
  codes ← (if bool_decide (addr raw = (c_current st).1) then Ok (c_current st) else
           v ← canonical_run_codes (is_tuple raw) (items raw);
           Ok (if canonical_tuple (is_tuple raw) (items raw) then addr raw else c_next st, v));
  let next := S (c_next st) in
  (* interned.setdefault(codes, codes) *)
  let a := default codes.1 (c_interned st !! codes.2) in
  let interned := <[codes.2 := a]> (c_interned st) in
  let codes := (a, codes.2) in
  extends ← (if negb (c_start st =s "") && bool_decide ((c_current st).1 = codes.1)
             then n ← next_day (c_end st); Ok (n =s day) else Ok false);
  if extends : bool then
    Ok (CState (c_runs st) interned (c_current st) (c_start st) day next)
  else
    runs ← (if c_start st =s "" then Ok (c_runs st) else flush st);
    Ok (CState runs interned codes day day next).

Definition coalesce_daily_memberships (pairs : list (string * pyseq)) (next : nat)
    : result (list MembershipRun) :=
  st ← foldR coalesce_step (CState [] ∅ (0%nat, []) "" "" next) pairs;
  if c_start st =s "" then Ok (c_runs st) else flush st.

(** ** Lookup and iteration *)

Fixpoint search (fuel : nat) (runs : list MembershipRun) (day : string) (lo hi : Z)
    : result (list string) :=
  if lo <=? hi then
    match fuel with
    | O => raise Diverges ""
    | S fuel =>
        let mid := (lo + hi) / 2 in
        run ← py_index runs mid;
        if String.ltb day (run_start run) then search fuel runs day lo (mid - 1)
        else if String.ltb (run_end run) day then search fuel runs day (mid + 1) hi
        else Ok (run_codes run)
    end
  else raise KeyError "".

Definition codes_for_runs (runs : list MembershipRun) (decision_date : string)
    : result (list string) :=
  day ← iso_date decision_date;
  search (length runs) runs day 0 (Z.of_nat (length runs) - 1).

(** The days of one run: [while cursor <= stop], with the days left as fuel. *)
Fixpoint run_days (fuel : nat) (cursor stop : date) (codes : list string)
    : result (list (string * list string)) :=
  if cursor <=? stop then
    match fuel with
    | O => raise Diverges ""
    | S fuel =>
        cursor' ← date_add cursor 1;
        rest ← run_days fuel cursor' stop codes;
        Ok ((isoformat cursor, codes) :: rest)
    end
  else Ok [].

(** [tuple(iter_run_days(runs))] *)
Fixpoint iter_run_days (runs : list MembershipRun) : result (list (string * list string)) :=
  match runs with
  | [] => Ok []
  | run :: runs =>
      cursor ← fromisoformat (run_start run);
      stop ← fromisoformat (run_end run);
      days ← run_days (Z.to_nat (stop - cursor + 1)) cursor stop (run_codes run);
      rest ← iter_run_days runs;
      Ok (days ++ rest)
  end.

Definition decision_dates (runs : list MembershipRun) : result (list string) :=
  days ← iter_run_days runs; Ok (map fst days).

(** [RunLengthMembershipMap]: its two slots, set by the constructor. *)
Record RunLengthMembershipMap := MembershipMap {
  m_runs : list MembershipRun;
  m_dates : list string;
}.

Definition new_map (runs : list MembershipRun) : result RunLengthMembershipMap :=
  dates ← decision_dates runs; Ok (MembershipMap runs dates).

Definition map_getitem (m : RunLengthMembershipMap) (key : string) : result (list string) :=
  match codes_for_runs (m_runs m) key with
  | Err (Exn KeyError _) | Err (Exn ValueError _) => raise KeyError ""
  | r => r
  end.

Definition map_iter (m : RunLengthMembershipMap) : list string := m_dates m.
Definition map_len (m : RunLengthMembershipMap) : nat := length (m_dates m).

(** ** [stream_membership_digest]

    The hasher is the text it has been updated with; [sha256_hex] is the hex
    digest of that text. *)
Section Digest.
Variable sha256_hex : string -> string.

Definition json_string (value : string) : string := canonical_dumps (JStr value).

Definition run_json (run : MembershipRun) : json :=
  JDict [("codes", JList (map JStr (run_codes run)));
         ("end", JStr (run_end run)); ("start", JStr (run_start run))].

(** The bytes of a JSON key in front of its value. *)
Definition key (k : string) : string := String quote (k +:+ String quote ":").

(** [digest.update] on [text]; the loop over the runs keeps the flag [first]. *)
Definition update (text chunk : string) : string := text +:+ chunk.

Definition update_run (st : string * bool) (run : MembershipRun) : string * bool :=
  let '(text, first) := st in
  let text := if first then text else update text "," in
  (update text (canonical_dumps (run_json run)), false).

Definition streamed_text (rule_id rule_version rule_digest period_start period_end : string)
    (runs : list MembershipRun) : string :=
  let text := update "" ("{" +:+ key "membership_runs" +:+ "[") in
  let text := (fold_left update_run runs (text, true)).1 in
  let text := update text ("]," +:+ key "period_end") in
  let text := update text (json_string period_end) in
  let text := update text ("," +:+ key "period_start") in
  let text := update text (json_string period_start) in
  let text := update text ("," +:+ key "rule_digest") in
  let text := update text (json_string rule_digest) in
  let text := update text ("," +:+ key "rule_id") in
  let text := update text (json_string rule_id) in
  let text := update text ("," +:+ key "rule_version") in
  let text := update text (json_string rule_version) in
  update text "}".

Definition stream_membership_digest (rule_id rule_version rule_digest period_start period_end : string)
    (runs : list MembershipRun) : string :=
  "sha256:" +:+ sha256_hex
    (streamed_text rule_id rule_version rule_digest period_start period_end runs).
End Digest.

(** ** Lemmas: days and codes *)

Lemma iso_date_Ok s t : iso_date s = Ok t <-> strip s = t /\ exists n, is_day t n.
Proof.
  unfold iso_date. rewrite bind_Ok. split.
  - intros (n & Hn & H). apply bind_Ok in H as (u & Hu & [= <-]).
    apply ensure_Ok, bool_decide_eq_true in Hu. split; [done|]. exists n. split; [eauto with qp | done].
  - intros [<- [n Hn]]. exists n. split; [by apply is_day_fromisoformat|].
    destruct Hn as [_ ->]. by rewrite bool_decide_eq_true_2.
Qed.

Lemma iso_date_is_day t n : is_day t n -> iso_date t = Ok t.
Proof. intros H. apply iso_date_Ok. split; [eauto with qp | eauto]. Qed.

Lemma next_day_is_day t n : is_day t n -> n < MAXORDINAL -> next_day t = Ok (isoformat (n + 1)).
Proof.
  intros H Hn. unfold next_day. rewrite (is_day_fromisoformat _ _ H). simpl.
  unfold date_add. destruct (valid_date (n + 1)) eqn:E; [done|].
  destruct H as [Hv _]. unfold valid_date in *. apply andb_false_iff in E. bools.
  destruct E; bools; lia.
Qed.

(** What a canonical tuple of codes is. *)
Definition canonical (codes : list string) : Prop :=
  codes <> [] /\ Forall (fun c => c <> "" /\ strip c = c) codes /\
  NoDup codes /\ sorted_strings codes = codes.

Lemma canonical_tuple_spec codes : canonical_tuple true codes = true <-> canonical codes.
Proof.
  unfold canonical_tuple, canonical.
  rewrite !andb_true_iff, negb_true_iff, bool_decide_eq_false, !bool_decide_eq_true.
  rewrite forallb_forall, Forall_forall. setoid_rewrite andb_true_iff.
  setoid_rewrite negb_true_iff. setoid_rewrite bool_decide_eq_false.
  setoid_rewrite bool_decide_eq_true. setoid_rewrite list_elem_of_In. tauto.
Qed.

Lemma canonical_tuple_true it codes : canonical_tuple it codes = true -> canonical codes.
Proof. destruct it; [apply canonical_tuple_spec | done]. Qed.

Lemma canonical_map_strip codes : canonical codes -> map strip codes = codes.
Proof.
  intros (_ & H & _). induction H as [|c codes [_ Hc] _ IH]; [done|]. simpl. by rewrite Hc, IH.
Qed.

Lemma has_empty items : existsb (fun code => code =s "") items = true <-> "" ∈ items.
Proof.
  rewrite existsb_exists, list_elem_of_In. setoid_rewrite bool_decide_eq_true.
  split; [by intros (? & ? & ->) | by eauto].
Qed.

(** The checks of the slow branch are those of the fast one, on the stripped codes. *)
Lemma canonical_run_codes_Ok it codes v :
  canonical_run_codes it codes = Ok v <-> v = map strip codes /\ canonical (map strip codes).
Proof.
  unfold canonical_run_codes. destruct (canonical_tuple it codes) eqn:E.
  { apply canonical_tuple_true in E. rewrite (canonical_map_strip codes E).
    split; [by intros [= ->] | by intros [-> _]]. }
  assert (Hs : Forall (fun c => strip c = c) (map strip codes)).
  { apply Forall_map, Forall_forall. intros c _. apply strip_idem. }
  rewrite !bind_Ok. setoid_rewrite ensure_Ok. split.
  - intros (_ & H1 & H). apply bind_Ok in H as (_ & H2%ensure_Ok & H).
    apply bind_Ok in H as (_ & H3%ensure_Ok & [= <-]). bools. split; [done|].
    split_and!; try done. rewrite Forall_forall in *. intros c Hc.
    split; [intros ->; apply has_empty in Hc; congruence | by apply Hs].
  - intros (-> & Hne & Hall & Hnd & Hsort). exists tt.
    rewrite (bool_decide_eq_false_2 (_ = [])), (bool_decide_eq_true_2 (NoDup _)),
      (bool_decide_eq_true_2 (sorted_strings _ = _)) by done. simpl. split; [|done].
    apply negb_true_iff, not_true_iff_false. intros Hx%has_empty.
    rewrite Forall_forall in Hall. by destruct (Hall _ Hx).
Qed.

Lemma canonical_run_codes_id it v : canonical v -> canonical_run_codes it v = Ok v.
Proof.
  intros H. apply canonical_run_codes_Ok. by rewrite (canonical_map_strip v H).
Qed.

Lemma canonical_run_codes_canonical it codes v :
  canonical_run_codes it codes = Ok v -> canonical v.
Proof. intros [-> ?]%canonical_run_codes_Ok. done. Qed.

(** ** Lemmas: runs and their days *)

Definition run_ok (r : MembershipRun) (a b : date) : Prop :=
  is_day (run_start r) a /\ is_day (run_end r) b /\ a <= b /\ canonical (run_codes r).

Lemma mk_run_Ok s e it c r :
  mk_run s e it c = Ok r <->
  r = Run (strip s) (strip e) (map strip c) /\ exists a b, run_ok r a b.
Proof.
  unfold mk_run. split.
  - intros H. apply bind_Ok in H as (s' & (<- & a & Ha)%iso_date_Ok & H).
    apply bind_Ok in H as (e' & (<- & b & Hb)%iso_date_Ok & H).
    apply bind_Ok in H as (_ & Hle%ensure_Ok & H).
    apply bind_Ok in H as (c' & [-> Hc]%canonical_run_codes_Ok & [= <-]).
    split; [done|]. exists a, b. split_and!; try done.
    rewrite (is_day_ltb _ _ _ _ Hb Ha) in Hle. bools. lia.
  - intros [-> (a & b & Ha & Hb & Hab & Hc)]. simpl in *.
    rewrite (proj2 (iso_date_Ok s (strip s))) by eauto. simpl.
    rewrite (proj2 (iso_date_Ok e (strip e))) by eauto. simpl.
    rewrite (is_day_ltb _ _ _ _ Hb Ha). replace (b <? a) with false by (symmetry; apply Z.ltb_ge; lia).
    simpl. by rewrite (proj2 (canonical_run_codes_Ok it c (map strip c))).
Qed.

Lemma mk_run_id s e it c a b : run_ok (Run s e c) a b -> mk_run s e it c = Ok (Run s e c).
Proof.
  intros H. pose proof H as (Ha & Hb & _ & Hc). simpl in *. apply mk_run_Ok.
  rewrite (is_day_strip _ _ Ha), (is_day_strip _ _ Hb), (canonical_map_strip _ Hc). eauto.
Qed.

(** The days from [a] on, [n] of them. *)
Fixpoint days_from (n : nat) (a : date) (codes : list string) : list (string * list string) :=
  match n with O => [] | S n => (isoformat a, codes) :: days_from n (a + 1) codes end.

Definition span (a b : date) (codes : list string) : list (string * list string) :=
  days_from (Z.to_nat (b - a + 1)) a codes.

Lemma days_from_snoc n a c :
  days_from (S n) a c = days_from n a c ++ [(isoformat (a + Z.of_nat n), c)].
Proof.
  revert a. induction n as [|n IH]; intros a; [simpl; by rewrite Z.add_0_r|].
  change (days_from (S (S n)) a c) with ((isoformat a, c) :: days_from (S n) (a + 1) c).
  rewrite IH. simpl. do 3 f_equal. f_equal. f_equal. lia.
Qed.

Lemma span_snoc a b c : a <= b + 1 -> span a (b + 1) c = span a b c ++ [(isoformat (b + 1), c)].
Proof.
  intros H. unfold span. replace (Z.to_nat (b + 1 - a + 1)) with (S (Z.to_nat (b - a + 1))) by lia.
  rewrite days_from_snoc. do 4 f_equal. lia.
Qed.

Lemma span_one a c : span a a c = [(isoformat a, c)].
Proof. unfold span. by replace (Z.to_nat (a - a + 1)) with 1%nat by lia. Qed.

Lemma elem_of_span d c a b v :
  (d, v) ∈ span a b c <-> v = c /\ exists n, a <= n <= b /\ d = isoformat n.
Proof.
  unfold span. remember (Z.to_nat (b - a + 1)) as k eqn:Hk.
  revert a Hk. induction k as [|k IH]; intros a Hk; simpl.
  - rewrite elem_of_nil. split; [done|]. intros (_ & n & Hn & _). lia.
  - rewrite elem_of_cons, IH by lia. split.
    + intros [[= -> ->]|(-> & n & Hn & ->)]; (split; [done|]); eexists; (split; [|done]); lia.
    + intros (-> & n & Hn & ->). destruct (decide (n = a)) as [->|]; [by left|].
      right. split; [done|]. exists n. split; [lia|done].
Qed.

Lemma run_days_span k a b c :
  k = Z.to_nat (b - a + 1) -> valid_date a = true -> b < MAXORDINAL -> run_days k a b c = Ok (span a b c).
Proof.
  unfold span. intros ->. remember (Z.to_nat (b - a + 1)) as k eqn:Hk. revert a Hk.
  induction k as [|k IH]; intros a Hk Ha Hb; simpl.
  - destruct (a <=? b) eqn:E; [bools; lia | done].
  - replace (a <=? b) with true by (symmetry; apply Z.leb_le; lia).
    unfold date_add. assert (Ha' : valid_date (a + 1) = true).
    { unfold valid_date in *. bools. apply andb_true_iff. split; apply Z.leb_le; lia. }
    rewrite Ha'. simpl. rewrite IH by (done || lia). done.
Qed.

Lemma iter_run_days_cons r a b runs : run_ok r a b -> b < MAXORDINAL ->
  iter_run_days (r :: runs) =
  (rest ← iter_run_days runs; Ok (span a b (run_codes r) ++ rest)).
Proof.
  intros (Ha & Hb & Hab & _) Hm. simpl.
  rewrite (is_day_fromisoformat _ _ Ha), (is_day_fromisoformat _ _ Hb). simpl.
  rewrite run_days_span; [done..|by destruct Ha|done].
Qed.

Lemma iter_run_days_app l k :
  iter_run_days (l ++ k) = (d1 ← iter_run_days l; d2 ← iter_run_days k; Ok (d1 ++ d2)).
Proof.
  induction l as [|r l IH]; simpl; [by destruct (iter_run_days k)|].
  destruct (fromisoformat (run_start r)); simpl; [|done].
  destruct (fromisoformat (run_end r)); simpl; [|done].
  destruct (run_days _ _ _ _); simpl; [|done]. rewrite IH.
  destruct (iter_run_days l); simpl; [|done].
  destruct (iter_run_days k); simpl; [|done]. by rewrite app_assoc.
Qed.

Lemma iter_run_days_one r a b : run_ok r a b -> b < MAXORDINAL ->
  iter_run_days [r] = Ok (span a b (run_codes r)).
Proof. intros H Hb. rewrite (iter_run_days_cons _ _ _ _ H Hb). simpl. by rewrite app_nil_r. Qed.

(** ** Binary search *)

(** Runs in order: each ends before the next starts. *)
Definition ordered (runs : list MembershipRun) : Prop :=
  StronglySorted (fun r r' => String.ltb (run_end r) (run_start r') = true) runs /\
  Forall (fun r => String.leb (run_start r) (run_end r) = true) runs.

Lemma ordered_lookup runs i j r r' : ordered runs -> (i < j)%nat ->
  runs !! i = Some r -> runs !! j = Some r' -> String.ltb (run_end r) (run_start r') = true.
Proof.
  intros [Hs _]. revert i j. induction Hs as [|x runs Hs IH Hx]; intros i j Hij Hi Hj; [done|].
  destruct i as [|i], j as [|j]; try lia; simpl in *.
  - simplify_eq. rewrite Forall_lookup in Hx. eauto.
  - apply (IH i j); [lia|done..].
Qed.

Lemma py_index_lookup {A} (l : list A) i : 0 <= i < Z.of_nat (length l) ->
  exists x, py_index l i = Ok x /\ l !! Z.to_nat i = Some x.
Proof.
  intros Hi. destruct (lookup_lt_is_Some_2 l (Z.to_nat i)) as [x Hx]; [lia|].
  exists x. unfold py_index. replace (i <? 0) with false by (symmetry; apply Z.ltb_ge; lia).
  replace (0 <=? i) with true by (symmetry; apply Z.leb_le; lia). by rewrite Hx.
Qed.

(** What a search for [day] in [runs] must return. *)
Definition found (runs : list MembershipRun) (day : string) (res : result (list string)) : Prop :=
  match res with
  | Ok codes => exists r, r ∈ runs /\ contains r day = true /\ run_codes r = codes
  | Err e => e = Exn KeyError "" /\ forall r, r ∈ runs -> contains r day = false
  end.

Lemma search_found runs day fuel lo hi : ordered runs ->
  0 <= lo -> hi < Z.of_nat (length runs) -> hi - lo + 1 <= Z.of_nat fuel ->
  (forall i r, runs !! i = Some r -> Z.of_nat i < lo -> String.ltb (run_end r) day = true) ->
  (forall i r, runs !! i = Some r -> hi < Z.of_nat i -> String.ltb day (run_start r) = true) ->
  found runs day (search fuel runs day lo hi).
Proof.
  intros Ho. revert lo hi. induction fuel as [|fuel IH]; intros lo hi Hlo Hhi Hf Hbelow Habove; simpl;
    (destruct (lo <=? hi) eqn:E; bools; [try lia | simpl; split; [done|]]).
  1, 3: intros r [i Hi]%list_elem_of_lookup_1; unfold contains; apply andb_false_iff;
    destruct (decide (Z.of_nat i < lo));
    [right; specialize (Hbelow i r Hi); rewrite string_ltb_negb, negb_true_iff in Hbelow; auto
    |left; specialize (Habove i r Hi); rewrite string_ltb_negb, negb_true_iff in Habove; apply Habove; lia].
  set (mid := (lo + hi) / 2). assert (lo <= mid <= hi) as Hm by (unfold mid; split;
    [apply Z.div_le_lower_bound | apply Z.div_le_upper_bound]; lia). clearbody mid.
  destruct (py_index_lookup runs mid) as (run & -> & Hrun); [lia|]. simpl.
  pose proof (proj1 (Forall_lookup _ runs) (proj2 Ho) _ _ Hrun) as Hse. simpl in Hse.
  destruct (String.ltb day (run_start run)) eqn:El; [|destruct (String.ltb (run_end run) day) eqn:Er].
  - apply IH; try lia; [done|]. intros i r Hi Hlt.
    destruct (decide (i = Z.to_nat mid)) as [->|]; [by simplify_eq|].
    assert (Hlt' : String.ltb (run_end run) (run_start r) = true).
    { apply (ordered_lookup runs (Z.to_nat mid) i); [done|lia|done..]. }
    eauto using string_ltb_leb_trans, string_ltb_leb.
  - apply IH; try lia; [|done]. intros i r Hi Hlt.
    destruct (decide (i = Z.to_nat mid)) as [->|]; [by simplify_eq|].
    assert (Hlt' : String.ltb (run_end r) (run_start run) = true).
    { apply (ordered_lookup runs i (Z.to_nat mid)); [done|lia|done..]. }
    eauto using string_ltb_leb_trans, string_leb_ltb_trans, string_ltb_leb.
  - simpl. exists run. split; [by eapply list_elem_of_lookup_2|]. split; [|done].
    rewrite string_ltb_negb, negb_false_iff in El, Er. unfold contains. by rewrite El, Er.
Qed.

(** At most one run of an ordered list contains a day. *)
Lemma ordered_unique runs r r' day : ordered runs -> r ∈ runs -> r' ∈ runs ->
  contains r day = true -> contains r' day = true -> r = r'.
Proof.
  intros Ho [i Hi]%list_elem_of_lookup_1 [j Hj]%list_elem_of_lookup_1 Hr Hr'. unfold contains in *. bools.
  destruct (Nat.lt_trichotomy i j) as [Hlt|[->|Hlt]]; [exfalso|by simplify_eq|exfalso].
  - pose proof (ordered_lookup runs i j r r' Ho Hlt Hi Hj) as Hx.
    rewrite string_ltb_negb, negb_true_iff in Hx.
    rewrite (string_leb_trans (run_start r') day (run_end r)) in Hx; done.
  - pose proof (ordered_lookup runs j i r' r Ho Hlt Hj Hi) as Hx.
    rewrite string_ltb_negb, negb_true_iff in Hx.
    rewrite (string_leb_trans (run_start r) day (run_end r')) in Hx; done.
Qed.

Lemma search_whole runs day : ordered runs ->
  found runs day (search (length runs) runs day 0 (Z.of_nat (length runs) - 1)).
Proof.
  intros Ho. apply search_found; try done; try lia.
  intros i r Hi. apply lookup_lt_Some in Hi. lia.
Qed.

(** ** Run-length encoding *)

(** [r'] does not continue [r]: equal codes leave a gap of days between them. *)
Definition no_merge (r r' : MembershipRun) : Prop :=
  run_codes r = run_codes r' ->
  forall b a', is_day (run_end r) b -> is_day (run_start r') a' -> a' <> b + 1.

Lemma Sorted_snoc {A} (R : A -> A -> Prop) l x y :
  Sorted R (l ++ [x]) -> R x y -> Sorted R ((l ++ [x]) ++ [y]).
Proof.
  intros H Hxy. induction l as [|z l IH]; simpl in *; [by repeat constructor|].
  inversion_clear H as [|? ? H1 H2]. constructor; [by apply IH|].
  destruct l; simpl in *; inversion_clear H2; by constructor.
Qed.

Lemma Sorted_last_replace {A} (R : A -> A -> Prop) l x x' :
  (forall r, R r x -> R r x') -> Sorted R (l ++ [x]) -> Sorted R (l ++ [x']).
Proof.
  intros Hr H. induction l as [|z l IH]; simpl in *; [by repeat constructor|].
  inversion_clear H as [|? ? H1 H2]. constructor; [by apply IH|].
  destruct l; simpl in *; inversion_clear H2; constructor; auto.
Qed.

(** What one pair of the input denotes: its day and its codes. *)
Definition normal (p : string * pyseq) (q : date * list string) : Prop :=
  iso_date p.1 = Ok (isoformat q.1) /\ valid_date q.1 = true /\ q.1 < MAXORDINAL /\
  canonical_run_codes (is_tuple p.2) (items p.2) = Ok q.2.

Definition day_codes (q : date * list string) : string * list string := (isoformat q.1, q.2).

(** A heap [h] gives the items of every live sequence by address. *)
Definition heap_ok (h : gmap nat (list string)) (next : nat) : Prop :=
  h !! 0%nat = Some [] /\ forall a, is_Some (h !! a) -> (a < next)%nat.

Definition in_heap (h : gmap nat (list string)) (o : pyseq) : Prop := h !! addr o = Some (items o).

Definition st_heap (h : gmap nat (list string)) (st : coalesce_state) : Prop :=
  heap_ok h (c_next st) /\ h !! (c_current st).1 = Some (c_current st).2 /\
  forall v a, c_interned st !! v = Some a -> h !! a = Some v.

Definition pending (st : coalesce_state) : MembershipRun :=
  Run (c_start st) (c_end st) (c_current st).2.

Definition st_runs (st : coalesce_state) (D : list (string * list string)) : Prop :=
  c_start st = "" /\ D = [] /\ c_runs st = [] /\ (c_current st) = (0%nat, []) \/
  exists a b, run_ok (pending st) a b /\ b < MAXORDINAL /\
    c_interned st !! (c_current st).2 = Some (c_current st).1 /\
    Sorted no_merge (c_runs st ++ [pending st]) /\
    Forall (fun r => exists a b, run_ok r a b) (c_runs st) /\
    exists D', iter_run_days (c_runs st) = Ok D' /\ D = D' ++ span a b (c_current st).2.

Lemma is_day_nonempty n : valid_date n = true -> isoformat n <> "".
Proof. intros _. unfold isoformat, pad4. done. Qed.

Lemma mk_pending st a b : run_ok (pending st) a b ->
  flush st = Ok (c_runs st ++ [pending st]).
Proof. intros H. unfold flush. by rewrite (mk_run_id _ _ _ _ a b H). Qed.

(** The tuple the step works with: its address after interning. *)
Lemma step_codes h st raw v :
  st_heap h st -> in_heap h raw -> canonical_run_codes (is_tuple raw) (items raw) = Ok v ->
  ((c_current st).2 <> [] -> canonical (c_current st).2) ->
  exists a h', h ⊆ h' /\
    (if bool_decide (addr raw = (c_current st).1) then Ok (c_current st) else
     v ← canonical_run_codes (is_tuple raw) (items raw);
     Ok (if canonical_tuple (is_tuple raw) (items raw) then addr raw else c_next st, v))
      = Ok (a, v) /\
    heap_ok h' (S (c_next st)) /\ h' !! default a (c_interned st !! v) = Some v /\
    (forall a', c_interned st !! v = Some a' -> h' !! a' = Some v).
Proof.
  intros (Hh & Hcur & Hint) Hraw Hv Hcan.
  assert (Hkeep : heap_ok h (S (c_next st))).
  { destruct Hh as [H0 Hlt]. split; [done|]. intros a Ha. specialize (Hlt a Ha). lia. }
  assert (Hdef : forall a, h !! a = Some v -> h !! default a (c_interned st !! v) = Some v).
  { intros a Ha. destruct (c_interned st !! v) as [a'|] eqn:E; simpl; eauto. }
  destruct (bool_decide (addr raw = (c_current st).1)) eqn:E; bools.
  - unfold in_heap in Hraw. rewrite E, Hcur in Hraw. injection Hraw as Hraw.
    assert (v = (c_current st).2) as ->.
    { apply canonical_run_codes_Ok in Hv as [-> Hc]. rewrite <- Hraw in *.
      apply canonical_map_strip, Hcan. intros Hn. rewrite Hn in Hc. by destruct Hc. }
    exists (c_current st).1, h. destruct (c_current st) as [x y]; simpl in *. eauto 10.
  - rewrite Hv. simpl. destruct (canonical_tuple (is_tuple raw) (items raw)) eqn:Et.
    + exists (addr raw), h. assert (items raw = v) as Heq.
      { apply canonical_run_codes_Ok in Hv as [-> _].
        symmetry. eapply canonical_map_strip, canonical_tuple_true, Et. }
      unfold in_heap in Hraw. rewrite Heq in Hraw. eauto 10.
    + assert (Hnone : h !! c_next st = None).
      { destruct (h !! c_next st) eqn:Es; [|done]. destruct Hh as [_ Hlt].
        specialize (Hlt (c_next st) ltac:(by eexists)). lia. }
      exists (c_next st), (<[c_next st := v]> h).
      split; [by apply insert_subseteq|]. split; [done|].
      assert (Hsub : forall a x, h !! a = Some x -> <[c_next st := v]> h !! a = Some x).
      { intros a x Ha. rewrite lookup_insert_ne; [done|]. intros <-. congruence. }
      split_and!.
      * destruct Hkeep as [H0 Hlt]. split; [by apply Hsub|]. intros a [x Hx].
        destruct (decide (a = c_next st)) as [->|Hne]; [lia|].
        rewrite lookup_insert_ne in Hx by done. apply Hlt. by eexists.
      * destruct (c_interned st !! v) as [a'|] eqn:Ei; simpl; [eauto|].
        by rewrite lookup_insert_eq.
      * eauto.
Qed.

Lemma run_ok_single n v : valid_date n = true -> canonical v ->
  run_ok (Run (isoformat n) (isoformat n) v) n n.
Proof. intros Hn Hv. repeat split; (done || lia || apply Hv). Qed.

(** A state whose interned tuple is the current one. *)
Lemma st_runs_first a interned n v next : interned !! v = Some a ->
  canonical v -> valid_date n = true -> n < MAXORDINAL ->
  st_runs (CState [] interned (a, v) (isoformat n) (isoformat n) next) [day_codes (n, v)].
Proof.
  intros Hi Hv Hn Hmax. right. exists n, n. split; [by apply run_ok_single|]. split; [done|].
  simpl. split; [done|]. split; [by repeat constructor|].
  split; [constructor|]. exists []. by rewrite span_one.
Qed.

Section PendingRun.
Context (st : coalesce_state) (D' : list (string * list string)) (x y : date)
  (Hok : run_ok (pending st) x y) (Hy : y < MAXORDINAL)
  (Hsorted : Sorted no_merge (c_runs st ++ [pending st]))
  (Hall : Forall (fun r => exists a b, run_ok r a b) (c_runs st))
  (HD' : iter_run_days (c_runs st) = Ok D').

(** The next day, with the codes of the pending run. *)
Lemma st_runs_extend interned next : y + 1 < MAXORDINAL ->
  interned !! (c_current st).2 = Some (c_current st).1 -> valid_date (y + 1) = true ->
  st_runs (CState (c_runs st) interned (c_current st) (c_start st) (isoformat (y + 1)) next)
    ((D' ++ span x y (c_current st).2) ++ [day_codes (y + 1, (c_current st).2)]).
Proof using Hok Hsorted Hall HD'.
  intros Hm Hi Hv. destruct Hok as (Hx & Hye & Hxy & Hcur).
  right. exists x, (y + 1). simpl. split; [repeat split; (done || lia || apply Hx || apply Hcur)|].
  split; [done|]. split; [done|].
  split; [eapply Sorted_last_replace; [|exact Hsorted]; intros r Hr; exact Hr|].
  split; [done|]. exists D'. split; [done|]. by rewrite <- app_assoc, span_snoc by lia.
Qed.

(** Another day or other codes. *)
Lemma st_runs_append interned a v n next : ~ ((c_current st).2 = v /\ n = y + 1) ->
  interned !! v = Some a -> canonical v -> valid_date n = true -> n < MAXORDINAL ->
  st_runs (CState (c_runs st ++ [pending st]) interned (a, v) (isoformat n) (isoformat n) next)
    ((D' ++ span x y (c_current st).2) ++ [day_codes (n, v)]).
Proof using Hok Hy Hsorted Hall HD'.
  intros Hno Hi Hvc Hn Hmax. pose proof Hok as (_ & Hye & _).
  right. exists n, n. split; [by apply run_ok_single|]. split; [done|]. simpl. split; [done|].
  split.
  { apply Sorted_snoc; [done|]. intros Ev b a' Hb Ha' E. simpl in *. apply Hno.
    rewrite <- (is_day_inj _ _ _ Ha' (conj Hn eq_refl)), E.
    by rewrite (is_day_inj _ _ _ Hb Hye). }
  split; [apply Forall_app; split; [done|]; constructor; [by eauto|constructor]|].
  exists (D' ++ span x y (c_current st).2). rewrite span_one. split; [|done].
  by rewrite iter_run_days_app, HD', (iter_run_days_one _ x y Hok Hy).
Qed.
End PendingRun.

(** The day [n] with codes [v] continues the pending run or starts a new one. *)
Lemma coalesce_step_ok h st D raw_day raw n v :
  st_heap h st -> st_runs st D -> in_heap h raw -> normal (raw_day, raw) (n, v) ->
  exists h' st', coalesce_step st (raw_day, raw) = Ok st' /\ h ⊆ h' /\
    st_heap h' st' /\ st_runs st' (D ++ [day_codes (n, v)]).
Proof.
  intros Hheap Hruns Hraw (Hday & Hn & Hmax & Hv). simpl in *.
  pose proof (canonical_run_codes_canonical _ _ _ Hv) as Hvc.
  destruct (step_codes h st raw v Hheap Hraw Hv) as (a & h' & Hsub & Hcodes & Hh' & Ha & Hia).
  { intros Hne. destruct Hruns as [(_ & _ & _ & E)|(x & y & (_ & _ & _ & Hc) & _)]; [|done].
    rewrite E in Hne. done. }
  assert (Hst' : forall runs s, st_heap h' (CState runs
    (<[v := default a (c_interned st !! v)]> (c_interned st))
    (default a (c_interned st !! v), v) s (isoformat n) (S (c_next st)))).
  { intros runs s. split; [done|]. split; [done|]. simpl. intros w b Hw.
    destruct (decide (w = v)) as [->|Hne]; [by rewrite lookup_insert_eq in Hw; simplify_eq|].
    rewrite lookup_insert_ne in Hw by done. destruct Hheap as (_ & _ & Hint).
    eapply lookup_weaken; eauto. }
  exists h'. unfold coalesce_step. rewrite Hday. simpl. rewrite Hcodes. simpl.
  destruct Hruns as [(Es & -> & Er & Ec)|(x & y & Hok & Hy & Hint & Hsorted & Hall & D' & HD' & ->)].
  { rewrite Es, Er. simpl. eexists. split; [done|]. split; [done|]. split; [apply Hst'|].
    apply st_runs_first; [by rewrite lookup_insert_eq|done..]. }
  pose proof Hok as (Hx & Hye & Hxy & Hcur). simpl in Hx, Hye, Hcur.
  rewrite (bool_decide_eq_false_2 (c_start st = "")).
  2:{ destruct Hx as [? ->]. by apply is_day_nonempty. }
  simpl. rewrite (next_day_is_day _ _ Hye Hy), (mk_pending st x y Hok).
  assert (Hiff : (c_current st).1 = default a (c_interned st !! v) <-> (c_current st).2 = v).
  { split; [|by intros <-; rewrite Hint]. intros E.
    destruct Hheap as (_ & Hc & _). apply (lookup_weaken _ h') in Hc; [|done].
    rewrite E, Ha in Hc. by simplify_eq. }
  destruct (decide ((c_current st).2 = v /\ n = y + 1)) as [[Ev ->]|Hno].
  - rewrite bool_decide_eq_true_2 by (by apply Hiff). simpl. rewrite bool_decide_eq_true_2 by done.
    eexists. split; [done|]. split; [done|]. subst v.
    rewrite Hint in *. simpl in *. split.
    { specialize (Hst' (c_runs st) (c_start st)). by destruct (c_current st). }
    apply st_runs_extend; try done. by rewrite lookup_insert_eq.
  - assert (Hne : (c_current st).1 = default a (c_interned st !! v) ->
      isoformat (y + 1) <> isoformat n).
    { intros E E'. apply Hno. split; [by apply Hiff|]. symmetry. apply isoformat_inj; [|done..].
      destruct Hx as [Hx _]. unfold valid_date in *. bools.
      apply andb_true_iff. split; apply Z.leb_le; lia. }
    destruct (bool_decide ((c_current st).1 = _)) eqn:E; simpl; bools;
      [rewrite (bool_decide_eq_false_2 (isoformat (y + 1) = isoformat n)) by auto|];
      (eexists; split; [done|]; split; [done|]; split; [apply Hst'|];
       apply st_runs_append; try done; by rewrite lookup_insert_eq).
Qed.

Lemma coalesce_fold_ok h st D pairs days :
  st_heap h st -> st_runs st D -> Forall (fun p => in_heap h p.2) pairs ->
  Forall2 normal pairs days ->
  exists st' h', foldR coalesce_step st pairs = Ok st' /\
    st_heap h' st' /\ st_runs st' (D ++ map day_codes days).
Proof.
  intros Hh Hr Hin Hn. revert h st D Hh Hr Hin.
  induction Hn as [|[rd raw] [n v] pairs days Hp Hn IH]; intros h st D Hh Hr Hin.
  { exists st, h. by rewrite app_nil_r. }
  inversion_clear Hin as [|? ? Hraw Hin'].
  destruct (coalesce_step_ok h st D rd raw n v Hh Hr Hraw Hp) as (h' & st' & Hs & Hsub & Hh' & Hr').
  cbn [foldR]. rewrite Hs. cbn [mbind result_bind].
  destruct (IH h' st' _ Hh' Hr') as (st'' & h'' & ? & ? & ?).
  { eapply Forall_impl; [exact Hin'|]. intros q Hq. exact (lookup_weaken _ _ _ _ Hq Hsub). }
  exists st'', h''. by rewrite <- app_assoc in *.
Qed.

(** Claim C34.  Run-length encoding loses nothing: for daily pairs whose day is
    an ISO date (before 9999-12-31) and whose codes are canonical after
    stripping, whatever tuples they share by identity, [coalesce_daily_memberships]
    succeeds, iterating its runs yields exactly the given days with their codes
    in the given order, every run is well formed, and no run continues the one
    before it (the encoding is as short as possible). *)
Theorem coalesce_roundtrip (h : gmap nat (list string)) (next : nat)
    (pairs : list (string * pyseq)) (days : list (date * list string)) :
  heap_ok h next -> Forall (fun p => in_heap h p.2) pairs -> Forall2 normal pairs days ->
  exists runs, coalesce_daily_memberships pairs next = Ok runs /\
    iter_run_days runs = Ok (map day_codes days) /\
    Forall (fun r => exists a b, run_ok r a b) runs /\ Sorted no_merge runs.
Proof.
  intros Hh Hin Hn.
  destruct (coalesce_fold_ok h (CState [] ∅ (0%nat, []) "" "" next) [] pairs days) as
    (st & h' & Hst & Hheap & Hr).
  - split; [done|]. split; [apply Hh|]. simpl. intros v a Hv. by rewrite lookup_empty in Hv.
  - by left.
  - done.
  - done.
  - unfold coalesce_daily_memberships. rewrite Hst. simpl in *.
    destruct Hr as [(Es & Ed & Er & _)|(x & y & Hok & Hy & _ & Hs & Hall & D' & HD & ->)].
    + exists []. rewrite Es, Er, Ed. by repeat constructor.
    + exists (c_runs st ++ [pending st]). rewrite bool_decide_eq_false_2.
      2:{ destruct Hok as [[Hv E] _]. simpl in E. rewrite E. by apply is_day_nonempty. }
      rewrite (mk_pending st x y Hok), iter_run_days_app, HD, (iter_run_days_one _ x y Hok Hy).
      split_and!; [done..| |done]. apply Forall_app. eauto.
Qed.

(** ** Validated runs *)

Definition well_formed (runs : list MembershipRun) : Prop :=
  Forall (fun r => exists a b, run_ok r a b) runs /\
  StronglySorted (fun r r' => String.ltb (run_end r) (run_start r') = true) runs.

Lemma well_formed_ordered runs : well_formed runs -> ordered runs.
Proof.
  intros [Hall Hs]. split; [done|]. eapply Forall_impl; [exact Hall|].
  intros r (a & b & Ha & Hb & Hab & _). rewrite (is_day_leb _ _ _ _ Ha Hb). by apply Z.leb_le.
Qed.

Lemma run_days_max k a c : 1 <= a <= MAXORDINAL -> k = Z.to_nat (MAXORDINAL - a + 1) ->
  run_days k a MAXORDINAL c = raise OverflowError "date value out of range".
Proof.
  revert a. induction k as [|k IH]; intros a Ha Hk; [lia|].
  simpl. replace (a <=? MAXORDINAL) with true by (symmetry; apply Z.leb_le; lia).
  unfold date_add. destruct (valid_date (a + 1)) eqn:E; [|done]. simpl.
  unfold valid_date in E. bools. rewrite IH by lia. done.
Qed.

Lemma valid_le_max n : valid_date n = true -> 1 <= n <= MAXORDINAL.
Proof. unfold valid_date. intros H. bools. lia. Qed.

Lemma iter_one_max r a : run_ok r a MAXORDINAL ->
  iter_run_days [r] = raise OverflowError "date value out of range".
Proof.
  intros (Ha & Hb & Hab & _). simpl.
  rewrite (is_day_fromisoformat _ _ Ha), (is_day_fromisoformat _ _ Hb). cbn [mbind result_bind].
  rewrite run_days_max; [done| |done]. apply valid_le_max, Ha.
Qed.

Lemma contains_day r a b d n : run_ok r a b -> is_day d n ->
  contains r d = true <-> a <= n <= b.
Proof.
  intros (Ha & Hb & _) Hd. unfold contains.
  rewrite (is_day_leb _ _ _ _ Ha Hd), (is_day_leb _ _ _ _ Hd Hb), andb_true_iff, !Z.leb_le. done.
Qed.

(** The days iterated are those some run contains, with its codes. *)
Lemma elem_of_iter runs days d c : Forall (fun r => exists a b, run_ok r a b) runs ->
  iter_run_days runs = Ok days ->
  (d, c) ∈ days <-> (exists n, is_day d n) /\ exists r, r ∈ runs /\ contains r d = true /\ run_codes r = c.
Proof.
  intros Hall. revert days. induction Hall as [|r runs (a & b & Hok) _ IH]; intros days.
  { intros [= <-]. split; [by intros ?%elem_of_nil | by intros (_ & r & ?%elem_of_nil & _)]. }
  change (r :: runs) with ([r] ++ runs). rewrite iter_run_days_app. intros H.
  destruct (decide (b = MAXORDINAL)) as [->|Hb]; [by rewrite (iter_one_max r a Hok) in H|].
  assert (b < MAXORDINAL) as Hlt by (destruct Hok as (_ & [?%valid_le_max _] & _); lia).
  rewrite (iter_run_days_one r a b Hok Hlt) in H. cbn [mbind result_bind] in H.
  apply bind_Ok in H as (rest & Hrest & [= <-]).
  rewrite elem_of_app, elem_of_span, (IH _ Hrest).
  setoid_rewrite elem_of_cons. split.
  - intros [(-> & n & Hn & ->)|(Hd & r' & Hr' & Hc)].
    + assert (Hd : is_day (isoformat n) n).
      { split; [|done]. destruct Hok as ([?%valid_le_max _] & _). unfold valid_date.
        apply andb_true_iff; split; apply Z.leb_le; lia. }
      split; [eauto|]. exists r. split; [by left|]. split; [|done].
      by apply (contains_day r a b _ n).
    + eauto 10.
  - intros ((n & Hd) & r' & [->|Hr'] & Hc & <-); [left|right; eauto 10].
    split; [done|]. exists n. split; [by apply (contains_day r a b d n)|apply Hd].
Qed.

(** Two consecutive runs with equal codes have the days of their union. *)
Lemma iter_merge r r' a b b' : run_ok r a b -> run_ok r' (b + 1) b' -> run_codes r = run_codes r' ->
  iter_run_days ([r] ++ [r']) = iter_run_days [Run (run_start r) (run_end r') (run_codes r)].
Proof.
  intros Hr Hr' Ec. assert (Hm : run_ok (Run (run_start r) (run_end r') (run_codes r)) a b').
  { destruct Hr as (? & ? & ? & ?), Hr' as (? & ? & ? & ?). repeat split; simpl; done || lia || apply H || apply H4 || apply H2. }
  assert (b < MAXORDINAL).
  { destruct Hr' as ([?%valid_le_max _] & _). lia. }
  rewrite iter_run_days_app, (iter_run_days_one r a b) by done. cbn [mbind result_bind].
  destruct (decide (b' = MAXORDINAL)) as [->|Hb'].
  { by rewrite (iter_one_max _ _ Hr'), (iter_one_max _ _ Hm). }
  assert (b' < MAXORDINAL) as Hlt by (destruct Hr' as (_ & [?%valid_le_max _] & _); lia).
  rewrite (iter_run_days_one r' _ _ Hr' Hlt), (iter_run_days_one _ _ _ Hm Hlt). simpl.
  f_equal. rewrite <- Ec. clear -Hr Hr'. destruct Hr as (_ & _ & Hab & _), Hr' as (_ & _ & Hb & _).
  unfold span. replace (Z.to_nat (b' - a + 1)) with
    (Z.to_nat (b - a + 1) + Z.to_nat (b' - (b + 1) + 1))%nat by lia.
  replace (b + 1) with (a + Z.of_nat (Z.to_nat (b - a + 1))) at 2 by lia.
  generalize (Z.to_nat (b - a + 1)) (Z.to_nat (b' - (b + 1) + 1)). intros k m. clear. revert a.
  induction k as [|k IH]; intros a; simpl; [by rewrite Z.add_0_r|]. f_equal. rewrite <- IH.
  do 2 f_equal. lia.
Qed.

Definition in_period (s e : string) (r : MembershipRun) : Prop :=
  String.leb s (run_start r) = true /\ String.leb (run_end r) e = true.

(** What the loop of [validate_membership_runs] has established after the runs [seen]. *)
Definition validated_inv (s e : string) (flag : bool)
    (st : list MembershipRun * option MembershipRun) (seen : list MembershipRun) : Prop :=
  st = ([], None) /\ seen = [] \/
  exists v p, st = (v ++ [p], Some p) /\ well_formed (v ++ [p]) /\
    Forall (in_period s e) (v ++ [p]) /\ (flag = true -> Sorted no_merge (v ++ [p])) /\
    iter_run_days (v ++ [p]) = iter_run_days seen.

Lemma StronglySorted_snoc {A} (R : A -> A -> Prop) l x :
  StronglySorted R (l ++ [x]) <-> StronglySorted R l /\ Forall (fun y => R y x) l.
Proof.
  induction l as [|y l IH]; simpl.
  - split; [by repeat constructor | by repeat constructor].
  - split.
    + inversion_clear 1 as [|? ? H1 H2]. apply IH in H1 as [H1 H3].
      apply Forall_app in H2 as [H2 H4]. inversion_clear H4. by repeat constructor.
    + intros [H1 H2]. inversion_clear H1. inversion_clear H2. constructor; [by apply IH|].
      apply Forall_app. by repeat constructor.
Qed.

Lemma well_formed_snoc v p r a b : well_formed (v ++ [p]) -> run_ok r a b ->
  String.ltb (run_end p) (run_start r) = true -> well_formed ((v ++ [p]) ++ [r]).
Proof.
  intros Hw Hr Hlt. pose proof (well_formed_ordered _ Hw) as [_ Hse].
  destruct Hw as [Hall Hs]. split; [apply Forall_app; eauto|].
  apply StronglySorted_snoc. split; [done|]. apply StronglySorted_snoc in Hs as [_ Hs].
  apply Forall_app in Hse as [_ Hp]. inversion_clear Hp as [|? ? Hp' _].
  apply Forall_app. split; [|by constructor]. eapply Forall_impl; [exact Hs|]. simpl. intros x Hx.
  eauto using string_ltb_leb_trans, string_ltb_leb.
Qed.

Lemma set_last_snoc {A} (l : list A) x y : set_last (l ++ [x]) y = l ++ [y].
Proof.
  unfold set_last. rewrite length_app. simpl.
  replace (length l + 1 - 1)%nat with (length l) by lia. by rewrite take_app_length.
Qed.

(** Appending [r] after [p]. *)
Lemma validated_append s e flag v p r a b seen :
  validated_inv s e flag (v ++ [p], Some p) seen -> run_ok r a b -> in_period s e r ->
  String.ltb (run_end p) (run_start r) = true -> (flag = true -> no_merge p r) ->
  validated_inv s e flag ((v ++ [p]) ++ [r], Some r) (seen ++ [r]).
Proof.
  intros [[? _]|(v' & p' & E & Hw & Hper & Hs & Hi)] Hr Hp Hlt Hm; [by destruct v|].
  injection E as Ev Ep. rewrite <- Ep, <- Ev in *. right. exists (v ++ [p]), r. split_and!.
  - done.
  - by eapply well_formed_snoc.
  - apply Forall_app. eauto.
  - intros Hf. apply Sorted_snoc; auto.
  - rewrite (iter_run_days_app (v ++ [p])), Hi. by rewrite iter_run_days_app.
Qed.

(** Merging [r] into [p], whose codes it continues on the next day. *)
Lemma validated_merge s e flag v p r a b b' seen :
  validated_inv s e flag (v ++ [p], Some p) seen -> run_ok p a b -> run_ok r (b + 1) b' ->
  in_period s e r -> run_codes p = run_codes r ->
  let m := Run (run_start p) (run_end r) (run_codes p) in
  run_ok m a b' /\ validated_inv s e flag (v ++ [m], Some m) (seen ++ [r]).
Proof.
  intros [[? _]|(v' & p' & E & Hw & Hper & Hs & Hi)] Hp Hr Hin Ec m; [by destruct v|].
  injection E as Ev Ep. rewrite <- Ep, <- Ev in *.
  assert (Hm : run_ok m a b').
  { destruct Hp as (? & ? & ? & ?), Hr as (? & ? & ? & ?). by split_and!; simpl; try lia. }
  split; [done|]. right. exists v, m. destruct Hw as [Hall Hsort].
  apply Forall_app in Hall as [Hall Hpall]. apply Forall_app in Hper as [Hper Hpp].
  inversion_clear Hpp as [|? ? [Hp1 _] _]. split_and!.
  - done.
  - split; [apply Forall_app; eauto|]. apply StronglySorted_snoc in Hsort. by apply StronglySorted_snoc.
  - apply Forall_app. split; [done|]. constructor; [|done]. split; [done|apply Hin].
  - intros Hf. eapply Sorted_last_replace; [|by apply Hs]. done.
  - rewrite iter_run_days_app. unfold m. rewrite <- (iter_merge p r a b b' Hp Hr Ec).
    rewrite (iter_run_days_app seen), <- Hi, !iter_run_days_app.
    destruct (iter_run_days v), (iter_run_days [p]), (iter_run_days [r]);
      cbn [mbind result_bind]; rewrite ?app_assoc; done.
Qed.

Definition raw_ok (raw : raw_run) : Prop :=
  match raw with IsRun r => exists a b, run_ok r a b | Duck _ _ _ => True end.

Lemma as_run_ok raw r : raw_ok raw -> as_run raw = Ok r -> exists a b, run_ok r a b.
Proof.
  destruct raw as [r'|s e c]; simpl; [by intros H [= <-]|]. intros _ H.
  by apply mk_run_Ok in H as [_ ?].
Qed.

Lemma validate_step_inv s e flag st raw st' seen :
  raw_ok raw -> validated_inv s e flag st seen -> validate_step s e flag st raw = Ok st' ->
  exists r, as_run raw = Ok r /\ validated_inv s e flag st' (seen ++ [r]).
Proof.
  intros Hraw Hinv H. destruct st as [v0 prev]. unfold validate_step in H.
  apply bind_Ok in H as (r & Hr & H). apply bind_Ok in H as (_ & Hper%ensure_Ok & H).
  exists r. split; [done|]. destruct (as_run_ok _ _ Hraw Hr) as (x & y & Hok).
  assert (Hin : in_period s e r).
  { bools. rewrite string_ltb_negb, negb_false_iff in *. by split. }
  pose proof Hinv as [[[= -> ->] ->]|(v & p & [= -> ->] & [Hall _] & _)].
  { simplify_eq/=. right. exists [], r. split_and!; try done.
    - split; [by constructor; eauto|by repeat constructor].
    - by constructor.
    - by repeat constructor. }
  apply bind_Ok in H as (_ & Hlt%ensure_Ok & H).
  assert (Hlt' : String.ltb (run_end p) (run_start r) = true) by by rewrite string_ltb_negb.
  apply Forall_app in Hall as [_ Hpall]. inversion_clear Hpall as [|? ? (a & b & Hp) _].
  pose proof Hp as (_ & Hpb & _ & Hpc). pose proof Hok as (Hrx & _ & Hxy & _).
  assert (Hbx : b < x) by (rewrite (is_day_ltb _ _ _ _ Hpb Hrx) in Hlt'; by bools).
  assert (Hb : b < MAXORDINAL) by (pose proof (valid_le_max x ltac:(apply Hrx)); lia).
  assert (Happ : forall r', (flag = true -> no_merge p r) -> Ok ((v ++ [p]) ++ [r], Some r) = Ok r' ->
    validated_inv s e flag r' (seen ++ [r])).
  { intros r' Hm [= <-]. by eapply validated_append. }
  rewrite (next_day_is_day _ _ Hpb Hb) in H.
  destruct (flag && _) eqn:Ef; cbn [mbind result_bind] in H.
  - bools. destruct (isoformat (b + 1) =s run_start r) eqn:Ed.
    + apply bind_Ok in H as (m & Hm & [= <-]). bools.
      assert (x = b + 1) as ->.
      { apply (is_day_inj (run_start r)); [done|]. split; [|done].
        unfold valid_date. pose proof (valid_le_max b (proj1 Hpb)).
        apply andb_true_iff; split; apply Z.leb_le; lia. }
      destruct (validated_merge s e flag v p r a b y seen Hinv Hp Hok Hin) as [Hmok Hres]; [done|].
      rewrite (mk_run_id _ _ _ _ _ _ Hmok) in Hm. injection Hm as <-. by rewrite set_last_snoc.
    + bools. apply (Happ st'); [|done]. intros _ _ b0 a0 Hb0 Ha0 ->. apply Ed.
      rewrite (is_day_inj _ _ _ Hb0 Hpb) in *. by destruct Ha0 as [_ ->].
  - apply (Happ st'); [|done]. intros -> Ec. simpl in Ef. bools. done.
Qed.

Lemma validate_fold_inv s e flag raws st st' seen :
  Forall raw_ok raws -> validated_inv s e flag st seen ->
  foldR (validate_step s e flag) st raws = Ok st' ->
  exists rs, mapR as_run raws = Ok rs /\ validated_inv s e flag st' (seen ++ rs).
Proof.
  intros Hraws. revert st seen. induction Hraws as [|raw raws Hraw _ IH]; intros st seen Hinv H.
  { injection H as <-. exists []. by rewrite app_nil_r. }
  cbn [foldR] in H. apply bind_Ok in H as (st1 & H1 & H).
  destruct (validate_step_inv _ _ _ _ _ _ _ Hraw Hinv H1) as (r & Hr & Hinv1).
  destruct (IH st1 _ Hinv1 H) as (rs & Hrs & Hres).
  exists (r :: rs). cbn [mapR]. rewrite Hr, Hrs. by rewrite <- app_assoc in Hres.
Qed.

(** What [validate_membership_runs] accepts: if it returns runs, they are
    non-empty, well formed, in order and disjoint, inside the period, cover
    exactly the days (with the codes) of the runs given, and, when coalescing
    is asked for, no run continues the one before it. *)
Theorem validate_sound (raws : list raw_run) (period_start period_end : string) (flag : bool)
    (runs : list MembershipRun) :
  Forall raw_ok raws ->
  validate_membership_runs raws period_start period_end flag = Ok runs ->
  runs <> [] /\ well_formed runs /\
  Forall (in_period (strip period_start) (strip period_end)) runs /\
  (flag = true -> Sorted no_merge runs) /\
  exists rs, mapR as_run raws = Ok rs /\ iter_run_days runs = iter_run_days rs.
Proof.
  intros Hraws H. unfold validate_membership_runs in H.
  apply bind_Ok in H as (s & [<- _]%iso_date_Ok & H).
  apply bind_Ok in H as (e & [<- _]%iso_date_Ok & H).
  apply bind_Ok in H as (_ & _ & H). apply bind_Ok in H as (st & Hst & H).
  apply bind_Ok in H as (_ & Hne%ensure_Ok & [= <-]). bools.
  destruct (validate_fold_inv _ _ _ _ _ _ [] Hraws ltac:(by left) Hst) as (rs & Hrs & Hinv).
  destruct Hinv as [[-> _]|(v & p & -> & Hw & Hp & Hs & Hi)]; [done|]. simpl in *.
  split_and!; try done. by exists rs.
Qed.

(** Binary search agrees with iteration: on well-formed runs,
    [codes_for_runs] returns codes for a day exactly when iterating the runs
    yields that day with those codes, and otherwise raises [KeyError]; the loop
    always ends. *)
Theorem codes_for_runs_iter (runs : list MembershipRun) (days : list (string * list string))
    (day : string) (n : date) :
  well_formed runs -> iter_run_days runs = Ok days -> is_day day n ->
  (forall codes, codes_for_runs runs day = Ok codes <-> (day, codes) ∈ days) /\
  (day ∉ map fst days -> codes_for_runs runs day = raise KeyError "").
Proof.
  intros Hw Hi Hd. pose proof (well_formed_ordered _ Hw) as Ho.
  unfold codes_for_runs. rewrite (iso_date_is_day _ _ Hd). cbn [mbind result_bind].
  pose proof (search_whole runs day Ho) as Hf. unfold found in Hf.
  destruct (search _ _ _ _ _) as [codes|e].
  - destruct Hf as (r & Hr & Hc & <-).
    assert (Hin : (day, run_codes r) ∈ days).
    { apply (elem_of_iter runs); [apply Hw|done|]. split; [by exists n|by exists r]. }
    split; [|intros []; apply list_elem_of_fmap; by exists (day, run_codes r)].
    intros codes. split; [by intros [= <-]|]. intros Hin'.
    apply (elem_of_iter runs _ _ _ (proj1 Hw) Hi) in Hin' as (_ & r' & Hr' & Hc' & <-).
    by rewrite (ordered_unique runs r r' day).
  - destruct Hf as [-> Hnone]. split; [|done]. intros codes. split; [done|]. intros Hin'.
    apply (elem_of_iter runs _ _ _ (proj1 Hw) Hi) in Hin' as (_ & r' & Hr' & Hc' & _).
    by rewrite Hnone in Hc'.
Qed.

(** The fast path of [canonical_run_codes] for tuples already
    canonical changes nothing: tuples and other sequences give the same codes
    or the same exception. *)
Theorem canonical_run_codes_fast_path (codes : list string) :
  canonical_run_codes true codes = canonical_run_codes false codes.
Proof.
  destruct (canonical_tuple true codes) eqn:E.
  - apply canonical_tuple_spec in E. by rewrite !canonical_run_codes_id.
  - unfold canonical_run_codes. rewrite E. by replace (canonical_tuple false codes) with false.
Qed.

Lemma fold_update_run runs text first :
  (fold_left update_run runs (text, first)).1 =
  text +:+ join_writers first (map (fun r s => canonical_dumps (run_json r) +:+ s) runs) "".
Proof.
  revert text first. induction runs as [|r runs IH]; intros text first; simpl;
    [by rewrite string_app_nil_r|].
  rewrite IH. unfold update. destruct first; by rewrite <- !string_app_assoc.
Qed.

Lemma join_writers_ext {A} (f g : A -> string -> string) first l rest :
  (forall x s, f x s = g x s) -> join_writers first (map f l) rest = join_writers first (map g l) rest.
Proof.
  intros H. revert first. induction l as [|x l IH]; intros first; simpl; [done|].
  by rewrite H, IH.
Qed.

Lemma json_string_app s rest : json_string s +:+ rest = dumps_str s rest.
Proof. unfold json_string, canonical_dumps. simpl. by rewrite dumps_str_app. Qed.

Lemma run_writers_app first runs rest :
  join_writers first (map (fun r s => canonical_dumps (run_json r) +:+ s) runs) "" +:+ rest =
  join_writers first (map dumps_onto (map run_json runs)) rest.
Proof.
  rewrite join_writers_app, map_map.
  - apply join_writers_ext. intros r s. by rewrite dumps_onto_canonical.
  - apply Forall_map, Forall_forall. intros r _ a b. simpl. by rewrite string_app_assoc.
Qed.

(** The streamed text is the canonical JSON of the whole document, so
    the streamed digest is the digest of that document. *)
Theorem stream_digest_canonical (sha256_hex : string -> string)
    (rule_id rule_version rule_digest period_start period_end : string) (runs : list MembershipRun) :
  stream_membership_digest sha256_hex rule_id rule_version rule_digest period_start period_end runs =
  "sha256:" +:+ sha256_hex (canonical_dumps (JDict
    [("rule_id", JStr rule_id); ("rule_version", JStr rule_version);
     ("rule_digest", JStr rule_digest); ("period_start", JStr period_start);
     ("period_end", JStr period_end); ("membership_runs", JList (map run_json runs))])).
Proof.
  unfold stream_membership_digest. do 2 f_equal.
  unfold streamed_text. rewrite fold_update_run. unfold update.
  rewrite <- !string_app_assoc, run_writers_app, !json_string_app. reflexivity.
Qed.

(** ** Witnesses *)

Lemma coalesce_roundtrip_witness :
  let c := Seq 1 true ["1301"; "7203"] in
  let pairs := [("2024-01-04", c); (" 2024-01-05", Seq 2 false ["1301 "; "7203"]);
                ("2024-01-09", c)] in
  exists runs, coalesce_daily_memberships pairs 3 = Ok runs /\
    iter_run_days runs = Ok (map day_codes
      [(738889, ["1301"; "7203"]); (738890, ["1301"; "7203"]); (738894, ["1301"; "7203"])]) /\
    Forall (fun r => exists a b, run_ok r a b) runs /\ Sorted no_merge runs.
Proof.
  intros c pairs.
  apply (coalesce_roundtrip
    (<[0%nat := []]> (<[1%nat := ["1301"; "7203"]]> (<[2%nat := ["1301 "; "7203"]]> ∅))) 3 pairs).
  - split; [by vm_compute|]. intros a [x Hx].
    rewrite !lookup_insert_Some in Hx. rewrite lookup_empty in Hx.
    destruct Hx as [[<- _]|[_ [[<- _]|[_ [[<- _]|[_ ?]]]]]]; [lia..|done].
  - repeat constructor.
  - repeat constructor.
Defined.

Lemma validate_sound_witness :
  let raws := [Duck "2024-01-04" "2024-01-05" ["7203"]; Duck "2024-01-06" "2024-01-08" ["7203"]] in
  let runs := [Run "2024-01-04" "2024-01-08" ["7203"]] in
  validate_membership_runs raws "2024-01-01" "2024-12-31" true = Ok runs /\
  (runs <> [] /\ well_formed runs /\
   Forall (in_period (strip "2024-01-01") (strip "2024-12-31")) runs /\
   (true = true -> Sorted no_merge runs) /\
   exists rs, mapR as_run raws = Ok rs /\ iter_run_days runs = iter_run_days rs).
Proof.
  intros raws runs. split; [by vm_compute|].
  apply (validate_sound raws "2024-01-01" "2024-12-31" true runs).
  - repeat constructor.
  - by vm_compute.
Defined.

Lemma codes_for_runs_iter_witness :
  let runs := [Run "2024-01-04" "2024-01-05" ["7203"]; Run "2024-01-09" "2024-01-09" ["1301"]] in
  let days := [("2024-01-04", ["7203"]); ("2024-01-05", ["7203"]); ("2024-01-09", ["1301"])] in
  (forall codes, codes_for_runs runs "2024-01-09" = Ok codes <-> ("2024-01-09", codes) ∈ days) /\
  ("2024-01-09" ∉ map fst days -> codes_for_runs runs "2024-01-09" = raise KeyError "").
Proof.
  intros runs days. apply (codes_for_runs_iter runs days "2024-01-09" 738894).
  - split; [|by repeat constructor].
    repeat constructor; [exists 738889, 738890|exists 738894, 738894];
      (split; [by split; vm_compute|]; split; [by split; vm_compute|]; split; [lia|];
       apply canonical_tuple_spec; by vm_compute).
  - by vm_compute.
  - by split; vm_compute.
Defined.
