(* ===== verification/Budget.v ===== *)
(** * Budget: the persistent research budget ledger
    (packages/product/selection/budget_ledger.py, OfflineExperimentBudget of
    packages/product/selection/screen.py)

    The SQLite database is a record of three tables; an operation of
    [ResearchBudgetCapability] takes the database to a new one and a value or an
    exception.  A transaction either commits all its changes or leaves the
    database as it was; [BEGIN IMMEDIATE] serialises writers, so concurrent
    processes are sequences of operations.  The clock readings of an operation
    and the fresh lease id are its arguments. *)

From S2P Require Import Prelude PyDate PyTime.

Local Open Scope Z_scope.

(** ** Limits *)

(** Caps are integers by annotation; [None] is what the capability rejects. *)
Record OfflineExperimentBudget := Limits {
  max_parallel_experiments : Z;
  max_generations : option Z;
  max_model_calls : option Z;
  max_paper_runs : option Z;
  max_input_tokens : option Z;
  max_output_tokens : option Z;
  max_cached_tokens : option Z;
  max_compute_time_ms : option Z;
  max_estimated_cost_micros : option Z;
  lease_ttl_seconds : Z;
  automatic_promotion : bool;
}.

(** [v < k], which raises when [v] is [None]. *)
Definition py_lt (v : option Z) (k : Z) : result bool :=
  match v with Some n => Ok (n <? k) | None => raise TypeError "'<' not supported" end.

Definition py_or (a b : result bool) : result bool :=
  a ← a; if a : bool then Ok true else b.

(** [OfflineExperimentBudget.__post_init__] *)
Definition check_limits (l : OfflineExperimentBudget) : result unit :=
  _ ← ensure (negb (max_parallel_experiments l <? 1)) ValueError "max_parallel_experiments must be >= 1";
  g ← py_lt (max_generations l) 1;
  _ ← ensure (negb g) ValueError "max_generations must be >= 1";
  t ← py_or (py_lt (max_input_tokens l) 1) (py_lt (max_output_tokens l) 1);
  _ ← ensure (negb t) ValueError "token budgets must be >= 1";
  _ ← ensure (negb (lease_ttl_seconds l <? 30)) ValueError "lease_ttl_seconds must be >= 30";
  ensure (negb (automatic_promotion l)) ValueError "automatic promotion is disabled".

Record ResearchBudgetCapability := Capability {
  budget_id : string;
  limits : OfflineExperimentBudget;
}.

(** [ResearchBudgetCapability.__post_init__] *)
Definition check_capability (cap : ResearchBudgetCapability) : result unit :=
  let l := limits cap in
  _ ← ensure (negb (bool_decide (max_input_tokens l = None) || bool_decide (max_output_tokens l = None)))
        MassResearchDisabledError "token budgets must be hard-capped (max_input_tokens/max_output_tokens)";
  t ← py_or (py_lt (max_input_tokens l) 1) (py_lt (max_output_tokens l) 1);
  ensure (negb t) MassResearchDisabledError "token budgets must be >= 1".

Definition require_budget_capability (cap : option ResearchBudgetCapability)
    : result ResearchBudgetCapability :=
  of_option MassResearchDisabledError
    "ResearchBudgetCapability is required; mass research is fail-closed" cap.

Definition COUNTERS : list string :=
  ["generations"; "model_calls"; "input_tokens"; "output_tokens"; "cached_tokens";
   "paper_runs"; "compute_time_ms"; "estimated_cost_micros"].

Definition limit_for (l : OfflineExperimentBudget) (counter : string) : option Z :=
  if counter =s "generations" then max_generations l
  else if counter =s "model_calls" then max_model_calls l
  else if counter =s "paper_runs" then max_paper_runs l
  else if counter =s "input_tokens" then max_input_tokens l
  else if counter =s "output_tokens" then max_output_tokens l
  else if counter =s "cached_tokens" then max_cached_tokens l
  else if counter =s "compute_time_ms" then max_compute_time_ms l
  else if counter =s "estimated_cost_micros" then max_estimated_cost_micros l
  else None.

Definition early_stop_counts (generation paper_runs model_calls : Z) (budget : OfflineExperimentBudget)
    : result bool :=
  let ge v k := match k with Some k => Ok (k <=? v) | None => raise TypeError "'>=' not supported" end in
  py_or (ge generation (max_generations budget))
    (py_or (ge paper_runs (max_paper_runs budget)) (ge model_calls (max_model_calls budget))).

(** ** Tables *)

Record ledger_row := LedgerRow { used : Z; updated_at : string }.

Record lease_row := LeaseRow {
  lr_budget : string;
  lr_acquired_at : string;
  lr_expires_at : string;
  lr_last_heartbeat_at : string;
  lr_released_at : option string;
}.

(** Token, call and cost amounts of a settlement, in column order. *)
Record amounts := Amounts {
  a_input_tokens : Z;
  a_output_tokens : Z;
  a_cached_tokens : Z;
  a_model_calls : Z;
  a_estimated_cost_micros : Z;
}.

#[export] Instance amounts_eq_dec : EqDecision amounts.
Proof. solve_decision. Defined.

(** [amounts.items()] *)
Definition amount_items (a : amounts) : list (string * Z) :=
  [("input_tokens", a_input_tokens a); ("output_tokens", a_output_tokens a);
   ("cached_tokens", a_cached_tokens a); ("model_calls", a_model_calls a);
   ("estimated_cost_micros", a_estimated_cost_micros a)].

(** A settlement row.  [sr_outcome] is the column of the older schema; a column
    the table does not have is [None] in every row. *)
Record settlement_row := SettlementRow {
  sr_amounts : amounts;
  sr_usage_source : string;
  sr_charge_trigger : option string;
  sr_over_limit : Z;
  sr_created_at : string;
  sr_outcome : option string;
  sr_terminal_outcome : option string;
  sr_finalized_at : option string;
}.

(** Which of the optional columns the settlement table has. *)
Record columns := Columns {
  has_outcome : bool;
  has_charge_trigger : bool;
  has_terminal_outcome : bool;
  has_finalized_at : bool;
}.

Definition current_columns : columns := Columns false true true true.

Record settlement_table := SettlementTable {
  st_columns : columns;
  st_rows : gmap (string * string) settlement_row;
}.

(** The database: the settlement table may not exist yet; the other two are
    created empty on first use. *)
Record db := DB {
  ledger : gmap (string * string) ledger_row;
  leases : gmap string lease_row;
  settlements : option settlement_table;
}.

Definition M (A : Type) : Type := db -> db * result A.

(** A transaction that ends in [COMMIT], or in [ROLLBACK] and an exception; an
    exception that leaves it closes the connection, which rolls back too. *)
Definition transaction {A} (f : db -> result (A * db)) : M A :=
  fun d => match f d with Ok (a, d') => (d', Ok a) | Err e => (d, Err e) end.

Definition seqM {A B} (m : M A) (k : A -> M B) : M B :=
  fun d => match m d with (d', Ok a) => k a d' | (d', Err e) => (d', Err e) end.

Definition failM {A} (r : result A) : M A := fun d => (d, r).

(** ** Schema migration *)

Definition PROVIDER_CHARGE_TRIGGERS : list string :=
  ["provider_response"; "provider_error"; "invalid_usage"].
Definition PROVIDER_TERMINAL_OUTCOMES : list string :=
  ["success"; "schema_reject"; "provider_error"; "invalid_usage"; "actual_overage"].
Definition PROVIDER_USAGE_SOURCES : list string := ["measured"; "reserved_estimate"].

Definition coalesce {A} (a b : option A) : option A := match a with Some _ => a | None => b end.

Definition trigger_expr (c : columns) (r : settlement_row) : option string :=
  let by_outcome :=
    match sr_outcome r with
    | Some o => if o ∈? ["success"; "schema_reject"; "actual_overage"]
                then Some "provider_response" else Some o
    | None => None
    end in
  if has_charge_trigger c then coalesce (sr_charge_trigger r) by_outcome else by_outcome.

Definition terminal_expr (c : columns) (r : settlement_row) : option string :=
  let by_outcome :=
    match sr_outcome r with
    | Some o => if o ∈? PROVIDER_TERMINAL_OUTCOMES then Some o else None
    | None => None
    end in
  if has_terminal_outcome c then coalesce (sr_terminal_outcome r) by_outcome else by_outcome.

Definition finalized_expr (c : columns) (r : settlement_row) : option string :=
  let by_outcome :=
    match sr_outcome r with
    | Some o => if o ∈? PROVIDER_TERMINAL_OUTCOMES then Some (sr_created_at r) else None
    | None => None
    end in
  if has_finalized_at c then coalesce (sr_finalized_at r) by_outcome else by_outcome.

Definition migrate_row (c : columns) (r : settlement_row) : settlement_row :=
  SettlementRow (sr_amounts r) (sr_usage_source r) (trigger_expr c r) (sr_over_limit r)
    (sr_created_at r) None (terminal_expr c r) (finalized_expr c r).

(** [ALTER TABLE ADD COLUMN] for the columns that are missing. *)
Definition add_columns (c : columns) (r : settlement_row) : settlement_row :=
  SettlementRow (sr_amounts r) (sr_usage_source r) (sr_charge_trigger r) (sr_over_limit r)
    (sr_created_at r) (sr_outcome r)
    (if has_terminal_outcome c then sr_terminal_outcome r else None)
    (if has_finalized_at c then sr_finalized_at r else None).

Definition is_some {A} (o : option A) : bool := match o with Some _ => true | None => false end.

(** [o != s] in SQL: not true when [o] is NULL. *)
Definition sql_ne (o : option string) (s : string) : bool :=
  match o with Some t => negb (t =s s) | None => false end.

Definition sql_in (o : option string) (l : list string) : bool :=
  match o with Some t => t ∈? l | None => false end.

Definition invalid_trigger (r : settlement_row) : bool :=
  negb (is_some (sr_charge_trigger r)) || negb (sql_in (sr_charge_trigger r) PROVIDER_CHARGE_TRIGGERS).

Definition invalid_terminal (r : settlement_row) : bool :=
  let t := sr_terminal_outcome r in
  negb (Bool.eqb (is_some t) (is_some (sr_finalized_at r)))
  || (is_some t && negb (sql_in t PROVIDER_TERMINAL_OUTCOMES))
  || (sql_in t ["success"; "schema_reject"] && sql_ne (sr_charge_trigger r) "provider_response")
  || (sql_in t ["provider_error"] && sql_ne (sr_charge_trigger r) "provider_error")
  || (sql_in t ["invalid_usage"] && sql_ne (sr_charge_trigger r) "invalid_usage").

(** [_migrate_provider_settlements] on the table it finds. *)
Definition migrate_table (t : settlement_table) : result settlement_table :=
  let c := st_columns t in
  t ← (if has_outcome c then
         _ ← ensure (bool_decide (map_Forall (fun _ r => is_some (trigger_expr c r) = true) (st_rows t)))
               IntegrityError "NOT NULL constraint failed";
         Ok (SettlementTable current_columns (migrate_row c <$> st_rows t))
       else
         _ ← ensure (has_charge_trigger c) RuntimeError "provider settlement charge trigger missing";
         Ok (SettlementTable current_columns (add_columns c <$> st_rows t)));
  _ ← ensure (bool_decide (map_Forall (fun _ r => invalid_trigger r || invalid_terminal r = false) (st_rows t)))
        RuntimeError "provider settlement audit state invalid";
  Ok t.

(** [_connect]: create what is missing, then migrate in a transaction. *)
Definition connect : M unit := fun d =>
  let t := default (SettlementTable current_columns ∅) (settlements d) in
  let d := DB (ledger d) (leases d) (Some t) in
  transaction (fun d => t ← migrate_table t; Ok (tt, DB (ledger d) (leases d) (Some t))) d.

(** The rows after [_connect]. *)
Definition rows (d : db) : gmap (string * string) settlement_row :=
  match settlements d with Some t => st_rows t | None => ∅ end.

Definition with_rows (d : db) (r : gmap (string * string) settlement_row) : db :=
  DB (ledger d) (leases d)
    (match settlements d with
     | Some t => Some (SettlementTable (st_columns t) r)
     | None => Some (SettlementTable current_columns r)
     end).

(** ** Experiment slot leases *)

Record ExperimentSlotLease := Lease {
  lease_id : string;
  lease_budget_id : string;
  acquired_at : string;
  expires_at : string;
  last_heartbeat_at : string;
}.

Definition active_row (bid : string) (r : lease_row) : bool :=
  (lr_budget r =s bid) && negb (is_some (lr_released_at r)).

(** [SELECT COUNT( * ) ... WHERE budget_id=? AND released_at IS NULL] *)
Definition count_active (bid : string) (l : gmap string lease_row) : Z :=
  Z.of_nat (size (filter (fun p => active_row bid p.2 = true) l)).

Definition set_released (at_ : string) (r : lease_row) : lease_row :=
  LeaseRow (lr_budget r) (lr_acquired_at r) (lr_expires_at r) (lr_last_heartbeat_at r) (Some at_).

Definition with_leases (d : db) (l : gmap string lease_row) : db :=
  DB (ledger d) l (settlements d).

(** [_recover_expired]: [now] is the clock reading. *)
Definition recover_expired (bid : string) (now : datetime) (d : db) : db :=
  let now := dt_isoformat now in
  with_leases d ((fun r =>
    if active_row bid r && String.ltb (lr_expires_at r) now then set_released now r else r)
    <$> leases d).

Definition used_at (bid : string) (d : db) (counter : string) : Z :=
  match ledger d !! (bid, counter) with Some r => used r | None => 0 end.

Section Operations.
Variable cap : ResearchBudgetCapability.

Definition active_lease_count (now : datetime) : M Z :=
  seqM connect (fun _ => transaction (fun d =>
    let d := recover_expired (budget_id cap) now d in
    Ok (count_active (budget_id cap) (leases d), d))).

(** [acquire_slot]: [now] is read by the recovery, [acquired] after the count;
    [new_id] is [str(uuid4())]. *)
Definition acquire_slot (ttl_seconds : option Z) (now acquired : datetime) (new_id : string)
    : M ExperimentSlotLease :=
  let ttl := default (lease_ttl_seconds (limits cap)) ttl_seconds in
  if (ttl <? 30) || (86400 <? ttl)
  then failM (raise ValueError "ttl_seconds must be in [30, 86400]") else
  seqM connect (fun _ => transaction (fun d =>
    let d := recover_expired (budget_id cap) now d in
    let active := count_active (budget_id cap) (leases d) in
    let limit := max_parallel_experiments (limits cap) in
    _ ← ensure (negb (limit <=? active)) BudgetExhaustedError "concurrent_experiments";
    expires ← dt_add_seconds acquired ttl;
    _ ← ensure (bool_decide (leases d !! new_id = None)) IntegrityError "UNIQUE constraint failed";
    let a := dt_isoformat acquired in
    let e := dt_isoformat expires in
    Ok (Lease new_id (budget_id cap) a e a,
        with_leases d (<[new_id := LeaseRow (budget_id cap) a e a None]> (leases d))))).

Definition heartbeat (lease : ExperimentSlotLease) (extend_seconds : option Z) (now : datetime)
    : M ExperimentSlotLease :=
  let extend := default (lease_ttl_seconds (limits cap)) extend_seconds in
  seqM connect (fun _ => transaction (fun d =>
    row ← of_option BudgetExhaustedError "lease not active"
            (r ← leases d !! lease_id lease; if active_row (budget_id cap) r then Some r else None);
    expires ← dt_add_seconds now extend;
    let n := dt_isoformat now in
    let e := dt_isoformat expires in
    Ok (Lease (lease_id lease) (budget_id cap) (acquired_at lease) e n,
        with_leases d (alter (fun r =>
          LeaseRow (lr_budget r) (lr_acquired_at r) e n (lr_released_at r))
          (lease_id lease) (leases d))))).

Definition release (lease : ExperimentSlotLease) (now : datetime) : M unit :=
  seqM connect (fun _ => transaction (fun d =>
    Ok (tt, with_leases d (alter (fun r =>
      if active_row (budget_id cap) r then set_released (dt_isoformat now) r else r)
      (lease_id lease) (leases d))))).

(** ** Counters *)

Definition used_of (d : db) (counter : string) : Z := used_at (budget_id cap) d counter.

(** A Python integer bound to an SQLite parameter. *)
Definition bind_int (v : Z) : result Z :=
  if (- 2 ^ 63 <=? v) && (v <? 2 ^ 63) then Ok v
  else raise OverflowError "Python int too large to convert to SQLite INTEGER".

(** [INSERT ... ON CONFLICT DO UPDATE SET used = used + excluded.used]; a sum that leaves
    the integers of SQLite becomes a REAL, which no row represents here. *)
Definition add_used (counter : string) (now : datetime) (d : db) (delta : Z) : result db :=
  delta ← bind_int delta;
  _ ← ensure (is_Ok (bind_int (used_of d counter + delta))) OutsideModel "a counter that becomes REAL";
  Ok (DB (<[(budget_id cap, counter) := LedgerRow (used_of d counter + delta) (dt_isoformat now)]>
       (ledger d)) (leases d) (settlements d)).

Definition consume_step (now : datetime) (d : db) (item : string * Z) : result db :=
  let '(counter, delta) := item in
  if delta =? 0 then Ok d else
  let used := used_of d counter in
  _ ← ensure (match limit_for (limits cap) counter with
              | Some limit => negb (limit <? used + delta)
              | None => true
              end) BudgetExhaustedError counter;
  add_used counter now d delta.

Definition check_amount (item : string * Z) : result unit :=
  _ ← ensure (item.1 ∈? COUNTERS) KeyError "unknown budget counter";
  ensure (negb (item.2 <? 0)) ValueError "consume amounts must be non-negative".

(** [consume( **amounts)]: the keyword arguments in their order. *)
Definition consume (items : list (string * Z)) (now : datetime) : M unit :=
  if bool_decide (items = []) then failM (Ok tt) else
  match ensure (negb ("concurrent_experiments" ∈? map fst items)) ValueError
          "concurrent_experiments is lease-based; use acquire_slot/release" ≫= fun _ =>
        mapR check_amount items with
  | Err e => failM (Err e)
  | Ok _ => seqM connect (fun _ => transaction (fun d =>
      d ← foldR (consume_step now) d items; Ok (tt, d)))
  end.

Definition charge_provider_usage (a : amounts) (now : datetime) : M unit :=
  consume (amount_items a) now.

(** ** Provider settlements *)

(** [len(settlement_id) > 128] and [strip]. *)
Definition validate_settlement_id (sid : string) : result unit :=
  ensure (negb ((sid =s "") || negb (sid =s strip sid) || (128 <? Z.of_nat (String.length sid))))
    ValueError "settlement_id must be a bounded non-empty string".

Definition over_limit_item (d : db) (item : string * Z) : bool :=
  match limit_for (limits cap) item.1 with
  | Some limit => limit <? used_of d item.1 + item.2
  | None => false
  end.

Definition settle_item (now : datetime) (d : db) (item : string * Z) : result db :=
  if item.2 =? 0 then Ok d else add_used item.1 now d item.2.

(** The transaction of [settle_provider_usage_once]. *)
Definition settle_tx (sid : string) (a : amounts) (usage_source charge_trigger : string)
    (now : datetime) (d : db) : result (bool * db) :=
  match rows d !! (budget_id cap, sid) with
  | Some existing =>
      _ ← ensure (bool_decide (sr_amounts existing = a) && (sr_usage_source existing =s usage_source)
                  && bool_decide (sr_charge_trigger existing = Some charge_trigger))
            ValueError "provider settlement idempotency conflict";
      Ok (negb (sr_over_limit existing =? 0), d)
  | None =>
      let over := existsb (over_limit_item d) (amount_items a) in
      _ ← mapR (fun item => bind_int item.2) (amount_items a);
      let row := SettlementRow a usage_source (Some charge_trigger) (if over then 1 else 0)
                   (dt_isoformat now) None None None in
      let d := with_rows d (<[(budget_id cap, sid) := row]> (rows d)) in
      d ← foldR (settle_item now) d (amount_items a);
      Ok (over, d)
  end.

Definition check_settle_args (sid : string) (a : amounts) (usage_source charge_trigger : string)
    : result unit :=
  _ ← validate_settlement_id sid;
  _ ← ensure (usage_source ∈? PROVIDER_USAGE_SOURCES) ValueError "provider usage_source invalid";
  _ ← ensure (charge_trigger ∈? PROVIDER_CHARGE_TRIGGERS) ValueError
        "provider settlement charge_trigger invalid";
  _ ← mapR (fun item => ensure (negb (item.2 <? 0)) ValueError "must be an integer >= 0") (amount_items a);
  Ok tt.

Definition settle_provider_usage_once (sid : string) (a : amounts) (usage_source charge_trigger : string)
    (now : datetime) : M bool :=
  match check_settle_args sid a usage_source charge_trigger with
  | Err e => failM (Err e)
  | Ok _ => seqM connect (fun _ => transaction (settle_tx sid a usage_source charge_trigger now))
  end.

Definition expected_trigger (terminal_outcome : string) : option string :=
  if terminal_outcome =s "success" then Some "provider_response"
  else if terminal_outcome =s "schema_reject" then Some "provider_response"
  else if terminal_outcome =s "provider_error" then Some "provider_error"
  else if terminal_outcome =s "invalid_usage" then Some "invalid_usage"
  else None.

Definition set_terminal (outcome at_ : string) (r : settlement_row) : settlement_row :=
  SettlementRow (sr_amounts r) (sr_usage_source r) (sr_charge_trigger r) (sr_over_limit r)
    (sr_created_at r) (sr_outcome r) (Some outcome) (Some at_).

(** The transaction of [finalize_provider_settlement_once]; [str(row[0])] of a
    trigger that is NULL is ["None"]. *)
Definition finalize_tx (sid terminal_outcome : string) (now : datetime) (d : db) : result (unit * db) :=
  row ← of_option ValueError "provider settlement must be charged before finalize"
          (rows d !! (budget_id cap, sid));
  let charge_trigger := default "None" (sr_charge_trigger row) in
  _ ← ensure (match expected_trigger terminal_outcome with
              | Some t => charge_trigger =s t
              | None => true
              end) ValueError "provider settlement terminal outcome conflicts with trigger";
  match sr_terminal_outcome row with
  | Some existing =>
      _ ← ensure (existing =s terminal_outcome) ValueError "provider settlement terminal outcome conflict";
      Ok (tt, d)
  | None =>
      Ok (tt, with_rows d (<[(budget_id cap, sid) :=
        set_terminal terminal_outcome (dt_isoformat now) row]> (rows d)))
  end.

Definition finalize_provider_settlement_once (sid terminal_outcome : string) (now : datetime) : M unit :=
  match _ ← validate_settlement_id sid;
        ensure (terminal_outcome ∈? PROVIDER_TERMINAL_OUTCOMES) ValueError
          "provider settlement terminal_outcome invalid" with
  | Err e => failM (Err e)
  | Ok _ => seqM connect (fun _ => transaction (finalize_tx sid terminal_outcome now))
  end.

(** [snapshot]: the counters of the budget and the active leases; the count runs
    on its own connection after the counters are read. *)
Definition snapshot (now : datetime) : M (gmap string Z) :=
  seqM connect (fun _ d =>
    let out := list_to_map (omap (fun '(k, r) =>
      if k.1 =s budget_id cap then Some (k.2, used r) else None) (map_to_list (ledger d))) in
    seqM (active_lease_count now) (fun n d => (d, Ok (<["active_leases" := n]> out))) d).
End Operations.

(** ** Runs of operations *)

Inductive op :=
  | OpActive (now : datetime)
  | OpAcquire (ttl : option Z) (now acquired : datetime) (new_id : string)
  | OpHeartbeat (lease : ExperimentSlotLease) (extend : option Z) (now : datetime)
  | OpRelease (lease : ExperimentSlotLease) (now : datetime)
  | OpConsume (items : list (string * Z)) (now : datetime)
  | OpSettle (sid : string) (a : amounts) (usage_source charge_trigger : string) (now : datetime)
  | OpFinalize (sid terminal_outcome : string) (now : datetime)
  | OpSnapshot (now : datetime).

(** The database after one operation, whatever it returns or raises. *)
Definition exec (cap : ResearchBudgetCapability) (o : op) (d : db) : db :=
  match o with
  | OpActive now => (active_lease_count cap now d).1
  | OpAcquire ttl now acquired new_id => (acquire_slot cap ttl now acquired new_id d).1
  | OpHeartbeat lease extend now => (heartbeat cap lease extend now d).1
  | OpRelease lease now => (release cap lease now d).1
  | OpConsume items now => (consume cap items now d).1
  | OpSettle sid a u t now => (settle_provider_usage_once cap sid a u t now d).1
  | OpFinalize sid o now => (finalize_provider_settlement_once cap sid o now d).1
  | OpSnapshot now => (snapshot cap now d).1
  end.

(** A history: each operation with the capability of the process that runs it.
    Writers are serialised by the database, so every interleaving is a list. *)
Fixpoint run (h : list (ResearchBudgetCapability * op)) (d : db) : db :=
  match h with
  | [] => d
  | (cap, o) :: h => run h (exec cap o d)
  end.

(** ** Lemmas: the schema *)

Definition valid_row (r : settlement_row) : Prop := invalid_trigger r || invalid_terminal r = false.

(** A settlement table the migration accepts as it is. *)
Definition clean_table (t : settlement_table) : Prop :=
  st_columns t = current_columns /\ map_Forall (fun _ r => valid_row r) (st_rows t).

Definition clean (d : db) : Prop :=
  match settlements d with Some t => clean_table t | None => True end.

Lemma migrate_clean t : clean_table t -> migrate_table t = Ok t.
Proof.
  destruct t as [c r]. intros [Hc Hr]. simpl in *. subst c. unfold migrate_table. simpl.
  assert (Hid : add_columns current_columns <$> r = r).
  { apply map_eq. intros k. rewrite lookup_fmap. by destruct (r !! k) as [[]|]. }
  rewrite Hid, bool_decide_eq_true_2 by done. done.
Qed.

Lemma migrate_sound t t' : migrate_table t = Ok t' -> clean_table t'.
Proof.
  unfold migrate_table. intros H. apply bind_Ok in H as (t1 & H1 & H).
  apply bind_Ok in H as (_ & Hv%ensure_Ok & [= <-]). apply bool_decide_eq_true in Hv.
  split; [|done]. destruct (has_outcome _); apply bind_Ok in H1 as (_ & _ & [= <-]); done.
Qed.

Lemma connect_clean d : clean d -> exists d', connect d = (d', Ok tt) /\ clean d' /\
  ledger d' = ledger d /\ leases d' = leases d /\ rows d' = rows d /\ is_Some (settlements d').
Proof.
  intros Hd. unfold connect, transaction, clean, rows in *.
  destruct (settlements d) as [t|] eqn:E; simpl.
  - rewrite migrate_clean by done. simpl. eexists. split; [done|]. by simpl; split_and!; eauto.
  - rewrite migrate_clean by by split. simpl. eexists. split; [done|]. simpl. by split_and!; [split|..].
Qed.

(** After [_connect] on a clean database a transaction runs on the same data. *)
Lemma seqM_connect {A} (f : db -> result (A * db)) d : clean d ->
  exists d', clean d' /\ ledger d' = ledger d /\ leases d' = leases d /\ rows d' = rows d /\
    is_Some (settlements d') /\ seqM connect (fun _ => transaction f) d = transaction f d'.
Proof.
  intros Hd. destruct (connect_clean d Hd) as (d' & E & ? & ? & ? & ? & ?).
  exists d'. unfold seqM. rewrite E. done.
Qed.

Lemma transaction_cases {A} (f : db -> result (A * db)) d (P : db -> Prop) :
  P d -> (forall a d', f d = Ok (a, d') -> P d') -> P (transaction f d).1.
Proof. intros H Hf. unfold transaction. destruct (f d) as [[a d']|e] eqn:E; simpl; eauto. Qed.

(** ** Lemmas: what each operation changes *)

(** The databases before and after agree on the counters and on the settlements. *)
Definition same_money (d d' : db) : Prop := ledger d' = ledger d /\ rows d' = rows d.

Lemma clean_rows d : clean d <-> match settlements d with
  | Some t => st_columns t = current_columns /\ map_Forall (fun _ r => valid_row r) (rows d)
  | None => True end.
Proof. unfold clean, clean_table, rows. by destruct (settlements d). Qed.

Lemma clean_with_rows d k r : clean d -> valid_row r ->
  clean (with_rows d (<[k := r]> (rows d))).
Proof.
  unfold clean, with_rows, rows. intros Hd Hr. destruct (settlements d) as [t|]; simpl.
  - destruct Hd as [Hc Hall]. split; [done|]. by apply map_Forall_insert_2.
  - split; [done|]. by apply map_Forall_insert_2; [|apply map_Forall_empty].
Qed.

Lemma rows_with_rows d r : rows (with_rows d r) = r.
Proof. unfold rows, with_rows. by destruct (settlements d). Qed.

(** [d'] is [d] with [delta c] added to each counter [c] of the budget [bid]. *)
Definition adds (bid : string) (delta : string -> Z) (d d' : db) : Prop :=
  leases d' = leases d /\ settlements d' = settlements d /\
  forall b c, used_at b d' c = used_at b d c + if bool_decide (b = bid) then delta c else 0.

Lemma adds_trans bid f g d1 d2 d3 :
  adds bid f d1 d2 -> adds bid g d2 d3 -> adds bid (fun c => f c + g c) d1 d3.
Proof.
  intros (Hl & Hs & Hu) (Hl' & Hs' & Hu'). split_and!; [congruence..|].
  intros b c. rewrite Hu', Hu. case_bool_decide; lia.
Qed.

Lemma adds_zero bid f d : (forall c, f c = 0) -> adds bid f d d.
Proof. intros Hf. split_and!; [done..|]. intros b c. rewrite Hf. case_bool_decide; lia. Qed.

Lemma adds_ext bid f g d d' : (forall c, f c = g c) -> adds bid f d d' -> adds bid g d d'.
Proof. intros E (Hl & Hs & Hu). split_and!; [done..|]. intros b c. by rewrite Hu, E. Qed.

(** The amount an item list has for one counter. *)
Definition sum_items (items : list (string * Z)) (c : string) : Z :=
  foldr (fun item acc => (if item.1 =s c then item.2 else 0) + acc) 0 items.

Lemma add_used_adds cap counter now d delta d' :
  add_used cap counter now d delta = Ok d' ->
  adds (budget_id cap) (sum_items [(counter, delta)]) d d'.
Proof.
  unfold add_used. intros H. apply bind_Ok in H as (v & Hv & H). apply bind_Ok in H as (_ & _ & [= <-]).
  assert (v = delta) as -> by (unfold bind_int in Hv; destruct (_ && _); by simplify_eq).
  split_and!; [done..|]. intros b c. unfold used_of, used_at. simpl.
  destruct (decide ((b, c) = (budget_id cap, counter))) as [[= -> ->]|Hne].
  - rewrite lookup_insert_eq, !bool_decide_eq_true_2 by done. simpl. lia.
  - rewrite lookup_insert_ne by done.
    destruct (bool_decide (b = budget_id cap)) eqn:Eb; [|lia]. bools. subst.
    rewrite bool_decide_eq_false_2 by congruence. lia.
Qed.

Lemma foldR_adds bid (f : db -> string * Z -> result db) items d d' :
  (forall d item d', f d item = Ok d' -> adds bid (sum_items [item]) d d') ->
  foldR f d items = Ok d' -> adds bid (sum_items items) d d'.
Proof.
  intros Hf. revert d. induction items as [|item items IH]; intros d H; simpl in H.
  - injection H as <-. by apply adds_zero.
  - apply bind_Ok in H as (d1 & H1 & H). eapply adds_ext; [|eapply adds_trans; eauto].
    intros c. simpl. lia.
Qed.

Lemma consume_step_adds cap now d item d' : consume_step cap now d item = Ok d' ->
  adds (budget_id cap) (sum_items [item]) d d'.
Proof.
  destruct item as [c v]. unfold consume_step. destruct (v =? 0) eqn:E.
  - intros [= <-]. bools. subst. apply adds_zero. intros c'. simpl. by destruct (_ =s _).
  - intros H. apply bind_Ok in H as (_ & _ & H). by apply add_used_adds in H.
Qed.

Lemma settle_item_adds cap now d item d' : settle_item cap now d item = Ok d' ->
  adds (budget_id cap) (sum_items [item]) d d'.
Proof.
  destruct item as [c v]. unfold settle_item. simpl. destruct (v =? 0) eqn:E.
  - intros [= <-]. bools. subst. apply adds_zero. intros c'. simpl. by destruct (_ =s _).
  - apply add_used_adds.
Qed.

(** ** Lemmas: active leases *)

Lemma count_active_le bid l l' :
  (forall k r', l' !! k = Some r' -> active_row bid r' = true ->
    exists r, l !! k = Some r /\ active_row bid r = true) ->
  count_active bid l' <= count_active bid l.
Proof.
  intros H. unfold count_active. apply inj_le. rewrite <- !(size_dom (D := gset string)).
  apply subseteq_size. intros k. rewrite !elem_of_dom. intros [r' Hr'].
  apply map_lookup_filter_Some in Hr' as [Hk Ha].
  destruct (H k r' Hk Ha) as (r & Hr & Har). exists r. by apply map_lookup_filter_Some.
Qed.

Lemma count_active_insert bid l k r :
  count_active bid (<[k := r]> l) <= count_active bid l + if active_row bid r then 1 else 0.
Proof.
  destruct (active_row bid r) eqn:E.
  - unfold count_active. rewrite <- !(size_dom (D := gset string)).
    etrans; [apply inj_le, (subseteq_size _ ({[k]} ∪ dom (filter (fun p => active_row bid p.2 = true) l)))|].
    + intros k'. rewrite elem_of_union, elem_of_singleton, !elem_of_dom. intros [r' Hr'].
      apply map_lookup_filter_Some in Hr' as [Hk Ha].
      destruct (decide (k' = k)) as [->|Hne]; [by left|right].
      rewrite lookup_insert_ne in Hk by done. exists r'. by apply map_lookup_filter_Some.
    + rewrite size_union_alt, size_singleton.
      pose proof (subseteq_size (dom (filter (fun p => active_row bid p.2 = true) l) ∖ {[k]})
        (dom (filter (fun p => active_row bid p.2 = true) l)) ltac:(set_solver)). lia.
  - rewrite Z.add_0_r. apply count_active_le. intros k' r' Hk Ha.
    destruct (decide (k' = k)) as [->|Hne].
    + rewrite lookup_insert_eq in Hk. simplify_eq; congruence.
    + rewrite lookup_insert_ne in Hk by done. eauto.
Qed.

Lemma active_set_released bid at_ r : active_row bid (set_released at_ r) = false.
Proof. unfold active_row. simpl. apply andb_false_r. Qed.

Lemma active_new bid b a e h : active_row bid (LeaseRow b a e h None) = (b =s bid).
Proof. unfold active_row. simpl. apply andb_true_r. Qed.

Lemma count_recover bid b now d :
  count_active b (leases (recover_expired bid now d)) <= count_active b (leases d).
Proof.
  apply count_active_le. intros k r'. simpl. rewrite lookup_fmap.
  destruct (leases d !! k) as [r|]; simpl; [|done]. intros [= <-] Ha.
  destruct (_ && _); [by rewrite active_set_released in Ha|eauto].
Qed.

(** Altering one lease without activating it. *)
Lemma count_alter b l k f : (forall r, active_row b (f r) = true -> active_row b r = true) ->
  count_active b (alter f k l) <= count_active b l.
Proof.
  intros Hf. apply count_active_le. intros k' r' H Ha.
  apply lookup_alter_Some in H as [(-> & r & Hr & ->)|[Hne Hr]]; eauto.
Qed.

(** ** One operation on a clean database *)

(** The amounts a successful [consume] adds to the budget [bid]. *)
Definition charged (cap : ResearchBudgetCapability) (o : op) (d : db) (bid c : string) : Z :=
  match o with
  | OpConsume items now =>
      if is_Ok (consume cap items now d).2 && (bid =s budget_id cap) then sum_items items c else 0
  | _ => 0
  end.

Inductive effect (cap : ResearchBudgetCapability) (o : op) (d d' : db) : Prop :=
  | eff_leases :
      ledger d' = ledger d -> rows d' = rows d ->
      (forall bid, count_active bid (leases d') <=
        Z.max (count_active bid (leases d))
          (if bid =s budget_id cap then max_parallel_experiments (limits cap) else 0)) ->
      (forall bid c, charged cap o d bid c = 0) -> effect cap o d d'
  | eff_consume :
      leases d' = leases d -> rows d' = rows d ->
      (forall bid c, used_at bid d' c = used_at bid d c + charged cap o d bid c) ->
      effect cap o d d'
  | eff_settle sid a u t over now :
      leases d' = leases d -> rows d !! (budget_id cap, sid) = None ->
      rows d' = <[(budget_id cap, sid) :=
        SettlementRow a u (Some t) over now None None None]> (rows d) ->
      (forall bid c, used_at bid d' c = used_at bid d c +
        if bid =s budget_id cap then sum_items (amount_items a) c else 0) ->
      (forall bid c, charged cap o d bid c = 0) -> effect cap o d d'
  | eff_finalize sid r outcome now :
      leases d' = leases d -> ledger d' = ledger d ->
      rows d !! (budget_id cap, sid) = Some r -> sr_terminal_outcome r = None ->
      rows d' = <[(budget_id cap, sid) := set_terminal outcome now r]> (rows d) ->
      (forall bid c, charged cap o d bid c = 0) -> effect cap o d d'.

(** An operation that changes leases only, in a transaction after [_connect]. *)
Lemma lease_effect {A} cap o (f : db -> result (A * db)) d : clean d ->
  (forall bid c, charged cap o d bid c = 0) ->
  (forall d1 a d2, f d1 = Ok (a, d2) ->
    ledger d2 = ledger d1 /\ settlements d2 = settlements d1 /\
    forall bid, count_active bid (leases d2) <= Z.max (count_active bid (leases d1))
      (if bid =s budget_id cap then max_parallel_experiments (limits cap) else 0)) ->
  let d' := (seqM connect (fun _ => transaction f) d).1 in clean d' /\ effect cap o d d'.
Proof.
  intros Hd Hc Hf. destruct (seqM_connect f d Hd) as (d1 & Hd1 & El & Ele & Er & Hs & ->).
  simpl. unfold transaction. destruct (f d1) as [[a d2]|e] eqn:E; simpl.
  - destruct (Hf _ _ _ E) as (El2 & Es2 & Hcount). split; [by unfold clean; rewrite Es2|].
    apply eff_leases; [congruence| |by rewrite <- Ele|done]. unfold rows in *. by rewrite Es2.
  - split; [done|]. apply eff_leases; [done..| |done]. intros bid. rewrite Ele. lia.
Qed.

Lemma nochange_effect cap o d : (forall bid c, charged cap o d bid c = 0) -> effect cap o d d.
Proof. intros Hc. apply eff_leases; [done..| |done]. intros bid. lia. Qed.

Lemma active_lease_count_effect cap o now d : clean d ->
  (forall bid c, charged cap o d bid c = 0) ->
  let d' := (active_lease_count cap now d).1 in clean d' /\ effect cap o d d'.
Proof.
  intros Hd Hc. apply lease_effect; [done..|]. intros d1 a d2 [= <- <-]. split_and!; [done..|].
  intros bid. pose proof (count_recover (budget_id cap) bid now d1). simpl in *. lia.
Qed.

Lemma acquire_effect cap ttl now acq id d : clean d ->
  let o := OpAcquire ttl now acq id in
  clean (exec cap o d) /\ effect cap o d (exec cap o d).
Proof.
  intros Hd o. unfold o. cbn [exec]. unfold acquire_slot.
  destruct (_ || _); [split; [done|by apply nochange_effect]|].
  apply lease_effect; [done..|]. intros d1 a d2 H.
  apply bind_Ok in H as (_ & Hlim%ensure_Ok & H). apply bind_Ok in H as (e & _ & H).
  apply bind_Ok in H as (_ & _ & [= <- <-]). split_and!; [done..|]. bools. intros bid.
  simpl leases. etrans; [apply count_active_insert|].
  pose proof (count_recover (budget_id cap) bid now d1) as Hr.
  rewrite active_new. simpl in Hr, Hlim |- *. destruct (budget_id cap =s bid) eqn:E; bools; [|lia].
  subst bid. rewrite bool_decide_eq_true_2 by done. lia.
Qed.

Lemma heartbeat_effect cap lease ext now d : clean d ->
  let o := OpHeartbeat lease ext now in
  clean (exec cap o d) /\ effect cap o d (exec cap o d).
Proof.
  intros Hd. apply lease_effect; [done..|]. intros d1 a d2 H.
  apply bind_Ok in H as (r & _ & H). apply bind_Ok in H as (e & _ & [= <- <-]).
  split_and!; [done..|]. intros bid. simpl leases.
  etrans; [by apply count_alter|lia].
Qed.

Lemma release_effect cap lease now d : clean d ->
  let o := OpRelease lease now in
  clean (exec cap o d) /\ effect cap o d (exec cap o d).
Proof.
  intros Hd. apply lease_effect; [done..|]. intros d1 a d2 [= <- <-].
  split_and!; [done..|]. intros bid. simpl leases.
  pose proof (count_alter bid (leases d1) (lease_id lease) (fun r =>
      if active_row (budget_id cap) r then set_released (dt_isoformat now) r else r)) as Hc.
  etrans; [apply Hc|lia]. intros r. destruct (active_row (budget_id cap) r); [|done].
  by rewrite active_set_released.
Qed.

Lemma used_at_ledger d d' bid c : ledger d' = ledger d -> used_at bid d' c = used_at bid d c.
Proof. unfold used_at. by intros ->. Qed.

Lemma consume_effect cap items now d : clean d ->
  let o := OpConsume items now in
  clean (exec cap o d) /\ effect cap o d (exec cap o d).
Proof.
  intros Hd o. unfold o. cbn [exec].
  destruct (consume cap items now d) as [d' res] eqn:E. simpl.
  assert (Hch : forall bid c, charged cap (OpConsume items now) d bid c =
    if is_Ok res && (bid =s budget_id cap) then sum_items items c else 0) by (unfold charged; by rewrite E).
  unfold consume in E. destruct (bool_decide (items = [])) eqn:Ei; bools.
  { injection E as <- <-. split; [done|]. apply nochange_effect. intros bid c. rewrite Hch, Ei. simpl.
    by destruct (_ =s _). }
  destruct (_ ≫= _) as [u|e].
  2:{ injection E as <- <-. split; [done|]. apply nochange_effect. intros bid c. by rewrite Hch. }
  revert E. destruct (seqM_connect (fun d => d ← foldR (consume_step cap now) d items; Ok (tt, d)) d Hd)
    as (d1 & Hd1 & El & Ele & Er & Hs & ->).
  unfold transaction. destruct (foldR _ _ _) as [d2|e] eqn:Ef; simpl; intros [= <- <-].
  - apply (foldR_adds (budget_id cap)) in Ef as (Hl & Hst & Hu); [|apply consume_step_adds].
    split; [by unfold clean; rewrite Hst|]. apply eff_consume.
    + congruence.
    + unfold rows in *. by rewrite Hst.
    + intros bid c. by rewrite Hch, Hu, (used_at_ledger d d1).
  - split; [done|]. apply eff_leases; [done..| |]; [intros bid; rewrite Ele; lia|].
    intros bid c. by rewrite Hch.
Qed.

Lemma check_settle_valid sid a u t : check_settle_args sid a u t = Ok tt ->
  t ∈ PROVIDER_CHARGE_TRIGGERS.
Proof.
  unfold check_settle_args. intros H. apply bind_Ok in H as (_ & _ & H).
  apply bind_Ok in H as (_ & _ & H). apply bind_Ok in H as (_ & H%ensure_Ok & _). by bools.
Qed.

Lemma new_row_valid a u t over now : t ∈ PROVIDER_CHARGE_TRIGGERS ->
  valid_row (SettlementRow a u (Some t) over now None None None).
Proof.
  intros Ht. unfold valid_row, invalid_trigger, invalid_terminal. simpl.
  by rewrite (bool_decide_eq_true_2 (t ∈ _)).
Qed.

Lemma settle_effect cap sid a u t now d : clean d ->
  let o := OpSettle sid a u t now in
  clean (exec cap o d) /\ effect cap o d (exec cap o d).
Proof.
  intros Hd o. unfold o. cbn [exec]. unfold settle_provider_usage_once.
  destruct (check_settle_args sid a u t) as [[]|e] eqn:Ec; [|split; [done|by apply nochange_effect]].
  destruct (seqM_connect (settle_tx cap sid a u t now) d Hd) as (d1 & Hd1 & El & Ele & Er & Hs & ->).
  assert (Hsame : clean d1 /\ effect cap (OpSettle sid a u t now) d d1).
  { split; [done|]. apply eff_leases; [done..| |done]. intros bid. rewrite Ele. lia. }
  unfold transaction. destruct (settle_tx _ _ _ _ _ _ _) as [[b d2]|e] eqn:E; [|done].
  unfold settle_tx in E. destruct (rows d1 !! (budget_id cap, sid)) as [ex|] eqn:Ex.
  { apply bind_Ok in E as (_ & _ & [= <- <-]). done. }
  apply bind_Ok in E as (_ & _ & E). apply bind_Ok in E as (d3 & Ef & [= <- <-]).
  apply (foldR_adds (budget_id cap)) in Ef as (Hl & Hst & Hu); [|apply settle_item_adds]. simpl.
  split.
  - unfold clean. rewrite Hst. apply clean_with_rows; [done|].
    apply new_row_valid. by eapply check_settle_valid.
  - eapply eff_settle with (sid := sid) (a := a) (u := u) (t := t); [| | | |done].
    + rewrite Hl. simpl. congruence.
    + by rewrite <- Er.
    + unfold rows at 1. rewrite Hst. fold (rows (with_rows d1 (<[(budget_id cap, sid) :=
        SettlementRow a u (Some t) (if existsb (over_limit_item cap d1) (amount_items a) then 1 else 0)
          (dt_isoformat now) None None None]> (rows d1)))). by rewrite rows_with_rows, Er.
    + intros bid c. rewrite Hu. by rewrite (used_at_ledger d).
Qed.

(** Recording an outcome the trigger allows keeps the row valid. *)
Lemma set_terminal_valid r outcome now : valid_row r -> outcome ∈ PROVIDER_TERMINAL_OUTCOMES ->
  match expected_trigger outcome with
  | Some t => default "None" (sr_charge_trigger r) =s t | None => true end = true ->
  valid_row (set_terminal outcome now r).
Proof.
  destruct r as [a u [t|] ov cr oc te fi]; [|done]. unfold valid_row, invalid_trigger. simpl.
  intros Hv Ho Ht. apply orb_false_iff in Hv as [Htr _]. rewrite Htr. simpl.
  unfold invalid_terminal. simpl. rewrite (bool_decide_eq_true_2 (outcome ∈ _)) by done. simpl.
  unfold expected_trigger in Ht.
  repeat (apply elem_of_cons in Ho as [->|Ho]; [simpl in *; bools; by subst|]).
  by apply elem_of_nil in Ho.
Qed.

Lemma finalize_effect cap sid outcome now d : clean d ->
  let o := OpFinalize sid outcome now in
  clean (exec cap o d) /\ effect cap o d (exec cap o d).
Proof.
  intros Hd o. unfold o. cbn [exec]. unfold finalize_provider_settlement_once.
  destruct (_ ≫= _) as [[]|e] eqn:Ec; [|split; [done|by apply nochange_effect]].
  apply bind_Ok in Ec as (_ & _ & Ho%ensure_Ok). bools.
  destruct (seqM_connect (finalize_tx cap sid outcome now) d Hd) as (d1 & Hd1 & El & Ele & Er & Hs & ->).
  assert (Hsame : clean d1 /\ effect cap (OpFinalize sid outcome now) d d1).
  { split; [done|]. apply eff_leases; [done..| |done]. intros bid. rewrite Ele. lia. }
  unfold transaction. destruct (finalize_tx _ _ _ _ _) as [[b d2]|e] eqn:E; [|done].
  unfold finalize_tx in E. apply bind_Ok in E as (r & Hr & E). apply bind_Ok in E as (_ & Ht%ensure_Ok & E).
  destruct (rows d1 !! (budget_id cap, sid)) as [r'|] eqn:Ex; [|done]. injection Hr as ->.
  destruct (sr_terminal_outcome r) as [ex|] eqn:Ete.
  { apply bind_Ok in E as (_ & _ & [= <- <-]). done. }
  injection E as <- <-. simpl. split.
  - apply clean_with_rows; [done|]. apply set_terminal_valid; [|done..].
    apply clean_rows in Hd1. destruct Hs as [t Hs]. rewrite Hs in Hd1. by eapply (proj2 Hd1).
  - eapply eff_finalize with (sid := sid) (r := r); [done..|by rewrite <- Er|done| |done].
    by rewrite rows_with_rows, Er.
Qed.

(** An effect does not see that [_connect] replaced the database. *)
Lemma effect_same cap o d d1 d2 : (forall d bid c, charged cap o d bid c = 0) ->
  ledger d1 = ledger d -> rows d1 = rows d -> leases d1 = leases d ->
  effect cap o d1 d2 -> effect cap o d d2.
Proof.
  intros Hc El Er Ele [H1 H2 H3 _|H1 H2 H3|sid a u t ov now H1 H2 H3 H4 _|sid r out now H1 H2 H3 H4 H5 _].
  - apply eff_leases; [congruence..| |done]. by rewrite <- Ele.
  - apply eff_consume; [congruence..|]. intros bid c.
    by rewrite H3, !Hc, (used_at_ledger d d1 bid c El).
  - rewrite Er in H2, H3. eapply eff_settle; [congruence|exact H2|exact H3| |done].
    intros bid c. by rewrite H4, (used_at_ledger d d1 bid c El).
  - rewrite Er in H3, H5. eapply eff_finalize; [congruence..|exact H3|done|exact H5|done].
Qed.

Lemma snapshot_effect cap now d : clean d ->
  let o := OpSnapshot now in clean (exec cap o d) /\ effect cap o d (exec cap o d).
Proof.
  intros Hd o.
  destruct (connect_clean d Hd) as (d1 & Ed & Hd1 & El & Ele & Er & _).
  assert (exec cap o d = (active_lease_count cap now d1).1) as ->.
  { unfold o, exec, snapshot, seqM at 1. rewrite Ed. unfold seqM.
    by destruct (active_lease_count cap now d1) as [d2 [n|e]]. }
  destruct (active_lease_count_effect cap (OpSnapshot now) now d1 Hd1) as [Hc He]; [done|].
  split; [done|]. by apply (effect_same cap _ d d1).
Qed.

(** Every operation keeps a clean database clean, with one of the four effects. *)
Lemma exec_effect cap o d : clean d -> clean (exec cap o d) /\ effect cap o d (exec cap o d).
Proof.
  intros Hd. destruct o.
  - by apply active_lease_count_effect.
  - by apply acquire_effect.
  - by apply heartbeat_effect.
  - by apply release_effect.
  - by apply consume_effect.
  - by apply settle_effect.
  - by apply finalize_effect.
  - by apply snapshot_effect.
Qed.

Lemma run_clean h d : clean d -> clean (run h d).
Proof.
  revert d. induction h as [|[cap o] h IH]; intros d Hd; simpl; [done|].
  apply IH. by apply exec_effect.
Qed.

(** ** Settled amounts *)

Definition row_amount (bid c : string) (k : string * string) (r : settlement_row) : Z :=
  if k.1 =s bid then sum_items (amount_items (sr_amounts r)) c else 0.

(** What the settlement rows of the budget charge to one counter. *)
Definition sum_rows (bid c : string) (m : gmap (string * string) settlement_row) : Z :=
  map_fold (fun k r acc => row_amount bid c k r + acc) 0 m.

Definition settled (bid c : string) (d : db) : Z := sum_rows bid c (rows d).

Lemma fold_amount_insert (bid c : string) (k : string * string) (r : settlement_row) (m : gmap (string * string) settlement_row) : m !! k = None ->
  sum_rows bid c (<[k := r]> m) = row_amount bid c k r + sum_rows bid c m.
Proof. intros Hk. unfold sum_rows. rewrite map_fold_insert_L; [done|intros; lia|done]. Qed.

Lemma fold_amount_update (bid c : string) (k : string * string) (r r' : settlement_row) (m : gmap (string * string) settlement_row) :
  m !! k = Some r -> sr_amounts r' = sr_amounts r ->
  sum_rows bid c (<[k := r']> m) = sum_rows bid c m.
Proof.
  intros Hk Ha. rewrite <- (insert_id m k r Hk) at 2.
  rewrite <- (insert_delete_eq m k r), <- (insert_delete_eq m k r').
  rewrite !fold_amount_insert by apply lookup_delete_eq. f_equal. unfold row_amount. by rewrite Ha.
Qed.

(** What the counter holds beyond the settlements. *)
Definition unsettled (bid c : string) (d : db) : Z := used_at bid d c - settled bid c d.

Lemma exec_unsettled cap o d bid c : clean d ->
  unsettled bid c (exec cap o d) = unsettled bid c d + charged cap o d bid c.
Proof.
  intros Hd. destruct (exec_effect cap o d Hd) as [_ He]. unfold unsettled, settled.
  destruct He as [H1 H2 _ H4|H1 H2 H3|sid a u t ov now H1 H2 H3 H4 H5|sid r out now H1 H2 H3 H4 H5 H6].
  - rewrite H2, H4, (used_at_ledger d) by done. lia.
  - rewrite H2, H3. lia.
  - rewrite H3, H4, H5, fold_amount_insert by done. unfold row_amount. simpl.
    rewrite (bool_decide_ext (budget_id cap = bid) (bid = budget_id cap)) by done. lia.
  - rewrite H5, H6, (fold_amount_update _ _ _ r), (used_at_ledger d) by done. lia.
Qed.

(** What the successful [consume] calls of a history add. *)
Fixpoint consumed (h : list (ResearchBudgetCapability * op)) (d : db) (bid c : string) : Z :=
  match h with
  | [] => 0
  | (cap, o) :: h => charged cap o d bid c + consumed h (exec cap o d) bid c
  end.

(** ** Lemmas: settlement rows persist *)

(** A later version of a row: only an outcome may have been added. *)
Definition row_le (r r' : settlement_row) : Prop :=
  sr_amounts r' = sr_amounts r /\ sr_usage_source r' = sr_usage_source r /\
  sr_charge_trigger r' = sr_charge_trigger r /\ sr_over_limit r' = sr_over_limit r /\
  (is_Some (sr_terminal_outcome r) -> r' = r).

#[export] Instance row_le_preorder : PreOrder row_le.
Proof.
  split; [intros r; by split_and!|]. intros r1 r2 r3 (H1 & H2 & H3 & H4 & H5) (G1 & G2 & G3 & G4 & G5).
  split_and!; [congruence..|]. intros Hs. specialize (H5 Hs). subst r2. auto.
Qed.

Definition rows_le (m m' : gmap (string * string) settlement_row) : Prop :=
  forall k r, m !! k = Some r -> exists r', m' !! k = Some r' /\ row_le r r'.

#[export] Instance rows_le_preorder : PreOrder rows_le.
Proof.
  split.
  - intros m k r Hr. by exists r.
  - intros m1 m2 m3 H12 H23 k r Hr. destruct (H12 k r Hr) as (r2 & Hr2 & Hle).
    destruct (H23 k r2 Hr2) as (r3 & Hr3 & Hle3). exists r3. split; [done|]. by etrans.
Qed.

Lemma exec_rows_le cap o d : clean d -> rows_le (rows d) (rows (exec cap o d)).
Proof.
  intros Hd. destruct (exec_effect cap o d Hd) as [_ He].
  destruct He as [H1 H2 _ H4|H1 H2 H3|sid a u t ov now H1 H2 H3 H4 H5|sid r out now H1 H2 H3 H4 H5 H6].
  - by rewrite H2.
  - by rewrite H2.
  - intros k r Hr. exists r. split; [|done]. rewrite H3, lookup_insert_ne; [done|].
    intros <-. congruence.
  - intros k r' Hr'. rewrite H5. destruct (decide ((budget_id cap, sid) = k)) as [<-|Hne].
    + rewrite lookup_insert_eq. simplify_eq. eexists. split; [done|]. split_and!; [done..|].
      rewrite H4. by intros [? ?].
    + rewrite lookup_insert_ne by done. by exists r'.
Qed.

Lemma run_rows_le h d : clean d -> rows_le (rows d) (rows (run h d)).
Proof.
  revert d. induction h as [|[cap o] h IH]; intros d Hd; simpl; [done|].
  etrans; [by apply exec_rows_le|]. apply IH. by apply exec_effect.
Qed.

(** ** Safety of the experiment slots *)

(** Claim C17.  The number of active leases of a budget never exceeds the
    parallelism limit: in every history of operations by any processes, if
    every capability for the budget allows at most [N] parallel experiments
    and at most [N] leases are active at the start, at most [N] are ever
    active. *)
Theorem slots_bounded (h : list (ResearchBudgetCapability * op)) (d : db) (bid : string) (N : Z) :
  clean d -> count_active bid (leases d) <= N ->
  Forall (fun x => budget_id x.1 = bid -> max_parallel_experiments (limits x.1) <= N) h ->
  count_active bid (leases (run h d)) <= N.
Proof.
  intros Hd HN Hh. revert d Hd HN. induction Hh as [|[cap o] h Hx _ IH]; intros d Hd HN; [done|].
  simpl in *. destruct (exec_effect cap o d Hd) as [Hd' He]. apply IH; [done|].
  assert (0 <= N) by (unfold count_active in HN; lia).
  destruct He as [_ _ Hc _|Hc _ _|? ? ? ? ? ? Hc _ _ _ _|? ? ? ? Hc _ _ _ _ _]; [|by rewrite Hc..].
  etrans; [apply Hc|]. apply Z.max_lub; [done|].
  destruct (bid =s budget_id cap) eqn:E; [|done]. bools. by apply Hx.
Qed.

(** Claim C25.  Accounting: over any history from a clean database, a counter of a
    budget grows by exactly what its successful [consume] calls ask for plus
    the amounts of the settlement rows added, each charged once however often
    it is retried or finalised. *)
Theorem ledger_accounting (h : list (ResearchBudgetCapability * op)) (d : db) (bid c : string) :
  clean d ->
  used_at bid (run h d) c =
  used_at bid d c + consumed h d bid c + (settled bid c (run h d) - settled bid c d).
Proof.
  intros Hd. enough (unsettled bid c (run h d) = unsettled bid c d + consumed h d bid c) as H
    by (unfold unsettled in H; lia).
  revert d Hd. induction h as [|[cap o] h IH]; intros d Hd; simpl; [lia|].
  rewrite IH by by apply exec_effect. rewrite exec_unsettled by done. lia.
Qed.

(** ** Consuming *)

(** No cap is exceeded for the counter. *)
Definition within (cap : ResearchBudgetCapability) (d : db) (c : string) : Prop :=
  forall limit, limit_for (limits cap) c = Some limit -> used_of cap d c <= limit.

Lemma consume_step_within cap now d c v d' c' : consume_step cap now d (c, v) = Ok d' ->
  (within cap d c' -> within cap d' c') /\ (v <> 0 -> within cap d' c).
Proof.
  intros H. pose proof (consume_step_adds _ _ _ _ _ H) as (_ & _ & Hu).
  unfold consume_step in H. destruct (v =? 0) eqn:E.
  { injection H as <-. bools. split; [done|lia]. }
  apply bind_Ok in H as (_ & Hlim%ensure_Ok & _). bools.
  assert (Hc : within cap d' c).
  { intros limit Hl. rewrite Hl in Hlim. bools. unfold used_of in *. rewrite Hu. simpl.
    rewrite !bool_decide_eq_true_2 by done. lia. }
  split; [|done]. intros Hw. destruct (decide (c' = c)) as [->|Hne]; [done|].
  intros limit Hl. unfold used_of in *. rewrite Hu. simpl.
  rewrite (bool_decide_eq_false_2 (c = c')) by congruence. specialize (Hw limit Hl).
  unfold used_of in Hw. case_bool_decide; lia.
Qed.

Lemma consume_fold_within cap now items d d' c :
  foldR (consume_step cap now) d items = Ok d' ->
  (within cap d c -> within cap d' c) /\ (forall v, (c, v) ∈ items -> v <> 0 -> within cap d' c).
Proof.
  revert d. induction items as [|[c1 v1] items IH]; intros d H.
  { injection H as <-. split; [done|]. by intros v ?%elem_of_nil. }
  cbn [foldR] in H. apply bind_Ok in H as (d1 & H1 & H).
  destruct (consume_step_within _ _ _ _ _ _ c H1) as [Hk Hc]. destruct (IH _ H) as [IH1 IH2].
  split; [auto|]. intros v [[= -> ->]|Hin]%elem_of_cons Hv; eauto.
Qed.

(** [consume] is all or nothing and never crosses a cap: when it
    succeeds each counter grows by its amount and every counter charged a
    positive amount is within its limit; when it raises no counter of any
    budget has changed. *)
Theorem consume_spec (cap : ResearchBudgetCapability) (items : list (string * Z)) (now : datetime)
    (d : db) :
  clean d ->
  let (d', res) := consume cap items now d in
  match res with
  | Ok _ => (forall c, used_of cap d' c = used_of cap d c + sum_items items c) /\
            (forall c v, (c, v) ∈ items -> 0 < v -> within cap d' c)
  | Err _ => forall bid c, used_at bid d' c = used_at bid d c
  end.
Proof.
  intros Hd. unfold consume. destruct (bool_decide (items = [])) eqn:Ei; bools.
  { subst. simpl. split; [intros c; lia|]. by intros c v ?%elem_of_nil. }
  destruct (_ ≫= _) as [u|e]; [|done].
  destruct (seqM_connect (fun d => d ← foldR (consume_step cap now) d items; Ok (tt, d)) d Hd)
    as (d1 & Hd1 & El & Ele & Er & Hs & ->).
  unfold transaction. destruct (foldR _ _ _) as [d2|e] eqn:Ef; simpl.
  - pose proof (foldR_adds (budget_id cap) _ _ _ _ (consume_step_adds cap now) Ef) as (_ & _ & Hu).
    split.
    + intros c. unfold used_of. rewrite Hu, bool_decide_eq_true_2 by done.
      by rewrite (used_at_ledger d d1).
    + intros c v Hin Hv. destruct (consume_fold_within _ _ _ _ _ c Ef) as [_ H].
      apply (H v); [done|lia].
  - intros bid c. by apply used_at_ledger.
Qed.

(** ** Settling and finalising *)

Lemma settle_existing cap sid a u t now d r : clean d ->
  check_settle_args sid a u t = Ok tt -> rows d !! (budget_id cap, sid) = Some r ->
  sr_amounts r = a -> sr_usage_source r = u -> sr_charge_trigger r = Some t ->
  exists d', settle_provider_usage_once cap sid a u t now d = (d', Ok (negb (sr_over_limit r =? 0))) /\
    ledger d' = ledger d /\ rows d' = rows d.
Proof.
  intros Hd Hc Hr Ha Hu Ht. unfold settle_provider_usage_once. rewrite Hc.
  destruct (seqM_connect (settle_tx cap sid a u t now) d Hd) as (d1 & _ & El & _ & Er & _ & ->).
  exists d1. unfold transaction, settle_tx. rewrite Er, Hr, Ha, Hu, Ht.
  rewrite !bool_decide_eq_true_2 by done. done.
Qed.

(** The row a successful settlement leaves. *)
Lemma settle_leaves cap sid a u t now d d' over : clean d ->
  settle_provider_usage_once cap sid a u t now d = (d', Ok over) ->
  check_settle_args sid a u t = Ok tt /\
  exists r, rows d' !! (budget_id cap, sid) = Some r /\ sr_amounts r = a /\ sr_usage_source r = u /\
    sr_charge_trigger r = Some t /\ over = negb (sr_over_limit r =? 0).
Proof.
  intros Hd. unfold settle_provider_usage_once.
  destruct (check_settle_args sid a u t) as [[]|] eqn:Hc; [|done]. split; [done|]. revert H.
  destruct (seqM_connect (settle_tx cap sid a u t now) d Hd) as (d1 & _ & El & _ & Er & _ & ->).
  unfold transaction. destruct (settle_tx _ _ _ _ _ _ _) as [[b d2]|e] eqn:E; [|done]. intros [= <- <-].
  unfold settle_tx in E. destruct (rows d1 !! (budget_id cap, sid)) as [r|] eqn:Ex.
  - apply bind_Ok in E as (_ & H%ensure_Ok & [= <- <-]). bools. by exists r.
  - apply bind_Ok in E as (_ & _ & E). apply bind_Ok in E as (d3 & Ef & [= <- <-]).
    apply (foldR_adds (budget_id cap)) in Ef as (_ & Hst & _); [|apply settle_item_adds].
    unfold rows at 1. rewrite Hst. simpl. eexists. split.
    + destruct (settlements d1); simpl; apply lookup_insert_eq.
    + split_and!; [done..|]. cbn [sr_over_limit]. by destruct (_ || _).
Qed.

(** Settling is idempotent at any later time: once
    [settle_provider_usage_once] has succeeded, after any history of further
    operations an exact retry (by any capability for the budget) returns the
    same overage flag and changes no counter and no settlement. *)
Theorem settle_retry (cap cap' : ResearchBudgetCapability) (sid : string) (a : amounts)
    (u t : string) (now now' : datetime) (d d1 : db) (over : bool)
    (h : list (ResearchBudgetCapability * op)) :
  clean d -> budget_id cap' = budget_id cap ->
  settle_provider_usage_once cap sid a u t now d = (d1, Ok over) ->
  exists d2, settle_provider_usage_once cap' sid a u t now' (run h d1) = (d2, Ok over) /\
    ledger d2 = ledger (run h d1) /\ rows d2 = rows (run h d1).
Proof.
  intros Hd Hb Hs. pose proof (settle_leaves _ _ _ _ _ _ _ _ _ Hd Hs) as (Hc & r & Hr & Ha & Hu & Ht & ->).
  assert (Hd1 : clean d1).
  { pose proof (settle_effect cap sid a u t now d Hd) as [H _]. cbn [exec] in H. by rewrite Hs in H. }
  destruct (run_rows_le h d1 Hd1 _ _ Hr) as (r' & Hr' & H1 & H2 & H3 & H4 & _).
  rewrite <- Hb in Hr'. rewrite <- H4.
  apply (settle_existing cap' sid a u t now' (run h d1) r'); [by apply run_clean|done..| | |]; congruence.
Qed.

Lemma finalize_leaves cap sid outcome now d d' : clean d ->
  finalize_provider_settlement_once cap sid outcome now d = (d', Ok tt) ->
  exists r, rows d' !! (budget_id cap, sid) = Some r /\ sr_terminal_outcome r = Some outcome.
Proof.
  intros Hd. unfold finalize_provider_settlement_once. destruct (_ ≫= _) as [u|]; [|done].
  destruct (seqM_connect (finalize_tx cap sid outcome now) d Hd) as (d1 & _ & El & _ & Er & _ & ->).
  unfold transaction. destruct (finalize_tx _ _ _ _ _) as [[b d2]|e] eqn:E; [|done]. intros [= <-].
  unfold finalize_tx in E. apply bind_Ok in E as (r & Hr & E). apply bind_Ok in E as (_ & _ & E).
  destruct (rows d1 !! _) as [r'|] eqn:Ex; [|done]. injection Hr as ->.
  destruct (sr_terminal_outcome r) as [ex|] eqn:Et.
  - apply bind_Ok in E as (_ & H%ensure_Ok & [= <- <-]). bools. subst. by exists r.
  - injection E as <- <-. rewrite rows_with_rows, lookup_insert_eq. by eexists.
Qed.

Lemma finalize_tx_done cap sid outcome' now d r outcome :
  rows d !! (budget_id cap, sid) = Some r -> sr_terminal_outcome r = Some outcome ->
  (exists msg, finalize_tx cap sid outcome' now d = Err (Exn ValueError msg)) \/
  outcome' = outcome /\ finalize_tx cap sid outcome' now d = Ok (tt, d).
Proof.
  intros Hr Ho. unfold finalize_tx. rewrite Hr. simpl. rewrite Ho.
  destruct (match expected_trigger outcome' with Some t => _ | None => _ end); simpl;
    [|left; by eexists].
  destruct (decide (outcome = outcome')) as [<-|Hne].
  - right. by rewrite bool_decide_eq_true_2.
  - left. rewrite bool_decide_eq_false_2 by done. by eexists.
Qed.

(** A settlement has one terminal outcome for ever: once it is
    finalised, after any history of further operations finalising it again
    with the same outcome changes nothing, and with another outcome raises
    [ValueError] and changes nothing. *)
Theorem finalize_once (cap cap' : ResearchBudgetCapability) (sid outcome outcome' : string)
    (now now' : datetime) (d d1 : db) (h : list (ResearchBudgetCapability * op)) :
  clean d -> budget_id cap' = budget_id cap ->
  finalize_provider_settlement_once cap sid outcome now d = (d1, Ok tt) ->
  let (d2, res) := finalize_provider_settlement_once cap' sid outcome' now' (run h d1) in
  ledger d2 = ledger (run h d1) /\ rows d2 = rows (run h d1) /\
  (res = Ok tt -> outcome' = outcome) /\
  (outcome' <> outcome -> exists msg, res = Err (Exn ValueError msg)).
Proof.
  intros Hd Hb Hf. pose proof (finalize_leaves _ _ _ _ _ _ Hd Hf) as (r & Hr & Ho).
  assert (Hd1 : clean d1).
  { pose proof (finalize_effect cap sid outcome now d Hd) as [H _]. cbn [exec] in H. by rewrite Hf in H. }
  destruct (run_rows_le h d1 Hd1 _ _ Hr) as (r' & Hr' & _ & _ & _ & _ & H5).
  rewrite H5 in Hr' by (by rewrite Ho). rewrite <- Hb in Hr'.
  unfold finalize_provider_settlement_once. destruct (_ ≫= _) as [u|e] eqn:Ec.
  2:{ simpl. split_and!; try done. intros _.
      by apply bind_Err in Ec as [Ec%ensure_Err|(? & _ & Ec%ensure_Err)]; subst e; eexists. }
  destruct (seqM_connect (finalize_tx cap' sid outcome' now') (run h d1) ltac:(by apply run_clean))
    as (d2 & _ & El & _ & Er & _ & ->).
  rewrite <- Er in Hr'. unfold transaction.
  by destruct (finalize_tx_done cap' sid outcome' now' d2 r outcome Hr' Ho) as [(msg & ->)|[-> ->]];
    simpl; split_and!; try done; eexists.
Qed.

(** ** The schema over time *)

(** Reopening never fails: after any history of operations from a
    clean database, [_connect] (with its schema migration and its check of the
    audit state) succeeds and leaves the counters, leases and settlements as
    they are. *)
Theorem reopen_ok (h : list (ResearchBudgetCapability * op)) (d : db) :
  clean d ->
  exists d', connect (run h d) = (d', Ok tt) /\ ledger d' = ledger (run h d) /\
    leases d' = leases (run h d) /\ rows d' = rows (run h d).
Proof.
  intros Hd. destruct (connect_clean (run h d) (run_clean h d Hd)) as (d' & ? & _ & ? & ? & ? & _).
  by exists d'.
Qed.

Definition legacy_columns : columns := Columns true false false false.

(** A row of the older schema, whose outcome is one of the known ones. *)
Definition legacy_row (r : settlement_row) : Prop :=
  exists o, sr_outcome r = Some o /\ o ∈ PROVIDER_TERMINAL_OUTCOMES.

Lemma legacy_migrate_row r : legacy_row r ->
  is_some (trigger_expr legacy_columns r) = true /\ valid_row (migrate_row legacy_columns r).
Proof.
  destruct r as [a u tr ov cr oc te fi]. intros (o & Ho & Hin). simpl in Ho. subst oc.
  unfold migrate_row, trigger_expr, terminal_expr, finalized_expr, valid_row,
    invalid_trigger, invalid_terminal. simpl.
  repeat (apply elem_of_cons in Hin as [->|Hin]; [by vm_compute|]).
  by apply elem_of_nil in Hin.
Qed.

(** Claim C40.  Upgrading the pre-two-phase settlement table loses no audit row: a
    table of the older schema whose outcomes are known migrates, to a table the
    migration accepts unchanged, with the same keys; each row keeps its
    amounts, usage source, overage flag and creation time, its outcome becomes
    the terminal outcome, finalised when the row was created. *)
Theorem legacy_migration (rows0 : gmap (string * string) settlement_row) :
  map_Forall (fun _ r => legacy_row r) rows0 ->
  exists t, migrate_table (SettlementTable legacy_columns rows0) = Ok t /\
    migrate_table t = Ok t /\ dom (st_rows t) = dom rows0 /\
    forall k r, rows0 !! k = Some r ->
      exists r', st_rows t !! k = Some r' /\ sr_amounts r' = sr_amounts r /\
        sr_usage_source r' = sr_usage_source r /\ sr_over_limit r' = sr_over_limit r /\
        sr_created_at r' = sr_created_at r /\ sr_terminal_outcome r' = sr_outcome r /\
        sr_finalized_at r' = Some (sr_created_at r).
Proof.
  intros Hl. set (t := SettlementTable current_columns (migrate_row legacy_columns <$> rows0)).
  assert (Hc : clean_table t).
  { split; [done|]. apply map_Forall_fmap. intros k r Hr. apply legacy_migrate_row. by eapply Hl. }
  exists t. split_and!.
  - unfold migrate_table. simpl. rewrite bool_decide_eq_true_2; [simpl|].
    + rewrite bool_decide_eq_true_2; [done|apply Hc].
    + intros k r Hr. apply legacy_migrate_row. by eapply Hl.
  - by apply migrate_clean.
  - simpl. apply dom_fmap_L.
  - intros k r Hr. exists (migrate_row legacy_columns r). split; [simpl; by rewrite lookup_fmap, Hr|].
    destruct (Hl k r Hr) as (o & Ho & Hin). simpl.
    unfold terminal_expr, finalized_expr. simpl. rewrite Ho, bool_decide_eq_true_2 by done. done.
Qed.

(** ** Acquiring a slot *)

(** A lease that is active and has not expired at [now]. *)
Definition live_row (bid : string) (now : datetime) (r : lease_row) : bool :=
  active_row bid r && negb (String.ltb (lr_expires_at r) (dt_isoformat now)).

Definition count_live (bid : string) (now : datetime) (l : gmap string lease_row) : Z :=
  Z.of_nat (size (filter (fun p => live_row bid now p.2 = true) l)).

Lemma count_active_recovered bid now d :
  count_active bid (leases (recover_expired bid now d)) = count_live bid now (leases d).
Proof.
  unfold count_active, count_live. f_equal. rewrite <- !(size_dom (D := gset string)). f_equal.
  apply set_eq. intros k. rewrite !elem_of_dom. unfold is_Some.
  setoid_rewrite map_lookup_filter_Some. simpl. setoid_rewrite lookup_fmap. unfold live_row.
  destruct (leases d !! k) as [r|]; simpl; [|by split; intros (? & ? & _)].
  split; intros (r' & [= <-] & Ha).
  - exists r. split; [done|]. destruct (active_row bid r) eqn:E; simpl in *.
    + destruct (String.ltb _ _); simpl in *; [by rewrite active_set_released in Ha|done].
    + congruence.
  - eexists. split; [done|]. apply andb_true_iff in Ha as [Ha He].
    apply negb_true_iff in He. rewrite Ha, He. done.
Qed.

(** [acquire_slot] grants a slot exactly when one is free: with a legal
    time to live, a fresh lease id and an expiry the calendar has, it succeeds
    if and only if the budget has fewer unexpired active leases than its
    limit; otherwise it raises [BudgetExhaustedError] and leaves the leases as
    they were. *)
Theorem acquire_slot_spec (cap : ResearchBudgetCapability) (ttl : Z) (now acquired expires : datetime)
    (id : string) (d : db) :
  clean d -> 30 <= ttl <= 86400 -> dt_add_seconds acquired ttl = Ok expires -> leases d !! id = None ->
  let (d', res) := acquire_slot cap (Some ttl) now acquired id d in
  if count_live (budget_id cap) now (leases d) <? max_parallel_experiments (limits cap)
  then res = Ok (Lease id (budget_id cap) (dt_isoformat acquired) (dt_isoformat expires)
                   (dt_isoformat acquired)) /\
       leases d' !! id = Some (LeaseRow (budget_id cap) (dt_isoformat acquired)
                   (dt_isoformat expires) (dt_isoformat acquired) None)
  else (exists msg, res = Err (Exn BudgetExhaustedError msg)) /\ leases d' = leases d.
Proof.
  intros Hd Httl He Hid. unfold acquire_slot. cbv zeta.
  change (default (lease_ttl_seconds (limits cap)) (Some ttl)) with ttl.
  replace ((ttl <? 30) || (86400 <? ttl)) with false
    by (symmetry; apply orb_false_iff; split; apply Z.ltb_ge; lia).
  match goal with |- context [transaction ?f] => set (tx := f) end. cbv iota.
  destruct (seqM_connect tx d Hd) as (d1 & _ & _ & El & _ & _ & ->).
  unfold transaction, tx. rewrite count_active_recovered, El, He.
  destruct (_ <? _) eqn:E.
  - replace (_ <=? _) with false by (symmetry; bools; apply Z.leb_gt; lia). cbn [negb ensure mbind result_bind].
    assert (Hn : leases (recover_expired (budget_id cap) now d1) !! id = None)
      by (simpl; by rewrite lookup_fmap, El, Hid).
    rewrite bool_decide_eq_true_2 by done. simpl. split; [done|]. apply lookup_insert_eq.
  - replace (_ <=? _) with true by (symmetry; bools; apply Z.leb_le; lia). simpl.
    split; [by eexists|done].
Qed.

(** ** Witnesses *)

Definition sample_limits : OfflineExperimentBudget :=
  Limits 2 (Some 1) (Some 16) (Some 8) (Some 400000) (Some 80000) (Some 400000)
    (Some 3600000) (Some 20000000) 1800 false.

Definition sample_cap : ResearchBudgetCapability := Capability "b" sample_limits.

Definition empty_db : db := DB ∅ ∅ None.

Definition sample_now : datetime := 738889 * day_micros.

Definition sample_amounts : amounts := Amounts 1000 200 0 1 500.

Definition sample_history : list (ResearchBudgetCapability * op) :=
  [(sample_cap, OpAcquire None sample_now sample_now "l1");
   (sample_cap, OpAcquire None sample_now sample_now "l2");
   (sample_cap, OpAcquire None sample_now sample_now "l3");
   (sample_cap, OpConsume [("paper_runs", 3); ("generations", 1)] sample_now);
   (sample_cap, OpConsume [("paper_runs", 6)] sample_now);
   (sample_cap, OpSettle "s1" sample_amounts "measured" "provider_response" sample_now);
   (sample_cap, OpSettle "s1" sample_amounts "measured" "provider_response" sample_now);
   (sample_cap, OpFinalize "s1" "success" sample_now)].

Lemma slots_bounded_witness :
  count_active "b" (leases (run sample_history empty_db)) = 2 /\
  count_active "b" (leases (run sample_history empty_db)) <= 2.
Proof.
  split; [by vm_compute|]. apply (slots_bounded sample_history empty_db "b" 2).
  - done.
  - by vm_compute.
  - by repeat constructor.
Defined.

Lemma ledger_accounting_witness :
  used_at "b" (run sample_history empty_db) "input_tokens" = 1000 /\
  used_at "b" (run sample_history empty_db) "input_tokens" =
  used_at "b" empty_db "input_tokens" + consumed sample_history empty_db "b" "input_tokens" +
  (settled "b" "input_tokens" (run sample_history empty_db) - settled "b" "input_tokens" empty_db).
Proof. split; [by vm_compute|]. by apply (ledger_accounting sample_history empty_db "b" "input_tokens"). Defined.

Lemma consume_spec_witness :
  let (d', res) := consume sample_cap [("paper_runs", 3)] sample_now empty_db in
  match res with
  | Ok _ => (forall c, used_of sample_cap d' c =
               used_of sample_cap empty_db c + sum_items [("paper_runs", 3)] c) /\
            (forall c v, (c, v) ∈ [("paper_runs", 3)] -> 0 < v -> within sample_cap d' c)
  | Err _ => forall bid c, used_at bid d' c = used_at bid empty_db c
  end.
Proof. by apply (consume_spec sample_cap [("paper_runs", 3)] sample_now empty_db). Defined.

Definition settled_db : db :=
  (settle_provider_usage_once sample_cap "s1" sample_amounts "measured" "provider_response"
    sample_now empty_db).1.

Lemma settle_retry_witness :
  exists d2, settle_provider_usage_once sample_cap "s1" sample_amounts "measured" "provider_response"
      (sample_now + 1) (run sample_history settled_db) = (d2, Ok false) /\
    ledger d2 = ledger (run sample_history settled_db) /\
    rows d2 = rows (run sample_history settled_db).
Proof.
  apply (settle_retry sample_cap sample_cap "s1" sample_amounts "measured" "provider_response"
    sample_now (sample_now + 1) empty_db settled_db false sample_history).
  - done.
  - done.
  - by vm_compute.
Defined.

Definition finalized_db : db :=
  (finalize_provider_settlement_once sample_cap "s1" "success" sample_now settled_db).1.

Lemma finalize_once_witness :
  let (d2, res) := finalize_provider_settlement_once sample_cap "s1" "schema_reject" sample_now
    (run sample_history finalized_db) in
  ledger d2 = ledger (run sample_history finalized_db) /\
  rows d2 = rows (run sample_history finalized_db) /\
  (res = Ok tt -> "schema_reject" = "success") /\
  ("schema_reject" <> "success" -> exists msg, res = Err (Exn ValueError msg)).
Proof.
  apply (finalize_once sample_cap sample_cap "s1" "success" "schema_reject" sample_now sample_now
    settled_db finalized_db sample_history).
  - split; [by vm_compute|]. apply (bool_decide_unpack _). by vm_compute.
  - done.
  - by vm_compute.
Defined.

Lemma reopen_ok_witness :
  exists d', connect (run sample_history empty_db) = (d', Ok tt) /\
    ledger d' = ledger (run sample_history empty_db) /\
    leases d' = leases (run sample_history empty_db) /\
    rows d' = rows (run sample_history empty_db).
Proof. by apply (reopen_ok sample_history empty_db). Defined.

Definition legacy_rows : gmap (string * string) settlement_row :=
  <[("b", "s1") := SettlementRow sample_amounts "measured" None 0 "2024-01-04T00:00:00+00:00"
      (Some "schema_reject") None None]> ∅.

Lemma legacy_migration_witness :
  exists t, migrate_table (SettlementTable legacy_columns legacy_rows) = Ok t /\
    migrate_table t = Ok t /\ dom (st_rows t) = dom legacy_rows /\
    forall k r, legacy_rows !! k = Some r ->
      exists r', st_rows t !! k = Some r' /\ sr_amounts r' = sr_amounts r /\
        sr_usage_source r' = sr_usage_source r /\ sr_over_limit r' = sr_over_limit r /\
        sr_created_at r' = sr_created_at r /\ sr_terminal_outcome r' = sr_outcome r /\
        sr_finalized_at r' = Some (sr_created_at r).
Proof.
  apply (legacy_migration legacy_rows). apply map_Forall_insert_2; [|apply map_Forall_empty].
  exists "schema_reject". split; [done|]. apply (bool_decide_unpack _). by vm_compute.
Defined.

Lemma acquire_slot_spec_witness :
  let (d', res) := acquire_slot sample_cap (Some 60) sample_now sample_now "l9" empty_db in
  if count_live "b" sample_now (leases empty_db) <? max_parallel_experiments sample_limits
  then res = Ok (Lease "l9" "b" (dt_isoformat sample_now) (dt_isoformat (sample_now + 60000000))
                   (dt_isoformat sample_now)) /\
       leases d' !! "l9" = Some (LeaseRow "b" (dt_isoformat sample_now)
                   (dt_isoformat (sample_now + 60000000)) (dt_isoformat sample_now) None)
  else (exists msg, res = Err (Exn BudgetExhaustedError msg)) /\ leases d' = leases empty_db.
Proof.
  apply (acquire_slot_spec sample_cap 60 sample_now sample_now (sample_now + 60000000) "l9" empty_db).
  - done.
  - lia.
  - by vm_compute.
  - done.
Defined.
