(* ===== verification/SourceCapability.v ===== *)
(** * SourceCapability: official availability of each dataset
    (packages/data_plane/data_contracts/source_capability.py)

    The V3 contracts are decoded from JSON documents by constructors that fail
    closed; the file models the decoding of every part, the consistency rules
    between history mode, grain, basis and empty-success policy, the official
    domain a coverage plan must stay in, the loading of the contract directory
    and the clamp of query dates.  The labels of error messages are left out. *)

From S2P Require Import Prelude PyDate Json.

Local Open Scope Z_scope.

Abbreviation dict := (list (string * json)) (only parsing).

Definition POLICY_VERSION : string := "source-capability/v3".
Definition COLLECTION_COVERAGE_V3 : string := "collection-coverage/v3".
Definition SCHEMA_VERSION : Z := 3.

Definition BUNDLED_CONTRACT_FILES : list string :=
  ["equities_bars_daily.json"; "equities_bars_daily_am.json"; "equities_earnings_calendar.json";
   "equities_master.json"; "equities_valuation.json"; "fins_details.json"; "fins_dividend.json";
   "fins_earnings_date.json"; "fins_summary.json"; "indices_bars_daily_topix.json";
   "jsda_corporate_bond_transactions.json"; "jsda_otc_bond_reference_prices.json";
   "jsda_tokyo_repo_rates.json"; "markets_calendar.json"].

Definition HISTORY_MODES : list string :=
  ["bounded_history"; "recent_snapshot"; "next_business_day_snapshot"; "event_stream";
   "official_archive_index"; "periodic_archive"].

Definition TIP_SNAPSHOT_MODES : list string := ["recent_snapshot"; "next_business_day_snapshot"].

Definition REQUIRED_DOMAIN_BASES : list string :=
  ["calendar_months_from_official_start"; "publication_windows_from_official_start";
   "issued_same_trading_day_snapshot"; "issued_collection_cutoff_snapshot";
   "official_archive_publication_days"; "official_archive_periods"; "official_time_series_file"].

Definition EMPTY_SUCCESS_POLICIES : list string :=
  ["never_complete"; "trusted_exhausted_receipt_may_complete"].

Definition DATASET_FIELDS : list string :=
  ["dataset_id"; "source"; "upstream_locator"; "official_evidence_url"; "history_mode";
   "earliest_official_availability"; "historical_research_eligible"; "tip_only_operational";
   "supported_query_parameters"; "publication_calendar"; "entitlement_semantics";
   "collection_window"; "freshness_sla"; "event_time"; "available_at"; "revision_semantics";
   "research_profile_eligibility"; "required_domain_semantics"].

Definition DATASET_ALLOWED : list string := DATASET_FIELDS ++ ["policy_version"].
Definition BUNDLE_ALLOWED : list string := ["policy_version"; "datasets"; "schema_version"].

(** ** Field decoders *)

Definition reject_unknown (raw : dict) (allowed : list string) : result unit :=
  ensure (forallb (fun k => k ∈? allowed) (keys raw)) ValueError "unknown field(s)".

Definition require_object (value : json) : result dict :=
  match value with JDict d => Ok d | _ => raise ValueError "must be an object" end.

Definition open_object (value : json) : result dict := require_object value.

Definition nonempty (value : json) : result string :=
  match value with
  | JStr s => if blank s then raise ValueError "must be a non-empty string" else Ok (strip s)
  | _ => raise ValueError "must be a non-empty string"
  end.

Definition bool_ (value : json) : result bool :=
  match value with JBool b => Ok b | _ => raise ValueError "must be a boolean" end.

Definition string_tuple (value : json) : result (list string) :=
  match value with
  | JList l =>
      if existsb (fun item => match item with JStr s => blank s | _ => true end) l
      then raise ValueError "must be an array of non-empty strings"
      else mapR nonempty l
  | _ => raise ValueError "must be an array of non-empty strings"
  end.

Definition iso_date (value : json) : result string :=
  text ← nonempty value;
  match fromisoformat text with
  | Err _ => raise ValueError "must be ISO date YYYY-MM-DD"
  | Ok _ =>
      _ ← ensure (Z.of_nat (String.length text) =? 10) ValueError "must be ISO date YYYY-MM-DD";
      Ok text
  end.

Definition optional_str (raw : dict) (key : string) : result (option string) :=
  match get key raw with
  | None | Some JNull => Ok None
  | Some v => s ← nonempty v; Ok (Some s)
  end.

Definition https_url (value : json) : result string :=
  text ← nonempty value;
  _ ← ensure (starts_with "https://" text) ValueError "must be an https URL";
  Ok text.

(** ** The parts of a contract *)

Record PublicationCalendar := mkPublicationCalendar {
  pc_kind : string;
  pc_timezone : string;
  pc_index_url : option string;
}.

Definition publication_calendar_from (raw : json) : result PublicationCalendar :=
  obj ← open_object raw;
  _ ← ensure (has_key "kind" obj && has_key "timezone" obj) ValueError "missing kind/timezone";
  index_url ← optional_str obj "index_url";
  index_url ← (match index_url with
               | Some u => u ← https_url (JStr u); Ok (Some u)
               | None => Ok None
               end);
  kind ← nonempty (getv "kind" obj);
  timezone ← nonempty (getv "timezone" obj);
  Ok (mkPublicationCalendar kind timezone index_url).

Record EntitlementSemantics := mkEntitlementSemantics {
  clamp_before_earliest : bool;
  subscription_floor : option string;
}.

Definition entitlement_semantics_from (raw : json) : result EntitlementSemantics :=
  obj ← open_object raw;
  let clamp := match getv "clamp_before_earliest" obj with
    | JNull => JBool (truthy (getv "subscription_floor_is_not_historical_required_start" obj))
    | v => v
    end in
  floor ← optional_str obj "subscription_floor";
  floor ← (match floor with Some f => f ← iso_date (JStr f); Ok (Some f) | None => Ok None end);
  clamp ← bool_ clamp;
  Ok (mkEntitlementSemantics clamp floor).

Record CollectionWindow := mkCollectionWindow {
  cw_grain : string;
  cw_open : string;
  cw_close : string;
}.

Definition collection_window_from (raw : json) : result CollectionWindow :=
  obj ← open_object raw;
  _ ← ensure (has_key "grain" obj) ValueError "missing grain";
  let open_v := or_ (or_ (getv "open" obj) (getv "required_domain_start" obj))
                  (getv "pit_history_start" obj) in
  let close_v := or_ (or_ (getv "close" obj) (getv "required_domain_end" obj)) (JStr "") in
  grain ← nonempty (getv "grain" obj);
  open_ ← nonempty open_v;
  Ok (mkCollectionWindow grain open_ (py_str close_v)).

Record FreshnessSla := mkFreshnessSla {
  fs_expected_after : string;
  fs_usable_by : string;
  fs_timezone : string;
  fs_rule : string;
}.

Definition freshness_sla_from (raw : json) : result FreshnessSla :=
  obj ← open_object raw;
  let tz := or_ (getv "timezone" obj) (JStr "UTC") in
  let rule := or_ (or_ (getv "rule" obj) (getv "policy" obj)) (JStr "unspecified") in
  let expected := or_ (or_ (getv "expected_after" obj) (getv "next_business_day_after" obj)) (JStr "") in
  let usable := or_ (getv "usable_by" obj) expected in
  tz ← nonempty tz;
  rule ← nonempty rule;
  Ok (mkFreshnessSla (py_str expected) (py_str usable) tz rule).

Record EventTimeSpec := mkEventTimeSpec {
  et_policy : string;
  et_fields : list string;
}.

(** [_string_tuple(v) if v else ()] of a value that counts only when a list. *)
Definition optional_list (v : json) : result (list string) :=
  match v with
  | JList [] => Ok []
  | JList _ => string_tuple v
  | _ => Ok []
  end.

Definition event_time_from (raw : json) : result EventTimeSpec :=
  obj ← open_object raw;
  _ ← ensure (has_key "policy" obj) ValueError "missing policy";
  policy ← nonempty (getv "policy" obj);
  fields ← optional_list (getv "fields" obj);
  Ok (mkEventTimeSpec policy fields).

Record AvailableAtSpec := mkAvailableAtSpec {
  aa_policy : string;
  aa_field : option string;
  aa_known_publication_lag : option string;
}.

(** A non-empty string or null. *)
Definition text_or_null (v : json) : result (option string) :=
  match v with
  | JNull => Ok None
  | JStr s => if blank s then raise ValueError "must be a non-empty string or null"
              else Ok (Some (strip s))
  | _ => raise ValueError "must be a non-empty string or null"
  end.

Definition available_at_from (raw : json) : result AvailableAtSpec :=
  obj ← open_object raw;
  _ ← ensure (has_key "policy" obj) ValueError "missing policy";
  field ← text_or_null (getv "field" obj);
  lag ← text_or_null (getv "known_publication_lag" obj);
  policy ← nonempty (getv "policy" obj);
  Ok (mkAvailableAtSpec policy field lag).

Record RevisionSemantics := mkRevisionSemantics {
  rs_policy : string;
  rs_generation_on_revision : bool;
}.

Definition revision_semantics_from (raw : json) : result RevisionSemantics :=
  obj ← open_object raw;
  let policy := or_ (getv "policy" obj) (getv "kind" obj) in
  _ ← ensure (truthy policy) ValueError "missing policy";
  let gen := match getv "generation_on_revision" obj with JNull => JBool false | v => v end in
  policy ← nonempty policy;
  gen ← bool_ gen;
  Ok (mkRevisionSemantics policy gen).

Record ResearchProfileEligibility := mkResearchProfileEligibility {
  include_in : list string;
  exclude_from : list string;
  exclusion_reason : string;
}.

Definition research_profile_from (raw : json) : result ResearchProfileEligibility :=
  obj ← open_object raw;
  let reason := match getv "exclusion_reason" obj with JStr s => s | _ => "" end in
  include ← optional_list (getv "include_in" obj);
  exclude ← optional_list (getv "exclude_from" obj);
  Ok (mkResearchProfileEligibility include exclude reason).

Record RequiredDomainSemantics := mkRequiredDomainSemantics {
  basis : string;
  empty_success_policy : string;
}.

Definition required_domain_from (raw : json) : result RequiredDomainSemantics :=
  obj ← open_object raw;
  _ ← ensure (has_key "basis" obj && has_key "empty_success_policy" obj) ValueError
        "missing basis/empty_success_policy";
  basis ← nonempty (getv "basis" obj);
  _ ← ensure (basis ∈? REQUIRED_DOMAIN_BASES) ValueError "basis must be one of";
  empty_policy ← nonempty (getv "empty_success_policy" obj);
  _ ← ensure (empty_policy ∈? EMPTY_SUCCESS_POLICIES) ValueError "empty_success_policy must be one of";
  Ok (mkRequiredDomainSemantics basis empty_policy).

(** ** The contract *)

Record SourceCapabilityContract := mkContract {
  dataset_id : string;
  source : string;
  upstream_locator : string;
  official_evidence_url : string;
  history_mode : string;
  earliest_official_availability : string;
  historical_research_eligible : bool;
  tip_only_operational : bool;
  supported_query_parameters : list string;
  publication_calendar : PublicationCalendar;
  entitlement_semantics : EntitlementSemantics;
  collection_window : CollectionWindow;
  freshness_sla : FreshnessSla;
  event_time : EventTimeSpec;
  available_at : AvailableAtSpec;
  revision_semantics : RevisionSemantics;
  research_profile_eligibility : ResearchProfileEligibility;
  required_domain_semantics : RequiredDomainSemantics;
}.

(** A dict of strings, looked up with [d[k]]. *)
Fixpoint lookup_str {A} (k : string) (d : list (string * A)) : option A :=
  match d with
  | [] => None
  | (k', v) :: d => if k =s k' then Some v else lookup_str k d
  end.

Definition BASIS_HISTORY_MODE : list (string * string) :=
  [("calendar_months_from_official_start", "bounded_history");
   ("publication_windows_from_official_start", "event_stream");
   ("issued_same_trading_day_snapshot", "recent_snapshot");
   ("issued_collection_cutoff_snapshot", "next_business_day_snapshot");
   ("official_archive_publication_days", "official_archive_index");
   ("official_archive_periods", "periodic_archive");
   ("official_time_series_file", "bounded_history")].

Definition BASIS_GRAIN : list (string * string) :=
  [("calendar_months_from_official_start", "calendar_month");
   ("publication_windows_from_official_start", "calendar_month");
   ("issued_same_trading_day_snapshot", "same_trading_day_am_snapshot");
   ("issued_collection_cutoff_snapshot", "collection_cutoff_snapshot");
   ("official_archive_publication_days", "official_archive_index_day");
   ("official_archive_periods", "official_archive_year");
   ("official_time_series_file", "source_time_series_file")].

Definition validate_required_domain_semantics (history_mode : string)
    (historical_research_eligible tip_only_operational : json)
    (collection_window : CollectionWindow) (semantics : RequiredDomainSemantics) : result unit :=
  historical ← bool_ historical_research_eligible;
  tip_only ← bool_ tip_only_operational;
  expected_mode ← of_option KeyError "" (lookup_str (basis semantics) BASIS_HISTORY_MODE);
  expected_grain ← of_option KeyError "" (lookup_str (basis semantics) BASIS_GRAIN);
  _ ← ensure (history_mode =s expected_mode) ValueError "basis requires history_mode";
  _ ← ensure (cw_grain collection_window =s expected_grain) ValueError
        "basis requires collection_window.grain";
  _ ← ensure (Bool.eqb tip_only (history_mode ∈? TIP_SNAPSHOT_MODES)) ValueError
        "tip_only_operational must match snapshot history_mode";
  _ ← ensure (negb (Bool.eqb historical tip_only)) ValueError
        "historical_research_eligible and tip_only_operational must be opposite";
  ensure (negb ((history_mode ∈? TIP_SNAPSHOT_MODES ++ ["official_archive_index"; "periodic_archive"])
                && negb (empty_success_policy semantics =s "never_complete")))
    ValueError "snapshot/archive empty SUCCESS must never COMPLETE".

(** [SourceCapabilityContract.from_dict] *)
Definition contract_from (raw : json) : result SourceCapabilityContract :=
  obj ← require_object raw;
  _ ← reject_unknown obj DATASET_ALLOWED;
  _ ← ensure (has_key "dataset_id" obj) ValueError "SourceCapabilityContract missing dataset_id";
  _ ← ensure (forallb (fun name => has_key name obj) DATASET_FIELDS) ValueError
        "SourceCapabilityContract missing";
  _ ← (if has_key "policy_version" obj then
         version ← nonempty (getv "policy_version" obj);
         ensure (version =s POLICY_VERSION) ValueError
           "unsupported SourceCapabilityContract policy_version"
       else Ok tt);
  dataset_id ← nonempty (getv "dataset_id" obj);
  history_mode ← nonempty (getv "history_mode" obj);
  _ ← ensure (history_mode ∈? HISTORY_MODES) ValueError "history_mode must be one of";
  collection_window ← collection_window_from (getv "collection_window" obj);
  domain_semantics ← required_domain_from (getv "required_domain_semantics" obj);
  _ ← validate_required_domain_semantics history_mode
        (getv "historical_research_eligible" obj) (getv "tip_only_operational" obj)
        collection_window domain_semantics;
  source ← nonempty (getv "source" obj);
  upstream_locator ← nonempty (getv "upstream_locator" obj);
  official_evidence_url ← https_url (getv "official_evidence_url" obj);
  earliest ← iso_date (getv "earliest_official_availability" obj);
  historical ← bool_ (getv "historical_research_eligible" obj);
  tip_only ← bool_ (getv "tip_only_operational" obj);
  parameters ← string_tuple (getv "supported_query_parameters" obj);
  publication_calendar ← publication_calendar_from (getv "publication_calendar" obj);
  entitlement ← entitlement_semantics_from (getv "entitlement_semantics" obj);
  freshness ← freshness_sla_from (getv "freshness_sla" obj);
  event_time ← event_time_from (getv "event_time" obj);
  available_at ← available_at_from (getv "available_at" obj);
  revision ← revision_semantics_from (getv "revision_semantics" obj);
  research ← research_profile_from (getv "research_profile_eligibility" obj);
  Ok (mkContract dataset_id source upstream_locator official_evidence_url history_mode earliest
        historical tip_only parameters publication_calendar entitlement collection_window
        freshness event_time available_at revision research domain_semantics).

(** ** The official domain *)

Record OfficialRequiredDomainSubset := mkDomain {
  od_dataset_id : string;
  od_policy_version : string;
  od_history_mode : string;
  od_earliest_official_availability : string;
  od_historical_research_eligible : bool;
  od_tip_only_operational : bool;
  admit_historical_required_segments : bool;
  publication_days_only : bool;
  collection_window_grain : string;
  od_supported_query_parameters : list string;
  research_profile_include_in : list string;
  research_profile_exclude_from : list string;
  required_domain_basis : string;
  od_empty_success_policy : string;
}.

Definition required_domain_subset_official (contract : SourceCapabilityContract)
    : OfficialRequiredDomainSubset :=
  let tip_snapshot := history_mode contract ∈? TIP_SNAPSHOT_MODES in
  let admit_historical := historical_research_eligible contract && negb tip_snapshot in
  let publication_days_only := history_mode contract =s "official_archive_index" in
  mkDomain (dataset_id contract) POLICY_VERSION (history_mode contract)
    (earliest_official_availability contract) (historical_research_eligible contract)
    (tip_only_operational contract) admit_historical publication_days_only
    (cw_grain (collection_window contract)) (supported_query_parameters contract)
    (include_in (research_profile_eligibility contract))
    (exclude_from (research_profile_eligibility contract))
    (basis (required_domain_semantics contract))
    (empty_success_policy (required_domain_semantics contract)).

Definition derive_collection_coverage_v3 (contract : SourceCapabilityContract)
    : list (string * string) :=
  [("policy_version", COLLECTION_COVERAGE_V3);
   ("history_target_start", earliest_official_availability contract);
   ("history_mode", history_mode contract);
   ("segment_granularity", cw_grain (collection_window contract));
   ("required_domain_basis", basis (required_domain_semantics contract));
   ("empty_success_policy", empty_success_policy (required_domain_semantics contract))].

(** ** Documents and the contract directory *)

Definition parse_policy_version (value : json) : result string :=
  version ← nonempty value;
  _ ← ensure (version =s POLICY_VERSION) ValueError
        "unsupported SourceCapabilityContract policy_version";
  Ok version.

Definition parse_source_capability_document (raw : json) : result (list SourceCapabilityContract) :=
  obj ← require_object raw;
  if has_key "datasets" obj then
    _ ← reject_unknown obj BUNDLE_ALLOWED;
    _ ← ensure (has_key "policy_version" obj) ValueError "missing policy_version";
    _ ← parse_policy_version (getv "policy_version" obj);
    _ ← ensure (negb (has_key "schema_version" obj
                      && negb (eq_int (getv "schema_version" obj) SCHEMA_VERSION)))
          ValueError "schema_version must be 3";
    match getv "datasets" obj with
    | JList rows =>
        mapR (fun row => match row with
          | JDict _ => contract_from row
          | _ => raise ValueError "datasets must be objects"
          end) rows
    | _ => raise ValueError "datasets must be an array"
    end
  else c ← contract_from raw; Ok [c].

Definition registry : Type := list (string * SourceCapabilityContract).

Definition add_contract (contracts : registry) (c : SourceCapabilityContract) : result registry :=
  _ ← ensure (negb (dataset_id c ∈? map fst contracts)) ValueError
        "duplicate SourceCapabilityContract dataset_id";
  Ok (contracts ++ [(dataset_id c, c)]).

(** One file: its name and what [json.loads] makes of its text. *)
Definition load_file (contracts : registry) (file : string * result json) : result registry :=
  if file.1 =s "schema.json" then Ok contracts else
  document ← file.2;
  match document with
  | JDict _ =>
      cs ← parse_source_capability_document document;
      foldR add_contract contracts cs
  | _ => raise ValueError "must be a JSON object"
  end.

(** [load_source_capability_dir]: the directory is [None] when it does not exist;
    otherwise its [*.json] files.  [bundled] is [directory is None]. *)
Definition load_source_capability_dir (bundled : bool) (dir : option (list (string * result json)))
    : result registry :=
  match dir with
  | None => if bundled then raise RuntimeError "bundled SourceCapability authority missing" else Ok []
  | Some files =>
      let paths := py_sorted key_leb files in
      _ ← ensure (negb bundled ||
                  bool_decide (list_to_set (map fst paths) =@{gset string} list_to_set BUNDLED_CONTRACT_FILES))
            RuntimeError "bundled SourceCapability authority inventory mismatch";
      foldR load_file [] paths
  end.

(** ** Lookups in the loaded registry *)

Section Registry.
Variable contracts : registry.

Definition all_source_capability_contracts : list SourceCapabilityContract := map snd contracts.

Definition source_capability_contract_or_none (id : string) : option SourceCapabilityContract :=
  lookup_str id contracts.

Definition source_capability_contract_for (id : string) : result SourceCapabilityContract :=
  of_option KeyError "unknown SourceCapabilityContract" (source_capability_contract_or_none id).

Definition collection_coverage_v3_overrides (id : string) : option (list (string * string)) :=
  c ← source_capability_contract_or_none id; Some (derive_collection_coverage_v3 c).

Definition coverage_v3_dataset_ids : list string := map fst contracts.
End Registry.

(** ** The clamp of query dates *)

(** A contract, or the mapping of one. *)
Inductive contract_arg := AContract (c : SourceCapabilityContract) | AMapping (d : dict).

Definition earliest_of (contract : contract_arg) : result string :=
  match contract with
  | AContract c => Ok (earliest_official_availability c)
  | AMapping d => iso_date (getv "earliest_official_availability" d)
  end.

Definition apply_official_query_clamp (query_date : string) (contract : contract_arg) : result string :=
  start ← earliest_of contract;
  let day := str_take 10 (strip query_date) in
  _ ← ensure (Z.of_nat (String.length day) =? 10) ValueError "query_date must be ISO date YYYY-MM-DD";
  if String.ltb day start then Ok start else Ok (strip query_date).

(** ** Lemmas *)

(** What the decoder guarantees of a contract. *)
Record consistent (c : SourceCapabilityContract) : Prop := mkConsistent {
  cons_mode : history_mode c ∈ HISTORY_MODES;
  cons_basis : basis (required_domain_semantics c) ∈ REQUIRED_DOMAIN_BASES;
  cons_basis_mode : lookup_str (basis (required_domain_semantics c)) BASIS_HISTORY_MODE
                    = Some (history_mode c);
  cons_basis_grain : lookup_str (basis (required_domain_semantics c)) BASIS_GRAIN
                     = Some (cw_grain (collection_window c));
  cons_tip : tip_only_operational c = (history_mode c ∈? TIP_SNAPSHOT_MODES);
  cons_historical : historical_research_eligible c = negb (tip_only_operational c);
  cons_empty : history_mode c ∈ TIP_SNAPSHOT_MODES ++ ["official_archive_index"; "periodic_archive"] ->
               empty_success_policy (required_domain_semantics c) = "never_complete";
  cons_start : exists n, fromisoformat (earliest_official_availability c) = Ok n;
  cons_start_length : String.length (earliest_official_availability c) = 10%nat;
  cons_url : starts_with "https://" (official_evidence_url c) = true;
}.

Lemma iso_date_text_Ok v s : iso_date v = Ok s ->
  (exists n, fromisoformat s = Ok n) /\ String.length s = 10%nat.
Proof.
  unfold iso_date. intros H. apply bind_Ok in H as (t & _ & H).
  destruct (fromisoformat t) as [n|] eqn:E; [|done]. binds H. ensures. injection H as <-.
  split; [eauto|lia].
Qed.

Lemma https_url_Ok v s : https_url v = Ok s -> starts_with "https://" s = true.
Proof. unfold https_url. intros H. binds H. ensures. by injection H as <-. Qed.

Lemma required_domain_from_Ok v s : required_domain_from v = Ok s ->
  basis s ∈ REQUIRED_DOMAIN_BASES.
Proof. unfold required_domain_from. intros H. binds H. ensures. by injection H as <-. Qed.

Lemma validate_semantics_Ok mode h t w s u : validate_required_domain_semantics mode h t w s = Ok u ->
  exists historical tip, bool_ h = Ok historical /\ bool_ t = Ok tip /\
    lookup_str (basis s) BASIS_HISTORY_MODE = Some mode /\
    lookup_str (basis s) BASIS_GRAIN = Some (cw_grain w) /\
    tip = (mode ∈? TIP_SNAPSHOT_MODES) /\ historical = negb tip /\
    (mode ∈ TIP_SNAPSHOT_MODES ++ ["official_archive_index"; "periodic_archive"] ->
     empty_success_policy s = "never_complete").
Proof.
  unfold validate_required_domain_semantics. intros H.
  apply bind_Ok in H as (historical & Hh & H). apply bind_Ok in H as (tip & Ht & H).
  apply bind_Ok in H as (m & Hm & H). apply bind_Ok in H as (g & Hg & H).
  apply bind_Ok in H as (_ & Em%ensure_Ok & H). apply bind_Ok in H as (_ & Eg%ensure_Ok & H).
  apply bind_Ok in H as (_ & Et%ensure_Ok & H). apply bind_Ok in H as (_ & Eh%ensure_Ok & H).
  apply ensure_Ok in H. apply bool_decide_eq_true in Em as ->. apply bool_decide_eq_true in Eg.
  destruct (lookup_str _ BASIS_HISTORY_MODE); [injection Hm as ->|done].
  destruct (lookup_str _ BASIS_GRAIN); [injection Hg as ->|done].
  exists historical, tip. split_and!; try done.
  - by rewrite Eg.
  - by apply eqb_prop.
  - apply negb_true_iff, eqb_false_iff in Eh. by destruct historical, tip.
  - intros Hin. rewrite (bool_decide_eq_true_2 _ Hin) in H. simpl in H. by bools.
Qed.

Lemma contract_from_inv raw c : contract_from raw = Ok c ->
  exists d, raw = JDict d /\ (forall k, k ∈ keys d -> k ∈ DATASET_ALLOWED) /\
    (forall k, k ∈ DATASET_FIELDS -> k ∈ keys d) /\ consistent c.
Proof.
  unfold contract_from. intros H.
  apply bind_Ok in H as (d & Hd & H). apply bind_Ok in H as (_ & Hu%ensure_Ok & H).
  apply bind_Ok in H as (_ & _ & H). apply bind_Ok in H as (_ & Hf%ensure_Ok & H).
  destruct raw; try done. injection Hd as ->. exists d. split; [done|].
  rewrite forallb_forall in Hu, Hf. setoid_rewrite <- list_elem_of_In in Hu.
  setoid_rewrite <- list_elem_of_In in Hf.
  split; [intros k Hk; specialize (Hu k Hk); by bools|].
  split; [intros k Hk; specialize (Hf k Hk); unfold has_key in Hf; by bools|].
  binds H. injection H as <-. ensures.
  match goal with E : validate_required_domain_semantics _ _ _ _ _ = _ |- _ =>
    apply validate_semantics_Ok in E as (historical & tip & ? & ? & ? & ? & ? & ? & ?) end.
  match goal with E : iso_date _ = _ |- _ => apply iso_date_text_Ok in E as [? ?] end.
  match goal with E : https_url _ = _ |- _ => apply https_url_Ok in E end.
  match goal with E : required_domain_from _ = _ |- _ => apply required_domain_from_Ok in E end.
  constructor; simpl; try done; congruence.
Qed.

(** A decoded contract is closed and consistent: only an object whose
    fields are exactly among the allowed ones and include all required ones
    decodes, and then the basis of the required domain determines history mode
    and grain, snapshot modes are tip-only and never historical, snapshot and
    archive contracts never complete on empty success, and the official start
    is an ISO date of ten characters. *)
Theorem contract_from_sound (raw : json) (c : SourceCapabilityContract) :
  contract_from raw = Ok c ->
  (exists d, raw = JDict d /\ (forall k, k ∈ keys d -> k ∈ DATASET_ALLOWED) /\
     (forall k, k ∈ DATASET_FIELDS -> k ∈ keys d)) /\ consistent c.
Proof. intros H. apply contract_from_inv in H as (d & ? & ? & ? & ?). eauto. Qed.

Definition SNAPSHOT_GRAINS : list string :=
  ["collection_cutoff_snapshot"; "same_trading_day_am_snapshot"].

(** Evaluate the tables at every basis. *)
Lemma basis_cases c (P : string -> string -> string -> Prop) : consistent c ->
  Forall (fun b => match lookup_str b BASIS_HISTORY_MODE, lookup_str b BASIS_GRAIN with
    | Some m, Some g => P b m g | _, _ => False end) REQUIRED_DOMAIN_BASES ->
  P (basis (required_domain_semantics c)) (history_mode c) (cw_grain (collection_window c)).
Proof.
  intros Hc HP. rewrite Forall_forall in HP. specialize (HP _ (cons_basis c Hc)).
  by rewrite (cons_basis_mode c Hc), (cons_basis_grain c Hc) in HP.
Qed.

(** The official domain of a consistent contract admits historical
    required segments exactly when the collection grain is not a snapshot
    grain, and counts publication days only exactly when the grain is the days
    listed in an official archive index. *)
Theorem official_domain_spec (c : SourceCapabilityContract) :
  consistent c ->
  (admit_historical_required_segments (required_domain_subset_official c) = true <->
   cw_grain (collection_window c) ∉ SNAPSHOT_GRAINS) /\
  (publication_days_only (required_domain_subset_official c) = true <->
   cw_grain (collection_window c) = "official_archive_index_day").
Proof.
  intros Hc. unfold required_domain_subset_official. simpl.
  rewrite (cons_historical c Hc), (cons_tip c Hc).
  pose proof (basis_cases c (fun b m g =>
    negb (m ∈? TIP_SNAPSHOT_MODES) && negb (m ∈? TIP_SNAPSHOT_MODES) = negb (g ∈? SNAPSHOT_GRAINS) /\
    (m =s "official_archive_index") = (g =s "official_archive_index_day")) Hc) as H.
  destruct H as [-> ->]; [by repeat constructor|].
  by rewrite negb_true_iff, bool_decide_eq_false, bool_decide_eq_true.
Qed.

(** A registry with distinct ids, each naming its own consistent contract. *)
Definition registry_ok (r : registry) : Prop :=
  NoDup (map fst r) /\ Forall (fun p => p.1 = dataset_id p.2 /\ consistent p.2) r.

Lemma add_contract_ok r c r' : consistent c -> registry_ok r -> add_contract r c = Ok r' -> registry_ok r'.
Proof.
  unfold add_contract. intros Hc [Hn Hf] H. binds H. ensures. injection H as <-.
  split.
  - rewrite map_app. apply NoDup_app. split; [done|]. split; [|apply NoDup_singleton].
    intros x Hx Hx'%list_elem_of_singleton. by subst.
  - apply Forall_app. split; [done|constructor; [done|constructor]].
Qed.

Lemma parse_document_consistent doc cs c : parse_source_capability_document doc = Ok cs ->
  c ∈ cs -> consistent c.
Proof.
  unfold parse_source_capability_document. intros H Hc. apply bind_Ok in H as (d & _ & H).
  destruct (has_key "datasets" d).
  - binds H. destruct (getv "datasets" d) as [| | | | |rows|]; try done. apply mapR_Ok in H.
    apply list_elem_of_lookup_1 in Hc as [i Hi]. eapply Forall2_lookup_r in H as (row & _ & Hr); [|done].
    destruct row; try done. by apply contract_from_inv in Hr as (? & _ & _ & _ & ?).
  - apply bind_Ok in H as (c' & H & [= <-]). apply list_elem_of_singleton in Hc as ->.
    by apply contract_from_inv in H as (? & _ & _ & _ & ?).
Qed.

Lemma load_file_ok r f r' : registry_ok r -> load_file r f = Ok r' -> registry_ok r'.
Proof.
  unfold load_file. intros Hr. destruct (f.1 =s "schema.json"); [by intros [= <-]|].
  intros H. apply bind_Ok in H as (doc & _ & H). destruct doc; try done.
  apply bind_Ok in H as (cs & Hcs & H).
  eapply (foldR_inv registry_ok); [|exact Hr|exact H].
  intros s c s' Hc Hs Ha. eapply add_contract_ok; [|done..]. by eapply parse_document_consistent.
Qed.

(** Loading fails closed: a registry that
    [load_source_capability_dir] returns has distinct ids, each naming its own
    consistent contract; and the bundled directory only loads when it exists
    and holds exactly the governed files. *)
Theorem load_dir_sound (bundled : bool) (dir : option (list (string * result json))) (r : registry) :
  load_source_capability_dir bundled dir = Ok r ->
  registry_ok r /\
  (bundled = true -> exists files, dir = Some files /\
     forall name, name ∈ map fst files <-> name ∈ BUNDLED_CONTRACT_FILES).
Proof.
  unfold load_source_capability_dir. intros H. destruct dir as [files|].
  - apply bind_Ok in H as (_ & Hb%ensure_Ok & H). split.
    + apply (foldR_inv registry_ok load_file [] (py_sorted key_leb files) r); [|by split; constructor|done].
      intros s f s' _. apply load_file_ok.
    + intros ->. exists files. split; [done|]. intros name. cbn [negb orb] in Hb. apply bool_decide_eq_true in Hb.
      rewrite <- (elem_of_list_to_set (C := gset string) name BUNDLED_CONTRACT_FILES), <- Hb.
      rewrite elem_of_list_to_set. by rewrite (py_sorted_perm key_leb files).
  - destruct bundled; [done|]. injection H as <-. split; [by split; constructor|done].
Qed.

Lemma str_take_strip_length s : String.length (str_take 10 s) = 10%nat ->
  s <> "".
Proof. by intros H ->. Qed.

Lemma clamp_cases q start r :
  (_ ← ensure (Z.of_nat (String.length (str_take 10 (strip q))) =? 10) ValueError
         "query_date must be ISO date YYYY-MM-DD";
   if String.ltb (str_take 10 (strip q)) start then Ok start else Ok (strip q)) = Ok r ->
  String.length (str_take 10 (strip q)) = 10%nat /\
  (r = start /\ String.ltb (str_take 10 (strip q)) start = true \/
   r = strip q /\ String.ltb (str_take 10 (strip q)) start = false).
Proof.
  intros H. apply bind_Ok in H as (_ & Hl%ensure_Ok & H). bools. split; [lia|].
  destruct (String.ltb _ start) eqn:E; injection H as <-; [left|right]; done.
Qed.

(** The clamp never queries before the official start and never moves a
    date at or after it: for a start that is an ISO calendar date, a clamped
    date is the start or has a day part at or after it, clamping again changes
    nothing, and a query whose day part is not before the start is returned
    as it is (stripped). *)
Theorem query_clamp_spec (q r : string) (c : SourceCapabilityContract) (n : date) :
  is_day (earliest_official_availability c) n ->
  apply_official_query_clamp q (AContract c) = Ok r ->
  String.leb (earliest_official_availability c) (str_take 10 r) = true /\
  apply_official_query_clamp r (AContract c) = Ok r /\
  (String.leb (earliest_official_availability c) (str_take 10 (strip q)) = true -> r = strip q).
Proof.
  intros Hn. unfold apply_official_query_clamp, earliest_of.
  set (start := earliest_official_availability c) in *. cbn [mbind result_bind].
  intros H. apply clamp_cases in H as [Hl [[-> Hlt]|[-> Hge]]].
  - assert (Hs : strip start = start) by eauto with qp.
    assert (Hlen : String.length start = 10%nat) by (destruct Hn as [_ ->]; done).
    rewrite Hs, (str_take_all _ start Hlen). split_and!.
    + apply string_leb_refl.
    + rewrite Hlen. simpl. by destruct (String.ltb start start).
    + intros Hle. by rewrite string_ltb_negb, Hle in Hlt.
  - rewrite strip_idem, Hl. rewrite string_ltb_negb, negb_false_iff in Hge. split_and!.
    + done.
    + cbn [ensure mbind result_bind]. rewrite string_ltb_negb, Hge. done.
    + done.
Qed.

(** The date check is weaker than its message: [_iso_date] promises
    YYYY-MM-DD but accepts the ten-character ISO week date 2008-W19-3, and a
    contract with that start makes the clamp move the later date 2008-12-31
    back to it. *)
Theorem iso_week_start_accepted (c : SourceCapabilityContract) :
  iso_date (JStr "2008-W19-3") = Ok "2008-W19-3" /\
  fromisoformat "2008-W19-3" = fromisoformat "2008-05-07" /\
  (earliest_official_availability c = "2008-W19-3" ->
   apply_official_query_clamp "2008-12-31" (AContract c) = Ok "2008-W19-3").
Proof.
  split; [by vm_compute|]. split; [by vm_compute|]. intros E.
  unfold apply_official_query_clamp, earliest_of. rewrite E. by vm_compute.
Qed.

(** ** Witnesses *)

Definition sample_document : json := JDict
  [("dataset_id", JStr "equities_master"); ("source", JStr "jquants_premium_core");
   ("upstream_locator", JStr "/v2/equities/master");
   ("official_evidence_url", JStr "https://jpx-jquants.com/en/spec/eq-master");
   ("history_mode", JStr "bounded_history");
   ("earliest_official_availability", JStr "2008-05-07");
   ("historical_research_eligible", JBool true); ("tip_only_operational", JBool false);
   ("supported_query_parameters", JList [JStr "date"; JStr "code"]);
   ("publication_calendar", JDict [("kind", JStr "business_day"); ("timezone", JStr "Asia/Tokyo")]);
   ("entitlement_semantics", JDict [("clamp_before_earliest", JBool true)]);
   ("collection_window", JDict [("grain", JStr "calendar_month"); ("open", JStr "2008-05-07")]);
   ("freshness_sla", JDict [("expected_after", JStr "08:00")]);
   ("event_time", JDict [("policy", JStr "date")]);
   ("available_at", JDict [("policy", JStr "publication"); ("field", JNull)]);
   ("revision_semantics", JDict [("kind", JStr "append")]);
   ("research_profile_eligibility", JDict []);
   ("required_domain_semantics",
     JDict [("basis", JStr "calendar_months_from_official_start");
            ("empty_success_policy", JStr "trusted_exhausted_receipt_may_complete")])].

Definition sample_contract : SourceCapabilityContract :=
  match contract_from sample_document with
  | Ok c => c
  | Err _ => mkContract "" "" "" "" "" "" false false [] (mkPublicationCalendar "" "" None)
      (mkEntitlementSemantics false None) (mkCollectionWindow "" "" "") (mkFreshnessSla "" "" "" "")
      (mkEventTimeSpec "" []) (mkAvailableAtSpec "" None None) (mkRevisionSemantics "" false)
      (mkResearchProfileEligibility [] [] "") (mkRequiredDomainSemantics "" "")
  end.

Lemma contract_from_sound_witness :
  (exists d, sample_document = JDict d /\ (forall k, k ∈ keys d -> k ∈ DATASET_ALLOWED) /\
     (forall k, k ∈ DATASET_FIELDS -> k ∈ keys d)) /\ consistent sample_contract.
Proof. apply (contract_from_sound sample_document sample_contract). by vm_compute. Defined.

Lemma sample_consistent : consistent sample_contract.
Proof.
  assert (H : contract_from sample_document = Ok sample_contract) by by vm_compute.
  by apply contract_from_inv in H as (_ & _ & _ & _ & H).
Qed.

Lemma official_domain_spec_witness :
  (admit_historical_required_segments (required_domain_subset_official sample_contract) = true <->
   cw_grain (collection_window sample_contract) ∉ SNAPSHOT_GRAINS) /\
  (publication_days_only (required_domain_subset_official sample_contract) = true <->
   cw_grain (collection_window sample_contract) = "official_archive_index_day").
Proof. apply (official_domain_spec sample_contract), sample_consistent. Defined.

Lemma load_dir_sound_witness :
  let dir := Some [("equities_master.json", Ok sample_document); ("schema.json", Ok JNull)] in
  registry_ok [("equities_master", sample_contract)] /\
  (false = true -> exists files, dir = Some files /\
     forall name, name ∈ map fst files <-> name ∈ BUNDLED_CONTRACT_FILES).
Proof.
  intros dir. apply (load_dir_sound false dir [("equities_master", sample_contract)]).
  by vm_compute.
Defined.

Lemma query_clamp_spec_witness :
  String.leb (earliest_official_availability sample_contract) (str_take 10 "2008-05-07") = true /\
  apply_official_query_clamp "2008-05-07" (AContract sample_contract) = Ok "2008-05-07" /\
  (String.leb (earliest_official_availability sample_contract) (str_take 10 (strip " 2008-01-31")) = true ->
   "2008-05-07" = strip " 2008-01-31").
Proof.
  apply (query_clamp_spec " 2008-01-31" "2008-05-07" sample_contract 733169).
  - split; by vm_compute.
  - by vm_compute.
Defined.

Lemma iso_week_start_accepted_witness :
  iso_date (JStr "2008-W19-3") = Ok "2008-W19-3" /\
  fromisoformat "2008-W19-3" = fromisoformat "2008-05-07" /\
  (earliest_official_availability sample_contract = "2008-W19-3" ->
   apply_official_query_clamp "2008-12-31" (AContract sample_contract) = Ok "2008-W19-3").
Proof. apply (iso_week_start_accepted sample_contract). Defined.
