(* ===== verification/CoverageContract.v ===== *)
(** * CoverageContract: collection coverage policies
    (packages/data_plane/data_contracts/coverage.py,
    packages/data_plane/storage/receipt_policy.py)

    One policy row per dataset is decoded from [collection_coverage.json] and
    bound by the digest of its canonical JSON; a policy set is bound by the
    digest of its sorted rows.  [sha256_hex] is a parameter.  The dataset ids of
    the canonical contracts, which the document must cover exactly, are an
    argument of the loader. *)

From S2P Require Import Prelude PyDate Json SourceCapability.

Local Open Scope Z_scope.

Definition GOVERNANCE_TIERS : list string := ["governed"; "experimental"].

Definition COVERAGE_STATUSES : list string := ["COMPLETE"; "PARTIAL"; "STALE"; "UNKNOWN"; "FAILED"].

Definition SNAPSHOT_SEGMENT_GRANULARITIES : list string :=
  ["collection_cutoff_snapshot"; "same_trading_day_am_snapshot"].

Definition SEGMENT_GRANULARITIES : list string :=
  ["calendar_month"; "official_archive_day"; "official_archive_index_day"; "official_archive_year";
   "source_time_series_file"] ++ SNAPSHOT_SEGMENT_GRANULARITIES.

Definition REQUIRED_STRINGS : list string :=
  ["collection_scope"; "history_target_start"; "history_target_end_rule"; "coverage_mode";
   "expected_frequency"; "universe_rule"; "segment_granularity"; "governance_tier"].

Definition REQUIRED_BOOLS : list string :=
  ["raw_retention_required"; "structured_reconciliation_required"].

Definition REQUIRED : list string := REQUIRED_STRINGS ++ REQUIRED_BOOLS.

Definition VENDOR_ANNOTATION_FIELDS : list string :=
  ["not_historical_required_start"; "earliest_official_availability"; "official_mode";
   "vendor_data_provision_start"; "vendor_history_policy"; "vendor_data_provision_citation";
   "vendor_history_policy_citation"].

Definition OPTIONAL_STRINGS : list string :=
  ["policy_version"; "history_mode"; "required_domain_basis"; "empty_success_policy"]
  ++ VENDOR_ANNOTATION_FIELDS.

(** The fields of a policy row are kept by name: the required strings and
    booleans, and the optional strings that are present. *)
Record CollectionCoverageContract := mkCoverage {
  cc_dataset_id : string;
  collection_scope : string;
  history_target_start : string;
  history_target_end_rule : string;
  coverage_mode : string;
  expected_frequency : string;
  universe_rule : string;
  raw_retention_required : bool;
  structured_reconciliation_required : bool;
  segment_granularity : string;
  governance_tier : string;
  cc_policy_version : option string;
  cc_history_mode : option string;
  cc_required_domain_basis : option string;
  cc_empty_success_policy : option string;
  not_historical_required_start : option string;
  cc_earliest_official_availability : option string;
  official_mode : option string;
  vendor_data_provision_start : option string;
  vendor_history_policy : option string;
  vendor_data_provision_citation : option string;
  vendor_history_policy_citation : option string;
}.

#[export] Instance coverage_contract_eq_dec : EqDecision CollectionCoverageContract.
Proof. solve_decision. Defined.

(** A required string: [isinstance(value, str) and value]. *)
Definition required_string (raw : dict) (name : string) : result string :=
  match getv name raw with
  | JStr s => if s =s "" then raise ValueError "must be non-empty string" else Ok s
  | _ => raise ValueError "must be non-empty string"
  end.

Definition required_bool (raw : dict) (name : string) : result bool :=
  match getv name raw with JBool b => Ok b | _ => raise ValueError "must be boolean" end.

Definition optional_string (raw : dict) (name : string) : result (option string) :=
  match getv name raw with
  | JNull => Ok None
  | JStr s => if s =s "" then raise ValueError "must be non-empty string" else Ok (Some s)
  | _ => raise ValueError "must be non-empty string"
  end.

(** [from_dict]; [strings] are checked in the order of the table. *)
Definition coverage_from_dict (dataset_id : string) (raw : dict) : result CollectionCoverageContract :=
  _ ← ensure (forallb (fun k => has_key k raw) REQUIRED) ValueError "coverage contract missing";
  collection_scope ← required_string raw "collection_scope";
  history_target_start ← required_string raw "history_target_start";
  history_target_end_rule ← required_string raw "history_target_end_rule";
  coverage_mode ← required_string raw "coverage_mode";
  expected_frequency ← required_string raw "expected_frequency";
  universe_rule ← required_string raw "universe_rule";
  segment_granularity ← required_string raw "segment_granularity";
  governance_tier ← required_string raw "governance_tier";
  _ ← ensure (governance_tier ∈? GOVERNANCE_TIERS) ValueError
        "governance_tier must be governed or experimental";
  _ ← ensure (segment_granularity ∈? SEGMENT_GRANULARITIES) ValueError
        "segment_granularity is not supported";
  raw_retention ← required_bool raw "raw_retention_required";
  reconciliation ← required_bool raw "structured_reconciliation_required";
  policy_version ← optional_string raw "policy_version";
  history_mode ← optional_string raw "history_mode";
  required_domain_basis ← optional_string raw "required_domain_basis";
  empty_success_policy ← optional_string raw "empty_success_policy";
  a1 ← optional_string raw "not_historical_required_start";
  a2 ← optional_string raw "earliest_official_availability";
  a3 ← optional_string raw "official_mode";
  a4 ← optional_string raw "vendor_data_provision_start";
  a5 ← optional_string raw "vendor_history_policy";
  a6 ← optional_string raw "vendor_data_provision_citation";
  a7 ← optional_string raw "vendor_history_policy_citation";
  _ ← (if bool_decide (policy_version = Some "collection-coverage/v3") then
         match history_mode, required_domain_basis, empty_success_policy with
         | Some _, Some b, Some p =>
             _ ← ensure (b ∈? REQUIRED_DOMAIN_BASES) ValueError "required_domain_basis is not supported";
             ensure (p ∈? EMPTY_SUCCESS_POLICIES) ValueError "empty_success_policy is not supported"
         | _, _, _ => raise ValueError "collection-coverage/v3 missing"
         end
       else Ok tt);
  Ok (mkCoverage dataset_id collection_scope history_target_start history_target_end_rule
        coverage_mode expected_frequency universe_rule raw_retention reconciliation
        segment_granularity governance_tier policy_version history_mode required_domain_basis
        empty_success_policy a1 a2 a3 a4 a5 a6 a7).

Definition opt_json (o : option string) : json := match o with Some s => JStr s | None => JNull end.

(** [to_dict] *)
Definition coverage_to_dict (c : CollectionCoverageContract) : dict :=
  [("dataset_id", JStr (cc_dataset_id c));
   ("collection_scope", JStr (collection_scope c));
   ("history_target_start", JStr (history_target_start c));
   ("history_target_end_rule", JStr (history_target_end_rule c));
   ("coverage_mode", JStr (coverage_mode c));
   ("expected_frequency", JStr (expected_frequency c));
   ("universe_rule", JStr (universe_rule c));
   ("segment_granularity", JStr (segment_granularity c));
   ("governance_tier", JStr (governance_tier c));
   ("raw_retention_required", JBool (raw_retention_required c));
   ("structured_reconciliation_required", JBool (structured_reconciliation_required c));
   ("policy_version", opt_json (cc_policy_version c));
   ("history_mode", opt_json (cc_history_mode c));
   ("required_domain_basis", opt_json (cc_required_domain_basis c));
   ("empty_success_policy", opt_json (cc_empty_success_policy c));
   ("not_historical_required_start", opt_json (not_historical_required_start c));
   ("earliest_official_availability", opt_json (cc_earliest_official_availability c));
   ("official_mode", opt_json (official_mode c));
   ("vendor_data_provision_start", opt_json (vendor_data_provision_start c));
   ("vendor_history_policy", opt_json (vendor_history_policy c));
   ("vendor_data_provision_citation", opt_json (vendor_data_provision_citation c));
   ("vendor_history_policy_citation", opt_json (vendor_history_policy_citation c))].

(** ** The policy document *)

Definition coverage_registry : Type := list (string * CollectionCoverageContract).

Definition load_row (defaults : dict) (policy_version : string) (row : string * json)
    : result (string * CollectionCoverageContract) :=
  match row.2 with
  | JDict overrides =>
      c ← coverage_from_dict row.1
            (dict_merge (dict_set "policy_version" (JStr policy_version) defaults) overrides);
      Ok (row.1, c)
  | _ => raise TypeError "object is not a mapping"
  end.

(** [_load] of the decoded document; [expected] are the ids of the canonical and
    the governed JSDA contracts. *)
Definition load_coverage (document : dict) (expected : list string)
    : result (string * coverage_registry) :=
  _ ← ensure (eq_int (getv "schema_version" document) 2) ValueError
        "collection coverage schema_version must be 2";
  policy_version ← required_string document "policy_version";
  match getv "defaults" document, getv "datasets" document with
  | JDict defaults, JDict rows =>
      _ ← ensure (bool_decide (list_to_set (keys rows) =@{gset string} list_to_set expected)) ValueError
            "coverage datasets must exactly match canonical contract";
      contracts ← mapR (load_row defaults policy_version) rows;
      Ok (policy_version, contracts)
  | _, _ => raise ValueError "coverage defaults and datasets must be objects"
  end.

(** ** Bindings *)

Section Bindings.
Variable contracts : coverage_registry.
Variable sha256_hex : string -> string.

Definition all_coverage_contracts : list CollectionCoverageContract := map snd contracts.

Definition coverage_contract_for (dataset_id : string) : result CollectionCoverageContract :=
  of_option KeyError "unknown coverage contract" (lookup_str dataset_id contracts).

Definition coverage_policy_digest (dataset_id : string) : result string :=
  c ← coverage_contract_for dataset_id;
  Ok ("sha256:" +:+ sha256_hex (canonical_dumps (JDict (coverage_to_dict c)))).

Record policy_binding := mkBinding {
  pb_policy_id : string;
  pb_policy_version : string;
  pb_policy_digest : string;
}.

Definition coverage_policy_binding (dataset_id : string) : result policy_binding :=
  contract ← coverage_contract_for dataset_id;
  match cc_policy_version contract with
  | Some v =>
      _ ← ensure (negb (v =s "")) ValueError "coverage policy version missing";
      digest ← coverage_policy_digest dataset_id;
      Ok (mkBinding dataset_id v digest)
  | None => raise ValueError "coverage policy version missing"
  end.

Definition binding_json (b : policy_binding) : json :=
  JDict [("policy_id", JStr (pb_policy_id b)); ("policy_version", JStr (pb_policy_version b));
         ("policy_digest", JStr (pb_policy_digest b))].

Record policy_set_binding := mkSetBinding {
  ps_policy_version : string;
  ps_policy_digest : string;
  ps_datasets : list policy_binding;
}.

(** [sorted({...})]: without repetitions, in order. *)
Definition sorted_set (l : list string) : list string := sorted_strings (remove_dups l).

Definition coverage_policy_set_binding (dataset_ids : list string) : result policy_set_binding :=
  let normalized := sorted_strings dataset_ids in
  _ ← ensure (negb (bool_decide (normalized = []) || negb (bool_decide (NoDup normalized)))) ValueError
        "coverage policy set requires unique dataset ids";
  rows ← mapR coverage_policy_binding normalized;
  let digest := "sha256:" +:+ sha256_hex (canonical_dumps (JList (map binding_json rows))) in
  let versions := sorted_set (map pb_policy_version rows) in
  let effective_version := match versions with [v] => v | _ => "mixed:" +:+ digest end in
  Ok (mkSetBinding effective_version digest rows).
End Bindings.

(** ** Receipt policy *)

Definition RECEIPT_SOURCE_BY_CANONICAL_SOURCE : list (string * string) :=
  [("jquants_premium_core", "jquants"); ("jquants_addon", "jquants"); ("jsda_governed", "jsda")].

Definition RECOVERED_RECEIPT_ORIGINS : list string :=
  ["recovered-raw-only"; "parsed-staging-only"; "offline-test-fixture"].

Definition receipt_source_for_canonical_source (canonical_source : string) : result string :=
  _ ← ensure (negb (canonical_source =s "")) ValueError
        "canonical receipt source must be a non-empty exact string";
  of_option ValueError "unsupported canonical receipt source"
    (lookup_str canonical_source RECEIPT_SOURCE_BY_CANONICAL_SOURCE).

Definition is_jstr_in (v : json) (l : list string) : bool :=
  match v with JStr s => s ∈? l | _ => false end.

Definition is_recovered_only_digests (digests : json) : bool :=
  match digests with
  | JDict d =>
      let eligibility := getv "eligibility" d in
      let origin := getv "origin" d in
      let synthetic := getv "synthetic" d in
      if has_key "eligibility" d && negb (is_jstr_in eligibility ["TRUSTED_COLLECTION"; "RECOVERED_RAW_ONLY"])
      then true
      else if has_key "origin" d && negb (match origin with JStr _ => true | _ => false end) then true
      else if has_key "synthetic" d && negb (match synthetic with JBool _ => true | _ => false end) then true
      else is_jstr_in eligibility ["RECOVERED_RAW_ONLY"]
           || is_jstr_in origin RECOVERED_RECEIPT_ORIGINS
           || match synthetic with JBool b => b | _ => false end
  | _ => true
  end.

(** ** Lemmas *)

(** What the decoder guarantees of a policy row. *)
Record policy_ok (c : CollectionCoverageContract) : Prop := mkPolicyOk {
  pk_strings : Forall (fun s => s <> "") [collection_scope c; history_target_start c;
    history_target_end_rule c; coverage_mode c; expected_frequency c; universe_rule c;
    segment_granularity c; governance_tier c];
  pk_tier : governance_tier c ∈ GOVERNANCE_TIERS;
  pk_grain : segment_granularity c ∈ SEGMENT_GRANULARITIES;
  pk_optional : Forall (fun o => o <> Some "") [cc_policy_version c; cc_history_mode c;
    cc_required_domain_basis c; cc_empty_success_policy c; not_historical_required_start c;
    cc_earliest_official_availability c; official_mode c; vendor_data_provision_start c;
    vendor_history_policy c; vendor_data_provision_citation c; vendor_history_policy_citation c];
  pk_v3 : cc_policy_version c = Some "collection-coverage/v3" ->
    is_Some (cc_history_mode c) /\
    (exists b, cc_required_domain_basis c = Some b /\ b ∈ REQUIRED_DOMAIN_BASES) /\
    (exists p, cc_empty_success_policy c = Some p /\ p ∈ EMPTY_SUCCESS_POLICIES);
}.

Lemma lookup_dict_set {A} k k' (v : A) d :
  lookup_str k (dict_set k' v d) = if k =s k' then Some v else lookup_str k d.
Proof.
  induction d as [|[k1 v1] d IH]; simpl; [by destruct (k =s k')|].
  destruct (k' =s k1) eqn:E1; simpl; bools; subst.
  - by destruct (k =s k1).
  - rewrite IH. destruct (k =s k1) eqn:E2, (k =s k') eqn:E3; bools; congruence.
Qed.

Lemma lookup_str_elem {A} k (v : A) d : NoDup (map fst d) -> (k, v) ∈ d <-> lookup_str k d = Some v.
Proof.
  induction d as [|[k1 v1] d IH]; simpl; [split; [by intros ?%elem_of_nil|done]|].
  intros Hn. inversion_clear Hn as [|? ? Hk Hd]. rewrite elem_of_cons, (IH Hd).
  destruct (k =s k1) eqn:E; bools.
  - subst. split; [|intros [= ->]; by left]. intros [[= ->]|H]; [done|]. exfalso. apply Hk.
    apply (IH Hd) in H. apply list_elem_of_fmap. by exists (k1, v).
  - split; [by intros [[= -> ->]|?]|by right].
Qed.

Lemma required_string_Ok raw name s : required_string raw name = Ok s -> s <> "".
Proof.
  unfold required_string. destruct (getv name raw); try done.
  case_bool_decide; [done|]. by intros [= <-].
Qed.

Lemma optional_string_Ok raw name o : optional_string raw name = Ok o -> o <> Some "".
Proof.
  unfold optional_string. destruct (getv name raw); try done; [by intros [= <-]|].
  case_bool_decide; [done|]. intros [= <-]. congruence.
Qed.

Lemma coverage_from_dict_ok id raw c : coverage_from_dict id raw = Ok c ->
  cc_dataset_id c = id /\ policy_ok c.
Proof.
  unfold coverage_from_dict. intros H. binds H. injection H as <-.
  repeat match goal with
  | E : required_string _ _ = Ok _ |- _ => apply required_string_Ok in E
  | E : optional_string _ _ = Ok _ |- _ => apply optional_string_Ok in E
  end.
  ensures. split; [done|]. constructor; simpl; [by repeat constructor|done|done|by repeat constructor|].
  intros ->. repeat match goal with E : (if _ then _ else _) = Ok _ |- _ => revert E end.
  rewrite bool_decide_eq_true_2 by done.
  repeat match goal with |- context [match ?o with Some _ => _ | None => _ end] =>
    is_var o; destruct o; try done end.
  intros Hv3. binds Hv3. ensures. split_and!; eauto.
Qed.

Lemma required_field d name s : getv name d = JStr s -> s <> "" -> required_string d name = Ok s.
Proof. intros E Hs. unfold required_string. by rewrite E, bool_decide_eq_false_2. Qed.

Lemma optional_field d name o : getv name d = opt_json o -> o <> Some "" -> optional_string d name = Ok o.
Proof.
  intros E Ho. unfold optional_string. rewrite E. destruct o as [s|]; simpl; [|done].
  rewrite bool_decide_eq_false_2; congruence.
Qed.

Lemma bool_field d name b : getv name d = JBool b -> required_bool d name = Ok b.
Proof. unfold required_bool. by intros ->. Qed.

(** The fields that [to_dict] writes are read back. *)
Lemma coverage_roundtrip_ok c : policy_ok c ->
  coverage_from_dict (cc_dataset_id c) (coverage_to_dict c) = Ok c.
Proof.
  intros [Hs Ht Hg Ho Hv]. unfold coverage_from_dict.
  replace (forallb _ REQUIRED) with true by (symmetry; by vm_compute).
  repeat match goal with H : Forall _ (_ :: _) |- _ => inversion_clear H end.
  repeat (erewrite required_field by done; cbn [mbind result_bind ensure]).
  rewrite !(bool_decide_eq_true_2 (_ ∈ _)) by done. cbn [ensure mbind result_bind].
  repeat (erewrite bool_field by done; cbn [mbind result_bind]).
  repeat (erewrite optional_field by done; cbn [mbind result_bind]).
  case_bool_decide as E; [|by destruct c].
  destruct (Hv E) as ([m Hm] & (b & Hb & Hbin) & (p & Hp & Hpin)).
  rewrite Hm, Hb, Hp, !bool_decide_eq_true_2 by done. cbn [ensure mbind result_bind].
  by destruct c; simpl in *; subst.
Qed.

(** Decoding a policy row and writing it out with [to_dict] is a round
    trip: the decoded row satisfies the policy rules (non-empty strings, a known
    tier and grain, complete V3 fields), and decoding what [to_dict] writes
    gives the same row, so the digest of [to_dict] covers every field. *)
Theorem coverage_roundtrip (id : string) (raw : dict) (c : CollectionCoverageContract) :
  coverage_from_dict id raw = Ok c ->
  policy_ok c /\ coverage_from_dict id (coverage_to_dict c) = Ok c.
Proof.
  intros H. apply coverage_from_dict_ok in H as [<- Hc]. split; [done|]. by apply coverage_roundtrip_ok.
Qed.

(** The document loader covers exactly the expected datasets: when it
    succeeds the registry has one well-formed policy per expected id, named by
    that id, and no other. *)
Theorem load_coverage_exact (document : dict) (expected : list string) (version : string)
    (r : coverage_registry) :
  load_coverage document expected = Ok (version, r) ->
  (forall id, id ∈ map fst r <-> id ∈ expected) /\
  Forall (fun p => cc_dataset_id p.2 = p.1 /\ policy_ok p.2) r.
Proof.
  unfold load_coverage. intros H. binds H.
  destruct (getv "defaults" document) as [| | | | | |defaults]; try done.
  destruct (getv "datasets" document) as [| | | | | |rows]; try done.
  apply bind_Ok in H as (_ & Hs%ensure_Ok & H). apply bool_decide_eq_true in Hs.
  apply bind_Ok in H as (cs & Hr & [= <- <-]). apply mapR_Ok in Hr.
  assert (Hrow : forall row p, load_row defaults a0 row = Ok p ->
    p.1 = row.1 /\ cc_dataset_id p.2 = p.1 /\ policy_ok p.2).
  { intros [id v] p. unfold load_row. destruct v; try done. intros Hp.
    apply bind_Ok in Hp as (c & Hc & [= <-]). apply coverage_from_dict_ok in Hc as [? ?]. done. }
  assert (Hk : map fst cs = keys rows).
  { clear -Hr Hrow. induction Hr as [|row p rows cs Hp Hr IH]; [done|]. simpl.
    destruct (Hrow _ _ Hp) as [-> _]. unfold keys. simpl. by f_equal. }
  split.
  - intros id. rewrite Hk. rewrite <- (elem_of_list_to_set (C := gset string) id expected), <- Hs.
    by rewrite elem_of_list_to_set.
  - apply Forall_forall. intros p Hp. apply list_elem_of_lookup_1 in Hp as [i Hi].
    eapply Forall2_lookup_r in Hr as (row & _ & Hrow'); [|done]. by apply (Hrow row).
Qed.

(** A policy-set binding does not depend on the order the datasets are
    named in, names them without repetition in sorted order, and its version is
    that of the rows when they all have the same one. *)
Theorem policy_set_binding_spec (contracts : coverage_registry) (sha256_hex : string -> string)
    (ids ids' : list string) (b : policy_set_binding) :
  ids ≡ₚ ids' -> coverage_policy_set_binding contracts sha256_hex ids = Ok b ->
  coverage_policy_set_binding contracts sha256_hex ids' = Ok b /\
  map pb_policy_id (ps_datasets b) = sorted_strings ids /\ NoDup ids /\ ids <> [] /\
  (forall v, (forall r, r ∈ ps_datasets b -> pb_policy_version r = v) -> ps_policy_version b = v).
Proof.
  intros Hp H. split.
  { revert H. unfold coverage_policy_set_binding. by rewrite (sorted_strings_perm ids ids' Hp). }
  clear ids' Hp. unfold coverage_policy_set_binding in H. binds H. injection H as <-. ensures.
  match goal with E : mapR _ _ = Ok _ |- _ => apply mapR_Ok in E; rename E into Hr end.
  assert (Hperm : sorted_strings ids ≡ₚ ids) by apply py_sorted_perm.
  assert (Hids : map pb_policy_id a0 = sorted_strings ids).
  { clear -Hr. induction Hr as [|id row l rows Hid Hr IH]; [done|]. simpl. f_equal; [|done].
    unfold coverage_policy_binding in Hid. apply bind_Ok in Hid as (c & _ & Hid).
    destruct (cc_policy_version c); [|done]. binds Hid. by injection Hid as <-. }
  assert (Hne : ids <> []).
  { intros ->. done. }
  simpl. split_and!; [done|by rewrite <- Hperm|done|].
  intros v Hv. assert (Hs : sorted_set (map pb_policy_version a0) = [v]); [|by rewrite Hs].
  unfold sorted_set. rewrite (remove_dups_const v); [done| |].
  - intros En. apply Hne. apply map_eq_nil in En as ->. apply Permutation_nil.
    by rewrite <- Hperm, <- Hids.
  - apply Forall_map, Forall_forall. done.
Qed.

Lemma if_true_false (b c : bool) : (if b then true else c) = false -> b = false /\ c = false.
Proof. by destruct b. Qed.

Lemma eligibility_cases o :
  present o && negb (is_jstr_in (default JNull o) ["TRUSTED_COLLECTION"; "RECOVERED_RAW_ONLY"]) = false /\
  is_jstr_in (default JNull o) ["RECOVERED_RAW_ONLY"] = false <->
  (present o = false /\ default JNull o = JNull) \/ default JNull o = JStr "TRUSTED_COLLECTION".
Proof.
  destruct o as [v|]; simpl; [|by split; [left|]].
  destruct v as [| | | |s| |]; simpl; try (split; [by intros [? ?]|by intros [[? ?]|?]]).
  rewrite negb_false_iff, bool_decide_eq_true, bool_decide_eq_false, list_elem_of_singleton.
  rewrite elem_of_cons, list_elem_of_singleton. split.
  - intros [[-> | ->] H]; [by right|by destruct H].
  - intros [[? _]| [= ->]]; [done|]. split; [by left|done].
Qed.

Lemma origin_cases o :
  present o && negb (match default JNull o with JStr _ => true | _ => false end) = false /\
  is_jstr_in (default JNull o) RECOVERED_RECEIPT_ORIGINS = false <->
  (present o = false /\ default JNull o = JNull) \/
  exists s, default JNull o = JStr s /\ s ∉ RECOVERED_RECEIPT_ORIGINS.
Proof.
  destruct o as [v|]; simpl; [|by split; [left|]].
  destruct v as [| | | |s| |]; simpl; try (split; [by intros [? ?]|by intros [[? ?]|(? & ? & _)]]).
  rewrite bool_decide_eq_false. split; [intros [_ H]; right; by exists s|].
  intros [[? _]|(s' & [= <-] & H)]; done.
Qed.

Lemma synthetic_cases o :
  present o && negb (match default JNull o with JBool _ => true | _ => false end) = false /\
  match default JNull o with JBool b => b | _ => false end = false <->
  (present o = false /\ default JNull o = JNull) \/ default JNull o = JBool false.
Proof.
  destruct o as [v|]; simpl; [|by split; [left|]].
  destruct v as [|b| | | | |]; simpl; try (split; [by intros [? ?]|by intros [[? ?]|?]]).
  split; [intros [_ ->]; by right|]. intros [[? _]| [= ->]]; done.
Qed.

(** Recovered evidence fails closed: digests pass as trusted exactly
    when they are an object whose [eligibility] is missing or
    TRUSTED_COLLECTION, whose [origin] is missing or a string outside the
    recovery origins, and whose [synthetic] is missing or false. *)
Theorem recovered_only_spec (digests : json) :
  is_recovered_only_digests digests = false <->
  exists d, digests = JDict d /\
    (has_key "eligibility" d = false /\ getv "eligibility" d = JNull \/
     getv "eligibility" d = JStr "TRUSTED_COLLECTION") /\
    (has_key "origin" d = false /\ getv "origin" d = JNull \/
     exists o, getv "origin" d = JStr o /\ o ∉ RECOVERED_RECEIPT_ORIGINS) /\
    (has_key "synthetic" d = false /\ getv "synthetic" d = JNull \/ getv "synthetic" d = JBool false).
Proof.
  destruct digests as [| | | | | |d]; try (split; [done|by intros (? & ? & _)]).
  unfold is_recovered_only_digests. rewrite !has_key_get. unfold getv.
  pose proof (eligibility_cases (get "eligibility" d)) as He.
  pose proof (origin_cases (get "origin" d)) as Ho.
  pose proof (synthetic_cases (get "synthetic" d)) as Hs.
  split.
  - intros H. exists d. split; [done|]. rewrite !has_key_get.
    apply if_true_false in H as [E1 H]. apply if_true_false in H as [E2 H].
    apply if_true_false in H as [E3 H]. apply orb_false_iff in H as [[H1 H2]%orb_false_iff H3].
    split; [by apply He|]. split; [by apply Ho|by apply Hs].
  - intros (d' & [= <-] & H1 & H2 & H3). rewrite has_key_get in H1, H2, H3.
    apply He in H1 as [E1 E1']. apply Ho in H2 as [E2 E2']. apply Hs in H3 as [E3 E3'].
    unfold present in *. by rewrite E1, E1', E2, E2', E3, E3'.
Qed.

(** ** Witnesses *)

Definition sample_row : dict :=
  [("collection_scope", JStr "all"); ("history_target_start", JStr "2008-05-07");
   ("history_target_end_rule", JStr "today"); ("coverage_mode", JStr "full_history");
   ("expected_frequency", JStr "business_day"); ("universe_rule", JStr "listed");
   ("raw_retention_required", JBool true); ("structured_reconciliation_required", JBool true);
   ("segment_granularity", JStr "calendar_month"); ("governance_tier", JStr "governed");
   ("history_mode", JStr "bounded_history"); ("empty_success_policy", JStr "never_complete");
   ("required_domain_basis", JStr "calendar_months_from_official_start");
   ("vendor_history_policy", JNull)].

Definition sample_policy : CollectionCoverageContract :=
  mkCoverage "equities_master" "all" "2008-05-07" "today" "full_history" "business_day" "listed"
    true true "calendar_month" "governed" (Some "collection-coverage/v3") (Some "bounded_history")
    (Some "calendar_months_from_official_start") (Some "never_complete")
    None None None None None None None.

Lemma coverage_roundtrip_witness :
  policy_ok sample_policy /\
  coverage_from_dict "equities_master" (coverage_to_dict sample_policy) = Ok sample_policy.
Proof.
  apply (coverage_roundtrip "equities_master"
    (dict_set "policy_version" (JStr "collection-coverage/v3") sample_row) sample_policy).
  by vm_compute.
Defined.

Definition sample_coverage_document : dict :=
  [("schema_version", JInt 2); ("policy_version", JStr "collection-coverage/v3");
   ("defaults", JDict sample_row); ("datasets", JDict [("equities_master", JDict [])])].

Lemma load_coverage_exact_witness :
  (forall id, id ∈ map fst [("equities_master", sample_policy)] <-> id ∈ ["equities_master"]) /\
  Forall (fun p => cc_dataset_id p.2 = p.1 /\ policy_ok p.2) [("equities_master", sample_policy)].
Proof.
  apply (load_coverage_exact sample_coverage_document ["equities_master"] "collection-coverage/v3").
  by vm_compute.
Defined.

Lemma policy_set_binding_spec_witness :
  let hash := fun s => s in
  let r := [("equities_master", sample_policy); ("a", sample_policy)] in
  let b := match coverage_policy_set_binding r hash ["equities_master"; "a"] with
           | Ok b => b | Err _ => mkSetBinding "" "" [] end in
  coverage_policy_set_binding r hash ["a"; "equities_master"] = Ok b /\
  map pb_policy_id (ps_datasets b) = sorted_strings ["equities_master"; "a"] /\
  NoDup ["equities_master"; "a"] /\ ["equities_master"; "a"] <> [] /\
  (forall v, (forall r, r ∈ ps_datasets b -> pb_policy_version r = v) -> ps_policy_version b = v).
Proof.
  intros hash r b.
  apply (policy_set_binding_spec r hash ["equities_master"; "a"] ["a"; "equities_master"] b).
  - apply Permutation_swap.
  - by vm_compute.
Defined.
