(* ===== verification/CoveragePlan.v ===== *)
(** * CoveragePlan: the required coverage inventory
    (packages/data_plane/storage/coverage_ledger.py: [plan_required_segments] and
    its callers; packages/data_plane/ingestion/jsda/official_index.py)

    A policy and the official domain of its dataset determine the segments a
    complete collection must cover.  The regular expressions and the HTML
    unescaping of the JSDA index are parameters: [date_matches] are the groups
    of [_PUBLICATION_DATE_RE.finditer], [table_rows] is [_ROW_RE.findall] and
    [visible_text] strips tags. *)

From S2P Require Import Prelude PyDate Json SourceCapability CoverageContract.

Local Open Scope Z_scope.

(** ** Required segments *)

Record RequiredCoverageSegment := mkSegment {
  seg_source : string;
  seg_dataset : string;
  seg_id : string;
  seg_start : string;
  seg_end : string;
  seg_scope : dict;
  seg_expected_items : option Z;
}.

#[export] Instance segment_eq_dec : EqDecision RequiredCoverageSegment.
Proof. solve_decision. Defined.

Definition TIP_COVERAGE_MODES : list string :=
  ["recent_snapshot"; "next_business_day_snapshot"; "same_day_am_snapshot"; "tip_snapshot"].

Definition OFFICIAL_ARCHIVE_INDEX_MODES : list string :=
  ["official_archive_index"; "official_archive_index_reconciled"].

Definition OFFICIAL_ARCHIVE_INDEX_DATASETS : list string := ["jsda_otc_bond_reference_prices"].

(** [value.replace(day=calendar.monthrange(value.year, value.month)[1])] *)
Definition month_end (value : date) : date :=
  ymd2ord (year_of value) (month_of value) (days_in_month (year_of value) (month_of value)).

(** ** The official archive index *)

Section OfficialIndex.
Variable date_matches : string -> list (Z * Z * Z).
Variable table_rows : string -> list string.
Variable visible_text : string -> string.

(** [_publication_date]: the first match of the row's visible text. *)
Definition publication_date (fragment : string) : option string :=
  match date_matches (visible_text fragment) with
  | [] => None
  | (y, m, d) :: _ => match mk_date y m d with Ok n => Some (isoformat n) | Err _ => None end
  end.

(** The segment ids of [discover_otc_reference_segments]. *)
Definition discover_days (html : string) (year : Z) : list string :=
  sorted_strings (fold_left (fun days row =>
    match publication_date row with
    | Some day => if match take_digits 4 0 (str_take 4 day) with Some (y, _) => y =? year | None => false end
                  then if day ∈? days then days else days ++ [day]
                  else days
    | None => days
    end) (table_rows html) []).

(** [sorted] of a set of years. *)
Definition sorted_years (years : list Z) : list Z := py_sorted Z.leb (remove_dups years).

Definition parse_official_index_publication_days (index_text : option string) : list string :=
  match index_text with
  | None => []
  | Some text =>
      if blank text then [] else
      let years := sorted_years (map (fun m => m.1.1) (date_matches text)) in
      let days := fold_left (fun days year =>
        fold_left (fun days day => if day ∈? days then days else days ++ [day])
          (discover_days text year) days) years [] in
      sorted_strings days
  end.

Definition official_index_days (dataset : string) (index_text : option string) : list string :=
  if dataset ∈? OFFICIAL_ARCHIVE_INDEX_DATASETS
  then parse_official_index_publication_days index_text else [].

(** ** Planning *)

Section Plan.
Variable capabilities : registry.
Variable policies : coverage_registry.

Definition source_capability_for (dataset_id : string) : option SourceCapabilityContract :=
  source_capability_contract_or_none capabilities dataset_id.

Definition official_domain_for (capability : option SourceCapabilityContract)
    : option OfficialRequiredDomainSubset :=
  required_domain_subset_official <$> capability.

Definition opt_in (o : option string) (l : list string) : bool :=
  match o with Some s => s ∈? l | None => false end.

Definition is_tip_snapshot_policy (policy : CollectionCoverageContract)
    (domain : option OfficialRequiredDomainSubset) : bool :=
  match domain with
  | Some d => negb (admit_historical_required_segments d)
  | None => false
  end
  || (segment_granularity policy ∈? SNAPSHOT_SEGMENT_GRANULARITIES)
  || (coverage_mode policy ∈? TIP_COVERAGE_MODES)
  || opt_in (cc_history_mode policy) TIP_SNAPSHOT_MODES.

Definition snapshot_extra_scope (policy : CollectionCoverageContract)
    (capability : option SourceCapabilityContract) (domain : option OfficialRequiredDomainSubset)
    (grain : string) : dict :=
  let history_mode := match domain with
    | Some d => od_history_mode d
    | None => match cc_history_mode policy with
              | Some m => if m =s "" then coverage_mode policy else m
              | None => coverage_mode policy
              end
    end in
  let extra := [("history_mode", JStr history_mode); ("tip_only_operational", JBool true)] in
  match capability with
  | None => extra
  | Some c =>
      let sla := SourceCapability.freshness_sla c in
      let window := collection_window c in
      extra ++
      [("freshness_sla", JDict [("expected_after", JStr (fs_expected_after sla));
          ("usable_by", JStr (fs_usable_by sla)); ("timezone", JStr (fs_timezone sla));
          ("rule", JStr (fs_rule sla))]);
       ("collection_window", JDict [("grain", JStr grain); ("open", JStr (cw_open window));
          ("close", JStr (cw_close window))])]
      ++ if history_mode =s "next_business_day_snapshot"
         then [("evaluate_via", JList [JStr "collection_generation"; JStr "collection_cutoff";
                 JStr "freshness_sla"])]
         else []
  end.

Definition uses_official_archive_index (policy : CollectionCoverageContract)
    (domain : option OfficialRequiredDomainSubset) : bool :=
  (cc_dataset_id policy ∈? OFFICIAL_ARCHIVE_INDEX_DATASETS)
  || (coverage_mode policy ∈? OFFICIAL_ARCHIVE_INDEX_MODES)
  || opt_in (cc_history_mode policy) ["official_archive_index"]
  || match domain with
     | None => false
     | Some d => (od_history_mode d =s "official_archive_index") || publication_days_only d
     end.

(** The first day of the inventory: the history target, raised to the official
    availability and to [range_start]. *)
Definition plan_start (policy : CollectionCoverageContract)
    (domain : option OfficialRequiredDomainSubset) (range_start : option string) : result date :=
  start ← fromisoformat (history_target_start policy);
  start ← (match domain with
           | Some d => official ← fromisoformat (od_earliest_official_availability d);
                       Ok (if start <? official then official else start)
           | None => Ok start
           end);
  match range_start with
  | Some r => bounded ← fromisoformat r; Ok (if start <? bounded then bounded else start)
  | None => Ok start
  end.

Definition plan_grain (policy : CollectionCoverageContract)
    (domain : option OfficialRequiredDomainSubset) (tip_snapshot : bool) : string :=
  if tip_snapshot then
    let grain := match domain with
      | Some d => collection_window_grain d
      | None => segment_granularity policy
      end in
    if grain ∈? SNAPSHOT_SEGMENT_GRANULARITIES then grain
    else if segment_granularity policy ∈? SNAPSHOT_SEGMENT_GRANULARITIES
    then segment_granularity policy else "collection_cutoff_snapshot"
  else segment_granularity policy.

(** [_append]: the segment it appends.  [expected] is [expected_items_by_segment]. *)
Definition make_segment (policy : CollectionCoverageContract) (source granularity : string)
    (expected : option (list (string * option Z))) (extra_scope : dict)
    (segment_id : string) (segment_start segment_end : date) : result RequiredCoverageSegment :=
  let expected_items := match expected with
    | Some m => match lookup_str segment_id m with Some v => v | None => None end
    | None => None
    end in
  _ ← ensure (match expected_items with Some n => negb (n <? 0) | None => true end) ValueError
        "expected segment items must be non-negative";
  let unit := if expected_frequency policy =s "event_driven" then "source_event" else "source_query" in
  let expected_items := match expected_items with
    | None => if unit =s "source_query" then Some 1 else None
    | some => some
    end in
  let scope := [("coverage_mode", JStr (coverage_mode policy));
    ("expected_frequency", JStr (expected_frequency policy)); ("expected_item_unit", JStr unit);
    ("segment_end", JStr (isoformat segment_end)); ("segment_start", JStr (isoformat segment_start));
    ("universe_rule", JStr (universe_rule policy)); ("segment_granularity", JStr granularity)] in
  Ok (mkSegment source (cc_dataset_id policy) segment_id (isoformat segment_start)
        (isoformat segment_end) (dict_merge scope extra_scope) expected_items).

Section Loops.
Variable append : string -> date -> date -> result RequiredCoverageSegment.

Definition month_step (end_ : date) (st : date * list RequiredCoverageSegment)
    : result (date * list RequiredCoverageSegment) :=
  let '(cursor, segments) := st in
  let segment_end := Z.min (month_end cursor) end_ in
  segment ← append (strftime_ym cursor) cursor segment_end;
  cursor' ← fromordinal (segment_end + 1);
  Ok (cursor', segments ++ [segment]).

Definition day_step (st : date * list RequiredCoverageSegment)
    : result (date * list RequiredCoverageSegment) :=
  let '(cursor, segments) := st in
  segment ← append (isoformat cursor) cursor cursor;
  cursor' ← fromordinal (cursor + 1);
  Ok (cursor', segments ++ [segment]).

(** [while cursor <= end]; a step moves the cursor, so the days left bound it. *)
Definition date_loop (step : date * list RequiredCoverageSegment ->
      result (date * list RequiredCoverageSegment)) (start end_ : date)
    : result (list RequiredCoverageSegment) :=
  st ← while (Z.to_nat (end_ - start + 1)) (fun st => st.1 <=? end_) step (start, []);
  Ok st.2.

Definition year_segment (start end_ : date) (year : Z) : result RequiredCoverageSegment :=
  jan1 ← mk_date year 1 1;
  dec31 ← mk_date year 12 31;
  append (show_Z year) (Z.max start jan1) (Z.min end_ dec31).

(** [range(a, b)] *)
Definition zrange (a b : Z) : list Z := map (fun i => a + Z.of_nat i) (seq 0 (Z.to_nat (b - a))).

(** The segments of a granularity that is walked over the calendar. *)
Definition calendar_segments (policy : CollectionCoverageContract) (granularity : string)
    (start end_ : date) : result (list RequiredCoverageSegment) :=
  if granularity =s "calendar_month" then date_loop (month_step end_) start end_
  else if granularity =s "official_archive_year" then
    mapR (year_segment start end_) (zrange (year_of start) (year_of end_ + 1))
  else if granularity =s "official_archive_day" then date_loop day_step start end_
  else if granularity =s "source_time_series_file" then
    let segment_id := if cc_dataset_id policy =s "jsda_tokyo_repo_rates" then "jsda-era-timeseries"
                      else cc_dataset_id policy +:+ "_timeseries" in
    segment ← append segment_id start end_; Ok [segment]
  else raise ValueError "unsupported segment granularity".

(** The listed days between [start] and [end]. *)
Fixpoint index_segments (start end_ : date) (days : list string)
    : result (list RequiredCoverageSegment) :=
  match days with
  | [] => Ok []
  | day_s :: days =>
      day ← fromisoformat day_s;
      if (start <=? day) && (day <=? end_) then
        segment ← append day_s day day;
        rest ← index_segments start end_ days;
        Ok (segment :: rest)
      else index_segments start end_ days
  end.
End Loops.

Definition plan_required_segments (policy : CollectionCoverageContract) (target_end source : string)
    (expected : option (list (string * option Z))) (index_text range_start : option string)
    : result (list RequiredCoverageSegment) :=
  let capability := source_capability_for (cc_dataset_id policy) in
  let domain := official_domain_for capability in
  start ← plan_start policy domain range_start;
  end_ ← fromisoformat target_end;
  _ ← ensure (negb (end_ <? start)) ValueError "target_end precedes coverage history target";
  let tip_snapshot := is_tip_snapshot_policy policy domain in
  let granularity := plan_grain policy domain tip_snapshot in
  let extra_scope := if tip_snapshot then snapshot_extra_scope policy capability domain granularity
                     else [] in
  let append := make_segment policy source granularity expected extra_scope in
  if tip_snapshot then segment ← append (isoformat end_) end_ end_; Ok [segment]
  else if uses_official_archive_index policy domain || (granularity =s "official_archive_index_day")
  then index_segments append start end_ (official_index_days (cc_dataset_id policy) index_text)
  else calendar_segments append policy granularity start end_.

(** ** Declared and compiled windows *)

Definition WARMUP_COVERAGE_DATASETS : list string := ["indices_bars_daily_topix"; "markets_calendar"].

Definition full_collection_month_range (floor period_end : string) : result (string * string) :=
  floor ← fromisoformat floor;
  start ← mk_date (year_of floor) (month_of floor) 1;
  end_ ← fromisoformat period_end;
  Ok (isoformat start, isoformat (month_end end_)).

(** [min(events)] of strings. *)
Definition min_string (events : list string) : option string :=
  py_max (fun a b => String.ltb b a) events.

Definition str_min (a b : string) : string := if String.ltb b a then b else a.

(** The floor of the dataset's window and whether every segment is kept. *)
Definition declared_floor (policy : CollectionCoverageContract) (dataset_id lookback_start : string)
    (events : list string) (bar_split_interval_start period_start : option string)
    : result (string * bool) :=
  if dataset_id =s "equities_bars_daily" then
    let floor := match bar_split_interval_start with
      | Some s => if s =s "" then lookback_start else str_min lookback_start s
      | None => lookback_start
      end in
    Ok (match min_string events with Some e => str_min floor e | None => floor end, true)
  else if dataset_id ∈? WARMUP_COVERAGE_DATASETS then
    Ok (match period_start with
        | Some s => if s =s "" then lookback_start else s
        | None => lookback_start
        end, true)
  else
    floor ← of_option ValueError "declared coverage events are missing" (min_string events);
    Ok (floor, expected_frequency policy =s "event_driven").

Definition declared_dataset_segments (lookback_start period_end : string)
    (selected_event_dates : list (string * list string))
    (bar_split_interval_start period_start : option string) (dataset_id : string)
    : result (list RequiredCoverageSegment) :=
  policy ← coverage_contract_for policies dataset_id;
  let events := default [] (lookup_str dataset_id selected_event_dates) in
  '(floor, keep_all) ← declared_floor policy dataset_id lookback_start events
                         bar_split_interval_start period_start;
  '(range_start, range_end) ← full_collection_month_range floor period_end;
  segments ← plan_required_segments policy range_end "jquants" None None (Some range_start);
  let kept := if keep_all : bool then segments else
    filter (fun s => existsb (fun day => String.leb (seg_start s) day && String.leb day (seg_end s)) events
                     = true) segments in
  _ ← ensure (negb (bool_decide (kept = []))) ValueError "declared coverage inventory is empty";
  Ok kept.

Definition declared_coverage_segments (datasets : list string) (lookback_start period_end : string)
    (selected_event_dates : list (string * list string))
    (bar_split_interval_start period_start : option string) : result (list RequiredCoverageSegment) :=
  planned ← mapR (declared_dataset_segments lookback_start period_end selected_event_dates
                    bar_split_interval_start period_start) datasets;
  Ok (concat planned).

Definition compiled_dataset_segments (period_start period_end dataset_id : string)
    : result (list RequiredCoverageSegment) :=
  policy ← coverage_contract_for policies dataset_id;
  '(range_start, range_end) ← full_collection_month_range period_start period_end;
  segments ← plan_required_segments policy range_end "jquants" None None (Some range_start);
  _ ← ensure (negb (bool_decide (segments = []))) ValueError "declared coverage inventory is empty";
  Ok segments.

Definition compiled_period_collection_segments (datasets : list string)
    (period_start period_end : string) : result (list RequiredCoverageSegment) :=
  planned ← mapR (compiled_dataset_segments period_start period_end) datasets;
  Ok (concat planned).
End Plan.
End OfficialIndex.

(** ** Tilings of an interval of days *)

(** The segment covers the days from [a] to [b]. *)
Definition covers (s : RequiredCoverageSegment) (a b : date) : Prop :=
  seg_start s = isoformat a /\ seg_end s = isoformat b.

(** The segments, in order, cover every day from [a] to [e] exactly once. *)
Inductive tiles : date -> date -> list RequiredCoverageSegment -> Prop :=
  | tiles_one a e s : covers s a e -> a <= e -> tiles a e [s]
  | tiles_cons a b e s l : covers s a b -> a <= b -> tiles (b + 1) e l -> tiles a e (s :: l).

Lemma tiles_snoc a b e l s : tiles a (b - 1) l -> covers s b e -> b <= e -> tiles a e (l ++ [s]).
Proof.
  intros H. remember (b - 1) as b' eqn:Hb. revert Hb. induction H as [a b' s' Hc Hle|a b1 b' s' l Hc Hle H IH];
    intros -> Hs Hbe; simpl.
  - eapply tiles_cons; [done..|]. apply tiles_one; [|lia]. by replace (b - 1 + 1) with b by lia.
  - eapply tiles_cons; [done..|]. by apply IH.
Qed.

Lemma tiles_le a e l : tiles a e l -> a <= e.
Proof. induction 1; lia. Qed.

(** Every day of the interval is in exactly one tile. *)
Lemma tiles_day a e l d : tiles a e l -> a <= d <= e ->
  exists i, (i < length l)%nat /\ forall j s, l !! j = Some s -> exists x y, covers s x y /\ (x <= d <= y <-> j = i).
Proof.
  induction 1 as [a e s Hc Hle|a b e s l Hc Hle H IH]; intros Hd.
  - exists 0%nat. split; [simpl; lia|]. intros [|j] s' Hj; [|done]. simplify_eq/=. exists a, e. split; [done|].
    split; [done|]. lia.
  - destruct (decide (d <= b)) as [Hdb|Hdb].
    + exists 0%nat. split; [simpl; lia|]. intros [|j] s' Hj; simplify_eq/=; [exists a, b; split; [done|]; lia|].
      enough (exists x y, covers s' x y /\ b + 1 <= x) as (x & y & Hxy & Hx)
        by (exists x, y; split; [done|]; lia).
      clear -H Hj. revert j Hj. induction H as [a' e s1 Hc Hle|a' b' e s1 l Hc Hle H IH]; intros j Hj.
      * destruct j; [|done]. simplify_eq/=. exists a', e. split; [done|lia].
      * destruct j; simplify_eq/=; [exists a', b'; split; [done|lia]|].
        destruct (IH j Hj) as (x & y & ? & ?). exists x, y. split; [done|lia].
    + destruct (IH ltac:(lia)) as (i & Hlt & Hi). exists (S i). split; [simpl; lia|]. intros [|j] s' Hj; simplify_eq/=.
      * exists a, b. split; [done|]. lia.
      * destruct (Hi j s' Hj) as (x & y & Hxy & Hiff). exists x, y. split; [done|]. rewrite Hiff. lia.
Qed.

Lemma month_end_spec v : v <= month_end v /\ year_of (month_end v) = year_of v /\
  month_of (month_end v) = month_of v.
Proof.
  pose proof (ymd_bounds v) as [Hm Hd]. unfold month_end.
  rewrite year_of_ymd2ord, month_of_ymd2ord by lia. split; [|done].
  rewrite <- (ymd2ord_ord2ymd v) at 1. unfold ymd2ord. lia.
Qed.

(** ** The calendar walks *)

Section Walks.
Context (append : string -> date -> date -> result RequiredCoverageSegment).
Context (made : string -> date -> date -> RequiredCoverageSegment)
  (append_made : forall id a b, append id a b = Ok (made id a b))
  (made_covers : forall id a b, covers (made id a b) a b).

(** The segments so far tile the days before the cursor. *)
Definition walk_inv (start end_ : date) (Q : RequiredCoverageSegment -> Prop)
    (st : date * list RequiredCoverageSegment) : Prop :=
  start <= st.1 <= end_ + 1 /\ Forall Q st.2 /\
  (st.2 = [] /\ st.1 = start \/ tiles start (st.1 - 1) st.2).

Lemma walk_inv_next start end_ Q c c' segs s :
  walk_inv start end_ Q (c, segs) -> Q s -> covers s c (c' - 1) -> c < c' <= end_ + 1 ->
  walk_inv start end_ Q (c', segs ++ [s]).
Proof.
  intros (Hc & HQ & Hs) Hqs Hcov Hlt. simpl in *. split; [simpl; lia|].
  split; [simpl; apply Forall_app; by repeat constructor|]. right. simpl.
  destruct Hs as [[-> ->]|Ht]; [apply tiles_one; [done|lia]|].
  apply tiles_snoc with c; [done..|lia].
Qed.

Lemma date_loop_tiles step start end_ Q :
  valid_date start = true -> start <= end_ < MAXORDINAL ->
  (forall c segs, start <= c <= end_ -> exists c' s, step (c, segs) = Ok (c', segs ++ [s]) /\
     Q s /\ covers s c (c' - 1) /\ c < c' <= end_ + 1) ->
  exists segs, date_loop step start end_ = Ok segs /\ tiles start end_ segs /\ Forall Q segs.
Proof using.
  intros Hv Hle Hstep. unfold date_loop.
  destruct (while_ok (fun st => Z.to_nat (end_ - st.1 + 1)) (walk_inv start end_ Q)
    (Z.to_nat (end_ - start + 1)) (fun st => st.1 <=? end_) step (start, []))
    as ([c segs] & -> & (Hc & HQ & Hs) & Hend).
  - intros [c segs] Hinv Hcond. simpl in Hcond. bools.
    destruct (Hstep c segs) as (c' & s & E & Hq & Hcov & Hlt).
    { destruct Hinv as [Hc _]. simpl in Hc. lia. }
    exists (c', segs ++ [s]). split; [done|]. split; [by eapply walk_inv_next|]. simpl. lia.
  - split; [simpl; lia|]. split; [constructor|]. by left.
  - done.
  - simpl in *. bools. exists segs. split; [done|]. split; [|done].
    destruct Hs as [[-> ->]|Ht]; [lia|]. by replace end_ with (c - 1) by lia.
Qed.

Lemma fromordinal_valid n : 1 <= n <= MAXORDINAL -> fromordinal n = Ok n.
Proof. intros H. apply fromordinal_Ok. split; [done|]. apply andb_true_iff; split; apply Z.leb_le; lia. Qed.

(** The segment lies in one month, which names it. *)
Definition one_month (s : RequiredCoverageSegment) : Prop :=
  exists a b, covers s a b /\ year_of a = year_of b /\ month_of a = month_of b /\
    s = made (strftime_ym a) a b.

Lemma month_loop_tiles start end_ : valid_date start = true -> start <= end_ < MAXORDINAL ->
  exists segs, date_loop (month_step append end_) start end_ = Ok segs /\
    tiles start end_ segs /\ Forall one_month segs.
Proof using append_made made_covers.
  intros Hv Hle. apply date_loop_tiles; [done..|]. intros c segs Hc.
  pose proof (month_end_spec c) as (Hme & Hy & Hm).
  assert (Hs : 1 <= start) by (unfold valid_date in Hv; bools; lia).
  exists (Z.min (month_end c) end_ + 1). eexists. unfold month_step. rewrite append_made.
  cbn [mbind result_bind]. rewrite fromordinal_valid by lia. split; [done|].
  replace (Z.min (month_end c) end_ + 1 - 1) with (Z.min (month_end c) end_) by lia.
  split; [|split; [apply made_covers|lia]].
  exists c, (Z.min (month_end c) end_). split; [apply made_covers|].
  assert (year_of c <= year_of (Z.min (month_end c) end_) <= year_of (month_end c)) as Hyy
    by (split; apply year_of_mono; lia).
  split; [lia|]. split; [|done].
  pose proof (proj1 (ord_le_ymd c (Z.min (month_end c) end_)) ltac:(lia)).
  pose proof (proj1 (ord_le_ymd (Z.min (month_end c) end_) (month_end c)) ltac:(lia)). lia.
Qed.

Lemma day_loop_tiles start end_ : valid_date start = true -> start <= end_ < MAXORDINAL ->
  exists segs, date_loop (day_step append) start end_ = Ok segs /\
    tiles start end_ segs /\ Forall (fun s => exists d, covers s d d) segs.
Proof using append_made made_covers.
  intros Hv Hle. apply date_loop_tiles; [done..|]. intros c segs Hc.
  assert (Hs : 1 <= start) by (unfold valid_date in Hv; bools; lia).
  exists (c + 1). eexists. unfold day_step. rewrite append_made.
  cbn [mbind result_bind]. rewrite fromordinal_valid by lia. split; [done|].
  replace (c + 1 - 1) with c by lia. split; [exists c; apply made_covers|].
  split; [apply made_covers|lia].
Qed.

Lemma mk_date_jan1 y : 1 <= y <= 9999 -> mk_date y 1 1 = Ok (days_before_year y + 1).
Proof.
  intros H. unfold mk_date, valid_ymd, MINYEAR, MAXYEAR, days_in_month. simpl.
  replace (1 <=? y) with true by (symmetry; apply Z.leb_le; lia).
  replace (y <=? 9999) with true by (symmetry; apply Z.leb_le; lia). simpl.
  unfold ymd2ord, days_before_month. simpl. f_equal. lia.
Qed.

Lemma mk_date_dec31 y : 1 <= y <= 9999 -> mk_date y 12 31 = Ok (days_before_year (y + 1)).
Proof.
  intros H. unfold mk_date, valid_ymd, MINYEAR, MAXYEAR, days_in_month. simpl.
  replace (1 <=? y) with true by (symmetry; apply Z.leb_le; lia).
  replace (y <=? 9999) with true by (symmetry; apply Z.leb_le; lia). simpl.
  rewrite days_before_year_succ. unfold ymd2ord, days_before_month. simpl. f_equal. lia.
Qed.

Lemma zrange_cons a b : a < b -> zrange a b = a :: zrange (a + 1) b.
Proof.
  intros H. unfold zrange. replace (Z.to_nat (b - a)) with (S (Z.to_nat (b - (a + 1)))) by lia.
  simpl. f_equal; [lia|]. rewrite <- seq_shift, map_map. apply map_ext. lia.
Qed.

Lemma year_segment_made start end_ y : 1 <= y <= 9999 ->
  year_segment append start end_ y = Ok (made (show_Z y)
    (Z.max start (days_before_year y + 1)) (Z.min end_ (days_before_year (y + 1)))).
Proof using append_made.
  intros Hy. unfold year_segment. rewrite mk_date_jan1, mk_date_dec31 by done.
  apply append_made.
Qed.

Lemma zrange_nil a : zrange a a = [].
Proof. unfold zrange. by rewrite Z.sub_diag. Qed.

Lemma year_range_tiles start end_ k y : valid_date start = true -> valid_date end_ = true ->
  start <= end_ -> year_of start <= y -> y + Z.of_nat k = year_of end_ ->
  Z.max start (days_before_year y + 1) <= end_ /\
  exists segs, mapR (year_segment append start end_) (zrange y (year_of end_ + 1)) = Ok segs /\
    tiles (Z.max start (days_before_year y + 1)) end_ segs.
Proof using append_made made_covers.
  intros Hvs Hve Hle. revert y. induction k as [|k IH]; intros y Hy Hk;
    pose proof (year_of_spec end_) as He; pose proof (year_of_spec start) as Hst;
    apply year_of_valid in Hvs as Hvs'; apply year_of_valid in Hve as Hve'.
  - assert (y = year_of end_) as -> by lia. split; [lia|].
    rewrite zrange_cons, zrange_nil by lia. cbn [mapR].
    rewrite year_segment_made by lia. cbn [mbind result_bind]. eexists. split; [done|].
    replace (Z.min end_ (days_before_year (year_of end_ + 1))) with end_ by lia.
    apply tiles_one; [apply made_covers|lia].
  - pose proof (days_before_year_mono (y + 1) (year_of end_) ltac:(lia)).
    destruct (IH (y + 1)) as (Hm & segs & Hsegs & Ht); [lia..|].
    pose proof (days_before_year_mono y (y + 1) ltac:(lia)). split; [lia|].
    rewrite zrange_cons by lia. cbn [mapR]. rewrite year_segment_made, Hsegs by lia. cbn [mbind result_bind]. eexists. split; [done|].
    pose proof (days_before_year_mono (year_of start + 1) (y + 1) ltac:(lia)).
    replace (Z.max start (days_before_year (y + 1) + 1)) with (days_before_year (y + 1) + 1) in Ht by lia.
    replace (Z.min end_ (days_before_year (y + 1))) with (days_before_year (y + 1)) by lia.
    pose proof (days_before_year_succ y). pose proof (leap_day_bounds y).
    eapply tiles_cons; [apply made_covers|lia|done].
Qed.
End Walks.

(** ** Bounds of a plan, whatever its mode *)

Definition within (start end_ : date) (s : RequiredCoverageSegment) : Prop :=
  exists a b, covers s a b /\ start <= a /\ a <= b <= end_.

Section Bounds.
Context (append : string -> date -> date -> result RequiredCoverageSegment)
  (append_covers : forall id a b s, append id a b = Ok s -> covers s a b).

Lemma date_loop_within step start end_ segs :
  (forall c segs c' segs', start <= c <= end_ -> step (c, segs) = Ok (c', segs') ->
     c <= c' /\ exists s, segs' = segs ++ [s] /\ within start end_ s) ->
  date_loop step start end_ = Ok segs -> Forall (within start end_) segs.
Proof using.
  intros Hstep H. unfold date_loop in H. apply bind_Ok in H as ([c l] & H & [= <-]).
  apply (while_inv (fun st => start <= st.1 /\ Forall (within start end_) st.2)) in H as [_ H]; [done| |].
  - intros [c1 l1] [c2 l2] [Hc Hl] Hcond Hs. simpl in *. bools.
    destruct (Hstep c1 l1 c2 l2) as (Hle & s & -> & Hw); [lia|done|]. split; [lia|].
    apply Forall_app. by repeat constructor.
  - split; [done|constructor].
Qed.

Lemma calendar_within policy granularity start end_ segs : start <= end_ ->
  calendar_segments append policy granularity start end_ = Ok segs ->
  Forall (within start end_) segs.
Proof using append_covers.
  intros Hle. unfold calendar_segments.
  destruct (granularity =s "calendar_month"); [|destruct (granularity =s "official_archive_year");
    [|destruct (granularity =s "official_archive_day");
      [|destruct (granularity =s "source_time_series_file"); [|done]]]].
  - apply date_loop_within. intros c l c' l' Hc H. unfold month_step in H.
    apply bind_Ok in H as (s & Hs & H). apply bind_Ok in H as (c2 & [-> _]%fromordinal_Ok & [= <- <-]).
    pose proof (month_end_spec c) as (? & _ & _). split; [lia|].
    exists s. split; [done|]. eexists _, _. split; [by eapply append_covers|]. lia.
  - intros H. apply mapR_Ok in H. apply Forall_lookup. intros i s Hi.
    eapply Forall2_lookup_r in H as (y & Hy & Hs); [|done].
    unfold zrange in Hy. apply list_elem_of_lookup_2, list_elem_of_fmap in Hy as (j & -> & Hj).
    apply list_elem_of_In, in_seq in Hj. unfold year_segment in Hs.
    apply bind_Ok in Hs as (j1 & H1%mk_date_Ok & Hs). apply bind_Ok in Hs as (d31 & H2%mk_date_Ok & Hs).
    destruct H1 as (-> & _), H2 as (-> & _). eexists _, _. split; [by eapply append_covers|].
    set (y := year_of start + Z.of_nat j) in *.
    pose proof (year_of_spec start). pose proof (year_of_spec end_).
    pose proof (days_before_year_mono (year_of start) y ltac:(lia)).
    pose proof (days_before_year_mono (year_of start + 1) (y + 1) ltac:(lia)).
    pose proof (days_before_year_mono y (year_of end_) ltac:(lia)).
    pose proof (days_before_year_succ y). pose proof (leap_day_bounds y).
    unfold ymd2ord, days_before_month. simpl. lia.
  - apply date_loop_within. intros c l c' l' Hc H. unfold day_step in H.
    apply bind_Ok in H as (s & Hs & H). apply bind_Ok in H as (c2 & [-> _]%fromordinal_Ok & [= <- <-]).
    split; [lia|]. exists s. split; [done|]. eexists _, _. split; [by eapply append_covers|]. lia.
  - intros H. apply bind_Ok in H as (s & Hs & [= <-]). repeat constructor.
    eexists _, _. split; [by eapply append_covers|]. lia.
Qed.

Lemma index_within start end_ days segs : index_segments append start end_ days = Ok segs ->
  Forall (within start end_) segs.
Proof using append_covers.
  revert segs. induction days as [|d days IH]; intros segs; simpl; [by intros [= <-]; constructor|].
  intros H. apply bind_Ok in H as (n & _ & H). destruct (_ && _) eqn:E; [|by apply IH].
  apply bind_Ok in H as (s & Hs & H). apply bind_Ok in H as (rest & Hr & [= <-]). bools.
  constructor; [|by apply IH]. eexists _, _. split; [by eapply append_covers|]. lia.
Qed.
End Bounds.

Lemma make_segment_Ok policy source granularity expected extra id a b s :
  make_segment policy source granularity expected extra id a b = Ok s ->
  covers s a b /\ seg_id s = id /\ seg_dataset s = cc_dataset_id policy /\ seg_source s = source.
Proof. unfold make_segment. intros H. binds H. by injection H as <-. Qed.

(** The counts of expected items a caller passes are non-negative. *)
Definition expected_ok (expected : option (list (string * option Z))) : Prop :=
  match expected with
  | Some m => forall id n, lookup_str id m = Some (Some n) -> 0 <= n
  | None => True
  end.

Definition made_segment policy source granularity expected extra id a b : RequiredCoverageSegment :=
  match make_segment policy source granularity expected extra id a b with
  | Ok s => s
  | Err _ => mkSegment source (cc_dataset_id policy) id (isoformat a) (isoformat b) [] None
  end.

Lemma make_segment_made policy source granularity expected extra id a b : expected_ok expected ->
  make_segment policy source granularity expected extra id a b =
  Ok (made_segment policy source granularity expected extra id a b).
Proof.
  intros He. unfold made_segment, make_segment. destruct expected as [m|]; [|done].
  simpl in He. destruct (lookup_str id m) as [[n|]|] eqn:E; try done.
  specialize (He id n E). replace (n <? 0) with false by (symmetry; apply Z.ltb_ge; lia). done.
Qed.

Lemma made_segment_covers policy source granularity expected extra id a b :
  covers (made_segment policy source granularity expected extra id a b) a b.
Proof.
  unfold made_segment. destruct (make_segment _ _ _ _ _ _ _ _) as [s|] eqn:E; [|done].
  by apply make_segment_Ok in E as [? _].
Qed.

Lemma plan_start_bounds policy domain range_start history start :
  fromisoformat (history_target_start policy) = Ok history ->
  plan_start policy domain range_start = Ok start ->
  history <= start /\
  (forall d o, domain = Some d -> fromisoformat (od_earliest_official_availability d) = Ok o -> o <= start) /\
  (forall r n, range_start = Some r -> fromisoformat r = Ok n -> n <= start).
Proof.
  intros Hh H. unfold plan_start in H. rewrite Hh in H. cbn [mbind result_bind] in H.
  apply bind_Ok in H as (s1 & H1 & H2).
  assert (Hs1 : history <= s1 /\ forall d o, domain = Some d ->
    fromisoformat (od_earliest_official_availability d) = Ok o -> o <= s1).
  { destruct domain as [d|]; [|injection H1 as <-; split; [lia|done]].
    apply bind_Ok in H1 as (o & Ho & H1). destruct (history <? o) eqn:E; injection H1 as <-; bools;
      (split; [lia|intros d' o' [= <-] Ho'; rewrite Ho in Ho'; injection Ho' as <-; lia]). }
  assert (Hs : s1 <= start /\ forall r n, range_start = Some r -> fromisoformat r = Ok n -> n <= start).
  { destruct range_start as [r|]; [|injection H2 as <-; split; [lia|done]].
    apply bind_Ok in H2 as (n & Hn & H2). destruct (s1 <? n) eqn:E; injection H2 as <-; bools;
      (split; [lia|intros r' n' [= <-] Hn'; rewrite Hn in Hn'; injection Hn' as <-; lia]). }
  destruct Hs1 as [? Ho], Hs as [? Hr]. split_and!; [lia| |done].
  intros d o Hd Hoo. specialize (Ho d o Hd Hoo). lia.
Qed.

(** The listed day [d] lies between the two dates. *)
Definition in_window (start end_ : date) (d : string) : bool :=
  match fromisoformat d with Ok n => (start <=? n) && (n <=? end_) | Err _ => false end.

Lemma index_segments_listed append made start end_ days :
  (forall id a b, append id a b = Ok (made id a b) /\ covers (made id a b) a b /\ seg_id (made id a b) = id) ->
  Forall (fun d => exists n, is_day d n) days ->
  exists segs, index_segments append start end_ days = Ok segs /\
    map seg_id segs = filter (fun d => in_window start end_ d = true) days /\
    Forall (fun s => exists n, covers s n n) segs.
Proof.
  intros Ha. induction 1 as [|d days [n Hd] _ (segs & E & Hids & Hone)]; simpl; [by exists []|].
  pose proof (is_day_fromisoformat d n Hd) as En.
  assert (Hw : in_window start end_ d = (start <=? n) && (n <=? end_)) by (unfold in_window; by rewrite En).
  rewrite filter_cons, En. cbn [mbind result_bind]. rewrite <- Hw.
  destruct (in_window start end_ d) eqn:Ew.
  - destruct (Ha d n n) as (-> & Hc & Hid). cbn [mbind result_bind]. rewrite E. cbn [mbind result_bind].
    eexists. split; [done|]. rewrite decide_True by done. simpl. rewrite Hid, Hids.
    split; [done|]. constructor; [by exists n|done].
  - exists segs. by rewrite decide_False.
Qed.

(** The publication days of an index are ISO dates. *)
Lemma discover_days_iso date_matches table_rows visible_text html year :
  Forall (fun d => exists n, is_day d n) (discover_days date_matches table_rows visible_text html year).
Proof.
  unfold discover_days. unfold sorted_strings. rewrite py_sorted_perm.
  apply (fold_left_inv (Forall (fun d => exists n, is_day d n))); [|constructor].
  intros days row _ H. destruct (publication_date _ _ row) as [d|] eqn:E; [|done].
  destruct (match take_digits 4 0 _ with Some _ => _ | None => _ end); [|done].
  destruct (d ∈? days); [done|]. apply Forall_app. split; [done|]. repeat constructor.
  unfold publication_date in E. destruct (date_matches _) as [|[[y m] dd] ?]; [done|].
  destruct (mk_date y m dd) as [n|] eqn:Em; [|done]. injection E as <-. apply mk_date_Ok in Em.
  exists n. split; [apply Em|done].
Qed.

Lemma official_index_days_iso date_matches table_rows visible_text dataset index_text :
  Forall (fun d => exists n, is_day d n)
    (official_index_days date_matches table_rows visible_text dataset index_text).
Proof.
  unfold official_index_days. destruct (dataset ∈? _); [|constructor].
  destruct index_text as [text|]; [|constructor]. unfold parse_official_index_publication_days.
  destruct (blank text); [constructor|]. unfold sorted_strings. rewrite py_sorted_perm.
  apply (fold_left_inv (Forall (fun d => exists n, is_day d n))); [|constructor].
  intros days y _ H. apply (fold_left_inv (Forall (fun d => exists n, is_day d n))); [|done].
  intros ds d Hd Hds. destruct (d ∈? ds); [done|]. apply Forall_app. split; [done|].
  constructor; [|constructor].
  by eapply Forall_forall in Hd; [|apply discover_days_iso].
Qed.

(** ** Planning raises [ValueError] only *)

Lemma raises_make_segment policy source granularity expected extra id a b :
  raises_only ValueError (make_segment policy source granularity expected extra id a b).
Proof. unfold make_segment. apply raises_only_bind; auto with qp. Qed.

Lemma raises_date_loop step start end_ :
  (forall c l, raises_only ValueError (step (c, l)) /\
     forall c' l', step (c, l) = Ok (c', l') -> c <= end_ -> c < c') ->
  raises_only ValueError (date_loop step start end_).
Proof.
  intros Hstep. unfold date_loop. apply raises_only_bind; [|done].
  apply (raises_only_while _ (fun st => Z.to_nat (end_ - st.1 + 1))); [|done].
  intros [c l] Hc. simpl in *. bools. split; [lia|]. split; [apply Hstep|].
  intros [c' l'] H. apply Hstep in H; [|done]. simpl. lia.
Qed.

Lemma raises_plan_start policy domain range_start :
  raises_only ValueError (plan_start policy domain range_start).
Proof.
  unfold plan_start. apply raises_only_bind; [auto with qp|]. intros start _.
  apply raises_only_bind.
  - destruct domain; [|done]. apply raises_only_bind; auto with qp.
  - intros s _. destruct range_start; [|done]. apply raises_only_bind; auto with qp.
Qed.

Lemma raises_index_segments append start end_ days :
  (forall id a b, raises_only ValueError (append id a b)) ->
  raises_only ValueError (index_segments append start end_ days).
Proof.
  intros Ha. induction days as [|d days IH]; cbn [index_segments]; [done|].
  apply raises_only_bind; [auto with qp|]. intros n _. destruct (_ && _); [|done].
  apply raises_only_bind; [done|]. intros s _. by apply raises_only_bind.
Qed.

Lemma raises_calendar_segments append policy granularity start end_ :
  (forall id a b, raises_only ValueError (append id a b)) -> start <= end_ ->
  raises_only ValueError (calendar_segments append policy granularity start end_).
Proof.
  intros Ha Hle. unfold calendar_segments.
  destruct (granularity =s "calendar_month"); [|destruct (granularity =s "official_archive_year");
    [|destruct (granularity =s "official_archive_day");
      [|destruct (granularity =s "source_time_series_file"); [|done]]]].
  - apply raises_date_loop. intros c l. split.
    + unfold month_step. apply raises_only_bind; [done|]. intros s _. apply raises_only_bind; auto with qp.
    + intros c' l' H Hc. unfold month_step in H. binds H. injection H as <- _.
      apply fromordinal_Ok in E0 as [-> _]. pose proof (month_end_spec c) as [? _]. lia.
  - apply raises_only_mapR. intros y _. unfold year_segment.
    apply raises_only_bind; [auto with qp|]. intros j _. apply raises_only_bind; auto with qp.
  - apply raises_date_loop. intros c l. split.
    + unfold day_step. apply raises_only_bind; [done|]. intros s _. apply raises_only_bind; auto with qp.
    + intros c' l' H Hc. unfold day_step in H. binds H. injection H as <- _.
      apply fromordinal_Ok in E0 as [-> _]. lia.
  - by apply raises_only_bind.
Qed.

Lemma raises_plan date_matches table_rows visible_text capabilities policy target_end source expected
    index_text range_start :
  raises_only ValueError (plan_required_segments date_matches table_rows visible_text capabilities policy
    target_end source expected index_text range_start).
Proof.
  unfold plan_required_segments. apply raises_only_bind; [apply raises_plan_start|]. intros start _.
  apply raises_only_bind; [auto with qp|]. intros end_ _.
  apply raises_only_bind; [auto with qp|]. intros _ Hle%ensure_Ok. bools.
  destruct (is_tip_snapshot_policy _ _).
  - apply raises_only_bind; [apply raises_make_segment|done].
  - destruct (_ || _).
    + apply raises_index_segments. intros; apply raises_make_segment.
    + apply raises_calendar_segments; [intros; apply raises_make_segment|done].
Qed.

Section PlanTheorems.
Context (date_matches : string -> list (Z * Z * Z)) (table_rows : string -> list string)
  (visible_text : string -> string) (capabilities : registry).
Context (policy : CollectionCoverageContract) (target_end source : string)
  (expected : option (list (string * option Z))) (index_text range_start : option string).

Abbreviation plan := (plan_required_segments date_matches table_rows visible_text capabilities
  policy target_end source expected index_text range_start).
Abbreviation domain := (official_domain_for (source_capability_for capabilities (cc_dataset_id policy))).
Abbreviation tip := (is_tip_snapshot_policy policy domain).
Abbreviation grain := (plan_grain policy domain tip).

(** Claim C31.  A plan that walks the calendar (by month, year, day or as one file)
    covers every day exactly once: from the plan's start to the target end
    (before 9999-12-31) planning succeeds, the segments tile the interval in
    order, and each segment of the monthly grain lies in the one month that
    names it. *)
Theorem plan_tiles (start end_ : date) :
  tip = false -> uses_official_archive_index policy domain = false ->
  grain ∈ ["calendar_month"; "official_archive_year"; "official_archive_day"; "source_time_series_file"] ->
  plan_start policy domain range_start = Ok start -> valid_date start = true ->
  fromisoformat target_end = Ok end_ -> start <= end_ < MAXORDINAL -> expected_ok expected ->
  exists segs, plan = Ok segs /\ tiles start end_ segs /\
    (grain = "calendar_month" -> Forall (one_month
       (made_segment policy source "calendar_month" expected [])) segs).
Proof.
  intros Ht Hi Hg Hs Hv He Hle Hexp. unfold plan_required_segments. rewrite Hs, He.
  cbn [mbind result_bind]. rewrite (proj2 (Z.ltb_ge end_ start)) by lia. cbn [negb ensure mbind result_bind].
  rewrite Ht, Hi. rewrite Ht in Hg. set (g := plan_grain policy domain false) in *. cbn [orb].
  replace (g =s "official_archive_index_day") with false.
  2:{ symmetry. apply bool_decide_eq_false_2. intros ->.
      by repeat (apply elem_of_cons in Hg as [?|Hg]; [done|]); apply elem_of_nil in Hg. }
  assert (Hmade : forall id a b, make_segment policy source g expected [] id a b =
    Ok (made_segment policy source g expected [] id a b)) by (intros; by apply make_segment_made).
  assert (Hcov : forall id a b, covers (made_segment policy source g expected [] id a b) a b)
    by (intros; apply made_segment_covers).
  unfold calendar_segments.
  repeat (apply elem_of_cons in Hg as [Hg|Hg]); [rewrite Hg in *..|by apply elem_of_nil in Hg];
    cbn [String.eqb bool_decide decide_rel].
  - destruct (month_loop_tiles _ _ Hmade Hcov start end_ Hv Hle) as (segs & E & H1 & H2). by exists segs.
  - pose proof (year_of_mono start end_ ltac:(lia)). pose proof (year_of_spec start).
    assert (Hve : valid_date end_ = true).
    { unfold valid_date in *. bools. apply andb_true_iff; split; apply Z.leb_le; lia. }
    destruct (year_range_tiles _ _ Hmade Hcov start end_ (Z.to_nat (year_of end_ - year_of start))
      (year_of start)) as (Hm & segs & E & H1); try done; try lia.
    exists segs. split; [done|]. split; [|done].
    by replace (Z.max start (days_before_year (year_of start) + 1)) with start in H1 by lia.
  - destruct (day_loop_tiles _ _ Hmade Hcov start end_ Hv Hle) as (segs & E & H1 & H2). by exists segs.
  - rewrite Hmade. eexists. split; [done|]. split; [|done]. apply tiles_one; [apply Hcov|lia].
Qed.

(** A snapshot policy plans the current window only: exactly one segment,
    the target day itself, however long the history is. *)
Theorem plan_tip_single (start end_ : date) :
  tip = true -> plan_start policy domain range_start = Ok start ->
  fromisoformat target_end = Ok end_ -> start <= end_ -> expected_ok expected ->
  exists s, plan = Ok [s] /\ covers s end_ end_ /\ seg_id s = isoformat end_.
Proof.
  intros Ht Hs He Hle Hexp. unfold plan_required_segments. rewrite Hs, He.
  cbn [mbind result_bind]. rewrite (proj2 (Z.ltb_ge end_ start)) by lia. cbn [negb ensure mbind result_bind].
  rewrite Ht. cbv iota. rewrite make_segment_made by done. eexists. split; [done|].
  pose proof (make_segment_made policy source (plan_grain policy domain true) expected
    (snapshot_extra_scope policy (source_capability_for capabilities (cc_dataset_id policy)) domain
      (plan_grain policy domain true)) (isoformat end_) end_ end_ Hexp) as E.
  apply make_segment_Ok in E as (? & ? & _). done.
Qed.

(** A reversed window is an error, not an empty plan: if the target end
    precedes the start, planning raises [ValueError]. *)
Lemma plan_reversed (start end_ : date) :
  plan_start policy domain range_start = Ok start -> fromisoformat target_end = Ok end_ ->
  end_ < start -> plan = raise ValueError "target_end precedes coverage history target".
Proof.
  intros Hs He Hlt. unfold plan_required_segments. rewrite Hs, He. cbn [mbind result_bind].
  by rewrite (proj2 (Z.ltb_lt end_ start)).
Qed.

(** Every segment of a plan lies between the plan's start and the target end. *)
Lemma plan_segments_within segs end_ : fromisoformat target_end = Ok end_ -> plan = Ok segs ->
  exists start, plan_start policy domain range_start = Ok start /\ start <= end_ /\
    Forall (within start end_) segs.
Proof.
  intros He H. unfold plan_required_segments in H. apply bind_Ok in H as (start & Hs & H).
  rewrite He in H. cbn [mbind result_bind] in H. apply bind_Ok in H as (_ & Hle%ensure_Ok & H).
  assert (Hle' : start <= end_) by (bools; lia). clear Hle. exists start. split_and!; [done..|].
  assert (Hcov : forall g extra id a b s, make_segment policy source g expected extra id a b = Ok s ->
    covers s a b) by (intros * E; by apply make_segment_Ok in E as [? _]).
  destruct tip.
  - apply bind_Ok in H as (s & Hsg & [= <-]). repeat constructor.
    eexists _, _. split; [by eapply Hcov|]. lia.
  - destruct (_ || _).
    + eapply index_within; [|exact H]. apply Hcov.
    + eapply calendar_within; [|done|exact H]. apply Hcov.
Qed.

(** Whatever the mode, a plan stays in the official domain: every
    segment starts on or after the history target, the official availability
    of the dataset and [range_start], ends on or before the target end, and
    belongs to the dataset and source asked for. *)
Theorem plan_within (segs : list RequiredCoverageSegment) (history end_ : date) :
  fromisoformat (history_target_start policy) = Ok history -> fromisoformat target_end = Ok end_ ->
  plan = Ok segs ->
  Forall (fun s => exists a b, covers s a b /\ a <= b <= end_ /\ history <= a /\
    (forall d o, domain = Some d -> fromisoformat (od_earliest_official_availability d) = Ok o -> o <= a) /\
    (forall r n, range_start = Some r -> fromisoformat r = Ok n -> n <= a)) segs.
Proof.
  intros Hh He H. apply (plan_segments_within _ end_) in H as (start & Hs & Hle & Hw); [|done].
  eapply Forall_impl; [exact Hw|]. intros s (a & b & Hc & Ha & Hb). exists a, b.
  destruct (plan_start_bounds policy domain range_start history start Hh Hs) as (H1 & H2 & H3).
  split_and!; [done|lia..| |]; intros ?? E1 E2; [specialize (H2 _ _ E1 E2)|specialize (H3 _ _ E1 E2)]; lia.
Qed.

(** An archive-index plan takes the listed days only: it succeeds, its
    segments are, in order, the publication days of the index text that lie
    between the start and the target end, each one day long, and without an
    index text the plan is empty. *)
Theorem plan_index_days (start end_ : date) :
  tip = false -> uses_official_archive_index policy domain = true ->
  plan_start policy domain range_start = Ok start ->
  fromisoformat target_end = Ok end_ -> start <= end_ -> expected_ok expected ->
  exists segs, plan = Ok segs /\
    map seg_id segs = filter (fun d => in_window start end_ d = true)
      (official_index_days date_matches table_rows visible_text (cc_dataset_id policy) index_text) /\
    Forall (fun s => exists n, covers s n n) segs /\
    (index_text = None -> segs = []).
Proof.
  intros Ht Hi Hs He Hle Hexp. unfold plan_required_segments. rewrite Hs, He.
  cbn [mbind result_bind]. rewrite (proj2 (Z.ltb_ge end_ start)) by lia. cbn [negb ensure mbind result_bind].
  rewrite Ht, Hi. cbn [orb].
  destruct (index_segments_listed
    (make_segment policy source (plan_grain policy domain false) expected [])
    (made_segment policy source (plan_grain policy domain false) expected []) start end_
    (official_index_days date_matches table_rows visible_text (cc_dataset_id policy) index_text))
    as (segs & -> & Hids & Hone).
  - intros id a b. rewrite make_segment_made by done. split; [done|].
    pose proof (make_segment_made policy source (plan_grain policy domain false) expected [] id a b Hexp) as E.
    by apply make_segment_Ok in E as (? & ? & _).
  - apply official_index_days_iso.
  - exists segs. split_and!; [done..|]. intros ->. unfold official_index_days in Hids. simpl in Hids.
    rewrite Tauto.if_same in Hids. by apply map_eq_nil in Hids.
Qed.
End PlanTheorems.

(** A consumer window is widened to whole months: the range starts on the
    first day of the floor's month and ends on the last day of the end's month,
    so it contains the window. *)
Theorem full_months (floor period_end a b : string) (f p : date) :
  fromisoformat floor = Ok f -> fromisoformat period_end = Ok p ->
  full_collection_month_range floor period_end = Ok (a, b) ->
  exists na nb, is_day a na /\ is_day b nb /\
    na <= f /\ year_of na = year_of f /\ month_of na = month_of f /\ day_of na = 1 /\
    p <= nb /\ year_of nb = year_of p /\ month_of nb = month_of p /\
    day_of nb = days_in_month (year_of nb) (month_of nb).
Proof.
  intros Hf Hp H. unfold full_collection_month_range in H. rewrite Hf, Hp in H.
  cbn [mbind result_bind] in H. apply bind_Ok in H as (na & Hna & [= <- <-]).
  apply mk_date_Ok in Hna as (Ena & Hy & Hm & Hd & Hv).
  pose proof (month_end_spec p) as (Hle & Hye & Hme).
  exists na, (month_end p). split; [done|]. split.
  { split; [|done]. apply year_of_valid. rewrite Hye. apply year_of_valid. by eapply fromisoformat_valid. }
  pose proof (ymd_bounds f). pose proof (ymd_bounds p).
  split_and!; try done.
  - apply ord_le_ymd. rewrite Hy, Hm, Hd. lia.
  - rewrite Hye, Hme. unfold month_end. apply day_of_ymd2ord; lia.
Qed.

(** ** Witnesses *)

Definition no_dates (_ : string) : list (Z * Z * Z) := [].
Definition no_rows (_ : string) : list string := [].
Definition same_text (s : string) : string := s.

Definition sample_registry : registry := [("equities_master", sample_contract)].


Lemma plan_tiles_witness :
  exists segs, plan_required_segments no_dates no_rows same_text sample_registry sample_policy
      "2008-08-15" "jquants" None None None = Ok segs /\ tiles 733169 733269 segs /\
    (plan_grain sample_policy (official_domain_for (source_capability_for sample_registry "equities_master"))
       false = "calendar_month" ->
     Forall (one_month (made_segment sample_policy "jquants" "calendar_month" None [])) segs).
Proof.
  apply (plan_tiles no_dates no_rows same_text sample_registry sample_policy "2008-08-15" "jquants"
    None None None 733169 733269).
  - by vm_compute.
  - by vm_compute.
  - apply (bool_decide_unpack _). by vm_compute.
  - by vm_compute.
  - by vm_compute.
  - by vm_compute.
  - by vm_compute.
  - done.
Defined.

Definition tip_policy : CollectionCoverageContract :=
  mkCoverage "equities_earnings_calendar" "all" "2008-05-07" "today" "tip_snapshot" "business_day"
    "listed" true true "collection_cutoff_snapshot" "governed" None None None None
    None None None None None None None.

Lemma plan_tip_single_witness :
  exists s, plan_required_segments no_dates no_rows same_text [] tip_policy "2024-01-04" "jquants"
      None None None = Ok [s] /\ covers s 738889 738889 /\ seg_id s = isoformat 738889.
Proof.
  apply (plan_tip_single no_dates no_rows same_text [] tip_policy "2024-01-04" "jquants" None None None
    733169 738889).
  - by vm_compute.
  - by vm_compute.
  - by vm_compute.
  - lia.
  - done.
Defined.

Lemma plan_within_witness :
  Forall (fun s => exists a b, covers s a b /\ a <= b <= 733169 /\ 733169 <= a /\
    (forall d o, official_domain_for (source_capability_for sample_registry "equities_master") = Some d ->
       fromisoformat (od_earliest_official_availability d) = Ok o -> o <= a) /\
    (forall r n, None = Some r -> fromisoformat r = Ok n -> n <= a))
    [made_segment sample_policy "jquants" "calendar_month" None [] "2008-05" 733169 733169].
Proof.
  apply (plan_within no_dates no_rows same_text sample_registry sample_policy "2008-05-07" "jquants"
    None None None).
  - by vm_compute.
  - by vm_compute.
  - by vm_compute.
Defined.

Definition index_policy : CollectionCoverageContract :=
  mkCoverage "jsda_otc_bond_reference_prices" "all" "2024-01-01" "today" "official_archive_index"
    "trading_day" "all" true true "official_archive_index_day" "governed" None None None None
    None None None None None None None.

Definition sample_matches (s : string) : list (Z * Z * Z) := [(2024, 1, 5)].
Definition sample_rows (s : string) : list string := [s].

Lemma plan_index_days_witness :
  exists segs, plan_required_segments sample_matches sample_rows same_text [] index_policy "2024-01-31"
      "jsda" None (Some "2024/1/5") None = Ok segs /\
    map seg_id segs = filter (fun d => in_window 738886 738916 d = true)
      (official_index_days sample_matches sample_rows same_text "jsda_otc_bond_reference_prices"
         (Some "2024/1/5")) /\
    Forall (fun s => exists n, covers s n n) segs /\ (Some "2024/1/5" = None -> segs = []).
Proof.
  apply (plan_index_days sample_matches sample_rows same_text [] index_policy "2024-01-31" "jsda" None
    (Some "2024/1/5") None 738886 738916).
  - by vm_compute.
  - by vm_compute.
  - by vm_compute.
  - by vm_compute.
  - lia.
  - done.
Defined.

Lemma full_months_witness :
  exists na nb, is_day "2024-01-01" na /\ is_day "2024-02-29" nb /\
    na <= 738894 /\ year_of na = year_of 738894 /\ month_of na = month_of 738894 /\ day_of na = 1 /\
    738920 <= nb /\ year_of nb = year_of 738920 /\ month_of nb = month_of 738920 /\
    day_of nb = days_in_month (year_of nb) (month_of nb).
Proof.
  apply (full_months "2024-01-09" "2024-02-04" "2024-01-01" "2024-02-29").
  - by vm_compute.
  - by vm_compute.
  - by vm_compute.
Defined.
