(* ===== verification/Backfill.v ===== *)
(** * Backfill: planning of historical collection jobs
    (packages/data_plane/ops/backfill_planner.py)

    The planner turns the required coverage inventory of every governed dataset
    into dated jobs, leaving out the segments the ledger holds as COMPLETE and
    the days before the subscription floor.  The database is the part of it the
    module reads: the rows of [coverage_segments], or the fact that the query
    fails.  The endpoint document and the clock are arguments. *)

From S2P Require Import Prelude PyDate PyTime Json SourceCapability CoverageContract CoveragePlan.

Local Open Scope Z_scope.

Definition PLAN_VERSION : string := "backfill-plan/v1".

Definition JQUANTS_SUBSCRIPTION_FLOOR : date := ymd2ord 2006 8 19.

(** ** Jobs *)

Inductive JobState : Set := pending | running | pass | partial | fail | retry.

Inductive ReasonCode : Set :=
  | ok | http_429 | timeout | entitlement | source_empty | worker_error | auth | unknown.

#[export] Instance job_state_eq_dec : EqDecision JobState.
Proof. solve_decision. Defined.

#[export] Instance reason_code_eq_dec : EqDecision ReasonCode.
Proof. solve_decision. Defined.

Definition state_text (s : JobState) : string :=
  match s with
  | pending => "pending" | running => "running" | pass => "pass"
  | partial => "partial" | fail => "fail" | retry => "retry"
  end.

Definition reason_text (r : ReasonCode) : string :=
  match r with
  | ok => "ok" | http_429 => "http_429" | timeout => "timeout" | entitlement => "entitlement"
  | source_empty => "source_empty" | worker_error => "worker_error" | auth => "auth"
  | unknown => "unknown"
  end.

Record BackfillJob := mkJob {
  job_dataset : string;
  job_source : string;
  job_segment_id : string;
  requested_from : string;
  requested_to : string;
  endpoint_query_mode : string;
  priority : Z;
  attempt : Z;
  job_state : JobState;
  expected_evidence : string;
  job_contract_digest : string;
  reason_code : ReasonCode;
  detail : string;
}.

#[export] Instance job_eq_dec : EqDecision BackfillJob.
Proof. solve_decision. Defined.

Definition job_to_dict (j : BackfillJob) : dict :=
  [("dataset", JStr (job_dataset j)); ("source", JStr (job_source j));
   ("segment_id", JStr (job_segment_id j)); ("requested_from", JStr (requested_from j));
   ("requested_to", JStr (requested_to j)); ("endpoint_query_mode", JStr (endpoint_query_mode j));
   ("priority", JInt (priority j)); ("attempt", JInt (attempt j));
   ("state", JStr (state_text (job_state j))); ("expected_evidence", JStr (expected_evidence j));
   ("contract_digest", JStr (job_contract_digest j)); ("reason_code", JStr (reason_text (reason_code j)));
   ("detail", JStr (detail j))].

(** Assign [self.state], [self.reason_code] and [self.detail]. *)
Definition set_outcome (j : BackfillJob) (s : JobState) (r : ReasonCode) (d : string) : BackfillJob :=
  mkJob (job_dataset j) (job_source j) (job_segment_id j) (requested_from j) (requested_to j)
    (endpoint_query_mode j) (priority j) (attempt j) s (expected_evidence j)
    (job_contract_digest j) r d.

(** [self.attempt += 1; self.state = s], as the dispatcher does. *)
Definition start_attempt (j : BackfillJob) : BackfillJob :=
  mkJob (job_dataset j) (job_source j) (job_segment_id j) (requested_from j) (requested_to j)
    (endpoint_query_mode j) (priority j) (attempt j + 1) running (expected_evidence j)
    (job_contract_digest j) (reason_code j) (detail j).

(** The job as the method leaves it, and whether the method raises: the failure
    list is cut and encoded after the state and the reason are assigned. *)
Definition apply_worker_summary (j : BackfillJob) (summary : dict) (http_status : Z)
    : BackfillJob * result unit :=
  if http_status =? 429 then (set_outcome j retry http_429 "rate limited", Ok tt)
  else if http_status =? 401 then
    (set_outcome j fail auth ("HTTP " +:+ show_Z http_status), Ok tt)
  else if http_status =? 403 then
    let d := py_str (or_ (or_ (getv "error" summary) (getv "detail" summary)) (JStr "")) in
    if str_contains "edge_forbidden" d || str_contains "html" (lower d)
    then (set_outcome j retry http_429 (str_take 300 d), Ok tt)
    else (set_outcome j fail entitlement ("HTTP 403 " +:+ str_take 200 d), Ok tt)
  else if negb (http_status =? 200) then
    (set_outcome j fail worker_error ("HTTP " +:+ show_Z http_status), Ok tt)
  else
    let status := lower (py_str (or_ (getv "status" summary) (JStr ""))) in
    if status =s "pass" then
      (set_outcome j pass ok (py_dumps true (JDict
         [("passed", getv "passed" summary); ("failed", getv "failed" summary);
          ("rowsInserted", getv "rowsInserted" summary)])), Ok tt)
    else if status =s "partial" then
      (set_outcome j partial source_empty "worker reported partial", Ok tt)
    else if status =s "fail" then
      let failures := or_ (getv "failures" summary) (JList []) in
      match py_slice_to failures 3 with
      | Ok cut => (set_outcome j fail worker_error (str_take 500 (py_dumps false cut)), Ok tt)
      | Err e => (set_outcome j fail worker_error (detail j), Err e)
      end
    else (set_outcome j fail unknown ("unrecognized status " +:+ repr_str status), Ok tt).

Record BackfillPlan := mkPlan {
  plan_version : string;
  coverage_policy_version : string;
  plan_contract_digest : string;
  plan_cutoff : string;
  plan_created_at : string;
  plan_jobs : list BackfillJob;
}.

Definition plan_to_dict (p : BackfillPlan) : dict :=
  [("plan_version", JStr (plan_version p));
   ("coverage_policy_version", JStr (coverage_policy_version p));
   ("contract_digest", JStr (plan_contract_digest p)); ("cutoff", JStr (plan_cutoff p));
   ("created_at", JStr (plan_created_at p)); ("job_count", JInt (Z.of_nat (length (plan_jobs p))));
   ("jobs", JList (map (fun j => JDict (job_to_dict j)) (plan_jobs p)))].

Definition is_pending (j : BackfillJob) : bool :=
  match job_state j with pending | retry => true | _ => false end.

Definition pending_jobs (p : BackfillPlan) : list BackfillJob :=
  filter (fun j => is_pending j = true) (plan_jobs p).

(** ** Endpoint capabilities *)

Record EndpointCapability := mkEndpoint {
  ep_dataset_id : string;
  ep_path : string;
  date_mode : string;
  ep_params : list string;
  ep_source : string;
}.

Definition endpoint_row (row : json) : result EndpointCapability :=
  ds ← py_item row "dataset_id";
  path ← py_item row "path";
  match row with
  | JDict d =>
      params ← py_iter (or_ (getv "params" d) (JList []));
      Ok (mkEndpoint (py_str ds) (py_str path) (py_str (or_ (getv "date_mode" d) (JStr "today")))
            (map py_str params) "jquants")
  | _ => raise TypeError "indices must be integers"
  end.

Definition endpoints : Type := list (string * EndpointCapability).

(** [doc] is the decoded [jquants_premium_core.json]. *)
Definition load_premium_endpoint_capabilities (doc : dict) : result endpoints :=
  rows ← py_iter (or_ (getv "datasets" doc) (JList []));
  foldR (fun out row => ep ← endpoint_row row; Ok (dict_set (ep_dataset_id ep) ep out)) [] rows.

(** Lower runs first. *)
Definition PRIORITY : list (string * Z) :=
  [("markets_calendar", 10); ("indices_bars_daily_topix", 20); ("equities_bars_daily", 30);
   ("equities_master", 40); ("indices_bars_daily", 50); ("equities_investor_types", 60);
   ("equities_earnings_calendar", 61); ("fins_summary", 70); ("fins_details", 71);
   ("fins_dividend", 72); ("fins_earnings_date", 73); ("markets_margin_interest", 80);
   ("markets_margin_alert", 81); ("markets_short_ratio", 82); ("markets_short_sale_report", 83);
   ("markets_breakdown", 84); ("edinet_major_shareholders", 90); ("edinet_cross_shareholdings", 91);
   ("edinet_large_volume_shareholders", 92); ("derivatives_bars_daily_futures", 100);
   ("derivatives_bars_daily_options_225", 101); ("derivatives_bars_daily_options", 102);
   ("equities_bars_daily_am", 110)].

Definition priority_of (dataset : string) (missing : Z) : Z := default missing (lookup_str dataset PRIORITY).

(** ** Dates *)

Definition parse_date (value : string) : result date := fromisoformat (str_take 10 value).

Definition week_step (end_ step : Z) (st : date * list (date * date)) : result (date * list (date * date)) :=
  let '(cur, out) := st in
  last ← date_add cur (step - 1);
  let chunk_end := Z.min last end_ in
  cur' ← date_add chunk_end 1;
  Ok (cur', out ++ [(cur, chunk_end)]).

Definition week_chunks (start end_ : date) (days : Z) : result (list (date * date)) :=
  if end_ <? start then Ok []
  else
    st ← while (Z.to_nat (end_ - start + 1)) (fun st => st.1 <=? end_)
           (week_step end_ (Z.max 1 days)) (start, []);
    Ok st.2.

(** ** The ledger's segment table *)

Record segment_row := mkSegmentRow { row_dataset : string; row_segment_id : string; row_status : string }.

(** A connection: the rows of [coverage_segments], or [None] when querying them
    raises [sqlite3.Error]. *)
Definition connection : Type := option (list segment_row).

Definition dataset_rows (rows : list segment_row) (dataset : string) : list segment_row :=
  filter (fun r => row_dataset r = dataset) rows.

Definition complete_rows (rows : list segment_row) : list segment_row :=
  filter (fun r => row_status r = "COMPLETE") rows.

Definition read_complete_segments (conn : option connection) (dataset : string) : list string :=
  match conn with
  | Some (Some rows) => map row_segment_id (complete_rows (dataset_rows rows dataset))
  | _ => []
  end.

(** ** The planner *)

Definition OFFICIAL_DOMAIN_SCOPE_KEYS : list string :=
  ["earliest_official_availability"; "official_domain"; "admit_historical_required_segments"].

Section Planner.
Variable date_matches : string -> list (Z * Z * Z).
Variable table_rows : string -> list string.
Variable visible_text : string -> string.
Variable capabilities : registry.
Variable policies : coverage_registry.
Variable COVERAGE_POLICY_VERSION : string.
Variable sha256_hex : string -> string.

Definition invented_official_domain_without_v3 (dataset_id : string) (scope : dict) : bool :=
  match source_capability_contract_or_none capabilities dataset_id with
  | Some _ => false
  | None => existsb (fun key => has_key key scope) OFFICIAL_DOMAIN_SCOPE_KEYS
  end.

Definition governed (c : CollectionCoverageContract) : bool := governance_tier c =s "governed".

Definition contract_bundle_digest : string :=
  let rows := map (fun c => JDict
    [("dataset_id", JStr (cc_dataset_id c)); ("history_target_start", JStr (history_target_start c));
     ("segment_granularity", JStr (segment_granularity c)); ("coverage_mode", JStr (coverage_mode c))])
    (filter (fun c => governed c = true) (all_coverage_contracts policies)) in
  "sha256:" +:+ sha256_hex (canonical_dumps (JDict
    [("policy", JStr COVERAGE_POLICY_VERSION); ("datasets", JList rows)])).

Record BackfillPlanner := mkPlanner {
  bp_cutoff : date;
  bp_db : option connection;
  bp_sources : list string;
  bp_chunk_days : Z;
  bp_prefer_month_chunks : bool;
  bp_endpoints : endpoints;
}.

(** [BackfillPlanner(...)]; [today] is the UTC date, [db] the database when the
    file exists. *)
Definition new_planner (today : date) (cutoff : option date) (db : option connection)
    (sources : list string) (chunk_days : Z) (prefer_month : bool) (premium : dict)
    : result BackfillPlanner :=
  cutoff ← (match cutoff with Some c => Ok c | None => date_add today (-1) end);
  eps ← load_premium_endpoint_capabilities premium;
  Ok (mkPlanner cutoff db sources chunk_days prefer_month eps).

Section Planning.
Variable self : BackfillPlanner.

Definition unplannable_job (cov : CollectionCoverageContract)
    (digest query_mode : string) (reason : ReasonCode) (det evidence : string) : BackfillJob :=
  mkJob (cc_dataset_id cov) "jquants" "UNPLANNABLE" (history_target_start cov)
    (isoformat (bp_cutoff self)) query_mode (priority_of (cc_dataset_id cov) 500) 0 fail evidence
    digest reason det.

(** The days of a segment a run may ask for, if any. *)
Definition segment_window (filter_from filter_to : option date) (seg : RequiredCoverageSegment)
    : result (option (date * date)) :=
  a ← parse_date (seg_start seg);
  b ← parse_date (seg_end seg);
  let a := match filter_from with Some f => if a <? f then f else a | None => a end in
  let b := match filter_to with Some t => if t <? b then t else b | None => b end in
  if b <? a then Ok None
  else if b <? JQUANTS_SUBSCRIPTION_FLOOR then Ok None
  else
    let a := if a <? JQUANTS_SUBSCRIPTION_FLOOR then JQUANTS_SUBSCRIPTION_FLOOR else a in
    if b <? a then Ok None else Ok (Some (a, b)).

Definition segment_chunks (cov : CollectionCoverageContract) (ep : EndpointCapability)
    (seg : RequiredCoverageSegment) (a b : date) : result (list (date * date)) :=
  let grain := or_ (getv "segment_granularity" (seg_scope seg)) (JStr (segment_granularity cov)) in
  if negb (bp_prefer_month_chunks self) && negb (date_mode ep ∈? ["range"; "none"])
     && bool_decide (grain = JStr "calendar_month")
  then week_chunks a b (bp_chunk_days self)
  else Ok [(a, b)].

Definition chunk_job (cov : CollectionCoverageContract) (ep : EndpointCapability) (digest : string)
    (seg : RequiredCoverageSegment) (chunk : date * date) : list BackfillJob :=
  let '(ca, cb) := chunk in
  if cb <? JQUANTS_SUBSCRIPTION_FLOOR then []
  else
    let ca := if ca <? JQUANTS_SUBSCRIPTION_FLOOR then JQUANTS_SUBSCRIPTION_FLOOR else ca in
    if cb <? ca then []
    else [mkJob (cc_dataset_id cov) "jquants" (seg_id seg) (isoformat ca) (isoformat cb)
            (date_mode ep) (priority_of (cc_dataset_id cov) 200) 0 pending
            "raw_plus_structured_then_receipt" digest ok ""].

Definition segment_jobs (cov : CollectionCoverageContract) (ep : EndpointCapability) (digest : string)
    (complete : list string) (filter_from filter_to : option date) (seg : RequiredCoverageSegment)
    : result (list BackfillJob) :=
  if seg_id seg ∈? complete then Ok []
  else
    window ← segment_window filter_from filter_to seg;
    match window with
    | None => Ok []
    | Some (a, b) =>
        chunks ← segment_chunks cov ep seg a b;
        Ok (concat (map (chunk_job cov ep digest seg) chunks))
    end.

(** The inventory of the dataset; a [ValueError] of the inventory plans nothing. *)
Definition required_of (cov : CollectionCoverageContract) (index_text : option string)
    : result (list RequiredCoverageSegment) :=
  match plan_required_segments date_matches table_rows visible_text capabilities cov
          (isoformat (bp_cutoff self)) "jquants" None index_text None with
  | Ok required => Ok required
  | Err e => if decide (exn_kind e = ValueError) then Ok [] else Err e
  end.

Definition jobs_from_required_segments (cov : CollectionCoverageContract) (ep : EndpointCapability)
    (digest : string) (complete : list string) (filter_from filter_to : option date)
    (index_text : option string) : result (list BackfillJob) :=
  required ← required_of cov index_text;
  if existsb (fun seg => invented_official_domain_without_v3 (cc_dataset_id cov) (seg_scope seg)) required
  then Ok [unplannable_job cov digest (date_mode ep) entitlement
             "missing SourceCapability V3; refusing invented official domain" "source_capability_v3"]
  else
    jobs ← mapR (segment_jobs cov ep digest complete filter_from filter_to) required;
    Ok (concat jobs).

Definition is_jsda (dataset_id : string) : bool := starts_with "jsda_" dataset_id.

(** [{d.strip() for d in (datasets or []) if d and str(d).strip()} or None] *)
Definition allow_set (datasets : option (list string)) : option (list string) :=
  match map strip (filter (fun d => blank d = false) (default [] datasets)) with
  | [] => None
  | allow => Some allow
  end.

Definition selected (allow : option (list string)) (cov : CollectionCoverageContract) : bool :=
  governed cov && negb (is_jsda (cc_dataset_id cov)) && ("jquants" ∈? bp_sources self)
  && match allow with Some l => cc_dataset_id cov ∈? l | None => true end.

Definition dataset_jobs (digest : string) (filter_from filter_to : option date)
    (index_text : option string) (cov : CollectionCoverageContract) : result (list BackfillJob) :=
  match lookup_str (cc_dataset_id cov) (bp_endpoints self) with
  | None => Ok [unplannable_job cov digest "missing" entitlement "missing premium endpoint capability"
                  "endpoint_capability"]
  | Some ep =>
      jobs_from_required_segments cov ep digest (read_complete_segments (bp_db self) (cc_dataset_id cov))
        filter_from filter_to index_text
  end.

(** The order of the keys [(priority, dataset, requested_from)]. *)
Definition job_leb (x y : BackfillJob) : bool :=
  match priority x ?= priority y with
  | Lt => true
  | Gt => false
  | Eq => match String.compare (job_dataset x) (job_dataset y) with
          | Lt => true
          | Gt => false
          | Eq => String.leb (requested_from x) (requested_from y)
          end
  end.

(** [_parse_date(s) if s else None] *)
Definition optional_date (s : option string) : result (option date) :=
  match s with
  | Some s => if s =s "" then Ok None else d ← parse_date s; Ok (Some d)
  | None => Ok None
  end.

Definition plan (now : datetime) (datasets : option (list string))
    (from_date to_date index_text : option string) : result BackfillPlan :=
  let digest := contract_bundle_digest in
  let allow := allow_set datasets in
  filter_from ← optional_date from_date;
  filter_to ← optional_date to_date;
  jobs ← mapR (dataset_jobs digest filter_from filter_to index_text)
           (filter (fun c => selected allow c = true) (all_coverage_contracts policies));
  Ok (mkPlan PLAN_VERSION COVERAGE_POLICY_VERSION digest (isoformat (bp_cutoff self))
        (dt_isoformat now) (py_sorted job_leb (concat jobs))).
End Planning.

(** ** Inventories and status *)

Definition inventory_governed_jq_datasets : list string :=
  sorted_strings (map cc_dataset_id
    (filter (fun c => governed c && negb (is_jsda (cc_dataset_id c)) = true)
       (all_coverage_contracts policies))).

Definition inventory_all_governed_datasets : list string :=
  sorted_strings (map cc_dataset_id (filter (fun c => governed c = true) (all_coverage_contracts policies))).

Record StatusRow := mkStatusRow {
  st_dataset : string;
  st_source : string;
  st_history_target_start : string;
  required_segments : Z;
  complete_segments : Z;
  st_state : string;
}.

Definition pending_state (dataset : string) : string :=
  if is_jsda dataset then "CONTRACT_ADAPTER_OR_DISCOVERY_PENDING" else "PLANNING_MISSING".

Definition status_row (conn : option connection) (cov : CollectionCoverageContract) : StatusRow :=
  let ds := cc_dataset_id cov in
  let '(required, complete, state) :=
    match conn with
    | None => (0, 0, pending_state ds)
    | Some None => (0, 0, "PLANNING_MISSING")
    | Some (Some rows) =>
        let rows := dataset_rows rows ds in
        let complete := Z.of_nat (length (complete_rows rows)) in
        let required := Z.of_nat (length rows) in
        if required =? 0 then (0, 0, pending_state ds)
        else if (0 <? required) && (complete =? required) then (required, complete, "COVERAGE_COMPLETE")
        else if 0 <? complete then (required, complete, "PARTIAL")
        else (required, complete, "DISCOVERY_INCOMPLETE")
    end in
  mkStatusRow ds (if is_jsda ds then "jsda" else "jquants") (history_target_start cov) required complete state.

Definition backfill_status_rows (conn : option connection) : list StatusRow :=
  map (status_row conn) (filter (fun c => governed c = true) (all_coverage_contracts policies)).
End Planner.

(** ** Tilings by chunks *)

(** The chunks, in order, cover every day from [a] to [e] exactly once. *)
Inductive chunked : date -> date -> list (date * date) -> Prop :=
  | chunked_one a e : a <= e -> chunked a e [(a, e)]
  | chunked_cons a b e l : a <= b -> chunked (b + 1) e l -> chunked a e ((a, b) :: l).

Lemma chunked_snoc a b e l : chunked a (b - 1) l -> b <= e -> chunked a e (l ++ [(b, e)]).
Proof.
  intros H. remember (b - 1) as b' eqn:Hb. revert Hb.
  induction H as [a b' Hle|a b1 b' l Hle H IH]; intros -> Hbe; simpl.
  - apply chunked_cons; [done|]. replace (b - 1 + 1) with b by lia. by apply chunked_one.
  - apply chunked_cons; [done|]. by apply IH.
Qed.

Lemma chunked_bounds a e l c : chunked a e l -> c ∈ l -> a <= c.1 /\ c.1 <= c.2 <= e.
Proof.
  induction 1 as [a e Hle|a b e l Hle H IH]; intros Hc; apply elem_of_cons in Hc as [->|Hc]; simpl.
  - lia.
  - by apply elem_of_nil in Hc.
  - assert (b + 1 <= e) by (clear -H; induction H; lia). lia.
  - specialize (IH Hc). lia.
Qed.

Lemma chunked_day a e l d : chunked a e l -> a <= d <= e -> exists c, c ∈ l /\ c.1 <= d <= c.2.
Proof.
  induction 1 as [a e Hle|a b e l Hle H IH]; intros Hd.
  - exists (a, e). split; [by left|]. simpl. lia.
  - destruct (decide (d <= b)) as [Hb|Hb].
    + exists (a, b). split; [by left|]. simpl. lia.
    + destruct IH as (c & Hc & ?); [lia|]. exists c. split; [by right|done].
Qed.

Lemma date_add_ok d k : 1 <= d + k <= MAXORDINAL -> date_add d k = Ok (d + k).
Proof.
  intros H. unfold date_add, valid_date. by rewrite !(proj2 (Z.leb_le _ _)) by lia.
Qed.

(** The chunks so far cover the days before the cursor; each is a whole step. *)
Definition week_inv (start end_ step : Z) (st : date * list (date * date)) : Prop :=
  start <= st.1 <= end_ + 1 /\ (st.2 = [] /\ st.1 = start \/ chunked start (st.1 - 1) st.2) /\
  Forall (fun c => c.2 - c.1 + 1 <= step /\ (c.2 < end_ -> c.2 - c.1 + 1 = step)) st.2.

Lemma week_step_inv start end_ step c l : 1 <= start -> 1 <= step -> end_ + step <= MAXORDINAL ->
  week_inv start end_ step (c, l) -> c <= end_ ->
  exists st, week_step end_ step (c, l) = Ok st /\ week_inv start end_ step st /\ c < st.1.
Proof.
  intros Hs Hst Hmax (Hc & Hl & Hf) Hle. simpl in *. unfold week_step.
  rewrite date_add_ok by lia. cbn [mbind result_bind]. rewrite date_add_ok by lia.
  eexists. split; [done|]. split; [|simpl; lia]. split; [simpl; lia|]. simpl. split.
  - right. replace (Z.min (c + (step - 1)) end_ + 1 - 1) with (Z.min (c + (step - 1)) end_) by lia.
    destruct Hl as [[-> ->]|Hl]; [apply chunked_one; lia|]. apply chunked_snoc; [done|lia].
  - apply Forall_app. split; [done|]. repeat constructor; simpl; lia.
Qed.

Lemma week_chunks_ok start end_ days : 1 <= start -> start <= end_ ->
  end_ + Z.max 1 days <= MAXORDINAL ->
  exists l, week_chunks start end_ days = Ok l /\ chunked start end_ l /\
    Forall (fun c => c.2 - c.1 + 1 <= Z.max 1 days /\ (c.2 < end_ -> c.2 - c.1 + 1 = Z.max 1 days)) l.
Proof.
  intros Hs Hle Hmax. unfold week_chunks. rewrite (proj2 (Z.ltb_ge end_ start)) by lia.
  destruct (while_ok (fun st => Z.to_nat (end_ - st.1 + 1)) (week_inv start end_ (Z.max 1 days))
    (Z.to_nat (end_ - start + 1)) (fun st => st.1 <=? end_) (week_step end_ (Z.max 1 days)) (start, []))
    as ([c l] & -> & (Hc & Hl & Hf) & Hend).
  - intros [c l] Hinv Hcond. simpl in Hcond. bools.
    destruct (week_step_inv start end_ (Z.max 1 days) c l) as (st & E & Hi & Hlt); try done; try lia.
    exists st. split; [done|]. split; [done|]. simpl. lia.
  - split; [simpl; lia|]. split; [by left|constructor].
  - done.
  - simpl in *. bools. exists l. split; [done|]. split; [|done].
    destruct Hl as [[-> ->]|Hl]; [lia|]. by replace end_ with (c - 1) by lia.
Qed.

(** Whatever the step, what is returned stays in the interval. *)
Lemma week_chunks_within start end_ days l : week_chunks start end_ days = Ok l ->
  Forall (fun c => start <= c.1 /\ c.1 <= c.2 <= end_) l.
Proof.
  unfold week_chunks. destruct (end_ <? start) eqn:E; [intros [= <-]; constructor|].
  intros H. apply bind_Ok in H as ([c l'] & H & [= <-]). bools.
  eapply (while_inv (fun st => start <= st.1 /\ Forall (fun c => start <= c.1 /\ c.1 <= c.2 <= end_) st.2))
    in H as [_ H]; [done| |split; [simpl; lia|constructor]].
  intros [c1 l1] [c2 l2] [Hc Hl] Hcond Hs. simpl in *. bools. unfold week_step in Hs.
  binds Hs. injection Hs as <- <-. unfold date_add in *.
  destruct (valid_date (c1 + _)); [|done]. injection E0 as <-.
  destruct (valid_date _); [|done]. injection E1 as <-. split; [lia|].
  apply Forall_app. split; [done|]. repeat constructor; simpl; lia.
Qed.

(** ** The days a job asks for *)

(** The day lies in the segment from [sa] to [sb], in the run's window and on or
    after the subscription floor. *)
Definition wanted (filter_from filter_to : option date) (sa sb d : date) : Prop :=
  sa <= d <= sb /\ JQUANTS_SUBSCRIPTION_FLOOR <= d /\
  (forall f, filter_from = Some f -> f <= d) /\ (forall t, filter_to = Some t -> d <= t).

(** The job asks for the days from [x] to [y]. *)
Definition asks (j : BackfillJob) (x y : date) : Prop :=
  is_day (requested_from j) x /\ is_day (requested_to j) y.

Lemma parse_date_day n : valid_date n = true -> parse_date (isoformat n) = Ok n.
Proof. intros H. unfold parse_date. change (str_take 10 (isoformat n)) with (isoformat n). by apply fromisoformat_isoformat. Qed.

Lemma parse_date_valid s n : parse_date s = Ok n -> valid_date n = true.
Proof. apply fromisoformat_valid. Qed.

Lemma valid_between a b c : valid_date a = true -> valid_date c = true -> a <= b <= c -> valid_date b = true.
Proof. unfold valid_date. intros. bools. by rewrite !(proj2 (Z.leb_le _ _)) by lia. Qed.

Lemma valid_bounds n : valid_date n = true <-> 1 <= n <= MAXORDINAL.
Proof. unfold valid_date. rewrite andb_true_iff, !Z.leb_le. done. Qed.

Definition in_range (w : option (date * date)) (d : date) : Prop :=
  match w with Some (a, b) => a <= d <= b | None => False end.

Lemma segment_window_spec ff ft seg sa sb :
  parse_date (seg_start seg) = Ok sa -> parse_date (seg_end seg) = Ok sb ->
  exists w, segment_window ff ft seg = Ok w /\ (forall d, wanted ff ft sa sb d <-> in_range w d) /\
    (forall a b, w = Some (a, b) -> sa <= a /\ a <= b <= sb /\ JQUANTS_SUBSCRIPTION_FLOOR <= a).
Proof.
  intros Ha Hb. unfold segment_window. rewrite Ha, Hb. cbn [mbind result_bind].
  set (a := match ff with Some f => if sa <? f then f else sa | None => sa end).
  set (b := match ft with Some t => if t <? sb then t else sb | None => sb end).
  assert (Hma : forall d, a <= d <-> sa <= d /\ forall f, ff = Some f -> f <= d).
  { intros d. unfold a. destruct ff as [f|]; [|naive_solver]. destruct (sa <? f) eqn:E; bools;
      (split; [intros; split; [lia|intros ? [= <-]; lia] | intros [? H]; specialize (H _ eq_refl); lia]). }
  assert (Hmb : forall d, d <= b <-> d <= sb /\ forall t, ft = Some t -> d <= t).
  { intros d. unfold b. destruct ft as [t|]; [|naive_solver]. destruct (t <? sb) eqn:E; bools;
      (split; [intros; split; [lia|intros ? [= <-]; lia] | intros [? H]; specialize (H _ eq_refl); lia]). }
  assert (Hw : forall d, wanted ff ft sa sb d <-> a <= d <= b /\ JQUANTS_SUBSCRIPTION_FLOOR <= d)
    by (intros d; unfold wanted; specialize (Hma d); specialize (Hmb d); tauto).
  destruct (proj1 (Hma a) ltac:(lia)) as [Hsa _]. destruct (proj1 (Hmb b) ltac:(lia)) as [Hsb _].
  clearbody a b. clear Hma Hmb.
  destruct (b <? a) eqn:E1; bools; [eexists; split; [done|]; split; [|done]; intros d; rewrite Hw; simpl; lia|].
  destruct (b <? JQUANTS_SUBSCRIPTION_FLOOR) eqn:E2; bools;
    [eexists; split; [done|]; split; [|done]; intros d; rewrite Hw; simpl; lia|].
  destruct (a <? JQUANTS_SUBSCRIPTION_FLOOR) eqn:E3; bools.
  - rewrite (proj2 (Z.ltb_ge b JQUANTS_SUBSCRIPTION_FLOOR)) by lia. eexists. split; [done|].
    split; [intros d; rewrite Hw; simpl; lia|]. intros ? ? [= <- <-]. lia.
  - rewrite (proj2 (Z.ltb_ge b a)) by lia. eexists. split; [done|].
    split; [intros d; rewrite Hw; simpl; lia|]. intros ? ? [= <- <-]. lia.
Qed.

Section JobLemmas.
Context (self : BackfillPlanner) (cov : CollectionCoverageContract) (ep : EndpointCapability)
  (digest : string) (complete : list string) (ff ft : option date).

(** The pending job for the days from [a] to [b] of a segment. *)
Definition pending_job (seg : RequiredCoverageSegment) (chunk : date * date) : BackfillJob :=
  mkJob (cc_dataset_id cov) "jquants" (seg_id seg) (isoformat chunk.1) (isoformat chunk.2)
    (date_mode ep) (priority_of (cc_dataset_id cov) 200) 0 pending
    "raw_plus_structured_then_receipt" digest ok "".

Lemma chunk_jobs_pending seg chunks :
  Forall (fun c => JQUANTS_SUBSCRIPTION_FLOOR <= c.1 <= c.2) chunks ->
  concat (map (chunk_job cov ep digest seg) chunks) = map (pending_job seg) chunks.
Proof.
  induction 1 as [|[a b] l Hc _ IH]; [done|]. simpl in Hc. cbn [map concat]. rewrite IH.
  unfold chunk_job. rewrite (proj2 (Z.ltb_ge b _)), (proj2 (Z.ltb_ge a _)), (proj2 (Z.ltb_ge b a)) by lia.
  done.
Qed.

Lemma segment_chunks_ok seg a b : 1 <= a -> a <= b -> b + Z.max 1 (bp_chunk_days self) <= MAXORDINAL ->
  exists chunks, segment_chunks self cov ep seg a b = Ok chunks /\ chunked a b chunks.
Proof.
  intros Ha Hle Hmax. unfold segment_chunks. destruct (_ && _).
  - destruct (week_chunks_ok a b (bp_chunk_days self)) as (l & E & Hl & _); [lia..|]. by exists l.
  - eexists. split; [done|]. by apply chunked_one.
Qed.

Lemma segment_chunks_within seg a b chunks : a <= b -> segment_chunks self cov ep seg a b = Ok chunks ->
  Forall (fun c => a <= c.1 /\ c.1 <= c.2 <= b) chunks.
Proof.
  intros Hle. unfold segment_chunks. destruct (_ && _); [apply week_chunks_within|].
  intros [= <-]. repeat constructor; simpl; lia.
Qed.

(** The jobs of a segment, when its last day leaves room for one chunk. *)
Lemma segment_jobs_ok seg sa sb :
  parse_date (seg_start seg) = Ok sa -> parse_date (seg_end seg) = Ok sb ->
  sb + Z.max 1 (bp_chunk_days self) <= MAXORDINAL ->
  exists chunks, segment_jobs self cov ep digest complete ff ft seg = Ok (map (pending_job seg) chunks) /\
    (seg_id seg ∈ complete -> chunks = []) /\
    (seg_id seg ∉ complete -> (chunks = [] /\ forall d, ~ wanted ff ft sa sb d) \/
       exists a b, chunked a b chunks /\ sa <= a /\ b <= sb /\ forall d, wanted ff ft sa sb d <-> a <= d <= b).
Proof.
  intros Ha Hb Hmax. unfold segment_jobs. destruct (seg_id seg ∈? complete) eqn:Ec; bools.
  { exists []. done. }
  destruct (segment_window_spec ff ft seg sa sb Ha Hb) as (w & -> & Hw & Hbd). cbn [mbind result_bind].
  destruct w as [[a b]|].
  2:{ exists []. split; [done|]. split; [done|]. intros _. left. split; [done|]. intros d Hd.
      by apply Hw in Hd. }
  destruct (Hbd a b eq_refl) as (H1 & H2 & H3).
  apply parse_date_valid, valid_bounds in Ha. 
  destruct (segment_chunks_ok seg a b) as (chunks & -> & Hc); [lia..|]. cbn [mbind result_bind].
  exists chunks. split.
  - f_equal. apply chunk_jobs_pending. apply Forall_forall. intros c Hin.
    pose proof (chunked_bounds _ _ _ _ Hc Hin). lia.
  - split; [done|]. intros _. right. exists a, b. split_and!; [done|lia|lia|]. intros d. by rewrite Hw.
Qed.

(** Whatever the chunks, a job asks for wanted days of an incomplete segment. *)
Lemma segment_jobs_sound seg jobs : segment_jobs self cov ep digest complete ff ft seg = Ok jobs ->
  Forall (fun j => (seg_id seg ∉ complete) /\ exists sa sb a b, parse_date (seg_start seg) = Ok sa /\
    parse_date (seg_end seg) = Ok sb /\ j = pending_job seg (a, b) /\ a <= b /\
    valid_date a = true /\ valid_date b = true /\
    wanted ff ft sa sb a /\ wanted ff ft sa sb b) jobs.
Proof.
  unfold segment_jobs. destruct (seg_id seg ∈? complete) eqn:Ec; bools; [intros [= <-]; constructor|].
  intros H. apply bind_Ok in H as (w & Hw & H).
  destruct (parse_date (seg_start seg)) as [sa|] eqn:Ea; [|unfold segment_window in Hw; by rewrite Ea in Hw].
  destruct (parse_date (seg_end seg)) as [sb|] eqn:Eb;
    [|unfold segment_window in Hw; by rewrite Ea, Eb in Hw].
  destruct (segment_window_spec ff ft seg sa sb Ea Eb) as (w' & Ew & Hiff & Hbd).
  rewrite Ew in Hw. injection Hw as ->. destruct w as [[a b]|]; [|injection H as <-; constructor].
  destruct (Hbd a b eq_refl) as (H1 & H2 & H3). apply bind_Ok in H as (chunks & Hc & [= <-]).
  apply segment_chunks_within in Hc; [|lia]. rewrite chunk_jobs_pending.
  2:{ eapply Forall_impl; [exact Hc|]. simpl. intros c ?. lia. }
  apply parse_date_valid in Ea as Va, Eb as Vb.
  apply Forall_map. eapply Forall_impl; [exact Hc|]. intros [x y] Hxy. simpl in Hxy.
  split; [done|]. exists sa, sb, x, y. split_and!; try done; try lia; try (apply Hiff; simpl; lia);
    (apply (valid_between sa _ sb); [done|done|lia]).
Qed.
End JobLemmas.

(** ** The plan *)

Lemma job_leb_refl_total x y : job_leb x y = false -> job_leb y x = true.
Proof.
  unfold job_leb. rewrite (Z.compare_antisym (priority x) (priority y)).
  destruct (priority x ?= priority y); try done. simpl.
  rewrite (String.compare_antisym (job_dataset y) (job_dataset x)).
  destruct (String.compare (job_dataset x) (job_dataset y)); try done. apply string_leb_total.
Qed.

Lemma job_leb_trans x y z : job_leb x y = true -> job_leb y z = true -> job_leb x z = true.
Proof.
  unfold job_leb.
  destruct (Z.compare_spec (priority x) (priority y)) as [E1|E1|E1]; try done;
    destruct (Z.compare_spec (priority y) (priority z)) as [E2|E2|E2]; try done; intros H1 H2;
    destruct (Z.compare_spec (priority x) (priority z)) as [E3|E3|E3]; try done; try lia.
  destruct (String.compare (job_dataset x) (job_dataset y)) eqn:C1; try done;
    destruct (String.compare (job_dataset y) (job_dataset z)) eqn:C2; try done.
  - apply String.compare_eq_iff in C1 as ->. rewrite C2. by eapply string_leb_trans.
  - apply String.compare_eq_iff in C1 as ->. by rewrite C2.
  - apply String.compare_eq_iff in C2 as <-. by rewrite C1.
  - assert (String.ltb (job_dataset x) (job_dataset z) = true) as H.
    { apply string_ltb_leb_trans with (job_dataset y); [unfold String.ltb; by rewrite C1|].
      unfold String.leb. by rewrite C2. }
    unfold String.ltb in H. destruct (String.compare (job_dataset x) (job_dataset z)); done.
Qed.

#[export] Hint Resolve job_leb_refl_total job_leb_trans : qp.

Section PlanTheorems.
Context (date_matches : string -> list (Z * Z * Z)) (table_rows : string -> list string)
  (visible_text : string -> string) (capabilities : registry) (policies : coverage_registry)
  (COVERAGE_POLICY_VERSION : string) (sha256_hex : string -> string) (self : BackfillPlanner).

Abbreviation inventory_of := (required_of date_matches table_rows visible_text capabilities self).
Abbreviation jobs_of := (dataset_jobs date_matches table_rows visible_text capabilities self
  (contract_bundle_digest policies COVERAGE_POLICY_VERSION sha256_hex)).
Abbreviation planned := (plan date_matches table_rows visible_text capabilities policies
  COVERAGE_POLICY_VERSION sha256_hex self).
Abbreviation completed cov := (read_complete_segments (bp_db self) (cc_dataset_id cov)).
Abbreviation chosen datasets :=
  (filter (fun c => selected self (allow_set datasets) c = true) (all_coverage_contracts policies)).
Abbreviation invented cov :=
  (existsb (fun seg => invented_official_domain_without_v3 capabilities (cc_dataset_id cov) (seg_scope seg))).

Lemma required_within cov index_text req : valid_date (bp_cutoff self) = true ->
  inventory_of cov index_text = Ok req ->
  Forall (fun s => exists a b, covers s a b /\ valid_date a = true /\ valid_date b = true /\
    a <= b <= bp_cutoff self) req.
Proof.
  intros Hv H. unfold required_of in H.
  destruct (plan_required_segments _ _ _ _ _ _ _ _ _ _) as [segs|e] eqn:E.
  2:{ destruct (decide _); [|done]. injection H as <-. constructor. }
  injection H as ->. apply (plan_segments_within _ _ _ _ _ _ _ _ _ _ _ (bp_cutoff self)) in E
    as (start & Hs & Hle & Hw); [|by apply fromisoformat_isoformat].
  assert (Hh : exists h, fromisoformat (history_target_start cov) = Ok h).
  { unfold plan_start in Hs. apply bind_Ok in Hs as (h & ? & _). by exists h. }
  destruct Hh as [h Hh]. apply (plan_start_bounds cov _ None h) in Hs as (Hsh & _); [|done].
  apply fromisoformat_valid, valid_bounds in Hh. apply valid_bounds in Hv.
  eapply Forall_impl; [exact Hw|]. intros s (a & b & Hc & Ha & Hb). exists a, b.
  split_and!; try done; try (apply valid_bounds); lia.
Qed.

Lemma required_ok cov index_text : exists req, inventory_of cov index_text = Ok req.
Proof.
  unfold required_of.
  pose proof (raises_plan date_matches table_rows visible_text capabilities cov
    (isoformat (bp_cutoff self)) "jquants" None index_text None) as H.
  destruct (plan_required_segments _ _ _ _ _ _ _ _ _ _) as [req|e]; [by exists req|].
  simpl in H. rewrite decide_True by done. by exists [].
Qed.

Lemma covers_parse s a b : covers s a b -> valid_date a = true -> valid_date b = true ->
  parse_date (seg_start s) = Ok a /\ parse_date (seg_end s) = Ok b.
Proof. intros [-> ->] Ha Hb. by rewrite !parse_date_day. Qed.

Lemma dataset_jobs_ok cov ff ft index_text : valid_date (bp_cutoff self) = true ->
  bp_cutoff self + Z.max 1 (bp_chunk_days self) <= MAXORDINAL ->
  exists jobs, jobs_of ff ft index_text cov = Ok jobs.
Proof.
  intros Hv Hmax. unfold dataset_jobs. destruct (lookup_str _ _) as [ep|]; [|eauto].
  unfold jobs_from_required_segments. destruct (required_ok cov index_text) as [req Hreq].
  rewrite Hreq. cbn [mbind result_bind]. destruct (existsb _ req); [eauto|].
  enough (exists l, mapR (segment_jobs self cov ep (contract_bundle_digest policies COVERAGE_POLICY_VERSION
    sha256_hex) (completed cov) ff ft) req = Ok l) as [l ->] by (simpl; eauto).
  apply required_within in Hreq; [|done].
  induction Hreq as [|s req (a & b & Hc & Ha & Hb & Hle) _ IH]; simpl; [eauto|].
  destruct (covers_parse _ _ _ Hc Ha Hb) as [Pa Pb].
  destruct (segment_jobs_ok self cov ep (contract_bundle_digest policies COVERAGE_POLICY_VERSION sha256_hex)
    (completed cov) ff ft s a b Pa Pb) as (chunks & -> & _); [lia|].
  destruct IH as [l ->]. simpl. eauto.
Qed.

(** Planning returns: with filters that parse and a cutoff that leaves
    room for one chunk, no dataset makes it fail.  The jobs are those of the
    selected datasets, each once, in the order of priority, dataset and first
    day. *)
Theorem plan_returns (now : datetime) (datasets : option (list string))
    (from_date to_date index_text : option string) (ff ft : option date) :
  valid_date (bp_cutoff self) = true ->
  bp_cutoff self + Z.max 1 (bp_chunk_days self) <= MAXORDINAL ->
  optional_date from_date = Ok ff -> optional_date to_date = Ok ft ->
  exists p jobss, planned now datasets from_date to_date index_text = Ok p /\
    Forall2 (fun cov jobs => jobs_of ff ft index_text cov = Ok jobs) (chosen datasets) jobss /\
    plan_jobs p ≡ₚ concat jobss /\
    StronglySorted (fun x y => job_leb x y = true) (plan_jobs p).
Proof.
  intros Hv Hmax Hf Ht. unfold plan. rewrite Hf, Ht. cbn [mbind result_bind].
  enough (exists jobss, mapR (jobs_of ff ft index_text) (chosen datasets) = Ok jobss) as [jobss E].
  { rewrite E. cbn [mbind result_bind]. eexists _, jobss. split; [done|].
    split; [by apply mapR_Ok|]. split; [apply py_sorted_perm|].
    apply py_sorted_Sorted; eauto with qp. }
  induction (chosen datasets) as [|cov l [jobss IH]]; simpl; [eauto|].
  destruct (dataset_jobs_ok cov ff ft index_text Hv Hmax) as [jobs ->]. simpl. rewrite IH. simpl. eauto.
Qed.

Lemma plan_inv now datasets from_date to_date index_text ff ft p :
  optional_date from_date = Ok ff -> optional_date to_date = Ok ft ->
  planned now datasets from_date to_date index_text = Ok p ->
  (forall j, j ∈ plan_jobs p -> exists cov jobs, cov ∈ chosen datasets /\
     jobs_of ff ft index_text cov = Ok jobs /\ j ∈ jobs) /\
  (forall cov, cov ∈ chosen datasets -> exists jobs, jobs_of ff ft index_text cov = Ok jobs /\
     forall j, j ∈ jobs -> j ∈ plan_jobs p).
Proof.
  intros Hf Ht H. unfold plan in H. rewrite Hf, Ht in H. cbn [mbind result_bind] in H.
  apply bind_Ok in H as (jobss & H & [= <-]). apply mapR_Ok in H. simpl. split.
  - intros j Hj. apply elem_of_py_sorted, list_elem_of_In, in_concat in Hj as (jobs & Hin & Hj).
    apply list_elem_of_In, list_elem_of_lookup in Hin as [i Hi].
    eapply Forall2_lookup_r in H as (cov & Hcov & E); [|exact Hi].
    exists cov, jobs. split; [by eapply list_elem_of_lookup_2|]. split; [done|]. by apply list_elem_of_In.
  - intros cov Hcov. apply list_elem_of_lookup in Hcov as [i Hi].
    eapply Forall2_lookup_l in H as (jobs & Hjobs & E); [|exact Hi]. exists jobs. split; [done|].
    intros j Hj. apply elem_of_py_sorted, list_elem_of_In, in_concat. exists jobs.
    split; [|by apply list_elem_of_In]. apply list_elem_of_In. by eapply list_elem_of_lookup_2.
Qed.

(** A plan asks only for what it may: every job belongs to a selected,
    governed dataset of J-Quants.  It is either a failed placeholder, or a pending
    job for an interval of a required segment that the ledger does not hold as
    COMPLETE, within the run's window and never before the subscription floor. *)
Theorem plan_jobs_sound (now : datetime) (datasets : option (list string))
    (from_date to_date index_text : option string) (ff ft : option date) (p : BackfillPlan) :
  optional_date from_date = Ok ff -> optional_date to_date = Ok ft ->
  planned now datasets from_date to_date index_text = Ok p ->
  Forall (fun j => exists cov, cov ∈ all_coverage_contracts policies /\ governed cov = true /\
    is_jsda (cc_dataset_id cov) = false /\ job_dataset j = cc_dataset_id cov /\
    (forall l, allow_set datasets = Some l -> cc_dataset_id cov ∈ l) /\ attempt j = 0 /\
    (job_state j = fail /\ reason_code j = entitlement /\ job_segment_id j = "UNPLANNABLE" \/
     job_state j = pending /\ exists req seg sa sb a b,
       inventory_of cov index_text = Ok req /\ seg ∈ req /\ job_segment_id j = seg_id seg /\
       (seg_id seg ∉ completed cov) /\ parse_date (seg_start seg) = Ok sa /\
       parse_date (seg_end seg) = Ok sb /\ asks j a b /\ a <= b /\
       wanted ff ft sa sb a /\ wanted ff ft sa sb b)) (plan_jobs p).
Proof.
  intros Hf Ht H. apply (plan_inv _ _ _ _ _ ff ft) in H as [H _]; [|done..].
  apply Forall_forall. intros j Hj. destruct (H j Hj) as (cov & jobs & Hcov & E & Hin).
  apply list_elem_of_filter in Hcov as [Hsel Hcov]. exists cov. unfold selected in Hsel. bools.
  assert (Hallow : forall l, allow_set datasets = Some l -> cc_dataset_id cov ∈ l).
  { intros l Hl. rewrite Hl in *. by bools. }
  split; [done|]. split; [done|]. split; [done|]. unfold dataset_jobs in E.
  destruct (lookup_str _ _) as [ep|].
  2:{ injection E as <-. apply list_elem_of_singleton in Hin as ->. simpl. split_and!; try done. by left. }
  unfold jobs_from_required_segments in E. apply bind_Ok in E as (req & Hreq & E).
  destruct (existsb _ req).
  { injection E as <-. apply list_elem_of_singleton in Hin as ->. simpl. split_and!; try done. by left. }
  apply bind_Ok in E as (jobss & E%mapR_Ok & [= <-]).
  apply list_elem_of_In, in_concat in Hin as (l & Hl & Hin).
  apply list_elem_of_In, list_elem_of_lookup in Hl as [i Hi].
  eapply Forall2_lookup_r in E as (seg & Hseg & E); [|exact Hi].
  apply segment_jobs_sound in E. rewrite Forall_forall in E. apply list_elem_of_In in Hin.
  destruct (E j Hin) as (Hn & sa & sb & a & b & Pa & Pb & -> & Hle & Va & Vb & Wa & Wb).
  split; [done|]. split; [done|]. split; [done|]. right. split; [done|].
  exists req, seg, sa, sb, a, b. split_and!; try done. by eapply list_elem_of_lookup_2.
Qed.

(** Claim C35.  A plan misses nothing it should ask for: every day of a required
    segment that the ledger does not hold as COMPLETE, if it lies in the run's
    window and not before the subscription floor, is asked for by a pending job
    of that segment. *)
Theorem plan_covers (now : datetime) (datasets : option (list string))
    (from_date to_date index_text : option string) (ff ft : option date) (p : BackfillPlan)
    (cov : CollectionCoverageContract) (ep : EndpointCapability) (req : list RequiredCoverageSegment)
    (seg : RequiredCoverageSegment) (sa sb d : date) :
  optional_date from_date = Ok ff -> optional_date to_date = Ok ft ->
  planned now datasets from_date to_date index_text = Ok p ->
  cov ∈ chosen datasets -> lookup_str (cc_dataset_id cov) (bp_endpoints self) = Some ep ->
  inventory_of cov index_text = Ok req -> invented cov req = false -> seg ∈ req ->
  seg_id seg ∉ completed cov ->
  parse_date (seg_start seg) = Ok sa -> parse_date (seg_end seg) = Ok sb ->
  sb + Z.max 1 (bp_chunk_days self) <= MAXORDINAL -> wanted ff ft sa sb d ->
  exists j a b, j ∈ plan_jobs p /\ job_dataset j = cc_dataset_id cov /\ job_segment_id j = seg_id seg /\
    job_state j = pending /\ asks j a b /\ a <= d <= b.
Proof.
  intros Hf Ht H Hcov Hep Hreq Hinv Hseg Hn Pa Pb Hmax Hd.
  apply (plan_inv _ _ _ _ _ ff ft) in H as [_ H]; [|done..].
  destruct (H cov Hcov) as (jobs & E & Hall). unfold dataset_jobs in E. rewrite Hep in E.
  unfold jobs_from_required_segments in E. rewrite Hreq in E. cbn [mbind result_bind] in E.
  rewrite Hinv in E. apply bind_Ok in E as (jobss & E%mapR_Ok & [= <-]).
  apply list_elem_of_lookup in Hseg as [i Hi]. eapply Forall2_lookup_l in E as (l & Hl & E); [|exact Hi].
  destruct (segment_jobs_ok self cov ep (contract_bundle_digest policies COVERAGE_POLICY_VERSION sha256_hex)
    (completed cov) ff ft seg sa sb Pa Pb Hmax) as (chunks & E' & _ & Hc).
  rewrite E' in E. injection E as <-. destruct (Hc Hn) as [[_ Hno]|(a & b & Hch & Hsa & Hsb & Hw)];
    [by destruct (Hno d)|].
  apply Hw in Hd as Hdd. destruct (chunked_day _ _ _ _ Hch Hdd) as ([x y] & Hin & Hxy). simpl in Hxy.
  pose proof (chunked_bounds _ _ _ _ Hch Hin) as Hb. simpl in Hb.
  apply parse_date_valid in Pa, Pb.
  exists (pending_job cov ep (contract_bundle_digest policies COVERAGE_POLICY_VERSION sha256_hex) seg (x, y)), x, y.
  split_and!; try done; try lia.
  - apply Hall, list_elem_of_In, in_concat. eexists.
    split; [apply list_elem_of_In; by eapply list_elem_of_lookup_2|].
    apply list_elem_of_In, list_elem_of_fmap. by exists (x, y).
  - split; (split; [|done]); (apply (valid_between sa _ sb); [done|done|lia]).
Qed.
End PlanTheorems.

(** ** Worker summaries *)

(** What the summary says of its status and of its error. *)
Definition summary_status (summary : dict) : string :=
  lower (py_str (or_ (getv "status" summary) (JStr ""))).

Definition edge_refusal (summary : dict) : bool :=
  let d := py_str (or_ (or_ (getv "error" summary) (getv "detail" summary)) (JStr "")) in
  str_contains "edge_forbidden" d || str_contains "html" (lower d).

(** The outcome of one branch. *)
Ltac outcome :=
  simpl; split_and!; try done;
  solve [repeat constructor | split; [intros [=] | intros; destruct_and?; destruct_or?; destruct_and?; congruence]
        | split; intros; auto].

(** The outcome of a job follows from the HTTP status and the summary:
    it is pass only for HTTP 200 with status pass, partial only for 200 with
    status partial, retried only after 429 or an edge refusal, and failed
    otherwise; nothing else of the job changes. *)
Theorem worker_summary_spec (j : BackfillJob) (summary : dict) (http : Z) :
  let j' := (apply_worker_summary j summary http).1 in
  (job_state j' = pass <-> http = 200 /\ summary_status summary = "pass") /\
  (job_state j' = partial <-> http = 200 /\ summary_status summary = "partial") /\
  (job_state j' = retry <-> http = 429 \/ http = 403 /\ edge_refusal summary = true) /\
  (job_state j' ∈ [pass; partial; retry; fail]) /\
  (reason_code j' = ok <-> job_state j' = pass) /\
  j' = set_outcome j (job_state j') (reason_code j') (detail j').
Proof.
  cbv zeta. unfold apply_worker_summary.
  destruct (Z.eqb_spec http 429) as [->|H1]; [outcome|].
  destruct (Z.eqb_spec http 401) as [->|H2]; [outcome|].
  destruct (Z.eqb_spec http 403) as [->|H3].
  { fold (edge_refusal summary). destruct (edge_refusal summary); outcome. }
  destruct (Z.eqb_spec http 200) as [->|H4]; cbn [negb]; [|outcome].
  fold (summary_status summary). destruct (summary_status summary =s "pass") eqn:E1; bools; [outcome|].
  destruct (summary_status summary =s "partial") eqn:E2; bools; [outcome|].
  destruct (summary_status summary =s "fail"); [|outcome].
  destruct (py_slice_to _ 3); outcome.
Qed.

(** ** Status *)

Lemma filter_length_all {A} (P : A -> Prop) `{forall x, Decision (P x)} (l : list A) :
  length (filter P l) = length l <-> Forall P l.
Proof.
  induction l as [|x l IH]; [done|]. rewrite filter_cons. destruct (decide (P x)) as [Hx|Hx]; simpl.
  - rewrite Forall_cons, <- IH. split; [intros [= ->]; auto|intros [_ ->]; done].
  - pose proof (length_filter P l). rewrite Forall_cons. split; [lia|naive_solver].
Qed.

(** The status report has one row per governed dataset, in order.  A row
    says COVERAGE_COMPLETE exactly when the ledger was read and holds rows of the
    dataset, every one of them COMPLETE; the counts are those of the rows. *)
Theorem status_rows_spec (policies : coverage_registry) (conn : option connection) :
  Forall2 (fun cov row => st_dataset row = cc_dataset_id cov /\
    0 <= complete_segments row <= required_segments row /\
    (st_state row = "COVERAGE_COMPLETE" <-> exists rows, conn = Some (Some rows) /\
       dataset_rows rows (cc_dataset_id cov) <> [] /\
       Forall (fun r => row_status r = "COMPLETE") (dataset_rows rows (cc_dataset_id cov))) /\
    (st_state row = "PARTIAL" -> 0 < complete_segments row < required_segments row))
    (filter (fun c => governed c = true) (all_coverage_contracts policies))
    (backfill_status_rows policies conn).
Proof.
  unfold backfill_status_rows. apply Forall2_fmap_r, Forall_Forall2_diag, Forall_true. intros cov. unfold compose.
  assert (Hp : forall ds, pending_state ds <> "COVERAGE_COMPLETE" /\ pending_state ds <> "PARTIAL")
    by (intros ds; unfold pending_state; by destruct (is_jsda ds)).
  destruct (Hp (cc_dataset_id cov)) as [Hp1 Hp2]. unfold status_row. cbv beta zeta.
  destruct conn as [[rows|]|] eqn:Ec; [|simpl; split_and!; try done; split; [done|by intros (? & ? & _)]..].
  rewrite <- Ec.
  set (l := dataset_rows rows (cc_dataset_id cov)).
  assert (Hlen : (length (complete_rows l) <= length l)%nat) by apply length_filter.
  assert (Hall : length (complete_rows l) = length l <-> Forall (fun r => row_status r = "COMPLETE") l).
  { apply filter_length_all. }
  assert (Hnil : l = [] <-> length l = 0%nat) by (destruct l; done).
  assert (Hex : (exists rows', conn = Some (Some rows') /\ dataset_rows rows' (cc_dataset_id cov) <> [] /\
    Forall (fun r => row_status r = "COMPLETE") (dataset_rows rows' (cc_dataset_id cov))) <->
    length l <> 0%nat /\ length (complete_rows l) = length l) by (unfold l in *; rewrite <- Hnil, Hall; naive_solver).
  subst conn. clearbody l. clear Hall Hnil.
  destruct (Z.eqb_spec (Z.of_nat (length l)) 0) as [E0|E0];
    [|rewrite (proj2 (Z.ltb_lt 0 _)) by lia; cbn [andb];
      destruct (Z.eqb_spec (Z.of_nat (length (complete_rows l))) (Z.of_nat (length l))) as [E1|E1];
      [|destruct (Z.ltb_spec 0 (Z.of_nat (length (complete_rows l))))]];
    cbn [st_dataset st_state complete_segments required_segments]; split_and!; try done; try lia;
    split; (done || (intros _; apply Hex; lia) || (intros Hx%Hex; lia) || (intros H'; by destruct (Hp1 H'))).
Qed.

(** ** Witnesses *)

Definition sample_policies : coverage_registry := [("equities_master", sample_policy)].

Definition sample_premium : dict :=
  [("datasets", JList [JDict [("dataset_id", JStr "equities_master"); ("path", JStr "/equities/master");
     ("date_mode", JStr "today"); ("params", JList [JStr "date"])]])].

Definition sample_planner : BackfillPlanner :=
  mkPlanner 733269 (Some (Some [mkSegmentRow "equities_master" "2008-06" "COMPLETE"])) ["jquants"] 7 false
    [("equities_master", mkEndpoint "equities_master" "/equities/master" "today" ["date"] "jquants")].

Example sample_planner_new :
  new_planner 733270 None (Some (Some [mkSegmentRow "equities_master" "2008-06" "COMPLETE"])) ["jquants"] 7
    false sample_premium = Ok sample_planner.
Proof. by vm_compute. Qed.

Definition no_digest (s : string) : string := s.

Abbreviation sample_plan_of := (plan no_dates no_rows same_text sample_registry sample_policies
  "collection-coverage/v3" no_digest sample_planner 0 (Some ["equities_master"]) (Some "2008-05-10") None None).
Abbreviation sample_required_of := (required_of no_dates no_rows same_text sample_registry sample_planner
  sample_policy None).

Definition sample_plan : BackfillPlan :=
  match sample_plan_of with Ok p => p | Err _ => mkPlan "" "" "" "" "" [] end.

Definition sample_required : list RequiredCoverageSegment :=
  match sample_required_of with Ok l => l | Err _ => [] end.

Definition sample_segment : RequiredCoverageSegment :=
  default (mkSegment "" "" "" "" "" [] None) (head sample_required).

Example sample_plan_jobs :
  map (fun j => (job_segment_id j, requested_from j, requested_to j)) (plan_jobs sample_plan) =
  [("2008-05", "2008-05-10", "2008-05-16"); ("2008-05", "2008-05-17", "2008-05-23");
   ("2008-05", "2008-05-24", "2008-05-30"); ("2008-05", "2008-05-31", "2008-05-31");
   ("2008-07", "2008-07-01", "2008-07-07"); ("2008-07", "2008-07-08", "2008-07-14");
   ("2008-07", "2008-07-15", "2008-07-21"); ("2008-07", "2008-07-22", "2008-07-28");
   ("2008-07", "2008-07-29", "2008-07-31"); ("2008-08", "2008-08-01", "2008-08-07");
   ("2008-08", "2008-08-08", "2008-08-14"); ("2008-08", "2008-08-15", "2008-08-15")].
Proof. by vm_compute. Qed.

Lemma plan_returns_witness :
  exists p jobss, sample_plan_of = Ok p /\
    Forall2 (fun cov jobs => dataset_jobs no_dates no_rows same_text sample_registry sample_planner
        (contract_bundle_digest sample_policies "collection-coverage/v3" no_digest) (Some 733172) None None cov
      = Ok jobs)
      (filter (fun c => selected sample_planner (allow_set (Some ["equities_master"])) c = true)
         (all_coverage_contracts sample_policies)) jobss /\
    plan_jobs p ≡ₚ concat jobss /\ StronglySorted (fun x y => job_leb x y = true) (plan_jobs p).
Proof.
  apply (plan_returns no_dates no_rows same_text sample_registry sample_policies "collection-coverage/v3"
    no_digest sample_planner 0 (Some ["equities_master"]) (Some "2008-05-10") None None (Some 733172) None).
  - by vm_compute.
  - by vm_compute.
  - by vm_compute.
  - by vm_compute.
Defined.

Lemma plan_jobs_sound_witness :
  Forall (fun j => exists cov, cov ∈ all_coverage_contracts sample_policies /\ governed cov = true /\
    is_jsda (cc_dataset_id cov) = false /\ job_dataset j = cc_dataset_id cov /\
    (forall l, allow_set (Some ["equities_master"]) = Some l -> cc_dataset_id cov ∈ l) /\ attempt j = 0 /\
    (job_state j = fail /\ reason_code j = entitlement /\ job_segment_id j = "UNPLANNABLE" \/
     job_state j = pending /\ exists req seg sa sb a b,
       required_of no_dates no_rows same_text sample_registry sample_planner cov None = Ok req /\
       seg ∈ req /\ job_segment_id j = seg_id seg /\
       (seg_id seg ∉ read_complete_segments (bp_db sample_planner) (cc_dataset_id cov)) /\
       parse_date (seg_start seg) = Ok sa /\ parse_date (seg_end seg) = Ok sb /\ asks j a b /\ a <= b /\
       wanted (Some 733172) None sa sb a /\ wanted (Some 733172) None sa sb b)) (plan_jobs sample_plan).
Proof.
  apply (plan_jobs_sound no_dates no_rows same_text sample_registry sample_policies "collection-coverage/v3"
    no_digest sample_planner 0 (Some ["equities_master"]) (Some "2008-05-10") None None (Some 733172) None).
  - by vm_compute.
  - by vm_compute.
  - by vm_compute.
Defined.

Lemma plan_covers_witness :
  exists j a b, j ∈ plan_jobs sample_plan /\ job_dataset j = "equities_master" /\
    job_segment_id j = seg_id sample_segment /\ job_state j = pending /\ asks j a b /\ a <= 733180 <= b.
Proof.
  apply (plan_covers no_dates no_rows same_text sample_registry sample_policies "collection-coverage/v3"
    no_digest sample_planner 0 (Some ["equities_master"]) (Some "2008-05-10") None None (Some 733172) None
    sample_plan sample_policy
    (mkEndpoint "equities_master" "/equities/master" "today" ["date"] "jquants") sample_required
    sample_segment 733169 733193 733180).
  - by vm_compute.
  - by vm_compute.
  - by vm_compute.
  - apply (bool_decide_unpack _). by vm_compute.
  - by vm_compute.
  - by vm_compute.
  - by vm_compute.
  - apply (bool_decide_unpack _). by vm_compute.
  - apply (bool_decide_unpack _). by vm_compute.
  - by vm_compute.
  - by vm_compute.
  - by vm_compute.
  - split; [lia|]. split; [by vm_compute|]. split; [intros f [= <-]; lia|done].
Defined.
