(* ===== verification/RateLimit.v ===== *)
(** * RateLimit: the minimum-interval limiter
    (packages/data_plane/ingestion/common/rate_limit.py)

    Python floats are IEEE binary64 numbers, here the standard library's
    [spec_float] with precision 53 and exponent bound 1024, so that sums and
    comparisons round and treat NaN as the program's do.  The clock is an
    argument of each call; the lock makes a run of concurrent callers a list of
    calls, one after the other. *)

From S2P Require Import Prelude.
From Stdlib Require Export SpecFloat.

Local Open Scope Z_scope.

(** ** Floats *)

Abbreviation pyfloat := spec_float (only parsing).

(** [float(n)] of an integer. *)
Definition float_of_Z (n : Z) : pyfloat := binary_normalize 53 1024 n 0 false.

Definition fadd (a b : pyfloat) : pyfloat := SFadd 53 1024 a b.
Definition fsub (a b : pyfloat) : pyfloat := SFsub 53 1024 a b.
Definition fdiv (a b : pyfloat) : pyfloat := SFdiv 53 1024 a b.

Definition fzero : pyfloat := S754_zero false.

(** ** The limiter *)

Record RateLimiter := mkLimiter {
  rl_min : pyfloat;
  next_allowed : option pyfloat;
}.

(** [RateLimiter(seconds)]; [max(0.0, x)] keeps [0.0] unless [x > 0.0]. *)
Definition new_limiter (seconds : pyfloat) : RateLimiter :=
  mkLimiter (if SFltb fzero seconds then seconds else fzero) None.

(** [acquire] at the clock reading [now]: the seconds slept and the limiter. *)
Definition acquire (l : RateLimiter) (now : pyfloat) : pyfloat * RateLimiter :=
  if SFleb (rl_min l) fzero then (fzero, mkLimiter (rl_min l) (Some now))
  else
    match next_allowed l with
    | Some next =>
        if SFleb next now then (fzero, mkLimiter (rl_min l) (Some (fadd now (rl_min l))))
        else (fsub next now, mkLimiter (rl_min l) (Some (fadd next (rl_min l))))
    | None => (fzero, mkLimiter (rl_min l) (Some (fadd now (rl_min l))))
    end.

(** The instant a call reserves: now if the slot is free, else the next one. *)
Definition reserved (l : RateLimiter) (now : pyfloat) : pyfloat :=
  match next_allowed l with
  | Some next => if SFleb next now then now else next
  | None => now
  end.

(** ** Spacing *)

(** The later instant is the earlier one plus the interval, or after that. *)
Definition apart (min_interval earlier later : pyfloat) : Prop :=
  later = fadd earlier min_interval \/ SFleb (fadd earlier min_interval) later = true.

(** Neighbours in the list are an interval apart; the head is the latest. *)
Fixpoint spaced (min_interval : pyfloat) (slots : list pyfloat) : Prop :=
  match slots with
  | later :: ((earlier :: _) as rest) => apart min_interval earlier later /\ spaced min_interval rest
  | _ => True
  end.

(** The slots reserved so far are spaced, and the limiter holds the instant an
    interval after the latest of them. *)
Definition limiter_inv (l : RateLimiter) (slots : list pyfloat) : Prop :=
  spaced (rl_min l) slots /\
  next_allowed l = match slots with [] => None | s :: _ => Some (fadd s (rl_min l)) end.

Lemma acquire_min l now : rl_min (acquire l now).2 = rl_min l.
Proof. unfold acquire. by repeat case_match. Qed.

Lemma limiter_inv_new seconds : limiter_inv (new_limiter seconds) [].
Proof. done. Qed.

Lemma acquire_inv l slots now : SFleb (rl_min l) fzero = false -> limiter_inv l slots ->
  limiter_inv (acquire l now).2 (reserved l now :: slots).
Proof.
  intros Hm [Hs Hn]. unfold acquire, reserved, limiter_inv. rewrite Hm.
  destruct (next_allowed l) as [next|] eqn:E; destruct slots as [|s slots]; try done; simplify_eq.
  destruct (SFleb _ now) eqn:El; cbn [snd rl_min next_allowed spaced]; (split; [|done]); (split; [|done]).
  - by right.
  - by left.
Qed.

(** The slots of a run of calls, the latest first. *)
Fixpoint run_slots (l : RateLimiter) (slots clock : list pyfloat) : list pyfloat :=
  match clock with
  | [] => slots
  | now :: clock => run_slots (acquire l now).2 (reserved l now :: slots) clock
  end.

(** The waits of a run of calls, in order. *)
Fixpoint run_waits (l : RateLimiter) (clock : list pyfloat) : list pyfloat :=
  match clock with
  | [] => []
  | now :: clock => (acquire l now).1 :: run_waits (acquire l now).2 clock
  end.

Lemma run_slots_inv l slots clock : SFleb (rl_min l) fzero = false -> limiter_inv l slots ->
  spaced (rl_min l) (run_slots l slots clock).
Proof.
  revert l slots. induction clock as [|now clock IH]; intros l slots Hm Hi; simpl; [apply Hi|].
  rewrite <- (acquire_min l now). apply IH; [by rewrite acquire_min|]. by apply acquire_inv.
Qed.

(** A limiter with a positive interval spaces the calls of all its
    callers: whatever the clock reads, each reserved instant is the previous one
    plus the interval or a later one, and the first call does not wait.  Without
    an interval no call waits. *)
Theorem limiter_spaces (seconds : pyfloat) (clock : list pyfloat) :
  if SFleb (rl_min (new_limiter seconds)) fzero
  then Forall (fun w => w = fzero) (run_waits (new_limiter seconds) clock)
  else spaced (rl_min (new_limiter seconds)) (run_slots (new_limiter seconds) [] clock) /\
       length (run_slots (new_limiter seconds) [] clock) = length clock /\
       (forall w, head (run_waits (new_limiter seconds) clock) = Some w -> w = fzero).
Proof.
  destruct (SFleb _ _) eqn:E.
  - revert E. generalize (new_limiter seconds). induction clock as [|now clock IH]; intros l E; simpl; [done|].
    constructor; [unfold acquire; by rewrite E|]. apply IH. by rewrite acquire_min.
  - split; [by apply run_slots_inv, limiter_inv_new|]. split.
    + enough (forall l s, length (run_slots l s clock) = (length s + length clock)%nat) as H by apply H.
      induction clock as [|now clock IH]; intros l s; simpl; [lia|]. rewrite IH. simpl. lia.
    + destruct clock as [|now clock]; simpl; [done|]. unfold acquire. rewrite E. simpl. by intros w [= <-].
Qed.

Example limiter_example :
  let l := new_limiter (float_of_Z 2) in
  run_slots l [] [float_of_Z 10; float_of_Z 10; float_of_Z 15] =
    [float_of_Z 15; float_of_Z 12; float_of_Z 10] /\
  run_waits l [float_of_Z 10; float_of_Z 10; float_of_Z 15] = [fzero; float_of_Z 2; fzero].
Proof. by vm_compute. Qed.
