(* ===== verification/RangeBatch.v ===== *)
(** * RangeBatch: the range-batch scheduler
    (packages/data_plane/ops/range_batch_scheduler.py)

    The jobs of a backfill plan are filtered, assigned to one of two rate pools
    and, when execution is asked for, dispatched by a thread pool.  The
    execution is a step relation: a step takes the next submitted task, passes
    its pool's semaphore, reserves a slot of its pool's limiter, or ends the
    call.  What the callback returns or raises is an argument of the step. *)

From S2P Require Import Prelude PyDate PyTime Json SourceCapability CoverageContract CoveragePlan.
From S2P Require Import Backfill RateLimit.

Local Open Scope Z_scope.

Definition RATE_POOL_GENERAL : string := "general".
Definition RATE_POOL_FINS : string := "fins".

Definition SCHEDULER_VERSION : string := "range-batch-scheduler/v1".

Definition TRACK_A_DATASETS : list string :=
  ["equities_bars_daily"; "indices_bars_daily_topix"; "markets_breakdown"; "fins_summary";
   "equities_master"; "markets_margin_interest"].

(** The last day of each focus range. *)
Definition TRACK_A_ENDS : list (string * string) :=
  [("equities_bars_daily", "2023-12-31"); ("indices_bars_daily_topix", "2099-12-31");
   ("markets_breakdown", "2099-12-31"); ("fins_summary", "2099-12-31");
   ("equities_master", "2099-12-31"); ("markets_margin_interest", "2099-12-31")].

(** [TRACK_A_FOCUS_RANGES], evaluated with the coverage policies when the module
    is loaded. *)
Definition track_a_focus_ranges (policies : coverage_registry) : result (list (string * (string * string))) :=
  mapR (fun '(dataset, last) =>
    policy ← coverage_contract_for policies dataset;
    Ok (dataset, (history_target_start policy, last))) TRACK_A_ENDS.

Definition rate_pool_for_dataset (dataset_id : string) : string :=
  if starts_with "fins_" dataset_id then RATE_POOL_FINS else RATE_POOL_GENERAL.

Definition rpm_to_min_interval (rpm : option pyfloat) : pyfloat :=
  match rpm with
  | None => fzero
  | Some rpm => if SpecFloat.SFleb rpm fzero then fzero else fdiv (float_of_Z 60) rpm
  end.

Record SchedulerConfig := mkConfig {
  general_rpm : pyfloat;
  fins_rpm : pyfloat;
  general_workers : Z;
  fins_workers : Z;
  max_jobs : Z;
  execute : bool;
  sleep_on_retry_s : pyfloat;
  request_timeout_s : Z;
}.

Definition default_config : SchedulerConfig :=
  mkConfig (float_of_Z 495) (float_of_Z 495) 12 6 0 false (float_of_Z 2) 600.

Record ScheduledJob := mkScheduled {
  sj_job : BackfillJob;
  sj_pool : string;
  queue_index : Z;
}.

Definition scheduled_to_dict (s : ScheduledJob) : dict :=
  dict_set "queue_index" (JInt (queue_index s))
    (dict_set "rate_pool" (JStr (sj_pool s)) (job_to_dict (sj_job s))).

(** The dicts of counters a result holds. *)
Definition counter : Type := list (string * Z).

(** [d[k] = d.get(k, 0) + 1] *)
Definition count (d : counter) (k : string) : counter :=
  dict_set k (default 0 (lookup_str k d) + 1) d.

Record SchedulerResult := mkResult {
  mode : string;
  sr_config : SchedulerConfig;
  sr_contract_digest : string;
  sr_cutoff : string;
  queued : list dict;
  executed : list dict;
  skipped : Z;
  counts_by_pool : counter;
  counts_by_dataset : counter;
  counts_by_state : counter;
  notes : list string;
}.

(** ** The queue *)

(** The dataset filter: no restriction, the focus list, the caller's list or
    what both have in common. *)
Definition filter_allow (track_a : bool) (datasets : option (list string)) : option (list string) :=
  let allow := if track_a then Some TRACK_A_DATASETS else None in
  match datasets with
  | None | Some [] => allow
  | Some ds =>
      let extra := map strip (filter (fun d => blank d = false) ds) in
      Some (match allow with
            | None => extra
            | Some a => filter (fun d => d ∈ extra) a
            end)
  end.

Definition job_selected (focus : list (string * (string * string))) (allow : option (list string))
    (from_d to_d : option date) (track_a apply_focus : bool) (job : BackfillJob) : result bool :=
  if match allow with Some l => negb (job_dataset job ∈? l) | None => false end then Ok false
  else
    j_from ← parse_date (requested_from job);
    j_to ← parse_date (requested_to job);
    if match from_d with Some f => j_to <? f | None => false end then Ok false
    else if match to_d with Some t => t <? j_from | None => false end then Ok false
    else
      match lookup_str (job_dataset job) focus with
      | Some (fa, ta) =>
          if track_a && apply_focus then
            fa_d ← fromisoformat fa;
            ta_d ← fromisoformat ta;
            Ok (negb ((j_to <? fa_d) || (ta_d <? j_from)))
          else Ok true
      | None => Ok true
      end.

(** Keep a job that is later than the one the dataset has. *)
Definition later_job (by_ds : list (string * BackfillJob)) (job : BackfillJob) : list (string * BackfillJob) :=
  match lookup_str (job_dataset job) by_ds with
  | None => dict_set (job_dataset job) job by_ds
  | Some prev => if String.ltb (requested_from prev) (requested_from job)
                 then dict_set (job_dataset job) job by_ds else by_ds
  end.

Definition latest_jobs (jobs : list BackfillJob) : list BackfillJob :=
  py_sorted job_leb (map snd (fold_left later_job jobs [])).

Definition filter_plan_jobs (focus : list (string * (string * string))) (plan : BackfillPlan)
    (datasets : option (list string)) (from_date to_date : option string)
    (track_a latest_only apply_focus : bool) : result (list BackfillJob) :=
  let allow := filter_allow track_a datasets in
  from_d ← optional_date from_date;
  to_d ← optional_date to_date;
  selected ← filterR (job_selected focus allow from_d to_d track_a apply_focus) (pending_jobs plan);
  Ok (if latest_only && negb (bool_decide (selected = [])) then latest_jobs selected else selected).

Fixpoint build_from (i : Z) (max_jobs : Z) (jobs : list BackfillJob) : list ScheduledJob :=
  match jobs with
  | [] => []
  | job :: jobs =>
      if negb (max_jobs =? 0) && (max_jobs <=? i) then []
      else mkScheduled job (rate_pool_for_dataset (job_dataset job)) i :: build_from (i + 1) max_jobs jobs
  end.

(** The queue index is the number of jobs queued before. *)
Definition build_queue (jobs : list BackfillJob) (max_jobs : Z) : list ScheduledJob :=
  build_from 0 max_jobs jobs.

(** ** Execution *)

Inductive phase :=
  | Submitted     (* in the thread pool's queue *)
  | Blocked       (* on a thread, before the semaphore of its pool *)
  | Dispatching   (* holding the semaphore, before the limiter *)
  | Calling       (* the slot reserved, the request under way *)
  | Finished
  | Raised (e : exn).

Record task := mkTask { t_sched : ScheduledJob; t_phase : phase; t_started_at : string }.

Record exec := mkExec {
  tasks : list task;
  limiter_general : RateLimiter;
  limiter_fins : RateLimiter;
  slots_general : list pyfloat;   (* the slots reserved so far, the latest first *)
  slots_fins : list pyfloat;
  executed_rows : list dict;
  state_lines : list dict;        (* the rows written to the state file *)
}.

(** [s.job = j], seen through the queue entry. *)
Definition with_job (s : ScheduledJob) (j : BackfillJob) : ScheduledJob :=
  mkScheduled j (sj_pool s) (queue_index s).

Definition FORBIDDEN_KEY_PARTS : list string := ["token"; "secret"; "authorization"].

Definition safe_key (k : string) : bool :=
  negb (existsb (fun part => str_contains part (lower k)) FORBIDDEN_KEY_PARTS).

Definition executed_row (s : ScheduledJob) (started_at finished_at : string) (code : Z) : dict :=
  filter (fun p => safe_key p.1 = true)
    (dict_set "http_status" (JInt code)
      (dict_set "finished_at" (JStr finished_at)
        (dict_set "started_at" (JStr started_at) (scheduled_to_dict s)))).

(** How the callback ends: HTTP status and summary, or an exception. *)
Abbreviation response := (result (Z * dict)) (only parsing).

(** What follows the callback: the job, and the row to append or the exception. *)
Definition finish_dispatch (s : ScheduledJob) (started_at finished_at : string) (r : response)
    : ScheduledJob * result dict :=
  match r with
  | Err e => (s, Err e)
  | Ok (code, summary) =>
      let '(job, outcome) := apply_worker_summary (sj_job s) summary code in
      let s := with_job s job in
      (s, match outcome with
          | Ok _ => Ok (executed_row s started_at finished_at code)
          | Err e => Err e
          end)
  end.

Definition active (t : task) : bool :=
  match t_phase t with Blocked | Dispatching | Calling => true | _ => false end.

Definition holding (t : task) : bool :=
  match t_phase t with Dispatching | Calling => true | _ => false end.

Definition submitted (t : task) : bool :=
  match t_phase t with Submitted => true | _ => false end.

Definition ended (t : task) : bool :=
  match t_phase t with Finished | Raised _ => true | _ => false end.

Definition in_pool (pool : string) (t : task) : bool := sj_pool (t_sched t) =s pool.

Definition count_if (f : task -> bool) (l : list task) : Z := Z.of_nat (length (filter (fun t => f t = true) l)).

(** [max(1, workers)] *)
Definition cap (workers : Z) : Z := Z.max 1 workers.

Section Scheduler.
Variable config : SchedulerConfig.
Variable write_state : bool.       (* a state path is given *)

Definition pool_cap (pool : string) : Z :=
  if pool =s RATE_POOL_GENERAL then cap (general_workers config) else cap (fins_workers config).

Definition max_threads : Z := cap (general_workers config) + cap (fins_workers config).

(** The queue entries in the order of submission. *)
Definition submission_order (queue : list ScheduledJob) : list ScheduledJob :=
  filter (fun s => sj_pool s = RATE_POOL_GENERAL) queue ++
  filter (fun s => sj_pool s = RATE_POOL_FINS) queue.

Definition init_exec (queue : list ScheduledJob) : exec :=
  mkExec (map (fun s => mkTask s Submitted "") (submission_order queue))
    (new_limiter (rpm_to_min_interval (Some (general_rpm config))))
    (new_limiter (rpm_to_min_interval (Some (fins_rpm config)))) [] [] [] [].

Definition set_task (st : exec) (i : nat) (t : task) : exec :=
  mkExec (<[i := t]> (tasks st)) (limiter_general st) (limiter_fins st) (slots_general st)
    (slots_fins st) (executed_rows st) (state_lines st).

(** Reserve a slot of the pool's limiter at the clock reading [now]. *)
Definition reserve (st : exec) (pool : string) (now : pyfloat) : exec :=
  if pool =s RATE_POOL_GENERAL then
    mkExec (tasks st) (acquire (limiter_general st) now).2 (limiter_fins st)
      (reserved (limiter_general st) now :: slots_general st) (slots_fins st) (executed_rows st) (state_lines st)
  else
    mkExec (tasks st) (limiter_general st) (acquire (limiter_fins st) now).2
      (slots_general st) (reserved (limiter_fins st) now :: slots_fins st) (executed_rows st) (state_lines st).

Definition append_row (st : exec) (row : dict) : exec :=
  mkExec (tasks st) (limiter_general st) (limiter_fins st) (slots_general st) (slots_fins st)
    (executed_rows st ++ [row]) (if write_state then state_lines st ++ [row] else state_lines st).

Inductive step : exec -> exec -> Prop :=
  (* a free thread takes the first submitted task *)
  | step_take st i t :
      tasks st !! i = Some t -> t_phase t = Submitted ->
      (forall j u, tasks st !! j = Some u -> (j < i)%nat -> submitted u = false) ->
      count_if active (tasks st) < max_threads ->
      step st (set_task st i (mkTask (t_sched t) Blocked ""))
  (* the pool's semaphore has a permit *)
  | step_enter st i t now :
      tasks st !! i = Some t -> t_phase t = Blocked ->
      count_if (fun u => holding u && in_pool (sj_pool (t_sched t)) u) (tasks st) < pool_cap (sj_pool (t_sched t)) ->
      step st (set_task st i
        (mkTask (with_job (t_sched t) (start_attempt (sj_job (t_sched t)))) Dispatching (dt_isoformat now)))
  (* the limiter's slot is reserved, under its lock *)
  | step_reserve st i t now :
      tasks st !! i = Some t -> t_phase t = Dispatching ->
      step st (reserve (set_task st i (mkTask (t_sched t) Calling (t_started_at t))) (sj_pool (t_sched t)) now)
  (* the request ends, and with it the task *)
  | step_finish st i t r now s row :
      tasks st !! i = Some t -> t_phase t = Calling ->
      finish_dispatch (t_sched t) (t_started_at t) (dt_isoformat now) r = (s, Ok row) ->
      step st (append_row (set_task st i (mkTask s Finished (t_started_at t))) row)
  | step_raise st i t r now s e :
      tasks st !! i = Some t -> t_phase t = Calling ->
      finish_dispatch (t_sched t) (t_started_at t) (dt_isoformat now) r = (s, Err e) ->
      step st (set_task st i (mkTask s (Raised e) (t_started_at t))).

Inductive reachable (queue : list ScheduledJob) : exec -> Prop :=
  | reachable_init : reachable queue (init_exec queue)
  | reachable_step st st' : reachable queue st -> step st st' -> reachable queue st'.

Definition all_ended (st : exec) : bool := forallb ended (tasks st).
End Scheduler.

(** ** The scheduler *)

Record RangeBatchScheduler := mkScheduler {
  rb_plan : BackfillPlan;
  rb_config : SchedulerConfig;
  rb_has_run_job : bool;        (* a callback was given *)
  rb_token : string;
}.

Section Run.
Variable focus : list (string * (string * string)).
Variable self : RangeBatchScheduler.

Definition queue (datasets : option (list string)) (from_date to_date : option string)
    (track_a latest_only : bool) : result (list ScheduledJob) :=
  jobs ← filter_plan_jobs focus (rb_plan self) datasets from_date to_date track_a latest_only true;
  Ok (build_queue jobs (max_jobs (rb_config self))).

(** The result before anything is dispatched. *)
Definition queued_result (q : list ScheduledJob) (track_a latest_only : bool) : SchedulerResult :=
  mkResult (if execute (rb_config self) then "execute" else "dry-run") (rb_config self)
    (plan_contract_digest (rb_plan self)) (plan_cutoff (rb_plan self))
    (map scheduled_to_dict q) [] 0
    (fold_left (fun d s => count d (sj_pool s)) q [(RATE_POOL_GENERAL, 0); (RATE_POOL_FINS, 0)])
    (fold_left (fun d s => count d (job_dataset (sj_job s))) q []) []
    (["Worker pass != Coverage COMPLETE; seal only with raw+structured.";
      "Token is never written into this result."; "scheduler_config=" +:+ SCHEDULER_VERSION]
     ++ (if track_a then ["track_a_datasets=" +:+ py_repr (JList (map JStr TRACK_A_DATASETS))] else [])
     ++ (if latest_only then ["latest_only=1 job per dataset (e.g. margin refresh)"] else [])).

Definition dry_result (r : SchedulerResult) : SchedulerResult :=
  mkResult (mode r) (sr_config r) (sr_contract_digest r) (sr_cutoff r) (queued r) (executed r) (skipped r)
    (counts_by_pool r) (counts_by_dataset r)
    [("dry_run_pending", Z.of_nat (length (queued r)))]
    (notes r ++ ["dry-run: no HTTP calls issued"]).

(** What [run] comes to: the result of a dry run, or an execution to carry out. *)
Inductive run_outcome :=
  | DryRun (r : SchedulerResult)
  | Execute (r : SchedulerResult) (st : exec).

Definition run (datasets : option (list string)) (from_date to_date : option string)
    (track_a latest_only : bool) : result run_outcome :=
  q ← queue datasets from_date to_date track_a latest_only;
  let r := queued_result q track_a latest_only in
  if negb (execute (rb_config self)) then Ok (DryRun (dry_result r))
  else
    _ ← ensure (rb_has_run_job self) RuntimeError "execute=True requires run_job callback";
    _ ← ensure (negb (rb_token self =s "")) RuntimeError "execute=True requires non-empty token (not logged)";
    Ok (Execute r (init_exec (rb_config self) q)).

Definition raised_of (st : exec) : list exn :=
  omap (fun t => match t_phase t with Raised e => Some e | _ => None end) (tasks st).

Definition executed_result (r : SchedulerResult) (rows : list dict) : SchedulerResult :=
  mkResult (mode r) (sr_config r) (sr_contract_digest r) (sr_cutoff r) (queued r) rows (skipped r)
    (counts_by_pool r) (counts_by_dataset r)
    (fold_left (fun d row => count d (py_str (or_ (getv "state" row) (JStr "unknown")))) rows [])
    (notes r).

(** How an execution ends once every task has: with the exception of one of the
    tasks ([as_completed] does not say which), or with the result. *)
Definition finish_run (r : SchedulerResult) (st : exec) (out : result SchedulerResult) : Prop :=
  match raised_of st with
  | [] => out = Ok (executed_result r (executed_rows st))
  | es => exists e, e ∈ es /\ out = Err e
  end.
End Run.

(** [plan_and_queue]; the planner is that of the arguments. *)
Definition plan_and_queue (plan_with : option string -> result BackfillPlan)
    (focus : list (string * (string * string))) (datasets : option (list string))
    (from_date to_date : option string) (track_a latest_only : bool) (max_jobs : Z)
    : result (BackfillPlan * list ScheduledJob) :=
  plan ← plan_with None;
  jobs ← filter_plan_jobs focus plan datasets from_date to_date track_a latest_only true;
  Ok (plan, build_queue jobs max_jobs).

(** ** Invariants of an execution *)

Lemma count_if_cons f x l : count_if f (x :: l) = (if f x then 1 else 0) + count_if f l.
Proof.
  unfold count_if. rewrite filter_cons. destruct (f x) eqn:E; [rewrite decide_True by done|rewrite decide_False by done];
    simpl length; lia.
Qed.

Lemma count_if_insert f l i t u : l !! i = Some t ->
  count_if f (<[i := u]> l) = count_if f l - (if f t then 1 else 0) + (if f u then 1 else 0).
Proof.
  revert i. induction l as [|x l IH]; intros [|i] Hi; simplify_eq/=; rewrite !count_if_cons; [lia|].
  rewrite (IH i Hi). lia.
Qed.

Lemma count_if_nonneg f l : 0 <= count_if f l.
Proof. unfold count_if. lia. Qed.

(** The semaphores and the thread pool: no more tasks hold a permit, or are on a
    thread, than there are. *)
Definition bounded (config : SchedulerConfig) (st : exec) : Prop :=
  count_if active (tasks st) <= max_threads config /\
  forall pool, count_if (fun u => holding u && in_pool pool u) (tasks st) <= pool_cap config pool.

Lemma pool_cap_pos config pool : 1 <= pool_cap config pool.
Proof. unfold pool_cap, cap. destruct (_ =s _); lia. Qed.

Lemma tasks_reserve st pool now : tasks (reserve st pool now) = tasks st.
Proof. unfold reserve. by destruct (_ =s _). Qed.

Lemma finish_pool s a f r s' o : finish_dispatch s a f r = (s', o) ->
  sj_pool s' = sj_pool s /\ queue_index s' = queue_index s.
Proof.
  unfold finish_dispatch. destruct r as [[code summary]|e]; [|by intros [= <- _]].
  destruct (apply_worker_summary _ _ _). by intros [= <- _].
Qed.

Lemma step_bounded config write st st' : step config write st st' -> bounded config st -> bounded config st'.
Proof.
  intros Hs [Ha Hp]. destruct Hs as [st i t Hi Ht Hf Hlt|st i t now Hi Ht Hlt|st i t now Hi Ht
    |st i t r now s row Hi Ht Hr|st i t r now s e Hi Ht Hr]; unfold bounded;
    rewrite ?tasks_reserve; simpl; (split; [|intros pool; specialize (Hp pool)]);
    rewrite (count_if_insert _ _ i t) by done; unfold active, holding, in_pool in *; simpl; rewrite Ht; simpl;
    try lia.
  - destruct (sj_pool (t_sched t) =s pool) eqn:E; [|lia]. bools. subst. lia.
  - destruct (_ =s _); lia.
  - destruct (_ =s _); lia.
Qed.

(** *** Every task runs once *)

Definition started (t : task) : bool :=
  match t_phase t with Submitted | Blocked => false | _ => true end.

Definition finished (t : task) : bool :=
  match t_phase t with Finished => true | _ => false end.

(** The job but for its outcome. *)
Definition core (j : BackfillJob) : BackfillJob := set_outcome j pending ok "".

(** What a task keeps of its queue entry; a started one has made one attempt. *)
Record task_of (s : ScheduledJob) (t : task) : Prop := mkTaskOf {
  to_index : queue_index (t_sched t) = queue_index s;
  to_pool : sj_pool (t_sched t) = sj_pool s;
  to_core : core (sj_job (t_sched t)) = core (if started t then start_attempt (sj_job s) else sj_job s);
}.

(** The row of a finished task. *)
Definition row_of (t : task) (row : dict) : Prop :=
  exists finished_at code, row = executed_row (t_sched t) (t_started_at t) finished_at code.

Record run_inv (write : bool) (order : list ScheduledJob) (st : exec) : Prop := mkRunInv {
  ri_tasks : Forall2 task_of order (tasks st);
  ri_rows : exists done_tasks, done_tasks ≡ₚ filter (fun t => finished t = true) (tasks st) /\
    Forall2 row_of done_tasks (executed_rows st);
  ri_lines : state_lines st = if write then executed_rows st else [];
}.

Lemma apply_core j summary code : core (apply_worker_summary j summary code).1 = core j.
Proof. unfold apply_worker_summary, core. repeat case_match; done. Qed.

Lemma finish_core s a f r s' o : finish_dispatch s a f r = (s', o) -> core (sj_job s') = core (sj_job s).
Proof.
  unfold finish_dispatch. destruct r as [[code summary]|e]; [|by intros [= <- _]].
  pose proof (apply_core (sj_job s) summary code) as H.
  destruct (apply_worker_summary _ _ _) as [j' o']. by intros [= <- _].
Qed.

Lemma Forall2_update {A B} (R : A -> B -> Prop) l k i y u : Forall2 R l k -> k !! i = Some y ->
  (forall x, R x y -> R x u) -> Forall2 R l (<[i := u]> k).
Proof.
  intros H. revert i. induction H as [|x y' l k Hxy H IH]; intros [|i] Hi Hu; simplify_eq/=; constructor; auto.
Qed.

Lemma filter_finished_insert l i t u : l !! i = Some t -> finished t = false ->
  filter (fun t => finished t = true) (<[i := u]> l) ≡ₚ
  (if finished u then [u] else []) ++ filter (fun t => finished t = true) l.
Proof.
  revert i. induction l as [|x l IH]; intros [|i] Hi Ht; simplify_eq/=; rewrite !filter_cons.
  - rewrite (decide_False (P := finished t = true)) by congruence.
    destruct (finished u) eqn:E; [by rewrite decide_True|by rewrite decide_False].
  - destruct (decide (finished x = true)); rewrite (IH i Hi Ht); [|done].
    destruct (finished u); [|done]. apply Permutation_swap.
Qed.

Lemma task_of_next s t u : task_of s t -> queue_index (t_sched u) = queue_index (t_sched t) ->
  sj_pool (t_sched u) = sj_pool (t_sched t) -> started u = started t ->
  core (sj_job (t_sched u)) = core (sj_job (t_sched t)) -> task_of s u.
Proof. intros [H1 H2 H3] E1 E2 E3 E4. split; [by rewrite E1|by rewrite E2|by rewrite E3, E4]. Qed.

(** A step that finishes no task and keeps the rows. *)
Lemma run_inv_update write order st st' i t u : run_inv write order st -> tasks st !! i = Some t ->
  tasks st' = <[i := u]> (tasks st) -> executed_rows st' = executed_rows st ->
  state_lines st' = state_lines st -> finished t = false -> finished u = false ->
  (forall s, task_of s t -> task_of s u) -> run_inv write order st'.
Proof.
  intros [H1 (l & Hl & Hr) H3] Hi Et Er El Hft Hfu Hs. split.
  - rewrite Et. by eapply Forall2_update.
  - exists l. rewrite Et, Er, (filter_finished_insert _ i t), Hfu by done. done.
  - by rewrite El, Er.
Qed.

Lemma step_run_inv config write order st st' : step config write st st' ->
  run_inv write order st -> run_inv write order st'.
Proof.
  intros Hs Hinv. destruct Hs as [st i t Hi Ht Hf Hlt|st i t now Hi Ht Hlt|st i t now Hi Ht
    |st i t r now s row Hi Ht Hr|st i t r now s e Hi Ht Hr].
  - eapply run_inv_update; try done; [unfold finished; by rewrite Ht|].
    intros s Hs. eapply task_of_next; try done. unfold started. by rewrite Ht.
  - eapply run_inv_update; try done; [unfold finished; by rewrite Ht|].
    intros s [H1 H2 H3]. split; try done. unfold started in *. rewrite Ht in H3. simpl in *.
    unfold core, set_outcome, start_attempt in *. simpl in *. by injection H3 as -> -> -> -> -> -> -> -> -> ->.
  - eapply (run_inv_update _ _ st _ i t (mkTask (t_sched t) Calling (t_started_at t))); try done.
    + by rewrite tasks_reserve.
    + unfold reserve. by destruct (_ =s _).
    + unfold reserve. by destruct (_ =s _).
    + unfold finished. by rewrite Ht.
    + intros s Hs. eapply task_of_next; try done. unfold started. by rewrite Ht.
  - pose proof (finish_pool _ _ _ _ _ _ Hr) as [Ep Eq]. pose proof (finish_core _ _ _ _ _ _ Hr) as Ec.
    destruct Hinv as [H1 (l & Hl & Hrw) H3]. split; simpl.
    + eapply Forall2_update; [done..|]. intros x Hx. eapply task_of_next; try done.
      unfold started. by rewrite Ht.
    + exists (l ++ [mkTask s Finished (t_started_at t)]). split.
      * rewrite (filter_finished_insert _ i t) by (done || (unfold finished; by rewrite Ht)). simpl.
        rewrite <- Hl. by rewrite <- Permutation_cons_append.
      * apply Forall2_app; [done|]. repeat constructor. unfold finish_dispatch in Hr.
        destruct r as [[code summary]|e]; [|done]. destruct (apply_worker_summary _ _ _) as [j' [[]|e]]; [|done].
        injection Hr as <- <-. by exists (dt_isoformat now), code.
    + rewrite H3. by destruct write.
  - pose proof (finish_pool _ _ _ _ _ _ Hr) as [Ep Eq]. pose proof (finish_core _ _ _ _ _ _ Hr) as Ec.
    eapply run_inv_update; try done; [unfold finished; by rewrite Ht|].
    intros x Hx. eapply task_of_next; try done. unfold started. by rewrite Ht.
Qed.

(** *** Progress *)

(** The steps a task still has to make. *)
Definition todo (t : task) : nat :=
  match t_phase t with Submitted => 4 | Blocked => 3 | Dispatching => 2 | Calling => 1 | _ => 0 end.

Definition measure (st : exec) : nat := sum_list_with todo (tasks st).

Lemma sum_insert l i t u : l !! i = Some t ->
  (sum_list_with todo (<[i := u]> l) + todo t = sum_list_with todo l + todo u)%nat.
Proof.
  revert i. induction l as [|x l IH]; intros [|i] Hi; simplify_eq/=; [lia|]. specialize (IH i Hi). lia.
Qed.

Lemma step_measure config write st st' : step config write st st' -> (measure st = S (measure st'))%nat.
Proof.
  intros Hs. destruct Hs as [st i t Hi Ht Hf Hlt|st i t now Hi Ht Hlt|st i t now Hi Ht
    |st i t r now s row Hi Ht Hr|st i t r now s e Hi Ht Hr]; unfold measure; rewrite ?tasks_reserve; simpl;
    match goal with |- context [ <[i := ?u]> _ ] => pose proof (sum_insert _ _ _ u Hi) as H end;
    unfold todo in H at 2 4; rewrite Ht in H; simpl in H; lia.
Qed.

(** The first task that satisfies [f]. *)
Lemma first_task (f : task -> bool) l :
  (exists i t, l !! i = Some t /\ f t = true /\
     forall j u, l !! j = Some u -> (j < i)%nat -> f u = false) \/ count_if f l = 0.
Proof.
  induction l as [|x l IH]; [by right|]. destruct (f x) eqn:E.
  - left. exists 0%nat, x. split_and!; try done. intros; lia.
  - destruct IH as [(i & t & Hi & Ht & Hmin)|IH].
    + left. exists (S i), t. split_and!; try done. intros [|j] u Hj Hlt; simplify_eq/=; [done|].
      apply (Hmin j); [done|lia].
    + right. by rewrite count_if_cons, E.
Qed.

Lemma count_if_zero f l t : count_if f l = 0 -> t ∈ l -> f t = false.
Proof.
  induction l as [|x l IH]; [by intros _ ?%elem_of_nil|]. rewrite count_if_cons.
  pose proof (count_if_nonneg f l). intros H0 [ ->|Ht]%elem_of_cons; [destruct (f x); [lia|done]|].
  apply IH; [destruct (f x); lia|done].
Qed.

Lemma count_if_none f l : (forall t, t ∈ l -> f t = false) -> count_if f l = 0.
Proof.
  induction l as [|x l IH]; intros H; [done|]. rewrite count_if_cons, (H x) by (by left).
  rewrite IH; [done|]. intros t Ht. apply H. by right.
Qed.

Definition is_dispatching (t : task) : bool := match t_phase t with Dispatching => true | _ => false end.
Definition is_calling (t : task) : bool := match t_phase t with Calling => true | _ => false end.
Definition is_blocked (t : task) : bool := match t_phase t with Blocked => true | _ => false end.

(** A response every task can end with. *)
Definition partial_response : result (Z * dict) := Ok (200, [("status", JStr "partial")]).

Lemma can_step config write st : all_ended st = false -> exists st', step config write st st'.
Proof.
  intros Hne.
  destruct (first_task is_dispatching (tasks st)) as [(i & t & Hi & Ht & _)|H1].
  { unfold is_dispatching in Ht. destruct (t_phase t) eqn:E; try done.
    eexists. by apply (step_reserve _ _ st i t fzero). }
  destruct (first_task is_calling (tasks st)) as [(i & t & Hi & Ht & _)|H2].
  { unfold is_calling in Ht. destruct (t_phase t) eqn:E; try done.
    eexists. by eapply (step_finish _ _ st i t partial_response 0). }
  assert (Hh : forall u, u ∈ tasks st -> holding u = false).
  { intros u Hu. pose proof (count_if_zero _ _ _ H1 Hu) as E1. pose proof (count_if_zero _ _ _ H2 Hu) as E2.
    unfold is_dispatching, is_calling, holding in *. by destruct (t_phase u). }
  destruct (first_task is_blocked (tasks st)) as [(i & t & Hi & Ht & _)|H3].
  { unfold is_blocked in Ht. destruct (t_phase t) eqn:E; try done.
    eexists. apply (step_enter _ _ st i t 0); [done..|]. rewrite count_if_none.
    - pose proof (pool_cap_pos config (sj_pool (t_sched t))). lia.
    - intros u Hu. by rewrite Hh. }
  destruct (first_task submitted (tasks st)) as [(i & t & Hi & Ht & Hmin)|H4].
  { unfold submitted in Ht. destruct (t_phase t) eqn:E; try done.
    eexists. apply (step_take _ _ st i t); [done..|]. rewrite count_if_none.
    - unfold max_threads, cap. lia.
    - intros u Hu. pose proof (count_if_zero _ _ _ H3 Hu) as E3. specialize (Hh u Hu).
      unfold is_blocked, holding, active in *. by destruct (t_phase u). }
  exfalso. assert (all_ended st = true); [|congruence]. apply forallb_forall. intros u Hu%list_elem_of_In.
  pose proof (count_if_zero _ _ _ H3 Hu) as E3. pose proof (count_if_zero _ _ _ H4 Hu) as E4.
  specialize (Hh u Hu). unfold is_blocked, holding, submitted, ended in *. by destruct (t_phase u).
Qed.

(** *** Pacing *)

(** The task has reserved its slot. *)
Definition paced (t : task) : bool :=
  match t_phase t with Calling | Finished | Raised _ => true | _ => false end.

Definition general_task (t : task) : bool := in_pool RATE_POOL_GENERAL t.

(** The slots of a limiter are spaced, and there is one for each of its paced tasks. *)
Definition pace_inv (l : RateLimiter) (slots : list pyfloat) (min_interval : pyfloat) (n : Z) : Prop :=
  rl_min l = min_interval /\ (SFleb min_interval fzero = false -> limiter_inv l slots) /\
  Z.of_nat (length slots) = n.

(** [mg] and [mf] are the intervals of the two pools. *)
Definition paces (mg mf : pyfloat) (st : exec) : Prop :=
  pace_inv (limiter_general st) (slots_general st) mg
    (count_if (fun t => paced t && general_task t) (tasks st)) /\
  pace_inv (limiter_fins st) (slots_fins st) mf
    (count_if (fun t => paced t && negb (general_task t)) (tasks st)).

Lemma pace_inv_acquire l slots m n now : pace_inv l slots m n ->
  pace_inv (acquire l now).2 (reserved l now :: slots) m (n + 1).
Proof.
  intros (H1 & H2 & H3). split; [by rewrite acquire_min|]. split.
  - intros Hm. apply acquire_inv; [by rewrite H1|by apply H2].
  - simpl. lia.
Qed.

(** A task changes without reserving a slot. *)
Lemma count_update_same f l i t u : l !! i = Some t -> f u = f t -> count_if f (<[i := u]> l) = count_if f l.
Proof. intros Hi E. rewrite (count_if_insert f l i t u Hi), E. destruct (f t); lia. Qed.

Lemma step_paces mg mf config write st st' : step config write st st' -> paces mg mf st -> paces mg mf st'.
Proof.
  intros Hs [Hg Hf]. destruct Hs as [st i t Hi Ht Hfi Hlt|st i t now Hi Ht Hlt|st i t now Hi Ht
    |st i t r now s row Hi Ht Hr|st i t r now s e Hi Ht Hr]; unfold paces; rewrite ?tasks_reserve; simpl.
  - rewrite !(count_update_same _ _ i t) by (done || (unfold paced; by rewrite Ht)). done.
  - rewrite !(count_update_same _ _ i t) by (done || (unfold paced; by rewrite Ht)). done.
  - rewrite !(count_if_insert _ _ i t) by done. unfold paced at 2 3 5 6, general_task at 2 3 5 6, in_pool.
    simpl. rewrite Ht. simpl. unfold reserve. destruct (sj_pool (t_sched t) =s RATE_POOL_GENERAL); simpl.
    + rewrite !Z.sub_0_r, Z.add_0_r. split; [by apply pace_inv_acquire|exact Hf].
    + rewrite !Z.sub_0_r, Z.add_0_r. split; [exact Hg|by apply pace_inv_acquire].
  - pose proof (finish_pool _ _ _ _ _ _ Hr) as [Ep _].
    rewrite !(count_update_same _ _ i t); try done; unfold paced, general_task, in_pool; by rewrite Ht; simpl; rewrite ?Ep.
  - pose proof (finish_pool _ _ _ _ _ _ Hr) as [Ep _].
    rewrite !(count_update_same _ _ i t); try done; unfold paced, general_task, in_pool; by rewrite Ht; simpl; rewrite ?Ep.
Qed.

(** *** The order of submission *)

(** A thread takes tasks in order, and a task keeps its pool. *)
Definition fifo (st : exec) : Prop :=
  (forall i j t u, (i < j)%nat -> tasks st !! i = Some t -> tasks st !! j = Some u ->
     submitted t = true -> submitted u = true) /\
  (forall i j t u, (i < j)%nat -> tasks st !! i = Some t -> tasks st !! j = Some u ->
     general_task u = true -> general_task t = true).

Lemma fifo_update st st' i t u : fifo st -> tasks st !! i = Some t ->
  tasks st' = <[i := u]> (tasks st) -> submitted u = false -> general_task u = general_task t ->
  (submitted t = true -> forall j v, tasks st !! j = Some v -> (j < i)%nat -> submitted v = false) ->
  fifo st'.
Proof.
  intros [H1 H2] Hi E Hu Hg Hmin. unfold fifo. rewrite E. split.
  - intros k j x y Hlt Hx Hy Hsx. apply list_lookup_insert_Some in Hx, Hy.
    destruct Hx as [(-> & -> & _)|[Hne Hx]]; [congruence|].
    destruct Hy as [(-> & -> & _)|[Hne' Hy]]; [|by eapply H1].
    destruct (submitted t) eqn:Est.
    + rewrite (Hmin eq_refl k x Hx Hlt) in Hsx. done.
    + pose proof (H1 k j x t Hlt Hx Hi Hsx). congruence.
  - intros k j x y Hlt Hx Hy Hgy. apply list_lookup_insert_Some in Hx, Hy.
    destruct Hx as [(-> & -> & _)|[Hne Hx]], Hy as [(-> & -> & _)|[Hne' Hy]]; try lia.
    + rewrite Hg. by eapply (H2 k j).
    + rewrite Hg in Hgy. by eapply (H2 k j x t).
    + by eapply (H2 k j x y).
Qed.

Lemma step_fifo config write st st' : step config write st st' -> fifo st -> fifo st'.
Proof.
  intros Hs H. destruct Hs as [st i t Hi Ht Hf Hlt|st i t now Hi Ht Hlt|st i t now Hi Ht
    |st i t r now s row Hi Ht Hr|st i t r now s e Hi Ht Hr];
    (eapply (fifo_update st _ i t _ H Hi); [rewrite ?tasks_reserve; reflexivity|..]);
    unfold submitted, general_task, in_pool; rewrite ?Ht; simpl; try done; by apply finish_pool in Hr as [-> _].
Qed.

Lemma count_if_le f g l : (forall u, u ∈ l -> f u = true -> g u = true) -> count_if f l <= count_if g l.
Proof.
  induction l as [|x l IH]; intros H; [done|]. rewrite !count_if_cons.
  assert (count_if f l <= count_if g l) by (apply IH; intros u Hu; apply H; by right).
  pose proof (H x ltac:(by left)) as Hx. destruct (f x), (g x); try lia; by specialize (Hx eq_refl).
Qed.

Lemma count_if_lt f g l i t : (forall u, u ∈ l -> f u = true -> g u = true) -> l !! i = Some t ->
  f t = false -> g t = true -> count_if f l + 1 <= count_if g l.
Proof.
  intros H Hi Hf Hg. revert i Hi. induction l as [|x l IH]; intros [|i] Hi; simplify_eq/=; rewrite !count_if_cons.
  - rewrite Hf, Hg. pose proof (count_if_le f g l ltac:(intros u Hu; apply H; by right)). lia.
  - specialize (IH ltac:(intros u Hu; apply H; by right) i Hi). pose proof (H x ltac:(by left)) as Hx.
    destruct (f x), (g x); try lia; by specialize (Hx eq_refl).
Qed.

Section ExecTheorems.
Context (config : SchedulerConfig) (write_state : bool) (entries : list ScheduledJob).

Abbreviation reached := (reachable config write_state entries).

Lemma init_none f : (forall s, f (mkTask s Submitted "") = false) ->
  count_if f (tasks (init_exec config entries)) = 0.
Proof.
  intros Hf. apply count_if_none. intros t Ht. simpl in Ht.
  apply list_elem_of_fmap in Ht as (s & -> & _). apply Hf.
Qed.

Lemma reached_bounded st : reached st -> bounded config st.
Proof.
  induction 1 as [|st st' _ IH Hs]; [|by eapply step_bounded].
  split; [rewrite init_none by done; unfold max_threads, cap; lia|]. intros pool. rewrite init_none by done.
  pose proof (pool_cap_pos config pool). lia.
Qed.

(** The worker caps hold in every interleaving: at no point of an
    execution do more tasks of a pool hold its semaphore than it has workers (at
    least one), nor are more tasks on threads than the two pools have together. *)
Theorem workers_bounded (st : exec) : reached st ->
  count_if (fun u => holding u && in_pool RATE_POOL_GENERAL u) (tasks st) <= Z.max 1 (general_workers config) /\
  count_if (fun u => holding u && in_pool RATE_POOL_FINS u) (tasks st) <= Z.max 1 (fins_workers config) /\
  count_if active (tasks st) <= Z.max 1 (general_workers config) + Z.max 1 (fins_workers config).
Proof.
  intros H. destruct (reached_bounded st H) as [Ha Hp]. split; [apply Hp|split; [apply Hp|apply Ha]].
Qed.

(** Claim C39.  An execution neither deadlocks nor goes on for ever: while a task has
    not ended some step is possible, and every execution has at most four steps
    per queue entry. *)
Theorem execution_ends (st : exec) : reached st ->
  (all_ended st = false -> exists st', step config write_state st st') /\
  (forall st', step config write_state st st' -> measure st = S (measure st')) /\
  (measure st <= 4 * length entries)%nat.
Proof.
  intros H. split; [apply can_step|]. split; [apply step_measure|].
  induction H as [|st st' _ IH Hs]; [|apply step_measure in Hs; lia].
  unfold measure. simpl. unfold submission_order. rewrite map_app, sum_list_with_app.
  assert (Hm : forall l, sum_list_with todo (map (fun s => mkTask s Submitted "") l) = (4 * length l)%nat).
  { induction l as [|s l IH]; simpl; [done|]. rewrite IH. lia. }
  rewrite !Hm. clear Hm. induction entries as [|s l IH]; simpl; [lia|]. rewrite !filter_cons.
  assert (Hne : RATE_POOL_GENERAL <> RATE_POOL_FINS) by done.
  repeat case_decide; simpl; try lia. congruence.
Qed.

Lemma reached_inv st : reached st -> run_inv write_state (submission_order entries) st.
Proof.
  induction 1 as [|st st' _ IH Hs]; [|by eapply step_run_inv]. split; simpl.
  - apply Forall2_fmap_r, Forall_Forall2_diag, Forall_true. intros s. by split.
  - exists []. split; [|constructor]. induction (submission_order entries) as [|s l IH]; [done|].
    simpl. by rewrite filter_cons_False.
  - by destruct write_state.
Qed.

(** The two pools share out the entries. *)
Lemma submission_order_perm : Forall (fun s => sj_pool s = RATE_POOL_GENERAL \/ sj_pool s = RATE_POOL_FINS) entries ->
  submission_order entries ≡ₚ entries.
Proof.
  unfold submission_order. induction 1 as [|s l [E|E] _ IH]; [done|..]; rewrite !filter_cons.
  - rewrite decide_True, decide_False by (done || rewrite E; done). simpl. by rewrite IH.
  - rewrite decide_False, decide_True by (done || rewrite E; done). rewrite <- Permutation_middle. by rewrite IH.
Qed.

(** Claim C33.  Every queued job is dispatched once and reported once: when all tasks
    have ended without an exception, the rows are, up to order, one per queue
    entry, each for a job attempted exactly once more than before and otherwise
    the one queued; the state file holds the same rows, and no row has a key that
    names a token, a secret or an authorization. *)
Theorem rows_once (st : exec) : reached st -> all_ended st = true -> raised_of st = [] ->
  Forall (fun s => sj_pool s = RATE_POOL_GENERAL \/ sj_pool s = RATE_POOL_FINS) entries ->
  exists done_tasks, Forall2 row_of done_tasks (executed_rows st) /\
    (exists order, order ≡ₚ entries /\ Forall2 (fun s t => queue_index (t_sched t) = queue_index s /\
       core (sj_job (t_sched t)) = core (start_attempt (sj_job s)) /\
       attempt (sj_job (t_sched t)) = attempt (sj_job s) + 1) order done_tasks) /\
    state_lines st = (if write_state then executed_rows st else []) /\
    Forall (fun row => Forall (fun p => safe_key p.1 = true) row) (executed_rows st).
Proof.
  intros Hr Hend Hno Hpools. destruct (reached_inv st Hr) as [Ht (l & Hl & Hrows) Hlines].
  assert (Hfin : forall t, t ∈ tasks st -> finished t = true).
  { intros t Hin. unfold all_ended in Hend. rewrite forallb_forall in Hend.
    specialize (Hend t (proj1 (list_elem_of_In _ _) Hin)). unfold ended, finished in *.
    destruct (t_phase t) eqn:E; try done. exfalso.
    assert (He : e ∈ raised_of st) by (apply list_elem_of_omap; exists t; by rewrite E).
    rewrite Hno in He. by apply elem_of_nil in He. }
  rewrite filter_all in Hl by (by apply Forall_forall).
  exists l. split; [done|]. split; [|split; [done|]].
  - symmetry in Hl. destruct (Forall2_perm_r _ _ _ _ Ht Hl) as (order & Ho & HF).
    exists order. split; [rewrite Ho; by apply submission_order_perm|].
    assert (Hf : Forall (fun t => finished t = true) l).
    { apply Forall_forall. intros t Hin. apply Hfin. by rewrite Hl. }
    clear -HF Hf. induction HF as [|s t order l [E1 E2 E3] _ IH]; [constructor|].
    inversion_clear Hf as [|? ? Hft Hf']. constructor; [|by apply IH].
    assert (Hs : started t = true) by (unfold started, finished in *; by destruct (t_phase t)).
    rewrite Hs in E3. split_and!; [done..|]. by apply (f_equal attempt) in E3.
  - clear -Hrows. induction Hrows as [|t row l rows (f & code & ->) _ IH]; constructor; [|done].
    apply Forall_forall. intros p Hp. unfold executed_row in Hp. by apply list_elem_of_filter in Hp as [? _].
Qed.
(** Each pool is paced by its own limiter: an execution reserves one slot
    per dispatched task, in the limiter of the task's pool; if the pool has a
    rate, each of its slots is the previous one plus the interval or later,
    whatever the other pool does. *)
Theorem pools_paced (st : exec) : reached st ->
  let mg := rl_min (new_limiter (rpm_to_min_interval (Some (general_rpm config)))) in
  let mf := rl_min (new_limiter (rpm_to_min_interval (Some (fins_rpm config)))) in
  (SFleb mg fzero = false -> spaced mg (slots_general st)) /\
  (SFleb mf fzero = false -> spaced mf (slots_fins st)) /\
  Z.of_nat (length (slots_general st)) = count_if (fun t => paced t && general_task t) (tasks st) /\
  Z.of_nat (length (slots_fins st)) = count_if (fun t => paced t && negb (general_task t)) (tasks st).
Proof.
  intros H mg mf. enough (paces mg mf st) as [(Hg1 & Hg2 & Hg3) (Hf1 & Hf2 & Hf3)].
  { split_and!; try done.
    - intros Hm. rewrite <- Hg1. apply (Hg2 Hm).
    - intros Hm. rewrite <- Hf1. apply (Hf2 Hm). }
  induction H as [|st st' _ IH Hs]; [|by eapply step_paces]. subst mg mf.
  unfold paces. rewrite !init_none by done. done.
Qed.

Lemma reached_fifo st : reached st -> fifo st.
Proof.
  induction 1 as [|st st' _ IH Hs]; [|by eapply step_fifo]. split.
  - intros i j t u _ _ Hu _. simpl in Hu. apply list_lookup_fmap_Some in Hu as (s & -> & _). done.
  - intros i j t u Hlt Ht Hu Hg. simpl in Ht, Hu.
    apply list_lookup_fmap_Some in Ht as (s & -> & Hs), Hu as (s' & -> & Hs').
    unfold general_task, in_pool in *. simpl in *. bools. apply bool_decide_eq_true_2.
    unfold submission_order in *. apply lookup_app_Some in Hs' as [Hs'|[Hle Hs']].
    + apply lookup_lt_Some in Hs'. rewrite lookup_app_l in Hs by lia.
      apply list_elem_of_lookup_2, list_elem_of_filter in Hs as [? _]. done.
    + apply list_elem_of_lookup_2, list_elem_of_filter in Hs' as [E _]. by rewrite E in Hg.
Qed.

(** The pools do not start side by side: a task of the fins pool waits for
    the general queue.  While one is on a thread, the general tasks that have not
    ended are fewer than the threads of both pools together. *)
Theorem fins_wait_for_general (st : exec) (t : task) : reached st -> t ∈ tasks st -> active t = true ->
  general_task t = false ->
  count_if (fun u => general_task u && negb (ended u)) (tasks st) < max_threads config.
Proof.
  intros Hr Ht Hact Hgen. pose proof (reached_fifo st Hr) as [H1 H2].
  pose proof (proj1 (reached_bounded st Hr)) as Hb.
  enough (count_if (fun u => general_task u && negb (ended u)) (tasks st) + 1 <= count_if active (tasks st)) by lia.
  apply list_elem_of_lookup in Ht as [i Hi].
  assert (Hall : forall j u, tasks st !! j = Some u -> general_task u && negb (ended u) = true -> active u = true).
  { intros j u Hj Hu. bools. destruct (submitted u) eqn:Es.
    - assert (Hlt : (j < i)%nat).
      { destruct (Nat.lt_trichotomy j i) as [?|[ ->|Hlt]]; [done|congruence|].
        rewrite (H2 i j t u Hlt Hi Hj) in Hgen; done. }
      pose proof (H1 j i u t Hlt Hj Hi Es) as Hst. unfold submitted, active in *. by destruct (t_phase t).
    - unfold submitted, active, ended in *. by destruct (t_phase u). }
  apply (count_if_lt _ _ _ i t); [|done|by rewrite Hgen|done].
  intros u Hu. apply list_elem_of_lookup in Hu as [j Hj]. by apply (Hall j).
Qed.
End ExecTheorems.

(** ** The queue *)

(** The jobs seen so far are represented by the latest one of each dataset. *)
Definition latest_inv (seen : list BackfillJob) (by_ds : list (string * BackfillJob)) : Prop :=
  NoDup (map fst by_ds) /\
  forall k, match lookup_str k by_ds with
    | Some j => job_dataset j = k /\ j ∈ seen /\ forall x, x ∈ seen -> job_dataset x = k ->
        String.leb (requested_from x) (requested_from j) = true
    | None => forall x, x ∈ seen -> job_dataset x <> k
    end.

Lemma later_job_inv seen by_ds job : latest_inv seen by_ds ->
  latest_inv (seen ++ [job]) (later_job by_ds job).
Proof.
  intros [Hn H]. assert (Hset : NoDup (map fst (dict_set (job_dataset job) job by_ds))).
  { rewrite keys_dict_set. destruct (_ ∈? _) eqn:E; [done|]. bools. apply NoDup_app.
    split; [done|]. split; [|by apply NoDup_singleton]. by intros x Hx ->%list_elem_of_singleton. }
  unfold later_job. pose proof (H (job_dataset job)) as Hj.
  destruct (lookup_str (job_dataset job) by_ds) as [prev|] eqn:Ep.
  - destruct Hj as (Hd & Hin & Hmax). destruct (String.ltb _ _) eqn:El.
    + split; [done|]. intros k. rewrite lookup_dict_set. destruct (k =s job_dataset job) eqn:Ek; bools.
      * subst. split; [done|]. split; [set_solver|]. intros x Hx Hdx.
        apply elem_of_app in Hx as [Hx| ->%list_elem_of_singleton]; [|apply string_leb_refl].
        eapply string_leb_trans; [by apply Hmax|by apply string_ltb_leb].
      * specialize (H k). destruct (lookup_str k by_ds) as [j|]; [|set_solver].
        destruct H as (? & ? & Hm). split; [done|]. split; [set_solver|]. set_solver.
    + split; [done|]. intros k. specialize (H k). destruct (lookup_str k by_ds) as [j|] eqn:Ej.
      * destruct H as (Hdj & ? & Hm). split; [done|]. split; [set_solver|]. intros x Hx Hdx.
        apply elem_of_app in Hx as [Hx| ->%list_elem_of_singleton]; [by apply Hm|].
        rewrite string_ltb_negb in El. bools. rewrite <- Hdx, Ep in Ej. by injection Ej as <-.
      * intros x Hx Hdx. apply elem_of_app in Hx as [Hx| ->%list_elem_of_singleton]; [by apply (H x)|].
        subst. by rewrite Ep in Ej.
  - split; [done|]. intros k. rewrite lookup_dict_set. destruct (k =s job_dataset job) eqn:Ek; bools.
    + subst. split; [done|]. split; [set_solver|]. intros x Hx Hdx.
      apply elem_of_app in Hx as [Hx| ->%list_elem_of_singleton]; [|apply string_leb_refl].
      by destruct (Hj x Hx).
    + specialize (H k). destruct (lookup_str k by_ds) as [j|]; [|set_solver].
      destruct H as (? & ? & Hm). split; [done|]. split; [set_solver|]. set_solver.
Qed.

Lemma latest_fold_inv seen by_ds jobs : latest_inv seen by_ds ->
  latest_inv (seen ++ jobs) (fold_left later_job jobs by_ds).
Proof.
  revert seen by_ds. induction jobs as [|j jobs IH]; intros seen by_ds H; simpl; [by rewrite app_nil_r|].
  rewrite (cons_middle j seen jobs), app_assoc. apply IH. by apply later_job_inv.
Qed.

(** The filter keeps pending jobs of the plan that pass its conditions;
    asked for the latest only, it keeps one job per dataset, the one that starts
    last among those the plain filter keeps, in the planner's order. *)
Theorem latest_filter_spec (focus : list (string * (string * string))) (p : BackfillPlan)
    (datasets : option (list string)) (from_date to_date : option string) (track_a apply_focus : bool)
    (l : list BackfillJob) :
  filter_plan_jobs focus p datasets from_date to_date track_a true apply_focus = Ok l ->
  exists kept, filter_plan_jobs focus p datasets from_date to_date track_a false apply_focus = Ok kept /\
    (forall j, j ∈ kept -> j ∈ plan_jobs p /\ is_pending j = true) /\
    NoDup (map job_dataset l) /\
    (forall j, j ∈ l -> j ∈ kept /\ forall x, x ∈ kept -> job_dataset x = job_dataset j ->
       String.leb (requested_from x) (requested_from j) = true) /\
    (forall x, x ∈ kept -> exists j, j ∈ l /\ job_dataset j = job_dataset x) /\
    StronglySorted (fun x y => job_leb x y = true) l.
Proof.
  unfold filter_plan_jobs. intros H. binds H.
  rewrite E, E0. cbn [mbind result_bind]. rewrite E1. cbn [mbind result_bind].
  exists a1. split; [done|]. split.
  { intros j Hj. apply (filterR_elem _ _ _ E1) in Hj as [Hj _].
    unfold pending_jobs in Hj. by apply list_elem_of_filter in Hj as [? ?]. }
  cbn [andb] in H. injection H as <-. destruct (decide (a1 = [])) as [ ->|Hne]; simpl.
  { split; [constructor|]. split; [by intros j ?%elem_of_nil|]. split; [by intros j ?%elem_of_nil|constructor]. }
  rewrite bool_decide_eq_false_2 by done. simpl.
  destruct (latest_fold_inv [] [] a1) as [Hn Hk].
  { split; [constructor|]. intros k x ?. by apply elem_of_nil in H. }
  unfold latest_jobs. set (d := fold_left later_job a1 []) in *.
  assert (Hds : map job_dataset (map snd d) = map fst d).
  { rewrite map_map. apply map_ext_in. intros [k j] Hin%list_elem_of_In.
    apply (lookup_str_elem _ _ _ Hn) in Hin. specialize (Hk k). rewrite Hin in Hk. apply Hk. }
  assert (Hin : forall j, j ∈ map snd d <-> lookup_str (job_dataset j) d = Some j).
  { intros j. rewrite list_elem_of_fmap. split.
    - intros ([k j'] & -> & Hin). apply (lookup_str_elem _ _ _ Hn) in Hin. simpl.
      pose proof (Hk k) as Hkk. rewrite Hin in Hkk. destruct Hkk as (-> & _). done.
    - intros Hj. exists (job_dataset j, j). split; [done|]. by apply lookup_str_elem. }
  split; [|split; [|split]].
  - assert (map job_dataset (py_sorted job_leb (map snd d)) ≡ₚ map fst d) as ->; [|done].
    rewrite <- Hds. apply fmap_Permutation, py_sorted_perm.
  - intros j Hj. apply elem_of_py_sorted, Hin in Hj. specialize (Hk (job_dataset j)). rewrite Hj in Hk.
    by destruct Hk as (_ & ? & ?).
  - intros x Hx. specialize (Hk (job_dataset x)). destruct (lookup_str (job_dataset x) d) as [j|] eqn:Ej.
    + destruct Hk as (Hd & _ & _). exists j. split; [|done]. apply elem_of_py_sorted, Hin. by rewrite Hd.
    + by destruct (Hk x Hx).
  - apply py_sorted_Sorted; eauto with qp.
Qed.

(** How many jobs are queued: all without a limit, else at most that many. *)
Definition queue_length (max_jobs : Z) (n : nat) : nat :=
  if max_jobs =? 0 then n else Nat.min n (Z.to_nat max_jobs).

Lemma build_from_spec i m jobs : 0 <= i ->
  map sj_job (build_from i m jobs) =
    take (if m =? 0 then length jobs else Z.to_nat (m - i)) jobs /\
  map queue_index (build_from i m jobs) =
    map (fun k => i + Z.of_nat k) (seq 0 (length (build_from i m jobs))) /\
  Forall (fun s => sj_pool s = rate_pool_for_dataset (job_dataset (sj_job s))) (build_from i m jobs).
Proof.
  revert i. induction jobs as [|j jobs IH]; intros i Hi; simpl; [by rewrite take_nil|].
  destruct (m =? 0) eqn:E0; simpl.
  - destruct (IH (i + 1) ltac:(lia)) as (H1 & H2 & H3). simpl. rewrite H1, H2. split; [done|].
    split; [|by constructor]. f_equal; [lia|]. rewrite <- seq_shift, map_map. apply map_ext. lia.
  - destruct (m <=? i) eqn:E1; bools.
    { replace (Z.to_nat (m - i)) with 0%nat by lia. done. }
    destruct (IH (i + 1) ltac:(lia)) as (H1 & H2 & H3). simpl. rewrite H1, H2.
    replace (Z.to_nat (m - i)) with (S (Z.to_nat (m - (i + 1)))) by lia. split; [done|].
    split; [|by constructor]. f_equal; [lia|]. rewrite <- seq_shift, map_map. apply map_ext. lia.
Qed.

Lemma build_queue_jobs m jobs : map sj_job (build_queue jobs m) = take (queue_length m (length jobs)) jobs.
Proof.
  unfold build_queue. rewrite (proj1 (build_from_spec 0 m jobs ltac:(lia))). unfold queue_length.
  destruct (m =? 0); [done|]. rewrite Z.sub_0_r.
  destruct (decide (length jobs <= Z.to_nat m)%nat).
  - by rewrite Nat.min_l, !take_ge by lia.
  - by rewrite Nat.min_r by lia.
Qed.

Lemma rate_pool_cases d : rate_pool_for_dataset d = RATE_POOL_GENERAL \/ rate_pool_for_dataset d = RATE_POOL_FINS.
Proof. unfold rate_pool_for_dataset. destruct (starts_with _ _); auto. Qed.

(** Nothing is dispatched unless execution is asked for, with a callback
    and a token: without it the run is a dry one, which reports the queue and no
    executed row.  The queue is the first [max_jobs] of the filtered jobs (all
    for 0), numbered in order, each in the pool of its dataset. *)
Theorem run_gate (focus : list (string * (string * string))) (self : RangeBatchScheduler)
    (datasets : option (list string)) (from_date to_date : option string) (track_a latest_only : bool)
    (out : run_outcome) :
  run focus self datasets from_date to_date track_a latest_only = Ok out ->
  exists jobs q, filter_plan_jobs focus (rb_plan self) datasets from_date to_date track_a latest_only true = Ok jobs /\
    map sj_job q = take (queue_length (max_jobs (rb_config self)) (length jobs)) jobs /\
    map queue_index q = map Z.of_nat (seq 0 (length q)) /\
    Forall (fun s => sj_pool s = rate_pool_for_dataset (job_dataset (sj_job s))) q /\
    match out with
    | DryRun r => execute (rb_config self) = false /\ mode r = "dry-run" /\ executed r = [] /\
        queued r = map scheduled_to_dict q /\
        counts_by_state r = [("dry_run_pending", Z.of_nat (length q))]
    | Execute r st => execute (rb_config self) = true /\ rb_has_run_job self = true /\ rb_token self <> "" /\
        queued r = map scheduled_to_dict q /\ executed_rows st = [] /\
        map t_sched (tasks st) ≡ₚ q
    end.
Proof.
  unfold run, queue. intros H. apply bind_Ok in H as (q & Hq & H). apply bind_Ok in Hq as (jobs & Hj & [= <-]).
  set (m := max_jobs (rb_config self)) in *.
  destruct (build_from_spec 0 m jobs ltac:(lia)) as (_ & H2 & H3). fold (build_queue jobs m) in H2, H3.
  exists jobs, (build_queue jobs m). split; [done|]. split; [apply build_queue_jobs|].
  split; [by rewrite H2|]. split; [done|]. destruct (execute (rb_config self)) eqn:Ex; simpl in H.
  - apply bind_Ok in H as (_ & H4%ensure_Ok & H). apply bind_Ok in H as (_ & H5%ensure_Ok & [= <-]).
    bools. split_and!; try done. simpl. rewrite map_map. simpl. rewrite map_id.
    apply submission_order_perm. eapply Forall_impl; [exact H3|]. intros s ->. apply rate_pool_cases.
  - injection H as <-. simpl. rewrite Ex. split_and!; try done. by rewrite length_map.
Qed.

(** ** Witnesses *)

Definition sample_config : SchedulerConfig :=
  mkConfig (float_of_Z 495) (float_of_Z 495) 12 6 2 true (float_of_Z 2) 600.

Definition sample_self : RangeBatchScheduler := mkScheduler sample_plan sample_config true "secret".

Definition sample_jobs : list BackfillJob := take 2 (plan_jobs sample_plan).

Definition sample_entry : ScheduledJob :=
  default (mkScheduled (mkJob "" "" "" "" "" "" 0 0 pending "" "" ok "") RATE_POOL_GENERAL 0)
    (head (build_queue sample_jobs 0)).

Definition sample_queue : list ScheduledJob := [sample_entry].

Abbreviation sample_init := (init_exec sample_config sample_queue).

Lemma sample_reached : reachable sample_config true sample_queue sample_init.
Proof. constructor. Qed.

Lemma workers_bounded_witness :
  count_if (fun u => holding u && in_pool RATE_POOL_GENERAL u) (tasks sample_init) <= Z.max 1 12 /\
  count_if (fun u => holding u && in_pool RATE_POOL_FINS u) (tasks sample_init) <= Z.max 1 6 /\
  count_if active (tasks sample_init) <= Z.max 1 12 + Z.max 1 6.
Proof. apply (workers_bounded sample_config true sample_queue sample_init sample_reached). Defined.

Definition sample_fins_task : task := mkTask (mkScheduled (sj_job sample_entry) RATE_POOL_FINS 0) Blocked "".

Lemma fins_wait_for_general_witness :
  count_if (fun u => general_task u && negb (ended u)) [sample_fins_task] < max_threads sample_config.
Proof.
  apply (fins_wait_for_general sample_config true [mkScheduled (sj_job sample_entry) RATE_POOL_FINS 0]
    (set_task (init_exec sample_config [mkScheduled (sj_job sample_entry) RATE_POOL_FINS 0]) 0 sample_fins_task)
    sample_fins_task).
  - eapply reachable_step; [constructor|].
    apply (step_take _ _ _ 0 (mkTask (mkScheduled (sj_job sample_entry) RATE_POOL_FINS 0) Submitted ""));
      [done|done|lia|by vm_compute].
  - by left.
  - by vm_compute.
  - by vm_compute.
Defined.

Lemma execution_ends_witness :
  (all_ended sample_init = false -> exists st', step sample_config true sample_init st') /\
  (forall st', step sample_config true sample_init st' -> measure sample_init = S (measure st')) /\
  (measure sample_init <= 4 * length sample_queue)%nat.
Proof. apply (execution_ends sample_config true sample_queue sample_init sample_reached). Defined.

Lemma pools_paced_witness :
  let mg := rl_min (new_limiter (rpm_to_min_interval (Some (float_of_Z 495)))) in
  (SFleb mg fzero = false -> spaced mg (slots_general sample_init)) /\
  (SFleb mg fzero = false -> spaced mg (slots_fins sample_init)) /\
  Z.of_nat (length (slots_general sample_init)) = count_if (fun t => paced t && general_task t) (tasks sample_init) /\
  Z.of_nat (length (slots_fins sample_init)) = count_if (fun t => paced t && negb (general_task t)) (tasks sample_init).
Proof. apply (pools_paced sample_config true sample_queue sample_init sample_reached). Defined.

(** An execution of one job: on a thread, past the semaphore, past the limiter,
    and ended by a partial summary. *)
Definition sample_started : ScheduledJob := with_job sample_entry (start_attempt (sj_job sample_entry)).
Definition sample_end : ScheduledJob * result dict :=
  finish_dispatch sample_started (dt_isoformat 63082281600000000) (dt_isoformat 63082281601000000) partial_response.
Definition sample_row : dict := match sample_end.2 with Ok row => row | Err _ => [] end.

Definition sample_st1 : exec := set_task sample_init 0 (mkTask sample_entry Blocked "").
Definition sample_st2 : exec :=
  set_task sample_st1 0 (mkTask sample_started Dispatching (dt_isoformat 63082281600000000)).
Definition sample_st3 : exec :=
  reserve (set_task sample_st2 0 (mkTask sample_started Calling (dt_isoformat 63082281600000000)))
    (sj_pool sample_started) (float_of_Z 10).
Definition sample_st4 : exec :=
  append_row true (set_task sample_st3 0 (mkTask sample_end.1 Finished (dt_isoformat 63082281600000000))) sample_row.

Lemma sample_run : reachable sample_config true sample_queue sample_st4.
Proof.
  assert (H1 : reachable sample_config true sample_queue sample_st1).
  { eapply reachable_step; [apply sample_reached|].
    apply (step_take _ _ _ 0 (mkTask sample_entry Submitted "")); [done|done|lia|by vm_compute]. }
  assert (H2 : reachable sample_config true sample_queue sample_st2).
  { eapply reachable_step; [exact H1|].
    apply (step_enter _ _ _ 0 (mkTask sample_entry Blocked "")); [done|done|by vm_compute]. }
  assert (H3 : reachable sample_config true sample_queue sample_st3).
  { eapply reachable_step; [exact H2|].
    by apply (step_reserve _ _ _ 0 (mkTask sample_started Dispatching (dt_isoformat 63082281600000000))). }
  eapply reachable_step; [exact H3|].
  apply (step_finish _ _ _ 0 (mkTask sample_started Calling (dt_isoformat 63082281600000000)) partial_response
    63082281601000000); [done|done|by vm_compute].
Qed.

Lemma rows_once_witness :
  exists done_tasks, Forall2 row_of done_tasks (executed_rows sample_st4) /\
    (exists order, order ≡ₚ sample_queue /\ Forall2 (fun s t => queue_index (t_sched t) = queue_index s /\
       core (sj_job (t_sched t)) = core (start_attempt (sj_job s)) /\
       attempt (sj_job (t_sched t)) = attempt (sj_job s) + 1) order done_tasks) /\
    state_lines sample_st4 = executed_rows sample_st4 /\
    Forall (fun row => Forall (fun p => safe_key p.1 = true) row) (executed_rows sample_st4).
Proof.
  apply (rows_once sample_config true sample_queue sample_st4).
  - apply sample_run.
  - by vm_compute.
  - by vm_compute.
  - repeat constructor.
Defined.

Definition sample_latest : list BackfillJob :=
  match filter_plan_jobs [] sample_plan None None None false true true with Ok l => l | Err _ => [] end.

Lemma latest_filter_spec_witness :
  exists kept, filter_plan_jobs [] sample_plan None None None false false true = Ok kept /\
    (forall j, j ∈ kept -> j ∈ plan_jobs sample_plan /\ is_pending j = true) /\
    NoDup (map job_dataset sample_latest) /\
    (forall j, j ∈ sample_latest -> j ∈ kept /\ forall x, x ∈ kept -> job_dataset x = job_dataset j ->
       String.leb (requested_from x) (requested_from j) = true) /\
    (forall x, x ∈ kept -> exists j, j ∈ sample_latest /\ job_dataset j = job_dataset x) /\
    StronglySorted (fun x y => job_leb x y = true) sample_latest.
Proof. apply (latest_filter_spec [] sample_plan None None None false true). by vm_compute. Defined.

Definition sample_out : run_outcome :=
  match run [] sample_self None None None false false with
  | Ok out => out | Err _ => DryRun (queued_result sample_self [] false false) end.

Lemma run_gate_witness :
  exists jobs q, filter_plan_jobs [] sample_plan None None None false false true = Ok jobs /\
    map sj_job q = take (queue_length 2 (length jobs)) jobs /\
    map queue_index q = map Z.of_nat (seq 0 (length q)) /\
    Forall (fun s => sj_pool s = rate_pool_for_dataset (job_dataset (sj_job s))) q /\
    match sample_out with
    | DryRun r => execute sample_config = false /\ mode r = "dry-run" /\ executed r = [] /\
        queued r = map scheduled_to_dict q /\
        counts_by_state r = [("dry_run_pending", Z.of_nat (length q))]
    | Execute r st => execute sample_config = true /\ rb_has_run_job sample_self = true /\
        rb_token sample_self <> "" /\
        queued r = map scheduled_to_dict q /\ executed_rows st = [] /\
        map t_sched (tasks st) ≡ₚ q
    end.
Proof. apply (run_gate [] sample_self None None None false false sample_out). by vm_compute. Defined.
