(* ===== verification/JQuantsClient.v ===== *)
(** * JQuantsClient: the client of the J-Quants interface
    (packages/data_plane/ingestion/common/retry.py, ingestion/common/http.py,
    ingestion/jquants/catalog.py, ingestion/jquants/client.py)

    A request waits for its slot, is retried on faults that may pass, and is followed from
    page to page by the token each response carries.  The outer world is a type: what an
    HTTP client, a clock and a sleep do to it are arguments.  A request is an action on the
    world and the limiter. *)

From S2P Require Import Prelude PyDate Json JsonText Utf8 RateLimit.

Local Open Scope Z_scope.

(** ** Actions on a state *)

Definition run_in (St A : Type) : Type := St -> St * result A.

#[export] Instance run_ret {St} : MRet (run_in St) := fun A a s => (s, Ok a).
#[export] Instance run_bind {St} : MBind (run_in St) := fun A B f m s =>
  match m s with
  | (s', Ok a) => f a s'
  | (s', Err e) => (s', Err e)
  end.

Definition lift_run {St A} (r : result A) : run_in St A := fun s => (s, r).

Lemma run_bind_Ok {St A B} (m : run_in St A) (f : A -> run_in St B) s t b :
  (m ≫= f) s = (t, Ok b) <-> exists u a, m s = (u, Ok a) /\ f a u = (t, Ok b).
Proof.
  unfold mbind, run_bind. destruct (m s) as [u [a|e]].
  - split; [intros H; by exists u, a|]. intros (u' & a' & Hm & Hf). by simplify_eq.
  - split; [done|]. by intros (u' & a' & Hm & _).
Qed.

Lemma run_bind_halts {St A B} (m : run_in St A) (f : A -> run_in St B) s : halts (m s).2 ->
  (forall u a, m s = (u, Ok a) -> halts (f a u).2) -> halts ((m ≫= f) s).2.
Proof. unfold mbind, run_bind. intros Hm Hf. destruct (m s) as [u [a|e]] eqn:E; [by apply Hf|done]. Qed.

(** ** Retries (common/retry.py) *)

Definition fmul (a b : pyfloat) : pyfloat := SFmul 53 1024 a b.

(** An integer as the operand of a float. *)
Definition int_operand (n : Z) : result pyfloat :=
  match float_of_Z n with
  | S754_infinity _ => raise OverflowError "int too large to convert to float"
  | f => Ok f
  end.

(** [min(a, b)] and [max(a, b)]: the first argument unless the second is strictly beyond. *)
Definition fmin (a b : pyfloat) : pyfloat := if SFltb b a then b else a.
Definition fmax (a b : pyfloat) : pyfloat := if SFltb a b then b else a.

Section Retry.
Context {St A : Type}.
Variable fn : run_in St A.
Variable retries : Z.
Variables base_delay max_delay : pyfloat.
Variable exceptions : exn -> bool.
Variable sleep : pyfloat -> St -> St.
Variable jitter : option (pyfloat -> Z -> pyfloat).

(** The pause after the failed attempt of that number. *)
Definition backoff (attempt : Z) : result pyfloat :=
  factor ← int_operand (2 ^ (attempt - 1));
  let delay := fmin max_delay (fmul base_delay factor) in
  Ok (match jitter with
      | Some f => fmax fzero (f delay attempt)
      | None => delay
      end).

Fixpoint retry_loop (fuel : nat) (attempt : Z) (s : St) : St * result A :=
  match fn s with
  | (s, Ok a) => (s, Ok a)
  | (s, Err e) =>
      if exceptions e then
        let attempt := attempt + 1 in
        if retries <? attempt then (s, Err e)
        else match fuel with
             | O => (s, raise Diverges "")
             | S fuel =>
                 match backoff attempt with
                 | Ok delay => retry_loop fuel attempt (sleep delay s)
                 | Err x => (s, Err x)
                 end
             end
      else (s, Err e)
  end.

(** The loop makes [retries] rounds after the first at most. *)
Definition with_retry : run_in St A := fun s => retry_loop (Z.to_nat retries) 0 s.

(** [failed_attempts k n s t]: from the failed attempts so far, [k], another [n] attempts fail with an
    exception that is retried, and lead from [s] to [t] with the pauses after them. *)
Inductive failed_attempts : Z -> nat -> St -> St -> Prop :=
  | failed_none k s : failed_attempts k 0 s s
  | failed_next k n s u e delay t :
      fn s = (u, Err e) -> exceptions e = true -> backoff (k + 1) = Ok delay ->
      failed_attempts (k + 1) n (sleep delay u) t -> failed_attempts k (S n) s t.

Definition paused : Prop := forall k, 1 <= k <= retries -> is_Ok (backoff k) = true.

Lemma retry_loop_spec fuel : forall k s t r, 0 <= k -> (Z.to_nat (retries - k) <= fuel)%nat -> paused ->
  retry_loop fuel k s = (t, r) ->
  exists n u, failed_attempts k n s u /\ fn u = (t, r) /\ (n <= Z.to_nat (retries - k))%nat /\
    (forall e, r = Err e -> exceptions e = true -> n = Z.to_nat (retries - k)).
Proof.
  induction fuel as [|fuel IH]; intros k s t r Hk Hfuel Hp H; simpl in H.
  all: destruct (fn s) as [u [a|e]] eqn:Ef;
    [injection H as <- <-; exists 0%nat, s; split_and!; [constructor|done|lia|done]|].
  all: destruct (exceptions e) eqn:Ee;
    [|injection H as <- <-; exists 0%nat, s; split_and!; [constructor|done|lia|intros e' [= <-] He'; congruence]].
  all: destruct (retries <? k + 1) eqn:Er; bools;
    [injection H as <- <-; exists 0%nat, s; split_and!; [constructor|done|lia|intros _ _ _; lia]|].
  - lia.
  - destruct (backoff (k + 1)) as [delay|x] eqn:Eb.
    + destruct (IH (k + 1) _ _ _ ltac:(lia) ltac:(lia) Hp H) as (n & v & Hf & Hv & Hn & Hlast).
      exists (S n), v. split_and!; [by econstructor|done|lia|]. intros e' He' Hx. rewrite (Hlast e' He' Hx). lia.
    + specialize (Hp (k + 1) ltac:(lia)). by rewrite Eb in Hp.
Qed.

(** A call is made once more than it failed before: [retries] times at most and, when it
    ends with an exception that is retried, exactly that often. *)
Lemma with_retry_spec s t r : paused -> with_retry s = (t, r) ->
  exists n u, failed_attempts 0 n s u /\ fn u = (t, r) /\ Z.of_nat n <= Z.max 0 retries /\
    (forall e, r = Err e -> exceptions e = true -> Z.of_nat n = Z.max 0 retries).
Proof.
  intros Hp H. destruct (retry_loop_spec _ 0 s t r ltac:(lia) ltac:(by rewrite Z.sub_0_r) Hp H) as (n & u & Hf & Hu & Hn & Hl).
  exists n, u. split_and!; [done|done|lia|]. intros e He Hx. specialize (Hl e He Hx). lia.
Qed.

Lemma retry_loop_Ok fuel : forall k s t a, retry_loop fuel k s = (t, Ok a) -> exists u, fn u = (t, Ok a).
Proof.
  induction fuel as [|fuel IH]; intros k s t a H; simpl in H.
  all: destruct (fn s) as [u [b|e]] eqn:Ef; [by exists s; rewrite Ef|]; destruct (exceptions e); [|done].
  all: destruct (retries <? k + 1); [done|].
  1: done.
  destruct (backoff (k + 1)) as [delay|x]; [by eapply IH|done].
Qed.

Lemma int_operand_halts n : halts (int_operand n).
Proof. unfold int_operand. by destruct (float_of_Z n). Qed.

Lemma retry_loop_halts fuel : forall k s, (Z.to_nat (retries - k) <= fuel)%nat -> (forall s, halts (fn s).2) ->
  halts (retry_loop fuel k s).2.
Proof.
  induction fuel as [|fuel IH]; intros k s Hfuel Hfn; simpl.
  all: specialize (Hfn s) as Hs; destruct (fn s) as [u [b|e]]; [done|]; destruct (exceptions e); [|done].
  all: destruct (retries <? k + 1) eqn:Er; [done|]; bools.
  1: lia.
  destruct (backoff (k + 1)) as [delay|x] eqn:Eb; [apply IH; [lia|done]|].
  unfold backoff in Eb. pose proof (int_operand_halts (2 ^ (k + 1 - 1))) as Hi.
  destruct (int_operand _); [done|]. simpl in *. by injection Eb as <-.
Qed.
End Retry.

Definition default_base_delay : pyfloat := Eval vm_compute in fdiv (float_of_Z 1) (float_of_Z 2).
Definition default_max_delay : pyfloat := Eval vm_compute in float_of_Z 8.

#[export] Instance spec_float_eq_dec : EqDecision spec_float.
Proof. solve_decision. Defined.

Definition default_pause (k : Z) : pyfloat :=
  if k <=? 4 then fdiv (float_of_Z (2 ^ (k - 1))) (float_of_Z 2) else float_of_Z 8.

Definition pauses_at (i : nat) : bool :=
  bool_decide (backoff default_base_delay default_max_delay None (Z.of_nat i) = Ok (default_pause (Z.of_nat i))).

(** The pauses are half a second, one, two, four and then eight seconds. *)
Lemma default_backoff k : 1 <= k <= 1024 -> backoff default_base_delay default_max_delay None k = Ok (default_pause k).
Proof.
  intros Hk. assert (forallb pauses_at (seq 1 1024) = true) as H by (vm_compute; reflexivity).
  rewrite forallb_forall in H. specialize (H (Z.to_nat k)). unfold pauses_at in H. rewrite Z2Nat.id in H by lia.
  apply bool_decide_eq_true in H; [done|]. apply in_seq. lia.
Qed.

(** ** The catalog (jquants/catalog.py) *)

Record catalog_entry := mkEntry { ce_path : string; ce_group : string; ce_bulk : string; ce_params : list string }.

(** The fields of the contracts in data_contracts/jquants_premium_core.json that the client
    and the job planner read. *)
Definition premium_entries : list (string * catalog_entry) :=
  [
   ("equities_master", mkEntry "/v2/equities/master" "core" "api" ["code"; "date"]);
   ("equities_bars_daily", mkEntry "/v2/equities/bars/daily" "core" "api" ["code"; "date"; "from"; "to"]);
   ("equities_bars_daily_am", mkEntry "/v2/equities/bars/daily/am" "core" "api" ["code"; "pagination_key"]);
   ("fins_summary", mkEntry "/v2/fins/summary" "core" "api" ["code"; "date"]);
   ("fins_details", mkEntry "/v2/fins/details" "core" "api" ["code"; "date"]);
   ("fins_dividend", mkEntry "/v2/fins/dividend" "core" "api" ["code"; "from"; "to"]);
   ("fins_earnings_date", mkEntry "/v2/fins/earnings-date" "core" "api" ["code"]);
   ("equities_earnings_calendar", mkEntry "/v2/equities/earnings-calendar" "core" "api" ["pagination_key"]);
   ("markets_calendar", mkEntry "/v2/markets/calendar" "core" "api" ["from"; "to"; "holidaydivision"]);
   ("equities_investor_types", mkEntry "/v2/equities/investor-types" "core" "api" ["code"; "from"; "to"]);
   ("indices_bars_daily_topix", mkEntry "/v2/indices/bars/daily/topix" "core" "api" ["from"; "to"]);
   ("indices_bars_daily", mkEntry "/v2/indices/bars/daily" "core" "api" ["code"; "from"; "to"]);
   ("derivatives_bars_daily_options_225", mkEntry "/v2/derivatives/bars/daily/options/225" "core" "api" ["from"; "to"]);
   ("derivatives_bars_daily_futures", mkEntry "/v2/derivatives/bars/daily/futures" "core" "api" ["code"; "from"; "to"]);
   ("derivatives_bars_daily_options", mkEntry "/v2/derivatives/bars/daily/options" "core" "api" ["code"; "from"; "to"]);
   ("markets_margin_interest", mkEntry "/v2/markets/margin-interest" "core" "api" ["code"; "date"; "from"; "to"; "published_date"]);
   ("markets_margin_alert", mkEntry "/v2/markets/margin-alert" "core" "api" ["code"; "date"; "from"; "to"]);
   ("markets_short_ratio", mkEntry "/v2/markets/short-ratio" "core" "api" ["code"; "date"; "from"; "to"; "section"]);
   ("markets_short_sale_report", mkEntry "/v2/markets/short-sale-report" "core" "api" ["code"; "date"; "from"; "to"]);
   ("markets_breakdown", mkEntry "/v2/markets/breakdown" "core" "api" ["code"; "date"; "from"; "to"]);
   ("edinet_major_shareholders", mkEntry "/v2/edinet/major-shareholders" "edinet" "api" ["code"; "date"]);
   ("edinet_cross_shareholdings", mkEntry "/v2/edinet/cross-shareholdings" "edinet" "api" ["code"; "date"]);
   ("edinet_large_volume_shareholders", mkEntry "/v2/edinet/large-volume-shareholders" "edinet" "api" ["edinet_code"; "code"; "date"]);
   ("equities_valuation", mkEntry "/v2/equities/valuation" "core" "api" ["code"; "date"; "from"; "to"])].

Definition ADDON_DATASETS : list (string * catalog_entry) :=
  [
   ("equities_bars_minute", mkEntry "/v2/equities/bars/minute" "addon" "bulk" ["code"; "from"; "to"]);
   ("equities_trades", mkEntry "/v2/equities/trades" "addon" "bulk" ["code"; "date"; "from"; "to"]);
   ("td_list", mkEntry "/v2/td/list" "addon" "api" ["date"]);
   ("td_files", mkEntry "/v2/td/files" "addon" "api" ["date"]);
   ("td_bulk", mkEntry "/v2/td/bulk" "addon" "bulk" ["date"])].

Definition DATASETS : list (string * catalog_entry) := dict_merge premium_entries ADDON_DATASETS.

Definition BASE : string := "https://api.jquants.com".

Definition list_datasets (group : option string) : list string :=
  match group with
  | None => map fst DATASETS
  | Some g => map fst (filter (fun p => ce_group p.2 = g) DATASETS)
  end.

Fixpoint entry_of (dataset_id : string) (d : list (string * catalog_entry)) : option catalog_entry :=
  match d with
  | [] => None
  | (k, e) :: d => if dataset_id =s k then Some e else entry_of dataset_id d
  end.

Definition catalog_get (dataset_id : string) : result catalog_entry :=
  of_option KeyError "unknown jquants dataset" (entry_of dataset_id DATASETS).

Definition path_of (dataset_id : string) : result string := e ← catalog_get dataset_id; Ok (ce_path e).

Definition is_premium_core (dataset_id : string) : bool := dataset_id ∈? map fst premium_entries.

Definition usable_path (path : string) : bool := String.prefix "/v2/" path && (4 <? String.length path)%nat.

Definition assert_catalog_coverage : result unit :=
  foldR (fun _ p => ensure (usable_path (ce_path p.2)) ValueError "catalog entry has no usable /v2/ path") tt DATASETS.

Lemma catalog_covered : assert_catalog_coverage = Ok tt /\ NoDup (map fst DATASETS) /\ length DATASETS = 29%nat.
Proof. split_and!; [by vm_compute| |by vm_compute]. apply (bool_decide_eq_true_1 _). by vm_compute. Qed.

(** ** The client *)

Record HttpResponse := mkResponse {
  hr_status : Z;
  hr_headers : list (string * string);
  hr_body : string;
  hr_url : string;
}.

Definition response_ok (r : HttpResponse) : bool := (200 <=? hr_status r) && (hr_status r <? 300).

Definition transport_exception_types : list exn_class := [TransportError; OSError; FileNotFoundError; FileExistsError].

(** [dict(row)] of a value of a JSON text: a dict, or an iterable of pairs. *)
Definition py_pair (j : json) : result (string * json) :=
  match j with
  | JStr s =>
      match s with
      | String a (String b EmptyString) => Ok (String a EmptyString, JStr (String b EmptyString))
      | _ => raise ValueError "dictionary update sequence element has a wrong length"
      end
  | JList [k; v] =>
      match k with
      | JStr s => Ok (s, v)
      | JList _ | JDict _ => raise TypeError "unhashable type"
      | _ => raise OutsideModel "a key that is not a string"
      end
  | JDict [(a, _); (b, _)] => Ok (a, JStr b)
  | JList _ | JDict _ => raise ValueError "dictionary update sequence element has a wrong length"
  | _ => raise TypeError "cannot convert dictionary update sequence element to a sequence"
  end.

Definition py_dict (j : json) : result (list (string * json)) :=
  match j with
  | JDict d => Ok d
  | _ => items ← py_iter j; pairs ← mapR py_pair items; Ok (dict_merge [] pairs)
  end.

(** [_records] *)
Definition records (payload : json) (fallbacks : list string) : list json :=
  match payload with
  | JDict d =>
      let rows := match getv "data" d with
                  | JNull => match filter (fun k => has_key k d = true) fallbacks with
                             | k :: _ => getv k d
                             | [] => JNull
                             end
                  | rows => rows
                  end in
      match rows with JList l => l | _ => [] end
  | _ => []
  end.

Definition PARAM_ALIASES (k : string) : string :=
  if k =s "from_date" then "from" else if k =s "to_date" then "to" else k.

(** [_normalize_params] *)
Definition normalize_params (params : list (string * json)) : list (string * json) :=
  fold_left (fun out p => if bool_decide (p.2 = JNull \/ p.2 = JStr "") then out
                          else dict_set (PARAM_ALIASES p.1) p.2 out) params [].

(** The token of the next page, as the response has it. *)
Definition next_pagination (data : json) : json :=
  match data with
  | JDict d => or_ (getv "pagination_key" d) (getv "pagination_token" d)
  | _ => JNull
  end.

(** [next_token]: the text of a truthy token, which is not empty. *)
Definition continuation (data : json) : option string :=
  let next := next_pagination data in
  if truthy next then Some (py_str next) else None.

Definition page_params (base : list (string * json)) (pagination : option string) : list (string * json) :=
  match pagination with
  | Some token => dict_set "pagination_key" (JStr token) base
  | None => base
  end.

(** [_JQuantsRawPage] *)
Record raw_page := mkPage {
  pg_path : string;
  pg_params : list (string * json);
  pg_url : string;
  pg_status : Z;
  pg_body : string;
  pg_in : option string;
  pg_out : option string;
}.

(** [_JQuantsFetchResult] *)
Record fetch_result := mkFetch {
  fr_dataset_id : string;
  fr_base_params : list (string * json);
  fr_rows : list (list (string * json));
  fr_pages : list raw_page;
  fr_transport : string;
}.

Definition new_fetch_result dataset_id base rows pages transport : result fetch_result :=
  _ ← ensure (negb (bool_decide (length pages = 0%nat))) ValueError "J-Quants fetch evidence requires at least one page";
  Ok (mkFetch dataset_id base rows pages transport).

Section Client.
Context {W : Type}.
Variable http_name : string.
Variable http_get : string -> list (string * string) -> list (string * json) -> run_in W HttpResponse.
Variable clock : W -> W * pyfloat.
Variable sleep : pyfloat -> W -> W.
Variable api_key : string.
Variable retries : Z.
Variable float_repr : string -> string.

Record client_state := mkClient { world : W; limiter : RateLimiter }.

(** [HttpResponse.json]: a body that is not UTF-8 text of code points below 256 is outside
    the model. *)
Definition body_json (body : string) : result json :=
  match utf8_decode body with
  | Ok text => json_loads float_repr text
  | Err _ => raise OutsideModel "a code point from 256 on or invalid UTF-8"
  end.

Definition wait_turn (st : client_state) : client_state :=
  let '(w, now) := clock (world st) in
  let '(wait, l) := acquire (limiter st) now in
  mkClient (if SFltb fzero wait then sleep wait w else w) l.

Definition headers : list (string * string) := if api_key =s "" then [] else [("x-api-key", api_key)].

(** What [call] makes of a reply. *)
Definition judge (r : result HttpResponse) : result HttpResponse :=
  resp ← on_error transport_exception_types Transient "transport error" r;
  if (hr_status resp =? 429) || ((500 <=? hr_status resp) && (hr_status resp <? 600))
  then raise Transient "HTTP status"
  else if response_ok resp then Ok resp else raise RuntimeError "J-Quants HTTP status".

(** [call] of [_request] *)
Definition call (path : string) (params : list (string * json)) : run_in client_state HttpResponse := fun st =>
  let st := wait_turn st in
  let '(w, r) := http_get (BASE +:+ path) headers params (world st) in
  (mkClient w (limiter st), judge r).

Definition is_transient (e : exn) : bool := bool_decide (exn_kind e = Transient).

Definition pause (delay : pyfloat) (st : client_state) : client_state := mkClient (sleep delay (world st)) (limiter st).

(** [_request] *)
Definition request (path : string) (params : list (string * json)) : run_in client_state HttpResponse :=
  with_retry (call path params) retries default_base_delay default_max_delay is_transient pause None.

(** The loop of [_fetch_paginated_evidence]. *)
Fixpoint paginate (fuel : nat) (path : string) (base : list (string * json)) (pagination : option string)
    (rows : list json) (pages : list raw_page) (seen : list string) : run_in client_state (list json * list raw_page) :=
  match fuel with
  | O => lift_run (raise Diverges "")
  | S fuel =>
      response ← request path (page_params base pagination);
      data ← lift_run (body_json (hr_body response));
      let rows := rows ++ records data [] in
      let next := continuation data in
      let pages := pages ++ [mkPage path (page_params base pagination) (hr_url response) (hr_status response)
                                    (hr_body response) pagination next] in
      match next with
      | None => mret (rows, pages)
      | Some token =>
          if token ∈? seen then lift_run (raise RuntimeError "J-Quants pagination token loop detected")
          else paginate fuel path base next rows pages (seen ++ [token])
      end
  end.

(** [_fetch_paginated_evidence] *)
Definition fetch_paginated_evidence (fuel : nat) (path : string) (params : list (string * json)) (dataset_id : string)
    : run_in client_state fetch_result :=
  let base := normalize_params params in
  found ← paginate fuel path base None [] [] [];
  rows ← lift_run (mapR py_dict found.1);
  lift_run (new_fetch_result dataset_id base rows found.2 http_name).

Definition fetch_paginated (fuel : nat) (path : string) (params : list (string * json))
    : run_in client_state (list (list (string * json))) :=
  r ← fetch_paginated_evidence fuel path params path;
  mret (fr_rows r).

(** Keyword arguments collide with the names of the method's own. *)
Definition fetch_dataset_evidenced (fuel : nat) (dataset_id : string) (params : list (string * json))
    : run_in client_state fetch_result :=
  _ ← lift_run (ensure (negb (has_key "self" params || has_key "dataset_id" params)) TypeError "got multiple values for argument");
  path ← lift_run (path_of dataset_id);
  fetch_paginated_evidence fuel path params dataset_id.

Definition fetch_dataset (fuel : nat) (dataset_id : string) (params : list (string * json))
    : run_in client_state (list (list (string * json))) :=
  r ← fetch_dataset_evidenced fuel dataset_id params;
  mret (fr_rows r).

(** The wrappers of the first phase. *)
Definition get_json (path : string) (params : list (string * json)) : run_in client_state json :=
  response ← request path params;
  lift_run (body_json (hr_body response)).

Definition given_param (k : string) (v : option string) : list (string * json) :=
  match v with
  | Some s => if s =s "" then [] else [(k, JStr s)]
  | None => []
  end.

(** The loop of [listed_info] and [daily_bars]. *)
Fixpoint wrapper_pages (fuel : nat) (path : string) (params : list (string * json)) (fallback : string)
    (pagination : json) (rows : list json) : run_in client_state (list json) :=
  match fuel with
  | O => lift_run (raise Diverges "")
  | S fuel =>
      data ← get_json path (if truthy pagination then dict_set "pagination_key" pagination params else params);
      let rows := rows ++ records data [fallback] in
      let pagination := next_pagination data in
      if truthy pagination then wrapper_pages fuel path params fallback pagination rows else mret rows
  end.

Definition listed_info (fuel : nat) (date_ code_ : option string) : run_in client_state (list json) :=
  wrapper_pages fuel "/v2/equities/master" (given_param "date" date_ ++ given_param "code" code_) "info" JNull [].

Definition daily_bars (fuel : nat) (code_ date_ from_date to_date : option string) : run_in client_state (list json) :=
  wrapper_pages fuel "/v2/equities/bars/daily"
    (given_param "code" code_ ++ given_param "date" date_ ++ given_param "from" from_date ++ given_param "to" to_date) "daily_bars" JNull [].

Definition market_calendar (from_date to_date holiday_division : option string) : run_in client_state (list json) :=
  data ← get_json "/v2/markets/calendar"
           (given_param "from" from_date ++ given_param "to" to_date ++ given_param "holidaydivision" holiday_division);
  mret (records data ["calendar"]).

Definition fins_summary (code_ date_ : option string) : run_in client_state (list json) :=
  data ← get_json "/v2/fins/summary" (given_param "code" code_ ++ given_param "date" date_);
  mret (records data ["summary"]).

(** ** The chain of pages *)

(** A reply the client accepts. *)
Definition replied (path : string) (params : list (string * json)) (resp : HttpResponse) : Prop :=
  exists w w', http_get (BASE +:+ path) headers params w = (w', Ok resp) /\ response_ok resp = true.

(** Each page was asked for with the token of the page before, and the last carries none. *)
Fixpoint linked (pagination : option string) (pages : list raw_page) : Prop :=
  match pages with
  | [] => False
  | p :: rest => pg_in p = pagination /\
      match pg_out p with
      | Some token => linked (Some token) rest
      | None => rest = []
      end
  end.

Definition authentic (path : string) (base : list (string * json)) (p : raw_page) : Prop :=
  pg_path p = path /\ pg_params p = page_params base (pg_in p) /\
  exists resp data, replied path (pg_params p) resp /\
    hr_url resp = pg_url p /\ hr_status resp = pg_status p /\ hr_body resp = pg_body p /\
    body_json (pg_body p) = Ok data /\ pg_out p = continuation data.

Definition page_records (p : raw_page) : list json :=
  match body_json (pg_body p) with Ok data => records data [] | Err _ => [] end.

Definition tokens_of (pages : list raw_page) : list string := omap pg_out pages.

Lemma judge_Ok r resp : judge r = Ok resp -> r = Ok resp /\ response_ok resp = true.
Proof.
  unfold judge. intros H. apply bind_Ok in H as (x & Hx & H). apply on_error_Ok in Hx as ->.
  destruct (_ || _); [done|]. destruct (response_ok x) eqn:E; [|done]. by injection H as <-.
Qed.

Lemma request_Ok path params st st' resp : request path params st = (st', Ok resp) -> replied path params resp.
Proof.
  intros H. apply retry_loop_Ok in H as (u & H). unfold call in H.
  destruct (http_get _ _ _ (world (wait_turn u))) as [w r] eqn:E. injection H as _ Hj.
  apply judge_Ok in Hj as [-> Hok]. by exists (world (wait_turn u)), w.
Qed.

Lemma paginate_chain fuel path base : forall pagination rows pages seen st st' rows' pages',
  paginate fuel path base pagination rows pages seen st = (st', Ok (rows', pages')) ->
  exists new, pages' = pages ++ new /\ rows' = rows ++ concat (map page_records new) /\ linked pagination new /\
    Forall (authentic path base) new /\ NoDup (tokens_of new) /\ (forall s, s ∈ tokens_of new -> s ∉ seen).
Proof.
  induction fuel as [|fuel IH]; intros pagination rows pages seen st st' rows' pages' H; [done|]. cbn [paginate] in H.
  apply run_bind_Ok in H as (st1 & resp & Hreq & H). apply request_Ok in Hreq.
  apply run_bind_Ok in H as (st2 & data & Hdata & H). injection Hdata as <- Hdata.
  set (p := mkPage path (page_params base pagination) (hr_url resp) (hr_status resp) (hr_body resp) pagination (continuation data)) in H.
  assert (authentic path base p) as Hp by (split_and!; [done|done|]; exists resp, data; by split_and!).
  assert (page_records p = records data []) as Hr by (unfold page_records; simpl; by rewrite Hdata).
  destruct (continuation data) as [token|] eqn:Ec.
  - destruct (token ∈? seen) eqn:Es; [done|]. bools. apply IH in H as (new & -> & -> & Hl & Hf & Hn & Hs). exists (p :: new). split_and!.
    + by rewrite <- app_assoc.
    + simpl. by rewrite Hr, app_assoc.
    + by split.
    + by constructor.
    + change (tokens_of (p :: new)) with (token :: tokens_of new). constructor; [|done]. intros Hin. apply (Hs _ Hin). set_solver.
    + change (tokens_of (p :: new)) with (token :: tokens_of new). set_solver.
  - injection H as _ <- <-. exists [p]. split_and!; [done|simpl; by rewrite Hr, app_nil_r|by split|by constructor|constructor|].
    intros s Hs. by apply elem_of_nil in Hs.
Qed.

(** Claim C21. The evidence of a fetch is one complete chain of responses.  Whatever the
    server, the clock and the faults do, when a fetch returns, every page is a verbatim
    response with a status of success to the request it names, the first was asked for with the
    caller's parameters and each other with the token of the page before it, only the last carries no token, no
    token occurs twice, and the rows are those of the pages in order. *)
Theorem fetch_chain fuel path params dataset_id st st' r :
  fetch_paginated_evidence fuel path params dataset_id st = (st', Ok r) ->
  linked None (fr_pages r) /\ Forall (authentic path (normalize_params params)) (fr_pages r) /\
  NoDup (tokens_of (fr_pages r)) /\ mapR py_dict (concat (map page_records (fr_pages r))) = Ok (fr_rows r).
Proof.
  unfold fetch_paginated_evidence. intros H. apply run_bind_Ok in H as (st1 & [rows pages] & Hp & H).
  apply run_bind_Ok in H as (st2 & dicts & Hd & H). injection Hd as <- Hd. cbn [fst snd] in *.
  apply paginate_chain in Hp as (new & -> & -> & Hl & Hf & Hn & _). cbn [app] in *.
  injection H as _ H. unfold new_fetch_result in H. apply bind_Ok in H as (_ & _ & H). injection H as <-. by split_and!.
Qed.

(** ** A fetch ends *)

Lemma body_json_halts body : halts (body_json body).
Proof. unfold body_json. destruct (utf8_decode body); [apply json_loads_halts|done]. Qed.

Lemma request_halts path params st : (forall w, halts (http_get (BASE +:+ path) headers params w).2) ->
  halts (request path params st).2.
Proof.
  intros Hget. apply retry_loop_halts; [lia|]. intros s. unfold call.
  specialize (Hget (world (wait_turn s))). destruct (http_get _ _ _ _) as [w [resp|e]]; cbn [snd].
  - unfold judge. cbn [on_error mbind result_bind]. by repeat case_match.
  - unfold judge, on_error. by case_bool_decide.
Qed.

(** The tokens the server may send are among [tokens]. *)
Definition sends_only (path : string) (tokens : list string) : Prop := forall params resp data token,
  replied path params resp -> body_json (hr_body resp) = Ok data -> continuation data = Some token -> token ∈ tokens.

Lemma paginate_halts path base tokens : sends_only path tokens ->
  (forall params w, halts (http_get (BASE +:+ path) headers params w).2) ->
  forall fuel pagination rows pages seen st, NoDup seen -> seen ⊆ tokens -> (length tokens - length seen < fuel)%nat ->
    halts (paginate fuel path base pagination rows pages seen st).2.
Proof.
  intros Hsend Hget. induction fuel as [|fuel IH]; intros pagination rows pages seen st Hn Hs Hf; [lia|]. cbn [paginate].
  apply run_bind_halts; [by apply request_halts|]. intros st1 resp Er%request_Ok.
  apply run_bind_halts; [apply body_json_halts|]. intros st2 data Ed. injection Ed as _ Ed.
  destruct (continuation data) as [token|] eqn:Ec; [|done].
  destruct (token ∈? seen) eqn:Es; [done|]. bools.
  assert (token ∈ tokens) as Ht by (by eapply Hsend).
  assert (NoDup (seen ++ [token])) as Hn' by (apply NoDup_app; split_and!; [done| |apply NoDup_singleton]; set_solver).
  assert (seen ++ [token] ⊆ tokens) as Hs' by set_solver.
  assert (length (seen ++ [token]) <= length tokens)%nat as Hlen.
  { apply submseteq_length, NoDup_submseteq; [done|]. intros x Hx. by apply Hs'. }
  rewrite length_app in Hlen. simpl in Hlen.
  apply IH; [done|done|]. rewrite length_app. simpl. lia.
Qed.

Lemma mapR_halts {A B} (f : A -> result B) l : (forall x, halts (f x)) -> halts (mapR f l).
Proof.
  intros Hf. induction l as [|x l IH]; [done|]. simpl. specialize (Hf x). destruct (f x); [|done]. simpl. by destruct (mapR f l).
Qed.

Lemma py_pair_halts j : halts (py_pair j).
Proof. unfold py_pair. by repeat case_match. Qed.

Lemma py_dict_halts j : halts (py_dict j).
Proof.
  unfold py_dict. destruct (py_iter j) as [items|e] eqn:E.
  - pose proof (mapR_halts py_pair items py_pair_halts) as H. destruct j; try done; simpl in *; by destruct (mapR _ _).
  - destruct j; try done; simpl in *; by injection E as <-.
Qed.

(** A fetch from a server with finitely many tokens ends, also when the server repeats them,
    whatever faults there are. *)
Lemma fetch_ends fuel path params dataset_id tokens st : sends_only path tokens ->
  (forall params w, halts (http_get (BASE +:+ path) headers params w).2) -> (length tokens < fuel)%nat ->
  halts (fetch_paginated_evidence fuel path params dataset_id st).2.
Proof.
  intros Hsend Hget Hfuel. unfold fetch_paginated_evidence. apply run_bind_halts.
  - eapply paginate_halts; [done|done|constructor|set_solver|simpl; lia].
  - intros st1 found _. apply run_bind_halts; [by apply mapR_halts, py_dict_halts|]. intros st2 rows _.
    simpl. unfold new_fetch_result. by destruct (negb _).
Qed.

(** ** A fetch survives faults *)

(** The faults the world has left before it answers a request. *)
Variable faults : W -> nat.

(** Pauses and readings of the clock bring no faults, and there are never more in a row than
    retries. *)
Record steady : Prop := mkSteady {
  steady_clock : forall w, (faults (clock w).1 <= faults w)%nat;
  steady_sleep : forall d w, (faults (sleep d w) <= faults w)%nat;
  steady_bound : forall w, Z.of_nat (faults w) <= retries;
}.

(** A request is answered with the body, unless a fault that may pass uses one up. *)
Definition answers (path : string) (params : list (string * json)) (body : string) : Prop := forall w,
  match judge (http_get (BASE +:+ path) headers params w).2 with
  | Ok resp => hr_body resp = body
  | Err e => is_transient e = true /\ (faults (http_get (BASE +:+ path) headers params w).1 < faults w)%nat
  end.

(** A site of pages: bodies with what they say, each linked to the next by its token. *)
Fixpoint site (path : string) (base : list (string * json)) (pagination : option string) (chain : list (string * json)) : Prop :=
  match chain with
  | [] => False
  | (body, data) :: rest =>
      answers path (page_params base pagination) body /\ body_json body = Ok data /\
      match continuation data with
      | Some token => site path base (Some token) rest
      | None => rest = []
      end
  end.

Definition site_tokens (chain : list (string * json)) : list string := omap (fun p => continuation p.2) chain.

Lemma wait_turn_faults st : steady -> (faults (world (wait_turn st)) <= faults (world st))%nat.
Proof.
  intros [Hc Hs _]. unfold wait_turn. specialize (Hc (world st)). destruct (clock (world st)) as [w now].
  destruct (acquire (limiter st) now) as [wait l]. simpl in *. destruct (SFltb fzero wait); [|done]. etrans; [apply Hs|done].
Qed.

Lemma call_answered path params body st t r : steady -> answers path params body -> call path params st = (t, r) ->
  match r with
  | Ok resp => hr_body resp = body
  | Err e => is_transient e = true /\ (faults (world t) < faults (world st))%nat
  end.
Proof.
  intros Hst Ha H. unfold call in H. specialize (Ha (world (wait_turn st))). pose proof (wait_turn_faults st Hst) as Hf.
  destruct (http_get _ _ _ _) as [w r0] eqn:E. injection H as <- <-. cbn [snd fst] in Ha. destruct (judge r0) as [resp|e]; [done|].
  simpl. destruct Ha as [He Hlt]. split; [done|]. lia.
Qed.

Lemma failed_faults path params body k n s u : steady -> answers path params body ->
  failed_attempts (call path params) default_base_delay default_max_delay is_transient pause None k n s u ->
  (faults (world u) + n <= faults (world s))%nat.
Proof.
  intros Hst Ha H. induction H as [|k n s u e delay t Hf He Hb _ IH]; [lia|].
  apply (call_answered _ _ body) in Hf as [_ Hf]; [|done|done]. pose proof (steady_sleep Hst delay (world u)) as Hs.
  unfold pause in IH. simpl in IH. lia.
Qed.

Lemma request_answered path params body st : steady -> retries <= 1024 -> answers path params body ->
  exists st' resp, request path params st = (st', Ok resp) /\ hr_body resp = body.
Proof.
  intros Hst Hr Ha. destruct (request path params st) as [st' r] eqn:E. apply with_retry_spec in E as (n & u & Hf & Hu & Hn & Hl).
  - pose proof (failed_faults _ _ _ _ _ _ _ Hst Ha Hf) as Hc. pose proof (call_answered _ _ _ _ _ _ Hst Ha Hu) as Hr'.
    destruct r as [resp|e]; [by exists st', resp|]. destruct Hr' as [He Hlt]. specialize (Hl e eq_refl He).
    pose proof (steady_bound Hst (world st)). lia.
  - intros k Hk. rewrite default_backoff by lia. done.
Qed.

Lemma paginate_site path base : steady -> retries <= 1024 ->
  forall chain fuel pagination rows pages seen st, site path base pagination chain -> (length chain <= fuel)%nat ->
    NoDup (site_tokens chain) -> (forall s, s ∈ site_tokens chain -> s ∉ seen) ->
    exists st' new, paginate fuel path base pagination rows pages seen st =
        (st', Ok (rows ++ concat (map (fun p => records p.2 []) chain), pages ++ new)) /\
      map pg_body new = map fst chain.
Proof.
  intros Hst Hr. induction chain as [|[body data] chain IH]; intros fuel pagination rows pages seen st Hsite Hfuel Hn Hs; [done|].
  destruct fuel as [|fuel]; [simpl in Hfuel; lia|]. destruct Hsite as (Ha & Hb & Hrest).
  destruct (request_answered _ _ _ st Hst Hr Ha) as (st1 & resp & Hreq & Hbody). cbn [paginate]. unfold mbind, run_bind. rewrite Hreq.
  unfold lift_run at 1. rewrite Hbody, Hb. change (site_tokens ((body, data) :: chain)) with (match continuation data with
    | Some x => x :: site_tokens chain | None => site_tokens chain end) in Hn, Hs.
  destruct (continuation data) as [token|] eqn:Ec.
  - rewrite bool_decide_eq_false_2 by (apply Hs; by left). inversion Hn as [|? ? Hnin Hn']; subst.
    set (p := mkPage _ _ _ _ _ _ _). simpl in Hfuel.
    destruct (IH fuel (Some token) (rows ++ records data []) (pages ++ [p]) (seen ++ [token]) st1 Hrest ltac:(lia) Hn')
      as (st2 & new & E & Hm).
    + intros s Hin. specialize (Hs s). set_solver.
    + exists st2, (p :: new). rewrite E. simpl. split; [by rewrite <- !app_assoc|]. by rewrite Hm.
  - subst chain. eexists st1, [_]. simpl. split; [by rewrite app_nil_r|done].
Qed.

(** Claim C12. A fetch is complete on a faulty line.  When there are never more faults in a row than
    retries, the caller gets the rows of all the pages of the site, in order, and every
    body as evidence, for each dataset of the catalog and however the faults fall. *)
Theorem fetch_complete fuel dataset_id params path chain rows st : steady -> retries <= 1024 ->
  path_of dataset_id = Ok path -> has_key "self" params = false -> has_key "dataset_id" params = false ->
  site path (normalize_params params) None chain -> NoDup (site_tokens chain) -> (length chain <= fuel)%nat ->
  mapR py_dict (concat (map (fun p => records p.2 []) chain)) = Ok rows ->
  exists st' r, fetch_dataset_evidenced fuel dataset_id params st = (st', Ok r) /\
    fr_rows r = rows /\ map pg_body (fr_pages r) = map fst chain /\ fr_dataset_id r = dataset_id.
Proof.
  intros Hst Hr Hp Hself Hid Hsite Hn Hfuel Hrows.
  destruct (paginate_site path (normalize_params params) Hst Hr chain fuel None [] [] [] st Hsite Hfuel Hn)
    as (st' & new & E & Hm); [intros s _; apply not_elem_of_nil|].
  exists st', (mkFetch dataset_id (normalize_params params) rows new http_name).
  split; [|done]. unfold fetch_dataset_evidenced, mbind, run_bind, lift_run. rewrite Hself, Hid. cbn [orb negb ensure].
  rewrite Hp. unfold fetch_paginated_evidence, mbind, run_bind, lift_run. cbn [app] in E. rewrite E. cbn [fst snd]. rewrite Hrows.
  unfold new_fetch_result. rewrite bool_decide_eq_false_2; [done|]. intros Hlen. apply length_zero_iff_nil in Hlen as ->.
  destruct chain; [done|]. done.
Qed.
End Client.

(** ** A site of two pages *)

Definition page_body (date_ : string) (token : option string) : string := Eval cbv beta in
  canonical_dumps (JDict (("data", JList [JDict [("Code", JStr "86970"); ("Date", JStr date_)]]) ::
    match token with Some s => [("pagination_key", JStr s)] | None => [] end)).

Definition first_body : string := Eval vm_compute in page_body "2025-04-04" (Some "next").
Definition last_body : string := Eval vm_compute in page_body "2025-04-07" None.

(** The line fails every other request. *)
Definition sample_get (url : string) (_ : list (string * string)) (params : list (string * json))
    (fault : bool) : bool * result HttpResponse :=
  if fault then (false, raise TransportError "reset")
  else (true, Ok (mkResponse 200 [] (if has_key "pagination_key" params then last_body else first_body) url)).

Definition sample_clock (w : bool) : bool * pyfloat := (w, fzero).
Definition sample_sleep (_ : pyfloat) (w : bool) : bool := w.
Definition sample_client : client_state (W := bool) := mkClient true (new_limiter fzero).
Definition sample_params : list (string * json) := [("code", JStr "86970"); ("from_date", JStr "2025-04-04")].

Definition sample_json (body : string) : json := ok_or JNull (body_json id body).
Definition first_json : json := Eval vm_compute in sample_json first_body.
Definition last_json : json := Eval vm_compute in sample_json last_body.

Definition sample_fetch : client_state (W := bool) * result (fetch_result) := Eval vm_compute in
  fetch_dataset_evidenced "local" sample_get sample_clock sample_sleep "" 3 id 2 "equities_bars_daily" sample_params sample_client.

Example sample_fetched : map (fun p => getv "Date" p) (fr_rows (ok_or (mkFetch "" [] [] [] "") sample_fetch.2))
    = [JStr "2025-04-04"; JStr "2025-04-07"] /\
  map (fun p => (pg_in p, pg_out p)) (fr_pages (ok_or (mkFetch "" [] [] [] "") sample_fetch.2))
    = [(None, Some "next"); (Some "next", None)].
Proof. vm_compute. by split. Qed.

(** Without retries the first fault is the caller's. *)
Example sample_not_retried :
  (fetch_dataset "local" sample_get sample_clock sample_sleep "" 0 id 2 "equities_bars_daily" sample_params sample_client).2
    = raise Transient "transport error".
Proof. vm_compute. reflexivity. Qed.

Lemma sample_steady : steady sample_clock sample_sleep 3 (fun w : bool => if w then 1%nat else 0%nat).
Proof. split; intros; simpl; [done|done|]. destruct w; lia. Qed.

Lemma fetch_chain_witness : exists r,
  fetch_paginated_evidence "local" sample_get sample_clock sample_sleep "" 3 id 2 "/v2/equities/bars/daily" sample_params "x" sample_client
    = ((fetch_paginated_evidence "local" sample_get sample_clock sample_sleep "" 3 id 2 "/v2/equities/bars/daily" sample_params "x" sample_client).1, Ok r) /\
  linked None (fr_pages r) /\ NoDup (tokens_of (fr_pages r)).
Proof.
  eexists. split; [vm_compute; reflexivity|].
  match goal with |- linked None (fr_pages ?r) /\ _ =>
    destruct (fetch_chain "local" sample_get sample_clock sample_sleep "" 3 id 2 "/v2/equities/bars/daily" sample_params "x" sample_client
      (fetch_paginated_evidence "local" sample_get sample_clock sample_sleep "" 3 id 2 "/v2/equities/bars/daily" sample_params "x" sample_client).1 r)
      as (H1 & _ & H2 & _); [vm_compute; reflexivity|] end.
  split; [exact H1|exact H2].
Defined.

Lemma sample_site : site sample_get "" id (fun w : bool => if w then 1%nat else 0%nat) "/v2/equities/bars/daily"
  (normalize_params sample_params) None [(first_body, first_json); (last_body, last_json)].
Proof.
  split_and!.
  - intros [|]; [split; [vm_compute; reflexivity|simpl; lia]|vm_compute; reflexivity].
  - vm_compute. reflexivity.
  - change (continuation first_json) with (Some "next"). split_and!.
    + intros [|]; [split; [vm_compute; reflexivity|simpl; lia]|vm_compute; reflexivity].
    + vm_compute. reflexivity.
    + reflexivity.
Qed.

Lemma fetch_complete_witness : exists st' r,
  fetch_dataset_evidenced "local" sample_get sample_clock sample_sleep "" 3 id 2 "equities_bars_daily" sample_params sample_client = (st', Ok r) /\
  map pg_body (fr_pages r) = [first_body; last_body].
Proof.
  destruct (fetch_complete "local" sample_get sample_clock sample_sleep "" 3 id (fun w : bool => if w then 1%nat else 0%nat)
    2 "equities_bars_daily" sample_params "/v2/equities/bars/daily" [(first_body, first_json); (last_body, last_json)]
    [[("Code", JStr "86970"); ("Date", JStr "2025-04-04")]; [("Code", JStr "86970"); ("Date", JStr "2025-04-07")]] sample_client)
    as (st' & r & H & _ & Hb & _).
  - exact sample_steady.
  - vm_compute. discriminate.
  - vm_compute. reflexivity.
  - vm_compute. reflexivity.
  - vm_compute. reflexivity.
  - exact sample_site.
  - change (NoDup ["next"]). apply NoDup_singleton.
  - simpl. lia.
  - vm_compute. reflexivity.
  - exists st', r. split; [exact H|exact Hb].
Defined.

(** ** A site that repeats its token *)

Definition loop_get (url : string) (_ : list (string * string)) (_ : list (string * json)) (w : unit) : unit * result HttpResponse :=
  (w, Ok (mkResponse 200 [] first_body url)).

(** A client without an interval, after an earlier call. *)
Definition loop_client : client_state (W := unit) := mkClient tt (mkLimiter fzero (Some fzero)).

Lemma loop_page path params : get_json loop_get (fun w => (w, fzero)) (fun _ w => w) "" 3 id path params loop_client
  = (loop_client, Ok first_json).
Proof. vm_compute. reflexivity. Qed.

(** The fetch of a dataset detects the loop, while the older wrappers read the same page for
    ever: no fuel suffices. *)
Theorem wrappers_loop fuel date_ code_ :
  listed_info loop_get (fun w => (w, fzero)) (fun _ w => w) "" 3 id fuel date_ code_ loop_client = (loop_client, raise Diverges "") /\
  (fetch_dataset "local" loop_get (fun w => (w, fzero)) (fun _ w => w) "" 3 id 2 "equities_master" [] loop_client).2
    = raise RuntimeError "J-Quants pagination token loop detected".
Proof.
  split; [|vm_compute; reflexivity]. unfold listed_info. generalize (given_param "date" date_ ++ given_param "code" code_) as params.
  generalize JNull as pagination, (@nil json) as rows. induction fuel as [|fuel IH]; intros pagination rows params; [done|].
  cbn [wrapper_pages]. unfold mbind, run_bind. rewrite loop_page. apply IH.
Qed.
