(* ===== verification/FetchJobs.v ===== *)
(** * FetchJobs: fetches of date grids in parallel
    (packages/data_plane/ingestion/jquants/parallel.py)

    A request for datasets over a range of dates becomes a flat list of jobs, by dataset,
    code, and window or day; a pool of workers runs them, and the results are returned in
    the order of the jobs whatever the order in which the workers finish. *)

From S2P Require Import Prelude PyDate PyTime JstTime Json JsonText RateLimit JQuantsClient.

Local Open Scope Z_scope.

(** ** Jobs *)

Record FetchJob := mkJob { fj_dataset_id : string; fj_params : list (string * json) }.

Definition label (job : FetchJob) : string :=
  String.concat " " (fj_dataset_id job ::
    omap (fun k => match get k (fj_params job) with
                   | None | Some JNull | Some (JStr EmptyString) => None
                   | Some v => Some (k +:+ "=" +:+ py_str v)
                   end) ["code"; "from"; "to"; "date"]).

(** The last field is the attribute that a callback may add; it is empty before. *)
Record JobResult := mkJobResult {
  jr_job : FetchJob;
  jr_rows : list (list (string * json));
  jr_fetch_result : option fetch_result;
  jr_error : option exn;
  jr_elapsed : pyfloat;
  jr_completed_at : string;
}.

(** The text of an error holds a colon, so that it is not empty. *)
Definition jr_ok (r : JobResult) : bool := negb (present (jr_error r)).

Definition parse_ymd (s : string) : result date := strptime "-" (str_take 10 (strip s)).

(** [timedelta(days=n)] *)
Definition timedelta_days (n : Z) : result Z :=
  if Z.abs n <=? 999999999 then Ok n else raise OverflowError "days out of range".

Fixpoint windows_from (fuel : nat) (step : Z) (cur last : date) : result (list (string * string)) :=
  if cur <=? last then
    match fuel with
    | O => raise Diverges ""
    | S fuel =>
        e ← date_add cur step;
        e ← date_add e (-1);
        let w_end := if last <? e then last else e in
        next ← date_add w_end 1;
        rest ← windows_from fuel step next last;
        Ok ((isoformat cur, isoformat w_end) :: rest)
    end
  else Ok [].

(** Each window has a day of the range. *)
Definition iter_date_windows (from_date to_date : string) (chunk_days : Z) : result (list (string * string)) :=
  _ ← ensure (1 <=? chunk_days) ValueError "chunk_days must be >= 1";
  start ← parse_ymd from_date;
  last ← parse_ymd to_date;
  _ ← ensure (start <=? last) ValueError "to_date is before from_date";
  step ← timedelta_days chunk_days;
  windows_from (Z.to_nat (last - start + 1)) step start last.

Fixpoint dates_from (fuel : nat) (cur last : date) : result (list string) :=
  if cur <=? last then
    match fuel with
    | O => raise Diverges ""
    | S fuel =>
        next ← date_add cur 1;
        rest ← dates_from fuel next last;
        Ok (isoformat cur :: rest)
    end
  else Ok [].

Definition iter_dates (from_date to_date : string) : result (list string) :=
  start ← parse_ymd from_date;
  last ← parse_ymd to_date;
  _ ← ensure (start <=? last) ValueError "to_date is before from_date";
  dates_from (Z.to_nat (last - start + 1)) start last.

Definition supports_range (e : catalog_entry) : bool := ("from" ∈? ce_params e) && ("to" ∈? ce_params e).
Definition supports_date (e : catalog_entry) : bool := "date" ∈? ce_params e.
Definition supports_code (e : catalog_entry) : bool := "code" ∈? ce_params e.

(** [if text] of an optional text *)
Definition given_text (o : option string) : bool :=
  match o with Some s => negb (s =s "") | None => false end.

Definition set_given (k : string) (v : option string) (params : list (string * json)) : list (string * json) :=
  match v with Some s => dict_set k (JStr s) params | None => params end.

(** The windows and the days a dataset is asked for. *)
Definition date_fan_out (e : catalog_entry) (from_date to_date : option string) (chunk_days : Z)
    : result (list (option string * option string) * list string) :=
  match from_date, to_date with
  | Some f, Some t =>
      if negb (f =s "") && negb (t =s "") && supports_date e && supports_range e then
        days ← iter_dates f t; Ok ([], days)
      else if negb (f =s "") && negb (t =s "") && supports_range e then
        windows ← iter_date_windows f t chunk_days; Ok (map (fun w => (Some w.1, Some w.2)) windows, [])
      else if negb (f =s "") && negb (t =s "") && supports_date e then
        days ← iter_dates f t; Ok ([], days)
      else if (negb (f =s "") || negb (t =s "")) && supports_range e then Ok ([(from_date, to_date)], [])
      else if (negb (f =s "") || negb (t =s "")) && supports_date e then Ok ([], [if f =s "" then t else f])
      else Ok ([(None, None)], [])
  | _, _ =>
      if (given_text from_date || given_text to_date) && supports_range e then Ok ([(from_date, to_date)], [])
      else if (given_text from_date || given_text to_date) && supports_date e then
        Ok ([], [default "" (if given_text from_date then from_date else to_date)])
      else Ok ([(None, None)], [])
  end.

Definition code_list (e : catalog_entry) (codes : option (list string)) : list (option string) :=
  match codes with
  | Some (c :: cs) => if supports_code e then map Some (c :: cs) else [None]
  | _ => [None]
  end.

Definition window_job (did : string) (extra : list (string * json)) (code : option string)
    (w : option string * option string) : FetchJob :=
  mkJob did (set_given "to" w.2 (set_given "from" w.1 (set_given "code" code extra))).

Definition day_job (did : string) (extra : list (string * json)) (code : option string) (d : string) : FetchJob :=
  mkJob did (dict_set "date" (JStr d) (set_given "code" code extra)).

Definition jobs_of_dataset (from_date to_date : option string) (chunk_days : Z) (codes : option (list string))
    (extra : list (string * json)) (did : string) : result (list FetchJob) :=
  e ← catalog_get did;
  fan ← date_fan_out e from_date to_date chunk_days;
  Ok (concat (map (fun code => map (window_job did extra code) fan.1 ++ map (day_job did extra code) fan.2) (code_list e codes))).

Definition expand_jobs (datasets : list string) (from_date to_date : option string) (chunk_days : Z)
    (codes : option (list string)) (extra_params : option (list (string * json))) : result (list FetchJob) :=
  jobs ← mapR (jobs_of_dataset from_date to_date chunk_days codes (default [] extra_params)) datasets;
  Ok (concat jobs).

(** ** Runs *)

(** [_one]: what a worker makes of the outcome of a fetch that took so long. *)
Definition one (job : FetchJob) (outcome : result fetch_result) (elapsed : pyfloat) : JobResult :=
  match outcome with
  | Ok r => mkJobResult job (fr_rows r) (Some r) None elapsed ""
  | Err e => mkJobResult job [] None (Some e) elapsed ""
  end.

(** [results[i] = ...]: the list has a place for each job. *)
Definition store_result (results : list (option JobResult)) (i : nat) (r : JobResult) : list (option JobResult) :=
  <[i := Some r]> results.

(** The pool: [finished] lists the jobs, by their place, in the order in which their workers finish, with
    the result or the exception that the callback raised. *)
Definition collect (jobs : list FetchJob) (finished : list (nat * result JobResult)) : result (list JobResult) :=
  results ← foldR (fun (results : list (option JobResult)) (f : nat * result JobResult) => r ← f.2; Ok (store_result results f.1 r))
              (repeat None (length jobs)) finished;
  Ok (omap id (results : list (option JobResult))).

Section Run.
Context {W : Type}.
Variable fetch : FetchJob -> run_in W fetch_result.
Variable monotonic : W -> W * pyfloat.
(** What the callback leaves of the result. *)
Variable on_job_done : option (JobResult -> run_in W JobResult).

(** A job run by one worker to its end. *)
Definition run_one (job : FetchJob) : run_in W JobResult := fun w =>
  let '(w, t0) := monotonic w in
  let '(w, outcome) := fetch job w in
  let '(w, t1) := monotonic w in
  let res := one job outcome (fsub t1 t0) in
  match on_job_done with
  | Some f => f res w
  | None => (w, Ok res)
  end.

(** The loop of a single worker. *)
Fixpoint run_sequential (jobs : list FetchJob) : run_in W (list JobResult) :=
  match jobs with
  | [] => mret []
  | job :: jobs => r ← run_one job; rs ← run_sequential jobs; mret (r :: rs)
  end.

(** [run_parallel]; [pool] is what a pool of that many workers does to the world and in what
    order its jobs finish. *)
Definition run_parallel (pool : nat -> list FetchJob -> W -> W * list (nat * result JobResult))
    (jobs : list FetchJob) (max_workers : Z) : run_in W (list JobResult) := fun w =>
  if max_workers <? 1 then (w, raise ValueError "max_workers must be >= 1")
  else match jobs with
       | [] => (w, Ok [])
       | _ =>
           let workers := Z.to_nat (Z.min max_workers (Z.of_nat (length jobs))) in
           if (workers =? 1)%nat then run_sequential jobs w
           else let '(w, finished) := pool workers jobs w in (w, collect jobs finished)
       end.

Definition run_datasets_parallel (pool : nat -> list FetchJob -> W -> W * list (nat * result JobResult))
    (datasets : list string) (from_date to_date : option string) (chunk_days : Z) (codes : option (list string))
    (max_workers : Z) (extra_params : option (list (string * json))) : run_in W (list JobResult) :=
  jobs ← lift_run (expand_jobs datasets from_date to_date chunk_days codes extra_params);
  run_parallel pool jobs max_workers.
End Run.

Record summary := mkSummary {
  sm_jobs : nat;
  sm_ok : nat;
  sm_errors : nat;
  sm_rows : nat;
  sm_error_labels : list string;
}.

Definition summarize_results (results : list JobResult) : summary :=
  let ok := filter (fun r => jr_ok r = true) results in
  let bad := filter (fun r => negb (jr_ok r) = true) results in
  mkSummary (length results) (length ok) (length bad) (list_sum (map (fun r => length (jr_rows r)) ok))
            (map (fun r => label (jr_job r)) bad).

Example windows_example :
  iter_date_windows "2020-01-01" "2020-02-15" 30 = Ok [("2020-01-01", "2020-01-30"); ("2020-01-31", "2020-02-15")] /\
  iter_date_windows "2020-1-1" "2020-01-02 09:00" 1 = Ok [("2020-01-01", "2020-01-01"); ("2020-01-02", "2020-01-02")] /\
  iter_date_windows "2020-01-01" "2019-12-31" 30 = raise ValueError "to_date is before from_date" /\
  iter_date_windows "9999-12-01" "9999-12-10" 31 = raise OverflowError "date value out of range" /\
  iter_dates "2024-02-28" "2024-03-01" = Ok ["2024-02-28"; "2024-02-29"; "2024-03-01"].
Proof. vm_compute. repeat split. Qed.

(** Where a dataset takes days and ranges, its range is asked for by day, whatever the chunk. *)
Example ranged_by_day : expand_jobs ["equities_bars_daily"; "indices_bars_daily"] (Some "2025-04-04") (Some "2025-04-06") 30 None None
  = Ok [mkJob "equities_bars_daily" [("date", JStr "2025-04-04")]; mkJob "equities_bars_daily" [("date", JStr "2025-04-05")];
        mkJob "equities_bars_daily" [("date", JStr "2025-04-06")];
        mkJob "indices_bars_daily" [("from", JStr "2025-04-04"); ("to", JStr "2025-04-06")]].
Proof. vm_compute. reflexivity. Qed.

(** ** The days a job asks for *)

(** The job asks the dataset for the rows of the day, of the code or of all codes. *)
Definition asks_for (did : string) (code : option string) (n : date) (job : FetchJob) : bool :=
  (fj_dataset_id job =s did) &&
  bool_decide (get "code" (fj_params job) = JStr <$> code) &&
  match get "date" (fj_params job) with
  | Some v => bool_decide (v = JStr (isoformat n))
  | None =>
      match get "from" (fj_params job), get "to" (fj_params job) with
      | Some (JStr f), Some (JStr t) => String.leb f (isoformat n) && String.leb (isoformat n) t
      | _, _ => false
      end
  end.

Definition once (b : bool) : nat := if b then 1%nat else 0%nat.

Definition count_if {A} (p : A -> bool) (l : list A) : nat := length (List.filter p l).

Lemma count_app {A} (p : A -> bool) l k : count_if p (l ++ k) = (count_if p l + count_if p k)%nat.
Proof. unfold count_if. by rewrite List.filter_app, length_app. Qed.

Lemma count_cons {A} (p : A -> bool) x l : count_if p (x :: l) = (once (p x) + count_if p l)%nat.
Proof. unfold count_if, once. simpl. by destruct (p x). Qed.

Lemma count_map {A B} (p : B -> bool) (f : A -> B) l : count_if p (map f l) = count_if (fun x => p (f x)) l.
Proof. induction l as [|x l IH]; [done|]. simpl. by rewrite !count_cons, IH. Qed.

Lemma count_none {A} (p : A -> bool) l : (forall x, x ∈ l -> p x = false) -> count_if p l = 0%nat.
Proof.
  induction l as [|x l IH]; intros H; [done|]. rewrite count_cons, (H x) by by left. rewrite IH; [done|].
  intros y Hy. apply H. by right.
Qed.

Lemma count_ext {A} (p q : A -> bool) l : (forall x, x ∈ l -> p x = q x) -> count_if p l = count_if q l.
Proof.
  induction l as [|x l IH]; intros H; [done|]. rewrite !count_cons, (H x) by by left. rewrite IH; [done|].
  intros y Hy. apply H. by right.
Qed.

(** In a list of parts only one of which has members that count. *)
Lemma count_concat {A B} (p : B -> bool) (f : A -> list B) (l : list A) a : NoDup l -> a ∈ l ->
  (forall b, b ∈ l -> b <> a -> count_if p (f b) = 0%nat) -> count_if p (concat (map f l)) = count_if p (f a).
Proof.
  intros Hn Ha Hz. induction l as [|x l IH]; [by apply elem_of_nil in Ha|]. inversion Hn as [|? ? Hx Hl]; subst.
  simpl. rewrite count_app. apply elem_of_cons in Ha as [->|Ha].
  - enough (count_if p (concat (map f l)) = 0%nat) as -> by lia. clear IH Hn Hl.
    assert (forall b, b ∈ l -> count_if p (f b) = 0%nat) as Hz' by (intros b Hb; apply Hz; [by right|by intros ->]).
    clear Hx Hz. induction l as [|y l IH]; [done|]. simpl. rewrite count_app, (Hz' y) by by left. apply IH. intros b Hb. apply Hz'. by right.
  - rewrite (Hz x); [|by left|by intros ->]. apply IH; [done|done|]. intros b Hb. apply Hz. by right.
Qed.

Definition window_has (n : date) (w : string * string) : bool := String.leb w.1 (isoformat n) && String.leb (isoformat n) w.2.

Lemma windows_spec n step last : 1 <= step -> valid_date last = true -> valid_date (last + step) = true -> valid_date n = true ->
  forall fuel cur, valid_date cur = true -> last - cur < Z.of_nat fuel ->
  exists ws, windows_from fuel step cur last = Ok ws /\ count_if (window_has n) ws = once ((cur <=? n) && (n <=? last)).
Proof.
  intros Hs Hl Hls Hn. induction fuel as [|fuel IH]; intros cur Hc Hf; cbn [windows_from].
  all: destruct (cur <=? last) eqn:Ec;
    [|exists []; split; [done|]; destruct (cur <=? n) eqn:E1, (n <=? last) eqn:E2; bools; [lia|done..]].
  { bools. lia. }
  bools. unfold date_add. unfold valid_date in *. bools.
  assert (forall k, (1 <=? k) && (k <=? MAXORDINAL) = true <-> 1 <= k <= MAXORDINAL) as Hv.
  { intros k. rewrite andb_true_iff, !Z.leb_le. lia. }
  rewrite (proj2 (Hv (cur + step))) by lia. cbn [mbind result_bind]. rewrite (proj2 (Hv (cur + step + -1))) by lia. cbn [mbind result_bind].
  set (w_end := if last <? cur + step + -1 then last else cur + step + -1).
  assert (cur <= w_end <= last /\ w_end <= cur + step - 1) as [Hw1 Hw2].
  { unfold w_end. destruct (last <? _) eqn:E; bools; lia. }
  rewrite (proj2 (Hv (w_end + 1))) by lia. cbn [mbind result_bind].
  destruct (IH (w_end + 1)) as (ws & -> & Hcount); [apply Hv; lia|lia|]. cbn [mbind result_bind]. eexists. split; [done|].
  rewrite count_cons, Hcount. unfold window_has. cbn [fst snd].
  rewrite !isoformat_leb by (unfold valid_date; apply Hv; lia). unfold once.
  destruct (cur <=? n) eqn:E1, (n <=? w_end) eqn:E2, (w_end + 1 <=? n) eqn:E3, (n <=? last) eqn:E4; bools; simpl; lia.
Qed.

Lemma dates_spec n last : valid_date last = true -> valid_date (last + 1) = true -> valid_date n = true ->
  forall fuel cur, valid_date cur = true -> last - cur < Z.of_nat fuel ->
  exists ds, dates_from fuel cur last = Ok ds /\
    count_if (fun d => bool_decide (d = isoformat n)) ds = once ((cur <=? n) && (n <=? last)).
Proof.
  intros Hl Hls Hn. induction fuel as [|fuel IH]; intros cur Hc Hf; cbn [dates_from].
  all: destruct (cur <=? last) eqn:Ec;
    [|exists []; split; [done|]; destruct (cur <=? n) eqn:E1, (n <=? last) eqn:E2; bools; [lia|done..]].
  { bools. lia. }
  bools. unfold date_add. assert (valid_date (cur + 1) = true) as Hc1.
  { unfold valid_date in *. bools. apply andb_true_iff. split; apply Z.leb_le; lia. }
  rewrite Hc1. cbn [mbind result_bind]. destruct (IH (cur + 1)) as (ds & -> & Hcount); [done|lia|].
  cbn [mbind result_bind]. eexists. split; [done|]. rewrite count_cons, Hcount. unfold once.
  case_bool_decide as Ed.
  - apply isoformat_inj in Ed; [|done|done]. subst n.
    destruct (cur <=? cur) eqn:E1, (cur + 1 <=? cur) eqn:E2, (cur <=? last) eqn:E3; bools; simpl; lia.
  - assert (cur <> n) by by intros ->.
    destruct (cur <=? n) eqn:E1, (cur + 1 <=? n) eqn:E2, (n <=? last) eqn:E3; bools; simpl; lia.
Qed.

(** ** A plan asks for each day once *)

Lemma parse_ymd_isoformat n : valid_date n = true -> parse_ymd (isoformat n) = Ok n.
Proof.
  intros Hv. unfold parse_ymd. rewrite (is_day_strip _ n) by by split.
  rewrite str_take_all by apply isoformat_length. by apply strptime_isoformat.
Qed.

Definition JOB_KEYS : list string := ["code"; "from"; "to"; "date"].

(** Parameters of the caller that leave code and dates to the plan. *)
Definition neutral (extra : list (string * json)) : Prop := forall k, k ∈ JOB_KEYS -> get k extra = None.

Lemma get_set_given k k' v d : get k (set_given k' v d) = match v with
  | Some s => if k =s k' then Some (JStr s) else get k d
  | None => get k d
  end.
Proof. destruct v; [apply get_dict_set|done]. Qed.

(** Decide the equations between literal keys. *)
Ltac decide_keys :=
  repeat match goal with
  | |- context [bool_decide (String ?c ?s = String ?d ?t)] =>
      let v := eval vm_compute in (bool_decide (String c s = String d t)) in
      change (bool_decide (String c s = String d t)) with v
  end; cbv iota.

Lemma neutral_keys extra : neutral extra ->
  get "code" extra = None /\ get "from" extra = None /\ get "to" extra = None /\ get "date" extra = None.
Proof. intros Hx. split_and!; apply Hx; apply (bool_decide_eq_true_1 _); vm_compute; reflexivity. Qed.

Lemma code_key code code' extra : neutral extra ->
  bool_decide (get "code" (set_given "code" code' extra) = JStr <$> code) = bool_decide (code' = code).
Proof.
  intros (Hc & _)%neutral_keys. rewrite get_set_given. decide_keys. rewrite Hc.
  destruct code', code; apply bool_decide_ext; simpl; naive_solver.
Qed.

Lemma window_job_asks did extra code code' n f t : neutral extra ->
  asks_for did code n (window_job did extra code' (Some f, Some t)) = bool_decide (code' = code) && window_has n (f, t).
Proof.
  intros Hx. unfold asks_for, window_job. cbn [fj_dataset_id fj_params fst snd]. rewrite bool_decide_eq_true_2 by done.
  cbn [andb]. rewrite <- (code_key code code' extra Hx). rewrite !get_set_given. decide_keys.
  destruct (neutral_keys extra Hx) as (_ & _ & _ & ->). by destruct code'.
Qed.

Lemma day_job_asks did extra code code' n d : neutral extra ->
  asks_for did code n (day_job did extra code' d) = bool_decide (code' = code) && bool_decide (d = isoformat n).
Proof.
  intros Hx. unfold asks_for, day_job. cbn [fj_dataset_id fj_params]. rewrite bool_decide_eq_true_2 by done.
  cbn [andb]. rewrite <- (code_key code code' extra Hx). rewrite !get_dict_set, !get_set_given. decide_keys.
  f_equal. apply bool_decide_ext. naive_solver.
Qed.

Lemma other_dataset did did' code n extra code' w d : did' <> did ->
  asks_for did code n (window_job did' extra code' w) = false /\ asks_for did code n (day_job did' extra code' d) = false.
Proof. intros Hne. unfold asks_for. cbn [fj_dataset_id window_job day_job]. by rewrite bool_decide_eq_false_2. Qed.

Section Plan.
Variables a b : date.
Variable chunk_days : Z.
Hypothesis Ha : valid_date a = true.
Hypothesis Hab : a <= b.
Hypothesis Hchunk : 1 <= chunk_days.
Hypothesis Hlast : valid_date (b + chunk_days) = true.

Lemma plan_bounds : valid_date b = true /\ valid_date (b + 1) = true /\ chunk_days <= MAXORDINAL.
Proof.
  unfold valid_date in *. bools. unfold MAXORDINAL in *. split_and!; [apply andb_true_iff; split; apply Z.leb_le; lia..|lia].
Qed.

Lemma plan_windows : exists ws, iter_date_windows (isoformat a) (isoformat b) chunk_days = Ok ws /\
  forall n, valid_date n = true -> count_if (window_has n) ws = once ((a <=? n) && (n <=? b)).
Proof.
  destruct plan_bounds as (Hb & Hb1 & Hmax).
  destruct (windows_spec a chunk_days b Hchunk Hb Hlast Ha (Z.to_nat (b - a + 1)) a Ha ltac:(lia)) as (ws & Hws & _).
  exists ws. split.
  - unfold iter_date_windows. rewrite ensure_true by by apply Z.leb_le. cbn [mbind result_bind].
    rewrite !parse_ymd_isoformat by done. cbn [mbind result_bind].
    rewrite ensure_true by by apply Z.leb_le. cbn [mbind result_bind]. unfold timedelta_days.
    rewrite (proj2 (Z.leb_le (Z.abs chunk_days) _)) by (unfold MAXORDINAL in Hmax; lia). done.
  - intros n Hn. destruct (windows_spec n chunk_days b Hchunk Hb Hlast Hn (Z.to_nat (b - a + 1)) a Ha ltac:(lia)) as (ws' & Hws' & Hc).
    rewrite Hws in Hws'. by injection Hws' as <-.
Qed.

Lemma plan_dates : exists ds, iter_dates (isoformat a) (isoformat b) = Ok ds /\
  forall n, valid_date n = true -> count_if (fun d => bool_decide (d = isoformat n)) ds = once ((a <=? n) && (n <=? b)).
Proof.
  destruct plan_bounds as (Hb & Hb1 & _).
  destruct (dates_spec a b Hb Hb1 Ha (Z.to_nat (b - a + 1)) a Ha ltac:(lia)) as (ds & Hds & _).
  exists ds. split.
  - unfold iter_dates. rewrite !parse_ymd_isoformat by done. cbn [mbind result_bind].
    rewrite ensure_true by by apply Z.leb_le. done.
  - intros n Hn. destruct (dates_spec n b Hb Hb1 Hn (Z.to_nat (b - a + 1)) a Ha ltac:(lia)) as (ds' & Hds' & Hc).
    rewrite Hds in Hds'. by injection Hds' as <-.
Qed.

Lemma isoformat_given n : negb (isoformat n =s "") = true.
Proof. apply negb_true_iff, bool_decide_eq_false_2. intros H. pose proof (isoformat_length n) as Hl. by rewrite H in Hl. Qed.

(** A dataset is asked for windows or for days, and for each day of the range once. *)
Lemma plan_fan_out e did extra : neutral extra -> exists fan,
  date_fan_out e (Some (isoformat a)) (Some (isoformat b)) chunk_days = Ok fan /\
  (supports_date e || supports_range e = true -> forall code code' n, valid_date n = true ->
    count_if (asks_for did code n) (map (window_job did extra code') fan.1 ++ map (day_job did extra code') fan.2) =
      if bool_decide (code' = code) then once ((a <=? n) && (n <=? b)) else 0%nat).
Proof.
  intros Hx. unfold date_fan_out. rewrite !isoformat_given. cbn [andb orb].
  destruct plan_windows as (ws & -> & Hws), plan_dates as (ds & -> & Hds). cbn [mbind result_bind].
  assert (forall code code' n, valid_date n = true -> count_if (asks_for did code n) (map (day_job did extra code') ds) =
    if bool_decide (code' = code) then once ((a <=? n) && (n <=? b)) else 0%nat) as Hdays.
  { intros code code' n Hn. rewrite count_map. case_bool_decide as Ec.
    - rewrite <- (Hds n Hn). apply count_ext. intros d _. rewrite day_job_asks by done. by rewrite bool_decide_eq_true_2.
    - apply count_none. intros d _. rewrite day_job_asks by done. by rewrite bool_decide_eq_false_2. }
  destruct (supports_date e) eqn:Ed, (supports_range e) eqn:Er; cbn [andb orb].
  - eexists. split; [done|]. intros _. apply Hdays.
  - eexists. split; [done|]. intros _. apply Hdays.
  - eexists. split; [done|]. intros _ code code' n Hn. cbn [fst snd map]. rewrite app_nil_r, map_map, count_map. case_bool_decide as Ec.
    + rewrite <- (Hws n Hn). apply count_ext. intros [f t] _. rewrite window_job_asks by done. by rewrite bool_decide_eq_true_2.
    + apply count_none. intros [f t] _. rewrite window_job_asks by done. by rewrite bool_decide_eq_false_2.
  - eexists. split; [done|]. done.
Qed.
End Plan.

(** A plan is made, and its jobs ask for each day of the range once. *)
Lemma jobs_cover a b chunk_days datasets codes extra : valid_date a = true -> a <= b -> 1 <= chunk_days ->
  valid_date (b + chunk_days) = true -> NoDup datasets -> (forall did, did ∈ datasets -> is_Ok (catalog_get did) = true) ->
  NoDup (default [] codes) -> neutral (default [] extra) ->
  exists jobs, expand_jobs datasets (Some (isoformat a)) (Some (isoformat b)) chunk_days codes extra = Ok jobs /\
    forall did e code n, did ∈ datasets -> catalog_get did = Ok e -> supports_date e || supports_range e = true ->
      code ∈ code_list e codes -> valid_date n = true ->
      count_if (asks_for did code n) jobs = once ((a <=? n) && (n <=? b)).
Proof.
  intros Ha Hab Hchunk Hlast Hn Hcat Hcodes Hx. set (f := jobs_of_dataset (Some (isoformat a)) (Some (isoformat b)) chunk_days codes (default [] extra)).
  assert (forall did, did ∈ datasets -> exists e fan, catalog_get did = Ok e /\
    f did = Ok (concat (map (fun code => map (window_job did (default [] extra) code) fan.1 ++ map (day_job did (default [] extra) code) fan.2) (code_list e codes))) /\
    (supports_date e || supports_range e = true -> forall code code' n, valid_date n = true ->
      count_if (asks_for did code n) (map (window_job did (default [] extra) code') fan.1 ++ map (day_job did (default [] extra) code') fan.2) =
        if bool_decide (code' = code) then once ((a <=? n) && (n <=? b)) else 0%nat)) as Hf.
  { intros did Hin. specialize (Hcat did Hin). unfold f, jobs_of_dataset. destruct (catalog_get did) as [e|]; [|done].
    destruct (plan_fan_out a b chunk_days Ha Hab Hchunk Hlast e did _ Hx) as (fan & Hfan & Hc). exists e, fan.
    cbn [mbind result_bind]. by rewrite Hfan. }
  destruct (mapR_total f datasets) as (parts & Hparts).
  { intros did Hin. destruct (Hf did Hin) as (e & fan & _ & H & _). by eexists. }
  unfold expand_jobs. fold f. rewrite Hparts. exists (concat parts). split; [done|].
  assert (parts = map (fun did => ok_or [] (f did)) datasets) as ->.
  { apply mapR_Ok in Hparts. clear -Hparts. induction Hparts as [|did part ds ps H _ IH]; [done|]. simpl. by rewrite H, IH. }
  intros did e code n Hin He Hs Hcode Hv. rewrite (count_concat _ _ _ did Hn Hin).
  - destruct (Hf did Hin) as (e' & fan & He' & -> & Hc). assert (e' = e) as -> by congruence. cbn [ok_or].
    rewrite (count_concat _ _ _ code); [by rewrite Hc, bool_decide_eq_true_2| |done|].
    + unfold code_list. destruct codes as [[|c cs]|]; [apply NoDup_singleton| |apply NoDup_singleton].
      destruct (supports_code e); [|apply NoDup_singleton]. apply (NoDup_fmap_2 Some). done.
    + intros code' _ Hne. rewrite Hc by done. by rewrite bool_decide_eq_false_2.
  - intros did' Hin' Hne. destruct (Hf did' Hin') as (e' & fan & _ & -> & _). cbn [ok_or]. apply count_none.
    intros job Hjob. apply list_elem_of_In, in_concat in Hjob as (part & Hpart & Hjob).
    apply in_map_iff in Hpart as (code' & <- & _). apply list_elem_of_In in Hjob.
    apply elem_of_app in Hjob as [Hjob|Hjob]; apply list_elem_of_fmap in Hjob as (x & -> & _); by apply other_dataset.
Qed.

(** ** Results in the order of the jobs *)

Lemma stored_results (r : nat -> JobResult) finished results n : (forall i, i ∈ finished -> (i < n)%nat) -> length results = n ->
  exists out, foldR (fun (results : list (option JobResult)) (f : nat * result JobResult) => r ← f.2; Ok (store_result results f.1 r)) results
      (map (fun i => (i, Ok (r i))) finished) = Ok out /\ length out = n /\
    forall i, (i < n)%nat -> out !! i = if bool_decide (i ∈ finished) then Some (Some (r i)) else results !! i.
Proof.
  revert results. induction finished as [|k finished IH]; intros results Hin Hlen; simpl.
  { by exists results. }
  destruct (IH (store_result results k (r k))) as (out & -> & Hl & Ho).
  { intros i Hi. apply Hin. by right. }
  { unfold store_result. by rewrite length_insert. }
  exists out. split_and!; [done|done|]. intros i Hi. rewrite Ho by done. unfold store_result.
  destruct (decide (i ∈ finished)) as [He|He].
  - rewrite !bool_decide_eq_true_2; [done|by right|done].
  - rewrite (bool_decide_eq_false_2 (i ∈ finished)) by done. destruct (decide (i = k)) as [->|Hne].
    + rewrite bool_decide_eq_true_2 by by left. rewrite list_lookup_insert_eq; [done|]. by rewrite Hlen.
    + rewrite bool_decide_eq_false_2 by (rewrite elem_of_cons; naive_solver). by rewrite list_lookup_insert_ne by done.
Qed.

(** The results are those of the jobs in their order, in whatever order
    the workers finish. *)
Lemma collect_in_order jobs r finished : finished ≡ₚ seq 0 (length jobs) ->
  collect jobs (map (fun i => (i, Ok (r i))) finished) = Ok (map r (seq 0 (length jobs))).
Proof.
  intros Hp. unfold collect. destruct (stored_results r finished (repeat None (length jobs)) (length jobs)) as (out & -> & Hl & Ho).
  - intros i Hi. rewrite Hp in Hi. apply elem_of_seq in Hi. lia.
  - apply repeat_length.
  - cbn [mbind result_bind]. f_equal. assert (out = map Some (map r (seq 0 (length jobs)))) as ->.
    + apply list_eq. intros i. destruct (decide (i < length jobs)%nat) as [Hi|Hi].
      * rewrite Ho by done. rewrite bool_decide_eq_true_2 by (rewrite Hp; apply elem_of_seq; lia).
        rewrite map_map, list_lookup_fmap, (proj2 (lookup_seq 0 (length jobs) i i)) by lia. done.
      * rewrite !lookup_ge_None_2; [done|rewrite !length_map, length_seq; lia|lia].
    + generalize (map r (seq 0 (length jobs))) as l. induction l as [|x l IH]; [done|]. simpl. by f_equal.
Qed.

Lemma run_one_job {W} (fetch : FetchJob -> run_in W fetch_result) monotonic job w : exists w' r,
  run_one fetch monotonic None job w = (w', Ok r) /\ jr_job r = job.
Proof.
  unfold run_one. destruct (monotonic w) as [w1 t0], (fetch job w1) as [w2 outcome], (monotonic w2) as [w3 t1].
  exists w3, (one job outcome (fsub t1 t0)). split; [done|]. by destruct outcome.
Qed.

Lemma run_sequential_jobs {W} (fetch : FetchJob -> run_in W fetch_result) monotonic jobs : forall w, exists w' rs,
  run_sequential fetch monotonic None jobs w = (w', Ok rs) /\ map jr_job rs = jobs.
Proof.
  induction jobs as [|job jobs IH]; intros w; [by exists w, []|]. cbn [run_sequential]. unfold mbind, run_bind.
  destruct (run_one_job fetch monotonic job w) as (w1 & r & -> & Hr), (IH w1) as (w2 & rs & -> & Hrs).
  exists w2, (r :: rs). split; [done|]. simpl. by rewrite Hr, Hrs.
Qed.

(** The workers of a pool finish in some order, each with the result of its own job. *)
Definition pool_runs_all {W} (pool : nat -> list FetchJob -> W -> W * list (nat * result JobResult)) : Prop :=
  forall workers jobs w, exists finished r, (pool workers jobs w).2 = map (fun i => (i, Ok (r i))) finished /\
    finished ≡ₚ seq 0 (length jobs) /\ forall i job, jobs !! i = Some job -> jr_job (r i) = job.

Lemma run_parallel_jobs {W} (fetch : FetchJob -> run_in W fetch_result) monotonic pool jobs max_workers w :
  pool_runs_all pool -> 1 <= max_workers -> exists w' rs,
    run_parallel fetch monotonic None pool jobs max_workers w = (w', Ok rs) /\ map jr_job rs = jobs.
Proof.
  intros Hpool Hmax. unfold run_parallel. rewrite (proj2 (Z.ltb_ge max_workers 1)) by done.
  destruct jobs as [|job jobs]; [by exists w, []|]. set (all := job :: jobs). destruct (_ =? 1)%nat; [apply run_sequential_jobs|].
  specialize (Hpool (Z.to_nat (Z.min max_workers (Z.of_nat (length all)))) all w) as (finished & r & Hp & Hperm & Hr).
  destruct (pool _ all w) as [w' out]. cbn [snd] in Hp. subst out. rewrite collect_in_order by done.
  exists w', (map r (seq 0 (length all))). split; [done|]. apply list_eq. intros i. rewrite map_map, list_lookup_fmap.
  destruct (all !! i) as [j|] eqn:E.
  - rewrite (proj2 (lookup_seq 0 (length all) i i)) by (split; [done|by apply lookup_lt_Some in E]). simpl. by rewrite (Hr i j E).
  - apply lookup_ge_None in E. by rewrite lookup_ge_None_2 by (rewrite length_seq; lia).
Qed.

Lemma summary_total rs : sm_jobs (summarize_results rs) = (sm_ok (summarize_results rs) + sm_errors (summarize_results rs))%nat.
Proof.
  unfold summarize_results. cbn [sm_jobs sm_ok sm_errors]. induction rs as [|r rs IH]; [done|].
  rewrite !filter_cons. destruct (jr_ok r); cbn [negb]; [rewrite decide_True, decide_False by done|rewrite decide_False, decide_True by done];
    simpl; lia.
Qed.

(** Claim C13. A parallel fetch accounts for every day of its range exactly once.  Whatever the fetches
    return and in whatever order the workers finish, the results of a range of dates are
    those of the jobs in their order, each dataset that takes dates has, for each of its codes and
    each day of the range, exactly one result that was asked for it, and none for a day beyond,
    and each result counts as a success or an error. *)
Theorem days_accounted_once {W} (fetch : FetchJob -> run_in W fetch_result) monotonic pool max_workers w
    a b chunk_days datasets codes extra : valid_date a = true -> a <= b -> 1 <= chunk_days ->
  valid_date (b + chunk_days) = true -> NoDup datasets -> (forall did, did ∈ datasets -> is_Ok (catalog_get did) = true) ->
  NoDup (default [] codes) -> neutral (default [] extra) -> pool_runs_all pool -> 1 <= max_workers ->
  exists w' rs jobs, run_datasets_parallel fetch monotonic None pool datasets (Some (isoformat a)) (Some (isoformat b))
      chunk_days codes max_workers extra w = (w', Ok rs) /\
    expand_jobs datasets (Some (isoformat a)) (Some (isoformat b)) chunk_days codes extra = Ok jobs /\ map jr_job rs = jobs /\
    (forall did e code n, did ∈ datasets -> catalog_get did = Ok e -> supports_date e || supports_range e = true ->
      code ∈ code_list e codes -> valid_date n = true ->
      count_if (fun r => asks_for did code n (jr_job r)) rs = once ((a <=? n) && (n <=? b))) /\
    sm_jobs (summarize_results rs) = (sm_ok (summarize_results rs) + sm_errors (summarize_results rs))%nat.
Proof.
  intros Ha Hab Hchunk Hlast Hn Hcat Hcodes Hx Hpool Hmax.
  destruct (jobs_cover a b chunk_days datasets codes extra Ha Hab Hchunk Hlast Hn Hcat Hcodes Hx) as (jobs & Hjobs & Hc).
  destruct (run_parallel_jobs fetch monotonic pool jobs max_workers w Hpool Hmax) as (w' & rs & Hrun & Hrs).
  exists w', rs, jobs. split_and!; [|done|done| |apply summary_total].
  - unfold run_datasets_parallel, mbind, run_bind, lift_run. by rewrite Hjobs.
  - intros did e code n Hd He Hs Hcode Hv. rewrite <- (Hc did e code n Hd He Hs Hcode Hv), <- Hrs. by rewrite count_map.
Qed.

(** A pool whose workers finish in the reverse order, and fetches that fail. *)
Definition sample_pool (workers : nat) (jobs : list FetchJob) (w : unit) : unit * list (nat * result JobResult) :=
  (w, map (fun i => (i, Ok (one (default (mkJob "" []) (jobs !! i)) (raise Transient "HTTP status") fzero)))
          (rev (seq 0 (length jobs)))).

Lemma sample_pool_runs_all : pool_runs_all sample_pool.
Proof.
  intros workers jobs w. eexists _, _. split; [reflexivity|]. split; [by rewrite <- Permutation_rev|].
  intros i job ->. done.
Qed.

Definition sample_a : date := Eval vm_compute in ymd2ord 2025 4 4.

Lemma days_accounted_once_witness : exists w' rs jobs,
  run_datasets_parallel (fun _ w => (w, raise Transient "HTTP status")) (fun w => (w, fzero)) None sample_pool
    ["equities_bars_daily"; "indices_bars_daily"] (Some (isoformat sample_a)) (Some (isoformat (sample_a + 2))) 2 (Some ["1301"; "1305"]) 8 None tt
    = (w', Ok rs) /\ map jr_job rs = jobs.
Proof.
  destruct (days_accounted_once (fun _ w => (w, raise Transient "HTTP status")) (fun w => (w, fzero)) sample_pool 8 tt
    sample_a (sample_a + 2) 2 ["equities_bars_daily"; "indices_bars_daily"] (Some ["1301"; "1305"]) None)
    as (w' & rs & jobs & H & _ & Hj & _).
  - vm_compute. reflexivity.
  - lia.
  - lia.
  - vm_compute. reflexivity.
  - apply (bool_decide_eq_true_1 _). vm_compute. reflexivity.
  - intros did Hd. repeat (apply elem_of_cons in Hd as [->|Hd]; [vm_compute; reflexivity|]). by apply elem_of_nil in Hd.
  - apply (bool_decide_eq_true_1 _). vm_compute. reflexivity.
  - intros k _. reflexivity.
  - exact sample_pool_runs_all.
  - lia.
  - exists w', rs, jobs. split; [exact H|exact Hj].
Defined.

Example sample_jobs : match expand_jobs ["equities_bars_daily"; "indices_bars_daily"] (Some "2025-04-04") (Some "2025-04-06") 2
    (Some ["1301"; "1305"]) None with Ok l => map label l | Err _ => [] end =
  ["equities_bars_daily code=1301 date=2025-04-04"; "equities_bars_daily code=1301 date=2025-04-05"; "equities_bars_daily code=1301 date=2025-04-06";
   "equities_bars_daily code=1305 date=2025-04-04"; "equities_bars_daily code=1305 date=2025-04-05"; "equities_bars_daily code=1305 date=2025-04-06";
   "indices_bars_daily code=1301 from=2025-04-04 to=2025-04-05"; "indices_bars_daily code=1301 from=2025-04-06 to=2025-04-06";
   "indices_bars_daily code=1305 from=2025-04-04 to=2025-04-05"; "indices_bars_daily code=1305 from=2025-04-06 to=2025-04-06"].
Proof. vm_compute. reflexivity. Qed.
