(* ===== verification/Base64.v ===== *)
(** * Base64: canonical Base64 bodies
    (packages/data_plane/storage/receipt_crypto.py: [_decode_canonical_base64])

    [base64.b64encode] and the decoder of the standard library's [base64], on
    strings of bytes, and the receipts' rule that a body is accepted only in its
    canonical spelling. *)

From S2P Require Import Prelude.

Local Open Scope Z_scope.

Definition byte_val (c : ascii) : Z := Z.of_N (N_of_ascii c).
Definition byte_of (n : Z) : ascii := ascii_of_N (Z.to_N n).

(** The character of a six-bit number, and back. *)
Definition b64_char (n : Z) : ascii :=
  if n <? 26 then byte_of (65 + n)
  else if n <? 52 then byte_of (71 + n)
  else if n <? 62 then byte_of (n - 4)
  else if n =? 62 then "+"%char else "/"%char.

Definition b64_val (c : ascii) : option Z :=
  let n := byte_val c in
  if (65 <=? n) && (n <=? 90) then Some (n - 65)
  else if (97 <=? n) && (n <=? 122) then Some (n - 71)
  else if (48 <=? n) && (n <=? 57) then Some (n + 4)
  else if n =? 43 then Some 62
  else if n =? 47 then Some 63
  else None.

(** [base64.b64encode(raw)] *)
Fixpoint b64encode (s : string) : string :=
  match s with
  | EmptyString => EmptyString
  | String a EmptyString =>
      let n := byte_val a * 16 in
      String (b64_char (n / 64)) (String (b64_char (n mod 64)) "==")
  | String a (String b EmptyString) =>
      let n := byte_val a * 1024 + byte_val b * 4 in
      String (b64_char (n / 4096)) (String (b64_char (n / 64 mod 64)) (String (b64_char (n mod 64)) "="))
  | String a (String b (String c s)) =>
      let n := byte_val a * 65536 + byte_val b * 256 + byte_val c in
      String (b64_char (n / 262144)) (String (b64_char (n / 4096 mod 64))
        (String (b64_char (n / 64 mod 64)) (String (b64_char (n mod 64)) (b64encode s))))
  end.

(** [base64.b64decode(value, validate=True)]: groups of four characters of the
    alphabet, the last one padded; the unused low bits of a padded group are
    ignored. *)
Fixpoint b64decode (s : string) : option string :=
  match s with
  | EmptyString => Some EmptyString
  | String a (String b (String c (String d s))) =>
      x ← b64_val a;
      y ← b64_val b;
      if bool_decide (d = "="%char) then
        if negb (s =s "") then None
        else if bool_decide (c = "="%char) then Some (String (byte_of ((x * 64 + y) / 16)) EmptyString)
        else
          z ← b64_val c;
          let n := (x * 4096 + y * 64 + z) / 4 in
          Some (String (byte_of (n / 256)) (String (byte_of (n mod 256)) EmptyString))
      else
        z ← b64_val c;
        w ← b64_val d;
        rest ← b64decode s;
        let n := x * 262144 + y * 4096 + z * 64 + w in
        Some (String (byte_of (n / 65536)) (String (byte_of (n / 256 mod 256)) (String (byte_of (n mod 256)) rest)))
  | _ => None
  end.

(** [_decode_canonical_base64(value, expected_length=...)] *)
Definition decode_canonical_base64 (value : string) (expected_length : option nat) : option string :=
  raw ← b64decode value;
  if negb (b64encode raw =s value) then None
  else if match expected_length with Some n => negb (String.length raw =? n)%nat | None => false end then None
  else Some raw.

Definition decode_canonical_signed_body (value : string) : option string := decode_canonical_base64 value None.

(** ** Round trip *)

#[local] Ltac Zify.zify_post_hook ::= Z.div_mod_to_equations.

Lemma byte_val_bounds c : 0 <= byte_val c <= 255.
Proof. unfold byte_val. pose proof (N_ascii_bounded c). lia. Qed.

Lemma byte_of_val c : byte_of (byte_val c) = c.
Proof. unfold byte_of, byte_val. by rewrite N2Z.id, ascii_N_embedding. Qed.

Lemma byte_val_of n : 0 <= n <= 255 -> byte_val (byte_of n) = n.
Proof. intros H. unfold byte_val, byte_of. rewrite N_ascii_embedding; lia. Qed.

Lemma b64_val_char n : 0 <= n <= 63 -> b64_val (b64_char n) = Some n.
Proof.
  intros H. assert (Hall : forallb (fun k => bool_decide (b64_val (b64_char (Z.of_nat k)) = Some (Z.of_nat k)))
    (seq 0 64) = true) by by vm_compute.
  rewrite forallb_forall in Hall. specialize (Hall (Z.to_nat n)). rewrite Z2Nat.id in Hall by lia.
  apply bool_decide_eq_true in Hall; [done|]. apply in_seq. lia.
Qed.

Lemma b64_char_pad n : 0 <= n <= 63 -> b64_char n <> "="%char.
Proof. intros H E. apply b64_val_char in H. rewrite E in H. by vm_compute in H. Qed.

(** Induction three characters at a time. *)
Lemma string_ind3 (P : string -> Prop) : P EmptyString -> (forall a, P (String a EmptyString)) ->
  (forall a b, P (String a (String b EmptyString))) ->
  (forall a b c s, P s -> P (String a (String b (String c s)))) -> forall s, P s.
Proof.
  intros H0 H1 H2 H3. fix IH 1. intros [|a [|b [|c s]]]; [done|apply H1|apply H2|]. apply H3, IH.
Qed.

Lemma b64decode_encode s : b64decode (b64encode s) = Some s.
Proof.
  induction s as [|a|a b|a b c s IH] using string_ind3; [done|..]; cbn [b64encode b64decode];
    pose proof (byte_val_bounds a) as Ha; try pose proof (byte_val_bounds b) as Hb;
    try pose proof (byte_val_bounds c) as Hc; rewrite !b64_val_char by lia; cbn [mbind option_bind].
  - rewrite !bool_decide_eq_true_2 by done. cbn [negb]. do 2 f_equal.
    etrans; [|apply (byte_of_val a)]. f_equal. lia.
  - rewrite bool_decide_eq_true_2 by done. cbn [negb]. rewrite bool_decide_eq_true_2 by done. cbn [negb].
    rewrite bool_decide_eq_false_2 by (apply b64_char_pad; lia).
    do 2 f_equal; [|f_equal].
    + etrans; [|apply (byte_of_val a)]. f_equal. lia.
    + etrans; [|apply (byte_of_val b)]. f_equal. lia.
  - rewrite bool_decide_eq_false_2 by (apply b64_char_pad; lia). rewrite IH. cbn [mbind option_bind]. do 2 f_equal; [|f_equal; [|f_equal]].
    + etrans; [|apply (byte_of_val a)]. f_equal. lia.
    + etrans; [|apply (byte_of_val b)]. f_equal. lia.
    + etrans; [|apply (byte_of_val c)]. f_equal. lia.
Qed.

Lemma b64encode_inj s t : b64encode s = b64encode t -> s = t.
Proof. intros H. apply (f_equal b64decode) in H. rewrite !b64decode_encode in H. congruence. Qed.

Lemma decode_canonical_Some value n raw :
  decode_canonical_base64 value n = Some raw <->
  value = b64encode raw /\ forall k, n = Some k -> String.length raw = k.
Proof.
  unfold decode_canonical_base64. split.
  - intros H. destruct (b64decode value) as [raw'|]; [|done]. simpl in H.
    destruct (b64encode raw' =s value) eqn:E; [|done]. simpl in H. bools. destruct n as [k|].
    + destruct (String.length raw' =? k)%nat eqn:El; [|done]. injection H as ->. split; [done|].
      intros ? [= <-]. by apply Nat.eqb_eq.
    + by injection H as ->.
  - intros [-> Hn]. rewrite b64decode_encode. simpl. rewrite bool_decide_eq_true_2 by done. simpl.
    destruct n as [k|]; [|done]. by rewrite (Hn k), Nat.eqb_refl.
Qed.

(** A signed body is accepted in one spelling only: a string decodes to
    the bytes [raw] exactly when it is the Base64 encoding of [raw]. *)
Theorem canonical_base64 (value raw : string) :
  decode_canonical_signed_body value = Some raw <-> value = b64encode raw.
Proof. unfold decode_canonical_signed_body. rewrite decode_canonical_Some. naive_solver. Qed.

Example b64_example :
  b64encode "receipt" = "cmVjZWlwdA==" /\ b64decode "cmVjZWlwdB==" = Some "receipt" /\
  decode_canonical_signed_body "cmVjZWlwdB==" = None.
Proof. by vm_compute. Qed.
