(* ===== verification/Sha256.v ===== *)
(** * Sha256: the [hexdigest] of [hashlib.sha256] as the source uses it

    The other files take the digest as a parameter; this executable definition
    instantiates it, so that the digests pinned in the source can be recomputed
    from the pinned documents.  Words are 32-bit integers, masked where an
    addition or a shift can leave the width. *)

From S2P Require Import Prelude Json.

Local Open Scope Z_scope.

Definition mask32 : Z := 4294967295.
Definition w32 (n : Z) : Z := Z.land n mask32.
Definition add32 (x y : Z) : Z := w32 (x + y).
Definition rotr (n x : Z) : Z := Z.lor (Z.shiftr x n) (w32 (Z.shiftl x (32 - n))).

Definition round_constants : list Z :=
  [1116352408; 1899447441; 3049323471; 3921009573; 961987163; 1508970993; 2453635748; 2870763221; 3624381080;
   310598401; 607225278; 1426881987; 1925078388; 2162078206; 2614888103; 3248222580; 3835390401; 4022224774;
   264347078; 604807628; 770255983; 1249150122; 1555081692; 1996064986; 2554220882; 2821834349; 2952996808;
   3210313671; 3336571891; 3584528711; 113926993; 338241895; 666307205; 773529912; 1294757372; 1396182291;
   1695183700; 1986661051; 2177026350; 2456956037; 2730485921; 2820302411; 3259730800; 3345764771;
   3516065817; 3600352804; 4094571909; 275423344; 430227734; 506948616; 659060556; 883997877; 958139571;
   1322822218; 1537002063; 1747873779; 1955562222; 2024104815; 2227730452; 2361852424; 2428436474;
   2756734187; 3204031479; 3329325298].

Definition initial_state : list Z :=
  [1779033703; 3144134277; 1013904242; 2773480762; 1359893119; 2600822924; 528734635; 1541459225].

(** Padding to blocks of 64 bytes: a one bit, zeros, the length in bits. *)
Definition padding (length : Z) : list Z :=
  128 :: replicate (Z.to_nat ((55 - length) mod 64)) 0
  ++ map (fun i => Z.shiftr (8 * length) (8 * i) mod 256) [7; 6; 5; 4; 3; 2; 1; 0].

Fixpoint bytes_of (s : string) : list Z :=
  match s with EmptyString => [] | String c s => Z.of_N (N_of_ascii c) :: bytes_of s end.

Definition padded (s : string) : list Z := bytes_of s ++ padding (Z.of_nat (String.length s)).

(** Big-endian words of four bytes. *)
Fixpoint words (l : list Z) : list Z :=
  match l with
  | a :: b :: c :: d :: l => a * 16777216 + b * 65536 + c * 256 + d :: words l
  | _ => []
  end.

(** The schedule, latest word first. *)
Fixpoint extend (n : nat) (w : list Z) : list Z :=
  match n with
  | O => w
  | S n =>
      let w2 := nth 1 w 0 in let w7 := nth 6 w 0 in let w15 := nth 14 w 0 in let w16 := nth 15 w 0 in
      let s0 := Z.lxor (Z.lxor (rotr 7 w15) (rotr 18 w15)) (Z.shiftr w15 3) in
      let s1 := Z.lxor (Z.lxor (rotr 17 w2) (rotr 19 w2)) (Z.shiftr w2 10) in
      extend n (w32 (w16 + s0 + w7 + s1) :: w)
  end.

Definition schedule (block : list Z) : list Z := rev (extend 48 (rev block)).

Definition round (state : list Z) (kw : Z * Z) : list Z :=
  match state with
  | [a; b; c; d; e; f; g; h] =>
      let s1 := Z.lxor (Z.lxor (rotr 6 e) (rotr 11 e)) (rotr 25 e) in
      let ch := Z.lxor (Z.land e f) (Z.land (Z.lxor e mask32) g) in
      let t1 := h + s1 + ch + kw.1 + kw.2 in
      let s0 := Z.lxor (Z.lxor (rotr 2 a) (rotr 13 a)) (rotr 22 a) in
      let maj := Z.lxor (Z.lxor (Z.land a b) (Z.land a c)) (Z.land b c) in
      [w32 (t1 + s0 + maj); a; b; c; w32 (d + t1); e; f; g]
  | _ => state
  end.

Definition compress (state block : list Z) : list Z :=
  zip_with add32 state (fold_left round (zip round_constants (schedule block)) state).

Fixpoint blocks (fuel : nat) (l : list Z) : list (list Z) :=
  match fuel, l with
  | S fuel, _ :: _ => take 16 l :: blocks fuel (drop 16 l)
  | _, _ => []
  end.

Definition digest_words (s : string) : list Z :=
  let l := words (padded s) in fold_left compress (blocks (length l) l) initial_state.

Definition hex_word (n : Z) : string :=
  fold_right (fun i rest => String (hex_digit (Z.shiftr n (4 * i) mod 16)) rest) EmptyString [7; 6; 5; 4; 3; 2; 1; 0].

Definition hexdigest (s : string) : string := fold_right (fun n rest => hex_word n +:+ rest) EmptyString (digest_words s).

(** The test vectors of FIPS 180-4. *)
Example sha256_empty : hexdigest "" = "e3b0c44298fc1c149afbf4c8996fb92427ae41e4649b934ca495991b7852b855".
Proof. by vm_compute. Qed.

Example sha256_abc : hexdigest "abc" = "ba7816bf8f01cfea414140de5dae2223b00361a396177a9cb410ff61f20015ad".
Proof. by vm_compute. Qed.

Example sha256_two_blocks :
  hexdigest "abcdbcdecdefdefgefghfghighijhijkijkljklmklmnlmnomnopnopq"
  = "248d6a61d20638b8e5c026930c3e6039a33ce45964ff2167f6ecedd419db06c1".
Proof. by vm_compute. Qed.

(** ** A digest is 64 lower-case hexadecimal characters *)

Lemma round_length st kw : length (round st kw) = length st.
Proof. by destruct st as [|a [|b [|c [|d [|e [|f [|g [|h [|]]]]]]]]]. Qed.

Lemma rounds_length l st : length (fold_left round l st) = length st.
Proof. revert st. induction l as [|x l IH]; intros st; simpl; [done|]. by rewrite IH, round_length. Qed.

Lemma compress_length st block : length (compress st block) = length st.
Proof. unfold compress. rewrite length_zip_with, rounds_length. lia. Qed.

Lemma digest_words_length s : length (digest_words s) = 8%nat.
Proof.
  unfold digest_words. cbv zeta. generalize (blocks (length (words (padded s))) (words (padded s))).
  intros l. assert (H : forall st, length st = 8%nat -> length (fold_left compress l st) = 8%nat).
  { induction l as [|b l IH]; intros st Hst; simpl; [done|]. apply IH. by rewrite compress_length. }
  by apply H.
Qed.

Definition hex_string (s : string) : bool :=
  (fix go s := match s with
   | EmptyString => true
   | String c s => let n := N_of_ascii c in (((48 <=? n) && (n <=? 57)) || ((97 <=? n) && (n <=? 102)))%N && go s
   end) s.

Lemma hex_digit_hex n : 0 <= n < 16 -> hex_string (String (hex_digit n) EmptyString) = true.
Proof.
  intros H. assert (Hall : forallb (fun k => hex_string (String (hex_digit (Z.of_nat k)) EmptyString)) (seq 0 16) = true)
    by by vm_compute.
  rewrite forallb_forall in Hall. specialize (Hall (Z.to_nat n)). rewrite Z2Nat.id in Hall by lia.
  apply Hall, in_seq. lia.
Qed.

Lemma hex_string_app s t : hex_string (s +:+ t) = hex_string s && hex_string t.
Proof.
  induction s as [|c s IH]; [done|]. change (String c s +:+ t) with (String c (s +:+ t)). cbn -[N.leb].
  fold (hex_string (s +:+ t)). fold (hex_string s). rewrite IH. by rewrite andb_assoc.
Qed.

Lemma hex_word_hex n : hex_string (hex_word n) = true /\ String.length (hex_word n) = 8%nat.
Proof.
  unfold hex_word. generalize [7; 6; 5; 4; 3; 2; 1; 0] at 1 as l. split; [|done].
  induction l as [|i l IH]; [done|]. cbn [fold_right].
  change (String ?c ?s) with (String c EmptyString +:+ s). rewrite hex_string_app, IH, hex_digit_hex; [done|].
  apply Z.mod_pos_bound. lia.
Qed.

Lemma hexdigest_hex s : hex_string (hexdigest s) = true /\ String.length (hexdigest s) = 64%nat.
Proof.
  unfold hexdigest. pose proof (digest_words_length s) as H. revert H. generalize (digest_words s) as l. intros l Hl.
  assert (Hg : hex_string (fold_right (fun n rest => hex_word n +:+ rest) EmptyString l) = true /\
    String.length (fold_right (fun n rest => hex_word n +:+ rest) EmptyString l) = (8 * length l)%nat).
  { clear Hl. induction l as [|n l [IH1 IH2]]; [done|]. cbn [fold_right]. destruct (hex_word_hex n) as [Hx Hn].
    rewrite hex_string_app, Hx, IH1. split; [done|]. rewrite length_string_app, Hn, IH2. simpl length. lia. }
  by rewrite Hl in Hg.
Qed.
