(* ===== verification/OfficialCalendar.v ===== *)
(** * OfficialCalendar: business days of the exchange
    (packages/data_plane/ingestion/jquants/official_business_calendar.py)

    The official calendar of an interval is derived from the exact bytes of one response:
    a row for each day of the interval, in order, with its division.  The dates on which
    the master of issues may be asked for are those whose division is a business day, and
    their digests bind the queries to the response. *)

From S2P Require Import Prelude PyDate PyTime Json JsonText Utf8 Sha256.

Local Open Scope Z_scope.

Definition CALENDAR_PATH : string := "/v2/markets/calendar".
Definition DATES_SCHEMA : string := "jquants-official-business-dates/v1".
Definition BINDING_SCHEMA : string := "jquants-official-business-calendar-binding/v1".
Definition TSE_BUSINESS_DIVISIONS : list string := ["1"; "2"].
Definition HOLIDAY_DIVISIONS : list string := ["0"; "1"; "2"; "3"].

Definition calendar_digest_bytes (raw : string) : string := "sha256:" +:+ hexdigest raw.
Definition calendar_digest (value : json) : string :=
  calendar_digest_bytes (utf8_encode (dumps_unicode_onto value EmptyString)).

(** [_parse_date] *)
Definition parse_calendar_date (value : string) : result date :=
  _ ← ensure (String.length value =? 10)%nat ValueError "must be an ISO calendar date";
  d ← on_error [ValueError] ValueError "must be an ISO calendar date" (fromisoformat value);
  _ ← ensure (isoformat d =s value) ValueError "must be a canonical ISO calendar date";
  Ok d.

Record OfficialBusinessCalendar := mkCalendar {
  oc_segment_start : string;
  oc_segment_end : string;
  oc_raw_body_digest : string;
  oc_calendar_query_digest : string;
  oc_business_dates_digest : string;
  oc_binding_digest : string;
  oc_business_dates : list string;
  oc_rows_by_date : list (string * string);
}.

(** A row at its place in the response, with the divisions and the business dates so far. *)
Definition calendar_row (start : date) (st : list (string * string) * list string) (item : nat * json)
    : result (list (string * string) * list string) :=
  let '(ordinal, row) := item in
  d ← match row with
      | JDict d => if (length d =? 2)%nat && has_key "Date" d && has_key "HolDiv" d then Ok d
                   else raise ValueError "official calendar row has an unexpected schema"
      | _ => raise ValueError "official calendar row has an unexpected schema"
      end;
  expected ← date_add start (Z.of_nat ordinal);
  let expected_date := isoformat expected in
  _ ← ensure (bool_decide (getv "Date" d = JStr expected_date)) ValueError
        "official calendar dates are missing, duplicate, reordered, or out of range";
  division ← match getv "HolDiv" d with
             | JStr s => if s ∈? HOLIDAY_DIVISIONS then Ok s
                         else raise ValueError "official calendar HolDiv is outside the reviewed domain"
             | _ => raise ValueError "official calendar HolDiv is outside the reviewed domain"
             end;
  Ok (dict_set expected_date division st.1, if division ∈? TSE_BUSINESS_DIVISIONS then st.2 ++ [expected_date] else st.2).

Definition text_pair (k v : string) : json := JList [JStr k; JStr v].
Definition texts_json (l : list string) : json := JList (map JStr l).

Section Calendar.
Variable float_repr : string -> string.

Definition derive_official_business_calendar (raw segment_start segment_end : string) : result OfficialBusinessCalendar :=
  _ ← ensure (negb (raw =s "")) TypeError "official calendar raw body must be non-empty bytes";
  start ← parse_calendar_date segment_start;
  last ← parse_calendar_date segment_end;
  _ ← ensure (start <=? last) ValueError "official calendar range is empty";
  text ← utf8_decode raw;
  document ← strict_loads ValueError float_repr text;
  data ← match document with
         | JDict [(k, v)] => if k =s "data" then Ok v else raise ValueError "official calendar response must contain only data"
         | _ => raise ValueError "official calendar response must contain only data"
         end;
  rows ← match data with JList l => Ok l | _ => raise ValueError "official calendar data must be an array" end;
  _ ← ensure (Z.of_nat (length rows) =? last - start + 1) ValueError
        "official calendar does not enumerate the complete range";
  st ← foldR (calendar_row start) ([], []) (zip (seq 0 (length rows)) rows);
  let '(divisions, dates) := st in
  _ ← ensure (negb (bool_decide (dates = []))) ValueError "official calendar range contains no TSE business day";
  let raw_digest := calendar_digest_bytes raw in
  let ordered_query := JList [text_pair "from" segment_start; text_pair "to" segment_end] in
  let query_digest := calendar_digest (JDict
        [("schema_version", JStr "jquants-acquisition-query/v2"); ("path", JStr CALENDAR_PATH);
         ("ordered_query", ordered_query)]) in
  let dates_digest := calendar_digest (JDict
        [("schema_version", JStr DATES_SCHEMA); ("segment_start", JStr segment_start); ("segment_end", JStr segment_end);
         ("dates", texts_json dates)]) in
  let binding_digest := calendar_digest (JDict
        [("schema_version", JStr BINDING_SCHEMA); ("path", JStr CALENDAR_PATH); ("ordered_query", ordered_query);
         ("raw_body_digest", JStr raw_digest); ("calendar_query_digest", JStr query_digest);
         ("business_dates_digest", JStr dates_digest); ("business_dates", texts_json dates)]) in
  Ok (mkCalendar segment_start segment_end raw_digest query_digest dates_digest binding_digest dates divisions).
End Calendar.

Definition master_query_digest (path slice_date : string) (provider_cursor : json) (calendar : OfficialBusinessCalendar)
    : result string :=
  _ ← ensure (path =s "/v2/equities/master") ValueError "official calendar binding is only valid for equities_master";
  _ ← ensure (slice_date ∈? oc_business_dates calendar) ValueError "master slice is not an official TSE business date";
  cursor ← match provider_cursor with
           | JNull => Ok []
           | JStr s => if s =s "" then raise ValueError "provider cursor must be a non-empty string"
                       else Ok [text_pair "pagination_key" s]
           | _ => raise ValueError "provider cursor must be a non-empty string"
           end;
  Ok (calendar_digest (JDict
        [("schema_version", JStr "jquants-acquisition-query/v3"); ("path", JStr path);
         ("ordered_query", JList (text_pair "date" slice_date :: cursor));
         ("official_calendar_binding", JDict
            [("binding_digest", JStr (oc_binding_digest calendar)); ("raw_body_digest", JStr (oc_raw_body_digest calendar));
             ("calendar_query_digest", JStr (oc_calendar_query_digest calendar));
             ("business_dates_digest", JStr (oc_business_dates_digest calendar));
             ("business_dates", texts_json (oc_business_dates calendar))])])).

(** ** The days of an interval *)

Definition day_text (start : date) (i : nat) : string := isoformat (start + Z.of_nat i).

(** The days of an interval with their divisions. *)
Definition dated (start : date) (k : nat) (divisions : list string) : list (string * string) :=
  zip (map (day_text start) (seq k (length divisions))) divisions.

Definition business (rows : list (string * string)) : list string :=
  map fst (filter (fun p => p.2 ∈ TSE_BUSINESS_DIVISIONS) rows).

(** What a row of the response says. *)
Definition row_says (row : json) (p : string * string) : Prop :=
  exists d, row = JDict d /\ length d = 2%nat /\ getv "Date" d = JStr p.1 /\ getv "HolDiv" d = JStr p.2 /\
    p.2 ∈ HOLIDAY_DIVISIONS.

Lemma day_text_inj start i j : valid_date (start + Z.of_nat i) = true -> valid_date (start + Z.of_nat j) = true ->
  day_text start i = day_text start j -> i = j.
Proof. intros Hi Hj H. apply isoformat_inj in H; [lia|done|done]. Qed.

Lemma getv_text_key k s d : getv k d = JStr s -> has_key k d = true.
Proof. unfold getv. rewrite has_key_get. by destruct (get k d). Qed.

Lemma calendar_row_spec start m l i row st : calendar_row start (m, l) (i, row) = Ok st <->
  exists v, valid_date (start + Z.of_nat i) = true /\ row_says row (day_text start i, v) /\
    st = (dict_set (day_text start i) v m, if v ∈? TSE_BUSINESS_DIVISIONS then l ++ [day_text start i] else l).
Proof.
  unfold calendar_row, date_add. split.
  - intros H. binds H. ensures. injection H as <-. destruct row as [| | | | | |d]; try done.
    destruct (_ && _) eqn:E3 in E; [|done]. injection E as <-. bools. destruct (valid_date _) eqn:Ev; [|done]. injection E0 as <-.
    destruct (getv "HolDiv" d) as [| | | |s| |] eqn:Eh; try done. destruct (bool_decide (s ∈ _)) eqn:Es; [|done].
    injection E2 as <-. apply bool_decide_eq_true in Es. exists s. split_and!; [done| |done]. exists d. by split_and!; [|apply Nat.eqb_eq|..].
  - intros (v & Hv & (d & -> & Hlen & Hd & Hh & Hin) & ->). simpl in Hd, Hh, Hin.
    rewrite Hlen, (getv_text_key _ _ _ Hd), (getv_text_key _ _ _ Hh). cbn [Nat.eqb andb mbind result_bind]. rewrite Hv.
    cbn [mbind result_bind]. rewrite Hd, Hh. unfold day_text. rewrite !bool_decide_eq_true_2 by done. done.
Qed.

Lemma seq_cons k n : seq k (S n) = k :: seq (S k) n.
Proof. done. Qed.

(** The rows of a response, from the row at place [k] on. *)
Lemma calendar_rows_spec start rows : forall k m l st,
  map fst m = map (day_text start) (seq 0 k) -> (forall i, (i < k + length rows)%nat -> valid_date (start + Z.of_nat i) = true) ->
  foldR (calendar_row start) (m, l) (zip (seq k (length rows)) rows) = Ok st <->
  exists vs, length vs = length rows /\ Forall2 row_says rows (dated start k vs) /\
    st = (m ++ dated start k vs, l ++ business (dated start k vs)).
Proof.
  induction rows as [|row rows IH]; intros k m l st Hm Hv.
  { simpl. split.
    - intros H. injection H as <-. exists []. split_and!; [done|constructor|]. unfold dated, business. simpl. by rewrite !app_nil_r.
    - intros (vs & Hlen & _ & ->). destruct vs; [|done]. unfold dated, business. simpl. by rewrite !app_nil_r. }
  cbn [length]. rewrite seq_cons. cbn [zip zip_with foldR].
  assert (valid_date (start + Z.of_nat k) = true) as Hvk by (apply Hv; simpl; lia).
  assert (day_text start k ∉ map fst m) as Hfresh.
  { rewrite Hm. intros (j & Ej & Hj)%list_elem_of_fmap. apply list_elem_of_In, in_seq in Hj.
    apply day_text_inj in Ej; [lia|done|]. apply Hv. simpl. lia. }
  assert (forall v, map fst (m ++ [(day_text start k, v)]) = map (day_text start) (seq 0 (S k))) as Hm'.
  { intros v. rewrite map_app, Hm, seq_S, map_app. done. }
  assert (forall i, (i < S k + length rows)%nat -> valid_date (start + Z.of_nat i) = true) as Hv' by (intros i Hi; apply Hv; simpl; lia).
  assert (forall v vs, dated start k (v :: vs) = (day_text start k, v) :: dated start (S k) vs) as Hd by done.
  assert (forall v vs, (m ++ dated start k (v :: vs), l ++ business (dated start k (v :: vs))) =
    ((m ++ [(day_text start k, v)]) ++ dated start (S k) vs,
     (if v ∈? TSE_BUSINESS_DIVISIONS then l ++ [day_text start k] else l) ++ business (dated start (S k) vs))) as Hst.
  { intros v vs. rewrite Hd, <- app_assoc. f_equal. unfold business. rewrite filter_cons. cbn [fst snd].
    case_bool_decide; [rewrite decide_True by done; by rewrite <- app_assoc|by rewrite decide_False]. }
  split.
  - intros H. apply bind_Ok in H as (st1 & H1 & H). apply calendar_row_spec in H1 as (v & _ & Hrow & ->).
    rewrite (dict_set_fresh _ _ _ Hfresh) in H. apply IH in H as (vs & Hlen & Hrows & ->); [|done|done].
    exists (v :: vs). split_and!; [simpl; by rewrite Hlen|rewrite Hd; by constructor|symmetry; apply Hst].
  - intros (vs & Hlen & Hrows & ->). destruct vs as [|v vs]; [done|]. rewrite Hd in Hrows. inversion Hrows as [|? ? ? ? Hrow Hrest]; subst.
    rewrite (proj2 (calendar_row_spec start m l k row _)) by (exists v; split_and!; done). cbn [mbind result_bind].
    rewrite (dict_set_fresh _ _ _ Hfresh). apply IH; [done|done|]. exists vs. split_and!; [by injection Hlen|done|apply Hst].
Qed.

Lemma parse_calendar_date_Ok s d : parse_calendar_date s = Ok d <-> String.length s = 10%nat /\ is_day s d.
Proof.
  unfold parse_calendar_date, is_day. split.
  - intros H. binds H. injection H as ->. ensures. apply on_error_Ok in E0. apply fromisoformat_valid in E0. split; [by apply Nat.eqb_eq|done].
  - intros (Hl & Hv & ->). rewrite Hl. cbn [Nat.eqb ensure mbind result_bind]. rewrite fromisoformat_isoformat by done.
    cbn [on_error mbind result_bind]. by rewrite bool_decide_eq_true_2.
Qed.

Lemma interval_valid a b n : valid_date a = true -> valid_date b = true -> Z.of_nat n = b - a + 1 ->
  forall i, (i < n)%nat -> valid_date (a + Z.of_nat i) = true.
Proof. unfold valid_date. intros Ha Hb Hn i Hi. bools. apply andb_true_iff. split; apply Z.leb_le; lia. Qed.

Lemma dated_lookup a k vs i p : dated a k vs !! i = Some p <-> exists v, vs !! i = Some v /\ p = (day_text a (k + i), v).
Proof.
  unfold dated. rewrite lookup_zip_with_Some. split.
  - intros (x & v & -> & Hx & Hv). exists v. split; [done|]. rewrite list_lookup_fmap in Hx. apply fmap_Some in Hx as (j & Hj & ->).
    apply lookup_seq in Hj as [-> _]. done.
  - intros (v & Hv & ->). exists (day_text a (k + i)), v. split_and!; [done| |done]. rewrite list_lookup_fmap.
    rewrite (proj2 (lookup_seq k (length vs) i (k + i)%nat)); [done|]. split; [done|]. by apply lookup_lt_Some in Hv.
Qed.

Lemma elem_of_business a vs t : t ∈ business (dated a 0 vs) <->
  exists i v, vs !! i = Some v /\ v ∈ TSE_BUSINESS_DIVISIONS /\ t = day_text a i.
Proof.
  unfold business. rewrite list_elem_of_fmap. split.
  - intros (p & -> & [Hb Hin]%list_elem_of_filter). apply list_elem_of_lookup in Hin as (i & Hi). apply dated_lookup in Hi as (v & Hv & ->).
    by exists i, v.
  - intros (i & v & Hv & Hb & ->). exists (day_text a i, v). split; [done|]. apply list_elem_of_filter. split; [done|].
    apply list_elem_of_lookup. exists i. apply dated_lookup. by exists v.
Qed.

Section Theory.
Variable float_repr : string -> string.

(** The document of a response. *)
Definition calendar_document (raw : string) (rows : list json) : Prop :=
  (text ← utf8_decode raw; strict_loads ValueError float_repr text) = Ok (JDict [("data", JList rows)]).

(** A calendar is exactly what the official response says of the whole interval.  When one
    is derived, the response has one row for each day, in order and with a known
    division; the business dates are the days whose division is 1 or 2, and there is one; a
    query for the master of issues is bound to the calendar only for such a day. *)
Theorem calendar_exact raw s e c : derive_official_business_calendar float_repr raw s e = Ok c ->
  exists a b rows vs, is_day s a /\ is_day e b /\ Z.of_nat (length vs) = b - a + 1 /\
    calendar_document raw rows /\ Forall2 row_says rows (oc_rows_by_date c) /\ oc_rows_by_date c = dated a 0 vs /\
    oc_business_dates c <> [] /\
    (forall i v, vs !! i = Some v -> isoformat (a + Z.of_nat i) ∈ oc_business_dates c <-> v ∈ ["1"; "2"]) /\
    forall path t cursor d, master_query_digest path t cursor c = Ok d ->
      exists i v, vs !! i = Some v /\ v ∈ ["1"; "2"] /\ t = isoformat (a + Z.of_nat i).
Proof.
  unfold derive_official_business_calendar. intros H. binds H. destruct a8 as [m l]. binds H. injection H as <-. ensures.
  apply parse_calendar_date_Ok in E0 as [_ Ha], E1 as [_ Hb]. destruct a4 as [| | | | | |[|[k v] [|]]]; try done.
  destruct (bool_decide (k = "data")) eqn:Ek; [|done]. apply bool_decide_eq_true in Ek as ->. injection E5 as ->.
  destruct a5 as [| | | | |rows|]; try done. injection E6 as ->.
  assert (Hv : forall i, (i < 0 + length a6)%nat -> valid_date (a0 + Z.of_nat i) = true).
  { apply (interval_valid a0 a1); [apply Ha|apply Hb|]. lia. }
  apply (calendar_rows_spec a0 a6 0 [] [] _ eq_refl Hv) in E8 as (vs & Hlen & Hrows & Est). injection Est as -> ->.
  exists a0, a1, a6, vs. cbn [oc_rows_by_date oc_business_dates app] in *.
  assert (forall i v, vs !! i = Some v -> isoformat (a0 + Z.of_nat i) ∈ business (dated a0 0 vs) <-> v ∈ ["1"; "2"]) as Hbus.
  { intros i v Hi. rewrite elem_of_business. split; [|intros Hin; by exists i, v].
    intros (j & w & Hj & Hw & Ej). change (isoformat (a0 + Z.of_nat i)) with (day_text a0 i) in Ej.
    apply day_text_inj in Ej; [subst j; rewrite Hi in Hj; by injection Hj as <-| |];
      apply Hv; apply lookup_lt_Some in Hi, Hj; lia. }
  split_and!; try done; [lia|unfold calendar_document; by rewrite E3|].
  intros path t cursor d Hq. unfold master_query_digest in Hq. binds Hq. ensures. cbn [oc_business_dates] in *.
  match goal with Ht : t ∈ _ |- _ => apply elem_of_business in Ht as (i & v & Hi & Hv' & ->) end. by exists i, v.
Qed.

(** The body an official server sends for an interval. *)
Definition official_body (a : date) (vs : list string) : string :=
  canonical_dumps (JDict [("data", JList (map (fun p => JDict [("Date", JStr p.1); ("HolDiv", JStr p.2)]) (dated a 0 vs)))]).

(** A complete official response is accepted: for every interval and every choice of
    divisions for its days, with a business day among them, the calendar is derived and
    gives the divisions back. *)
Theorem official_calendar_accepted a b vs : valid_date a = true -> valid_date b = true -> Z.of_nat (length vs) = b - a + 1 ->
  0 < Z.of_nat (length vs) -> (forall v, v ∈ vs -> v ∈ HOLIDAY_DIVISIONS) -> (exists v, v ∈ vs /\ v ∈ TSE_BUSINESS_DIVISIONS) ->
  exists c, derive_official_business_calendar float_repr (official_body a vs) (isoformat a) (isoformat b) = Ok c /\
    oc_rows_by_date c = dated a 0 vs /\ oc_business_dates c = business (dated a 0 vs).
Proof.
  intros Ha Hb Hlen Hpos Hdiv (v0 & Hv0 & Hb0). set (rows := map (fun p => JDict [("Date", JStr p.1); ("HolDiv", JStr p.2)]) (dated a 0 vs)).
  assert (length rows = length vs) as Hrl.
  { unfold rows, dated. rewrite length_map, length_zip_with, length_map, length_seq. lia. }
  assert (plain (JDict [("data", JList rows)]) = true) as Hplain.
  { cbn [plain]. rewrite bool_decide_eq_true_2 by apply NoDup_singleton. cbn [forallb snd plain andb]. rewrite andb_true_r.
    apply forallb_forall. intros r Hr%list_elem_of_In. apply list_elem_of_fmap in Hr as (p & -> & _). done. }
  assert (canon (JDict [("data", JList rows)]) = JDict [("data", JList rows)]) as Hcanon.
  { cbn. do 4 f_equal. unfold rows. rewrite map_map. apply map_ext. intros p. reflexivity. }
  assert (business (dated a 0 vs) <> []) as Hne.
  { intros E. apply list_elem_of_lookup in Hv0 as (i & Hi). assert (day_text a i ∈ business (dated a 0 vs)) as Hin
      by (apply elem_of_business; by exists i, v0). rewrite E in Hin. by apply elem_of_nil in Hin. }
  unfold derive_official_business_calendar.
  replace (official_body a vs =s "") with false by (symmetry; apply bool_decide_eq_false_2; discriminate). cbn [negb ensure mbind result_bind].
  rewrite (proj2 (parse_calendar_date_Ok (isoformat a) a)) by (split; [apply isoformat_length|done]). cbn [mbind result_bind].
  rewrite (proj2 (parse_calendar_date_Ok (isoformat b) b)) by (split; [apply isoformat_length|done]). cbn [mbind result_bind].
  rewrite (proj2 (Z.leb_le a b)) by lia. cbn [ensure mbind result_bind]. unfold official_body. fold rows.
  rewrite canonical_bytes by done. cbn [mbind result_bind]. rewrite strict_loads_dumps, Hcanon by done. cbn [mbind result_bind].
  rewrite bool_decide_eq_true_2 by done. cbn [mbind result_bind]. rewrite Hrl, (proj2 (Z.eqb_eq _ _) Hlen). cbn [ensure mbind result_bind].
  rewrite <- Hrl.
  rewrite (proj2 (calendar_rows_spec a rows 0 [] [] (dated a 0 vs, business (dated a 0 vs)) eq_refl
    ltac:(rewrite Hrl; by apply (interval_valid a b)))).
  - cbn [mbind result_bind]. rewrite bool_decide_eq_false_2 by done. cbn [negb ensure mbind result_bind]. by eexists.
  - exists vs. split_and!; [done| |done]. unfold rows. apply Forall2_fmap_l, Forall_Forall2_diag, Forall_forall. intros [t v] Hp.
    exists [("Date", JStr t); ("HolDiv", JStr v)]. split_and!; try done. apply Hdiv. by apply elem_of_zip_r in Hp.
Qed.
End Theory.

(** From Friday, April 4, 2025, to Monday. *)
Definition sample_start : date := Eval vm_compute in ymd2ord 2025 4 4.
Definition sample_divisions : list string := ["1"; "0"; "0"; "1"].

Definition sample_calendar : OfficialBusinessCalendar := Eval vm_compute in
  ok_or (mkCalendar "" "" "" "" "" "" [] [])
    (derive_official_business_calendar id (official_body sample_start sample_divisions) "2025-04-04" "2025-04-07").

Lemma sample_derived :
  derive_official_business_calendar id (official_body sample_start sample_divisions) "2025-04-04" "2025-04-07" = Ok sample_calendar.
Proof. vm_compute. reflexivity. Qed.

Example sample_dates : oc_business_dates sample_calendar = ["2025-04-04"; "2025-04-07"] /\
  master_query_digest "/v2/equities/master" "2025-04-05" JNull sample_calendar
    = raise ValueError "master slice is not an official TSE business date" /\
  is_Ok (master_query_digest "/v2/equities/master" "2025-04-07" (JStr "next") sample_calendar) = true.
Proof. vm_compute. repeat split. Qed.

Lemma calendar_exact_witness : exists a b (rows : list json) (vs : list string), is_day "2025-04-04" a /\ is_day "2025-04-07" b /\
  Z.of_nat (length vs) = b - a + 1 /\ Forall2 row_says rows (oc_rows_by_date sample_calendar).
Proof.
  destruct (calendar_exact id (official_body sample_start sample_divisions) "2025-04-04" "2025-04-07" sample_calendar sample_derived)
    as (a & b & rows & vs & Ha & Hb & Hn & _ & Hrows & _).
  exists a, b, rows, vs. split_and!; [exact Ha|exact Hb|exact Hn|exact Hrows].
Defined.

Lemma official_calendar_accepted_witness : exists c,
  derive_official_business_calendar id (official_body sample_start sample_divisions) (isoformat sample_start) (isoformat (sample_start + 3)) = Ok c /\
  oc_rows_by_date c = dated sample_start 0 sample_divisions.
Proof.
  destruct (official_calendar_accepted id sample_start (sample_start + 3) sample_divisions) as (c & H1 & H2 & _).
  - vm_compute. reflexivity.
  - vm_compute. reflexivity.
  - vm_compute. reflexivity.
  - vm_compute. reflexivity.
  - intros v Hv. unfold sample_divisions, HOLIDAY_DIVISIONS in *. set_solver.
  - exists "1". split; [apply list_elem_of_here|apply list_elem_of_here].
  - exists c. split; [exact H1|exact H2].
Defined.
