(* ===== verification/DatasetContract.v ===== *)
(** * DatasetContract: the contracts of the premium datasets
    (packages/data_plane/data_contracts/loader.py and jquants_premium_core.json)

    A contract says which fields of a row identify it, when what it reports happened, and
    when it could be known.  The loader checks the document that Python and the worker share;
    its value here is the document as [json.loads] reads it. *)

From S2P Require Import Prelude PyDate Json JsonText SourceCapability RateLimit JQuantsClient.

Local Open Scope Z_scope.

Definition AVAILABLE_AT_POLICIES : list string :=
  ["session_close"; "explicit_timestamp_field"; "explicit_disclosure_date"; "known_publication_lag";
   "calendar_prepublished"; "ingest_time_conservative"].
Definition EVENT_TIME_POLICIES : list string := ["session_close"; "explicit_timestamp_field"; "observation_date"].
Definition REQUIRED_FIELDS : list string :=
  ["dataset_id"; "path"; "group"; "date_mode"; "natural_key_fields"; "event_time_policy"; "available_at_policy";
   "availability_field"; "known_publication_lag"; "fallback_policy"; "observation_grain"].

Record DatasetContract := mkDatasetContract {
  dc_dataset_id : string;
  dc_path : string;
  dc_group : string;
  dc_date_mode : string;
  dc_natural_key_fields : list string;
  dc_nullable_natural_key_fields : list string;
  dc_event_time_policy : string;
  dc_event_time_fields : list string;
  dc_available_at_policy : string;
  dc_availability_field : option string;
  dc_known_publication_lag : option string;
  dc_fallback_policy : string;
  dc_observation_grain : string;
  dc_bulk : string;
  dc_params : list string;
  dc_code_param : bool;
  dc_day_param : option string;
  dc_session : option string;
  dc_field_aliases : list (string * list string);
  dc_assumption : string;
}.

(** [_nonempty] *)
Definition nonempty_text (value : json) : result string :=
  match value with
  | JStr s => if s =s "" then raise ValueError "must be a non-empty string" else Ok s
  | _ => raise ValueError "must be a non-empty string"
  end.

(** [_string_tuple] *)
Definition name_tuple (value : json) : result (list string) :=
  match value with
  | JList l => on_error [ValueError] ValueError "must be an array of non-empty strings" (mapR nonempty_text l)
  | _ => raise ValueError "must be an array of non-empty strings"
  end.

Definition null_or_text (value : json) : result (option string) :=
  match value with
  | JNull => Ok None
  | JStr s => Ok (Some s)
  | _ => raise ValueError "must be string or null"
  end.

(** [raw.get(k, d)] *)
Definition get_or (k : string) (d : json) (raw : list (string * json)) : json := default d (get k raw).

Definition str_if_given (value : json) : option string := if truthy value then Some (py_str value) else None.

(** [set(a) < set(b)] *)
Definition strict_subset (a b : list string) : bool := forallb (fun x => x ∈? b) a && existsb (fun x => negb (x ∈? a)) b.

Definition contract_from_dict (raw : list (string * json)) : result DatasetContract :=
  _ ← ensure (forallb (fun k => has_key k raw) REQUIRED_FIELDS) ValueError "dataset contract missing fields";
  id ← nonempty_text (getv "dataset_id" raw);
  path ← nonempty_text (getv "path" raw);
  _ ← ensure (String.prefix "/v2/" path) ValueError "path must start with /v2/";
  policy ← nonempty_text (getv "available_at_policy" raw);
  _ ← ensure (policy ∈? AVAILABLE_AT_POLICIES) ValueError "unknown available_at policy";
  event_policy ← nonempty_text (getv "event_time_policy" raw);
  _ ← ensure (event_policy ∈? EVENT_TIME_POLICIES) ValueError "unknown event_time policy";
  _ ← ensure (bool_decide (getv "fallback_policy" raw = JStr "ingest_time_conservative")) ValueError
        "fallback_policy must be ingest_time_conservative";
  nullable_keys ← name_tuple (get_or "nullable_natural_key_fields" (JList []) raw);
  key_fields ← name_tuple (getv "natural_key_fields" raw);
  _ ← ensure (strict_subset nullable_keys key_fields) ValueError "nullable keys must leave a required discriminator";
  aliases_raw ← match get_or "field_aliases" (JDict []) raw with
                | JDict d => Ok d
                | _ => raise ValueError "field_aliases must be an object"
                end;
  aliases ← mapR (fun p => v ← name_tuple p.2; Ok (p.1, v)) aliases_raw;
  availability_field ← null_or_text (getv "availability_field" raw);
  lag ← null_or_text (getv "known_publication_lag" raw);
  group ← nonempty_text (getv "group" raw);
  date_mode ← nonempty_text (getv "date_mode" raw);
  event_time_fields ← name_tuple (get_or "event_time_fields" (JList []) raw);
  observation_grain ← nonempty_text (getv "observation_grain" raw);
  bulk ← nonempty_text (get_or "bulk" (JStr "api") raw);
  params ← name_tuple (get_or "params" (JList []) raw);
  assumption ← nonempty_text (get_or "assumption" (JStr "") raw);
  Ok (mkDatasetContract id path group date_mode key_fields nullable_keys event_policy event_time_fields policy
        availability_field lag "ingest_time_conservative" observation_grain bulk params
        (truthy (get_or "code_param" (JBool false) raw)) (str_if_given (getv "day_param" raw))
        (str_if_given (getv "session" raw)) aliases assumption).

(** Canonical field followed by the aliases of the contract. *)
Definition aliases_for (c : DatasetContract) (field : string) : list string :=
  field :: default [] (lookup_str field (dc_field_aliases c)).

(** [as_catalog_entry], as far as the client reads it. *)
Definition as_catalog_entry (c : DatasetContract) : catalog_entry := mkEntry (dc_path c) (dc_group c) (dc_bulk c) (dc_params c).

Definition load_contract (contracts : list (string * DatasetContract)) (raw : json) : result (list (string * DatasetContract)) :=
  d ← match raw with JDict d => Ok d | _ => raise ValueError "each dataset contract must be an object" end;
  c ← contract_from_dict d;
  _ ← ensure (negb (dc_dataset_id c ∈? map fst contracts)) ValueError "duplicate dataset contract";
  Ok (contracts ++ [(dc_dataset_id c, c)]).

(** [_load] *)
Definition load_contracts (document : json) : result (list (string * DatasetContract)) :=
  d ← match document with JDict d => Ok d | _ => raise AttributeError "object has no attribute get" end;
  _ ← ensure (eq_int (getv "schema_version" d) 2) ValueError "J-Quants contract schema_version must be 2";
  rows ← match getv "datasets" d with JList l => Ok l | _ => raise ValueError "J-Quants contract datasets must be an array" end;
  contracts ← foldR load_contract [] rows;
  _ ← ensure (negb (bool_decide (length contracts = 0%nat))) ValueError "Premium-core contract datasets must be non-empty";
  Ok contracts.

Definition name_list (l : list string) : json := JList (map JStr l).

(** The rows of jquants_premium_core.json. *)
Definition document_rows : list (list (string * json)) :=
  [
    [
     ("dataset_id", JStr "equities_master"); ("path", JStr "/v2/equities/master"); ("group", JStr "core");
     ("date_mode", JStr "today"); ("natural_key_fields", name_list ["Code"; "Date"]);
     ("event_time_policy", JStr "observation_date"); ("event_time_fields", name_list ["Date"]);
     ("available_at_policy", JStr "ingest_time_conservative"); ("availability_field", JNull);
     ("known_publication_lag", JNull); ("fallback_policy", JStr "ingest_time_conservative");
     ("observation_grain", JStr "issuer_snapshot_day"); ("bulk", JStr "api"); ("params", name_list ["code"; "date"]);
     ("code_param", JBool true);
     ("assumption", JStr "Date is the snapshot observation day, not an evidenced publication instant.")
    ];
    [
     ("dataset_id", JStr "equities_bars_daily"); ("path", JStr "/v2/equities/bars/daily"); ("group", JStr "core");
     ("date_mode", JStr "today"); ("natural_key_fields", name_list ["Code"; "Date"]);
     ("event_time_policy", JStr "session_close"); ("event_time_fields", name_list ["Date"]);
     ("available_at_policy", JStr "session_close"); ("availability_field", JStr "Date");
     ("known_publication_lag", JNull); ("fallback_policy", JStr "ingest_time_conservative");
     ("observation_grain", JStr "issuer_trading_day"); ("bulk", JStr "api");
     ("params", name_list ["code"; "date"; "from"; "to"]); ("code_param", JBool true); ("session", JStr "full_day");
     ("assumption", JStr "The completed daily bar is knowable no earlier than the exchange session close.")
    ];
    [
     ("dataset_id", JStr "equities_bars_daily_am"); ("path", JStr "/v2/equities/bars/daily/am");
     ("group", JStr "core"); ("date_mode", JStr "today"); ("natural_key_fields", name_list ["Code"; "Date"]);
     ("event_time_policy", JStr "session_close"); ("event_time_fields", name_list ["Date"]);
     ("available_at_policy", JStr "session_close"); ("availability_field", JStr "Date");
     ("known_publication_lag", JNull); ("fallback_policy", JStr "ingest_time_conservative");
     ("observation_grain", JStr "issuer_morning_session"); ("bulk", JStr "api");
     ("params", name_list ["code"; "pagination_key"]); ("code_param", JBool true); ("session", JStr "morning");
     ("assumption", JStr "The completed AM bar is knowable no earlier than the 11:30 JST morning close. Vendor query is code + pagination_key (recent snapshot; no date/from/to).")
    ];
    [
     ("dataset_id", JStr "fins_summary"); ("path", JStr "/v2/fins/summary"); ("group", JStr "core");
     ("date_mode", JStr "today"); ("natural_key_fields", name_list ["Code"; "DiscDate"; "DiscNo"]);
     ("event_time_policy", JStr "explicit_timestamp_field"); ("event_time_fields", name_list ["DiscDate"; "DiscTime"]);
     ("available_at_policy", JStr "explicit_timestamp_field"); ("availability_field", JStr "DiscDate+DiscTime");
     ("known_publication_lag", JNull); ("fallback_policy", JStr "ingest_time_conservative");
     ("observation_grain", JStr "financial_disclosure"); ("bulk", JStr "api"); ("params", name_list ["code"; "date"]);
     ("code_param", JBool true);
     ("field_aliases", JDict [("DiscDate", name_list ["DisclosedDate"]); ("DiscTime", name_list ["DisclosedTime"])]);
     ("assumption", JStr "DiscDate and DiscTime are explicit disclosure fields; absent time falls back to ingest time.")
    ];
    [
     ("dataset_id", JStr "fins_details"); ("path", JStr "/v2/fins/details"); ("group", JStr "core");
     ("date_mode", JStr "today"); ("natural_key_fields", name_list ["Code"; "DiscDate"; "DiscNo"]);
     ("event_time_policy", JStr "explicit_timestamp_field"); ("event_time_fields", name_list ["DiscDate"; "DiscTime"]);
     ("available_at_policy", JStr "explicit_timestamp_field"); ("availability_field", JStr "DiscDate+DiscTime");
     ("known_publication_lag", JNull); ("fallback_policy", JStr "ingest_time_conservative");
     ("observation_grain", JStr "financial_disclosure_document"); ("bulk", JStr "api");
     ("params", name_list ["code"; "date"]); ("code_param", JBool true);
     ("field_aliases", JDict [("DiscDate", name_list ["DisclosedDate"]); ("DiscTime", name_list ["DisclosedTime"])]);
     ("assumption", JStr "DiscNo distinguishes documents and DiscDate+DiscTime is the explicit disclosure timestamp.")
    ];
    [
     ("dataset_id", JStr "fins_dividend"); ("path", JStr "/v2/fins/dividend"); ("group", JStr "core");
     ("date_mode", JStr "today"); ("natural_key_fields", name_list ["Code"; "RefNo"]);
     ("event_time_policy", JStr "explicit_timestamp_field"); ("event_time_fields", name_list ["PubDate"; "PubTime"]);
     ("available_at_policy", JStr "explicit_timestamp_field"); ("availability_field", JStr "PubDate+PubTime");
     ("known_publication_lag", JNull); ("fallback_policy", JStr "ingest_time_conservative");
     ("observation_grain", JStr "dividend_announcement"); ("bulk", JStr "api");
     ("params", name_list ["code"; "from"; "to"]); ("code_param", JBool true);
     ("field_aliases", JDict [("PubDate", name_list ["AnnouncementDate"]); ("PubTime", name_list ["AnnouncementTime"]); ("RefNo", name_list ["ReferenceNumber"; "CARefNo"])]);
     ("assumption", JStr "Publication date and time are explicit; a date without a time is not promoted to 09:00.")
    ];
    [
     ("dataset_id", JStr "fins_earnings_date"); ("path", JStr "/v2/fins/earnings-date"); ("group", JStr "core");
     ("date_mode", JStr "today"); ("natural_key_fields", name_list ["Code"; "PubDate"; "SchDate"]);
     ("event_time_policy", JStr "observation_date"); ("event_time_fields", name_list ["SchDate"]);
     ("available_at_policy", JStr "explicit_disclosure_date"); ("availability_field", JStr "PubDate");
     ("known_publication_lag", JNull); ("fallback_policy", JStr "ingest_time_conservative");
     ("observation_grain", JStr "issuer_scheduled_earnings_date"); ("bulk", JStr "api");
     ("params", name_list ["code"]); ("code_param", JBool true); ("day_param", JStr "date");
     ("assumption", JStr "SchDate is the scheduled event; PubDate is a publication date without an intraday timestamp.")
    ];
    [
     ("dataset_id", JStr "equities_earnings_calendar"); ("path", JStr "/v2/equities/earnings-calendar");
     ("group", JStr "core"); ("date_mode", JStr "today"); ("natural_key_fields", name_list ["Date"; "Code"]);
     ("event_time_policy", JStr "observation_date"); ("event_time_fields", name_list ["Date"]);
     ("available_at_policy", JStr "calendar_prepublished"); ("availability_field", JNull);
     ("known_publication_lag", JNull); ("fallback_policy", JStr "ingest_time_conservative");
     ("observation_grain", JStr "issuer_scheduled_earnings_day"); ("bulk", JStr "api");
     ("params", name_list ["pagination_key"]); ("code_param", JBool false);
     ("assumption", JStr "Vendor next-business-day snapshot (pagination_key only). Date is a scheduled event date; historical publication timing is unavailable, so ingest time is retained.")
    ];
    [
     ("dataset_id", JStr "markets_calendar"); ("path", JStr "/v2/markets/calendar"); ("group", JStr "core");
     ("date_mode", JStr "range"); ("natural_key_fields", name_list ["Date"]);
     ("event_time_policy", JStr "observation_date"); ("event_time_fields", name_list ["Date"]);
     ("available_at_policy", JStr "calendar_prepublished"); ("availability_field", JNull);
     ("known_publication_lag", JNull); ("fallback_policy", JStr "ingest_time_conservative");
     ("observation_grain", JStr "calendar_day"); ("bulk", JStr "api");
     ("params", name_list ["from"; "to"; "holidaydivision"]); ("code_param", JBool false);
     ("assumption", JStr "Date is the calendar observation day, not its publication time; historical availability falls back to ingest.")
    ];
    [
     ("dataset_id", JStr "equities_investor_types"); ("path", JStr "/v2/equities/investor-types");
     ("group", JStr "core"); ("date_mode", JStr "range"); ("natural_key_fields", name_list ["PubDate"; "Section"]);
     ("event_time_policy", JStr "observation_date"); ("event_time_fields", name_list ["EnDate"]);
     ("available_at_policy", JStr "explicit_disclosure_date"); ("availability_field", JStr "PubDate");
     ("known_publication_lag", JNull); ("fallback_policy", JStr "ingest_time_conservative");
     ("observation_grain", JStr "market_section_investor_type_period"); ("bulk", JStr "api");
     ("params", name_list ["code"; "from"; "to"]); ("code_param", JBool true);
     ("assumption", JStr "EnDate is the period end and PubDate is the explicit publication date; no publication time is supplied.")
    ];
    [
     ("dataset_id", JStr "indices_bars_daily_topix"); ("path", JStr "/v2/indices/bars/daily/topix");
     ("group", JStr "core"); ("date_mode", JStr "range"); ("natural_key_fields", name_list ["Date"]);
     ("event_time_policy", JStr "session_close"); ("event_time_fields", name_list ["Date"]);
     ("available_at_policy", JStr "session_close"); ("availability_field", JStr "Date");
     ("known_publication_lag", JNull); ("fallback_policy", JStr "ingest_time_conservative");
     ("observation_grain", JStr "index_trading_day"); ("bulk", JStr "api"); ("params", name_list ["from"; "to"]);
     ("code_param", JBool false); ("session", JStr "full_day");
     ("assumption", JStr "The completed index bar is knowable no earlier than session close.")
    ];
    [
     ("dataset_id", JStr "indices_bars_daily"); ("path", JStr "/v2/indices/bars/daily"); ("group", JStr "core");
     ("date_mode", JStr "today"); ("natural_key_fields", name_list ["Date"; "Code"]);
     ("event_time_policy", JStr "session_close"); ("event_time_fields", name_list ["Date"]);
     ("available_at_policy", JStr "session_close"); ("availability_field", JStr "Date");
     ("known_publication_lag", JNull); ("fallback_policy", JStr "ingest_time_conservative");
     ("observation_grain", JStr "index_trading_day"); ("bulk", JStr "api");
     ("params", name_list ["code"; "from"; "to"]); ("code_param", JBool true); ("session", JStr "full_day");
     ("assumption", JStr "The completed index bar is knowable no earlier than session close.")
    ];
    [
     ("dataset_id", JStr "derivatives_bars_daily_options_225");
     ("path", JStr "/v2/derivatives/bars/daily/options/225"); ("group", JStr "core"); ("date_mode", JStr "today");
     ("natural_key_fields", name_list ["Date"; "Code"]); ("event_time_policy", JStr "session_close");
     ("event_time_fields", name_list ["Date"]); ("available_at_policy", JStr "session_close");
     ("availability_field", JStr "Date"); ("known_publication_lag", JNull);
     ("fallback_policy", JStr "ingest_time_conservative");
     ("observation_grain", JStr "derivative_contract_trading_day"); ("bulk", JStr "api");
     ("params", name_list ["from"; "to"]); ("code_param", JBool false); ("session", JStr "full_day");
     ("assumption", JStr "Code identifies each option contract; a completed daily bar is available at session close.")
    ];
    [
     ("dataset_id", JStr "derivatives_bars_daily_futures"); ("path", JStr "/v2/derivatives/bars/daily/futures");
     ("group", JStr "core"); ("date_mode", JStr "today"); ("natural_key_fields", name_list ["Date"; "Code"]);
     ("event_time_policy", JStr "session_close"); ("event_time_fields", name_list ["Date"]);
     ("available_at_policy", JStr "session_close"); ("availability_field", JStr "Date");
     ("known_publication_lag", JNull); ("fallback_policy", JStr "ingest_time_conservative");
     ("observation_grain", JStr "derivative_contract_trading_day"); ("bulk", JStr "api");
     ("params", name_list ["code"; "from"; "to"]); ("code_param", JBool true); ("session", JStr "full_day");
     ("assumption", JStr "Code identifies each futures contract; a completed daily bar is available at session close.")
    ];
    [
     ("dataset_id", JStr "derivatives_bars_daily_options"); ("path", JStr "/v2/derivatives/bars/daily/options");
     ("group", JStr "core"); ("date_mode", JStr "today"); ("natural_key_fields", name_list ["Date"; "Code"]);
     ("event_time_policy", JStr "session_close"); ("event_time_fields", name_list ["Date"]);
     ("available_at_policy", JStr "session_close"); ("availability_field", JStr "Date");
     ("known_publication_lag", JNull); ("fallback_policy", JStr "ingest_time_conservative");
     ("observation_grain", JStr "derivative_contract_trading_day"); ("bulk", JStr "api");
     ("params", name_list ["code"; "from"; "to"]); ("code_param", JBool true); ("session", JStr "full_day");
     ("assumption", JStr "Code identifies each option contract; a completed daily bar is available at session close.")
    ];
    [
     ("dataset_id", JStr "markets_margin_interest"); ("path", JStr "/v2/markets/margin-interest");
     ("group", JStr "core"); ("date_mode", JStr "today"); ("natural_key_fields", name_list ["Date"; "Code"]);
     ("event_time_policy", JStr "observation_date"); ("event_time_fields", name_list ["Date"]);
     ("available_at_policy", JStr "explicit_disclosure_date"); ("availability_field", JStr "PubDate");
     ("known_publication_lag", JNull); ("fallback_policy", JStr "ingest_time_conservative");
     ("observation_grain", JStr "issuer_margin_observation_day"); ("bulk", JStr "api");
     ("params", name_list ["code"; "date"; "from"; "to"; "published_date"]); ("code_param", JBool true);
     ("assumption", JStr "Date is the application date, not publication. From 2026-09-25 application dates, daily data has PubDate and six nullable Val fields; earlier history remains weekly with these fields null. Date-only PubDate is conservatively available at the next JST midnight, never application-day noon; absent PubDate retains ingest time. published_date cannot be combined with date/from/to and cannot retrieve legacy history. JSON/CSV fields are name-based, not positional. Source: https://jpx-jquants.com/ja/spec/mkt-margin-int")
    ];
    [
     ("dataset_id", JStr "markets_margin_alert"); ("path", JStr "/v2/markets/margin-alert");
     ("group", JStr "core"); ("date_mode", JStr "today");
     ("natural_key_fields", name_list ["Code"; "PubDate"; "AppDate"]); ("event_time_policy", JStr "observation_date");
     ("event_time_fields", name_list ["AppDate"]); ("available_at_policy", JStr "explicit_disclosure_date");
     ("availability_field", JStr "PubDate"); ("known_publication_lag", JNull);
     ("fallback_policy", JStr "ingest_time_conservative"); ("observation_grain", JStr "issuer_margin_alert");
     ("bulk", JStr "api"); ("params", name_list ["code"; "date"; "from"; "to"]); ("code_param", JBool true);
     ("assumption", JStr "AppDate is the applicable day and PubDate is an explicit publication date without time.")
    ];
    [
     ("dataset_id", JStr "markets_short_ratio"); ("path", JStr "/v2/markets/short-ratio"); ("group", JStr "core");
     ("date_mode", JStr "today"); ("natural_key_fields", name_list ["Date"; "S33"]);
     ("event_time_policy", JStr "observation_date"); ("event_time_fields", name_list ["Date"]);
     ("available_at_policy", JStr "ingest_time_conservative"); ("availability_field", JNull);
     ("known_publication_lag", JNull); ("fallback_policy", JStr "ingest_time_conservative");
     ("observation_grain", JStr "sector_short_ratio_day"); ("bulk", JStr "api");
     ("params", name_list ["code"; "date"; "from"; "to"; "section"]); ("code_param", JBool true);
     ("assumption", JStr "Date is an observation day; S33 distinguishes sector rows and publication timing is not evidenced.")
    ];
    [
     ("dataset_id", JStr "markets_short_sale_report"); ("path", JStr "/v2/markets/short-sale-report");
     ("group", JStr "core"); ("date_mode", JStr "today");
     ("natural_key_fields", name_list ["DiscDate"; "CalcDate"; "Code"; "DICName"; "FundName"]);
     ("event_time_policy", JStr "observation_date"); ("event_time_fields", name_list ["CalcDate"]);
     ("available_at_policy", JStr "explicit_disclosure_date"); ("availability_field", JStr "DiscDate");
     ("known_publication_lag", JNull); ("fallback_policy", JStr "ingest_time_conservative");
     ("observation_grain", JStr "issuer_reporter_short_position_disclosure"); ("bulk", JStr "api");
     ("params", name_list ["code"; "date"; "from"; "to"]); ("code_param", JBool true); ("day_param", JStr "disc_date");
     ("assumption", JStr "CalcDate is the position date; DiscDate is the disclosure date and reporter/fund fields prevent row collapse.")
    ];
    [
     ("dataset_id", JStr "markets_breakdown"); ("path", JStr "/v2/markets/breakdown"); ("group", JStr "core");
     ("date_mode", JStr "today"); ("natural_key_fields", name_list ["Date"; "Code"]);
     ("event_time_policy", JStr "observation_date"); ("event_time_fields", name_list ["Date"]);
     ("available_at_policy", JStr "ingest_time_conservative"); ("availability_field", JNull);
     ("known_publication_lag", JNull); ("fallback_policy", JStr "ingest_time_conservative");
     ("observation_grain", JStr "issuer_trading_breakdown_day"); ("bulk", JStr "api");
     ("params", name_list ["code"; "date"; "from"; "to"]); ("code_param", JBool true);
     ("assumption", JStr "Date is an observation day and no publication timestamp or evidenced lag is supplied.")
    ];
    [
     ("dataset_id", JStr "edinet_major_shareholders"); ("path", JStr "/v2/edinet/major-shareholders");
     ("group", JStr "edinet"); ("date_mode", JStr "today"); ("natural_key_fields", name_list ["Code"; "DocId"]);
     ("nullable_natural_key_fields", name_list ["Code"]); ("event_time_policy", JStr "explicit_timestamp_field");
     ("event_time_fields", name_list ["SubDate"; "SubTime"]); ("available_at_policy", JStr "explicit_timestamp_field");
     ("availability_field", JStr "SubDate+SubTime"); ("known_publication_lag", JNull);
     ("fallback_policy", JStr "ingest_time_conservative"); ("observation_grain", JStr "edinet_filing_document");
     ("bulk", JStr "api"); ("params", name_list ["code"; "date"]); ("code_param", JBool true);
     ("assumption", JStr "DocId identifies the filing and SubDate+SubTime is its explicit submission timestamp. Unlisted-company filings may explicitly provide Code=null; retain that null with the required DocId without changing listed-company keys. An omitted Code or missing DocId remains invalid. Source: https://jpx-jquants.com/ja/spec/edinet-major-shareholders")
    ];
    [
     ("dataset_id", JStr "edinet_cross_shareholdings"); ("path", JStr "/v2/edinet/cross-shareholdings");
     ("group", JStr "edinet"); ("date_mode", JStr "today"); ("natural_key_fields", name_list ["Code"; "DocId"]);
     ("event_time_policy", JStr "explicit_timestamp_field"); ("event_time_fields", name_list ["SubDate"; "SubTime"]);
     ("available_at_policy", JStr "explicit_timestamp_field"); ("availability_field", JStr "SubDate+SubTime");
     ("known_publication_lag", JNull); ("fallback_policy", JStr "ingest_time_conservative");
     ("observation_grain", JStr "edinet_filing_document"); ("bulk", JStr "api");
     ("params", name_list ["code"; "date"]); ("code_param", JBool true);
     ("assumption", JStr "DocId identifies the filing and SubDate+SubTime is its explicit submission timestamp.")
    ];
    [
     ("dataset_id", JStr "edinet_large_volume_shareholders");
     ("path", JStr "/v2/edinet/large-volume-shareholders"); ("group", JStr "edinet"); ("date_mode", JStr "today");
     ("natural_key_fields", name_list ["Code"; "DocId"]); ("event_time_policy", JStr "explicit_timestamp_field");
     ("event_time_fields", name_list ["SubDate"; "SubTime"]); ("available_at_policy", JStr "explicit_timestamp_field");
     ("availability_field", JStr "SubDate+SubTime"); ("known_publication_lag", JNull);
     ("fallback_policy", JStr "ingest_time_conservative"); ("observation_grain", JStr "edinet_filing_document");
     ("bulk", JStr "api"); ("params", name_list ["edinet_code"; "code"; "date"]); ("code_param", JBool true);
     ("assumption", JStr "DocId identifies each filing, including corrections (document type 360 / LargeHldgTypeCode 6); retain ParDocId and RptOblgDate in the payload without replacing the original DocId. SubDate+SubTime is availability; RptOblgDate is not availability. edinet_code and code are mutually exclusive. Holdings differences around the 2026-05-01 reporting-rule change do not alone establish trades. Source: https://jpx-jquants.com/ja/spec/edinet-large-volume-shareholders")
    ];
    [
     ("dataset_id", JStr "equities_valuation"); ("path", JStr "/v2/equities/valuation"); ("group", JStr "core");
     ("date_mode", JStr "today"); ("natural_key_fields", name_list ["Code"; "Date"]);
     ("event_time_policy", JStr "session_close"); ("event_time_fields", name_list ["Date"]);
     ("available_at_policy", JStr "ingest_time_conservative"); ("availability_field", JNull);
     ("known_publication_lag", JNull); ("fallback_policy", JStr "ingest_time_conservative");
     ("observation_grain", JStr "issuer_trading_day"); ("bulk", JStr "api");
     ("params", name_list ["code"; "date"; "from"; "to"]); ("code_param", JBool true);
     ("assumption", JStr "Date is the valuation observation day using same-day close/reference price. Vendor publishes approximately 16:30 JST (not guaranteed) and overwrites in place with no revision/ETag; available_at is ingest time, so stored history is observation-time available and is not vintage observed PIT. Noon decision d must not treat same-day close as eligible. EPS/BPS/ROE may be negative; PER is null when EPS<=0 and PBR is null when BPS<=0. ETF/ETN may be all-null including MktCap; REIT may have MktCap only. Null-metric rows are retained. MktCap is million yen excluding treasury shares and is not a substitute for equities_bars_daily MktCap.")
    ]
  ].

Definition contract_document : json := JDict [("schema_version", JInt 2); ("datasets", JList (map JDict document_rows))].

(** [_CONTRACTS] *)
Definition CONTRACTS : list (string * DatasetContract) := Eval vm_compute in ok_or [] (load_contracts contract_document).

Lemma document_loads : load_contracts contract_document = Ok CONTRACTS.
Proof. vm_compute. reflexivity. Qed.

Definition all_contracts : list DatasetContract := map snd CONTRACTS.

Definition contract_for (id : string) : result DatasetContract :=
  of_option KeyError "unknown Premium-core dataset contract" (lookup_str id CONTRACTS).

(** The catalog of the client is that of the contracts. *)
Lemma catalog_of_contracts : map (fun p => (p.1, as_catalog_entry p.2)) CONTRACTS = premium_entries.
Proof. vm_compute. reflexivity. Qed.

(** ** What the loader guarantees *)

Record contract_ok (c : DatasetContract) : Prop := mkContractOk {
  ok_id : dc_dataset_id c <> "";
  ok_path : String.prefix "/v2/" (dc_path c) = true;
  ok_policy : dc_available_at_policy c ∈ AVAILABLE_AT_POLICIES;
  ok_event_policy : dc_event_time_policy c ∈ EVENT_TIME_POLICIES;
  ok_fallback : dc_fallback_policy c = "ingest_time_conservative";
  ok_fields : Forall (fun f => f <> "") (dc_natural_key_fields c ++ dc_event_time_fields c ++ dc_params c);
  ok_nullable : dc_nullable_natural_key_fields c ⊆ dc_natural_key_fields c;
  ok_discriminator : exists f, f ∈ dc_natural_key_fields c /\ f ∉ dc_nullable_natural_key_fields c;
}.

Lemma nonempty_text_Ok v s : nonempty_text v = Ok s -> v = JStr s /\ s <> "".
Proof. destruct v as [| | | |t| |]; simpl; try done. case_bool_decide; [done|]. by intros [= ->]. Qed.

Lemma name_tuple_Ok v l : name_tuple v = Ok l -> v = name_list l /\ Forall (fun s => s <> "") l.
Proof.
  destruct v as [| | | | |vs|]; simpl; try done. intros H%on_error_Ok. apply mapR_Ok in H. unfold name_list.
  induction H as [|v s vs l Hv _ [E IH]]; [done|]. apply nonempty_text_Ok in Hv as [-> Hs]. simpl. injection E as ->. split; [done|by constructor].
Qed.

Lemma strict_subset_spec a b : strict_subset a b = true <-> a ⊆ b /\ exists x, x ∈ b /\ x ∉ a.
Proof.
  unfold strict_subset. rewrite andb_true_iff, forallb_forall, existsb_exists. split.
  - intros [H (x & Hx & Hn)]. split.
    + intros y Hy. apply list_elem_of_In, H in Hy. by apply bool_decide_eq_true in Hy.
    + exists x. split; [by apply list_elem_of_In|]. apply negb_true_iff in Hn. by apply bool_decide_eq_false in Hn.
  - intros [H (x & Hx & Hn)]. split.
    + intros y Hy. apply bool_decide_eq_true_2, H. by apply list_elem_of_In.
    + exists x. split; [by apply list_elem_of_In|]. by apply negb_true_iff, bool_decide_eq_false_2.
Qed.

Lemma contract_from_dict_ok raw c : contract_from_dict raw = Ok c -> contract_ok c.
Proof.
  unfold contract_from_dict. intros H. binds H. ensures. injection H as <-.
  repeat match goal with
  | H : nonempty_text _ = Ok _ |- _ => apply nonempty_text_Ok in H as [? ?]
  | H : name_tuple _ = Ok _ |- _ => apply name_tuple_Ok in H as [? ?]
  | H : strict_subset _ _ = true |- _ => apply strict_subset_spec in H as [? ?]
  end.
  split; cbn; try done. rewrite !Forall_app. by split_and!.
Qed.

Definition contracts_ok (contracts : list (string * DatasetContract)) : Prop :=
  NoDup (map fst contracts) /\ forall id c, (id, c) ∈ contracts -> dc_dataset_id c = id /\ contract_ok c.

Lemma load_contract_ok contracts raw contracts' : contracts_ok contracts -> load_contract contracts raw = Ok contracts' ->
  contracts_ok contracts'.
Proof.
  intros [Hn Hc] H. unfold load_contract in H. binds H. ensures. injection H as <-.
  match goal with Hd : contract_from_dict _ = Ok ?c |- _ => apply contract_from_dict_ok in Hd end.
  split.
  - rewrite map_app. apply NoDup_app. split_and!; [done| |apply NoDup_singleton]. intros x Hx. simpl. by intros ->%list_elem_of_singleton.
  - intros id c [Hin|Hin]%elem_of_app; [by apply Hc|]. apply list_elem_of_singleton in Hin as [= -> ->]. done.
Qed.

(** The loader admits well-formed contracts only.  What loads is not empty, has each
    dataset once under its own name, and every contract has a path under /v2/, known policies with the conservative
    fallback, names that are not empty, and a field of its key that may not be null. *)
Theorem load_sound document contracts : load_contracts document = Ok contracts ->
  contracts <> [] /\ NoDup (map fst contracts) /\
  forall id c, (id, c) ∈ contracts -> dc_dataset_id c = id /\ contract_ok c.
Proof.
  unfold load_contracts. intros H. binds H. ensures. injection H as <-.
  match goal with Hf : foldR load_contract [] _ = Ok _ |- _ => apply (foldR_inv contracts_ok) in Hf as [Hn Hc] end.
  - split; [by intros ->|done].
  - intros s x s' _ Hs Hx. by eapply load_contract_ok.
  - split; [constructor|]. intros id c Hin. by apply elem_of_nil in Hin.
Qed.

Lemma load_sound_witness : CONTRACTS <> [] /\ NoDup (map fst CONTRACTS).
Proof.
  destruct (load_sound contract_document CONTRACTS document_loads) as (H1 & H2 & _). split; [exact H1|exact H2].
Defined.
