(* ===== verification/DatasetIdentity.v ===== *)
(** * DatasetIdentity: the identity of rows and when they could be known
    (packages/data_plane/data_contracts/identity.py)

    The contract of a dataset selects the fields that identify a row, when what it reports
    happened and when it was available.  What cannot be dated falls back to the time of
    ingestion.  Texts are written as a browser would write them, numbers from their [repr]. *)

From S2P Require Import Prelude PyDate PyTime JstTime Json JsonText Utf8 Sha256 SourceCapability DatasetContract.

Local Open Scope Z_scope.

Abbreviation row := (list (string * json)).

(** ** Numbers as JSON.stringify writes them *)

Definition JS_SAFE_INTEGER : Z := 2 ^ 53 - 1.

Fixpoint zeros_before (n : nat) (rest : string) : string := match n with O => rest | S n => String "0" (zeros_before n rest) end.

Fixpoint lstrip_zeros (s : string) : string :=
  match s with String "0" t => lstrip_zeros t | _ => s end.

(** [s.rstrip("0")] *)
Fixpoint rstrip_zeros (s : string) : string :=
  match s with
  | EmptyString => EmptyString
  | String c t => let t := rstrip_zeros t in
      if (t =s "") && bool_decide (c = "0"%char) then EmptyString else String c t
  end.

(** The digits of [repr(abs(x))] without leading zeros, and the place of the decimal point. *)
Definition decimal_parts (raw : string) : string * Z :=
  let '(integer, r) := span_digits raw in
  let '(fraction, r) := match head_is "." r with Some t => span_digits t | None => (EmptyString, r) end in
  let exponent := match r with
                  | String _ (String "-" ds) => - digits_value ds
                  | String _ (String "+" ds) => digits_value ds
                  | String _ ds => digits_value ds
                  | EmptyString => 0
                  end in
  let digits := integer +:+ fraction in
  let stripped := lstrip_zeros digits in
  (if stripped =s "" then "0" else stripped,
   Z.of_nat (String.length integer) + exponent - Z.of_nat (String.length digits - String.length stripped)).

(** Floats that are neither zero nor beyond the finite, from the [repr] of their magnitude: the
    first digit after the point stands for a tenth, so that [1e-6] is at place -5 and
    [1e21] at place 22. *)
Definition js_magnitude (raw : string) : string :=
  let '(digits, decimal_pos) := decimal_parts raw in
  if (-5 <=? decimal_pos) && (decimal_pos <=? 21) then
    let n := Z.of_nat (String.length digits) in
    if decimal_pos <=? 0 then "0." +:+ zeros_before (Z.to_nat (- decimal_pos)) (rstrip_zeros digits)
    else if n <=? decimal_pos then digits +:+ zeros_before (Z.to_nat (decimal_pos - n)) EmptyString
    else let fraction := rstrip_zeros (str_drop (Z.to_nat decimal_pos) digits) in
         str_take (Z.to_nat decimal_pos) digits +:+ (if fraction =s "" then EmptyString else "." +:+ fraction)
  else
    let significant := rstrip_zeros digits in
    let sci_exp := decimal_pos - 1 in
    str_take 1 significant +:+
    (if (1 <? String.length significant)%nat then "." +:+ str_drop 1 significant else EmptyString) +:+
    "e" +:+ (if 0 <=? sci_exp then "+" else EmptyString) +:+ show_Z sci_exp.

Definition NOT_FINITE : list string := ["nan"; "inf"; "-inf"].

Definition js_float (r : string) : string :=
  if r ∈? NOT_FINITE then "null"
  else if (r =s "0.0") || (r =s "-0.0") then "0"
  else match head_is "-" r with
       | Some raw => "-" +:+ js_magnitude raw
       | None => js_magnitude r
       end.

(** [_js_number]; an integer beyond the safe ones, which is rounded to a float, is outside
    the model. *)
Definition js_number (n : Z) : result string :=
  if Z.abs n <=? JS_SAFE_INTEGER then Ok (show_Z n) else raise OutsideModel "an integer rounded to a float".

(** ** [canonical_json] *)

Fixpoint identity_json (value : json) : result string :=
  match value with
  | JNull => Ok "null"
  | JBool b => Ok (if b then "true" else "false")
  | JInt n => js_number n
  | JFloat r => Ok (js_float r)
  | JStr s => Ok (dumps_str_unicode s EmptyString)
  | JList l =>
      items ← mapR id (map identity_json l);
      Ok ("[" +:+ String.concat "," items +:+ "]")
  | JDict d =>
      items ← mapR (fun p : string * result string => v ← p.2; Ok (dumps_str_unicode p.1 EmptyString +:+ ":" +:+ v))
                (py_sorted key_leb (map (fun p => (p.1, identity_json p.2)) d));
      Ok ("{" +:+ String.concat "," items +:+ "}")
  end.

(** A float that is a whole number beyond the safe integers is at least 2^53. *)
Definition unsafe_float (r : string) : bool :=
  let '(digits, decimal_pos) := decimal_parts (default r (head_is "-" r)) in
  let n := Z.of_nat (String.length digits) in
  (16 <? decimal_pos) ||
  ((decimal_pos =? 16) && (9007199254740992 <=? digits_value (str_take 16 digits) * 10 ^ Z.max 0 (16 - n))).

(** [_validate_finite_safe_json]; characters below 256 are no surrogates. *)
Fixpoint validate_finite_safe_json (value : json) : result unit :=
  match value with
  | JNull | JBool _ | JStr _ => Ok tt
  | JInt n => ensure (Z.abs n <=? JS_SAFE_INTEGER) ValueError "is outside the JavaScript safe-integer range"
  | JFloat r =>
      _ ← ensure (negb (r ∈? NOT_FINITE)) ValueError "is not a finite JSON number";
      ensure (negb (unsafe_float r)) ValueError "is outside the JavaScript safe-integer range"
  | JList l => _ ← mapR id (map validate_finite_safe_json l); Ok tt
  | JDict d => _ ← mapR id (map (fun p => validate_finite_safe_json p.2) d); Ok tt
  end.

Definition canonical_finite_safe_json (value : json) : result string :=
  _ ← validate_finite_safe_json value;
  identity_json value.

Definition sha256_fallback (r : row) : result string :=
  text ← identity_json (JDict r);
  Ok ("hash:sha256:" +:+ hexdigest (utf8_encode text)).

(** ** Keys *)

Definition filled (v : json) : bool := negb (bool_decide (v = JNull \/ v = JStr "")).

(** The names under which a row may have the field. *)
Definition candidate_names (c : DatasetContract) (field : string) : list string :=
  concat (map (fun candidate => [candidate; lower candidate]) (aliases_for c field)).

(** The first value that is there. *)
Fixpoint first_filled (r : row) (names : list string) : option json :=
  match names with
  | [] => None
  | k :: names => if filled (getv k r) then Some (getv k r) else first_filled r names
  end.

(** [_pick] *)
Definition pick_value (r : row) (c : DatasetContract) (field : string) : option json := first_filled r (candidate_names c field).

Definition explicit_null (r : row) (c : DatasetContract) (field : string) : bool :=
  (field ∈? dc_nullable_natural_key_fields c) &&
  existsb (fun k => bool_decide (get k r = Some JNull)) (candidate_names c field).

Definition pick_field (r : row) (c : DatasetContract) (picked : row) (field : string) : result row :=
  match pick_value r c field with
  | Some v => Ok (dict_set field v picked)
  | None => if explicit_null r c field then Ok (dict_set field JNull picked)
            else raise ValueError "governed natural-key field is absent; structured product is rejected"
  end.

Definition contract_key_fields (r : row) (c : DatasetContract) : result row :=
  foldR (pick_field r c) [] (dc_natural_key_fields c).

Definition natural_key_fields (r : row) (dataset_id : string) : result row :=
  c ← contract_for dataset_id;
  contract_key_fields r c.

Definition natural_key (r : row) (dataset_id : string) : result string :=
  fields ← natural_key_fields r dataset_id;
  identity_json (JDict fields).

(** ** Dates and times *)

(** [re.fullmatch] of a pattern in which [d] stands for a digit. *)
Fixpoint shape (pattern s : string) : bool :=
  match pattern, s with
  | EmptyString, EmptyString => true
  | String p pattern, String c s =>
      (if bool_decide (p = "d"%char) then present (digit_val c) else bool_decide (c = p)) && shape pattern s
  | _, _ => false
  end.

Definition date_shape (s : string) : bool := shape "dddd-dd-dd" s.

(** [_parse_date] *)
Definition parse_calendar_day (value : string) : result date :=
  _ ← ensure (date_shape value) ValueError "expected YYYY-MM-DD";
  on_error [ValueError] ValueError "expected YYYY-MM-DD" (strptime "-" value).

Definition session_close_jst (day : string) (session : option string) : result string :=
  _ ← parse_calendar_day day;
  let close := if bool_decide (session = Some "morning") then "11:30:00"
               else if String.ltb day "2024-11-05" then "15:00:00" else "15:30:00" in
  Ok (day +:+ "T" +:+ close +:+ "+09:00").

(** [_date_start] *)
Definition date_start (value : option json) : option string :=
  match value with
  | Some (JStr s) => if is_Ok (parse_calendar_day s) then Some (s +:+ "T00:00:00+09:00") else None
  | _ => None
  end.

(** [\d{2}:\d{2}:\d{2}(?:\.\d+)?] *)
Definition clock_shape (s : string) : bool :=
  shape "dd:dd:dd" (str_take 8 s) &&
  match str_drop 8 s with
  | EmptyString => true
  | String c ds => bool_decide (c = "."%char) && negb (ds =s "") && ((span_digits ds).2 =s "")
  end.

(** [_timestamp_from_fields] *)
Definition timestamp_from_fields (r : row) (c : DatasetContract) (fields : list string) : option string :=
  match fields with
  | [] => None
  | field :: rest =>
      match pick_value r c field with
      | Some (JStr first) =>
          if has_char "T" first || has_char " " first then Some first
          else match rest with
               | [] => None
               | field :: _ =>
                   match pick_value r c field with
                   | Some (JStr second) =>
                       if is_Ok (parse_calendar_day first) then
                         let clock := if shape "dd:dd" second then second +:+ ":00" else second in
                         if clock_shape clock then Some (first +:+ "T" +:+ clock +:+ "+09:00") else None
                       else None
                   | _ => None
                   end
               end
      | _ => None
      end
  end.

(** [contract.event_time_fields[0]] *)
Definition first_event_field (c : DatasetContract) : result string :=
  of_option IndexError "tuple index out of range" (head (dc_event_time_fields c)).

Definition contract_event_time (r : row) (c : DatasetContract) : result (option string) :=
  if dc_event_time_policy c =s "session_close" then
    field ← first_event_field c;
    Ok (match pick_value r c field with
        | Some (JStr day) => match session_close_jst day (dc_session c) with Ok t => Some t | Err _ => None end
        | _ => None
        end)
  else if dc_event_time_policy c =s "explicit_timestamp_field" then
    match timestamp_from_fields r c (dc_event_time_fields c) with
    | Some t => Ok (Some t)
    | None => field ← first_event_field c; Ok (date_start (pick_value r c field))
    end
  else if dc_event_time_policy c =s "observation_date" then
    field ← first_event_field c; Ok (date_start (pick_value r c field))
  else Ok None.

Definition event_time_for (r : row) (dataset_id : string) : result (option string) :=
  c ← contract_for dataset_id;
  contract_event_time r c.

(** [s.split("+")] *)
Fixpoint split_plus (s : string) : list string :=
  match s with
  | EmptyString => [EmptyString]
  | String c s =>
      let parts := split_plus s in
      if bool_decide (c = "+"%char) then EmptyString :: parts
      else match parts with p :: ps => String c p :: ps | [] => [String c EmptyString] end
  end.

Definition availability_fields (c : DatasetContract) : list string :=
  match dc_availability_field c with
  | Some f => if f =s "" then [] else split_plus f
  | None => []
  end.

(** [day.strftime("%Y-%m-%dT00:00:00+09:00")]; glibc does not pad [%Y]. *)
Definition midnight_text (d : date) : string :=
  strftime_ym d +:+ "-" +:+ pad2 (day_of d) +:+ "T00:00:00+09:00".

(** [_disclosure_available_at] *)
Definition disclosure_available_at (r : row) (c : DatasetContract) : result (option string) :=
  match availability_fields c with
  | [] => Ok None
  | field :: rest =>
      match timestamp_from_fields r c (field :: rest) with
      | Some t => Ok (Some t)
      | None =>
          match pick_value r c field with
          | Some (JStr s) =>
              match parse_calendar_day s with
              | Ok d => d ← date_add d 1; Ok (Some (midnight_text d))
              | Err _ => Ok None
              end
          | _ => Ok None
          end
      end
  end.

(** The number in front of the letter, and what follows. *)
Definition lag_part (letter : ascii) (s : string) : Z * string :=
  let '(ds, r) := span_digits s in
  match r with
  | String c t => if bool_decide (c = letter) && negb (ds =s "") then (digits_value ds, t) else (0, s)
  | EmptyString => (0, s)
  end.

(** [_LAG_RE]: days and hours. *)
Definition parse_lag (s : string) : option (Z * Z) :=
  match head_is "P" s with
  | Some s =>
      let '(days, s) := lag_part "D" s in
      match s with
      | EmptyString => Some (days, 0)
      | String "T" s => let '(hours, s) := lag_part "H" s in if s =s "" then Some (days, hours) else None
      | String _ _ => None
      end
  | None => None
  end.

Definition offset_text (offset : Z) : string :=
  let a := Z.abs offset in
  let s := a / 1000000 in
  (if offset <? 0 then "-" else "+") +:+ pad2 (s / 3600) +:+ ":" +:+ pad2 (s / 60 mod 60) +:+
  (if a mod 60000000 =? 0 then EmptyString
   else ":" +:+ pad2 (s mod 60) +:+ (if a mod 1000000 =? 0 then EmptyString else "." +:+ pad6 (a mod 1000000))).

(** [_known_lag_available_at] *)
Definition known_lag_available_at (r : row) (c : DatasetContract) : result (option string) :=
  event ← contract_event_time r c;
  match dc_known_publication_lag c, event with
  | Some lag, Some event =>
      match parse_lag lag with
      | Some (days, hours) =>
          match datetime_fromisoformat event with
          | Ok (local, zone) =>
              _ ← ensure (days + hours / 24 <=? 999999999) OverflowError "days out of range";
              let t := local + (days * 24 + hours) * 3600000000 in
              _ ← ensure (valid_datetime t) OverflowError "date value out of range";
              Ok (Some (seconds_text t +:+ match zone with Some off => offset_text off | None => EmptyString end))
          | Err e => if decide (exn_kind e = ValueError) then Ok None else Err e
          end
      | None => Ok None
      end
  | _, _ => Ok None
  end.

(** ** Availability *)

(** [_event_or_session_date] *)
Definition event_or_session_date (r : row) (c : DatasetContract) : option string :=
  field ← match dc_event_time_fields c with
          | f :: _ => Some f
          | [] => head (availability_fields c)
          end;
  match (if field =s "" then None else pick_value r c field) with
  | Some (JStr s) => if is_Ok (parse_calendar_day s) then Some s else None
  | _ => None
  end.

Section Availability.
Variable capabilities : registry.

(** [_before_official_availability] *)
Definition before_official_availability (r : row) (dataset_id : string) (c : DatasetContract) : bool :=
  match source_capability_contract_or_none capabilities dataset_id, event_or_session_date r c with
  | Some capability, Some day => String.ltb day (earliest_official_availability capability)
  | _, _ => false
  end.

(** What the policy of the contract says, if it can tell. *)
Definition policy_instant (r : row) (c : DatasetContract) : result (option string) :=
  let policy := dc_available_at_policy c in
  if policy =s "session_close" then
    Ok (match pick_value r c (match dc_availability_field c with Some f => if f =s "" then "Date" else f | None => "Date" end) with
        | Some (JStr day) => match session_close_jst day (dc_session c) with Ok t => Some t | Err _ => None end
        | _ => None
        end)
  else if policy =s "explicit_timestamp_field" then Ok (timestamp_from_fields r c (availability_fields c))
  else if policy =s "explicit_disclosure_date" then disclosure_available_at r c
  else if policy =s "known_publication_lag" then known_lag_available_at r c
  else Ok None.

Definition available_at_for (r : row) (dataset_id ingested_at : string) : result string :=
  c ← contract_for dataset_id;
  if before_official_availability r dataset_id c &&
     (dc_available_at_policy c ∈? ["ingest_time_conservative"; "calendar_prepublished"]) then Ok ingested_at
  else
    instant ← policy_instant r c;
    Ok (default ingested_at instant).
End Availability.

Example js_numbers : map js_float ["0.45"; "0.11"; "-0.0"; "1e-06"; "1e-07"; "1.5e+22"; "1e+20"; "1e+21"; "123.0"; "-12.5"; "nan"; "0.001"]
  = ["0.45"; "0.11"; "0"; "0.000001"; "1e-7"; "1.5e+22"; "100000000000000000000"; "1e+21"; "123"; "-12.5"; "null"; "0.001"].
Proof. vm_compute. reflexivity. Qed.

Example identity_example :
  identity_json (JDict [("b", JList [JInt 1; JFloat "2.50"]); ("a", JBool true)]) = Ok ("{" +:+ dumps_str "a" (":true," +:+ dumps_str "b" ":[1,2.5]}")) /\
  map parse_lag ["P1D"; "PT2H"; "P1DT2H"; "P"; "PT"; "P1"; "1D"] =
    [Some (1, 0); Some (0, 2); Some (1, 2); Some (0, 0); Some (0, 0); None; None].
Proof. vm_compute. split; reflexivity. Qed.

Definition sample_bar (day : string) : row := [("Code", JStr "86970"); ("Date", JStr day); ("C", JFloat "1500.5")].
Definition sample_summary (time : string) : row :=
  [("Code", JStr "86970"); ("DisclosedDate", JStr "2025-04-04"); ("disctime", JStr time); ("DiscNo", JStr "1")].

Example available_examples :
  map (fun d => available_at_for [] (sample_bar d) "equities_bars_daily" "2026-01-01T00:00:00+09:00") ["2024-11-01"; "2024-11-05"; "2024-11-31"]
    = [Ok "2024-11-01T15:00:00+09:00"; Ok "2024-11-05T15:30:00+09:00"; Ok "2026-01-01T00:00:00+09:00"] /\
  map (fun t => available_at_for [] (sample_summary t) "fins_summary" "2026-01-01T00:00:00+09:00") ["15:00"; "15:00:30"; "3 pm"; "25:00"]
    = [Ok "2025-04-04T15:00:00+09:00"; Ok "2025-04-04T15:00:30+09:00"; Ok "2026-01-01T00:00:00+09:00"; Ok "2025-04-04T25:00:00+09:00"] /\
  available_at_for [] [("PubDate", JStr "2025-04-04"); ("Section", JStr "TSEPrime")] "equities_investor_types" "2026-01-01T00:00:00+09:00"
    = Ok "2025-04-05T00:00:00+09:00" /\
  natural_key (sample_summary "") "fins_summary"
    = Ok ("{" +:+ dumps_str "Code" (":" +:+ dumps_str "86970" ("," +:+ dumps_str "DiscDate" (":" +:+ dumps_str "2025-04-04" ("," +:+ dumps_str "DiscNo" (":" +:+ dumps_str "1" "}")))))).
Proof. vm_compute. repeat split. Qed.

(** ** The canonical text of portable values *)

(** Texts of printable ASCII. *)
Fixpoint printable (s : string) : bool :=
  match s with EmptyString => true | String c s => (code c <? 127) && printable s end.

(** Values that Python and a browser write alike: no floats, safe integers, printable texts. *)
Fixpoint portable (j : json) : bool :=
  match j with
  | JNull | JBool _ => true
  | JInt n => Z.abs n <=? JS_SAFE_INTEGER
  | JFloat _ => false
  | JStr s => printable s
  | JList l => forallb portable l
  | JDict d => bool_decide (NoDup (map fst d)) && forallb (fun p => printable p.1 && portable p.2) d
  end.

Lemma printable_dumps s rest : printable s = true -> dumps_str_unicode s rest = dumps_str s rest.
Proof.
  unfold dumps_str_unicode, dumps_str. intros H. f_equal. induction s as [|c s IH]; [done|].
  simpl in H. apply andb_true_iff in H as [Hc Hs]. simpl. rewrite IH by done. unfold escape_unicode.
  apply Z.ltb_lt in Hc. rewrite (proj2 (Z.leb_gt 127 (code c))) by lia. done.
Qed.

Lemma join_texts (ws : list (string -> string)) (ts : list string) :
  Forall2 (fun w t => forall rest, w rest = t +:+ rest) ws ts -> forall rest,
  join_writers true ws rest = String.concat "," ts +:+ rest /\
  join_writers false ws rest = match ts with [] => rest | _ => String "," (String.concat "," ts +:+ rest) end.
Proof.
  intros H. induction H as [|w t ws ts Hw H IH]; intros rest; [done|]. cbn [join_writers]. rewrite Hw.
  destruct (IH rest) as [_ ->]. destruct ts as [|u ts]; [done|]. cbn [String.concat].
  split; [|f_equal]; by rewrite !string_app_app.
Qed.

Lemma portable_plain j : portable j = true -> plain j = true.
Proof.
  induction j as [|b|n|r|s|l IH|d IH] using json_ind'; try done; cbn [portable plain].
  - rewrite !forallb_forall. intros H x Hx. rewrite Forall_forall in IH. apply IH; [by apply list_elem_of_In|by apply H].
  - rewrite !andb_true_iff, !forallb_forall. intros [Hn H]. split; [done|]. intros p Hp. rewrite Forall_forall in IH.
    apply IH; [by apply list_elem_of_In|]. apply H in Hp. by apply andb_true_iff in Hp as [_ Hp].
Qed.

Lemma sequence_Ok {A} (f : A -> result string) (g : A -> string) l : Forall (fun x => f x = Ok (g x)) l ->
  mapR id (map f l) = Ok (map g l).
Proof. induction 1 as [|x l Hx _ IH]; [done|]. cbn [map mapR]. change (id (f x)) with (f x). rewrite Hx. cbn [mbind result_bind]. by rewrite IH. Qed.

(** Of a portable value the text is that of [json.dumps]. *)
Lemma identity_canonical j : portable j = true -> identity_json j = Ok (canonical_dumps j).
Proof.
  induction j as [|b|n|r|s|l IH|d IH] using json_ind'; intros Hp; try done.
  - cbn [identity_json portable] in *. unfold js_number, canonical_dumps. rewrite Hp. cbn [dumps_onto]. by rewrite string_app_nil_r.
  - cbn [identity_json portable] in *. by rewrite printable_dumps.
  - cbn [identity_json portable] in *. rewrite forallb_forall in Hp. rewrite (sequence_Ok identity_json canonical_dumps).
    + cbn [mbind result_bind]. unfold canonical_dumps at 2. cbn [dumps_onto]. f_equal. cbn. f_equal.
      destruct (join_texts (map dumps_onto l) (map canonical_dumps l)) with (rest := String "]" "") as [-> _]; [|done].
      apply Forall2_fmap, Forall_Forall2_diag, Forall_forall. intros x _ rest. apply dumps_onto_canonical.
    + rewrite Forall_forall in *. intros x Hx. apply IH; [done|]. by apply Hp, list_elem_of_In.
  - cbn [identity_json portable] in *. apply andb_true_iff in Hp as [_ Hp]. rewrite forallb_forall in Hp.
    rewrite (py_sorted_map (fun p => (p.1, identity_json p.2)) key_leb) by done. unfold canonical_dumps. rewrite dumps_dict.
    assert (Forall (fun p => identity_json p.2 = Ok (canonical_dumps p.2) /\ printable p.1 = true) (py_sorted key_leb d)) as Hd.
    { rewrite (py_sorted_perm key_leb d). rewrite Forall_forall in *. intros p Hin. specialize (Hp p ltac:(by apply list_elem_of_In)).
      apply andb_true_iff in Hp as [H1 H2]. split; [by apply IH|done]. }
    generalize dependent (py_sorted key_leb d). intros k Hk. clear -Hk.
    assert (mapR (fun p : string * result string => v ← p.2; Ok (dumps_str_unicode p.1 "" +:+ ":" +:+ v)) (map (fun p => (p.1, identity_json p.2)) k)
      = Ok (map (fun p => dumps_str p.1 "" +:+ ":" +:+ canonical_dumps p.2) k)) as ->.
    { induction Hk as [|p k [H1 H2] _ IH]; [done|]. cbn [map mapR fst snd]. rewrite H1. cbn [mbind result_bind]. rewrite IH.
      cbn [mbind result_bind]. by rewrite printable_dumps. }
    cbn [mbind result_bind]. cbn. f_equal. f_equal.
    destruct (join_texts (map (fun p => entry_writer (p.1, dumps_onto p.2)) k) (map (fun p => dumps_str p.1 "" +:+ ":" +:+ canonical_dumps p.2) k))
      with (rest := String "}" "") as [-> _]; [|done].
    apply Forall2_fmap, Forall_Forall2_diag, Forall_forall. intros p _ rest. unfold entry_writer. cbn [fst snd].
    rewrite dumps_onto_canonical, !dumps_str_app. by rewrite string_app_app.
Qed.

(** ** Dates by their shape *)

#[local] Ltac Zify.zify_post_hook ::= Z.div_mod_to_equations.

Lemma digit_val_Some c v : digit_val c = Some v -> c = digit v /\ 0 <= v <= 9.
Proof.
  unfold digit_val, digit. destruct (_ && _) eqn:E; [|done]. intros [= <-]. bools. split; [|lia].
  rewrite Zplus_minus, N2Z.id. by rewrite ascii_N_embedding.
Qed.

Lemma shape_digit p s : shape (String "d" p) s = true -> exists v t, s = String (digit v) t /\ 0 <= v <= 9 /\ shape p t = true.
Proof.
  destruct s as [|c t]; [done|]. cbn [shape]. rewrite bool_decide_eq_true_2 by done.
  intros [H Ht]%andb_true_iff. destruct (digit_val c) as [v|] eqn:E; [|done]. apply digit_val_Some in E as [-> Hv]. by exists v, t.
Qed.

Lemma shape_dash p s : shape (String "-" p) s = true -> exists t, s = String "-" t /\ shape p t = true.
Proof.
  destruct s as [|c t]; [done|]. cbn [shape]. rewrite bool_decide_eq_false_2 by done.
  intros [H Ht]%andb_true_iff. apply bool_decide_eq_true in H as ->. by exists t.
Qed.

Lemma digit_not_dash f s : 0 <= f <= 9 -> take_char "-" (String (digit f) s) = None.
Proof.
  intros Hf. assert (f = 0 \/ f = 1 \/ f = 2 \/ f = 3 \/ f = 4 \/ f = 5 \/ f = 6 \/ f = 7 \/ f = 8 \/ f = 9) as H by lia.
  clear Hf. by repeat (destruct H as [->|H]; [reflexivity|]); subst f.
Qed.

Lemma month_digits e f r m s t : 0 <= e <= 9 -> 0 <= f <= 9 ->
  strptime_month (String (digit e) (String (digit f) r)) = Some (m, s) -> take_char "-" s = Some t ->
  m = 10 * e + f /\ s = r.
Proof.
  intros He Hf. unfold strptime_month. rewrite !digit_val_digit by done. cbn [mbind option_bind].
  destruct (_ || _); [by intros [= <- <-]|]. destruct (1 <=? e); [|done]. intros [= _ <-]. by rewrite digit_not_dash.
Qed.

Lemma day_digits e f d s : 0 <= e <= 9 -> 0 <= f <= 9 ->
  strptime_day (String (digit e) (String (digit f) "")) = Some (d, s) -> s = "" -> d = 10 * e + f.
Proof.
  intros He Hf H ->. revert H. unfold strptime_day. assert (digit e <> " "%char) as Hs.
  { intros E. assert (is_space (digit e) = true) as H by by rewrite E. by rewrite digit_no_space in H. }
  destruct (digit e) as [[] [] [] [] [] [] [] []] eqn:E; try done.
  all: rewrite <- E, !digit_val_digit by done; cbn [mbind option_bind]; destruct (_ || _); [by intros [= <-]|]; by destruct (1 <=? e).
Qed.

Lemma parse_calendar_day_Ok s n : parse_calendar_day s = Ok n <-> is_day s n.
Proof.
  unfold parse_calendar_day, is_day. split.
  - intros H. binds H. ensures. apply on_error_Ok in H. unfold date_shape in E.
    repeat (apply shape_digit in E as (? & ? & -> & ? & E)); apply shape_dash in E as (? & -> & E).
    repeat (apply shape_digit in E as (? & ? & -> & ? & E)); apply shape_dash in E as (? & -> & E).
    repeat (apply shape_digit in E as (? & ? & -> & ? & E)). match type of E with shape "" ?t = true => destruct t; [|done] end.
    unfold strptime in H. apply bind_Ok in H as ([[y m] d] & Hp & H). apply mk_date_Ok in H as (-> & Hy & Hm & Hd & Hv).
    split; [done|]. unfold isoformat. rewrite Hy, Hm, Hd. unfold of_option in Hp. destruct (strptime_parts _ _) as [p|] eqn:E1; [|done].
    injection Hp as ->. unfold strptime_parts in E1. apply bind_Some in E1 as ([y' s1] & Ht & E1).
    cbn [take_digits] in Ht. rewrite !digit_val_digit in Ht by done. cbn [mbind option_bind] in Ht.
    injection Ht as <- <-.
    apply bind_Some in E1 as (s2 & Ht & E1). injection Ht as <-.
    apply bind_Some in E1 as ([m' s3] & Hmonth & E1). apply bind_Some in E1 as (s4 & Hdash & E1).
    destruct (fun He Hf => month_digits _ _ _ _ _ _ He Hf Hmonth Hdash) as [-> ->]; [done|done|]. injection Hdash as <-.
    apply bind_Some in E1 as ([d' s5] & Hday & E1). case_bool_decide; [|done]. injection E1 as <- <- <-.
    rewrite (fun He Hf => day_digits _ _ _ _ He Hf Hday) by done. clear -H0 H1 H2 H3 H4 H5 H6 H7.
    unfold pad4, pad2.
    repeat (apply (f_equal2 String); [first [reflexivity|f_equal; lia]|]). reflexivity.
  - intros [Hv ->]. rewrite strptime_isoformat by done. rewrite ensure_true; [done|].
    destruct (valid_parts n Hv) as (Hy & Hm & Hd). unfold date_shape, isoformat, pad4, pad2.
    repeat match goal with
    | |- context [String ?c ?s +:+ ?t] => change (String c s +:+ t) with (String c (s +:+ t))
    | |- context [EmptyString +:+ ?t] => change (EmptyString +:+ t) with t
    end.
    cbn [shape]. rewrite !digit_val_digit by lia. done.
Qed.

(** ** What an availability rests on *)

Lemma seconds_text_at n k : 0 <= k < 86400 -> seconds_text (n * day_micros + k * 1000000) =
  isoformat n +:+ "T" +:+ pad2 (k / 3600) +:+ ":" +:+ pad2 (k / 60 mod 60) +:+ ":" +:+ pad2 (k mod 60).
Proof.
  intros Hk. unfold seconds_text. cbv zeta.
  assert (dt_date (n * day_micros + k * 1000000) = n) as -> by (unfold dt_date, day_micros; lia).
  by assert ((n * day_micros + k * 1000000) mod day_micros / 1000000 = k) as -> by (unfold day_micros; lia).
Qed.

Lemma to_iso_at n k : 0 <= k < 86400 -> to_iso (n * day_micros + k * 1000000) =
  isoformat n +:+ "T" +:+ (pad2 (k / 3600) +:+ ":" +:+ pad2 (k / 60 mod 60) +:+ ":" +:+ pad2 (k mod 60)) +:+ "+09:00".
Proof. intros Hk. unfold to_iso. rewrite seconds_text_at by done. by rewrite !string_app_app. Qed.

(** The close of a session, in seconds of the day. *)
Definition close_second (session : option string) (n : date) : Z :=
  if bool_decide (session = Some "morning") then 41400 else if n <? ymd2ord 2024 11 5 then 54000 else 55800.

Definition session_close (session : option string) (n : date) : datetime := n * day_micros + close_second session n * 1000000.

Lemma session_close_spec day session t : session_close_jst day session = Ok t <->
  exists n, is_day day n /\ t = to_iso (session_close session n).
Proof.
  assert (forall n, is_day day n -> day +:+ "T" +:+ (if bool_decide (session = Some "morning") then "11:30:00"
      else if String.ltb day "2024-11-05" then "15:00:00" else "15:30:00") +:+ "+09:00" = to_iso (session_close session n)) as Ht.
  { intros n Hn. assert (is_day "2024-11-05" (ymd2ord 2024 11 5)) as Hm by (split; vm_compute; reflexivity).
    rewrite (is_day_ltb _ _ _ _ Hn Hm). unfold session_close, close_second. destruct Hn as [_ ->].
    case_bool_decide; [|destruct (_ <? _)]; rewrite to_iso_at by lia; reflexivity. }
  unfold session_close_jst. split.
  - intros H. apply bind_Ok in H as (n & Hn & H). apply parse_calendar_day_Ok in Hn. exists n. split; [done|].
    injection H as <-. by apply Ht.
  - intros (n & Hn & ->). rewrite (proj2 (parse_calendar_day_Ok day n) Hn). cbn [mbind result_bind]. by rewrite (Ht n).
Qed.

Lemma date_start_spec v t : date_start v = Some t -> exists day n, v = Some (JStr day) /\ is_day day n /\ t = to_iso (n * day_micros).
Proof.
  unfold date_start. destruct v as [[| | | |day| |]|]; try done. destruct (parse_calendar_day day) as [n|] eqn:E; [|done].
  apply parse_calendar_day_Ok in E. intros [= <-]. exists day, n. split_and!; [done|done|]. destruct E as [_ ->].
  replace (n * day_micros) with (n * day_micros + 0 * 1000000) by lia. by rewrite to_iso_at by lia.
Qed.

(** From the year 1000 on the text is that of the midnight. *)
Lemma midnight_iso n : valid_date n = true -> 1000 <= year_of n -> midnight_text n = to_iso (n * day_micros).
Proof.
  intros Hv Hy. replace (n * day_micros) with (n * day_micros + 0 * 1000000) by lia. rewrite to_iso_at by lia.
  unfold midnight_text, strftime_ym, isoformat. assert (show_Z (year_of n) = pad4 (year_of n)) as ->.
  { apply year_of_valid in Hv. unfold show_Z. rewrite (proj2 (Z.ltb_ge (year_of n) 0)) by lia. unfold show_nonneg.
    generalize dependent (year_of n). intros y Hv Hy. unfold pad4.
    assert (exists f, S (Z.to_nat (Z.log2 y)) = S (S (S (S f)))) as (f & ->).
    { assert (9 <= Z.log2 y) by (change 9 with (Z.log2 512); apply Z.log2_le_mono; lia).
      exists (Z.to_nat (Z.log2 y) - 3)%nat. lia. }
    cbn [digits_onto]. rewrite (proj2 (Z.ltb_ge y 10)), (proj2 (Z.ltb_ge (y / 10) 10)), (proj2 (Z.ltb_ge (y / 10 / 10) 10)) by lia.
    rewrite (proj2 (Z.ltb_lt (y / 10 / 10 / 10) 10)) by lia.
    repeat (apply (f_equal2 String); [f_equal; lia|]). reflexivity. }
  by rewrite !string_app_app.
Qed.

(** What can date the availability of a row of the contract. *)
Inductive availability_evidence (c : DatasetContract) (r : row) : string -> Prop :=
  | known_at_close field n :
      dc_available_at_policy c = "session_close" -> pick_value r c field = Some (JStr (isoformat n)) -> valid_date n = true ->
      availability_evidence c r (to_iso (session_close (dc_session c) n))
  | stated_instant field fields text :
      dc_available_at_policy c ∈ ["explicit_timestamp_field"; "explicit_disclosure_date"] ->
      availability_fields c = field :: fields -> pick_value r c field = Some (JStr text) ->
      has_char "T" text || has_char " " text = true -> availability_evidence c r text
  | stated_date_and_clock field field' fields n text clock :
      dc_available_at_policy c ∈ ["explicit_timestamp_field"; "explicit_disclosure_date"] ->
      availability_fields c = field :: field' :: fields ->
      pick_value r c field = Some (JStr (isoformat n)) -> valid_date n = true ->
      pick_value r c field' = Some (JStr text) -> clock = text \/ clock = text +:+ ":00" -> clock_shape clock = true ->
      availability_evidence c r (isoformat n +:+ "T" +:+ clock +:+ "+09:00")
  | day_after_disclosure field fields n :
      dc_available_at_policy c = "explicit_disclosure_date" -> availability_fields c = field :: fields ->
      pick_value r c field = Some (JStr (isoformat n)) -> valid_date (n + 1) = true -> 1 <= n ->
      availability_evidence c r (midnight_text (n + 1)).

Lemma timestamp_evidence r c text : dc_available_at_policy c ∈ ["explicit_timestamp_field"; "explicit_disclosure_date"] ->
  timestamp_from_fields r c (availability_fields c) = Some text -> availability_evidence c r text.
Proof.
  intros Hp H. unfold timestamp_from_fields in H. destruct (availability_fields c) as [|field fields] eqn:Ef; [done|].
  destruct (pick_value r c field) as [[| | | |first| |]|] eqn:E1; try done. destruct (_ || _) eqn:Ei.
  - injection H as <-. by eapply stated_instant.
  - destruct fields as [|field' fields]; [done|]. destruct (pick_value r c field') as [[| | | |second| |]|] eqn:E2; try done.
    destruct (parse_calendar_day first) as [n|] eqn:Ed; [|done]. cbn [is_Ok] in H. cbv zeta in H.
    assert (exists clock, (clock = second \/ clock = second +:+ ":00") /\
      (if clock_shape clock then Some (first +:+ "T" +:+ clock +:+ "+09:00") else None) = Some text) as (clock & Hcl & Ht).
    { destruct (shape "dd:dd" second); [by exists (second +:+ ":00"); split; [right|]|by exists second; split; [left|]]. }
    destruct (clock_shape clock) eqn:Ec; [|done]. injection Ht as <-. apply parse_calendar_day_Ok in Ed as [Hv ->].
    by eapply stated_date_and_clock.
Qed.

Lemma contract_listed id c : contract_for id = Ok c -> c ∈ all_contracts.
Proof.
  unfold contract_for, of_option, all_contracts. generalize CONTRACTS. intros l. destruct (lookup_str id l) as [c'|] eqn:E; [|done].
  intros [= ->]. induction l as [|[k v] l IH]; [done|]. simpl in E |- *. destruct (bool_decide (id = k)); [injection E as ->; by left|]. right. by apply IH.
Qed.

(** What can be checked contract by contract. *)
Lemma every_contract (p : DatasetContract -> bool) id c : forallb p all_contracts = true -> contract_for id = Ok c -> p c = true.
Proof. rewrite forallb_forall. intros H Hc%contract_listed. by apply H, list_elem_of_In. Qed.

Lemma no_publication_lags id c : contract_for id = Ok c -> dc_available_at_policy c <> "known_publication_lag".
Proof.
  intros H. apply (every_contract (fun c => negb (dc_available_at_policy c =s "known_publication_lag"))) in H; [|vm_compute; reflexivity].
  by bools.
Qed.

(** Claim C7. A row is never available before its evidence.  The availability of a row of a premium
    dataset is the time of its ingestion unless the contract's fields of the row date it: the close of
    the session of the row's day, an instant the row states, its date with its clock, or the midnight
    after its day of disclosure; and a row of a session whose day is a calendar date is available at the
    close of that session, the exchange's later close from 2024-11-05 on. *)
Theorem available_on_evidence caps r id c ingested_at available : contract_for id = Ok c ->
  available_at_for caps r id ingested_at = Ok available ->
  (available = ingested_at \/ availability_evidence c r available) /\
  forall day n, dc_available_at_policy c = "session_close" -> dc_availability_field c = Some day -> day <> "" ->
    pick_value r c day = Some (JStr (isoformat n)) -> valid_date n = true -> available = to_iso (session_close (dc_session c) n).
Proof.
  intros Hc H. pose proof (no_publication_lags id c Hc) as Hlag. unfold available_at_for in H. rewrite Hc in H. cbn [mbind result_bind] in H.
  split.
  - destruct (_ && _); [injection H as <-; by left|]. apply bind_Ok in H as ([t|] & Hi & H); injection H as <-; [|by left].
    right. unfold policy_instant in Hi. cbv zeta in Hi. case_bool_decide as E1.
    + destruct (pick_value _ _ _) as [[| | | |day| |]|] eqn:Ep in Hi; try done. destruct (session_close_jst day _) as [u|] eqn:Es in Hi; [|done].
      injection Hi as ->. apply session_close_spec in Es as (n & [Hv ->] & ->). by eapply known_at_close.
    + case_bool_decide as E2; [injection Hi as Hi; apply timestamp_evidence; [rewrite E2; by left|done]|].
      case_bool_decide as E3; [|case_bool_decide; done]. unfold disclosure_available_at in Hi.
      destruct (availability_fields c) as [|field fields] eqn:Ef; [done|].
      destruct (timestamp_from_fields r c (field :: fields)) as [u|] eqn:Et.
      * injection Hi as ->. apply timestamp_evidence; [rewrite E3; right; by left|by rewrite Ef].
      * destruct (pick_value r c field) as [[| | | |s| |]|] eqn:Ep; try done. destruct (parse_calendar_day s) as [d|] eqn:Ed; [|done].
        apply bind_Ok in Hi as (d' & Hd & Hi). injection Hi as <-. unfold date_add in Hd. destruct (valid_date (d + 1)) eqn:Hv; [|done].
        injection Hd as <-. apply parse_calendar_day_Ok in Ed as [Hvd ->]. eapply day_after_disclosure; try done.
        unfold valid_date in Hvd. bools. lia.
  - intros day n Hp Hf Hday Hpick Hv. rewrite Hp in H.
    change ("session_close" ∈? ["ingest_time_conservative"; "calendar_prepublished"]) with false in H. rewrite andb_false_r in H.
    unfold policy_instant in H. rewrite Hp, Hf in H. rewrite bool_decide_eq_true_2 in H by done. cbv zeta in H.
    rewrite bool_decide_eq_false_2 in H by done. rewrite Hpick in H.
    rewrite (proj2 (session_close_spec (isoformat n) (dc_session c) _)) in H by (exists n; split; [by split|reflexivity]).
    cbn [mbind result_bind default] in H. by injection H as <-.
Qed.

(** The registry of source capabilities, which the availability is said to depend on,
    does not matter to it: the policies for which it is consulted keep the time of ingestion anyway. *)
Theorem capabilities_without_effect caps caps' r id ingested_at :
  available_at_for caps r id ingested_at = available_at_for caps' r id ingested_at.
Proof.
  unfold available_at_for. destruct (contract_for id) as [c|]; [|done]. cbn [mbind result_bind].
  destruct (decide (dc_available_at_policy c ∈ ["ingest_time_conservative"; "calendar_prepublished"])) as [Hp|Hp].
  - assert (policy_instant r c = Ok None) as ->.
    { unfold policy_instant. cbv zeta. apply elem_of_cons in Hp as [Hp|Hp%list_elem_of_singleton]; by rewrite Hp. }
    cbn [mbind result_bind default]. by repeat destruct (_ && _).
  - rewrite (bool_decide_eq_false_2 _ Hp), !andb_false_r. done.
Qed.

(** ** What a key identifies *)

Definition key_field_value (r : row) (c : DatasetContract) (field : string) : json := default JNull (pick_value r c field).

(** The field of the key has a value, or an explicit null where the contract allows it. *)
Definition governed_field (r : row) (c : DatasetContract) (field : string) : bool := present (pick_value r c field) || explicit_null r c field.

Lemma pick_field_Ok r c picked field : pick_field r c picked field =
  if governed_field r c field then Ok (dict_set field (key_field_value r c field) picked)
  else raise ValueError "governed natural-key field is absent; structured product is rejected".
Proof. unfold pick_field, governed_field, key_field_value. destruct (pick_value r c field); [done|]. cbn [present orb]. by destruct (explicit_null r c field). Qed.

Lemma key_fields_spec r c fields : forall picked, NoDup (map fst picked ++ fields) ->
  foldR (pick_field r c) picked fields =
    if forallb (governed_field r c) fields then Ok (picked ++ map (fun k => (k, key_field_value r c k)) fields)
    else raise ValueError "governed natural-key field is absent; structured product is rejected".
Proof.
  induction fields as [|k fields IH]; intros picked Hn; [by rewrite app_nil_r|]. cbn [foldR forallb]. rewrite pick_field_Ok.
  destruct (governed_field r c k); [|done]. cbn [mbind result_bind andb]. rewrite dict_set_fresh.
  - rewrite IH; [by rewrite <- app_assoc|]. rewrite map_app, <- app_assoc. done.
  - apply NoDup_app in Hn as (_ & Hd & _). intros Hin. apply (Hd k Hin). by left.
Qed.

Definition scalar_value (j : json) : bool := match j with JList _ | JDict _ => false | _ => true end.

Lemma scalar_canon (d : row) : forallb (fun p => scalar_value p.2) d = true -> canon (JDict d) = JDict (py_sorted key_leb d).
Proof.
  intros H. rewrite canon_dict. f_equal. transitivity (map id (py_sorted key_leb d)); [|by rewrite map_id].
  apply map_ext_in. intros [k v] Hin. apply list_elem_of_In, elem_of_py_sorted, list_elem_of_In in Hin.
  rewrite forallb_forall in H. specialize (H _ Hin). by destruct v.
Qed.

(** Dicts with the same distinct keys in the same order are equal when they have the same members. *)
Lemma same_key_order (d d' : row) : NoDup (map fst d) -> map fst d = map fst d' -> d ≡ₚ d' -> d = d'.
Proof.
  intros Hn Hk Hp. apply list_eq. intros i. destruct (d !! i) as [[k v]|] eqn:E.
  - assert (exists v', d' !! i = Some (k, v')) as (v' & E').
    { assert (map fst d !! i = Some k) as Hi by (rewrite list_lookup_fmap, E; done). rewrite Hk, list_lookup_fmap in Hi.
      apply fmap_Some in Hi as ([k' v'] & H' & ->). by exists v'. }
    rewrite E'. do 2 f_equal. assert ((k, v') ∈ d) as Hin by (rewrite Hp; by apply list_elem_of_lookup_2 in E').
    apply list_elem_of_lookup in Hin as (j & Hj). assert (i = j) as ->; [|congruence].
    apply (NoDup_lookup _ i j k Hn); by rewrite list_lookup_fmap, ?E, ?Hj.
  - apply lookup_ge_None in E. symmetry. apply lookup_ge_None. by rewrite <- (length_map fst d'), <- Hk, length_map.
Qed.

Definition key_row (r : row) (c : DatasetContract) : row := map (fun k => (k, key_field_value r c k)) (dc_natural_key_fields c).

Definition plain_names (c : DatasetContract) : bool :=
  bool_decide (NoDup (dc_natural_key_fields c)) && forallb printable (dc_natural_key_fields c).

Lemma names_plain id c : contract_for id = Ok c -> plain_names c = true.
Proof. apply every_contract. vm_compute. reflexivity. Qed.

(** The values of the key are scalars that Python and a browser write alike. *)
Definition plain_key (r : row) (c : DatasetContract) : Prop :=
  forall k, k ∈ dc_natural_key_fields c -> scalar_value (key_field_value r c k) && portable (key_field_value r c k) = true.

Lemma key_row_portable id r c : contract_for id = Ok c -> plain_key r c ->
  portable (JDict (key_row r c)) = true /\ forallb (fun p => scalar_value p.2) (key_row r c) = true /\ NoDup (map fst (key_row r c)).
Proof.
  intros Hc Hk. pose proof (names_plain id c Hc) as [Hn Hp]%andb_true_iff. apply bool_decide_eq_true in Hn. rewrite forallb_forall in Hp.
  assert (map fst (key_row r c) = dc_natural_key_fields c) as Hf by (unfold key_row; rewrite map_map; apply map_id).
  split_and!; [|apply forallb_forall|by rewrite Hf].
  - cbn [portable]. rewrite Hf, bool_decide_eq_true_2 by done. apply forallb_forall.
    intros p (k & <- & Hin)%in_map_iff. cbn [fst snd]. rewrite (Hp k Hin). apply list_elem_of_In, Hk in Hin. by apply andb_true_iff in Hin as [_ ->].
  - intros p (k & <- & Hin)%in_map_iff. apply list_elem_of_In, Hk in Hin. cbn [snd]. by apply andb_true_iff in Hin as [? _].
Qed.

Lemma natural_key_fields_spec r id c : contract_for id = Ok c -> natural_key_fields r id =
  if forallb (governed_field r c) (dc_natural_key_fields c) then Ok (key_row r c)
  else raise ValueError "governed natural-key field is absent; structured product is rejected".
Proof.
  intros Hc. unfold natural_key_fields. rewrite Hc. cbn [mbind result_bind]. unfold contract_key_fields. rewrite key_fields_spec; [done|].
  pose proof (names_plain id c Hc) as [Hn _]%andb_true_iff. by apply bool_decide_eq_true in Hn.
Qed.

(** Claim C23. The key of a row is all or nothing and identifies it.  A row without a field of its
    contract's key is refused, for every dataset with a contract; for two rows that are not and whose key
    fields are scalars other than floats, with integers up to 2^53 - 1 and texts of printable ASCII, the keys are
    equal exactly when every field of the key has the same value, under whichever of its names each row has it. *)
Theorem key_identifies id c r r' : contract_for id = Ok c ->
  (forallb (governed_field r c) (dc_natural_key_fields c) = false ->
    natural_key r id = raise ValueError "governed natural-key field is absent; structured product is rejected") /\
  (plain_key r c -> plain_key r' c ->
    forallb (governed_field r c) (dc_natural_key_fields c) = true -> forallb (governed_field r' c) (dc_natural_key_fields c) = true ->
    is_Ok (natural_key r id) = true /\
    (natural_key r id = natural_key r' id <-> forall k, k ∈ dc_natural_key_fields c -> key_field_value r c k = key_field_value r' c k)).
Proof.
  intros Hc. unfold natural_key. rewrite !(natural_key_fields_spec _ id c Hc). split; [by intros ->|]. intros Hk Hk' -> ->.
  destruct (key_row_portable id r c Hc Hk) as (Hp & Hs & Hn), (key_row_portable id r' c Hc Hk') as (Hp' & Hs' & _).
  cbn [mbind result_bind]. rewrite !identity_canonical by done. split; [done|]. split.
  - intros E. apply (f_equal (ok_or "")) in E. unfold ok_or in E.
    apply canonical_dumps_canon_inj in E; [|by apply portable_plain..]. rewrite !scalar_canon in E by done. injection E as E.
    assert (key_row r c = key_row r' c) as Hrow.
    { apply same_key_order; [done|unfold key_row; by rewrite !map_map|]. by rewrite <- (py_sorted_perm key_leb (key_row r c)), E, py_sorted_perm. }
    intros k (i & Hi)%list_elem_of_lookup. apply (f_equal (lookup i)) in Hrow. unfold key_row in Hrow.
    rewrite !list_lookup_fmap, Hi in Hrow. by injection Hrow.
  - intros H. do 3 f_equal. unfold key_row. apply map_ext_in. intros k Hin. f_equal. by apply H, list_elem_of_In.
Qed.

(** ** Samples *)

Definition summary_contract : DatasetContract := Eval vm_compute in ok_or (mkDatasetContract "" "" "" "" [] [] "" [] "" None None "" "" "" [] false None None [] "") (contract_for "fins_summary").

Definition other_summary : row :=
  [("DiscNo", JStr "1"); ("DiscDate", JStr "2025-04-04"); ("DiscTime", JStr "15:00"); ("code", JStr "86970"); ("Sales", JFloat "1e+21")].

Lemma available_on_evidence_witness : availability_evidence summary_contract (sample_summary "15:00") "2025-04-04T15:00:00+09:00".
Proof.
  destruct (available_on_evidence [] (sample_summary "15:00") "fins_summary" summary_contract "2026-01-01T00:00:00+09:00"
    "2025-04-04T15:00:00+09:00") as [[H|H] _].
  - vm_compute. reflexivity.
  - vm_compute. reflexivity.
  - discriminate H.
  - exact H.
Defined.

Lemma key_identifies_witness : natural_key (sample_summary "15:00") "fins_summary" = natural_key other_summary "fins_summary".
Proof.
  assert (forall r k, k ∈ ["Code"; "DiscDate"; "DiscNo"] -> forallb (fun k => scalar_value (key_field_value r summary_contract k) && portable (key_field_value r summary_contract k))
    ["Code"; "DiscDate"; "DiscNo"] = true -> scalar_value (key_field_value r summary_contract k) && portable (key_field_value r summary_contract k) = true) as Hall.
  { intros r k Hk H. rewrite forallb_forall in H. apply H. by apply list_elem_of_In. }
  destruct (key_identifies "fins_summary" summary_contract (sample_summary "15:00") other_summary) as [_ H].
  - vm_compute. reflexivity.
  - apply H.
    + intros k Hk. apply (Hall (sample_summary "15:00") k Hk). vm_compute. reflexivity.
    + intros k Hk. apply (Hall other_summary k Hk). vm_compute. reflexivity.
    + vm_compute. reflexivity.
    + vm_compute. reflexivity.
    + intros k Hk. repeat (apply elem_of_cons in Hk as [->|Hk]; [vm_compute; reflexivity|]). by apply elem_of_nil in Hk.
Defined.
