(* ===== verification/Normalize.v ===== *)
(** * Normalize: payloads as rows with their times
    (packages/data_plane/ingestion/jquants/normalize.py)

    A row of a response becomes a row of a table: the columns of the table under whichever
    name the payload has them, the key, the payload itself, and the three times on which reads as of
    an instant rest.  The times come from the contract of the dataset and the caller, never from
    a column of the payload that has the name of one. *)

From S2P Require Import Prelude PyDate PyTime JstTime Json JsonText Utf8 SourceCapability RateLimit JQuantsClient DatasetContract DatasetIdentity.

Local Open Scope Z_scope.

Definition CLOSE_CHANGE_DATE : string := "2024-11-05".

(** [json.dumps(v, ensure_ascii=False)] with the default separators. *)
Fixpoint raw_dumps (j : json) : string :=
  match j with
  | JNull => "null"
  | JBool b => if b then "true" else "false"
  | JInt n => show_Z n
  | JFloat r => if r =s "nan" then "NaN" else if r =s "inf" then "Infinity" else if r =s "-inf" then "-Infinity" else r
  | JStr s => dumps_str_unicode s EmptyString
  | JList l => "[" +:+ String.concat ", " (map raw_dumps l) +:+ "]"
  | JDict d => "{" +:+ String.concat ", " (map (fun p => dumps_str_unicode p.1 EmptyString +:+ ": " +:+ raw_dumps p.2) d) +:+ "}"
  end.

(** [_pick] over names. *)
Definition pick_any (r : row) (names : list string) : json := default JNull (first_filled r names).

(** [_s] *)
Definition text_of (x : json) : option string :=
  match x with
  | JNull => None
  | _ => let s := strip (py_str x) in if s =s "" then None else Some s
  end.

Definition pick_str (r : row) (names : list string) : option string := text_of (pick_any r names).

Definition json_of_text (o : option string) : json := match o with Some s => JStr s | None => JNull end.

Definition pick_column (r : row) (names : list string) : json := json_of_text (pick_str r names).

(** [a or b] of an optional text and a text. *)
Definition or_text (o : option string) (s : string) : string :=
  match o with Some t => if t =s "" then s else t | None => s end.

(** [_close_event_time] *)
Definition close_event_time (date_str : string) : result string :=
  let d := str_take 10 date_str in
  let hhmmss := if String.leb CLOSE_CHANGE_DATE d then "15:30:00" else "15:00:00" in
  t ← parse_dt (d +:+ "T" +:+ hhmmss);
  Ok (to_iso t).

Definition bar_columns : list (string * list string) :=
  [("open", ["Open"; "O"]); ("high", ["High"; "H"]); ("low", ["Low"; "L"]); ("close", ["Close"; "C"]);
   ("volume", ["Volume"; "Vo"]); ("turnover_value", ["TurnoverValue"; "Va"]);
   ("market_cap", ["MarketCapitalization"; "MarketCap"; "MktCap"]);
   ("adjustment_open", ["AdjustmentOpen"; "AdjOpen"; "AdjO"]);
   ("adjustment_high", ["AdjustmentHigh"; "AdjHigh"; "AdjH"]);
   ("adjustment_low", ["AdjustmentLow"; "AdjLow"; "AdjL"]);
   ("adjustment_close", ["AdjustmentClose"; "AdjClose"; "AdjC"]);
   ("adjustment_volume", ["AdjustmentVolume"; "AdjVolume"; "AdjVo"])].

Definition listing_columns : list (string * list string) :=
  [("company_name", ["CompanyName"; "CoName"]);
   ("company_name_en", ["CompanyNameEnglish"; "CoNameEnglish"; "CoNameEn"]);
   ("sector_17_code", ["Sector17Code"; "Sec17Code"; "S17"]);
   ("sector_17_name", ["Sector17CodeName"; "Sec17CodeName"; "S17Nm"]);
   ("sector_33_code", ["Sector33Code"; "Sec33Code"; "S33"]);
   ("sector_33_name", ["Sector33CodeName"; "Sec33CodeName"; "S33Nm"]);
   ("scale_category", ["ScaleCategory"; "ScaleCat"]);
   ("market_code", ["MarketCode"; "MktCode"; "Mkt"]);
   ("market_name", ["MarketCodeName"; "MktCodeName"; "MktNm"]);
   ("listing_date", ["ListingDate"; "ListDate"])].

(** The fields of the keys of the add-ons. *)
Definition addon_keys : list (string * list string) :=
  [("equities_bars_minute", ["Code"; "Date"; "DateTime"; "Time"]); ("equities_trades", ["Code"; "Date"; "DateTime"]);
   ("td_list", ["DiscDate"; "DiscNo"]); ("td_files", ["DiscDate"; "DiscNo"]); ("td_bulk", ["DiscDate"; "DiscNo"])].

Definition key_fields (dataset : string) : result (list string) :=
  _ ← catalog_get dataset;
  match lookup_str dataset CONTRACTS with
  | Some c => Ok (dc_natural_key_fields c)
  | None => Ok (default [] (lookup_str dataset addon_keys))
  end.

Definition DATE_FIELDS : list string := ["DisclosedDate"; "AnnouncementDate"; "DisclosureDate"; "Date"].

(** [t.strftime("%H:%M")] *)
Definition minute_text (t : datetime) : string :=
  let s := t mod day_micros / 1000000 in pad2 (s / 3600) +:+ ":" +:+ pad2 (s / 60 mod 60).

(** [try: return Some(f) except ValueError: pass] *)
Definition unless_value_error {A} (r : result A) : result (option A) :=
  match r with
  | Ok a => Ok (Some a)
  | Err e => if decide (exn_kind e = ValueError) then Ok None else Err e
  end.

(** [_canonical_minute_time] *)
Definition canonical_minute_time (r : row) : result (option string) :=
  let dt := pick_any r ["DateTime"; "datetime"] in
  stamped ← (if truthy dt then unless_value_error (parse_dt (py_str dt)) else Ok None);
  match stamped with
  | Some t => Ok (Some (minute_text t))
  | None => Ok (match pick_str r ["Time"; "time"] with Some t => Some (str_take 5 t) | None => None end)
  end.

(** [del nk["DateTime"]], when it is there. *)
Definition pop_key (k : string) (d : row) : row := filter (fun p => p.1 <> k) d.

Definition addon_key_fields (r : row) (fields : list string) : row :=
  fold_left (fun nk f => match first_filled r [f; lower f] with Some v => dict_set f v nk | None => nk end) fields [].

Definition fold_minute (r : row) (nk : row) : result row :=
  t ← canonical_minute_time r;
  Ok (match t with Some t => pop_key "DateTime" (dict_set "Time" (JStr t) nk) | None => nk end).

(** [_natural_key] *)
Definition record_key (r : row) (fields : list string) (dataset : string) : result string :=
  if is_premium_core dataset then natural_key r dataset
  else
    let nk := addon_key_fields r fields in
    nk ← (if dataset =s "equities_bars_minute" then fold_minute r nk else Ok nk);
    match nk with
    | [] => sha256_fallback r
    | _ => identity_json (JDict nk)
    end.

(** The first date field that can be read, at nine o'clock. *)
Fixpoint first_date_time (r : row) (fields : list string) : result (option string) :=
  match fields with
  | [] => Ok None
  | f :: fields =>
      match pick_str r [f] with
      | Some v =>
          t ← unless_value_error (parse_dt (str_take 10 v +:+ "T09:00:00"));
          match t with Some t => Ok (Some (to_iso t)) | None => first_date_time r fields end
      | None => first_date_time r fields
      end
  end.

(** [_event_time_for] *)
Definition record_event_time (r : row) (dataset : string) : result (option string) :=
  if is_premium_core dataset then event_time_for r dataset
  else
    let dt := pick_any r ["DateTime"; "datetime"] in
    stamped ← (if truthy dt then unless_value_error (parse_dt (py_str dt)) else Ok None);
    match stamped with
    | Some t => Ok (Some (to_iso t))
    | None => first_date_time r DATE_FIELDS
    end.

Section Normalize.
Variable capabilities : registry.
(** [float(x)] *)
Variable to_float : json -> result json.

(** [_num] *)
Definition number_of (x : json) : result json :=
  if filled x then
    match to_float x with
    | Ok v => Ok v
    | Err e => if bool_decide (exn_kind e ∈ [TypeError; ValueError]) then Ok JNull else Err e
    end
  else Ok JNull.

Definition normalize_bar (ingested_at : string) (available_at : option string) (r : row) : result (option row) :=
  match pick_str r ["Date"] with
  | None => Ok None
  | Some d =>
      let d := str_take 10 d in
      closed ← unless_value_error (close_event_time d);
      event ← match closed with Some et => Ok et | None => t ← parse_dt d; Ok (to_iso t) end;
      available ← match available_at with
                  | Some a => if a =s "" then available_at_for capabilities r "equities_bars_daily" ingested_at else Ok a
                  | None => available_at_for capabilities r "equities_bars_daily" ingested_at
                  end;
      numbers ← mapR (fun p => v ← number_of (pick_any r p.2); Ok (p.1, v)) bar_columns;
      Ok (Some ([("source", JStr "jquants"); ("code", pick_column r ["Code"]); ("date", JStr d); ("event_time", JStr event);
                 ("available_at", JStr available); ("ingested_at", JStr ingested_at)] ++ numbers ++
                [("raw_payload", JStr (raw_dumps (JDict r)))]))
  end.

(** The rows that are not skipped. *)
Definition kept_rows {A} (l : list (option A)) : list A := omap id l.

Definition normalize_daily_bars (rows : list row) (ingested_at : string) (available_at : option string) : result (list row) :=
  out ← mapR (normalize_bar ingested_at available_at) rows; Ok (kept_rows out).

Definition normalize_listing (ingested_at sd : string) (available_at : option string) (r : row) : result row :=
  let identity_row := if truthy (pick_any r ["Date"]) then r else dict_set "Date" (JStr sd) r in
  event ← event_time_for identity_row "equities_master";
  available ← match available_at with
              | Some a => if a =s "" then available_at_for capabilities identity_row "equities_master" ingested_at else Ok a
              | None => available_at_for capabilities identity_row "equities_master" ingested_at
              end;
  Ok ([("source", JStr "jquants"); ("code", pick_column r ["Code"]); ("snapshot_date", JStr sd);
       ("event_time", JStr (or_text event ingested_at)); ("available_at", JStr available); ("ingested_at", JStr ingested_at)] ++
      map (fun p => (p.1, pick_column r p.2)) listing_columns ++ [("raw_payload", JStr (raw_dumps (JDict r)))]).

Definition normalize_listed_info (rows : list row) (ingested_at snapshot_date : string) (available_at : option string)
    : result (list row) :=
  mapR (normalize_listing ingested_at (str_take 10 snapshot_date) available_at) rows.

Definition normalize_calendar_day (ingested_at : string) (available_at : option string) (r : row) : result (option row) :=
  match pick_str r ["Date"] with
  | None => Ok None
  | Some d =>
      event ← event_time_for r "markets_calendar";
      available ← match available_at with
                  | Some a => if a =s "" then available_at_for capabilities r "markets_calendar" ingested_at else Ok a
                  | None => available_at_for capabilities r "markets_calendar" ingested_at
                  end;
      Ok (Some [("source", JStr "jquants"); ("date", JStr (str_take 10 d)); ("event_time", JStr (or_text event ingested_at));
                ("available_at", JStr available); ("ingested_at", JStr ingested_at);
                ("holiday_division", pick_column r ["HolidayDivision"; "HolDiv"]); ("raw_payload", JStr (raw_dumps (JDict r)))])
  end.

Definition normalize_market_calendar (rows : list row) (ingested_at : string) (available_at : option string) : result (list row) :=
  out ← mapR (normalize_calendar_day ingested_at available_at) rows; Ok (kept_rows out).

(** The times and the key of a record. *)
Record metadata := mkMetadata { md_available_at : string; md_event_time : string; md_natural_key : string }.

Definition record_metadata (dataset ingested_at : string) (available_at : option string) (fields : list string) (r : row)
    : result metadata :=
  available ← match available_at with
              | Some a => Ok a
              | None => if is_premium_core dataset then available_at_for capabilities r dataset ingested_at else Ok ingested_at
              end;
  event ← record_event_time r dataset;
  key ← record_key r fields dataset;
  Ok (mkMetadata available (or_text event available) key).

Definition normalize_record (dataset ingested_at : string) (available_at : option string) (fields : list string) (r : row)
    : result row :=
  md ← record_metadata dataset ingested_at available_at fields r;
  payload ← identity_json (JDict r);
  Ok [("source", JStr "jquants"); ("dataset", JStr dataset); ("natural_key", JStr (md_natural_key md));
      ("event_time", JStr (md_event_time md)); ("available_at", JStr (md_available_at md)); ("ingested_at", JStr ingested_at);
      ("payload", JStr payload); ("raw_payload", JStr (raw_dumps (JDict r)))].

(** What is not a dict is skipped. *)
Definition normalize_generic (rows : list json) (dataset ingested_at : string) (available_at : option string) : result (list row) :=
  fields ← key_fields dataset;
  mapR (normalize_record dataset ingested_at available_at fields) (omap (fun j => match j with JDict d => Some d | _ => None end) rows).
End Normalize.

Definition sample_minute (day_time : string) : row := [("Code", JStr "86970"); ("DateTime", JStr day_time); ("C", JInt 100)].

(** The day of a minute bar is in its key only when the payload has a field of its own for it: of bars that
    have their day in DateTime alone, those of the same minute of different days
    have the same key. *)
Example minute_day_lost :
  record_key (sample_minute "2025-04-01T09:00:00+09:00") ["Code"; "Date"; "DateTime"; "Time"] "equities_bars_minute" =
  record_key (sample_minute "2025-04-02T09:00:00+09:00") ["Code"; "Date"; "DateTime"; "Time"] "equities_bars_minute".
Proof. vm_compute. reflexivity. Qed.

Example normalized_bar :
  match normalize_daily_bars [] (fun j => match j with JInt _ | JFloat _ => Ok j | _ => raise ValueError "could not convert" end)
          [[("Date", JStr "2025-04-04"); ("Code", JStr "86970"); ("C", JInt 1500); ("O", JStr ""); ("H", JStr "-")]; [("Code", JStr "1")]]
          "2026-01-01T00:00:00+09:00" None with
  | Ok [r] => (getv "event_time" r, getv "available_at" r, getv "close" r, getv "open" r, getv "high" r, length r)
  | _ => (JNull, JNull, JNull, JNull, JNull, 0%nat)
  end = (JStr "2025-04-04T15:30:00+09:00", JStr "2025-04-04T15:30:00+09:00", JInt 1500, JNull, JNull, 19%nat).
Proof. vm_compute. reflexivity. Qed.

(** ** What the times and the key depend on *)

(** The fields the contract reads, and the names under which a row may have them. *)
Definition fields_of (c : DatasetContract) : list string :=
  "Date" :: dc_natural_key_fields c ++ dc_event_time_fields c ++ availability_fields c ++
  match dc_availability_field c with Some f => [f] | None => [] end.

Definition depends (c : DatasetContract) : list string := concat (map (candidate_names c) (fields_of c)).

Definition agree (c : DatasetContract) (r r' : row) : Prop := forall k, k ∈ depends c -> get k r = get k r'.

Section Agree.
Variable c : DatasetContract.
Variables r r' : row.
Hypothesis Hagree : agree c r r'.

Lemma candidate_agrees field k : field ∈ fields_of c -> k ∈ candidate_names c field -> get k r = get k r'.
Proof.
  intros Hf Hk. apply Hagree. unfold depends. apply list_elem_of_In, in_concat. exists (candidate_names c field).
  split; [by apply in_map, list_elem_of_In|by apply list_elem_of_In].
Qed.

Lemma pick_agrees field : field ∈ fields_of c -> pick_value r c field = pick_value r' c field.
Proof.
  intros Hf. unfold pick_value. assert (forall k, k ∈ candidate_names c field -> get k r = get k r') as H by (intros k; by apply candidate_agrees).
  induction (candidate_names c field) as [|k ks IH]; [done|]. cbn [first_filled]. unfold getv. rewrite (H k) by by left.
  rewrite IH; [done|]. intros k' Hk'. apply H. by right.
Qed.

Lemma null_agrees field : field ∈ fields_of c -> explicit_null r c field = explicit_null r' c field.
Proof.
  intros Hf. unfold explicit_null. f_equal. assert (forall k, k ∈ candidate_names c field -> get k r = get k r') as H by (intros k; by apply candidate_agrees).
  induction (candidate_names c field) as [|k ks IH]; [done|]. cbn [existsb]. rewrite (H k) by by left.
  rewrite IH; [done|]. intros k' Hk'. apply H. by right.
Qed.

Lemma in_fields field : field = "Date" \/ field ∈ dc_natural_key_fields c \/ field ∈ dc_event_time_fields c \/
  field ∈ availability_fields c \/ dc_availability_field c = Some field -> field ∈ fields_of c.
Proof.
  unfold fields_of. rewrite elem_of_cons, !elem_of_app. intros [->|[H|[H|[H|H]]]]; [tauto..|]. rewrite H. right. do 3 right. by left.
Qed.

Lemma key_agrees : contract_key_fields r c = contract_key_fields r' c.
Proof.
  unfold contract_key_fields. generalize (@nil (string * json)) as picked.
  assert (forall f, f ∈ dc_natural_key_fields c -> f ∈ fields_of c) as H by (intros f Hf; apply in_fields; tauto).
  induction (dc_natural_key_fields c) as [|f fs IH]; intros picked; [done|]. cbn [foldR].
  assert (pick_field r c picked f = pick_field r' c picked f) as ->.
  { unfold pick_field. rewrite pick_agrees, null_agrees by (apply H; by left). done. }
  destruct (pick_field r' c picked f); [|done]. cbn [mbind result_bind]. apply IH. intros g Hg. apply H. by right.
Qed.

Lemma timestamp_agrees fields : (forall f, f ∈ fields -> f ∈ fields_of c) ->
  timestamp_from_fields r c fields = timestamp_from_fields r' c fields.
Proof.
  intros H. unfold timestamp_from_fields. destruct fields as [|f [|g fs]]; [done|by rewrite pick_agrees by (apply H; by left)|].
  rewrite (pick_agrees f) by (apply H; by left). by rewrite (pick_agrees g) by (apply H; right; by left).
Qed.

Lemma first_event_agrees {B} (h : option json -> B) :
  (field ← first_event_field c; Ok (h (pick_value r c field))) = (field ← first_event_field c; Ok (h (pick_value r' c field))).
Proof.
  unfold first_event_field. destruct (dc_event_time_fields c) as [|f fs] eqn:E; [done|]. simpl.
  rewrite pick_agrees; [done|]. apply in_fields. right. right. left. rewrite E. by left.
Qed.

Lemma event_agrees : contract_event_time r c = contract_event_time r' c.
Proof.
  unfold contract_event_time. destruct (_ =s "session_close").
  { apply (first_event_agrees (fun o => match o with Some (JStr day) => _ | _ => None end)). }
  destruct (_ =s "explicit_timestamp_field").
  { rewrite timestamp_agrees by (intros f Hf; apply in_fields; tauto). destruct (timestamp_from_fields _ _ _); [done|]. apply first_event_agrees. }
  destruct (_ =s "observation_date"); [apply first_event_agrees|done].
Qed.

Lemma instant_agrees : policy_instant r c = policy_instant r' c.
Proof.
  unfold policy_instant. cbv zeta.
  rewrite (pick_agrees (match dc_availability_field c with Some f => if f =s "" then "Date" else f | None => "Date" end)).
  2: { apply in_fields. destruct (dc_availability_field c) as [f|]; [|by left]. destruct (f =s ""); [by left|]. tauto. }
  unfold disclosure_available_at, known_lag_available_at. rewrite event_agrees.
  assert (forall f, f ∈ availability_fields c -> f ∈ fields_of c) as H by (intros f Hf; apply in_fields; tauto).
  rewrite timestamp_agrees by done. destruct (availability_fields c) as [|f fs] eqn:E; [done|].
  rewrite timestamp_agrees by done. by rewrite (pick_agrees f) by (apply H; by left).
Qed.

Lemma before_agrees caps id : before_official_availability caps r id c = before_official_availability caps r' id c.
Proof.
  unfold before_official_availability, event_or_session_date.
  destruct (dc_event_time_fields c) as [|f fs] eqn:E1.
  - destruct (availability_fields c) as [|f fs] eqn:E2; [done|]. cbn [head mbind option_bind].
    rewrite pick_agrees; [done|]. apply in_fields. rewrite E2. do 3 right. left. by left.
  - cbn [mbind option_bind]. rewrite pick_agrees; [done|]. apply in_fields. rewrite E1. do 2 right. left. by left.
Qed.
End Agree.

(** The names under which a payload might claim the metadata of its row. *)
Definition METADATA_NAMES : list string := ["available_at"; "ingested_at"; "event_time"; "natural_key"; "source"; "dataset"].

Lemma claim_agrees id c k v r : contract_for id = Ok c -> k ∈ METADATA_NAMES -> agree c (dict_set k v r) r.
Proof.
  intros Hc Hk name Hname. rewrite get_dict_set. destruct (name =s k) eqn:E; [|done]. bools. subst name. exfalso.
  apply (every_contract (fun c => forallb (fun k => negb (k ∈? METADATA_NAMES)) (depends c))) in Hc; [|vm_compute; reflexivity].
  rewrite forallb_forall in Hc. apply list_elem_of_In, Hc in Hname. by bools.
Qed.

Lemma premium_of_contract id c : contract_for id = Ok c -> is_premium_core id = true.
Proof.
  intros H. unfold is_premium_core. apply bool_decide_eq_true. rewrite <- catalog_of_contracts, map_map. cbn [fst].
  unfold contract_for, of_option in H. revert H. generalize CONTRACTS as l. induction l as [|[k x] l IH]; [done|].
  cbn [lookup_str map fst]. case_bool_decide as E; [intros _; subst; by left|]. intros H. right. by apply IH.
Qed.

(** Claim C9. A payload cannot claim the times or the key of its row.  Whatever a row of a premium
    dataset says under a name of the metadata, the availability and the time of the event that the
    contract computes and the key are those of the row without it, and so are the three of the
    normalised record, whether its caller overrides the availability or not. *)
Theorem payload_cannot_claim caps id c k v r ingested_at available_at fields : contract_for id = Ok c -> k ∈ METADATA_NAMES ->
  available_at_for caps (dict_set k v r) id ingested_at = available_at_for caps r id ingested_at /\
  event_time_for (dict_set k v r) id = event_time_for r id /\
  natural_key (dict_set k v r) id = natural_key r id /\
  record_metadata caps id ingested_at available_at fields (dict_set k v r) = record_metadata caps id ingested_at available_at fields r.
Proof.
  intros Hc Hk. pose proof (claim_agrees id c k v r Hc Hk) as Ha.
  assert (available_at_for caps (dict_set k v r) id ingested_at = available_at_for caps r id ingested_at) as H1.
  { unfold available_at_for. rewrite Hc. cbn [mbind result_bind]. by rewrite (before_agrees c _ _ Ha), (instant_agrees c _ _ Ha). }
  assert (event_time_for (dict_set k v r) id = event_time_for r id) as H2.
  { unfold event_time_for. rewrite Hc. cbn [mbind result_bind]. apply (event_agrees c _ _ Ha). }
  assert (natural_key (dict_set k v r) id = natural_key r id) as H3.
  { unfold natural_key, natural_key_fields. rewrite Hc. cbn [mbind result_bind]. by rewrite (key_agrees c _ _ Ha). }
  split_and!; try done. unfold record_metadata, record_event_time, record_key. rewrite (premium_of_contract id c Hc).
  by rewrite H1, H2, H3.
Qed.

(** ** Bars are known at the close *)

#[local] Ltac Zify.zify_post_hook ::= Z.div_mod_to_equations.

Lemma session_close_bounds session n : valid_date n = true -> jst_epoch <= n ->
  canonical_time (session_close session n) (to_iso (session_close session n)) /\ dt_date (session_close session n) = n.
Proof.
  intros Hv He. unfold session_close, close_second. assert (forall k, 0 <= k < 86400 ->
    canonical_time (n * day_micros + k * 1000000) (to_iso (n * day_micros + k * 1000000)) /\ dt_date (n * day_micros + k * 1000000) = n) as H.
  { intros k Hk. assert (dt_date (n * day_micros + k * 1000000) = n) as Hd by (unfold dt_date, day_micros; lia).
    unfold canonical_time, valid_datetime. rewrite Hd. split_and!; try done. unfold day_micros. lia. }
  case_bool_decide; [|destruct (_ <? _)]; by apply H.
Qed.

Lemma close_event_time_day n session : valid_date n = true -> jst_epoch <= n -> session <> Some "morning" ->
  close_event_time (isoformat n) = Ok (to_iso (session_close session n)).
Proof.
  intros Hv He Hs. destruct (session_close_bounds session n Hv He) as [(Hvt & Het & Hmt & _) Hd].
  unfold close_event_time. rewrite str_take_all by apply isoformat_length.
  assert (is_day CLOSE_CHANGE_DATE (ymd2ord 2024 11 5)) as Hc by (split; vm_compute; reflexivity).
  assert (is_day (isoformat n) n) as Hn by done. rewrite (is_day_leb _ _ _ _ Hc Hn).
  assert (isoformat n +:+ "T" +:+ (if ymd2ord 2024 11 5 <=? n then "15:30:00" else "15:00:00") = seconds_text (session_close session n)) as ->.
  { unfold session_close, close_second. rewrite (bool_decide_eq_false_2 _ Hs).
    destruct (Z.leb_spec (ymd2ord 2024 11 5) n), (Z.ltb_spec n (ymd2ord 2024 11 5)); try lia; rewrite seconds_text_at by lia; reflexivity. }
  rewrite parse_dt_naive by (done || rewrite Hd; done). done.
Qed.

Lemma bars_contract : exists c, contract_for "equities_bars_daily" = Ok c /\ dc_available_at_policy c = "session_close" /\
  dc_availability_field c = Some "Date" /\ dc_session c = Some "full_day" /\ candidate_names c "Date" = ["Date"; "date"].
Proof. eexists. vm_compute. repeat split. Qed.

Lemma getv_app_other k (a b : row) : k ∉ keys a -> getv k (a ++ b) = getv k b.
Proof.
  intros H. unfold getv. f_equal. induction a as [|[k' v] a IH]; [done|]. simpl in *. rewrite bool_decide_eq_false_2 by set_solver.
  apply IH. set_solver.
Qed.


(** ** Minute bars are the same by either transport *)

Lemma pop_key_fresh k d : k ∉ keys d -> pop_key k d = d.
Proof.
  intros H. unfold pop_key. induction d as [|[k' v] d IH]; [done|]. unfold keys in *. simpl in H. rewrite filter_cons, decide_True by set_solver.
  f_equal. apply IH. set_solver.
Qed.

Lemma pick_any_null r names : pick_any r names = JNull -> first_filled r names = None.
Proof.
  unfold pick_any. induction names as [|k names IH]; [done|]. cbn [first_filled]. destruct (filled (getv k r)) eqn:E; [|done].
  simpl. intros H. by rewrite H in E.
Qed.

(** The parts of the key of a minute bar, its instant folded into the minute. *)
Lemma minute_key_fields r datetime time minute :
  first_filled r ["DateTime"; "datetime"] = datetime -> first_filled r ["Time"; "time"] = time ->
  pop_key "DateTime" (dict_set "Time" (JStr minute) (addon_key_fields r ["Code"; "Date"; "DateTime"; "Time"])) =
  match first_filled r ["Code"; lower "Code"] with Some v => [("Code", v)] | None => [] end ++
  match first_filled r ["Date"; lower "Date"] with Some v => [("Date", v)] | None => [] end ++ [("Time", JStr minute)].
Proof.
  intros Hd Ht. unfold addon_key_fields. cbn [fold_left].
  change (lower "DateTime") with "datetime". change (lower "Time") with "time". rewrite Hd, Ht.
  by destruct (first_filled r ["Code"; lower "Code"]), (first_filled r ["Date"; lower "Date"]), datetime, time.
Qed.

(** A minute bar has the same key by either transport.  A bar of the bulk files, with its
    instant in DateTime, and a bar of the paginated interface, with the minute in Time, have the same key when they agree on
    code and date and the instant is of that minute in Tokyo, whatever else they hold. *)
Theorem minute_transports_agree bulk rest t s fields : canonical_time t s ->
  fields = ["Code"; "Date"; "DateTime"; "Time"] ->
  pick_any bulk ["DateTime"; "datetime"] = JStr s -> pick_any bulk ["Time"; "time"] = JNull ->
  pick_any rest ["DateTime"; "datetime"] = JNull -> pick_str rest ["Time"; "time"] = Some (minute_text t) ->
  (forall f, f ∈ ["Code"; "Date"] -> first_filled bulk [f; lower f] = first_filled rest [f; lower f]) ->
  record_key bulk fields "equities_bars_minute" = record_key rest fields "equities_bars_minute".
Proof.
  intros Ht -> Hb Hb' Hr Hr' Hsame. unfold record_key.
  change (is_premium_core "equities_bars_minute") with false. cbv zeta iota.
  rewrite bool_decide_eq_true_2 by done.
  assert (canonical_minute_time bulk = Ok (Some (minute_text t))) as Hcb.
  { unfold canonical_minute_time. rewrite Hb. cbv zeta. assert (s <> "") as Hs by (by apply (canonical_plain t)).
    cbn [truthy]. rewrite bool_decide_eq_false_2 by done. cbn [negb py_str]. rewrite (parse_dt_canonical t s Ht). done. }
  assert (canonical_minute_time rest = Ok (Some (minute_text t))) as Hcr.
  { unfold canonical_minute_time. rewrite Hr, Hr'. cbn [truthy mbind result_bind]. reflexivity. }
  unfold fold_minute. rewrite Hcb, Hcr. cbn [mbind result_bind].
  rewrite (minute_key_fields bulk (first_filled bulk ["DateTime"; "datetime"]) None (minute_text t)),
    (minute_key_fields rest None (first_filled rest ["Time"; "time"]) (minute_text t)); try done.
  - rewrite !(Hsame "Code"), !(Hsame "Date") by set_solver. by destruct (first_filled rest ["Code"; lower "Code"]), (first_filled rest ["Date"; lower "Date"]).
  - by apply pick_any_null.
  - by apply pick_any_null.
Qed.

(** ** Samples *)

Lemma payload_cannot_claim_witness :
  available_at_for [] (dict_set "available_at" (JStr "1999-01-01T00:00:00+09:00") (sample_bar "2025-04-04")) "equities_bars_daily"
    "2026-01-01T00:00:00+09:00" = Ok "2025-04-04T15:30:00+09:00".
Proof.
  destruct bars_contract as (c & Hc & _).
  destruct (payload_cannot_claim [] "equities_bars_daily" c "available_at" (JStr "1999-01-01T00:00:00+09:00") (sample_bar "2025-04-04")
    "2026-01-01T00:00:00+09:00" None [] Hc) as [-> _].
  - apply list_elem_of_here.
  - vm_compute. reflexivity.
Defined.

Definition sample_float (j : json) : result json :=
  match j with JInt _ | JFloat _ => Ok j | _ => raise ValueError "could not convert string to float" end.

Definition sample_day : date := Eval vm_compute in ymd2ord 2025 4 4.

Definition sample_row : row := Eval vm_compute in
  default [] (ok_or None (normalize_bar [] sample_float "2026-01-01T00:00:00+09:00" None (sample_bar "2025-04-04"))).


Definition bulk_minute : row :=
  [("Code", JStr "86970"); ("Date", JStr "2025-04-04"); ("DateTime", JStr "2025-04-04T09:05:00+09:00"); ("C", JInt 100)].
Definition rest_minute : row := [("Time", JStr "09:05:30"); ("date", JStr "2025-04-04"); ("code", JStr "86970")].

Definition sample_instant : datetime := Eval vm_compute in ymd2ord 2025 4 4 * day_micros + (9 * 60 + 5) * 60000000.

(** The minute of the interface has no seconds. *)
Definition rest_minute_exact : row := Eval vm_compute in dict_set "Time" (JStr "09:05") rest_minute.

Example rest_seconds_dropped : record_key rest_minute ["Code"; "Date"; "DateTime"; "Time"] "equities_bars_minute"
  = record_key rest_minute_exact ["Code"; "Date"; "DateTime"; "Time"] "equities_bars_minute".
Proof. vm_compute. reflexivity. Qed.

Lemma minute_transports_agree_witness :
  record_key bulk_minute ["Code"; "Date"; "DateTime"; "Time"] "equities_bars_minute"
  = record_key rest_minute_exact ["Code"; "Date"; "DateTime"; "Time"] "equities_bars_minute".
Proof.
  apply (minute_transports_agree bulk_minute rest_minute_exact sample_instant "2025-04-04T09:05:00+09:00").
  - split; [vm_compute; reflexivity|]. split; [vm_compute; discriminate|]. split; vm_compute; reflexivity.
  - reflexivity.
  - vm_compute. reflexivity.
  - vm_compute. reflexivity.
  - vm_compute. reflexivity.
  - vm_compute. reflexivity.
  - intros f Hf. repeat (apply elem_of_cons in Hf as [->|Hf]; [vm_compute; reflexivity|]). by apply elem_of_nil in Hf.
Defined.
