(* ===== verification/PinnedRegistries.v ===== *)
(** * PinnedRegistries: the documents of the receipt authority at this commit
    (packages/data_plane/data_contracts/receipt_verify_public_keys*.json and
    receipt_authority_instances.json)

    The documents as JSON values, and the text of their files: [json.dumps] with
    an indent of two and a final newline, byte for byte.  The digests pinned in
    storage/receipt_crypto.py are the SHA-256 digests of these texts. *)

From S2P Require Import Prelude Json Sha256 SourceCapability.

Local Open Scope Z_scope.

(** [json.dumps(v, indent=2)] at a nesting level. *)
Definition newline (level : nat) : string :=
  String (ascii_of_N 10) (String.concat EmptyString (replicate level "  ")).

Fixpoint dumps_indent (level : nat) (j : json) : string :=
  match j with
  | JList [] => "[]"
  | JList l =>
      "[" +:+ String.concat "," (map (fun v => newline (S level) +:+ dumps_indent (S level) v) l)
      +:+ newline level +:+ "]"
  | JDict [] => "{}"
  | JDict d =>
      "{" +:+ String.concat "," (map (fun p => newline (S level) +:+ dumps_str p.1 EmptyString +:+ ": "
                                         +:+ dumps_indent (S level) p.2) d)
      +:+ newline level +:+ "}"
  | _ => py_dumps false j
  end.

Definition file_text (document : dict) : string := dumps_indent 0 (JDict document) +:+ newline 0.

(** data_contracts/receipt_verify_public_keys.production.json *)
Definition production_registry : dict :=
  [("schema_version", JInt 3); ("purpose", JStr "receipt_verification"); ("generation", JInt 2);
   ("authority_status", JStr "PENDING"); ("environment", JStr "production");
   ("authority_instance_digest", JStr "sha256:e6d7df1b9000481d15b8987f5ffda7f3a0b0c051a43cf0051d04a38e58e372a6");
   ("prior_registry_digest", JStr "sha256:041b025b3e1822295fdea97c738467e2515d57b8446ad22fc2abb78d119f8c4f");
   ("keys", JList []);
   ("registry_digest", JStr "sha256:8c2d84c644e149e33ac073cab8573856da2b1c2c78e7b4c8a4854071a6eb83df")].

(** data_contracts/receipt_verify_public_keys.staging.json *)
Definition staging_registry : dict :=
  [("schema_version", JInt 3); ("purpose", JStr "receipt_verification"); ("generation", JInt 4);
   ("authority_status", JStr "ACTIVE"); ("environment", JStr "staging");
   ("authority_instance_digest", JStr "sha256:5104b2d3b85ddbbd44fb9e4ddc2689898232c2e6e175727c71c1ce2cb6ec9bff");
   ("prior_registry_digest", JStr "sha256:f14f779c47bbd3355cfa834b2d6d9e1e0e3a1079488f70f3caab9cf83253c43a");
   ("keys", JList [JDict [("key_id", JStr "receipt-staging-98fa0160de908051"); ("algorithm", JStr "Ed25519");
        ("public_key_base64", JStr "QefUnSikny/jxE1mWY0yHT8hXezlziIBTA9HZcLN48c=");
        ("status", JStr "active")]]);
   ("registry_digest", JStr "sha256:8e69c9165619301b02c841215ccda639ab587936ecc222c6403ffe2838a7fe77")].

(** data_contracts/receipt_verify_public_keys.json *)
Definition legacy_registry : dict :=
  [("schema_version", JInt 2); ("purpose", JStr "receipt_verification"); ("generation", JInt 2);
   ("authority_status", JStr "PENDING");
   ("prior_registry_digest", JStr "sha256:087cfea679c27c267c4e79aaa7518097778d3b44d251c931e5bb6fd2803a2465");
   ("keys", JList [JDict [("key_id", JStr "receipt-20260825-v1"); ("algorithm", JStr "Ed25519");
        ("public_key_base64", JStr "DCVwl1tFSnA7QoHV5QxppUsU9uqNo2Fasc8kakH3UBY=");
        ("status", JStr "revoked")];
     JDict [("key_id", JStr "dev-receipt-v1"); ("algorithm", JStr "Ed25519");
        ("public_key_base64", JStr "DCVwl1tFSnA7QoHV5QxppUsU9uqNo2Fasc8kakH3UBY=");
        ("status", JStr "revoked")];
     JDict [("key_id", JStr "phase61-test"); ("algorithm", JStr "Ed25519");
        ("public_key_base64", JStr "4sQriRWsaz6YQUa+IHwtGVUeQ5RQJe/b4nWOcn4sIRQ=");
        ("status", JStr "revoked")];
     JDict [("key_id", JStr "k1"); ("algorithm", JStr "Ed25519");
        ("public_key_base64", JStr "IKRDieroyrvYX1uGpQ3U1O1RDMoaFcyc8wfB2qYhaBI=");
        ("status", JStr "revoked")];
     JDict [("key_id", JStr "test-key"); ("algorithm", JStr "Ed25519");
        ("public_key_base64", JStr "PZ9W3MW2ZRKmmgqYhtdlc8xSn0GtG2Odj6ujWJV9Mwk=");
        ("status", JStr "revoked")];
     JDict [("key_id", JStr "t1"); ("algorithm", JStr "Ed25519");
        ("public_key_base64", JStr "00vPBvGv26PQRJiOurfDHGGzCURaCkZlAMfojd0yJ48=");
        ("status", JStr "revoked")]]);
   ("registry_digest", JStr "sha256:7dbf4eae91e927d74bd7075bc69210232030bb9077052d55853dc09f0c7bb921")].

(** data_contracts/receipt_verify_public_keys.generation-1.json *)
Definition prior_registry : dict :=
  [("schema_version", JInt 1); ("purpose", JStr "receipt_verification");
   ("keys", JList [JDict [("key_id", JStr "receipt-20260825-v1");
        ("public_key_b64", JStr "DCVwl1tFSnA7QoHV5QxppUsU9uqNo2Fasc8kakH3UBY=");
        ("algorithm", JStr "Ed25519"); ("status", JStr "revoked");
        ("note", JStr "same-UID bootstrap key retired pending a dedicated receipt authority")];
     JDict [("key_id", JStr "dev-receipt-v1");
        ("public_key_b64", JStr "DCVwl1tFSnA7QoHV5QxppUsU9uqNo2Fasc8kakH3UBY=");
        ("algorithm", JStr "Ed25519"); ("status", JStr "revoked");
        ("note", JStr "legacy bootstrap identity retained for audit only")];
     JDict [("key_id", JStr "phase61-test");
        ("public_key_b64", JStr "4sQriRWsaz6YQUa+IHwtGVUeQ5RQJe/b4nWOcn4sIRQ=");
        ("algorithm", JStr "Ed25519"); ("status", JStr "revoked");
        ("note", JStr "historical test key retained for audit only")];
     JDict [("key_id", JStr "k1");
        ("public_key_b64", JStr "IKRDieroyrvYX1uGpQ3U1O1RDMoaFcyc8wfB2qYhaBI=");
        ("algorithm", JStr "Ed25519"); ("status", JStr "revoked");
        ("note", JStr "historical test key retained for audit only")];
     JDict [("key_id", JStr "test-key");
        ("public_key_b64", JStr "PZ9W3MW2ZRKmmgqYhtdlc8xSn0GtG2Odj6ujWJV9Mwk=");
        ("algorithm", JStr "Ed25519"); ("status", JStr "revoked");
        ("note", JStr "historical test key retained for audit only")];
     JDict [("key_id", JStr "t1");
        ("public_key_b64", JStr "00vPBvGv26PQRJiOurfDHGGzCURaCkZlAMfojd0yJ48=");
        ("algorithm", JStr "Ed25519"); ("status", JStr "revoked");
        ("note", JStr "historical test key retained for audit only")]])].

(** data_contracts/receipt_authority_instances.json *)
Definition authority_instances : dict :=
  [("schema_version", JStr "receipt-authority-instances/v1");
   ("instances", JDict [("production", JDict [("environment", JStr "production"); ("authority_id", JStr "receipt-evidence-authority");
         ("worker_name", JStr "quant-platform-receipt-evidence-authority");
         ("resources", JDict [("d1", JDict [("binding", JStr "DB"); ("database_name", JStr "quant-ingest");
               ("database_id", JStr "be6fdcf8-40be-41fc-9535-7facd1fc2ffc")]);
            ("authority_evidence_r2", JDict [("binding", JStr "AUTHORITY_EVIDENCE_BUCKET");
               ("bucket_name", JStr "quant-receipt-evidence");
               ("raw_prefix", JStr "raw/receipt-authority/production/");
               ("product_prefix", JStr "product/receipt-authority/production/")]);
            ("raw_r2", JDict [("binding", JStr "RAW_BUCKET"); ("bucket_name", JStr "quant-raw")]);
            ("structured_r2", JDict [("binding", JStr "STRUCTURED_BUCKET"); ("bucket_name", JStr "quant-structured")]);
            ("durable_object", JDict [("binding", JStr "RECEIPT_EVIDENCE_AUTHORITY_DO");
               ("class_name", JStr "ReceiptEvidenceAuthority")]);
            ("acquisition_service", JDict [("binding", JStr "JQUANTS_ACQUISITION");
               ("service", JStr "quant-platform-ingestion-secrets");
               ("entrypoint", JStr "IngestionSecretsService")])])]);
      ("staging", JDict [("environment", JStr "staging"); ("authority_id", JStr "receipt-evidence-authority");
         ("worker_name", JStr "quant-platform-receipt-evidence-authority-staging");
         ("resources", JDict [("d1", JDict [("binding", JStr "DB"); ("database_name", JStr "quant-ingest-staging");
               ("database_id", JStr "d448d1c6-27c8-4aeb-8702-3e7a8b6bf2bb")]);
            ("authority_evidence_r2", JDict [("binding", JStr "AUTHORITY_EVIDENCE_BUCKET");
               ("bucket_name", JStr "quant-receipt-evidence-staging");
               ("raw_prefix", JStr "raw/receipt-authority/staging/");
               ("product_prefix", JStr "product/receipt-authority/staging/")]);
            ("raw_r2", JDict [("binding", JStr "RAW_BUCKET"); ("bucket_name", JStr "quant-raw-staging")]);
            ("structured_r2", JDict [("binding", JStr "STRUCTURED_BUCKET");
               ("bucket_name", JStr "quant-structured-staging")]);
            ("durable_object", JDict [("binding", JStr "RECEIPT_EVIDENCE_AUTHORITY_DO");
               ("class_name", JStr "ReceiptEvidenceAuthority")]);
            ("acquisition_service", JDict [("binding", JStr "JQUANTS_ACQUISITION");
               ("service", JStr "quant-platform-ingestion-secrets-staging");
               ("entrypoint", JStr "IngestionSecretsService")])])])])].

Definition documents : list dict :=
  [production_registry; staging_registry; legacy_registry; prior_registry; authority_instances].

(** The committed files. *)
Definition scoped_file (environment : string) : option string :=
  if environment =s "production" then Some (file_text production_registry)
  else if environment =s "staging" then Some (file_text staging_registry) else None.

(** A decoder that knows the documents. *)
Definition loads_documents (text : string) : option json :=
  match filter (fun d => file_text d = text) documents with d :: _ => Some (JDict d) | [] => None end.

Example production_text : hexdigest (file_text production_registry) =
  "c258de1ff4a1d8c917aefe6656f0892a602f8d0de635ca21a4c8d7160d84ab33".
Proof. by vm_compute. Qed.

Example instances_text : hexdigest (file_text authority_instances) =
  "a5fb439f33956c06c2ea709d716795ea9125ccd87f786169786061de0df351fe".
Proof. by vm_compute. Qed.
