(* ===== verification/ReceiptCrypto.v ===== *)
(** * ReceiptCrypto: receipt digests and the pinned registries of public keys
    (packages/data_plane/storage/receipt_crypto.py)

    A registry document lists public keys with their lifecycle; only its active
    key can grant COMPLETE, revoked keys serve audits.  Registries are pinned by
    the digests of their bytes and chained to their predecessor.  Parameters:
    SHA-256, Ed25519 verification (key, signature, body), the JSON decoder with the
    hooks that refuse repeated keys and non-finite numbers ([None] when it raises),
    and the files, [None] when reading raises. *)

From S2P Require Import Prelude PyDate Json Base64 Sha256 PinnedRegistries SourceCapability CoverageContract.

Local Open Scope Z_scope.

(** ** Constants *)

Definition PARSER_NORMALIZER_VERSION : string := "coverage-receipt/v4-ed25519-closure".
Definition SIGNED_RECEIPT_CLAIMS_VERSION : string := "signed-receipt-claims/v3".
Definition AUDIT_SIGNED_RECEIPT_CLAIMS_VERSION_V2 : string := "signed-receipt-claims/v2".
Definition LEGACY_SIGNED_RECEIPT_CLAIMS_VERSION : string := "signed-receipt-claims/v1".
Definition PRODUCTION_RECEIPT_ENVIRONMENT : string := "production".
Definition PRODUCTION_RECEIPT_AUTHORITY_INSTANCE_DIGEST : string :=
  "sha256:e6d7df1b9000481d15b8987f5ffda7f3a0b0c051a43cf0051d04a38e58e372a6".

Definition STANDARD_CLAIM_KEYS : list string :=
  ["version"; "environment"; "authority_instance_digest"; "coverage_policy_version"; "dataset";
   "source"; "contract_id"; "segment_id"; "segment_start"; "segment_end"; "receipt_issue_digest";
   "artifact_key"; "artifact_byte_count"; "manifest_key"; "manifest_byte_count"; "raw_manifest_key";
   "raw_manifest_byte_count"; "raw_byte_count"; "natural_key_digest"; "expected_scope";
   "expected_items"; "observed_items"; "raw_page_count"; "source_request_digest";
   "raw_manifest_digest"; "raw_digest"; "raw_count"; "structured_digest"; "structured_count";
   "parser_normalizer_version"; "structured_generation"; "pagination_exhausted";
   "discovery_exhausted"; "status"; "error"; "scope_digest"; "observation_digest"; "run_id";
   "issuer_id"; "issued_at"; "checked_at"; "extra_digests"; "raw"; "eligibility"; "signature";
   "signed_body_b64"; "issuer_class"; "issuer_key_id"; "body_digest"].

(** ** Digests *)

Definition is_hex (c : ascii) : bool :=
  let n := N_of_ascii c in (((48 <=? n) && (n <=? 57)) || ((97 <=? n) && (n <=? 102)))%N.

Fixpoint all_chars (f : ascii -> bool) (s : string) : bool :=
  match s with EmptyString => true | String c s => f c && all_chars f s end.

Definition is_sha256 (v : json) : bool :=
  match v with
  | JStr s => (String.length s =? 71)%nat && starts_with "sha256:" s && all_chars is_hex (str_drop 7 s)
  | _ => false
  end.

(** The same keys. *)
Definition same_keys (l m : list string) : bool :=
  forallb (fun k => k ∈? m) l && forallb (fun k => k ∈? l) m.

Section Digests.
Variable sha256_hex : string -> string.

Definition body_digest (body : string) : string := "sha256:" +:+ sha256_hex body.

Definition canonical_evidence_digest (payload : json) : string := body_digest (canonical_dumps payload).

Definition canonical_receipt_body (fields : dict) : string := canonical_dumps (JDict fields).

Definition registry_body_digest (document : dict) : string :=
  body_digest (canonical_dumps (JDict (filter (fun p => p.1 <> "registry_digest") document))).
End Digests.

(** [partition_extra_digests] *)
Definition partition_extra_digests (extra_digests : option dict) : dict :=
  match extra_digests with
  | None => []
  | Some extra => filter (fun p => p.1 ∉ STANDARD_CLAIM_KEYS) extra
  end.

(** ** Registries *)

(** A public key is its 32 bytes. *)
Record ReceiptVerifyKey := mkKey { vk_key_id : string; vk_public_key : string }.

Record RegistryEntry := mkEntry {
  re_key_id : string;
  re_public_key_bytes : string;
  re_status : string;
}.

Record ReceiptVerifyRegistry := mkRegistry {
  rg_generation : Z;
  rg_authority_status : string;
  rg_environment : option string;
  rg_authority_instance_digest : option string;
  rg_prior_registry_digest : json;
  rg_registry_digest : string;
  rg_entries : list RegistryEntry;
  rg_active_keys : list ReceiptVerifyKey;
  rg_audit_keys : list ReceiptVerifyKey;
}.

Record PriorReceiptVerifyRegistry := mkPrior {
  pg_generation : Z;
  pg_authority_status : string;
  pg_document_digest : string;
  pg_entries : list RegistryEntry;
}.

Definition REGISTRY_FIELDS : list string :=
  ["schema_version"; "purpose"; "generation"; "authority_status"; "prior_registry_digest"; "keys";
   "registry_digest"].
Definition REGISTRY_KEY_FIELDS : list string := ["key_id"; "algorithm"; "public_key_base64"; "status"].
Definition SCOPED_REGISTRY_FIELDS : list string := REGISTRY_FIELDS ++ ["environment"; "authority_instance_digest"].
Definition PRIOR_REGISTRY_FIELDS : list string := ["schema_version"; "purpose"; "keys"].
Definition PRIOR_REGISTRY_KEY_FIELDS : list string := ["key_id"; "public_key_b64"; "algorithm"; "status"; "note"].

Definition PINNED_INSTANCE_DIGEST (environment : string) : string :=
  if environment =s "production" then PRODUCTION_RECEIPT_AUTHORITY_INSTANCE_DIGEST
  else "sha256:5104b2d3b85ddbbd44fb9e4ddc2689898232c2e6e175727c71c1ce2cb6ec9bff".
Definition PINNED_SCOPED_RAW_DIGEST (environment : string) : string :=
  if environment =s "production" then "sha256:c258de1ff4a1d8c917aefe6656f0892a602f8d0de635ca21a4c8d7160d84ab33"
  else "sha256:af8d2d91373da794d90cdfccc0d653eb6eacae89b394acfbe82866c0015c53f7".
Definition PINNED_INSTANCES_RAW_DIGEST : string :=
  "sha256:a5fb439f33956c06c2ea709d716795ea9125ccd87f786169786061de0df351fe".
Definition PINNED_INSTANCES_DOCUMENT_DIGEST : string :=
  "sha256:77c26eddcbf3da9871e5aa5e2624a03c63203239184b1f71af55a79de772ad12".
Definition PINNED_REGISTRY_RAW_DIGEST : string :=
  "sha256:dc6095db1d09bf775f972cb428944a1ba5bc47fefa0af19e77c3f3a157ae47f5".
Definition PINNED_REGISTRY_DOCUMENT_DIGEST : string :=
  "sha256:188c39c9833802026ff614a2de6ad3c48e7c83e628c43958b00f003097a36516".
Definition PINNED_REGISTRY_GENERATION : Z := 2.
Definition PINNED_AUTHORITY_STATUS : string := "PENDING".
Definition PINNED_PRIOR_REGISTRY_DIGEST : string :=
  "sha256:087cfea679c27c267c4e79aaa7518097778d3b44d251c931e5bb6fd2803a2465".
Definition PINNED_PRIOR_REGISTRY_RAW_DIGEST : string :=
  "sha256:de08e72ea133bf4ab876944e27520a5aa7207e7bdfee412b8866131b9e7b1c90".
Definition PINNED_REGISTRY_BODY_DIGEST : string :=
  "sha256:7dbf4eae91e927d74bd7075bc69210232030bb9077052d55853dc09f0c7bb921".

(** What a parse has seen so far: the dictionaries of active and audit keys, the
    entries, the ids, the last status of each key's bytes, the pending keys. *)
Record parsing := mkParsing {
  ps_active : list (string * ReceiptVerifyKey);
  ps_audit : list (string * ReceiptVerifyKey);
  ps_entries : list RegistryEntry;
  ps_seen_ids : list string;
  ps_seen_status : list (string * string);
  ps_pending : Z;
}.

Abbreviation misconfigured := (raise ReceiptKeyConfigurationError) (only parsing).
Abbreviation configured b := (ensure b ReceiptKeyConfigurationError) (only parsing).

(** A field of a row whose values have been checked to be strings. *)
Definition field (row : dict) (name : string) : string :=
  match getv name row with JStr s => s | _ => "" end.

Definition closed_row (row : json) (fields : list string) (scope : string) : result dict :=
  match row with
  | JDict row =>
      _ ← configured (same_keys (keys row) fields) (scope +:+ " receipt registry row is not closed");
      _ ← configured (forallb (fun name => match getv name row with JStr _ => true | _ => false end) fields)
            (scope +:+ " receipt registry fields must be exact strings");
      Ok row
  | _ => misconfigured (scope +:+ " receipt registry row is not closed")
  end.

(** The id of a row: trimmed, not empty, not seen before. *)
Definition fresh_id (row : dict) (seen : list string) (scope : string) : result string :=
  let key_id := field row "key_id" in
  _ ← configured ((key_id =s strip key_id) && negb (key_id =s "") && negb (key_id ∈? seen))
        (scope +:+ " receipt registry key ids must be trimmed and unique");
  Ok key_id.

Definition public_key_of (value : string) (scope : string) : result string :=
  of_option ReceiptKeyConfigurationError (scope +:+ " receipt public key is invalid")
    (decode_canonical_base64 value (Some 32%nat)).

(** Key bytes may be repeated among revoked keys only. *)
Definition reuse_allowed (prior_status : option string) (status : string) : bool :=
  match prior_status with
  | None => true
  | Some prior => (prior =s "revoked") && (status =s "revoked")
  end.

(** One row of [keys], in both formats of the registry. *)
Definition parse_key_row (scope : string) (st : parsing) (row : json) : result parsing :=
  row ← closed_row row REGISTRY_KEY_FIELDS scope;
  key_id ← fresh_id row (ps_seen_ids st) scope;
  _ ← configured (field row "algorithm" =s "Ed25519") (scope +:+ " receipt registry requires Ed25519 entries");
  let status := field row "status" in
  _ ← configured (status ∈? ["active"; "pending"; "revoked"])
        (scope +:+ " receipt registry requires an explicit key status");
  raw_key ← public_key_of (field row "public_key_base64") scope;
  _ ← configured (reuse_allowed (lookup_str raw_key (ps_seen_status st)) status)
        (scope +:+ " receipt keys must not reuse bytes");
  let verify_key := mkKey key_id raw_key in
  Ok (mkParsing
        (if status =s "active" then dict_set key_id verify_key (ps_active st) else ps_active st)
        (if (status =s "active") || (status =s "revoked") then dict_set key_id verify_key (ps_audit st)
         else ps_audit st)
        (ps_entries st ++ [mkEntry key_id raw_key status]) (key_id :: ps_seen_ids st)
        (dict_set raw_key status (ps_seen_status st))
        (if status =s "pending" then ps_pending st + 1 else ps_pending st)).

Definition parse_key_rows (scope : string) (rows : list json) : result parsing :=
  foldR (parse_key_row scope) (mkParsing [] [] [] [] [] 0) rows.

(** The keys against the authority's status. *)
Definition check_lifecycle (scope : string) (authority_status : string) (st : parsing) : result unit :=
  let expected_active := if authority_status =s "ACTIVE" then 1 else 0 in
  _ ← configured (Z.of_nat (length (ps_active st)) =? expected_active)
        (scope +:+ " receipt registry active keys do not match authority status");
  configured (ps_pending st <=? 1) (scope +:+ " receipt registry permits at most one pending key").

Section Registries.
Variable sha256_hex : string -> string.
Variable loads : string -> option json.
(** Public key, signature bytes and body. *)
Variable ed25519_verify : string -> string -> string -> bool.

Definition strict_json_document (raw : string) : result dict :=
  match loads raw with
  | Some (JDict document) => Ok document
  | Some _ => misconfigured "pinned receipt public-key registry is invalid"
  | None => misconfigured "cannot load the pinned receipt public-key registry"
  end.

Definition is_str (s : string) (v : json) : bool := bool_decide (v = JStr s).

(** The generation and the digest of the predecessor it must name. *)
Definition generation_ok (doc : dict) : bool :=
  match getv "generation" doc with
  | JInt n => (1 <=? n)
      && (negb (n =? 1) || bool_decide (getv "prior_registry_digest" doc = JNull))
      && (negb (1 <? n) || is_sha256 (getv "prior_registry_digest" doc))
  | _ => false
  end.

Definition keys_ok (minimum : Z) (doc : dict) : bool :=
  match getv "keys" doc with
  | JList l => (minimum <=? Z.of_nat (length l)) && (Z.of_nat (length l) <=? 16)
  | _ => false
  end.

Definition registry_header_ok (doc : dict) : bool :=
  same_keys (keys doc) REGISTRY_FIELDS
  && bool_decide (getv "schema_version" doc = JInt 2)
  && is_str "receipt_verification" (getv "purpose" doc)
  && (is_str "ACTIVE" (getv "authority_status" doc) || is_str "PENDING" (getv "authority_status" doc))
  && generation_ok doc && is_sha256 (getv "registry_digest" doc) && keys_ok 1 doc.

Definition key_rows (doc : dict) : list json := match getv "keys" doc with JList l => l | _ => [] end.
Definition int_field (doc : dict) (name : string) : Z := match getv name doc with JInt n => n | _ => 0 end.

Definition parse_registry_document (raw : string) : result ReceiptVerifyRegistry :=
  doc ← strict_json_document raw;
  _ ← configured (registry_header_ok doc) "pinned receipt public-key registry is invalid";
  _ ← configured (is_str (registry_body_digest sha256_hex doc) (getv "registry_digest" doc))
        "pinned receipt registry body digest mismatch";
  st ← parse_key_rows "pinned" (key_rows doc);
  _ ← check_lifecycle "pinned" (field doc "authority_status") st;
  Ok (mkRegistry (int_field doc "generation") (field doc "authority_status") None None
        (getv "prior_registry_digest" doc) (field doc "registry_digest") (ps_entries st)
        (map snd (ps_active st)) (map snd (ps_audit st))).

(** A row of the legacy registry: revoked, with a note. *)
Definition parse_prior_row (st : list RegistryEntry * list string) (row : json)
    : result (list RegistryEntry * list string) :=
  row ← closed_row row PRIOR_REGISTRY_KEY_FIELDS "pinned prior";
  key_id ← fresh_id row st.2 "pinned prior";
  _ ← configured ((field row "algorithm" =s "Ed25519") && (field row "status" =s "revoked")
                  && (field row "note" =s strip (field row "note")) && negb (field row "note" =s ""))
        "pinned prior receipt registry must remain revoked audit evidence";
  raw_key ← public_key_of (field row "public_key_b64") "pinned prior";
  Ok (st.1 ++ [mkEntry key_id raw_key "revoked"], key_id :: st.2).

Definition prior_header_ok (doc : dict) : bool :=
  same_keys (keys doc) PRIOR_REGISTRY_FIELDS
  && bool_decide (getv "schema_version" doc = JInt 1)
  && is_str "receipt_verification" (getv "purpose" doc)
  && keys_ok 1 doc.

Definition parse_prior_registry_document (raw : string) : result PriorReceiptVerifyRegistry :=
  doc ← strict_json_document raw;
  _ ← configured (prior_header_ok doc) "pinned prior receipt registry is invalid";
  '(entries, _) ← foldR parse_prior_row ([], []) (key_rows doc);
  Ok (mkPrior 1 "REVOKED" (body_digest sha256_hex (canonical_dumps (JDict doc))) entries).

(** ** The authority instances *)

Definition RESOURCE_SHAPES : list (string * list string) :=
  [("d1", ["binding"; "database_name"; "database_id"]);
   ("authority_evidence_r2", ["binding"; "bucket_name"; "raw_prefix"; "product_prefix"]);
   ("raw_r2", ["binding"; "bucket_name"]); ("structured_r2", ["binding"; "bucket_name"]);
   ("durable_object", ["binding"; "class_name"]);
   ("acquisition_service", ["binding"; "service"; "entrypoint"])].

Definition nonempty_string (v : json) : bool := match v with JStr s => negb (s =s "") | _ => false end.

Definition check_resource (resources : dict) (shape : string * list string) : result unit :=
  match getv shape.1 resources with
  | JDict resource =>
      configured (same_keys (keys resource) shape.2
                  && forallb (fun name => nonempty_string (getv name resource)) shape.2)
        "pinned receipt authority resource binding is invalid"
  | _ => misconfigured "pinned receipt authority resource binding is invalid"
  end.

Definition check_instance (instances : dict) (environment : string) : result (string * dict) :=
  match getv environment instances with
  | JDict instance =>
      match getv "resources" instance with
      | JDict resources =>
          _ ← configured (same_keys (keys instance) ["environment"; "authority_id"; "worker_name"; "resources"]
                          && is_str environment (getv "environment" instance)
                          && is_str "receipt-evidence-authority" (getv "authority_id" instance)
                          && nonempty_string (getv "worker_name" instance)
                          && same_keys (keys resources) (map fst RESOURCE_SHAPES))
                "pinned receipt authority instance is invalid";
          _ ← mapR (check_resource resources) RESOURCE_SHAPES;
          _ ← configured (canonical_evidence_digest sha256_hex (JDict instance) =s PINNED_INSTANCE_DIGEST environment)
                "pinned receipt authority instance digest mismatch";
          Ok (environment, instance)
      | _ => misconfigured "pinned receipt authority instance is invalid"
      end
  | _ => misconfigured "pinned receipt authority instance is invalid"
  end.

(** The files of the registries and of the instances. *)
Variable keys_file prior_file instances_file : option string.
Variable scoped_file : string -> option string.

Definition load_pinned_authority_instances : result (list (string * dict)) :=
  raw ← of_option ReceiptKeyConfigurationError "cannot read the pinned receipt authority instance contract"
          instances_file;
  _ ← configured (body_digest sha256_hex raw =s PINNED_INSTANCES_RAW_DIGEST)
        "pinned receipt authority instance raw digest mismatch";
  document ← strict_json_document raw;
  _ ← configured ((body_digest sha256_hex (canonical_dumps (JDict document)) =s PINNED_INSTANCES_DOCUMENT_DIGEST)
                  && same_keys (keys document) ["schema_version"; "instances"]
                  && is_str "receipt-authority-instances/v1" (getv "schema_version" document)
                  && match getv "instances" document with
                     | JDict instances => same_keys (keys instances) ["production"; "staging"]
                     | _ => false
                     end)
        "pinned receipt authority instance contract is invalid";
  match getv "instances" document with
  | JDict instances => mapR (check_instance instances) ["production"; "staging"]
  | _ => Ok []
  end.

Definition ENVIRONMENTS : list string := ["production"; "staging"].

Definition receipt_authority_instance_digest (environment : json) : result string :=
  match environment with
  | JStr environment =>
      _ ← configured (environment ∈? ENVIRONMENTS) "receipt authority environment must be production or staging";
      _ ← load_pinned_authority_instances;
      Ok (PINNED_INSTANCE_DIGEST environment)
  | _ => misconfigured "receipt authority environment must be production or staging"
  end.

(** ** Scoped registries *)

(** [v not in {...}] hashes [v]. *)
Definition one_of (v : json) (l : list string) : result bool :=
  match v with
  | JList _ | JDict _ => raise TypeError "unhashable type"
  | JStr s => Ok (s ∈? l)
  | _ => Ok false
  end.

Definition invalid_scoped : string := "pinned scoped receipt public-key registry is invalid".

Definition scoped_header (doc : dict) : result unit :=
  _ ← configured (same_keys (keys doc) SCOPED_REGISTRY_FIELDS && eq_int (getv "schema_version" doc) 3
                  && is_str "receipt_verification" (getv "purpose" doc)
                  && match getv "generation" doc with JInt n => 1 <=? n | _ => false end) invalid_scoped;
  status_ok ← one_of (getv "authority_status" doc) ["ACTIVE"; "PENDING"];
  _ ← configured status_ok invalid_scoped;
  environment_ok ← one_of (getv "environment" doc) ENVIRONMENTS;
  _ ← configured environment_ok invalid_scoped;
  configured (is_sha256 (getv "authority_instance_digest" doc) && generation_ok doc
              && is_sha256 (getv "registry_digest" doc) && keys_ok 0 doc
              && is_str (registry_body_digest sha256_hex doc) (getv "registry_digest" doc)) invalid_scoped.

Definition parse_scoped_registry_document (raw : string) : result ReceiptVerifyRegistry :=
  doc ← strict_json_document raw;
  _ ← scoped_header doc;
  instance ← receipt_authority_instance_digest (getv "environment" doc);
  _ ← configured (field doc "authority_instance_digest" =s instance)
        "scoped receipt registry authority instance mismatch";
  st ← parse_key_rows "scoped" (key_rows doc);
  _ ← check_lifecycle "scoped" (field doc "authority_status") st;
  Ok (mkRegistry (int_field doc "generation") (field doc "authority_status") (Some (field doc "environment"))
        (Some (field doc "authority_instance_digest")) (getv "prior_registry_digest" doc)
        (field doc "registry_digest") (ps_entries st) (map snd (ps_active st)) (map snd (ps_audit st))).

Definition load_pinned_scoped_registry (expected_environment expected_instance : json)
    : result ReceiptVerifyRegistry :=
  match expected_environment, expected_instance with
  | JStr environment, JStr expected =>
      _ ← configured (environment ∈? ENVIRONMENTS) "receipt verifier expected authority scope is not pinned";
      instance ← receipt_authority_instance_digest (JStr environment);
      _ ← configured (expected =s instance) "receipt verifier expected authority scope is not pinned";
      raw ← of_option ReceiptKeyConfigurationError "cannot read the pinned scoped receipt public-key registry"
              (scoped_file environment);
      _ ← configured (body_digest sha256_hex raw =s PINNED_SCOPED_RAW_DIGEST environment)
            "pinned scoped receipt registry raw digest mismatch";
      registry ← parse_scoped_registry_document raw;
      _ ← configured (bool_decide (rg_environment registry = Some environment)
                      && bool_decide (rg_authority_instance_digest registry = Some expected))
            "pinned scoped receipt registry selection mismatch";
      Ok registry
  | _, _ => misconfigured "receipt verifier expected authority scope is not pinned"
  end.

(** ** The legacy registry and its predecessor *)

Definition load_pinned_prior_registry : result PriorReceiptVerifyRegistry :=
  raw ← of_option ReceiptKeyConfigurationError "cannot read the pinned prior receipt public-key registry" prior_file;
  _ ← configured (body_digest sha256_hex raw =s PINNED_PRIOR_REGISTRY_RAW_DIGEST)
        "pinned prior receipt registry raw digest mismatch";
  document ← strict_json_document raw;
  _ ← configured (body_digest sha256_hex (canonical_dumps (JDict document)) =s PINNED_PRIOR_REGISTRY_DIGEST)
        "pinned prior receipt registry document digest mismatch";
  prior ← parse_prior_registry_document raw;
  _ ← configured ((pg_generation prior =? 1) && (pg_authority_status prior =s "REVOKED")
                  && (pg_document_digest prior =s PINNED_PRIOR_REGISTRY_DIGEST))
        "pinned prior receipt registry code pins mismatch";
  Ok prior.

(** [{entry.key_id: entry for entry in entries}.get(key_id)]: the last one. *)
Definition entry_by_id (entries : list RegistryEntry) (key_id : string) : option RegistryEntry :=
  lookup_str key_id (fold_left (fun d e => dict_set (re_key_id e) e d) entries []).

Definition revoked_history (current : list RegistryEntry) (prior_entry : RegistryEntry) : bool :=
  match entry_by_id current (re_key_id prior_entry) with
  | None => false
  | Some entry =>
      (re_public_key_bytes entry =s re_public_key_bytes prior_entry)
      && (re_status prior_entry =s "revoked") && (re_status entry =s "revoked")
  end.

Definition validate_registry_chain (prior : PriorReceiptVerifyRegistry) (current : ReceiptVerifyRegistry)
    : result unit :=
  _ ← configured ((rg_generation current =? pg_generation prior + 1)
                  && is_str (pg_document_digest prior) (rg_prior_registry_digest current)
                  && (pg_authority_status prior =s "REVOKED") && (rg_authority_status current =s "PENDING"))
        "pinned receipt registry prior chain mismatch";
  configured (forallb (revoked_history (rg_entries current)) (pg_entries prior))
    "pinned receipt registry revoked history transition mismatch".

Definition load_pinned_registry : result ReceiptVerifyRegistry :=
  raw ← of_option ReceiptKeyConfigurationError "cannot read the pinned receipt public-key registry" keys_file;
  _ ← configured (body_digest sha256_hex raw =s PINNED_REGISTRY_RAW_DIGEST)
        "pinned receipt registry raw digest mismatch";
  document ← strict_json_document raw;
  _ ← configured (body_digest sha256_hex (canonical_dumps (JDict document)) =s PINNED_REGISTRY_DOCUMENT_DIGEST)
        "pinned receipt registry document digest mismatch";
  registry ← parse_registry_document raw;
  _ ← configured ((rg_generation registry =? PINNED_REGISTRY_GENERATION)
                  && (rg_authority_status registry =s PINNED_AUTHORITY_STATUS)
                  && is_str PINNED_PRIOR_REGISTRY_DIGEST (rg_prior_registry_digest registry)
                  && (rg_registry_digest registry =s PINNED_REGISTRY_BODY_DIGEST))
        "pinned receipt registry generation chain mismatch";
  _ ← (if 1 <? rg_generation registry
       then prior ← load_pinned_prior_registry; validate_registry_chain prior registry
       else Ok tt);
  Ok registry.

(** ** Keys and signatures *)

Definition keys_by_id (l : list ReceiptVerifyKey) : list (string * ReceiptVerifyKey) :=
  fold_left (fun d k => dict_set (vk_key_id k) k d) l [].

Definition load_verify_keys : result (list (string * ReceiptVerifyKey)) :=
  registry ← load_pinned_registry; Ok (keys_by_id (rg_active_keys registry)).

Definition load_audit_verify_keys : result (list (string * ReceiptVerifyKey)) :=
  registry ← load_pinned_registry; Ok (keys_by_id (rg_audit_keys registry)).

Definition load_scoped_verify_keys (environment instance : json) : result (list (string * ReceiptVerifyKey)) :=
  registry ← load_pinned_scoped_registry environment instance; Ok (keys_by_id (rg_active_keys registry)).

Definition load_scoped_audit_verify_keys (environment instance : json) : result (list (string * ReceiptVerifyKey)) :=
  registry ← load_pinned_scoped_registry environment instance; Ok (keys_by_id (rg_audit_keys registry)).

Definition well_formed_id (key_id : string) : bool := negb (key_id =s "") && (key_id =s strip key_id).

Definition key_status (entries : list RegistryEntry) (key_id : string) : result (option string) :=
  match filter (fun e => re_key_id e = key_id) entries with
  | [] => Ok None
  | [e] => Ok (Some (re_status e))
  | _ => misconfigured "receipt registry contains a duplicate key id"
  end.

Definition receipt_verify_key_status (key_id : string) : result (option string) :=
  if negb (well_formed_id key_id) then Ok None
  else registry ← load_pinned_registry; key_status (rg_entries registry) key_id.

Definition scoped_receipt_verify_key_status (key_id : string) (environment instance : json)
    : result (option string) :=
  if negb (well_formed_id key_id) then Ok None
  else registry ← load_pinned_scoped_registry environment instance; key_status (rg_entries registry) key_id.

(** [ReceiptVerifyKey.verify] *)
Definition key_verify (key : ReceiptVerifyKey) (body signature : string) : bool :=
  starts_with "ed25519:" signature
  && match decode_canonical_base64 (str_drop 8 signature) (Some 64%nat) with
     | None => false
     | Some raw => ed25519_verify (vk_public_key key) raw body
     end.

Definition verify_with (keys : list (string * ReceiptVerifyKey)) (key_id body signature : string) : bool :=
  match lookup_str key_id keys with None => false | Some key => key_verify key body signature end.

Definition verify_receipt_signature_values (body signature key_id environment instance : string) : result bool :=
  if negb (well_formed_id key_id) then Ok false
  else keys ← load_scoped_verify_keys (JStr environment) (JStr instance);
       Ok (verify_with keys key_id body signature).

Definition verify_receipt_signature_values_for_audit (body signature key_id : string) (environment instance : json)
    : result bool :=
  if negb (well_formed_id key_id) then Ok false
  else
    match environment, instance with
    | JNull, JNull => keys ← load_audit_verify_keys; Ok (verify_with keys key_id body signature)
    | JNull, _ | _, JNull => Ok false
    | _, _ => keys ← load_scoped_audit_verify_keys environment instance;
              Ok (verify_with keys key_id body signature)
    end.

Definition verify_receipt_signature (digests : dict) (environment instance : string) : result bool :=
  match getv "signed_body_b64" digests, getv "signature" digests, getv "issuer_key_id" digests with
  | JStr body_b64, JStr signature, JStr key_id =>
      if negb (well_formed_id key_id) then Ok false
      else match decode_canonical_signed_body body_b64 with
           | None => Ok false
           | Some body => verify_receipt_signature_values body signature key_id environment instance
           end
  | _, _, _ => Ok false
  end.
End Registries.

(** ** What a registry guarantees *)

Definition key_of (e : RegistryEntry) : ReceiptVerifyKey := mkKey (re_key_id e) (re_public_key_bytes e).

Definition with_status (statuses : list string) (entries : list RegistryEntry) : list RegistryEntry :=
  filter (fun e => re_status e ∈ statuses) entries.

(** Two keys with the same bytes are revoked. *)
Definition no_live_reuse (entries : list RegistryEntry) : Prop :=
  forall e1 e2, e1 ∈ entries -> e2 ∈ entries -> e1 <> e2 ->
    re_public_key_bytes e1 = re_public_key_bytes e2 -> re_status e1 = "revoked" /\ re_status e2 = "revoked".

Record entries_ok (entries : list RegistryEntry) : Prop := mkEntriesOk {
  eo_ids : NoDup (map re_key_id entries);
  eo_formed : Forall (fun e => well_formed_id (re_key_id e) = true) entries;
  eo_bytes : Forall (fun e => String.length (re_public_key_bytes e) = 32%nat) entries;
  eo_reuse : no_live_reuse entries;
}.

Record registry_ok (reg : ReceiptVerifyRegistry) : Prop := mkRegistryOk {
  ro_entries : entries_ok (rg_entries reg);
  ro_active : rg_active_keys reg = map key_of (with_status ["active"] (rg_entries reg));
  ro_audit : rg_audit_keys reg = map key_of (with_status ["active"; "revoked"] (rg_entries reg));
  ro_one : length (rg_active_keys reg) = (if rg_authority_status reg =s "ACTIVE" then 1 else 0)%nat;
  ro_pending : (length (with_status ["pending"] (rg_entries reg)) <= 1)%nat;
}.

(** What holds of a parse at every row. *)
Record parsing_ok (st : parsing) : Prop := mkParsingOk {
  po_entries : entries_ok (ps_entries st);
  po_ids : forall id, id ∈ ps_seen_ids st <-> id ∈ map re_key_id (ps_entries st);
  po_active : ps_active st = map (fun e => (re_key_id e, key_of e)) (with_status ["active"] (ps_entries st));
  po_audit : ps_audit st = map (fun e => (re_key_id e, key_of e)) (with_status ["active"; "revoked"] (ps_entries st));
  po_pending : ps_pending st = Z.of_nat (length (with_status ["pending"] (ps_entries st)));
  po_seen : forall bytes, match lookup_str bytes (ps_seen_status st) with
    | None => forall e, e ∈ ps_entries st -> re_public_key_bytes e <> bytes
    | Some status => forall e, e ∈ ps_entries st -> re_public_key_bytes e = bytes -> re_status e = status
    end;
}.

Lemma with_status_app statuses l k : with_status statuses (l ++ k) = with_status statuses l ++ with_status statuses k.
Proof. apply filter_app. Qed.

Lemma ids_with_status statuses l id : id ∈ map fst (map (fun e => (re_key_id e, key_of e)) (with_status statuses l)) ->
  id ∈ map re_key_id l.
Proof.
  rewrite map_map. intros (e & -> & He)%list_elem_of_fmap. apply list_elem_of_fmap. exists e.
  split; [done|]. by apply list_elem_of_filter in He as [_ ?].
Qed.

Lemma fresh_id_Ok row seen scope id : fresh_id row seen scope = Ok id -> well_formed_id id = true /\ id ∉ seen.
Proof.
  unfold fresh_id, well_formed_id. intros H. binds H. injection H as <-. ensures.
  split; [|by intros ?]. by apply andb_true_iff; split; [apply negb_true_iff, bool_decide_eq_false_2|apply bool_decide_eq_true_2].
Qed.

Lemma public_key_of_Ok value scope raw : public_key_of value scope = Ok raw -> String.length raw = 32%nat.
Proof.
  unfold public_key_of. destruct (decode_canonical_base64 value (Some 32%nat)) eqn:E; [|done].
  intros [= ->]. apply decode_canonical_Some in E as [_ H]. by apply H.
Qed.

Lemma parse_key_row_Ok scope st row st' : parse_key_row scope st row = Ok st' ->
  exists id raw status, well_formed_id id = true /\ (id ∉ ps_seen_ids st) /\ String.length raw = 32%nat /\
    status ∈ ["active"; "pending"; "revoked"] /\
    reuse_allowed (lookup_str raw (ps_seen_status st)) status = true /\
    st' = mkParsing
      (if status =s "active" then dict_set id (mkKey id raw) (ps_active st) else ps_active st)
      (if (status =s "active") || (status =s "revoked") then dict_set id (mkKey id raw) (ps_audit st) else ps_audit st)
      (ps_entries st ++ [mkEntry id raw status]) (id :: ps_seen_ids st)
      (dict_set raw status (ps_seen_status st))
      (if status =s "pending" then ps_pending st + 1 else ps_pending st).
Proof.
  unfold parse_key_row. intros H. binds H. injection H as <-.
  apply fresh_id_Ok in E0 as [Hw Hf]. apply public_key_of_Ok in E3. ensures.
  eexists _, _, _. split_and!; [exact Hw|exact Hf|exact E3|eassumption|eassumption|done].
Qed.

Lemma entries_ok_snoc entries id raw status :
  entries_ok entries -> well_formed_id id = true -> id ∉ map re_key_id entries -> String.length raw = 32%nat ->
  (forall e, e ∈ entries -> re_public_key_bytes e = raw -> re_status e = "revoked" /\ status = "revoked") ->
  entries_ok (entries ++ [mkEntry id raw status]).
Proof.
  intros [Hn Hw Hb Hr] Hid Hfresh Hlen Hreuse. split.
  - rewrite map_app. apply NoDup_app. split_and!; [done| |apply NoDup_singleton].
    intros x Hx ->%list_elem_of_singleton. done.
  - apply Forall_app. by repeat constructor.
  - apply Forall_app. by repeat constructor.
  - intros e1 e2 H1 H2 Hne Heq. apply elem_of_app in H1, H2. rewrite !list_elem_of_singleton in H1, H2.
    destruct H1 as [H1| ->], H2 as [H2| ->]; simpl in *; [by apply Hr| | |done].
    + by apply Hreuse.
    + by apply and_comm, Hreuse.
Qed.

Lemma parse_key_row_ok scope st row st' :
  parsing_ok st -> parse_key_row scope st row = Ok st' -> parsing_ok st'.
Proof.
  intros [He Hi Ha Hu Hp Hs] H.
  apply parse_key_row_Ok in H as (id & raw & status & Hid & Hfresh & Hlen & Hst & Hreuse & ->).
  assert (Hold : id ∉ map re_key_id (ps_entries st)) by (by rewrite <- Hi).
  split; cbn [ps_entries ps_seen_ids ps_active ps_audit ps_pending ps_seen_status].
  - apply entries_ok_snoc; try done. intros e Hin Hbytes. specialize (Hs raw).
    destruct (lookup_str raw (ps_seen_status st)) as [s|]; [|by destruct (Hs e Hin)].
    rewrite (Hs e Hin Hbytes). simpl in Hreuse. by bools.
  - intros id'. rewrite map_app, elem_of_app. simpl.
    rewrite (elem_of_cons (ps_seen_ids st)), list_elem_of_singleton, Hi. tauto.
  - rewrite with_status_app, map_app, <- Ha. unfold with_status at 1. rewrite filter_cons, filter_nil. simpl.
    destruct (status =s "active") eqn:E; bools.
    + rewrite decide_True by (subst; by left). rewrite dict_set_fresh; [done|].
      rewrite Ha. by intros Hx%ids_with_status.
    + rewrite decide_False by set_solver. by rewrite app_nil_r.
  - rewrite with_status_app, map_app, <- Hu. unfold with_status at 1. rewrite filter_cons, filter_nil. simpl.
    destruct ((status =s "active") || (status =s "revoked")) eqn:E.
    + rewrite decide_True by (apply orb_true_iff in E as [E|E]; bools; subst; set_solver).
      rewrite dict_set_fresh; [done|]. rewrite Hu. by intros Hx%ids_with_status.
    + bools. rewrite decide_False by set_solver. by rewrite app_nil_r.
  - rewrite with_status_app, length_app. unfold with_status at 2. rewrite filter_cons, filter_nil. simpl.
    destruct (status =s "pending") eqn:E; bools.
    + rewrite decide_True by (subst; by left). simpl. lia.
    + rewrite decide_False by set_solver. simpl. lia.
  - intros bytes. rewrite lookup_dict_set. destruct (bytes =s raw) eqn:E; bools.
    + subst. intros e. rewrite elem_of_app, list_elem_of_singleton. intros [Hin| ->] Hbytes; [|done].
      specialize (Hs raw). destruct (lookup_str raw (ps_seen_status st)) as [s|]; [|by destruct (Hs e Hin)].
      rewrite (Hs e Hin Hbytes). simpl in Hreuse. by bools; subst.
    + specialize (Hs bytes). destruct (lookup_str bytes (ps_seen_status st)) as [s|];
        intros e; rewrite elem_of_app, list_elem_of_singleton; intros [Hin| ->]; simpl; eauto; congruence.
Qed.

Lemma parse_key_rows_ok scope rows st : parse_key_rows scope rows = Ok st -> parsing_ok st.
Proof.
  intros H. revert H. apply foldR_inv.
  - intros s x s' _. apply parse_key_row_ok.
  - split; simpl; try done; [|intros bytes e He; by apply elem_of_nil in He].
    split; try done; [constructor|intros e1 e2 He; by apply elem_of_nil in He].
Qed.

Lemma checked_registry_ok scope rows status st : parse_key_rows scope rows = Ok st ->
  check_lifecycle scope status st = Ok tt ->
  entries_ok (ps_entries st) /\
  map snd (ps_active st) = map key_of (with_status ["active"] (ps_entries st)) /\
  map snd (ps_audit st) = map key_of (with_status ["active"; "revoked"] (ps_entries st)) /\
  length (map snd (ps_active st)) = (if status =s "ACTIVE" then 1 else 0)%nat /\
  (length (with_status ["pending"] (ps_entries st)) <= 1)%nat.
Proof.
  intros Hp Hc. destruct (parse_key_rows_ok _ _ _ Hp) as [He _ Ha Hu Hn _].
  unfold check_lifecycle in Hc. binds Hc. ensures. split_and!.
  - done.
  - by rewrite Ha, map_map.
  - by rewrite Hu, map_map.
  - rewrite length_map. destruct (status =s "ACTIVE"); lia.
  - lia.
Qed.

Section Keys.
Context (sha256_hex : string -> string) (loads : string -> option json)
  (ed25519_verify : string -> string -> string -> bool)
  (keys_file prior_file instances_file : option string) (scoped_file : string -> option string).

Abbreviation parse_scoped := (parse_scoped_registry_document sha256_hex loads instances_file).
Abbreviation load_scoped := (load_pinned_scoped_registry sha256_hex loads instances_file scoped_file).
Abbreviation load_legacy := (load_pinned_registry sha256_hex loads keys_file prior_file).
Abbreviation verify_values :=
  (verify_receipt_signature_values sha256_hex loads ed25519_verify instances_file scoped_file).

Lemma parse_registry_ok raw reg : parse_registry_document sha256_hex loads raw = Ok reg -> registry_ok reg.
Proof.
  unfold parse_registry_document. intros H. binds H. injection H as <-. destruct a3.
  match goal with H : check_lifecycle _ _ _ = Ok _ |- _ => eapply checked_registry_ok in H as (?&?&?&?&?); [|eassumption] end.
  by split.
Qed.

Lemma parse_scoped_ok raw reg : parse_scoped raw = Ok reg -> registry_ok reg.
Proof.
  unfold parse_scoped_registry_document. intros H. binds H. injection H as <-. destruct a4.
  match goal with H : check_lifecycle _ _ _ = Ok _ |- _ => eapply checked_registry_ok in H as (?&?&?&?&?); [|eassumption] end.
  by split.
Qed.

Lemma load_scoped_ok environment instance reg : load_scoped environment instance = Ok reg -> registry_ok reg.
Proof.
  unfold load_pinned_scoped_registry. destruct environment, instance; try done. intros H. binds H.
  injection H as <-. by eapply parse_scoped_ok.
Qed.

Lemma load_legacy_ok reg : load_legacy = Ok reg -> registry_ok reg.
Proof.
  unfold load_pinned_registry. intros H. binds H. injection H as <-. by eapply parse_registry_ok.
Qed.

(** A parsed registry of either format is well formed: its key ids are
    trimmed and distinct, its keys have 32 bytes and share them only when revoked,
    the keys that verify are exactly the active ones, one if the authority is
    ACTIVE and none otherwise, audits also see the revoked ones and never a
    pending one, and at most one key is pending. *)
Theorem registry_sound raw reg :
  parse_scoped raw = Ok reg \/ parse_registry_document sha256_hex loads raw = Ok reg -> registry_ok reg.
Proof. intros [H|H]; [by eapply parse_scoped_ok|by eapply parse_registry_ok]. Qed.

(** [{f(x): x for x in l}.get(id)] *)
Lemma index_lookup_from {A} (f : A -> string) (l : list A) d id x :
  lookup_str id (fold_left (fun d y => dict_set (f y) y d) l d) = Some x ->
  (x ∈ l /\ f x = id) \/ lookup_str id d = Some x.
Proof.
  revert d. induction l as [|y l IH]; intros d; simpl; [by right|].
  intros [[Hin Hid]|H]%IH; [left; split; [by right|done]|].
  rewrite lookup_dict_set in H. destruct (id =s f y) eqn:E; [|by right].
  bools. injection H as ->. left. split; [by left|done].
Qed.

Lemma index_lookup {A} (f : A -> string) (l : list A) id x :
  lookup_str id (fold_left (fun d y => dict_set (f y) y d) l []) = Some x -> x ∈ l /\ f x = id.
Proof. by intros [H|H]%index_lookup_from. Qed.

(** A signature of [body] under [key]: its text is canonical and it verifies. *)
Definition signs (key : ReceiptVerifyKey) (body signature : string) : Prop :=
  exists raw, str_drop 8 signature = b64encode raw /\ String.length raw = 64%nat /\
    starts_with "ed25519:" signature = true /\ ed25519_verify (vk_public_key key) raw body = true.

Lemma key_verify_signs key body signature : key_verify ed25519_verify key body signature = true ->
  signs key body signature.
Proof.
  unfold key_verify. intros H. apply andb_true_iff in H as [Hp H].
  destruct (decode_canonical_base64 _ _) as [raw|] eqn:E; [|done]. exists raw.
  apply decode_canonical_Some in E as [E Hn]. split_and!; try done. by apply Hn.
Qed.

Lemma verify_values_active body signature key_id environment instance :
  verify_values body signature key_id environment instance = Ok true ->
  exists reg key, load_scoped (JStr environment) (JStr instance) = Ok reg /\
    rg_authority_status reg = "ACTIVE" /\ rg_active_keys reg = [key] /\ vk_key_id key = key_id /\
    signs key body signature.
Proof.
  unfold verify_receipt_signature_values. destruct (negb (well_formed_id key_id)); [done|].
  unfold load_scoped_verify_keys. intros H. binds H. injection H as H.
  apply bind_Ok in E as (reg & E & [= <-]).
  unfold verify_with in H. destruct (lookup_str key_id _) as [key|] eqn:El; [|done].
  apply index_lookup in El as [Hin Hid]. exists reg, key.
  match goal with H : load_scoped _ _ = Ok _ |- _ => pose proof (load_scoped_ok _ _ _ H) as Hr end.
  pose proof (ro_one _ Hr) as Hone. destruct (rg_authority_status reg =s "ACTIVE") eqn:Es; bools.
  - destruct (rg_active_keys reg) as [|k [|]]; try done. apply list_elem_of_singleton in Hin as ->.
    split_and!; try done. by apply key_verify_signs.
  - destruct (rg_active_keys reg); [by apply elem_of_nil in Hin|done].
Qed.

(** A signature is accepted only from the one active key of an ACTIVE
    registry that is pinned for exactly the given environment and authority, under
    its own id, in canonical Base64 of 64 bytes, and when Ed25519 verifies it. *)
Theorem accepted_signature body signature key_id environment instance :
  verify_values body signature key_id environment instance = Ok true ->
  (environment ∈ ENVIRONMENTS /\ instance = PINNED_INSTANCE_DIGEST environment) /\
  exists reg key, load_scoped (JStr environment) (JStr instance) = Ok reg /\
    rg_environment reg = Some environment /\ rg_authority_status reg = "ACTIVE" /\
    rg_active_keys reg = [key] /\ vk_key_id key = key_id /\ signs key body signature.
Proof.
  intros H. apply verify_values_active in H as (reg & key & Hl & Hs & Ha & Hid & Hsig). split.
  - unfold load_pinned_scoped_registry in Hl. binds Hl. ensures.
    unfold receipt_authority_instance_digest in *. 
    match goal with H : (_ ≫= _) = Ok _ |- _ => binds H; injection H as <- end. by ensures.
  - exists reg, key. split_and!; try done.
    unfold load_pinned_scoped_registry in Hl. binds Hl. injection Hl as <-. by ensures.
Qed.

Lemma load_legacy_pinned reg prior : load_legacy = Ok reg ->
  load_pinned_prior_registry sha256_hex loads prior_file = Ok prior ->
  rg_authority_status reg = "PENDING" /\
  Forall (fun e => revoked_history (rg_entries reg) e = true) (pg_entries prior).
Proof.
  intros Hl Hp. unfold load_pinned_registry in Hl. rewrite Hp in Hl. binds Hl. injection Hl as <-. ensures.
  split; [done|].
  match goal with H : (if _ then _ else _) = Ok _, G : rg_generation _ = _ |- _ => rewrite G in H; simpl in H; rename H into Hc end.
  unfold validate_registry_chain in Hc. binds Hc. ensures. apply Forall_forall. intros e He.
  rewrite forallb_forall in Hc. by apply Hc, list_elem_of_In.
Qed.

(** The predecessor's keys stay revoked: whatever the files hold, when
    the pinned legacy registry loads it grants no key to verify with, and every
    key of its predecessor is in it with the same bytes, revoked, and open to
    audits. *)
Theorem legacy_keys_revoked reg prior : load_legacy = Ok reg ->
  load_pinned_prior_registry sha256_hex loads prior_file = Ok prior ->
  load_verify_keys sha256_hex loads keys_file prior_file = Ok [] /\
  Forall (fun e => exists e', e' ∈ rg_entries reg /\ re_key_id e' = re_key_id e /\
    re_public_key_bytes e' = re_public_key_bytes e /\ re_status e' = "revoked" /\
    key_of e' ∈ rg_audit_keys reg) (pg_entries prior).
Proof.
  intros Hl Hp. pose proof (load_legacy_ok _ Hl) as Hok. pose proof (load_legacy_pinned _ _ Hl Hp) as [Hs Hf].
  split.
  - unfold load_verify_keys. rewrite Hl. cbn [mbind result_bind]. pose proof (ro_one _ Hok) as Hone.
    rewrite Hs in Hone. by destruct (rg_active_keys reg).
  - eapply Forall_impl; [exact Hf|]. intros e He. unfold revoked_history, entry_by_id in He.
    destruct (lookup_str _ _) as [e'|] eqn:El; [|done]. apply index_lookup in El as [Hin Hid]. bools.
    exists e'. split_and!; try done. rewrite (ro_audit _ Hok). apply list_elem_of_fmap. exists e'.
    split; [done|]. apply list_elem_of_filter. split; [|done]. set_solver.
Qed.

Lemma filter_id_unique entries id : NoDup (map re_key_id entries) ->
  filter (fun e => re_key_id e = id) entries = [] \/
  exists e, filter (fun e => re_key_id e = id) entries = [e].
Proof.
  induction entries as [|e entries IH]; [by left|]. simpl. intros [Hnot Hn]%NoDup_cons. rewrite filter_cons.
  case_decide as Hid; [|by apply IH]. right. exists e. f_equal. subst.
  destruct (filter _ entries) as [|x l] eqn:E; [done|]. exfalso. apply Hnot.
  assert (Hx : x ∈ filter (fun e' => re_key_id e' = re_key_id e) entries) by (rewrite E; by left).
  apply list_elem_of_filter in Hx as [<- Hx]. apply list_elem_of_fmap. by exists x.
Qed.

(** The lifecycle of a key id is always answered once the scoped
    registry loads (the duplicate-id error cannot occur): it is the status of the
    registry's entry with that id, and nothing when there is none. *)
Theorem key_status_spec key_id environment instance reg :
  load_scoped environment instance = Ok reg ->
  exists status, scoped_receipt_verify_key_status sha256_hex loads instances_file scoped_file
      key_id environment instance = Ok status /\
    forall s, status = Some s <->
      exists e, e ∈ rg_entries reg /\ re_key_id e = key_id /\ re_status e = s.
Proof.
  intros Hl. pose proof (ro_entries _ (load_scoped_ok _ _ _ Hl)) as [Hn Hw _ _].
  unfold scoped_receipt_verify_key_status. destruct (negb (well_formed_id key_id)) eqn:Ew.
  - exists None. split; [done|]. intros s. split; [done|]. intros (e & He & <- & _). rewrite Forall_forall in Hw.
    by rewrite (Hw e He) in Ew.
  - rewrite Hl. cbn [mbind result_bind]. unfold key_status.
    destruct (filter_id_unique _ key_id Hn) as [E|(e & E)]; rewrite E.
    + exists None. split; [done|]. intros s. split; [done|]. intros (e & He & Hid & _).
      assert (Hx : e ∈ filter (fun e => re_key_id e = key_id) (rg_entries reg)) by by apply list_elem_of_filter.
      rewrite E in Hx. by apply elem_of_nil in Hx.
    + exists (Some (re_status e)). split; [done|].
      assert (Hx : e ∈ filter (fun e => re_key_id e = key_id) (rg_entries reg)) by (rewrite E; by left).
      apply list_elem_of_filter in Hx as [Hid Hx]. intros s. split; [intros [= <-]; by exists e|].
      intros (e' & He' & Hid' & <-).
      assert (Hy : e' ∈ filter (fun e => re_key_id e = key_id) (rg_entries reg)) by by apply list_elem_of_filter.
      rewrite E in Hy. by apply list_elem_of_singleton in Hy as ->.
Qed.
End Keys.

(** ** The committed registries

    The files of the repository, under the real digest, pass every check of their
    loaders; [PinnedRegistries] holds their documents. *)

Abbreviation repository_scoped :=
  (load_pinned_scoped_registry hexdigest loads_documents (Some (file_text authority_instances)) scoped_file).
Abbreviation repository_legacy :=
  (load_pinned_registry hexdigest loads_documents (Some (file_text legacy_registry)) (Some (file_text prior_registry))).

Definition staging_key : ReceiptVerifyKey :=
  mkKey "receipt-staging-98fa0160de908051"
    (default "" (b64decode "QefUnSikny/jxE1mWY0yHT8hXezlziIBTA9HZcLN48c=")).

Example production_pending : match repository_scoped (JStr "production")
    (JStr (PINNED_INSTANCE_DIGEST "production")) with
  | Ok reg => rg_authority_status reg = "PENDING" /\ rg_active_keys reg = []
  | Err _ => False
  end.
Proof. by vm_compute. Qed.

Definition staging_loaded : result ReceiptVerifyRegistry := Eval vm_compute in
  repository_scoped (JStr "staging") (JStr (PINNED_INSTANCE_DIGEST "staging")).

Lemma staging_loads : repository_scoped (JStr "staging") (JStr (PINNED_INSTANCE_DIGEST "staging")) = staging_loaded.
Proof. vm_compute. reflexivity. Qed.

Example staging_active : match repository_scoped (JStr "staging") (JStr (PINNED_INSTANCE_DIGEST "staging")) with
  | Ok reg => rg_authority_status reg = "ACTIVE" /\ rg_active_keys reg = [staging_key]
  | Err _ => False
  end.
Proof. rewrite staging_loads. by vm_compute. Qed.

(** A check that accepts one signature. *)
Definition toy_ed25519 (key signature body : string) : bool := signature =s str_take 64 (body +:+ key +:+ key).
Definition toy_signed (body : string) : string :=
  "ed25519:" +:+ b64encode (str_take 64 (body +:+ vk_public_key staging_key +:+ vk_public_key staging_key)).

Lemma registry_sound_witness : exists reg,
  parse_scoped_registry_document hexdigest loads_documents (Some (file_text authority_instances))
    (file_text staging_registry) = Ok reg /\ registry_ok reg.
Proof.
  eexists. split; [vm_compute; reflexivity|].
  eapply (registry_sound hexdigest loads_documents (Some (file_text authority_instances)) (file_text staging_registry)).
  left. vm_compute. reflexivity.
Defined.

Lemma accepted_signature_witness : exists reg key,
  repository_scoped (JStr "staging") (JStr (PINNED_INSTANCE_DIGEST "staging")) = Ok reg /\
  rg_active_keys reg = [key] /\ vk_key_id key = "receipt-staging-98fa0160de908051".
Proof.
  destruct (accepted_signature hexdigest loads_documents toy_ed25519 (Some (file_text authority_instances)) scoped_file
    "body" (toy_signed "body") "receipt-staging-98fa0160de908051" "staging" (PINNED_INSTANCE_DIGEST "staging"))
    as (_ & reg & key & Hl & _ & _ & Ha & Hid & _).
  { unfold verify_receipt_signature_values, load_scoped_verify_keys. rewrite staging_loads. vm_compute. reflexivity. }
  exists reg, key. split; [exact Hl|]. split; [exact Ha|exact Hid].
Defined.

Lemma legacy_keys_revoked_witness :
  load_verify_keys hexdigest loads_documents (Some (file_text legacy_registry)) (Some (file_text prior_registry)) = Ok [].
Proof.
  eapply (legacy_keys_revoked hexdigest loads_documents (Some (file_text legacy_registry))
    (Some (file_text prior_registry))); vm_compute; reflexivity.
Defined.

Lemma key_status_spec_witness : exists status,
  scoped_receipt_verify_key_status hexdigest loads_documents (Some (file_text authority_instances)) scoped_file
    "receipt-staging-98fa0160de908051" (JStr "staging") (JStr (PINNED_INSTANCE_DIGEST "staging")) = Ok status.
Proof.
  edestruct (key_status_spec hexdigest loads_documents (Some (file_text authority_instances)) scoped_file
    "receipt-staging-98fa0160de908051" (JStr "staging") (JStr (PINNED_INSTANCE_DIGEST "staging"))) as (status & H & _);
    [exact staging_loads|]. exists status. exact H.
Defined.
