(* ===== verification/Receipt.v ===== *)
(** * Receipt: collection receipts and their verification
    (packages/data_plane/storage/verified_receipt.py,
    packages/data_plane/storage/coverage_receipts.py, the claim names and digests
    of packages/data_plane/storage/receipt_crypto.py)

    A persisted receipt is an untrusted mirror of signed claims.  Verification
    decodes the signed body, checks the signature and the claims' digests, and
    compares every field of the receipt, of its envelope and of the required
    segment with the signed one; what it returns is the closure that coverage
    evaluates.  Parameters: SHA-256, the decoder of the body's JSON text (UTF-8
    and [json.loads] with the hooks that refuse repeated keys and non-finite
    numbers; [None] when it raises), the JSON schema check of the [jsonschema]
    package, and the signature check against the registry of public keys. *)

From S2P Require Import Prelude PyDate Json Base64 ReceiptCrypto SourceCapability CoverageContract CoveragePlan.

Local Open Scope Z_scope.

(** ** Constants *)

(** The envelope fields with string values, and all of them. *)
Definition SIGNED_ENVELOPE_STRINGS : list string :=
  ["eligibility"; "issuer_class"; "issuer_key_id"; "issuer_id"; "parser_normalizer_version";
   "signed_body_b64"; "signature"; "body_digest"; "issued_at"; "checked_at";
   "source_request_digest"; "raw_manifest_digest"; "raw"; "structured_digest"; "scope_digest";
   "observation_digest"].

Definition SIGNED_ENVELOPE_FIELDS : list string :=
  SIGNED_ENVELOPE_STRINGS ++ ["structured_generation"; "extra_digests"].

Definition V3_SIGNED_ENVELOPE_FIELDS : list string :=
  SIGNED_ENVELOPE_FIELDS ++ ["environment"; "authority_instance_digest"].

Definition AUTHORITY_BASE_EXTRA_DIGEST_FIELDS : list string :=
  ["acquisition_collection_manifest_file_digest"; "acquisition_collection_digest";
   "acquisition_terminal_chain_digest"; "product_artifact_digest"; "product_manifest_digest"].

Definition JQUANTS_MASTER_CALENDAR_EXTRA_DIGEST_FIELDS : list string :=
  ["official_calendar_evidence_digest"; "official_calendar_raw_body_digest";
   "official_calendar_query_digest"; "official_business_dates_digest";
   "official_calendar_binding_digest"].

Definition EXPECTED_EMPTY_WITH_EVIDENCE : string := "EXPECTED_EMPTY_WITH_EVIDENCE".

(** ** Receipts *)

Record CollectionReceipt := mkReceipt {
  rc_source : string;
  rc_dataset : string;
  rc_segment_id : string;
  rc_segment_start : string;
  rc_segment_end : string;
  rc_expected_scope : dict;
  rc_expected_items : option Z;
  rc_observed_items : Z;
  rc_raw_page_count : Z;
  rc_raw_row_count : Z;
  rc_structured_row_count : Z;
  rc_pagination_exhausted : bool;
  rc_digests : dict;
  rc_run_id : Z;
  rc_status : string;
  rc_error : option string;
  rc_checked_at : string;
}.

(** ** JSON values and claims *)

(** No floats, and no key twice: what [_copy_exact_json] copies unchanged. *)
Fixpoint exact_json (j : json) : bool :=
  match j with
  | JFloat _ => false
  | JList l => forallb exact_json l
  | JDict d => bool_decide (NoDup (map fst d)) && forallb (fun p => exact_json p.2) d
  | _ => true
  end.

Definition copy_exact_json (j : json) : result json :=
  _ ← ensure (exact_json j) ReceiptVerificationError "must contain only exact JSON built-in values";
  Ok j.

Definition copy_exact_dict (d : dict) : result dict :=
  _ ← copy_exact_json (JDict d); Ok d.

(** Python's [==] on JSON values: dicts are compared by key, and [True == 1].
    Floats do not occur where it is used. *)
Fixpoint py_eq (a b : json) {struct a} : bool :=
  match a, b with
  | JNull, JNull => true
  | JBool x, JBool y => Bool.eqb x y
  | JBool x, JInt n | JInt n, JBool x => n =? (if x then 1 else 0)
  | JInt x, JInt y => x =? y
  | JFloat x, JFloat y => x =s y
  | JStr x, JStr y => x =s y
  | JList l, JList m =>
      (fix go l m := match l, m with
         | [], [] => true
         | x :: l, y :: m => py_eq x y && go l m
         | _, _ => false
         end) l m
  | JDict d, JDict e =>
      (length d =? length e)%nat &&
      (fix go d := match d with
         | [] => true
         | (k, v) :: d => match get k e with Some w => py_eq v w | None => false end && go d
         end) d
  | _, _ => false
  end.

Inductive json_type := TNull | TBool | TInt | TFloat | TStr | TList | TDict.

#[export] Instance json_type_eq_dec : EqDecision json_type.
Proof. solve_decision. Defined.

Definition type_of (j : json) : json_type :=
  match j with
  | JNull => TNull | JBool _ => TBool | JInt _ => TInt | JFloat _ => TFloat
  | JStr _ => TStr | JList _ => TList | JDict _ => TDict
  end.

(** [_same]: equal values of the same type; the types inside lists and dicts are
    not compared. *)
Definition same (left right : json) : bool :=
  bool_decide (type_of left = type_of right) && py_eq left right.

Definition require_same (signed_value outer_value : json) : result unit :=
  ensure (same signed_value outer_value) ReceiptVerificationError "signed value does not bind untrusted receipt".

(** [claims[name]] *)
Definition claim (claims : dict) (name : string) : result json :=
  of_option KeyError "missing claim" (get name claims).

Definition require_claim (claims : dict) (binding : string * json) : result unit :=
  value ← claim claims binding.1; require_same value binding.2.

Fixpoint require_all (claims : dict) (bindings : list (string * json)) : result unit :=
  match bindings with
  | [] => Ok tt
  | b :: bindings => _ ← require_claim claims b; require_all claims bindings
  end.

Definition opt_int (o : option Z) : json := match o with Some n => JInt n | None => JNull end.

Definition nonempty_str (v : json) : bool := match v with JStr s => negb (s =s "") | _ => false end.

Record FrozenReceiptInput := mkFrozen {
  fr_outer : CollectionReceipt;
  fr_digests : dict;
  fr_claims : dict;
  fr_signed_body : string;
}.

Record VerifiedCollectionClosure := mkClosure {
  vc_claims : dict;
  vc_receipt_digest : string;
}.

(** ** Verification *)

Section Verify.
Variable sha256_hex : string -> string.
Variable loads_claims : string -> option json.
Variable schema_valid : dict -> bool.
(** Body, signature, key id, environment and authority instance. *)
Variable verify_receipt_signature_values : string -> string -> string -> string -> string -> result bool.
(** The same against revoked keys too; the scope is null for receipts before
    version 3. *)
Variable verify_receipt_signature_values_for_audit : string -> string -> string -> json -> json -> result bool.

Abbreviation fail_closed := (raise ReceiptVerificationError) (only parsing).

Definition compute_raw_digest (raw : string) : string := "sha256:" +:+ sha256_hex raw.

Definition decode_strict_signed_claims (body_b64 : string) : result (dict * string) :=
  match decode_canonical_signed_body body_b64 with
  | None => raise ReceiptVerificationError "signed body is not canonical base64"
  | Some raw =>
      match loads_claims raw with
      | None => raise ReceiptVerificationError "signed body is not valid JSON"
      | Some (JDict claims) => claims ← copy_exact_dict claims; Ok (claims, raw)
      | Some _ => raise ReceiptVerificationError "signed body must be an object"
      end
  end.

(** The fields of a typed receipt: its strings and counts. *)
Definition receipt_strings (r : CollectionReceipt) : list string :=
  [rc_source r; rc_dataset r; rc_segment_id r; rc_segment_start r; rc_segment_end r; rc_status r;
   rc_checked_at r].

Definition receipt_counts (r : CollectionReceipt) : list Z :=
  [rc_observed_items r; rc_raw_page_count r; rc_raw_row_count r; rc_structured_row_count r; rc_run_id r].

Definition non_negative (o : option Z) : bool := match o with Some n => 0 <=? n | None => true end.

Definition envelope_contract (claims : dict) : list string :=
  if bool_decide (getv "version" claims = JStr SIGNED_RECEIPT_CLAIMS_VERSION)
  then V3_SIGNED_ENVELOPE_FIELDS else SIGNED_ENVELOPE_FIELDS.

Definition materialize_receipt_input (receipt : CollectionReceipt) : result FrozenReceiptInput :=
  _ ← ensure (forallb (fun s => negb (s =s "")) (receipt_strings receipt)) ReceiptVerificationError
        "receipt string fields must be exact non-empty strings";
  _ ← ensure (forallb (fun n => 0 <=? n) (receipt_counts receipt)) ReceiptVerificationError
        "receipt count/run fields must be exact non-negative integers";
  _ ← ensure (non_negative (rc_expected_items receipt)) ReceiptVerificationError
        "receipt expected_items must be an exact non-negative integer or null";
  _ ← copy_exact_dict (rc_expected_scope receipt);
  digests ← copy_exact_dict (rc_digests receipt);
  match getv "signed_body_b64" digests with
  | JStr body_b64 =>
      _ ← ensure (negb (body_b64 =s "")) ReceiptVerificationError "missing signed_body_b64";
      '(claims, signed_body) ← decode_strict_signed_claims body_b64;
      match getv "extra_digests" claims with
      | JDict extras =>
          let contract := envelope_contract claims in
          _ ← ensure (same_keys (keys digests) (contract ++ keys extras)) ReceiptVerificationError
                "signed receipt envelope fields are not closed";
          _ ← ensure (forallb (fun field => nonempty_str (getv field digests))
                (filter (fun f => f ∉ ["structured_generation"; "extra_digests"]) contract))
                ReceiptVerificationError "signed receipt envelope strings must be exact and non-empty";
          match getv "structured_generation" digests, getv "extra_digests" digests with
          | JInt generation, JDict _ =>
              _ ← ensure (0 <=? generation) ReceiptVerificationError
                    "signed receipt envelope structured values are invalid";
              Ok (mkFrozen receipt digests claims signed_body)
          | _, _ => raise ReceiptVerificationError "signed receipt envelope structured values are invalid"
          end
      | _ => raise ReceiptVerificationError "signed extra_digests must be an exact object"
      end
  | _ => raise ReceiptVerificationError "missing signed_body_b64"
  end.

(** The extra digests the authority issues for the source and dataset. *)
Definition expected_extra_fields (claims : dict) : list string :=
  AUTHORITY_BASE_EXTRA_DIGEST_FIELDS ++
  if bool_decide (getv "source" claims = JStr "jquants")
     && bool_decide (getv "dataset" claims = JStr "equities_master")
  then JQUANTS_MASTER_CALENDAR_EXTRA_DIGEST_FIELDS else [].

Definition validate_v3_dataset_digest_inventory (claims : dict) : result unit :=
  match getv "extra_digests" claims with
  | JDict extras =>
      let expected := expected_extra_fields claims in
      _ ← ensure (same_keys (keys extras) expected) ReceiptVerificationError
            "signed J-Quants authority digest inventory does not match source/dataset";
      _ ← ensure (forallb (fun name => is_sha256 (getv name extras)) expected) ReceiptVerificationError
            "signed J-Quants authority digest is not sha256";
      ensure (py_eq (getv "product_artifact_digest" extras) (getv "structured_digest" claims))
        ReceiptVerificationError "signed product artifact digest does not bind structured digest"
  | _ => raise ReceiptVerificationError "signed extra_digests must be an exact object"
  end.

(** [d.setdefault(k, v)] *)
Definition set_default (k : string) (v : json) (d : dict) : dict := if has_key k d then d else dict_set k v d.

Fixpoint zeros (n : nat) : string := match n with O => EmptyString | S n => String "0" (zeros n) end.

Definition SCHEMA_ONLY_DIGEST : string := "sha256:" +:+ zeros 64.

Definition normalize_legacy_claims_for_schema (claims : dict) (environment instance : string) : dict :=
  let defaults :=
    [("environment", JStr environment); ("authority_instance_digest", JStr instance);
     ("contract_id", JStr "schema-only-legacy-contract"); ("receipt_issue_digest", JStr SCHEMA_ONLY_DIGEST);
     ("artifact_key", JStr "schema-only/legacy/artifact"); ("artifact_byte_count", JInt 1);
     ("manifest_key", JStr "schema-only/legacy/manifest"); ("manifest_byte_count", JInt 1);
     ("raw_manifest_key", JStr "schema-only/legacy/raw-manifest"); ("raw_manifest_byte_count", JInt 1);
     ("raw_byte_count", JInt 1); ("natural_key_digest", JStr SCHEMA_ONLY_DIGEST)] in
  let normalized := fold_left (fun d p => set_default p.1 p.2 d) defaults
    (dict_set "version" (JStr SIGNED_RECEIPT_CLAIMS_VERSION) claims) in
  dict_set "extra_digests" (JDict (map (fun name => (name, JStr SCHEMA_ONLY_DIGEST)) (expected_extra_fields normalized)))
    normalized.

Definition SCOPE_NAMES : list string :=
  ["coverage_policy_version"; "source"; "dataset"; "segment_id"; "segment_start"; "segment_end";
   "expected_scope"; "expected_items"].

Definition ENVIRONMENT_NAMES : list string := ["environment"; "authority_instance_digest"; "contract_id"].

Definition OBSERVATION_NAMES : list string :=
  ["observed_items"; "raw_page_count"; "raw_count"; "structured_count"; "status"; "error";
   "pagination_exhausted"; "discovery_exhausted"].

Definition ARTIFACT_NAMES : list string :=
  ["receipt_issue_digest"; "artifact_key"; "artifact_byte_count"; "manifest_key"; "manifest_byte_count";
   "raw_manifest_key"; "raw_manifest_byte_count"; "raw_byte_count"; "natural_key_digest"].

Definition EVIDENCE_NAMES : list string :=
  ["source_request_digest"; "raw_manifest_digest"; "raw_digest"; "structured_digest";
   "structured_generation"; "scope_digest"; "run_id"; "checked_at"; "extra_digests"].

(** [{name: claims[name] for name in names}] *)
Definition pick (claims : dict) (names : list string) : result dict :=
  mapR (fun name => value ← claim claims name; Ok (name, value)) names.

Definition scope_names (environment_scoped : bool) : list string :=
  SCOPE_NAMES ++ if environment_scoped then ENVIRONMENT_NAMES else [].

Definition observation_names (environment_scoped : bool) : list string :=
  scope_names environment_scoped ++ OBSERVATION_NAMES
  ++ (if environment_scoped then ARTIFACT_NAMES else []) ++ EVIDENCE_NAMES.

Definition validate_digest_chain (claims : dict) (environment_scoped : bool) : result unit :=
  scope ← pick claims (scope_names environment_scoped);
  _ ← require_claim claims ("scope_digest", JStr (canonical_evidence_digest sha256_hex (JDict scope)));
  observation ← pick claims (observation_names environment_scoped);
  require_claim claims ("observation_digest", JStr (canonical_evidence_digest sha256_hex (JDict observation))).

Definition required_bindings (required : RequiredCoverageSegment) : list (string * json) :=
  [("source", JStr (seg_source required)); ("dataset", JStr (seg_dataset required));
   ("segment_id", JStr (seg_id required)); ("segment_start", JStr (seg_start required));
   ("segment_end", JStr (seg_end required)); ("expected_scope", JDict (seg_scope required));
   ("expected_items", opt_int (seg_expected_items required))].

Definition validate_required_scope (claims : dict) (required : option RequiredCoverageSegment)
    (expected_policy_version : option string) : result unit :=
  _ ← (match required with
       | None => Ok tt
       | Some seg =>
           _ ← copy_exact_dict (seg_scope seg);
           _ ← ensure (forallb (fun s => negb (s =s ""))
                 [seg_source seg; seg_dataset seg; seg_id seg; seg_start seg; seg_end seg])
                 ReceiptVerificationError "required identity fields must be exact non-empty strings";
           _ ← ensure (non_negative (seg_expected_items seg)) ReceiptVerificationError
                 "required expected_items must be an exact non-negative integer or null";
           require_all claims (required_bindings seg)
       end);
  match expected_policy_version with
  | None => Ok tt
  | Some version => require_claim claims ("coverage_policy_version", JStr version)
  end.

Definition outer_bindings (r : CollectionReceipt) : list (string * json) :=
  [("source", JStr (rc_source r)); ("dataset", JStr (rc_dataset r)); ("segment_id", JStr (rc_segment_id r));
   ("segment_start", JStr (rc_segment_start r)); ("segment_end", JStr (rc_segment_end r));
   ("expected_scope", JDict (rc_expected_scope r)); ("expected_items", opt_int (rc_expected_items r));
   ("observed_items", JInt (rc_observed_items r)); ("raw_page_count", JInt (rc_raw_page_count r));
   ("raw_count", JInt (rc_raw_row_count r)); ("structured_count", JInt (rc_structured_row_count r));
   ("pagination_exhausted", JBool (rc_pagination_exhausted r)); ("run_id", JInt (rc_run_id r));
   ("status", JStr (rc_status r));
   ("error", match rc_error r with Some e => JStr e | None => JNull end);
   ("checked_at", JStr (rc_checked_at r))].

Definition envelope_bindings (digests : dict) (environment_scoped : bool) : list (string * json) :=
  (if environment_scoped
   then [("environment", getv "environment" digests);
         ("authority_instance_digest", getv "authority_instance_digest" digests)]
   else []) ++
  ("raw_digest", getv "raw" digests) ::
  map (fun name => (name, getv name digests))
    ["structured_digest"; "parser_normalizer_version"; "source_request_digest"; "raw_manifest_digest";
     "structured_generation"; "scope_digest"; "observation_digest"; "issued_at"].

Definition validate_bound_closure_fields (frozen : FrozenReceiptInput) (environment instance : string)
    (environment_scoped : bool) (required : option RequiredCoverageSegment)
    (expected_policy_version raw structured : option string) : result unit :=
  let claims := fr_claims frozen in
  let digests := fr_digests frozen in
  _ ← (if environment_scoped then validate_v3_dataset_digest_inventory claims else Ok tt);
  let schema_claims := if environment_scoped then claims
                       else normalize_legacy_claims_for_schema claims environment instance in
  _ ← ensure (schema_valid schema_claims) ReceiptVerificationError "signed claims fail closed schema";
  _ ← validate_digest_chain claims environment_scoped;
  _ ← ensure (py_eq (JStr (body_digest sha256_hex (fr_signed_body frozen))) (getv "body_digest" digests))
        ReceiptVerificationError "signed body_digest mismatch";
  extra ← claim claims "extra_digests";
  let extras := match extra with JDict d => d | _ => [] end in
  _ ← ensure (forallb (fun k => negb (k ∈? STANDARD_CLAIM_KEYS)) (keys extras)) ReceiptVerificationError
        "extra_digests overrides standard claims";
  parser ← claim claims "parser_normalizer_version";
  _ ← ensure (py_eq parser (JStr PARSER_NORMALIZER_VERSION)) ReceiptVerificationError
        "parser_normalizer_version mismatch";
  _ ← (if environment_scoped
       then require_all claims [("environment", JStr environment); ("authority_instance_digest", JStr instance)]
       else Ok tt);
  _ ← require_all claims (outer_bindings (fr_outer frozen));
  _ ← require_all claims (envelope_bindings digests environment_scoped);
  issuer_id ← claim claims "issuer_id";
  _ ← require_same issuer_id (getv "issuer_id" digests);
  _ ← require_same issuer_id (getv "issuer_key_id" digests);
  _ ← ensure (py_eq (getv "extra_digests" digests) extra) ReceiptVerificationError
        "extra_digests namespace does not bind";
  _ ← ensure (forallb (fun p => negb (has_key p.1 digests) || same (getv p.1 digests) p.2) extras)
        ReceiptVerificationError "extra_digests does not bind envelope";
  _ ← validate_required_scope claims required expected_policy_version;
  _ ← (match raw with
       | Some raw => require_claim claims ("raw_digest", JStr (compute_raw_digest raw))
       | None => Ok tt
       end);
  match structured with
  | Some digest => require_claim claims ("structured_digest", JStr digest)
  | None => Ok tt
  end.

(** A string of the envelope; materialising has checked that it is one. *)
Definition str_of (v : json) : string := match v with JStr s => s | _ => "" end.

(** [version in {...}] hashes the version, which a list or a dict does not have. *)
Definition hashable (v : json) : bool := match v with JList _ | JDict _ => false | _ => true end.

Definition require_trusted (digests : dict) : result unit :=
  _ ← ensure (negb (truthy (getv "synthetic" digests))) ReceiptVerificationError
        "synthetic receipts are not verifiable";
  _ ← ensure (bool_decide (getv "eligibility" digests = JStr "TRUSTED_COLLECTION")) ReceiptVerificationError
        "receipt is not a trusted collection";
  ensure (bool_decide (getv "issuer_class" digests = JStr "SignedReceiptAuthority")) ReceiptVerificationError
    "receipt issuer class is not trusted".

Definition verify_collection_closure (receipt : CollectionReceipt) (environment instance : string)
    (required : option RequiredCoverageSegment) (expected_policy_version raw structured : option string)
    : result VerifiedCollectionClosure :=
  frozen ← materialize_receipt_input receipt;
  let digests := fr_digests frozen in
  let claims := fr_claims frozen in
  _ ← require_trusted digests;
  let version := getv "version" claims in
  _ ← ensure (hashable version) TypeError "unhashable type";
  _ ← ensure (negb (bool_decide (version ∈ [JStr LEGACY_SIGNED_RECEIPT_CLAIMS_VERSION;
                                            JStr AUDIT_SIGNED_RECEIPT_CLAIMS_VERSION_V2])))
        ReceiptVerificationError "audit-only and not COMPLETE-eligible";
  _ ← ensure (bool_decide (version = JStr SIGNED_RECEIPT_CLAIMS_VERSION)) ReceiptVerificationError
        "unsupported signed claims version";
  valid ← verify_receipt_signature_values (fr_signed_body frozen) (str_of (getv "signature" digests))
            (str_of (getv "issuer_key_id" digests)) environment instance;
  _ ← ensure valid ReceiptVerificationError "Ed25519 signature is invalid";
  _ ← validate_bound_closure_fields frozen environment instance true required expected_policy_version raw
        structured;
  Ok (mkClosure claims (str_of (getv "body_digest" digests))).

Definition audit_collection_closure (receipt : CollectionReceipt) (environment instance : string)
    (required : option RequiredCoverageSegment) (expected_policy_version raw structured : option string)
    : result dict :=
  frozen ← materialize_receipt_input receipt;
  let digests := fr_digests frozen in
  let claims := fr_claims frozen in
  _ ← require_trusted digests;
  let version := getv "version" claims in
  _ ← ensure (hashable version) TypeError "unhashable type";
  _ ← ensure (bool_decide (version ∈ [JStr LEGACY_SIGNED_RECEIPT_CLAIMS_VERSION;
                JStr AUDIT_SIGNED_RECEIPT_CLAIMS_VERSION_V2; JStr SIGNED_RECEIPT_CLAIMS_VERSION]))
        ReceiptVerificationError "unsupported signed claims version";
  let scoped := bool_decide (version = JStr SIGNED_RECEIPT_CLAIMS_VERSION) in
  valid ← verify_receipt_signature_values_for_audit (fr_signed_body frozen)
            (str_of (getv "signature" digests)) (str_of (getv "issuer_key_id" digests))
            (if scoped then JStr environment else JNull) (if scoped then JStr instance else JNull);
  _ ← ensure valid ReceiptVerificationError "Ed25519 audit signature is invalid";
  _ ← validate_bound_closure_fields frozen environment instance scoped required expected_policy_version raw
        structured;
  Ok claims.

(** [audit_signed_receipt_claims]: the claims of any valid signature. *)
Definition audit_signed_receipt_claims (receipt : CollectionReceipt) : result dict :=
  frozen ← materialize_receipt_input receipt;
  let digests := fr_digests frozen in
  let claims := fr_claims frozen in
  let version := getv "version" claims in
  _ ← ensure (hashable version) TypeError "unhashable type";
  _ ← ensure (bool_decide (version ∈ [JStr LEGACY_SIGNED_RECEIPT_CLAIMS_VERSION;
                JStr AUDIT_SIGNED_RECEIPT_CLAIMS_VERSION_V2; JStr SIGNED_RECEIPT_CLAIMS_VERSION]))
        ReceiptVerificationError "unsupported signed claims version";
  let scoped := bool_decide (version = JStr SIGNED_RECEIPT_CLAIMS_VERSION) in
  valid ← verify_receipt_signature_values_for_audit (fr_signed_body frozen)
            (str_of (getv "signature" digests)) (str_of (getv "issuer_key_id" digests))
            (if scoped then getv "environment" claims else JNull)
            (if scoped then getv "authority_instance_digest" claims else JNull);
  _ ← ensure valid ReceiptVerificationError "Ed25519 signature is invalid";
  _ ← ensure (py_eq (getv "body_digest" digests) (JStr (body_digest sha256_hex (fr_signed_body frozen))))
        ReceiptVerificationError "signed body_digest mismatch";
  let key_id := getv "issuer_key_id" digests in
  _ ← ensure (py_eq (getv "issuer_id" claims) key_id) ReceiptVerificationError "signed audit issuer_id mismatch";
  _ ← ensure (py_eq (getv "issuer_id" digests) key_id) ReceiptVerificationError "audit envelope issuer_id mismatch";
  Ok claims.

(** ** Building receipts *)

Section Build.
(** [json.loads] of bytes. *)
Variable loads : string -> option json.

(** The bytes [bytes.strip] removes: tab to carriage return, and space. *)
Definition is_byte_space (c : ascii) : bool :=
  let n := N_of_ascii c in (((9 <=? n) && (n <=? 13)) || (n =? 32))%N.

Fixpoint bytes_lstrip (s : string) : string :=
  match s with EmptyString => EmptyString | String c s' => if is_byte_space c then bytes_lstrip s' else s end.

Fixpoint bytes_rstrip (s : string) : string :=
  match s with
  | EmptyString => EmptyString
  | String c s' =>
      match bytes_rstrip s' with
      | EmptyString => if is_byte_space c then EmptyString else String c EmptyString
      | s'' => String c s''
      end
  end.

Definition LF : string := String (ascii_of_N 10) EmptyString.
Definition CRLF : string := String (ascii_of_N 13) LF.

Definition EMPTY_ENVELOPES : list string :=
  ["[]"; "{}"; "null"; String quote (String quote EmptyString); "''";
   "[" +:+ LF +:+ "]"; "[" +:+ CRLF +:+ "]"; "{" +:+ LF +:+ "}"; "{" +:+ CRLF +:+ "}"].

Definition raw_has_trusted_payload (raw : string) : bool :=
  let stripped := bytes_rstrip (bytes_lstrip raw) in
  if (stripped =s "") || (stripped ∈? EMPTY_ENVELOPES) then false
  else
    match loads stripped with
    | Some (JList []) => false
    | Some (JDict d) =>
        negb (bool_decide (d = []))
        && match getv "data" d with JList [] => false | _ => true end
        && match getv "rows" d with JList [] => has_key "data" d | _ => true end
    | _ => true
    end.

Definition has_expected_empty_evidence_flag (digests : dict) : bool :=
  match getv "extra_digests" digests with
  | JDict nested => truthy (getv EXPECTED_EMPTY_WITH_EVIDENCE nested)
  | _ => truthy (getv EXPECTED_EMPTY_WITH_EVIDENCE digests)
  end.

Definition has_signature_fields (digests : dict) : bool :=
  match getv "signature" digests, getv "signed_body_b64" digests, getv "issuer_key_id" digests with
  | JStr signature, JStr _, JStr _ => starts_with "ed25519:" signature
  | _, _, _ => false
  end.

(** The digests after the caller's are merged in and bare trust claims stripped. *)
Definition merged_digests (raw : string) (extra_digests : option dict) : dict :=
  let digests := [("raw", JStr (compute_raw_digest raw)); ("eligibility", JStr "RECOVERED_RAW_ONLY")] in
  match extra_digests with
  | None | Some [] => digests
  | Some extra =>
      let digests := dict_merge digests extra in
      if bool_decide (getv "eligibility" digests = JStr "TRUSTED_COLLECTION")
         && negb (has_signature_fields digests)
      then set_default "trust_note" (JStr "TRUSTED_COLLECTION requires Ed25519 signature fields")
             (dict_set "eligibility" (JStr "RECOVERED_RAW_ONLY") digests)
      else digests
  end.

(** [checked_at] is the caller's text or the clock's. *)
Definition build_collection_receipt (required : RequiredCoverageSegment) (run_id : Z) (raw : string)
    (observed_items structured_row_count : Z) (raw_row_count : option Z) (pagination_exhausted : bool)
    (status : string) (error : option string) (checked_at : string) (extra_digests : option dict)
    : result CollectionReceipt :=
  _ ← ensure (status ∈? ["SUCCESS"; "FAILED"]) ValueError "receipt status must be SUCCESS or FAILED";
  let digests := merged_digests raw extra_digests in
  let '(digests, raw_pages) :=
    if negb (raw_has_trusted_payload raw) && negb (has_expected_empty_evidence_flag digests) then
      (set_default "trust_note" (JStr "empty raw envelope is not COMPLETE-eligible evidence")
         (dict_set "eligibility" (JStr "RECOVERED_RAW_ONLY") digests), 0)
    else (digests, if raw =s "" then 0 else 1) in
  Ok (mkReceipt (seg_source required) (seg_dataset required) (seg_id required) (seg_start required)
        (seg_end required) (seg_scope required) (seg_expected_items required) observed_items raw_pages
        (default structured_row_count raw_row_count) structured_row_count pagination_exhausted digests
        run_id status error checked_at).
End Build.
End Verify.

Definition SYNTHETIC_RECEIPT_MARKER : dict := [("synthetic", JBool true); ("origin", JStr "offline-test-fixture")].

Definition build_synthetic_complete_receipt (required : RequiredCoverageSegment) (run_id : Z)
    (observed_items : option Z) (checked_at : string) : CollectionReceipt :=
  let items := match observed_items with
    | Some n => n
    | None => if bool_decide (seg_expected_items required = Some 0) then 0 else 1
    end in
  mkReceipt (seg_source required) (seg_dataset required) (seg_id required) (seg_start required)
    (seg_end required) (seg_scope required) (seg_expected_items required) items 1 items items true
    (dict_merge [("raw", JStr SCHEMA_ONLY_DIGEST); ("eligibility", JStr "TRUSTED_COLLECTION")]
       SYNTHETIC_RECEIPT_MARKER)
    run_id "SUCCESS" None checked_at.

(** ** What verification establishes *)

(** The claim [name] is there and has the value [v]. *)
Definition bound (claims : dict) (b : string * json) : Prop :=
  exists w, get b.1 claims = Some w /\ same w b.2 = true.

(** Equal to a scalar of the outer receipt means being it. *)
Definition scalar (j : json) : bool := match j with JFloat _ | JList _ | JDict _ => false | _ => true end.

Lemma same_scalar w v : scalar v = true -> same w v = true -> w = v.
Proof.
  unfold same. intros Hv H. apply andb_true_iff in H as [Ht H]. apply bool_decide_eq_true in Ht.
  destruct v, w; simpl in *; try done; bools; try congruence. f_equal. by apply Bool.eqb_prop.
Qed.

Lemma bound_scalar claims k v : scalar v = true -> bound claims (k, v) -> get k claims = Some v.
Proof. intros Hv (w & Hw & Hs). simpl in *. apply same_scalar in Hs; [by subst|done]. Qed.

Lemma scalar_opt_int o : scalar (opt_int o) = true.
Proof. by destruct o. Qed.

Lemma require_claim_Ok claims b u : require_claim claims b = Ok u -> bound claims b.
Proof.
  unfold require_claim, claim. intros H. apply bind_Ok in H as (w & Hw & H).
  unfold require_same in H. apply ensure_Ok in H. exists w.
  destruct (get b.1 claims); [|done]. by injection Hw as ->.
Qed.

Lemma require_all_Ok claims bs u : require_all claims bs = Ok u -> Forall (bound claims) bs.
Proof.
  induction bs as [|b bs IH]; cbn [require_all]; [constructor|].
  intros H. apply bind_Ok in H as (v & H1 & H2). constructor; [by eapply require_claim_Ok|by apply IH].
Qed.

Section Verified.
Context (sha256_hex : string -> string) (loads_claims : string -> option json) (schema_valid : dict -> bool)
  (verify_signature : string -> string -> string -> string -> string -> result bool).

Abbreviation verify := (verify_collection_closure sha256_hex loads_claims schema_valid verify_signature).

Lemma decode_claims_Ok b64 claims body : decode_strict_signed_claims loads_claims b64 = Ok (claims, body) ->
  b64 = b64encode body /\ loads_claims body = Some (JDict claims) /\ exact_json (JDict claims) = true.
Proof.
  unfold decode_strict_signed_claims. destruct (decode_canonical_signed_body b64) as [raw|] eqn:E; [|done].
  destruct (loads_claims raw) as [[]|] eqn:El; try done. unfold copy_exact_dict, copy_exact_json.
  intros H. binds H. injection H as <- <-. binds E0. injection E0 as <-. binds E1. ensures.
  split; [|done]. unfold decode_canonical_signed_body, decode_canonical_base64 in E.
  destruct (b64decode b64); [|done]. simpl in E. destruct (_ =s _) eqn:Eb; [|done]. bools. by injection E as <-.
Qed.

Lemma materialize_Ok r f : materialize_receipt_input loads_claims r = Ok f ->
  fr_outer f = r /\ fr_digests f = rc_digests r /\
  (exists b64, getv "signed_body_b64" (rc_digests r) = JStr b64 /\ b64 = b64encode (fr_signed_body f)) /\
  loads_claims (fr_signed_body f) = Some (JDict (fr_claims f)) /\
  exact_json (JDict (fr_claims f)) = true.
Proof.
  unfold materialize_receipt_input. intros H. binds H.
  unfold copy_exact_dict in E3. binds E3. injection E3 as <-.
  destruct (getv "signed_body_b64" _) as [| | | |b64| |] eqn:Eb; try done. binds H.
  match goal with E : decode_strict_signed_claims _ _ = Ok ?p |- _ =>
    destruct p as [claims body]; apply decode_claims_Ok in E as (-> & Hl & Hx) end.
  destruct (getv "extra_digests" claims); try done. binds H.
  destruct (getv "structured_generation" _); try done. destruct (getv "extra_digests" _); try done.
  binds H. injection H as <-. simpl. split_and!; try done. by eexists.
Qed.

(** What a verified closure rests on. *)
Record evidence (r : CollectionReceipt) (environment instance : string) (c : VerifiedCollectionClosure) : Prop := mkEvidence {
  ve_signed : exists body signature key,
    getv "signed_body_b64" (rc_digests r) = JStr (b64encode body) /\
    loads_claims body = Some (JDict (vc_claims c)) /\
    getv "body_digest" (rc_digests r) = JStr ("sha256:" +:+ sha256_hex body) /\
    verify_signature body signature key environment instance = Ok true;
  ve_version : getv "version" (vc_claims c) = JStr SIGNED_RECEIPT_CLAIMS_VERSION;
  ve_schema : schema_valid (vc_claims c) = true;
  ve_trusted : truthy (getv "synthetic" (rc_digests r)) = false /\
    getv "eligibility" (rc_digests r) = JStr "TRUSTED_COLLECTION" /\
    getv "issuer_class" (rc_digests r) = JStr "SignedReceiptAuthority";
  ve_outer : Forall (bound (vc_claims c)) (outer_bindings r);
  ve_envelope : Forall (bound (vc_claims c)) (envelope_bindings (rc_digests r) true);
  ve_present : forallb (fun k => has_key k (vc_claims c)) (observation_names true) = true;
  ve_extras : exists extras, get "extra_digests" (vc_claims c) = Some (JDict extras) /\
    same_keys (keys extras) (expected_extra_fields (vc_claims c)) = true;
  ve_environment : Forall (bound (vc_claims c))
    [("environment", JStr environment); ("authority_instance_digest", JStr instance)];
}.

Lemma py_eq_str s v : py_eq (JStr s) v = true -> v = JStr s.
Proof. destruct v; simpl; try done. intros H. bools. by subst. Qed.

Lemma inventory_Ok claims u : validate_v3_dataset_digest_inventory claims = Ok u ->
  exists extras, get "extra_digests" claims = Some (JDict extras) /\
    same_keys (keys extras) (expected_extra_fields claims) = true.
Proof.
  unfold validate_v3_dataset_digest_inventory, getv. destruct (get "extra_digests" claims) as [[]|]; try done.
  simpl. intros H. binds H. ensures. by eexists.
Qed.

Lemma digest_chain_Ok claims scoped u : validate_digest_chain sha256_hex claims scoped = Ok u ->
  forallb (fun k => has_key k claims) (observation_names scoped) = true.
Proof.
  unfold validate_digest_chain. intros H. binds H. clear E E0 H. unfold pick in E1. apply mapR_Ok in E1.
  induction E1 as [|k p names d Hp _ IH]; cbn [forallb]; [done|]. rewrite IH, andb_true_r, has_key_get.
  apply bind_Ok in Hp as (v & Hv & _). unfold claim in Hv. by destruct (get k claims).
Qed.

Lemma bound_fields_Ok f environment instance required version raw structured u :
  validate_bound_closure_fields sha256_hex schema_valid f environment instance true required version raw
    structured = Ok u ->
  schema_valid (fr_claims f) = true /\
  getv "body_digest" (fr_digests f) = JStr ("sha256:" +:+ sha256_hex (fr_signed_body f)) /\
  Forall (bound (fr_claims f)) (outer_bindings (fr_outer f)) /\
  Forall (bound (fr_claims f)) (envelope_bindings (fr_digests f) true) /\
  forallb (fun k => has_key k (fr_claims f)) (observation_names true) = true /\
  (exists extras, get "extra_digests" (fr_claims f) = Some (JDict extras) /\
    same_keys (keys extras) (expected_extra_fields (fr_claims f)) = true) /\
  Forall (bound (fr_claims f))
    [("environment", JStr environment); ("authority_instance_digest", JStr instance)] /\
  (forall seg, required = Some seg -> Forall (bound (fr_claims f)) (required_bindings seg)) /\
  (forall v, version = Some v -> bound (fr_claims f) ("coverage_policy_version", JStr v)).
Proof.
  unfold validate_bound_closure_fields. cbv zeta iota. intros H. binds H. clear H. ensures.
  match goal with H : validate_required_scope _ _ _ = Ok _ |- _ =>
    unfold validate_required_scope in H; apply bind_Ok in H as (u' & Hs1 & Hs2) end.
  split_and!; try done; try (by eapply require_all_Ok); try (by apply py_eq_str); try (by eapply inventory_Ok);
    try (by eapply digest_chain_Ok).
  - intros seg ->. binds Hs1. by eapply require_all_Ok.
  - intros v ->. by eapply require_claim_Ok.
Qed.

Lemma verify_Ok r environment instance required version raw structured c :
  verify r environment instance required version raw structured = Ok c ->
  evidence r environment instance c /\
  (forall seg, required = Some seg -> Forall (bound (vc_claims c)) (required_bindings seg)) /\
  (forall v, version = Some v -> bound (vc_claims c) ("coverage_policy_version", JStr v)).
Proof.
  unfold verify_collection_closure. intros H. apply bind_Ok in H as (f & Hf & H).
  apply materialize_Ok in Hf as (Ho & Hd & (b64 & Hb & Henc) & Hl & Hx).
  binds H. injection H as <-. unfold require_trusted in E. binds E. ensures.
  match goal with H : validate_bound_closure_fields _ _ _ _ _ _ _ _ _ _ = Ok _ |- _ =>
    apply bound_fields_Ok in H as (Hs & Hbd & Hout & Hep & Hpres & Hext & Henv & Hreq & Hver) end.
  match goal with E : verify_signature _ _ _ _ _ = Ok ?b, H : ?b = true |- _ => rewrite H in E end.
  rewrite Hd in *. subst r. cbn [vc_claims]. split; [|done]. split; cbn [vc_claims]; try done.
  exists (fr_signed_body f). eexists _, _. split; [by rewrite Hb, Henc|]. split_and!; [done|done|eassumption].
Qed.

(** ** A signed body determines its receipt *)

(** The columns of a receipt that coverage policy reads. *)
Definition receipt_columns (r : CollectionReceipt) : list json :=
  [JStr (rc_source r); JStr (rc_dataset r); JStr (rc_segment_id r); JStr (rc_segment_start r);
   JStr (rc_segment_end r); opt_int (rc_expected_items r); JInt (rc_observed_items r);
   JInt (rc_raw_page_count r); JInt (rc_raw_row_count r); JInt (rc_structured_row_count r);
   JBool (rc_pagination_exhausted r); JInt (rc_run_id r); JStr (rc_status r);
   match rc_error r with Some e => JStr e | None => JNull end; JStr (rc_checked_at r)].

Definition column_claims : list string :=
  ["source"; "dataset"; "segment_id"; "segment_start"; "segment_end"; "expected_items"; "observed_items";
   "raw_page_count"; "raw_count"; "structured_count"; "pagination_exhausted"; "run_id"; "status"; "error";
   "checked_at"].

(** The claims of a verified closure hold the columns of its receipt. *)
Lemma evidence_columns r environment instance c : evidence r environment instance c ->
  Forall2 (fun k v => get k (vc_claims c) = Some v) column_claims (receipt_columns r).
Proof.
  intros He. pose proof (ve_outer _ _ _ _ He) as Ho. unfold outer_bindings in Ho.
  repeat match goal with H : Forall _ (_ :: _) |- _ => inversion_clear H end.
  repeat apply Forall2_cons_2; try apply Forall2_nil_2; apply bound_scalar; try done; apply scalar_opt_int || by destruct (rc_error r).
Qed.

(** Claim C38.  The signature fixes what coverage reads: two receipts that verify
    with the same signed body have equal columns, so that changing a stored
    count, status, identity or time of a receipt makes its verification fail. *)
Theorem signed_body_fixes_receipt r1 r2 environment instance required1 required2 version1 version2
    raw1 raw2 structured1 structured2 c1 c2 :
  verify r1 environment instance required1 version1 raw1 structured1 = Ok c1 ->
  verify r2 environment instance required2 version2 raw2 structured2 = Ok c2 ->
  getv "signed_body_b64" (rc_digests r1) = getv "signed_body_b64" (rc_digests r2) ->
  vc_claims c1 = vc_claims c2 /\ receipt_columns r1 = receipt_columns r2.
Proof.
  intros H1 H2 Hb. apply verify_Ok in H1 as [H1 _], H2 as [H2 _].
  destruct (ve_signed _ _ _ _ H1) as (b1 & _ & _ & E1 & L1 & _), (ve_signed _ _ _ _ H2) as (b2 & _ & _ & E2 & L2 & _).
  assert (b1 = b2) as -> by (apply b64encode_inj; congruence).
  assert (vc_claims c1 = vc_claims c2) as Hc by congruence. split; [done|].
  apply evidence_columns in H1, H2. rewrite Hc in H1. revert H1 H2. generalize (receipt_columns r1) (receipt_columns r2).
  intros l1 l2 F1. revert l2. induction F1; intros l2 F2; inversion F2; [done|]. f_equal; [congruence|eauto].
Qed.

(** ** Verification fails closed *)

(** The [required] list of authorities/receipts/signed_receipt_claims.schema.json. *)
Definition REQUIRED_CLAIMS : list string :=
  ["version"; "environment"; "authority_instance_digest"; "coverage_policy_version"; "source"; "contract_id";
   "dataset"; "segment_id"; "segment_start"; "segment_end"; "receipt_issue_digest"; "artifact_key";
   "artifact_byte_count"; "manifest_key"; "manifest_byte_count"; "raw_manifest_key";
   "raw_manifest_byte_count"; "raw_byte_count"; "natural_key_digest"; "expected_scope"; "expected_items";
   "observed_items"; "raw_page_count"; "raw_count"; "structured_count"; "status"; "error";
   "pagination_exhausted"; "discovery_exhausted"; "source_request_digest"; "raw_manifest_digest";
   "raw_digest"; "structured_digest"; "parser_normalizer_version"; "structured_generation"; "scope_digest";
   "observation_digest"; "run_id"; "issuer_id"; "issued_at"; "checked_at"; "extra_digests"].

(** The version claim of a receipt that materialises can be hashed. *)
Definition version_hashable (r : CollectionReceipt) : bool :=
  match materialize_receipt_input loads_claims r with
  | Ok f => hashable (getv "version" (fr_claims f))
  | Err _ => true
  end.

Lemma raises_claim claims k : has_key k claims = true -> raises_only ReceiptVerificationError (claim claims k).
Proof. rewrite has_key_get. unfold claim. by destruct (get k claims). Qed.

Lemma raises_require_claim claims b : has_key b.1 claims = true ->
  raises_only ReceiptVerificationError (require_claim claims b).
Proof. intros H. apply raises_only_bind; [by apply raises_claim|]. intros w _. apply raises_only_ensure. Qed.

Lemma raises_require_all claims bs : forallb (fun b => has_key b.1 claims) bs = true ->
  raises_only ReceiptVerificationError (require_all claims bs).
Proof.
  induction bs as [|b bs IH]; cbn [forallb require_all]; [done|]. intros H. bools.
  apply raises_only_bind; [by apply raises_require_claim|]. intros _ _. by apply IH.
Qed.

Lemma raises_pick claims names : forallb (fun k => has_key k claims) names = true ->
  raises_only ReceiptVerificationError (pick claims names).
Proof.
  intros H. apply raises_only_mapR. intros k Hk. apply raises_only_bind; [|done]. apply raises_claim.
  rewrite forallb_forall in H. by apply H, list_elem_of_In.
Qed.

Section Schema.
(** The schema requires its claims, as a JSON schema with that [required] list does. *)
Context (schema_requires : forall c, schema_valid c = true -> forallb (fun k => has_key k c) REQUIRED_CLAIMS = true).

Lemma schema_has claims k : schema_valid claims = true -> (k ∈? REQUIRED_CLAIMS) = true -> has_key k claims = true.
Proof.
  intros Hs Hk. apply schema_requires in Hs. rewrite forallb_forall in Hs. apply Hs, list_elem_of_In. by bools.
Qed.

(** The keys are configured: checking a signature answers. *)
Context (signature_answers : forall body signature key environment instance,
  exists b, verify_signature body signature key environment instance = Ok b).

Lemma raises_signature body signature key environment instance :
  raises_only ReceiptVerificationError (verify_signature body signature key environment instance).
Proof. by destruct (signature_answers body signature key environment instance) as (b & ->). Qed.

(** Follow a computation that raises verification errors only. *)
Ltac raises := repeat first
  [ apply raises_only_ensure | apply raises_only_raise | apply raises_only_Ok | apply raises_require_claim
  | apply raises_claim
  | apply raises_only_bind; [|intros ? ?] ].

Lemma raises_materialize r : raises_only ReceiptVerificationError (materialize_receipt_input loads_claims r).
Proof.
  unfold materialize_receipt_input, copy_exact_dict, copy_exact_json. raises.
  destruct (getv "signed_body_b64" _); raises.
  - unfold decode_strict_signed_claims. destruct (decode_canonical_signed_body _); [|done].
    destruct (loads_claims _) as [[]|]; try done. unfold copy_exact_dict, copy_exact_json. raises.
  - match goal with p : (_ * _)%type |- _ => destruct p as [claims body] end. destruct (getv "extra_digests" claims); try done. raises.
    destruct (getv "structured_generation" _); try done. destruct (getv "extra_digests" _); try done. raises.
Qed.

Lemma raises_bound_fields f environment instance required version raw structured :
  raises_only ReceiptVerificationError (validate_bound_closure_fields sha256_hex schema_valid f environment
    instance true required version raw structured).
Proof.
  unfold validate_bound_closure_fields, validate_v3_dataset_digest_inventory, validate_required_scope,
    copy_exact_dict, copy_exact_json. cbv zeta iota. raises.
  all: try (ensures; by apply schema_has).
  - destruct (getv "extra_digests" _); try done. raises.
  - destruct required; raises; ensures; by apply schema_has.
  - destruct version; raises; ensures; by apply schema_has.
  - destruct raw; raises; ensures; by apply schema_has.
  - destruct structured; raises; ensures; by apply schema_has.
Qed.

Lemma raises_verify r environment instance required version raw structured :
  version_hashable r = true ->
  raises_only ReceiptVerificationError
    (verify r environment instance required version raw structured).
Proof.
  unfold version_hashable, verify_collection_closure. intros Hv. apply raises_only_bind; [apply raises_materialize|].
  intros f Hf. rewrite Hf in Hv. unfold require_trusted. rewrite Hv.
  repeat first [apply raises_only_ensure|apply raises_bound_fields|apply raises_signature|apply raises_only_bind; [|intros ? _]]; done.
Qed.

(** Verification fails closed: whatever the receipt, an exception other
    than [ReceiptVerificationError] can only be the [TypeError] of looking up a
    version claim that is a list or an object. *)
Theorem verification_fails_closed r environment instance required version raw structured :
  version_hashable r = true ->
  raises_only ReceiptVerificationError
    (verify r environment instance required version raw structured).
Proof. apply raises_verify. Qed.
End Schema.
End Verified.

(** ** Built receipts *)

Lemma get_lookup k d : get k d = lookup_str k d.
Proof. induction d as [|[k' v] d IH]; simpl; [done|]. by rewrite IH. Qed.

Lemma getv_set_default k k' v d : k <> k' -> getv k (set_default k' v d) = getv k d.
Proof.
  intros Hk. unfold set_default. destruct (has_key k' d); [done|]. rewrite getv_dict_set.
  by rewrite bool_decide_eq_false_2.
Qed.

(** The digests after the caller's claim no trust without signature fields. *)
Lemma merged_trusted sha256_hex raw extra :
  getv "eligibility" (merged_digests sha256_hex raw extra) = JStr "TRUSTED_COLLECTION" ->
  has_signature_fields (merged_digests sha256_hex raw extra) = true.
Proof.
  unfold merged_digests. destruct extra as [[|p extra]|]; try done.
  destruct (bool_decide _ && negb _) eqn:E.
  - rewrite getv_set_default by done. by rewrite getv_dict_set.
  - intros He. rewrite bool_decide_eq_true_2 in E by done. simpl in E. by bools.
Qed.

(** The builder copies the segment's identity and mints no trust: a
    receipt it returns as TRUSTED_COLLECTION carries signature fields, and its raw
    bytes are a payload or its digests flag an expected empty window; a payload
    that is neither counts no raw page.  Only a bad status is refused. *)
Theorem built_receipt_trust sha256_hex loads required run_id raw observed rows raw_rows exhausted status
    error checked_at extra :
  match build_collection_receipt sha256_hex loads required run_id raw observed rows raw_rows exhausted
          status error checked_at extra with
  | Ok r =>
      (rc_source r, rc_dataset r, rc_segment_id r, rc_segment_start r, rc_segment_end r) =
      (seg_source required, seg_dataset required, seg_id required, seg_start required, seg_end required) /\
      rc_status r = status /\ status ∈ ["SUCCESS"; "FAILED"] /\
      (getv "eligibility" (rc_digests r) = JStr "TRUSTED_COLLECTION" ->
       has_signature_fields (rc_digests r) = true /\
       (raw_has_trusted_payload loads raw = true \/ has_expected_empty_evidence_flag (rc_digests r) = true)) /\
      (rc_raw_page_count r = 1 <-> raw <> "" /\
       (raw_has_trusted_payload loads raw = true \/
        has_expected_empty_evidence_flag (merged_digests sha256_hex raw extra) = true))
  | Err e => exn_kind e = ValueError /\ status ∉ ["SUCCESS"; "FAILED"]
  end.
Proof.
  unfold build_collection_receipt. destruct (status ∈? _) eqn:Es; simpl; bools; [|done].
  pose proof (merged_trusted sha256_hex raw extra) as Hm. set (d := merged_digests _ _ _) in *.
  destruct (raw_has_trusted_payload loads raw) eqn:Ep, (has_expected_empty_evidence_flag d) eqn:Ef;
    simpl; split_and!; try done; try (intros Ht; split; [by apply Hm|by auto]);
    try (rewrite getv_set_default by done; by rewrite getv_dict_set);
    destruct (raw =s "") eqn:Er; bools; naive_solver lia.
Qed.

(** ** A receipt that verifies

    A toy digest and a toy signature check, under which the sample is accepted;
    the decoder knows the sample's body only. *)

Definition toy_sha256_hex (s : string) : string := zeros 64.
Definition toy_digest : string := "sha256:" +:+ zeros 64.

Definition sample_receipt_segment : RequiredCoverageSegment :=
  mkSegment "jquants" "equities_bars_daily" "2024-01" "2024-01-01" "2024-01-31" [("month", JStr "2024-01")] (Some 2).

Definition sample_extras : dict := map (fun k => (k, JStr toy_digest)) AUTHORITY_BASE_EXTRA_DIGEST_FIELDS.

Definition sample_claims_of (version : json) : dict :=
  [("version", version); ("environment", JStr PRODUCTION_RECEIPT_ENVIRONMENT);
   ("authority_instance_digest", JStr PRODUCTION_RECEIPT_AUTHORITY_INSTANCE_DIGEST);
   ("coverage_policy_version", JStr "collection-coverage/v3"); ("source", JStr "jquants");
   ("contract_id", JStr "equities_bars_daily"); ("dataset", JStr "equities_bars_daily");
   ("segment_id", JStr "2024-01"); ("segment_start", JStr "2024-01-01"); ("segment_end", JStr "2024-01-31");
   ("receipt_issue_digest", JStr toy_digest); ("artifact_key", JStr "a"); ("artifact_byte_count", JInt 1);
   ("manifest_key", JStr "m"); ("manifest_byte_count", JInt 1); ("raw_manifest_key", JStr "r");
   ("raw_manifest_byte_count", JInt 1); ("raw_byte_count", JInt 1); ("natural_key_digest", JStr toy_digest);
   ("expected_scope", JDict [("month", JStr "2024-01")]); ("expected_items", JInt 2); ("observed_items", JInt 2);
   ("raw_page_count", JInt 1); ("raw_count", JInt 5); ("structured_count", JInt 5); ("status", JStr "SUCCESS");
   ("error", JNull); ("pagination_exhausted", JBool true); ("discovery_exhausted", JBool true);
   ("source_request_digest", JStr toy_digest); ("raw_manifest_digest", JStr toy_digest);
   ("raw_digest", JStr toy_digest); ("structured_digest", JStr toy_digest);
   ("parser_normalizer_version", JStr PARSER_NORMALIZER_VERSION); ("structured_generation", JInt 1);
   ("scope_digest", JStr toy_digest); ("observation_digest", JStr toy_digest); ("run_id", JInt 7);
   ("issuer_id", JStr "key-1"); ("issued_at", JStr "2024-02-01T00:00:00Z");
   ("checked_at", JStr "2024-02-01T00:00:00Z"); ("extra_digests", JDict sample_extras)].

Definition sample_claims : dict := sample_claims_of (JStr SIGNED_RECEIPT_CLAIMS_VERSION).

Definition sample_body (claims : dict) : string := canonical_dumps (JDict claims).

(** The bodies of the given documents decode to them. *)
Definition loads_known (known : list dict) (body : string) : option json :=
  match filter (fun c => sample_body c = body) known with c :: _ => Some (JDict c) | [] => None end.

Definition toy_signature (body signature key environment instance : string) : result bool :=
  Ok ((signature =s "ed25519:" +:+ key) && (environment =s PRODUCTION_RECEIPT_ENVIRONMENT)).

Definition toy_schema (claims : dict) : bool :=
  forallb (fun k => has_key k claims) REQUIRED_CLAIMS && bool_decide (getv "discovery_exhausted" claims = JBool true).

Definition sample_digests (scoped : bool) (claims : dict) : dict :=
  [("eligibility", JStr "TRUSTED_COLLECTION"); ("issuer_class", JStr "SignedReceiptAuthority");
   ("issuer_key_id", JStr "key-1"); ("issuer_id", JStr "key-1");
   ("parser_normalizer_version", JStr PARSER_NORMALIZER_VERSION);
   ("signed_body_b64", JStr (b64encode (sample_body claims))); ("signature", JStr "ed25519:key-1");
   ("body_digest", JStr toy_digest); ("issued_at", JStr "2024-02-01T00:00:00Z");
   ("checked_at", JStr "2024-02-01T00:00:00Z"); ("source_request_digest", JStr toy_digest);
   ("raw_manifest_digest", JStr toy_digest); ("raw", JStr toy_digest); ("structured_digest", JStr toy_digest);
   ("scope_digest", JStr toy_digest); ("observation_digest", JStr toy_digest);
   ("structured_generation", JInt 1); ("extra_digests", JDict sample_extras)] ++
  (if scoped then [("environment", JStr PRODUCTION_RECEIPT_ENVIRONMENT);
    ("authority_instance_digest", JStr PRODUCTION_RECEIPT_AUTHORITY_INSTANCE_DIGEST)] else []) ++ sample_extras.

Definition sample_receipt_of (scoped : bool) (claims : dict) : CollectionReceipt :=
  mkReceipt "jquants" "equities_bars_daily" "2024-01" "2024-01-01" "2024-01-31" [("month", JStr "2024-01")]
    (Some 2) 2 1 5 5 true (sample_digests scoped claims) 7 "SUCCESS" None "2024-02-01T00:00:00Z".

Definition sample_receipt : CollectionReceipt := sample_receipt_of true sample_claims.

Definition sample_verify (r : CollectionReceipt) : result VerifiedCollectionClosure :=
  verify_collection_closure toy_sha256_hex (loads_known [sample_claims]) toy_schema toy_signature r
    PRODUCTION_RECEIPT_ENVIRONMENT PRODUCTION_RECEIPT_AUTHORITY_INSTANCE_DIGEST None None None None.

Example sample_verifies : sample_verify sample_receipt = Ok (mkClosure sample_claims toy_digest).
Proof. by vm_compute. Qed.

Definition sample_tampered : CollectionReceipt :=
  mkReceipt "jquants" "equities_bars_daily" "2024-01" "2024-01-01" "2024-01-31" [("month", JStr "2024-01")]
    (Some 2) 2 1 6 6 true (sample_digests true sample_claims) 7 "SUCCESS" None "2024-02-01T00:00:00Z".

Lemma signed_body_fixes_receipt_witness :
  receipt_columns sample_receipt = receipt_columns sample_receipt /\ is_Ok (sample_verify sample_tampered) = false.
Proof.
  split; [|by vm_compute].
  eapply (signed_body_fixes_receipt toy_sha256_hex (loads_known [sample_claims]) toy_schema toy_signature
    sample_receipt sample_receipt PRODUCTION_RECEIPT_ENVIRONMENT PRODUCTION_RECEIPT_AUTHORITY_INSTANCE_DIGEST
    None (Some sample_receipt_segment) None None None None None None); [vm_compute; reflexivity|vm_compute; reflexivity|reflexivity].
Defined.

Lemma toy_schema_requires c : toy_schema c = true -> forallb (fun k => has_key k c) REQUIRED_CLAIMS = true.
Proof. unfold toy_schema. intros H. by apply andb_true_iff in H as [H _]. Qed.

Lemma verification_fails_closed_witness :
  version_hashable (loads_known [sample_claims]) sample_tampered = true /\
  raises_only ReceiptVerificationError (sample_verify sample_tampered).
Proof.
  split; [by vm_compute|].
  apply (verification_fails_closed toy_sha256_hex (loads_known [sample_claims]) toy_schema toy_signature
    toy_schema_requires).
  - intros. by eexists.
  - by vm_compute.
Defined.
