(* ===== verification/Transaction.v ===== *)
(** * Transaction: connections to a store, and actions on them

    A connection holds the committed store and, inside a transaction, the pending
    one.  An action takes a connection to a connection and a value or an exception;
    the changes made before an exception stay pending, as in SQLite, until somebody
    rolls back.  A writing statement opens a transaction when none is open, as the
    sqlite3 module does.  The store is a parameter: LedgerStore.v has the tables of
    the coverage ledger, Publication.v those of a whole database. *)

From S2P Require Import Prelude.

Record connection_to (T : Type) := mkConnection {
  committed : T;
  pending : option T;
}.
Arguments mkConnection {T} _ _.
Arguments committed {T} _.
Arguments pending {T} _.

Section Store.
Context {T : Type}.

Abbreviation connection := (connection_to T).

Definition in_transaction (c : connection) : bool := present (pending c).

(** What a statement sees. *)
Definition view (c : connection) : T := default (committed c) (pending c).

Definition begin_ (c : connection) : connection := mkConnection (committed c) (Some (view c)).
Definition commit (c : connection) : connection := mkConnection (view c) None.
Definition rollback (c : connection) : connection := mkConnection (committed c) None.

Definition action_on (A : Type) : Type := connection -> connection * result A.

Abbreviation action := action_on.

#[export] Instance action_ret : MRet action_on := fun A a c => (c, Ok a).
#[export] Instance action_bind : MBind action_on := fun A B f m c =>
  match m c with
  | (c', Ok a) => f a c'
  | (c', Err e) => (c', Err e)
  end.

Definition lift {A} (r : result A) : action A := fun c => (c, r).

(** What a reading statement returns. *)
Definition select {A} (f : T -> A) : action A := fun c => (c, Ok (f (view c))).

(** A writing statement. *)
Definition statement {A} (f : T -> result (T * A)) : action A := fun c =>
  let c := begin_ c in
  match f (view c) with
  | Ok (t, a) => (mkConnection (committed c) (Some t), Ok a)
  | Err e => (c, Err e)
  end.

(** [executemany]: a statement for each row, which stops at the first exception. *)
Fixpoint each {A} (f : A -> action unit) (l : list A) : action unit :=
  match l with
  | [] => mret tt
  | x :: l => f x ≫= fun _ => each f l
  end.

(** A list comprehension of calls. *)
Fixpoint traverse {A B} (f : A -> action B) (l : list A) : action (list B) :=
  match l with
  | [] => mret []
  | x :: l => y ← f x; ys ← traverse f l; mret (y :: ys)
  end.

Definition executemany {A} (f : A -> T -> result (T * unit)) (l : list A) : action unit := fun c =>
  each (fun x => statement (f x)) l (begin_ c).

(** Runs an action in a transaction of its own, unless one is open already. *)
Definition owning {A} (m : action A) : action A := fun c =>
  if in_transaction c then m c
  else match m (begin_ c) with
       | (c', Ok a) => (commit c', Ok a)
       | (c', Err e) => (rollback c', Err e)
       end.

(** Of the committed store and of the pending one. *)
Definition everywhere (P : T -> Prop) (c : connection) : Prop :=
  P (committed c) /\ forall t, pending c = Some t -> P t.

Definition preserves {A} (P : T -> Prop) (m : action A) : Prop :=
  forall c, everywhere P c -> everywhere P (m c).1.

Section Preserves.
Context (P : T -> Prop).

Lemma everywhere_view c : everywhere P c -> P (view c).
Proof. intros [Hc Hp]. unfold view. destruct (pending c); simpl; auto. Qed.

Lemma everywhere_begin c : everywhere P c -> everywhere P (begin_ c).
Proof. intros H. split; [exact (proj1 H)|]. simpl. intros t E. simplify_eq. by apply everywhere_view. Qed.

Lemma everywhere_commit c : everywhere P c -> everywhere P (commit c).
Proof. intros H. split; [by apply everywhere_view|done]. Qed.

Lemma everywhere_rollback c : everywhere P c -> everywhere P (rollback c).
Proof. intros [H _]. by split. Qed.

Lemma preserves_ret {A} (a : A) : preserves P (mret a).
Proof. by intros c. Qed.

Lemma preserves_lift {A} (r : result A) : preserves P (lift r).
Proof. by intros c. Qed.

Lemma preserves_select {A} (f : T -> A) : preserves P (select f).
Proof. by intros c. Qed.

Lemma preserves_bind {A B} (m : action A) (f : A -> action B) :
  preserves P m -> (forall a, preserves P (f a)) -> preserves P (m ≫= f).
Proof.
  intros Hm Hf c Hc. specialize (Hm c Hc). unfold mbind, action_bind. destruct (m c) as [c' [a|e]]; [|done].
  by apply Hf.
Qed.

(** The rest runs only with the value of a computation that succeeds. *)
Lemma preserves_lift_bind {A B} (r : result A) (f : A -> action B) :
  (forall a, r = Ok a -> preserves P (f a)) -> preserves P (lift r ≫= f).
Proof. intros Hf c Hc. unfold mbind, action_bind, lift. destruct r as [a|e]; [by apply Hf|done]. Qed.

Lemma preserves_statement {A} (f : T -> result (T * A)) :
  (forall t t' a, P t -> f t = Ok (t', a) -> P t') -> preserves P (statement f).
Proof.
  intros Hf c Hc%everywhere_begin. unfold statement. pose proof (everywhere_view _ Hc) as Hv.
  destruct (f (view (begin_ c))) as [[t a]|e] eqn:E; [|done]. split; [exact (proj1 Hc)|]. simpl. intros t' ?; simplify_eq. by eapply Hf.
Qed.

Lemma preserves_each {A} (f : A -> action unit) l : (forall x, x ∈ l -> preserves P (f x)) -> preserves P (each f l).
Proof.
  induction l as [|x l IH]; intros H; simpl; [apply preserves_ret|]. apply preserves_bind; [by apply H; left|].
  intros _. apply IH. intros y Hy. apply H. by right.
Qed.

Lemma preserves_executemany {A} (f : A -> T -> result (T * unit)) l :
  (forall x t t' u, x ∈ l -> P t -> f x t = Ok (t', u) -> P t') -> preserves P (executemany f l).
Proof.
  intros H c Hc%everywhere_begin. apply preserves_each; [|done]. intros x Hx. apply preserves_statement. intros. by eapply H.
Qed.

Lemma preserves_owning {A} (m : action A) : preserves P m -> preserves P (owning m).
Proof.
  intros Hm c Hc. unfold owning. destruct (in_transaction c); [by apply Hm|].
  specialize (Hm _ (everywhere_begin _ Hc)). destruct (m (begin_ c)) as [c' [a|e]].
  - by apply everywhere_commit.
  - by apply everywhere_rollback.
Qed.
End Preserves.

(** ** What transactions guarantee *)

(** Inside a transaction, an action commits nothing and leaves it open. *)
Class Uncommitted {A} (m : action A) : Prop := uncommitted : forall c, in_transaction c = true ->
  committed (m c).1 = committed c /\ in_transaction (m c).1 = true.

#[export] Instance uncommitted_ret {A} (a : A) : Uncommitted (mret a).
Proof. by intros c. Qed.
#[export] Instance uncommitted_lift {A} (r : result A) : Uncommitted (lift r).
Proof. by intros c. Qed.
#[export] Instance uncommitted_select {A} (f : T -> A) : Uncommitted (select f).
Proof. by intros c. Qed.
#[export] Instance uncommitted_bind {A B} (m : action A) (f : A -> action B) :
  Uncommitted m -> (forall a, Uncommitted (f a)) -> Uncommitted (m ≫= f).
Proof.
  intros Hm Hf c Hc. destruct (Hm c Hc) as [E Hc']. unfold mbind, action_bind. destruct (m c) as [c' [a|e]]; [|done].
  simpl in *. rewrite <- E. by apply Hf.
Qed.
#[export] Instance uncommitted_statement {A} (f : T -> result (T * A)) : Uncommitted (statement f).
Proof. intros c Hc. unfold statement. by destruct (f _) as [[]|]. Qed.
#[export] Instance uncommitted_each {A} (f : A -> action unit) l :
  (forall x, Uncommitted (f x)) -> Uncommitted (each f l).
Proof. intros Hf. induction l as [|x l IH]; simpl; apply _. Qed.
#[export] Instance uncommitted_traverse {A B} (f : A -> action B) l :
  (forall x, Uncommitted (f x)) -> Uncommitted (traverse f l).
Proof. intros Hf. induction l as [|x l IH]; simpl; apply _. Qed.
#[export] Instance uncommitted_executemany {A} (f : A -> T -> result (T * unit)) l :
  Uncommitted (executemany f l).
Proof. intros c Hc. unfold executemany. by destruct (uncommitted_each (fun x => statement (f x)) l _ (begin_ c)) as [-> ->]. Qed.
#[export] Instance uncommitted_owning {A} (m : action A) : Uncommitted m -> Uncommitted (owning m).
Proof. intros Hm c Hc. unfold owning. rewrite Hc. by apply Hm. Qed.

(** A transaction of its own that fails leaves the connection as it was; one that
    succeeds commits what its action left pending. *)
Lemma owning_Err {A} (m : action A) c c' e : Uncommitted m -> in_transaction c = false ->
  owning m c = (c', Err e) -> c' = c.
Proof.
  intros Hm Hc. unfold owning. rewrite Hc. destruct (Hm (begin_ c) eq_refl) as [E _].
  destruct (m (begin_ c)) as [c1 [a|e']]; [done|]. intros [= <- _]. simpl in *. unfold rollback. rewrite E.
  by destruct c as [t [p|]].
Qed.

Lemma owning_Ok {A} (m : action A) c c' a : in_transaction c = false -> owning m c = (c', Ok a) ->
  exists c1, m (begin_ c) = (c1, Ok a) /\ c' = commit c1.
Proof.
  intros Hc. unfold owning. rewrite Hc. destruct (m (begin_ c)) as [c1 [a'|e']]; [|done].
  intros [= <- ->]. by exists c1.
Qed.

(** A sequence of statements computes the fold of their effects. *)
Lemma each_statement_Ok {A} (f : A -> T -> result (T * unit)) l c c' u t : pending c = Some t ->
  each (fun x => statement (f x)) l c = (c', Ok u) ->
  exists t', foldR (fun t x => p ← f x t; Ok p.1) t l = Ok t' /\ c' = mkConnection (committed c) (Some t').
Proof.
  revert c t. induction l as [|x l IH]; intros c t Hc; simpl.
  - intros [= <- <-]. exists t. split; [done|]. destruct c. simpl in *. by subst.
  - unfold mbind, action_bind. unfold statement at 1. unfold view, begin_, view. rewrite Hc. simpl.
    destruct (f x t) as [[t1 []]|e]; [|done]. intros H. simpl.
    destruct (IH (mkConnection (committed c) (Some t1)) t1 eq_refl H) as (t' & E & ->). by exists t'.
Qed.

(** A new store stays pending in a transaction that was open, and is
    committed otherwise. *)
Definition settle (c : connection) (t : T) : connection :=
  if in_transaction c then mkConnection (committed c) (Some t) else mkConnection t None.

Lemma view_settle c t : view (settle c t) = t.
Proof. unfold settle. by destruct (in_transaction c). Qed.

(** A transaction that returns has done its action from an open connection. *)
Lemma owning_settle {A} (m : action A) c c' a :
  (forall c1 a, in_transaction c1 = true -> m (begin_ c) = (c1, Ok a) -> c1 = mkConnection (committed c) (Some (view c1))) ->
  Uncommitted m -> owning m c = (c', Ok a) ->
  exists c1, m (begin_ c) = (c1, Ok a) /\ c' = settle c (view c1).
Proof.
  intros Hm Hu. unfold owning, settle. destruct (in_transaction c) eqn:Hc.
  - intros E. exists c'. destruct c as [t [p|]]; [|done]. split; [exact E|].
    destruct (Hu _ Hc) as [_ Hin]. rewrite E in Hin. by apply (Hm c' a).
  - destruct (m (begin_ c)) as [c1 [a'|e]] eqn:E; [|done]. intros [= <- ->]. by exists c1.
Qed.

Lemma lift_cases {A B} (r : result A) (f : A -> action B) c (P : connection * result B -> Prop) :
  (forall e, P (c, Err e)) -> (forall a, r = Ok a -> P (f a c)) -> P ((lift r ≫= f) c).
Proof. intros He Hf. unfold mbind, action_bind, lift. destruct r as [a|e]; [by apply Hf|apply He]. Qed.

Lemma lift_Ok {A} (r : result A) c c' a : lift r c = (c', Ok a) -> c' = c /\ r = Ok a.
Proof. unfold lift. intros E. by simplify_eq. Qed.

Lemma bind_Ok_action {A B} (m : action A) (f : A -> action B) c c' b : (m ≫= f) c = (c', Ok b) ->
  exists c1 a, m c = (c1, Ok a) /\ f a c1 = (c', Ok b).
Proof. unfold mbind, action_bind. destruct (m c) as [c1 [a|e]]; [|done]. intros H. by exists c1, a. Qed.

Lemma executemany_Ok {A} (f : A -> T -> result (T * unit)) l c c' u t : pending c = Some t ->
  executemany f l c = (c', Ok u) ->
  exists t', foldR (fun t x => p ← f x t; Ok p.1) t l = Ok t' /\ c' = mkConnection (committed c) (Some t').
Proof.
  intros Hc. unfold executemany. apply each_statement_Ok with (c := begin_ c). simpl. unfold view. by rewrite Hc.
Qed.
End Store.

Arguments action_on T A : clear implicits.
