(* ===== verification/LedgerStore.v ===== *)
(** * LedgerStore: the tables of the coverage ledger and their writers
    (packages/data_plane/storage/coverage_ledger_io.py, the tables of migrations 3
    and 5 of storage/migrations.py)

    The tables of the ledger are the store of the connections of Transaction.v.  Rows
    given to the generic writers are mappings of Python values ([pyval]), which the
    writers freeze. *)

From S2P Require Import Prelude PyDate Json JsonText SourceCapability CoverageContract CoveragePlan Receipt Transaction.

Local Open Scope Z_scope.

(** ** Tables *)

Record segment_row := mkSegmentRow {
  sg_source : string;
  sg_dataset : string;
  sg_segment_id : string;
  sg_policy_version : string;
  sg_segment_start : string;
  sg_segment_end : string;
  sg_expected_scope : string;
  sg_expected_items : option Z;
  sg_status : string;
  sg_receipt_run_id : option Z;
  sg_evaluated_at : string;
  sg_detail_json : string;
}.

Record receipt_row := mkReceiptRow {
  rr_source : string;
  rr_dataset : string;
  rr_segment_id : string;
  rr_segment_start : string;
  rr_segment_end : string;
  rr_expected_scope : string;
  rr_expected_items : option Z;
  rr_observed_items : Z;
  rr_raw_page_count : Z;
  rr_raw_row_count : Z;
  rr_structured_row_count : Z;
  rr_pagination_exhausted : Z;
  rr_digests_json : string;
  rr_run_id : Z;
  rr_status : string;
  rr_error : option string;
  rr_checked_at : string;
}.

Record coverage_row := mkCoverageRow {
  dc_dataset : string;
  dc_status : string;
  dc_policy_version : string;
  dc_collection_scope : string;
  dc_history_target_start : string;
  dc_history_target_end_rule : string;
  dc_coverage_mode : string;
  dc_expected_frequency : string;
  dc_universe_rule : string;
  dc_raw_retention_required : Z;
  dc_structured_reconciliation_required : Z;
  dc_governance_tier : string;
  dc_observed_start : option string;
  dc_observed_end : option string;
  dc_row_count : Z;
  dc_source_run_id : option Z;
  dc_evaluated_at : string;
  dc_detail_json : string;
}.

#[export] Instance segment_row_eq_dec : EqDecision segment_row.
Proof. solve_decision. Defined.
#[export] Instance receipt_row_eq_dec : EqDecision receipt_row.
Proof. solve_decision. Defined.
#[export] Instance coverage_row_eq_dec : EqDecision coverage_row.
Proof. solve_decision. Defined.

Record tables := mkTables {
  coverage_segments : list segment_row;
  collection_receipts : list receipt_row;
  dataset_coverage : list coverage_row;
}.

(** Primary keys. *)
Definition segment_pk (r : segment_row) : string * string * string * string :=
  (sg_source r, sg_dataset r, sg_segment_id r, sg_policy_version r).
Definition receipt_pk (r : receipt_row) : string * string * string * Z :=
  (rr_source r, rr_dataset r, rr_segment_id r, rr_run_id r).

(** CHECK constraints. *)
Definition segment_check (r : segment_row) : bool :=
  match sg_expected_items r with Some n => 0 <=? n | None => true end
  && (sg_status r ∈? COVERAGE_STATUSES) && String.leb (sg_segment_start r) (sg_segment_end r).

Definition receipt_check (r : receipt_row) : bool :=
  match rr_expected_items r with Some n => 0 <=? n | None => true end
  && (0 <=? rr_observed_items r) && (0 <=? rr_raw_page_count r) && (0 <=? rr_raw_row_count r)
  && (0 <=? rr_structured_row_count r) && (rr_pagination_exhausted r ∈? [0; 1])
  && (rr_status r ∈? ["SUCCESS"; "FAILED"]) && String.leb (rr_segment_start r) (rr_segment_end r).

Definition coverage_check (r : coverage_row) : bool :=
  (dc_status r ∈? COVERAGE_STATUSES) && (dc_raw_retention_required r ∈? [0; 1])
  && (dc_structured_reconciliation_required r ∈? [0; 1]) && (dc_governance_tier r ∈? GOVERNANCE_TIERS).

(** What the schema guarantees of the tables. *)
Record tables_ok (t : tables) : Prop := mkTablesOk {
  tok_segments : NoDup (map segment_pk (coverage_segments t));
  tok_receipts : NoDup (map receipt_pk (collection_receipts t));
  tok_coverage : NoDup (map dc_dataset (dataset_coverage t));
  tok_segment_check : Forall (fun r => segment_check r = true) (coverage_segments t);
  tok_receipt_check : Forall (fun r => receipt_check r = true) (collection_receipts t);
  tok_coverage_check : Forall (fun r => coverage_check r = true) (dataset_coverage t);
}.

Abbreviation connection := (connection_to tables) (only parsing).
Abbreviation action := (action_on tables) (only parsing).

(** ** Statements *)

(** An integer SQLite can store. *)
Definition int64 (n : Z) : bool := (- 2 ^ 63 <=? n) && (n <? 2 ^ 63).
Definition bind_ints (l : list (option Z)) : result unit :=
  ensure (forallb (fun o => match o with Some n => int64 n | None => true end) l) OverflowError
    "Python int too large to convert to SQLite INTEGER".

(** [INSERT ... ON CONFLICT(key) DO UPDATE] of every other column. *)
Definition upsert {R K} `{EqDecision K} (key : R -> K) (row : R) (t : list R) : list R :=
  if bool_decide (key row ∈ map key t) then map (fun r => if decide (key r = key row) then row else r) t
  else t ++ [row].

Definition upsert_receipt (row : receipt_row) (t : tables) : result (tables * unit) :=
  _ ← bind_ints [rr_expected_items row; Some (rr_observed_items row); Some (rr_raw_page_count row);
                 Some (rr_raw_row_count row); Some (rr_structured_row_count row); Some (rr_run_id row)];
  _ ← ensure (receipt_check row) IntegrityError "CHECK constraint failed";
  Ok (mkTables (coverage_segments t) (upsert receipt_pk row (collection_receipts t)) (dataset_coverage t), tt).

Definition upsert_segment (row : segment_row) (t : tables) : result (tables * unit) :=
  _ ← bind_ints [sg_expected_items row; sg_receipt_run_id row];
  _ ← ensure (segment_check row) IntegrityError "CHECK constraint failed";
  Ok (mkTables (upsert segment_pk row (coverage_segments t)) (collection_receipts t) (dataset_coverage t), tt).

Definition insert_segment (row : segment_row) (t : tables) : result (tables * unit) :=
  _ ← bind_ints [sg_expected_items row; sg_receipt_run_id row];
  _ ← ensure (segment_check row) IntegrityError "CHECK constraint failed";
  _ ← ensure (negb (bool_decide (segment_pk row ∈ map segment_pk (coverage_segments t)))) IntegrityError
        "UNIQUE constraint failed";
  Ok (mkTables (coverage_segments t ++ [row]) (collection_receipts t) (dataset_coverage t), tt).

Definition upsert_coverage (row : coverage_row) (t : tables) : result (tables * unit) :=
  _ ← bind_ints [Some (dc_row_count row); dc_source_run_id row];
  _ ← ensure (coverage_check row) IntegrityError "CHECK constraint failed";
  Ok (mkTables (coverage_segments t) (collection_receipts t) (upsert dc_dataset row (dataset_coverage t)), tt).

Definition delete_segments (key : string * string * string) (t : tables) : result (tables * unit) :=
  Ok (mkTables (filter (fun r => (sg_source r, sg_dataset r, sg_policy_version r) <> key) (coverage_segments t))
        (collection_receipts t) (dataset_coverage t), tt).

(** [UPDATE dataset_coverage SET ... WHERE ...], and the number of rows updated. *)
Definition update_coverage (which : coverage_row -> bool) (set_ : coverage_row -> coverage_row) (t : tables)
    : result (tables * Z) :=
  let rows := map (fun r => if which r then set_ r else r) (dataset_coverage t) in
  _ ← ensure (forallb coverage_check rows) IntegrityError "CHECK constraint failed";
  Ok (mkTables (coverage_segments t) (collection_receipts t) rows,
      Z.of_nat (length (filter (fun r => which r = true) (dataset_coverage t)))).

(** ** Receipts and required segments *)

Definition record_collection_receipt (receipt : CollectionReceipt) : action unit :=
  _ ← lift (ensure (rc_status receipt ∈? ["SUCCESS"; "FAILED"]) ValueError "receipt status must be SUCCESS or FAILED");
  _ ← lift (ensure (forallb (fun n => negb (n <? 0))
        [rc_observed_items receipt; rc_raw_page_count receipt; rc_raw_row_count receipt;
         rc_structured_row_count receipt]) ValueError "receipt counts must be non-negative");
  scope ← lift (canonical_json (JDict (rc_expected_scope receipt)));
  digests ← lift (canonical_json (JDict (rc_digests receipt)));
  statement (upsert_receipt (mkReceiptRow (rc_source receipt) (rc_dataset receipt) (rc_segment_id receipt)
    (rc_segment_start receipt) (rc_segment_end receipt) scope (rc_expected_items receipt)
    (rc_observed_items receipt) (rc_raw_page_count receipt) (rc_raw_row_count receipt)
    (rc_structured_row_count receipt) (if rc_pagination_exhausted receipt then 1 else 0) digests
    (rc_run_id receipt) (rc_status receipt) (rc_error receipt) (rc_checked_at receipt))).

Section Required.
Variable contracts : coverage_registry.
Variable sha256_hex : string -> string.

Definition required_row (policy_version : option string) (evaluated_at : string) (segment : RequiredCoverageSegment)
    : result segment_row :=
  _ ← ensure (match seg_expected_items segment with Some n => negb (n <? 0) | None => true end) ValueError
        "expected segment items must be non-negative";
  version ← (match policy_version with
             | Some v => Ok v
             | None => b ← coverage_policy_binding contracts sha256_hex (seg_dataset segment); Ok (pb_policy_version b)
             end);
  scope ← canonical_json (JDict (seg_scope segment));
  detail ← canonical_json (JDict [("reason", JStr "required segment planned")]);
  Ok (mkSegmentRow (seg_source segment) (seg_dataset segment) (seg_id segment) version (seg_start segment)
        (seg_end segment) scope (seg_expected_items segment) "UNKNOWN" None evaluated_at detail).

Definition record_required_segments (required_segments : list RequiredCoverageSegment)
    (policy_version : option string) (evaluated_at : string) : action unit :=
  rows ← lift (mapR (required_row policy_version evaluated_at) required_segments);
  executemany upsert_segment rows.
End Required.

(** ** Generic writers *)

(** Values a caller may put in a row: the exact built-in scalars, and [PObject] for
    anything else (an instance of a subclass, say).  Floats and bytes are kept
    without their contents. *)
Inductive pyval : Set :=
  | PNone
  | PBool (b : bool)
  | PInt (n : Z)
  | PStr (s : string)
  | PFloat
  | PBytes
  | PObject.

#[export] Instance pyval_eq_dec : EqDecision pyval.
Proof. solve_decision. Defined.

Definition pyrow : Type := list (string * pyval).

Definition DATASET_COVERAGE_COLUMNS : list string :=
  ["dataset"; "status"; "policy_version"; "collection_scope"; "history_target_start"; "history_target_end_rule";
   "coverage_mode"; "expected_frequency"; "universe_rule"; "raw_retention_required";
   "structured_reconciliation_required"; "governance_tier"; "observed_start"; "observed_end"; "row_count";
   "source_run_id"; "evaluated_at"; "detail_json"].

Definition BOOL_COVERAGE_COLUMNS : list string := ["raw_retention_required"; "structured_reconciliation_required"].

Definition SEGMENT_WRITE_COLUMNS : list string :=
  ["source"; "dataset"; "segment_id"; "policy_version"; "segment_start"; "segment_end"; "expected_scope";
   "expected_items"; "status"; "receipt_run_id"; "evaluated_at"; "detail_json"].

Definition freeze_sql_value (value : pyval) : result pyval :=
  match value with
  | PObject => raise TypeError "must be an exact built-in SQLite scalar"
  | _ => Ok value
  end.

Definition freeze_mapping_row (row : pyrow) (columns : list string) : result (list pyval) :=
  mapR (fun column => v ← of_option KeyError "column" (lookup_str column row); freeze_sql_value v) columns.

Definition require_plain_string (value : pyval) : result string :=
  frozen ← freeze_sql_value value;
  match frozen with
  | PStr s => Ok s
  | _ => raise TypeError "must be an exact built-in string"
  end.

(** The integers among the values a statement binds. *)
Definition bind_cells (cells : list pyval) : result unit :=
  bind_ints (map (fun v => match v with PInt n => Some n | _ => None end) cells).

(** What SQLite stores of a value in a TEXT and in an INTEGER column.  Numbers in
    texts and texts in numbers other than these are outside the model. *)
Definition text_cell (v : pyval) : result string :=
  match v with
  | PStr s => Ok s
  | PInt n => Ok (show_Z n)
  | PBool b => Ok (if b then "1" else "0")
  | PNone => raise IntegrityError "NOT NULL constraint failed"
  | _ => raise OutsideModel "float or bytes in a TEXT column"
  end.

Definition nullable_text_cell (v : pyval) : result (option string) :=
  match v with PNone => Ok None | _ => s ← text_cell v; Ok (Some s) end.

Definition nullable_int_cell (v : pyval) : result (option Z) :=
  match v with
  | PNone => Ok None
  | PInt n => Ok (Some n)
  | PBool b => Ok (Some (if b then 1 else 0))
  | _ => raise OutsideModel "text, float or bytes in an INTEGER column"
  end.

Definition int_cell (v : pyval) : result Z :=
  o ← nullable_int_cell v; of_option IntegrityError "NOT NULL constraint failed" o.

(** [int(value)] *)
Definition py_int (v : pyval) : result Z :=
  match v with
  | PInt n => Ok n
  | PBool b => Ok (if b then 1 else 0)
  | PNone => raise TypeError "int() argument must be a string or a number"
  | _ => raise OutsideModel "int() of text, float or bytes"
  end.

(** The cells of a frozen row, in the order of the columns. *)
Definition segment_cells (cells : list pyval) : result segment_row :=
  _ ← bind_cells cells;
  match cells with
  | [source; dataset; id; version; start; end_; scope; items; status; run; at_; detail] =>
      source ← text_cell source; dataset ← text_cell dataset; id ← text_cell id; version ← text_cell version;
      start ← text_cell start; end_ ← text_cell end_; scope ← text_cell scope; items ← nullable_int_cell items;
      status ← text_cell status; run ← nullable_int_cell run; at_ ← text_cell at_; detail ← text_cell detail;
      Ok (mkSegmentRow source dataset id version start end_ scope items status run at_ detail)
  | _ => raise AssertionError "one cell for each column"
  end.

Definition coverage_cells (cells : list pyval) : result coverage_row :=
  _ ← bind_cells cells;
  match cells with
  | [dataset; status; version; scope; start; rule; mode; frequency; universe; raw; structured; tier; first; last_;
     count; run; at_; detail] =>
      dataset ← text_cell dataset; status ← text_cell status; version ← text_cell version; scope ← text_cell scope;
      start ← text_cell start; rule ← text_cell rule; mode ← text_cell mode; frequency ← text_cell frequency;
      universe ← text_cell universe; raw ← int_cell raw; structured ← int_cell structured; tier ← text_cell tier;
      first ← nullable_text_cell first; last_ ← nullable_text_cell last_; count ← int_cell count;
      run ← nullable_int_cell run; at_ ← text_cell at_; detail ← text_cell detail;
      Ok (mkCoverageRow dataset status version scope start rule mode frequency universe raw structured tier first
            last_ count run at_ detail)
  | _ => raise AssertionError "one cell for each column"
  end.

(** [int(value)] of the columns that hold booleans. *)
Definition coerce_bools (cells : list pyval) : result (list pyval) :=
  mapR (fun p : string * pyval => if p.1 ∈? BOOL_COVERAGE_COLUMNS then n ← py_int p.2; Ok (PInt n) else Ok p.2)
    (zip DATASET_COVERAGE_COLUMNS cells).

Definition status_cell (cells : list pyval) : pyval := default PNone (cells !! 1%nat).

Definition persist_refreshed_coverage (delete_keys : list (list pyval)) (segment_rows coverage_rows : list pyrow)
    : action unit :=
  keys ← lift (mapR (mapR require_plain_string) delete_keys);
  keys ← lift (mapR (fun key => match key with
                      | [source; dataset; version] => Ok (source, dataset, version)
                      | _ => raise ValueError "Coverage delete keys must contain exactly three fields"
                      end) keys);
  segments ← lift (mapR (fun row => freeze_mapping_row row SEGMENT_WRITE_COLUMNS) segment_rows);
  rows ← lift (mapR (fun row => freeze_mapping_row row DATASET_COVERAGE_COLUMNS) coverage_rows);
  _ ← lift (ensure (negb (existsb (fun cells => bool_decide (status_cell cells = PStr "COMPLETE")) rows)) ValueError
        "generic Coverage persistence cannot write aggregate COMPLETE");
  owning (
    _ ← executemany delete_segments keys;
    _ ← executemany (fun cells t => row ← segment_cells cells; insert_segment row t) segments;
    rows ← lift (mapR coerce_bools rows);
    executemany (fun cells t => row ← coverage_cells cells; upsert_coverage row t) rows).

Definition set_evidence (status detail_json evaluated_at : string) (r : coverage_row) : coverage_row :=
  mkCoverageRow (dc_dataset r) status (dc_policy_version r) (dc_collection_scope r) (dc_history_target_start r)
    (dc_history_target_end_rule r) (dc_coverage_mode r) (dc_expected_frequency r) (dc_universe_rule r)
    (dc_raw_retention_required r) (dc_structured_reconciliation_required r) (dc_governance_tier r)
    (dc_observed_start r) (dc_observed_end r) (dc_row_count r) (dc_source_run_id r) evaluated_at detail_json.

Definition update_dataset_coverage_row (dataset status detail_json evaluated_at : pyval) : action unit :=
  dataset ← lift (require_plain_string dataset);
  status ← lift (require_plain_string status);
  detail_json ← lift (require_plain_string detail_json);
  evaluated_at ← lift (require_plain_string evaluated_at);
  _ ← lift (ensure (negb (status =s "COMPLETE")) ValueError "generic Coverage update cannot write aggregate COMPLETE");
  _ ← statement (update_coverage (fun r => dc_dataset r =s dataset) (set_evidence status detail_json evaluated_at));
  mret tt.

(** [WHERE dataset=? AND status='COMPLETE' AND policy_version=?] *)
Definition existing_complete (dataset policy_version : option string) (r : coverage_row) : bool :=
  bool_decide (dataset = Some (dc_dataset r)) && (dc_status r =s "COMPLETE")
  && bool_decide (policy_version = Some (dc_policy_version r)).

Definition preserve_existing_complete_coverage_row (row : pyrow) : action unit :=
  cells ← lift (freeze_mapping_row row DATASET_COVERAGE_COLUMNS);
  _ ← lift (ensure (bool_decide (status_cell cells = PStr "COMPLETE")) ValueError
        "status-preserving Coverage update requires COMPLETE");
  cells ← lift (coerce_bools cells);
  updated ← statement (fun t =>
    _ ← bind_cells cells;
    dataset ← nullable_text_cell (default PNone (cells !! 0%nat));
    version ← nullable_text_cell (default PNone (cells !! 2%nat));
    if existsb (existing_complete dataset version) (dataset_coverage t) then
      new ← coverage_cells cells;
      update_coverage (existing_complete dataset version) (fun _ => new) t
    else Ok (t, 0));
  lift (ensure (updated =? 1) RuntimeError "verified COMPLETE aggregate disappeared or changed policy").

Definition update_existing_complete_coverage_evidence (dataset policy_version detail_json evaluated_at : pyval)
    : action unit :=
  dataset ← lift (require_plain_string dataset);
  policy_version ← lift (require_plain_string policy_version);
  detail_json ← lift (require_plain_string detail_json);
  evaluated_at ← lift (require_plain_string evaluated_at);
  updated ← statement (update_coverage (existing_complete (Some dataset) (Some policy_version))
                        (set_evidence "COMPLETE" detail_json evaluated_at));
  lift (ensure (updated =? 1) RuntimeError "verified COMPLETE aggregate disappeared or changed policy").

(** ** Readers *)

Definition read_dataset_coverage (t : tables) (dataset : option string) : list coverage_row :=
  match dataset with
  | None => py_sorted (fun a b => String.leb (dc_dataset a) (dc_dataset b)) (dataset_coverage t)
  | Some d => filter (fun r => dc_dataset r = d) (dataset_coverage t)
  end.

(** ** What every writer keeps *)

(** A dataset that is COMPLETE in [t] was COMPLETE in [base], under the same policy. *)
Definition no_new_complete (base t : tables) : Prop := forall row, row ∈ dataset_coverage t ->
  dc_status row = "COMPLETE" ->
  exists old, old ∈ dataset_coverage base /\ dc_dataset old = dc_dataset row /\
    dc_policy_version old = dc_policy_version row /\ dc_status old = "COMPLETE".

Section Upsert.
Context {R K : Type} `{EqDecision K} (key : R -> K).

Lemma upsert_keys row t : map key (upsert key row t) =
  if bool_decide (key row ∈ map key t) then map key t else map key t ++ [key row].
Proof.
  unfold upsert. case_bool_decide as Hk; [|by rewrite map_app]. rewrite map_map. apply map_ext.
  intros r. by case_decide.
Qed.

Lemma upsert_NoDup row t : NoDup (map key t) -> NoDup (map key (upsert key row t)).
Proof.
  intros Hn. rewrite upsert_keys. case_bool_decide as Hk; [done|]. apply NoDup_app. split; [done|].
  split; [|by apply NoDup_singleton]. intros k Hk' ->%list_elem_of_singleton. done.
Qed.

(** The rows of the table after it: the new one, and the old ones with other keys. *)
Lemma elem_of_upsert row t r : r ∈ upsert key row t <-> r = row \/ (r ∈ t /\ key r <> key row).
Proof.
  unfold upsert. case_bool_decide as Hk.
  - apply list_elem_of_fmap in Hk as (old & E & Hold). split.
    + intros (r' & -> & Hr')%list_elem_of_fmap. case_decide; auto.
    + intros [->|[Hr Hne]].
      * apply list_elem_of_fmap. exists old. by rewrite decide_True.
      * apply list_elem_of_fmap. exists r. by rewrite decide_False.
  - rewrite elem_of_app, list_elem_of_singleton. split; [|tauto]. intros [Hr| ->]; [|by left]. right. split; [done|].
    intros E. apply Hk. rewrite <- E. apply list_elem_of_fmap. by exists r.
Qed.
End Upsert.

Lemma NoDup_map_filter {A B} (f : A -> B) (Q : A -> Prop) `{forall x, Decision (Q x)} (l : list A) :
  NoDup (map f l) -> NoDup (map f (filter Q l)).
Proof.
  induction l as [|x l IH]; cbn [map]; [done|]. intros [Hx Hl]%NoDup_cons.
  rewrite filter_cons. case_decide; [|by apply IH].
  simpl. apply NoDup_cons. split; [|by apply IH]. intros (y & E & Hy%list_elem_of_filter)%list_elem_of_fmap.
  apply Hx, list_elem_of_fmap. exists y. tauto.
Qed.

(** The tables are well-formed, and nothing in them became COMPLETE since [base]. *)
Definition good (base t : tables) : Prop := tables_ok t /\ no_new_complete base t.

Lemma no_new_complete_refl t : no_new_complete t t.
Proof. intros row Hr Hc. by exists row. Qed.

(** Unfolds a successful statement into its guards and its result. *)
Ltac run H := binds H; ensures; simplify_eq.

Lemma no_new_complete_trans t1 t2 t3 : no_new_complete t1 t2 -> no_new_complete t2 t3 -> no_new_complete t1 t3.
Proof.
  intros H1 H2 row Hr Hs. destruct (H2 row Hr Hs) as (r2 & Hr2 & Ed & Ep & Hs2).
  destruct (H1 r2 Hr2 Hs2) as (r1 & Hr1 & Ed1 & Ep1 & Hs1). exists r1. split_and!; congruence.
Qed.

(** Changes of the aggregates alone, none of which becomes COMPLETE. *)
Record aggregates_only (t t' : tables) : Prop := mkAggregatesOnly {
  ao_segments : coverage_segments t' = coverage_segments t;
  ao_receipts : collection_receipts t' = collection_receipts t;
  ao_complete : no_new_complete t t';
}.

#[export] Instance aggregates_only_preorder : PreOrder aggregates_only.
Proof.
  split.
  - intros t. split; [done|done|apply no_new_complete_refl].
  - intros t1 t2 t3 [] []. split; [congruence|congruence|by eapply no_new_complete_trans].
Qed.

(** A new version of a row: of the same dataset, and of the same policy and COMPLETE
    before if it is COMPLETE. *)
Definition same_or_open (r r' : coverage_row) : Prop := dc_dataset r' = dc_dataset r /\
  (dc_status r' = "COMPLETE" -> dc_status r = "COMPLETE" /\ dc_policy_version r' = dc_policy_version r).

Lemma update_coverage_only which set_ t t' (n : Z) :
  (forall r, which r = true -> same_or_open r (set_ r)) -> update_coverage which set_ t = Ok (t', n) ->
  aggregates_only t t'.
Proof.
  intros Hset. unfold update_coverage. intros H. run H. split; [done|done|].
  intros r (r0 & -> & Hr0)%list_elem_of_fmap Hs. destruct (which r0) eqn:Ew.
  - destruct (Hset r0 Ew) as [Ed Hs']. destruct (Hs' Hs) as [Hs0 Hv]. by exists r0.
  - by exists r0.
Qed.

Section Statements.
Context (base : tables).

Lemma good_upsert_receipt row t t' u : good base t -> upsert_receipt row t = Ok (t', u) -> good base t'.
Proof.
  intros [[] Hc]. unfold upsert_receipt. intros H. run H. split; [|done]. split; simpl; try done.
  - by apply upsert_NoDup.
  - rewrite Forall_forall in *. intros r [->|[Hr _]]%elem_of_upsert; auto.
Qed.

Lemma good_segments rows t : good base t -> NoDup (map segment_pk rows) ->
  Forall (fun r => segment_check r = true) rows -> good base (mkTables rows (collection_receipts t) (dataset_coverage t)).
Proof. intros [[] Hc] Hn Hf. by split. Qed.

Lemma good_upsert_segment row t t' u : good base t -> upsert_segment row t = Ok (t', u) -> good base t'.
Proof.
  intros Hg. pose proof Hg as [[] _]. unfold upsert_segment. intros H. run H. apply good_segments; [done| |].
  - by apply upsert_NoDup.
  - rewrite Forall_forall in *. intros r [->|[Hr _]]%elem_of_upsert; auto.
Qed.

Lemma good_insert_segment row t t' u : good base t -> insert_segment row t = Ok (t', u) -> good base t'.
Proof.
  intros Hg. pose proof Hg as [[] _]. unfold insert_segment. intros H. run H. apply good_segments; [done| |].
  - rewrite map_app. apply NoDup_app. split; [done|]. split; [|by apply NoDup_singleton].
    bools. by intros k Hk ->%list_elem_of_singleton.
  - apply Forall_app. split; [done|by constructor].
Qed.

Lemma good_delete key t t' u : good base t -> delete_segments key t = Ok (t', u) -> good base t'.
Proof.
  intros Hg. pose proof Hg as [[] _]. unfold delete_segments. intros H. run H. apply good_segments; [done| |].
  - by apply NoDup_map_filter.
  - rewrite Forall_forall in *. intros r Hr%list_elem_of_filter. naive_solver.
Qed.

Lemma good_upsert_coverage row t t' u : good base t -> dc_status row <> "COMPLETE" ->
  upsert_coverage row t = Ok (t', u) -> good base t'.
Proof.
  intros [[] Hc] Hs. unfold upsert_coverage. intros H. run H. split; [split; simpl; try done|].
  - by apply upsert_NoDup.
  - rewrite Forall_forall in *. intros r [->|[Hr _]]%elem_of_upsert; auto.
  - intros r [->|[Hr _]]%elem_of_upsert Hcomplete; [done|]. by apply Hc.
Qed.

Lemma good_update_coverage which set_ t t' (n : Z) : good base t ->
  (forall r, which r = true -> same_or_open r (set_ r)) -> update_coverage which set_ t = Ok (t', n) -> good base t'.
Proof.
  intros [[] Hc] Hset Hu. split.
  2:{ eapply no_new_complete_trans; [exact Hc|]. by eapply update_coverage_only. }
  unfold update_coverage in Hu. run Hu.
  split; simpl; try done.
  - rewrite map_map. rewrite (map_ext _ dc_dataset); [done|]. intros r. destruct (which r) eqn:Ew; [|done].
    by destruct (Hset r Ew).
  - apply Forall_forall. intros r Hr. rewrite forallb_forall in *.
    match goal with H : forall _, In _ _ -> _ |- _ => by apply H, list_elem_of_In end.
Qed.
End Statements.

(** An action is honest when it keeps the tables well-formed and makes no dataset
    COMPLETE.  The clients of the store are shown honest from the honesty of its
    writers. *)
Class Honest {A} (m : action A) : Prop := honest : forall base, preserves (good base) m.

(** In particular it keeps the tables well-formed, whatever they say. *)
Lemma honest_tables_ok {A} (m : action A) `{!Honest m} : preserves tables_ok m.
Proof.
  intros c Hc. set (base := mkTables [] [] (dataset_coverage (committed c) ++ dataset_coverage (view c))).
  assert (Hb : forall t, t = committed c \/ t = view c -> no_new_complete base t).
  { intros t Ht row Hrow Hs. exists row. split; [|done]. apply elem_of_app. destruct Ht as [->| ->]; auto. }
  destruct (honest base c) as [[Hok _] Hp].
  - split; [split; [exact (proj1 Hc)|by apply Hb; left]|]. intros t E. split; [by apply (proj2 Hc)|]. apply Hb. right. unfold view. by rewrite E.
  - split; [done|]. intros t E. by apply Hp.
Qed.

#[export] Instance honest_ret {A} (a : A) : Honest (mret a).
Proof. intros base. apply preserves_ret. Qed.
#[export] Instance honest_lift {A} (r : result A) : Honest (lift r).
Proof. intros base. apply preserves_lift. Qed.
#[export] Instance honest_select {A} (f : tables -> A) : Honest (select f).
Proof. intros base. apply preserves_select. Qed.
#[export] Instance honest_bind {A B} (m : action A) (f : A -> action B) :
  Honest m -> (forall a, Honest (f a)) -> Honest (m ≫= f).
Proof. intros Hm Hf base. apply preserves_bind; [apply Hm|]. intros a. apply Hf. Qed.
#[export] Instance honest_owning {A} (m : action A) : Honest m -> Honest (owning m).
Proof. intros Hm base. by apply preserves_owning. Qed.

#[export] Instance honest_each {A} (f : A -> action unit) l : (forall x, Honest (f x)) -> Honest (each f l).
Proof. intros Hf base. apply preserves_each. intros x _. apply Hf. Qed.
#[export] Instance honest_traverse {A B} (f : A -> action B) l : (forall x, Honest (f x)) -> Honest (traverse f l).
Proof. intros Hf. induction l as [|x l IH]; simpl; apply _. Qed.

#[export] Instance honest_record_receipt r : Honest (record_collection_receipt r).
Proof.
  unfold record_collection_receipt. repeat (apply honest_bind; [apply _|intros ?]). intros base.
  apply preserves_statement. intros t t' u. by apply good_upsert_receipt.
Qed.

#[export] Instance honest_record_required contracts sha256_hex segments version now :
  Honest (record_required_segments contracts sha256_hex segments version now).
Proof.
  unfold record_required_segments. apply honest_bind; [apply _|]. intros rows base. apply preserves_executemany.
  intros row t t' u _. by apply good_upsert_segment.
Qed.

(** The cells a row is made of. *)
Lemma coverage_cells_at cells row : coverage_cells cells = Ok row -> exists v0 v1 v2,
  cells !! 0%nat = Some v0 /\ cells !! 1%nat = Some v1 /\ cells !! 2%nat = Some v2 /\
  text_cell v0 = Ok (dc_dataset row) /\ text_cell v1 = Ok (dc_status row) /\
  text_cell v2 = Ok (dc_policy_version row).
Proof.
  unfold coverage_cells. intros H. apply bind_Ok in H as (u & _ & H). destruct cells as [|v0 [|v1 [|v2 cells]]]; try done.
  do 15 (destruct cells as [|? cells]; [done|]). destruct cells; [|done].
  binds H. simplify_eq. by exists v0, v1, v2.
Qed.

Lemma text_cell_complete v : text_cell v = Ok "COMPLETE" -> v = PStr "COMPLETE".
Proof.
  destruct v as [|[]|n|s| | |]; simpl; try done; [|by intros [= ->]].
  destruct (show_Z_head n) as (c & t & -> & Hc). intros [= -> _]. exfalso.
  destruct Hc as [Hc|Hc]; [done|by apply Hc].
Qed.

(** Only the columns of booleans are coerced. *)
Lemma coerce_bools_at cells cells' i column : coerce_bools cells = Ok cells' ->
  DATASET_COVERAGE_COLUMNS !! i = Some column -> column ∉ BOOL_COVERAGE_COLUMNS -> cells' !! i = cells !! i.
Proof.
  intros H%mapR_Ok Hi Hc. destruct (cells !! i) as [v|] eqn:E.
  - assert (Hz : zip DATASET_COVERAGE_COLUMNS cells !! i = Some (column, v)).
    { apply lookup_zip_with_Some. by exists column, v. }
    destruct (Forall2_lookup_l _ _ _ _ _ H Hz) as (y & -> & Hy). simpl in Hy.
    rewrite bool_decide_eq_false_2 in Hy by done. by simplify_eq.
  - apply lookup_ge_None in E. apply lookup_ge_None. apply Forall2_length in H. rewrite length_zip_with in H. lia.
Qed.

(** The generic guard, as a fact of the rows that reach the table. *)
Lemma guarded_status rows rows' cells' row :
  existsb (fun cells => bool_decide (status_cell cells = PStr "COMPLETE")) rows = false ->
  mapR coerce_bools rows = Ok rows' -> cells' ∈ rows' -> coverage_cells cells' = Ok row -> dc_status row <> "COMPLETE".
Proof.
  intros Hu Hrows Hin Hrow Hs. destruct (mapR_elem _ _ _ _ Hrows Hin) as (cells & Hcells & Hco).
  destruct (coverage_cells_at _ _ Hrow) as (_ & v & _ & _ & Hv & _ & _ & Hv' & _).
  rewrite Hs in Hv'. apply text_cell_complete in Hv' as ->.
  rewrite (coerce_bools_at _ _ 1 "status" Hco) in Hv by (done || by apply (bool_decide_unpack _)).
  apply not_true_iff_false in Hu. apply Hu, existsb_exists. exists cells.
  split; [by apply list_elem_of_In|]. unfold status_cell. rewrite Hv. by apply bool_decide_eq_true_2.
Qed.

#[export] Instance honest_persist keys segments rows : Honest (persist_refreshed_coverage keys segments rows).
Proof.
  unfold persist_refreshed_coverage. do 4 (apply honest_bind; [apply _|intros ?]). intros base.
  apply preserves_lift_bind. intros u Hu. ensures. apply preserves_owning.
  apply preserves_bind; [apply preserves_executemany; intros key t t' u' _; by apply good_delete|]. intros _.
  apply preserves_bind.
  { apply preserves_executemany. intros cells t t' u' _ Hg H. apply bind_Ok in H as (row & _ & H).
    by eapply good_insert_segment. }
  intros _. apply preserves_lift_bind. intros rows' Hrows. apply preserves_executemany.
  intros cells' t t' u' Hin Hg H. apply bind_Ok in H as (row & Hrow & H).
  eapply good_upsert_coverage; [exact Hg| |exact H]. by eapply guarded_status.
Qed.

#[export] Instance honest_update dataset status detail now : Honest (update_dataset_coverage_row dataset status detail now).
Proof.
  unfold update_dataset_coverage_row. intros base.
  repeat (apply preserves_lift_bind; intros ? ?). ensures. apply preserves_bind; [|intros; apply preserves_ret].
  apply preserves_statement. intros t t' n Hg Hu. eapply good_update_coverage; [exact Hg| |exact Hu].
  intros r _. by split.
Qed.

#[export] Instance honest_evidence dataset version detail now :
  Honest (update_existing_complete_coverage_evidence dataset version detail now).
Proof.
  unfold update_existing_complete_coverage_evidence. intros base.
  repeat (apply preserves_lift_bind; intros ? ?). apply preserves_bind; [|intros; apply preserves_lift].
  apply preserves_statement. intros t t' n Hg Hu. eapply good_update_coverage; [exact Hg| |exact Hu].
  intros r Hr. unfold existing_complete in Hr. bools. by split.
Qed.

(** ** Writers of aggregates *)

Lemma set_evidence_open status detail now r : status <> "COMPLETE" -> same_or_open r (set_evidence status detail now r).
Proof. by split. Qed.

Lemma existing_complete_evidence dataset version detail now r :
  existing_complete dataset version r = true -> same_or_open r (set_evidence "COMPLETE" detail now r).
Proof. unfold existing_complete. intros H. bools. by split. Qed.

Lemma nullable_text_some v s : nullable_text_cell v = Ok (Some s) -> text_cell v = Ok s.
Proof. destruct v; simpl; try done; by intros [= ->]. Qed.

Lemma existing_complete_row cells dataset version new r : coverage_cells cells = Ok new ->
  nullable_text_cell (default PNone (cells !! 0%nat)) = Ok dataset ->
  nullable_text_cell (default PNone (cells !! 2%nat)) = Ok version ->
  existing_complete dataset version r = true -> same_or_open r new.
Proof.
  intros Hnew Hd Hv Hr. unfold existing_complete in Hr. bools. subst.
  destruct (coverage_cells_at _ _ Hnew) as (v0 & v1 & v2 & C0 & _ & C2 & T0 & _ & T2).
  rewrite C0 in Hd. rewrite C2 in Hv. simpl in Hd, Hv. apply nullable_text_some in Hd, Hv.
  rewrite T0 in Hd. rewrite T2 in Hv. by simplify_eq.
Qed.

Lemma preserve_statement_only cells t t' n :
  (_ ← bind_cells cells;
   dataset ← nullable_text_cell (default PNone (cells !! 0%nat));
   version ← nullable_text_cell (default PNone (cells !! 2%nat));
   if existsb (existing_complete dataset version) (dataset_coverage t) then
     new ← coverage_cells cells; update_coverage (existing_complete dataset version) (fun _ => new) t
   else Ok (t, 0)) = Ok (t', n) ->
  t' = t \/ exists which set_, (forall r, which r = true -> same_or_open r (set_ r)) /\
    update_coverage which set_ t = Ok (t', n).
Proof.
  intros H. binds H. destruct (existsb _ _); [|left; congruence]. binds H. right.
  eexists _, _. split; [|exact H]. intros r. by eapply existing_complete_row.
Qed.

#[export] Instance honest_preserve row : Honest (preserve_existing_complete_coverage_row row).
Proof.
  unfold preserve_existing_complete_coverage_row. intros base.
  repeat (apply preserves_lift_bind; intros ? ?). apply preserves_bind; [|intros; apply preserves_lift].
  apply preserves_statement. intros t t' n Hg [->|(which & set_ & Hset & Hu)]%preserve_statement_only; [done|].
  by eapply good_update_coverage.
Qed.

#[export] Instance uncommitted_persist keys segments rows : Uncommitted (persist_refreshed_coverage keys segments rows).
Proof. unfold persist_refreshed_coverage. apply _. Qed.
#[export] Instance uncommitted_update dataset status detail now :
  Uncommitted (update_dataset_coverage_row dataset status detail now).
Proof. unfold update_dataset_coverage_row. apply _. Qed.
#[export] Instance uncommitted_preserve row : Uncommitted (preserve_existing_complete_coverage_row row).
Proof. unfold preserve_existing_complete_coverage_row. apply _. Qed.
#[export] Instance uncommitted_evidence dataset version detail now :
  Uncommitted (update_existing_complete_coverage_evidence dataset version detail now).
Proof. unfold update_existing_complete_coverage_evidence. apply _. Qed.

(** An action that only changes aggregates, whatever it returns. *)
Class AggregatesOnly {A} (m : action A) : Prop := only_aggregates : forall c, aggregates_only (view c) (view (m c).1).

#[export] Instance only_lift {A} (r : result A) : AggregatesOnly (lift r).
Proof. by intros c. Qed.
#[export] Instance only_ret {A} (a : A) : AggregatesOnly (mret a).
Proof. by intros c. Qed.
#[export] Instance only_select {A} (f : tables -> A) : AggregatesOnly (select f).
Proof. by intros c. Qed.
#[export] Instance only_bind {A B} (m : action A) (f : A -> action B) :
  AggregatesOnly m -> (forall a, AggregatesOnly (f a)) -> AggregatesOnly (m ≫= f).
Proof.
  intros Hm Hf c. specialize (Hm c). unfold mbind, action_bind. destruct (m c) as [c1 [a|e]]; [|done].
  etransitivity; [exact Hm|apply Hf].
Qed.
Lemma only_lift_bind {A B} (r : result A) (f : A -> action B) :
  (forall a, r = Ok a -> AggregatesOnly (f a)) -> AggregatesOnly (lift r ≫= f).
Proof. intros Hf c. unfold mbind, action_bind, lift. destruct r as [a|e]; [by apply Hf|done]. Qed.
#[export] Instance only_each {A} (f : A -> action unit) l : (forall x, AggregatesOnly (f x)) -> AggregatesOnly (each f l).
Proof. intros Hf. induction l as [|x l IH]; simpl; [apply only_ret|apply only_bind; [apply Hf|done]]. Qed.
#[export] Instance only_traverse {A B} (f : A -> action B) l :
  (forall x, AggregatesOnly (f x)) -> AggregatesOnly (traverse f l).
Proof.
  intros Hf. induction l as [|x l IH]; simpl; [apply only_ret|]. apply only_bind; [apply Hf|]. intros y.
  apply only_bind; [exact IH|]. intros ys. apply only_ret.
Qed.
Lemma only_statement {A} (f : tables -> result (tables * A)) :
  (forall t t' a, f t = Ok (t', a) -> aggregates_only t t') -> AggregatesOnly (statement f).
Proof.
  intros Hf c. unfold statement. change (view (begin_ c)) with (view c).
  destruct (f (view c)) as [[t a]|e] eqn:E; [by eapply Hf|done].
Qed.
#[export] Instance only_update dataset status detail now : AggregatesOnly (update_dataset_coverage_row dataset status detail now).
Proof.
  unfold update_dataset_coverage_row. repeat (apply only_lift_bind; intros ? ?). ensures. apply only_bind; [|apply _].
  apply only_statement. intros t t' n. apply update_coverage_only. intros r _. by apply set_evidence_open.
Qed.
#[export] Instance only_evidence dataset version detail now :
  AggregatesOnly (update_existing_complete_coverage_evidence dataset version detail now).
Proof.
  unfold update_existing_complete_coverage_evidence. repeat (apply only_lift_bind; intros ? ?).
  apply only_bind; [|intros; apply only_lift]. apply only_statement. intros t t' n. apply update_coverage_only.
  intros r. apply existing_complete_evidence.
Qed.
#[export] Instance only_preserve row : AggregatesOnly (preserve_existing_complete_coverage_row row).
Proof.
  unfold preserve_existing_complete_coverage_row. repeat (apply only_lift_bind; intros ? ?).
  apply only_bind; [|intros; apply only_lift]. apply only_statement.
  intros t t' n [->|(which & set_ & Hset & Hu)]%preserve_statement_only; [done|]. by eapply update_coverage_only.
Qed.

(** ** What the generic writer writes *)

Lemma delete_all keys t t' : foldR (fun t key => p ← delete_segments key t; Ok p.1) t keys = Ok t' ->
  t' = mkTables (filter (fun r => (sg_source r, sg_dataset r, sg_policy_version r) ∉ keys) (coverage_segments t))
         (collection_receipts t) (dataset_coverage t).
Proof.
  revert t. induction keys as [|key keys IH]; intros t; simpl.
  - intros [= <-]. destruct t. simpl. f_equal. symmetry. apply filter_all, Forall_forall.
    intros r _ H. by apply elem_of_nil in H.
  - intros ->%IH. simpl. f_equal. rewrite list_filter_filter. apply list_filter_iff. intros r. set_solver.
Qed.

(** The cells of the rows that are written. *)
Definition segment_of (row : pyrow) : result segment_row :=
  cells ← freeze_mapping_row row SEGMENT_WRITE_COLUMNS; segment_cells cells.
Definition coverage_of (row : pyrow) : result coverage_row :=
  cells ← freeze_mapping_row row DATASET_COVERAGE_COLUMNS; cells ← coerce_bools cells; coverage_cells cells.

Lemma insert_all cells t t' : foldR (fun t cells => p ← (row ← segment_cells cells; insert_segment row t); Ok p.1) t cells = Ok t' ->
  exists rows, mapR segment_cells cells = Ok rows /\
    t' = mkTables (coverage_segments t ++ rows) (collection_receipts t) (dataset_coverage t).
Proof.
  revert t. induction cells as [|x cells IH]; intros t; simpl.
  - intros [= <-]. exists []. split; [done|]. destruct t. simpl. by rewrite app_nil_r.
  - destruct (segment_cells x) as [row|]; [|done]. simpl.
    destruct (insert_segment row t) as [[t1 []]|] eqn:E; [|done]. simpl. unfold insert_segment in E. run E.
    intros (rows & -> & ->)%IH. exists (row :: rows). split; [done|]. simpl. by rewrite <- app_assoc.
Qed.

Lemma upsert_all cells t t' : foldR (fun t cells => p ← (row ← coverage_cells cells; upsert_coverage row t); Ok p.1) t cells = Ok t' ->
  exists rows, mapR coverage_cells cells = Ok rows /\
    t' = mkTables (coverage_segments t) (collection_receipts t)
           (fold_left (fun table row => upsert dc_dataset row table) rows (dataset_coverage t)).
Proof.
  revert t. induction cells as [|x cells IH]; intros t; simpl.
  - intros [= <-]. exists []. split; [done|]. by destruct t.
  - destruct (coverage_cells x) as [row|]; [|done]. simpl.
    destruct (upsert_coverage row t) as [[t1 []]|] eqn:E; [|done]. simpl. unfold upsert_coverage in E. run E.
    intros (rows & -> & ->)%IH. by exists (row :: rows).
Qed.

Lemma mapR_comp {A B C} (f : A -> result B) (g : B -> result C) l ys zs :
  mapR f l = Ok ys -> mapR g ys = Ok zs -> mapR (fun x => y ← f x; g y) l = Ok zs.
Proof.
  revert ys zs. induction l as [|x l IH]; intros ys zs; simpl; [by intros [= <-]|].
  destruct (f x) as [y|]; [|done]. simpl. destruct (mapR f l) as [ys'|]; [|done]. simpl. intros [= <-]. simpl.
  destruct (g y) as [z|]; [|done]. simpl. destruct (mapR g ys') as [zs'|] eqn:E; [|done]. intros [= <-].
  by rewrite (IH _ _ eq_refl E).
Qed.

(** The tables after the generic writer: the segments whose source, dataset and
    policy version are among the keys are gone, the given segments are added, the
    given aggregates replace those of their datasets. *)
Definition persisted (keys : list (string * string * string)) (segments : list segment_row) (rows : list coverage_row)
    (t : tables) : tables :=
  mkTables (filter (fun r => (sg_source r, sg_dataset r, sg_policy_version r) ∉ keys) (coverage_segments t) ++ segments)
    (collection_receipts t) (fold_left (fun table row => upsert dc_dataset row table) rows (dataset_coverage t)).

(** What is written when the generic writer returns. *)
Definition writes (keys : list (list pyval)) (segment_rows coverage_rows : list pyrow) (t t' : tables) : Prop :=
  exists keys' segments rows,
    mapR (mapR require_plain_string) keys = Ok (map (fun k : string * string * string => [k.1.1; k.1.2; k.2]) keys') /\
    mapR segment_of segment_rows = Ok segments /\ mapR coverage_of coverage_rows = Ok rows /\
    Forall (fun r => dc_status r <> "COMPLETE") rows /\ t' = persisted keys' segments rows t.

(** A row of the aggregates after it is one of the new ones, or an old one of another
    dataset. *)
Lemma elem_of_upserts rows table r : r ∈ fold_left (fun table row => upsert dc_dataset row table) rows table ->
  r ∈ rows \/ (r ∈ table /\ dc_dataset r ∉ map dc_dataset rows).
Proof.
  revert table. induction rows as [|row rows IH]; intros table; simpl; [right; split; [done|apply not_elem_of_nil]|].
  intros [H|[H Hn]]%IH; [left; by right|]. apply elem_of_upsert in H as [->|[H Hne]]; [left; by left|].
  right. split; [done|]. by rewrite not_elem_of_cons.
Qed.

Lemma persist_Ok keys segment_rows coverage_rows c c' u :
  persist_refreshed_coverage keys segment_rows coverage_rows c = (c', Ok u) ->
  exists t, writes keys segment_rows coverage_rows (view c) t /\ c' = settle c t.
Proof.
  unfold persist_refreshed_coverage. intros H.
  apply bind_Ok_action in H as (c1 & strings & [-> Hstrings]%lift_Ok & H).
  apply bind_Ok_action in H as (c1 & keys' & [-> Hkeys]%lift_Ok & H).
  apply bind_Ok_action in H as (c1 & srows & [-> Hsrows]%lift_Ok & H).
  apply bind_Ok_action in H as (c1 & crows & [-> Hcrows]%lift_Ok & H).
  apply bind_Ok_action in H as (c1 & ? & [-> Hguard%ensure_Ok]%lift_Ok & H). bools.
  apply owning_settle in H as (c1 & Hm & ->); [| |apply _].
  - apply bind_Ok_action in Hm as (c2 & [] & H1 & Hm).
    apply (executemany_Ok _ _ _ _ _ (view c)) in H1 as (t1 & ->%delete_all & ->); [|done].
    apply bind_Ok_action in Hm as (c3 & [] & H2 & Hm).
    eapply executemany_Ok in H2 as (t2 & (segments & Hseg & ->)%insert_all & E2); [|reflexivity]. subst c3.
    apply bind_Ok_action in Hm as (c4 & crows' & Hco & Hm). injection Hco as <- Hco.
    eapply executemany_Ok in Hm as (t3 & (rows & Hrows & ->)%upsert_all & E3); [|reflexivity]. subst c1.
    eexists. split; [|reflexivity]. exists keys', segments, rows. split_and!.
    + rewrite Hstrings. f_equal. apply mapR_Ok in Hkeys. clear -Hkeys.
      induction Hkeys as [|key [[a b] d] strings keys Hk _ IH]; simpl; [done|]. rewrite IH. f_equal.
      destruct key as [|x [|y [|z []]]]; try done. by injection Hk as -> -> ->.
    + by eapply mapR_comp.
    + eapply mapR_comp; [exact Hcrows|]. by eapply mapR_comp.
    + apply Forall_forall. intros row Hrow. destruct (mapR_elem _ _ _ _ Hrows Hrow) as (cells' & Hin & Hcells).
      by eapply guarded_status.
    + done.
  - intros c1 a _ Hm. apply bind_Ok_action in Hm as (c2 & [] & H1 & Hm).
    apply (executemany_Ok _ _ _ _ _ (view c)) in H1 as (t1 & _ & ->); [|done].
    apply bind_Ok_action in Hm as (c3 & [] & H2 & Hm). eapply executemany_Ok in H2 as (t2 & _ & ->); [|reflexivity].
    apply bind_Ok_action in Hm as (c4 & crows' & Hco & Hm). injection Hco as <- Hco.
    by eapply executemany_Ok in Hm as (t3 & _ & ->).
Qed.

(** The generic writer is all or nothing: outside a transaction it either
    raises and leaves the connection as it was, or commits exactly this: the
    segments whose source, dataset and policy version are among the keys are gone,
    the given segments are added, the given aggregates (none of them COMPLETE)
    replace those of their datasets, and receipts are untouched. *)
Theorem persist_atomic keys segment_rows coverage_rows c : in_transaction c = false ->
  match persist_refreshed_coverage keys segment_rows coverage_rows c with
  | (c', Err _) => c' = c
  | (c', Ok _) => exists keys' segments rows,
      mapR (mapR require_plain_string) keys = Ok (map (fun k : string * string * string => [k.1.1; k.1.2; k.2]) keys') /\
      mapR segment_of segment_rows = Ok segments /\ mapR coverage_of coverage_rows = Ok rows /\
      Forall (fun r => dc_status r <> "COMPLETE") rows /\
      c' = mkConnection (mkTables
        (filter (fun r => (sg_source r, sg_dataset r, sg_policy_version r) ∉ keys') (coverage_segments (committed c))
         ++ segments)
        (collection_receipts (committed c))
        (fold_left (fun table row => upsert dc_dataset row table) rows (dataset_coverage (committed c)))) None
  end.
Proof.
  intros Hc. destruct (persist_refreshed_coverage _ _ _ c) as [c' [[]|e]] eqn:E.
  - apply persist_Ok in E as (t & (keys' & segments & rows & Hk & Hs & Hr & Hf & ->) & ->).
    exists keys', segments, rows. split_and!; try done. unfold settle, view. rewrite Hc. by destruct c as [? []].
  - revert E. unfold persist_refreshed_coverage. do 5 (apply lift_cases; [by intros ? [= <- _]|intros ? _]).
    by apply owning_Err; [apply _|].
Qed.

(** A run of the writer: a segment is replaced and an aggregate inserted; a row that
    says COMPLETE, or a segment that is there already, changes nothing. *)
Definition sample_segment_row (status : string) : pyrow :=
  [("source", PStr "jquants"); ("dataset", PStr "equities_bars_daily"); ("segment_id", PStr "2024-01");
   ("policy_version", PStr "collection-coverage/v3"); ("segment_start", PStr "2024-01-01");
   ("segment_end", PStr "2024-01-31"); ("expected_scope", PStr "{}"); ("expected_items", PNone);
   ("status", PStr status); ("receipt_run_id", PInt 7); ("evaluated_at", PStr "2024-02-01"); ("detail_json", PStr "{}")].

Definition sample_coverage_row (status : string) : pyrow :=
  [("dataset", PStr "equities_bars_daily"); ("status", PStr status); ("policy_version", PStr "collection-coverage/v3");
   ("collection_scope", PStr "scope"); ("history_target_start", PStr "2024-01-01");
   ("history_target_end_rule", PStr "today"); ("coverage_mode", PStr "historical");
   ("expected_frequency", PStr "business_day"); ("universe_rule", PStr "listed"); ("raw_retention_required", PBool true);
   ("structured_reconciliation_required", PBool true); ("governance_tier", PStr "governed"); ("observed_start", PNone);
   ("observed_end", PNone); ("row_count", PInt 5); ("source_run_id", PInt 7); ("evaluated_at", PStr "2024-02-01");
   ("detail_json", PStr "{}")].

Definition sample_key : list pyval := [PStr "jquants"; PStr "equities_bars_daily"; PStr "collection-coverage/v3"].

Definition stored : connection :=
  (persist_refreshed_coverage [] [sample_segment_row "PARTIAL"] [sample_coverage_row "PARTIAL"]
     (mkConnection (mkTables [] [] []) None)).1.

Lemma persist_atomic_witness : in_transaction stored = false /\
  persist_refreshed_coverage [sample_key] [sample_segment_row "COMPLETE"] [sample_coverage_row "COMPLETE"] stored
    = (stored, raise ValueError "generic Coverage persistence cannot write aggregate COMPLETE") /\
  (persist_refreshed_coverage [] [sample_segment_row "COMPLETE"] [] stored).1 = stored /\
  exists keys' segments rows,
    mapR (mapR require_plain_string) [sample_key] = Ok (map (fun k : string * string * string => [k.1.1; k.1.2; k.2]) keys') /\
    (persist_refreshed_coverage [sample_key] [sample_segment_row "COMPLETE"] [sample_coverage_row "STALE"] stored).1 =
    mkConnection (mkTables
      (filter (fun r => (sg_source r, sg_dataset r, sg_policy_version r) ∉ keys') (coverage_segments (committed stored))
       ++ segments) []
      (fold_left (fun table row => upsert dc_dataset row table) rows (dataset_coverage (committed stored)))) None.
Proof.
  split; [reflexivity|]. split; [vm_compute; reflexivity|]. split; [vm_compute; reflexivity|].
  generalize (persist_atomic [sample_key] [sample_segment_row "COMPLETE"] [sample_coverage_row "STALE"] stored eq_refl).
  destruct (persist_refreshed_coverage [sample_key] [sample_segment_row "COMPLETE"] [sample_coverage_row "STALE"] stored)
    as [c' [u|e]] eqn:E.
  - intros (keys' & segments & rows & Hk & _ & _ & _ & Hc). exists keys', segments, rows. split; [exact Hk|]. exact Hc.
  - vm_compute in E. discriminate E.
Defined.
