(* ===== verification/CoverageEval.v ===== *)
(** * CoverageEval: when a segment is complete
    (packages/data_plane/storage/coverage_ledger.py: receipts and their ranking,
    the evaluation of required segments, aggregate statuses)

    A required segment is COMPLETE only on the evidence of a verified closure.
    The verifier is an argument of the definitions: its result for a receipt is a
    closure, or the exception it raises.  [Attests] is what a verifier promises,
    [production_attests] that the verification of Receipt.v keeps it. *)

From S2P Require Import Prelude PyDate Json Base64 Sha256 PinnedRegistries SourceCapability CoverageContract CoveragePlan ReceiptCrypto Receipt.

Local Open Scope Z_scope.

(** ** Closures *)

(** [_value]: a signed claim. *)
Definition closure_value (c : VerifiedCollectionClosure) (name : string) : result json := claim (vc_claims c) name.

(** [int(v)]; a verified count is an integer, so the other cases of [int] do not
    occur. *)
Definition as_int (v : json) : result Z :=
  match v with
  | JInt n => Ok n
  | JBool b => Ok (if b then 1 else 0)
  | _ => raise TypeError "int() argument"
  end.

Definition closure_int (c : VerifiedCollectionClosure) (name : string) : result Z :=
  v ← closure_value c name; as_int v.
Definition closure_str (c : VerifiedCollectionClosure) (name : string) : result string :=
  v ← closure_value c name; Ok (py_str v).
Definition closure_bool (c : VerifiedCollectionClosure) (name : string) : result bool :=
  v ← closure_value c name; Ok (truthy v).

Definition closure_expected_items (c : VerifiedCollectionClosure) : result (option Z) :=
  v ← closure_value c "expected_items";
  match v with JNull => Ok None | _ => n ← as_int v; Ok (Some n) end.

Definition closure_extra_digests (c : VerifiedCollectionClosure) : result dict :=
  v ← closure_value c "extra_digests";
  match v with
  | JDict d => Ok d
  | _ => raise ReceiptVerificationError "verified extra_digests is not a mapping"
  end.

(** The properties of a closure: the claim each one reads, and as what. *)
Inductive field_kind := FStr | FInt | FBool | FOptInt | FScope | FExtras.

Definition closure_properties : list (string * (string * field_kind)) :=
  map (fun name => (name, (name, FStr)))
    ["coverage_policy_version"; "environment"; "authority_instance_digest"; "source"; "contract_id"; "dataset";
     "segment_id"; "segment_start"; "segment_end"; "receipt_issue_digest"; "artifact_key"; "manifest_key";
     "raw_manifest_key"; "natural_key_digest"; "status"; "raw_digest"; "source_request_digest";
     "raw_manifest_digest"; "structured_digest"; "scope_digest"; "observation_digest"; "checked_at"] ++
  map (fun name => (name, (name, FInt)))
    ["artifact_byte_count"; "manifest_byte_count"; "raw_manifest_byte_count"; "raw_byte_count"; "observed_items";
     "raw_page_count"; "structured_generation"; "run_id"] ++
  [("raw_row_count", ("raw_count", FInt)); ("structured_row_count", ("structured_count", FInt));
   ("pagination_exhausted", ("pagination_exhausted", FBool)); ("discovery_exhausted", ("discovery_exhausted", FBool));
   ("expected_items", ("expected_items", FOptInt)); ("expected_scope", ("expected_scope", FScope));
   ("extra_digests", ("extra_digests", FExtras))].

Definition closure_scope (c : VerifiedCollectionClosure) : result dict :=
  v ← closure_value c "expected_scope";
  match v with
  | JDict d => Ok d
  | _ => raise ReceiptVerificationError "verified expected_scope is not a mapping"
  end.

Definition closure_property (c : VerifiedCollectionClosure) (name : string) : result json :=
  '(claim_name, kind) ← of_option KeyError "no such property" (lookup_str name closure_properties);
  match kind with
  | FStr => s ← closure_str c claim_name; Ok (JStr s)
  | FInt => n ← closure_int c claim_name; Ok (JInt n)
  | FBool => b ← closure_bool c claim_name; Ok (JBool b)
  | FOptInt => o ← closure_expected_items c; Ok (opt_int o)
  | FScope => d ← closure_scope c; Ok (JDict d)
  | FExtras => d ← closure_extra_digests c; Ok (JDict d)
  end.

(** [to_proof_dict], whose first entry is the receipt's digest. *)
Definition PROOF_FIELDS : list string :=
  ["environment"; "authority_instance_digest"; "coverage_policy_version"; "source"; "contract_id"; "dataset";
   "segment_id"; "segment_start"; "segment_end"; "receipt_issue_digest"; "artifact_key"; "artifact_byte_count";
   "manifest_key"; "manifest_byte_count"; "raw_manifest_key"; "raw_manifest_byte_count"; "raw_byte_count";
   "natural_key_digest"; "expected_scope"; "scope_digest"; "expected_items"; "observed_items"; "raw_page_count";
   "raw_row_count"; "structured_row_count"; "pagination_exhausted"; "discovery_exhausted";
   "source_request_digest"; "raw_manifest_digest"; "raw_digest"; "structured_digest"; "structured_generation";
   "observation_digest"; "run_id"; "checked_at"; "extra_digests"].

Definition to_proof_dict (c : VerifiedCollectionClosure) : result dict :=
  fields ← mapR (fun name => v ← closure_property c name; Ok (name, v)) PROOF_FIELDS;
  Ok (("receipt_digest", JStr (vc_receipt_digest c)) :: fields).

Definition has_nonempty_trusted_raw_evidence (c : VerifiedCollectionClosure) : result bool :=
  n ← closure_int c "raw_count";
  if 0 <? n then Ok true
  else extras ← closure_extra_digests c; Ok (truthy (getv EXPECTED_EMPTY_WITH_EVIDENCE extras)).

(** ** Prepared receipts *)

Record PreparedReceipt := mkPrepared {
  pr_receipt : CollectionReceipt;
  pr_closure : option VerifiedCollectionClosure;
  pr_error : option string;
}.

Section Evaluation.
Variable capabilities : registry.
(** [require_verified_collection_closure] in the caller's environment. *)
Variable verify : CollectionReceipt -> result VerifiedCollectionClosure.

Definition prepare_receipt (receipt : CollectionReceipt) : result PreparedReceipt :=
  match verify receipt with
  | Ok closure => Ok (mkPrepared receipt (Some closure) None)
  | Err e => if decide (exn_kind e = ReceiptVerificationError)
             then Ok (mkPrepared receipt None (Some (exn_msg e))) else Err e
  end.

Definition prepare_receipts (receipts : list CollectionReceipt) : result (list PreparedReceipt) :=
  mapR prepare_receipt receipts.

(** The key [rank] orders by: trusted, not recovered, rows, time, run. *)
Record rank_key := mkRank {
  rk_trusted : Z;
  rk_recovered : Z;
  rk_rows : Z;
  rk_checked_at : string;
  rk_run_id : Z;
}.

Definition rank (p : PreparedReceipt) : result rank_key :=
  trusted ← (match pr_closure p with
             | Some c => has_nonempty_trusted_raw_evidence c
             | None => Ok false
             end);
  let recovered := is_recovered_only_digests (JDict (rc_digests (pr_receipt p))) in
  '(rows, at_, run) ← (match pr_closure p with
     | Some c => rows ← closure_int c "structured_count"; at_ ← closure_str c "checked_at";
                 run ← closure_int c "run_id"; Ok (rows, at_, run)
     | None => Ok (rc_structured_row_count (pr_receipt p), rc_checked_at (pr_receipt p), rc_run_id (pr_receipt p))
     end);
  Ok (mkRank (if trusted : bool then 1 else 0) (if recovered then -1 else 0) rows at_ run).

(** [a < b] on the tuples. *)
Definition rank_ltb : rank_key -> rank_key -> bool :=
  lex rk_trusted Z.compare (lex rk_recovered Z.compare (lex rk_rows Z.compare
    (lex rk_checked_at String.compare (fun a b => rk_run_id a <? rk_run_id b)))).

(** [max(prepared, key=rank, default=None)] *)
Definition best_receipt (prepared : list PreparedReceipt) : result (option PreparedReceipt) :=
  ranked ← mapR (fun p => k ← rank p; Ok (k, p)) prepared;
  Ok (snd <$> py_max (fun x y => rank_ltb x.1 y.1) ranked).

Definition segment_key : Type := string * string * string * string * string.

Definition required_key (s : RequiredCoverageSegment) : segment_key :=
  (seg_source s, seg_dataset s, seg_id s, seg_start s, seg_end s).

(** [_segment_key(prepared.closure or prepared.receipt)] *)
Definition prepared_key (p : PreparedReceipt) : result segment_key :=
  match pr_closure p with
  | Some c =>
      source ← closure_str c "source"; dataset ← closure_str c "dataset";
      id ← closure_str c "segment_id"; start ← closure_str c "segment_start";
      end_ ← closure_str c "segment_end"; Ok (source, dataset, id, start, end_)
  | None => let r := pr_receipt p in
      Ok (rc_source r, rc_dataset r, rc_segment_id r, rc_segment_start r, rc_segment_end r)
  end.

Definition index_prepared_receipts (receipts : list PreparedReceipt) : result (list (segment_key * PreparedReceipt)) :=
  mapR (fun p => k ← prepared_key p; Ok (k, p)) receipts.

(** [indexed.get(key, ())] *)
Definition indexed_at (indexed : list (segment_key * PreparedReceipt)) (key : segment_key) : list PreparedReceipt :=
  map snd (filter (fun p => p.1 = key) indexed).

(** ** One segment *)

Definition empty_observed_forbids_complete (policy : CollectionCoverageContract) : bool :=
  let domain := official_domain_for (source_capability_for capabilities (cc_dataset_id policy)) in
  let mode := coverage_mode policy in
  let grain := segment_granularity policy in
  let history_mode := default "" (cc_history_mode policy) in
  is_tip_snapshot_policy policy domain
  || uses_official_archive_index policy domain
  || str_contains "snapshot" mode || str_contains "snapshot" history_mode
  || (grain ∈? SNAPSHOT_SEGMENT_GRANULARITIES)
  || starts_with "collection_cutoff" grain || starts_with "same_trading_day" grain
  || (grain =s "official_archive_index_day")
  || str_contains "official_archive_index" mode.

(** Status, detail and the closure retained. *)
Definition evaluation : Type := string * dict * option VerifiedCollectionClosure.

Definition partial_ (reason : string) (c : option VerifiedCollectionClosure) : evaluation :=
  ("PARTIAL", [("reason", JStr reason)], c).

Definition failed (reason : string) (c : option VerifiedCollectionClosure) : evaluation :=
  ("FAILED", [("reason", JStr reason)], c).

(** What is checked of a closure that is verified and in scope. *)
Definition evaluate_closure (policy : CollectionCoverageContract) (required : RequiredCoverageSegment)
    (c : VerifiedCollectionClosure) : result evaluation :=
  let event_driven := expected_frequency policy =s "event_driven" in
  status ← closure_str c "status";
  if negb (status =s "SUCCESS") then Ok (failed "collection failed" (Some c))
  else
  pagination ← closure_bool c "pagination_exhausted";
  discovery ← (if pagination : bool then closure_bool c "discovery_exhausted" else Ok false);
  if negb (pagination && discovery) then Ok (partial_ "collection discovery is not exhausted" (Some c))
  else
  observed ← closure_int c "observed_items";
  if (observed =? 0) && empty_observed_forbids_complete policy then
    Ok (partial_ "empty tip-snapshot or archive-index receipt is not complete" (Some c))
  else if negb event_driven && bool_decide (seg_expected_items required = None) then
    Ok (partial_ "non-event segment lacks explicit expected items" (Some c))
  else
  expected ← closure_expected_items c;
  if match expected with Some n => negb (observed =? n) | None => false end then
    Ok (partial_ "expected scope not fully observed" (Some c))
  else if negb event_driven && (observed =? 0) then
    Ok (partial_ "empty receipt is complete only for event-driven windows" (Some c))
  else
  raw_digest ← closure_str c "raw_digest";
  pages ← (if raw_retention_required policy then closure_int c "raw_page_count" else Ok 1);
  if raw_retention_required policy && ((pages <? 1) || (raw_digest =s "")) then
    Ok (partial_ "raw pages/digest not retained" (Some c))
  else
  reconciled ← (if structured_reconciliation_required policy
                then raw_rows ← closure_int c "raw_count"; structured_rows ← closure_int c "structured_count";
                     Ok (raw_rows =? structured_rows)
                else Ok true);
  if negb reconciled then Ok (failed "raw/structured row mismatch" (Some c))
  else
  evidence ← has_nonempty_trusted_raw_evidence c;
  if negb evidence then
    raw_rows ← closure_int c "raw_count";
    Ok ("PARTIAL", [("reason", JStr "empty raw is not COMPLETE-eligible without EXPECTED_EMPTY_WITH_EVIDENCE");
                    ("raw_row_count", JInt raw_rows)], Some c)
  else Ok ("COMPLETE", [("reason", JStr "receipt reconciled"); ("event_zero", JBool (observed =? 0))], Some c).

(** [closure.require_scope(required, policy.policy_version)] *)
Definition require_scope (c : VerifiedCollectionClosure) (required : RequiredCoverageSegment)
    (policy_version : option string) : result unit :=
  validate_required_scope (vc_claims c) (Some required) policy_version.

Definition invalid_closure (msg : string) : evaluation :=
  ("PARTIAL", [("reason", JStr ("receipt closure invalid: " +:+ msg)); ("eligibility", JStr "RECOVERED_RAW_ONLY")], None).

Definition evaluate_prepared_segment (policy : CollectionCoverageContract) (required : RequiredCoverageSegment)
    (prepared : option PreparedReceipt) : result evaluation :=
  match prepared with
  | None => Ok (partial_ "missing collection receipt" None)
  | Some p =>
      match pr_closure p with
      | None => Ok (invalid_closure (default "None" (pr_error p)))
      | Some c =>
          match require_scope c required (cc_policy_version policy) with
          | Ok _ => evaluate_closure policy required c
          | Err e => if decide (exn_kind e = ReceiptVerificationError) then Ok (invalid_closure (exn_msg e)) else Err e
          end
      end
  end.

Definition evaluate_segment_with_closure (policy : CollectionCoverageContract)
    (required : RequiredCoverageSegment) (receipt : option CollectionReceipt) : result evaluation :=
  match receipt with
  | None => Ok (partial_ "missing collection receipt" None)
  | Some r => p ← prepare_receipt r; evaluate_prepared_segment policy required (Some p)
  end.

Definition evaluate_segment (policy : CollectionCoverageContract) (required : RequiredCoverageSegment)
    (receipt : option CollectionReceipt) : result (string * dict) :=
  e ← evaluate_segment_with_closure policy required receipt; Ok e.1.

(** ** Required inventories *)

Record evaluated := mkEvaluated {
  ev_required : RequiredCoverageSegment;
  ev_receipt : option CollectionReceipt;
  ev_status : string;
  ev_detail : dict;
}.

Definition evaluate_indexed (policy : CollectionCoverageContract) (indexed : list (segment_key * PreparedReceipt))
    (required : RequiredCoverageSegment) : result evaluated :=
  best ← best_receipt (indexed_at indexed (required_key required));
  '(status, detail, _) ← evaluate_prepared_segment policy required best;
  Ok (mkEvaluated required (pr_receipt <$> best) status detail).

Definition aggregate_statuses (statuses : list string) : string :=
  if existsb (fun s => s =s "FAILED") statuses then "FAILED"
  else if negb (bool_decide (statuses = [])) && forallb (fun s => s =s "COMPLETE") statuses then "COMPLETE"
  else "PARTIAL".

Definition evaluate_required_segments (policy : CollectionCoverageContract)
    (required_segments : list RequiredCoverageSegment) (receipts : list CollectionReceipt)
    : result (string * list evaluated) :=
  prepared ← prepare_receipts receipts;
  indexed ← index_prepared_receipts prepared;
  rows ← mapR (evaluate_indexed policy indexed) required_segments;
  Ok (aggregate_statuses (map ev_status rows), rows).

(** [_latest_complete_receipt_for_required] *)
Definition complete_candidate (policy : CollectionCoverageContract) (required : RequiredCoverageSegment)
    (p : PreparedReceipt) : result (list (CollectionReceipt * VerifiedCollectionClosure)) :=
  '(status, _, closure) ← evaluate_prepared_segment policy required (Some p);
  match closure with
  | Some c => if status =s "COMPLETE" then Ok [(pr_receipt p, c)] else Ok []
  | None => Ok []
  end.

Definition candidate_key (item : CollectionReceipt * VerifiedCollectionClosure) : result (Z * string * Z) :=
  rows ← closure_int item.2 "structured_count"; at_ ← closure_str item.2 "checked_at";
  run ← closure_int item.2 "run_id"; Ok (rows, at_, run).

Definition candidate_ltb : Z * string * Z -> Z * string * Z -> bool :=
  lex (fun k => k.1.1) Z.compare (lex (fun k => k.1.2) String.compare (fun a b => a.2 <? b.2)).

Definition latest_complete_receipt_for_required (receipts : list PreparedReceipt)
    (policy : CollectionCoverageContract) (required : RequiredCoverageSegment)
    : result (option (CollectionReceipt * VerifiedCollectionClosure)) :=
  candidates ← mapR (complete_candidate policy required) receipts;
  keyed ← mapR (fun item => k ← candidate_key item; Ok (k, item)) (concat candidates);
  Ok (snd <$> py_max (fun x y => candidate_ltb x.1 y.1) keyed).

(** [receipt_eligibility] and [is_complete_eligible_receipt] *)
Definition receipt_eligibility (receipt : CollectionReceipt) : result string :=
  match verify receipt with
  | Ok _ => Ok "TRUSTED_COLLECTION"
  | Err e => if decide (exn_kind e = ReceiptVerificationError) then Ok "RECOVERED_RAW_ONLY" else Err e
  end.

Definition is_complete_eligible_receipt (receipt : CollectionReceipt) : result bool :=
  match verify receipt with
  | Ok closure => has_nonempty_trusted_raw_evidence closure
  | Err e => if decide (exn_kind e = ReceiptVerificationError) then Ok false else Err e
  end.
End Evaluation.

(** ** Aggregates of counts *)

(** The counts of a mapping that are positive. *)
Definition positive_counts (counts : list (string * Z)) : list (string * Z) :=
  filter (fun p => 0 < p.2) counts.

Definition sum_counts (counts : list (string * Z)) : Z := fold_left (fun n p => n + p.2) counts 0.

Definition aggregate_status_from_segment_counts (status_counts : list (string * Z)) : string :=
  let counts := positive_counts status_counts in
  let total := sum_counts counts in
  if total <=? 0 then "UNKNOWN"
  else if 0 <? default 0 (lookup_str "FAILED" counts) then "FAILED"
  else if default 0 (lookup_str "COMPLETE" counts) =? total then "COMPLETE"
  else "PARTIAL".

Definition honest_status_counts (status_counts : list (string * Z)) : list (string * Z) :=
  positive_counts (py_sorted key_leb status_counts).

(** The production verifier. *)
Definition production_verify (sha256_hex : string -> string) (loads_claims : string -> option json)
    (schema_valid : dict -> bool)
    (verify_signature : string -> string -> string -> string -> string -> result bool)
    (receipt : CollectionReceipt) : result VerifiedCollectionClosure :=
  verify_collection_closure sha256_hex loads_claims schema_valid verify_signature receipt
    PRODUCTION_RECEIPT_ENVIRONMENT PRODUCTION_RECEIPT_AUTHORITY_INSTANCE_DIGEST None None None None.

(** ** What the evaluation reads of a closure *)

(** The claims a segment is judged by, with the evidence flag computed. *)
Record closure_facts := mkFacts {
  cf_status : string;
  cf_pagination : bool;
  cf_discovery : bool;
  cf_observed : Z;
  cf_expected : option Z;
  cf_raw_digest : string;
  cf_pages : Z;
  cf_raw_rows : Z;
  cf_structured_rows : Z;
  cf_evidence : bool;
}.

(** The closure [c] reads as the facts [f]. *)
Record reads (c : VerifiedCollectionClosure) (f : closure_facts) : Prop := mkReads {
  rd_status : closure_str c "status" = Ok (cf_status f);
  rd_pagination : closure_bool c "pagination_exhausted" = Ok (cf_pagination f);
  rd_discovery : closure_bool c "discovery_exhausted" = Ok (cf_discovery f);
  rd_observed : closure_int c "observed_items" = Ok (cf_observed f);
  rd_expected : closure_expected_items c = Ok (cf_expected f);
  rd_raw_digest : closure_str c "raw_digest" = Ok (cf_raw_digest f);
  rd_pages : closure_int c "raw_page_count" = Ok (cf_pages f);
  rd_raw_rows : closure_int c "raw_count" = Ok (cf_raw_rows f);
  rd_structured_rows : closure_int c "structured_count" = Ok (cf_structured_rows f);
  rd_evidence : has_nonempty_trusted_raw_evidence c = Ok (cf_evidence f);
}.

(** Everything COMPLETE asks for. *)
Record complete_conditions (capabilities : registry) (policy : CollectionCoverageContract)
    (required : RequiredCoverageSegment) (f : closure_facts) : Prop := mkConditions {
  co_success : cf_status f = "SUCCESS";
  co_exhausted : cf_pagination f = true /\ cf_discovery f = true;
  co_empty : cf_observed f = 0 -> expected_frequency policy = "event_driven" /\
    empty_observed_forbids_complete capabilities policy = false;
  co_explicit : expected_frequency policy <> "event_driven" -> seg_expected_items required <> None;
  co_expected : forall n, cf_expected f = Some n -> cf_observed f = n;
  co_raw : raw_retention_required policy = true -> 1 <= cf_pages f /\ cf_raw_digest f <> "";
  co_reconciled : structured_reconciliation_required policy = true -> cf_raw_rows f = cf_structured_rows f;
  co_evidence : cf_evidence f = true;
}.

(** The two ways to fail: the collection did, or rows were lost. *)
Definition failing (policy : CollectionCoverageContract) (f : closure_facts) : Prop :=
  cf_status f <> "SUCCESS" \/
  structured_reconciliation_required policy = true /\ cf_raw_rows f <> cf_structured_rows f.

(** What a judgement is to be. *)
Definition judged (capabilities : registry) (policy : CollectionCoverageContract)
    (required : RequiredCoverageSegment) (c : VerifiedCollectionClosure) (f : closure_facts)
    (e : result evaluation) : Prop :=
  exists status detail, e = Ok (status, detail, Some c) /\ status ∈ ["COMPLETE"; "FAILED"; "PARTIAL"] /\
    (status = "COMPLETE" <-> complete_conditions capabilities policy required f) /\
    (status = "FAILED" -> failing policy f) /\
    (cf_status f <> "SUCCESS" -> status = "FAILED").

Lemma judged_partial capabilities policy required c f detail : cf_status f = "SUCCESS" ->
  ~ complete_conditions capabilities policy required f ->
  judged capabilities policy required c f (Ok ("PARTIAL", detail, Some c)).
Proof. intros Hs Hn. exists "PARTIAL", detail. split_and!; [done|set_solver|by split|done|done]. Qed.

Lemma judged_failed capabilities policy required c f reason : failing policy f ->
  judged capabilities policy required c f (Ok (failed reason (Some c))).
Proof.
  intros Hf. exists "FAILED". eexists. split_and!; [done|set_solver| |done|done].
  split; [done|]. intros []. destruct Hf as [Hf|[Hr Hf]]; exfalso; auto.
Qed.

Lemma judged_complete capabilities policy required c f detail :
  complete_conditions capabilities policy required f ->
  judged capabilities policy required c f (Ok ("COMPLETE", detail, Some c)).
Proof. intros Hc. exists "COMPLETE", detail. split_and!; [done|set_solver|done|done|]. by destruct Hc. Qed.

Lemma evaluate_closure_judged capabilities policy required c f : reads c f ->
  judged capabilities policy required c f (evaluate_closure capabilities policy required c).
Proof.
  intros Hr. unfold evaluate_closure. rewrite (rd_status _ _ Hr). cbn [mbind result_bind].
  destruct (cf_status f =s "SUCCESS") eqn:Es; cbn [negb]; bools; [|by apply judged_failed; left].
  rewrite (rd_pagination _ _ Hr). cbn [mbind result_bind].
  replace (if cf_pagination f then closure_bool c "discovery_exhausted" else Ok false)
    with (Ok (cf_pagination f && cf_discovery f)) by (by rewrite (rd_discovery _ _ Hr); destruct (cf_pagination f)).
  cbn [mbind result_bind].
  destruct (cf_pagination f && (cf_pagination f && cf_discovery f)) eqn:Ep; cbn [negb]; bools;
    [|apply judged_partial; [done|]; intros []; destruct co_exhausted0 as [E1 E2]; by rewrite E1, E2 in Ep].
  rewrite (rd_observed _ _ Hr). cbn [mbind result_bind].
  destruct ((cf_observed f =? 0) && empty_observed_forbids_complete capabilities policy) eqn:Ee; bools;
    [apply judged_partial; [done|]; intros []; destruct co_empty0; [done|congruence]|].
  destruct (negb (expected_frequency policy =s "event_driven") && _) eqn:Ei; bools;
    [apply judged_partial; [done|]; intros []; by apply co_explicit0|].
  rewrite (rd_expected _ _ Hr). cbn [mbind result_bind].
  destruct (match cf_expected f with Some n => _ | None => _ end) eqn:Ex.
  { apply judged_partial; [done|]. intros []. destruct (cf_expected f); [|done].
    by rewrite (co_expected0 _ eq_refl), Z.eqb_refl in Ex. }
  destruct (negb _ && (cf_observed f =? 0)) eqn:Ez; bools;
    [apply judged_partial; [done|]; intros []; destruct co_empty0; [done|congruence]|].
  rewrite (rd_raw_digest _ _ Hr). cbn [mbind result_bind].
  replace (if raw_retention_required policy then closure_int c "raw_page_count" else Ok 1)
    with (Ok (if raw_retention_required policy then cf_pages f else 1))
    by (by rewrite (rd_pages _ _ Hr); destruct (raw_retention_required policy)).
  cbn [mbind result_bind].
  destruct (raw_retention_required policy && _) eqn:Er.
  { apply judged_partial; [done|]. intros []. apply andb_true_iff in Er as [E1 E2]. rewrite E1 in E2.
    apply orb_true_iff in E2 as [E2|E2]; bools; destruct (co_raw0 E1); [lia|done]. }
  rewrite (rd_raw_rows _ _ Hr), (rd_structured_rows _ _ Hr). cbn [mbind result_bind].
  replace (if structured_reconciliation_required policy then Ok (cf_raw_rows f =? cf_structured_rows f) else Ok true)
    with (Ok (negb (structured_reconciliation_required policy && negb (cf_raw_rows f =? cf_structured_rows f))))
    by (by destruct (structured_reconciliation_required policy), (cf_raw_rows f =? cf_structured_rows f)).
  cbn [mbind result_bind]. rewrite negb_involutive.
  destruct (structured_reconciliation_required policy && _) eqn:Ec; bools; [by apply judged_failed; right|].
  rewrite (rd_evidence _ _ Hr). cbn [mbind result_bind].
  destruct (cf_evidence f) eqn:Ev; cbn [negb]; [|apply judged_partial; [done|]; intros []; congruence].
  apply judged_complete. split; try done.
  - intros H2. rewrite H2, Z.eqb_refl in Ee, Ez. rewrite andb_true_r in Ez. by bools.
  - intros Hf Hn. by rewrite !bool_decide_decide, decide_False, decide_True in Ei.
  - intros n Hn. rewrite Hn in Ex. by bools.
  - intros Ht. rewrite Ht in Er. simpl in Er. by bools.
  - intros Ht. rewrite Ht in Ec. simpl in Ec. by bools.
Qed.

(** The judgement of a verified closure: it always ends in one of three
    statuses with the closure kept; COMPLETE exactly when every condition holds,
    whatever order the code tests them in; FAILED only when the collection failed
    or its rows do not reconcile, and a failed collection is always FAILED. *)
Theorem evaluate_closure_spec capabilities policy required c f : reads c f ->
  exists status detail, evaluate_closure capabilities policy required c = Ok (status, detail, Some c) /\
    status ∈ ["COMPLETE"; "FAILED"; "PARTIAL"] /\
    (status = "COMPLETE" <-> complete_conditions capabilities policy required f) /\
    (status = "FAILED" -> failing policy f) /\
    (cf_status f <> "SUCCESS" -> status = "FAILED").
Proof. apply evaluate_closure_judged. Qed.

(** ** Verified closures read as their receipts *)

Lemma closure_get c k v : get k (vc_claims c) = Some v -> closure_value c k = Ok v.
Proof. unfold closure_value, claim. by intros ->. Qed.

Lemma closure_get_int c k n : get k (vc_claims c) = Some (JInt n) -> closure_int c k = Ok n.
Proof. intros H. unfold closure_int. by rewrite (closure_get _ _ _ H). Qed.

Lemma closure_get_str c k s : get k (vc_claims c) = Some (JStr s) -> closure_str c k = Ok s.
Proof. intros H. unfold closure_str. by rewrite (closure_get _ _ _ H). Qed.

Lemma closure_get_bool c k b : get k (vc_claims c) = Some (JBool b) -> closure_bool c k = Ok b.
Proof. intros H. unfold closure_bool. by rewrite (closure_get _ _ _ H). Qed.

Lemma closure_present c k : has_key k (vc_claims c) = true -> closure_value c k = Ok (getv k (vc_claims c)).
Proof. rewrite has_key_get. unfold closure_value, claim, getv. by destruct (get k (vc_claims c)). Qed.

(** What a verified closure of the receipt [r] reads as. *)
Definition receipt_facts (r : CollectionReceipt) (c : VerifiedCollectionClosure) : closure_facts :=
  mkFacts (rc_status r) (rc_pagination_exhausted r) (truthy (getv "discovery_exhausted" (vc_claims c)))
    (rc_observed_items r) (rc_expected_items r) (py_str (getv "raw_digest" (vc_claims c)))
    (rc_raw_page_count r) (rc_raw_row_count r) (rc_structured_row_count r) (0 <? rc_raw_row_count r).

Section Verified.
Context (sha256_hex : string -> string) (loads_claims : string -> option json) (schema_valid : dict -> bool)
  (verify_signature : string -> string -> string -> string -> string -> result bool).

Abbreviation evidence := (evidence sha256_hex loads_claims schema_valid verify_signature).

Lemma evidence_present r env inst c k : evidence r env inst c -> (k ∈? observation_names true) = true ->
  closure_value c k = Ok (getv k (vc_claims c)).
Proof.
  intros He Hk. apply closure_present. pose proof (ve_present _ _ _ _ _ _ _ _ He) as Hp.
  rewrite forallb_forall in Hp. apply Hp, list_elem_of_In. by bools.
Qed.

(** The digest inventory of version 3 leaves no room for the expected-empty flag. *)
Lemma evidence_no_empty_flag r env inst c : evidence r env inst c ->
  exists extras, closure_extra_digests c = Ok extras /\ getv EXPECTED_EMPTY_WITH_EVIDENCE extras = JNull.
Proof.
  intros He. destruct (ve_extras _ _ _ _ _ _ _ _ He) as (extras & Hg & Hk). exists extras. split.
  { unfold closure_extra_digests. by rewrite (closure_get _ _ _ Hg). }
  unfold same_keys in Hk. apply andb_true_iff in Hk as [Hk _]. rewrite forallb_forall in Hk.
  unfold getv. destruct (get EXPECTED_EMPTY_WITH_EVIDENCE extras) as [v|] eqn:E; [|done]. exfalso.
  assert (Hin : has_key EXPECTED_EMPTY_WITH_EVIDENCE extras = true) by (by rewrite has_key_get, E).
  unfold has_key in Hin. bools. apply list_elem_of_In, Hk in Hin. unfold expected_extra_fields in Hin.
  by destruct (_ && _); vm_compute in Hin.
Qed.

Lemma evidence_reads r env inst c : evidence r env inst c -> reads c (receipt_facts r c).
Proof.
  intros He. pose proof (evidence_columns _ _ _ _ _ _ _ _ He) as Hc. unfold column_claims, receipt_columns in Hc.
  repeat match goal with H : Forall2 _ _ _ |- _ => inversion_clear H end.
  split; simpl; try (by apply closure_get_str); try (by apply closure_get_int); try (by apply closure_get_bool).
  - unfold closure_bool. by rewrite (evidence_present _ _ _ _ _ He).
  - unfold closure_expected_items. erewrite closure_get by eassumption. by destruct (rc_expected_items r).
  - unfold closure_str. by rewrite (evidence_present _ _ _ _ _ He).
  - unfold has_nonempty_trusted_raw_evidence. erewrite closure_get_int by eassumption. cbn [mbind result_bind].
    destruct (0 <? rc_raw_row_count r); [done|]. destruct (evidence_no_empty_flag _ _ _ _ He) as (extras & -> & Hn).
    cbn [mbind result_bind]. by rewrite Hn.
Qed.

(** ... and is keyed and ranked as its receipt is. *)
Lemma evidence_key r env inst c error : evidence r env inst c ->
  prepared_key (mkPrepared r (Some c) error) =
  Ok (rc_source r, rc_dataset r, rc_segment_id r, rc_segment_start r, rc_segment_end r).
Proof.
  intros He. pose proof (evidence_columns _ _ _ _ _ _ _ _ He) as Hc. unfold column_claims, receipt_columns in Hc.
  repeat match goal with H : Forall2 _ _ _ |- _ => inversion_clear H end.
  unfold prepared_key. simpl. by repeat (erewrite closure_get_str by eassumption; simpl).
Qed.

Lemma evidence_rank r env inst c error : evidence r env inst c ->
  rank (mkPrepared r (Some c) error) =
  Ok (mkRank (if 0 <? rc_raw_row_count r then 1 else 0)
        (if is_recovered_only_digests (JDict (rc_digests r)) then -1 else 0)
        (rc_structured_row_count r) (rc_checked_at r) (rc_run_id r)).
Proof.
  intros He. pose proof (rd_evidence _ _ (evidence_reads _ _ _ _ He)) as Hn.
  pose proof (evidence_columns _ _ _ _ _ _ _ _ He) as Hc. unfold column_claims, receipt_columns in Hc.
  repeat match goal with H : Forall2 _ _ _ |- _ => inversion_clear H end.
  unfold rank. cbn [pr_closure pr_receipt]. rewrite Hn. cbn [mbind result_bind cf_evidence receipt_facts].
  rewrite (closure_get_int c "structured_count" (rc_structured_row_count r)) by done.
  rewrite (closure_get_str c "checked_at" (rc_checked_at r)) by done.
  by rewrite (closure_get_int c "run_id" (rc_run_id r)) by done.
Qed.
End Verified.

(** ** What a verifier promises *)

(** A closure is handed out for attested receipts only. *)
Class Attests (verify : CollectionReceipt -> result VerifiedCollectionClosure)
    (attested : CollectionReceipt -> VerifiedCollectionClosure -> Prop) : Prop :=
  attests : forall r c, verify r = Ok c -> attested r c.

(** The verification of Receipt.v attests its evidence. *)
#[export] Instance production_attests sha256_hex loads_claims schema_valid verify_signature :
  Attests (production_verify sha256_hex loads_claims schema_valid verify_signature)
    (fun r c => evidence sha256_hex loads_claims schema_valid verify_signature r
                  PRODUCTION_RECEIPT_ENVIRONMENT PRODUCTION_RECEIPT_AUTHORITY_INSTANCE_DIGEST c).
Proof. intros r c H. by apply verify_Ok in H as [H _]. Qed.

Section Client.
Context (capabilities : registry) (verify : CollectionReceipt -> result VerifiedCollectionClosure)
  (attested : CollectionReceipt -> VerifiedCollectionClosure -> Prop) `{!Attests verify attested}.

(** A prepared receipt is one of the inputs, and its closure is attested. *)
Lemma prepare_receipt_Ok r p : prepare_receipt verify r = Ok p ->
  pr_receipt p = r /\ forall c, pr_closure p = Some c -> attested r c.
Proof.
  unfold prepare_receipt. destruct (verify r) as [c|e] eqn:E.
  - intros [= <-]. split; [done|]. intros ? [= <-]. by apply attests.
  - case_decide; [|done]. by intros [= <-].
Qed.

Lemma best_receipt_Ok prepared p : best_receipt prepared = Ok (Some p) -> p ∈ prepared /\
  exists k, rank p = Ok k /\ forall q k', q ∈ prepared -> rank q = Ok k' -> rank_ltb k k' = false.
Proof.
  unfold best_receipt. intros H. binds H. injection H as H. apply fmap_Some in H as ([k p'] & H & ->).
  apply (py_max_spec (fun x y : rank_key * PreparedReceipt => rank_ltb x.1 y.1)) in H as [Hin Hub]. simpl.
  destruct (mapR_elem _ _ _ _ E Hin) as (x & Hx & Hk). apply bind_Ok in Hk as (k1 & Hk & [= <- <-]).
  split; [done|]. exists k1. split; [done|]. intros q k' Hq Hk'. rewrite Forall_forall in Hub.
  apply mapR_Ok in E. apply list_elem_of_lookup in Hq as (i & Hi).
  destruct (Forall2_lookup_l _ _ _ _ _ E Hi) as ([k2 q2] & H2 & Hq). rewrite Hk' in Hq. injection Hq as <- <-.
  apply (Hub (k', q)). by eapply list_elem_of_lookup_2.
Qed.

Lemma rank_not_ltb k k' : rank_ltb k k' = false ->
  rk_trusted k' <= rk_trusted k /\
  (rk_trusted k' = rk_trusted k -> rk_recovered k' = rk_recovered k ->
   rk_rows k' <= rk_rows k /\
   (rk_rows k' = rk_rows k -> String.ltb (rk_checked_at k) (rk_checked_at k') = false)).
Proof.
  unfold rank_ltb, lex, String.ltb. destruct (Z.compare_spec (rk_trusted k) (rk_trusted k')); try done.
  - destruct (Z.compare_spec (rk_recovered k) (rk_recovered k')); try done; [|split; lia].
    destruct (Z.compare_spec (rk_rows k) (rk_rows k')); try done; [|split; lia].
    intros H'. split; [lia|]. intros _ _. split; [lia|]. intros _. by destruct (String.compare _ _).
  - split; lia.
Qed.

Lemma indexed_at_elem prepared indexed key p :
  index_prepared_receipts prepared = Ok indexed -> p ∈ indexed_at indexed key ->
  p ∈ prepared /\ prepared_key p = Ok key.
Proof.
  unfold index_prepared_receipts, indexed_at. intros H Hp.
  apply list_elem_of_fmap in Hp as ([k q] & -> & Hp). apply list_elem_of_filter in Hp as [<- Hp].
  destruct (mapR_elem _ _ _ _ H Hp) as (x & Hx & Hk). by apply bind_Ok in Hk as (k1 & Hk & [= <- <-]).
Qed.

(** A row is complete on the strength of an attested receipt of the inputs. *)
Lemma evaluate_indexed_complete policy receipts prepared indexed required row :
  prepare_receipts verify receipts = Ok prepared -> index_prepared_receipts prepared = Ok indexed ->
  evaluate_indexed capabilities policy indexed required = Ok row ->
  ev_required row = required /\
  (ev_status row = "COMPLETE" -> exists r c, r ∈ receipts /\ ev_receipt row = Some r /\ attested r c /\
     require_scope c required (cc_policy_version policy) = Ok tt /\
     exists k, evaluate_closure capabilities policy required c = Ok ("COMPLETE", ev_detail row, k)).
Proof.
  intros Hp Hi H. unfold evaluate_indexed in H. apply bind_Ok in H as (best & Hb & H).
  apply bind_Ok in H as ([[status detail] k] & He & [= <-]). split; [done|]. simpl. intros ->.
  destruct best as [p|]; [|done]. simpl in He.
  apply best_receipt_Ok in Hb as [Hin _]. apply (indexed_at_elem _ _ _ _ Hi) in Hin as [Hin _].
  destruct (mapR_elem _ _ _ _ Hp Hin) as (r & Hr & Hpr). apply prepare_receipt_Ok in Hpr as [<- Ha].
  destruct (pr_closure p) as [c|]; [|done]. destruct (require_scope _ _ _) as [[]|e] eqn:Es; [|by case_decide].
  exists (pr_receipt p), c. split_and!; eauto.
Qed.

Lemma evaluate_required_rows policy segments receipts status rows :
  evaluate_required_segments capabilities verify policy segments receipts = Ok (status, rows) ->
  status = aggregate_statuses (map ev_status rows) /\
  exists prepared indexed, prepare_receipts verify receipts = Ok prepared /\
    index_prepared_receipts prepared = Ok indexed /\
    Forall2 (fun required row => evaluate_indexed capabilities policy indexed required = Ok row) segments rows.
Proof.
  unfold evaluate_required_segments. intros H. binds H. injection H as <- <-. split; [done|].
  exists a, a0. split_and!; [done|done|]. by apply mapR_Ok.
Qed.

Lemma aggregate_complete statuses : aggregate_statuses statuses = "COMPLETE" <->
  statuses <> [] /\ Forall (fun s => s = "COMPLETE") statuses.
Proof.
  unfold aggregate_statuses. split.
  - destruct (existsb _ _); [done|]. destruct (_ && _) eqn:E; [|done]. intros _. bools. split; [done|].
    apply Forall_forall. intros s Hs. rewrite forallb_forall in H0. apply list_elem_of_In, H0 in Hs. by bools.
  - intros [Hn Hf]. assert (existsb (fun s => s =s "FAILED") statuses = false) as ->.
    { clear Hn. induction Hf as [|s l -> _ IH]; [done|]. simpl. by rewrite IH. }
    assert (forallb (fun s => s =s "COMPLETE") statuses = true) as ->.
    { clear Hn. induction Hf as [|s l -> _ IH]; [done|]. simpl. by rewrite IH. }
    by rewrite bool_decide_eq_false_2.
Qed.

Lemma complete_rows policy segments receipts status rows :
  evaluate_required_segments capabilities verify policy segments receipts = Ok (status, rows) ->
  map ev_required rows = segments /\
  Forall (fun row => ev_status row = "COMPLETE" -> exists r c, r ∈ receipts /\ ev_receipt row = Some r /\
    attested r c /\ require_scope c (ev_required row) (cc_policy_version policy) = Ok tt /\
    exists k, evaluate_closure capabilities policy (ev_required row) c = Ok ("COMPLETE", ev_detail row, k)) rows.
Proof.
  intros H. apply evaluate_required_rows in H as (_ & prepared & indexed & Hp & Hi & Hr).
  induction Hr as [|required row segments rows H _ [IH1 IH2]]; [done|].
  destruct (evaluate_indexed_complete _ _ _ _ _ _ Hp Hi H) as [<- Hc]. simpl. rewrite IH1. by repeat constructor.
Qed.
End Client.

(** ** The production evaluation *)

Section Production.
Context (capabilities : registry) (sha256_hex : string -> string) (loads_claims : string -> option json)
  (schema_valid : dict -> bool) (verify_signature : string -> string -> string -> string -> string -> result bool).

Abbreviation verify := (production_verify sha256_hex loads_claims schema_valid verify_signature).
Abbreviation signed r c := (evidence sha256_hex loads_claims schema_valid verify_signature r
  PRODUCTION_RECEIPT_ENVIRONMENT PRODUCTION_RECEIPT_AUTHORITY_INSTANCE_DIGEST c).

Lemma require_scope_Ok c required version u : require_scope c required version = Ok u ->
  Forall (bound (vc_claims c)) (required_bindings required) /\
  forall v, version = Some v -> bound (vc_claims c) ("coverage_policy_version", JStr v).
Proof.
  unfold require_scope, validate_required_scope. intros H. apply bind_Ok in H as ([] & H1 & H2). split.
  - binds H1. by eapply require_all_Ok.
  - intros v ->. by eapply require_claim_Ok.
Qed.

(** A prepared receipt whose closure, if it has one, verified. *)
Definition sound (p : PreparedReceipt) : Prop :=
  forall c, pr_closure p = Some c -> signed (pr_receipt p) c.

Lemma prepare_sound r p : prepare_receipt verify r = Ok p -> pr_receipt p = r /\ sound p.
Proof.
  intros H. apply (prepare_receipt_Ok verify (fun r c => signed r c)) in H as [<- H]. by split.
Qed.

Lemma sound_key p : sound p -> prepared_key p =
  Ok (rc_source (pr_receipt p), rc_dataset (pr_receipt p), rc_segment_id (pr_receipt p),
      rc_segment_start (pr_receipt p), rc_segment_end (pr_receipt p)).
Proof.
  destruct p as [r [c|] e]; [|done]. intros Hs. eapply evidence_key. by apply Hs.
Qed.

(** Verified with rows: what ranks first. *)
Definition trusted (p : PreparedReceipt) : bool :=
  match pr_closure p with Some _ => 0 <? rc_raw_row_count (pr_receipt p) | None => false end.

Lemma sound_rank p : sound p -> rank p =
  Ok (mkRank (if trusted p then 1 else 0)
        (if is_recovered_only_digests (JDict (rc_digests (pr_receipt p))) then -1 else 0)
        (rc_structured_row_count (pr_receipt p)) (rc_checked_at (pr_receipt p)) (rc_run_id (pr_receipt p))).
Proof.
  destruct p as [r [c|] e]; [|done]. intros Hs. eapply evidence_rank. by apply Hs.
Qed.

Lemma sound_best prepared : Forall sound prepared -> exists best, best_receipt prepared = Ok best.
Proof.
  intros Hs. unfold best_receipt. destruct (mapR_total (fun p => k ← rank p; Ok (k, p)) prepared) as (ys & ->).
  - intros p Hp. rewrite Forall_forall in Hs. rewrite (sound_rank p) by auto. by eexists.
  - by eexists.
Qed.

(** [require_scope] of a verified closure raises nothing else than it says. *)
Lemma signed_scope r c required version : signed r c ->
  raises_only ReceiptVerificationError (require_scope c required version).
Proof.
  intros He. assert (Hk : forall k, (k ∈? observation_names true) = true -> has_key k (vc_claims c) = true).
  { intros k Hk. pose proof (ve_present _ _ _ _ _ _ _ _ He) as Hp. rewrite forallb_forall in Hp.
    apply Hp, list_elem_of_In. by bools. }
  unfold require_scope, validate_required_scope, copy_exact_dict, copy_exact_json.
  repeat first [ apply raises_only_ensure | apply raises_only_Ok
    | apply raises_require_all; simpl; rewrite !Hk by done; done
    | apply raises_only_bind; [|intros ? ?] ].
  destruct version; [|done]. apply raises_require_claim. by apply Hk.
Qed.

Lemma sound_evaluates policy required best : (forall p, best = Some p -> sound p) ->
  exists e, evaluate_prepared_segment capabilities policy required best = Ok e.
Proof.
  intros Hs. destruct best as [[r [c|] e]|]; [|by eexists..]. specialize (Hs _ eq_refl c eq_refl).
  unfold evaluate_prepared_segment. cbn [pr_closure].
  pose proof (signed_scope r c required (cc_policy_version policy) Hs) as Hr.
  destruct (require_scope _ _ _) as [u|err]; simpl in Hr.
  - destruct (evaluate_closure_judged capabilities policy required c _ (evidence_reads _ _ _ _ _ _ _ _ Hs))
      as (st & d & -> & _). by eexists.
  - rewrite decide_True by done. by eexists.
Qed.

Lemma sound_indexed policy prepared required : Forall sound prepared ->
  exists indexed, index_prepared_receipts prepared = Ok indexed /\
  exists row, evaluate_indexed capabilities policy indexed required = Ok row.
Proof.
  intros Hs. destruct (mapR_total (fun p => k ← prepared_key p; Ok (k, p)) prepared) as (indexed & Hi).
  { intros p Hp. rewrite Forall_forall in Hs. rewrite (sound_key p) by auto. by eexists. }
  exists indexed. split; [done|]. unfold evaluate_indexed.
  assert (Hat : Forall sound (indexed_at indexed (required_key required))).
  { apply Forall_forall. intros p Hp. apply (indexed_at_elem _ _ _ _ Hi) in Hp as [Hp _].
    rewrite Forall_forall in Hs. auto. }
  destruct (sound_best _ Hat) as (best & Hb). rewrite Hb. cbn [mbind result_bind].
  destruct (sound_evaluates policy required best) as ([[st d] k] & ->); [|by eexists].
  intros p ->. apply best_receipt_Ok in Hb as [Hin _]. rewrite Forall_forall in Hat. auto.
Qed.

Lemma prepared_sound receipts prepared : prepare_receipts verify receipts = Ok prepared -> Forall sound prepared.
Proof.
  intros Hp. apply Forall_forall. intros p Hin. destruct (mapR_elem _ _ _ _ Hp Hin) as (r & _ & Hr).
  by apply prepare_sound in Hr as [_ ?].
Qed.

(** The evaluation always answers: with configured keys and receipts
    whose version claims can be hashed, forged and damaged ones among them, it
    raises nothing and returns a status and rows. *)
Theorem evaluation_total policy segments receipts :
  (forall c, schema_valid c = true -> forallb (fun k => has_key k c) REQUIRED_CLAIMS = true) ->
  (forall body signature key environment instance,
     exists b, verify_signature body signature key environment instance = Ok b) ->
  Forall (fun r => version_hashable loads_claims r = true) receipts ->
  exists status rows, evaluate_required_segments capabilities verify policy segments receipts = Ok (status, rows).
Proof.
  intros Hschema Hsig Hv. unfold evaluate_required_segments, prepare_receipts.
  destruct (mapR_total (prepare_receipt verify) receipts) as (prepared & Hp).
  { intros r Hr. rewrite Forall_forall in Hv. unfold prepare_receipt, production_verify.
    pose proof (raises_verify sha256_hex loads_claims schema_valid verify_signature Hschema Hsig r
      PRODUCTION_RECEIPT_ENVIRONMENT PRODUCTION_RECEIPT_AUTHORITY_INSTANCE_DIGEST None None None None (Hv r Hr)) as H.
    destruct (verify_collection_closure _ _ _ _ _ _ _ _ _ _ _); [by eexists|]. simpl in H.
    rewrite decide_True by done. by eexists. }
  pose proof (prepared_sound _ _ Hp) as Hs. rewrite Hp. cbn [mbind result_bind].
  assert (exists indexed, index_prepared_receipts prepared = Ok indexed) as (indexed & Hi).
  { apply mapR_total. intros p Hin. rewrite Forall_forall in Hs. rewrite (sound_key p) by auto. by eexists. }
  rewrite Hi. cbn [mbind result_bind].
  destruct (mapR_total (evaluate_indexed capabilities policy indexed) segments) as (rows & ->); [|by repeat eexists].
  intros required _. destruct (sound_indexed policy prepared required Hs) as (indexed' & Hi' & row & Hrow).
  rewrite Hi in Hi'. injection Hi' as <-. by exists row.
Qed.

Abbreviation recovered p := (is_recovered_only_digests (JDict (rc_digests (pr_receipt p)))).

(** The best of some receipts is one of them, and nothing unverified
    shadows a verified receipt: when any receipt verifies with rows, so does the
    best; among receipts of its class the best has the most rows, and among those
    with as many rows the latest check. *)
Theorem best_receipt_spec receipts prepared :
  prepare_receipts verify receipts = Ok prepared -> prepared <> [] ->
  exists p, best_receipt prepared = Ok (Some p) /\ p ∈ prepared /\
    forall q, q ∈ prepared -> (trusted q = true -> trusted p = true) /\
      (trusted q = trusted p -> recovered q = recovered p ->
       rc_structured_row_count (pr_receipt q) <= rc_structured_row_count (pr_receipt p) /\
       (rc_structured_row_count (pr_receipt q) = rc_structured_row_count (pr_receipt p) ->
        String.ltb (rc_checked_at (pr_receipt p)) (rc_checked_at (pr_receipt q)) = false)).
Proof.
  intros Hp Hn. pose proof (prepared_sound _ _ Hp) as Hs. destruct (sound_best _ Hs) as ([p|] & Hb).
  2:{ unfold best_receipt in Hb. binds Hb. injection Hb as Hb. apply fmap_None, py_max_None in Hb as ->.
      apply mapR_Ok, Forall2_nil_inv_r in E. done. }
  exists p. split; [done|]. apply best_receipt_Ok in Hb as (Hin & k & Hk & Hub). split; [done|].
  rewrite Forall_forall in Hs. intros q Hq. rewrite (sound_rank p) in Hk by auto. injection Hk as <-.
  destruct (rank_not_ltb _ _ (Hub q _ Hq (sound_rank q (Hs q Hq)))) as [Ht Hr]. cbn [rk_trusted rk_recovered rk_rows rk_checked_at] in Ht, Hr. split.
  - intros E. rewrite E in Ht. by destruct (trusted p).
  - intros E1 E2. rewrite E1, E2 in Hr. by apply Hr.
Qed.

(** Claim C2.  COMPLETE rests on signed evidence: the evaluation returns a row for
    every required segment, in order; a row is COMPLETE only when one of the given
    receipts verifies against the production authority, its signed claims bind the
    required segment and the policy version, and they satisfy every condition of
    the policy, with rows collected; the dataset is COMPLETE exactly when it has
    rows and all of them are. *)
Theorem complete_needs_evidence policy segments receipts status rows :
  evaluate_required_segments capabilities verify policy segments receipts = Ok (status, rows) ->
  map ev_required rows = segments /\
  (status = "COMPLETE" <-> segments <> [] /\ Forall (fun row => ev_status row = "COMPLETE") rows) /\
  Forall (fun row => ev_status row = "COMPLETE" -> exists r c, r ∈ receipts /\ ev_receipt row = Some r /\
    signed r c /\ Forall (bound (vc_claims c)) (required_bindings (ev_required row)) /\
    (forall v, cc_policy_version policy = Some v -> bound (vc_claims c) ("coverage_policy_version", JStr v)) /\
    complete_conditions capabilities policy (ev_required row) (receipt_facts r c) /\
    0 < rc_raw_row_count r) rows.
Proof.
  intros H. destruct (complete_rows _ _ _ _ _ _ _ _ H) as [Hr Hf].
  apply evaluate_required_rows in H as [-> _]. split; [done|]. split.
  { rewrite aggregate_complete, Forall_map, <- Hr. destruct rows; naive_solver. }
  eapply Forall_impl; [exact Hf|]. intros row Hrow Hs.
  destruct (Hrow Hs) as (r & c & Hin & Hrec & He & Hsc & k & Hc). exists r, c.
  apply require_scope_Ok in Hsc as [Hb Hv].
  destruct (evaluate_closure_judged capabilities policy (ev_required row) c _ (evidence_reads _ _ _ _ _ _ _ _ He))
    as (st & d & Hj & _ & [Hco _] & _).
  rewrite Hc in Hj. injection Hj as <- _ _. specialize (Hco eq_refl). split_and!; try done.
  pose proof (co_evidence _ _ _ _ Hco) as Hev. simpl in Hev. by bools.
Qed.
(** A fixture never passes for collection: whatever segment, run and
    count, the synthetic receipt does not verify, and the segment it is offered
    for is PARTIAL with no closure kept. *)
Theorem synthetic_never_complete policy required fixture_for run_id observed checked_at :
  let r := build_synthetic_complete_receipt fixture_for run_id observed checked_at in
  receipt_eligibility verify r = Ok "RECOVERED_RAW_ONLY" /\
  exists detail, evaluate_segment_with_closure capabilities verify policy required (Some r)
    = Ok ("PARTIAL", detail, None).
Proof.
  intros r. assert (exists e, verify r = Err e /\ exn_kind e = ReceiptVerificationError) as (e & Hv & He).
  { unfold production_verify, verify_collection_closure.
    pose proof (raises_materialize loads_claims r) as Hm.
    destruct (materialize_receipt_input loads_claims r) as [f|e] eqn:E; simpl in *; [|by exists e].
    apply materialize_Ok in E as (_ & _ & (b & Hb & _) & _). done. }
  unfold receipt_eligibility, evaluate_segment_with_closure, prepare_receipt. rewrite Hv. simpl.
  rewrite !decide_True by done. split; [done|]. by eexists.
Qed.

(** The exception: a receipt whose version claim is a list or an object,
    and which calls itself a trusted collection, is not rejected; verification
    raises [TypeError], which the preparation of receipts does not catch, so that
    with this receipt among them no receipts are evaluated at all. *)
Theorem unhashable_version_escapes r f policy segments receipts :
  materialize_receipt_input loads_claims r = Ok f -> require_trusted (rc_digests r) = Ok tt ->
  version_hashable loads_claims r = false -> r ∈ receipts ->
  verify r = raise TypeError "unhashable type" /\
  is_Ok (evaluate_required_segments capabilities verify policy segments receipts) = false.
Proof.
  intros Hm Ht Hv Hr. unfold version_hashable in Hv. rewrite Hm in Hv.
  assert (Hverify : verify r = raise TypeError "unhashable type").
  { unfold production_verify, verify_collection_closure. rewrite Hm. cbn [mbind result_bind].
    apply materialize_Ok in Hm as (_ & -> & _). rewrite Ht. cbn [mbind result_bind]. by rewrite Hv. }
  split; [done|]. unfold evaluate_required_segments.
  destruct (prepare_receipts verify receipts) as [prepared|e] eqn:E; [|done]. exfalso.
  apply mapR_Ok in E. apply list_elem_of_lookup in Hr as (i & Hi).
  destruct (Forall2_lookup_l _ _ _ _ _ E Hi) as (p & _ & Hp). unfold prepare_receipt in Hp.
  by rewrite Hverify in Hp.
Qed.
End Production.

(** ** The evaluation over the key registries *)

Section Registries.
Context (capabilities : registry) (sha256_hex : string -> string) (loads : string -> option json)
  (schema_valid : dict -> bool) (ed25519_verify : string -> string -> string -> bool)
  (instances_file : option string) (scoped_file : string -> option string).

(** [require_verified_collection_closure] with the keys of the registries. *)
Definition registry_verify : CollectionReceipt -> result VerifiedCollectionClosure :=
  production_verify sha256_hex loads schema_valid
    (verify_receipt_signature_values sha256_hex loads ed25519_verify instances_file scoped_file).

Abbreviation load_production := (load_pinned_scoped_registry sha256_hex loads instances_file scoped_file
  (JStr PRODUCTION_RECEIPT_ENVIRONMENT) (JStr PRODUCTION_RECEIPT_AUTHORITY_INSTANCE_DIGEST)).

(** The receipt's signed body is signed with the one active production key. *)
Definition key_signed (r : CollectionReceipt) : Prop := exists reg key body signature,
  load_production = Ok reg /\ rg_authority_status reg = "ACTIVE" /\ rg_active_keys reg = [key] /\
  getv "signed_body_b64" (rc_digests r) = JStr (b64encode body) /\ signs ed25519_verify key body signature.

#[local] Instance registry_attests : Attests registry_verify (fun r _ => key_signed r).
Proof.
  intros r c H. apply verify_Ok in H as [He _].
  destruct (ve_signed _ _ _ _ _ _ _ _ He) as (body & signature & key_id & Hb & _ & _ & Hv).
  apply verify_values_active in Hv as (reg & key & Hl & Hs & Ha & _ & Hsig).
  by exists reg, key, body, signature.
Qed.

(** Completeness needs a live key: every COMPLETE row has a given receipt
    whose body the single active key of the production registry signed; while that
    registry is not ACTIVE no row and no dataset is COMPLETE, whatever receipts are
    stored. *)
Theorem complete_needs_active_key policy segments receipts status rows :
  evaluate_required_segments capabilities registry_verify policy segments receipts = Ok (status, rows) ->
  Forall (fun row => ev_status row = "COMPLETE" -> exists r, r ∈ receipts /\ key_signed r) rows /\
  (forall reg, load_production = Ok reg -> rg_authority_status reg <> "ACTIVE" ->
     status <> "COMPLETE" /\ Forall (fun row => ev_status row <> "COMPLETE") rows).
Proof.
  intros H. destruct (complete_rows _ _ (fun r _ => key_signed r) _ _ _ _ _ H) as [_ Hf].
  assert (Hk : Forall (fun row => ev_status row = "COMPLETE" -> exists r, r ∈ receipts /\ key_signed r) rows).
  { eapply Forall_impl; [exact Hf|]. intros row Hrow Hs. destruct (Hrow Hs) as (r & c & Hr & _ & Ha & _). by exists r. }
  split; [done|]. intros reg Hl Hn.
  assert (Hno : Forall (fun row => ev_status row <> "COMPLETE") rows).
  { eapply Forall_impl; [exact Hk|]. intros row Hrow Hs.
    destruct (Hrow Hs) as (r & _ & reg' & _ & _ & _ & Hl' & Ha & _). rewrite Hl in Hl'. by injection Hl' as ->. }
  split; [|done]. apply evaluate_required_rows in H as [-> _]. intros [Hne Hall]%aggregate_complete.
  rewrite Forall_map in Hall. destruct rows as [|row rows]; [done|]. inversion Hall. by inversion Hno.
Qed.
End Registries.

(** ** Aggregates agree *)

(** How often a status occurs, and the [GROUP BY status] of some statuses. *)
Definition occurrences (s : string) (statuses : list string) : Z :=
  Z.of_nat (length (filter (fun t => t = s) statuses)).

Definition group_by_status (statuses : list string) : list (string * Z) :=
  map (fun s => (s, occurrences s statuses)) (remove_dups statuses).

Lemma sum_counts_app n l : fold_left (fun n (p : string * Z) => n + p.2) l n = n + sum_counts l.
Proof.
  unfold sum_counts. revert n. induction l as [|p l IH]; intros n; simpl; [lia|].
  rewrite (IH (n + p.2)), (IH (0 + p.2)). lia.
Qed.

Lemma sum_counts_cons p l : sum_counts (p :: l) = p.2 + sum_counts l.
Proof. unfold sum_counts at 1. simpl. apply sum_counts_app. Qed.

Lemma occurrences_cons s t l : occurrences s (t :: l) = (if decide (t = s) then 1 else 0) + occurrences s l.
Proof. unfold occurrences. rewrite filter_cons. case_decide; simpl; lia. Qed.

Lemma occurrences_pos s l : s ∈ l -> 0 < occurrences s l.
Proof.
  intros H. unfold occurrences. destruct (filter (fun t => t = s) l) as [|x k] eqn:E; [|simpl; lia].
  assert (Hs : s ∈ filter (fun t => t = s) l) by (by apply list_elem_of_filter). rewrite E in Hs. by apply elem_of_nil in Hs.
Qed.

(** The counts over distinct statuses that include all of them sum to their number. *)
Lemma sum_occurrences ks l : NoDup ks -> l ⊆ ks ->
  sum_counts (map (fun s => (s, occurrences s l)) ks) = Z.of_nat (length l).
Proof.
  intros Hn. induction l as [|x l IH]; intros Hsub.
  - clear. induction ks as [|k ks IH]; [done|]. simpl map. rewrite sum_counts_cons, IH. done.
  - assert (Hx : x ∈ ks) by (apply Hsub; by left).
    assert (Hl : sum_counts (map (fun s => (s, occurrences s (x :: l))) ks)
      = 1 + sum_counts (map (fun s => (s, occurrences s l)) ks)).
    { clear IH Hsub. induction Hn as [|k ks Hk Hn IH]; [by apply elem_of_nil in Hx|]. simpl map.
      rewrite !sum_counts_cons. simpl. rewrite occurrences_cons. apply elem_of_cons in Hx as [->|Hx].
      - rewrite decide_True by done.
        assert (Heq : map (fun s => (s, occurrences s (k :: l))) ks = map (fun s => (s, occurrences s l)) ks).
        { clear IH. apply map_ext_in. intros s Hs. rewrite occurrences_cons, decide_False; [done|].
          intros ->. by apply Hk, list_elem_of_In. }
        rewrite Heq. lia.
      - rewrite IH by done. rewrite decide_False; [lia|]. by intros ->. }
    rewrite Hl, IH; [simpl; lia|]. intros y Hy. apply Hsub. by right.
Qed.

Lemma positive_group l : positive_counts (group_by_status l) = group_by_status l.
Proof.
  apply filter_all, Forall_forall. intros p Hp. apply list_elem_of_fmap in Hp as (s & -> & Hs).
  rewrite elem_of_remove_dups in Hs. by apply occurrences_pos.
Qed.

Lemma lookup_group s l : lookup_str s (group_by_status l) = if decide (s ∈ l) then Some (occurrences s l) else None.
Proof.
  assert (H : forall ks, lookup_str s (map (fun s => (s, occurrences s l)) ks)
    = if decide (s ∈ ks) then Some (occurrences s l) else None).
  { induction ks as [|k ks IH]; [done|]. simpl. rewrite IH. destruct (s =s k) eqn:E; bools.
    - subst. by rewrite decide_True by by left.
    - destruct (decide (s ∈ ks)); [by rewrite decide_True by by right|]. rewrite decide_False; [done|]. set_solver. }
  unfold group_by_status. rewrite H. by destruct (decide (s ∈ l)) as [Hs|Hs]; rewrite <- elem_of_remove_dups in Hs;
    [rewrite decide_True|rewrite decide_False].
Qed.

Lemma count_group s l : default 0 (lookup_str s (group_by_status l)) = occurrences s l.
Proof.
  rewrite lookup_group. case_decide as H; [done|]. unfold occurrences. simpl.
  destruct (filter (fun t => t = s) l) as [|x k] eqn:E; [done|]. exfalso. apply H.
  assert (Hx : x ∈ filter (fun t => t = s) l) by (rewrite E; by left). by apply list_elem_of_filter in Hx as [-> Hx].
Qed.

Lemma occurrences_failed l : (0 <? occurrences "FAILED" l) = existsb (fun s => s =s "FAILED") l.
Proof.
  induction l as [|x l IH]; [done|]. rewrite occurrences_cons. simpl. rewrite <- IH.
  assert (0 <= occurrences "FAILED" l) by (unfold occurrences; lia).
  case_decide as Hx; [rewrite bool_decide_eq_true_2 by done|by rewrite bool_decide_eq_false_2].
  simpl. apply Z.ltb_lt. lia.
Qed.

Lemma occurrences_all s l : (occurrences s l =? Z.of_nat (length l)) = forallb (fun t => t =s s) l.
Proof.
  induction l as [|x l IH]; [done|]. rewrite occurrences_cons. simpl forallb. rewrite <- IH.
  assert (occurrences s l <= Z.of_nat (length l)) by (unfold occurrences; pose proof (length_filter (fun t => t = s) l); lia).
  simpl length. case_decide as Hx; [rewrite bool_decide_eq_true_2 by done|rewrite bool_decide_eq_false_2 by done].
  - simpl. apply eq_bool_prop_intro. rewrite !Is_true_true, !Z.eqb_eq. lia.
  - simpl. apply Z.eqb_neq. lia.
Qed.

(** The two ways to a dataset's status agree: the status computed from
    the counts that [GROUP BY status] returns is the status the evaluation
    aggregates from the rows; with no rows the counts say UNKNOWN. *)
Theorem aggregates_agree statuses :
  aggregate_status_from_segment_counts (group_by_status statuses) =
    (if bool_decide (statuses = []) then "UNKNOWN" else aggregate_statuses statuses).
Proof.
  unfold aggregate_status_from_segment_counts, aggregate_statuses. rewrite positive_group, !count_group.
  assert (sum_counts (group_by_status statuses) = Z.of_nat (length statuses)) as ->.
  { apply sum_occurrences; [apply NoDup_remove_dups|]. intros s. by rewrite elem_of_remove_dups. }
  rewrite occurrences_failed, occurrences_all. case_bool_decide as H; [by subst|].
  destruct (_ <=? 0) eqn:E; [|by simpl]. bools. by destruct statuses; [|simpl in E; lia].
Qed.

(** ** Witnesses *)

Definition eval_policy : CollectionCoverageContract :=
  mkCoverage "equities_bars_daily" "scope" "2008-05-07" "today" "historical" "business_day" "listed" true true
    "calendar_month" "core" (Some "collection-coverage/v3") None None None None None None None None None None.

Definition sample_facts : closure_facts := mkFacts "SUCCESS" true true 2 (Some 2) toy_digest 1 5 5 true.

Lemma evaluate_closure_spec_witness :
  reads (mkClosure sample_claims toy_digest) sample_facts /\
  exists status detail, evaluate_closure [] eval_policy sample_receipt_segment (mkClosure sample_claims toy_digest)
    = Ok (status, detail, Some (mkClosure sample_claims toy_digest)) /\
    status ∈ ["COMPLETE"; "FAILED"; "PARTIAL"] /\
    (status = "COMPLETE" <-> complete_conditions [] eval_policy sample_receipt_segment sample_facts) /\
    (status = "FAILED" -> failing eval_policy sample_facts) /\
    (cf_status sample_facts <> "SUCCESS" -> status = "FAILED").
Proof.
  assert (H : reads (mkClosure sample_claims toy_digest) sample_facts) by (split; vm_compute; reflexivity).
  split; [exact H|]. exact (evaluate_closure_spec [] eval_policy sample_receipt_segment _ _ H).
Defined.

Definition unhashable_claims : dict := sample_claims_of (JList []).
Definition unhashable_receipt : CollectionReceipt := sample_receipt_of false unhashable_claims.

(** The sample verifier knows both bodies. *)
Abbreviation sample_loads := (loads_known [sample_claims; unhashable_claims]).
Abbreviation sample_production := (production_verify toy_sha256_hex sample_loads toy_schema toy_signature).

Example sample_completes :
  evaluate_segment [] sample_production eval_policy sample_receipt_segment (Some sample_receipt)
  = Ok ("COMPLETE", [("reason", JStr "receipt reconciled"); ("event_zero", JBool false)]).
Proof. by vm_compute. Qed.

Lemma complete_needs_evidence_witness : exists rows,
  evaluate_required_segments [] sample_production eval_policy [sample_receipt_segment]
    [sample_tampered; sample_receipt] = Ok ("COMPLETE", rows) /\
  map ev_required rows = [sample_receipt_segment].
Proof.
  assert (H : exists rows, evaluate_required_segments [] sample_production eval_policy [sample_receipt_segment]
    [sample_tampered; sample_receipt] = Ok ("COMPLETE", rows)) by (eexists; vm_compute; reflexivity).
  destruct H as (rows & H). exists rows. split; [exact H|].
  exact (proj1 (complete_needs_evidence [] toy_sha256_hex sample_loads toy_schema toy_signature eval_policy
    [sample_receipt_segment] [sample_tampered; sample_receipt] "COMPLETE" rows H)).
Defined.

Lemma evaluation_total_witness : exists status rows,
  evaluate_required_segments [] sample_production eval_policy [sample_receipt_segment]
    [sample_tampered; sample_receipt] = Ok (status, rows).
Proof.
  apply (evaluation_total [] toy_sha256_hex sample_loads toy_schema toy_signature eval_policy).
  - exact toy_schema_requires.
  - intros. eexists. reflexivity.
  - apply Forall_cons_2; [vm_compute; reflexivity|]. apply Forall_cons_2; [vm_compute; reflexivity|apply Forall_nil_2].
Defined.

Definition sample_prepared : list PreparedReceipt :=
  [mkPrepared sample_tampered None (Some "signed value does not bind untrusted receipt");
   mkPrepared sample_receipt (Some (mkClosure sample_claims toy_digest)) None].

Lemma best_receipt_spec_witness :
  exists p, best_receipt sample_prepared = Ok (Some p) /\ p ∈ sample_prepared /\
    (trusted (mkPrepared sample_receipt (Some (mkClosure sample_claims toy_digest)) None) = true -> trusted p = true).
Proof.
  destruct (best_receipt_spec toy_sha256_hex sample_loads toy_schema toy_signature
    [sample_tampered; sample_receipt] sample_prepared) as (p & Hp & Hin & Hq); [vm_compute; reflexivity|discriminate|].
  exists p. split; [exact Hp|]. split; [exact Hin|]. refine (proj1 (Hq _ _)). right. left.
Defined.

Lemma unhashable_version_escapes_witness :
  sample_production unhashable_receipt = raise TypeError "unhashable type" /\
  is_Ok (evaluate_required_segments [] sample_production eval_policy [sample_receipt_segment]
    [sample_receipt; unhashable_receipt]) = false.
Proof.
  eapply (unhashable_version_escapes [] toy_sha256_hex sample_loads toy_schema toy_signature unhashable_receipt);
    [vm_compute; reflexivity|vm_compute; reflexivity|vm_compute; reflexivity|right; left].
Defined.

(** The committed registries, for a receipt signed with any key. *)
Definition repository_verify : CollectionReceipt -> result VerifiedCollectionClosure :=
  registry_verify hexdigest loads_documents toy_schema toy_ed25519 (Some (file_text authority_instances)) scoped_file.

Lemma complete_needs_active_key_witness : exists status rows,
  evaluate_required_segments [] repository_verify eval_policy [sample_receipt_segment] [sample_receipt]
    = Ok (status, rows) /\ status <> "COMPLETE".
Proof.
  assert (H : exists status rows, evaluate_required_segments [] repository_verify eval_policy [sample_receipt_segment]
    [sample_receipt] = Ok (status, rows)) by (eexists _, _; vm_compute; reflexivity).
  destruct H as (status & rows & H). exists status, rows. split; [exact H|].
  eapply (proj2 (complete_needs_active_key [] hexdigest loads_documents toy_schema toy_ed25519
    (Some (file_text authority_instances)) scoped_file eval_policy [sample_receipt_segment] [sample_receipt] _ _
    H)); [vm_compute; reflexivity|discriminate].
Defined.
