(* ===== verification/Inventory.v ===== *)
(** * Inventory: the exact required inventory and its signed receipts
    (packages/data_plane/storage/coverage_ledger.py: identities, the comparison of
    persisted with regenerated segments, rows read back as segments and receipts,
    exact verification)

    What is required is regenerated from the checked-in contracts; persisted rows
    never define it.  A dataset's inventory is complete when the persisted segments
    are exactly the required ones and each one selects a receipt of its own whose
    signature closes over it. *)

From S2P Require Import Prelude PyDate Json JsonText SourceCapability CoverageContract CoveragePlan Receipt CoverageEval Transaction LedgerStore.

Local Open Scope Z_scope.

(** ** Identities *)

Record CanonicalCoverageSegmentIdentity := mkIdentity {
  id_source : string;
  id_dataset : string;
  id_segment_id : string;
  id_policy_id : string;
  id_policy_version : string;
  id_policy_digest : string;
  id_segment_start : string;
  id_segment_end : string;
  id_expected_scope_json : string;
  id_expected_items : option Z;
}.

#[export] Instance identity_eq_dec : EqDecision CanonicalCoverageSegmentIdentity.
Proof. solve_decision. Defined.

Abbreviation identity := CanonicalCoverageSegmentIdentity (only parsing).

Definition logical_key (i : identity) : string * string := (id_dataset i, id_segment_id i).

Definition storage_key (i : identity) : string * string * string * string :=
  (id_source i, id_dataset i, id_segment_id i, id_policy_version i).

Definition scope_of (document : json) : result dict :=
  match document with
  | JDict d => Ok d
  | _ => raise ValueError "coverage segment expected_scope must be an object"
  end.

(** [except (TypeError, ValueError, json.JSONDecodeError)] *)
Definition is_value_error (e : exn) : bool :=
  exn_kind e ∈? [TypeError; ValueError; ReceiptVerificationError].

Section Identities.
Variable contracts : coverage_registry.
Variable sha256_hex : string -> string.
Variable float_repr : string -> string.

Abbreviation loads := (json_loads float_repr).

Definition identity_to_dict (i : identity) : result dict :=
  scope ← loads (id_expected_scope_json i);
  Ok [("source", JStr (id_source i)); ("dataset", JStr (id_dataset i)); ("segment_id", JStr (id_segment_id i));
      ("policy_id", JStr (id_policy_id i)); ("policy_version", JStr (id_policy_version i));
      ("policy_digest", JStr (id_policy_digest i)); ("segment_start", JStr (id_segment_start i));
      ("segment_end", JStr (id_segment_end i)); ("expected_scope", scope);
      ("expected_items", opt_int (id_expected_items i))].

(** [_canonical_json(identity.to_dict())] *)
Definition identity_key (i : identity) : result string := d ← identity_to_dict i; canonical_json (JDict d).

Definition canonical_segment_identity (segment : RequiredCoverageSegment) : result identity :=
  binding ← coverage_policy_binding contracts sha256_hex (seg_dataset segment);
  scope ← canonical_json (JDict (seg_scope segment));
  Ok (mkIdentity (seg_source segment) (seg_dataset segment) (seg_id segment) (pb_policy_id binding)
        (pb_policy_version binding) (pb_policy_digest binding) (seg_start segment) (seg_end segment) scope
        (seg_expected_items segment)).

Definition persisted_segment_identity (row : segment_row) : result identity :=
  document ← loads (sg_expected_scope row);
  scope ← scope_of document;
  binding ← coverage_policy_binding contracts sha256_hex (sg_dataset row);
  scope ← canonical_json (JDict scope);
  Ok (mkIdentity (sg_source row) (sg_dataset row) (sg_segment_id row) (pb_policy_id binding) (sg_policy_version row)
        (pb_policy_digest binding) (sg_segment_start row) (sg_segment_end row) scope (sg_expected_items row)).

(** ** Rows read back *)

Definition required_from_inventory (row : segment_row) : result RequiredCoverageSegment :=
  document ← (match loads (sg_expected_scope row) with
              | Err e => if is_value_error e then raise ValueError "coverage segment contains invalid expected scope"
                         else Err e
              | r => r
              end);
  match document with
  | JDict scope => Ok (mkSegment (sg_source row) (sg_dataset row) (sg_segment_id row) (sg_segment_start row)
                         (sg_segment_end row) scope (sg_expected_items row))
  | _ => raise ValueError "coverage segment expected scope must be an object"
  end.

Definition receipt_from_row (row : receipt_row) : result CollectionReceipt :=
  '(scope, digests) ← (match (scope ← loads (rr_expected_scope row); digests ← loads (rr_digests_json row);
                              Ok (scope, digests)) with
                       | Err e => if is_value_error e then raise ValueError "collection receipt contains invalid JSON evidence"
                                  else Err e
                       | r => r
                       end);
  match scope, digests with
  | JDict scope, JDict digests =>
      Ok (mkReceipt (rr_source row) (rr_dataset row) (rr_segment_id row) (rr_segment_start row) (rr_segment_end row)
            scope (rr_expected_items row) (rr_observed_items row) (rr_raw_page_count row) (rr_raw_row_count row)
            (rr_structured_row_count row) (negb (rr_pagination_exhausted row =? 0)) digests (rr_run_id row)
            (rr_status row) (rr_error row) (rr_checked_at row))
  | _, _ => raise ValueError "collection receipt JSON evidence must be objects"
  end.
End Identities.

(** ** Comparison *)

Record ExactCoverageInventoryComparison := mkComparison {
  cmp_target_end : string;
  expected_segments : list RequiredCoverageSegment;
  expected_identities : list identity;
  actual_identities : list identity;
  missing : list identity;
  unexpected : list identity;
  duplicates : list (string * string * Z);
  wrong_policy : list (string * string * list string);
  malformed : list (string * string * string);
}.

Definition empty_list {A} (l : list A) : bool := match l with [] => true | _ => false end.

Definition exact (c : ExactCoverageInventoryComparison) : bool :=
  negb (negb (empty_list (missing c)) || negb (empty_list (unexpected c)) || negb (empty_list (duplicates c))
        || negb (empty_list (wrong_policy c)) || negb (empty_list (malformed c))).

Definition segments_for (c : ExactCoverageInventoryComparison) (dataset : string) : list RequiredCoverageSegment :=
  filter (fun s => seg_dataset s = dataset) (expected_segments c).

Definition brief (i : identity) : json :=
  JList (map JStr [id_source i; id_dataset i; id_segment_id i; id_policy_version i; id_segment_start i; id_segment_end i]).

(** [detail()], whose tuples become lists in JSON. *)
Definition DETAIL_LIMIT : nat := 20.

Definition comparison_detail (c : ExactCoverageInventoryComparison) : dict :=
  [("target_end", JStr (cmp_target_end c));
   ("expected_count", JInt (Z.of_nat (length (expected_identities c))));
   ("actual_count", JInt (Z.of_nat (length (actual_identities c))));
   ("missing", JList (map brief (take DETAIL_LIMIT (missing c))));
   ("unexpected", JList (map brief (take DETAIL_LIMIT (unexpected c))));
   ("duplicate", JList (map (fun d => JList [JStr d.1.1; JStr d.1.2; JInt d.2]) (take DETAIL_LIMIT (duplicates c))));
   ("wrong_policy", JList (map (fun w => JList [JStr w.1.1; JStr w.1.2; JList (map JStr w.2)])
                             (take DETAIL_LIMIT (wrong_policy c))));
   ("malformed", JList (map (fun m => JList [JStr m.1.1; JStr m.1.2; JStr m.2]) (take DETAIL_LIMIT (malformed c))))].

Definition DETERMINISTIC_READY_INVENTORY_GRAINS : list string := ["calendar_month"].

(** [a <= b] on tuples of strings, the rest of the tuple by [ltb]. *)
Definition leb_of {A} (ltb : A -> A -> bool) (a b : A) : bool := negb (ltb b a).

Definition row_ltb : segment_row -> segment_row -> bool :=
  lex sg_dataset String.compare (lex sg_segment_start String.compare (lex sg_segment_id String.compare
    (lex sg_source String.compare (fun a b => String.ltb (sg_policy_version a) (sg_policy_version b))))).

Definition pair_ltb {A} (rest : string * string * A -> string * string * A -> bool) :=
  lex (fun t : string * string * A => t.1.1) String.compare (lex (fun t => t.1.2) String.compare rest).

Definition duplicate_ltb := pair_ltb (fun a b : string * string * Z => a.2 <? b.2).
Definition malformed_ltb := pair_ltb (fun a b : string * string * string => String.ltb a.2 b.2).
(** The keys of the dict are distinct, so that the versions are never compared. *)
Definition wrong_policy_ltb := pair_ltb (fun _ _ : string * string * list string => false).

(** [groups.setdefault(key, []).append(row)] *)
Abbreviation groups := (list ((string * string) * list segment_row)) (only parsing).

Fixpoint group_add (key : string * string) (row : segment_row) (gs : groups) : groups :=
  match gs with
  | [] => [(key, [row])]
  | (k, rows) :: gs => if decide (k = key) then (k, rows ++ [row]) :: gs else (k, rows) :: group_add key row gs
  end.

Record comparison_state := mkState {
  st_actual_by_key : list (string * identity);
  st_logical_rows : groups;
  st_old_policy_rows : groups;
  st_malformed : list (string * string * string);
}.

Section Compare.
Variable capabilities : registry.
Variable contracts : coverage_registry.
Variable sha256_hex : string -> string.
Variable float_repr : string -> string.
Variable date_matches : string -> list (Z * Z * Z).
Variable table_rows : string -> list string.
Variable visible_text : string -> string.

Abbreviation unavailable := (raise CoverageInventoryAuthorityUnavailable) (only parsing).

(** The regenerated segments of a dataset. *)
Definition regenerated_segments (target_end dataset : string) : result (list RequiredCoverageSegment) :=
  policy ← (match coverage_contract_for contracts dataset with
            | Err e => if decide (exn_kind e = KeyError) then unavailable "checked-in Coverage V3 policy is missing"
                       else Err e
            | r => r
            end);
  match source_capability_contract_or_none capabilities dataset with
  | None => unavailable "checked-in V3 policy pair is required"
  | Some capability =>
      _ ← ensure (bool_decide (cc_policy_version policy = Some COLLECTION_COVERAGE_V3))
            CoverageInventoryAuthorityUnavailable "checked-in V3 policy pair is required";
      let grain := cw_grain (collection_window capability) in
      _ ← ensure ((grain ∈? DETERMINISTIC_READY_INVENTORY_GRAINS) && (segment_granularity policy =s grain))
            CoverageInventoryAuthorityUnavailable "requires an authority-issued inventory (C10 OPEN)";
      receipt_source ← (match receipt_source_for_canonical_source (source capability) with
                | Err e => if decide (exn_kind e = ValueError) then unavailable "unsupported source" else Err e
                | r => r
                end);
      segments ← plan_required_segments date_matches table_rows visible_text capabilities policy target_end receipt_source
                   None None None;
      _ ← ensure (negb (empty_list segments)) CoverageInventoryAuthorityUnavailable
            "Coverage canonical inventory is empty";
      Ok segments
  end.

Definition add_dataset (target_end : string) (acc : list RequiredCoverageSegment * list identity) (dataset : string)
    : result (list RequiredCoverageSegment * list identity) :=
  segments ← regenerated_segments target_end dataset;
  identities ← mapR (canonical_segment_identity contracts sha256_hex) segments;
  Ok (acc.1 ++ segments, acc.2 ++ identities).

(** The dict of the identities by their canonical texts. *)
Definition by_identity_key (identities : list identity) : result (list (string * identity)) :=
  keyed ← mapR (fun i => k ← identity_key float_repr i; Ok (k, i)) identities;
  Ok (dict_merge [] keyed).

Definition compare_row (st : comparison_state) (row : segment_row) : result comparison_state :=
  let dataset := sg_dataset row in
  let logical := (dataset, sg_segment_id row) in
  binding ← coverage_policy_binding contracts sha256_hex dataset;
  if negb (sg_policy_version row =s pb_policy_version binding) then
    Ok (mkState (st_actual_by_key st) (st_logical_rows st) (group_add logical row (st_old_policy_rows st)) (st_malformed st))
  else
    let logical_rows := group_add logical row (st_logical_rows st) in
    match (i ← persisted_segment_identity contracts sha256_hex float_repr row; k ← identity_key float_repr i; Ok (k, i)) with
    | Err e =>
        if is_value_error e then
          Ok (mkState (st_actual_by_key st) logical_rows (st_old_policy_rows st)
                (st_malformed st ++ [(dataset, sg_segment_id row, exn_msg e)]))
        else Err e
    | Ok (k, i) =>
        if (k ∈? map fst (st_actual_by_key st)) then
          Ok (mkState (st_actual_by_key st) logical_rows (st_old_policy_rows st)
                (st_malformed st ++ [(dataset, sg_segment_id row, "duplicate exact identity")]))
        else
          Ok (mkState (st_actual_by_key st ++ [(k, i)]) logical_rows (st_old_policy_rows st) (st_malformed st))
    end.

(** The entries of a dict whose keys are not in another one, in the order of the
    keys: the keys are what [sort_identity] sorts by. *)
Definition sorted_difference (d d' : list (string * identity)) : list identity :=
  map snd (py_sorted key_leb (filter (fun p => p.1 ∉ map fst d') d)).

Definition versions_of (rows : list segment_row) : list string := sorted_set (map sg_policy_version rows).

Definition compare_exact_coverage_inventory (t : tables) (datasets : list string) (target_end : string)
    : result ExactCoverageInventoryComparison :=
  let selected := sorted_set datasets in
  _ ← ensure (negb (empty_list selected) && bool_decide (datasets = selected)) ValueError
        "exact Coverage inventory datasets must be sorted and duplicate-free";
  '(segments, identities) ← foldR (add_dataset target_end) ([], []) selected;
  let rows := py_sorted (leb_of row_ltb) (filter (fun r => sg_dataset r ∈ selected) (coverage_segments t)) in
  expected_by_key ← by_identity_key identities;
  st ← foldR compare_row (mkState [] [] [] []) rows;
  let actual_by_key := st_actual_by_key st in
  let expected_logical := map logical_key identities in
  Ok (mkComparison target_end segments identities
        (map snd (py_sorted key_leb actual_by_key))
        (sorted_difference expected_by_key actual_by_key)
        (sorted_difference actual_by_key expected_by_key)
        (py_sorted (leb_of duplicate_ltb)
          (map (fun g : (string * string) * list segment_row => (g.1.1, g.1.2, Z.of_nat (length g.2)))
            (filter (fun g => length g.2 <> 1%nat) (st_logical_rows st))))
        (py_sorted (leb_of wrong_policy_ltb)
          (map (fun g : (string * string) * list segment_row => (g.1.1, g.1.2, versions_of g.2))
            (filter (fun g => g.1 ∈ expected_logical /\ g.1 ∉ map fst (st_logical_rows st)) (st_old_policy_rows st))))
        (py_sorted (leb_of malformed_ltb) (st_malformed st))).

(** ** Verification of the selected receipts *)

Record ExactCoverageCompleteVerification := mkVerification {
  inventory : ExactCoverageInventoryComparison;
  closures : list VerifiedCollectionClosure;
  invalid_segments : list (string * string * string);
}.

Definition complete_eligible (v : ExactCoverageCompleteVerification) : bool :=
  exact (inventory v) && empty_list (invalid_segments v)
  && (length (closures v) =? length (expected_segments (inventory v)))%nat.

Definition verification_detail (v : ExactCoverageCompleteVerification) : dict :=
  comparison_detail (inventory v) ++
  [("verified_receipt_count", JInt (Z.of_nat (length (closures v))));
   ("invalid_selected_receipts", JList (map (fun m => JList [JStr m.1.1; JStr m.1.2; JStr m.2])
                                       (take DETAIL_LIMIT (invalid_segments v))))].

(** [require_verified_collection_closure] in the production environment. *)
Variable verify : CollectionReceipt -> result VerifiedCollectionClosure.

(** The receipt the LEFT JOIN finds for a segment. *)
Definition selected_receipt_row (t : tables) (row : segment_row) : option receipt_row :=
  match sg_receipt_run_id row with
  | None => None
  | Some run => head (filter (fun r => receipt_pk r = (sg_source row, sg_dataset row, sg_segment_id row, run))
                        (collection_receipts t))
  end.

(** [by_key.get(identity.storage_key)], the last row with the key. *)
Definition row_by_key (t : tables) (selected : list string) (key : string * string * string * string)
    : option segment_row :=
  last (filter (fun r => segment_pk r = key) (filter (fun r => sg_dataset r ∈ selected) (coverage_segments t))).

(** The closure of the receipt a segment selects, or why there is none. *)
Definition verify_segment (t : tables) (selected : list string) (expected : identity)
    (required : RequiredCoverageSegment) : result (VerifiedCollectionClosure + string) :=
  match row_by_key t selected (storage_key expected) with
  | None => Ok (inr "canonical segment disappeared during receipt verification")
  | Some row =>
      match persisted_segment_identity contracts sha256_hex float_repr row with
      | Err e => if is_value_error e then Ok (inr ("canonical segment changed: " +:+ exn_msg e)) else Err e
      | Ok joined =>
          if negb (bool_decide (joined = expected)) then
            Ok (inr "canonical segment changed during receipt verification")
          else if negb (sg_status row =s "COMPLETE") then Ok (inr "segment not COMPLETE")
          else
            match selected_receipt_row t row with
            | None => Ok (inr "selected signed receipt missing")
            | Some receipt_row =>
                match (receipt ← receipt_from_row float_repr receipt_row;
                       policy ← coverage_contract_for contracts (seg_dataset required);
                       evaluate_segment_with_closure capabilities verify policy required (Some receipt)) with
                | Err e => if is_value_error e then Ok (inr ("selected receipt malformed: " +:+ exn_msg e)) else Err e
                | Ok (status, detail, closure) =>
                    match closure with
                    | Some c =>
                        if status =s "COMPLETE" then Ok (inl c)
                        else Ok (inr (py_str (or_ (getv "reason" detail) (JStr "receipt is not COMPLETE"))))
                    | None => Ok (inr (py_str (or_ (getv "reason" detail) (JStr "receipt is not COMPLETE"))))
                    end
                end
            end
      end
  end.

Definition receipt_identity (c : VerifiedCollectionClosure) : result (string * string * string * Z) :=
  source ← closure_str c "source"; dataset ← closure_str c "dataset"; segment_id ← closure_str c "segment_id";
  run_id ← closure_int c "run_id"; Ok (source, dataset, segment_id, run_id).

Record verification_state := mkVerifying {
  ve_closures : list VerifiedCollectionClosure;
  ve_invalid : list (string * string * string);
  ve_selected : list (string * string * string * Z);
}.

Definition verify_step (t : tables) (selected : list string) (st : verification_state)
    (pair : identity * RequiredCoverageSegment) : result verification_state :=
  let '(expected, required) := pair in
  let refuse reason := Ok (mkVerifying (ve_closures st)
        (ve_invalid st ++ [(seg_dataset required, seg_id required, reason)]) (ve_selected st)) in
  found ← verify_segment t selected expected required;
  match found with
  | inr reason => refuse reason
  | inl c =>
      key ← receipt_identity c;
      if key ∈? ve_selected st then refuse "selected receipt reused"
      else Ok (mkVerifying (ve_closures st ++ [c]) (ve_invalid st) (key :: ve_selected st))
  end.

(** On the tables of one read snapshot. *)
Definition verify_exact_coverage_complete (t : tables) (datasets : list string) (target_end : string)
    : result ExactCoverageCompleteVerification :=
  comparison ← compare_exact_coverage_inventory t datasets target_end;
  if negb (exact comparison) then Ok (mkVerification comparison [] [])
  else
    let selected := sorted_set (map seg_dataset (expected_segments comparison)) in
    st ← foldR (verify_step t selected) (mkVerifying [] [] [])
           (combine (expected_identities comparison) (expected_segments comparison));
    Ok (mkVerification comparison (ve_closures st) (ve_invalid st)).
End Compare.

(** ** What is regenerated *)

Section Regenerated.
Context (capabilities : registry) (contracts : coverage_registry) (sha256_hex : string -> string)
  (float_repr : string -> string) (date_matches : string -> list (Z * Z * Z)) (table_rows : string -> list string)
  (visible_text : string -> string).

Abbreviation regenerate := (regenerated_segments capabilities contracts date_matches table_rows visible_text).
Abbreviation identity_of := (canonical_segment_identity contracts sha256_hex).
Abbreviation persisted := (persisted_segment_identity contracts sha256_hex float_repr).
Abbreviation compare := (compare_exact_coverage_inventory capabilities contracts sha256_hex float_repr
  date_matches table_rows visible_text).

Lemma add_datasets target_end datasets acc segments identities :
  foldR (add_dataset capabilities contracts sha256_hex date_matches table_rows visible_text target_end) acc datasets
    = Ok (segments, identities) ->
  exists segments' identities', segments = acc.1 ++ segments' /\ identities = acc.2 ++ identities' /\
    Forall2 (fun s i => identity_of s = Ok i) segments' identities' /\
    (forall s, s ∈ segments' <-> exists d l, d ∈ datasets /\ regenerate target_end d = Ok l /\ s ∈ l) /\
    (forall d, d ∈ datasets -> exists l, regenerate target_end d = Ok l).
Proof.
  revert acc. induction datasets as [|d datasets IH]; intros acc; simpl.
  - intros [= ->]. exists [], []. rewrite !app_nil_r. split_and!; [done|done|constructor|set_solver|set_solver].
  - intros H. binds H. unfold add_dataset in E. binds E. simplify_eq.
    destruct (IH _ H) as (segments' & identities' & -> & -> & Hf & Hs & Hd). simpl.
    exists (a0 ++ segments'), (a1 ++ identities'). rewrite !app_assoc. split_and!; [done|done| | |].
    + apply Forall2_app; [|done]. by apply mapR_Ok.
    + intros s. rewrite elem_of_app, Hs. split.
      * intros [Hin|(d' & l & Hd' & Hl & Hin)]; [exists d, a0|exists d', l]; by rewrite elem_of_cons; auto.
      * intros (d' & l & [->|Hd']%elem_of_cons & Hl & Hin); [left|right; by exists d', l].
        rewrite E0 in Hl. by injection Hl as <-.
    + intros d' [->|Hd']%elem_of_cons; [by exists a0|by apply Hd].
Qed.

(** What a comparison is made of. *)
Lemma compare_Ok t datasets target_end c : compare t datasets target_end = Ok c ->
  datasets = sorted_set datasets /\ datasets <> [] /\
  Forall2 (fun s i => identity_of s = Ok i) (expected_segments c) (expected_identities c) /\
  (forall s, s ∈ expected_segments c <-> exists d l, d ∈ datasets /\ regenerate target_end d = Ok l /\ s ∈ l) /\
  (forall d, d ∈ datasets -> exists l, regenerate target_end d = Ok l) /\
  exists expected st,
    by_identity_key float_repr (expected_identities c) = Ok expected /\
    foldR (compare_row contracts sha256_hex float_repr) (mkState [] [] [] [])
      (py_sorted (leb_of row_ltb) (filter (fun r => sg_dataset r ∈ datasets) (coverage_segments t))) = Ok st /\
    missing c = sorted_difference expected (st_actual_by_key st) /\
    unexpected c = sorted_difference (st_actual_by_key st) expected /\
    duplicates c = py_sorted (leb_of duplicate_ltb)
      (map (fun g : (string * string) * list segment_row => (g.1.1, g.1.2, Z.of_nat (length g.2)))
        (filter (fun g => length g.2 <> 1%nat) (st_logical_rows st))) /\
    malformed c = py_sorted (leb_of malformed_ltb) (st_malformed st).
Proof.
  unfold compare_exact_coverage_inventory. intros H. binds H. ensures. subst.
  destruct a0 as [segments identities]. binds H. simplify_eq. simpl.
  match goal with H : datasets = _ |- _ => rewrite <- H in * end.
  apply add_datasets in E0 as (segments' & identities' & -> & -> & Hf & Hs & Hd). simpl in *.
  split_and!; [done| |done|done|done|].
  - intros ->. match goal with H : empty_list _ = false |- _ => by vm_compute in H end.
  - exists a0, a1. by split_and!.
Qed.

Lemma empty_list_true {A} (l : list A) : empty_list l = true <-> l = [].
Proof. by destruct l. Qed.

Lemma exact_spec_lists c : exact c = true <->
  missing c = [] /\ unexpected c = [] /\ duplicates c = [] /\ wrong_policy c = [] /\ malformed c = [].
Proof.
  unfold exact. rewrite negb_true_iff, !orb_false_iff, !negb_false_iff, !empty_list_true. tauto.
Qed.

Lemma sorted_difference_nil d d' : sorted_difference d d' = [] <-> forall k, k ∈ map fst d -> k ∈ map fst d'.
Proof.
  unfold sorted_difference. split.
  - intros E%fmap_nil_inv. pose proof (py_sorted_perm key_leb (filter (fun p => p.1 ∉ map fst d') d)) as Hp.
    rewrite E in Hp. apply Permutation_nil in Hp. intros k (p & -> & Hin)%list_elem_of_fmap.
    destruct (decide (p.1 ∈ map fst d')) as [|Hn]; [done|]. exfalso.
    assert (Hx : p ∈ filter (fun p => p.1 ∉ map fst d') d) by by apply list_elem_of_filter.
    rewrite Hp in Hx. by apply elem_of_nil in Hx.
  - intros H. assert (E : filter (fun p : string * identity => p.1 ∉ map fst d') d = []); [|by rewrite E].
    destruct (filter _ d) as [|p l] eqn:E; [done|]. exfalso.
    assert (Hx : p ∈ filter (fun p : string * identity => p.1 ∉ map fst d') d) by (rewrite E; by left).
    apply list_elem_of_filter in Hx as [Hn Hin]. apply Hn, H, list_elem_of_fmap. by exists p.
Qed.

Lemma py_sorted_nil {A} (leb : A -> A -> bool) l : py_sorted leb l = [] -> l = [].
Proof. intros E. pose proof (py_sorted_perm leb l) as Hp. rewrite E in Hp. by apply Permutation_nil in Hp. Qed.

(** ** Groups *)

Definition row_logical (r : segment_row) : string * string := (sg_dataset r, sg_segment_id r).

Definition grouped (rows : list segment_row) (gs : groups) : Prop :=
  NoDup (map fst gs) /\ (forall r, r ∈ rows -> row_logical r ∈ map fst gs) /\
  Forall (fun g => g.2 = filter (fun r => row_logical r = g.1) rows) gs.

Lemma group_add_keys key row gs : map fst (group_add key row gs) =
  if bool_decide (key ∈ map fst gs) then map fst gs else map fst gs ++ [key].
Proof.
  induction gs as [|[k rows] gs IH]; simpl; [done|]. destruct (decide (k = key)) as [->|Hk]; simpl.
  - by rewrite bool_decide_eq_true_2 by by left.
  - rewrite IH. case_bool_decide as Hin.
    + by rewrite bool_decide_eq_true_2 by by right.
    + rewrite bool_decide_eq_false_2; [done|]. intros [?|?]%elem_of_cons; congruence.
Qed.

Lemma group_add_rows key row gs rows : NoDup (map fst gs) ->
  Forall (fun g => g.2 = filter (fun r => row_logical r = g.1) rows) gs -> key = row_logical row ->
  (key ∉ map fst gs -> filter (fun r => row_logical r = key) rows = []) ->
  Forall (fun g => g.2 = filter (fun r => row_logical r = g.1) (rows ++ [row])) (group_add key row gs).
Proof.
  intros Hn Hg -> Hfresh. induction gs as [|[k old] gs IH]; simpl.
  - constructor; [|constructor]. simpl. rewrite filter_app, Hfresh by set_solver. simpl. rewrite filter_cons_True by done. done.
  - apply NoDup_cons in Hn as [Hk Hn]. apply Forall_cons in Hg as [Hold Hg]. simpl in *.
    destruct (decide (k = row_logical row)) as [->|E].
    + constructor; simpl.
      * by rewrite Hold, filter_app, filter_cons_True.
      * rewrite Forall_forall in *. intros g Hin. rewrite (Hg g Hin), filter_app, filter_cons_False.
        -- by rewrite app_nil_r.
        -- intros E. apply Hk. rewrite E. apply list_elem_of_fmap. by exists g.
    + constructor; simpl.
      * rewrite Hold, filter_app, filter_cons_False by done. by rewrite app_nil_r.
      * apply IH; [done|done|]. intros Hnot. apply Hfresh. intros [?|?]%elem_of_cons; [congruence|done].
Qed.

Lemma grouped_all rows : grouped rows (fold_left (fun gs r => group_add (row_logical r) r gs) rows []).
Proof.
  induction rows as [|row rows IH] using rev_ind; [by split_and!; try constructor; intros r ?%elem_of_nil|].
  rewrite fold_left_app. simpl. destruct IH as (Hn & Hin & Hg). unfold grouped. rewrite group_add_keys. split_and!.
  - case_bool_decide as Hk; [done|]. apply NoDup_app. split; [done|]. split; [|by apply NoDup_singleton].
    by intros k Hk' ->%list_elem_of_singleton.
  - intros r [Hr| ->%list_elem_of_singleton]%elem_of_app; case_bool_decide; rewrite ?elem_of_app; auto.
    right. by left.
  - apply group_add_rows; [done|done|done|]. intros Hk. destruct (filter _ rows) as [|r l] eqn:E; [done|]. exfalso.
    assert (Hx : r ∈ filter (fun r => row_logical r = row_logical row) rows) by (rewrite E; by left).
    apply list_elem_of_filter in Hx as [Hl Hr]. apply Hk. rewrite <- Hl. by apply Hin.
Qed.

(** When every group is a single row, rows with the same key are the same row. *)
Lemma grouped_single rows gs r r' : grouped rows gs -> Forall (fun g => length g.2 = 1%nat) gs ->
  r ∈ rows -> r' ∈ rows -> row_logical r = row_logical r' -> r = r'.
Proof.
  intros (_ & Hin & Hg) Hone Hr Hr' E. pose proof (Hin r Hr) as (g & Hk & Hgin)%list_elem_of_fmap.
  rewrite Forall_forall in Hg, Hone. specialize (Hg g Hgin). specialize (Hone g Hgin).
  assert (H1 : r ∈ g.2) by by rewrite Hg; apply list_elem_of_filter.
  assert (H2 : r' ∈ g.2) by (rewrite Hg; apply list_elem_of_filter; split; [congruence|done]).
  destruct (g.2) as [|x [|]]; try done. apply list_elem_of_singleton in H1, H2. congruence.
Qed.

(** ** The rows of a comparison *)

(** A row under the policy version in force. *)
Definition current (row : segment_row) : bool :=
  match coverage_policy_binding contracts sha256_hex (sg_dataset row) with
  | Ok b => sg_policy_version row =s pb_policy_version b
  | Err _ => false
  end.

(** The canonical texts that are compared. *)
Definition row_text (row : segment_row) : result string := i ← persisted row; identity_key float_repr i.
Definition segment_text (s : RequiredCoverageSegment) : result string := i ← identity_of s; identity_key float_repr i.

Lemma compare_rows_run rows st st' : foldR (compare_row contracts sha256_hex float_repr) st rows = Ok st' ->
  st_logical_rows st' = fold_left (fun gs r => group_add (row_logical r) r gs)
                          (filter (fun r => current r = true) rows) (st_logical_rows st) /\
  exists bad, st_malformed st' = st_malformed st ++ bad /\
    (bad = [] -> exists added, st_actual_by_key st' = st_actual_by_key st ++ added /\
       Forall2 (fun r p => row_text r = Ok p.1) (filter (fun r => current r = true) rows) added).
Proof.
  revert st. induction rows as [|row rows IH]; intros st; cbn [foldR].
  - intros [= ->]. split; [done|]. exists []. rewrite app_nil_r. split; [done|]. intros _. exists [].
    by rewrite app_nil_r.
  - intros H. apply bind_Ok in H as (st1 & H1 & H). destruct (IH _ H) as (Hl & bad & Hb & Ha). clear IH H.
    unfold compare_row in H1. apply bind_Ok in H1 as (b & Hbind & H1). rewrite filter_cons.
    assert (Hcur : current row = (sg_policy_version row =s pb_policy_version b)) by (unfold current; by rewrite Hbind).
    destruct (sg_policy_version row =s pb_policy_version b) eqn:Ev; cbn [negb] in H1.
    2:{ injection H1 as <-. rewrite decide_False by (rewrite Hcur; done). simpl in *. eauto. }
    rewrite decide_True by done. simpl.
    destruct (i ← persisted row; k ← identity_key float_repr i; Ok (k, i)) as [[k i]|e] eqn:Ed.
    + destruct (k ∈? map fst (st_actual_by_key st)) eqn:Ek; injection H1 as <-; simpl in *; (split; [exact Hl|]).
      * eexists. split; [rewrite Hb; by rewrite <- app_assoc|]. done.
      * exists bad. split; [done|]. intros Hbad. destruct (Ha Hbad) as (added & -> & Hf). exists ((k, i) :: added).
        rewrite <- app_assoc. split; [done|]. constructor; [|done]. binds Ed. simplify_eq.
        unfold row_text. rewrite E. simpl. done.
    + destruct (is_value_error e); [|done]. injection H1 as <-. simpl in *. split; [exact Hl|].
      eexists. split; [rewrite Hb; by rewrite <- app_assoc|]. done.
Qed.

Lemma keys_dict_merge {A} (pairs : list (string * A)) k : k ∈ map fst (dict_merge [] pairs) <-> k ∈ map fst pairs.
Proof.
  unfold dict_merge. assert (H : forall acc, k ∈ map fst (fold_left (fun d p => dict_set p.1 p.2 d) pairs acc) <->
    k ∈ map fst acc \/ k ∈ map fst pairs).
  { induction pairs as [|p pairs IH]; intros acc; simpl; [set_solver|]. rewrite IH, keys_dict_set.
    destruct (p.1 ∈? map fst acc) eqn:E; bools; set_solver. }
  rewrite H. set_solver.
Qed.

Lemma by_identity_key_elem identities d k : by_identity_key float_repr identities = Ok d ->
  k ∈ map fst d <-> exists i, i ∈ identities /\ identity_key float_repr i = Ok k.
Proof.
  unfold by_identity_key. intros H. binds H. simplify_eq. rewrite keys_dict_merge. split.
  - intros (p & -> & Hp)%list_elem_of_fmap. destruct (mapR_elem _ _ _ _ E Hp) as (i & Hi & Hk). exists i.
    split; [done|]. by apply bind_Ok in Hk as (k' & -> & [= <-]).
  - intros (i & Hi & Hk). apply mapR_Ok in E. apply list_elem_of_lookup in Hi as (n & Hn).
    destruct (Forall2_lookup_l _ _ _ _ _ E Hn) as (p & Hp & Hpk). rewrite Hk in Hpk. injection Hpk as <-.
    apply list_elem_of_fmap. exists (k, i). split; [done|]. by eapply list_elem_of_lookup_2.
Qed.

(** The rows under the policies in force of the given datasets. *)
Definition current_rows (t : tables) (datasets : list string) : list segment_row :=
  filter (fun r => current r = true /\ sg_dataset r ∈ datasets) (coverage_segments t).

Lemma elem_of_current_rows t datasets r :
  r ∈ filter (fun r => current r = true) (py_sorted (leb_of row_ltb) (filter (fun r => sg_dataset r ∈ datasets) (coverage_segments t)))
  <-> r ∈ current_rows t datasets.
Proof.
  unfold current_rows. rewrite !list_elem_of_filter, elem_of_py_sorted, list_elem_of_filter. tauto.
Qed.

(** What exactness of a comparison means: the required segments and the current rows
    have the same canonical texts, and no two rows are of one segment. *)
Lemma exact_rows t datasets target_end c : compare t datasets target_end = Ok c -> exact c = true ->
  (forall s, s ∈ expected_segments c -> exists row k, row ∈ current_rows t datasets /\
     segment_text s = Ok k /\ row_text row = Ok k) /\
  (forall row, row ∈ current_rows t datasets -> exists s k, s ∈ expected_segments c /\
     segment_text s = Ok k /\ row_text row = Ok k) /\
  (forall row row', row ∈ current_rows t datasets -> row' ∈ current_rows t datasets ->
     row_logical row = row_logical row' -> row = row').
Proof.
  intros Hc He. destruct (compare_Ok _ _ _ _ Hc) as (_ & _ & Hf & _ & _ & expected & st & Hx & Hst & Hm & Hu & Hd & Hb).
  apply exact_spec_lists in He as (E1 & E2 & E3 & _ & E5). rewrite Hm in E1. rewrite Hu in E2. rewrite Hd in E3. rewrite Hb in E5.
  pose proof (proj1 (sorted_difference_nil _ _) E1) as Hexp. pose proof (proj1 (sorted_difference_nil _ _) E2) as Hact.
  apply py_sorted_nil in E5. apply py_sorted_nil, fmap_nil_inv in E3.
  destruct (compare_rows_run _ _ _ Hst) as (Hl & bad & Hbad & Ha). simpl in Hl, Hbad, Ha.
  rewrite E5 in Hbad. destruct (Ha (eq_sym Hbad)) as (added & Hadd & Hrows). rewrite Hadd in *.
  set (rows := filter (fun r => current r = true) _) in *.
  assert (Htext : forall k, k ∈ map fst expected <-> exists s, s ∈ expected_segments c /\ segment_text s = Ok k).
  { intros k. rewrite (by_identity_key_elem _ _ _ Hx). split.
    - intros (i & Hi & Hk). apply list_elem_of_lookup in Hi as (n & Hn).
      destruct (Forall2_lookup_r _ _ _ _ _ Hf Hn) as (s & Hs & Hsi). exists s.
      split; [by eapply list_elem_of_lookup_2|]. unfold segment_text. by rewrite Hsi.
    - intros (s & Hs & Hk). apply list_elem_of_lookup in Hs as (n & Hn).
      destruct (Forall2_lookup_l _ _ _ _ _ Hf Hn) as (i & Hi & Hsi). exists i.
      split; [by eapply list_elem_of_lookup_2|]. unfold segment_text in Hk. by rewrite Hsi in Hk. }
  split_and!.
  - intros s Hs. apply list_elem_of_lookup in Hs as Hs'. destruct Hs' as (n & Hn).
    destruct (Forall2_lookup_l _ _ _ _ _ Hf Hn) as (i & Hi & Hsi).
    assert (Hik : exists k, identity_key float_repr i = Ok k).
    { unfold by_identity_key in Hx. binds Hx. apply mapR_Ok in E.
      destruct (Forall2_lookup_l _ _ _ _ _ E Hi) as (p & _ & Hp). apply bind_Ok in Hp as (k & Hk & _). by exists k. }
    destruct Hik as (k & Hk). assert (Hsk : segment_text s = Ok k) by (unfold segment_text; by rewrite Hsi).
    assert (Hin : k ∈ map fst added) by (apply Hexp, Htext; by exists s).
    apply list_elem_of_fmap in Hin as (p & -> & Hp). apply list_elem_of_lookup in Hp as (m & Hp).
    destruct (Forall2_lookup_r _ _ _ _ _ Hrows Hp) as (row & Hrow & Hrk). exists row, p.1.
    split; [|done]. by eapply elem_of_current_rows, list_elem_of_lookup_2.
  - intros row Hrow. apply elem_of_current_rows in Hrow. apply list_elem_of_lookup in Hrow as (m & Hrow).
    destruct (Forall2_lookup_l _ _ _ _ _ Hrows Hrow) as (p & Hp & Hrk).
    assert (Hin : p.1 ∈ map fst expected).
    { apply Hact, list_elem_of_fmap. exists p. split; [done|]. by eapply list_elem_of_lookup_2. }
    apply Htext in Hin as (s & Hs & Hsk). by exists s, p.1.
  - intros row row' Hr Hr'. rewrite <- elem_of_current_rows in Hr, Hr'.
    apply (grouped_single rows (st_logical_rows st)); [rewrite Hl; apply grouped_all| |done|done].
    apply Forall_forall. intros g Hg. destruct (decide (length g.2 = 1%nat)) as [|Hn]; [done|]. exfalso.
    assert (Hin : g ∈ filter (fun g : (string * string) * list segment_row => length g.2 <> 1%nat) (st_logical_rows st))
      by by apply list_elem_of_filter.
    rewrite E3 in Hin. by apply elem_of_nil in Hin.
Qed.
End Regenerated.

(** ** Soundness of the verification *)

Section Eligible.
Context (capabilities : registry) (contracts : coverage_registry) (sha256_hex : string -> string)
  (float_repr : string -> string) (date_matches : string -> list (Z * Z * Z)) (table_rows : string -> list string)
  (visible_text : string -> string) (verify : CollectionReceipt -> result VerifiedCollectionClosure)
  (attested : CollectionReceipt -> VerifiedCollectionClosure -> Prop) `{!Attests verify attested}.

Abbreviation regenerate := (regenerated_segments capabilities contracts date_matches table_rows visible_text).
Abbreviation identity_of := (canonical_segment_identity contracts sha256_hex).
Abbreviation persisted := (persisted_segment_identity contracts sha256_hex float_repr).
Abbreviation verify_exact := (verify_exact_coverage_complete capabilities contracts sha256_hex float_repr
  date_matches table_rows visible_text verify).

(** The segment is persisted as required and COMPLETE, and the receipt it selects
    is attested, signed for it, and satisfies its policy. *)
Definition certified (t : tables) (required : RequiredCoverageSegment) (c : VerifiedCollectionClosure) : Prop :=
  exists row receipt r i policy,
    row ∈ coverage_segments t /\ sg_status row = "COMPLETE" /\
    identity_of required = Ok i /\ persisted row = Ok i /\
    receipt ∈ collection_receipts t /\ sg_receipt_run_id row = Some (rr_run_id receipt) /\
    receipt_pk receipt = (sg_source row, sg_dataset row, sg_segment_id row, rr_run_id receipt) /\
    receipt_from_row float_repr receipt = Ok r /\ attested r c /\
    coverage_contract_for contracts (seg_dataset required) = Ok policy /\
    require_scope c required (cc_policy_version policy) = Ok tt /\
    exists detail k, evaluate_closure capabilities policy required c = Ok ("COMPLETE", detail, k).

Lemma evaluate_closure_keeps policy required c status detail k :
  evaluate_closure capabilities policy required c = Ok (status, detail, k) -> k = Some c.
Proof.
  unfold evaluate_closure, partial_, failed. intros H.
  repeat match type of H with
  | (if ?b then _ else _) = _ => destruct b
  | _ ≫= _ = _ => let a := fresh in let E := fresh in apply bind_Ok in H as (a & E & H)
  end; by injection H as _ _ <-.
Qed.

Lemma evaluate_with_closure_complete policy required r detail c :
  evaluate_segment_with_closure capabilities verify policy required (Some r) = Ok ("COMPLETE", detail, Some c) ->
  attested r c /\ require_scope c required (cc_policy_version policy) = Ok tt /\
  exists k, evaluate_closure capabilities policy required c = Ok ("COMPLETE", detail, k).
Proof.
  unfold evaluate_segment_with_closure. intros H. apply bind_Ok in H as (p & Hp & H).
  apply (prepare_receipt_Ok verify attested) in Hp as [<- Ha]. simpl in H.
  destruct (pr_closure p) as [c'|]; [|done]. destruct (require_scope _ _ _) as [[]|e] eqn:Es; [|by case_decide].
  pose proof (evaluate_closure_keeps _ _ _ _ _ _ H) as [= <-]. split_and!; eauto.
Qed.

Lemma verify_segment_certified t selected i required c : identity_of required = Ok i ->
  verify_segment capabilities contracts sha256_hex float_repr verify t selected i required = Ok (inl c) ->
  certified t required c.
Proof.
  intros Hi. unfold verify_segment. destruct (row_by_key t selected (storage_key i)) as [row|] eqn:Er; [|done].
  assert (Hrow : row ∈ coverage_segments t).
  { apply last_Some_elem_of, list_elem_of_filter in Er as [_ Er]. by apply list_elem_of_filter in Er as [_ ?]. }
  destruct (persisted row) as [joined|e] eqn:Ep; [|by destruct (is_value_error e)].
  destruct (bool_decide (joined = i)) eqn:Ej; [|done]. bools. subst joined. simpl.
  destruct (sg_status row =s "COMPLETE") eqn:Es; [|done]. bools. simpl.
  destruct (selected_receipt_row t row) as [receipt|] eqn:Ec; [|done]. unfold selected_receipt_row in Ec.
  destruct (sg_receipt_run_id row) as [run|] eqn:Erun; [|done].
  apply head_Some_elem_of, list_elem_of_filter in Ec as [Hpk Hin].
  destruct (receipt ← receipt_from_row float_repr receipt; _) as [[[status detail] closure]|e] eqn:Ev; [|by destruct (is_value_error e)].
  destruct closure as [c'|]; [|done]. destruct (status =s "COMPLETE") eqn:Est; [|done]. bools. subst status.
  intros [= ->]. apply bind_Ok in Ev as (r & Hr & Ev). apply bind_Ok in Ev as (policy & Hpol & Ev).
  apply evaluate_with_closure_complete in Ev as (Ha & Hsc & k & Hk).
  assert (Hrun : rr_run_id receipt = run) by (unfold receipt_pk in Hpk; congruence).
  exists row, receipt, r, i, policy. rewrite Hrun. split_and!; try done. by exists detail, k.
Qed.

Lemma verify_fold t selected pairs st st' :
  foldR (verify_step capabilities contracts sha256_hex float_repr verify t selected) st pairs = Ok st' ->
  ve_invalid st' = [] -> NoDup (ve_selected st) ->
  ve_invalid st = [] /\ exists cs keys, ve_closures st' = ve_closures st ++ cs /\
    Forall2 (fun p c => verify_segment capabilities contracts sha256_hex float_repr verify t selected p.1 p.2 = Ok (inl c)) pairs cs /\
    mapR receipt_identity cs = Ok keys /\ NoDup keys /\ (forall k, k ∈ keys -> k ∉ ve_selected st).
Proof.
  revert st. induction pairs as [|[i required] pairs IH]; intros st H Hinv Hn; simpl in H.
  - injection H as <-. split; [done|]. exists [], []. rewrite app_nil_r.
    split_and!; [done|constructor|done|constructor|set_solver].
  - apply bind_Ok in H as (st1 & H1 & H). apply bind_Ok in H1 as (found & Hfound & H1).
    assert (Hbad : forall reason, st1 = mkVerifying (ve_closures st) (ve_invalid st ++ [(seg_dataset required, seg_id required, reason)])
              (ve_selected st) -> False).
    { intros reason ->. destruct (IH _ H Hinv Hn) as [Hi _]. simpl in Hi. by destruct (ve_invalid st). }
    destruct found as [c|reason]; [|exfalso; injection H1 as H1; by eapply Hbad].
    apply bind_Ok in H1 as (key & Hkey & H1).
    destruct (key ∈? ve_selected st) eqn:Ek; [exfalso; injection H1 as H1; by eapply Hbad|]. bools. injection H1 as <-.
    destruct (IH _ H Hinv) as (Hi & cs & keys & Hcs & Hf & Hk & Hnk & Hnot); [by apply NoDup_cons|]. simpl in *.
    split; [done|]. exists (c :: cs), (key :: keys). rewrite Hcs, <- app_assoc.
    split_and!; [done|by constructor|simpl; by rewrite Hkey; simpl; rewrite Hk| |].
    + apply NoDup_cons. split; [|done]. intros Hin. apply (Hnot key Hin). by left.
    + intros k [->|Hin]%elem_of_cons; [done|]. intros Hs. apply (Hnot k Hin). by right.
Qed.

(** Claim C20.  A verification that finds datasets eligible for COMPLETE has checked
    everything: every segment that the contracts require of them, regenerated at
    the cut-off date, is persisted exactly as required and COMPLETE; it selects a
    stored receipt that an attested closure speaks for, signed for this segment and
    policy version and satisfying the policy; no two segments share a receipt; and
    no other segment is persisted under the policies in force. *)
Theorem eligible_sound t datasets target_end v :
  verify_exact t datasets target_end = Ok v -> complete_eligible v = true ->
  datasets <> [] /\
  (forall d, d ∈ datasets -> exists l, regenerate target_end d = Ok l /\
     Forall (fun s => s ∈ expected_segments (inventory v)) l) /\
  Forall2 (certified t) (expected_segments (inventory v)) (closures v) /\
  (exists keys, mapR receipt_identity (closures v) = Ok keys /\ NoDup keys) /\
  (forall row, row ∈ current_rows contracts sha256_hex t datasets -> exists s k, s ∈ expected_segments (inventory v) /\
     segment_text contracts sha256_hex float_repr s = Ok k /\ row_text contracts sha256_hex float_repr row = Ok k).
Proof.
  unfold verify_exact_coverage_complete. intros H He. apply bind_Ok in H as (c & Hc & H).
  destruct (exact c) eqn:Ex.
  2:{ injection H as <-. unfold complete_eligible in He. simpl in He. by rewrite Ex in He. }
  apply bind_Ok in H as (st & Hst & H). injection H as <-. unfold complete_eligible in He. simpl in *.
  rewrite Ex in He. simpl in He. apply andb_true_iff in He as [Hi _]. apply empty_list_true in Hi.
  destruct (compare_Ok _ _ _ _ _ _ _ _ _ _ _ Hc) as (_ & Hne & Hf & Hs & Hd & _).
  destruct (exact_rows _ _ _ _ _ _ _ _ _ _ _ Hc Ex) as (_ & Hrows & _).
  destruct (verify_fold _ _ _ _ _ Hst Hi) as (_ & cs & keys & Hcs & Hver & Hk & Hn & _); [constructor|]. simpl in Hcs.
  split_and!; [done| | | |exact Hrows].
  - intros d Hin. destruct (Hd d Hin) as (l & Hl). exists l. split; [done|]. apply Forall_forall. intros s Hsl.
    apply Hs. by exists d, l.
  - rewrite Hcs. clear -Hver Hf Attests0. revert Hver. generalize (sorted_set (map seg_dataset (expected_segments c))).
    revert cs. intros cs selected. revert cs.
    induction Hf as [|s i segments identities Hsi _ IH]; intros cs Hver; simpl in Hver.
    + by apply Forall2_nil_inv_l in Hver as ->.
    + apply Forall2_cons_inv_l in Hver as (c' & cs' & Hc' & Hver & ->). constructor; [|by apply IH].
      by eapply verify_segment_certified.
  - exists keys. by rewrite Hcs.
Qed.
End Eligible.

(** ** Receipts read back *)

(** The receipt with the keys of its objects in order. *)
Definition sorted_receipt (r : CollectionReceipt) : CollectionReceipt :=
  let sorted d := match canon (JDict d) with JDict d => d | _ => d end in
  mkReceipt (rc_source r) (rc_dataset r) (rc_segment_id r) (rc_segment_start r) (rc_segment_end r)
    (sorted (rc_expected_scope r)) (rc_expected_items r) (rc_observed_items r) (rc_raw_page_count r)
    (rc_raw_row_count r) (rc_structured_row_count r) (rc_pagination_exhausted r) (sorted (rc_digests r))
    (rc_run_id r) (rc_status r) (rc_error r) (rc_checked_at r).

(** What is recorded is read back: after a receipt is recorded, the table
    holds one row under its source, dataset, segment and run, and that row decodes
    to the receipt, with the keys of its scope and of its digests in order; the
    other rows are as before. *)
Theorem recorded_receipt_reads_back float_repr r c c' u :
  plain (JDict (rc_expected_scope r)) = true -> plain (JDict (rc_digests r)) = true ->
  record_collection_receipt r c = (c', Ok u) ->
  exists row, receipt_pk row = (rc_source r, rc_dataset r, rc_segment_id r, rc_run_id r) /\
    receipt_from_row float_repr row = Ok (sorted_receipt r) /\
    forall old, old ∈ collection_receipts (view c') <->
      old = row \/ (old ∈ collection_receipts (view c) /\ receipt_pk old <> receipt_pk row).
Proof.
  intros Hs Hd. unfold record_collection_receipt. intros H.
  do 2 (apply bind_Ok_action in H as (? & ? & ?%lift_Ok & H); destruct_and?; subst).
  apply bind_Ok_action in H as (? & scope & [-> Hscope]%lift_Ok & H).
  apply bind_Ok_action in H as (? & digests & [-> Hdigests]%lift_Ok & H). unfold canonical_json in *.
  apply bind_Ok in Hscope as (? & _ & [= <-]). apply bind_Ok in Hdigests as (? & _ & [= <-]).
  unfold statement in H. match type of H with context [upsert_receipt ?new _] => exists new end.
  destruct (upsert_receipt _ _) as [[t []]|] eqn:E; [|done]. injection H as <- _.
  unfold upsert_receipt in E. binds E. simplify_eq. split; [reflexivity|]. split.
  - unfold receipt_from_row. cbn [rr_expected_scope rr_digests_json].
    rewrite !json_loads_dumps by done. cbn [mbind result_bind]. rewrite !canon_dict. cbn [mbind result_bind].
    unfold sorted_receipt. rewrite !canon_dict. simpl. by destruct (rc_pagination_exhausted r).
  - intros old. rewrite <- (elem_of_upsert receipt_pk). exact (iff_refl _).
Qed.

(** Exactness is decided for calendar months under the third policy only: for every
    other dataset there is no inventory to compare with (C10). *)
Lemma regenerated_calendar_month capabilities contracts date_matches table_rows visible_text target_end dataset l :
  regenerated_segments capabilities contracts date_matches table_rows visible_text target_end dataset = Ok l ->
  exists policy capability, coverage_contract_for contracts dataset = Ok policy /\
    source_capability_contract_or_none capabilities dataset = Some capability /\
    cc_policy_version policy = Some COLLECTION_COVERAGE_V3 /\ segment_granularity policy = "calendar_month" /\
    cw_grain (collection_window capability) = "calendar_month" /\ l <> [].
Proof.
  unfold regenerated_segments. intros H. apply bind_Ok in H as (policy & Hp & H).
  destruct (coverage_contract_for contracts dataset) as [policy'|e]; [|by case_decide]. injection Hp as ->.
  destruct (source_capability_contract_or_none capabilities dataset) as [capability|]; [|done].
  binds H. ensures. simplify_eq. exists policy, capability.
  repeat match goal with H : _ ∈ DETERMINISTIC_READY_INVENTORY_GRAINS |- _ => apply list_elem_of_singleton in H end.
  split_and!; try done; [congruence|]. by intros ->.
Qed.

(** ** A ledger that is complete

    The sample receipt of a single month, in the production environment, recorded by
    the writer; the segment selects it. *)

Definition ledger_policy : CollectionCoverageContract :=
  mkCoverage "equities_bars_daily" "scope" "2024-01-01" "today" "historical" "business_day" "listed" true true
    "calendar_month" "governed" (Some "collection-coverage/v3") None None None None None None None None None None.

Definition ledger_contract : SourceCapabilityContract := Eval vm_compute in
  match sample_document with
  | JDict d => match contract_from (JDict (dict_set "dataset_id" (JStr "equities_bars_daily")
                 (dict_set "earliest_official_availability" (JStr "2024-01-01") d))) with
               | Ok c => c
               | Err _ => sample_contract
               end
  | _ => sample_contract
  end.

Definition ledger_capabilities : registry := [("equities_bars_daily", ledger_contract)].
Definition ledger_contracts : coverage_registry := [("equities_bars_daily", ledger_policy)].

Definition ledger_segments : list RequiredCoverageSegment := Eval vm_compute in
  match regenerated_segments ledger_capabilities ledger_contracts no_dates no_rows same_text "2024-01-31"
          "equities_bars_daily" with
  | Ok l => l
  | Err _ => []
  end.

Definition ledger_scope : dict := match ledger_segments with s :: _ => seg_scope s | [] => [] end.

Definition ledger_claims : dict := Eval vm_compute in
  dict_set "expected_scope" (JDict ledger_scope)
    (dict_set "expected_items" (JInt 1) (dict_set "observed_items" (JInt 1) sample_claims)).

Definition ledger_receipt : CollectionReceipt := Eval vm_compute in
  mkReceipt "jquants" "equities_bars_daily" "2024-01" "2024-01-01" "2024-01-31" ledger_scope (Some 1) 1 1 5 5 true
    (sample_digests true ledger_claims) 7 "SUCCESS" None "2024-02-01T00:00:00Z".

Definition ledger_verify : CollectionReceipt -> result VerifiedCollectionClosure :=
  production_verify toy_sha256_hex (loads_known [ledger_claims]) toy_schema toy_signature.

Definition no_tables : connection := mkConnection (mkTables [] [] []) None.

Definition complete_row (segment : RequiredCoverageSegment) : result segment_row :=
  r ← required_row ledger_contracts toy_sha256_hex None "2024-02-01T00:00:00+00:00" segment;
  Ok (mkSegmentRow (sg_source r) (sg_dataset r) (sg_segment_id r) (sg_policy_version r) (sg_segment_start r)
       (sg_segment_end r) (sg_expected_scope r) (sg_expected_items r) "COMPLETE" (Some 7) (sg_evaluated_at r)
       (sg_detail_json r)).

Definition ledger_tables : tables := Eval vm_compute in
  mkTables (match mapR complete_row ledger_segments with Ok l => l | Err _ => [] end)
    (collection_receipts (view (record_collection_receipt ledger_receipt no_tables).1)) [].

Abbreviation verify_ledger := (verify_exact_coverage_complete ledger_capabilities ledger_contracts toy_sha256_hex id
  no_dates no_rows same_text ledger_verify).

Definition ledger_verification : ExactCoverageCompleteVerification := Eval vm_compute in
  match verify_ledger ledger_tables ["equities_bars_daily"] "2024-01-31" with
  | Ok v => v
  | Err _ => mkVerification (mkComparison "" [] [] [] [] [] [] [] []) [] []
  end.

Lemma eligible_sound_witness :
  verify_ledger ledger_tables ["equities_bars_daily"] "2024-01-31" = Ok ledger_verification /\
  complete_eligible ledger_verification = true /\ length (closures ledger_verification) = 1%nat /\
  exists keys, mapR receipt_identity (closures ledger_verification) = Ok keys /\ NoDup keys.
Proof.
  assert (H : verify_ledger ledger_tables ["equities_bars_daily"] "2024-01-31" = Ok ledger_verification)
    by (vm_compute; reflexivity).
  assert (He : complete_eligible ledger_verification = true) by (vm_compute; reflexivity).
  split; [exact H|]. split; [exact He|]. split; [vm_compute; reflexivity|].
  destruct (eligible_sound ledger_capabilities ledger_contracts toy_sha256_hex id no_dates no_rows same_text
    ledger_verify _ _ _ _ _ H He) as (_ & _ & _ & Hk & _). exact Hk.
Defined.

(** Without the receipt, with another segment, or with the receipt of another
    segment, it is not. *)
Example ledger_ineligible :
  map (fun t => match verify_ledger t ["equities_bars_daily"] "2024-01-31" with
                | Ok v => Some (complete_eligible v, invalid_segments v, length (unexpected (inventory v)))
                | Err _ => None
                end)
    [mkTables (coverage_segments ledger_tables) [] [];
     mkTables (coverage_segments ledger_tables ++
       map (fun r => mkSegmentRow (sg_source r) (sg_dataset r) "2024-02" (sg_policy_version r) (sg_segment_start r)
              (sg_segment_end r) "{}" None "COMPLETE" (Some 7) "" "") (coverage_segments ledger_tables))
       (collection_receipts ledger_tables) [];
     mkTables [] [] []]
  = [Some (false, [("equities_bars_daily", "2024-01", "selected signed receipt missing")], 0%nat);
     Some (false, [], 1%nat); Some (false, [], 0%nat)].
Proof. by vm_compute. Qed.

Lemma recorded_receipt_reads_back_witness :
  exists row, receipt_pk row = ("jquants", "equities_bars_daily", "2024-01", 7) /\
    receipt_from_row id row = Ok (sorted_receipt ledger_receipt).
Proof.
  destruct (recorded_receipt_reads_back id ledger_receipt no_tables
    (record_collection_receipt ledger_receipt no_tables).1 tt) as (row & Hpk & Hr & _);
    [vm_compute; reflexivity|vm_compute; reflexivity|vm_compute; reflexivity|].
  exists row. split; [exact Hpk|exact Hr].
Defined.
