(* ===== verification/LedgerRefresh.v ===== *)
(** * LedgerRefresh: refreshing and re-aggregating the coverage ledger
    (packages/data_plane/storage/coverage_ledger.py: validation evidence, the
    refresh and its gate, the re-aggregation from segments, summaries)

    A refresh evaluates the required segments of datasets, replaces their rows and
    rewrites the aggregates; the synchronisation rewrites the aggregates from the
    segments that are there.  Both may keep a dataset COMPLETE, and neither can make
    one COMPLETE: that is shown from the honesty of the writers of LedgerStore.v.
    Parameters: the checks of the local facts ([run_coverage]), the source of a
    dataset in the canonical registry, the clock, the date up to which the inventory
    is required, the tables of JSDA facts and of validation runs. *)

From S2P Require Import Prelude PyDate Json JsonText SourceCapability CoverageContract CoveragePlan Receipt CoverageEval Transaction LedgerStore Inventory.

Local Open Scope Z_scope.

(** ** Validation evidence *)

(** storage/coverage.py *)
Record CheckResult := mkCheck {
  ck_check_id : string;
  ck_dataset : option string;
  ck_status : string;
  ck_detail : string;
  ck_metrics : dict;
}.

Definition as_log_dict (r : CheckResult) : json :=
  JDict [("check_id", JStr (ck_check_id r)); ("dataset", opt_json (ck_dataset r)); ("status", JStr (ck_status r));
         ("detail", JStr (ck_detail r)); ("metrics", JDict (ck_metrics r))].

(** The first ten characters of [str(value).strip()], if there are ten. *)
Definition date_prefix_text (value : string) : option string :=
  let text := strip value in
  if (String.length text <? 10)%nat then None else Some (str_take 10 text).

Definition date_prefix (value : json) : option string :=
  match value with JNull => None | _ => date_prefix_text (py_str value) end.

(** [min] and [max] of a list of texts. *)
Definition min_text (l : list string) : option string := py_max (fun a b => String.ltb b a) l.
Definition max_text (l : list string) : option string := py_max String.ltb l.

(** The spans of the closures with retained rows. *)
Definition observed_span (p : PreparedReceipt) : result (list (string * string * Z)) :=
  match pr_closure p with
  | None => Ok []
  | Some c =>
      raw_n ← closure_int c "raw_count";
      if raw_n <=? 0 then Ok []
      else
        start ← closure_str c "segment_start";
        end_ ← closure_str c "segment_end";
        match date_prefix_text start, date_prefix_text end_ with
        | Some a, Some b => Ok [(a, b, raw_n)]
        | _, _ => Ok []
        end
  end.

Definition receipt_observed_window (receipts : list PreparedReceipt)
    : result (option string * option string * Z) :=
  spans ← mapR observed_span receipts;
  let spans := concat spans in
  match min_text (map (fun s => s.1.1) spans), max_text (map (fun s => s.1.2) spans) with
  | Some a, Some b => Ok (Some a, Some b, fold_left (fun n s => n + s.2) spans 0)
  | _, _ => Ok (None, None, 0)
  end.

Definition opt_list {A} (o : option A) : list A := match o with Some a => [a] | None => [] end.

(** One end of the merged window: the hot value itself when it is the extreme one. *)
Definition merged_end (pick : list string -> option string) (hot : json) (receipt : option string) : json :=
  let merged := pick (opt_list (date_prefix hot) ++ opt_list (receipt ≫= date_prefix_text)) in
  match merged with
  | Some m => if negb (bool_decide (hot = JNull)) && bool_decide (date_prefix hot = Some m) then JStr (py_str hot) else JStr m
  | None => JNull
  end.

Definition merge_observed_window (hot_start hot_end : json) (receipt_start receipt_end : option string) : json * json :=
  if empty_list (opt_list (date_prefix hot_start) ++ opt_list (receipt_start ≫= date_prefix_text))
     && empty_list (opt_list (date_prefix hot_end) ++ opt_list (receipt_end ≫= date_prefix_text))
  then (hot_start, hot_end)
  else (merged_end min_text hot_start receipt_start, merged_end max_text hot_end receipt_end).

Definition calendar_days_between (start end_ : string) : result (option Z) :=
  match (a ← fromisoformat (str_take 10 start); b ← fromisoformat (str_take 10 end_); Ok (b - a)) with
  | Ok n => Ok (Some n)
  | Err e => if decide (exn_kind e = ValueError) then Ok None else Err e
  end.

(** A C8 result computed from the end of the receipts. *)
Definition receipt_c8 (dataset receipt_hi reference : string) (days freshness_days : Z) (hot_hi : json) : CheckResult :=
  let fresh := days <=? freshness_days in
  mkCheck "C8" (Some dataset) (if fresh then "pass" else "fail")
    (if fresh then show_Z days +:+ " day(s) since latest event_time"
     else "stale: " +:+ show_Z days +:+ " day(s) > " +:+ show_Z freshness_days)
    [("latest_event_time", JStr receipt_hi); ("reference", JStr reference); ("max_days", JInt freshness_days);
     ("days_lag", JInt days); ("source", JStr "receipt_observed_end"); ("hot_latest_event_time", hot_hi)].

Definition is_c8_of (dataset : string) (r : CheckResult) : bool :=
  (ck_check_id r =s "C8") && (default "" (ck_dataset r) =s dataset).

(** The hot C8 is kept when it is not older than the receipts. *)
Definition c8_replaced (receipt_hi : string) (r : CheckResult) : bool :=
  match date_prefix (getv "latest_event_time" (ck_metrics r)) with
  | Some hot => String.ltb hot receipt_hi
  | None => true
  end.

Definition apply_receipt_freshness_c8 (evidence : list CheckResult) (dataset : string) (receipt_end : option string)
    (reference : string) (freshness_days : Z) : result (list CheckResult) :=
  match receipt_end with
  | None => Ok evidence
  | Some receipt_end =>
      match date_prefix_text receipt_end with
      | None => Ok evidence
      | Some receipt_hi =>
          let ref := default (str_take 10 reference) (date_prefix_text reference) in
          days ← calendar_days_between receipt_hi ref;
          match days with
          | None => Ok evidence
          | Some days =>
              let rescore r :=
                if is_c8_of dataset r && c8_replaced receipt_hi r
                then receipt_c8 dataset receipt_hi ref days freshness_days (getv "latest_event_time" (ck_metrics r))
                else r in
              let replaced := existsb (fun r => is_c8_of dataset r && c8_replaced receipt_hi r) evidence in
              Ok (map rescore evidence ++
                  if replaced then [] else [receipt_c8 dataset receipt_hi ref days freshness_days JNull])
          end
      end
  end.

(** [checks.get(id)], the last result with the id. *)
Definition check (id : string) (results : list CheckResult) : option CheckResult :=
  last (filter (fun r => ck_check_id r = id) results).

Definition validation := (string * Z * json * json)%type.

(** [int(value)] of a decoded value. *)
Definition int_of (v : json) : result Z :=
  match v with
  | JInt n => Ok n
  | JBool b => Ok (if b then 1 else 0)
  | JStr _ | JFloat _ => raise OutsideModel "int() of text or float"
  | JNull | JList _ | JDict _ => raise TypeError "int() argument"
  end.

Definition dataset_status (results : list CheckResult) : result validation :=
  row_count ← (match check "C3" results with
               | Some c3 => match get "row_count" (ck_metrics c3) with Some v => int_of v | None => Ok 0 end
               | None => Ok 0
               end);
  let observed name := match check "C4" results with Some c4 => getv name (ck_metrics c4) | None => JNull end in
  let verdict status := Ok (status, row_count, observed "event_time_min", observed "event_time_max") in
  if existsb (fun r => (ck_check_id r ∈? ["C1"; "C2"; "C3"; "C4"; "C5"]) && (ck_status r =s "fail")) results
  then verdict "FAILED"
  else if match check "C8" results with Some f => ck_status f =s "fail" | None => false end then verdict "STALE"
  else
    match check "C2" results with
    | Some c2 =>
        if negb (bool_decide (getv "source" (ck_metrics c2) = JStr "ingestion_validation")) then verdict "UNKNOWN"
        else if negb (bool_decide (getv "validation_status" (ck_metrics c2) = JStr "pass")) then verdict "FAILED"
        else verdict "COMPLETE"
    | None => verdict "UNKNOWN"
    end.

(** The rows of a table of JSDA facts: event time and availability. *)
Definition facts := list (option string * option string).

Definition JSDA_FACT_TABLES : list (string * string) :=
  [("jsda_otc_bond_reference_prices", "jsda_otc_bond_reference_prices");
   ("jsda_tokyo_repo_rates", "jsda_repo_rates");
   ("jsda_corporate_bond_transactions", "jsda_corporate_bond_transactions")].

(** [fact_table name] is [None] when the table cannot be read. *)
Definition jsda_validation_status (fact_table : string -> option facts) (dataset : string) : validation :=
  match lookup_str dataset JSDA_FACT_TABLES ≫= fact_table with
  | None => ("UNKNOWN", 0, JNull, JNull)
  | Some rows =>
      let events := omap fst rows in
      let missing_available := filter (fun r : option string * option string => default "" r.2 = "") rows in
      ((if empty_list missing_available then "COMPLETE" else "FAILED"), Z.of_nat (length rows),
       opt_json (min_text events), opt_json (max_text events))
  end.

(** A row of [ingestion_validation]. *)
Record validation_run := mkRun {
  vr_dataset : string;
  vr_started_at : string;
  vr_id : Z;
  vr_run_id : option Z;
}.

(** [ORDER BY started_at DESC, id DESC LIMIT 1] *)
Definition latest_run_id (runs : list validation_run) (dataset : string) : option Z :=
  py_max (lex vr_started_at String.compare (fun a b => vr_id a <? vr_id b))
    (filter (fun r => vr_dataset r = dataset) runs) ≫= vr_run_id.

(** ** Rows for the writers *)

Definition pyval_of_json (v : json) : pyval :=
  match v with
  | JNull => PNone
  | JBool b => PBool b
  | JInt n => PInt n
  | JStr s => PStr s
  | JFloat _ => PFloat
  | JList _ | JDict _ => PObject
  end.

Definition opt_pyint (o : option Z) : pyval := match o with Some n => PInt n | None => PNone end.
Definition opt_pystr (o : option string) : pyval := match o with Some s => PStr s | None => PNone end.

(** A segment as evaluated, and the row it is written as. *)
Record evaluated_segment := mkEvaluatedSegment {
  es_required : RequiredCoverageSegment;
  es_policy_version : option string;
  es_expected_scope : string;
  es_status : string;
  es_receipt_run_id : option Z;
  es_evaluated_at : string;
  es_detail_json : string;
}.

Definition segment_pyrow (e : evaluated_segment) : pyrow :=
  let s := es_required e in
  [("source", PStr (seg_source s)); ("dataset", PStr (seg_dataset s)); ("segment_id", PStr (seg_id s));
   ("policy_version", opt_pystr (es_policy_version e)); ("segment_start", PStr (seg_start s));
   ("segment_end", PStr (seg_end s)); ("expected_scope", PStr (es_expected_scope e));
   ("expected_items", opt_pyint (seg_expected_items s)); ("status", PStr (es_status e));
   ("receipt_run_id", opt_pyint (es_receipt_run_id e)); ("evaluated_at", PStr (es_evaluated_at e));
   ("detail_json", PStr (es_detail_json e))].

(** An aggregate row of a refresh: the policy's fields and the computed ones. *)
Record refreshed := mkRefreshed {
  rf_dataset : string;
  rf_policy : CollectionCoverageContract;
  rf_status : string;
  rf_observed_start : json;
  rf_observed_end : json;
  rf_row_count : Z;
  rf_source_run_id : option Z;
  rf_evaluated_at : string;
  rf_detail_json : string;
}.

Definition with_gate (r : refreshed) (status detail_json : string) : refreshed :=
  mkRefreshed (rf_dataset r) (rf_policy r) status (rf_observed_start r) (rf_observed_end r) (rf_row_count r)
    (rf_source_run_id r) (rf_evaluated_at r) detail_json.

Definition refreshed_pyrow (r : refreshed) : pyrow :=
  let p := rf_policy r in
  [("dataset", PStr (rf_dataset r)); ("collection_scope", PStr (collection_scope p));
   ("history_target_start", PStr (history_target_start p));
   ("history_target_end_rule", PStr (history_target_end_rule p)); ("coverage_mode", PStr (coverage_mode p));
   ("expected_frequency", PStr (expected_frequency p)); ("universe_rule", PStr (universe_rule p));
   ("raw_retention_required", PBool (raw_retention_required p));
   ("structured_reconciliation_required", PBool (structured_reconciliation_required p));
   ("governance_tier", PStr (governance_tier p)); ("status", PStr (rf_status r));
   ("policy_version", opt_pystr (cc_policy_version p)); ("observed_start", pyval_of_json (rf_observed_start r));
   ("observed_end", pyval_of_json (rf_observed_end r)); ("row_count", PInt (rf_row_count r));
   ("source_run_id", opt_pyint (rf_source_run_id r)); ("evaluated_at", PStr (rf_evaluated_at r));
   ("detail_json", PStr (rf_detail_json r))].

(** ** The gate of a refresh *)

Section Ledger.
Variable capabilities : registry.
Variable contracts : coverage_registry.
Variable sha256_hex : string -> string.
Variable float_repr : string -> string.
Variable date_matches : string -> list (Z * Z * Z).
Variable table_rows : string -> list string.
Variable visible_text : string -> string.
Variable verify : CollectionReceipt -> result VerifiedCollectionClosure.

Abbreviation verify_exact := (verify_exact_coverage_complete capabilities contracts sha256_hex float_repr
  date_matches table_rows visible_text verify).

(** What exact verification says of one dataset, as its callers report it. *)
Inductive verdict :=
  | Pending (reason : string)
  | Mismatch (v : ExactCoverageCompleteVerification)
  | Verified (v : ExactCoverageCompleteVerification)
  | Invalid (v : ExactCoverageCompleteVerification).

Definition exact_verdict (t : tables) (dataset target_end : string) : result verdict :=
  match verify_exact t [dataset] target_end with
  | Err e => if decide (exn_kind e = CoverageInventoryAuthorityUnavailable) then Ok (Pending (exn_msg e)) else Err e
  | Ok v => Ok (if negb (exact (inventory v)) then Mismatch v else if complete_eligible v then Verified v else Invalid v)
  end.

Definition inventory_status (v : verdict) : string :=
  match v with Pending _ => "PENDING" | Mismatch _ => "MISMATCH" | _ => "EXACT" end.

Definition receipt_status (v : verdict) : string :=
  match v with Verified _ => "VERIFIED" | Invalid _ => "INVALID" | _ => "NOT_EVALUATED" end.

Definition verdict_blocker (v : verdict) : option string :=
  match v with
  | Pending _ => Some "inventory_authority_pending"
  | Mismatch _ => Some "inventory_mismatch"
  | Invalid _ => Some "selected_receipt_invalid"
  | Verified _ => None
  end.

Definition verdict_detail (target_end : string) (v : verdict) : dict :=
  match v with
  | Pending reason => [("target_end", JStr target_end); ("reason", JStr reason)]
  | Mismatch v | Verified v | Invalid v => verification_detail v
  end.

(** The detail of a row: [json.loads] of its text, an empty object when it is not
    one. *)
Definition detail_of_text (text : string) : result dict :=
  match json_loads float_repr (if text =s "" then "{}" else text) with
  | Ok (JDict d) => Ok d
  | Ok _ => Ok []
  | Err e => if is_value_error e then Ok [] else Err e
  end.

(** [dict(value or {})] *)
Definition dict_of (value : json) : result dict :=
  match or_ value (JDict []) with
  | JDict d => Ok d
  | JList _ => raise OutsideModel "dict() of a list"
  | JStr _ => raise ValueError "dictionary update sequence element has the wrong length"
  | _ => raise TypeError "object is not iterable"
  end.

(** The prior aggregate: its status and policy version. *)
Definition prior := (string * string)%type.

(** What is in the way of a row's COMPLETE: it keeps it only when the dataset was
    COMPLETE before under the same policy, and exact verification finds it eligible. *)
Definition current_version (row : refreshed) : string := default "None" (cc_policy_version (rf_policy row)).

Definition gate_blocker (t : tables) (before : option prior) (inventory_target_end : string) (row : refreshed)
    : result (option string * option verdict) :=
  if negb (rf_status row =s "COMPLETE") then Ok (Some "evaluation_not_complete", None)
  else
    match before with
    | Some (status, version) =>
        if negb (status =s "COMPLETE") then Ok (Some "transition_authority_required", None)
        else if negb (version =s current_version row) then Ok (Some "prior_aggregate_policy_mismatch", None)
        else v ← exact_verdict t (rf_dataset row) inventory_target_end; Ok (verdict_blocker v, Some v)
    | None => Ok (Some "transition_authority_required", None)
    end.

Definition gate_row (t : tables) (prior_coverage : string -> option prior) (inventory_target_end : string)
    (row : refreshed) : result refreshed :=
  let before := prior_coverage (rf_dataset row) in
  '(blocker, found) ← gate_blocker t before inventory_target_end row;
  let status := if (rf_status row =s "COMPLETE") && present blocker then "PARTIAL" else rf_status row in
  detail ← detail_of_text (rf_detail_json row);
  coverage_detail ← dict_of (getv "coverage_v2" detail);
  let gate :=
    [("mode", JStr "generic_refresh_c10_transition_authority_unavailable"); ("computed_status", JStr (rf_status row));
     ("persisted_status", JStr status); ("prior_status", opt_json (fst <$> before));
     ("prior_policy_version", opt_json (snd <$> before)); ("current_policy_version", JStr (current_version row));
     ("inventory_target_end", JStr inventory_target_end);
     ("inventory_status", JStr (match found with Some v => inventory_status v | None => "NOT_EVALUATED" end));
     ("selected_receipt_status", JStr (match found with Some v => receipt_status v | None => "NOT_EVALUATED" end));
     ("blocker", opt_json blocker);
     ("inventory", match found with Some v => JDict (verdict_detail inventory_target_end v) | None => JNull end)] in
  detail_json ← canonical_json
    (JDict (dict_set "coverage_v2" (JDict (dict_set "aggregate_complete_gate" (JDict gate) coverage_detail)) detail));
  Ok (with_gate row status detail_json).

Definition apply_refresh_complete_gate (t : tables) (rows : list refreshed) (prior_coverage : string -> option prior)
    (inventory_target_end : string) : result (list refreshed) :=
  mapR (gate_row t prior_coverage inventory_target_end) rows.

(** ** Evaluating the segments of a dataset *)

(** The rows of the policy in force, by segment id; of rows with one id the last. *)
Definition inventory_of (t : tables) (policy : CollectionCoverageContract) (dataset : string)
    : list (string * segment_row) :=
  dict_merge [] (map (fun r => (sg_segment_id r, r))
    (filter (fun r => sg_dataset r = dataset /\ Some (sg_policy_version r) = cc_policy_version policy)
      (coverage_segments t))).

(** The receipts of the datasets, oldest first. *)
Definition receipt_row_ltb : receipt_row -> receipt_row -> bool :=
  lex rr_checked_at String.compare (fun a b => rr_run_id a <? rr_run_id b).

Definition receipts_of (t : tables) (selected : list string) : result (list CollectionReceipt) :=
  mapR (receipt_from_row float_repr)
    (py_sorted (leb_of receipt_row_ltb) (filter (fun r => rr_dataset r ∈ selected) (collection_receipts t))).

Definition required_ltb : RequiredCoverageSegment -> RequiredCoverageSegment -> bool :=
  lex seg_start String.compare (fun a b => String.ltb (seg_id a) (seg_id b)).

(** Segments whose days only an archive knows: those already in the inventory, up
    to the target or complete; all other segments are planned, with the expected
    items the inventory has for them. *)
Definition required_of (policy : CollectionCoverageContract) (inventory : list (string * segment_row))
    (source target_end : string) (index_text : option string) : result (list RequiredCoverageSegment) :=
  let domain := official_domain_for (source_capability_for capabilities (cc_dataset_id policy)) in
  if (segment_granularity policy ∈? ["official_archive_day"; "source_time_series_file"])
     && negb (uses_official_archive_index policy domain)
  then
    required ← mapR (required_from_inventory float_repr)
      (filter (fun r => sg_source r = source /\
          (String.leb (sg_segment_start r) target_end = true \/ sg_status r = "COMPLETE")) (map snd inventory));
    Ok (py_sorted (leb_of required_ltb) required)
  else
    let plan expected := plan_required_segments date_matches table_rows visible_text capabilities policy target_end
                           source expected index_text None in
    base ← plan None;
    expected ← mapR (fun s =>
      scope ← canonical_json (JDict (seg_scope s));
      match lookup_str (seg_id s) inventory with
      | Some r =>
          if (sg_segment_start r =s seg_start s) && (sg_segment_end r =s seg_end s)
             && (sg_expected_scope r =s scope)
          then Ok (match sg_expected_items r with Some n => [(seg_id s, Some n)] | None => [] end)
          else Ok []
      | None => Ok []
      end) base;
    plan (Some (concat expected)).

(** Whether the inventory has the segment as complete. *)
Definition was_complete (inventory : list (string * segment_row)) (required : RequiredCoverageSegment) : bool :=
  match lookup_str (seg_id required) inventory with Some r => sg_status r =s "COMPLETE" | None => false end.

Definition sticky_detail (detail : dict) (run : Z) : dict :=
  dict_merge detail
    [("sticky_complete", JBool true); ("demotion_blocked", getv "reason" detail);
     ("reason", JStr "sticky COMPLETE: eligible SUCCESS receipt retained"); ("sticky_receipt_run_id", JInt run)].

Abbreviation decision := (string * dict * option CollectionReceipt * option VerifiedCollectionClosure)%type (only parsing).

(** What decides a segment: the best receipt, but a segment that was complete stays
    so while a receipt that completes it is retained. *)
Definition deciding_receipt (policy : CollectionCoverageContract) (inventory : list (string * segment_row))
    (candidates : list PreparedReceipt) (required : RequiredCoverageSegment) : result decision :=
  best ← best_receipt candidates;
  '(status, detail, closure) ← evaluate_prepared_segment capabilities policy required best;
  let decided : decision := (status, detail, pr_receipt <$> best, closure) in
  if (status =s "COMPLETE") || negb (was_complete inventory required) then Ok decided
  else
    sticky ← latest_complete_receipt_for_required capabilities candidates policy required;
    match sticky with
    | None => Ok decided
    | Some (receipt, c) =>
        run ← closure_int c "run_id";
        Ok ("COMPLETE", sticky_detail detail run, Some receipt, Some c)
    end.

(** The run the row selects: the one the closure names if it is complete. *)
Definition selected_run (decided : decision) : result (option Z) :=
  let '(status, _, receipt, closure) := decided in
  if status =s "COMPLETE" then
    match closure with
    | Some c => n ← closure_int c "run_id"; Ok (Some n)
    | None => raise AttributeError "run_id"
    end
  else Ok (rc_run_id <$> receipt).

Definition evaluate_required (policy : CollectionCoverageContract) (inventory : list (string * segment_row))
    (indexed : list (segment_key * PreparedReceipt)) (evaluated_at : string) (required : RequiredCoverageSegment)
    : result evaluated_segment :=
  decided ← deciding_receipt policy inventory (indexed_at indexed (required_key required)) required;
  run ← selected_run decided;
  let '(status, detail, _, _) := decided in
  scope ← canonical_json (JDict (seg_scope required));
  detail_json ← canonical_json (JDict detail);
  Ok (mkEvaluatedSegment required (cc_policy_version policy) scope status run evaluated_at detail_json).

(** ** Refreshing *)

(** What a refresh reads besides the ledger: the sources of the canonical registry,
    the checks of the local facts, the JSDA facts, the validation runs, the clock
    and the date up to which the inventory is required. *)
Record refresh_environment := mkEnvironment {
  env_source : string -> result string;
  env_run_coverage : list string -> string -> Z -> result (list CheckResult);
  env_fact_table : string -> option facts;
  env_runs : list validation_run;
  env_evaluated_at : string;
  env_today : string;
  env_inventory_target_end : result string;
}.

Variable env : refresh_environment.

(** [_coverage_source] *)
Definition coverage_source (dataset : string) : result string :=
  canonical ← env_source env dataset; receipt_source_for_canonical_source canonical.

(** The arguments of a refresh. *)
Record refresh_arguments := mkArguments {
  arg_datasets : option (list string);
  arg_today : option string;
  arg_freshness_days : Z;
  arg_index_text : option string;
}.

Definition arg_target_end (args : refresh_arguments) : string :=
  match arg_today args with
  | Some today => if today =s "" then env_today env else today
  | None => env_today env
  end.

(** The detail of an aggregate. *)
Definition status_counts_json (statuses : list string) : json :=
  JDict (map (fun s => (s, JInt (occurrences s statuses)))
    (filter (fun s => s ∈ statuses) (sorted_strings COVERAGE_STATUSES))).

Definition refresh_detail (evidence global_failures : list CheckResult) (statuses : list string) (target_end : string)
    (window : option string * option string * Z) : dict :=
  let '(receipt_start, receipt_end, receipt_raw_rows) := window in
  [("checks", JList (map as_log_dict evidence));
   ("global_failures", JList (map as_log_dict global_failures));
   ("coverage_v2", JDict
     [("required_segments", JInt (Z.of_nat (length statuses))); ("status_counts", status_counts_json statuses);
      ("target_end", JStr target_end)]);
   ("observed_window", JDict
     [("receipt_start", opt_json receipt_start); ("receipt_end", opt_json receipt_end);
      ("receipt_raw_rows", JInt receipt_raw_rows);
      ("source", JStr (if present receipt_start || present receipt_end then "receipt_union_hot" else "hot_c4_only"))])].

(** The status of the aggregate: validation, then the segments, and failures of the
    whole store for J-Quants. *)
Definition refreshed_status (source validation_status : string) (global_failures : list CheckResult)
    (statuses : list string) : string :=
  if (source =s "jquants") && negb (empty_list global_failures) then "FAILED"
  else if validation_status =s "COMPLETE" then aggregate_statuses statuses else validation_status.

(** What a refresh has computed so far: the evidence by dataset (rescored as it
    goes), the aggregates and the segments. *)
Record refresh_state := mkRefresh {
  rs_evidence : list CheckResult;
  rs_rows : list refreshed;
  rs_segments : list evaluated_segment;
}.

Definition refresh_dataset (args : refresh_arguments) (t : tables) (all_receipts : list CollectionReceipt)
    (global_failures : list CheckResult) (st : refresh_state) (dataset : string) : result refresh_state :=
  let target_end := arg_target_end args in
  policy ← coverage_contract_for contracts dataset;
  source ← coverage_source dataset;
  let receipts := filter (fun r => rc_dataset r = dataset) all_receipts in
  prepared ← prepare_receipts verify receipts;
  indexed ← index_prepared_receipts prepared;
  window ← receipt_observed_window prepared;
  let '(receipt_start, receipt_end, _) := window in
  let own := filter (fun r => ck_dataset r = Some dataset) (rs_evidence st) in
  evidence ← (if source =s "jquants"
              then apply_receipt_freshness_c8 own dataset receipt_end target_end (arg_freshness_days args)
              else Ok own);
  '(validation_status, count, observed_start, observed_end) ←
    (if source =s "jsda" then Ok (jsda_validation_status (env_fact_table env) dataset) else dataset_status evidence);
  let '(observed_start, observed_end) :=
    if present receipt_start || present receipt_end
    then merge_observed_window observed_start observed_end receipt_start receipt_end
    else (observed_start, observed_end) in
  let inventory := inventory_of t policy dataset in
  required ← required_of policy inventory source target_end (arg_index_text args);
  segments ← mapR (evaluate_required policy inventory indexed (env_evaluated_at env)) required;
  let statuses := map es_status segments in
  let status := refreshed_status source validation_status global_failures statuses in
  _ ← ensure (status ∈? COVERAGE_STATUSES) AssertionError "unexpected coverage status";
  detail_json ← canonical_json (JDict (refresh_detail evidence global_failures statuses target_end window));
  let run := if source =s "jquants" then latest_run_id (env_runs env) dataset else py_max Z.ltb (map rc_run_id receipts) in
  Ok (mkRefresh (filter (fun r => ck_dataset r <> Some dataset) (rs_evidence st) ++ evidence)
        (rs_rows st ++ [mkRefreshed dataset policy status observed_start observed_end count run
                          (env_evaluated_at env) detail_json])
        (rs_segments st ++ segments)).

(** The aggregate a refresh finds: its status and policy version. *)
Definition prior_of (t : tables) (dataset : string) : option prior :=
  (fun r => (dc_status r, dc_policy_version r)) <$> head (filter (fun r => dc_dataset r = dataset) (dataset_coverage t)).

(** What a refresh computes from the tables before it writes. *)
Definition compute_refresh (args : refresh_arguments) (selected : list string) (t : tables) : result refresh_state :=
  sources ← mapR (fun d => s ← coverage_source d; Ok (d, s)) selected;
  let jquants := map fst (filter (fun p : string * string => p.2 = "jquants") sources) in
  evidence ← (if empty_list jquants then Ok []
              else env_run_coverage env jquants (arg_target_end args) (arg_freshness_days args));
  let global_failures := filter (fun r => ck_dataset r = None /\ ck_status r = "fail") evidence in
  receipts ← receipts_of t selected;
  foldR (refresh_dataset args t receipts global_failures) (mkRefresh evidence [] []) selected.

(** The rows of the datasets under the policies in force, which are replaced. *)
Definition delete_key (dataset : string) : result (list pyval) :=
  source ← coverage_source dataset;
  policy ← coverage_contract_for contracts dataset;
  Ok [PStr source; PStr dataset; opt_pystr (cc_policy_version policy)].

Definition refresh_selected (args : refresh_arguments) : list string :=
  default (map cc_dataset_id (all_coverage_contracts contracts)) (arg_datasets args).

Definition refresh_coverage_ledger_in_transaction (args : refresh_arguments) : action (list refreshed) :=
  let selected := refresh_selected args in
  _ ← lift (ensure (negb (empty_list selected)) ValueError "datasets must not be empty");
  _ ← lift (mapR (coverage_contract_for contracts) selected);
  inventory_target_end ← lift (env_inventory_target_end env);
  t ← select id;
  computed ← lift (compute_refresh args selected t);
  delete_keys ← lift (mapR delete_key selected);
  _ ← persist_refreshed_coverage delete_keys (map segment_pyrow (rs_segments computed)) [];
  replaced ← select id;
  rows ← lift (apply_refresh_complete_gate replaced (rs_rows computed) (prior_of t) inventory_target_end);
  _ ← persist_refreshed_coverage [] [] (map refreshed_pyrow (filter (fun r => rf_status r <> "COMPLETE") rows));
  _ ← each (fun r => preserve_existing_complete_coverage_row (refreshed_pyrow r))
        (filter (fun r => rf_status r = "COMPLETE") rows);
  mret rows.

Definition refresh_coverage_ledger (args : refresh_arguments) : action (list refreshed) :=
  owning (refresh_coverage_ledger_in_transaction args).
End Ledger.

(** ** What makes a segment COMPLETE *)

Section Sticky.
Context (capabilities : registry) (policy : CollectionCoverageContract) (required : RequiredCoverageSegment).

(** A candidate that completes the segment on its own, and the run it names. *)
Definition completes (candidates : list PreparedReceipt) (run : Z) : Prop := exists p detail c,
  p ∈ candidates /\ evaluate_prepared_segment capabilities policy required (Some p) = Ok ("COMPLETE", detail, Some c) /\
  closure_int c "run_id" = Ok run.

Lemma latest_complete_Some candidates receipt c :
  latest_complete_receipt_for_required capabilities candidates policy required = Ok (Some (receipt, c)) ->
  exists p detail, p ∈ candidates /\ pr_receipt p = receipt /\
    evaluate_prepared_segment capabilities policy required (Some p) = Ok ("COMPLETE", detail, Some c).
Proof.
  unfold latest_complete_receipt_for_required. intros H. binds H. injection H as H.
  apply fmap_Some in H as ([k item] & H & [= <-]). apply py_max_elem in H.
  destruct (mapR_elem _ _ _ _ E0 H) as (item' & Hin & Hk). apply bind_Ok in Hk as (k' & _ & [= <- ->]).
  apply list_elem_of_In, in_concat in Hin as (l & Hl & Hin). apply list_elem_of_In in Hl, Hin.
  destruct (mapR_elem _ _ _ _ E Hl) as (p & Hp & Hc). unfold complete_candidate in Hc.
  apply bind_Ok in Hc as ([[status detail] [c'|]] & He & Hc).
  - destruct (status =s "COMPLETE") eqn:Es; bools; simplify_eq.
    + apply list_elem_of_singleton in Hin. simplify_eq. by exists p, detail.
    + by apply elem_of_nil in Hin.
  - injection Hc as <-. by apply elem_of_nil in Hin.
Qed.

Lemma latest_complete_None candidates run :
  latest_complete_receipt_for_required capabilities candidates policy required = Ok None -> ~ completes candidates run.
Proof.
  unfold latest_complete_receipt_for_required. intros H (p & detail & c & Hp & He & _). binds H. injection H as H.
  apply fmap_None, py_max_None in H as ->. apply mapR_Ok, Forall2_length in E0. simpl in E0.
  apply nil_length_inv in E0. apply mapR_Ok in E. apply list_elem_of_lookup in Hp as [i Hi].
  destruct (Forall2_lookup_l _ _ _ _ _ E Hi) as (l & Hl & Hc). unfold complete_candidate in Hc. rewrite He in Hc.
  simpl in Hc. injection Hc as <-. apply list_elem_of_lookup_2, list_elem_of_In in Hl.
  assert (Hin : In (pr_receipt p, c) (concat a)) by (apply in_concat; exists [(pr_receipt p, c)]; split; [done|by left]).
  rewrite E0 in Hin. done.
Qed.

(** A segment is COMPLETE only by a receipt of its own that completes it,
    whose run its row selects; and a segment that was COMPLETE stays so as long as
    any of its receipts completes it, whatever other receipts say. *)
Theorem sticky_complete inventory indexed now e :
  evaluate_required capabilities policy inventory indexed now required = Ok e ->
  let candidates := indexed_at indexed (required_key required) in
  (es_status e = "COMPLETE" -> exists run, es_receipt_run_id e = Some run /\ completes candidates run) /\
  (was_complete inventory required = true -> (exists run, completes candidates run) -> es_status e = "COMPLETE").
Proof.
  unfold evaluate_required. intros H. set (candidates := indexed_at indexed (required_key required)) in *. cbv zeta.
  apply bind_Ok in H as ([[[status detail] receipt] closure] & Hd & H). apply bind_Ok in H as (run & Hrun & H).
  binds H. injection H as <-. simpl. unfold deciding_receipt in Hd.
  apply bind_Ok in Hd as (best & Hb & Hd). apply bind_Ok in Hd as ([[status0 detail0] closure0] & He & Hd).
  destruct ((status0 =s "COMPLETE") || negb (was_complete inventory required)) eqn:Eg.
  - injection Hd as <- <- <- <-. split.
    + intros ->. simpl in Hrun. destruct closure0 as [c|]; [|done]. apply bind_Ok in Hrun as (n & Hn & [= <-]).
      exists n. split; [done|]. destruct best as [p|]; [|done]. apply best_receipt_Ok in Hb as [Hin _].
      by exists p, detail0, c.
    + intros Hw _. rewrite Hw in Eg. simpl in Eg. rewrite orb_false_r in Eg. by bools.
  - apply bind_Ok in Hd as ([[r c]|] & Hs & Hd).
    + apply bind_Ok in Hd as (n & Hn & [= <- <- <- <-]). simpl in Hrun. rewrite Hn in Hrun. injection Hrun as <-.
      split; [|done]. intros _. exists n. split; [done|].
      apply latest_complete_Some in Hs as (p & d & Hp & _ & Hev). by exists p, d, c.
    + injection Hd as <- <- <- <-. bools. split; [done|]. intros _ [n Hn]. by apply (latest_complete_None _ n) in Hs.
Qed.
End Sticky.

(** ** What keeps a dataset COMPLETE *)

Section RefreshProofs.
Context (capabilities : registry) (contracts : coverage_registry) (sha256_hex float_repr : string -> string)
  (date_matches : string -> list (Z * Z * Z)) (table_rows : string -> list string) (visible_text : string -> string)
  (verify : CollectionReceipt -> result VerifiedCollectionClosure) (env : refresh_environment).

Abbreviation verify_exact := (verify_exact_coverage_complete capabilities contracts sha256_hex float_repr
  date_matches table_rows visible_text verify).
Abbreviation verdict_of := (exact_verdict capabilities contracts sha256_hex float_repr date_matches table_rows
  visible_text verify).
Abbreviation gate := (gate_row capabilities contracts sha256_hex float_repr date_matches table_rows visible_text verify).
Abbreviation refresh_in := (refresh_coverage_ledger_in_transaction capabilities contracts sha256_hex float_repr
  date_matches table_rows visible_text verify env).
Abbreviation refresh := (refresh_coverage_ledger capabilities contracts sha256_hex float_repr date_matches table_rows
  visible_text verify env).
Abbreviation compute := (compute_refresh capabilities contracts float_repr date_matches table_rows
  visible_text verify env).

#[export] Instance honest_refresh args : Honest (refresh args).
Proof.
  unfold refresh_coverage_ledger, refresh_coverage_ledger_in_transaction. apply honest_owning. cbv zeta. apply _.
Qed.

#[export] Instance uncommitted_refresh args : Uncommitted (refresh_in args).
Proof. unfold refresh_coverage_ledger_in_transaction. cbv zeta. apply _. Qed.

(** Exact verification reads segments and receipts only. *)
Lemma verify_exact_only t t' datasets target_end : coverage_segments t' = coverage_segments t ->
  collection_receipts t' = collection_receipts t -> verify_exact t' datasets target_end = verify_exact t datasets target_end.
Proof. destruct t, t'. simpl. by intros -> ->. Qed.

Lemma verified_verdict t dataset target_end v : verdict_of t dataset target_end = Ok v -> verdict_blocker v = None ->
  exists w, verify_exact t [dataset] target_end = Ok w /\ complete_eligible w = true.
Proof.
  unfold exact_verdict. destruct (verify_exact t [dataset] target_end) as [w|e]; [|by case_decide; [intros [= <-]|]].
  intros [= <-]. destruct (negb (exact (inventory w))); [done|]. destruct (complete_eligible w) eqn:E; [|done].
  intros _. by exists w.
Qed.

(** What a row that leaves the gate COMPLETE has passed. *)
Definition kept_complete (t : tables) (prior_coverage : string -> option prior) (target_end : string) (row : refreshed) : Prop :=
  prior_coverage (rf_dataset row) = Some ("COMPLETE", current_version row) /\
  exists v, verify_exact t [rf_dataset row] target_end = Ok v /\ complete_eligible v = true.

Lemma gate_row_Ok t prior_coverage target_end row row' : gate t prior_coverage target_end row = Ok row' ->
  rf_dataset row' = rf_dataset row /\ rf_policy row' = rf_policy row /\
  (rf_status row' = "COMPLETE" -> rf_status row = "COMPLETE" /\ kept_complete t prior_coverage target_end row').
Proof.
  unfold gate_row. intros H. apply bind_Ok in H as ([blocker found] & Hb & H). cbn beta iota zeta in H. binds H.
  injection H as <-. split; [done|]. split; [done|]. simpl. destruct (rf_status row =s "COMPLETE") eqn:Es; bools; [|done].
  destruct blocker as [b|]; [done|]. intros _. split; [done|]. unfold kept_complete. simpl.
  unfold gate_blocker in Hb. rewrite Es in Hb. simpl in Hb.
  destruct (prior_coverage (rf_dataset row)) as [[status version]|]; [|done].
  destruct (status =s "COMPLETE") eqn:Est; [|done]. destruct (version =s current_version row) eqn:Ever; [|done].
  simpl in Hb. apply bind_Ok in Hb as (v & Hv & [= Hn <-]). bools. subst. split; [done|]. by eapply verified_verdict.
Qed.

Lemma gate_rows_Ok t prior_coverage target_end rows rows' : mapR (gate t prior_coverage target_end) rows = Ok rows' ->
  map rf_dataset rows' = map rf_dataset rows /\
  forall row', row' ∈ rows' -> (exists row, row ∈ rows /\ rf_dataset row = rf_dataset row' /\ rf_policy row = rf_policy row') /\
    (rf_status row' = "COMPLETE" -> kept_complete t prior_coverage target_end row').
Proof.
  intros H. split.
  - apply mapR_Ok in H. induction H as [|r r' rows rows' Hr _ IH]; [done|]. apply gate_row_Ok in Hr as (Hd & _).
    simpl. congruence.
  - intros row Hrow. destruct (mapR_elem _ _ _ _ H Hrow) as (r & Hin & Hr). apply gate_row_Ok in Hr as (Hd & Hp & Hr).
    split; [by exists r|]. intros Hs. by apply Hr.
Qed.

(** The rows that are computed, one for each dataset and under its policy. *)
Lemma refresh_dataset_rows args t receipts failures st dataset st' :
  refresh_dataset capabilities contracts float_repr date_matches table_rows visible_text verify env args t receipts
    failures st dataset = Ok st' ->
  exists row, rs_rows st' = rs_rows st ++ [row] /\ rf_dataset row = dataset /\
    coverage_contract_for contracts dataset = Ok (rf_policy row).
Proof.
  unfold refresh_dataset. intros H. do 5 (apply bind_Ok in H as (? & ? & H)).
  match type of H with (let '_ := ?w in _) = _ => destruct w as [[? ?] ?] end.
  apply bind_Ok in H as (? & ? & H). apply bind_Ok in H as ([[[? ?] ?] ?] & _ & H). cbn beta iota zeta in H.
  destruct (if _ || _ then _ else _) as [? ?]. do 4 (apply bind_Ok in H as (? & ? & H)).
  injection H as <-. eexists. split; [reflexivity|]. by split.
Qed.

Lemma compute_rows args selected t st : compute args selected t = Ok st ->
  map rf_dataset (rs_rows st) = selected /\
  forall row, row ∈ rs_rows st -> coverage_contract_for contracts (rf_dataset row) = Ok (rf_policy row).
Proof.
  unfold compute_refresh. intros H. binds H. cbn zeta in H. revert H.
  match goal with |- foldR ?f _ _ = _ -> _ =>
    enough (Hg : forall l st0, (forall row, row ∈ rs_rows st0 -> coverage_contract_for contracts (rf_dataset row) = Ok (rf_policy row)) ->
      foldR f st0 l = Ok st -> map rf_dataset (rs_rows st) = map rf_dataset (rs_rows st0) ++ l /\
      forall row, row ∈ rs_rows st -> coverage_contract_for contracts (rf_dataset row) = Ok (rf_policy row))
      by (intros H; refine (Hg _ _ _ H); intros row Hrow; by apply elem_of_nil in Hrow)
  end.
  induction l as [|d l IH]; intros st0 H0; simpl; [intros [= ->]; by rewrite app_nil_r|].
  intros H. apply bind_Ok in H as (st1 & (row & Erow & <- & Hp)%refresh_dataset_rows & H).
  destruct (IH st1) as [-> Hrows]; [|done|].
  - rewrite Erow. intros r [Hr|Hr]%elem_of_app; [by apply H0|]. by apply list_elem_of_singleton in Hr as ->.
  - rewrite Erow, map_app, <- app_assoc. by split.
Qed.

(** What is stored of a row: its dataset. *)
Lemma refreshed_row_dataset r row : coverage_of (refreshed_pyrow r) = Ok row -> dc_dataset row = rf_dataset r.
Proof.
  unfold coverage_of. intros H. apply bind_Ok in H as (cells & Hf & H). apply bind_Ok in H as (cells' & Hc & H).
  apply coverage_cells_at in H as (v0 & _ & _ & C0 & _ & _ & T0 & _).
  rewrite (coerce_bools_at _ _ _ "dataset" Hc) in C0 by (done || by apply (bool_decide_unpack _)).
  apply mapR_Ok in Hf. destruct (Forall2_lookup_r _ _ _ _ _ Hf C0) as (column & Hcol & Hv).
  injection Hcol as <-. simpl in Hv. injection Hv as <-. simpl in T0. congruence.
Qed.

(** Aggregates that are written without COMPLETE. *)
Lemma writes_aggregates rows t t' : writes [] [] (map refreshed_pyrow rows) t t' ->
  aggregates_only t t' /\
  forall row, row ∈ dataset_coverage t' -> dc_status row = "COMPLETE" -> dc_dataset row ∉ map rf_dataset rows.
Proof.
  intros (keys & segments & new & Hk & Hs & Hn & Hf & ->). injection Hs as <-.
  assert (Hd : map dc_dataset new = map rf_dataset rows).
  { apply mapR_Ok, Forall2_fmap_l in Hn. clear -Hn. induction Hn as [|r row rows new Hr _ IH]; [done|].
    apply refreshed_row_dataset in Hr. simpl. congruence. }
  assert (Hold : forall row, row ∈ fold_left (fun table row => upsert dc_dataset row table) new (dataset_coverage t) ->
    dc_status row = "COMPLETE" -> row ∈ dataset_coverage t /\ dc_dataset row ∉ map rf_dataset rows).
  { intros row [Hrow|[Hrow Hnot]]%elem_of_upserts Hc; [|by rewrite <- Hd].
    rewrite Forall_forall in Hf. by destruct (Hf row Hrow). }
  split; [|intros row Hr Hc; by apply Hold]. split; simpl; [|done|].
  - destruct keys; [|done]. rewrite app_nil_r. apply filter_all, Forall_forall. intros r _. apply not_elem_of_nil.
  - intros row Hr Hc. exists row. by destruct (Hold row Hr Hc).
Qed.

(** The segments and the rest of the gate's work, in one transaction. *)
Lemma refresh_in_steps args c c' rows : refresh_in args c = (c', Ok rows) ->
  exists target_end st replaced t1,
    env_inventory_target_end env = Ok target_end /\
    compute args (refresh_selected contracts args) (view c) = Ok st /\
    dataset_coverage replaced = dataset_coverage (view c) /\
    collection_receipts replaced = collection_receipts (view c) /\
    mapR (gate replaced (prior_of (view c)) target_end) (rs_rows st) = Ok rows /\
    writes [] [] (map refreshed_pyrow (filter (fun r => rf_status r <> "COMPLETE") rows)) replaced t1 /\
    aggregates_only t1 (view c').
Proof.
  unfold refresh_coverage_ledger_in_transaction. intros H.
  apply bind_Ok_action in H as (c1 & ? & [-> _]%lift_Ok & H). apply bind_Ok_action in H as (c1 & ? & [-> _]%lift_Ok & H).
  apply bind_Ok_action in H as (c1 & target_end & [-> Ht]%lift_Ok & H).
  apply bind_Ok_action in H as (c1 & t & Hsel & H). injection Hsel as <- <-.
  apply bind_Ok_action in H as (c1 & st & [-> Hst]%lift_Ok & H). apply bind_Ok_action in H as (c1 & ? & [-> _]%lift_Ok & H).
  apply bind_Ok_action in H as (c1 & ? & (replaced & Hw & ->)%persist_Ok & H).
  apply bind_Ok_action in H as (c1 & t & Hsel & H). injection Hsel as <- <-. unfold id in H. rewrite view_settle in H.
  apply bind_Ok_action in H as (c1 & rows' & [-> Hgate]%lift_Ok & H).
  apply bind_Ok_action in H as (c1 & ? & (t1 & Hw1 & ->)%persist_Ok & H). rewrite view_settle in Hw1.
  apply bind_Ok_action in H as (c1 & [] & Heach & H). injection H as <- <-.
  exists target_end, st, replaced, t1. split_and!; try done.
  - destruct Hw as (keys & segments & new & _ & _ & Hn & _ & ->). by injection Hn as <-.
  - by destruct Hw as (keys & segments & new & _ & _ & _ & _ & ->).
  - rewrite <- (view_settle (settle c replaced) t1). change c1 with (c1, @Ok unit tt).1. rewrite <- Heach.
    apply only_each. intros r. apply _.
Qed.

(** Claim C22.  A refresh never takes a dataset's COMPLETE on trust: whatever dataset
    it was asked for is COMPLETE afterwards had been COMPLETE before, under the
    policy version in force, and the tables it leaves, its segments as they have just
    been replaced and the receipts they select, pass exact verification for that
    dataset at the cut-off date. *)
Theorem refresh_complete_verified args c c' rows : refresh args c = (c', Ok rows) ->
  exists target_end, env_inventory_target_end env = Ok target_end /\
    collection_receipts (view c') = collection_receipts (view c) /\
    forall row, row ∈ dataset_coverage (view c') -> dc_status row = "COMPLETE" ->
      dc_dataset row ∈ refresh_selected contracts args ->
      exists policy v, coverage_contract_for contracts (dc_dataset row) = Ok policy /\
        prior_of (view c) (dc_dataset row) = Some ("COMPLETE", default "None" (cc_policy_version policy)) /\
        verify_exact (view c') [dc_dataset row] target_end = Ok v /\ complete_eligible v = true.
Proof.
  intros H. assert (Hin : exists c0 c1, view c0 = view c /\ view c1 = view c' /\ refresh_in args c0 = (c1, Ok rows)).
  { unfold refresh_coverage_ledger in H. destruct (in_transaction c) eqn:Hc.
    - exists c, c'. split_and!; try done. unfold owning in H. by rewrite Hc in H.
    - apply owning_Ok in H as (c1 & H & ->); [|done]. by exists (begin_ c), c1. }
  destruct Hin as (c0 & c1 & Ec & <- & (target_end & st & replaced & t1 & Ht & Hst & Edc & Erc & Hg & Hw & Hao)%refresh_in_steps).
  rewrite Ec in *. apply writes_aggregates in Hw as [Hw Hout]. exists target_end. split; [done|].
  assert (Hall : aggregates_only replaced (view c1)) by (by etransitivity).
  split; [by rewrite (ao_receipts _ _ Hall)|]. intros row Hrow Hs Hsel.
  destruct (ao_complete _ _ Hao row Hrow Hs) as (old & Hold & Ed & _ & Hos).
  specialize (Hout old Hold Hos). rewrite Ed in Hout.
  destruct (compute_rows _ _ _ _ Hst) as [Hds Hpol]. destruct (gate_rows_Ok _ _ _ _ _ Hg) as (Egd & Hkept).
  rewrite <- Hds, <- Egd in Hsel. apply list_elem_of_fmap in Hsel as (r & Er & Hr).
  assert (Hrs : rf_status r = "COMPLETE").
  { destruct (decide (rf_status r = "COMPLETE")) as [|Hne]; [done|]. exfalso. apply Hout, list_elem_of_fmap.
    exists r. split; [done|]. by apply list_elem_of_filter. }
  destruct (Hkept r Hr) as [(r0 & Hr0 & Ed0 & Ep0) Hk]. destruct (Hk Hrs) as (Hprior & v & Hv & He).
  exists (rf_policy r), v. rewrite Er. split_and!; try done.
  - rewrite <- Ed0, <- Ep0. by apply Hpol.
  - rewrite <- Hv. apply verify_exact_only; [exact (ao_segments _ _ Hall)|exact (ao_receipts _ _ Hall)].
Qed.
End RefreshProofs.

(** ** A refresh *)

Definition ledger_env : refresh_environment :=
  mkEnvironment (fun _ => Ok "jquants_premium_core")
    (fun _ _ _ => Ok [mkCheck "C2" (Some "equities_bars_daily") "pass" ""
       [("source", JStr "ingestion_validation"); ("validation_status", JStr "pass")]])
    (fun _ => None) [mkRun "equities_bars_daily" "2024-02-01" 3 (Some 9)] "2024-02-02T00:00:00+00:00" "2024-01-31"
    (Ok "2024-01-31").

Definition ledger_aggregate (status : string) : coverage_row :=
  mkCoverageRow "equities_bars_daily" status "collection-coverage/v3" "scope" "2024-01-01" "today" "historical"
    "business_day" "listed" 1 1 "governed" None None 0 None "2024-02-01" "{}".

Definition ledger_connection (status : string) : connection :=
  mkConnection (mkTables (coverage_segments ledger_tables) (collection_receipts ledger_tables) [ledger_aggregate status])
    None.

Definition ledger_arguments : refresh_arguments := mkArguments None None 7 None.

Abbreviation refresh_ledger := (refresh_coverage_ledger ledger_capabilities ledger_contracts toy_sha256_hex id
  no_dates no_rows same_text ledger_verify ledger_env).

Definition statuses_after (m : connection * result (list refreshed)) : list string * list string * result (list string) :=
  (map sg_status (coverage_segments (committed m.1)), map dc_status (dataset_coverage (committed m.1)),
   rows ← m.2; Ok (map rf_status rows)).

(** COMPLETE is kept; a dataset that was PARTIAL stays so, though every segment of it
    is COMPLETE; without the receipt nothing is. *)
Example refreshed_statuses :
  map (fun c => statuses_after (refresh_ledger ledger_arguments c))
    [ledger_connection "COMPLETE"; ledger_connection "PARTIAL";
     mkConnection (mkTables (coverage_segments ledger_tables) [] [ledger_aggregate "COMPLETE"]) None]
  = [(["COMPLETE"], ["COMPLETE"], Ok ["COMPLETE"]); (["COMPLETE"], ["PARTIAL"], Ok ["PARTIAL"]);
     (["PARTIAL"], ["PARTIAL"], Ok ["PARTIAL"])].
Proof. by vm_compute. Qed.

Definition refreshed_rows : list refreshed := Eval vm_compute in
  ok_or [] (refresh_ledger ledger_arguments (ledger_connection "COMPLETE")).2.

Definition refreshed_connection : connection := Eval vm_compute in
  (refresh_ledger ledger_arguments (ledger_connection "COMPLETE")).1.

Lemma refresh_complete_verified_witness :
  refresh_ledger ledger_arguments (ledger_connection "COMPLETE") = (refreshed_connection, Ok refreshed_rows) /\
  length refreshed_rows = 1%nat /\
  exists target_end, env_inventory_target_end ledger_env = Ok target_end.
Proof.
  assert (H : refresh_ledger ledger_arguments (ledger_connection "COMPLETE") = (refreshed_connection, Ok refreshed_rows))
    by (vm_compute; reflexivity).
  split; [exact H|]. split; [vm_compute; reflexivity|].
  destruct (refresh_complete_verified ledger_capabilities ledger_contracts toy_sha256_hex id no_dates no_rows same_text
    ledger_verify ledger_env _ _ _ _ H) as (target_end & Ht & _). exists target_end. exact Ht.
Defined.

Definition ledger_inventory : list (string * segment_row) := Eval vm_compute in
  inventory_of (committed (ledger_connection "COMPLETE")) ledger_policy "equities_bars_daily".

Definition ledger_indexed : list (segment_key * PreparedReceipt) := Eval vm_compute in
  match (p ← prepare_receipts ledger_verify [ledger_receipt]; index_prepared_receipts p) with Ok i => i | Err _ => [] end.

Definition ledger_required : RequiredCoverageSegment :=
  match ledger_segments with
  | s :: _ => s
  | [] => mkSegment "" "" "" "" "" [] None
  end.

Definition ledger_evaluated : evaluated_segment := Eval vm_compute in
  ok_or (mkEvaluatedSegment ledger_required None "" "" None "" "")
    (evaluate_required ledger_capabilities ledger_policy ledger_inventory ledger_indexed "" ledger_required).

Lemma sticky_complete_witness :
  evaluate_required ledger_capabilities ledger_policy ledger_inventory ledger_indexed "" ledger_required
    = Ok ledger_evaluated /\
  exists run, es_receipt_run_id ledger_evaluated = Some run /\
    completes ledger_capabilities ledger_policy ledger_required
      (indexed_at ledger_indexed (required_key ledger_required)) run.
Proof.
  assert (H : evaluate_required ledger_capabilities ledger_policy ledger_inventory ledger_indexed "" ledger_required
    = Ok ledger_evaluated) by (vm_compute; reflexivity).
  split; [exact H|].
  destruct (sticky_complete ledger_capabilities ledger_policy ledger_required _ _ _ _ H) as [Hc _].
  apply Hc. vm_compute. reflexivity.
Defined.
