(* ===== verification/LedgerSync.v ===== *)
(** * LedgerSync: re-aggregating the coverage ledger from its segments
    (packages/data_plane/storage/coverage_ledger.py: surgical re-aggregation,
    summaries and gaps)

    The synchronisation rewrites the aggregates from the segments that are there,
    after exact verification; it writes neither segments nor receipts.  At the end,
    all the clients of the ledger in one step relation: no run of them makes a
    dataset COMPLETE that was not. *)

From S2P Require Import Prelude PyDate Json JsonText SourceCapability CoverageContract CoveragePlan Receipt CoverageEval Transaction LedgerStore Inventory LedgerRefresh.

Local Open Scope Z_scope.

(** ** Helpers *)

Fixpoint characters (s : string) : list json :=
  match s with EmptyString => [] | String c s => JStr (String c EmptyString) :: characters s end.

(** [list(value or [])] *)
Definition list_of (value : json) : result (list json) :=
  match or_ value (JList []) with
  | JList l => Ok l
  | JDict d => Ok (map (fun p => JStr p.1) d)
  | JStr s => Ok (characters s)
  | _ => raise TypeError "object is not iterable"
  end.

(** [_failing_checks_from_detail]: checks that are not objects are passed over. *)
Definition failing_check (check : json) : bool :=
  match check with
  | JDict d => lower (py_str (default (JStr "") (get "status" d))) ∈? ["fail"; "failed"; "error"]
  | _ => false
  end.

Definition failing_checks_from_detail (detail : dict) : result (list json) :=
  checks ← list_of (getv "checks" detail); Ok (filter (fun c => failing_check c = true) checks).

Definition counts_json (counts : list (string * Z)) : json := JDict (map (fun p => (p.1, JInt p.2)) counts).

Definition dict_pop (k : string) (d : dict) : dict := filter (fun p : string * json => p.1 <> k) d.

Definition build_surgical_reagg_detail (existing_detail : dict) (status_counts : list (string * Z))
    (required_segments : option Z) (audit : option dict) : result dict :=
  cov ← dict_of (getv "coverage_v2" existing_detail);
  let prev_counts := getv "status_counts" cov in
  let cov := dict_set "status_counts" (counts_json (honest_status_counts status_counts)) cov in
  let cov := match required_segments with
             | None => dict_pop "required_segments" cov
             | Some n => dict_set "required_segments" (JInt n) cov
             end in
  let cov := match audit with
             | None => cov
             | Some audit =>
                 dict_set "surgical_reagg"
                   (JDict (if negb (bool_decide (prev_counts = JNull)) && negb (has_key "prev_status_counts" audit)
                           then dict_set "prev_status_counts" prev_counts audit else audit)) cov
             end in
  Ok (dict_set "aggregate_source" (JStr "surgical_reagg_from_coverage_segments")
        (dict_set "coverage_v2" (JDict cov) existing_detail)).

(** [honest_status_counts(prev_counts or {})] of what a detail holds. *)
Definition honest_counts_of (value : json) : result (list (string * Z)) :=
  d ← dict_of value;
  counts ← mapR (fun p : string * json => n ← int_of p.2; Ok (p.1, n)) (py_sorted key_leb d);
  Ok (honest_status_counts counts).

(** [(detail.get(k) or {}).get(k')] *)
Definition nested (outer inner : string) (detail : dict) : result json :=
  match or_ (getv outer detail) (JDict []) with
  | JDict d => Ok (getv inner d)
  | _ => raise AttributeError "object has no attribute 'get'"
  end.

(** The statuses of the segments of a dataset under a policy, counted. *)
Definition segments_under (t : tables) (dataset : string) (policy_version : option string) : list segment_row :=
  filter (fun r => sg_dataset r = dataset /\ Some (sg_policy_version r) = policy_version) (coverage_segments t).

Definition segment_status_counts (t : tables) (dataset : string) (policy_version : option string) : list (string * Z) :=
  honest_status_counts (group_by_status (map sg_status (segments_under t dataset policy_version))).

(** COMPLETE segments that select no run. *)
Definition empty_complete_count (t : tables) (dataset : string) (policy_version : option string) : Z :=
  Z.of_nat (length (filter (fun r => sg_status r = "COMPLETE" /\
    (sg_receipt_run_id r = None \/ sg_receipt_run_id r = Some 0)) (segments_under t dataset policy_version))).

Definition complete_segments (t : tables) : Z :=
  Z.of_nat (length (filter (fun r => sg_status r = "COMPLETE") (coverage_segments t))).

(** ** The verdict on a dataset *)

Definition inventory_reason (v : verdict) : option string :=
  match v with
  | Pending reason => Some reason
  | Mismatch _ => Some "persisted segments do not equal canonical inventory"
  | Invalid _ => Some "selected signed receipt closure is incomplete"
  | Verified _ => None
  end.

(** What the synchronisation knows of a dataset when it decides. *)
Record sync_facts := mkFacts {
  sf_old_status : string;
  sf_old_policy_version : string;
  sf_policy_version : option string;
  sf_counts : list (string * Z);
  sf_failing : Z;
  sf_empty_complete : Z;
  sf_verdict : verdict;
}.

Definition sf_total (f : sync_facts) : Z := sum_counts (sf_counts f).
Definition sf_derived (f : sync_facts) : string := aggregate_status_from_segment_counts (sf_counts f).

Definition sync_blocker (f : sync_facts) : option string :=
  match verdict_blocker (sf_verdict f) with
  | Some blocker => Some blocker
  | None =>
      if (sf_old_status f =s "COMPLETE") && negb (bool_decide (Some (sf_old_policy_version f) = sf_policy_version f))
      then Some "prior_aggregate_policy_mismatch"
      else if sf_total f <=? 0 then Some "empty_inventory"
      else if (sf_derived f =s "COMPLETE") && negb (sf_failing f =? 0) then Some "failing_checks"
      else if (sf_derived f =s "COMPLETE") && (0 <? sf_empty_complete f) then Some "empty_complete_segments"
      else if (sf_derived f =s "COMPLETE") && negb (sf_old_status f =s "COMPLETE") then Some "transition_authority_required"
      else None
  end.

Definition sync_status (f : sync_facts) : string :=
  match sync_blocker f with
  | Some _ => if sf_derived f =s "FAILED" then "FAILED" else "PARTIAL"
  | None =>
      if sf_derived f =s "FAILED" then "FAILED" else if sf_derived f =s "COMPLETE" then "COMPLETE" else "PARTIAL"
  end.

Definition sync_action (f : sync_facts) : string :=
  match sync_blocker f with
  | Some "empty_inventory" => "empty_inventory_rejected"
  | Some "failing_checks" => "failing_checks_rejected"
  | Some "empty_complete_segments" => "empty_complete_segments_rejected"
  | Some blocker => blocker
  | None => if (sf_old_status f =s "COMPLETE") && negb (sync_status f =s "COMPLETE") then "demoted" else "counts_refreshed"
  end.

Section Sync.
Variable capabilities : registry.
Variable contracts : coverage_registry.
Variable sha256_hex : string -> string.
Variable float_repr : string -> string.
Variable date_matches : string -> list (Z * Z * Z).
Variable table_rows : string -> list string.
Variable visible_text : string -> string.
Variable verify : CollectionReceipt -> result VerifiedCollectionClosure.

Abbreviation verdict_of := (exact_verdict capabilities contracts sha256_hex float_repr date_matches table_rows
  visible_text verify).

(** The clock, and its UTC date, up to which the inventory is required. *)
Variables evaluated_at target_end : string.

Definition coverage_row_of (t : tables) (dataset : string) : option coverage_row :=
  head (filter (fun r => dc_dataset r = dataset) (dataset_coverage t)).

(** The policy in force, or the one of the row when there is none. *)
Definition effective_policy_version (t : tables) (dataset : string) : result (option string) :=
  match coverage_contract_for contracts dataset with
  | Ok policy => Ok (cc_policy_version policy)
  | Err e =>
      if decide (exn_kind e = KeyError) then
        match coverage_row_of t dataset with
        | Some row => Ok (Some (if dc_policy_version row =s "" then "authority-unavailable" else dc_policy_version row))
        | None => Ok (Some "authority-unavailable")
        end
      else Err e
  end.

(** Why the status is what it is. *)
Definition sync_reason (f : sync_facts) : string :=
  let otherwise := if sync_status f =s "COMPLETE" then "existing COMPLETE retained after exact signed verification"
                   else "fail-closed re-aggregate from exact coverage inventory" in
  match inventory_reason (sf_verdict f) with
  | Some reason => if reason =s "" then otherwise else reason
  | None => otherwise
  end.

(** The detail a write stores. *)
Definition sync_audit (f : sync_facts) (prev_counts : json) (wave : option string) : dict :=
  [("at", JStr evaluated_at);
   ("reason", JStr (sync_reason f));
   ("prev_status", JStr (sf_old_status f)); ("new_status", JStr (sync_status f));
   ("prev_policy_version", JStr (sf_old_policy_version f)); ("current_policy_version", opt_json (sf_policy_version f));
   ("prev_status_counts", prev_counts); ("inventory_status", JStr (inventory_status (sf_verdict f)));
   ("selected_receipt_status", JStr (receipt_status (sf_verdict f)));
   ("inventory", JDict (verdict_detail target_end (sf_verdict f))); ("blocker", opt_json (sync_blocker f));
   ("wave", opt_json wave)].

Definition required_count (v : verdict) : option Z :=
  match v with
  | Pending _ => None
  | Mismatch v | Verified v | Invalid v => Some (Z.of_nat (length (expected_identities (inventory v))))
  end.

(** [base] *)
Definition sync_base (f : sync_facts) (dataset : string) (prev_counts : json) (dry_run : bool) : dict :=
  [("dataset", JStr dataset); ("old_status", JStr (sf_old_status f));
   ("old_policy_version", JStr (sf_old_policy_version f)); ("current_policy_version", opt_json (sf_policy_version f));
   ("status_counts", counts_json (sf_counts f)); ("prev_status_counts", prev_counts);
   ("derived_status", JStr (sf_derived f)); ("total", JInt (sf_total f));
   ("complete", JInt (default 0 (lookup_str "COMPLETE" (sf_counts f)))); ("failing_checks", JInt (sf_failing f));
   ("empty_complete", JInt (sf_empty_complete f)); ("inventory_status", JStr (inventory_status (sf_verdict f)));
   ("selected_receipt_status", JStr (receipt_status (sf_verdict f)));
   ("inventory", JDict (verdict_detail target_end (sf_verdict f))); ("dry_run", JBool dry_run)].

(** What is done about a dataset: the entry of the report, and the status and detail
    to write if there is something to write. *)
Record sync_plan := mkSyncPlan {
  sp_entry : dict;
  sp_write : option (string * option string * string);
}.

Definition facts_of (t : tables) (dataset : string) (version : option string) (row : coverage_row) (detail : dict)
    : result sync_facts :=
  failing ← failing_checks_from_detail detail;
  found ← verdict_of t dataset target_end;
  Ok (mkFacts (dc_status row) (dc_policy_version row) version (segment_status_counts t dataset version)
        (Z.of_nat (length failing)) (empty_complete_count t dataset version) found).

Definition plan_sync (t : tables) (dry_run : bool) (wave : option string) (dataset : string) : result sync_plan :=
  version ← effective_policy_version t dataset;
  let counts := segment_status_counts t dataset version in
  match coverage_row_of t dataset with
  | None =>
      Ok (mkSyncPlan
        [("dataset", JStr dataset); ("action", JStr "skip_missing_dataset_coverage"); ("status_counts", counts_json counts);
         ("derived_status", JStr (aggregate_status_from_segment_counts counts)); ("total", JInt (sum_counts counts));
         ("complete", JInt (default 0 (lookup_str "COMPLETE" counts)))] None)
  | Some row =>
      detail ← detail_of_text float_repr (dc_detail_json row);
      prev_counts ← nested "coverage_v2" "status_counts" detail;
      f ← facts_of t dataset version row detail;
      prev_norm ← honest_counts_of prev_counts;
      let base := sync_base f dataset prev_counts dry_run in
      if (sf_old_status f =s sync_status f) && bool_decide (prev_norm = honest_status_counts counts)
         && negb (present (sync_blocker f))
      then
        Ok (mkSyncPlan (base ++ [("action", JStr "verify_only"); ("status", JStr (sync_status f));
                                 ("eligible", JBool (sync_status f =s "COMPLETE"))]) None)
      else
        new_detail ← build_surgical_reagg_detail detail (honest_status_counts counts) (required_count (sf_verdict f))
                       (Some (sync_audit f prev_counts wave));
        detail_json ← canonical_json (JDict new_detail);
        Ok (mkSyncPlan
          (base ++ [("action", JStr (sync_action f)); ("from", JStr (sf_old_status f)); ("to", JStr (sync_status f));
                    ("status", JStr (sync_status f)); ("new_status_counts", counts_json (honest_status_counts counts));
                    ("blocker", opt_json (sync_blocker f))])
          (Some (sync_status f, version, detail_json)))
  end.

(** ** The synchronisation *)

Definition sync_write (dataset : string) (write : string * option string * string) : action unit :=
  let '(status, version, detail_json) := write in
  if status =s "COMPLETE"
  then update_existing_complete_coverage_evidence (PStr dataset) (opt_pystr version) (PStr detail_json) (PStr evaluated_at)
  else update_dataset_coverage_row (PStr dataset) (PStr status) (PStr detail_json) (PStr evaluated_at).

Definition sync_dataset (dry_run : bool) (wave : option string) (dataset : string) : action dict :=
  t ← select id;
  plan ← lift (plan_sync t dry_run wave dataset);
  _ ← (match sp_write plan with
       | Some write => if dry_run then mret tt else sync_write dataset write
       | None => mret tt
       end);
  mret (sp_entry plan).

Definition sync_selected (t : tables) (datasets : option (list string)) : list string :=
  match datasets with
  | None => sorted_strings (map dc_dataset (dataset_coverage t))
  | Some l => sorted_set l
  end.

Definition sync_dataset_coverage_from_segments_in_transaction (datasets : option (list string)) (dry_run : bool)
    (wave : option string) : action (list dict) :=
  t ← select id;
  let selected := sync_selected t datasets in
  if empty_list selected then mret []
  else
    results ← traverse (sync_dataset dry_run wave) selected;
    t' ← select id;
    _ ← lift (ensure (complete_segments t' =? complete_segments t) RuntimeError
          "coverage_segments mutated during surgical re-aggregate");
    mret (map (fun entry => dict_set "platform_complete_segs" (JInt (complete_segments t')) entry) results).

(** A dry run rolls its own transaction back. *)
Definition sync_dataset_coverage_from_segments (datasets : option (list string)) (dry_run : bool)
    (wave : option string) : action (list dict) := fun c =>
  let m := sync_dataset_coverage_from_segments_in_transaction datasets dry_run wave in
  if in_transaction c then m c
  else match m (begin_ c) with
       | (c', Ok results) => (if dry_run then rollback c' else commit c', Ok results)
       | (c', Err e) => (rollback c', Err e)
       end.

(** ** Summaries *)

Record coverage_summary_report := mkSummary {
  cs_policy_version : string;
  cs_policy_digest : string;
  cs_dataset_count : Z;
  cs_status_counts : list (string * Z);
  cs_governed_ready : bool;
}.

Definition coverage_summary (t : tables) : result coverage_summary_report :=
  let rows := read_dataset_coverage t None in
  policy_set ← (if empty_list rows then Ok ("UNKNOWN", "UNKNOWN")
                else b ← coverage_policy_set_binding contracts sha256_hex (map dc_dataset rows);
                     Ok (ps_policy_version b, ps_policy_digest b));
  _ ← ensure (forallb (fun r => dc_status r ∈? COVERAGE_STATUSES) rows) KeyError "status";
  let governed := filter (fun r => dc_governance_tier r = "governed") rows in
  Ok (mkSummary (fst policy_set) (snd policy_set) (Z.of_nat (length rows))
        (map (fun s => (s, occurrences s (map dc_status rows))) (sorted_strings COVERAGE_STATUSES))
        (negb (empty_list governed) && forallb (fun r => dc_status r =s "COMPLETE") governed)).

(** Receipts and segments for readers: of a dataset and segment if one is given; of
    the policies in force. *)
Definition receipt_order : receipt_row -> receipt_row -> bool :=
  lex rr_dataset String.compare (lex rr_segment_start String.compare receipt_row_ltb).

Definition given {A} `{EqDecision A} (wanted : option A) (a : A) : bool :=
  match wanted with None => true | Some w => bool_decide (w = a) end.

Definition read_collection_receipts (t : tables) (dataset segment_id : option string) : list receipt_row :=
  py_sorted (leb_of receipt_order)
    (filter (fun r => given dataset (rr_dataset r) && given segment_id (rr_segment_id r) = true) (collection_receipts t)).

Definition segment_order : segment_row -> segment_row -> bool :=
  lex sg_dataset String.compare (lex sg_segment_start String.compare
    (fun a b => String.ltb (sg_segment_id a) (sg_segment_id b))).

Definition read_coverage_segments (t : tables) (dataset status : option string) : result (list segment_row) :=
  _ ← ensure (match status with Some s => s ∈? COVERAGE_STATUSES | None => true end) ValueError "unknown coverage status";
  let version d := b ← coverage_policy_binding contracts sha256_hex d; Ok (pb_policy_version b) in
  wanted ← (match dataset with Some d => v ← version d; Ok (Some v) | None => Ok None end);
  let rows := py_sorted (leb_of segment_order)
    (filter (fun r => given dataset (sg_dataset r) && given wanted (sg_policy_version r)
                      && given status (sg_status r) = true) (coverage_segments t)) in
  match dataset with
  | Some _ => Ok rows
  | None =>
      kept ← mapR (fun r => v ← version (sg_dataset r); Ok (if sg_policy_version r =s v then [r] else [])) rows;
      Ok (concat kept)
  end.

Definition coverage_gaps (t : tables) : list coverage_row :=
  filter (fun r => dc_status r <> "COMPLETE") (read_dataset_coverage t None).
End Sync.

(** ** The verdict *)

(** A dataset stays COMPLETE only on a verified inventory, under the policy it was
    COMPLETE under. *)
Lemma sync_status_complete f : sync_status f = "COMPLETE" ->
  sync_blocker f = None /\ sf_old_status f = "COMPLETE" /\ Some (sf_old_policy_version f) = sf_policy_version f /\
  sf_derived f = "COMPLETE" /\ sf_failing f = 0 /\ sf_empty_complete f <= 0 /\ verdict_blocker (sf_verdict f) = None.
Proof.
  unfold sync_status. destruct (sync_blocker f) eqn:Eb; [by destruct (sf_derived f =s "FAILED")|].
  destruct (sf_derived f =s "FAILED"); [done|]. destruct (sf_derived f =s "COMPLETE") eqn:Ed; [|done]. intros _.
  split; [done|]. revert Eb. unfold sync_blocker. destruct (verdict_blocker (sf_verdict f)); [done|]. rewrite Ed.
  destruct (sf_old_status f =s "COMPLETE") eqn:Eo; simpl.
  - destruct (bool_decide (Some (sf_old_policy_version f) = sf_policy_version f)) eqn:Ep; [|done]. simpl.
    destruct (sf_total f <=? 0); [done|]. destruct (sf_failing f =? 0) eqn:Ef; [|done].
    destruct (0 <? sf_empty_complete f) eqn:Ee; [done|]. intros _. bools. by split_and!.
  - destruct (sf_total f <=? 0); [done|]. destruct (sf_failing f =? 0); [|done].
    by destruct (0 <? sf_empty_complete f).
Qed.

Section SyncProofs.
Context (capabilities : registry) (contracts : coverage_registry) (sha256_hex float_repr : string -> string)
  (date_matches : string -> list (Z * Z * Z)) (table_rows : string -> list string) (visible_text : string -> string)
  (verify : CollectionReceipt -> result VerifiedCollectionClosure) (evaluated_at target_end : string).

Abbreviation verify_exact := (verify_exact_coverage_complete capabilities contracts sha256_hex float_repr
  date_matches table_rows visible_text verify).
Abbreviation plan := (plan_sync capabilities contracts sha256_hex float_repr date_matches table_rows visible_text
  verify evaluated_at target_end).
Abbreviation sync_one := (sync_dataset capabilities contracts sha256_hex float_repr date_matches table_rows visible_text
  verify evaluated_at target_end).
Abbreviation sync_in := (sync_dataset_coverage_from_segments_in_transaction capabilities contracts sha256_hex float_repr
  date_matches table_rows visible_text verify evaluated_at target_end).
Abbreviation sync := (sync_dataset_coverage_from_segments capabilities contracts sha256_hex float_repr date_matches
  table_rows visible_text verify evaluated_at target_end).

#[export] Instance honest_sync_write dataset write : Honest (sync_write evaluated_at dataset write).
Proof. destruct write as [[status version] detail]. simpl. destruct (status =s "COMPLETE"); apply _. Qed.
#[export] Instance uncommitted_sync_write dataset write : Uncommitted (sync_write evaluated_at dataset write).
Proof. destruct write as [[status version] detail]. simpl. destruct (status =s "COMPLETE"); apply _. Qed.
#[export] Instance only_sync_write dataset write : AggregatesOnly (sync_write evaluated_at dataset write).
Proof. destruct write as [[status version] detail]. simpl. destruct (status =s "COMPLETE"); apply _. Qed.

Ltac by_write := unfold sync_dataset; repeat (case_match || apply _ || apply honest_bind || apply uncommitted_bind
  || apply only_bind || intros ?).

#[export] Instance honest_sync_one dry_run wave dataset : Honest (sync_one dry_run wave dataset).
Proof. by_write. Qed.
#[export] Instance uncommitted_sync_one dry_run wave dataset : Uncommitted (sync_one dry_run wave dataset).
Proof. by_write. Qed.
#[export] Instance only_sync_one dry_run wave dataset : AggregatesOnly (sync_one dry_run wave dataset).
Proof. by_write. Qed.

Ltac by_parts := unfold sync_dataset_coverage_from_segments_in_transaction; cbv zeta;
  repeat (case_match || apply _ || apply honest_bind || apply uncommitted_bind || apply only_bind || intros ?).

#[export] Instance honest_sync_in datasets dry_run wave : Honest (sync_in datasets dry_run wave).
Proof. by_parts. Qed.
#[export] Instance uncommitted_sync_in datasets dry_run wave : Uncommitted (sync_in datasets dry_run wave).
Proof. by_parts. Qed.
#[export] Instance only_sync_in datasets dry_run wave : AggregatesOnly (sync_in datasets dry_run wave).
Proof. by_parts. Qed.

#[export] Instance honest_sync datasets dry_run wave : Honest (sync datasets dry_run wave).
Proof.
  intros base c Hc. unfold sync_dataset_coverage_from_segments. cbv zeta.
  destruct (in_transaction c); [by apply honest_sync_in|].
  pose proof (honest_sync_in datasets dry_run wave base _ (everywhere_begin _ _ Hc)) as H.
  destruct (sync_in _ _ _ (begin_ c)) as [c' [results|e]]; [|by apply everywhere_rollback].
  destruct dry_run; [by apply everywhere_rollback|by apply everywhere_commit].
Qed.

(** A successful verification is of a dataset whose policy is the third. *)
Lemma verified_policy t dataset v : verify_exact t [dataset] target_end = Ok v ->
  exists policy, coverage_contract_for contracts dataset = Ok policy.
Proof.
  unfold verify_exact_coverage_complete. intros H. apply bind_Ok in H as (cmp & Hc & _).
  apply compare_Ok in Hc as (_ & _ & _ & _ & Hd & _). destruct (Hd dataset) as (l & Hl); [by left|].
  apply regenerated_calendar_month in Hl as (policy & _ & Hp & _). by exists policy.
Qed.

(** The one row of a dataset. *)
Lemma coverage_row_of_unique t row : tables_ok t -> row ∈ dataset_coverage t ->
  coverage_row_of t (dc_dataset row) = Some row.
Proof.
  intros [_ _ Hn _ _ _] Hrow. unfold coverage_row_of. revert Hn Hrow. generalize (dataset_coverage t). clear.
  induction l as [|r l IH]; intros Hn Hrow; [by apply elem_of_nil in Hrow|].
  cbn [map] in Hn. apply NoDup_cons in Hn as [Hr Hn]. rewrite filter_cons.
  apply elem_of_cons in Hrow as [->|Hrow]; [by rewrite decide_True|]. rewrite decide_False; [by apply IH|].
  intros E. apply Hr. rewrite E. by apply list_elem_of_fmap_2.
Qed.

(** Verified where it was checked. *)
Definition kept (t : tables) (dataset : string) : Prop := exists policy old v,
  coverage_contract_for contracts dataset = Ok policy /\ old ∈ dataset_coverage t /\ dc_dataset old = dataset /\
  dc_status old = "COMPLETE" /\ cc_policy_version policy = Some (dc_policy_version old) /\
  verify_exact t [dataset] target_end = Ok v /\ complete_eligible v = true.

Lemma complete_facts_kept t dataset version row detail f : coverage_row_of t dataset = Some row ->
  effective_policy_version contracts t dataset = Ok version ->
  facts_of capabilities contracts sha256_hex float_repr date_matches table_rows visible_text verify target_end t dataset
    version row detail = Ok f -> sync_status f = "COMPLETE" -> kept t dataset.
Proof.
  unfold facts_of. intros Hrow Hver H Hs. binds H. injection H as <-.
  apply sync_status_complete in Hs as (_ & Ho & Hp & _ & _ & _ & Hb). simpl in *.
  apply (verified_verdict _ _ _ _ _ _ _ _ _ _ _ _ E0) in Hb as (v & Hv & He).
  destruct (verified_policy _ _ _ Hv) as (policy & Hpol). unfold effective_policy_version in Hver. rewrite Hpol in Hver.
  injection Hver as Hver. unfold coverage_row_of in Hrow. apply head_Some_elem_of, list_elem_of_filter in Hrow as [Hd Hin].
  exists policy, row, v. by rewrite Hver, <- Hp.
Qed.

(** A row that is updated with another status is not COMPLETE. *)
Lemma updated_row_open dataset status detail now c c' u row :
  update_dataset_coverage_row (PStr dataset) (PStr status) (PStr detail) (PStr now) c = (c', Ok u) ->
  row ∈ dataset_coverage (view c') -> dc_dataset row = dataset -> dc_status row <> "COMPLETE".
Proof.
  unfold update_dataset_coverage_row, require_plain_string. cbn [freeze_sql_value mbind result_bind].
  intros H Hrow.
  repeat match type of H with (lift (Ok _) ≫= _) _ = _ => apply bind_Ok_action in H as (? & ? & [-> [= <-]]%lift_Ok & H) end.
  apply bind_Ok_action in H as (c1 & ? & [-> Hs%ensure_Ok]%lift_Ok & H).
  apply bind_Ok_action in H as (c2 & n & Hst & H). injection H as <- <-. unfold statement in Hst.
  destruct (update_coverage _ _ _) as [[t n']|] eqn:Eu; [|done]. injection Hst as <- _. unfold update_coverage in Eu.
  run Eu. simpl in Hrow. apply list_elem_of_fmap in Hrow as (r & -> & Hr).
  destruct (dc_dataset r =s dataset) eqn:Er; bools; done.
Qed.

(** One dataset: if it is COMPLETE afterwards it was verified, then and there. *)
Lemma sync_dataset_kept wave dataset c c' entry row : tables_ok (view c) ->
  sync_one false wave dataset c = (c', Ok entry) -> row ∈ dataset_coverage (view c') -> dc_dataset row = dataset ->
  dc_status row = "COMPLETE" -> kept (view c) dataset.
Proof.
  intros Hok. unfold sync_dataset. intros H Hrow Hd Hs.
  apply bind_Ok_action in H as (c1 & t & Hsel & H). injection Hsel as <- <-.
  apply bind_Ok_action in H as (c1 & p & [-> Hp]%lift_Ok & H). unfold id in Hp.
  apply bind_Ok_action in H as (c2 & [] & Hw & H). injection H as <- _.
  assert (Hold : aggregates_only (view c) (view c2)).
  { change c2 with (c2, @Ok unit tt).1. rewrite <- Hw. destruct (sp_write p); [apply only_sync_write|apply only_ret]. }
  destruct (ao_complete _ _ Hold row Hrow Hs) as (old & Hin & Ed & _ & Hos).
  pose proof (coverage_row_of_unique _ _ Hok Hin) as Hone. rewrite Ed, Hd in Hone. unfold plan_sync in Hp.
  apply bind_Ok in Hp as (version & Hver & Hp). rewrite Hone in Hp. apply bind_Ok in Hp as (detail & _ & Hp).
  apply bind_Ok in Hp as (prev & _ & Hp). apply bind_Ok in Hp as (f & Hf & Hp). apply bind_Ok in Hp as (norm & _ & Hp).
  enough (Hst : sync_status f = "COMPLETE") by by eapply complete_facts_kept.
  match type of Hp with (if ?g then _ else _) = _ => destruct g eqn:Eg end.
  - bools. rewrite <- H. clear -Hf Hos. unfold facts_of in Hf. binds Hf. by injection Hf as <-.
  - binds Hp. injection Hp as <-. simpl in Hw. unfold sync_write in Hw.
    destruct (sync_status f =s "COMPLETE") eqn:Es; bools; [done|]. exfalso. by eapply updated_row_open.
Qed.

(** It is verified still after the other datasets. *)
Lemma kept_only t t' dataset : aggregates_only t t' -> kept t' dataset -> kept t dataset.
Proof.
  intros Ho (policy & old & v & Hp & Hin & Hd & Hs & Hv & Hver & He).
  destruct (ao_complete _ _ Ho old Hin Hs) as (old' & Hin' & Hd' & Hv' & Hs').
  exists policy, old', v. split_and!; try done; [congruence|congruence|].
  rewrite <- Hver. symmetry. apply verify_exact_only; [exact (ao_segments _ _ Ho)|exact (ao_receipts _ _ Ho)].
Qed.

Lemma traverse_kept wave selected c c' entries row : everywhere tables_ok c ->
  traverse (sync_one false wave) selected c = (c', Ok entries) -> row ∈ dataset_coverage (view c') ->
  dc_dataset row ∈ selected -> dc_status row = "COMPLETE" -> kept (view c) (dc_dataset row).
Proof.
  revert c entries. induction selected as [|d selected IH]; intros c entries Hok H Hrow Hd Hs; [by apply elem_of_nil in Hd|].
  simpl in H. apply bind_Ok_action in H as (c1 & entry & H1 & H). apply bind_Ok_action in H as (c2 & entries' & H2 & H).
  injection H as <- <-. assert (Hok1 : everywhere tables_ok c1).
  { change c1 with (c1, Ok entry).1. rewrite <- H1. by apply honest_tables_ok; [apply _|]. }
  assert (H12 : aggregates_only (view c1) (view c2)).
  { change c2 with (c2, Ok entries').1. rewrite <- H2. apply only_traverse. intros x. apply _. }
  apply elem_of_cons in Hd as [Hd|Hd].
  - destruct (ao_complete _ _ H12 row Hrow Hs) as (r & Hr & Ed & _ & Hrs). rewrite Hd.
    eapply sync_dataset_kept; [by apply everywhere_view|exact H1|exact Hr|congruence|done].
  - eapply kept_only; [|by eapply IH]. change c1 with (c1, Ok entry).1. rewrite <- H1. apply only_sync_one.
Qed.

(** A synchronisation touches neither segments nor receipts, and any
    dataset it was asked for that is COMPLETE afterwards had been COMPLETE before
    under the policy version in force, and passes exact verification on the tables
    it leaves at the evaluation date. *)
Theorem sync_complete_verified datasets wave c c' report : everywhere tables_ok c ->
  sync datasets false wave c = (c', Ok report) ->
  coverage_segments (view c') = coverage_segments (view c) /\
  collection_receipts (view c') = collection_receipts (view c) /\
  forall row, row ∈ dataset_coverage (view c') -> dc_status row = "COMPLETE" ->
    dc_dataset row ∈ sync_selected (view c) datasets ->
    exists policy old v, coverage_contract_for contracts (dc_dataset row) = Ok policy /\
      old ∈ dataset_coverage (view c) /\ dc_dataset old = dc_dataset row /\ dc_status old = "COMPLETE" /\
      cc_policy_version policy = Some (dc_policy_version old) /\
      verify_exact (view c') [dc_dataset row] target_end = Ok v /\ complete_eligible v = true.
Proof.
  intros Hok H.
  assert (Hin : exists c0 c1, view c0 = view c /\ view c1 = view c' /\ everywhere tables_ok c0 /\
    sync_in datasets false wave c0 = (c1, Ok report)).
  { unfold sync_dataset_coverage_from_segments in H. cbv zeta in H. destruct (in_transaction c); [by exists c, c'|].
    destruct (sync_in _ _ _ (begin_ c)) as [c1 [r|e]] eqn:E; [|done]. injection H as <- <-.
    exists (begin_ c), c1. split_and!; try done. by apply everywhere_begin. }
  clear H Hok. destruct Hin as (c0 & c1 & <- & <- & Hok & H).
  assert (Ho : aggregates_only (view c0) (view c1)).
  { change c1 with (c1, Ok report).1. rewrite <- H. apply only_sync_in. }
  split; [exact (ao_segments _ _ Ho)|]. split; [exact (ao_receipts _ _ Ho)|]. intros row Hrow Hs Hsel.
  enough (Hk : kept (view c0) (dc_dataset row)).
  { destruct Hk as (policy & old & v & Hk). exists policy, old, v.
    rewrite (verify_exact_only _ _ _ _ _ _ _ _ (view c0) (view c1)); [done|exact (ao_segments _ _ Ho)|exact (ao_receipts _ _ Ho)]. }
  unfold sync_dataset_coverage_from_segments_in_transaction in H.
  apply bind_Ok_action in H as (c2 & t & Hsel' & H). injection Hsel' as <- <-. cbv zeta in H. unfold id in H.
  destruct (empty_list (sync_selected (view c0) datasets)) eqn:Ee.
  - apply empty_list_true in Ee. rewrite Ee in Hsel. by apply elem_of_nil in Hsel.
  - apply bind_Ok_action in H as (c3 & entries & Ht & H). apply bind_Ok_action in H as (c4 & t & Hsel' & H).
    injection Hsel' as <- <-. apply bind_Ok_action in H as (c5 & ? & [-> _]%lift_Ok & H). injection H as <- _.
    by eapply traverse_kept.
Qed.

(** Outside a transaction, a refresh or a synchronisation that raises
    leaves the database as it was, and a dry run always does; whatever it returns. *)
Theorem failed_or_dry_unchanged env args datasets dry_run wave c : in_transaction c = false ->
  (forall c' e, refresh_coverage_ledger capabilities contracts sha256_hex float_repr date_matches table_rows visible_text
     verify env args c = (c', Err e) -> c' = c) /\
  (forall c' r, sync datasets dry_run wave c = (c', r) -> dry_run = true \/ (exists e, r = Err e) -> c' = c).
Proof.
  intros Hc. split; [intros c' e; by apply owning_Err; [apply _|]|]. intros c' r H Hr.
  unfold sync_dataset_coverage_from_segments in H. cbv zeta in H. rewrite Hc in H.
  destruct (uncommitted_sync_in datasets dry_run wave (begin_ c) eq_refl) as [Ec _].
  assert (Hback : forall c1, committed c1 = committed (begin_ c) -> rollback c1 = c).
  { intros c1. unfold rollback. intros ->. by destruct c as [? [?|]]. }
  destruct (sync_in _ _ _ (begin_ c)) as [c1 [report|e]]; simpl in *.
  - destruct dry_run; [injection H as <- _; by apply Hback|]. injection H as _ <-. by destruct Hr as [|[e He]].
  - injection H as <- _. by apply Hback.
Qed.
End SyncProofs.

(** ** All the clients *)

(** One call on a connection, by any client with any arguments, whether it returns
    or raises. *)
Inductive ledger_step (c : connection) : connection -> Prop :=
  | step_begin : ledger_step c (begin_ c)
  | step_commit : ledger_step c (commit c)
  | step_rollback : ledger_step c (rollback c)
  | step_receipt r : ledger_step c (record_collection_receipt r c).1
  | step_required contracts sha256_hex segments version now :
      ledger_step c (record_required_segments contracts sha256_hex segments version now c).1
  | step_persist keys segments rows : ledger_step c (persist_refreshed_coverage keys segments rows c).1
  | step_update dataset status detail now : ledger_step c (update_dataset_coverage_row dataset status detail now c).1
  | step_preserve row : ledger_step c (preserve_existing_complete_coverage_row row c).1
  | step_evidence dataset version detail now :
      ledger_step c (update_existing_complete_coverage_evidence dataset version detail now c).1
  | step_refresh capabilities contracts sha256_hex float_repr date_matches table_rows visible_text verify env args :
      ledger_step c (refresh_coverage_ledger capabilities contracts sha256_hex float_repr date_matches table_rows
                       visible_text verify env args c).1
  | step_sync capabilities contracts sha256_hex float_repr date_matches table_rows visible_text verify now target_end
      datasets dry_run wave :
      ledger_step c (sync_dataset_coverage_from_segments capabilities contracts sha256_hex float_repr date_matches
                       table_rows visible_text verify now target_end datasets dry_run wave c).1.

Lemma step_good base c c' : ledger_step c c' -> everywhere (good base) c -> everywhere (good base) c'.
Proof.
  intros [] Hc; [by apply everywhere_begin|by apply everywhere_commit|by apply everywhere_rollback|..];
    by apply honest.
Qed.

(** Claim C18.  COMPLETE is never minted: along any sequence of calls of the ledger's
    clients, transactions opened, committed and rolled back at any point, on any
    inputs and with any failures, the tables keep their keys and constraints, and
    every dataset that is COMPLETE, committed or pending, was COMPLETE at the start
    under the same policy version. *)
Theorem complete_never_minted t c c' : tables_ok t -> c = mkConnection t None -> rtc ledger_step c c' ->
  everywhere (fun t' => tables_ok t' /\ no_new_complete t t') c'.
Proof.
  intros Hok E H. assert (Hc : everywhere (good t) c).
  { subst c. split; [split; [done|apply no_new_complete_refl]|done]. }
  clear E. induction H as [|c1 c2 c3 Hs _ IH]; [done|]. by eapply IH, step_good.
Qed.

(** ** A synchronisation *)

Abbreviation sync_ledger := (sync_dataset_coverage_from_segments ledger_capabilities ledger_contracts toy_sha256_hex id
  no_dates no_rows same_text ledger_verify "2024-02-02T00:00:00+00:00" "2024-01-31").

Definition entry_summary (entry : dict) : json * json * json * json :=
  (getv "action" entry, getv "status" entry, getv "blocker" entry, getv "platform_complete_segs" entry).

Definition report_of (m : connection * result (list dict)) : list string * result (list (json * json * json * json)) :=
  (map dc_status (dataset_coverage (committed m.1)), entries ← m.2; Ok (map entry_summary entries)).

(** COMPLETE is kept with new counts; PARTIAL is not promoted; with a segment that
    selects nothing COMPLETE falls, unless the run is dry. *)
Example sync_reports :
  let broken := mkConnection (mkTables (coverage_segments ledger_tables) [] [ledger_aggregate "COMPLETE"]) None in
  [report_of (sync_ledger None false None (ledger_connection "COMPLETE"));
   report_of (sync_ledger None false None (ledger_connection "PARTIAL"));
   report_of (sync_ledger None false (Some "w1") broken); report_of (sync_ledger None true None broken);
   report_of (sync_ledger (Some ["other"]) false None (ledger_connection "COMPLETE"))]
  = [(["COMPLETE"], Ok [(JStr "counts_refreshed", JStr "COMPLETE", JNull, JInt 1)]);
     (["PARTIAL"], Ok [(JStr "transition_authority_required", JStr "PARTIAL", JStr "transition_authority_required", JInt 1)]);
     (["PARTIAL"], Ok [(JStr "selected_receipt_invalid", JStr "PARTIAL", JStr "selected_receipt_invalid", JInt 1)]);
     (["COMPLETE"], Ok [(JStr "selected_receipt_invalid", JStr "PARTIAL", JStr "selected_receipt_invalid", JInt 1)]);
     (["COMPLETE"], Ok [(JStr "skip_missing_dataset_coverage", JNull, JNull, JInt 1)])].
Proof. by vm_compute. Qed.

Definition synced_connection : connection := Eval vm_compute in
  (sync_ledger None false None (ledger_connection "COMPLETE")).1.

Definition sync_entries : list dict := Eval vm_compute in
  ok_or [] (sync_ledger None false None (ledger_connection "COMPLETE")).2.

Lemma ledger_tables_ok status : status ∈ COVERAGE_STATUSES -> tables_ok (committed (ledger_connection status)).
Proof.
  intros Hs. split.
  - apply (bool_decide_unpack _). vm_compute. exact I.
  - apply (bool_decide_unpack _). vm_compute. exact I.
  - apply NoDup_singleton.
  - apply (bool_decide_unpack _). vm_compute. exact I.
  - apply (bool_decide_unpack _). vm_compute. exact I.
  - apply Forall_singleton. unfold coverage_check. simpl. by rewrite bool_decide_eq_true_2.
Qed.

Lemma sync_complete_verified_witness :
  everywhere tables_ok (ledger_connection "COMPLETE") /\
  sync_ledger None false None (ledger_connection "COMPLETE") = (synced_connection, Ok sync_entries) /\
  length sync_entries = 1%nat /\
  coverage_segments (view synced_connection) = coverage_segments (view (ledger_connection "COMPLETE")).
Proof.
  assert (Hok : everywhere tables_ok (ledger_connection "COMPLETE")).
  { split; [apply ledger_tables_ok; apply (bool_decide_unpack _); vm_compute; exact I|discriminate]. }
  assert (H : sync_ledger None false None (ledger_connection "COMPLETE") = (synced_connection, Ok sync_entries))
    by (vm_compute; reflexivity).
  split; [exact Hok|]. split; [exact H|]. split; [vm_compute; reflexivity|].
  destruct (sync_complete_verified ledger_capabilities ledger_contracts toy_sha256_hex id no_dates no_rows same_text
    ledger_verify _ _ _ _ _ _ _ Hok H) as (Hs & _). exact Hs.
Defined.

Lemma failed_or_dry_unchanged_witness :
  in_transaction (ledger_connection "COMPLETE") = false /\
  (sync_ledger None true None (ledger_connection "COMPLETE")).1 = ledger_connection "COMPLETE".
Proof.
  split; [reflexivity|].
  destruct (failed_or_dry_unchanged ledger_capabilities ledger_contracts toy_sha256_hex id no_dates no_rows same_text
    ledger_verify "2024-02-02T00:00:00+00:00" "2024-01-31" ledger_env ledger_arguments None true None
    (ledger_connection "COMPLETE") eq_refl) as [_ Hd].
  apply (Hd _ (sync_ledger None true None (ledger_connection "COMPLETE")).2); [apply surjective_pairing|left; reflexivity].
Defined.

(** Begin, write COMPLETE over a PARTIAL dataset in every way there is, commit. *)
Lemma complete_never_minted_witness :
  tables_ok (committed (ledger_connection "PARTIAL")) /\
  everywhere (fun t => tables_ok t /\ no_new_complete (committed (ledger_connection "PARTIAL")) t)
    (commit (preserve_existing_complete_coverage_row (sample_coverage_row "COMPLETE")
      (persist_refreshed_coverage [] [] [sample_coverage_row "COMPLETE"] (begin_ (ledger_connection "PARTIAL"))).1).1).
Proof.
  assert (Hok : tables_ok (committed (ledger_connection "PARTIAL"))).
  { apply ledger_tables_ok. apply (bool_decide_unpack _). vm_compute. exact I. }
  split; [exact Hok|].
  apply (complete_never_minted (committed (ledger_connection "PARTIAL")) (ledger_connection "PARTIAL") _ Hok eq_refl).
  apply rtc_l with (begin_ (ledger_connection "PARTIAL")); [apply step_begin|].
  eapply rtc_l; [apply step_persist|]. eapply rtc_l; [apply step_preserve|]. apply rtc_once. apply step_commit.
Defined.
