(* ===== verification/Publication.v ===== *)
(** * Publication: the tables of snapshot publications and their lifecycle
    (packages/data_plane/pit/ready_evidence.py: the writers of a session; the
    cut-off dates of storage/coverage_ledger.py and storage/coverage_proof.py; the
    tables of storage/migrations.py)

    A database is the coverage ledger with the publications, the singleton policy of
    the local snapshot, quality results, embedded manifests, generations, proofs and
    tombstones.  A build is published by walking its row and the policy through the
    states; a cut-off date is given only to the build both of them agree on, in the
    file the build was staged in.  The file system is a parameter: what [stat] and
    its relatives say of paths and descriptors. *)

From S2P Require Import Prelude PyDate PyTime PyInt Json JsonText ReceiptCrypto Transaction LedgerStore.

Local Open Scope Z_scope.

(** ** Tables *)

Record publication_row := mkPublication {
  pub_build_id : string;
  pub_snapshot_id : option string;
  pub_state : string;
  pub_staging_path : string;
  pub_artifact_path : option string;
  pub_manifest_path : option string;
  pub_contract_version : string;
  pub_source_run_id : option Z;
  pub_change_seq : Z;
  pub_coverage_policy_version : string;
  pub_quality_policy_version : string;
  pub_created_at : string;
  pub_committed_at : option string;
  pub_rejection_reason : option string;
  pub_manifest_json : option string;
}.

(** The row of [local_snapshot_policy], whose key is the constant 1. *)
Record policy_row := mkPolicyRow {
  lp_require_manifest : Z;
  lp_snapshot_ready : Z;
  lp_sync_started_at : option string;
  lp_last_error : option string;
  lp_publication_state : string;
  lp_active_build_id : option string;
  lp_active_snapshot_id : option string;
}.

Record quality_row := mkQuality {
  qr_build_id : string;
  qr_status : string;
  qr_policy_version : string;
  qr_evaluated_at : string;
  qr_summary_json : string;
  qr_results_json : string;
}.

Record manifest_row := mkManifest {
  mf_snapshot_id : string;
  mf_format : string;
  mf_committed_at : string;
  mf_source_run_id : Z;
  mf_change_seq : Z;
  mf_manifest_json : string;
}.

Record proof_row := mkProofRow {
  pf_proof_id : string;
  pf_format : string;
  pf_build_id : string;
  pf_publication_cutoff : string;
  pf_required_datasets_json : string;
  pf_coverage_proof_json : string;
  pf_coverage_policy_version : string;
  pf_coverage_policy_digest : string;
  pf_inventory_set_digest : string;
  pf_source_generation : Z;
  pf_applied_generation : Z;
  pf_persisted_at : string;
}.

Record tombstone_row := mkTombstone {
  tb_transition_id : string;
  tb_format : string;
  tb_authority_domain : string;
  tb_issuer_key_id : string;
  tb_build_id : string;
  tb_publication_cutoff : string;
  tb_dataset_set_digest : string;
  tb_from_state_digest : string;
  tb_target_state_digest : string;
  tb_coverage_policy_set_digest : string;
  tb_inventory_set_digest : string;
  tb_receipt_set_digest : string;
  tb_signed_evidence_json : string;
  tb_consumed_at : string;
}.

#[export] Instance publication_row_eq_dec : EqDecision publication_row.
Proof. solve_decision. Defined.
#[export] Instance policy_row_eq_dec : EqDecision policy_row.
Proof. solve_decision. Defined.
#[export] Instance tombstone_row_eq_dec : EqDecision tombstone_row.
Proof. solve_decision. Defined.

(** [db_change_log] has the sequence numbers of [ingestion_change_log], [db_applied]
    the rows of [sync_change_state]. *)
Record database := mkDatabase {
  db_ledger : tables;
  db_publications : list publication_row;
  db_policy : option policy_row;
  db_quality : list quality_row;
  db_manifests : list manifest_row;
  db_change_log : list Z;
  db_applied : list (string * Z);
  db_proofs : list proof_row;
  db_tombstones : list tombstone_row;
}.

Definition with_ledger (t : tables) (db : database) : database :=
  mkDatabase t (db_publications db) (db_policy db) (db_quality db) (db_manifests db) (db_change_log db)
    (db_applied db) (db_proofs db) (db_tombstones db).

Definition with_publications (rows : list publication_row) (db : database) : database :=
  mkDatabase (db_ledger db) rows (db_policy db) (db_quality db) (db_manifests db) (db_change_log db)
    (db_applied db) (db_proofs db) (db_tombstones db).

Definition with_policy (row : option policy_row) (db : database) : database :=
  mkDatabase (db_ledger db) (db_publications db) row (db_quality db) (db_manifests db) (db_change_log db)
    (db_applied db) (db_proofs db) (db_tombstones db).

Definition with_quality (rows : list quality_row) (db : database) : database :=
  mkDatabase (db_ledger db) (db_publications db) (db_policy db) rows (db_manifests db) (db_change_log db)
    (db_applied db) (db_proofs db) (db_tombstones db).

Definition with_manifests (rows : list manifest_row) (db : database) : database :=
  mkDatabase (db_ledger db) (db_publications db) (db_policy db) (db_quality db) rows (db_change_log db)
    (db_applied db) (db_proofs db) (db_tombstones db).

Definition with_proofs (rows : list proof_row) (db : database) : database :=
  mkDatabase (db_ledger db) (db_publications db) (db_policy db) (db_quality db) (db_manifests db) (db_change_log db)
    (db_applied db) rows (db_tombstones db).

Definition with_tombstones (rows : list tombstone_row) (db : database) : database :=
  mkDatabase (db_ledger db) (db_publications db) (db_policy db) (db_quality db) (db_manifests db) (db_change_log db)
    (db_applied db) (db_proofs db) rows.

(** CHECK constraints. *)
Definition SNAPSHOT_STATES : list string := ["BUILDING"; "SYNCED"; "VALIDATING"; "READY"; "REJECTED"].

Definition proof_check (r : proof_row) : bool :=
  is_sha256 (JStr (pf_proof_id r)) && (pf_format r =s "local-coverage-proof/v2")
  && (String.length (pf_publication_cutoff r) =? 10)%nat && (0 <? pf_source_generation r)
  && (0 <? pf_applied_generation r).

Definition tombstone_check (r : tombstone_row) : bool :=
  is_sha256 (JStr (tb_transition_id r)) && (tb_format r =s "coverage-complete-transition/v1")
  && (tb_authority_domain r =s "quant-platform/coverage/complete-transition/v1")
  && (String.length (tb_publication_cutoff r) =? 10)%nat.

(** ** The lifecycle of a publication *)

Abbreviation session A := (action_on database A) (only parsing).

Definition commit_session : session unit := fun c => (commit c, Ok tt).
Definition rollback_session : session unit := fun c => (rollback c, Ok tt).

(** [UPDATE snapshot_publications SET ... WHERE build_id=?] *)
Definition update_publication (build_id : string) (set_ : publication_row -> publication_row) (db : database)
    : result (database * unit) :=
  let rows := map (fun r => if decide (pub_build_id r = build_id) then set_ r else r) (db_publications db) in
  _ ← ensure (forallb (fun r => pub_state r ∈? SNAPSHOT_STATES) rows) IntegrityError "CHECK constraint failed";
  Ok (with_publications rows db, tt).

Definition insert_publication (row : publication_row) (db : database) : result (database * unit) :=
  _ ← ensure (negb (pub_build_id row ∈? map pub_build_id (db_publications db))) IntegrityError
        "UNIQUE constraint failed";
  Ok (with_publications (db_publications db ++ [row]) db, tt).

Definition policy_check (row : option policy_row) : bool :=
  match row with Some r => lp_publication_state r ∈? SNAPSHOT_STATES | None => true end.

(** [UPDATE local_snapshot_policy SET ... WHERE singleton=1] *)
Definition update_policy (set_ : policy_row -> policy_row) (db : database) : result (database * unit) :=
  let row := set_ <$> db_policy db in
  _ ← ensure (policy_check row) IntegrityError "CHECK constraint failed";
  Ok (with_policy row db, tt).

(** [INSERT INTO local_snapshot_policy ... ON CONFLICT(singleton) DO UPDATE SET ...] *)
Definition upsert_policy (new : policy_row) (set_ : policy_row -> policy_row) (db : database)
    : result (database * unit) :=
  Ok (with_policy (Some match db_policy db with Some old => set_ old | None => new end) db, tt).

Definition set_state (state : string) (r : publication_row) : publication_row :=
  mkPublication (pub_build_id r) (pub_snapshot_id r) state (pub_staging_path r) (pub_artifact_path r)
    (pub_manifest_path r) (pub_contract_version r) (pub_source_run_id r) (pub_change_seq r)
    (pub_coverage_policy_version r) (pub_quality_policy_version r) (pub_created_at r) (pub_committed_at r)
    (pub_rejection_reason r) (pub_manifest_json r).

Definition set_rejected (reason : string) (r : publication_row) : publication_row :=
  mkPublication (pub_build_id r) (pub_snapshot_id r) "REJECTED" (pub_staging_path r) (pub_artifact_path r)
    (pub_manifest_path r) (pub_contract_version r) (pub_source_run_id r) (pub_change_seq r)
    (pub_coverage_policy_version r) (pub_quality_policy_version r) (pub_created_at r) (pub_committed_at r)
    (Some reason) (pub_manifest_json r).

Definition begin_sync (started_at uuid : string) : session string :=
  let build_id := "build-" +:+ uuid in
  _ ← statement (upsert_policy (mkPolicyRow 1 0 (Some started_at) None "BUILDING" (Some build_id) None)
        (fun _ => mkPolicyRow 1 0 (Some started_at) None "BUILDING" (Some build_id) None));
  _ ← commit_session;
  mret build_id.

Definition fail_sync (error : string) : session unit :=
  let message := Some (str_take 2000 error) in
  _ ← statement (upsert_policy (mkPolicyRow 1 0 None message "REJECTED" None None)
        (fun old => mkPolicyRow 1 0 (lp_sync_started_at old) message "REJECTED" (lp_active_build_id old) None));
  commit_session.

(** On a conflict the time the synchronisation started is kept. *)
Definition persist_building_publication (build_id created_at staging_path contract_version coverage_policy_version
    quality_policy_version : string) : session unit :=
  _ ← statement (upsert_policy (mkPolicyRow 1 0 (Some created_at) None "BUILDING" (Some build_id) None)
        (fun old => mkPolicyRow 1 0 (lp_sync_started_at old) None "BUILDING" (Some build_id) None));
  _ ← statement (insert_publication (mkPublication build_id None "BUILDING" staging_path None None contract_version None 0
        coverage_policy_version quality_policy_version created_at None None None));
  commit_session.

Definition persist_synced_publication (build_id : string) : session unit :=
  _ ← statement (update_publication build_id (set_state "SYNCED"));
  commit_session.

(** Left to the caller to commit. *)
Definition persist_synced_policy_row : session unit :=
  statement (update_policy (fun r => mkPolicyRow (lp_require_manifest r) (lp_snapshot_ready r) (lp_sync_started_at r)
    (lp_last_error r) "SYNCED" (lp_active_build_id r) (lp_active_snapshot_id r))).

Definition mark_publication_validating (build_id : string) : session unit :=
  _ ← statement (update_publication build_id (set_state "VALIDATING"));
  commit_session.

Definition mark_publication_rejected (build_id reason : string) : session unit :=
  _ ← statement (update_publication build_id (set_rejected reason));
  commit_session.

Definition update_local_snapshot_policy (publication_state : string) (snapshot_ready : bool)
    (last_error active_snapshot_id : option string) : session unit :=
  _ ← statement (update_policy (fun r => mkPolicyRow (lp_require_manifest r) (if snapshot_ready then 1 else 0)
        (lp_sync_started_at r) last_error publication_state (lp_active_build_id r) active_snapshot_id));
  commit_session.

(** packages/research_runtime/paper_runtime/snapshot_publish_policy.py *)
Definition transition_policy (state : string) (error snapshot_id : option string) (readable : bool) : session unit :=
  _ ← lift (ensure (state ∈? SNAPSHOT_STATES) ValueError "invalid snapshot state");
  update_local_snapshot_policy state readable error snapshot_id.

Definition set_ready (snapshot_id artifact_path manifest_path : string) (run_id change_seq : Z)
    (committed_at manifest_json : string) (r : publication_row) : publication_row :=
  mkPublication (pub_build_id r) (Some snapshot_id) "READY" (pub_staging_path r) (Some artifact_path)
    (Some manifest_path) (pub_contract_version r) (Some run_id) change_seq
    (pub_coverage_policy_version r) (pub_quality_policy_version r) (pub_created_at r) (Some committed_at)
    None (Some manifest_json).

Definition policy_ready (ready : Z) (snapshot_id : string) (r : policy_row) : policy_row :=
  mkPolicyRow (lp_require_manifest r) ready (lp_sync_started_at r) None "READY" (lp_active_build_id r) (Some snapshot_id).

(** On the staging database: the snapshot is published elsewhere, so that it is not
    readable here. *)
Definition persist_ready_on_staging (build_id snapshot_id artifact_path manifest_path : string) (run_id change_seq : Z)
    (committed_at manifest_json : string) : session unit :=
  _ ← statement (fun db =>
    _ ← bind_ints [Some run_id; Some change_seq];
    update_publication build_id (set_ready snapshot_id artifact_path manifest_path run_id change_seq committed_at
      manifest_json) db);
  _ ← statement (update_policy (policy_ready 0 snapshot_id));
  commit_session.

Definition policy_rejected (error : string) (r : policy_row) : policy_row :=
  mkPolicyRow (lp_require_manifest r) 0 (lp_sync_started_at r) (Some error) "REJECTED" (lp_active_build_id r) None.

Definition reject_publication_after_failure (build_id error : string) : session unit := fun c =>
  let attempt : session unit :=
    _ ← rollback_session;
    _ ← statement (update_publication build_id (set_rejected error));
    _ ← statement (update_policy (policy_rejected error));
    commit_session in
  match attempt c with
  | (c', Err e) => if decide (exn_kind e = IntegrityError) then (rollback c', Ok tt) else (c', Err e)
  | r => r
  end.

Definition RESEARCH_SNAPSHOT_MANIFEST_FORMAT : string := "research-snapshot-manifest/v2".

(** [INSERT OR REPLACE INTO local_snapshot_manifests] *)
Definition replace_manifest (row : manifest_row) (db : database) : result (database * unit) :=
  Ok (with_manifests (filter (fun r => mf_snapshot_id r <> mf_snapshot_id row) (db_manifests db) ++ [row]) db, tt).

(** On the copy that becomes the immutable artifact. *)
Definition embed_ready_manifest (snapshot_id committed_at : string) (run_id change_seq : Z)
    (manifest_json artifact_path manifest_path build_id : string) : session unit :=
  _ ← statement (fun db =>
    _ ← bind_ints [Some run_id; Some change_seq];
    replace_manifest (mkManifest snapshot_id RESEARCH_SNAPSHOT_MANIFEST_FORMAT committed_at run_id change_seq
      manifest_json) db);
  _ ← statement (update_policy (policy_ready 1 snapshot_id));
  _ ← statement (update_publication build_id (set_ready snapshot_id artifact_path manifest_path run_id change_seq
        committed_at manifest_json));
  commit_session.

Definition persist_quality_results (build_id status policy_version evaluated_at summary_json results_json : string)
    : session unit :=
  _ ← statement (fun db =>
    _ ← ensure (status ∈? ["PASS"; "FAIL"]) IntegrityError "CHECK constraint failed";
    Ok (with_quality (upsert qr_build_id (mkQuality build_id status policy_version evaluated_at summary_json results_json)
          (db_quality db)) db, tt));
  commit_session.

(** The triggers on the fact tables: any change of a fact withdraws the snapshot. *)
Definition invalidate_snapshot (db : database) : database :=
  with_policy ((fun r => mkPolicyRow (lp_require_manifest r) 0 (lp_sync_started_at r)
    (Some "fact mutation invalidated research snapshot") (lp_publication_state r) (lp_active_build_id r) None)
    <$> db_policy db) db.

(** ** Files *)

(** What [stat] and [fstat] say. *)
Record file_info := mkFileInfo {
  fi_dev : Z;
  fi_ino : Z;
  fi_regular : bool;
  fi_nlink : Z;
  fi_mode : Z;
}.

(** [None] is an [OSError], or a [ValueError] for a path with a null character.
    [fs_getpath] is there on the systems that have [F_GETPATH]. *)
Record filesystem := mkFilesystem {
  fs_stat : string -> option file_info;
  fs_lstat : string -> option file_info;
  fs_fstat : Z -> option file_info;
  fs_resolve : string -> result string;
  fs_getpath : option (Z -> option string);
}.

Definition samestat (a b : file_info) : bool := (fi_ino a =? fi_ino b) && (fi_dev a =? fi_dev b).

(** A descriptor is a C int: larger numbers raise [OverflowError]. *)
Definition as_descriptor (n : Z) : result Z :=
  if (- 2 ^ 31 <=? n) && (n <? 2 ^ 31) then Ok n else raise OverflowError "Python int too large to convert to C int".

Definition DESCRIPTOR_PREFIXES : list string := ["/dev/fd/"; "/proc/self/fd/"].

Section Cutoff.
Variable fs : filesystem.
Variable float_repr : string -> string.

(** The file the connection has open, by its path or its descriptor. *)
Definition main_info (main_path : string) : result (option file_info) :=
  match find (fun p => starts_with p main_path) DESCRIPTOR_PREFIXES with
  | Some prefix =>
      match int_text 10 (str_drop (String.length prefix) main_path) with
      | Some n => n ← as_descriptor n; Ok (fs_fstat fs n)
      | None => Ok None
      end
  | None => Ok (fs_stat fs main_path)
  end.

Definition same_file (info : file_info) (path : string) : option bool := samestat info <$> fs_stat fs path.

(** Both comparisons fail when either cannot be made. *)
Definition matches (main_path staging_path db_path : string) : result (bool * bool) :=
  info ← main_info main_path;
  Ok (default (false, false) (i ← info; a ← same_file i staging_path; b ← same_file i db_path; Some (a, b))).

Definition build_id_of (c : exn_class) (msg : string) (build_id : json) : result string :=
  match build_id with
  | JStr s => if s =s "" then raise c msg else Ok s
  | _ => raise c msg
  end.

Definition publications_of (build_id : string) (db : database) : list publication_row :=
  filter (fun r => pub_build_id r = build_id) (db_publications db).

Definition validation_coverage_cutoff_for_build (db : database) (main_path db_path : string) (build_id : json)
    : result string :=
  let wrong {A} msg : result A := raise CoveragePublicationCutoffError msg in
  id ← build_id_of CoveragePublicationCutoffError "Coverage refresh requires a publisher-owned build id" build_id;
  match publications_of id db, db_policy db with
  | [publication], Some policy =>
      '(staging, governed) ← matches main_path (pub_staging_path publication) db_path;
      _ ← ensure ((pub_state publication =s "VALIDATING") && (lp_publication_state policy =s "VALIDATING")
                  && (lp_snapshot_ready policy =? 0) && bool_decide (lp_active_build_id policy = Some id)
                  && negb (main_path =s "") && staging && governed) CoveragePublicationCutoffError
            "Coverage refresh build is not the unique active VALIDATING build";
      utc_date_text CoveragePublicationCutoffError (pub_created_at publication)
  | _, _ => wrong "Coverage refresh has no unique active publication lifecycle"
  end.

(** The date up to which a refresh requires the inventory. *)
Definition refresh_inventory_target_end (db : database) (main_path db_path evaluated_at : string)
    (publication_build_id : json) : result string :=
  match publication_build_id with
  | JNull => utc_date_text RuntimeError evaluated_at
  | _ => validation_coverage_cutoff_for_build db main_path db_path publication_build_id
  end.

Definition immutable_regular (main artifact : file_info) : bool :=
  fi_regular main && fi_regular artifact && (fi_nlink artifact =? 1) && (Z.land (fi_mode artifact mod 4096) 146 =? 0)
  && bool_decide ((fi_dev main, fi_ino main) = (fi_dev artifact, fi_ino artifact)).

(** The last part of the path of a descriptor. *)
Definition descriptor_name (main_path : string) : result string :=
  let name := str_drop 8 main_path in
  if str_contains "/" name || (name =s ".") then raise OutsideModel "path below a descriptor" else Ok name.

Definition same_immutable_ready_inode (main_path artifact_path : string) : result bool :=
  match fs_stat fs main_path, fs_lstat fs artifact_path with
  | Some main, Some artifact =>
      match fs_getpath fs with
      | Some getpath =>
          if negb (bool_decide ((fi_dev main, fi_ino main) = (fi_dev artifact, fi_ino artifact)))
             && starts_with "/dev/fd/" main_path
          then
            name ← descriptor_name main_path;
            match int_text 10 name with
            | None => Ok false
            | Some n =>
                n ← as_descriptor n;
                match path ← getpath n; fs_lstat fs path with
                | Some main => Ok (immutable_regular main artifact)
                | None => Ok false
                end
            end
          else Ok (immutable_regular main artifact)
      | None => Ok (immutable_regular main artifact)
      end
  | _, _ => Ok false
  end.

Abbreviation unproven := CoverageProofVerificationError (only parsing).

(** [Path(a).resolve() != Path(b).resolve()] *)
Definition resolves_to (a b : string) : result bool :=
  a ← fs_resolve fs a; b ← fs_resolve fs b; Ok (a =s b).

Definition validating_build (db : database) (main_path : string) (publication : publication_row) (policy : policy_row)
    (id : string) (require_quality_pass : bool) : result unit :=
  same ← (if (lp_publication_state policy =s "VALIDATING") && bool_decide (lp_active_build_id policy = Some id)
             && negb (main_path =s "")
          then resolves_to main_path (pub_staging_path publication) else Ok false);
  _ ← ensure same unproven "Coverage proof build is not the unique active VALIDATING build";
  if require_quality_pass then
    ensure (bool_decide (map qr_status (filter (fun r => qr_build_id r = id) (db_quality db)) = ["PASS"])) unproven
      "Coverage proof VALIDATING build has no authoritative PASS"
  else Ok tt.

(** [json.loads(str(manifest_json))] *)
Definition manifest_of (publication : publication_row) : result json :=
  on_error [ValueError] unproven "Coverage proof READY manifest is malformed"
    (json_loads float_repr (default "None" (pub_manifest_json publication))).

Definition manifest_links (manifest : json) (id snapshot_id created_at : string) (proof_id : json) : bool :=
  match manifest with
  | JDict m =>
      bool_decide (getv "state" m = JStr "READY") && bool_decide (getv "build_id" m = JStr id)
      && bool_decide (getv "snapshot_id" m = JStr snapshot_id) && bool_decide (getv "created_at" m = JStr created_at)
      && bool_decide (getv "coverage_proof_id" m = proof_id)
  | _ => false
  end.

Definition ready_artifact (db : database) (main_path : string) (publication : publication_row) (policy : policy_row)
    (id : string) (proof_id : json) : result unit :=
  snapshot_id ← of_option unproven "Coverage proof is not linked to the active READY publication"
                  (pub_snapshot_id publication);
  _ ← ensure ((lp_publication_state policy =s "READY") && (lp_snapshot_ready policy =? 1)
              && bool_decide (lp_active_snapshot_id policy = Some snapshot_id) && is_sha256 proof_id) unproven
        "Coverage proof is not linked to the active READY publication";
  manifest ← manifest_of publication;
  _ ← ensure (manifest_links manifest id snapshot_id (pub_created_at publication) proof_id) unproven
        "Coverage proof READY manifest linkage is invalid";
  immutable ← (match pub_artifact_path publication with
               | Some path => if (main_path =s "") || (path =s "") then Ok false
                              else same_immutable_ready_inode main_path path
               | None => Ok false
               end);
  _ ← ensure immutable unproven "Coverage proof READY database is not the immutable artifact";
  ensure (bool_decide (map mf_manifest_json (filter (fun r => mf_snapshot_id r = snapshot_id) (db_manifests db))
                       = [default "None" (pub_manifest_json publication)])) unproven
    "Coverage proof READY embedded manifest linkage is invalid".

Definition publication_cutoff_for_build_impl (db : database) (main_path : string) (build_id proof_id : json)
    (require_quality_pass : bool) : result string :=
  id ← build_id_of unproven "Coverage proof requires a publisher-owned build id" build_id;
  match publications_of id db with
  | [publication] =>
      policy ← of_option unproven "Coverage proof has no unique active publication policy" (db_policy db);
      _ ← (if pub_state publication =s "VALIDATING"
           then validating_build db main_path publication policy id require_quality_pass
           else if pub_state publication =s "READY" then ready_artifact db main_path publication policy id proof_id
           else raise unproven "Coverage proof build state is not authoritative");
      utc_date_text unproven (pub_created_at publication)
  | _ => raise unproven "Coverage proof build has no exact publication row"
  end.

(** With the quality PASS. *)
Definition publication_cutoff_for_build (db : database) (main_path : string) (build_id proof_id : json) : result string :=
  publication_cutoff_for_build_impl db main_path build_id proof_id true.

(** Before it. *)
Definition validation_cutoff_for_build (db : database) (main_path : string) (build_id : json) : result string :=
  match validation_coverage_cutoff_for_build db main_path main_path build_id with
  | Err e => if decide (exn_kind e = CoveragePublicationCutoffError) then raise unproven (exn_msg e) else Err e
  | r => r
  end.
End Cutoff.

(** [_current_generations] *)
Definition current_generations (db : database) : result (Z * Z) :=
  let source := default 0 (py_max Z.ltb (db_change_log db)) in
  let applied := default 0 (snd <$> head (filter (fun p : string * Z => p.1 = "jquants_records") (db_applied db))) in
  _ ← ensure ((0 <? source) && (0 <? applied) && (source =? applied)) CoverageProofVerificationError
        "Coverage proof source/applied generations are not current";
  Ok (source, applied).

(** ** Opening a build *)

(** What a publication does before its gate: research_runtime/paper_runtime/snapshot.py *)
Definition open_build (build_id created_at staging_path contract_version coverage_policy_version
    quality_policy_version : string) : session unit :=
  _ ← persist_building_publication build_id created_at staging_path contract_version coverage_policy_version
        quality_policy_version;
  _ ← transition_policy "SYNCED" None None false;
  _ ← persist_synced_publication build_id;
  _ ← transition_policy "VALIDATING" None None false;
  mark_publication_validating build_id.

(** The states and the keys the schema guarantees. *)
Definition states_ok (db : database) : Prop :=
  Forall (fun r => pub_state r ∈ SNAPSHOT_STATES) (db_publications db) /\ policy_check (db_policy db) = true.

Lemma update_publication_Ok build_id set_ db : states_ok db ->
  (forall r, pub_state (set_ r) ∈ SNAPSHOT_STATES) ->
  update_publication build_id set_ db = Ok (with_publications
    (map (fun r => if decide (pub_build_id r = build_id) then set_ r else r) (db_publications db)) db, tt) /\
  states_ok (with_publications
    (map (fun r => if decide (pub_build_id r = build_id) then set_ r else r) (db_publications db)) db).
Proof.
  intros [Hp Hq] Hset.
  assert (Hall : Forall (fun r => pub_state r ∈ SNAPSHOT_STATES)
    (map (fun r => if decide (pub_build_id r = build_id) then set_ r else r) (db_publications db))).
  { apply Forall_map. eapply Forall_impl; [exact Hp|]. intros r Hr. simpl. by case_decide. }
  split; [|by split]. unfold update_publication.
  assert (forallb _ _ = true) as ->; [|done]. apply forallb_forall. intros r Hr%list_elem_of_In.
  rewrite Forall_forall in Hall. apply bool_decide_eq_true. by apply Hall.
Qed.

Lemma update_policy_Ok set_ db : states_ok db -> (forall r, lp_publication_state (set_ r) ∈ SNAPSHOT_STATES) ->
  update_policy set_ db = Ok (with_policy (set_ <$> db_policy db) db, tt) /\
  states_ok (with_policy (set_ <$> db_policy db) db).
Proof.
  intros [Hp Hq] Hset. assert (Hall : policy_check (set_ <$> db_policy db) = true).
  { destruct (db_policy db); [|done]. simpl. by apply bool_decide_eq_true. }
  split; [|by split]. unfold update_policy. by rewrite Hall.
Qed.

(** A statement that succeeds and is committed. *)
Lemma committed_statement (f : database -> result (database * unit)) db db' :
  f db = Ok (db', tt) ->
  (statement f ≫= fun _ => commit_session) (mkConnection db None) = (mkConnection db' None, Ok tt).
Proof. intros H. unfold mbind, action_bind, statement. unfold view, begin_, view. simpl. by rewrite H. Qed.

Lemma bind_run {A B} (m : session A) (f : A -> session B) c c1 a : m c = (c1, Ok a) -> (m ≫= f) c = f a c1.
Proof. intros H. unfold mbind, action_bind. by rewrite H. Qed.

Lemma transition_policy_Ok state error snapshot_id (readable : bool) db : states_ok db -> state ∈ SNAPSHOT_STATES ->
  let set_ := fun r => mkPolicyRow (lp_require_manifest r) (if readable then 1 else 0) (lp_sync_started_at r) error state
                  (lp_active_build_id r) snapshot_id in
  transition_policy state error snapshot_id readable (mkConnection db None) =
    (mkConnection (with_policy (set_ <$> db_policy db) db) None, Ok tt) /\
  states_ok (with_policy (set_ <$> db_policy db) db).
Proof.
  intros Hok Hs set_. destruct (update_policy_Ok set_ db Hok) as [E Hok']; [done|]. split; [|done].
  unfold transition_policy. rewrite bool_decide_eq_true_2 by done. simpl.
  rewrite (bind_run _ _ _ (mkConnection db None) tt eq_refl). unfold update_local_snapshot_policy. by apply committed_statement.
Qed.

Lemma update_others build_id set_ rows : build_id ∉ map pub_build_id rows ->
  map (fun r => if decide (pub_build_id r = build_id) then set_ r else r) rows = rows.
Proof.
  induction rows as [|r rows IH]; [done|]. simpl. rewrite not_elem_of_cons. intros [Hr Hn].
  rewrite decide_False by done. by rewrite IH.
Qed.

Definition new_publication (build_id state created_at staging_path contract_version coverage_policy_version
    quality_policy_version : string) : publication_row :=
  mkPublication build_id None state staging_path None None contract_version None 0 coverage_policy_version
    quality_policy_version created_at None None None.

Lemma open_build_Ok build_id created staging contract cpv qpv db : states_ok db ->
  build_id ∉ map pub_build_id (db_publications db) ->
  exists started, open_build build_id created staging contract cpv qpv (mkConnection db None) =
    (mkConnection (with_policy (Some (mkPolicyRow 1 0 started None "VALIDATING" (Some build_id) None))
      (with_publications (db_publications db ++ [new_publication build_id "VALIDATING" created staging contract cpv qpv]) db))
      None, Ok tt).
Proof.
  intros Hok Hn. exists (match db_policy db with Some old => lp_sync_started_at old | None => Some created end).
  set (started := match db_policy db with Some old => lp_sync_started_at old | None => Some created end).
  set (row state := new_publication build_id state created staging contract cpv qpv).
  set (at_ policy state := with_policy (Some (mkPolicyRow 1 0 started None policy (Some build_id) None))
    (with_publications (db_publications db ++ [row state]) db)).
  assert (Hat : forall policy state, policy ∈ SNAPSHOT_STATES -> state ∈ SNAPSHOT_STATES -> states_ok (at_ policy state)).
  { intros policy state Hp Hst. split; [|by apply bool_decide_eq_true]. simpl. apply Forall_app. split; [by apply Hok|].
    by constructor. }
  assert (Hset : forall policy state state', policy ∈ SNAPSHOT_STATES -> state ∈ SNAPSHOT_STATES -> state' ∈ SNAPSHOT_STATES ->
    update_publication build_id (set_state state') (at_ policy state) = Ok (at_ policy state', tt)).
  { intros policy state state' Hp Hst Hst'. destruct (update_publication_Ok build_id (set_state state') (at_ policy state))
      as [-> _]; [by apply Hat|done|]. unfold at_. simpl. rewrite map_app, update_others by done. simpl.
    by rewrite decide_True by done. }
  assert (HS : "BUILDING" ∈ SNAPSHOT_STATES /\ "SYNCED" ∈ SNAPSHOT_STATES /\ "VALIDATING" ∈ SNAPSHOT_STATES)
    by (split_and!; apply (bool_decide_unpack _); vm_compute; exact I).
  destruct HS as (Hb & Hs & Hv). unfold open_build.
  rewrite (bind_run _ _ _ (mkConnection (at_ "BUILDING" "BUILDING") None) tt).
  2:{ unfold persist_building_publication, insert_publication, mbind, action_bind, statement, view, begin_, view. simpl.
      rewrite bool_decide_eq_false_2 by done. simpl. unfold at_, row, started. by destruct (db_policy db). }
  rewrite (bind_run _ _ _ (mkConnection (at_ "SYNCED" "BUILDING") None) tt).
  2:{ by destruct (transition_policy_Ok "SYNCED" None None false (at_ "BUILDING" "BUILDING") (Hat _ _ Hb Hb) Hs) as [-> _]. }
  rewrite (bind_run _ _ _ (mkConnection (at_ "SYNCED" "SYNCED") None) tt).
  2:{ apply committed_statement. by apply Hset. }
  rewrite (bind_run _ _ _ (mkConnection (at_ "VALIDATING" "SYNCED") None) tt).
  2:{ by destruct (transition_policy_Ok "VALIDATING" None None false (at_ "SYNCED" "SYNCED") (Hat _ _ Hs Hs) Hv) as [-> _]. }
  apply committed_statement. by apply Hset.
Qed.

(** ** What a cut-off date shows *)

Lemma filter_none {A} (P : A -> Prop) `{forall x, Decision (P x)} (l : list A) : Forall (fun x => ~ P x) l -> filter P l = [].
Proof. induction 1 as [|x l Hx _ IH]; [done|]. by rewrite filter_cons_False. Qed.

(** Rows of one key are one row. *)
Lemma NoDup_map_inj {A B} (f : A -> B) l x y : NoDup (map f l) -> x ∈ l -> y ∈ l -> f x = f y -> x = y.
Proof.
  induction l as [|z l IH]; [by intros _ ?%elem_of_nil|]. simpl. intros [Hz Hl]%NoDup_cons Hx Hy E.
  assert (Hin : forall w, w ∈ l -> f w = f z -> False).
  { intros w Hw Ew. apply Hz. rewrite <- Ew. apply list_elem_of_fmap. by exists w. }
  apply elem_of_cons in Hx as [->|Hx], Hy as [->|Hy]; [done| | |by apply IH]; exfalso; eauto.
Qed.

(** The unique active build that is being validated, in the file it is staged in. *)
Definition active_build (fs : filesystem) (db : database) (main_path db_path : string) (build_id : json)
    (publication : publication_row) : Prop :=
  exists id policy, build_id = JStr id /\ id <> "" /\ publications_of id db = [publication] /\ db_policy db = Some policy /\
    pub_state publication = "VALIDATING" /\ lp_publication_state policy = "VALIDATING" /\ lp_snapshot_ready policy = 0 /\
    lp_active_build_id policy = Some id /\ main_path <> "" /\
    matches fs main_path (pub_staging_path publication) db_path = Ok (true, true).

Lemma build_id_Ok c msg build_id id : build_id_of c msg build_id = Ok id <-> build_id = JStr id /\ id <> "".
Proof.
  destruct build_id as [| | | |s| |]; simpl; try (split; [done|by intros []]). case_bool_decide as E.
  - subst. split; [done|]. by intros [[= <-] ?].
  - split; [by intros [= <-]|]. by intros [[= <-] ?].
Qed.

Lemma validation_cutoff_Ok fs db main_path db_path build_id d :
  validation_coverage_cutoff_for_build fs db main_path db_path build_id = Ok d <->
  exists publication, active_build fs db main_path db_path build_id publication /\
    utc_date_text CoveragePublicationCutoffError (pub_created_at publication) = Ok d.
Proof.
  unfold validation_coverage_cutoff_for_build. cbv zeta. split.
  - intros H. apply bind_Ok in H as (id & [-> Hid]%build_id_Ok & H).
    destruct (publications_of id db) as [|publication []] eqn:Ep; try done.
    destruct (db_policy db) as [policy|] eqn:Epol; [|done]. apply bind_Ok in H as ([staging governed] & Hm & H).
    apply bind_Ok in H as (u & Hu%ensure_Ok & H). bools.
    destruct staging, governed; try done. exists publication. split; [|exact H]. by exists id, policy.
  - intros (publication & (id & policy & -> & Hid & Hp & Hpol & Hs & Hps & Hr & Ha & Hmain & Hm) & H).
    rewrite (proj2 (build_id_Ok _ _ (JStr id) id)) by done. cbn [mbind result_bind]. rewrite Hp, Hpol, Hm. cbn [mbind result_bind].
    rewrite Hs, Hps, Hr, Ha, !bool_decide_eq_true_2 by done. by rewrite bool_decide_eq_false_2.
Qed.

(** A cut-off needs a policy row that is validating or ready. *)
Lemma cutoff_policy fs float_repr db main_path build_id proof_id quality d :
  publication_cutoff_for_build_impl fs float_repr db main_path build_id proof_id quality = Ok d ->
  exists id publication policy, build_id = JStr id /\ publications_of id db = [publication] /\ db_policy db = Some policy /\
    pub_state publication = lp_publication_state policy /\
    utc_date_text CoverageProofVerificationError (pub_created_at publication) = Ok d /\
    ((lp_publication_state policy = "VALIDATING" /\ lp_active_build_id policy = Some id /\
      (quality = true -> map qr_status (filter (fun r => qr_build_id r = id) (db_quality db)) = ["PASS"])) \/
     (lp_publication_state policy = "READY" /\ lp_snapshot_ready policy = 1 /\
      ready_artifact fs float_repr db main_path publication policy id proof_id = Ok tt)).
Proof.
  unfold publication_cutoff_for_build_impl. intros H. apply bind_Ok in H as (id & [-> Hid]%build_id_Ok & H).
  destruct (publications_of id db) as [|publication []] eqn:Ep; try done.
  apply bind_Ok in H as (policy & Hpol & H). destruct (db_policy db) as [policy'|] eqn:Epol; [|done]. injection Hpol as ->.
  apply bind_Ok in H as ([] & Hg & H). exists id, publication, policy. split; [done|]. split; [done|]. split; [done|].
  case_bool_decide as Ev; [|case_bool_decide as Er; [|done]].
  - unfold validating_build in Hg. apply bind_Ok in Hg as (same & Hs & Hg). apply bind_Ok in Hg as ([] & Hsame%ensure_Ok & Hg).
    subst same. destruct (_ && _ && _) eqn:E in Hs; [|done]. bools. split; [congruence|]. split; [done|]. left.
    split; [done|]. split; [done|]. intros ->. apply ensure_Ok in Hg. by bools.
  - pose proof Hg as Hg'. unfold ready_artifact in Hg. apply bind_Ok in Hg as (snapshot_id & _ & Hg).
    apply bind_Ok in Hg as ([] & Hg%ensure_Ok & _). bools. split; [congruence|]. split; [done|]. by right.
Qed.

(** A build that is opened can be validated, and only it: walking a new
    build through its states succeeds and commits, after which its cut-off date is
    the date in UTC of its creation, and every other build is refused one. *)
Theorem fresh_build_cutoff fs build_id t staging contract cpv qpv db main_path db_path :
  states_ok db -> build_id ∉ map pub_build_id (db_publications db) -> build_id <> "" -> valid_datetime t = true ->
  main_path <> "" -> matches fs main_path staging db_path = Ok (true, true) ->
  exists c, open_build build_id (dt_isoformat t) staging contract cpv qpv (mkConnection db None) = (c, Ok tt) /\
    in_transaction c = false /\
    validation_coverage_cutoff_for_build fs (committed c) main_path db_path (JStr build_id) = Ok (isoformat (dt_date t)) /\
    (forall other, other <> JStr build_id ->
       is_Ok (validation_coverage_cutoff_for_build fs (committed c) main_path db_path other) = false).
Proof.
  intros Hok Hn Hid Ht Hmain Hm. destruct (open_build_Ok build_id (dt_isoformat t) staging contract cpv qpv db Hok Hn)
    as (started & ->). eexists. split; [reflexivity|]. split; [done|]. split.
  - apply validation_cutoff_Ok. exists (new_publication build_id "VALIDATING" (dt_isoformat t) staging contract cpv qpv).
    split; [|by apply utc_date_text_dt_isoformat].
    exists build_id, (mkPolicyRow 1 0 started None "VALIDATING" (Some build_id) None). split_and!; try done.
    unfold publications_of. simpl. rewrite filter_app, filter_cons_True by done. rewrite filter_nil.
    assert (filter (fun r => pub_build_id r = build_id) (db_publications db) = []) as ->; [|done].
    apply filter_none, Forall_forall. intros r Hr <-. apply Hn. apply list_elem_of_fmap. by exists r.
  - intros other Ho. destruct (validation_coverage_cutoff_for_build _ _ _ _ other) as [d|] eqn:E; [|done].
    apply validation_cutoff_Ok in E as (p & (id & policy & -> & _ & _ & [= <-] & _ & _ & _ & [= <-] & _) & _). done.
Qed.

(** ** Withdrawal *)

Lemma statement_view (f : database -> result (database * unit)) c db u : f (view c) = Ok (db, u) ->
  statement f c = (mkConnection (committed c) (Some db), Ok u).
Proof. intros H. unfold statement. change (view (begin_ c)) with (view c). by rewrite H. Qed.

(** The policy stands in none of the two states in which builds have cut-offs. *)
Definition withdrawn (db : database) : Prop :=
  forall p, db_policy db = Some p -> lp_publication_state p <> "VALIDATING" /\ lp_publication_state p <> "READY".

Lemma withdrawn_cutoff fs float_repr db main_path db_path build_id proof_id quality : withdrawn db ->
  is_Ok (validation_coverage_cutoff_for_build fs db main_path db_path build_id) = false /\
  is_Ok (publication_cutoff_for_build_impl fs float_repr db main_path build_id proof_id quality) = false.
Proof.
  intros Hw. split.
  - destruct (validation_coverage_cutoff_for_build _ _ _ _ _) as [d|] eqn:E; [|done].
    apply validation_cutoff_Ok in E as (p & (id & policy & _ & _ & _ & Hp & _ & Hs & _) & _). by destruct (Hw policy Hp).
  - destruct (publication_cutoff_for_build_impl _ _ _ _ _ _ _) as [d|] eqn:E; [|done].
    apply cutoff_policy in E as (id & p & policy & _ & _ & Hp & _ & _ & Hs). destruct (Hw policy Hp). naive_solver.
Qed.

(** The ways a snapshot is withdrawn: a synchronisation begins or fails, a build is
    opened, a publication fails. *)
Inductive withdrawal (c : connection_to database) : connection_to database -> Prop :=
  | withdraw_begin started uuid : withdrawal c (begin_sync started uuid c).1
  | withdraw_fail error : withdrawal c (fail_sync error c).1
  | withdraw_building build_id created staging contract cpv qpv c' :
      persist_building_publication build_id created staging contract cpv qpv c = (c', Ok tt) -> withdrawal c c'
  | withdraw_reject build_id error : states_ok (committed c) ->
      withdrawal c (reject_publication_after_failure build_id error c).1.

Lemma reject_run build_id error c : states_ok (committed c) ->
  reject_publication_after_failure build_id error c =
    (mkConnection (with_policy (policy_rejected error <$> db_policy (committed c))
       (with_publications (map (fun r => if decide (pub_build_id r = build_id) then set_rejected error r else r)
          (db_publications (committed c))) (committed c))) None, Ok tt).
Proof.
  intros Hok. destruct (update_publication_Ok build_id (set_rejected error) _ Hok) as [E1 Hok1].
  { intros r. apply (bool_decide_unpack _). vm_compute. exact I. }
  destruct (update_policy_Ok (policy_rejected error) _ Hok1) as [E2 _].
  { intros r. apply (bool_decide_unpack _). vm_compute. exact I. }
  unfold reject_publication_after_failure. rewrite (bind_run _ _ _ (mkConnection (committed c) None) tt eq_refl).
  cbv beta. rewrite (bind_run _ _ _ _ _ (statement_view _ (mkConnection (committed c) None) _ _ E1)). cbv beta.
  by rewrite (bind_run _ _ _ _ _ (statement_view _ (mkConnection _ (Some _)) _ _ E2)).
Qed.

(** Claim C37.  When a snapshot is withdrawn, no build whatever has a cut-off date, for
    a refresh or for a proof, until another build is walked to its validation. *)
Theorem withdrawal_revokes fs float_repr c c' main_path db_path build_id proof_id quality : withdrawal c c' ->
  is_Ok (validation_coverage_cutoff_for_build fs (view c') main_path db_path build_id) = false /\
  is_Ok (publication_cutoff_for_build_impl fs float_repr (view c') main_path build_id proof_id quality) = false.
Proof.
  intros H. apply withdrawn_cutoff. intros p. destruct H as [started uuid|error|b created staging contract cpv qpv c' H|b error Hok].
  - simpl. destruct (db_policy (view (begin_ c))); intros [= <-]; simpl; split; discriminate.
  - simpl. destruct (db_policy (view (begin_ c))); intros [= <-]; simpl; split; discriminate.
  - unfold persist_building_publication, mbind, action_bind in H. rewrite (statement_view _ _ _ _ eq_refl) in H.
    unfold statement at 1 in H. simpl in H. unfold insert_publication in H. simpl in H.
    case_bool_decide; [done|]. simpl in H. injection H as <-. simpl. destruct (db_policy (view c)); intros [= <-]; simpl; split; discriminate.
  - rewrite reject_run by done. simpl. destruct (db_policy (committed c)); [|done]. intros [= <-]; simpl; split; discriminate.
Qed.

(** ** Readable snapshots *)

(** A policy that says ready names a snapshot whose manifest is embedded. *)
Definition readable_linked (db : database) : Prop :=
  forall p, db_policy db = Some p -> lp_snapshot_ready p <> 0 ->
  exists id, lp_active_snapshot_id p = Some id /\ id ∈ map mf_snapshot_id (db_manifests db).

(** The sessions of all clients, the triggers, and transactions ended by anybody.
    [transition_policy] is called without [readable]. *)
Inductive publication_step (c : connection_to database) : connection_to database -> Prop :=
  | step_begin_sync started uuid : publication_step c (begin_sync started uuid c).1
  | step_fail_sync error : publication_step c (fail_sync error c).1
  | step_building build_id created staging contract cpv qpv :
      publication_step c (persist_building_publication build_id created staging contract cpv qpv c).1
  | step_synced build_id : publication_step c (persist_synced_publication build_id c).1
  | step_synced_policy : publication_step c (persist_synced_policy_row c).1
  | step_validating build_id : publication_step c (mark_publication_validating build_id c).1
  | step_rejected build_id reason : publication_step c (mark_publication_rejected build_id reason c).1
  | step_transition state error id : publication_step c (transition_policy state error id false c).1
  | step_ready_on_staging build_id id artifact manifest run seq_ at_ json :
      publication_step c (persist_ready_on_staging build_id id artifact manifest run seq_ at_ json c).1
  | step_reject build_id error : publication_step c (reject_publication_after_failure build_id error c).1
  | step_embed id at_ run seq_ json artifact manifest build_id :
      publication_step c (embed_ready_manifest id at_ run seq_ json artifact manifest build_id c).1
  | step_quality build_id status version at_ summary results :
      publication_step c (persist_quality_results build_id status version at_ summary results c).1
  | step_fact : publication_step c (statement (fun db => Ok (invalidate_snapshot db, tt)) c).1
  | step_commit_session : publication_step c (commit_session c).1
  | step_rollback_session : publication_step c (rollback_session c).1.

Abbreviation keeps m := (preserves readable_linked m) (only parsing).

Lemma keeps_commit : keeps commit_session.
Proof. intros c. apply everywhere_commit. Qed.

Lemma keeps_rollback : keeps rollback_session.
Proof. intros c. apply everywhere_rollback. Qed.

(** A statement on the policy row that makes it unreadable, or leaves it alone. *)
Lemma keeps_policy (set_ : policy_row -> policy_row) :
  (forall r, lp_snapshot_ready (set_ r) = 0 \/
     (lp_snapshot_ready (set_ r) = lp_snapshot_ready r /\ lp_active_snapshot_id (set_ r) = lp_active_snapshot_id r)) ->
  keeps (statement (update_policy set_)).
Proof.
  intros Hset. apply preserves_statement. intros db db' u Hdb H. unfold update_policy in H.
  apply bind_Ok in H as (? & _ & [= <- _]). intros p Hp Hr. simpl in *. apply fmap_Some in Hp as (r & Hr0 & ->).
  destruct (Hset r) as [E|[E ->]]; [congruence|]. rewrite E in Hr. by apply (Hdb r).
Qed.

Lemma keeps_upsert_policy new (set_ : policy_row -> policy_row) : lp_snapshot_ready new = 0 ->
  (forall r, lp_snapshot_ready (set_ r) = 0) -> keeps (statement (upsert_policy new set_)).
Proof.
  intros Hn Hset. apply preserves_statement. intros db db' u _ [= <- _] p [= <-] Hr. exfalso.
  destruct (db_policy db); auto.
Qed.

(** A statement on the other tables. *)
Lemma keeps_other (f : database -> result (database * unit)) :
  (forall db db' u, f db = Ok (db', u) -> db_policy db' = db_policy db /\ db_manifests db' = db_manifests db) ->
  keeps (statement f).
Proof.
  intros Hf. apply preserves_statement. intros db db' u Hdb H p Hp Hr. destruct (Hf _ _ _ H) as [E ->].
  rewrite E in Hp. by apply Hdb.
Qed.

Lemma keeps_publication build_id set_ : keeps (statement (update_publication build_id set_)).
Proof.
  apply keeps_other. intros db db' u H. unfold update_publication in H. by apply bind_Ok in H as (? & _ & [= <- _]).
Qed.

Lemma linked_replace row db db' u : replace_manifest row db = Ok (db', u) -> readable_linked db ->
  readable_linked db' /\ mf_snapshot_id row ∈ map mf_snapshot_id (db_manifests db').
Proof.
  unfold replace_manifest. intros [= <- _] Hdb. simpl. rewrite map_app. split; [|apply elem_of_app; right; by left].
  intros p Hp Hr. destruct (Hdb p Hp Hr) as (id & Hid & Hin). exists id. split; [done|]. simpl. rewrite map_app.
  apply elem_of_app. destruct (decide (id = mf_snapshot_id row)) as [->|Hne]; [right; by left|left].
  apply list_elem_of_fmap in Hin as (r & -> & Hin). apply list_elem_of_fmap. exists r. split; [done|].
  by apply list_elem_of_filter.
Qed.

(** The manifest is embedded before the policy says ready, in one transaction. *)
Lemma keeps_embed id at_ run seq_ json artifact manifest build_id :
  keeps (embed_ready_manifest id at_ run seq_ json artifact manifest build_id).
Proof.
  intros c Hc. unfold embed_ready_manifest. set (embed := statement (fun db => _ ← bind_ints _; _)).
  set (rest := fun _ : unit => _ ← statement (update_publication _ _); commit_session).
  assert (Hrest : keeps (rest tt)) by (apply preserves_bind; [apply keeps_publication|intros; apply keeps_commit]).
  pose proof (everywhere_view _ _ Hc) as Hv. unfold embed, statement. change (view (begin_ c)) with (view c).
  unfold mbind, action_bind. destruct (result_bind _ _ _ _) as [[db1 []]|e] eqn:E1; [|by apply everywhere_begin].
  apply bind_Ok in E1 as (? & _ & E1). destruct (linked_replace _ _ _ _ E1 Hv) as [H1 Hin]. simpl in Hin.
  unfold begin_, view. simpl. destruct (update_policy (policy_ready 1 id) db1) as [[db2 []]|e] eqn:E2.
  2:{ split; [exact (proj1 Hc)|]. by intros ? [= <-]. }
  apply Hrest. split; [exact (proj1 Hc)|]. intros ? [= <-]. unfold update_policy in E2.
  apply bind_Ok in E2 as (? & _ & [= <-]). intros p Hp _. simpl in *. apply fmap_Some in Hp as (r & _ & ->). by exists id.
Qed.

Lemma keeps_reject build_id error : keeps (reject_publication_after_failure build_id error).
Proof.
  intros c Hc. unfold reject_publication_after_failure. cbv zeta.
  match goal with |- context [match ?m c with _ => _ end] => set (attempt := m); assert (Hm : keeps attempt) end.
  { apply preserves_bind; [apply keeps_rollback|intros _]. apply preserves_bind; [apply keeps_publication|intros _].
    apply preserves_bind; [|intros _; apply keeps_commit]. apply keeps_policy. intros r. by left. }
  specialize (Hm c Hc). destruct (attempt c) as [c' [a|e]]; [done|]. case_decide; [|done]. by apply everywhere_rollback.
Qed.

Lemma publication_step_keeps c c' : publication_step c c' -> everywhere readable_linked c -> everywhere readable_linked c'.
Proof.
  intros H Hc. destruct H; revert c Hc.
  - change (keeps (begin_sync started uuid)). unfold begin_sync.
    apply preserves_bind; [by apply keeps_upsert_policy|intros _]. apply preserves_bind; [apply keeps_commit|intros _].
    apply preserves_ret.
  - change (keeps (fail_sync error)). apply preserves_bind; [by apply keeps_upsert_policy|intros _; apply keeps_commit].
  - change (keeps (persist_building_publication build_id created staging contract cpv qpv)).
    apply preserves_bind; [by apply keeps_upsert_policy|intros _]. apply preserves_bind; [|intros _; apply keeps_commit].
    apply keeps_other. intros db db' u H. unfold insert_publication in H. by apply bind_Ok in H as (? & _ & [= <- _]).
  - change (keeps (persist_synced_publication build_id)).
    apply preserves_bind; [apply keeps_publication|intros _; apply keeps_commit].
  - change (keeps persist_synced_policy_row). apply keeps_policy. intros r. by right.
  - change (keeps (mark_publication_validating build_id)).
    apply preserves_bind; [apply keeps_publication|intros _; apply keeps_commit].
  - change (keeps (mark_publication_rejected build_id reason)).
    apply preserves_bind; [apply keeps_publication|intros _; apply keeps_commit].
  - change (keeps (transition_policy state error id false)). apply preserves_bind; [apply preserves_lift|intros _].
    apply preserves_bind; [|intros _; apply keeps_commit]. apply keeps_policy. intros r. by left.
  - change (keeps (persist_ready_on_staging build_id id artifact manifest run seq_ at_ json)).
    apply preserves_bind; [|intros _; apply preserves_bind; [|intros _; apply keeps_commit]].
    + apply keeps_other. intros db db' u H. apply bind_Ok in H as (? & _ & H). unfold update_publication in H.
      by apply bind_Ok in H as (? & _ & [= <- _]).
    + apply keeps_policy. intros r. by left.
  - apply (keeps_reject build_id error).
  - apply (keeps_embed id at_ run seq_ json artifact manifest build_id).
  - change (keeps (persist_quality_results build_id status version at_ summary results)).
    apply preserves_bind; [|intros _; apply keeps_commit]. apply keeps_other. intros db db' u H.
    by apply bind_Ok in H as (? & _ & [= <- _]).
  - match goal with |- forall c, _ -> everywhere _ (?m c).1 => change (keeps m) end.
    apply preserves_statement. intros db db' u _ [= <- _] p Hp Hr. simpl in Hp.
    apply fmap_Some in Hp as (r & _ & ->). done.
  - apply keeps_commit.
  - apply keeps_rollback.
Qed.

(** Claim C36.  Whatever the sessions of all clients do, in any order, with failures,
    commits and rollbacks anywhere, a policy that says ready, committed or pending,
    names a snapshot whose manifest is embedded in the same database. *)
Theorem ready_snapshot_embedded db c : readable_linked db -> rtc publication_step (mkConnection db None) c ->
  everywhere readable_linked c.
Proof.
  intros Hdb H. assert (Hc : everywhere readable_linked (mkConnection db None)) by by split.
  induction H as [|c1 c2 c3 Hs _ IH]; [done|]. apply IH. by eapply publication_step_keeps.
Qed.

(** ** A build on the staging file *)

Definition staging_info : file_info := mkFileInfo 1 7 true 1 33152.

(** One file, which the descriptor 3 has open. *)
Definition staging_fs : filesystem :=
  let stat p := if p =s "/staging.db" then Some staging_info else None in
  mkFilesystem stat stat (fun n => if n =? 3 then Some staging_info else None) Ok None.

Definition synced_database (t : tables) : database :=
  mkDatabase t [] None [] [] [4; 5] [("jquants_records", 5)] [] [].

(** Noon of 31 January 2024, in UTC. *)
Definition staging_time : datetime := ymd2ord 2024 1 31 * day_micros + 43200000000.

Definition validating_connection (t : tables) (policy_version : string) : connection_to database :=
  (open_build "build-1" (dt_isoformat staging_time) "/staging.db" "contract" policy_version "quality"
     (mkConnection (synced_database t) None)).1.

Lemma fresh_build_cutoff_witness :
  validation_coverage_cutoff_for_build staging_fs (committed (validating_connection (mkTables [] [] []) "v1"))
    "/dev/fd/3" "/staging.db" (JStr "build-1") = Ok "2024-01-31" /\
  matches staging_fs "/dev/fd/3" "/staging.db" "/other.db" = Ok (false, false).
Proof.
  split; [|vm_compute; reflexivity].
  destruct (fresh_build_cutoff staging_fs "build-1" staging_time "/staging.db" "contract" "v1" "quality"
    (synced_database (mkTables [] [] [])) "/dev/fd/3" "/staging.db") as (c & Hc & _ & H & _).
  - split; [constructor|done].
  - apply not_elem_of_nil.
  - done.
  - vm_compute. reflexivity.
  - done.
  - vm_compute. reflexivity.
  - unfold validating_connection. rewrite Hc. exact H.
Defined.

Lemma withdrawal_revokes_witness :
  is_Ok (validation_coverage_cutoff_for_build staging_fs
    (view (fail_sync "lost" (validating_connection (mkTables [] [] []) "v1")).1) "/dev/fd/3" "/staging.db" (JStr "build-1"))
    = false.
Proof.
  apply (withdrawal_revokes staging_fs id (validating_connection (mkTables [] [] []) "v1") _ "/dev/fd/3" "/staging.db"
    (JStr "build-1") JNull true). apply withdraw_fail.
Defined.

Lemma ready_snapshot_embedded_witness :
  everywhere readable_linked (embed_ready_manifest "s1" "2024-02-01" 1 5 "{}" "/a" "/m" "build-1"
    (begin_sync "2024-02-01" "1" (mkConnection (synced_database (mkTables [] [] [])) None)).1).1.
Proof.
  apply (ready_snapshot_embedded (synced_database (mkTables [] [] []))).
  - intros p H. discriminate H.
  - eapply rtc_l; [apply step_begin_sync|]. eapply rtc_l; [apply step_embed|]. apply rtc_refl.
Defined.

(** After embedding, the policy is ready, and a change of a fact withdraws it. *)
Example ready_then_invalid :
  let embed := embed_ready_manifest "s1" "2024-02-01" 1 5 "{}" "/a" "/m" "build-1"
                 (validating_connection (mkTables [] [] []) "v1") in
  let ready db := (fun p => (lp_snapshot_ready p, lp_publication_state p, lp_active_snapshot_id p)) <$> db_policy db in
  ready (view embed.1) = Some (1, "READY", Some "s1") /\
  ready (invalidate_snapshot (view embed.1)) = Some (0, "READY", None).
Proof. by vm_compute. Qed.
