(* ===== verification/FactStore.v ===== *)
(** * FactStore: fact tables and their amendment history (packages/data_plane/storage/schema.py,
    storage/sqlite_store.py, and [migrate_before_write] of storage/migrate_jquants_keys.py)

    A primary table has one current row for each natural key; a second table keeps the
    rows amendments displaced.  A row is a dict with the columns of its table.  What SQLite
    makes of a value in a column of a type is the parameter [affinity]; the triggers on the
    fact tables, which take the READY flag from the local snapshot, are part of each
    statement. *)

From S2P Require Import Prelude PyDate PyTime Json JsonText Utf8 JstTime Receipt Transaction LedgerStore Publication.

Local Open Scope Z_scope.

Definition frow : Set := list (string * json).

(** ** Schema *)

Record column := mkColumn { col_name : string; col_type : string; col_not_null : bool; col_default : option json }.

Definition text_not_null (n : string) : column := mkColumn n "TEXT" true None.
Definition text_default (n : string) : column := mkColumn n "TEXT" true (Some (JStr "")).
Definition text_column (n : string) : column := mkColumn n "TEXT" false None.
Definition real_column (n : string) : column := mkColumn n "REAL" false None.

Definition jquants_listed_info : list column :=
  map text_not_null ["source"; "code"; "snapshot_date"; "event_time"; "available_at"; "ingested_at"] ++
  map text_column ["company_name"; "company_name_en"; "sector_17_code"; "sector_17_name"; "sector_33_code";
    "sector_33_name"; "scale_category"; "market_code"; "market_name"; "listing_date"; "raw_payload"].

Definition jquants_daily_bars : list column :=
  map text_not_null ["source"; "code"; "date"; "event_time"; "available_at"; "ingested_at"] ++
  map real_column ["open"; "high"; "low"; "close"; "volume"; "turnover_value"; "adjustment_open"; "adjustment_high";
    "adjustment_low"; "adjustment_close"; "adjustment_volume"; "morning_adjustment_close"; "morning_turnover_value";
    "morning_adjustment_volume"; "afternoon_adjustment_close"; "afternoon_turnover_value";
    "afternoon_adjustment_volume"] ++
  [text_column "raw_payload"; real_column "market_cap"].

Definition jquants_market_calendar : list column :=
  map text_not_null ["source"; "date"; "event_time"; "available_at"; "ingested_at"] ++
  map text_column ["holiday_division"; "raw_payload"].

Definition jquants_records : list column :=
  map text_not_null ["source"; "dataset"; "natural_key"; "event_time"; "available_at"; "ingested_at"] ++
  map text_column ["payload"; "raw_payload"].

Definition jsda_bond_trades : list column :=
  map text_not_null ["source"; "trade_date"] ++ map text_default ["isin"; "issuer_name"] ++
  map text_not_null ["event_time"; "available_at"; "ingested_at"] ++
  [real_column "coupon_rate"; text_column "maturity_date"] ++
  map real_column ["high_yield"; "low_yield"; "close_yield"; "trade_amount_mil_jpy"] ++ [text_column "raw_payload"].

Definition jsda_otc_bond_reference_prices : list column :=
  map text_not_null ["source"; "publication_label_date"; "quote_effective_date"] ++
  map text_default ["security_code"; "bond_name"] ++
  map text_not_null ["quote_effective_time"; "event_time"; "available_at"; "ingested_at"] ++
  [real_column "coupon_rate"; text_column "maturity_date"] ++
  map real_column ["average_price"; "average_yield"; "median_price"; "median_yield"; "high_price"; "high_yield";
    "low_price"; "low_yield"] ++
  [text_column "individual_investor_flag"; mkColumn "source_row_number" "INTEGER" false None] ++
  map text_not_null ["source_url"; "raw_digest"; "segment_id"; "source_format"] ++
  map text_column ["correction_published_at"; "raw_payload"; "correction_publication_label"; "correction_source_url";
    "correction_raw_digest"].

Definition jsda_repo_rates : list column :=
  map text_not_null ["source"; "as_of_date"] ++ map text_default ["tenor"; "rate_type"] ++
  map text_not_null ["event_time"; "available_at"; "ingested_at"] ++ [real_column "rate"; text_column "raw_payload"].

Definition jsda_corporate_bond_transactions : list column :=
  map text_not_null ["source"; "publication_label_date"; "trade_date"] ++
  map text_default ["security_code"; "source_record_id"; "issuer_name"; "isin"] ++
  map text_not_null ["event_time"; "available_at"; "ingested_at"] ++
  [real_column "coupon_rate"] ++
  map text_column ["maturity_date"; "transaction_type"; "buyer_counterparty_type"; "seller_counterparty_type"] ++
  map real_column ["face_value_mil_jpy"; "trade_amount_mil_jpy"; "execution_price"; "execution_yield"] ++
  map text_not_null ["source_url"; "raw_digest"; "segment_id"; "source_format"] ++
  map text_column ["correction_published_at"; "correction_publication_label"; "correction_source_url";
    "correction_raw_digest"; "raw_payload"].

Definition SCHEMA : list (string * list column) :=
  [("jquants_listed_info", jquants_listed_info); ("jquants_daily_bars", jquants_daily_bars);
   ("jquants_market_calendar", jquants_market_calendar); ("jquants_records", jquants_records);
   ("jsda_bond_trades", jsda_bond_trades); ("jsda_otc_bond_reference_prices", jsda_otc_bond_reference_prices);
   ("jsda_repo_rates", jsda_repo_rates); ("jsda_corporate_bond_transactions", jsda_corporate_bond_transactions)].

(** [NATURAL_KEYS], which are the primary keys of the tables too. *)
Definition NATURAL_KEYS : list (string * list string) :=
  [("jquants_listed_info", ["source"; "code"; "snapshot_date"]); ("jquants_daily_bars", ["source"; "code"; "date"]);
   ("jquants_market_calendar", ["source"; "date"]); ("jquants_records", ["source"; "dataset"; "natural_key"]);
   ("jsda_bond_trades", ["source"; "trade_date"; "isin"; "issuer_name"]);
   ("jsda_otc_bond_reference_prices", ["source"; "publication_label_date"; "security_code"; "bond_name"]);
   ("jsda_repo_rates", ["source"; "as_of_date"; "tenor"; "rate_type"]);
   ("jsda_corporate_bond_transactions",
     ["source"; "publication_label_date"; "trade_date"; "security_code"; "source_record_id"])].

(** [d.get(k)] of a dict of any type. *)
Fixpoint assoc {A} (k : string) (d : list (string * A)) : option A :=
  match d with
  | [] => None
  | (k', v) :: d => if k =s k' then Some v else assoc k d
  end.

Definition columns_of (table : string) : option (list column) := assoc table SCHEMA.
Definition key_columns (table : string) : list string := default [] (assoc table NATURAL_KEYS).
Definition version_columns (table : string) : list string := key_columns table ++ ["available_at"; "ingested_at"].

Example schema_keys : forallb (fun p => match columns_of p.1 with
    | Some cols => forallb (fun k => bool_decide (k ∈ map col_name (List.filter col_not_null cols))) (p.2 ++ ["available_at"; "ingested_at"])
    | None => false
    end) NATURAL_KEYS = true /\ map fst SCHEMA = map fst NATURAL_KEYS /\
  forallb (fun p => bool_decide (NoDup (map col_name p.2))) SCHEMA = true.
Proof. by vm_compute. Qed.

(** ** The store *)

Record facts := mkFacts {
  f_primary : gmap string (list frow);
  f_revisions : gmap string (list frow);
  f_migrated : list (string * string);
  f_policy : option policy_row;
}.

Definition primary (table : string) (f : facts) : list frow := default [] (f_primary f !! table).
Definition revisions (table : string) (f : facts) : list frow := default [] (f_revisions f !! table).

Definition FACT_MUTATION_ERROR : string := "fact mutation invalidated research snapshot".

(** The triggers [invalidate_snapshot_*]. *)
Definition invalidate_snapshot (p : policy_row) : policy_row :=
  mkPolicyRow (lp_require_manifest p) 0 (lp_sync_started_at p) (Some FACT_MUTATION_ERROR) (lp_publication_state p)
    (lp_active_build_id p) None.

Definition set_primary (table : string) (rows : list frow) (f : facts) : facts :=
  mkFacts (<[table := rows]> (f_primary f)) (f_revisions f) (f_migrated f) (invalidate_snapshot <$> f_policy f).
Definition set_revisions (table : string) (rows : list frow) (f : facts) : facts :=
  mkFacts (f_primary f) (<[table := rows]> (f_revisions f)) (f_migrated f) (invalidate_snapshot <$> f_policy f).
Definition set_migrated (marks : list (string * string)) (f : facts) : facts :=
  mkFacts (f_primary f) (f_revisions f) marks (f_policy f).

(** The values of some columns. *)
Definition row_key (cols : list string) (row : frow) : list json := map (fun k => getv k row) cols.

(** ** Statements *)

(** What binding a Python value to a statement gives. *)
Definition bind_value (v : json) : result json :=
  match v with
  | JNull | JStr _ => Ok v
  | JBool b => Ok (JInt (if b then 1 else 0))
  | JInt n => _ ← ensure (int64 n) OverflowError "Python int too large to convert to SQLite INTEGER"; Ok v
  | JFloat r => Ok (if r =s "nan" then JNull else v)
  | JList _ | JDict _ => raise SqliteError "Error binding parameter"
  end.

Abbreviation faction := (action_on facts).

Section Sqlite.
Variable affinity : string -> json -> json.

(** The row [INSERT INTO table (cols) VALUES (vals)] makes. *)
Definition made_row (columns : list column) (cells : list (string * json)) : frow :=
  map (fun c => (col_name c, match assoc (col_name c) cells with
                             | Some v => affinity (col_type c) v
                             | None => default JNull (col_default c)
                             end)) columns.

(** The cells of a row that is bound to the columns [cols]. *)
Definition bound_cells (columns : list column) (cols : list string) (r : frow) : result (list (string * json)) :=
  _ ← ensure (forallb (fun c => bool_decide (c ∈ map col_name columns)) cols) SqliteError "table has no such column";
  mapR (fun c => v ← bind_value (getv c r); Ok (c, v)) cols.

Definition not_nulls (columns : list column) (row : frow) : bool :=
  forallb (fun c => negb (col_not_null c) || negb (bool_decide (getv (col_name c) row = JNull))) columns.

(** [SET c = excluded.c] for the columns of the statement that are not in [fixed]. *)
Definition overlay (fixed cols : list string) (new old : frow) : frow :=
  map (fun p => (p.1, if bool_decide (p.1 ∈ cols) && negb (bool_decide (p.1 ∈ fixed)) then getv p.1 new else p.2)) old.

(** [ON CONFLICT(key) DO UPDATE]; rows with a NULL in the key never conflict. *)
Definition upsert_on (key cols : list string) (new : frow) (rows : list frow) : list frow :=
  if bool_decide (JNull ∈ row_key key new) || negb (bool_decide (row_key key new ∈ map (row_key key) rows))
  then rows ++ [new]
  else map (fun old => if bool_decide (row_key key old = row_key key new) then overlay key cols new old else old) rows.

Definition with_columns {A} (table : string) (f : list column -> result A) : result A :=
  columns ← of_option OutsideModel "not a fact table" (columns_of table); f columns.

(** One row of [INSERT INTO table ... ON CONFLICT(key) DO UPDATE]. *)
Definition upsert_row (table : string) (cols : list string) (r : frow) (f : facts) : result (facts * unit) :=
  with_columns table (fun columns =>
    cells ← bound_cells columns cols r;
    let new := made_row columns cells in
    _ ← ensure (not_nulls columns new) IntegrityError "NOT NULL constraint failed";
    Ok (set_primary table (upsert_on (key_columns table) cols new (primary table f)) f, tt)).

(** One row of [INSERT OR REPLACE INTO table]: the default takes the place of a NULL. *)
Definition replace_row (table : string) (cols : list string) (r : frow) (f : facts) : result (facts * unit) :=
  with_columns table (fun columns =>
    cells ← bound_cells columns cols r;
    let new := map (fun c => (col_name c, match getv (col_name c) (made_row columns cells), col_default c with
                                          | JNull, Some d => if col_not_null c then d else JNull
                                          | v, _ => v
                                          end)) columns in
    _ ← ensure (not_nulls columns new) IntegrityError "NOT NULL constraint failed";
    let key := key_columns table in
    let others := filter (fun old => row_key key old <> row_key key new) (primary table f) in
    Ok (set_primary table (others ++ [new]) f, tt)).

(** One row of [_archive_revisions]; the revision tables have no constraint but their
    unique index. *)
Definition archive_row (table : string) (cols : list string) (r : frow) (f : facts) : result (facts * unit) :=
  with_columns table (fun columns =>
    cells ← bound_cells columns cols r;
    let new := map (fun c => (col_name c, match assoc (col_name c) cells with
                                          | Some v => affinity (col_type c) v
                                          | None => JNull
                                          end)) columns in
    Ok (set_revisions table (upsert_on (version_columns table) cols new (revisions table f)) f, tt)).

(** [_archive_revisions], for tables that have natural keys and so a revision table. *)
Definition archive_revisions (table : string) (rows : list frow) : faction unit :=
  match rows with
  | [] => mret tt
  | first :: _ => executemany (archive_row table (keys first)) rows
  end.

(** ** Values *)

(** [json.dumps(v, sort_keys=True, ensure_ascii=False)] *)
Definition dumps_float (r : string) : string :=
  if r =s "nan" then "NaN" else if r =s "inf" then "Infinity" else if r =s "-inf" then "-Infinity" else r.

Fixpoint dumps_sorted (j : json) : string :=
  match j with
  | JNull => "null"
  | JBool b => if b then "true" else "false"
  | JInt n => show_Z n
  | JFloat r => dumps_float r
  | JStr s => dumps_str_unicode s EmptyString
  | JList l => "[" +:+ String.concat ", " (map dumps_sorted l) +:+ "]"
  | JDict d =>
      "{" +:+ String.concat ", " (map (fun p => dumps_str_unicode p.1 EmptyString +:+ ": " +:+ p.2)
                (py_sorted key_leb (map (fun p => (p.1, dumps_sorted p.2)) d))) +:+ "}"
  end.

Variable float_repr : string -> string.

(** [_payload_signature] *)
Definition payload_signature (row : frow) (cols skip : list string) : result string :=
  let raw := getv "raw_payload" row in
  if bool_decide (raw = JNull) || bool_decide (raw = JStr "")
  then Ok (dumps_sorted (JDict (map (fun c => (c, getv c row)) (filter (fun c => c ∉ skip) cols))))
  else match raw with
       | JStr text =>
           match json_loads float_repr text with
           | Ok obj => Ok (dumps_sorted obj)
           | Err e => if decide (exn_kind e = ValueError) then Ok text else Err e
           end
       | _ => Ok (dumps_sorted raw)
       end.

Definition earlier_available (a b : string) : result string :=
  da ← parse_dt a; db ← parse_dt b; Ok (to_iso (if da <=? db then da else db)).

Definition later_available (a b : string) : result string :=
  da ← parse_dt a; db ← parse_dt b; Ok (to_iso (if db <=? da then da else db)).

(** ** The migration before a write *)

Definition LEGACY_KEY_DATASETS : list string :=
  ["equities_bars_minute"; "equities_trades"; "derivatives_bars_daily_options_225"; "td_list"; "td_files"; "td_bulk"].

(** The datasets of a batch whose keys have changed, each once; a list or a dict cannot
    be a key of [dict.fromkeys]. *)
Definition legacy_datasets (datasets : list json) : result (list string) :=
  names ← mapR (fun d => match d with
                         | JStr s => Ok [s]
                         | JList _ | JDict _ => raise TypeError "unhashable type"
                         | _ => Ok []
                         end) datasets;
  Ok (filter (fun d => d ∈ LEGACY_KEY_DATASETS)
        (fold_left (fun seen d => if bool_decide (d ∈ seen) then seen else seen ++ [d]) (concat names) [])).

Definition delete_dataset (dataset : string) (f : facts) : result (facts * Z) :=
  let rows := primary "jquants_records" f in
  let kept := filter (fun row => getv "dataset" row <> JStr dataset) rows in
  Ok (if (length kept =? length rows)%nat then f else set_primary "jquants_records" kept f,
      Z.of_nat (length rows - length kept)).

Definition mark_migrated (dataset now : string) (f : facts) : result (facts * unit) :=
  Ok (set_migrated (filter (fun m => m.1 <> dataset) (f_migrated f) ++ [(dataset, now)]) f, tt).

Definition migrate_before_write (datasets : list json) (now : string) : faction Z :=
  pending ← lift (legacy_datasets datasets);
  match pending with
  | [] => mret 0
  | _ =>
      done ← select (fun f => map fst (f_migrated f));
      counts ← traverse (fun d => n ← statement (delete_dataset d); _ ← statement (mark_migrated d now); mret n)
                 (filter (fun d => d ∉ done) pending);
      mret (fold_left Z.add counts 0)
  end.

(** ** [SqliteStore] *)

(** A value of a natural key; the tables compare texts. *)
Definition key_value (r : frow) (k : string) : result json :=
  v ← of_option KeyError "key" (get k r);
  match v with
  | JStr _ | JNull => Ok v
  | _ => raise OutsideModel "a natural key value that is not a text"
  end.

Definition key_of (table : string) (r : frow) : result (list json) := mapR (key_value r) (key_columns table).

(** The row of the table with a key; a key with a NULL matches none. *)
Definition row_at (table : string) (key : list json) (f : facts) : option frow :=
  if bool_decide (JNull ∈ key) then None
  else List.find (fun row => bool_decide (row_key (key_columns table) row = key)) (primary table f).

(** Dicts with tuples of key values as keys. *)
Definition key_map : Type := list (list json * frow).

Fixpoint lookup_key (key : list json) (m : key_map) : option frow :=
  match m with
  | [] => None
  | (k, row) :: m => if bool_decide (k = key) then Some row else lookup_key key m
  end.

(** A later entry hides an earlier one. *)
Definition set_key (key : list json) (row : frow) (m : key_map) : key_map := (key, row) :: m.

(** [_existing_by_key] *)
Definition existing_by_key (table : string) (rows : list frow) : faction key_map :=
  ks ← lift (mapR (key_of table) rows);
  select (fun f => omap (fun key => ((fun row => (key, row)) <$> row_at table key f)) ks).

(** The first pass over a batch: no row without a canonical [available_at]. *)
Definition admit_row (r : frow) : result frow :=
  let av := getv "available_at" r in
  _ ← ensure (is_available_at_known av) MissingAvailableAt "missing available_at - PIT requires available_at";
  s ← validate_available_at av;
  Ok (dict_set "available_at" (JStr s) r).

(** The columns of a batch, in the order they first appear. *)
Definition batch_columns (rows : list frow) : list string :=
  fold_left (fun cols k => if bool_decide (k ∈ cols) then cols else cols ++ [k]) (concat (map keys rows)) [].

(** The second pass, on a row: what is known of each key, the displaced rows, and the
    rows to write. *)
Record batch := mkBatch { b_existing : key_map; b_revisions : list frow; b_rows : list frow }.

(** The row to write for a row of the batch, given what is known of its key, and the rows
    it displaces. *)
Definition adjust (table : string) (cols : list string) (known : option frow) (r : frow) : result (frow * list frow) :=
  let skip := key_columns table ++ ["available_at"; "ingested_at"] in
  match known with
  | Some ex =>
      new ← payload_signature r cols skip;
      old ← payload_signature ex cols skip;
      if new =s old then
        av ← earlier_available (py_str (getv "available_at" ex)) (py_str (getv "available_at" r));
        Ok (dict_set "available_at" (JStr av) r, [])
      else if truthy (getv "ingested_at" r) then
        av ← later_available (py_str (getv "available_at" r)) (py_str (getv "ingested_at" r));
        Ok (dict_set "available_at" (JStr av) r, [ex])
      else Ok (r, [ex])
  | None => Ok (r, [])
  end.

Definition upsert_step (table : string) (cols : list string) (b : batch) (r : frow) : result batch :=
  key ← key_of table r;
  p ← adjust table cols (lookup_key key (b_existing b)) r;
  Ok (mkBatch (set_key key p.1 (b_existing b)) (b_revisions b ++ p.2) (b_rows b ++ [p.1])).

(** [try: ... except Exception: rollback; raise] *)
Definition or_rollback {A} (m : faction A) : faction A := fun c =>
  match m c with
  | (c', Err e) => (rollback c', Err e)
  | r => r
  end.

Definition commit_if (b : bool) : faction unit := fun c => (if b then commit c else c, Ok tt).

(** [SqliteStore.upsert] *)
Definition upsert (table : string) (rows : list frow) (commit_ : bool) (now : string) : faction Z :=
  match rows with
  | [] => mret 0
  | _ =>
      rows ← lift (mapR admit_row rows);
      let cols := batch_columns rows in
      _ ← (if table =s "jquants_records"
           then migrate_before_write (filter (fun d => truthy d = true) (map (getv "dataset") rows)) now
           else mret 0);
      let key := key_columns table in
      if negb (bool_decide (key = [])) && forallb (fun k => bool_decide (k ∈ cols)) key then
        existing ← existing_by_key table rows;
        b ← lift (foldR (upsert_step table cols) (mkBatch existing [] []) rows);
        or_rollback (_ ← archive_revisions table (b_revisions b);
                     _ ← executemany (upsert_row table cols) (b_rows b);
                     _ ← commit_if commit_;
                     mret (Z.of_nat (length (b_rows b))))
      else
        or_rollback (_ ← executemany (replace_row table cols) rows;
                     _ ← commit_if commit_;
                     mret (Z.of_nat (length rows)))
  end.

Definition distinct_keys (ks : list (list json)) : bool := bool_decide (NoDup ks).

(** [fetch_exact_by_natural_keys]; its result in the order of the keys, which are lists of
    texts. *)
Definition key_text (key : list json) : list string := map py_str key.

Fixpoint texts_leb (a b : list string) : bool :=
  match a, b with
  | [], _ => true
  | _ :: _, [] => false
  | x :: a, y :: b => match String.compare x y with Lt => true | Gt => false | Eq => texts_leb a b end
  end.

Definition fetch_exact_by_natural_keys (table : string) (expected_rows : list frow) : faction (list frow) :=
  _ ← lift (ensure (negb (bool_decide (key_columns table = []))) ValueError "no governed natural-key contract for table");
  match expected_rows with
  | [] => mret []
  | _ =>
      _ ← lift (ensure (forallb (fun r => forallb (fun k => negb (bool_decide (getv k r = JNull))) (key_columns table))
                          expected_rows) ValueError "missing natural-key fields");
      ks ← lift (mapR (key_of table) expected_rows);
      _ ← lift (ensure (distinct_keys ks) ValueError "normalized rows contain duplicate natural keys");
      found ← existing_by_key table expected_rows;
      _ ← lift (ensure (forallb (fun k => present (lookup_key k found)) ks) ValueError
                  "exact natural-key reconciliation failed");
      mret (omap (fun k => lookup_key k found) (py_sorted (fun a b => texts_leb (key_text a) (key_text b)) ks))
  end.

(** [==] of a value of a column and one of a row. *)
Definition same_value (a b : json) : bool :=
  match a, b with
  | JInt n, JFloat _ => eq_int b n
  | JFloat _, JInt n => eq_int a n
  | _, _ => py_eq a b
  end.

(** [apply_exact_product_mirror]: rows to write and rows to archive. *)
Definition mirror_step (table : string) (cols : list string) (b : batch) (row : frow) : result batch :=
  key ← key_of table row;
  match lookup_key key (b_existing b) with
  | Some current =>
      if forallb (fun c => same_value (getv c current) (getv c row)) cols then Ok b
      else
        _ ← ensure (negb (same_value (getv "available_at" current) (getv "available_at" row) &&
                          same_value (getv "ingested_at" current) (getv "ingested_at" row))) ValueError
              "exact product version identity would be overwritten";
        Ok (mkBatch (set_key key row (b_existing b)) (b_revisions b ++ [current]) (b_rows b ++ [row]))
  | None => Ok (mkBatch (set_key key row (b_existing b)) (b_revisions b) (b_rows b ++ [row]))
  end.

Definition apply_exact_product_mirror (table : string) (rows : list frow) (commit_ : bool) : faction Z :=
  match rows with
  | [] => mret 0
  | first :: _ =>
      _ ← lift (ensure (negb (bool_decide (key_columns table = []))) ValueError
                  "no governed natural-key contract for table");
      let cols := keys first in
      _ ← lift (ensure (forallb (fun r => forallb (fun k => bool_decide (k ∈ cols)) (keys r) &&
                                          forallb (fun k => bool_decide (k ∈ keys r)) cols) rows) ValueError
                  "exact product rows must share one closed field set");
      _ ← lift (ensure (forallb (fun k => bool_decide (k ∈ cols)) (key_columns table)) ValueError
                  "exact product rows are missing natural-key fields");
      existing ← existing_by_key table rows;
      b ← lift (foldR (mirror_step table cols) (mkBatch existing [] []) rows);
      match b_rows b with
      | [] => mret 0
      | to_write =>
          or_rollback (_ ← (match b_revisions b with [] => mret tt | rs => archive_revisions table rs end);
                       _ ← executemany (upsert_row table cols) to_write;
                       _ ← commit_if commit_;
                       mret (Z.of_nat (length to_write)))
      end
  end.

Definition count (table : string) : faction Z := select (fun f => Z.of_nat (length (primary table f))).
Definition fetch_all (table : string) : faction (list frow) := select (primary table).
End Sqlite.

(** ** Rows and keys *)

Lemma get_map_fst (g : string * json -> json) k row :
  get k (map (fun p => (p.1, g p)) row) = (fun v => g (k, v)) <$> get k row.
Proof.
  induction row as [|[k' v] row IH]; simpl; [done|]. destruct (k =s k') eqn:E; bools; [by subst|done].
Qed.

Lemma getv_overlay fixed cols new old k : k ∈ fixed -> getv k (overlay fixed cols new old) = getv k old.
Proof.
  intros Hk. unfold getv, overlay.
  rewrite (get_map_fst (fun p => if bool_decide (p.1 ∈ cols) && negb (bool_decide (p.1 ∈ fixed)) then getv p.1 new else p.2)).
  destruct (get k old); simpl; [|done]. by rewrite (bool_decide_eq_true_2 (k ∈ fixed)), andb_false_r.
Qed.

Lemma getv_overlay_set fixed cols new old k : k ∈ cols -> k ∉ fixed -> k ∈ keys old ->
  getv k (overlay fixed cols new old) = getv k new.
Proof.
  intros Hc Hf Ho. unfold getv at 1, overlay.
  rewrite (get_map_fst (fun p => if bool_decide (p.1 ∈ cols) && negb (bool_decide (p.1 ∈ fixed)) then getv p.1 new else p.2)).
  assert (has_key k old = true) as Hk by by apply bool_decide_eq_true. rewrite has_key_get in Hk.
  destruct (get k old); [|done]. simpl. by rewrite bool_decide_eq_true_2, bool_decide_eq_false_2.
Qed.

Lemma row_key_overlay fixed cols new old ks : (forall k, k ∈ ks -> k ∈ fixed) ->
  row_key ks (overlay fixed cols new old) = row_key ks old.
Proof. intros H. apply map_ext_in. intros k Hk%list_elem_of_In. by apply getv_overlay, H. Qed.

Lemma keys_overlay fixed cols new old : keys (overlay fixed cols new old) = keys old.
Proof. unfold keys, overlay. rewrite map_map. by apply map_ext. Qed.

(** The rows of a table with a natural key. *)
Definition rows_at (cols : list string) (key : list json) (rows : list frow) : list frow :=
  filter (fun row => row_key cols row = key) rows.

Lemma elem_of_rows_at cols key rows row : row ∈ rows_at cols key rows <-> row_key cols row = key /\ row ∈ rows.
Proof. unfold rows_at. by rewrite list_elem_of_filter. Qed.

Lemma rows_at_app cols key rows more : rows_at cols key (rows ++ more) = rows_at cols key rows ++ rows_at cols key more.
Proof. apply filter_app. Qed.

Lemma rows_at_one cols key row : row_key cols row = key -> rows_at cols key [row] = [row].
Proof. intros H. unfold rows_at. by rewrite filter_cons_True. Qed.

Lemma rows_at_other cols key row : row_key cols row <> key -> rows_at cols key [row] = [].
Proof. intros H. unfold rows_at. by rewrite filter_cons_False. Qed.

Section UpsertOn.
Context (key cols : list string).

Lemma map_upsert_keys new rows :
  map (row_key key) (map (fun old => if bool_decide (row_key key old = row_key key new) then overlay key cols new old else old) rows)
  = map (row_key key) rows.
Proof.
  rewrite map_map. apply map_ext. intros old. case_bool_decide; [|done]. by apply row_key_overlay.
Qed.

(** Keys without a NULL stay distinct. *)
Definition distinct_on (rows : list frow) : Prop :=
  NoDup (filter (fun k => JNull ∉ k) (map (row_key key) rows)).

Lemma upsert_on_distinct new rows : distinct_on rows -> distinct_on (upsert_on key cols new rows).
Proof.
  unfold distinct_on, upsert_on. intros H. case_bool_decide as Hn; simpl.
  - rewrite map_app, filter_app. simpl. rewrite filter_cons_False by tauto. by rewrite app_nil_r.
  - case_bool_decide as Hin; simpl; [by rewrite map_upsert_keys|].
    rewrite map_app, filter_app. simpl. rewrite filter_cons_True by done. apply NoDup_app. split_and!; [done| |repeat constructor; by intros ?%elem_of_nil].
    intros k Hk. apply list_elem_of_filter in Hk as [_ Hk]. intros ->%list_elem_of_singleton. done.
Qed.

Lemma upsert_on_key_elem new rows : exists row, row ∈ upsert_on key cols new rows /\ row_key key row = row_key key new.
Proof.
  unfold upsert_on. case_match eqn:E.
  - exists new. split; [set_solver|done].
  - apply orb_false_iff in E as [_ E]. apply negb_false_iff, bool_decide_eq_true in E.
    apply list_elem_of_fmap in E as (old & Ek & Ho). exists (overlay key cols new old). split.
    + apply list_elem_of_fmap. exists old. by rewrite bool_decide_eq_true_2.
    + rewrite row_key_overlay by done. done.
Qed.

(** Only rows with the key of the new one change. *)
Lemma rows_at_upsert_on sub new rows k : (forall c, c ∈ sub -> c ∈ key) ->
  rows_at sub k (upsert_on key cols new rows) =
  if bool_decide (row_key sub new = k) then upsert_on key cols new (rows_at sub k rows) else rows_at sub k rows.
Proof.
  intros Hsub.
  assert (forall old, row_key sub (if bool_decide (row_key key old = row_key key new) then overlay key cols new old else old)
    = row_key sub old) as Hkeep by (intros old; case_bool_decide; [by apply row_key_overlay|done]).
  assert (forall old, row_key key old = row_key key new -> row_key sub old = row_key sub new) as Hdet.
  { intros old E. apply map_ext_in. intros c Hc%list_elem_of_In. apply Hsub in Hc.
    unfold row_key in E. clear -E Hc. induction key as [|x xs IH]; [by apply elem_of_nil in Hc|].
    simpl in E. injection E as E1 E2. apply elem_of_cons in Hc as [->|Hc]; auto. }
  assert (forall rows, rows_at sub k (map (fun old => if bool_decide (row_key key old = row_key key new)
      then overlay key cols new old else old) rows)
    = map (fun old => if bool_decide (row_key key old = row_key key new) then overlay key cols new old else old)
      (rows_at sub k rows)) as Hmap.
  { unfold rows_at. induction rows0 as [|old rs IH]; [done|]. simpl.
    destruct (decide (row_key sub old = k)) as [Ek|Ek].
    - rewrite !filter_cons_True by (by rewrite ?Hkeep). simpl. by rewrite IH.
    - rewrite !filter_cons_False by (by rewrite ?Hkeep). done. }
  unfold upsert_on. destruct (decide (row_key sub new = k)) as [Ek|Ek];
    [rewrite (bool_decide_eq_true_2 (row_key sub new = k)) by done|rewrite (bool_decide_eq_false_2 (row_key sub new = k)) by done];
    (destruct (bool_decide (JNull ∈ row_key key new)); simpl;
      [rewrite rows_at_app; first [by rewrite rows_at_one|by rewrite rows_at_other, app_nil_r]|]).
  - replace (bool_decide (row_key key new ∈ map (row_key key) (rows_at sub k rows)))
      with (bool_decide (row_key key new ∈ map (row_key key) rows)).
    + case_bool_decide; simpl; [by rewrite Hmap|by rewrite rows_at_app, rows_at_one].
    + apply bool_decide_ext. rewrite !list_elem_of_fmap. split; intros (old & Eo & Ho); exists old; (split; [done|]).
      * apply elem_of_rows_at. split; [|done]. rewrite <- Ek. by apply Hdet.
      * by apply elem_of_rows_at in Ho as [_ Ho].
  - destruct (negb _); [by rewrite rows_at_app, rows_at_other, app_nil_r|]. rewrite Hmap.
    rewrite <- (map_id (rows_at sub k rows)) at 2. apply map_ext_in. intros old Ho%list_elem_of_In.
    apply elem_of_rows_at in Ho as [Eo _]. rewrite bool_decide_eq_false_2; [done|]. intros E. apply Ek. rewrite <- Eo.
    symmetry. by apply Hdet.
Qed.
End UpsertOn.

(** ** What SQLite documents of type affinity *)

Class Affinity (affinity : string -> json -> json) : Prop := {
  affinity_text : forall s, affinity "TEXT" (JStr s) = JStr s;
  affinity_textual : forall v, v <> JNull -> exists s, affinity "TEXT" v = JStr s;
  affinity_null : forall ty, affinity ty JNull = JNull;
  affinity_some : forall ty v, v <> JNull -> affinity ty v <> JNull;
  affinity_idem : forall ty v, affinity ty (affinity ty v) = affinity ty v;
  affinity_bound : forall ty v, bind_value v = Ok v -> bind_value (affinity ty v) = Ok (affinity ty v);
}.

Lemma bind_value_idem v w : bind_value v = Ok w -> bind_value w = Ok w.
Proof.
  destruct v; simpl; try (intros [= <-]; done).
  - intros [= <-]. by destruct b.
  - intros H. binds H. injection H as <-. simpl. by rewrite E.
  - case_bool_decide; intros [= <-]; [done|]. simpl. by rewrite bool_decide_eq_false_2.
Qed.

Lemma assoc_elem {A} k (d : list (string * A)) v : assoc k d = Some v -> (k, v) ∈ d.
Proof.
  induction d as [|[k' v'] d IH]; simpl; [done|]. case_bool_decide as E.
  - intros [= ->]. subst. by left.
  - intros H. right. auto.
Qed.

Lemma assoc_None {A} k (d : list (string * A)) : assoc k d = None <-> k ∉ map fst d.
Proof.
  induction d as [|[k' v'] d IH]; simpl; [split; [intros _ H; by apply elem_of_nil in H|done]|].
  case_bool_decide as E; [subst; split; [done|intros H; exfalso; apply H; by left]|].
  rewrite IH, not_elem_of_cons. tauto.
Qed.

(** The columns every statement relies on are texts that are never NULL. *)
Definition text_column_of (columns : list column) (k : string) : bool :=
  existsb (fun c => (col_name c =s k) && (col_type c =s "TEXT") && col_not_null c) columns.

Lemma schema_checked : forallb (fun p => forallb (text_column_of p.2) ("event_time" :: version_columns p.1) &&
  bool_decide (NoDup (map col_name p.2)) &&
  forallb (fun c => match col_default c with None => true | Some d => bool_decide (d = JStr "") && (col_type c =s "TEXT") end) p.2)
  SCHEMA = true.
Proof. by vm_compute. Qed.

Lemma schema_facts table columns : columns_of table = Some columns ->
  (forall k, k ∈ "event_time" :: version_columns table -> text_column_of columns k = true) /\
  NoDup (map col_name columns) /\
  forall c d, c ∈ columns -> col_default c = Some d -> d = JStr "" /\ col_type c = "TEXT".
Proof.
  intros H%assoc_elem%list_elem_of_In. pose proof schema_checked as Hs. rewrite forallb_forall in Hs.
  apply Hs in H. cbn [fst snd] in H. apply andb_true_iff in H as [H Hd]. apply andb_true_iff in H as [Ht Hn].
  rewrite forallb_forall in Hd, Ht. apply bool_decide_eq_true in Hn. split_and!; [|done|].
  - intros k Hk%list_elem_of_In. by apply Ht.
  - intros c d Hc%list_elem_of_In Ed. apply Hd in Hc. rewrite Ed in Hc. bools. done.
Qed.

Lemma text_column_elem columns k : text_column_of columns k = true ->
  exists c, c ∈ columns /\ col_name c = k /\ col_type c = "TEXT" /\ col_not_null c = true.
Proof.
  unfold text_column_of. rewrite existsb_exists. intros (c & Hc%list_elem_of_In & H). bools. by exists c.
Qed.

(** ** Stored rows *)

Section Theory.
Context (affinity : string -> json -> json) `{Haff : Affinity affinity} (float_repr : string -> string).

(** A value a column of a type can hold. *)
Definition settled (ty : string) (v : json) : Prop := bind_value v = Ok v /\ affinity ty v = v.

Record stored_row (columns : list column) (row : frow) : Prop := mkStored {
  stored_keys : keys row = map col_name columns;
  stored_values : forall c, c ∈ columns -> settled (col_type c) (getv (col_name c) row);
}.

Lemma settled_null ty : settled ty JNull.
Proof. split; [done|apply affinity_null]. Qed.

Lemma settled_bound ty v w : bind_value v = Ok w -> settled ty (affinity ty w).
Proof. intros H%bind_value_idem. split; [by apply affinity_bound|apply affinity_idem]. Qed.

Lemma get_made (g : column -> json) columns c : NoDup (map col_name columns) -> c ∈ columns ->
  getv (col_name c) (map (fun c => (col_name c, g c)) columns) = g c.
Proof.
  unfold getv. induction columns as [|d columns IH]; simpl; [by intros _ ?%elem_of_nil|].
  intros Hn Hc. apply NoDup_cons in Hn as [Hd Hn]. apply elem_of_cons in Hc as [<-|Hc].
  - by rewrite bool_decide_eq_true_2.
  - rewrite bool_decide_eq_false_2; [by apply IH|]. intros E. apply Hd. rewrite <- E. apply list_elem_of_fmap. eauto.
Qed.

Lemma stored_made (g : column -> json) columns : NoDup (map col_name columns) ->
  (forall c, c ∈ columns -> settled (col_type c) (g c)) -> stored_row columns (map (fun c => (col_name c, g c)) columns).
Proof.
  intros Hn Hg. split; [unfold keys; by rewrite map_map|]. intros c Hc. rewrite get_made by done. by apply Hg.
Qed.

Lemma bound_cells_Ok columns cols r cells : bound_cells columns cols r = Ok cells ->
  forall k v, assoc k cells = Some v -> bind_value (getv k r) = Ok v.
Proof.
  unfold bound_cells. intros H k v Hk. binds H. apply assoc_elem in Hk. destruct (mapR_elem _ _ _ _ H Hk) as (c & _ & Hc).
  binds Hc. by injection Hc as <- <-.
Qed.

Lemma bound_cells_keys columns cols r cells : bound_cells columns cols r = Ok cells -> map fst cells = cols.
Proof.
  unfold bound_cells. intros H. binds H. apply mapR_Ok in H. clear -H. induction H as [|c p cols cells Hc _ IH]; [done|].
  binds Hc. injection Hc as <-. simpl. by rewrite IH.
Qed.

Lemma made_settled columns cols r cells c d : bound_cells columns cols r = Ok cells -> settled (col_type c) d ->
  settled (col_type c) (match assoc (col_name c) cells with Some v => affinity (col_type c) v | None => d end).
Proof.
  intros H Hd. destruct (assoc _ _) eqn:E; [|done]. eapply settled_bound. by eapply bound_cells_Ok.
Qed.

Lemma default_settled table columns c : columns_of table = Some columns -> c ∈ columns ->
  settled (col_type c) (default JNull (col_default c)).
Proof.
  intros Ht Hc. destruct (schema_facts _ _ Ht) as (_ & _ & Hd). destruct (col_default c) as [d|] eqn:E; simpl;
    [|apply settled_null]. destruct (Hd c d Hc E) as [-> ->]. split; [done|apply affinity_text].
Qed.

Lemma made_row_stored table columns cols r cells : columns_of table = Some columns ->
  bound_cells columns cols r = Ok cells -> stored_row columns (made_row affinity columns cells).
Proof.
  intros Ht Hb. destruct (schema_facts _ _ Ht) as (_ & Hn & _). apply stored_made; [done|]. intros c Hc.
  eapply made_settled; [done|]. by eapply default_settled.
Qed.

(** A row with the columns of its table is determined by its values. *)
Lemma stored_expand (row : frow) names : keys row = names -> NoDup names -> row = map (fun k => (k, getv k row)) names.
Proof.
  intros <-. induction row as [|[k v] row IH]; simpl; [done|]. intros [Hk Hn]%NoDup_cons. f_equal.
  - unfold getv. simpl. by rewrite bool_decide_eq_true_2.
  - rewrite IH at 1 by done. apply map_ext_in. intros k' Hk'%list_elem_of_In. f_equal. unfold getv. simpl.
    rewrite bool_decide_eq_false_2; [done|]. by intros ->.
Qed.

Lemma row_ext (a b : frow) names : keys a = names -> keys b = names -> NoDup names ->
  (forall k, k ∈ names -> getv k a = getv k b) -> a = b.
Proof.
  intros Ha Hb Hn H. rewrite (stored_expand a names), (stored_expand b names) by done. apply map_ext_in.
  intros k Hk%list_elem_of_In. by rewrite H.
Qed.

Lemma overlay_stored columns fixed cols new old : NoDup (map col_name columns) -> stored_row columns new -> stored_row columns old ->
  stored_row columns (overlay fixed cols new old).
Proof.
  intros Hn [Kn Vn] [Ko Vo]. split; [by rewrite keys_overlay|]. intros c Hc.
  destruct (decide (col_name c ∈ cols /\ col_name c ∉ fixed)) as [[H1 H2]|H].
  - rewrite getv_overlay_set; [by apply Vn|done|done|]. rewrite Ko. apply list_elem_of_fmap. eauto.
  - replace (getv (col_name c) (overlay fixed cols new old)) with (getv (col_name c) old); [by apply Vo|].
    unfold getv, overlay.
    rewrite (get_map_fst (fun p => if bool_decide (p.1 ∈ cols) && negb (bool_decide (p.1 ∈ fixed)) then getv p.1 new else p.2)).
    destruct (get (col_name c) old); simpl; [|done]. case_bool_decide; simpl; [|done].
    case_bool_decide; simpl; [done|]. by exfalso; apply H.
Qed.

Lemma upsert_on_elem key cols new rows row : row ∈ upsert_on key cols new rows ->
  row = new \/ row ∈ rows \/ exists old, old ∈ rows /\ row_key key old = row_key key new /\ row = overlay key cols new old.
Proof.
  unfold upsert_on. destruct (_ || _)%bool.
  - rewrite elem_of_app, list_elem_of_singleton. tauto.
  - intros (old & -> & Ho)%list_elem_of_fmap. case_bool_decide; [right; right; by exists old|by right; left].
Qed.

(** ** The invariant of the store *)

Record table_ok (table : string) (columns : list column) (f : facts) : Prop := mkTableOk {
  ok_rows : forall row, row ∈ primary table f -> stored_row columns row /\ not_nulls columns row = true;
  ok_keys : NoDup (map (row_key (key_columns table)) (primary table f));
  ok_revisions : forall row, row ∈ revisions table f -> stored_row columns row;
  ok_versions : distinct_on (version_columns table) (revisions table f);
}.

(** Each table has the rows of its schema, one for each natural key; its history has one
    row for each version of a key. *)
Definition facts_ok (f : facts) : Prop := forall table columns, columns_of table = Some columns -> table_ok table columns f.

Lemma primary_set table table' rows f :
  primary table (set_primary table' rows f) = if bool_decide (table' = table) then rows else primary table f.
Proof.
  unfold primary, set_primary. simpl. case_bool_decide as E.
  - subst. by rewrite lookup_insert_eq.
  - by rewrite lookup_insert_ne.
Qed.

Lemma revisions_set table table' rows f :
  revisions table (set_revisions table' rows f) = if bool_decide (table' = table) then rows else revisions table f.
Proof.
  unfold revisions, set_revisions. simpl. case_bool_decide as E.
  - subst. by rewrite lookup_insert_eq.
  - by rewrite lookup_insert_ne.
Qed.

(** Where the NULLs of a key are excluded, distinct keys are distinct. *)
Lemma text_key_value columns row k : text_column_of columns k = true -> stored_row columns row -> not_nulls columns row = true ->
  exists s, getv k row = JStr s.
Proof.
  intros (c & Hc & <- & Ht & Hn)%text_column_elem [_ Hv] Hr. unfold not_nulls in Hr. rewrite forallb_forall in Hr.
  specialize (Hr c (proj1 (list_elem_of_In _ _) Hc)). rewrite Hn in Hr. simpl in Hr. bools.
  destruct (Hv c Hc) as [_ Ha]. rewrite Ht in Ha. destruct (affinity_textual (getv (col_name c) row) Hr) as [s Hs].
  exists s. congruence.
Qed.

Lemma row_key_texts table columns row : columns_of table = Some columns -> stored_row columns row ->
  not_nulls columns row = true -> JNull ∉ row_key (key_columns table) row.
Proof.
  intros Ht Hs Hn (k & Hk & Hin)%list_elem_of_fmap. destruct (schema_facts _ _ Ht) as [Hc _].
  destruct (text_key_value columns row k) as [s E]; [|done|done|congruence].
  apply Hc. unfold version_columns. set_solver.
Qed.

Lemma not_nulls_overlay columns fixed cols new old : not_nulls columns new = true -> not_nulls columns old = true ->
  not_nulls columns (overlay fixed cols new old) = true.
Proof.
  unfold not_nulls. rewrite !forallb_forall. intros Hn Ho c Hc. specialize (Hn c Hc). specialize (Ho c Hc).
  destruct (col_not_null c); [|done]. simpl in *. bools. apply negb_true_iff, bool_decide_eq_false.
  unfold getv, overlay.
  rewrite (get_map_fst (fun p => if bool_decide (p.1 ∈ cols) && negb (bool_decide (p.1 ∈ fixed)) then getv p.1 new else p.2)).
  unfold getv in Ho, Hn. destruct (get (col_name c) old) as [v|]; simpl in *; [|done]. by case_match.
Qed.

Lemma table_ok_other table table' columns f g : table' <> table ->
  primary table g = primary table f -> revisions table g = revisions table f ->
  table_ok table columns f -> table_ok table columns g.
Proof. intros _ Ep Er [? ? ? ?]. split; rewrite ?Ep, ?Er; done. Qed.

Lemma upsert_on_NoDup key cols new rows : JNull ∉ row_key key new -> NoDup (map (row_key key) rows) ->
  NoDup (map (row_key key) (upsert_on key cols new rows)).
Proof.
  intros Hn H. unfold upsert_on. rewrite bool_decide_eq_false_2 by done. simpl. case_bool_decide as Hin; simpl.
  - by rewrite map_upsert_keys.
  - rewrite map_app. apply NoDup_app. split_and!; [done| |repeat constructor; by intros ?%elem_of_nil].
    intros k Hk ->%list_elem_of_singleton. done.
Qed.

Lemma upsert_row_ok table cols r f f' u : facts_ok f -> upsert_row affinity table cols r f = Ok (f', u) -> facts_ok f'.
Proof.
  unfold upsert_row, with_columns. intros Hf H. binds H. rename a into columns. rename a0 into cells.
  injection H as <- _. apply ensure_Ok in E1. destruct (columns_of table) as [cs|] eqn:Ec; [|done]. injection E as ->.
  destruct (schema_facts _ _ Ec) as (_ & Hnd & _). pose proof (made_row_stored _ _ _ _ _ Ec E0) as Hnew.
  intros t cs Ht. destruct (Hf t cs Ht) as [Hr Hk Hv Hd]. split; rewrite ?primary_set; try done; case_bool_decide; try done; subst t;
    assert (cs = columns) as -> by congruence.
  - intros row [->|[Hin|(old & Ho & _ & ->)]]%upsert_on_elem; [done|by apply Hr|]. destruct (Hr old Ho).
    split; [by apply overlay_stored|by apply not_nulls_overlay].
  - apply upsert_on_NoDup; [|done]. by eapply row_key_texts.
Qed.

Lemma archive_row_ok table cols r f f' u : facts_ok f -> archive_row affinity table cols r f = Ok (f', u) -> facts_ok f'.
Proof.
  unfold archive_row, with_columns. intros Hf H. binds H. rename a into columns. rename a0 into cells.
  injection H as <- _. destruct (columns_of table) as [cs|] eqn:Ec; [|done]. injection E as ->.
  destruct (schema_facts _ _ Ec) as (_ & Hnd & _).
  intros t cs Ht. destruct (Hf t cs Ht) as [Hr Hk Hv Hd]. split; rewrite ?revisions_set; try done; case_bool_decide; try done; subst t;
    assert (cs = columns) as -> by congruence.
  - intros row [->|[Hin|(old & Ho & _ & ->)]]%upsert_on_elem; [|by apply Hv|].
    + apply stored_made; [done|]. intros c Hc. by eapply made_settled, settled_null.
    + apply overlay_stored; [done| |by apply Hv]. apply stored_made; [done|]. intros c Hc. by eapply made_settled, settled_null.
  - by apply upsert_on_distinct.
Qed.

Lemma replace_row_ok table cols r f f' u : facts_ok f -> replace_row affinity table cols r f = Ok (f', u) -> facts_ok f'.
Proof.
  unfold replace_row, with_columns. intros Hf H. binds H. rename a into columns. rename a0 into cells.
  injection H as <- _. apply ensure_Ok in E1. destruct (columns_of table) as [cs|] eqn:Ec; [|done]. injection E as ->.
  destruct (schema_facts _ _ Ec) as (_ & Hnd & Hdef). pose proof (made_row_stored _ _ _ _ _ Ec E0) as [_ Hv0].
  match type of E1 with not_nulls _ ?row = _ => set (new := row) in * end.
  assert (stored_row columns new) as Hnew.
  { apply stored_made; [done|]. intros c Hc. specialize (Hv0 c Hc).
    destruct (getv (col_name c) (made_row affinity columns cells)); try done. destruct (col_default c) as [d|] eqn:Ed; [|done].
    destruct (Hdef c d Hc Ed) as [-> ->]. destruct (col_not_null c); [|apply settled_null]. split; [done|apply affinity_text]. }
  intros t cs Ht. destruct (Hf t cs Ht) as [Hr Hk Hv Hd]. split; rewrite ?primary_set; try done; case_bool_decide; try done; subst t;
    assert (cs = columns) as -> by congruence.
  - intros row [[_ Hin]%list_elem_of_filter| ->%list_elem_of_singleton]%elem_of_app; [by apply Hr|done].
  - rewrite map_app. apply NoDup_app. split_and!; [by apply NoDup_map_filter| |repeat constructor; by intros ?%elem_of_nil].
    intros k (row & -> & [Hne _]%list_elem_of_filter)%list_elem_of_fmap ?%list_elem_of_singleton. done.
Qed.

Lemma delete_dataset_ok d f f' n : facts_ok f -> delete_dataset d f = Ok (f', n) -> facts_ok f'.
Proof.
  unfold delete_dataset. intros Hf. case_match; intros [= <- _]; [done|].
  intros t cs Ht. destruct (Hf t cs Ht) as [Hr Hk Hv Hd]. split; rewrite ?primary_set; try done; case_bool_decide; try done; subst t.
  - intros row [_ Hin]%list_elem_of_filter. by apply Hr.
  - by apply NoDup_map_filter.
Qed.

Lemma mark_migrated_ok d now f f' u : facts_ok f -> mark_migrated d now f = Ok (f', u) -> facts_ok f'.
Proof. unfold mark_migrated. intros Hf [= <- _] t cs Ht. destruct (Hf t cs Ht). by split. Qed.

Lemma preserves_or_rollback {A} (m : faction A) : preserves facts_ok m -> preserves facts_ok (or_rollback m).
Proof.
  intros Hm c Hc. specialize (Hm c Hc). unfold or_rollback. destruct (m c) as [c' [a|e]]; [done|]. by apply everywhere_rollback.
Qed.

Lemma preserves_commit_if b : preserves facts_ok (commit_if b).
Proof. intros c Hc. destruct b; [by apply everywhere_commit|done]. Qed.

Lemma preserves_upserts table cols rows : preserves facts_ok (executemany (upsert_row affinity table cols) rows).
Proof. apply preserves_executemany. intros. by eapply upsert_row_ok. Qed.

Lemma preserves_archive table rows : preserves facts_ok (archive_revisions affinity table rows).
Proof.
  destruct rows; [apply preserves_ret|]. apply preserves_executemany. intros. by eapply archive_row_ok.
Qed.

Lemma preserves_migrate datasets now : preserves facts_ok (migrate_before_write datasets now).
Proof.
  unfold migrate_before_write. apply preserves_lift_bind. intros [|p ps] _; [apply preserves_ret|].
  apply preserves_bind; [apply preserves_select|]. intros done. apply preserves_bind; [|intros; apply preserves_ret].
  generalize (filter (fun d => d ∉ done) (p :: ps)). intros l. induction l as [|d l IH]; simpl; [apply preserves_ret|].
  apply preserves_bind; [|intros; apply preserves_bind; [done|intros; apply preserves_ret]].
  apply preserves_bind; [apply preserves_statement; intros; by eapply delete_dataset_ok|].
  intros. apply preserves_bind; [apply preserves_statement; intros; by eapply mark_migrated_ok|intros; apply preserves_ret].
Qed.

Lemma preserves_upsert table rows commit_ now : preserves facts_ok (upsert affinity float_repr table rows commit_ now).
Proof.
  destruct rows as [|r rows]; [apply preserves_ret|]. unfold upsert. apply preserves_lift_bind. intros admitted _.
  apply preserves_bind; [case_match; [apply preserves_migrate|apply preserves_ret]|]. intros _. case_match.
  - apply preserves_bind; [apply preserves_bind; [apply preserves_lift|intros; apply preserves_select]|]. intros known.
    apply preserves_lift_bind. intros b _. apply preserves_or_rollback.
    repeat (apply preserves_bind; [first [apply preserves_archive|apply preserves_upserts|apply preserves_commit_if]|intros _]).
    apply preserves_ret.
  - apply preserves_or_rollback. apply preserves_bind; [apply preserves_executemany; intros; by eapply replace_row_ok|].
    intros _. apply preserves_bind; [apply preserves_commit_if|intros; apply preserves_ret].
Qed.

Lemma preserves_mirror table rows commit_ : preserves facts_ok (apply_exact_product_mirror affinity table rows commit_).
Proof.
  destruct rows as [|r rows]; [apply preserves_ret|]. unfold apply_exact_product_mirror.
  do 3 (apply preserves_lift_bind; intros _ _).
  apply preserves_bind; [apply preserves_bind; [apply preserves_lift|intros; apply preserves_select]|]. intros known.
  apply preserves_lift_bind. intros b _. destruct (b_rows b) as [|w ws]; [apply preserves_ret|]. apply preserves_or_rollback.
  apply preserves_bind; [destruct (b_revisions b); [apply preserves_ret|apply preserves_archive]|]. intros _.
  repeat (apply preserves_bind; [first [apply preserves_upserts|apply preserves_commit_if]|intros _]). apply preserves_ret.
Qed.

(** ** What an upsert does *)

Lemma executemany_view {A} (g : A -> facts -> result (facts * unit)) l c c' u : executemany g l c = (c', Ok u) ->
  foldR (fun f x => p ← g x f; Ok p.1) (view c) l = Ok (view c').
Proof.
  unfold executemany. intros H. apply (each_statement_Ok g l (begin_ c) c' u (view c) eq_refl) in H as (t & Ht & ->). done.
Qed.

Definition archive_all (table : string) (rows : list frow) (f : facts) : result facts :=
  foldR (fun f r => p ← archive_row affinity table (match rows with first :: _ => keys first | [] => [] end) r f; Ok p.1) f rows.

Definition upsert_all_rows (table : string) (cols : list string) (rows : list frow) (f : facts) : result facts :=
  foldR (fun f r => p ← upsert_row affinity table cols r f; Ok p.1) f rows.

(** The tables whose keys never changed, and batches of datasets that were migrated or never
    had to be, start from the store as it is. *)
Definition needs_no_migration (table : string) (rows : list frow) (f : facts) : Prop :=
  table = "jquants_records" -> forall r, r ∈ rows -> exists d, getv "dataset" r = JStr d /\
    (d ∉ LEGACY_KEY_DATASETS \/ d ∈ map fst (f_migrated f)).

Lemma legacy_datasets_Ok ds l : legacy_datasets ds = Ok l -> forall d, d ∈ l -> JStr d ∈ ds /\ d ∈ LEGACY_KEY_DATASETS.
Proof.
  unfold legacy_datasets. intros H. binds H. injection H as <-. intros d [Hd H]%list_elem_of_filter. split; [|done].
  assert (d ∈ concat a) as Hc.
  { revert H. assert (forall l seen, d ∈ fold_left (fun seen d => if bool_decide (d ∈ seen) then seen else seen ++ [d]) l seen ->
      d ∈ seen \/ d ∈ l) as Hs.
    { induction l as [|x l IH]; simpl; [tauto|]. intros seen [Hs|Hl]%IH; [|right; by right].
      case_bool_decide; [by left|]. apply elem_of_app in Hs as [?| ->%list_elem_of_singleton]; [by left|right; by left]. }
    intros [Hn|?]%Hs; [by apply elem_of_nil in Hn|done]. }
  apply list_elem_of_In, in_concat in Hc as (x & Hx%list_elem_of_In & Hin%list_elem_of_In).
  destruct (mapR_elem _ _ _ _ E Hx) as (j & Hj & Ej). destruct j; try (injection Ej as <-; by apply elem_of_nil in Hin); try done.
  injection Ej as <-. apply list_elem_of_singleton in Hin as ->. done.
Qed.

Lemma no_migration table rows now c c' n f : view c = f -> needs_no_migration table rows f -> table = "jquants_records" ->
  migrate_before_write (filter (fun d => truthy d = true) (map (getv "dataset") rows)) now c = (c', Ok n) -> c' = c.
Proof.
  intros <- Hn Ht. specialize (Hn Ht). unfold migrate_before_write. intros H.
  apply bind_Ok_action in H as (c1 & pending & Hp & H). apply lift_Ok in Hp as [-> Hp].
  assert (forall d, d ∈ pending -> d ∈ map fst (f_migrated (view c))) as Hd.
  { intros d Hd. destruct (legacy_datasets_Ok _ _ Hp d Hd) as [Hin Hl]. apply list_elem_of_filter in Hin as [_ Hin].
    apply list_elem_of_fmap in Hin as (r & E & Hr). destruct (Hn r Hr) as (d' & E' & [?|?]); congruence. }
  destruct pending as [|p ps]; [by injection H as <- _|].
  apply bind_Ok_action in H as (c1 & dn & Hs & H). unfold select in Hs. injection Hs as <- <-.
  apply bind_Ok_action in H as (c1 & counts & Hs & H). injection H as <- _.
  assert (filter (fun d => d ∉ map fst (f_migrated (view c))) (p :: ps) = []) as E.
  { apply elem_of_nil_inv. intros x [Hx1 Hx2]%list_elem_of_filter. by apply Hx1, Hd. }
  rewrite E in Hs. by injection Hs as <- _.
Qed.

Lemma or_rollback_Ok {A} (m : faction A) c c' a : or_rollback m c = (c', Ok a) -> m c = (c', Ok a).
Proof. unfold or_rollback. by destruct (m c) as [c1 [x|e]]. Qed.

Lemma commit_if_view b c c' u : commit_if b c = (c', Ok u) -> view c' = view c.
Proof. destruct b; intros [= <-]; done. Qed.

(** The columns of its key are among those of the batch. *)
Definition keyed (table : string) (cols : list string) : bool :=
  negb (bool_decide (key_columns table = [])) && forallb (fun k => bool_decide (k ∈ cols)) (key_columns table).

Record upserted (table : string) (rows : list frow) (f f' : facts) := mkUpserted {
  u_admitted : list frow;
  u_keys : list (list json);
  u_batch : batch;
  u_archived : facts;
  u_admit : mapR admit_row rows = Ok u_admitted;
  u_key : mapR (key_of table) u_admitted = Ok u_keys;
  u_step : foldR (upsert_step float_repr table (batch_columns u_admitted))
    (mkBatch (omap (fun key => ((fun row => (key, row)) <$> row_at table key f)) u_keys) [] []) u_admitted = Ok u_batch;
  u_archive : archive_all table (b_revisions u_batch) f = Ok u_archived;
  u_write : upsert_all_rows table (batch_columns u_admitted) (b_rows u_batch) u_archived = Ok f';
}.

Lemma upsert_Ok table rows commit_ now c c' n : rows <> [] -> needs_no_migration table rows (view c) ->
  (forall admitted, mapR admit_row rows = Ok admitted -> keyed table (batch_columns admitted) = true) ->
  upsert affinity float_repr table rows commit_ now c = (c', Ok n) ->
  inhabited (upserted table rows (view c) (view c')).
Proof.
  intros Hne Hm Hk. destruct rows as [|r0 rs]; [done|]. set (rows := r0 :: rs) in *. intros H.
  change (upsert affinity float_repr table rows commit_ now) with (admitted ← lift (mapR admit_row rows);
      let cols := batch_columns admitted in
      _ ← (if table =s "jquants_records"
           then migrate_before_write (filter (fun d => truthy d = true) (map (getv "dataset") admitted)) now
           else mret 0);
      let key := key_columns table in
      if negb (bool_decide (key = [])) && forallb (fun k => bool_decide (k ∈ cols)) key then
        existing ← existing_by_key table admitted;
        b ← lift (foldR (upsert_step float_repr table cols) (mkBatch existing [] []) admitted);
        or_rollback (_ ← archive_revisions affinity table (b_revisions b);
                     _ ← executemany (upsert_row affinity table cols) (b_rows b);
                     _ ← commit_if commit_;
                     mret (Z.of_nat (length (b_rows b))))
      else
        or_rollback (_ ← executemany (replace_row affinity table cols) admitted;
                     _ ← commit_if commit_;
                     mret (Z.of_nat (length admitted)))) in H.
  apply bind_Ok_action in H as (c1 & admitted & Ha & H). apply lift_Ok in Ha as [-> Ha]. cbv zeta in H.
  apply bind_Ok_action in H as (c1 & n1 & Hmig & H). assert (c1 = c) as ->.
  { destruct (decide (table = "jquants_records")) as [Et|Et];
      [rewrite bool_decide_eq_true_2 in Hmig by done|rewrite bool_decide_eq_false_2 in Hmig by done; by injection Hmig as <- _].
    eapply (no_migration table admitted); [done| |done|done].
    intros _ r Hr. apply mapR_Ok in Ha. apply list_elem_of_lookup in Hr as (i & Hi).
    destruct (Forall2_lookup_r _ _ _ _ _ Ha Hi) as (x & Hx & Hax). apply list_elem_of_lookup_2 in Hx.
    destruct (Hm Et x Hx) as (d & Hd & Hc). exists d. split; [|done]. unfold admit_row in Hax. binds Hax. injection Hax as <-.
    rewrite <- Hd. by rewrite getv_dict_set. }
  pose proof (Hk admitted Ha) as Hkeyed. unfold keyed in Hkeyed. rewrite Hkeyed in H.
  apply bind_Ok_action in H as (c1 & known & Hkn & H).
  apply bind_Ok_action in Hkn as (c2 & ks & Hks & Hkn). apply lift_Ok in Hks as [-> Hks]. unfold select in Hkn. injection Hkn as <- <-.
  apply bind_Ok_action in H as (c1 & b & Hb & H). apply lift_Ok in Hb as [-> Hb]. apply or_rollback_Ok in H.
  apply bind_Ok_action in H as (c1 & u1 & Har & H). apply bind_Ok_action in H as (c2 & u2 & Hup & H).
  apply bind_Ok_action in H as (c3 & u3 & Hcm & H). injection H as <- _. apply commit_if_view in Hcm. apply executemany_view in Hup.
  constructor. apply (mkUpserted table rows (view c) (view c3) admitted ks b (view c1)); try done.
  - destruct (b_revisions b) as [|x xs] eqn:Er.
    + unfold archive_revisions in Har. injection Har as <- _. done.
    + by apply executemany_view in Har.
  - unfold upsert_all_rows. by rewrite Hcm.
Qed.

(** The fold of writes, seen at one key: when the keys of the batch are distinct, at most one
    of its rows counts. *)
Lemma fold_at {K} `{EqDecision K} (g : facts -> frow -> result facts) (rows : facts -> list frow) (keyf : frow -> K)
    (up : frow -> list frow -> list frow) k l f f' :
  (forall f r f', r ∈ l -> g f r = Ok f' -> rows f' = if bool_decide (keyf r = k) then up r (rows f) else rows f) ->
  NoDup (map keyf l) -> foldR g f l = Ok f' ->
  (k ∉ map keyf l -> rows f' = rows f) /\ (forall r, r ∈ l -> keyf r = k -> rows f' = up r (rows f)).
Proof.
  revert f. induction l as [|x l IH]; intros f Hg Hn H.
  { injection H as <-. split; [done|]. intros r Hr. by apply elem_of_nil in Hr. }
  simpl in H. apply bind_Ok in H as (f1 & Hx & H). apply NoDup_cons in Hn as [Hxn Hn].
  pose proof (Hg _ _ _ (list_elem_of_here _ _) Hx) as Ex.
  destruct (IH f1) as [IH1 IH2]; [intros ? ? ? ?; apply Hg; by right|done|done|]. split.
  - intros [Hk Hr]%not_elem_of_cons. rewrite IH1 by done. rewrite Ex. rewrite bool_decide_eq_false_2; [done|congruence].
  - intros r [->|Hr]%elem_of_cons Hk.
    + rewrite IH1; [|by rewrite <- Hk]. rewrite Ex, bool_decide_eq_true_2 by done. done.
    + rewrite (IH2 r Hr Hk), Ex, bool_decide_eq_false_2; [done|]. intros E. apply Hxn. rewrite E, <- Hk.
      apply list_elem_of_fmap. eauto.
Qed.

Lemma assoc_map (g : string -> json) k (names : list string) : k ∈ names -> assoc k (map (fun c => (c, g c)) names) = Some (g k).
Proof.
  induction names as [|n names IH]; [by intros ?%elem_of_nil|]. simpl. intros H. case_bool_decide as E; [by subst|].
  apply IH. by apply elem_of_cons in H as [->|H].
Qed.

(** A stored row is archived as it is. *)
Lemma archive_stored table columns row f : columns_of table = Some columns -> stored_row columns row ->
  archive_row affinity table (map col_name columns) row f =
  Ok (set_revisions table (upsert_on (version_columns table) (map col_name columns) row (revisions table f)) f, tt).
Proof.
  intros Ht [Hk Hv]. destruct (schema_facts _ _ Ht) as (_ & Hn & _). unfold archive_row, with_columns. rewrite Ht. simpl.
  assert (bound_cells columns (map col_name columns) row = Ok (map (fun k => (k, getv k row)) (map col_name columns))) as ->.
  { unfold bound_cells. rewrite (proj2 (forallb_forall _ _)).
    2:{ intros k Hk'%list_elem_of_In. by apply bool_decide_eq_true_2. }
    simpl. apply mapR_Ok. assert (forall l, (forall c, c ∈ l -> c ∈ columns) ->
      Forall2 (fun x y => (v ← bind_value (getv x row); Ok (x, v)) = Ok y) (map col_name l)
        (map (fun k => (k, getv k row)) (map col_name l))) as H; [|by apply H].
    induction l as [|c l IH]; intros Hl; simpl; constructor; [|apply IH; set_solver].
    destruct (Hv c) as [-> _]; [apply Hl; by left|done]. }
  simpl. do 4 f_equal. apply (row_ext _ _ (map col_name columns)); [unfold keys; by rewrite map_map|done|done|].
  intros k (c & -> & Hc)%list_elem_of_fmap. rewrite get_made by done.
  rewrite (assoc_map (fun k => getv k row)) by (apply list_elem_of_fmap; eauto). by apply Hv.
Qed.

Lemma archive_all_at table columns rows f f' k : columns_of table = Some columns -> (forall r, r ∈ rows -> stored_row columns r) ->
  NoDup (map (row_key (key_columns table)) rows) -> archive_all table rows f = Ok f' ->
  let history f := rows_at (key_columns table) k (revisions table f) in
  primary table f' = primary table f /\
  (k ∉ map (row_key (key_columns table)) rows -> history f' = history f) /\
  (forall ex, ex ∈ rows -> row_key (key_columns table) ex = k ->
     history f' = upsert_on (version_columns table) (map col_name columns) ex (history f)).
Proof.
  intros Ht Hs Hn H. unfold archive_all in H. assert (foldR (fun f r => p ← archive_row affinity table (map col_name columns) r f; Ok p.1) f rows
    = Ok f') as H'.
  { destruct rows as [|r rows]; [done|]. destruct (Hs r) as [Hk _]; [by left|]. by rewrite <- Hk. }
  cbv zeta. split.
  - revert H'. apply (foldR_inv (fun g => primary table g = primary table f)); [|done].
    intros g x g' Hx Hp Hg. rewrite (archive_stored _ _ _ _ Ht) in Hg by by apply Hs. by injection Hg as <-.
  - revert Hn H'. apply (fold_at _ (fun f => rows_at (key_columns table) k (revisions table f))
      (row_key (key_columns table)) (upsert_on (version_columns table) (map col_name columns))).
    intros g r g' Hr Hg. rewrite (archive_stored _ _ _ _ Ht) in Hg by by apply Hs. injection Hg as <-.
    rewrite revisions_set, bool_decide_eq_true_2 by done. apply rows_at_upsert_on.
    intros c Hc. unfold version_columns. apply elem_of_app. by left.
Qed.

(** The key of the row an upsert makes is the key of the row it is given. *)
Lemma made_row_key table columns cols r cells key : columns_of table = Some columns -> key_of table r = Ok key ->
  keyed table cols = true -> bound_cells columns cols r = Ok cells -> not_nulls columns (made_row affinity columns cells) = true ->
  row_key (key_columns table) (made_row affinity columns cells) = key.
Proof.
  intros Ht Hk Hkd Hb Hnn. destruct (schema_facts _ _ Ht) as (Htx & Hn & _). unfold key_of in Hk.
  apply mapR_Ok in Hk. assert (forall l l', Forall2 (fun k v => key_value r k = Ok v) l l' -> (forall k, k ∈ l -> k ∈ key_columns table) ->
    row_key l (made_row affinity columns cells) = l') as Hl; [|by apply Hl].
  induction 1 as [|k v l l' Hv _ IH]; intros Hl; [done|]. simpl. f_equal; [|apply IH; set_solver].
  assert (k ∈ key_columns table) as Hin by (apply Hl; by left).
  destruct (text_column_elem columns k) as (c & Hc & <- & Hty & Hnot).
  { apply Htx. unfold version_columns. set_solver. }
  unfold keyed in Hkd. apply andb_true_iff in Hkd as [_ Hcols]. rewrite forallb_forall in Hcols.
  specialize (Hcols _ (proj1 (list_elem_of_In _ _) Hin)). bools.
  unfold not_nulls in Hnn. rewrite forallb_forall in Hnn. specialize (Hnn c (proj1 (list_elem_of_In _ _) Hc)). rewrite Hnot in Hnn. simpl in Hnn. bools.
  unfold made_row in *. rewrite get_made in * by done.
  destruct (assoc (col_name c) cells) as [w|] eqn:Ew.
  - pose proof (bound_cells_Ok _ _ _ _ Hb _ _ Ew) as Hw. unfold key_value in Hv. binds Hv. unfold getv in Hw.
    destruct (get (col_name c) r) as [x|]; [|done]. injection E as ->. simpl in Hw. rewrite Hty in *.
    destruct a; try done; injection Hv as <-; injection Hw as <-; [|apply affinity_text].
    by rewrite affinity_null in Hnn.
  - exfalso. apply assoc_None in Ew. apply Ew. by rewrite (bound_cells_keys _ _ _ _ Hb).
Qed.

Lemma upsert_all_at table columns cols rows keysl f f' k : columns_of table = Some columns -> keyed table cols = true ->
  mapR (key_of table) rows = Ok keysl -> NoDup keysl -> upsert_all_rows table cols rows f = Ok f' ->
  let current f := rows_at (key_columns table) k (primary table f) in
  revisions table f' = revisions table f /\
  (k ∉ keysl -> current f' = current f) /\
  (forall r, (k, r) ∈ zip keysl rows -> exists cells, bound_cells columns cols r = Ok cells /\
     row_key (key_columns table) (made_row affinity columns cells) = k /\
     current f' = upsert_on (key_columns table) cols (made_row affinity columns cells) (current f)).
Proof.
  intros Ht Hkd Hks Hn. cbv zeta. revert keysl f Hks Hn. induction rows as [|x rows IH]; intros keysl f Hks Hn H.
  { injection Hks as <-. injection H as <-. split_and!; [done|done|]. intros r Hr. by apply elem_of_nil in Hr. }
  simpl in Hks. apply bind_Ok in Hks as (kx & Hkx & Hks). apply bind_Ok in Hks as (ks & Hks & E). injection E as <-.
  apply NoDup_cons in Hn as [Hxn Hn]. unfold upsert_all_rows in H. simpl in H. apply bind_Ok in H as (f1 & Hx & H).
  apply bind_Ok in Hx as ([f2 u] & Hx & E). injection E as ->. simpl in H.
  destruct (IH ks f1 Hks Hn H) as (IHr & IH1 & IH2). unfold upsert_row, with_columns in Hx. rewrite Ht in Hx. simpl in Hx.
  apply bind_Ok in Hx as (cells & Hcells & Hx). apply bind_Ok in Hx as ([] & Hnn & Hx). apply ensure_Ok in Hnn. injection Hx as <- _.
  pose proof (made_row_key _ _ _ _ _ _ Ht Hkx Hkd Hcells Hnn) as Hmk.
  rewrite primary_set, (bool_decide_eq_true_2 (table = table)), rows_at_upsert_on, Hmk in IH1 by done.
  rewrite primary_set, (bool_decide_eq_true_2 (table = table)), rows_at_upsert_on, Hmk in IH2 by done.
  split_and!; [done| |].
  - intros [Hk Hr]%not_elem_of_cons. rewrite IH1 by done. rewrite bool_decide_eq_false_2; [done|congruence].
  - intros r [E|Hr]%elem_of_cons.
    + injection E as -> ->. exists cells. split_and!; [done|done|]. rewrite IH1 by done. by rewrite bool_decide_eq_true_2.
    + assert (kx <> k) as Hne by (intros ->; apply Hxn; by apply elem_of_zip_l in Hr).
      destruct (IH2 r Hr) as (cs & H1 & H2 & H3). exists cs. split_and!; [done|done|]. rewrite H3.
      by rewrite bool_decide_eq_false_2.
Qed.

(** The current row of a key. *)
Lemma rows_at_current table columns key f : facts_ok f -> columns_of table = Some columns ->
  rows_at (key_columns table) key (primary table f) = match row_at table key f with Some ex => [ex] | None => [] end.
Proof.
  intros Hf Ht. destruct (Hf table columns Ht) as [Hr Hk _ _]. unfold row_at.
  assert (forall row, row ∈ primary table f -> JNull ∉ row_key (key_columns table) row) as Hnull.
  { intros row Hin. destruct (Hr row Hin). by eapply row_key_texts. }
  clear Hr. revert Hk Hnull. unfold rows_at. case_bool_decide as Hj.
  - intros _ Hnull. apply elem_of_nil_inv. intros row [E Hin]%list_elem_of_filter. apply (Hnull row Hin). by rewrite E.
  - intros Hk _. induction (primary table f) as [|row rows IH]; [done|]. simpl in Hk. apply NoDup_cons in Hk as [Hn Hk].
    simpl. case_bool_decide as E.
    + rewrite filter_cons_True by done. f_equal. apply elem_of_nil_inv. intros x [Ex Hx]%list_elem_of_filter.
      apply Hn. rewrite E, <- Ex. apply list_elem_of_fmap. eauto.
    + rewrite filter_cons_False by done. by apply IH.
Qed.

Lemma row_at_elem table key f ex : row_at table key f = Some ex ->
  ex ∈ primary table f /\ row_key (key_columns table) ex = key /\ JNull ∉ key.
Proof.
  unfold row_at. case_bool_decide as Hj; [done|]. intros H. apply List.find_some in H as [Hin%list_elem_of_In H]. bools. done.
Qed.

Lemma available_not_key table : table ∈ map fst SCHEMA ->
  ("available_at" ∉ key_columns table) /\ ("ingested_at" ∉ key_columns table) /\ ("event_time" ∉ key_columns table).
Proof.
  intros H. assert (forallb (fun t => negb (bool_decide ("available_at" ∈ key_columns t)) &&
    negb (bool_decide ("ingested_at" ∈ key_columns t)) && negb (bool_decide ("event_time" ∈ key_columns t))) (map fst SCHEMA) = true) as Hs
    by (vm_compute; reflexivity).
  rewrite forallb_forall in Hs. specialize (Hs table (proj1 (list_elem_of_In _ _) H)). bools. done.
Qed.

Lemma columns_of_elem table columns : columns_of table = Some columns -> table ∈ map fst SCHEMA.
Proof. intros H%assoc_elem. apply list_elem_of_fmap. by exists (table, columns). Qed.

Lemma get_dict_set_other k k' v d : k <> k' -> get k (dict_set k' v d) = get k d.
Proof. intros Hne. rewrite get_dict_set. by rewrite bool_decide_eq_false_2. Qed.

Lemma key_of_set_available table v r : table ∈ map fst SCHEMA ->
  key_of table (dict_set "available_at" v r) = key_of table r.
Proof.
  intros H. destruct (available_not_key table H) as [Ha _]. unfold key_of.
  assert (forall l, (forall k, k ∈ l -> k ∈ key_columns table) ->
    mapR (key_value (dict_set "available_at" v r)) l = mapR (key_value r) l) as Hl; [|by apply Hl].
  induction l as [|k l IH]; intros Hk; [done|]. simpl. rewrite IH by set_solver.
  assert (key_value (dict_set "available_at" v r) k = key_value r k) as ->; [|done].
  unfold key_value. rewrite get_dict_set_other; [done|]. intros ->. apply Ha, Hk. by left.
Qed.

Lemma adjust_key table cols known r p : table ∈ map fst SCHEMA -> adjust float_repr table cols known r = Ok p ->
  key_of table p.1 = key_of table r /\ match known with Some ex => p.2 = [] \/ p.2 = [ex] | None => p = (r, []) end.
Proof.
  intros Ht. unfold adjust. destruct known as [ex|]; [|by intros [= <-]]. intros H. binds H.
  destruct (_ =s _); [|destruct (truthy _)]; binds H; injection H as <-; simpl; rewrite ?key_of_set_available by done; eauto.
Qed.

(** With distinct keys, each row of a batch meets what the table has. *)
Lemma batch_each table cols rows ks m0 m rv out b : table ∈ map fst SCHEMA ->
  mapR (key_of table) rows = Ok ks -> NoDup ks ->
  (forall key, key ∈ ks -> lookup_key key m = lookup_key key m0) ->
  foldR (upsert_step float_repr table cols) (mkBatch m rv out) rows = Ok b ->
  exists ps, Forall2 (fun kr p => adjust float_repr table cols (lookup_key kr.1 m0) kr.2 = Ok p) (zip ks rows) ps /\
    b_rows b = out ++ map fst ps /\ b_revisions b = rv ++ concat (map snd ps).
Proof.
  intros Ht. revert ks m rv out. induction rows as [|r rows IH]; intros ks m rv out Hks Hn Hm H.
  { injection Hks as <-. injection H as <-. exists []. simpl. rewrite !app_nil_r. by split; [constructor|]. }
  simpl in Hks. apply bind_Ok in Hks as (k & Hk & Hks). apply bind_Ok in Hks as (ks' & Hks & E). injection E as <-.
  apply NoDup_cons in Hn as [Hkn Hn]. simpl in H. apply bind_Ok in H as (b1 & Hb & H).
  unfold upsert_step in Hb. rewrite Hk in Hb. simpl in Hb. apply bind_Ok in Hb as (p & Hp & E). injection E as <-.
  edestruct IH as (ps & Hps & Hr & Hv); [exact Hks|exact Hn| |exact H|].
  - intros key Hin. simpl. rewrite bool_decide_eq_false_2 by (intros ->; done). apply Hm. by right.
  - exists (p :: ps). rewrite Hr, Hv. simpl. rewrite <- !app_assoc. split_and!; [|done|done]. constructor; [|done].
    simpl. rewrite <- Hm by by left. done.
Qed.

Lemma known_rows table ks f key : key ∈ ks ->
  lookup_key key (omap (fun key => ((fun row => (key, row)) <$> row_at table key f)) ks) = row_at table key f.
Proof.
  assert (forall l : list (list json), match lookup_key key (omap (fun key => ((fun row => (key, row)) <$> row_at table key f)) l) with
    | Some row => row_at table key f = Some row | None => key ∈ l -> row_at table key f = None end) as H.
  { induction l as [|k l IH]; simpl; [by intros ?%elem_of_nil|]. destruct (row_at table k f) as [row|] eqn:E; simpl.
    - case_bool_decide as Ek; [by subst|]. destruct (lookup_key key _); [done|]. intros [?|?]%elem_of_cons; [by subst|auto].
    - destruct (lookup_key key _); [done|]. intros [?|?]%elem_of_cons; [by subst|auto]. }
  intros Hk. specialize (H ks). destruct (lookup_key key _); [done|]. by rewrite H.
Qed.

(** What one key gets from a batch of distinct keys. *)
Record written_at (table : string) (columns : list column) (cols : list string) (key : list json) (r : frow) (f f' : facts) := mkWritten {
  w_row : frow;
  w_displaced : list frow;
  w_cells : list (string * json);
  w_adjust : adjust float_repr table cols (row_at table key f) r = Ok (w_row, w_displaced);
  w_bound : bound_cells columns cols w_row = Ok w_cells;
  w_key : row_key (key_columns table) (made_row affinity columns w_cells) = key;
  w_current : row_at table key f' = Some (match row_at table key f with
    | Some ex => overlay (key_columns table) cols (made_row affinity columns w_cells) ex
    | None => made_row affinity columns w_cells
    end);
  w_history : rows_at (key_columns table) key (revisions table f') = match w_displaced with
    | ex :: _ => upsert_on (version_columns table) (map col_name columns) ex (rows_at (key_columns table) key (revisions table f))
    | [] => rows_at (key_columns table) key (revisions table f)
    end;
}.

Lemma adjusted_keys table cols f rows ks ps : table ∈ map fst SCHEMA -> mapR (key_of table) rows = Ok ks ->
  Forall2 (fun kr p => adjust float_repr table cols (row_at table kr.1 f) kr.2 = Ok p) (zip ks rows) ps ->
  mapR (key_of table) (map fst ps) = Ok ks.
Proof.
  intros Ht Hks. revert ks ps Hks. induction rows as [|r rows IH]; intros ks ps Hks H.
  { injection Hks as <-. by inversion H. }
  simpl in Hks. apply bind_Ok in Hks as (k & Hk & Hks). apply bind_Ok in Hks as (ks' & Hks & E). injection E as <-.
  simpl in H. inversion H as [|? p ? ps' Hp Hps]; subst. simpl in *. destruct (adjust_key _ _ _ _ _ Ht Hp) as [Hkp _].
  rewrite Hkp, Hk. simpl. by rewrite (IH ks' ps').
Qed.

(** The displaced rows are current rows of different keys of the batch. *)
Lemma displaced_rows table cols f rows ks ps : table ∈ map fst SCHEMA -> NoDup ks ->
  Forall2 (fun kr p => adjust float_repr table cols (row_at table kr.1 f) kr.2 = Ok p) (zip ks rows) ps ->
  (forall ex, ex ∈ concat (map snd ps) -> ex ∈ primary table f /\ row_key (key_columns table) ex ∈ ks) /\
  NoDup (map (row_key (key_columns table)) (concat (map snd ps))).
Proof.
  intros Ht. revert rows ps. induction ks as [|k ks IH]; intros rows ps Hn H.
  { simpl in H. inversion H; subst. split; [intros ex Hex; by apply elem_of_nil in Hex|constructor]. }
  destruct rows as [|r rows]; simpl in H; inversion H as [|? p ? ps' Hp Hps]; subst.
  { split; [intros ex Hex; by apply elem_of_nil in Hex|constructor]. }
  apply NoDup_cons in Hn as [Hkn Hn]. destruct (IH rows ps' Hn Hps) as [Hin Hnd]. simpl in *.
  destruct (adjust_key _ _ _ _ _ Ht Hp) as [_ Hd].
  assert (p.2 = [] \/ exists ex, p.2 = [ex] /\ ex ∈ primary table f /\ row_key (key_columns table) ex = k) as Hp2.
  { destruct (row_at table k f) as [ex|] eqn:Ek; [|rewrite Hd; by left]. apply row_at_elem in Ek as (H1 & H2 & _).
    destruct Hd; [by left|right; by exists ex]. }
  destruct Hp2 as [->|(ex & -> & Hex & Hkey)]; simpl.
  - split; [|done]. intros x Hx. destruct (Hin x Hx). split; [done|by right].
  - split.
    + intros x [->|Hx]%elem_of_cons; [split; [done|rewrite Hkey; by left]|]. destruct (Hin x Hx). split; [done|by right].
    + apply NoDup_cons. split; [|done]. rewrite Hkey. intros (x & Ex & Hx)%list_elem_of_fmap. destruct (Hin x Hx). congruence.
Qed.

Lemma upserted_parts table rows f f' (u : upserted table rows f f') : table ∈ map fst SCHEMA -> NoDup (u_keys _ _ _ _ u) ->
  let cols := batch_columns (u_admitted _ _ _ _ u) in
  exists ps f1, Forall2 (fun kr p => adjust float_repr table cols (row_at table kr.1 f) kr.2 = Ok p)
      (zip (u_keys _ _ _ _ u) (u_admitted _ _ _ _ u)) ps /\
    archive_all table (concat (map snd ps)) f = Ok f1 /\ upsert_all_rows table cols (map fst ps) f1 = Ok f'.
Proof.
  intros Hsch Hn. destruct u as [rs ks b f1 Hadm Hks Hstep Harch Hwrite]. simpl in *. set (cols := batch_columns rs) in *.
  destruct (batch_each table cols rs ks _ _ [] [] b Hsch Hks Hn (fun _ _ => eq_refl) Hstep) as (ps & Hps & Hrows & Hrevs).
  simpl in Hrows, Hrevs. exists ps, f1. rewrite <- Hrows, <- Hrevs. split_and!; [|done|done].
  apply Forall2_same_length_lookup. apply Forall2_same_length_lookup in Hps as [Hl Hps]. split; [done|].
  intros i kr p Hi Hp. rewrite <- (Hps i kr p Hi Hp). f_equal. symmetry. apply known_rows.
  apply list_elem_of_lookup_2 in Hi. destruct kr. by apply elem_of_zip_l in Hi.
Qed.

Lemma upserted_at table columns rows f f' (u : upserted table rows f f') key r : columns_of table = Some columns ->
  facts_ok f -> facts_ok f' -> keyed table (batch_columns (u_admitted _ _ _ _ u)) = true -> NoDup (u_keys _ _ _ _ u) ->
  (key, r) ∈ zip (u_keys _ _ _ _ u) (u_admitted _ _ _ _ u) ->
  inhabited (written_at table columns (batch_columns (u_admitted _ _ _ _ u)) key r f f').
Proof.
  intros Ht Hf Hf' Hkd Hn Hkr. destruct (upserted_parts _ _ _ _ u (columns_of_elem _ _ Ht) Hn) as (ps & f1 & Hps' & Harch & Hwrite).
  pose proof (columns_of_elem _ _ Ht) as Hsch. pose proof (u_key _ _ _ _ u) as Hks.
  set (rs := u_admitted _ _ _ _ u) in *. set (ks := u_keys _ _ _ _ u) in *. set (cols := batch_columns rs) in *.
  apply list_elem_of_lookup in Hkr as (i & Hi).
  destruct (Forall2_lookup_l _ _ _ _ _ Hps' Hi) as ([r' displaced] & Hpi & Hadj). simpl in Hadj.
  destruct (displaced_rows _ _ _ _ _ _ Hsch Hn Hps') as [Hdin Hdn].
  destruct (archive_all_at table columns (concat (map snd ps)) f f1 key Ht) as (Hp1 & Hh1 & Hh2); [|exact Hdn|exact Harch|].
  { intros x Hx. destruct (Hdin x Hx). by apply (Hf table columns Ht). }
  pose proof (adjusted_keys _ _ _ _ _ _ Hsch Hks Hps') as Hks'.
  destruct (upsert_all_at table columns cols _ ks f1 f' key Ht Hkd Hks' Hn Hwrite) as (Hr2 & _ & Hc2).
  destruct (Hc2 r') as (cells & Hb & Hmk & Hcur).
  { apply list_elem_of_lookup. exists i. apply lookup_zip_with_Some. apply lookup_zip_with_Some in Hi as (k & x & E & Hk & Hx).
    injection E as -> ->. exists k, r'. split_and!; [done|done|]. rewrite list_lookup_fmap, Hpi. done. }
  rewrite Hp1 in Hcur. constructor. apply (mkWritten table columns cols key r f f' r' displaced cells); [done|done|done| |].
  - pose proof (rows_at_current table columns key f Hf Ht) as Ef. pose proof (rows_at_current table columns key f' Hf' Ht) as Ef'.
    rewrite Hcur, Ef in Ef'. destruct (row_at table key f) as [ex|] eqn:Ex.
    + apply row_at_elem in Ex as (_ & Hek & Hnull). unfold upsert_on in Ef'. rewrite Hmk, bool_decide_eq_false_2 in Ef' by done.
      simpl in Ef'. rewrite bool_decide_eq_true_2 in Ef' by (rewrite Hek; by left). simpl in Ef'.
      rewrite bool_decide_eq_true_2 in Ef' by done. destruct (row_at table key f'); [by injection Ef' as <-|done].
    + unfold upsert_on in Ef'. simpl in Ef'. rewrite orb_true_r in Ef'. destruct (row_at table key f'); [by injection Ef' as <-|done].
  - rewrite Hr2. destruct displaced as [|ex l].
    + apply Hh1. intros (x & Ex & Hx)%list_elem_of_fmap. apply list_elem_of_In, in_concat in Hx as (xs & Hxs & Hx).
      apply list_elem_of_In, list_elem_of_fmap in Hxs as (p & -> & Hp). apply list_elem_of_lookup in Hp as (j & Hj).
      destruct (Forall2_lookup_r _ _ _ _ _ Hps' Hj) as ([k' x'] & Hk' & Hadj').
      destruct (adjust_key _ _ _ _ _ Hsch Hadj') as [_ Hd]. simpl in Hd. destruct (row_at table k' f) as [ex'|] eqn:Ek'.
      2:{ rewrite Hd in Hx. done. }
      apply row_at_elem in Ek' as (_ & Hek & _). apply list_elem_of_In in Hx. destruct Hd as [Hd|Hd]; rewrite Hd in Hx; [by apply elem_of_nil in Hx|].
      apply list_elem_of_singleton in Hx as ->. rewrite Hek in Ex. subst k'.
      assert (j = i) as ->.
      { apply lookup_zip_with_Some in Hi as (? & ? & E1 & Hk1 & _). apply lookup_zip_with_Some in Hk' as (? & ? & E2 & Hk2 & _).
        simplify_eq. eapply (NoDup_lookup ks); [done|exact Hk2|exact Hk1]. }
      rewrite Hpi in Hj. by injection Hj as <-.
    + destruct (adjust_key _ _ _ _ _ Hsch Hadj) as [_ Hd]. simpl in Hd. destruct (row_at table key f) as [ex'|] eqn:Ek; [|done].
      destruct Hd as [?|E]; [done|]. injection E as -> ->. apply row_at_elem in Ek as (_ & Hek & _). apply Hh2; [|done].
      apply list_elem_of_In, in_concat. exists [ex']. split; [|by left]. apply list_elem_of_In, list_elem_of_fmap.
      exists (r', [ex']). split; [done|]. by eapply list_elem_of_lookup_2.
Qed.

Lemma upserted_other table columns rows f f' (u : upserted table rows f f') key : columns_of table = Some columns ->
  facts_ok f -> facts_ok f' -> keyed table (batch_columns (u_admitted _ _ _ _ u)) = true -> NoDup (u_keys _ _ _ _ u) ->
  key ∉ u_keys _ _ _ _ u ->
  row_at table key f' = row_at table key f /\
  rows_at (key_columns table) key (revisions table f') = rows_at (key_columns table) key (revisions table f).
Proof.
  intros Ht Hf Hf' Hkd Hn Hk. destruct (upserted_parts _ _ _ _ u (columns_of_elem _ _ Ht) Hn) as (ps & f1 & Hps' & Harch & Hwrite).
  pose proof (columns_of_elem _ _ Ht) as Hsch. pose proof (u_key _ _ _ _ u) as Hks.
  set (rs := u_admitted _ _ _ _ u) in *. set (ks := u_keys _ _ _ _ u) in *. set (cols := batch_columns rs) in *.
  destruct (displaced_rows _ _ _ _ _ _ Hsch Hn Hps') as [Hdin Hdn].
  destruct (archive_all_at table columns (concat (map snd ps)) f f1 key Ht) as (Hp1 & Hh1 & _); [|exact Hdn|exact Harch|].
  { intros x Hx. destruct (Hdin x Hx). by apply (Hf table columns Ht). }
  pose proof (adjusted_keys _ _ _ _ _ _ Hsch Hks Hps') as Hks'.
  destruct (upsert_all_at table columns cols _ ks f1 f' key Ht Hkd Hks' Hn Hwrite) as (Hr2 & Hc1 & _).
  split.
  - pose proof (rows_at_current table columns key f Hf Ht) as Ef. pose proof (rows_at_current table columns key f' Hf' Ht) as Ef'.
    rewrite Hc1, Hp1, Ef in Ef' by done. destruct (row_at table key f), (row_at table key f'); congruence.
  - rewrite Hr2. apply Hh1. intros (x & -> & Hx)%list_elem_of_fmap. apply Hk. by apply Hdin.
Qed.


(** ** Batches of distinct keys *)

(** Rows that are admitted, have all the columns of the key and different keys, and need no
    migration. *)
Record clean_batch (table : string) (rows : list frow) (f : facts) (admitted : list frow) (ks : list (list json)) : Prop := mkClean {
  cb_some : rows <> [];
  cb_admitted : mapR admit_row rows = Ok admitted;
  cb_keys : mapR (key_of table) admitted = Ok ks;
  cb_keyed : keyed table (batch_columns admitted) = true;
  cb_distinct : NoDup ks;
  cb_migrated : needs_no_migration table rows f;
}.

Lemma upserted_ok table rows f f' : upserted table rows f f' -> facts_ok f -> facts_ok f'.
Proof.
  intros [rs ks b f1 _ _ _ Harch Hwrite] Hf. assert (facts_ok f1) as Hf1.
  - revert Harch. apply foldR_inv; [|done]. intros g x g' _ Hg H. apply bind_Ok in H as ([g1 u] & H & E). injection E as <-.
    by eapply archive_row_ok.
  - revert Hwrite. apply foldR_inv; [|done]. intros g x g' _ Hg H. apply bind_Ok in H as ([g1 u] & H & E). injection E as <-.
    by eapply upsert_row_ok.
Qed.

Lemma upsert_clean table columns rows commit_ now c c' n admitted ks : clean_batch table rows (view c) admitted ks ->
  columns_of table = Some columns -> facts_ok (view c) ->
  upsert affinity float_repr table rows commit_ now c = (c', Ok n) ->
  facts_ok (view c') /\
  (forall key r, (key, r) ∈ zip ks admitted ->
     inhabited (written_at table columns (batch_columns admitted) key r (view c) (view c'))) /\
  (forall key, key ∉ ks -> row_at table key (view c') = row_at table key (view c) /\
     rows_at (key_columns table) key (revisions table (view c')) = rows_at (key_columns table) key (revisions table (view c))).
Proof.
  intros [Hs Ha Hk Hkd Hn Hm] Ht Hf H.
  assert (inhabited (upserted table rows (view c) (view c'))) as [u].
  { eapply upsert_Ok; [done|done| |exact H]. intros a Ea. rewrite Ha in Ea. by injection Ea as <-. }
  pose proof (upserted_ok _ _ _ _ u Hf) as Hf'.
  assert (u_admitted _ _ _ _ u = admitted) as Eu by (pose proof (u_admit _ _ _ _ u); congruence).
  assert (u_keys _ _ _ _ u = ks) as Ek by (pose proof (u_key _ _ _ _ u); congruence).
  split_and!; [done| |].
  - intros key r Hin. rewrite <- Eu. eapply upserted_at; rewrite ?Eu, ?Ek; done.
  - intros key Hin. eapply (upserted_other _ _ _ _ _ u); rewrite ?Eu, ?Ek; done.
Qed.

Lemma getv_dict_same k v d : getv k (dict_set k v d) = v.
Proof. rewrite getv_dict_set. by rewrite bool_decide_eq_true_2. Qed.

(** A text of the row is what its column gets. *)
Lemma cell_text columns cols r cells c s : NoDup (map col_name columns) -> c ∈ columns -> col_type c = "TEXT" -> col_name c ∈ cols ->
  bound_cells columns cols r = Ok cells -> getv (col_name c) r = JStr s -> getv (col_name c) (made_row affinity columns cells) = JStr s.
Proof.
  intros Hn Hc Ht Hk Hb Hv. unfold made_row. rewrite get_made by done.
  destruct (assoc (col_name c) cells) as [w|] eqn:E.
  - pose proof (bound_cells_Ok _ _ _ _ Hb _ _ E) as Hw. rewrite Hv in Hw. injection Hw as <-. by rewrite Ht, affinity_text.
  - apply assoc_None in E. by rewrite (bound_cells_keys _ _ _ _ Hb) in E.
Qed.

Lemma elem_of_batch_columns rows k : k ∈ batch_columns rows <-> exists r, r ∈ rows /\ k ∈ keys r.
Proof.
  unfold batch_columns. assert (forall l acc, k ∈ fold_left (fun cols k => if bool_decide (k ∈ cols) then cols else cols ++ [k]) l acc
    <-> k ∈ acc \/ k ∈ l) as H.
  { induction l as [|x l IH]; intros acc; simpl; [set_solver|]. rewrite IH. case_bool_decide; set_solver. }
  rewrite H. split.
  - intros [?%elem_of_nil|Hc]; [done|]. apply list_elem_of_In, in_concat in Hc as (ks & Hks & Hk).
    apply list_elem_of_In, list_elem_of_fmap in Hks as (r & -> & Hr). exists r. by split; [|apply list_elem_of_In].
  - intros (r & Hr & Hk). right. apply list_elem_of_In, in_concat. exists (keys r). split; [|by apply list_elem_of_In].
    apply list_elem_of_In, list_elem_of_fmap. eauto.
Qed.

Lemma has_key_dict_set k (v : json) d : k ∈ keys (dict_set k v d).
Proof. unfold keys. rewrite keys_dict_set. case_bool_decide; set_solver. Qed.

Lemma available_column rows admitted r : mapR admit_row rows = Ok admitted -> r ∈ admitted ->
  "available_at" ∈ batch_columns admitted.
Proof.
  intros Ha Hr. apply elem_of_batch_columns. exists r. split; [done|]. destruct (mapR_elem _ _ _ _ Ha Hr) as (x & _ & Hx).
  unfold admit_row in Hx. binds Hx. injection Hx as <-. apply has_key_dict_set.
Qed.

Lemma current_text table columns cols key r f f' (w : written_at table columns cols key r f f') col s :
  columns_of table = Some columns -> facts_ok f -> col ∈ columns -> col_type col = "TEXT" -> col_name col ∉ key_columns table ->
  col_name col ∈ cols -> getv (col_name col) (w_row _ _ _ _ _ _ _ w) = JStr s ->
  exists cur, row_at table key f' = Some cur /\ getv (col_name col) cur = JStr s.
Proof.
  intros Ht Hf Hk Hty Hnk Hc. destruct w as [r' displaced cells Hadj Hb Hkey Hcur Hh]. simpl. intros Hs.
  destruct (schema_facts _ _ Ht) as (Htx & Hn & _).
  assert (getv (col_name col) (made_row affinity columns cells) = JStr s) as Hm by (eapply cell_text; eauto).
  destruct (row_at table key f) as [ex|] eqn:Ex; [|eauto]. eexists. split; [exact Hcur|].
  rewrite getv_overlay_set; [done|done|done|]. apply row_at_elem in Ex as (Hin & _ & _).
  destruct (ok_rows _ _ _ (Hf table columns Ht) ex Hin) as [[Hkeys _] _]. rewrite Hkeys.
  apply list_elem_of_fmap. eauto.
Qed.

Lemma current_cell table columns cols key r f f' (w : written_at table columns cols key r f f') k s :
  columns_of table = Some columns -> facts_ok f -> k ∈ "event_time" :: version_columns table -> k ∉ key_columns table ->
  k ∈ cols -> getv k (w_row _ _ _ _ _ _ _ w) = JStr s ->
  exists cur, row_at table key f' = Some cur /\ getv k cur = JStr s.
Proof.
  intros Ht Hf Hk Hnk Hc Hs. destruct (schema_facts _ _ Ht) as (Htx & _ & _).
  destruct (text_column_elem _ _ (Htx k Hk)) as (col & Hcin & <- & Hty & _). by apply (current_text _ _ _ _ _ _ _ w).
Qed.

(** Claim C29. Fetching an observation again with the same payload is not an amendment: nothing is
    archived for its key, and its current row is available from the earlier of the two
    times, whenever it was fetched. *)
Theorem refetch_keeps_earliest table columns rows commit_ now c c' n admitted ks key r ex sig a b ta tb :
  let skip := key_columns table ++ ["available_at"; "ingested_at"] in
  clean_batch table rows (view c) admitted ks -> columns_of table = Some columns -> facts_ok (view c) ->
  upsert affinity float_repr table rows commit_ now c = (c', Ok n) ->
  (key, r) ∈ zip ks admitted -> row_at table key (view c) = Some ex ->
  payload_signature float_repr r (batch_columns admitted) skip = Ok sig ->
  payload_signature float_repr ex (batch_columns admitted) skip = Ok sig ->
  getv "available_at" ex = JStr a -> getv "available_at" r = JStr b -> parse_dt a = Ok ta -> parse_dt b = Ok tb ->
  rows_at (key_columns table) key (revisions table (view c')) = rows_at (key_columns table) key (revisions table (view c)) /\
  exists cur, row_at table key (view c') = Some cur /\ getv "available_at" cur = JStr (to_iso (Z.min ta tb)).
Proof.
  cbv zeta. intros Hclean Ht Hf H Hin Hex Hs1 Hs2 Ha Hb Hta Htb.
  destruct (upsert_clean _ _ _ _ _ _ _ _ _ _ Hclean Ht Hf H) as (_ & Hw & _). destruct (Hw key r Hin) as [w].
  pose proof (w_adjust _ _ _ _ _ _ _ w) as Hadj. pose proof (w_history _ _ _ _ _ _ _ w) as Hh.
  unfold adjust in Hadj. rewrite Hex, Hs1, Hs2 in Hadj. simpl in Hadj. rewrite bool_decide_eq_true_2 in Hadj by done.
  unfold earlier_available in Hadj. rewrite Ha, Hb in Hadj. simpl in Hadj. rewrite Hta, Htb in Hadj. simpl in Hadj.
  injection Hadj as Hrow Hd. rewrite <- Hd in Hh. split; [done|].
  eapply (current_cell _ _ _ _ _ _ _ w); [done|done| | | |].
  - unfold version_columns. set_solver.
  - by apply available_not_key, (columns_of_elem _ columns).
  - eapply available_column; [apply Hclean|by apply elem_of_zip_r in Hin].
  - rewrite <- Hrow, getv_dict_same. unfold Z.min, Z.leb. by destruct (ta ?= tb).
Qed.

(** Archiving a version adds it to the history, in the place of the row of the same version if there is one. *)
Lemma archived_versions table columns ex old : columns_of table = Some columns -> stored_row columns ex -> not_nulls columns ex = true ->
  (forall v, v ∈ old -> stored_row columns v) -> forall v,
  v ∈ upsert_on (version_columns table) (map col_name columns) ex old <->
  v = ex \/ (v ∈ old /\ row_key (version_columns table) v <> row_key (version_columns table) ex).
Proof.
  intros Ht Hx Hnn Hold v. destruct (schema_facts _ _ Ht) as (Htx & Hn & _). set (vc := version_columns table) in *.
  unfold upsert_on. rewrite (bool_decide_eq_false_2 (JNull ∈ row_key vc ex)). 2:{
    intros (k & Hk & Hin)%list_elem_of_fmap. destruct (text_key_value columns ex k) as [s E]; [|done|done|congruence].
    apply Htx. by right. }
  cbn [orb]. destruct (decide (row_key vc ex ∈ map (row_key vc) old)) as [Hin|Hin].
  - rewrite bool_decide_eq_true_2 by done. cbn [negb].
    assert (forall o, o ∈ old -> row_key vc o = row_key vc ex -> overlay vc (map col_name columns) ex o = ex) as Hover.
    { intros o Ho Hk. destruct (Hold o Ho) as [Ko _], Hx as [Kx _].
      apply (row_ext _ _ (map col_name columns)); [by rewrite keys_overlay|done|done|]. intros k Hkc.
      destruct (decide (k ∈ vc)) as [Hkv|Hkv]; [|apply getv_overlay_set; [done|done|by rewrite Ko]].
      rewrite getv_overlay by done. apply list_elem_of_lookup in Hkv as [j Hj]. apply (f_equal (lookup j)) in Hk. unfold row_key in Hk.
      rewrite !list_lookup_fmap, Hj in Hk. by injection Hk. }
    split.
    + intros (o & -> & Ho)%list_elem_of_fmap. case_bool_decide as E; [left; by apply Hover|by right].
    + intros H. apply list_elem_of_fmap. destruct H as [-> |[Hv Hne]].
      * apply list_elem_of_fmap in Hin as (o & Eo & Ho). exists o. by rewrite bool_decide_eq_true_2, Hover.
      * exists v. by rewrite bool_decide_eq_false_2.
  - rewrite bool_decide_eq_false_2 by done. cbn [negb]. rewrite elem_of_app, list_elem_of_singleton. split.
    + intros [Hv| ->]; [right; split; [done|]|by left]. intros E. apply Hin. rewrite <- E. apply list_elem_of_fmap. eauto.
    + intros [-> |[Hv _]]; auto.
Qed.

(** Claim C30. An amendment keeps what it displaces.  When a batch brings another payload for a key, the row that was
    current becomes a version of the key's history, as it was; the history has every version it had, but
    for one of the same times as that row, and no other; and the row that is current now has the
    new values of the text columns and is available from its fetch on, or from the later time it gives. *)
Theorem amendment_keeps_displaced table columns rows commit_ now c c' n admitted ks key r ex new old b i tb ti :
  let skip := key_columns table ++ ["available_at"; "ingested_at"] in
  clean_batch table rows (view c) admitted ks -> columns_of table = Some columns -> facts_ok (view c) ->
  upsert affinity float_repr table rows commit_ now c = (c', Ok n) ->
  (key, r) ∈ zip ks admitted -> row_at table key (view c) = Some ex ->
  payload_signature float_repr r (batch_columns admitted) skip = Ok new ->
  payload_signature float_repr ex (batch_columns admitted) skip = Ok old -> new <> old ->
  getv "available_at" r = JStr b -> getv "ingested_at" r = JStr i -> i <> "" -> parse_dt b = Ok tb -> parse_dt i = Ok ti ->
  (forall v, v ∈ rows_at (key_columns table) key (revisions table (view c')) <->
     v = ex \/ (v ∈ rows_at (key_columns table) key (revisions table (view c)) /\
               row_key (version_columns table) v <> row_key (version_columns table) ex)) /\
  exists cur, row_at table key (view c') = Some cur /\ getv "available_at" cur = JStr (to_iso (Z.max tb ti)) /\
    forall col s, col ∈ columns -> col_type col = "TEXT" -> col_name col ∉ "available_at" :: key_columns table ->
      col_name col ∈ batch_columns admitted -> getv (col_name col) r = JStr s -> getv (col_name col) cur = JStr s.
Proof.
  cbv zeta. intros Hclean Ht Hf H Hin Hex Hs1 Hs2 Hne Hb Hi Hi0 Htb Hti.
  destruct (upsert_clean _ _ _ _ _ _ _ _ _ _ Hclean Ht Hf H) as (_ & Hw & _). destruct (Hw key r Hin) as [w].
  pose proof (w_adjust _ _ _ _ _ _ _ w) as Hadj. pose proof (w_history _ _ _ _ _ _ _ w) as Hh.
  unfold adjust in Hadj. rewrite Hex, Hs1, Hs2 in Hadj. simpl in Hadj. rewrite bool_decide_eq_false_2, Hi in Hadj by done.
  unfold truthy in Hadj. rewrite bool_decide_eq_false_2 in Hadj by done. simpl in Hadj.
  unfold later_available in Hadj. rewrite Hb in Hadj. simpl in Hadj. rewrite Htb, Hti in Hadj. simpl in Hadj.
  injection Hadj as Hrow Hd. rewrite <- Hd in Hh. destruct (row_at_elem _ _ _ _ Hex) as (Hexin & _ & _).
  destruct (ok_rows _ _ _ (Hf table columns Ht) ex Hexin) as [Hst Hnn]. split.
  - rewrite Hh. apply archived_versions; [done|done|done|]. intros v [_ Hv]%elem_of_rows_at. by apply (ok_revisions _ _ _ (Hf table columns Ht)).
  - pose proof (columns_of_elem _ _ Ht) as Hsch.
    destruct (current_cell _ _ _ _ _ _ _ w "available_at" (to_iso (Z.max tb ti)) Ht Hf) as (cur & Hc & Ha).
    + unfold version_columns. set_solver.
    + by apply available_not_key.
    + eapply available_column; [apply Hclean|by apply elem_of_zip_r in Hin].
    + rewrite <- Hrow, getv_dict_same. do 2 f_equal. destruct (Z.leb_spec ti tb); lia.
    + exists cur. split_and!; [done|done|]. intros col s Hcol Hty [Hka Hnk]%not_elem_of_cons Hkc Hv.
      destruct (current_text _ _ _ _ _ _ _ w col s Ht Hf Hcol Hty Hnk Hkc) as (cur' & Hc' & Hv'); [|congruence].
      rewrite <- Hrow, getv_dict_set, bool_decide_eq_false_2; [done|congruence].
Qed.

(** ** The READY flag *)

Lemma invalidate_idem (p : option policy_row) : invalidate_snapshot <$> (invalidate_snapshot <$> p) = invalidate_snapshot <$> p.
Proof. by destruct p. Qed.

Lemma statement_applied {A} (g : facts -> result (facts * A)) c c' a : statement g c = (c', Ok a) -> g (view c) = Ok (view c', a).
Proof.
  unfold statement. intros H. change (view (begin_ c)) with (view c) in H.
  destruct (g (view c)) as [[t x]|e]; [|done]. by injection H as <- ->.
Qed.

Lemma with_columns_Ok {A} table (g : list column -> result A) a : with_columns table g = Ok a ->
  exists columns, columns_of table = Some columns /\ g columns = Ok a.
Proof. unfold with_columns. intros H. binds H. destruct (columns_of table); [|done]. injection E as <-. eauto. Qed.

Lemma row_statement_policy table cols r f f' u :
  upsert_row affinity table cols r f = Ok (f', u) \/ replace_row affinity table cols r f = Ok (f', u) \/
  archive_row affinity table cols r f = Ok (f', u) -> f_policy f' = invalidate_snapshot <$> f_policy f.
Proof.
  intros [H|[H|H]]; apply with_columns_Ok in H as (columns & _ & H); unfold upsert_row, replace_row, archive_row in H; cbv beta zeta in H; binds H; cbv beta zeta in H; binds H; by injection H as <- _.
Qed.

Lemma rows_policy (g : frow -> facts -> result (facts * unit)) l f f' :
  (forall r f f' u, g r f = Ok (f', u) -> f_policy f' = invalidate_snapshot <$> f_policy f) ->
  foldR (fun f r => p ← g r f; Ok p.1) f l = Ok f' ->
  f_policy f' = match l with [] => f_policy f | _ => invalidate_snapshot <$> f_policy f end.
Proof.
  intros Hg. revert f. induction l as [|r l IH]; intros f H; [by injection H as <-|]. simpl in H.
  apply bind_Ok in H as (f1 & Hx & H). apply bind_Ok in Hx as ([f2 u] & Hx & E). injection E as ->. apply Hg in Hx.
  rewrite (IH _ H), Hx. destruct l; [done|apply invalidate_idem].
Qed.

Lemma migrate_policy datasets now c c' n : migrate_before_write datasets now c = (c', Ok n) ->
  invalidate_snapshot <$> f_policy (view c') = invalidate_snapshot <$> f_policy (view c).
Proof.
  unfold migrate_before_write. intros H. apply bind_Ok_action in H as (c1 & pending & Hp & H). apply lift_Ok in Hp as [-> _].
  destruct pending as [|p ps]; [by injection H as <- _|].
  apply bind_Ok_action in H as (c1 & dn & Hs & H). unfold select in Hs. injection Hs as <- _.
  apply bind_Ok_action in H as (c2 & counts & Hs & H). injection H as <- _. revert Hs.
  generalize (filter (fun d => d ∉ dn) (p :: ps)). clear. intros l. revert c counts. induction l as [|d l IH]; intros c counts H.
  { by injection H as <- _. }
  simpl in H. apply bind_Ok_action in H as (c1 & n1 & H1 & H). apply bind_Ok_action in H as (c3 & ns & H3 & H).
  injection H as <- _. rewrite (IH _ _ H3). apply bind_Ok_action in H1 as (c4 & n4 & H4 & H1).
  apply bind_Ok_action in H1 as (c5 & [] & H5 & H1). injection H1 as <- _. apply statement_applied in H4, H5.
  unfold mark_migrated in H5. injection H5 as <-. simpl. unfold delete_dataset in H4. injection H4 as H4 _.
  rewrite <- H4. destruct (_ =? _)%nat; [done|apply invalidate_idem].
Qed.

(** A batch that is written, on any path, takes the READY flag and the active snapshot from
    the local policy. *)
Lemma write_invalidates table rows commit_ now c c' n : rows <> [] ->
  upsert affinity float_repr table rows commit_ now c = (c', Ok n) ->
  f_policy (view c') = invalidate_snapshot <$> f_policy (view c).
Proof.
  intros Hne H. destruct rows as [|r0 rs]; [done|]. set (rows := r0 :: rs) in *. unfold upsert in H. fold rows in H.
  apply bind_Ok_action in H as (c1 & admitted & Ha & H). apply lift_Ok in Ha as [-> Ha]. cbv zeta in H.
  assert (admitted <> []) as Hna by (apply mapR_Ok in Ha; by inversion Ha).
  apply bind_Ok_action in H as (c1 & n1 & Hmig & H).
  assert (invalidate_snapshot <$> f_policy (view c1) = invalidate_snapshot <$> f_policy (view c)) as Hc1.
  { destruct (table =s "jquants_records"); [by eapply migrate_policy|by injection Hmig as <- _]. }
  destruct (negb _ && _)%bool.
  - apply bind_Ok_action in H as (c2 & known & Hkn & H).
    apply bind_Ok_action in Hkn as (c3 & ks & Hks & Hkn). apply lift_Ok in Hks as [-> _]. unfold select in Hkn. injection Hkn as <- _.
    apply bind_Ok_action in H as (c2 & b & Hb & H). apply lift_Ok in Hb as [-> Hb]. apply or_rollback_Ok in H.
    apply bind_Ok_action in H as (c2 & u1 & Har & H). apply bind_Ok_action in H as (c3 & u2 & Hup & H).
    apply bind_Ok_action in H as (c4 & u3 & Hcm & H). injection H as <- _. apply commit_if_view in Hcm. apply executemany_view in Hup.
    rewrite Hcm. assert (b_rows b <> []) as Hbne.
    { destruct admitted as [|x xs]; [done|]. simpl in Hb. apply bind_Ok in Hb as (b1 & Hb1 & Hb).
      assert (b_rows b1 <> []) as H1 by (unfold upsert_step in Hb1; binds Hb1; injection Hb1 as <-; by destruct (b_rows _)).
      revert H1 Hb. apply (foldR_inv (fun b => b_rows b <> [])). intros b2 y b3 _ H2 H3. unfold upsert_step in H3. binds H3.
      injection H3 as <-. simpl. by destruct (b_rows b2). }
    apply rows_policy in Hup; [|intros; eapply row_statement_policy; eauto]. destruct (b_rows b); [done|]. rewrite Hup, <- Hc1.
    unfold archive_revisions in Har. destruct (b_revisions b) as [|y ys]; [by injection Har as <- _|].
    apply executemany_view in Har. apply rows_policy in Har; [|intros; eapply row_statement_policy; eauto].
    rewrite Har. apply invalidate_idem.
  - apply or_rollback_Ok in H. apply bind_Ok_action in H as (c2 & u1 & Hrep & H).
    apply bind_Ok_action in H as (c3 & u3 & Hcm & H). injection H as <- _. apply commit_if_view in Hcm. apply executemany_view in Hrep.
    apply rows_policy in Hrep; [|intros; eapply row_statement_policy; eauto]. destruct admitted; [done|]. by rewrite Hcm, Hrep, Hc1.
Qed.
End Theory.

(** ** A sample store *)

(** What SQLite's rules make of the values of rows. *)
Definition sqlite_affinity (ty : string) (v : json) : json :=
  match v with
  | JNull => JNull
  | JStr _ => v
  | _ => if ty =s "TEXT" then JStr (py_str v)
         else match v with JInt n => if ty =s "REAL" then JFloat (show_Z n +:+ ".0") else v | _ => v end
  end.

#[export] Instance sqlite_affinity_laws : Affinity sqlite_affinity.
Proof.
  assert (forall n, show_Z n +:+ ".0" <> "nan") as Hnan.
  { intros n E. assert (forall s, has_char "." (s +:+ ".0") = true) as H.
    - induction s as [|c s IH]; [done|]. simpl. rewrite IH. apply orb_true_r.
    - specialize (H (show_Z n)). by rewrite E in H. }
  split; unfold sqlite_affinity.
  - done.
  - intros v Hv. destruct v; try done; eexists; reflexivity.
  - done.
  - intros ty v Hv. destruct v; try done; repeat case_bool_decide; done.
  - intros ty v. destruct v; try done; repeat (case_bool_decide; try done); subst; done.
  - intros ty v Hv. destruct v; try done; repeat (case_bool_decide; try done); simpl; try done.
    rewrite bool_decide_eq_false_2; [done|apply Hnan].
Qed.

Definition master_row (code snapshot available ingested company : string) : frow :=
  [("source", JStr "jquants"); ("code", JStr code); ("snapshot_date", JStr snapshot);
   ("event_time", JStr (snapshot +:+ "T00:00:00+09:00")); ("available_at", JStr available); ("ingested_at", JStr ingested);
   ("company_name", JStr company); ("raw_payload", JNull)].

Definition empty_facts (policy : option policy_row) : facts := mkFacts ∅ ∅ [] policy.

Definition ready_policy : policy_row := mkPolicyRow 1 1 None None "READY" (Some "b1") (Some "s1").

Lemma facts_ok_empty policy : facts_ok sqlite_affinity (empty_facts policy).
Proof.
  intros table columns _. assert (primary table (empty_facts policy) = []) as Ep by done.
  assert (revisions table (empty_facts policy) = []) as Er by done.
  split; rewrite ?Ep, ?Er; try (intros row ?%elem_of_nil; done); constructor.
Qed.

Definition sample_first : list frow := [master_row "1301" "2025-03-31" "2025-04-01T08:00:00+09:00" "2025-04-01T08:05:00+09:00" "Kyokuyo"].
Definition sample_now : string := "2025-04-01T08:05:00+09:00".

Definition sample_store : connection_to facts :=
  Eval vm_compute in
  (upsert sqlite_affinity id "jquants_listed_info" sample_first true sample_now (mkConnection (empty_facts (Some ready_policy)) None)).1.

Lemma sample_store_run : (upsert sqlite_affinity id "jquants_listed_info" sample_first true sample_now
  (mkConnection (empty_facts (Some ready_policy)) None)).1 = sample_store.
Proof. vm_compute. reflexivity. Qed.

Lemma sample_store_ok : everywhere (facts_ok sqlite_affinity) sample_store.
Proof.
  rewrite <- sample_store_run. apply preserves_upsert; [apply _|]. split; [apply facts_ok_empty|done].
Qed.

Definition sample_refetch : list frow := [master_row "1301" "2025-03-31" "2025-04-03T08:00:00+09:00" "2025-04-03T08:05:00+09:00" "Kyokuyo"].
Definition sample_amendment : list frow := [master_row "1301" "2025-03-31" "2025-04-02T08:00:00+09:00" "2025-04-09T08:05:00+09:00" "KYOKUYO"].

Definition sample_key : list json := [JStr "jquants"; JStr "1301"; JStr "2025-03-31"].

Lemma clean_sample rows : rows = sample_refetch \/ rows = sample_amendment ->
  clean_batch "jquants_listed_info" rows (view sample_store) rows [sample_key].
Proof. intros [-> | ->]; split; try done; try (by vm_compute); apply NoDup_singleton. Qed.

Lemma refetch_keeps_earliest_witness :
  exists cur, row_at "jquants_listed_info" sample_key
      (view (upsert sqlite_affinity id "jquants_listed_info" sample_refetch true sample_now sample_store).1) = Some cur /\
    getv "available_at" cur = JStr "2025-04-01T08:00:00+09:00".
Proof.
  edestruct (refetch_keeps_earliest sqlite_affinity id "jquants_listed_info" jquants_listed_info sample_refetch true
    sample_now sample_store (upsert sqlite_affinity id "jquants_listed_info" sample_refetch true sample_now sample_store).1
    1 sample_refetch [sample_key] sample_key) as [_ H].
  - apply clean_sample. by left.
  - reflexivity.
  - apply everywhere_view, sample_store_ok.
  - vm_compute. reflexivity.
  - vm_compute. apply list_elem_of_here.
  - vm_compute. reflexivity.
  - vm_compute. reflexivity.
  - vm_compute. reflexivity.
  - vm_compute. reflexivity.
  - vm_compute. reflexivity.
  - vm_compute. reflexivity.
  - vm_compute. reflexivity.
  - vm_compute in H |- *. exact H.
Defined.

Lemma amendment_keeps_displaced_witness :
  exists cur ex, row_at "jquants_listed_info" sample_key (view sample_store) = Some ex /\
    ex ∈ revisions "jquants_listed_info"
      (view (upsert sqlite_affinity id "jquants_listed_info" sample_amendment true sample_now sample_store).1) /\
    row_at "jquants_listed_info" sample_key
      (view (upsert sqlite_affinity id "jquants_listed_info" sample_amendment true sample_now sample_store).1) = Some cur /\
    getv "available_at" cur = JStr "2025-04-09T08:05:00+09:00" /\ getv "company_name" cur = JStr "KYOKUYO".
Proof.
  edestruct (amendment_keeps_displaced sqlite_affinity id "jquants_listed_info" jquants_listed_info sample_amendment true
    sample_now sample_store (upsert sqlite_affinity id "jquants_listed_info" sample_amendment true sample_now sample_store).1
    1 sample_amendment [sample_key] sample_key) as [Hrev (cur & Hcur & Ha & Hv)].
  - apply clean_sample. by right.
  - reflexivity.
  - apply everywhere_view, sample_store_ok.
  - vm_compute. reflexivity.
  - vm_compute. apply list_elem_of_here.
  - vm_compute. reflexivity.
  - vm_compute. reflexivity.
  - vm_compute. reflexivity.
  - vm_compute. discriminate.
  - vm_compute. reflexivity.
  - vm_compute. reflexivity.
  - discriminate.
  - vm_compute. reflexivity.
  - vm_compute. reflexivity.
  - eexists cur, _. split; [vm_compute; reflexivity|]. split.
    + exact (proj2 (proj1 (elem_of_rows_at _ _ _ _) (proj2 (Hrev _) (or_introl eq_refl)))).
    + split; [exact Hcur|]. split; [vm_compute in Ha |- *; exact Ha|].
      refine (Hv (text_column "company_name") "KYOKUYO" _ _ _ _ _).
      * apply (list_elem_of_lookup_2 _ 6%nat). vm_compute. reflexivity.
      * reflexivity.
      * intros H. vm_compute in H. repeat (apply elem_of_cons in H as [H|H]; [discriminate H|]). by apply elem_of_nil in H.
      * apply (list_elem_of_lookup_2 _ 6%nat). vm_compute. reflexivity.
      * vm_compute. reflexivity.
Defined.

(** A record of the generic table. *)
Definition record_row (dataset nk payload : string) : frow :=
  [("source", JStr "jquants"); ("dataset", JStr dataset); ("natural_key", JStr nk);
   ("event_time", JStr "2025-04-01T09:00:00+09:00"); ("available_at", JStr "2025-04-01T09:00:00+09:00");
   ("ingested_at", JStr "2025-04-01T09:05:00+09:00"); ("payload", JStr payload)].

Definition legacy_store : connection_to facts :=
  mkConnection (mkFacts {["jquants_records" := [record_row "td_list" "hash:1" "{}"]]} ∅ [] None) None.

(** The second row lacks its natural key. *)
Definition broken_batch : list frow :=
  [record_row "td_list" "k1" "{}"; filter (fun p => p.1 <> "natural_key") (record_row "td_list" "k2" "{}")].

(** A batch that fails between the migration of its dataset and its writes is not rolled back:
    the deletion of the rows with legacy keys stays pending, and the next batch
    commits it. *)
Theorem failed_batch_keeps_deletion :
  let failed := upsert sqlite_affinity id "jquants_records" broken_batch true sample_now legacy_store in
  failed.2 = Err (Exn KeyError "key") /\ in_transaction failed.1 = true /\ primary "jquants_records" (view failed.1) = [] /\
  let later := upsert sqlite_affinity id "jquants_listed_info" sample_first true sample_now failed.1 in
  later.2 = Ok 1 /\ in_transaction later.1 = false /\ primary "jquants_records" (committed later.1) = [].
Proof. vm_compute. repeat split. Qed.
