(* ===== verification/Pipeline.v ===== *)
(** * Pipeline: runs of the J-Quants ingestion
    (packages/data_plane/ingestion/pipeline.py and ingestion/common/paths.py)

    A run fetches datasets, saves the bytes of every page under a name of its own,
    and registers the normalised rows.  Without the service that issues receipts, which this
    commit does not provide, a governed run stops at the raw files; a personal draft
    registers rows and claims nothing.  The state of a run is the client, the tree of raw
    files, the connection to the store and the log of runs. *)

From S2P Require Import Prelude PyDate PyTime JstTime Json JsonText Utf8 Sha256 SourceCapability RateLimit JQuantsClient FetchJobs DatasetContract DatasetIdentity Normalize Receipt Transaction LedgerStore Publication FactStore.

Local Open Scope Z_scope.

(** ** Reports *)

Record RunReport := mkReport {
  rp_source : string;
  rp_kind : string;
  rp_fetched : Z;
  rp_registered : Z;
  rp_skipped : string;
  rp_error : string;
  rp_expected_empty : bool;
  rp_raw_path : string;
}.

Definition report_skipped (source kind why : string) : RunReport := mkReport source kind 0 0 why "" false "".
Definition report_error (source kind why : string) : RunReport := mkReport source kind 0 0 "" why false "".

Definition schema_miss (r : RunReport) : bool :=
  (rp_skipped r =s "") && (rp_error r =s "") && negb (rp_expected_empty r) && (0 <? rp_fetched r) && (rp_registered r =? 0).

Definition effective_error (r : RunReport) : string :=
  if negb (rp_error r =s "") then rp_error r
  else if schema_miss r
       then "fetched=" +:+ show_Z (rp_fetched r) +:+ " but registered=0 (schema miss / empty normalize)"
       else "".

Definition report_ok (r : RunReport) : bool :=
  if negb (rp_skipped r =s "") || negb (rp_error r =s "") || schema_miss r then false
  else (0 <? rp_registered r) || rp_expected_empty r.

Definition report_failed (r : RunReport) : bool := negb (effective_error r =s "").

Definition report_summary (r : RunReport) : string :=
  let name := "[" +:+ rp_source r +:+ "/" +:+ rp_kind r +:+ "] " in
  if report_failed r then name +:+ "ERROR (" +:+ effective_error r +:+ ")"
  else if negb (rp_skipped r =s "") then name +:+ "SKIPPED (" +:+ rp_skipped r +:+ ")"
  else name +:+ "OK fetched=" +:+ show_Z (rp_fetched r) +:+ " registered=" +:+ show_Z (rp_registered r) +:+
       (if rp_raw_path r =s "" then "" else " raw=" +:+ rp_raw_path r).

Definition decide_exit (reports : list RunReport) : Z :=
  if existsb report_failed reports then 1 else if existsb report_ok reports then 0 else 2.

Definition log_status (reports : list RunReport) : string :=
  if existsb report_failed reports then "error" else if existsb report_ok reports then "ok" else "skipped".

(** ** Names of raw files *)

Definition _ymd (when_ : date_like) : result (string * string * string) :=
  d ← match when_ with
      | DLMoment m => t ← ensure_jst m; Ok (dt_date t)
      | DLDate d => Ok d
      | DLText s => t ← parse_dt s; Ok (dt_date t)
      end;
  Ok (pad4 (year_of d), pad2 (month_of d), pad2 (day_of d)).

(** [a / b] of paths as texts. *)
Definition path_join (a b : string) : string := if String.prefix "/" b then b else a +:+ "/" +:+ b.

Definition raw_dir (base source : string) (when_ : date_like) : result string :=
  p ← _ymd when_;
  let '(y, m, d) := p in
  Ok (foldl path_join base ["raw"; source; y; m; d]).

Definition raw_path (base source : string) (when_ : date_like) (filename : string) : result string :=
  dir ← raw_dir base source when_; Ok (path_join dir filename).

(** [s.replace(c, "")] *)
Fixpoint without (c : ascii) (s : string) : string :=
  match s with
  | EmptyString => EmptyString
  | String d s => if ascii_dec d c then without c s else String d (without c s)
  end.

(** [s.replace(" ", "_")] *)
Fixpoint underscored (s : string) : string :=
  match s with
  | EmptyString => EmptyString
  | String d s => String (if ascii_dec d " " then "_"%char else d) (underscored s)
  end.

Definition compact_stamp (iso_ts : string) : string := str_take 15 (without "-" (without ":" iso_ts)).

(** [s.rfind(c)], with [None] for -1. *)
Fixpoint rfind (c : ascii) (s : string) : option nat :=
  match s with
  | EmptyString => None
  | String d s =>
      match rfind c s with
      | Some i => Some (S i)
      | None => if ascii_dec d c then Some O else None
      end
  end.

Fixpoint all_dots (s : string) : bool :=
  match s with EmptyString => true | String c s => (if ascii_dec c "." then true else false) && all_dots s end.

(** [os.path.splitext] *)
Definition splitext (p : string) : string * string :=
  let start := match rfind "/" p with Some i => S i | None => O end in
  match rfind "." p with
  | Some d => if (start <=? d)%nat && negb (all_dots (str_drop start (str_take d p))) then (str_take d p, str_drop d p) else (p, "")
  | None => (p, "")
  end.

Definition stamped (name stamp : string) : string :=
  let stamp := compact_stamp stamp in
  if stamp =s "" then name
  else let '(stem, ext) := splitext name in stem +:+ "_" +:+ stamp +:+ ext.

(** [f"{index:04d}"] *)
Definition index4 (n : nat) : string := if Z.of_nat n <? 10000 then pad4 (Z.of_nat n) else show_Z (Z.of_nat n).

Example stamped_names :
  stamped "listed_info.json" "2025-04-04T16:05:09+09:00" = "listed_info_20250404T160509.json" /\
  stamped "fins_summary_from=2025.04.01" "" = "fins_summary_from=2025.04.01" /\
  stamped "archive/.hidden" "2025-04-04" = "archive/.hidden_20250404" /\
  raw_path "data" "jquants" (DLText "2025-04-04T23:30:00Z") "bars.json" = Ok "data/raw/jquants/2025/04/05/bars.json" /\
  raw_path "data" "jsda" (DLDate (ymd2ord 2025 4 4)) "bonds.csv" = Ok "data/raw/jsda/2025/04/04/bonds.csv".
Proof. vm_compute. repeat split. Qed.

(** ** The state of a run *)

Record raw_file := mkRawFile { rf_bytes : string; rf_writable : bool }.

(** The calls of the file system before and after the bytes are written. *)
Inductive disk_op := MakeDirs | OpenNew | ReadBack | ChangeMode.

Record log_row := mkLog { lg_ran_at : string; lg_source : string; lg_runtime : string; lg_status : string; lg_detail : string }.

Definition PERSONAL_DRAFT_GOVERNANCE_TABLES : list string :=
  ["collection_receipts"; "coverage_complete_transition_tombstones"; "coverage_segments"; "dataset_coverage";
   "ingestion_validation"; "ingestion_watermarks"; "local_coverage_proofs"; "local_coverage_proofs_v2";
   "local_snapshot_manifests"; "local_snapshot_policy"; "raw_retention_manifests"; "receipt_product_materializations";
   "snapshot_publications"; "snapshot_quality_results"].

Section Pipeline.
Context {W : Type}.
Variable http_name : string.
Variable http_get : string -> list (string * string) -> list (string * json) -> run_in W HttpResponse.
Variable clock : W -> W * pyfloat.
Variable sleep : pyfloat -> W -> W.
Variable api_key : string.
Variable retries : Z.
Variable float_repr : string -> string.
Variable affinity : string -> json -> json.
Variable capabilities : registry.
Variable to_float : json -> result json.
(** [datetime.now(JST)] *)
Variable wall : W -> W * datetime.
(** What a call of the file system does to the world, and whether it raises; and what a write does, [None] when
    it is complete, else the number of bytes it leaves in the file and the exception. *)
Variable disk : disk_op -> string -> W -> W * result unit.
Variable disk_write : string -> string -> W -> W * option (nat * exn).
(** [str(exc)], and the name of the class of an exception. *)
Variables exn_text exn_name : exn -> string.
(** [str(path.resolve())] *)
Variable resolve : string -> string.
(** The workers, as in FetchJobs. *)
Variable pool : nat -> list FetchJob -> client_state (W := W) -> client_state (W := W) * list (nat * result JobResult).
(** The calls of a chain of pages at most. *)
Variable fuel : nat.
(** The tables of the database, apart from the tables of facts and the policy of snapshots, that hold a row. *)
Variable occupied : list string.

Record machine := mkMachine {
  mc_client : client_state (W := W);
  mc_files : gmap string raw_file;
  mc_store : connection_to facts;
  mc_log : list log_row;
}.

Definition set_client c m := mkMachine c (mc_files m) (mc_store m) (mc_log m).
Definition set_files f m := mkMachine (mc_client m) f (mc_store m) (mc_log m).
Definition set_store s m := mkMachine (mc_client m) (mc_files m) s (mc_log m).

Abbreviation run := (run_in machine).

Definition at_client {A} (a : run_in (client_state (W := W)) A) : run A := fun m =>
  let '(c, r) := a (mc_client m) in (set_client c m, r).

Definition at_store {A} (a : faction A) : run A := fun m =>
  let '(s, r) := a (mc_store m) in (set_store s m, r).

Definition client_now : run_in (client_state (W := W)) string := fun c =>
  let '(w, t) := wall (world c) in (mkClient w (limiter c), Ok (to_iso t)).

Definition now_iso : run string := at_client client_now.

(** The marks of what the model leaves out are not exceptions of the program. *)
Definition caught (e : exn) : bool := negb (bool_decide (exn_kind e ∈ [Diverges; OutsideModel])).

(** [try: return body except Exception as exc: return handler(exc)] *)
Definition attempt {A} (handler : exn -> A) (body : run A) : run A := fun m =>
  match body m with
  | (m, Err e) => if caught e then (m, Ok (handler e)) else (m, Err e)
  | r => r
  end.

Definition disk_call (op : disk_op) (path : string) : run unit := at_client (fun c =>
  let '(w, r) := disk op path (world c) in (mkClient w (limiter c), r)).

(** The body of [with p.open("xb") as handle] for a new file. *)
Definition write_new (p data : string) : run unit := fun m =>
  let '(w, fault) := disk_write p data (world (mc_client m)) in
  let m := set_client (mkClient w (limiter (mc_client m))) m in
  match fault with
  | None => (set_files (<[p := mkRawFile data true]> (mc_files m)) m, Ok tt)
  | Some (n, e) => (set_files (<[p := mkRawFile (str_take n data) true]> (mc_files m)) m, Err e)
  end.

(** The handler of [FileExistsError]. *)
Definition confirm (data : string) (f : raw_file) (p : string) : run unit :=
  _ ← disk_call ReadBack p;
  lift_run (ensure (rf_bytes f =s data) FileExistsError "immutable raw identity already contains different bytes").

Definition write_or_confirm (p data : string) : run unit := fun m =>
  match mc_files m !! p with
  | Some f => confirm data f p m
  | None => write_new p data m
  end.

Definition seal (p : string) : run unit := fun m =>
  (set_files (alter (fun f => mkRawFile (rf_bytes f) false) p (mc_files m)) m, Ok tt).

(** [p.chmod(0o444)] *)
Definition make_read_only (p : string) : run unit := _ ← disk_call ChangeMode p; seal p.

(** [save_raw]; nobody else writes these files. *)
Definition save_raw (data_base source filename data : string) (when_ : date_like) : run string :=
  p ← lift_run (raw_path data_base source when_ filename);
  _ ← disk_call MakeDirs p;
  _ ← disk_call OpenNew p;
  _ ← write_or_confirm p data;
  _ ← make_read_only p;
  mret p.

(** [Registrar.register]; the reading of the clock is for the mark of a migration. *)
Definition canonical_row (r : frow) : result frow :=
  a ← validate_available_at (getv "available_at" r); Ok (dict_set "available_at" (JStr a) r).

Definition register (table : string) (rows : list frow) (commit_ : bool) : run Z :=
  canonical ← lift_run (mapR canonical_row rows);
  now ← now_iso;
  at_store (upsert affinity float_repr table canonical commit_ now).

Definition append_log (row : log_row) : run unit := fun m =>
  (mkMachine (mc_client m) (mc_files m) (commit (mc_store m)) (mc_log m ++ [row]), Ok tt).

(** [_log] *)
Definition log_run (source runtime : string) (reports : list RunReport) : run unit :=
  ran_at ← now_iso;
  append_log (mkLog ran_at source runtime (log_status reports) (String.concat "; " (map report_summary reports))).

(** [_assert_personal_draft_store_is_unmanaged] *)
Definition assert_unmanaged : run unit := fun m =>
  let policy := if present (f_policy (view (mc_store m))) then ["local_snapshot_policy"] else [] in
  if existsb (fun t => t ∈? PERSONAL_DRAFT_GOVERNANCE_TABLES) (policy ++ occupied)
  then (m, raise ValueError "personal DRAFT ingestion refuses a managed/governed database")
  else (m, Ok tt).

(** ** One job (the [_persist] of [_run_jquants_catalog]) *)

Definition json_of_pagination (o : option string) : json := match o with Some s => JStr s | None => JNull end.

Definition page_digest (page : raw_page) : string := "sha256:" +:+ hexdigest (pg_body page).

Definition page_entry (index : nat) (path : string) (page : raw_page) : json :=
  JDict [("index", JInt (Z.of_nat index)); ("raw_path", JStr (resolve path)); ("body_digest", JStr (page_digest page));
         ("request_path", JStr (pg_path page)); ("request_params", JDict (pg_params page)); ("response_url", JStr (pg_url page));
         ("response_status", JInt (pg_status page)); ("pagination_in", json_of_pagination (pg_in page));
         ("pagination_out", json_of_pagination (pg_out page))].

Definition manifest (personal_draft : bool) (dataset : string) (fr : fetch_result) (pages : list json) : json :=
  JDict ([("schema_version", JStr (if personal_draft then "jquants-personal-draft-raw-manifest/v1" else "jquants-pagination-evidence/v1"));
          ("source", JStr "jquants"); ("dataset", JStr dataset); ("base_params", JDict (fr_base_params fr)); ("pages", JList pages)] ++
         (if personal_draft
          then [("research_state", JStr "PERSONAL_DRAFT"); ("completeness_claim", JStr "NONE"); ("trusted_receipt", JStr "NOT_ISSUED")]
          else [])).

Definition manifest_bytes (j : json) : string := utf8_encode (dumps_unicode_onto j EmptyString).

Definition page_file (stamp_name : string) (index : nat) (when_ : string) : string :=
  stamped (stamp_name +:+ "_page=" +:+ index4 index +:+ ".json") when_.

Fixpoint save_pages (data_base stamp_name when_ : string) (index : nat) (pages : list raw_page) : run (list json) :=
  match pages with
  | [] => mret []
  | page :: pages =>
      path ← save_raw data_base "jquants" (page_file stamp_name index when_) (pg_body page) (DLText when_);
      rest ← save_pages data_base stamp_name when_ (S index) pages;
      mret (page_entry index path page :: rest)
  end.

Definition stamp_name (job : FetchJob) : string := str_take 120 (underscored (label job)).

(** The raw files of a result: the path of the manifest. *)
Definition save_evidence (data_base : string) (personal_draft : bool) (job : FetchJob) (fr : fetch_result) (when_ : string)
    : run string :=
  entries ← save_pages data_base (stamp_name job) when_ 0 (fr_pages fr);
  save_raw data_base "jquants" (stamped (stamp_name job +:+ "_pagination-manifest.json") when_)
    (manifest_bytes (manifest personal_draft (fj_dataset_id job) fr entries)) (DLText when_).

Definition persist_body (data_base : string) (personal_draft : bool) (res : JobResult) (when_ : string) : run RunReport :=
  let job := jr_job res in
  let fetched := Z.of_nat (length (jr_rows res)) in
  match jr_fetch_result res with
  | Some fr =>
      if bool_decide (fr_pages fr = []) then lift_run (raise ValueError "J-Quants fetch result has no raw page evidence")
      else
        path ← save_evidence data_base personal_draft job fr when_;
        if personal_draft then
          norm ← lift_run (normalize_generic capabilities (map JDict (jr_rows res)) (fj_dataset_id job) when_ None);
          n ← register "jquants_records" norm true;
          mret (mkReport "jquants" (fj_dataset_id job) fetched n "" "" false path)
        else
          mret (mkReport "jquants" (fj_dataset_id job) fetched 0 ""
                  "receipt emit failed (governed): receipt capability was not injected" false path)
  | None => lift_run (raise ValueError "J-Quants fetch result has no raw page evidence")
  end.

(** [_persist] where no service issues receipts, which is always
    ([_open_governed_receipt_service] raises). *)
Definition persist_result (data_base : string) (personal_draft : bool) (res : JobResult) (when_ : string) : run RunReport :=
  attempt (fun e => report_error "jquants" (fj_dataset_id (jr_job res)) (exn_text e)) (persist_body data_base personal_draft res when_).

(** ** The datasets of the catalogue ([_run_jquants_catalog]) *)

(** [_stamp_completion] *)
Definition stamp_completion (res : JobResult) : run_in (client_state (W := W)) JobResult :=
  now ← client_now;
  mret (mkJobResult (jr_job res) (jr_rows res) (jr_fetch_result res) (jr_error res) (jr_elapsed res) now).

Definition job_error (e : exn) : string := exn_name e +:+ ": " +:+ exn_text e.

Definition result_report (data_base : string) (personal_draft : bool) (res : JobResult) : run RunReport :=
  match jr_error res with
  | Some e => mret (report_error "jquants" (fj_dataset_id (jr_job res)) (job_error e))
  | None =>
      when_ ← (if jr_completed_at res =s "" then now_iso else mret (jr_completed_at res));
      persist_result data_base personal_draft res when_
  end.

Fixpoint result_reports (data_base : string) (personal_draft : bool) (results : list JobResult) : run (list RunReport) :=
  match results with
  | [] => mret []
  | res :: results =>
      r ← result_report data_base personal_draft res;
      rs ← result_reports data_base personal_draft results;
      mret (r :: rs)
  end.

Definition strftime_ymd (d : date) : string := strftime_ym d +:+ "-" +:+ pad2 (day_of d).

Definition jquants_default_window (today : date) (mode : string) : option string * option string :=
  if mode =s "incremental" then
    match date_add today (-5) with
    | Ok start => (Some (strftime_ymd start), Some (strftime_ymd today))
    | Err _ => (None, None)
    end
  else (None, None).

Record ingest_args := mkArgs {
  ia_data_base : string;
  ia_today : date;
  ia_runtime : string;
  ia_code : option string;
  ia_date_from : option string;
  ia_date_to : option string;
  ia_datasets : option (list string);
  ia_mode : string;
  ia_max_workers : Z;
  ia_chunk_days : Z;
  ia_personal_draft : bool;
}.

Definition catalog_mode (mode : string) : string := if (mode =s "incremental") || (mode =s "backfill") then mode else "incremental".

Definition catalog_window (a : ingest_args) : option string * option string :=
  if given_text (ia_date_from a) || given_text (ia_date_to a) then (ia_date_from a, ia_date_to a)
  else jquants_default_window (ia_today a) (catalog_mode (ia_mode a)).

Definition fetch_job (job : FetchJob) : run_in (client_state (W := W)) fetch_result :=
  fetch_dataset_evidenced http_name http_get clock sleep api_key retries float_repr fuel (fj_dataset_id job) (fj_params job).

(** [time.monotonic] *)
Definition monotonic (c : client_state (W := W)) : client_state (W := W) * pyfloat :=
  let '(w, t) := clock (world c) in (mkClient w (limiter c), t).

Definition known_dataset (id : string) : bool := is_Ok (catalog_get id).

Definition unknown_reports (datasets : list string) : list RunReport :=
  map (fun id => report_skipped "jquants" id ("unknown dataset id: " +:+ id)) (filter (fun id => known_dataset id = false) datasets).

Definition run_jquants_catalog (a : ingest_args) (datasets : list string) : run (list RunReport) :=
  let window := catalog_window a in
  let codes := if given_text (ia_code a) then option_map (fun c => [c]) (ia_code a) else None in
  jobs ← lift_run (expand_jobs (filter (fun id => known_dataset id = true) datasets) window.1 window.2 (Z.max 1 (ia_chunk_days a)) codes None);
  results ← at_client (run_parallel fetch_job monotonic (Some stamp_completion) pool jobs (Z.max 1 (ia_max_workers a)));
  done ← result_reports (ia_data_base a) (ia_personal_draft a) results;
  let reports := unknown_reports datasets ++ done in
  _ ← log_run "jquants" (ia_runtime a) reports;
  mret reports.

(** ** The curated datasets of [run_jquants] *)

(** The rows of a response; what is not an object is outside the model. *)
Definition dict_row (j : json) : result (list (string * json)) :=
  match j with JDict d => Ok d | _ => raise OutsideModel "a row that is not an object" end.

Definition save_response (data_base file : string) (rows : list json) : run string :=
  when_ ← now_iso;
  _ ← save_raw data_base "jquants" (stamped file when_) (utf8_encode (raw_dumps (JList rows))) (DLText when_);
  mret when_.

Definition curated (data_base kind file table : string) (fetch : run_in (client_state (W := W)) (list json))
    (normalize : list (list (string * json)) -> string -> result (list frow)) : run RunReport :=
  attempt (fun e => report_error "jquants" kind (exn_text e))
    (found ← at_client fetch;
     when_ ← save_response data_base file found;
     rows ← lift_run (rows ← mapR dict_row found; normalize rows when_);
     n ← register table rows true;
     mret (mkReport "jquants" kind (Z.of_nat (length found)) n "" "" false "")).

Definition curated_summaries (a : ingest_args) : run RunReport :=
  attempt (fun e => report_skipped "jquants" "fins_summary" ("optional endpoint skipped: " +:+ exn_text e))
    (found ← at_client (fins_summary http_get clock sleep api_key retries float_repr (ia_code a) None);
     _ ← save_response (ia_data_base a) "fins_summary.json" found;
     mret (mkReport "jquants" "fins_summary" (Z.of_nat (length found)) 0 "" "" true "")).

Definition run_curated (a : ingest_args) : run (list RunReport) :=
  info ← curated (ia_data_base a) "listed_info" "listed_info.json" "jquants_listed_info"
           (listed_info http_get clock sleep api_key retries float_repr fuel None None)
           (fun rows now => normalize_listed_info capabilities rows now (isoformat (ia_today a)) None);
  bars ← curated (ia_data_base a) "daily_bars" "daily_bars.json" "jquants_daily_bars"
           (daily_bars http_get clock sleep api_key retries float_repr fuel (ia_code a) None (ia_date_from a) (ia_date_to a))
           (fun rows now => normalize_daily_bars capabilities to_float rows now None);
  days ← curated (ia_data_base a) "calendar" "calendar.json" "jquants_market_calendar"
           (market_calendar http_get clock sleep api_key retries float_repr (ia_date_from a) (ia_date_to a) None)
           (fun rows now => normalize_market_calendar capabilities rows now None);
  summaries ← curated_summaries a;
  let reports := [info; bars; days; summaries] in
  _ ← log_run "jquants" (ia_runtime a) reports;
  mret reports.

Definition cannot_fetch (source runtime : string) : list RunReport :=
  [report_skipped source "*" ("runtime=" +:+ runtime +:+ " cannot fetch in Phase 1 (Pattern B: fetch on local only)")].

Definition no_key : list RunReport := [report_skipped "jquants" "*" "JQUANTS_API_KEY not set (and no CF proxy configured)"].

Definition given_datasets (a : ingest_args) : list string := default [] (ia_datasets a).

Definition draft_checks (a : ingest_args) : run unit :=
  if ia_personal_draft a then
    _ ← lift_run (ensure (ia_runtime a =s "local") ValueError "personal DRAFT ingestion requires runtime=local");
    _ ← lift_run (ensure (negb (bool_decide (given_datasets a = []))) ValueError "personal DRAFT ingestion requires explicit catalog datasets");
    assert_unmanaged
  else mret tt.

Definition run_jquants (a : ingest_args) : run (list RunReport) :=
  _ ← draft_checks a;
  if (api_key =s "") && negb (http_name =s "cf-jquants-proxy") then mret no_key
  else if negb (ia_runtime a =s "local") then mret (cannot_fetch "jquants" (ia_runtime a))
  else if bool_decide (given_datasets a = []) then run_curated a
  else run_jquants_catalog a (given_datasets a).

(** ** What runs leave alone *)

(** A relation between the states before and after that holds across what every run does. *)
Class Tracks (R : relation machine) : Prop := {
  tracks_preorder :: PreOrder R;
  tracks_client c m : R m (set_client c m);
  tracks_append row m : R m (append_log row m).1;
  tracks_raw base source file data when_ m : R m (save_raw base source file data when_ m).1;
}.

Class Moves (R : relation machine) {A} (a : run A) : Prop := moves m : R m (a m).1.

Section Moves.
Context (R : relation machine) `{!Tracks R}.

#[export] Instance moves_ret {A} (x : A) : Moves R (mret x : run A).
Proof. intros m. change (R m m). reflexivity. Qed.

#[export] Instance moves_lift {A} (r : result A) : Moves R (lift_run r : run A).
Proof. intros m. change (R m m). reflexivity. Qed.

Lemma moves_bind {A B} (a : run A) (f : A -> run B) : Moves R a -> (forall x, Moves R (f x)) -> Moves R (a ≫= f).
Proof.
  intros Ha Hf m. specialize (Ha m). unfold mbind, run_bind. destruct (a m) as [m' [x|e]]; [|done].
  etrans; [exact Ha|apply Hf].
Qed.

#[export] Instance moves_client {A} (a : run_in client_state A) : Moves R (at_client a).
Proof. intros m. unfold at_client. destruct (a (mc_client m)). apply tracks_client. Qed.

#[export] Instance moves_now : Moves R now_iso.
Proof. apply moves_client. Qed.

#[export] Instance moves_raw base source file data when_ : Moves R (save_raw base source file data when_).
Proof. intros m. apply tracks_raw. Qed.

#[export] Instance moves_attempt {A} h (a : run A) : Moves R a -> Moves R (attempt h a).
Proof.
  intros Ha m. specialize (Ha m). unfold attempt. destruct (a m) as [m' [x|e]]; [done|]. by destruct (caught e).
Qed.

#[export] Instance moves_log source runtime reports : Moves R (log_run source runtime reports).
Proof. apply moves_bind; [apply moves_now|]. intros x m. apply tracks_append. Qed.

#[export] Instance moves_response base file rows : Moves R (save_response base file rows).
Proof. apply moves_bind; [apply moves_now|]. intros x. apply moves_bind; [apply moves_raw|]. intros y. apply moves_ret. Qed.

#[export] Instance moves_summaries a : Moves R (curated_summaries a).
Proof.
  apply moves_attempt, moves_bind; [apply moves_client|]. intros x.
  apply moves_bind; [apply moves_response|]. intros y. apply moves_ret.
Qed.

#[export] Instance moves_pages base name when_ index pages : Moves R (save_pages base name when_ index pages).
Proof.
  revert index. induction pages as [|page pages IH]; intros index; [apply moves_ret|].
  apply moves_bind; [apply moves_raw|]. intros p. apply moves_bind; [apply IH|]. intros q. apply moves_ret.
Qed.

#[export] Instance moves_evidence base draft job fr when_ : Moves R (save_evidence base draft job fr when_).
Proof. apply moves_bind; [apply moves_pages|]. intros x. apply moves_raw. Qed.

#[export] Instance moves_checks a : Moves R (draft_checks a).
Proof.
  unfold draft_checks. destruct (ia_personal_draft a); [|apply moves_ret].
  apply moves_bind; [apply moves_lift|]. intros x. apply moves_bind; [apply moves_lift|]. intros y m.
  unfold assert_unmanaged. destruct (existsb _ _); change (R m m); reflexivity.
Qed.

(** Whether the run registers rows at all. *)
Variable draft : bool.
Hypothesis registers : draft = true -> forall table rows commit_, Moves R (register table rows commit_).

Lemma moves_report base res : Moves R (result_report base draft res).
Proof.
  unfold result_report. destruct (jr_error res); [apply moves_ret|].
  apply moves_bind; [destruct (_ =s _); [apply moves_now|apply moves_ret]|]. intros when_. apply moves_attempt.
  unfold persist_body. destruct (jr_fetch_result res) as [fr|]; [|apply moves_lift].
  destruct (bool_decide _); [apply moves_lift|]. apply moves_bind; [apply moves_evidence|]. intros path.
  destruct draft; [|apply moves_ret]. apply moves_bind; [apply moves_lift|]. intros norm.
  apply moves_bind; [by apply registers|]. intros n. apply moves_ret.
Qed.

Lemma moves_reports base results : Moves R (result_reports base draft results).
Proof.
  induction results as [|res results IH]; [apply moves_ret|]. apply moves_bind; [apply moves_report|].
  intros r. apply moves_bind; [apply IH|]. intros rs. apply moves_ret.
Qed.

Lemma moves_catalog a datasets : ia_personal_draft a = draft -> Moves R (run_jquants_catalog a datasets).
Proof.
  intros Hd. unfold run_jquants_catalog. apply moves_bind; [apply moves_lift|]. intros jobs.
  apply moves_bind; [apply moves_client|]. intros results. rewrite Hd. apply moves_bind; [apply moves_reports|]. intros rs.
  apply moves_bind; [apply moves_log|]. intros x. apply moves_ret.
Qed.
End Moves.

(** *** Raw files are never replaced, and what is written is read-only where the file system does not fail. *)

Definition reliable : Prop :=
  (forall op p w, (disk op p w).2 = Ok tt) /\ (forall p data w, (disk_write p data w).2 = None).

Definition keeps_file (f f' : raw_file) : Prop := rf_bytes f' = rf_bytes f /\ (rf_writable f = false -> rf_writable f' = false).

Definition files_kept : relation machine := fun m m' =>
  (forall p f, mc_files m !! p = Some f -> exists f', mc_files m' !! p = Some f' /\ keeps_file f f') /\
  (reliable -> forall p f, mc_files m' !! p = Some f -> mc_files m !! p = Some f \/ rf_writable f = false).

Lemma files_same m m' : mc_files m' = mc_files m -> files_kept m m'.
Proof. intros E. split; [intros p f|intros _ p f]; rewrite E; [|by left]. intros H. by exists f. Qed.

#[export] Instance files_kept_preorder : PreOrder files_kept.
Proof.
  split; [intros m; by apply files_same|]. intros m1 m2 m3 [K1 N1] [K2 N2]. split.
  - intros p f H. destruct (K1 p f H) as (f' & H' & E & W1). destruct (K2 p f' H') as (f'' & H'' & E' & W2).
    exists f''. split; [done|]. split; [congruence|auto].
  - intros Hr p f H. destruct (N2 Hr p f H) as [H'|]; [by apply (N1 Hr)|by right].
Qed.

(** What a save does to the files: nothing, and then it raises; or it changes the file of its name. *)
Inductive saved (data : string) (m m' : machine) : result string -> Prop :=
  | saved_nothing e : mc_files m' = mc_files m -> saved data m m' (Err e)
  | saved_file p f r : mc_files m' = <[p := f]> (mc_files m) -> (forall g, mc_files m !! p = Some g -> keeps_file g f) ->
      (forall q, r = Ok q -> q = p /\ f = mkRawFile data false) -> (reliable -> is_Ok r = true) -> saved data m m' r.

Lemma disk_call_files op p m : mc_files (disk_call op p m).1 = mc_files m.
Proof. unfold disk_call, at_client. by destruct (disk op p (world (mc_client m))). Qed.

Lemma disk_call_reliable op p m : reliable -> (disk_call op p m).2 = Ok tt.
Proof. intros [Hd _]. specialize (Hd op p (world (mc_client m))). unfold disk_call, at_client. by destruct (disk _ _ _). Qed.

Lemma write_or_confirm_saves p data m m' r : write_or_confirm p data m = (m', r) ->
  (is_Ok r = false /\ mc_files m' = mc_files m) \/
  exists f, mc_files m' = <[p := f]> (mc_files m) /\ (forall g, mc_files m !! p = Some g -> g = f) /\
    (r = Ok tt -> rf_bytes f = data) /\ (reliable -> r = Ok tt).
Proof.
  unfold write_or_confirm. destruct (mc_files m !! p) as [f|] eqn:Ef.
  - unfold confirm, mbind, run_bind, lift_run. pose proof (disk_call_files ReadBack p m) as Hm. pose proof (disk_call_reliable ReadBack p m) as Hr.
    destruct (disk_call ReadBack p m) as [u [[]|e]]; cbn [fst snd] in *; [|intros [= <- <-]; by left].
    destruct (rf_bytes f =s data) eqn:B; intros [= <- <-]; [right|by left]. bools. exists f. rewrite insert_id by congruence.
    split_and!; [done|intros g Hg; congruence|done|done].
  - unfold write_new. pose proof (fun Hr : reliable => proj2 Hr p data (world (mc_client m))) as Hr.
    destruct (disk_write p data (world (mc_client m))) as [w [[n e]|]]; intros [= <- <-]; right; eexists;
      (split_and!; [reflexivity|done| |]); try done. intros H. by specialize (Hr H).
Qed.

Lemma make_read_only_seals p m m' r f : make_read_only p m = (m', r) -> mc_files m !! p = Some f ->
  (is_Ok r = false /\ mc_files m' = mc_files m /\ ~ reliable) \/
  (r = Ok tt /\ mc_files m' = <[p := mkRawFile (rf_bytes f) false]> (mc_files m)).
Proof.
  intros H Hf. unfold make_read_only, mbind, run_bind in H. pose proof (disk_call_files ChangeMode p m) as Hm.
  pose proof (disk_call_reliable ChangeMode p m) as Hr. destruct (disk_call ChangeMode p m) as [u [[]|e]]; cbn [fst snd] in *; injection H as <- <-.
  - right. split; [done|]. cbn. rewrite Hm. apply map_eq. intros q. destruct (decide (p = q)) as [<-|Hne].
    + by rewrite lookup_alter_eq, Hf, lookup_insert_eq.
    + by rewrite lookup_alter_ne, lookup_insert_ne.
  - left. split_and!; [done|done|]. intros H. by specialize (Hr H).
Qed.

Lemma save_raw_saves base source file data when_ m m' r : save_raw base source file data when_ m = (m', r) -> saved data m m' r.
Proof.
  intros H. unfold save_raw, mbind, run_bind, lift_run in H. destruct (raw_path _ _ _ _) as [p|e]; [|injection H as <- <-; by constructor].
  pose proof (disk_call_files MakeDirs p m) as H1. destruct (disk_call MakeDirs p m) as [m1 [[]|e]]; cbn [fst] in H1; [|injection H as <- <-; by constructor].
  pose proof (disk_call_files OpenNew p m1) as H2. destruct (disk_call OpenNew p m1) as [m2 [[]|e]]; cbn [fst] in H2;
    [|injection H as <- <-; constructor; congruence].
  assert (mc_files m2 = mc_files m) as H0 by congruence. clear H1 H2. destruct (write_or_confirm p data m2) as [m3 r3] eqn:E3.
  destruct (write_or_confirm_saves _ _ _ _ _ E3) as [[H3 Hs]|(f & Hs & Hg & Hd & Hr)]; rewrite H0 in Hs; try rewrite H0 in Hg.
  { destruct r3 as [[]|e]; [done|]. injection H as <- <-. constructor. congruence. }
  destruct r3 as [[]|e]; cycle 1.
  { injection H as <- <-. apply (saved_file _ _ _ p f); [congruence| |done|intros R; by specialize (Hr R)].
    intros g ->%Hg. done. }
  specialize (Hd eq_refl). destruct (make_read_only p m3) as [m4 r4] eqn:E4.
  destruct (make_read_only_seals p m3 m4 r4 f E4) as [(H4 & Hm4 & Hn)|[-> Hm4]]; [by rewrite Hs, lookup_insert_eq| |].
  - destruct r4 as [[]|e]; [done|]. injection H as <- <-. apply (saved_file _ _ _ p f); [congruence| |done|by intros R%Hn].
    intros g ->%Hg. done.
  - injection H as <- <-. apply (saved_file _ _ _ p (mkRawFile (rf_bytes f) false)).
    + by rewrite Hm4, Hs, insert_insert_eq.
    + intros g ->%Hg. done.
    + intros q [= <-]. by rewrite Hd.
    + done.
Qed.
#[export] Instance files_kept_tracks : Tracks files_kept.
Proof.
  split; [apply _| | |].
  - intros c m. by apply files_same.
  - intros row m. by apply files_same.
  - intros base source file data when_ m. destruct (save_raw base source file data when_ m) as [m' r] eqn:E; cbn [fst].
    destruct (save_raw_saves _ _ _ _ _ _ _ _ E) as [e Hm|p f r Hm Hk Ho Hr]; [by apply files_same|].
    split.
    + intros q g Hq. rewrite Hm. destruct (decide (p = q)) as [<-|Hne].
      * exists f. rewrite lookup_insert_eq. auto.
      * exists g. by rewrite lookup_insert_ne.
    + intros R q g. rewrite Hm, lookup_insert_Some. intros [[<- <-]|[_ Hq]]; [right|by left].
      specialize (Hr R). destruct r as [x|e]; [|done]. by destruct (Ho x eq_refl) as [_ ->].
Qed.

#[export] Instance files_kept_register table rows commit_ : Moves files_kept (register table rows commit_).
Proof.
  apply moves_bind; [apply _|apply moves_lift, _|]. intros canonical. apply moves_bind; [apply _|apply moves_now, _|].
  intros now m. unfold at_store. destruct (upsert _ _ _ _ _ _ _). by apply files_same.
Qed.

Lemma files_kept_curated base kind file table fetch normalize : Moves files_kept (curated base kind file table fetch normalize).
Proof.
  apply moves_attempt, moves_bind; [apply _|apply moves_client, _|]. intros found.
  apply moves_bind; [apply _|apply moves_response, _|]. intros when_. apply moves_bind; [apply _|apply moves_lift, _|]. intros rows.
  apply moves_bind; [apply _|apply files_kept_register|]. intros n. apply moves_ret, _.
Qed.

Lemma files_kept_all_curated a : Moves files_kept (run_curated a).
Proof.
  do 3 (apply moves_bind; [apply _|apply files_kept_curated|]; intros ?).
  apply moves_bind; [apply _|apply moves_summaries, _|]. intros ?.
  apply moves_bind; [apply _|apply moves_log, _|]. intros ?. apply moves_ret, _.
Qed.


(** ** Governed runs *)

Definition same_facts : relation machine := fun m m' => view (mc_store m') = view (mc_store m).

#[export] Instance same_facts_preorder : PreOrder same_facts.
Proof. split; [done|]. intros m1 m2 m3 H1 H2. unfold same_facts in *. congruence. Qed.

Lemma bind_store {A B} (a : run A) (f : A -> run B) m : mc_store (a m).1 = mc_store m ->
  (forall x u, mc_store (f x u).1 = mc_store u) -> mc_store ((a ≫= f) m).1 = mc_store m.
Proof. unfold mbind, run_bind. intros Ha Hf. destruct (a m) as [u [x|e]]; [|done]. by rewrite Hf. Qed.

Lemma disk_call_store op p m : mc_store (disk_call op p m).1 = mc_store m.
Proof. unfold disk_call, at_client. by destruct (disk op p (world (mc_client m))). Qed.

Lemma write_or_confirm_store p data m : mc_store (write_or_confirm p data m).1 = mc_store m.
Proof.
  unfold write_or_confirm. destruct (mc_files m !! p) as [f|].
  - apply bind_store; [apply disk_call_store|done].
  - unfold write_new. by destruct (disk_write p data (world (mc_client m))) as [w [[n e]|]].
Qed.

Lemma save_raw_store base source file data when_ m : mc_store (save_raw base source file data when_ m).1 = mc_store m.
Proof.
  apply bind_store; [done|]. intros p u. apply bind_store; [apply disk_call_store|]. intros _ u1.
  apply bind_store; [apply disk_call_store|]. intros _ u2. apply bind_store; [apply write_or_confirm_store|]. intros _ u3.
  apply bind_store; [|done]. apply bind_store; [apply disk_call_store|done].
Qed.

#[export] Instance same_facts_tracks : Tracks same_facts.
Proof.
  split; [apply _|done|done|]. intros base source file data when_ m. unfold same_facts. by rewrite save_raw_store.
Qed.

(** What every value that an action returns satisfies. *)
Definition returns {A} (P : A -> Prop) (a : run A) : Prop := forall m m' x, a m = (m', Ok x) -> P x.

Lemma returns_bind {A B} (P : B -> Prop) (a : run A) (f : A -> run B) : (forall x, returns P (f x)) -> returns P (a ≫= f).
Proof. intros Hf m m' y (u & x & _ & H)%run_bind_Ok. by eapply Hf. Qed.

Lemma returns_ret {A} (P : A -> Prop) (x : A) : P x -> returns P (mret x : run A).
Proof. intros Hx m m' y [= _ <-]. done. Qed.

Lemma returns_err {A} (P : A -> Prop) e : returns P (lift_run (Err e) : run A).
Proof. by intros m m' y [=]. Qed.

Lemma returns_bind_post {A B} (Q : A -> Prop) (P : B -> Prop) (a : run A) (f : A -> run B) :
  returns Q a -> (forall x, Q x -> returns P (f x)) -> returns P (a ≫= f).
Proof. intros Ha Hf m m' y (u & x & Hx & H)%run_bind_Ok. eapply (Hf x); [by eapply Ha|done]. Qed.

Lemma returns_attempt {A} (P : A -> Prop) h (a : run A) : (forall e, P (h e)) -> returns P a -> returns P (attempt h a).
Proof.
  intros Hh Ha m m' y. unfold attempt. destruct (a m) as [u [x|e]] eqn:E.
  - intros [= <- <-]. by eapply Ha.
  - destruct (caught e); [|done]. by intros [= _ <-].
Qed.

Lemma error_not_ok source kind why : report_ok (report_error source kind why) = false.
Proof. unfold report_ok, report_error, schema_miss. cbn. by destruct (why =s ""). Qed.

Lemma skipped_not_ok source kind why : report_ok (report_skipped source kind why) = false.
Proof. unfold report_ok, report_skipped, schema_miss. cbn. by destruct (why =s ""). Qed.

Lemma governed_report base res : returns (fun r => report_ok r = false) (result_report base false res).
Proof.
  unfold result_report. destruct (jr_error res); [by apply returns_ret, error_not_ok|].
  apply returns_bind. intros when_. apply returns_attempt; [intros; apply error_not_ok|].
  unfold persist_body. destruct (jr_fetch_result res) as [fr|]; [|apply returns_err].
  destruct (bool_decide _); [apply returns_err|]. apply returns_bind. intros path. by apply returns_ret.
Qed.

Lemma governed_reports base results : returns (Forall (fun r => report_ok r = false)) (result_reports base false results).
Proof.
  induction results as [|res results IH]; [by apply returns_ret|].
  eapply returns_bind_post; [apply governed_report|]. intros r Hr. eapply returns_bind_post; [apply IH|]. intros rs Hrs.
  apply returns_ret. by constructor.
Qed.

Lemma unknown_not_ok datasets : Forall (fun r => report_ok r = false) (unknown_reports datasets).
Proof. apply Forall_map, Forall_true. intros id. apply skipped_not_ok. Qed.

Lemma exit_nonzero reports : Forall (fun r => report_ok r = false) reports -> decide_exit reports <> 0.
Proof.
  intros H. unfold decide_exit. destruct (existsb report_failed reports); [done|].
  destruct (existsb report_ok reports) eqn:E; [|done]. apply existsb_exists in E as (r & Hr & Ho).
  apply list_elem_of_In in Hr. rewrite Forall_forall in H. by rewrite (H r Hr) in Ho.
Qed.

(** Claim C14. Without a service that issues receipts a governed run records no fact.  When datasets
    are asked for and the run is not a personal draft, the facts are afterwards what they were, whether the
    run returns or raises, no report that it returns is a success, and its exit code is not
    that of a success. *)
Theorem governed_run_registers_nothing a m m' r : ia_personal_draft a = false -> given_datasets a <> [] ->
  run_jquants a m = (m', r) ->
  view (mc_store m') = view (mc_store m) /\
  match r with
  | Ok reports => Forall (fun x => report_ok x = false) reports /\ decide_exit reports <> 0
  | Err _ => True
  end.
Proof.
  intros Hd Hn Hrun. assert (Hm : Moves same_facts (run_jquants a)).
  { unfold run_jquants. apply moves_bind; [apply _|apply moves_checks, _|]. intros x.
    destruct (_ && _); [apply moves_ret, _|]. destruct (negb _); [apply moves_ret, _|]. rewrite bool_decide_eq_false_2 by done.
    eapply (moves_catalog _ false); [done|exact Hd]. }
  specialize (Hm m). rewrite Hrun in Hm. split; [exact Hm|]. destruct r as [reports|e]; [|done].
  enough (Forall (fun x => report_ok x = false) reports) by (split; [done|by apply exit_nonzero]).
  clear Hm. revert m m' reports Hrun. change (returns (Forall (fun x => report_ok x = false)) (run_jquants a)).
  unfold run_jquants. apply returns_bind. intros x. destruct (_ && _); [apply returns_ret; by repeat constructor|].
  destruct (negb _); [apply returns_ret; repeat constructor; by apply skipped_not_ok|]. rewrite bool_decide_eq_false_2 by done.
  unfold run_jquants_catalog. rewrite Hd. apply returns_bind. intros jobs. apply returns_bind. intros results.
  eapply returns_bind_post; [apply governed_reports|]. intros rs Hrs. apply returns_bind. intros [].
  apply returns_ret, Forall_app. split; [apply unknown_not_ok|done].
Qed.

(** ** Personal drafts *)

Fixpoint page_entries (index : nat) (paths : list string) (pages : list raw_page) : list json :=
  match paths, pages with
  | path :: paths, page :: pages => page_entry index path page :: page_entries (S index) paths pages
  | _, _ => []
  end.

(** A read-only file with the bytes. *)
Definition holds (m : machine) (path bytes : string) : Prop := mc_files m !! path = Some (mkRawFile bytes false).

(** The file is the manifest of a fetch of the dataset: each page is in a file of its own place in the chain,
    byte for byte, which the manifest names with the digest of the bytes. *)
Definition evidenced (dataset path : string) (m : machine) : Prop := exists fr paths,
  fr_pages fr <> [] /\ Forall2 (fun p page => holds m p (pg_body page)) paths (fr_pages fr) /\
  holds m path (manifest_bytes (manifest true dataset fr (page_entries 0 paths (fr_pages fr)))).

Lemma holds_kept m m' path bytes : files_kept m m' -> holds m path bytes -> holds m' path bytes.
Proof. intros [K _] Hf. apply K in Hf as ([b w] & Hf' & Hb & Hw). simpl in *. unfold holds. by rewrite Hf', Hb, Hw. Qed.

Lemma evidenced_kept dataset path m m' : files_kept m m' -> evidenced dataset path m -> evidenced dataset path m'.
Proof.
  intros K (fr & paths & Hne & Hp & Hm). exists fr, paths. split_and!; [done| |by eapply holds_kept].
  eapply Forall2_impl; [exact Hp|]. intros p page. by apply holds_kept.
Qed.

Lemma save_raw_holds base source file data when_ m m' p : save_raw base source file data when_ m = (m', Ok p) -> holds m' p data.
Proof.
  intros H. apply save_raw_saves in H. inversion H as [|q f r Hm Hk Ho Hr]; subst. destruct (Ho p eq_refl) as [-> ->].
  unfold holds. by rewrite Hm, lookup_insert_eq.
Qed.

(** What an action leaves when it returns. *)
Definition leaves_with {A} (Q : A -> machine -> Prop) (a : run A) : Prop := forall m m' x, a m = (m', Ok x) -> Q x m'.

Lemma moved {A} (R : relation machine) (a : run A) m m' r : Moves R a -> a m = (m', r) -> R m m'.
Proof. intros H E. specialize (H m). by rewrite E in H. Qed.

Lemma save_pages_hold base name when_ pages : forall index m m' entries,
  save_pages base name when_ index pages m = (m', Ok entries) ->
  exists paths, entries = page_entries index paths pages /\ Forall2 (fun p page => holds m' p (pg_body page)) paths pages.
Proof.
  induction pages as [|page pages IH]; intros index m m' entries H.
  { injection H as _ <-. by exists []. }
  apply run_bind_Ok in H as (u & path & H1 & H). apply run_bind_Ok in H as (v & rest & H2 & H). injection H as <- <-.
  pose proof (moved files_kept _ _ _ _ (moves_pages _ _ _ _ _ _) H2) as K.
  apply IH in H2 as (paths & -> & Hp). exists (path :: paths). split; [done|]. constructor; [|done].
  eapply holds_kept; [exact K|]. by eapply save_raw_holds.
Qed.

Lemma save_evidence_holds base job fr when_ : fr_pages fr <> [] ->
  leaves_with (fun path => evidenced (fj_dataset_id job) path) (save_evidence base true job fr when_).
Proof.
  intros Hne m m' path H. unfold save_evidence in H. apply run_bind_Ok in H as (u & entries & H1 & H2).
  apply save_pages_hold in H1 as (paths & -> & Hp). exists fr, paths. split_and!; [done| |by eapply save_raw_holds].
  pose proof (moved files_kept _ _ _ _ (moves_raw _ _ _ _ _ _) H2) as K. eapply Forall2_impl; [exact Hp|].
  intros p page. by apply holds_kept.
Qed.

Definition backed (r : RunReport) (m : machine) : Prop := report_ok r = true -> evidenced (rp_kind r) (rp_raw_path r) m.

Lemma backed_kept r m m' : files_kept m m' -> backed r m -> backed r m'.
Proof. intros K H Ho. by eapply evidenced_kept, H. Qed.

Lemma draft_report base res : leaves_with backed (result_report base true res).
Proof.
  intros m m' r H. unfold result_report in H. destruct (jr_error res).
  { injection H as _ <-. intros Ho. by rewrite error_not_ok in Ho. }
  apply run_bind_Ok in H as (u & when_ & _ & H). unfold persist_result, attempt in H.
  destruct (persist_body base true res when_ u) as [v [x|e]] eqn:E; cycle 1.
  { destruct (caught e); [|done]. injection H as _ <-. intros Ho. by rewrite error_not_ok in Ho. }
  injection H as <- <-. unfold persist_body in E. destruct (jr_fetch_result res) as [fr|]; [|done].
  destruct (bool_decide _) eqn:Hne; [done|]. apply bool_decide_eq_false in Hne.
  apply run_bind_Ok in E as (w & path & H1 & E). apply save_evidence_holds in H1; [|done].
  apply run_bind_Ok in E as (w1 & norm & [= <- _] & E). apply run_bind_Ok in E as (w2 & n & H2 & E).
  injection E as <- <-. intros _. eapply evidenced_kept; [|exact H1].
  by eapply moved; [apply files_kept_register|].
Qed.

Lemma draft_reports base results : leaves_with (fun rs m => Forall (fun r => backed r m) rs) (result_reports base true results).
Proof.
  induction results as [|res results IH]; intros m m' rs H; [by injection H as _ <-|].
  apply run_bind_Ok in H as (u & r & H1 & H). apply run_bind_Ok in H as (v & rs' & H2 & H). injection H as <- <-.
  constructor; [|by eapply IH]. apply draft_report in H1. eapply backed_kept; [|exact H1].
  eapply moved; [|exact H2]. eapply moves_reports; [apply _|]. intros; apply files_kept_register.
Qed.

End Pipeline.

(** ** Sample runs *)

Definition sample_wall (w : bool) : bool * datetime := (w, (ymd2ord 2025 4 8 * 86400 + 16 * 3600) * 1000000).
(** A file system that does not fail, and one that is full after three bytes of each file. *)
Definition sample_disk (_ : disk_op) (_ : string) (w : bool) : bool * result unit := (w, Ok tt).
Definition sample_write (_ _ : string) (w : bool) : bool * option (nat * exn) := (w, None).
Definition full_write (_ _ : string) (w : bool) : bool * option (nat * exn) := (w, Some (3%nat, Exn OSError "no space left")).

Lemma sample_reliable : reliable sample_disk sample_write.
Proof. by split. Qed.

Definition sample_pool (_ : nat) (_ : list FetchJob) (c : client_state (W := bool))
    : client_state (W := bool) * list (nat * result JobResult) := (c, []).

Definition sample_machine : machine (W := bool) := mkMachine sample_client ∅ (mkConnection (empty_facts None) None) [].

Definition sample_args (draft : bool) (datasets : list string) : ingest_args :=
  mkArgs "data" (ymd2ord 2025 4 8) "local" (Some "86970") (Some "2025-04-04") (Some "2025-04-04") (Some datasets) "backfill" 1 30 draft.

Definition sample_run (write : string -> string -> bool -> bool * option (nat * exn)) (draft : bool) (m : machine (W := bool))
    : machine (W := bool) * result (list RunReport) :=
  run_jquants "local" sample_get sample_clock sample_sleep "key" 3 id sqlite_affinity [] sample_float sample_wall sample_disk write
    exn_msg (fun _ => "Error") (fun p => "/srv/" +:+ p) sample_pool 2 [] (sample_args draft ["equities_bars_daily"; "nonsense"]) m.

Definition drafted : machine (W := bool) * result (list RunReport) := Eval vm_compute in sample_run sample_write true sample_machine.
Definition governed : machine (W := bool) * result (list RunReport) := Eval vm_compute in sample_run sample_write false sample_machine.

Lemma drafted_run : sample_run sample_write true sample_machine = drafted.
Proof. vm_cast_no_check (eq_refl drafted). Qed.

Lemma governed_run : sample_run sample_write false sample_machine = governed.
Proof. vm_cast_no_check (eq_refl governed). Qed.

(** The draft registers a row for each day of the two pages and exits with 0; the governed run leaves the same
    three raw files, no fact, and exits with 1. *)
Example sample_exits :
  (decide_exit (ok_or [] drafted.2), decide_exit (ok_or [] governed.2)) = (0, 1) /\
  map rp_registered (ok_or [] drafted.2) = [0; 2] /\ map rp_registered (ok_or [] governed.2) = [0; 0] /\
  length (primary "jquants_records" (committed (mc_store drafted.1))) = 2%nat /\
  primary "jquants_records" (committed (mc_store governed.1)) = [] /\
  map fst (map_to_list (mc_files drafted.1)) = map fst (map_to_list (mc_files governed.1)) /\
  length (map_to_list (mc_files drafted.1)) = 3%nat /\
  map lg_status (mc_log drafted.1 ++ mc_log governed.1) = ["ok"; "error"].
Proof. vm_compute. repeat split. Qed.

(** A later draft at the same second finds its files; one at which the site answers otherwise is refused. *)
Example repeated_draft :
  map rp_registered (ok_or [] (sample_run sample_write true (set_client sample_client drafted.1)).2) = [0; 2] /\
  map rp_error (ok_or [] (sample_run sample_write true (set_files
      ((fun f : raw_file => mkRawFile (rf_bytes f +:+ " ") false) <$> mc_files drafted.1) (set_client sample_client drafted.1))).2)
    = [""; "immutable raw identity already contains different bytes"].
Proof. vm_compute. by split. Qed.

Definition sample_report : RunReport := Eval vm_compute in
  default (report_error "" "" "") (ok_or [] drafted.2 !! 1%nat).

Definition sample_path : string := "data/raw/jquants/2025/04/08/" +:+
  "equities_bars_daily_code=86970_date=2025-04-04_page=0000_20250408T160000.json".

(** A write that stops half way leaves a file that is writable, which the next run at the same second refuses. *)
Example partial_write :
  let failed := sample_run full_write true sample_machine in
  map rp_error (ok_or [] failed.2) = [""; "no space left"] /\
  mc_files failed.1 !! sample_path = Some (mkRawFile (str_take 3 first_body) true) /\
  map rp_error (ok_or [] (sample_run sample_write true (set_client sample_client failed.1)).2)
    = [""; "immutable raw identity already contains different bytes"].
Proof. vm_compute. repeat split. Qed.


Lemma governed_run_registers_nothing_witness : view (mc_store governed.1) = view (mc_store sample_machine).
Proof.
  apply (governed_run_registers_nothing "local" sample_get sample_clock sample_sleep "key" 3 id sqlite_affinity [] sample_float
    sample_wall sample_disk sample_write exn_msg (fun _ => "Error") (fun p => "/srv/" +:+ p) sample_pool 2 []
    (sample_args false ["equities_bars_daily"; "nonsense"]) sample_machine governed.1 governed.2).
  - reflexivity.
  - discriminate.
  - exact governed_run.
Defined.

