(* ===== verification/PointInTime.v ===== *)
(** * PointInTime: reads as of an instant (packages/data_plane/pit/read_clock.py, pit/query.py and
    readers of pit/api.py)

    A read is given a decision time and an observation cut-off.  A row is visible when its
    event and its publication are not after the decision and it was ingested not after the
    cut-off; of the visible versions of a natural key a read returns the newest.  The
    database is the store of FactStore with the compact tables of personal histories and
    the tables that hold the cut-off of a snapshot. *)

From S2P Require Import Prelude PyDate PyTime Json JsonText Utf8 JstTime Base64 Sha256 Receipt Transaction LedgerStore Publication FactStore.

Local Open Scope Z_scope.

(** ** The database *)

(** An object called [snapshot_observation_clock]: a table or not, and the column
    [observed_through] of its rows. *)
Record clock_object := mkClockObject { co_table : bool; co_values : list json }.

(** An object called [personal_history_manifest]: a table or not, whether it has a column
    [observed_through], and its value in the row of the singleton. *)
Record manifest_object := mkManifestObject { mo_table : bool; mo_column : bool; mo_observed : option json }.

Record pit_database := mkPit {
  pd_facts : facts;
  pd_compact : gmap string (list frow);
  pd_clock : option clock_object;
  pd_manifest : option manifest_object;
}.

Definition with_facts (f : facts) (db : pit_database) : pit_database :=
  mkPit f (pd_compact db) (pd_clock db) (pd_manifest db).
Definition with_clock (o : clock_object) (db : pit_database) : pit_database :=
  mkPit (pd_facts db) (pd_compact db) (Some o) (pd_manifest db).

(** ** Clocks *)

Definition DRAFT_OBSERVATION_LABEL : string := "draft_bind_observation_cutoff".
Definition SNAPSHOT_OBSERVATION_LABEL : string := "immutable_snapshot_observed_through".

(** Five minutes. *)
Definition MAX_SNAPSHOT_CLOCK_FUTURE_SKEW : Z := 300000000.

Record read_clock := mkReadClock {
  rc_decision_at : string;
  rc_observed_through : string;
  rc_observation_label : string;
  rc_promotable : bool;
}.

(** The constructor [PitReadClock]. *)
Definition PitReadClock (decision_at : as_of_arg) (observed_through label : string) (promotable : bool) : result read_clock :=
  d ← normalize_as_of decision_at;
  o ← normalize_as_of (AsText observed_through);
  _ ← ensure (negb (label =s "")) PitError "read clock observation label is required";
  _ ← ensure (negb (promotable && negb (label =s SNAPSHOT_OBSERVATION_LABEL))) PitError
        "only an immutable snapshot observation cutoff is promotable";
  _ ← ensure (negb (negb promotable && (label =s SNAPSHOT_OBSERVATION_LABEL))) PitError
        "immutable snapshot observation cutoff cannot be draft";
  Ok (mkReadClock d o label promotable).

Definition manifest_observed_through (db : pit_database) : option string :=
  match pd_manifest db with
  | Some (mkManifestObject true true (Some v)) =>
      if bool_decide (v = JNull) || (strip (py_str v) =s "") then None else Some (py_str v)
  | _ => None
  end.

Definition read_snapshot_observed_through (db : pit_database) : result (option string) :=
  match pd_clock db with
  | Some o =>
      _ ← ensure (co_table o) PitError "snapshot observation clock is not a table";
      match co_values o with
      | [v] =>
          _ ← ensure (negb (bool_decide (v = JNull) || (strip (py_str v) =s ""))) PitError
                "snapshot observation clock is not a valid singleton";
          Ok (Some (py_str v))
      | _ => raise PitError "snapshot observation clock is not a valid singleton"
      end
  | None => Ok (manifest_observed_through db)
  end.

(** [write_publisher_owned_snapshot_observation_clock], at the instant [now]. *)
Definition write_publisher_owned_snapshot_observation_clock (observed_through : as_of_arg) (now : datetime)
    (db : pit_database) : result (pit_database * string) :=
  canonical ← normalize_as_of observed_through;
  _ ← ensure (match observed_through with AsText s => s =s canonical | _ => false end) PitError
        "snapshot observation clock is noncanonical";
  t ← parse_dt canonical;
  _ ← ensure (negb (MAX_SNAPSHOT_CLOCK_FUTURE_SKEW <? t - now)) PitError "snapshot observation clock is in the future";
  _ ← ensure (match pd_clock db with Some o => co_table o | None => true end) SqliteError "use DROP VIEW to delete view";
  _ ← ensure (25 <=? Z.of_nat (String.length canonical)) IntegrityError "CHECK constraint failed";
  Ok (with_clock (mkClockObject true [JStr canonical]) db, canonical).

(** [draft_observation_clock]; [now_text] is [now_iso()]. *)
Definition draft_observation_clock (captured_at : option string) (now_text : string) : result (string * string) :=
  let stamp := match captured_at with Some s => if s =s "" then now_text else s | None => now_text end in
  o ← normalize_as_of (AsText stamp);
  Ok (o, DRAFT_OBSERVATION_LABEL).

Definition clock_for_decision (decision_at : as_of_arg) (observed_through label : string) (promotable : bool) : result read_clock :=
  d ← normalize_as_of decision_at;
  PitReadClock (AsText d) observed_through label promotable.

(** [resolve_read_clock]: the cut-off given with its label and flag, the one bound by
    [install_read_clock], the one of the database. *)
Definition resolve_read_clock (decision_at : as_of_arg) (given : option (string * option string * option bool))
    (bound : option read_clock) (db : option pit_database) : result read_clock :=
  decision ← normalize_as_of decision_at;
  match given, bound with
  | Some (observed, label, promotable), _ =>
      label ← of_option InvalidAsOf "observed_through is snapshot-owned and cannot be supplied alone" label;
      PitReadClock (AsText decision) observed label (default false promotable)
  | None, Some b =>
      PitReadClock (AsText decision) (rc_observed_through b) (rc_observation_label b) (rc_promotable b)
  | None, None =>
      stamped ← match db with Some db => read_snapshot_observed_through db | None => Ok None end;
      match stamped with
      | Some s => PitReadClock (AsText decision) s SNAPSHOT_OBSERVATION_LABEL true
      | None => raise PitError "PIT observation cutoff is missing; bind a snapshot or draft view"
      end
  end.

(** [snapshot_observed_through] of pit/query.py, at the instant [now]. *)
Definition snapshot_observed_through (db : option pit_database) (expected : option string) (now : datetime) : result string :=
  db ← of_option SnapshotObservationClockError "snapshot observation clock is missing" db;
  values ← match pd_clock db with
           | Some (mkClockObject true vs) => Ok vs
           | _ => raise SnapshotObservationClockError "snapshot observation clock is missing"
           end;
  v ← match values with
      | [] => raise SnapshotObservationClockError "snapshot observed_through is missing"
      | [v] => Ok v
      | _ => raise SnapshotObservationClockError "snapshot observation clock is not a singleton"
      end;
  let text := py_str (or_ v (JStr "")) in
  _ ← ensure (negb ((text =s "") || (strip text ∈? ["0"; "0.0"]))) SnapshotObservationClockError
        "snapshot observation clock is malformed";
  canonical ← on_error [AsOfRequired; InvalidAsOf] SnapshotObservationClockError
                "snapshot observation clock is malformed" (normalize_as_of (AsText text));
  _ ← ensure (text =s canonical) SnapshotObservationClockError "snapshot observation clock is noncanonical";
  t ← parse_dt canonical;
  _ ← ensure (negb (MAX_SNAPSHOT_CLOCK_FUTURE_SKEW <? t - now)) SnapshotObservationClockError
        "snapshot observation clock is in the future";
  match expected with
  | None => Ok canonical
  | Some e =>
      ec ← normalize_as_of (AsText e);
      _ ← ensure (e =s ec) SnapshotObservationClockError "manifest observation clock is noncanonical";
      _ ← ensure (canonical =s ec) SnapshotObservationClockError "snapshot observation clock does not match manifest";
      Ok canonical
  end.

(** ** Managed databases *)

Definition deny_managed_preready (policy : option policy_row) : result unit :=
  match policy with
  | None => Ok tt
  | Some p =>
      let state := lp_publication_state p in
      ensure (negb ((state =s "BUILDING") ||
                    (negb (lp_require_manifest p =? 0) && ((lp_snapshot_ready p =? 0) || negb (state =s "READY")))))
        SnapshotNotReady "managed research snapshot is not READY; PIT access is denied."
  end.

Definition require_unmanaged_draft (policy : option policy_row) : result unit :=
  match policy with
  | None => Ok tt
  | Some p => ensure (negb (negb (lp_require_manifest p =? 0) || (lp_publication_state p =s "BUILDING"))) SnapshotNotReady
                "unmanaged DRAFT reads cannot use a managed snapshot"
  end.

(** [connect_readonly]; [None] is a path without a file. *)
Definition connect_readonly (db : option pit_database) : result pit_database :=
  db ← of_option DatabaseNotFound "structured DB not found. Run ingestion first" db;
  _ ← deny_managed_preready (f_policy (pd_facts db));
  Ok db.

(** ** Queries *)

Definition PERSONAL_HISTORY_COMPACT_MASTER_TABLE : string := "personal_history_compact_master".
Definition PERSONAL_HISTORY_COMPACT_BARS_TABLE : string := "personal_history_compact_bars".

Definition PERSONAL_HISTORY_COMPACT_NATURAL_KEYS : list (string * list string) :=
  [(PERSONAL_HISTORY_COMPACT_MASTER_TABLE, ["snapshot_date"; "code"]);
   (PERSONAL_HISTORY_COMPACT_BARS_TABLE, ["code"; "date"])].

(** The datasets whose contract has the policy [calendar_prepublished]. *)
Definition calendar_prepublished_datasets : list string := ["equities_earnings_calendar"; "markets_calendar"].

(** The columns compared with texts are declared TEXT: their values are texts or NULL, and
    a comparison with NULL does not hold. *)
Definition text_cell (holds : string -> bool) (v : json) : bool :=
  match v with JStr s => holds s | _ => false end.
Definition cell_le (v : json) (bound : string) : bool := text_cell (fun s => String.leb s bound) v.
Definition cell_ge (v : json) (bound : string) : bool := text_cell (fun s => String.leb bound s) v.
Definition cell_gt (v : json) (bound : string) : bool := text_cell (fun s => String.ltb bound s) v.
Definition cell_eq (v : json) (bound : string) : bool := text_cell (fun s => s =s bound) v.

Definition not_null (v : json) : bool := negb (bool_decide (v = JNull)).

(** An [ORDER BY] of texts: columns, each descending or not. *)
Definition text_at (k : string) (row : frow) : string := match getv k row with JStr s => s | _ => "" end.

Fixpoint order_leb (cols : list (string * bool)) (a b : frow) : bool :=
  match cols with
  | [] => true
  | (c, desc) :: cols =>
      let o := String.compare (text_at c a) (text_at c b) in
      match (if desc then CompOpp o else o) with Lt => true | Gt => false | Eq => order_leb cols a b end
  end.

Record pit_query := mkQuery {
  q_as_of : string;
  q_table : string;
  q_dataset : option string;
  q_where : option (frow -> bool);
  q_order : list (string * bool);
  q_keyset : option (list string * list string);
  q_limit : option Z;
}.

(** One of the branches of a keyset: the columns before [index] are equal, the column at
    [index] is greater. *)
Definition keyset_branch (columns values : list string) (row : frow) (index : nat) : bool :=
  forallb (fun p => cell_eq (getv p.1 row) p.2) (take index (zip columns values)) &&
  match zip columns values !! index with
  | Some (c, v) => cell_gt (getv c row) v
  | None => false
  end.

Definition keyset_after (columns values : list string) (row : frow) : bool :=
  existsb (keyset_branch columns values row) (seq 0 (length columns)).

Definition calendar_prepublished (table : string) (dataset : option string) : bool :=
  match dataset with
  | Some d => ((table =s "jquants_records") || ((table =s "jquants_market_calendar") && (d =s "markets_calendar"))) &&
              (d ∈? calendar_prepublished_datasets)
  | None => false
  end.

(** The [WHERE] every version of a table has to pass. *)
Definition visible (q : pit_query) (clock : read_clock) (row : frow) : bool :=
  cell_le (getv "available_at" row) (q_as_of q) &&
  not_null (getv "event_time" row) &&
  (calendar_prepublished (q_table q) (q_dataset q) || cell_le (getv "event_time" row) (rc_decision_at clock)) &&
  cell_le (getv "ingested_at" row) (rc_observed_through clock) &&
  match q_where q with Some p => p row | None => true end.

(** A version with its [_pit_current]. *)
Abbreviation version := (Z * frow)%type.

Definition version_ltb : version -> version -> bool :=
  lex (fun v => text_at "available_at" v.2) String.compare
    (lex (fun v => text_at "ingested_at" v.2) String.compare (fun a b => a.1 <? b.1)).

(** [ROW_NUMBER() OVER (PARTITION BY key ORDER BY available_at DESC, ingested_at DESC,
    _pit_current DESC) = 1] *)
Definition newest_at (key : list string) (versions : list version) (k : list json) : option frow :=
  snd <$> py_max version_ltb (filter (fun v => row_key key v.2 = k) versions).

Definition ranked (key : list string) (versions : list version) : list frow :=
  omap (newest_at key versions) (remove_dups (map (fun v => row_key key v.2) versions)).

(** The rows of the statement before [ORDER BY]. *)
Definition selected_rows (db : pit_database) (q : pit_query) (clock : read_clock) : result (list frow) :=
  let gate (v : version) := visible q clock v.2 = true in
  match assoc (q_table q) PERSONAL_HISTORY_COMPACT_NATURAL_KEYS, assoc (q_table q) NATURAL_KEYS with
  | Some key, _ =>
      let rows := default [] (pd_compact db !! q_table q) in
      Ok (ranked key (filter gate (map (pair 1) rows)))
  | None, Some key =>
      let current := primary (q_table q) (pd_facts db) in
      match revisions (q_table q) (pd_facts db) with
      | [] => Ok (filter (fun row => visible q clock row = true) current)
      | history => Ok (ranked key (filter gate (map (pair 1) current ++ map (pair 0) history)))
      end
  | None, None => raise OutsideModel "not a table of facts"
  end.

(** [_iter_query_rows] *)
Definition iter_query_rows (bound : option read_clock) (db : pit_database) (q : pit_query) : result (list frow) :=
  _ ← match q_keyset q with
      | Some (columns, values) =>
          ensure (negb (bool_decide (columns = [])) && (length columns =? length values)%nat) ValueError
            "keyset columns and values must have equal length"
      | None => Ok tt
      end;
  _ ← match q_limit q with
      | Some n => ensure (1 <=? n) ValueError "limit must be a positive integer"
      | None => Ok tt
      end;
  clock ← resolve_read_clock (AsText (q_as_of q)) None bound (Some db);
  rows ← selected_rows db q clock;
  let rows := match q_keyset q with
              | Some (columns, values) => filter (fun row => keyset_after columns values row = true) rows
              | None => rows
              end in
  let rows := py_sorted (order_leb (q_order q)) rows in
  Ok (match q_limit q with Some n => take (Z.to_nat n) rows | None => rows end).

Section Decoding.
Variable float_repr : string -> string.

(** [_decode_row] *)
Definition decode_column (k : string) (row : frow) : result frow :=
  match getv k row with
  | JStr s =>
      if s =s "" then Ok row
      else match json_loads float_repr s with
           | Ok v => Ok (dict_set k v row)
           | Err e => if decide (exn_kind e = ValueError) then Ok row else Err e
           end
  | _ => Ok row
  end.

Definition decode_row (row : frow) : result frow := foldR (fun row k => decode_column k row) row ["raw_payload"; "payload"].

(** [run_query], on a connection of its own. *)
Definition run_query (bound : option read_clock) (db : option pit_database) (q : pit_query) : result (list frow) :=
  db ← connect_readonly db;
  rows ← iter_query_rows bound db q;
  mapR decode_row rows.

(** ** Readers *)

Definition PIT_API_VERSION : string := "0.2.0".

Record pit_result := mkResult { pr_rows : list frow; pr_metadata : list (string * json) }.

(** [_result] *)
Definition make_result (rows : list frow) (as_of table : string) (source dataset : option string)
    (extra : list (string * json)) : pit_result :=
  mkResult rows (dict_merge ([("as_of", JStr as_of); ("table", JStr table); ("count", JInt (Z.of_nat (length rows)));
                              ("pit_api_version", JStr PIT_API_VERSION)] ++
                             match source with Some s => [("source", JStr s)] | None => [] end ++
                             match dataset with Some s => [("dataset", JStr s)] | None => [] end) extra).

Definition date_bound (value : string) : result string := parse_date_str value.
Definition event_time_bound (value : string) : result string := t ← parse_dt value; Ok (to_iso t).

(** The condition of an optional argument; conditions are joined by [AND]. *)
Definition clause {A} (arg : option A) (bound : A -> result string) (holds : string -> frow -> bool)
    : result (list (frow -> bool)) :=
  match arg with Some a => b ← bound a; Ok [holds b] | None => Ok [] end.

Definition joined (clauses : list (frow -> bool)) : option (frow -> bool) :=
  match clauses with [] => None | _ => Some (fun row => forallb (fun p => p row) clauses) end.

Definition on_column (cmp : json -> string -> bool) (k : string) (b : string) (row : frow) : bool := cmp (getv k row) b.

Definition get_jsda_bond_trades (bound : option read_clock) (as_of : as_of_arg) (isin from_event to_event : option string)
    (db : option pit_database) : result pit_result :=
  as_of_iso ← normalize_as_of as_of;
  c1 ← clause isin Ok (on_column cell_eq "isin");
  c2 ← clause from_event date_bound (on_column cell_ge "trade_date");
  c3 ← clause to_event date_bound (on_column cell_le "trade_date");
  rows ← run_query bound db (mkQuery as_of_iso "jsda_bond_trades" None (joined (c1 ++ c2 ++ c3))
                               [("trade_date", false); ("isin", false)] None None);
  Ok (make_result rows as_of_iso "jsda_bond_trades" (Some "jsda") None []).

Definition get_jsda_repo_rates (bound : option read_clock) (as_of : as_of_arg) (tenor rate_type from_event to_event : option string)
    (db : option pit_database) : result pit_result :=
  as_of_iso ← normalize_as_of as_of;
  c1 ← clause tenor Ok (on_column cell_eq "tenor");
  c2 ← clause rate_type Ok (on_column cell_eq "rate_type");
  c3 ← clause from_event date_bound (on_column cell_ge "as_of_date");
  c4 ← clause to_event date_bound (on_column cell_le "as_of_date");
  rows ← run_query bound db (mkQuery as_of_iso "jsda_repo_rates" None (joined (c1 ++ c2 ++ c3 ++ c4))
                               [("as_of_date", false); ("tenor", false); ("rate_type", false)] None None);
  Ok (make_result rows as_of_iso "jsda_repo_rates" (Some "jsda") None []).

(** ** Pages of records *)

Definition PAGE_CURSOR_VERSION : Z := 1.
Definition MAX_PAGE_SIZE : Z := 1000.
Definition JQUANTS_PAGE_ORDER : list string := ["event_time"; "natural_key"; "source"].

Definition json_opt (o : option string) : json := match o with Some s => JStr s | None => JNull end.

Definition page_query_hash (payload : list (string * json)) : string := hexdigest (canonical_dumps (JDict payload)).

(** [base64.urlsafe_b64encode] and its inverse on canonical texts. *)
Fixpoint map_chars (f : ascii -> ascii) (s : string) : string :=
  match s with EmptyString => EmptyString | String c s => String (f c) (map_chars f s) end.
Definition url_char (c : ascii) : ascii :=
  if bool_decide (c = "+"%char) then "-"%char else if bool_decide (c = "/"%char) then "_"%char else c.
Definition plain_char (c : ascii) : ascii :=
  if bool_decide (c = "-"%char) then "+"%char else if bool_decide (c = "_"%char) then "/"%char else c.

Definition urlsafe_b64encode (s : string) : string := map_chars url_char (b64encode s).
Definition urlsafe_b64decode (s : string) : result string :=
  of_option OutsideModel "a text that is not canonical base64" (b64decode (map_chars plain_char s)).

Definition encode_page_token (snapshot_id : option string) (query_hash : string) (last_row : frow) : result string :=
  t ← of_option KeyError "event_time" (get "event_time" last_row);
  k ← of_option KeyError "natural_key" (get "natural_key" last_row);
  s ← of_option KeyError "source" (get "source" last_row);
  Ok (urlsafe_b64encode (canonical_dumps (JDict
        [("version", JInt PAGE_CURSOR_VERSION); ("snapshot_id", json_opt snapshot_id); ("query_hash", JStr query_hash);
         ("last_event_time", t); ("last_natural_key", k); ("last_source", s)]))).

(** [_decode_page_token]; whatever goes wrong is a ValueError. *)
Definition decode_page_token (token : string) (snapshot_id : option string) (query_hash : string) : result (list string) :=
  let bad {A} : result A := raise ValueError "invalid or mismatched page_token" in
  if negb (ascii7 token) then bad
  else
    raw ← urlsafe_b64decode token;
    match (text ← utf8_decode raw; json_loads float_repr text) with
    | Ok (JDict d) =>
        if eq_int (getv "version" d) PAGE_CURSOR_VERSION && py_eq (getv "snapshot_id" d) (json_opt snapshot_id) &&
           py_eq (getv "query_hash" d) (JStr query_hash)
        then match getv "last_event_time" d, getv "last_natural_key" d, getv "last_source" d with
             | JStr t, JStr k, JStr s => Ok [t; k; s]
             | _, _, _ => bad
             end
        else bad
    | Ok _ => bad
    | Err e => if decide (exn_kind e ∈ [OutsideModel; Diverges]) then Err e else bad
    end.

(** The arguments of [get_jquants_records]. *)
Record records_query := mkRecords {
  rq_as_of : as_of_arg;
  rq_dataset : option string;
  rq_code : option string;
  rq_from_event : option string;
  rq_to_event : option string;
  rq_natural_key : option string;
  rq_page_size : option Z;
  rq_page_token : option string;
  rq_snapshot_id : option string;
}.

(** What the JSON functions of SQLite make of a column: the text of its member [Code] when
    it is valid JSON that has one. *)
Variable json_code : json -> option string.

(** [CATALOG_CODE_SQL] of storage/schema.py *)
Definition catalog_code (row : frow) : option string :=
  match json_code (getv "natural_key" row), json_code (getv "payload" row) with
  | Some c, _ => Some c
  | None, Some c => Some c
  | None, None => json_code (getv "raw_payload" row)
  end.

(** The query behind [get_jquants_records] before paging, and what its hash covers. *)
Definition records_base (rq : records_query) : result (pit_query * list (string * json)) :=
  as_of_iso ← normalize_as_of (rq_as_of rq);
  dataset ← match rq_dataset rq with
            | Some d => if strip d =s "" then raise InvalidDataset "dataset is required for get_jquants_records" else Ok d
            | None => raise InvalidDataset "dataset is required for get_jquants_records"
            end;
  let c1 := [on_column cell_eq "dataset" dataset] in
  c2 ← clause (rq_natural_key rq) Ok (on_column cell_eq "natural_key");
  c3 ← clause (rq_code rq) Ok (fun c row => bool_decide (catalog_code row = Some c));
  from_iso ← match rq_from_event rq with Some e => b ← event_time_bound e; Ok (Some b) | None => Ok None end;
  to_iso ← match rq_to_event rq with Some e => b ← event_time_bound e; Ok (Some b) | None => Ok None end;
  c4 ← clause from_iso Ok (on_column cell_ge "event_time");
  c5 ← clause to_iso Ok (on_column cell_le "event_time");
  Ok (mkQuery as_of_iso "jquants_records" (Some dataset) (joined (c1 ++ c2 ++ c3 ++ c4 ++ c5))
        (map (fun c => (c, false)) JQUANTS_PAGE_ORDER) None None,
      [("cursor_version", JInt PAGE_CURSOR_VERSION); ("snapshot_id", json_opt (rq_snapshot_id rq));
       ("as_of", JStr as_of_iso); ("dataset", JStr dataset); ("code", json_opt (rq_code rq));
       ("natural_key", json_opt (rq_natural_key rq)); ("from_event", json_opt from_iso); ("to_event", json_opt to_iso);
       ("page_size", match rq_page_size rq with Some n => JInt n | None => JNull end)]).

Definition with_page (keyset : option (list string * list string)) (limit : option Z) (q : pit_query) : pit_query :=
  mkQuery (q_as_of q) (q_table q) (q_dataset q) (q_where q) (q_order q) keyset limit.

Definition get_jquants_records (bound : option read_clock) (rq : records_query) (db : option pit_database) : result pit_result :=
  base ← records_base rq;
  let '(q, hashed) := base in
  match rq_page_size rq with
  | None =>
      _ ← ensure (negb (present (rq_page_token rq))) ValueError "page_size is required when page_token is supplied";
      rows ← run_query bound db q;
      Ok (make_result rows (q_as_of q) "jquants_records" (Some "jquants") (q_dataset q) [])
  | Some size =>
      _ ← ensure ((1 <=? size) && (size <=? MAX_PAGE_SIZE)) ValueError "page_size must be between 1 and 1000";
      let query_hash := page_query_hash hashed in
      keyset ← match rq_page_token rq with
               | Some token =>
                   last_keys ← decode_page_token token (rq_snapshot_id rq) query_hash;
                   Ok (Some (JQUANTS_PAGE_ORDER, last_keys))
               | None => Ok None
               end;
      rows ← run_query bound db (with_page keyset (Some (size + 1)) q);
      let has_more := size <? Z.of_nat (length rows) in
      let rows := take (Z.to_nat size) rows in
      next ← match last rows with
             | Some row => if has_more then token ← encode_page_token (rq_snapshot_id rq) query_hash row; Ok (JStr token)
                           else Ok JNull
             | None => Ok JNull
             end;
      Ok (make_result rows (q_as_of q) "jquants_records" (Some "jquants") (q_dataset q)
            [("page_size", JInt size); ("next_page_token", next)])
  end.
End Decoding.

(** ** Rankings *)

#[export] Instance version_strict_weak : StrictWeak version_ltb.
Proof.
  unfold version_ltb. do 2 (apply lex_strict_weak; [apply string_comparison|]). apply (on_strict_weak fst Z.ltb). apply _.
Qed.

(** The maximum of a list with one more element in front, or at its end. *)
Lemma py_max_from_head {A} (ltb : A -> A -> bool) `{!StrictWeak ltb} best x l :
  py_max_from ltb best (x :: l) = let m := py_max_from ltb x l in if ltb best m then m else best.
Proof.
  assert (forall a b c, ltb a b = true -> ltb b c = true -> ltb a c = true) as Htrans.
  { intros a b c H1 H2. destruct (ltb a c) eqn:E; [done|]. apply sw_asym in H2.
    rewrite (sw_negtrans _ _ _ E H2) in H1. done. }
  revert best x. induction l as [|y l IH]; intros best x; [done|]. cbv zeta.
  change (py_max_from ltb (if ltb best x then x else best) (y :: l) =
    let m := py_max_from ltb x (y :: l) in if ltb best m then m else best).
  rewrite !IH. cbv zeta. set (m := py_max_from ltb y l). destruct (ltb best x) eqn:E1, (ltb x m) eqn:E2; rewrite ?E1; try done.
  - by rewrite (Htrans _ _ _ E1 E2).
  - by rewrite (sw_negtrans _ _ _ E1 E2).
Qed.

Lemma py_max_from_app {A} (ltb : A -> A -> bool) best l k :
  py_max_from ltb best (l ++ k) = py_max_from ltb (py_max_from ltb best l) k.
Proof. revert best. induction l as [|x l IH]; intros best; simpl; [done|]. apply IH. Qed.

(** An element that is comparable with all the others may be moved from the front to the
    end, and be replaced by one with the same place in the order. *)
Lemma py_max_moved {A} (ltb : A -> A -> bool) `{!StrictWeak ltb} x x' l :
  (forall y, y ∈ l -> ltb x y = negb (ltb y x')) ->
  py_max ltb (l ++ [x']) = py_max ltb (x :: l) \/ py_max ltb (x :: l) = Some x /\ py_max ltb (l ++ [x']) = Some x'.
Proof.
  destruct l as [|y l]; [by right|]. intros H.
  change (py_max ltb (x :: y :: l)) with (Some (py_max_from ltb x (y :: l))).
  change (py_max ltb ((y :: l) ++ [x'])) with (Some (py_max_from ltb y (l ++ [x']))).
  rewrite (py_max_from_head ltb), py_max_from_app by done. cbv zeta. set (m := py_max_from ltb y l).
  change (py_max_from ltb m [x']) with (if ltb m x' then x' else m).
  assert (m ∈ y :: l) as Hm by (unfold m; destruct (py_max_from_elem ltb y l) as [->|?]; [by left|by right]).
  rewrite (H m Hm). destruct (ltb m x'); [by right|by left].
Qed.

Lemma remove_dups_distinct {A} `{EqDecision A} (l : list A) : NoDup l -> remove_dups l = l.
Proof.
  induction 1 as [|x l Hx _ IH]; [done|]. simpl. destruct (decide_rel _ x l); [done|by rewrite IH].
Qed.

Section Ranked.
Context (key : list string).

Lemma newest_at_elem versions k row : newest_at key versions k = Some row ->
  row_key key row = k /\ exists n, (n, row) ∈ versions /\
    forall v, v ∈ versions -> row_key key v.2 = k -> version_ltb (n, row) v = false.
Proof.
  unfold newest_at. intros H. apply fmap_Some in H as ([n r] & H & ->).
  apply (py_max_spec version_ltb) in H as [[Hk Hin]%list_elem_of_filter Hub]. simpl in *. split; [done|]. exists n. split; [done|].
  intros v Hv Ek. rewrite Forall_forall in Hub. apply Hub. by apply list_elem_of_filter.
Qed.

Lemma newest_at_some versions v : v ∈ versions -> exists row, newest_at key versions (row_key key v.2) = Some row.
Proof.
  intros Hv. unfold newest_at. destruct (py_max _ _) as [m|] eqn:E; [by eexists|]. apply py_max_None in E.
  assert (v ∈ filter (fun w => row_key key w.2 = row_key key v.2) versions) as H by (by apply list_elem_of_filter).
  rewrite E in H. by apply elem_of_nil in H.
Qed.

Lemma elem_of_ranked versions row : row ∈ ranked key versions <-> newest_at key versions (row_key key row) = Some row.
Proof.
  unfold ranked. rewrite list_elem_of_omap. split.
  - intros (k & _ & H). by destruct (newest_at_elem _ _ _ H) as [-> _].
  - intros H. exists (row_key key row). split; [|done]. apply elem_of_remove_dups.
    destruct (newest_at_elem _ _ _ H) as (_ & n & Hin & _). apply list_elem_of_fmap. by exists (n, row).
Qed.

Lemma ranked_keys versions : NoDup (map (row_key key) (ranked key versions)).
Proof.
  unfold ranked. assert (forall ks : list (list json), NoDup ks -> NoDup (map (row_key key) (omap (newest_at key versions) ks)) /\
    forall k, k ∈ map (row_key key) (omap (newest_at key versions) ks) -> k ∈ ks) as H; [|apply H, NoDup_remove_dups].
  induction ks as [|k ks IH]; simpl; intros Hn; [split; [constructor|intros ? H; by apply elem_of_nil in H]|].
  apply NoDup_cons in Hn as [Hk Hn]. destruct (IH Hn) as [H1 H2]. destruct (newest_at key versions k) as [row|] eqn:E; simpl.
  - destruct (newest_at_elem _ _ _ E) as [-> _]. split.
    + apply NoDup_cons. split; [|done]. intros H. by apply Hk, H2.
    + intros k' [->|H]%elem_of_cons; [by left|right; by apply H2].
  - split; [done|]. intros k' H. right. by apply H2.
Qed.

(** Versions of different keys are all kept. *)
Lemma ranked_distinct n rows : NoDup (map (row_key key) rows) -> ranked key (map (pair n) rows) = rows.
Proof.
  intros Hn. unfold ranked. rewrite map_map. simpl. change (fun x => row_key key x) with (row_key key).
  rewrite (remove_dups_distinct _ Hn). assert (forall l, (forall row, row ∈ l -> row ∈ rows) ->
    omap (newest_at key (map (pair n) rows)) (map (row_key key) l) = l) as H; [|by apply H].
  induction l as [|row l IH]; intros Hl; [done|]. simpl.
  assert (newest_at key (map (pair n) rows) (row_key key row) = Some row) as ->.
  { assert ((n, row) ∈ map (pair n) rows) as Hin by (apply list_elem_of_fmap; exists row; split; [done|apply Hl; by left]).
    destruct (newest_at_some _ _ Hin) as [row' H]. simpl in H. rewrite H. f_equal.
    destruct (newest_at_elem _ _ _ H) as (Ek & n' & Hin' & _). apply list_elem_of_fmap in Hin' as (r & [= _ <-] & Hr).
    apply list_elem_of_lookup in Hr as (i & Hi). destruct (proj1 (list_elem_of_lookup _ _) (Hl row ltac:(by left))) as (j & Hj).
    assert (i = j) as ->; [|congruence]. eapply (NoDup_lookup (map (row_key key) rows)); [done| |].
    - rewrite list_lookup_fmap, Hi. simpl. by rewrite Ek.
    - by rewrite list_lookup_fmap, Hj. }
  f_equal. apply IH. intros r Hr. apply Hl. by right.
Qed.
End Ranked.

(** ** What a read returns *)

(** The natural key and the versions of a table. *)
Definition read_key (table : string) : list string :=
  match assoc table PERSONAL_HISTORY_COMPACT_NATURAL_KEYS with Some key => key | None => key_columns table end.

Definition versions_of (db : pit_database) (table : string) : list version :=
  match assoc table PERSONAL_HISTORY_COMPACT_NATURAL_KEYS with
  | Some _ => map (pair 1) (default [] (pd_compact db !! table))
  | None => map (pair 1) (primary table (pd_facts db)) ++ map (pair 0) (revisions table (pd_facts db))
  end.

Definition candidates (db : pit_database) (q : pit_query) (clock : read_clock) : list version :=
  filter (fun v => visible q clock v.2 = true) (versions_of db (q_table q)).

Lemma filter_versions (P : frow -> Prop) `{forall r, Decision (P r)} n rows :
  filter (fun v : version => P v.2) (map (pair n) rows) = map (pair n) (filter P rows).
Proof.
  induction rows as [|row rows IH]; [done|]. cbn [map]. rewrite !filter_cons. cbn [snd].
  destruct (decide (P row)); cbn [map]; [f_equal|]; exact IH.
Qed.

Lemma keyed_table table key : assoc table NATURAL_KEYS = Some key -> exists columns, columns_of table = Some columns.
Proof.
  intros H%assoc_elem. destruct (columns_of table) as [c|] eqn:E; [by exists c|]. exfalso. apply assoc_None in E. apply E.
  assert (map fst SCHEMA = map fst NATURAL_KEYS) as -> by (vm_compute; reflexivity). apply list_elem_of_fmap. by exists (table, key).
Qed.

Lemma order_leb_total cols a b : order_leb cols a b = false -> order_leb cols b a = true.
Proof.
  induction cols as [|[c desc] cols IH]; simpl; [done|]. rewrite (cmp_antisym (text_at c a)).
  destruct desc; destruct (String.compare _ _); simpl; auto.
Qed.

Lemma order_leb_trans cols a b d : order_leb cols a b = true -> order_leb cols b d = true -> order_leb cols a d = true.
Proof.
  induction cols as [|[c desc] cols IH]; [done|]. cbn [order_leb]. cbv zeta.
  set (x := text_at c a). set (y := text_at c b). set (z := text_at c d).
  assert (String.compare x y = String.compare y z -> String.compare x z = String.compare x y) as Hxz.
  { destruct (String.compare x y) eqn:E1; intros E2; symmetry in E2.
    - apply cmp_eq in E1. by rewrite E1.
    - by apply (cmp_trans _ y).
    - rewrite (cmp_antisym z), (cmp_trans z y x); [done| |]; by rewrite cmp_antisym, ?E1, ?E2. }
  destruct (String.compare x y) eqn:E1, (String.compare y z) eqn:E2; try rewrite Hxz by done; destruct desc; simpl; try done;
    try (apply cmp_eq in E1; rewrite E1, E2); try (apply cmp_eq in E2; rewrite <- E2, E1); simpl; auto.
Qed.


Section Reads.
Variable affinity : string -> json -> json.

(** Both the ranking and the plain statement a table without amendments gets select the
    newest visible versions. *)
Lemma selected_ranked db q clock rows : facts_ok affinity (pd_facts db) -> selected_rows db q clock = Ok rows ->
  rows = ranked (read_key (q_table q)) (candidates db q clock).
Proof.
  intros Hf H. unfold selected_rows in H. unfold candidates, versions_of, read_key, key_columns.
  destruct (assoc (q_table q) PERSONAL_HISTORY_COMPACT_NATURAL_KEYS); [by injection H as <-|].
  destruct (assoc (q_table q) NATURAL_KEYS) as [key|] eqn:Ek; [|done]. simpl.
  destruct (revisions (q_table q) (pd_facts db)) eqn:Er; [|by injection H as <-]. injection H as <-.
  rewrite app_nil_r.
  pose proof (filter_versions (fun row => visible q clock row = true) 1 (primary (q_table q) (pd_facts db))) as E.
  rewrite E. symmetry. apply ranked_distinct.
  destruct (keyed_table _ _ Ek) as [columns Hc]. pose proof (ok_keys _ _ _ _ (Hf _ _ Hc)) as Hn.
  unfold key_columns in Hn. rewrite Ek in Hn. simpl in Hn. eapply sublist_NoDup; [exact Hn|].
  apply (fmap_sublist (row_key key)), sublist_filter.
Qed.

(** The rows of a read without a keyset and a limit. *)
Lemma whole_read bound db q out : q_keyset q = None -> q_limit q = None -> iter_query_rows bound db q = Ok out ->
  exists clock rows, resolve_read_clock (AsText (q_as_of q)) None bound (Some db) = Ok clock /\
    selected_rows db q clock = Ok rows /\ out = py_sorted (order_leb (q_order q)) rows.
Proof.
  intros Hk Hl H. unfold iter_query_rows in H. rewrite Hk, Hl in H. binds H. injection H as <-. by exists a1, a2.
Qed.

(** Claim C4. A whole read, one without a keyset and a limit, returns the past as it was known.  Every
    row it returns is the current row or an archived version of its key that meets the condition of the query,
    became available not after the decision time, happened not after it unless its calendar is
    published in advance, and was ingested not after the observation cut-off; of the versions of its key
    of which all that is true it is the newest; each key with such a version has exactly one
    row in the result, whether or not the table has amendments.  The rows come in the order of the query. *)
Theorem reads_newest_visible bound db q out : facts_ok affinity (pd_facts db) -> q_keyset q = None -> q_limit q = None ->
  iter_query_rows bound db q = Ok out ->
  exists clock, resolve_read_clock (AsText (q_as_of q)) None bound (Some db) = Ok clock /\
    NoDup (map (row_key (read_key (q_table q))) out) /\ StronglySorted (fun a b => order_leb (q_order q) a b = true) out /\
    (forall row, row ∈ out -> exists n,
       (n, row) ∈ versions_of db (q_table q) /\ visible q clock row = true /\
       (forall t a ta, canonical_time t (q_as_of q) -> getv "available_at" row = JStr a -> canonical_time ta a -> ta <= t) /\
       forall v, v ∈ versions_of db (q_table q) -> visible q clock v.2 = true ->
         row_key (read_key (q_table q)) v.2 = row_key (read_key (q_table q)) row -> version_ltb (n, row) v = false) /\
    (forall v, v ∈ versions_of db (q_table q) -> visible q clock v.2 = true -> exists row, row ∈ out /\
       row_key (read_key (q_table q)) row = row_key (read_key (q_table q)) v.2).
Proof.
  intros Hf Hk Hl H. destruct (whole_read _ _ _ _ Hk Hl H) as (clock & rows & Hc & Hs & ->). exists clock. split; [done|].
  rewrite (selected_ranked _ _ _ _ Hf Hs). set (key := read_key (q_table q)). split_and!.
  - rewrite (py_sorted_perm (order_leb (q_order q)) (ranked key (candidates db q clock))). apply ranked_keys.
  - apply py_sorted_Sorted; [apply order_leb_total|apply order_leb_trans].
  - intros row Hr%elem_of_py_sorted%elem_of_ranked. destruct (newest_at_elem _ _ _ _ Hr) as (_ & n & Hin & Hub).
    apply list_elem_of_filter in Hin as [Hv Hin]. exists n. split_and!; [done|done| |].
    { intros t a ta Ht Ea Hta. apply Z.leb_le. rewrite <- (canonical_leb _ _ _ _ Hta Ht). simpl in Hv. unfold visible in Hv.
      bools. by rewrite Ea in *. }
    intros v Hvin Hvis Ek.
    apply Hub; [by apply list_elem_of_filter|done].
  - intros v Hvin Hvis. destruct (newest_at_some key (candidates db q clock) v) as [row Hr]; [by apply list_elem_of_filter|].
    exists row. destruct (newest_at_elem _ _ _ _ Hr) as (Ek & _). split; [|done]. apply elem_of_py_sorted, elem_of_ranked. by rewrite Ek.
Qed.

(** ** Amendments *)

Lemma filter_comm {A} (P Q : A -> Prop) `{forall x, Decision (P x)} `{forall x, Decision (Q x)} (l : list A) :
  filter P (filter Q l) = filter Q (filter P l).
Proof. rewrite !list_filter_filter. apply list_filter_iff. tauto. Qed.

Lemma ranked_perm key vs vs' : (forall k, newest_at key vs k = newest_at key vs' k) -> ranked key vs ≡ₚ ranked key vs'.
Proof.
  intros H. apply NoDup_Permutation; try (apply (NoDup_fmap_1 (row_key key)), ranked_keys).
  intros row. by rewrite !elem_of_ranked, H.
Qed.

Lemma fact_table table columns : columns_of table = Some columns ->
  assoc table PERSONAL_HISTORY_COMPACT_NATURAL_KEYS = None /\ assoc table NATURAL_KEYS = Some (key_columns table).
Proof.
  intros H%columns_of_elem. assert (forallb (fun t => negb (present (assoc t PERSONAL_HISTORY_COMPACT_NATURAL_KEYS)) &&
    present (assoc t NATURAL_KEYS)) (map fst SCHEMA) = true) as Hs by (vm_compute; reflexivity).
  rewrite forallb_forall in Hs. specialize (Hs table (proj1 (list_elem_of_In _ _) H)). bools.
  unfold key_columns. destruct (assoc table PERSONAL_HISTORY_COMPACT_NATURAL_KEYS), (assoc table NATURAL_KEYS); done.
Qed.

(** The newest visible version of a key, from the versions of the key. *)
Lemma newest_candidate f db q clock columns k : columns_of (q_table q) = Some columns ->
  newest_at (key_columns (q_table q)) (candidates (with_facts f db) q clock) k =
  snd <$> py_max version_ltb (filter (fun v => visible q clock v.2 = true)
    (map (pair 1) (rows_at (key_columns (q_table q)) k (primary (q_table q) f)) ++
     map (pair 0) (rows_at (key_columns (q_table q)) k (revisions (q_table q) f)))).
Proof.
  intros Hc. unfold newest_at, candidates, versions_of. destruct (fact_table _ _ Hc) as [-> _]. rewrite filter_comm. simpl.
  do 3 f_equal. rewrite filter_app. pose proof (filter_versions (fun row => row_key (key_columns (q_table q)) row = k)) as E.
  by rewrite (E 1), (E 0).
Qed.

Context {Haff : Affinity affinity}.
Variable float_repr : string -> string.

(** A cell with a bound on it is a text. *)
Lemma cell_le_text v b : cell_le v b = true -> exists s, v = JStr s.
Proof. destruct v; try done. by eexists. Qed.

Lemma visible_texts q clock row : visible q clock row = true ->
  (exists a, getv "available_at" row = JStr a) /\ exists i, getv "ingested_at" row = JStr i.
Proof. unfold visible. intros H. bools. split; by eapply cell_le_text. Qed.

(** The current row becomes history without being amended. *)
Lemma archived_order table ex rev : row_key (key_columns table) rev = row_key (key_columns table) ex ->
  row_key (version_columns table) rev <> row_key (version_columns table) ex ->
  (exists a, getv "available_at" rev = JStr a) -> (exists i, getv "ingested_at" rev = JStr i) ->
  (exists a, getv "available_at" ex = JStr a) -> (exists i, getv "ingested_at" ex = JStr i) ->
  version_ltb (1, ex) (0, rev) = negb (version_ltb (0, rev) (0, ex)).
Proof.
  intros Hk Hv [a1 Ha1] [i1 Hi1] [a2 Ha2] [i2 Hi2]. unfold version_ltb, lex, text_at. simpl. rewrite Ha1, Hi1, Ha2, Hi2.
  rewrite (cmp_antisym (cmp := String.compare) a2 a1), (cmp_antisym (cmp := String.compare) i2 i1).
  destruct (String.compare a2 a1) eqn:Ea; simpl; [|done|done]. destruct (String.compare i2 i1) eqn:Ei; simpl; [|done|done].
  apply cmp_eq in Ea, Ei. subst. exfalso. apply Hv. unfold version_columns, row_key in *. rewrite !map_app, Hk. simpl. congruence.
Qed.

Lemma to_iso_after t s u : canonical_time t s -> valid_datetime u = true -> jst_epoch <= dt_date u ->
  t < u - u mod 1000000 -> String.leb (to_iso u) s = false.
Proof.
  intros Ht Hv He Hlt. rewrite to_iso_floor.
  rewrite (canonical_leb (u - u mod 1000000) t); [by apply Z.leb_gt| |done]. rewrite <- to_iso_floor. by apply canonical_floor.
Qed.

(** A row of a batch that cannot belong to what is known at the instant [t]: a new key that
    becomes available later, or an amendment that is fetched later.  The version it displaces is
    not in the history yet. *)
Definition late (table : string) (f : facts) (cols : list string) (t : datetime) (as_of : string) (key : list json) (r : frow) : Prop :=
  match row_at table key f with
  | None => exists s, getv "available_at" r = JStr s /\ String.leb s as_of = false
  | Some ex =>
      payload_signature float_repr r cols (version_columns table) <> payload_signature float_repr ex cols (version_columns table) /\
      (exists i u, getv "ingested_at" r = JStr i /\ parse_dt i = Ok u /\ t < u - u mod 1000000) /\
      forall rev, rev ∈ revisions table f -> row_key (version_columns table) rev <> row_key (version_columns table) ex
  end.

(** What such a row writes for its key is not visible at [t], and the version that was
    current is kept. *)
Lemma late_written table columns cols key r f f' t as_of (w : written_at affinity float_repr table columns cols key r f f') :
  columns_of table = Some columns -> facts_ok affinity f -> "available_at" ∈ cols -> canonical_time t as_of ->
  late table f cols t as_of key r ->
  (exists cur s, row_at table key f' = Some cur /\ getv "available_at" cur = JStr s /\ String.leb s as_of = false) /\
  rows_at (key_columns table) key (revisions table f') = rows_at (key_columns table) key (revisions table f) ++
    match row_at table key f with Some ex => [ex] | None => [] end.
Proof.
  intros Ht Hf Hav Hct Hl. pose proof (w_adjust _ _ _ _ _ _ _ _ _ w) as Hadj. pose proof (w_history _ _ _ _ _ _ _ _ _ w) as Hh.
  destruct (available_not_key table (columns_of_elem _ _ Ht)) as [Hank _].
  assert (forall s, getv "available_at" (w_row _ _ _ _ _ _ _ _ _ w) = JStr s -> exists cur, row_at table key f' = Some cur /\
    getv "available_at" cur = JStr s) as Hcell.
  { intros s Hs. eapply (current_cell _ _ _ _ _ _ _ _ _ w); try done. unfold version_columns. set_solver. }
  unfold late in Hl. unfold adjust in Hadj. destruct (row_at table key f) as [ex|] eqn:Eex.
  - destruct Hl as (Hsig & (i & u & Hi & Hu & Hlt) & Hnew). change (key_columns table ++ ["available_at"; "ingested_at"]) with (version_columns table) in Hadj.
    destruct (payload_signature float_repr r cols (version_columns table)) as [new|]; [|done].
    destruct (payload_signature float_repr ex cols (version_columns table)) as [old|]; [|done]. simpl in Hadj.
    rewrite bool_decide_eq_false_2 in Hadj by congruence. rewrite Hi in Hadj. simpl in Hadj.
    destruct (bool_decide (i = EmptyString)) eqn:Ei.
    { apply bool_decide_eq_true in Ei as ->. vm_compute in Hu. done. }
    simpl in Hadj. unfold later_available in Hadj. apply bind_Ok in Hadj as (av & Hav' & E). injection E as Erow Edis.
    apply bind_Ok in Hav' as (da & Hda & Hav'). rewrite Hu in Hav'. simpl in Hav'. injection Hav' as <-.
    destruct (parse_dt_valid _ _ Hu) as [Hvu Heu]. destruct (parse_dt_valid _ _ Hda) as [Hvd Hed]. split.
    + destruct (Hcell (to_iso (if u <=? da then da else u))) as (cur & H1 & H2).
      { rewrite <- Erow. apply getv_dict_same. }
      exists cur, (to_iso (if u <=? da then da else u)). split_and!; [done|done|].
      apply (to_iso_after t); [done|by destruct (u <=? da)|by destruct (u <=? da)|].
      destruct (u <=? da) eqn:Eu; [|done]. apply Z.leb_le in Eu.
      pose proof (Z.div_le_mono u da 1000000 ltac:(lia) Eu). rewrite !floor_second in *. lia.
    + rewrite <- Edis in Hh. rewrite Hh. unfold upsert_on. rewrite (bool_decide_eq_false_2 (row_key _ ex ∈ _)); [by rewrite orb_true_r|].
      intros (rev & Er & Hrev)%list_elem_of_fmap. apply elem_of_rows_at in Hrev as [_ Hrev]. by apply (Hnew rev).
  - injection Hadj as Erow Edis. rewrite <- Edis in Hh. rewrite Hh, app_nil_r. split; [|done].
    destruct Hl as (s & Hs & Hlt). destruct (Hcell s) as (cur & H1 & H2); [by rewrite <- Erow|]. by exists cur, s.
Qed.

Lemma late_newest q clock columns cols key r f f' t (w : written_at affinity float_repr (q_table q) columns cols key r f f') :
  columns_of (q_table q) = Some columns -> facts_ok affinity f -> facts_ok affinity f' -> "available_at" ∈ cols ->
  canonical_time t (q_as_of q) -> late (q_table q) f cols t (q_as_of q) key r ->
  forall db, newest_at (key_columns (q_table q)) (candidates (with_facts f' db) q clock) key =
             newest_at (key_columns (q_table q)) (candidates (with_facts f db) q clock) key.
Proof.
  intros Ht Hf Hf' Hav Hct Hl db. rewrite !(newest_candidate _ _ _ _ columns) by done.
  destruct (late_written _ _ _ _ _ _ _ _ _ w Ht Hf Hav Hct Hl) as [(cur & s & Hcur & Hs & Hlt) Hh].
  rewrite !(rows_at_current affinity float_repr _ columns) by done. rewrite Hcur, Hh. rewrite map_app. cbn [map app].
  set (V := fun v : version => visible q clock v.2 = true).
  rewrite (filter_cons_False V (1, cur)); [|unfold V; simpl; unfold visible; rewrite Hs; cbn [cell_le text_cell]; by rewrite Hlt].
  unfold late in Hl. destruct (row_at (q_table q) key f) as [ex|] eqn:Eex; cbn [map app]; [|by rewrite app_nil_r].
  destruct Hl as (_ & _ & Hnew). apply row_at_elem in Eex as (Hin & Hkey & _).
  rewrite filter_app. destruct (decide (V (1, ex))) as [Hvis|Hvis].
  2:{ rewrite (filter_cons_False V (1, ex)) by done. rewrite (filter_cons_False V (0, ex)) by done. by rewrite app_nil_r. }
  rewrite (filter_cons_True V (1, ex)) by done. rewrite (filter_cons_True V (0, ex)) by done.
  change (filter V []) with (@nil version). set (R := filter V _).
  destruct (py_max_moved version_ltb (1, ex) (0, ex) R) as [->|[-> ->]]; [|done|done].
  intros y [Hy Hyin]%list_elem_of_filter. apply list_elem_of_fmap in Hyin as (rev & -> & Hrev). apply elem_of_rows_at in Hrev as [Ek Hrev].
  destruct (visible_texts _ _ _ Hy), (visible_texts _ _ _ Hvis). apply (archived_order (q_table q)); [congruence|by apply Hnew|done..].
Qed.


(** ** The observation clock *)

Lemma canonical_not_zero t s : canonical_time t s -> (s ∈? ["0"; "0.0"]) = false.
Proof.
  intros (Hv & _ & _ & ->). apply bool_decide_eq_false_2. destruct (seconds_text_plain t Hv) as [_ Hl].
  assert (10 < String.length (to_iso t))%nat as Hlen by (unfold to_iso; rewrite length_string_app; lia).
  intros [E|[E|E]%elem_of_cons]%elem_of_cons; [rewrite E in Hlen; simpl in Hlen; lia..|by apply elem_of_nil in E].
Qed.

Lemma resolved_decision d u : normalize_as_of d = Ok u -> as_of_ok d = true -> normalize_as_of (AsText u) = Ok u.
Proof. intros H Hd. destruct (normalize_canonical _ _ Hd H) as [t Ht]. by eapply normalize_of_canonical. Qed.

(** The observation cut-off a publisher writes is the one every reader gets: reading it
    back at any later instant gives the same text, and a reader without a clock of its own
    reads with that cut-off, which counts as promotable. *)
Theorem published_clock_reads_back s now db db' o later decision d :
  write_publisher_owned_snapshot_observation_clock (AsText s) now db = Ok (db', o) -> now <= later ->
  normalize_as_of decision = Ok d -> as_of_ok decision = true ->
  o = s /\ snapshot_observed_through (Some db') None later = Ok s /\
  resolve_read_clock decision None None (Some db') = Ok (mkReadClock d s SNAPSHOT_OBSERVATION_LABEL true).
Proof.
  intros H Hnow Hd Hdo. unfold write_publisher_owned_snapshot_observation_clock in H. binds H. injection H as <- <-. ensures. subst s.
  destruct (normalize_canonical (AsText a) a eq_refl E) as [t Ht]. pose proof (normalize_of_canonical _ _ Ht) as Hn.
  destruct (canonical_plain _ _ Ht) as [Hst Hne]. split; [done|]. split.
  - unfold snapshot_observed_through. cbn [of_option mbind result_bind pd_clock with_clock]. unfold or_. cbn [truthy].
    rewrite bool_decide_eq_false_2 by done. cbn [negb py_str]. rewrite Hst, (canonical_not_zero t) by done.
    rewrite bool_decide_eq_false_2 by done. cbn [negb orb ensure mbind result_bind]. rewrite Hn. cbn [on_error mbind result_bind].
    rewrite bool_decide_eq_true_2 by done. cbn [ensure mbind result_bind]. rewrite E1. cbn [mbind result_bind].
    replace (MAX_SNAPSHOT_CLOCK_FUTURE_SKEW <? a1 - later) with false; [done|]. symmetry. apply Z.ltb_ge. lia.
  - unfold resolve_read_clock. rewrite Hd. cbn [mbind result_bind]. unfold read_snapshot_observed_through.
    cbn [pd_clock with_clock co_table co_values ensure mbind result_bind py_str].
    rewrite Hst, (bool_decide_eq_false_2 (JStr a = JNull)), (bool_decide_eq_false_2 (a = EmptyString)) by done.
    cbn [orb negb ensure mbind result_bind]. unfold PitReadClock. rewrite (resolved_decision _ _ Hd Hdo). cbn [mbind result_bind].
    by rewrite Hn.
Qed.

(** ** Managed databases *)

End Reads.

(** ** Tokens of pages *)

Definition url_safe (c : ascii) : bool :=
  (N_of_ascii (url_char c) <? 128)%N && bool_decide (plain_char (url_char c) = c).

Lemma b64_char_safe n : 0 <= n <= 63 -> url_safe (b64_char n) = true.
Proof.
  intros H. assert (forallb (fun i => url_safe (b64_char (Z.of_nat i))) (seq 0 64) = true) as Hs by (vm_compute; reflexivity).
  rewrite forallb_forall in Hs. specialize (Hs (Z.to_nat n)). rewrite Z2Nat.id in Hs by lia. apply Hs, in_seq. lia.
Qed.

Fixpoint all_chars (p : ascii -> bool) (s : string) : bool :=
  match s with EmptyString => true | String c s => p c && all_chars p s end.

#[local] Ltac Zify.zify_post_hook ::= Z.div_mod_to_equations.

Lemma b64encode_safe s : all_chars url_safe (b64encode s) = true.
Proof.
  induction s as [|a|a b|a b c s IH] using string_ind3; [done|..]; cbn [b64encode all_chars];
    pose proof (byte_val_bounds a); try pose proof (byte_val_bounds b); try pose proof (byte_val_bounds c);
    rewrite !b64_char_safe by lia; [done|done|by rewrite IH].
Qed.

Lemma url_safe_back s : all_chars url_safe s = true -> ascii7 (map_chars url_char s) = true /\ map_chars plain_char (map_chars url_char s) = s.
Proof.
  induction s as [|c s IH]; [done|]. cbn [all_chars map_chars ascii7]. unfold url_safe at 1. intros H. bools.
  destruct IH as [-> ->]; [done|]. split; [|congruence]. by rewrite andb_true_r.
Qed.

Definition token_fields (snapshot_id : option string) (query_hash t k s : string) : list (string * json) :=
  [("version", JInt PAGE_CURSOR_VERSION); ("snapshot_id", json_opt snapshot_id); ("query_hash", JStr query_hash);
   ("last_event_time", JStr t); ("last_natural_key", JStr k); ("last_source", JStr s)].

Lemma py_eq_str_refl s : py_eq (JStr s) (JStr s) = true.
Proof. cbn. by rewrite bool_decide_eq_true_2. Qed.

(** A token gives back the keys of the row it was made of. *)
Lemma token_reads_back float_repr sid h row t k s :
  get "event_time" row = Some (JStr t) -> get "natural_key" row = Some (JStr k) -> get "source" row = Some (JStr s) ->
  exists token, encode_page_token sid h row = Ok token /\ decode_page_token float_repr token sid h = Ok [t; k; s].
Proof.
  intros Ht Hk Hs. unfold encode_page_token. rewrite Ht, Hk, Hs. cbn [of_option mbind result_bind]. eexists. split; [reflexivity|].
  fold (token_fields sid h t k s). unfold decode_page_token, urlsafe_b64encode, urlsafe_b64decode.
  destruct (url_safe_back _ (b64encode_safe (canonical_dumps (JDict (token_fields sid h t k s))))) as [Ha Hb].
  rewrite Ha, Hb, b64decode_encode. cbn [negb of_option mbind result_bind].
  rewrite canonical_bytes by by destruct sid. cbn [mbind result_bind]. rewrite json_loads_dumps by by destruct sid.
  assert (canon (JDict (token_fields sid h t k s)) = JDict [("last_event_time", JStr t); ("last_natural_key", JStr k);
    ("last_source", JStr s); ("query_hash", JStr h); ("snapshot_id", json_opt sid); ("version", JInt PAGE_CURSOR_VERSION)]) as ->
    by (by destruct sid).
  repeat match goal with |- context [getv ?k ?d] => let v := eval vm_compute in (getv k d) in change (getv k d) with v end.
  rewrite py_eq_str_refl. destruct sid as [x|]; cbn [json_opt]; [rewrite py_eq_str_refl|]; done.
Qed.

(** ** Sorted results and keysets *)

Section SortedFilter.
Context {A : Type} (leb : A -> A -> bool)
  (leb_total : forall x y, leb x y = false -> leb y x = true)
  (leb_trans : forall x y z, leb x y = true -> leb y z = true -> leb x z = true).

Lemma filter_insert (P : A -> bool) x l : StronglySorted (fun a b => leb a b = true) l ->
  filter (fun a => P a = true) (insert_sorted leb x l) =
  if P x then insert_sorted leb x (filter (fun a => P a = true) l) else filter (fun a => P a = true) l.
Proof.
  assert (forall a k, filter (fun a => P a = true) (a :: k) =
    if P a then a :: filter (fun a => P a = true) k else filter (fun a => P a = true) k) as Hc.
  { intros a k. rewrite filter_cons. destruct (P a) eqn:E; [by rewrite decide_True|by rewrite decide_False by congruence]. }
  induction 1 as [|y l Hs IH Hy]; cbn [insert_sorted].
  { rewrite Hc. by destruct (P x). }
  destruct (leb x y) eqn:E.
  - rewrite (Hc x). destruct (P x); [|done]. rewrite (Hc y). destruct (P y) eqn:Ey; cbn [insert_sorted]; [by rewrite E|].
    clear IH Hs Ey. induction l as [|z l IHl]; [done|]. apply Forall_cons in Hy as [Hz Hy]. rewrite (Hc z).
    destruct (P z); [|by apply IHl]. cbn [insert_sorted]. by rewrite (leb_trans _ _ _ E Hz).
  - rewrite !(Hc y), IH. destruct (P x), (P y); cbn [insert_sorted]; rewrite ?E; done.
Qed.

Lemma sorted_filter (P : A -> bool) l :
  py_sorted leb (filter (fun a => P a = true) l) = filter (fun a => P a = true) (py_sorted leb l).
Proof.
  induction l as [|x l IH]; [done|]. cbn [py_sorted]. rewrite filter_insert by by apply py_sorted_Sorted. rewrite filter_cons.
  destruct (P x) eqn:E; [rewrite decide_True by done; cbn [py_sorted]; by rewrite IH|by rewrite decide_False by congruence].
Qed.

(** In a strictly sorted list, what is greater than an element is what comes after it. *)
Lemma after_element l x k : StronglySorted (fun a b => leb b a = false) (l ++ x :: k) ->
  filter (fun a => negb (leb a x) = true) (l ++ x :: k) = k.
Proof.
  assert (leb x x = true) as Hrefl by (destruct (leb x x) eqn:E; [done|]; by rewrite <- E, (leb_total _ _ E)).
  intros H. rewrite filter_app, filter_cons. rewrite decide_False by by rewrite Hrefl.
  assert (Forall (fun a => leb a x = true) l /\ Forall (fun a => leb a x = false) k) as [Hl Hk].
  { induction l as [|y l IH]; simpl in H; inversion H as [|? ? Hs Hy]; subst; [by split|].
    destruct (IH Hs). split; [|done]. constructor; [|done]. apply leb_total. rewrite Forall_app in Hy. destruct Hy as [_ Hy].
    by apply Forall_cons in Hy as [? _]. }
  assert (filter (fun a => negb (leb a x) = true) l = []) as ->.
  { clear H. induction Hl as [|y l Hy Hl IH]; [done|]. rewrite filter_cons, decide_False, IH; [done|by rewrite Hy]. }
  clear H. induction Hk as [|y k Hy Hk IH]; [done|]. rewrite filter_cons, decide_True by by rewrite Hy. simpl. by f_equal.
Qed.
End SortedFilter.

(** Equal places in an order by texts. *)
Lemma order_leb_antisym cols a b : order_leb cols a b = true -> order_leb cols b a = true ->
  forall c, c ∈ map fst cols -> text_at c a = text_at c b.
Proof.
  induction cols as [|[c desc] cols IH]; [by intros _ _ c Hc; apply elem_of_nil in Hc|]. cbn [order_leb map fst]. cbv zeta.
  rewrite (cmp_antisym (text_at c a)). destruct (String.compare (text_at c a) (text_at c b)) eqn:E.
  - apply cmp_eq in E. destruct desc; cbn [CompOpp]; intros H1 H2 c' [->|Hc]%elem_of_cons; auto.
  - by destruct desc.
  - by destruct desc.
Qed.

Definition texts (cols : list string) (row : frow) : Prop := forall c, c ∈ cols -> exists s, getv c row = JStr s.

Lemma keyset_cons c v columns values row : length columns = length values ->
  keyset_after (c :: columns) (v :: values) row =
  cell_gt (getv c row) v || (cell_eq (getv c row) v && keyset_after columns values row).
Proof.
  intros Hlen. unfold keyset_after. cbn [length seq existsb]. f_equal. rewrite <- seq_shift.
  generalize (seq 0 (length columns)) as l. induction l as [|i l IH]; cbn [map existsb]; [by rewrite andb_false_r|].
  rewrite IH. unfold keyset_branch at 1. cbn [zip_with take forallb fst snd lookup list_lookup].
  change (zip (c :: columns) (v :: values) !! S i) with (zip columns values !! i).
  rewrite andb_orb_distrib_r. f_equal. unfold keyset_branch. by rewrite andb_assoc.
Qed.

(** The keyset after a row holds of the rows that are strictly greater in the order. *)
Lemma keyset_order cols row x : texts cols row -> texts cols x ->
  keyset_after cols (map (fun c => text_at c x) cols) row = negb (order_leb (map (fun c => (c, false)) cols) row x).
Proof.
  induction cols as [|c cols IH]; intros Hr Hx; [done|]. cbn [map]. rewrite keyset_cons by by rewrite length_map.
  rewrite IH by (intros c' Hc'; by (apply Hr || apply Hx); right). cbn [order_leb]. cbv zeta.
  destruct (Hr c ltac:(by left)) as [s Es], (Hx c ltac:(by left)) as [t Et]. unfold text_at at 1 2 3 4. rewrite Es, Et.
  cbn [cell_gt cell_eq text_cell]. unfold String.ltb. rewrite (cmp_antisym (cmp := String.compare) s t).
  destruct (String.compare s t) eqn:E; cbn [CompOpp orb].
  - apply cmp_eq in E. by rewrite bool_decide_eq_true_2.
  - rewrite bool_decide_eq_false_2; [done|]. intros ->. by rewrite (proj2 (cmp_eq (cmp := String.compare) t t) eq_refl) in E.
  - done.
Qed.

(** ** Pages *)

Section Pages.
Variable affinity : string -> json -> json.
Context {Haff : Affinity affinity}.
Variable float_repr : string -> string.
Variable json_code : json -> option string.

Lemma decode_row_get row row' k : decode_row float_repr row = Ok row' -> k ∉ ["raw_payload"; "payload"] -> get k row' = get k row.
Proof.
  unfold decode_row. intros H Hk. revert H. generalize (List.incl_refl ["raw_payload"; "payload"]).
  generalize ["raw_payload"; "payload"] at 1 3 as cols. intros cols. revert row. induction cols as [|c cols IH]; intros row Hin H.
  { by injection H as <-. }
  simpl in H. apply bind_Ok in H as (r1 & H1 & H). rewrite (IH r1); [|intros x Hx; apply Hin; by right|done].
  unfold decode_column in H1. destruct (getv c row); try (by injection H1 as <-).
  destruct (bool_decide _); [by injection H1 as <-|]. destruct (json_loads float_repr s) as [v|e].
  - injection H1 as <-. apply get_dict_set_other. intros ->. apply Hk, list_elem_of_In, Hin. by left.
  - destruct (decide _); [by injection H1 as <-|done].
Qed.

Lemma mapR_take {A B} (f : A -> result B) n l ys : mapR f l = Ok ys -> mapR f (take n l) = Ok (take n ys).
Proof. rewrite !mapR_Ok. apply Forall2_take. Qed.
Lemma mapR_drop {A B} (f : A -> result B) n l ys : mapR f l = Ok ys -> mapR f (drop n l) = Ok (drop n ys).
Proof. rewrite !mapR_Ok. apply Forall2_drop. Qed.

(** A page of a query is a prefix of what its keyset leaves of the whole result. *)
Lemma page_of_read bound db q all keyset n : q_keyset q = None -> q_limit q = None -> iter_query_rows bound db q = Ok all ->
  1 <= n -> match keyset with Some (c, v) => c <> [] /\ length c = length v | None => True end ->
  iter_query_rows bound db (with_page keyset (Some n) q) = Ok (take (Z.to_nat n)
    match keyset with Some (c, v) => filter (fun row => keyset_after c v row = true) all | None => all end).
Proof.
  intros Hk Hl H Hn Hks. destruct (whole_read _ _ _ _ Hk Hl H) as (clock & rows & Hc & Hs & ->).
  unfold iter_query_rows. cbn [with_page q_keyset q_limit q_as_of q_order].
  assert (ensure (1 <=? n) ValueError "limit must be a positive integer" = Ok tt) as Hlim by by rewrite (proj2 (Z.leb_le _ _) Hn).
  change (selected_rows db (with_page keyset (Some n) q)) with (selected_rows db q). rewrite Hlim, Hc.
  destruct keyset as [[c v]|]; cbn [mbind result_bind].
  - destruct Hks as [Hc0 Hcv]. rewrite bool_decide_eq_false_2, Hcv, Nat.eqb_refl by done. cbn [negb andb ensure mbind result_bind].
    rewrite Hs. cbn [mbind result_bind]. rewrite sorted_filter; [done|apply order_leb_total|apply order_leb_trans].
  - by rewrite Hs.
Qed.

(** The archived records have keys without NULLs, as the current ones have. *)
Definition history_keyed (f : facts) : Prop :=
  forall rev, rev ∈ revisions "jquants_records" f -> JNull ∉ row_key (key_columns "jquants_records") rev.

Lemma settled_text columns row k : text_column_of columns k = true -> stored_row affinity columns row -> getv k row <> JNull ->
  exists s, getv k row = JStr s.
Proof.
  intros (c & Hc & <- & Ht & _)%text_column_elem [_ Hv] Hn. destruct (Hv c Hc) as [_ Ha]. rewrite Ht in Ha.
  destruct (affinity_textual (affinity := affinity) (getv (col_name c) row) Hn) as [s Hs]. exists s. congruence.
Qed.

(** The records of one dataset that a read returns have texts in the columns pages are
    ordered by, and different ones. *)
Lemma records_sorted bound db q dataset out : facts_ok affinity (pd_facts db) -> history_keyed (pd_facts db) ->
  q_table q = "jquants_records" -> q_order q = map (fun c => (c, false)) JQUANTS_PAGE_ORDER ->
  (forall row, match q_where q with Some p => p row | None => true end = true -> getv "dataset" row = JStr dataset) ->
  q_keyset q = None -> q_limit q = None -> iter_query_rows bound db q = Ok out ->
  (forall row, row ∈ out -> texts JQUANTS_PAGE_ORDER row) /\
  StronglySorted (fun a b => order_leb (q_order q) b a = false) out.
Proof.
  intros Hf Hh Htab Hord Hw Hk Hl H. destruct (whole_read _ _ _ _ Hk Hl H) as (clock & rows & _ & Hs & ->).
  rewrite (selected_ranked affinity _ _ _ _ Hf Hs). rewrite Htab. set (key := read_key "jquants_records"). set (L := candidates db q clock).
  assert (forall row, row ∈ ranked key L -> texts JQUANTS_PAGE_ORDER row /\ getv "dataset" row = JStr dataset) as Hrow.
  { intros row Hr%elem_of_ranked. destruct (newest_at_elem _ _ _ _ Hr) as (_ & n & Hin & _).
    apply list_elem_of_filter in Hin as [Hv Hin]. simpl in Hv. unfold visible in Hv. bools. split; [|by apply Hw].
    rewrite Htab in Hin. change (versions_of db "jquants_records") with
      (map (pair 1) (primary "jquants_records" (pd_facts db)) ++ map (pair 0) (revisions "jquants_records" (pd_facts db))) in Hin.
    destruct (Hf "jquants_records" jquants_records eq_refl) as [Hcur _ Hrev _].
    assert (stored_row affinity jquants_records row /\ JNull ∉ row_key (key_columns "jquants_records") row) as [Hst Hnull].
    { apply elem_of_app in Hin as [Hin|Hin]; apply list_elem_of_fmap in Hin as (r & [= _ <-] & Hr').
      - destruct (Hcur row Hr'). split; [done|]. by eapply row_key_texts.
      - split; [by apply Hrev|by apply Hh]. }
    intros c Hc. apply (settled_text jquants_records); [|done|].
    - assert (forallb (text_column_of jquants_records) JQUANTS_PAGE_ORDER = true) as Ht by done.
      rewrite forallb_forall in Ht. by apply Ht, list_elem_of_In.
    - unfold JQUANTS_PAGE_ORDER in Hc. apply elem_of_cons in Hc as [->|Hc].
      { match goal with Hn : not_null (getv "event_time" row) = true |- _ => unfold not_null in Hn; by bools end. }
      intros E. apply Hnull. unfold row_key. apply list_elem_of_fmap. exists c. split; [by rewrite E|].
      revert Hc. unfold key_columns. simpl. set_solver. }
  split; [intros row Hr%elem_of_py_sorted; by apply Hrow|].
  assert (StronglySorted (fun a b => order_leb (q_order q) a b = true) (py_sorted (order_leb (q_order q)) (ranked key L))) as Hsort.
  { apply py_sorted_Sorted; [apply order_leb_total|apply order_leb_trans]. }
  assert (NoDup (map (row_key key) (py_sorted (order_leb (q_order q)) (ranked key L)))) as Hnd.
  { rewrite (py_sorted_perm (order_leb (q_order q)) (ranked key L)). apply ranked_keys. }
  assert (forall row, row ∈ py_sorted (order_leb (q_order q)) (ranked key L) -> texts JQUANTS_PAGE_ORDER row /\
    getv "dataset" row = JStr dataset) as Hall by (intros row Hr%elem_of_py_sorted; by apply Hrow).
  clearbody L. clear - Hord Hsort Hnd Hall. revert Hall. induction Hsort as [|x l Hs IH Hx]; intros Hall; [constructor|].
  cbn [map] in Hnd. apply NoDup_cons in Hnd as [Hxn Hnd]. constructor; [apply IH; [done|intros r Hr; apply Hall; by right]|].
  rewrite Forall_forall in *. intros y Hy. destruct (order_leb (q_order q) y x) eqn:E; [|done]. exfalso. apply Hxn.
  apply list_elem_of_fmap. exists y. split; [|done].
  pose proof (order_leb_antisym _ _ _ (Hx y Hy) E) as Heq. rewrite Hord, map_map in Heq. simpl in Heq.
  destruct (Hall x ltac:(by left)) as [Htx Hdx], (Hall y ltac:(by right)) as [Hty Hdy].
  assert (forall c, c ∈ JQUANTS_PAGE_ORDER -> getv c x = getv c y) as Hcell.
  { intros c Hc. specialize (Heq c Hc). destruct (Htx c Hc) as [s Es], (Hty c Hc) as [t Et]. unfold text_at in Heq.
    rewrite Es, Et in *. by subst. }
  unfold row_key. change key with ["source"; "dataset"; "natural_key"]. cbn [map].
  by rewrite (Hcell "source"), (Hcell "natural_key"), Hdx, Hdy by (unfold JQUANTS_PAGE_ORDER; set_solver).
Qed.

(** The call for a page of a size, after a token. *)
Definition call_page (size : option Z) (token : option string) (rq : records_query) : records_query :=
  mkRecords (rq_as_of rq) (rq_dataset rq) (rq_code rq) (rq_from_event rq) (rq_to_event rq) (rq_natural_key rq) size token
    (rq_snapshot_id rq).

(** A client that asks for pages until there is no next token. *)
Fixpoint follow (fuel : nat) (bound : option read_clock) (size : Z) (token : option string) (rq : records_query)
    (db : option pit_database) : result (list frow) :=
  match fuel with
  | O => raise Diverges "fuel"
  | S fuel =>
      page ← get_jquants_records float_repr json_code bound (call_page (Some size) token rq) db;
      match getv "next_page_token" (pr_metadata page) with
      | JStr next => rest ← follow fuel bound size (Some next) rq db; Ok (pr_rows page ++ rest)
      | _ => Ok (pr_rows page)
      end
  end.

Lemma base_shape rq q hashed : records_base json_code rq = Ok (q, hashed) ->
  exists dataset, q_table q = "jquants_records" /\ q_order q = map (fun c => (c, false)) JQUANTS_PAGE_ORDER /\
    (forall row, match q_where q with Some p => p row | None => true end = true -> getv "dataset" row = JStr dataset) /\
    q_keyset q = None /\ q_limit q = None /\
    forall size token, exists hashed', records_base json_code (call_page size token rq) = Ok (q, hashed') /\
      (rq_page_size rq = size -> hashed' = hashed).
Proof.
  unfold records_base. intros H. binds H. injection H as <- <-. exists a0. cbn [q_table q_order q_where q_keyset q_limit].
  split_and!; [done|done| |done|done|].
  - intros row. cbn [joined app forallb]. intros Hp. apply andb_true_iff in Hp as [Hp _]. unfold on_column, cell_eq in Hp.
    destruct (getv "dataset" row); try done. simpl in Hp. bools. by subst.
  - intros size token. cbn [call_page rq_as_of rq_dataset rq_natural_key rq_code rq_from_event rq_to_event rq_snapshot_id rq_page_size].
    rewrite E. cbn [mbind result_bind]. rewrite E0. cbn [mbind result_bind]. rewrite E1. cbn [mbind result_bind]. rewrite E2.
    cbn [mbind result_bind]. rewrite E3. cbn [mbind result_bind]. rewrite E4. cbn [mbind result_bind]. rewrite E5. cbn [mbind result_bind].
    rewrite E6. eexists. split; [reflexivity|]. by intros ->.
Qed.

Section Follow.
Context (bound : option read_clock) (db : pit_database) (rq : records_query) (q : pit_query) (hashed : list (string * json)) (size : Z)
  (all decoded : list frow).
Hypothesis Hbase : records_base json_code (call_page (Some size) None rq) = Ok (q, hashed).
Hypothesis Hsize : 1 <= size <= MAX_PAGE_SIZE.
Hypothesis Hready : connect_readonly (Some db) = Ok db.
Hypothesis Hall : iter_query_rows bound db q = Ok all.
Hypothesis Hdecoded : mapR (decode_row float_repr) all = Ok decoded.
Hypothesis Htexts : forall row, row ∈ all -> texts JQUANTS_PAGE_ORDER row.
Hypothesis Hstrict : StronglySorted (fun a b => order_leb (map (fun c => (c, false)) JQUANTS_PAGE_ORDER) b a = false) all.

(** The token with which the rows after [pre] are asked for. *)
Definition token_after (pre : list frow) (token : option string) : Prop :=
  match last pre with
  | None => token = None
  | Some x => exists t, token = Some t /\
      decode_page_token float_repr t (rq_snapshot_id rq) (page_query_hash hashed) = Ok (map (fun c => text_at c x) JQUANTS_PAGE_ORDER)
  end.

Lemma filter_ext_elem (P Q : frow -> bool) (l : list frow) : (forall x, x ∈ l -> P x = Q x) ->
  filter (fun x => P x = true) l = filter (fun x => Q x = true) l.
Proof.
  induction l as [|x l IH]; intros H; [done|]. rewrite !filter_cons, IH by (intros y Hy; apply H; by right).
  rewrite (H x) by by left. done.
Qed.

Lemma rows_after pre rest keyset : all = pre ++ rest ->
  keyset = match last pre with Some x => Some (JQUANTS_PAGE_ORDER, map (fun c => text_at c x) JQUANTS_PAGE_ORDER) | None => None end ->
  run_query float_repr bound (Some db) (with_page keyset (Some (size + 1)) q) =
  Ok (take (Z.to_nat (size + 1)) (drop (length pre) decoded)).
Proof.
  intros Eall ->. destruct (base_shape _ _ _ Hbase) as (ds & Htab & Hord & _ & Hk & Hl & _).
  unfold run_query. rewrite Hready. cbn [mbind result_bind].
  rewrite (page_of_read bound db q all _ (size + 1) Hk Hl Hall); [|lia|by destruct (last pre)]. cbn [mbind result_bind].
  assert (match (match last pre with
      | Some x => Some (JQUANTS_PAGE_ORDER, map (fun c => text_at c x) JQUANTS_PAGE_ORDER) | None => None end)
    with Some (c, v) => filter (fun row => keyset_after c v row = true) all | None => all end = drop (length pre) all) as ->.
  2:{ by apply mapR_take, mapR_drop. }
  destruct (last pre) as [x|] eqn:Ex.
  - apply last_Some in Ex as (pre' & ->). rewrite <- app_assoc in Eall. simpl in Eall.
    rewrite (filter_ext_elem _ (fun row => negb (order_leb (map (fun c => (c, false)) JQUANTS_PAGE_ORDER) row x))).
    + rewrite Eall at 1. rewrite after_element; [|apply order_leb_total|by rewrite <- Eall].
      rewrite Eall, length_app. simpl. change (x :: rest) with ([x] ++ rest). rewrite app_assoc. symmetry.
      replace (length pre' + 1)%nat with (length (pre' ++ [x])) by (rewrite length_app; done). apply drop_app_length.
    + intros row Hr. apply keyset_order; apply Htexts; [done|]. rewrite Eall. set_solver.
  - apply last_None in Ex as ->. done.
Qed.

Lemma take_longer {A} n m (l : list A) : (n <= m)%nat -> take n (take m l) = take n l.
Proof. intros H. rewrite take_take. by rewrite Nat.min_l. Qed.

Lemma next_token rows as_of table source dataset x v :
  getv "next_page_token" (pr_metadata (make_result rows as_of table source dataset [("page_size", x); ("next_page_token", v)])) = v.
Proof. cbn [make_result pr_metadata]. unfold dict_merge. cbn [fold_left fst snd]. rewrite getv_dict_set. by rewrite bool_decide_eq_true_2. Qed.

Lemma page_after pre rest token : all = pre ++ rest -> token_after pre token ->
  exists page, get_jquants_records float_repr json_code bound (call_page (Some size) token rq) (Some db) = Ok page /\
    pr_rows page = take (Z.to_nat size) (drop (length pre) decoded) /\
    if (Z.to_nat size <? length rest)%nat
    then exists t, getv "next_page_token" (pr_metadata page) = JStr t /\ token_after (pre ++ take (Z.to_nat size) rest) (Some t)
    else getv "next_page_token" (pr_metadata page) = JNull.
Proof.
  intros Eall Htok. destruct (base_shape _ _ _ Hbase) as (ds & Htab & Hord & _ & Hk & Hl & Hpage).
  destruct (Hpage (Some size) token) as (h' & Hb & Eh). specialize (Eh eq_refl). subst h'.
  change (call_page (Some size) token (call_page (Some size) None rq)) with (call_page (Some size) token rq) in Hb.
  unfold get_jquants_records. rewrite Hb. cbn [mbind result_bind call_page rq_page_size rq_page_token rq_snapshot_id].
  replace ((1 <=? size) && (size <=? MAX_PAGE_SIZE)) with true
    by (symmetry; apply andb_true_iff; split; apply Z.leb_le; lia). cbn [ensure mbind result_bind].
  set (keyset := match last pre with Some x => Some (JQUANTS_PAGE_ORDER, map (fun c => text_at c x) JQUANTS_PAGE_ORDER) | None => None end).
  assert (match token with
    | Some token => last_keys ← decode_page_token float_repr token (rq_snapshot_id rq) (page_query_hash hashed); Ok (Some (JQUANTS_PAGE_ORDER, last_keys))
    | None => Ok None end = Ok keyset) as ->.
  { unfold token_after in Htok. unfold keyset. destruct (last pre) as [x|]; [|by subst]. destruct Htok as (t & -> & Ht). by rewrite Ht. }
  cbn [mbind result_bind]. rewrite (rows_after pre rest keyset Eall eq_refl). cbn [mbind result_bind].
  set (D := drop (length pre) decoded).
  assert (length D = length rest) as HD.
  { pose proof (mapR_drop _ (length pre) _ _ Hdecoded) as HR. apply mapR_Ok, Forall2_length in HR.
    rewrite Eall, drop_app_length in HR. unfold D. by rewrite <- HR. }
  rewrite take_longer by lia. set (n := Z.to_nat size).
  assert ((size <? Z.of_nat (length (take (Z.to_nat (size + 1)) D))) = (n <? length rest)%nat) as ->.
  { rewrite length_take, HD. unfold n. destruct (Z.ltb_spec size (Z.of_nat (Z.to_nat (size + 1) `min` length rest))),
      (Nat.ltb_spec (Z.to_nat size) (length rest)); try done; lia. }
  destruct (Nat.ltb_spec n (length rest)) as [Hlt|Hge].
  - (* There is a next page. *)
    assert (exists x, last (take n rest) = Some x /\ x ∈ rest) as (x & Hx & Hxin).
    { destruct (last (take n rest)) as [x|] eqn:E.
      - exists x. split; [done|]. apply last_Some in E as (l & E). assert (x ∈ take n rest) as Hin by (rewrite E; set_solver).
        apply elem_of_take in Hin as (i & Hi & _). by eapply list_elem_of_lookup_2.
      - apply last_None in E. apply (f_equal length) in E. rewrite length_take in E. simpl in E. unfold n in *. lia. }
    destruct (last (take n D)) as [dx|] eqn:Edx.
    2:{ apply last_None in Edx. apply (f_equal length) in Edx. rewrite length_take in Edx. simpl in Edx. unfold n in *. lia. }
    assert (decode_row float_repr x = Ok dx) as Hdx.
    { pose proof (mapR_take _ n _ _ (mapR_drop _ (length pre) _ _ Hdecoded)) as HR. fold D in HR.
      rewrite Eall, drop_app_length in HR. apply mapR_Ok in HR. apply last_Some in Hx as (l & El). apply last_Some in Edx as (ld & Eld).
      rewrite El, Eld in HR. apply Forall2_app_inv in HR as [_ HR]; [by inversion HR|].
      apply Forall2_length in HR. rewrite !length_app in HR. simpl in HR. lia. }
    assert (x ∈ all) as Hxall by (rewrite Eall; set_solver).
    assert (forall c, c ∈ JQUANTS_PAGE_ORDER -> get c dx = Some (JStr (text_at c x))) as Hget.
    { intros c Hc. destruct (Htexts x Hxall c Hc) as [s Es]. rewrite (decode_row_get x dx); [|done|unfold JQUANTS_PAGE_ORDER in Hc; set_solver].
      unfold text_at. rewrite Es. unfold getv in Es. by destruct (get c x); simpl in *; subst. }
    destruct (token_reads_back float_repr (rq_snapshot_id rq) (page_query_hash hashed) dx _ _ _
      (Hget "event_time" ltac:(set_solver)) (Hget "natural_key" ltac:(set_solver)) (Hget "source" ltac:(set_solver))) as (t & Ht & Hback).
    rewrite Ht. cbn [mbind result_bind]. eexists. split; [reflexivity|]. split; [done|]. exists t. split; [apply next_token|].
    unfold token_after. rewrite last_app, Hx. by exists t.
  - eexists. split; [by destruct (last (take n D))|]. split; [done|]. apply next_token.
Qed.

Lemma follow_pages fuel : forall pre rest token, all = pre ++ rest -> token_after pre token -> (length rest < fuel)%nat ->
  follow fuel bound size token rq (Some db) = Ok (drop (length pre) decoded).
Proof.
  induction fuel as [|fuel IH]; intros pre rest token Eall Htok Hf; [lia|]. cbn [follow].
  destruct (page_after pre rest token Eall Htok) as (page & -> & Hrows & Hnext). cbn [mbind result_bind].
  assert (length (drop (length pre) decoded) = length rest) as HD.
  { pose proof (mapR_drop _ (length pre) _ _ Hdecoded) as HR. apply mapR_Ok, Forall2_length in HR.
    rewrite Eall, drop_app_length in HR. by rewrite <- HR. }
  destruct (Nat.ltb_spec (Z.to_nat size) (length rest)) as [Hlt|Hge].
  - destruct Hnext as (t & -> & Htok'). rewrite (IH (pre ++ take (Z.to_nat size) rest) (drop (Z.to_nat size) rest)).
    + cbn [mbind result_bind]. rewrite Hrows, length_app, length_take, Nat.min_l by lia. rewrite <- drop_drop. by rewrite take_drop.
    + by rewrite <- app_assoc, take_drop.
    + done.
    + rewrite length_drop. lia.
  - rewrite Hnext, Hrows. by rewrite take_ge by lia.
Qed.
End Follow.

(** Claim C19. Pages lose and repeat nothing.  A client that asks for pages of any admissible size and
    follows the next token of each until there is none gets, after at most as many calls
    as there are rows and one, exactly the rows of the call without pages, in its order. *)
Theorem pages_cover bound db rq size whole : facts_ok affinity (pd_facts db) -> history_keyed (pd_facts db) ->
  1 <= size <= MAX_PAGE_SIZE ->
  get_jquants_records float_repr json_code bound (call_page None None rq) (Some db) = Ok whole ->
  follow (S (length (pr_rows whole))) bound size None rq (Some db) = Ok (pr_rows whole).
Proof.
  intros Hf Hh Hsize H. unfold get_jquants_records in H. apply bind_Ok in H as ([q hashed] & Hb & H).
  cbn [call_page rq_page_size rq_page_token present negb ensure mbind result_bind] in H.
  apply bind_Ok in H as (rows & Hrun & H). injection H as <-. cbn [make_result pr_rows].
  destruct (base_shape _ _ _ Hb) as (ds & Htab & Hord & Hw & Hk & Hl & Hpage).
  destruct (Hpage (Some size) None) as (h & Hb' & _).
  unfold run_query in Hrun. apply bind_Ok in Hrun as (db' & Hready & Hrun).
  assert (db' = db) as -> by (unfold connect_readonly in Hready; simpl in Hready; binds Hready; by injection Hready).
  apply bind_Ok in Hrun as (all & Hall & Hdec).
  destruct (records_sorted bound db q ds all Hf Hh Htab Hord Hw Hk Hl Hall) as [Htx Hst]. rewrite Hord in Hst.
  change (call_page (Some size) None (call_page None None rq)) with (call_page (Some size) None rq) in Hb'.
  rewrite (follow_pages bound db rq q h size all rows Hb' Hsize Hready Hall Hdec Htx Hst _ [] all None eq_refl eq_refl); [done|].
  apply mapR_Ok, Forall2_length in Hdec. lia.
Qed.
End Pages.

(** ** Examples *)

(** A snapshot of a store, with an observation cut-off. *)
Definition sample_db (f : facts) : pit_database :=
  mkPit f ∅ (Some (mkClockObject true [JStr "2025-04-10T00:00:00+09:00"])) None.

Definition sample_query : pit_query :=
  mkQuery "2025-04-05T00:00:00+09:00" "jquants_listed_info" None None [("code", false); ("snapshot_date", false)] None None.

Definition sample_read : list frow := Eval vm_compute in
  ok_or [] (iter_query_rows None (sample_db (view sample_store)) sample_query).

Lemma sample_read_run : iter_query_rows None (sample_db (view sample_store)) sample_query = Ok sample_read.
Proof. vm_compute. reflexivity. Qed.

Lemma sample_as_of : exists t, canonical_time t "2025-04-05T00:00:00+09:00".
Proof. apply (normalize_canonical (AsText "2025-04-05")); [done|by vm_compute]. Qed.

Lemma reads_newest_visible_witness : sample_read <> [] /\
  exists clock, rc_observed_through clock = "2025-04-10T00:00:00+09:00" /\
    forall row, row ∈ sample_read -> visible sample_query clock row = true.
Proof.
  split; [done|].
  destruct (reads_newest_visible sqlite_affinity None (sample_db (view sample_store)) sample_query sample_read
    (everywhere_view _ _ sample_store_ok) eq_refl eq_refl sample_read_run) as (clock & Hc & _ & _ & H & _).
  exists clock. split; [vm_compute in Hc; injection Hc as <-; done|]. intros row Hr. destruct (H row Hr) as (n & _ & Hv & _). exact Hv.
Defined.

(** The amendment claims to be available from April 2 and was fetched on April 9. *)
Definition amended_run := upsert sqlite_affinity id "jquants_listed_info" sample_amendment true sample_now sample_store.

Lemma sample_late t : canonical_time t "2025-04-05T00:00:00+09:00" ->
  forall key r, (key, r) ∈ zip [sample_key] sample_amendment ->
  late id "jquants_listed_info" (view sample_store) (batch_columns sample_amendment) t "2025-04-05T00:00:00+09:00" key r.
Proof.
  intros Ht key r [E|?%elem_of_nil]%elem_of_cons; [|done]. injection E as -> ->. unfold late.
  destruct (row_at "jquants_listed_info" sample_key (view sample_store)) as [ex|] eqn:Eex; [|vm_compute in Eex; done].
  assert (ex = default [] (row_at "jquants_listed_info" sample_key (view sample_store))) as -> by by rewrite Eex.
  assert (revisions "jquants_listed_info" (view sample_store) = []) as Hr by (vm_compute; reflexivity).
  split; [vm_compute; done|]. split; [|by rewrite Hr; intros rev ?%elem_of_nil].
  apply parse_dt_canonical in Ht. vm_compute in Ht. injection Ht as <-. eexists _, _. split; [reflexivity|].
  split; [vm_compute; reflexivity|]. vm_compute. reflexivity.
Qed.


Definition sample_instant : datetime := Eval vm_compute in ok_or 0 (parse_dt "2025-04-10T00:00:00+09:00").

Lemma published_clock_reads_back_witness :
  snapshot_observed_through (Some (sample_db (empty_facts None))) None (sample_instant + 1) = Ok "2025-04-10T00:00:00+09:00".
Proof.
  apply (published_clock_reads_back "2025-04-10T00:00:00+09:00" sample_instant (mkPit (empty_facts None) ∅ None None)
    (sample_db (empty_facts None)) "2025-04-10T00:00:00+09:00" (sample_instant + 1) (AsText "2025-04-05") "2025-04-05T00:00:00+09:00").
  - vm_compute. reflexivity.
  - lia.
  - vm_compute. reflexivity.
  - reflexivity.
Defined.


(** Three records, a page of two. *)
Definition timed_record (nk event payload : string) : frow :=
  [("source", JStr "jquants"); ("dataset", JStr "fins_dividend"); ("natural_key", JStr nk); ("event_time", JStr event);
   ("available_at", JStr "2025-04-02T09:00:00+09:00"); ("ingested_at", JStr "2025-04-02T09:05:00+09:00");
   ("payload", JStr payload)].

Definition sample_records : list frow :=
  [timed_record "k2" "2025-04-01T09:00:00+09:00" "{}"; timed_record "k1" "2025-04-01T09:00:00+09:00" "[1]";
   timed_record "k0" "2025-04-01T10:00:00+09:00" "none"].

Definition records_run := upsert sqlite_affinity id "jquants_records" sample_records true sample_now (mkConnection (empty_facts None) None).
Definition records_store : connection_to facts := Eval vm_compute in records_run.1.

Lemma records_store_ok : everywhere (facts_ok sqlite_affinity) records_store.
Proof.
  assert (records_run.1 = records_store) as <- by (vm_compute; reflexivity).
  apply preserves_upsert; [apply _|]. split; [apply facts_ok_empty|done].
Qed.

Definition records_call : records_query :=
  mkRecords (AsText "2025-04-05") (Some "fins_dividend") None None None None None None None.

Definition records_whole : pit_result := Eval vm_compute in
  ok_or (mkResult [] []) (get_jquants_records id (fun _ => None) None records_call (Some (sample_db (view records_store)))).

Lemma pages_cover_witness : length (pr_rows records_whole) = 3%nat /\
  follow id (fun _ => None) 4 None 2 None records_call (Some (sample_db (view records_store))) = Ok (pr_rows records_whole).
Proof.
  split; [done|].
  apply (pages_cover sqlite_affinity id (fun _ => None) None (sample_db (view records_store)) records_call 2 records_whole).
  - apply everywhere_view, records_store_ok.
  - intros rev H. vm_compute in H. by apply elem_of_nil in H.
  - split; vm_compute; discriminate.
  - vm_compute. reflexivity.
Defined.

(** Conditions on columns an amendment changes are applied before the versions are ranked.
    The event of a record is moved from April 1 to April 3; a read up to April 2 returns
    the displaced version, though the newest one that is visible is not in its range. *)
Definition moved_run := upsert sqlite_affinity id "jquants_records"
  [dict_set "ingested_at" (JStr "2025-04-03T09:05:00+09:00")
     (dict_set "event_time" (JStr "2025-04-03T09:00:00+09:00") (timed_record "k1" "" "[2]"))] true sample_now records_store.

Definition until_april_2 : records_query :=
  mkRecords (AsText "2025-04-05") (Some "fins_dividend") None None (Some "2025-04-02") None None None None.

Theorem condition_selects_displaced_version :
  (r ← get_jquants_records id (fun _ => None) None records_call (Some (sample_db (view moved_run.1)));
   Ok (map (fun row => (getv "natural_key" row, getv "event_time" row)) (pr_rows r)))
  = Ok [(JStr "k2", JStr "2025-04-01T09:00:00+09:00"); (JStr "k0", JStr "2025-04-01T10:00:00+09:00");
        (JStr "k1", JStr "2025-04-03T09:00:00+09:00")] /\
  (r ← get_jquants_records id (fun _ => None) None until_april_2 (Some (sample_db (view moved_run.1)));
   Ok (map (fun row => (getv "natural_key" row, getv "event_time" row)) (pr_rows r)))
  = Ok [(JStr "k1", JStr "2025-04-01T09:00:00+09:00"); (JStr "k2", JStr "2025-04-01T09:00:00+09:00");
        (JStr "k0", JStr "2025-04-01T10:00:00+09:00")].
Proof. vm_compute. split; reflexivity. Qed.
