(* ===== verification/CoverageProof.v ===== *)
(** * CoverageProof: proofs of coverage for publications
    (packages/data_plane/storage/coverage_proof.py)

    A proof is a document that says which inventory was required at the cut-off of a
    build and which signed receipts cover it.  It is computed from the ledger,
    persisted under the digest of its record, one for each build, and reopened only
    by computing it again: what is stored is compared with what the ledgers say now.
    Texts and digests are the canonical ones; the clock is an argument. *)

From S2P Require Import Prelude PyDate PyTime Json JsonText SourceCapability CoverageContract CoveragePlan ReceiptCrypto Receipt CoverageEval Transaction LedgerStore Inventory LedgerRefresh Publication.

Local Open Scope Z_scope.

Definition LOCAL_COVERAGE_PROOF_FORMAT : string := "local-coverage-proof/v2".
Definition COVERAGE_PROOF_FORMAT : string := "coverage-proof/v2".
Definition COVERAGE_INVENTORY_FORMAT : string := "coverage-required-inventory/v1".

Abbreviation unproven := CoverageProofVerificationError (only parsing).

(** [except (CoverageProofVerificationError, sqlite3.Error, ValueError, TypeError)] *)
Definition PROOF_ERRORS : list exn_class := [unproven; ValueError; ReceiptVerificationError; TypeError].

Record VerifiedCoverageProof := mkVerifiedProof {
  vp_proof_id : string;
  vp_proof_json : string;
  vp_required_datasets : list string;
  vp_build_id : string;
  vp_publication_cutoff : string;
  vp_source_generation : Z;
  vp_applied_generation : Z;
}.

Definition canonical_required (required : list string) : result (list string) :=
  _ ← ensure (negb (empty_list required) && forallb (fun d => negb (d =s "")) required) unproven
        "Coverage proof membership must contain non-empty dataset ids";
  _ ← ensure (bool_decide (required = sorted_set required)) unproven
        "Coverage proof membership must be exact, sorted, and duplicate-free";
  Ok required.

(** [SELECT * FROM dataset_coverage WHERE dataset IN (...) ORDER BY dataset] *)
Definition coverage_rows_for (t : tables) (required : list string) : list coverage_row :=
  py_sorted (fun a b => String.leb (dc_dataset a) (dc_dataset b))
    (filter (fun r => dc_dataset r ∈ required) (dataset_coverage t)).

Section Proof.
Variable capabilities : registry.
Variable contracts : coverage_registry.
Variable sha256_hex : string -> string.
Variable float_repr : string -> string.
Variable date_matches : string -> list (Z * Z * Z).
Variable table_rows : string -> list string.
Variable visible_text : string -> string.
Variable verify : CollectionReceipt -> result VerifiedCollectionClosure.
Variable fs : filesystem.

Abbreviation verify_exact := (verify_exact_coverage_complete capabilities contracts sha256_hex float_repr
  date_matches table_rows visible_text verify).
Abbreviation binding_of := (coverage_policy_binding contracts sha256_hex).

Definition canonical_digest (value : json) : result string :=
  text ← canonical_json value; Ok ("sha256:" +:+ sha256_hex text).

Definition is_governed (dataset : string) : result bool :=
  policy ← coverage_contract_for contracts dataset; Ok (governance_tier policy =s "governed").

(** [by_dataset[dataset]]: of rows of one dataset the last. *)
Definition row_of (dataset : string) (rows : list coverage_row) : option coverage_row :=
  last (filter (fun r => dc_dataset r = dataset) rows).

(** Whether the aggregate of a dataset is not a current COMPLETE. *)
Definition invalid_aggregate (rows : list coverage_row) (dataset : string) : result bool :=
  match row_of dataset rows with
  | None => Ok true
  | Some r => b ← binding_of dataset; Ok (negb (dc_policy_version r =s pb_policy_version b) || negb (dc_status r =s "COMPLETE"))
  end.

Definition dataset_summary (inventory : ExactCoverageInventoryComparison) (dataset : string) : result json :=
  let segments := segments_for inventory dataset in
  binding ← binding_of dataset;
  identities ← mapR (fun i => d ← identity_to_dict float_repr i; Ok (JDict d))
                 (filter (fun i => id_dataset i = dataset) (expected_identities inventory));
  digest ← canonical_digest (JList identities);
  match segments, last segments with
  | first :: _, Some last_ =>
      Ok (JDict [("dataset", JStr dataset); ("policy_id", JStr (pb_policy_id binding));
                 ("policy_version", JStr (pb_policy_version binding)); ("policy_digest", JStr (pb_policy_digest binding));
                 ("required_segments", JInt (Z.of_nat (length segments)));
                 ("complete_segments", JInt (Z.of_nat (length segments))); ("inventory_digest", JStr digest);
                 ("first_segment", JStr (seg_id first)); ("last_segment", JStr (seg_id last_))])
  | _, _ => raise IndexError "list index out of range"
  end.

Definition proof_document (policy_set : policy_set_binding) (publication_cutoff inventory_set_digest : string)
    (governed segments : Z) (proof_digest : string) (datasets : list json) : dict :=
  [("format", JStr COVERAGE_PROOF_FORMAT); ("status", JStr "COMPLETE");
   ("policy_version", JStr (ps_policy_version policy_set)); ("policy_digest", JStr (ps_policy_digest policy_set));
   ("inventory_format", JStr COVERAGE_INVENTORY_FORMAT); ("inventory_cutoff", JStr publication_cutoff);
   ("inventory_set_digest", JStr inventory_set_digest); ("dataset_count", JInt governed);
   ("segment_count", JInt segments); ("receipt_count", JInt segments); ("proof_digest", JStr proof_digest);
   ("datasets", JList datasets)].

Definition coverage_proof (t : tables) (required : list string) (coverage_rows : list coverage_row)
    (publication_cutoff : string) : result dict :=
  governed ← filterR is_governed required;
  verification ← on_error [CoverageInventoryAuthorityUnavailable] unproven "exact inventory authority is unavailable"
                   (verify_exact t governed publication_cutoff);
  _ ← ensure (exact (inventory verification)) unproven "governed Coverage exact inventory rejected";
  _ ← ensure (complete_eligible verification) unproven "governed Coverage segment proof rejected";
  identities ← mapR (fun i => d ← identity_to_dict float_repr i; Ok (JDict d))
                 (expected_identities (inventory verification));
  invalid_ledger ← filterR (invalid_aggregate coverage_rows) governed;
  _ ← ensure (empty_list invalid_ledger) unproven "governed Coverage aggregate proof incomplete";
  proof_entries ← mapR (fun c => d ← to_proof_dict c; Ok (JDict d)) (closures verification);
  datasets ← mapR (dataset_summary (inventory verification)) governed;
  policy_set ← coverage_policy_set_binding contracts sha256_hex governed;
  inventory_set_digest ← canonical_digest (JList identities);
  proof_digest ← canonical_digest (JDict [("inventory_set_digest", JStr inventory_set_digest);
                                          ("receipts", JList proof_entries)]);
  Ok (proof_document policy_set publication_cutoff inventory_set_digest (Z.of_nat (length governed))
        (Z.of_nat (length proof_entries)) proof_digest datasets).

Definition proof_record_body (required : list string) (proof : dict) (build_id publication_cutoff : string)
    (source_generation applied_generation : Z) : json :=
  JDict [("format", JStr LOCAL_COVERAGE_PROOF_FORMAT); ("build_id", JStr build_id);
         ("publication_cutoff", JStr publication_cutoff); ("required_datasets", JList (map JStr required));
         ("coverage_proof", JDict proof); ("coverage_policy_version", getv "policy_version" proof);
         ("coverage_policy_digest", getv "policy_digest" proof);
         ("inventory_set_digest", getv "inventory_set_digest" proof);
         ("source_generation", JInt source_generation); ("applied_generation", JInt applied_generation)].

(** ** Persisting *)

(** [INSERT OR IGNORE]: a row that violates a constraint is left out. *)
Definition insert_proof (row : proof_row) (db : database) : result (database * unit) :=
  Ok (if proof_check row && negb (pf_proof_id row ∈? map pf_proof_id (db_proofs db))
         && negb (pf_build_id row ∈? map pf_build_id (db_proofs db))
      then with_proofs (db_proofs db ++ [row]) db else db, tt).

Definition proof_by_id (proof_id : string) (db : database) : option proof_row :=
  head (filter (fun r => pf_proof_id r = proof_id) (db_proofs db)).

(** The columns that are compared. *)
Definition proof_columns (r : proof_row) : string * string * string * string * string * string * string * string * Z * Z :=
  (pf_format r, pf_build_id r, pf_publication_cutoff r, pf_required_datasets_json r, pf_coverage_proof_json r,
   pf_coverage_policy_version r, pf_coverage_policy_digest r, pf_inventory_set_digest r, pf_source_generation r,
   pf_applied_generation r).

(** The row a proof is persisted as. *)
Definition proof_record (db : database) (main_path : string) (required : list string) (id persisted_at : string)
    : result proof_row :=
  cutoff ← publication_cutoff_for_build fs float_repr db main_path (JStr id) JNull;
  proof ← on_error PROOF_ERRORS unproven "Coverage proof cannot be persisted"
            (coverage_proof (db_ledger db) required (coverage_rows_for (db_ledger db) required) cutoff);
  '(source_generation, applied_generation) ← current_generations db;
  proof_id ← canonical_digest (proof_record_body required proof id cutoff source_generation applied_generation);
  required_json ← canonical_json (JList (map JStr required));
  proof_json ← canonical_json (JDict proof);
  Ok (mkProofRow proof_id LOCAL_COVERAGE_PROOF_FORMAT id cutoff required_json proof_json
        (py_str (getv "policy_version" proof)) (py_str (getv "policy_digest" proof))
        (py_str (getv "inventory_set_digest" proof)) source_generation applied_generation persisted_at).

Definition persist_coverage_proof_in_transaction (main_path : string) (required_datasets : list string)
    (build_id : json) (persisted_at : string) : session string :=
  required ← lift (canonical_required required_datasets);
  id ← lift (build_id_of unproven "Coverage proof requires a publisher-owned build id" build_id);
  db ← select (fun db => db);
  row ← lift (proof_record db main_path required id persisted_at);
  _ ← statement (insert_proof row);
  stored ← select (proof_by_id (pf_proof_id row));
  _ ← lift (ensure (bool_decide (proof_columns <$> stored = Some (proof_columns row))) unproven
        "Coverage proof id collides with a different persisted record");
  mret (pf_proof_id row).

Definition persist_coverage_proof (main_path : string) (required_datasets : list string) (build_id : json)
    (persisted_at : string) : session string :=
  owning (persist_coverage_proof_in_transaction main_path required_datasets build_id persisted_at).

(** ** Reopening *)

(** The parts of a stored record that are decoded. *)
Definition stored_documents (row : proof_row) : result (json * json) :=
  on_error [ValueError; TypeError] unproven "Persisted Coverage proof record is malformed"
    (required ← json_loads float_repr (pf_required_datasets_json row);
     proof ← json_loads float_repr (pf_coverage_proof_json row);
     Ok (required, proof)).

(** The record says what it should of the stored proof. *)
Definition record_binds (row : proof_row) (proof : dict) : bool :=
  bool_decide (getv "policy_version" proof = JStr (pf_coverage_policy_version row))
  && bool_decide (getv "policy_digest" proof = JStr (pf_coverage_policy_digest row))
  && bool_decide (getv "inventory_set_digest" proof = JStr (pf_inventory_set_digest row))
  && bool_decide (getv "inventory_cutoff" proof = JStr (pf_publication_cutoff row)).

Definition require_persisted_coverage_proof_in_snapshot (db : database) (main_path : string)
    (required_datasets : list string) (proof_id build_id : json) : result VerifiedCoverageProof :=
  required ← canonical_required required_datasets;
  pid ← (match proof_id with
         | JStr pid => if is_sha256 proof_id then Ok pid else raise unproven "Coverage proof id is invalid"
         | _ => raise unproven "Coverage proof id is invalid"
         end);
  id ← build_id_of unproven "Coverage proof requires its publisher-owned build id" build_id;
  row ← of_option unproven "Coverage proof id is unknown" (proof_by_id pid db);
  '(stored_required, stored_proof) ← stored_documents row;
  let unbound := "Persisted Coverage proof record binding is invalid" in
  _ ← ensure ((pf_format row =s LOCAL_COVERAGE_PROOF_FORMAT) && (pf_build_id row =s id)) unproven unbound;
  cutoff ← publication_cutoff_for_build fs float_repr db main_path build_id proof_id;
  _ ← ensure ((pf_publication_cutoff row =s cutoff) && bool_decide (stored_required = JList (map JStr required)))
        unproven unbound;
  _ ← (match stored_proof with
       | JDict stored => ensure (record_binds row stored) unproven unbound
       | _ => raise unproven unbound
       end);
  recomputed ← on_error PROOF_ERRORS unproven "Persisted Coverage proof cannot be reproduced"
                 (coverage_proof (db_ledger db) required (coverage_rows_for (db_ledger db) required)
                    (pf_publication_cutoff row));
  _ ← ensure (py_eq (JDict recomputed) stored_proof) unproven
        "Persisted Coverage proof does not match the current ledgers";
  '(current_source, current_applied) ← current_generations db;
  _ ← ensure ((pf_source_generation row =? current_source) && (pf_applied_generation row =? current_applied)) unproven
        "Persisted Coverage proof generation is stale";
  digest ← canonical_digest (proof_record_body required recomputed (pf_build_id row) (pf_publication_cutoff row)
             current_source current_applied);
  _ ← ensure (digest =s pid) unproven "Persisted Coverage proof content address is invalid";
  proof_json ← canonical_json (JDict recomputed);
  Ok (mkVerifiedProof pid proof_json required (pf_build_id row) (pf_publication_cutoff row) current_source
        current_applied).

(** In a read transaction of its own, which is rolled back. *)
Definition require_persisted_coverage_proof (main_path : string) (required_datasets : list string)
    (proof_id build_id : json) : session VerifiedCoverageProof := fun c =>
  let result_on c := (c, require_persisted_coverage_proof_in_snapshot (view c) main_path required_datasets proof_id build_id) in
  if in_transaction c then result_on c
  else let r := result_on (begin_ c) in (rollback r.1, r.2).

(** ** The manifest of an artifact *)

Definition string_items (value : json) : option (list string) :=
  match value with
  | JList l => mapM (fun v => match v with JStr s => Some s | _ => None end) l
  | _ => None
  end.

(** What iterating over a value gives, when its elements can be hashed. *)
Definition hashable_items (value : json) : result (list json) :=
  match value with
  | JList l =>
      _ ← ensure (forallb (fun v => match v with JList _ | JDict _ => false | _ => true end) l) TypeError "unhashable type";
      Ok l
  | JStr s => Ok (map (fun c => JStr (String c "")) (String.list_ascii_of_string s))
  | JDict d => Ok (map (fun k => JStr k) (keys d))
  | _ => raise TypeError "object is not iterable"
  end.

(** A snapshot narrower than the governed datasets needs a manifest of its profile. *)
Definition profile_bound (manifest : dict) (required : list string) : result bool :=
  match getv "ready_manifest" manifest with
  | JDict profile =>
      if bool_decide (getv "format" profile = JStr "ready-manifest/v1")
         && py_eq (getv "snapshot_id" profile) (getv "snapshot_id" manifest)
         && py_eq (getv "published_at" profile) (getv "committed_at" manifest)
      then
        items ← hashable_items (or_ (getv "dataset_ids" profile) (JList []));
        Ok (forallb (fun v => v ∈? map JStr required) items && forallb (fun d => JStr d ∈? items) required
            && (length items =? length required)%nat)
      else Ok false
  | _ => Ok false
  end.

Definition governed_datasets : list string :=
  map fst (filter (fun p : string * CollectionCoverageContract => governance_tier p.2 = "governed") contracts).

Definition verify_coverage_manifest (main_path : string) (manifest : dict) : session unit :=
  required ← lift (of_option RuntimeError "READY snapshot required datasets are malformed"
                     (string_items (getv "required_datasets" manifest)));
  _ ← lift (ensure (bool_decide (required = sorted_set required)) RuntimeError
        "READY snapshot required datasets are not exact sorted membership");
  _ ← lift (ensure (forallb (fun d => d ∈? map fst contracts) required) RuntimeError
        "READY snapshot includes unknown Coverage datasets");
  bound ← lift (if forallb (fun d => d ∈? required) governed_datasets then Ok true else profile_bound manifest required);
  _ ← lift (ensure bound RuntimeError "READY snapshot omits governed Coverage datasets");
  capability ← (fun c => let r := require_persisted_coverage_proof main_path required
                           (getv "coverage_proof_id" manifest) (getv "build_id" manifest) c in
                         (r.1, on_error [unproven] RuntimeError "READY Coverage proof is invalid" r.2) : _ * result VerifiedCoverageProof);
  computed ← lift (json_loads float_repr (vp_proof_json capability));
  match computed with
  | JDict proof =>
      _ ← lift (ensure (py_eq (getv "coverage_policy_version" manifest) (getv "policy_version" proof)) RuntimeError
            "READY Coverage policy-set version mismatch");
      _ ← lift (ensure (py_eq (getv "coverage_policy_digest" manifest) (getv "policy_digest" proof)) RuntimeError
            "READY Coverage policy-set digest mismatch");
      lift (ensure (py_eq (getv "coverage_proof" manifest) computed) RuntimeError
            "READY Coverage manifest proof mismatch")
  | _ => lift (raise TypeError "indices must be integers")
  end.
End Proof.

(** ** Documents and their texts *)

Lemma canonical_json_Ok j text : canonical_json j = Ok text -> text = canonical_dumps j.
Proof. unfold canonical_json. intros H. by apply bind_Ok in H as (? & _ & [= <-]). Qed.

Lemma plain_finite j : plain j = true -> finite j = true.
Proof.
  induction j as [| | | | |l IH|d IH] using json_ind'; simpl; intros H; try done.
  - rewrite forallb_forall in *. intros x Hx. rewrite Forall_forall in IH. apply IH; [by apply list_elem_of_In|by apply H].
  - bools. rewrite forallb_forall in *. intros x Hx. rewrite Forall_forall in IH. apply IH; [by apply list_elem_of_In|auto].
Qed.

Lemma canonical_json_plain j : plain j = true -> canonical_json j = Ok (canonical_dumps j).
Proof. intros H. unfold canonical_json. by rewrite plain_finite. Qed.

Lemma get_elem k v d : NoDup (keys d) -> (k, v) ∈ d -> get k d = Some v.
Proof. intros Hn H. rewrite get_lookup. by apply lookup_str_elem. Qed.

(** The member of an object in canonical order. *)
Lemma getv_canon k d : NoDup (keys d) ->
  getv k (map (fun p => (p.1, canon p.2)) (py_sorted key_leb d)) = canon (getv k d).
Proof.
  intros Hn. unfold getv. destruct (get k d) as [v|] eqn:E; simpl.
  - rewrite (get_elem k (canon v)); [done| |].
    + unfold keys. rewrite map_map. simpl. fold (keys (py_sorted key_leb d)). unfold keys. by rewrite py_sorted_perm.
    + apply list_elem_of_fmap. exists (k, v). split; [done|]. apply elem_of_py_sorted.
      rewrite get_lookup in E. by apply lookup_str_elem.
  - match goal with |- context [get k ?m] => destruct (get k m) as [v|] eqn:E' end; [|done]. exfalso.
    rewrite get_lookup in E'. apply lookup_str_elem in E'.
    + apply list_elem_of_fmap in E' as ((k' & v') & [= -> ->] & Hin%elem_of_py_sorted).
      by rewrite (get_elem _ _ _ Hn Hin) in E.
    + rewrite map_map. simpl. change (NoDup (map fst (py_sorted key_leb d))). by rewrite py_sorted_perm.
Qed.

(** A value equals its canonical form, as Python compares them. *)
Lemma py_eq_canon j : plain j = true -> py_eq j (canon j) = true.
Proof.
  induction j as [|b|n|r|s|l IH|d IH] using json_ind'; intros H; simpl in H; try done.
  - by destruct b.
  - simpl. apply Z.eqb_refl.
  - simpl. by apply bool_decide_eq_true.
  - simpl. revert H. induction IH as [|x l Hx _ IHl]; [done|]. simpl. intros H. bools. rewrite Hx by done. by apply IHl.
  - rewrite canon_dict. bools. set (e := map _ _). simpl.
    assert (Hlen : (length d =? length e)%nat = true).
    { apply Nat.eqb_eq. unfold e. rewrite length_map. by rewrite py_sorted_perm. }
    rewrite Hlen. simpl. assert (Hget : forall k v, (k, v) ∈ d -> get k e = Some (canon v)).
    { intros k v Hin. apply get_elem.
      - unfold keys, e. rewrite map_map. simpl. change (NoDup (map fst (py_sorted key_leb d))). by rewrite py_sorted_perm.
      - apply list_elem_of_fmap. exists (k, v). split; [done|]. by apply elem_of_py_sorted. }
    clearbody e. clear Hlen. match goal with H : forallb _ d = true |- _ => revert H end.
    assert (Hin : forall p, p ∈ d -> p ∈ d) by done. revert Hin. generalize d at 1 3 4 as d'. intros d'.
    induction d' as [|[k v] d' IHd]; [done|]. intros Hin Hp. simpl in Hp. bools.
    rewrite (Hget k v) by (apply Hin; by left). rewrite Forall_forall in IH.
    assert (py_eq v (canon v) = true) as -> by (apply (IH (k, v)); [apply Hin; by left|done]). simpl. apply IHd; [|done].
    intros p Hp'. apply Hin. by right.
Qed.

Lemma plain_strings l : plain (JList (map JStr l)) = true.
Proof. simpl. apply forallb_forall. by intros ? (? & <- & _)%in_map_iff. Qed.

Lemma canon_strings l : canon (JList (map JStr l)) = JList (map JStr l).
Proof. simpl. by rewrite map_map. Qed.

(** ** What a proof shows *)

Section ProofFacts.
Context (capabilities : registry) (contracts : coverage_registry) (sha256_hex float_repr : string -> string)
  (date_matches : string -> list (Z * Z * Z)) (table_rows : string -> list string) (visible_text : string -> string)
  (verify : CollectionReceipt -> result VerifiedCollectionClosure) (fs : filesystem).

Abbreviation verify_exact := (verify_exact_coverage_complete capabilities contracts sha256_hex float_repr
  date_matches table_rows visible_text verify).
Abbreviation proof_of := (coverage_proof capabilities contracts sha256_hex float_repr date_matches table_rows
  visible_text verify).
Abbreviation persist_in := (persist_coverage_proof_in_transaction capabilities contracts sha256_hex float_repr
  date_matches table_rows visible_text verify fs).
Abbreviation persist := (persist_coverage_proof capabilities contracts sha256_hex float_repr date_matches table_rows
  visible_text verify fs).
Abbreviation record_of := (proof_record capabilities contracts sha256_hex float_repr date_matches table_rows
  visible_text verify fs).
Abbreviation reopen := (require_persisted_coverage_proof_in_snapshot capabilities contracts sha256_hex float_repr
  date_matches table_rows visible_text verify fs).
Abbreviation require := (require_persisted_coverage_proof capabilities contracts sha256_hex float_repr
  date_matches table_rows visible_text verify fs).
Abbreviation cutoff_of := (publication_cutoff_for_build fs float_repr).

(** A dataset is governed and its aggregate is COMPLETE under the policy in force. *)
Definition proven (rows : list coverage_row) (dataset : string) : Prop :=
  exists row b, row_of dataset rows = Some row /\ coverage_policy_binding contracts sha256_hex dataset = Ok b /\
    dc_policy_version row = pb_policy_version b /\ dc_status row = "COMPLETE".

Lemma coverage_proof_Ok t required rows cutoff p : proof_of t required rows cutoff = Ok p ->
  exists governed v, filterR (is_governed contracts) required = Ok governed /\ verify_exact t governed cutoff = Ok v /\
    complete_eligible v = true /\ Forall (proven rows) governed /\
    getv "status" p = JStr "COMPLETE" /\ getv "inventory_cutoff" p = JStr cutoff /\ plain (JDict p) = true /\
    (exists s, getv "policy_version" p = JStr s) /\ (exists s, getv "policy_digest" p = JStr s) /\
    (exists s, getv "inventory_set_digest" p = JStr s).
Proof.
  unfold coverage_proof. intros H. apply bind_Ok in H as (governed & Hg & H). apply bind_Ok in H as (v & Hv%on_error_Ok & H).
  apply bind_Ok in H as ([] & _ & H). apply bind_Ok in H as ([] & He%ensure_Ok & H).
  apply bind_Ok in H as (identities & _ & H). apply bind_Ok in H as (invalid & Hi & H).
  apply bind_Ok in H as ([] & Hnone%ensure_Ok & H). apply bind_Ok in H as (entries & _ & H).
  apply bind_Ok in H as (datasets & Hds & H). apply bind_Ok in H as (policy_set & _ & H).
  apply bind_Ok in H as (set_digest & _ & H). apply bind_Ok in H as (proof_digest & _ & [= <-]).
  exists governed, v. split; [done|]. split; [done|]. split; [done|]. split.
  { apply Forall_forall. intros d Hd. pose proof (filterR_elem _ _ _ Hi) as Hin. destruct (filterR_total _ _ _ Hi d Hd) as [b Hb].
    destruct b; [exfalso; by destruct invalid; [apply (elem_of_nil d), Hin|]|].
    unfold invalid_aggregate in Hb. destruct (row_of d rows) as [row|] eqn:Er; [|done].
    apply bind_Ok in Hb as (bind & Hbind & Hb). injection Hb as Hb. bools. by exists row, bind. }
  split; [done|]. split; [done|]. split; [|split_and!; eexists; reflexivity].
  assert (Hd : forallb plain datasets = true).
  { apply forallb_forall. intros j Hj%list_elem_of_In. destruct (mapR_elem _ _ _ _ Hds Hj) as (d & _ & Hs).
    unfold dataset_summary in Hs. apply bind_Ok in Hs as (b & _ & Hs). apply bind_Ok in Hs as (ids & _ & Hs).
    apply bind_Ok in Hs as (dg & _ & Hs). destruct (segments_for _ _) as [|first l]; [done|].
    destruct (last (first :: l)); [|done]. by injection Hs as <-. }
  unfold proof_document. cbn [plain map fst forallb snd]. rewrite Hd. done.
Qed.
(** ** Persisting and reopening *)

(** What the schema guarantees of the proofs. *)
Record proofs_ok (db : database) : Prop := mkProofsOk {
  po_ids : NoDup (map pf_proof_id (db_proofs db));
  po_builds : NoDup (map pf_build_id (db_proofs db));
  po_check : Forall (fun r => proof_check r = true) (db_proofs db);
}.

Lemma insert_proof_ok row db db' u : proofs_ok db -> insert_proof row db = Ok (db', u) -> proofs_ok db'.
Proof.
  intros [] [= <- _]. destruct (_ && _ && _) eqn:E; [|done]. bools. split; simpl; rewrite ?map_app.
  - apply NoDup_app. split; [done|]. split; [|by apply NoDup_singleton]. by intros k Hk ->%list_elem_of_singleton.
  - apply NoDup_app. split; [done|]. split; [|by apply NoDup_singleton]. by intros k Hk ->%list_elem_of_singleton.
  - apply Forall_app. split; [done|by constructor].
Qed.

(** Inserting a proof changes nothing else, and no proof that is there. *)
Lemma insert_proof_only row db db' u : insert_proof row db = Ok (db', u) -> exists rows, db' = with_proofs rows db /\
  (rows = db_proofs db \/ rows = db_proofs db ++ [row]).
Proof. intros [= <- _]. destruct (_ && _ && _).
  - exists (db_proofs db ++ [row]). split; [done|by right].
  - exists (db_proofs db). split; [by destruct db|by left].
Qed.

#[export] Instance uncommitted_persist_proof main required build now : Uncommitted (persist_in main required build now).
Proof.
  unfold persist_coverage_proof_in_transaction. repeat (apply uncommitted_bind; [apply _|intros ?]). apply _.
Qed.

(** The run of a transaction that persists a proof. *)
Lemma persist_in_Ok main required build now c c' pid : persist_in main required build now c = (c', Ok pid) ->
  exists id row stored db', canonical_required required = Ok required /\ build = JStr id /\ id <> "" /\
    record_of (view c) main required id now = Ok row /\ pf_proof_id row = pid /\
    insert_proof row (view c) = Ok (db', tt) /\ c' = mkConnection (committed c) (Some db') /\
    proof_by_id pid db' = Some stored /\ proof_columns stored = proof_columns row.
Proof.
  unfold persist_coverage_proof_in_transaction. intros H.
  apply bind_Ok_action in H as (c1 & required' & [-> Hreq]%lift_Ok & H).
  assert (required' = required) as ->.
  { unfold canonical_required in Hreq. apply bind_Ok in Hreq as (? & _ & Hreq). by apply bind_Ok in Hreq as (? & _ & [= <-]). }
  apply bind_Ok_action in H as (c2 & id & [-> [-> Hid]%build_id_Ok]%lift_Ok & H).
  apply bind_Ok_action in H as (c3 & db & [= <- <-] & H).
  apply bind_Ok_action in H as (c4 & row & [-> Hrow]%lift_Ok & H).
  apply bind_Ok_action in H as (c5 & [] & Hins & H). unfold statement in Hins. change (view (begin_ c)) with (view c) in Hins.
  destruct (insert_proof row (view c)) as [[db' []]|] eqn:Ei; [|done]. injection Hins as <-.
  apply bind_Ok_action in H as (c6 & stored & [= <- <-] & H).
  apply bind_Ok_action in H as (c7 & [] & [-> Hs%ensure_Ok]%lift_Ok & H). injection H as <- <-. bools.
  unfold view in Hs. simpl in Hs. apply fmap_Some in Hs as (stored & Hst & Hcol).
  exists id, row, stored, db'. by split_and!.
Qed.

(** A cut-off that is given without a proof id is that of a validating build, and
    does not depend on it, nor on the proofs. *)
Lemma cutoff_any_proof db rows main id pid d : cutoff_of db main (JStr id) JNull = Ok d ->
  cutoff_of (with_proofs rows db) main (JStr id) pid = Ok d.
Proof.
  intros H. pose proof H as H'. unfold publication_cutoff_for_build in *.
  apply cutoff_policy in H' as (id' & p & policy & [= <-] & Hp & Hpol & Hst & _ & [(Hv & _)|(_ & _ & Hr)]).
  - unfold publication_cutoff_for_build_impl in *. apply bind_Ok in H as (i & [[= <-] Hid]%build_id_Ok & H).
    rewrite (proj2 (build_id_Ok _ _ (JStr id) id)) by done. cbn [mbind result_bind].
    change (publications_of id (with_proofs rows db)) with (publications_of id db).
    change (db_policy (with_proofs rows db)) with (db_policy db). rewrite Hp, Hpol in *. cbn [of_option mbind result_bind] in *.
    rewrite <- Hst in Hv. rewrite Hv in *. exact H.
  - exfalso. unfold ready_artifact in Hr. apply bind_Ok in Hr as (? & _ & Hr). apply bind_Ok in Hr as ([] & Hr%ensure_Ok & _).
    rewrite andb_false_r in Hr. done.
Qed.

Lemma proof_by_id_Some pid db row : proof_by_id pid db = Some row -> row ∈ db_proofs db /\ pf_proof_id row = pid.
Proof. unfold proof_by_id. intros H%head_Some_elem_of%list_elem_of_filter. naive_solver. Qed.

(** A record that was just computed reopens. *)
Lemma record_reopens db main required id now row stored db' : canonical_required required = Ok required -> id <> "" ->
  record_of db main required id now = Ok row -> (exists rows, db' = with_proofs rows db) ->
  proof_by_id (pf_proof_id row) db' = Some stored -> proof_check stored = true -> proof_columns stored = proof_columns row ->
  exists v, reopen db' main required (JStr (pf_proof_id row)) (JStr id) = Ok v /\ vp_proof_id v = pf_proof_id row /\
    vp_required_datasets v = required /\ vp_build_id v = id /\ vp_publication_cutoff v = pf_publication_cutoff row /\
    vp_proof_json v = pf_coverage_proof_json row.
Proof.
  intros Hreq Hid Hrow (rows & ->) Hst Hcheck Hcol. unfold proof_record in Hrow.
  apply bind_Ok in Hrow as (cutoff & Hcut & Hrow). apply bind_Ok in Hrow as (proof & Hproof%on_error_Ok & Hrow).
  apply bind_Ok in Hrow as ([source applied] & Hgen & Hrow). apply bind_Ok in Hrow as (pid & Hpid & Hrow).
  apply bind_Ok in Hrow as (rj & Hrj & Hrow). apply bind_Ok in Hrow as (pj & Hpj & [= <-]). simpl in Hst |- *.
  unfold proof_columns in Hcol. simpl in Hcol. injection Hcol as Hf Hb Hc Hr Hp Hv Hd Hi Hs Ha.
  destruct (coverage_proof_Ok _ _ _ _ _ Hproof) as (governed & v & _ & _ & _ & _ & _ & Hic & Hplain & (s1 & E1) & (s2 & E2) & (s3 & E3)).
  apply canonical_json_Ok in Hrj as ->.
  pose proof Hpj as Hpj'. apply canonical_json_Ok in Hpj' as ->.
  unfold require_persisted_coverage_proof_in_snapshot. rewrite Hreq. cbn [mbind result_bind].
  apply proof_by_id_Some in Hst as Hst'. destruct Hst' as [_ Epid].
  assert (is_sha256 (JStr pid) = true) as ->.
  { unfold proof_check in Hcheck. rewrite Epid in Hcheck. by bools. }
  cbn [mbind result_bind]. rewrite (proj2 (build_id_Ok _ _ (JStr id) id)) by done. cbn [mbind result_bind].
  rewrite Hst. cbn [of_option mbind result_bind]. unfold stored_documents. rewrite Hr, Hp.
  rewrite !json_loads_dumps by (done || apply plain_strings). cbn [mbind result_bind on_error].
  rewrite canon_strings, canon_dict. rewrite Hf, Hb, Hc. rewrite !bool_decide_eq_true_2 by done.
  cbn [andb ensure mbind result_bind]. rewrite (cutoff_any_proof _ _ _ _ _ _ Hcut). cbn [mbind result_bind].
  rewrite !bool_decide_eq_true_2 by done. cbn [andb ensure mbind result_bind].
  assert (Hn : NoDup (keys proof)) by (simpl in Hplain; by bools).
  unfold record_binds. rewrite !getv_canon by done. rewrite E1, E2, E3, Hic, Hv, Hd, Hi, E1, E2, E3, Hc.
  rewrite !bool_decide_eq_true_2 by done. cbn [andb ensure mbind result_bind].
  change (db_ledger (with_proofs rows db)) with (db_ledger db). rewrite Hproof. cbn [on_error mbind result_bind].
  rewrite <- (canon_dict proof), py_eq_canon by done. cbn [ensure mbind result_bind].
  change (current_generations (with_proofs rows db)) with (current_generations db). rewrite Hgen. cbn [mbind result_bind].
  rewrite Hs, Ha, !Z.eqb_refl. cbn [andb ensure mbind result_bind]. rewrite Hpid. cbn [mbind result_bind].
  rewrite !bool_decide_eq_true_2 by done. cbn [ensure mbind result_bind]. rewrite Hpj. cbn [mbind result_bind].
  eexists. split; [reflexivity|]. done.
Qed.

(** A transaction of its own that persists a proof. *)
Lemma persist_run main required build now c c' pid : in_transaction c = false ->
  persist main required build now c = (c', Ok pid) ->
  exists id row stored rows, canonical_required required = Ok required /\ build = JStr id /\ id <> "" /\
    record_of (committed c) main required id now = Ok row /\ pf_proof_id row = pid /\
    insert_proof row (committed c) = Ok (with_proofs rows (committed c), tt) /\
    (rows = db_proofs (committed c) \/ rows = db_proofs (committed c) ++ [row]) /\
    c' = mkConnection (with_proofs rows (committed c)) None /\
    proof_by_id pid (with_proofs rows (committed c)) = Some stored /\ proof_columns stored = proof_columns row.
Proof.
  intros Hc H. apply owning_Ok in H as (c1 & H & ->); [|done].
  apply persist_in_Ok in H as (id & row & stored & db' & Hreq & Hb & Hid & Hrow & Hpid & Hins & -> & Hst & Hcol).
  assert (Hv : view (begin_ c) = committed c) by (destruct c as [t [p|]]; done). rewrite Hv in *.
  destruct (insert_proof_only _ _ _ _ Hins) as (rows & -> & Hrows). exists id, row, stored, rows. by split_and!.
Qed.

Lemma persisted_ok main required build now c c' pid : in_transaction c = false -> proofs_ok (committed c) ->
  persist main required build now c = (c', Ok pid) -> proofs_ok (committed c') /\
  exists id stored, build = JStr id /\ stored ∈ db_proofs (committed c') /\ pf_proof_id stored = pid /\
    pf_build_id stored = id /\ proof_by_id pid (committed c') = Some stored.
Proof.
  intros Hc Hok H. apply persist_run in H as (id & row & stored & rows & _ & -> & _ & Hrow & <- & Hins & _ & -> & Hst & Hcol); [|done].
  split; [by eapply insert_proof_ok|]. exists id, stored. destruct (proof_by_id_Some _ _ _ Hst) as [Hin Hp].
  split_and!; try done. unfold proof_columns in Hcol. injection Hcol as _ -> _. unfold proof_record in Hrow.
  apply bind_Ok in Hrow as (cutoff & _ & Hrow). apply bind_Ok in Hrow as (proof & _ & Hrow).
  apply bind_Ok in Hrow as ([source applied] & _ & Hrow). apply bind_Ok in Hrow as (pid & _ & Hrow).
  apply bind_Ok in Hrow as (rj & _ & Hrow). by apply bind_Ok in Hrow as (pj & _ & [= <-]).
Qed.

(** Claim C28.  A proof that is persisted reopens: the id that persisting returns is
    accepted at once for the same datasets and the same build, the record is found,
    decoded, computed again and recognised, and nothing is written. *)
Theorem persisted_proof_reopens main required build now c c' pid : in_transaction c = false ->
  proofs_ok (committed c) -> persist main required build now c = (c', Ok pid) ->
  exists v, require main required (JStr pid) build c' = (c', Ok v) /\ vp_proof_id v = pid /\
    vp_required_datasets v = required /\ JStr (vp_build_id v) = build.
Proof.
  intros Hc Hok H. destruct (persisted_ok _ _ _ _ _ _ _ Hc Hok H) as [Hok' _].
  apply persist_run in H as (id & row & stored & rows & Hreq & -> & Hid & Hrow & <- & _ & _ & -> & Hst & Hcol); [|done].
  assert (Hcheck : proof_check stored = true).
  { destruct Hok' as [_ _ Hf]. rewrite Forall_forall in Hf. by apply Hf, (proof_by_id_Some _ _ _ Hst). }
  destruct (record_reopens _ _ _ _ _ _ _ _ Hreq Hid Hrow (ex_intro _ rows eq_refl) Hst Hcheck Hcol)
    as (v & Hv & Hp & Hr & Hb & _). exists v.
  split; [exact (f_equal (pair _) Hv)|]. split_and!; try done. by rewrite Hb.
Qed.

(** A build has one proof: when a proof was persisted for it, persisting
    again, for whatever datasets and after whatever else happened to the database,
    gives the same id or fails; and persisting that fails changes nothing. *)
Theorem one_proof_per_build main required required' build now now' c c1 c2 c3 pid r :
  in_transaction c = false -> proofs_ok (committed c) -> persist main required build now c = (c1, Ok pid) ->
  in_transaction c2 = false -> proofs_ok (committed c2) ->
  (forall row, row ∈ db_proofs (committed c1) -> row ∈ db_proofs (committed c2)) ->
  persist main required' build now' c2 = (c3, r) ->
  match r with Ok pid' => pid' = pid | Err _ => c3 = c2 end.
Proof.
  intros Hc Hok H1 Hc2 Hok2 Hsub H2. destruct r as [pid'|e]; [|by eapply owning_Err; [apply _| |exact H2]].
  destruct (persisted_ok _ _ _ _ _ _ _ Hc Hok H1) as [_ (id & stored & -> & Hin & <- & Hb & _)].
  destruct (persisted_ok _ _ _ _ _ _ _ Hc2 Hok2 H2) as [[_ Hn _] (id' & stored' & [= <-] & Hin' & <- & Hb' & _)].
  apply persist_run in H2 as (? & ? & ? & rows & _ & _ & _ & _ & _ & _ & Hrows & -> & _ & _); [|done]. simpl in *.
  assert (Hin2 : stored ∈ rows).
  { destruct Hrows as [->| ->]; [by apply Hsub|]. apply elem_of_app. left. by apply Hsub. }
  f_equal. symmetry. eapply (NoDup_map_inj pf_build_id); [exact Hn|done|done|congruence].
Qed.

(** What stands behind a build whose cut-off is given. *)
Definition authoritative (db : database) (main : string) (id : string) (pid : json) (cutoff : string) : Prop :=
  exists publication policy, publications_of id db = [publication] /\ db_policy db = Some policy /\
    pub_state publication = lp_publication_state policy /\
    utc_date_text unproven (pub_created_at publication) = Ok cutoff /\
    ((lp_publication_state policy = "VALIDATING" /\ lp_active_build_id policy = Some id /\
      map qr_status (filter (fun r => qr_build_id r = id) (db_quality db)) = ["PASS"]) \/
     (lp_publication_state policy = "READY" /\ lp_snapshot_ready policy = 1 /\
      ready_artifact fs float_repr db main publication policy id pid = Ok tt)).

(** Claim C27.  A proof that reopens is current: its build is the active one being
    validated with its quality PASS, or the ready one in its immutable artifact; at
    the date of the build the exact inventory of every governed dataset asked for is
    covered by verified receipts and its aggregate is COMPLETE under the policy in
    force; the generations are those of the database; and the id is the digest of
    the record of the proof computed now. *)
Theorem reopened_proof_current main required pid build c c' v : in_transaction c = false ->
  require main required pid build c = (c', Ok v) -> let db := committed c in
  c' = c /\ exists governed verification proof digest, filterR (is_governed contracts) required = Ok governed /\
    build = JStr (vp_build_id v) /\ authoritative db main (vp_build_id v) pid (vp_publication_cutoff v) /\
    verify_exact (db_ledger db) governed (vp_publication_cutoff v) = Ok verification /\
    complete_eligible verification = true /\
    Forall (proven (coverage_rows_for (db_ledger db) required)) governed /\
    current_generations db = Ok (vp_source_generation v, vp_applied_generation v) /\
    proof_of (db_ledger db) required (coverage_rows_for (db_ledger db) required) (vp_publication_cutoff v) = Ok proof /\
    canonical_digest sha256_hex (proof_record_body required proof (vp_build_id v) (vp_publication_cutoff v)
      (vp_source_generation v) (vp_applied_generation v)) = Ok digest /\
    pid = JStr digest /\ vp_proof_id v = digest.
Proof.
  intros Hc H db. unfold require_persisted_coverage_proof in H. rewrite Hc in H. simpl in H. injection H as <- H.
  assert (Hv : view (begin_ c) = db) by (unfold db; destruct c as [t [p|]]; done). rewrite Hv in H.
  split; [destruct c as [t [p|]]; done|]. unfold require_persisted_coverage_proof_in_snapshot in H.
  apply bind_Ok in H as (required' & Hreq & H).
  assert (required' = required) as ->.
  { unfold canonical_required in Hreq. apply bind_Ok in Hreq as (? & _ & Hreq). by apply bind_Ok in Hreq as (? & _ & [= <-]). }
  apply bind_Ok in H as (p & Hp & H). assert (pid = JStr p) as ->.
  { destruct pid; try done. destruct (is_sha256 _); [|done]. by injection Hp as ->. }
  apply bind_Ok in H as (id & [-> _]%build_id_Ok & H). apply bind_Ok in H as (row & _ & H).
  apply bind_Ok in H as ([stored_required stored] & _ & H). apply bind_Ok in H as ([] & Hf%ensure_Ok & H).
  apply bind_Ok in H as (cutoff & Hcut & H). apply bind_Ok in H as ([] & Hb%ensure_Ok & H).
  apply bind_Ok in H as ([] & _ & H). apply bind_Ok in H as (proof & Hproof%on_error_Ok & H).
  apply bind_Ok in H as ([] & _ & H). apply bind_Ok in H as ([source applied] & Hgen & H).
  apply bind_Ok in H as ([] & _ & H). apply bind_Ok in H as (digest & Hd & H). apply bind_Ok in H as ([] & He%ensure_Ok & H).
  apply bind_Ok in H as (pj & _ & H). injection H as <-. simpl. bools. subst.
  destruct (coverage_proof_Ok _ _ _ _ _ Hproof) as (governed & ver & Hg & Hver & Hel & Hall & _).
  exists governed, ver, proof, p. split_and!; try done. unfold publication_cutoff_for_build in Hcut.
  apply cutoff_policy in Hcut as (i & pub & policy & [= <-] & Hpub & Hpol & Hst & Hut & Hcase).
  exists pub, policy. split_and!; try done. destruct Hcase as [(Hs & Ha & Hq)|Hr]; [left|by right]. by split_and!; auto.
Qed.

Abbreviation accept := (verify_coverage_manifest capabilities contracts sha256_hex float_repr date_matches table_rows
  visible_text verify fs).

(** Claim C26.  The manifest of an artifact is accepted only when it asks for every
    governed dataset, or is bound to its profile, when the proof it names reopens in
    this database for the datasets and the build it names, and when the proof, the
    policy version and the policy digest it embeds are those of the proof computed
    now; accepting it writes nothing. *)
Theorem accepted_manifest_proven main manifest c c' u : in_transaction c = false ->
  accept main manifest c = (c', Ok u) ->
  c' = c /\ exists required v proof, getv "required_datasets" manifest = JList (map JStr required) /\
    (Forall (fun d => d ∈ required) (governed_datasets contracts) \/ profile_bound manifest required = Ok true) /\
    require main required (getv "coverage_proof_id" manifest) (getv "build_id" manifest) c = (c, Ok v) /\
    json_loads float_repr (vp_proof_json v) = Ok (JDict proof) /\
    py_eq (getv "coverage_policy_version" manifest) (getv "policy_version" proof) = true /\
    py_eq (getv "coverage_policy_digest" manifest) (getv "policy_digest" proof) = true /\
    py_eq (getv "coverage_proof" manifest) (JDict proof) = true.
Proof.
  intros Hc H. unfold verify_coverage_manifest in H.
  apply bind_Ok_action in H as (? & required & [-> Hreq]%lift_Ok & H).
  apply bind_Ok_action in H as (? & [] & [-> _]%lift_Ok & H). apply bind_Ok_action in H as (? & [] & [-> _]%lift_Ok & H).
  apply bind_Ok_action in H as (? & bound & [-> Hb]%lift_Ok & H).
  apply bind_Ok_action in H as (? & [] & [-> Hbound%ensure_Ok]%lift_Ok & H). subst bound.
  apply bind_Ok_action in H as (c1 & v & Hv & H). injection Hv as Hc1 Hv%on_error_Ok.
  assert (Hr : require main required (getv "coverage_proof_id" manifest) (getv "build_id" manifest) c = (c, Ok v)).
  { rewrite (surjective_pairing (require _ _ _ _ c)), Hv. f_equal. unfold require_persisted_coverage_proof. rewrite Hc.
    simpl. by destruct c as [t [p|]]. }
  rewrite Hr in Hc1. simpl in Hc1. subst c1.
  apply bind_Ok_action in H as (? & computed & [-> Hl]%lift_Ok & H). destruct computed as [| | | | | |proof]; try done.
  apply bind_Ok_action in H as (? & [] & [-> H1%ensure_Ok]%lift_Ok & H).
  apply bind_Ok_action in H as (? & [] & [-> H2%ensure_Ok]%lift_Ok & H).
  apply lift_Ok in H as [-> H3%ensure_Ok]. split; [done|]. exists required, v, proof. split_and!; try done.
  - destruct (string_items _) as [l|] eqn:E in Hreq; [|done]. injection Hreq as ->. unfold string_items in E.
    destruct (getv "required_datasets" manifest) as [| | | | |l|]; try done. f_equal. apply mapM_Some_1 in E.
    clear -E. induction E as [|x y l l' Hxy _ IH]; [done|]. destruct x; try done. injection Hxy as ->. simpl. by rewrite IH.
  - destruct (forallb _ _) eqn:E in Hb; [left|right; done]. apply Forall_forall. intros d Hd.
    rewrite forallb_forall in E. by apply list_elem_of_In, E in Hd; apply bool_decide_eq_true in Hd.
Qed.

End ProofFacts.

(** ** A proof of the sample ledger *)

(** The build of the sample ledger, validating, with the result of its quality checks. *)
Definition scored_connection (status quality : string) : connection_to database :=
  (persist_quality_results "build-1" quality "quality" "2024-01-31" "{}" "[]"
     (validating_connection (committed (ledger_connection status)) "collection-coverage/v3")).1.

Abbreviation persist_sample := (persist_coverage_proof ledger_capabilities ledger_contracts toy_sha256_hex id no_dates
  no_rows same_text ledger_verify staging_fs "/staging.db" ["equities_bars_daily"] (JStr "build-1") "2024-02-01").
Abbreviation require_sample := (require_persisted_coverage_proof ledger_capabilities ledger_contracts toy_sha256_hex id
  no_dates no_rows same_text ledger_verify staging_fs "/staging.db" ["equities_bars_daily"]).

Definition passed_connection : connection_to database := Eval vm_compute in scored_connection "COMPLETE" "PASS".

Definition proven_connection : connection_to database := Eval vm_compute in (persist_sample passed_connection).1.

Lemma proven_run : persist_sample passed_connection = (proven_connection, Ok toy_digest).
Proof. vm_compute. reflexivity. Qed.

(** Only with every segment proved, the aggregate COMPLETE and the quality PASS. *)
Example persisted_samples :
  map (fun c => (persist_sample c).2)
    [scored_connection "PARTIAL" "PASS"; scored_connection "COMPLETE" "FAIL";
     validating_connection (mkTables [] [] [ledger_aggregate "COMPLETE"]) "collection-coverage/v3"]
  = [raise unproven "Coverage proof cannot be persisted";
     raise unproven "Coverage proof VALIDATING build has no authoritative PASS";
     raise unproven "Coverage proof VALIDATING build has no authoritative PASS"].
Proof. by vm_compute. Qed.

Lemma persisted_proof_reopens_witness :
  exists v, require_sample (JStr toy_digest) (JStr "build-1") proven_connection = (proven_connection, Ok v) /\
    vp_proof_id v = toy_digest /\ JStr (vp_build_id v) = JStr "build-1".
Proof.
  destruct (persisted_proof_reopens ledger_capabilities ledger_contracts toy_sha256_hex id no_dates no_rows same_text
    ledger_verify staging_fs "/staging.db" ["equities_bars_daily"] (JStr "build-1") "2024-02-01"
    passed_connection proven_connection toy_digest) as (v & Hv & Hp & _ & Hb).
  - vm_compute. reflexivity.
  - split; vm_compute; constructor.
  - exact proven_run.
  - exists v. split; [exact Hv|]. split; [exact Hp|exact Hb].
Defined.

(** Again, after the generations went on. *)
Definition later_connection : connection_to database :=
  let db := committed proven_connection in
  mkConnection (mkDatabase (db_ledger db) (db_publications db) (db_policy db) (db_quality db) (db_manifests db) [6]
    [("jquants_records", 6)] (db_proofs db) (db_tombstones db)) None.

Definition later_run : connection_to database * result string := Eval vm_compute in persist_sample later_connection.

Lemma later_run_eq : persist_sample later_connection = (later_run.1, later_run.2).
Proof. vm_compute. reflexivity. Qed.

Lemma one_proof_per_build_witness :
  length (db_proofs (committed proven_connection)) = 1%nat /\
  match later_run.2 with Ok pid => pid = toy_digest | Err _ => later_run.1 = later_connection end.
Proof.
  split; [vm_compute; reflexivity|].
  apply (one_proof_per_build ledger_capabilities ledger_contracts toy_sha256_hex id no_dates no_rows same_text
    ledger_verify staging_fs "/staging.db" ["equities_bars_daily"] ["equities_bars_daily"] (JStr "build-1") "2024-02-01"
    "2024-02-01" passed_connection proven_connection later_connection later_run.1 toy_digest later_run.2).
  - vm_compute. reflexivity.
  - split; vm_compute; constructor.
  - exact proven_run.
  - vm_compute. reflexivity.
  - split; vm_compute.
    + constructor; [apply not_elem_of_nil|constructor].
    + constructor; [apply not_elem_of_nil|constructor].
    + constructor; [reflexivity|constructor].
  - intros row Hr. exact Hr.
  - exact later_run_eq.
Defined.

(** What does not reopen: another id, other datasets, another build, a database that
    went on. *)
Example refused_samples :
  let reopened c required pid build :=
    (require_persisted_coverage_proof ledger_capabilities ledger_contracts toy_sha256_hex id no_dates no_rows same_text
       ledger_verify staging_fs "/staging.db" required pid build c).2 in
  let c := proven_connection in
  map is_Ok [reopened c ["equities_bars_daily"] (JStr "sha256:0") (JStr "build-1");
             reopened c [] (JStr toy_digest) (JStr "build-1");
             reopened c ["equities_bars_daily"] (JStr toy_digest) (JStr "build-2");
             reopened later_connection ["equities_bars_daily"] (JStr toy_digest) (JStr "build-1");
             reopened (fail_sync "lost" c).1 ["equities_bars_daily"] (JStr toy_digest) (JStr "build-1")]
  = [false; false; false; false; false].
Proof. by vm_compute. Qed.

Definition reopened_proof : VerifiedCoverageProof := Eval vm_compute in
  ok_or (mkVerifiedProof "" "" [] "" "" 0 0) (require_sample (JStr toy_digest) (JStr "build-1") proven_connection).2.

Lemma reopened_run : require_sample (JStr toy_digest) (JStr "build-1") proven_connection = (proven_connection, Ok reopened_proof).
Proof. vm_compute. reflexivity. Qed.

Lemma reopened_proof_current_witness :
  require_sample (JStr toy_digest) (JStr "build-1") proven_connection = (proven_connection, Ok reopened_proof) /\
  vp_publication_cutoff reopened_proof = "2024-01-31" /\
  exists governed, filterR (is_governed ledger_contracts) ["equities_bars_daily"] = Ok governed /\
    Forall (proven ledger_contracts toy_sha256_hex
      (coverage_rows_for (db_ledger (committed proven_connection)) ["equities_bars_daily"])) governed.
Proof.
  split; [exact reopened_run|]. split; [vm_compute; reflexivity|].
  destruct (reopened_proof_current ledger_capabilities ledger_contracts toy_sha256_hex id no_dates no_rows same_text
    ledger_verify staging_fs "/staging.db" ["equities_bars_daily"] (JStr toy_digest) (JStr "build-1") proven_connection
    _ _ eq_refl reopened_run) as (_ & governed & verification & proof & digest & Hg & _ & _ & _ & _ & Hp & _).
  exists governed. split; [exact Hg|exact Hp].
Defined.

(** The artifact of the build: its manifest embeds the proof, in a read-only file. *)
Definition artifact_fs : filesystem :=
  let stat p := if p =s "/artifact.db" then Some (mkFileInfo 1 8 true 1 33060) else None in
  mkFilesystem stat stat (fun _ => None) Ok None.

Definition sample_manifest : dict := Eval vm_compute in
  let proof := ok_or JNull (json_loads id (vp_proof_json reopened_proof)) in
  let field name := match proof with JDict d => getv name d | _ => JNull end in
  [("state", JStr "READY"); ("build_id", JStr "build-1"); ("snapshot_id", JStr "snapshot-1");
   ("created_at", JStr (dt_isoformat staging_time)); ("coverage_proof_id", JStr toy_digest);
   ("required_datasets", JList [JStr "equities_bars_daily"]); ("coverage_policy_version", field "policy_version");
   ("coverage_policy_digest", field "policy_digest"); ("coverage_proof", proof)].

Definition artifact_connection (manifest : dict) : connection_to database :=
  (embed_ready_manifest "snapshot-1" "2024-02-01" 9 5 (canonical_dumps (JDict manifest)) "/artifact.db" "/manifest.json"
     "build-1" proven_connection).1.

Abbreviation accept_sample := (verify_coverage_manifest ledger_capabilities ledger_contracts toy_sha256_hex id no_dates
  no_rows same_text ledger_verify artifact_fs "/artifact.db").

Definition published_connection : connection_to database := Eval vm_compute in artifact_connection sample_manifest.

(** The artifact is accepted with its manifest ([accepted_manifest_proven_witness]); not with a file that can be written,
    nor with a manifest that says something else of the proof, nor on the staging
    database. *)
Example accepted_samples :
  let writable := mkFilesystem (fun _ => Some staging_info) (fun _ => Some staging_info) (fun _ => None) Ok None in
  [is_Ok (verify_coverage_manifest ledger_capabilities ledger_contracts toy_sha256_hex id no_dates no_rows same_text
     ledger_verify writable "/artifact.db" sample_manifest published_connection).2;
   is_Ok (accept_sample (dict_set "coverage_proof" JNull sample_manifest) published_connection).2;
   is_Ok (accept_sample sample_manifest proven_connection).2]
  = [false; false; false].
Proof. by vm_compute. Qed.

Lemma accepted_manifest_proven_witness :
  accept_sample sample_manifest published_connection = (published_connection, Ok tt) /\
  exists required, getv "required_datasets" sample_manifest = JList (map JStr required) /\
    (Forall (fun d => d ∈ required) (governed_datasets ledger_contracts) \/ profile_bound sample_manifest required = Ok true).
Proof.
  assert (Hc : in_transaction published_connection = false) by (vm_compute; reflexivity).
  assert (H : accept_sample sample_manifest published_connection = (published_connection, Ok tt)) by (vm_compute; reflexivity).
  split; [exact H|].
  destruct (accepted_manifest_proven ledger_capabilities ledger_contracts toy_sha256_hex id no_dates no_rows same_text
    ledger_verify artifact_fs "/artifact.db" sample_manifest _ _ tt Hc H) as (_ & required & v & proof & Hr & Hb & _).
  exists required. split; [exact Hr|exact Hb].
Defined.
