(* ===== verification/TransitionAuthority.v ===== *)
(** * TransitionAuthority: who may make a dataset COMPLETE for the first time
    (packages/data_plane/storage/coverage_transition.py: registry, signed documents,
    times; packages/data_plane/ops/trust_domain.py)

    A document says which transition it authorises and is signed by the one active
    key of the registry pinned for its environment.  The file decides everything
    that does not need the database: that the document is closed and addressed by
    its digest, that it names the environment and its resources, that the signature
    verifies and that the moment is within its lifetime.  Ed25519 is a parameter, the
    files of the registry and the readings of the clock are arguments. *)

From S2P Require Import Prelude PyDate PyTime PyInt Json JsonText Base64 Sha256 PinnedRegistries SourceCapability ReceiptCrypto Receipt.

Local Open Scope Z_scope.

Definition COVERAGE_TRANSITION_FORMAT : string := "coverage-complete-transition/v1".
Definition COVERAGE_TRANSITION_DOMAIN : string := "quant-platform/coverage/complete-transition/v1".
Definition COVERAGE_TRANSITION_ISSUER : string := "CoverageCompleteTransitionAuthority/v1".
Definition COVERAGE_TRANSITION_ALGORITHM : string := "Ed25519".
Definition COVERAGE_TRANSITION_PENDING_REASON : string := "COVERAGE_TRANSITION_AUTHORITY_UNPROVISIONED".
Definition MAX_AUTHORIZATION_SECONDS : Z := 900.

(** The same digest for both environments. *)
Definition PINNED_TRANSITION_DIGEST : string := "sha256:9e6c239cf85ab09999ef4aa90881a55abdcc246488df2c1ded9e9d2a5947de49".

Abbreviation refused := CoverageTransitionError (only parsing).

Definition SIGNED_DOCUMENT_FIELDS : list string :=
  ["format"; "authority_domain"; "issuer"; "issuer_key_id"; "algorithm"; "transition_id"; "body"; "signature"].

Definition BODY_FIELDS : list string :=
  ["build_id"; "environment"; "resource_identity"; "publication_cutoff"; "datasets"; "dataset_set_digest"; "from_state";
   "from_state_digest"; "target_state"; "target_state_digest"; "coverage_policy_set"; "coverage_policy_set_digest";
   "inventory_set_digest"; "inventory_count"; "receipt_set_digest"; "receipt_count"; "issued_at"; "expires_at"].

(** ** The trust domain *)

Definition D1_RESOURCES : list (string * dict) :=
  [("staging",
    [("provider", JStr "cloudflare"); ("kind", JStr "d1"); ("name", JStr "quant-ingest-staging");
     ("database_id", JStr "d448d1c6-27c8-4aeb-8702-3e7a8b6bf2bb");
     ("authority_id", JStr "cloudflare-d1:d448d1c6-27c8-4aeb-8702-3e7a8b6bf2bb")]);
   ("production",
    [("provider", JStr "cloudflare"); ("kind", JStr "d1"); ("name", JStr "quant-ingest");
     ("database_id", JStr "be6fdcf8-40be-41fc-9535-7facd1fc2ffc");
     ("authority_id", JStr "cloudflare-d1:be6fdcf8-40be-41fc-9535-7facd1fc2ffc")])].

Definition require_environment (value : json) : result string :=
  match value with
  | JStr s => if s ∈? ENVIRONMENTS then Ok s else raise ValueError "authority environment must be staging or production"
  | _ => raise ValueError "authority environment must be staging or production"
  end.

Definition d1_resource_identity (environment : json) : result dict :=
  selected ← require_environment environment;
  of_option KeyError "no D1 resource" (lookup_str selected D1_RESOURCES).

Definition require_d1_resource_identity (value expected_environment : json) : result dict :=
  expected ← d1_resource_identity expected_environment;
  match value with
  | JDict d => if py_eq (JDict d) (JDict expected) then Ok expected
               else raise ValueError "D1 resource identity crosses the expected trust domain"
  | _ => raise ValueError "D1 resource identity crosses the expected trust domain"
  end.

Definition projection_resource_identity (environment : json) (source : dict) : result dict :=
  selected ← require_environment environment;
  d1 ← require_d1_resource_identity (getv "resource_identity" source) (JStr selected);
  Ok [("environment", JStr selected); ("source_d1", JDict d1); ("source_audit_digest", getv "audit_digest" source);
      ("source_export_digest", getv "export_digest" source); ("source_change_seq", getv "source_change_seq" source)].

(** ** Values of documents *)

(** Floats are refused; the keys of a JSON object are distinct strings. *)
Definition freeze_json (value : json) : result json :=
  _ ← ensure (exact_json value) TypeError "must contain only exact JSON built-in values"; Ok value.

(** 71 characters, the prefix, and what [int(value[7:], 16)] accepts. *)
Definition require_digest (value : json) : result string :=
  match value with
  | JStr s =>
      _ ← ensure ((String.length s =? 71)%nat && starts_with "sha256:" s) refused "must be a sha256 digest";
      _ ← ensure (present (int_text 16 (str_drop 7 s))) refused "must be a sha256 digest";
      Ok s
  | _ => raise refused "must be a sha256 digest"
  end.

Fixpoint drop_last (s : string) : string :=
  match s with
  | EmptyString => EmptyString
  | String _ EmptyString => EmptyString
  | String c s => String c (drop_last s)
  end.

Definition ends_with_z (s : string) : bool := s =s drop_last s +:+ "Z".

(** A canonical time in UTC; other texts are refused.  A naive time is taken in the
    local zone, which decides nothing unless the date is at the ends of the calendar. *)
Definition parse_utc_z (value : json) : result datetime :=
  let wrong {A} : result A := raise refused "must be canonical UTC Z time" in
  match value with
  | JStr s =>
      if negb (ends_with_z s) then wrong else
      '(local, zone) ← on_error [ValueError] refused "must be canonical UTC Z time"
                         (datetime_fromisoformat (drop_last s +:+ "+00:00"));
      match zone with
      | Some offset => t ← to_utc local offset; if utc_z t =s s then Ok t else wrong
      | None => if valid_datetime (local - day_micros) && valid_datetime (local + day_micros) then wrong
                else raise OutsideModel "local time at the ends of the calendar"
      end
  | _ => wrong
  end.

Definition normalize_datasets (datasets : json) : result (list string) :=
  match datasets with
  | JList l =>
      match mapM (fun v => match v with JStr s => if s =s "" then None else Some s | _ => None end) l with
      | Some selected =>
          _ ← ensure (negb (bool_decide (selected = [])) && bool_decide (selected = sorted_strings selected)
                      && bool_decide (NoDup selected)) refused
                "Coverage transition datasets must be sorted and duplicate-free";
          Ok selected
      | None => raise refused "Coverage transition datasets must be sorted and duplicate-free"
      end
  | _ => raise TypeError "Coverage transition datasets must be a list or tuple"
  end.

(** The window and the order of readings of the clock. *)
Definition observe_authorization_time (observed issued expires : datetime) (previous : option datetime)
    : result datetime :=
  _ ← ensure (match previous with Some p => negb (observed <? p) | None => true end) refused
        "Coverage transition clock moved backwards";
  _ ← ensure (negb ((observed <? issued) || (expires <? observed))) refused
        "Coverage transition authorization is not current or expired";
  Ok observed.

Section Authority.
Variable sha256_hex : string -> string.
Variable float_repr : string -> string.
(** [key.verify(signature, message)]: key, signature, message. *)
Variable ed25519_verify : string -> string -> string -> bool.

(** [_digest] *)
Definition digest_of (value : json) : result string :=
  text ← canonical_json value; Ok ("sha256:" +:+ sha256_hex text).

(** ** The registry of public keys *)

(** The active keys: ids and bytes. *)
Definition TransitionKeys : Type := list (string * string).

Definition require_one_active (active : TransitionKeys) : result TransitionKeys :=
  _ ← ensure (length active <=? 1)%nat refused "Coverage transition registry permits one active key"; Ok active.

(** [row["status"] not in {...}]: a list or an object cannot be hashed. *)
Definition status_known (status : json) : result bool :=
  match status with
  | JStr s => Ok (s ∈? ["active"; "revoked"])
  | JList _ | JDict _ => raise TypeError "unhashable type"
  | _ => Ok false
  end.

Definition registry_row (acc : TransitionKeys * list string) (row : json) : result (TransitionKeys * list string) :=
  let '(active, seen) := acc in
  match row with
  | JDict d =>
      _ ← ensure (same_keys (keys d) ["key_id"; "algorithm"; "status"; "public_key_b64"]) refused
            "Coverage transition registry row is invalid";
      key_id ← (match getv "key_id" d with
                | JStr s => if (s =s "") || (s ∈? seen) then raise refused "Coverage transition key ids must be unique strings"
                            else Ok s
                | _ => raise refused "Coverage transition key ids must be unique strings"
                end);
      known ← (if bool_decide (getv "algorithm" d = JStr COVERAGE_TRANSITION_ALGORITHM)
               then status_known (getv "status" d) else Ok false);
      _ ← ensure known refused "Coverage transition registry algorithm/status is invalid";
      text ← (match getv "public_key_b64" d with
              | JStr s => Ok s
              | _ => raise refused "Coverage transition public key encoding is invalid"
              end);
      public ← of_option refused "Coverage transition public key is invalid" (b64decode text);
      _ ← ensure (String.length public =? 32)%nat refused "Coverage transition public key is invalid";
      Ok (if bool_decide (getv "status" d = JStr "active") then active ++ [(key_id, public)] else active, key_id :: seen)
  | _ => raise refused "Coverage transition registry row is invalid"
  end.

Definition from_document (document : json) : result TransitionKeys :=
  frozen ← freeze_json document;
  match frozen with
  | JDict d =>
      _ ← ensure (same_keys (keys d) ["schema_version"; "purpose"; "keys"]) refused
            "Coverage transition registry shape is invalid";
      match getv "keys" d with
      | JList rows =>
          _ ← ensure (py_eq (getv "schema_version" d) (JInt 1)
                      && bool_decide (getv "purpose" d = JStr "coverage_complete_transition_verification")) refused
                "Coverage transition registry identity is invalid";
          acc ← foldR registry_row ([], []) rows;
          require_one_active acc.1
      | _ => raise refused "Coverage transition registry identity is invalid"
      end
  | _ => raise OutsideModel "set() of a document that is not an object"
  end.

(** The text of the registry of an environment; [None] when it cannot be read. *)
Definition load_pinned (registry_file : string -> option string) (expected_environment : json) : result TransitionKeys :=
  environment ← on_error [ValueError] refused "Coverage environment is invalid" (require_environment expected_environment);
  text ← of_option refused "Coverage transition pinned registry cannot be loaded" (registry_file environment);
  document ← on_error [ValueError] refused "Coverage transition pinned registry cannot be loaded" (json_loads float_repr text);
  match document with
  | JDict d =>
      digest ← digest_of document;
      _ ← ensure (digest =s PINNED_TRANSITION_DIGEST) refused "Coverage transition pinned registry digest mismatch";
      from_document document
  | _ => raise refused "Coverage transition pinned registry digest mismatch"
  end.

Definition provisioned (registry : TransitionKeys) : bool := negb (bool_decide (registry = [])).

(** A signature over the canonical text of a message. *)
Definition registry_verify (registry : TransitionKeys) (key_id : string) (message : dict) (signature : json) : bool :=
  match lookup_str key_id registry, signature with
  | Some key, JStr s =>
      starts_with "ed25519:" s
      && match b64decode (str_drop 8 s), canonical_json (JDict message) with
         | Some raw, Ok text => ed25519_verify key raw text
         | _, _ => false
         end
  | _, _ => false
  end.

Definition coverage_transition_availability (registry_file : string -> option string) (expected_environment : json)
    : result dict :=
  registry ← load_pinned registry_file expected_environment;
  Ok (if provisioned registry then [("status", JStr "AVAILABLE"); ("reason_code", JStr "")]
      else [("status", JStr "PENDING"); ("reason_code", JStr COVERAGE_TRANSITION_PENDING_REASON)]).

(** ** Signed documents *)

Definition unsigned_request (body : dict) : result dict :=
  transition_id ← digest_of (JDict [("format", JStr COVERAGE_TRANSITION_FORMAT);
                                    ("authority_domain", JStr COVERAGE_TRANSITION_DOMAIN); ("body", JDict body)]);
  Ok [("format", JStr COVERAGE_TRANSITION_FORMAT); ("authority_domain", JStr COVERAGE_TRANSITION_DOMAIN);
      ("transition_id", JStr transition_id); ("body", JDict body)].

Definition RESOURCE_FIELDS : list string :=
  ["environment"; "source_d1"; "source_audit_digest"; "source_export_digest"; "source_change_seq";
   "governed_db_content_digest"].

Definition validate_resource (resource : json) (environment : string) : result unit :=
  let invalid := "Coverage resource identity is invalid" in
  match resource with
  | JDict r =>
      _ ← ensure (same_keys (keys r) RESOURCE_FIELDS && bool_decide (getv "environment" r = JStr environment)) refused invalid;
      _ ← on_error [ValueError] refused "Coverage D1 resource identity is invalid"
            (require_d1_resource_identity (getv "source_d1" r) (JStr environment));
      _ ← mapR (fun field => require_digest (getv field r))
            ["source_audit_digest"; "source_export_digest"; "governed_db_content_digest"];
      match getv "source_change_seq" r with
      | JInt n => ensure (0 <=? n) refused "Coverage source change sequence is invalid"
      | _ => raise refused "Coverage source change sequence is invalid"
      end
  | _ => raise refused invalid
  end.

Definition positive_int (v : json) : bool := match v with JInt n => 0 <? n | _ => false end.

Definition nonempty_str (v : json) : bool := match v with JStr s => negb (s =s "") | _ => false end.

Definition validate_body (body : dict) (environment : string) : result unit :=
  _ ← ensure (bool_decide (getv "environment" body = JStr environment)) refused "Coverage transition environment mismatch";
  _ ← validate_resource (getv "resource_identity" body) environment;
  _ ← ensure (nonempty_str (getv "build_id" body)) refused "Coverage transition build id is invalid";
  _ ← normalize_datasets (getv "datasets" body);
  _ ← mapR (fun field => require_digest (getv field body))
        ["dataset_set_digest"; "from_state_digest"; "target_state_digest"; "coverage_policy_set_digest";
         "inventory_set_digest"; "receipt_set_digest"];
  _ ← ensure (positive_int (getv "inventory_count" body) && positive_int (getv "receipt_count" body)) refused
        "Coverage transition evidence counts must be positive integers";
  _ ← parse_utc_z (getv "issued_at" body);
  _ ← parse_utc_z (getv "expires_at" body);
  Ok tt.

(** The document's body; the document itself is returned unchanged. *)
Definition validate_signed_document (document expected_environment : json) : result (dict * dict) :=
  environment ← on_error [ValueError] refused "Coverage environment is invalid" (require_environment expected_environment);
  frozen ← freeze_json document;
  match frozen with
  | JDict d =>
      _ ← ensure (same_keys (keys d) SIGNED_DOCUMENT_FIELDS) refused "Coverage transition signed document shape is invalid";
      body ← (match getv "body" d with
              | JDict body =>
                  if bool_decide (getv "format" d = JStr COVERAGE_TRANSITION_FORMAT)
                     && bool_decide (getv "authority_domain" d = JStr COVERAGE_TRANSITION_DOMAIN)
                     && bool_decide (getv "issuer" d = JStr COVERAGE_TRANSITION_ISSUER)
                     && bool_decide (getv "algorithm" d = JStr COVERAGE_TRANSITION_ALGORITHM)
                     && nonempty_str (getv "issuer_key_id" d) && same_keys (keys body) BODY_FIELDS
                  then Ok body else raise refused "Coverage transition signed document identity is invalid"
              | _ => raise refused "Coverage transition signed document identity is invalid"
              end);
      _ ← require_digest (getv "transition_id" d);
      _ ← validate_body body environment;
      expected ← unsigned_request body;
      _ ← ensure (forallb (fun p => py_eq (getv p.1 d) p.2) expected) refused
            "Coverage transition id does not address its exact body";
      Ok (d, body)
  | _ => raise OutsideModel "set() of a document that is not an object"
  end.

Definition SIGNED_FIELDS : list string :=
  ["format"; "authority_domain"; "issuer"; "issuer_key_id"; "algorithm"; "transition_id"; "body"].

Definition signature_message (document : dict) : dict := map (fun field => (field, getv field document)) SIGNED_FIELDS.

(** [str] of a field that is one. *)
Definition str_field (name : string) (d : dict) : string := match getv name d with JStr s => s | _ => "" end.

(** What a transition starts with: a document that is authorised now. *)
Record authorization := mkAuthorization {
  au_document : dict;
  au_body : dict;
  au_issued : datetime;
  au_expires : datetime;
  au_now : datetime;
}.

Definition authorize (registry_file : string -> option string) (document expected_environment : json) (now : datetime)
    : result authorization :=
  registry ← load_pinned registry_file expected_environment;
  _ ← ensure (provisioned registry) CoverageTransitionAuthorityPending
        "PENDING: COVERAGE_TRANSITION_AUTHORITY_UNPROVISIONED";
  '(frozen, body) ← validate_signed_document document expected_environment;
  _ ← ensure (registry_verify registry (str_field "issuer_key_id" frozen) (signature_message frozen)
                (getv "signature" frozen)) refused "Coverage transition signature is invalid";
  issued ← parse_utc_z (getv "issued_at" body);
  expires ← parse_utc_z (getv "expires_at" body);
  _ ← ensure (negb ((expires <=? issued) || (MAX_AUTHORIZATION_SECONDS * 1000000 <? expires - issued))) refused
        "Coverage transition authorization is not current";
  now ← observe_authorization_time now issued expires None;
  Ok (mkAuthorization frozen body issued expires now).
End Authority.

(** ** Times *)

Lemma drop_last_z s : drop_last (s +:+ "Z") = s.
Proof.
  induction s as [|c s IH]; [done|]. change (String c s +:+ "Z") with (String c (s +:+ "Z")).
  destruct s as [|c' s]; [done|]. change (String c (drop_last (String c' s +:+ "Z")) = String c (String c' s)). by rewrite IH.
Qed.

Lemma to_utc_Ok local offset t : to_utc local offset = Ok t <-> t = local - offset /\ valid_datetime t = true.
Proof.
  unfold to_utc. destruct (valid_datetime (local - offset)) eqn:E; split.
  - by intros [= <-].
  - by intros [-> _].
  - done.
  - intros [-> Hv]. by rewrite Hv in E.
Qed.

(** The canonical texts are those of the moments to the second. *)
Lemma parse_utc_z_spec v t :
  parse_utc_z v = Ok t <-> valid_datetime t = true /\ t mod 1000000 = 0 /\ v = JStr (utc_z t).
Proof.
  unfold parse_utc_z. cbv zeta. split.
  - destruct v as [| | | |s| |]; try done. destruct (negb (ends_with_z s)) eqn:Ez; [done|].
    intros H. apply bind_Ok in H as ([local zone] & Hd%on_error_Ok & H). destruct zone as [offset|]; [|by destruct (_ && _)].
    apply bind_Ok in H as (u & Hu & H). destruct (utc_z u =s s) eqn:E; [|done]. injection H as <-. bools. subst s.
    apply to_utc_Ok in Hu as [Eu Hv]. split; [done|]. unfold utc_z in Hd. rewrite drop_last_z, datetime_seconds_text in Hd by done.
    injection Hd as <- <-. split; [lia|done].
  - intros (Hv & Hm & ->). unfold utc_z. unfold ends_with_z. rewrite drop_last_z, bool_decide_eq_true_2 by done.
    simpl negb. cbv iota. rewrite datetime_seconds_text by done. cbn [on_error mbind result_bind]. rewrite Hm.
    rewrite (proj2 (to_utc_Ok (t - 0) 0 t)) by (split; [lia|done]). cbn [mbind result_bind]. unfold utc_z.
    by rewrite bool_decide_eq_true_2.
Qed.

(** The times of a document are canonical: a text is accepted exactly when
    it is the text, to the second and in UTC, of the moment it is read as, so that a
    moment has one accepted text. *)
Theorem canonical_times v w t : parse_utc_z v = Ok t -> (parse_utc_z w = Ok t <-> w = v) /\ t mod 1000000 = 0 /\
  v = JStr (utc_z t) /\ datetime_fromisoformat (dt_isoformat t) = Ok (t, Some 0).
Proof.
  intros (Hv & Hm & ->)%parse_utc_z_spec. split_and!; try done; [|by apply datetime_dt_isoformat].
  rewrite parse_utc_z_spec. naive_solver.
Qed.

(** ** Digests *)

(** What a digest is for the tables is one for the documents. *)
Lemma require_digest_accepts s : is_sha256 (JStr s) = true -> require_digest (JStr s) = Ok s.
Proof.
  unfold is_sha256. intros H. bools. unfold require_digest.
  match goal with H : (String.length s =? 71)%nat = true |- _ => rewrite H; rename H into Hlen end.
  match goal with H : starts_with _ s = true |- _ => rewrite H end. cbn [andb ensure mbind result_bind].
  assert (Hp : forall t, all_chars is_hex t = true -> plain_digits 16 t = true).
  { intros t. induction t as [|c t IH]; [done|]. simpl. intros Ht. apply andb_true_iff in Ht as [Hc Ht]. rewrite IH by done.
    rewrite andb_true_r. revert Hc. clear. unfold is_hex, base_digit, hex_char_value. simpl.
    destruct c as [[] [] [] [] [] [] [] []]; vm_compute; done. }
  destruct (int_text_hex (str_drop 7 s)) as [n ->]; [|by apply Hp|done].
  intros E. do 8 (destruct s as [|? s]; [done|]). done.
Qed.

(** But not conversely: a sign, underscores and the prefix 0x pass, so that the digests
    of the audit and of the export that a document names need not be digests. *)
Example lenient_digests :
  let accepts s := is_Ok (require_digest (JStr s)) && negb (is_sha256 (JStr s)) in
  map accepts ["sha256:+" +:+ zeros 63; "sha256:0x_" +:+ zeros 61; "sha256: " +:+ zeros 63; "sha256:0_" +:+ zeros 62]
  = [true; true; true; true].
Proof. by vm_compute. Qed.

(** ** What an authorization shows *)

Section AuthorityFacts.
Context (sha256_hex float_repr : string -> string) (ed25519_verify : string -> string -> string -> bool)
  (registry_file : string -> option string).

Abbreviation load := (load_pinned sha256_hex float_repr registry_file).
Abbreviation authorize_at := (authorize sha256_hex float_repr ed25519_verify registry_file).

Lemma load_pinned_single environment registry : load environment = Ok registry ->
  registry = [] \/ exists key_id key, registry = [(key_id, key)].
Proof.
  unfold load_pinned. intros H. apply bind_Ok in H as (env & _ & H). apply bind_Ok in H as (text & _ & H).
  apply bind_Ok in H as (document & _ & H). destruct document as [| | | | | |d]; try done.
  apply bind_Ok in H as (digest & _ & H). apply bind_Ok in H as ([] & _ & H). unfold from_document in H.
  apply bind_Ok in H as (frozen & _ & H). destruct frozen as [| | | | | |e]; try done.
  apply bind_Ok in H as ([] & _ & H). destruct (getv "keys" e) as [| | | | |rows|]; try done.
  apply bind_Ok in H as ([] & _ & H). apply bind_Ok in H as (acc & _ & H). unfold require_one_active in H.
  apply bind_Ok in H as ([] & Hl%ensure_Ok & [= <-]). destruct (acc.1) as [|[k b] [|]]; [by left|right; by exists k, b|done].
Qed.

(** A document that is closed, addressed by its digest, and of its environment. *)
Record well_addressed (environment : string) (document body : dict) : Prop := mkWellAddressed {
  wa_fields : same_keys (keys document) SIGNED_DOCUMENT_FIELDS = true;
  wa_exact : exact_json (JDict document) = true;
  wa_body : getv "body" document = JDict body;
  wa_body_fields : same_keys (keys body) BODY_FIELDS = true;
  wa_format : getv "format" document = JStr COVERAGE_TRANSITION_FORMAT;
  wa_domain : getv "authority_domain" document = JStr COVERAGE_TRANSITION_DOMAIN;
  wa_environment : getv "environment" body = JStr environment;
  wa_key_id : nonempty_str (getv "issuer_key_id" document) = true;
  wa_build : exists id, getv "build_id" body = JStr id /\ id <> "";
  wa_datasets : exists datasets, normalize_datasets (getv "datasets" body) = Ok datasets;
  wa_id : exists id, getv "transition_id" document = JStr id /\
    digest_of sha256_hex (JDict [("format", JStr COVERAGE_TRANSITION_FORMAT);
      ("authority_domain", JStr COVERAGE_TRANSITION_DOMAIN); ("body", JDict body)]) = Ok id;
}.

Lemma py_eq_right_str v s : py_eq v (JStr s) = true -> v = JStr s.
Proof. destruct v as [|[]| | | | |]; simpl; try done. intros H. bools. by subst. Qed.

Lemma validate_document_Ok document expected frozen body :
  validate_signed_document sha256_hex document expected = Ok (frozen, body) ->
  document = JDict frozen /\ exists environment, expected = JStr environment /\ environment ∈ ENVIRONMENTS /\
    well_addressed environment frozen body.
Proof.
  unfold validate_signed_document. intros H. apply bind_Ok in H as (environment & He%on_error_Ok & H).
  apply bind_Ok in H as (fz & Hf & H). unfold freeze_json in Hf. apply bind_Ok in Hf as ([] & Hex%ensure_Ok & [= <-]).
  destruct document as [| | | | | |d]; try done. apply bind_Ok in H as ([] & Hk%ensure_Ok & H).
  apply bind_Ok in H as (b & Hb & H). destruct (getv "body" d) as [| | | | | |b'] eqn:Eb; try done.
  destruct (_ && _ && _ && _ && _ && _) eqn:Eg in Hb; [|done]. injection Hb as ->. bools.
  apply bind_Ok in H as (tid & Htid & H). apply bind_Ok in H as ([] & Hv & H). apply bind_Ok in H as (ex & Hx & H).
  apply bind_Ok in H as ([] & Ha%ensure_Ok & H). injection H as <- <-. split; [done|].
  unfold require_environment in He. destruct expected as [| | | |e| |]; try done. destruct (e ∈? ENVIRONMENTS) eqn:Ee; [|done].
  injection He as ->. bools. exists environment. split; [done|]. split; [done|].
  unfold validate_body in Hv. apply bind_Ok in Hv as ([] & Henv%ensure_Ok & Hv). apply bind_Ok in Hv as ([] & _ & Hv).
  apply bind_Ok in Hv as ([] & Hbuild%ensure_Ok & Hv). apply bind_Ok in Hv as (datasets & Hds & _). bools. unfold unsigned_request in Hx.
  apply bind_Ok in Hx as (id & Hid & [= <-]). simpl in Ha. bools.
  match goal with H : py_eq (getv "transition_id" d) _ = true |- _ => apply py_eq_right_str in H end.
  split; try done; [|by exists datasets|by exists id].
  destruct (getv "build_id" b) as [| | | |s| |]; try done. exists s. split; [done|]. simpl in Hbuild. by bools.
Qed.

(** The signature of the one active key over everything but the signature. *)
Definition signed_by (key : string * string) (document : dict) : Prop :=
  getv "issuer_key_id" document = JStr key.1 /\
  exists s raw text, getv "signature" document = JStr s /\ starts_with "ed25519:" s = true /\
    b64decode (str_drop 8 s) = Some raw /\ canonical_json (JDict (signature_message document)) = Ok text /\
    ed25519_verify key.2 raw text = true.

Lemma registry_verify_signed registry document : nonempty_str (getv "issuer_key_id" document) = true ->
  registry_verify ed25519_verify registry (str_field "issuer_key_id" document) (signature_message document)
    (getv "signature" document) = true ->
  exists key, key ∈ registry /\ signed_by key document.
Proof.
  intros Hn. unfold registry_verify, str_field. destruct (getv "issuer_key_id" document) as [| | | |id| |] eqn:Ei; try done.
  destruct (lookup_str id registry) as [key|] eqn:El; [|done].
  destruct (getv "signature" document) as [| | | |s| |] eqn:Es; try done. intros H. apply andb_true_iff in H as [Hs H].
  destruct (b64decode (str_drop 8 s)) as [raw|] eqn:Er; [|done].
  destruct (canonical_json (JDict (signature_message document))) as [text|] eqn:Et; [|done].
  exists (id, key). split; [|split; [done|by exists s, raw, text]].
  clear -El. induction registry as [|[k v] registry IH]; [done|]. simpl in El. case_bool_decide.
  - injection El as ->. subst. by left.
  - right. by apply IH.
Qed.

(** Claim C10.  A transition is authorised only by a document that is closed, addressed
    by the digest of its body and made out for this environment, that the one active
    key of the registry pinned for the environment signed, and at a moment within
    its lifetime, which is at most fifteen minutes. *)
Theorem authorization_sound document expected now a : authorize_at document expected now = Ok a ->
  exists environment key, expected = JStr environment /\ environment ∈ ENVIRONMENTS /\ load expected = Ok [key] /\
    document = JDict (au_document a) /\ well_addressed environment (au_document a) (au_body a) /\
    signed_by key (au_document a) /\
    getv "issued_at" (au_body a) = JStr (utc_z (au_issued a)) /\
    getv "expires_at" (au_body a) = JStr (utc_z (au_expires a)) /\
    au_now a = now /\ au_issued a <= now <= au_expires a /\
    0 < au_expires a - au_issued a <= MAX_AUTHORIZATION_SECONDS * 1000000.
Proof.
  unfold authorize. intros H. apply bind_Ok in H as (registry & Hl & H). apply bind_Ok in H as ([] & Hp%ensure_Ok & H).
  apply bind_Ok in H as ([frozen body] & Hv & H). apply bind_Ok in H as ([] & Hs%ensure_Ok & H).
  apply bind_Ok in H as (issued & (_ & _ & Hi)%parse_utc_z_spec & H).
  apply bind_Ok in H as (expires & (_ & _ & Hx)%parse_utc_z_spec & H).
  apply bind_Ok in H as ([] & Hlife%ensure_Ok & H). apply bind_Ok in H as (now' & Hn & [= <-]).
  unfold observe_authorization_time in Hn. apply bind_Ok in Hn as ([] & _ & Hn).
  apply bind_Ok in Hn as ([] & Hw%ensure_Ok & [= <-]). bools.
  destruct (validate_document_Ok _ _ _ _ Hv) as (-> & environment & -> & Henv & Hwell).
  destruct (registry_verify_signed _ _ (wa_key_id _ _ _ Hwell) Hs) as (key & Hin & Hsig).
  exists environment, key. simpl. split_and!; try done; try lia.
  destruct (load_pinned_single _ _ Hl) as [->|(k & b & ->)]; [by apply elem_of_nil in Hin|].
  by apply list_elem_of_singleton in Hin as ->.
Qed.
End AuthorityFacts.

(** ** The registries of this commit *)

(** storage/authorities/coverage_transition/public_keys.json, and its copy for staging. *)
Definition transition_registry : dict :=
  [("schema_version", JInt 1); ("purpose", JStr "coverage_complete_transition_verification"); ("keys", JList [])].

Definition checked_in_registry (environment : string) : option string := Some (file_text transition_registry).

Example transition_registry_file : String.length (file_text transition_registry) = 98%nat /\
  digest_of hexdigest (JDict transition_registry) = Ok PINNED_TRANSITION_DIGEST.
Proof. by vm_compute. Qed.

Lemma checked_in_empty float_repr environment : environment ∈ ENVIRONMENTS ->
  load_pinned hexdigest float_repr checked_in_registry (JStr environment) = Ok [].
Proof.
  intros He. unfold load_pinned, require_environment. rewrite bool_decide_eq_true_2 by done.
  cbn [on_error mbind result_bind]. vm_compute. reflexivity.
Qed.

(** With the registries of this commit no transition is authorised: whatever
    the document, the clock and the check of signatures, an environment that exists
    is told that the authority is pending, and another one is refused. *)
Theorem unprovisioned_authority_pending float_repr ed25519_verify document expected now :
  authorize hexdigest float_repr ed25519_verify checked_in_registry document expected now =
    match expected with
    | JStr s => if s ∈? ENVIRONMENTS
                then raise CoverageTransitionAuthorityPending "PENDING: COVERAGE_TRANSITION_AUTHORITY_UNPROVISIONED"
                else raise refused "Coverage environment is invalid"
    | _ => raise refused "Coverage environment is invalid"
    end.
Proof.
  destruct expected as [| | | |s| |]; try reflexivity. destruct (s ∈? ENVIRONMENTS) eqn:E; bools.
  - unfold authorize. rewrite checked_in_empty by done. reflexivity.
  - unfold authorize, load_pinned, require_environment. rewrite bool_decide_eq_false_2 by done. reflexivity.
Qed.

(** ** A provisioned registry *)

Definition sample_registry : dict :=
  [("schema_version", JInt 1); ("purpose", JStr "coverage_complete_transition_verification");
   ("keys", JList [JDict [("key_id", JStr "transition-1"); ("algorithm", JStr "Ed25519"); ("status", JStr "active");
      ("public_key_b64", JStr (b64encode (zeros 32)))]])].

(** A hash under which the sample is the pinned registry; all other digests are those
    of the samples of Receipt.v. *)
Definition pinned_hex (text : string) : string :=
  if text =s canonical_dumps (JDict sample_registry) then str_drop 7 PINNED_TRANSITION_DIGEST else toy_sha256_hex text.

Definition sample_registry_file (environment : string) : option string := Some (canonical_dumps (JDict sample_registry)).

(** The signature [toy_ed25519] accepts. *)
Definition toy_signature_of (message : dict) : json :=
  JStr ("ed25519:" +:+ b64encode (str_take 64 (canonical_dumps (JDict message) +:+ zeros 32 +:+ zeros 32))).

Definition sample_resource (environment : string) : json :=
  JDict [("environment", JStr environment);
         ("source_d1", match lookup_str environment D1_RESOURCES with Some d => JDict d | None => JNull end);
         ("source_audit_digest", JStr toy_digest); ("source_export_digest", JStr toy_digest); ("source_change_seq", JInt 5);
         ("governed_db_content_digest", JStr toy_digest)].

(** A document around a body, signed. *)
Definition sign_body (body : dict) : dict :=
  let unsigned := [("format", JStr COVERAGE_TRANSITION_FORMAT); ("authority_domain", JStr COVERAGE_TRANSITION_DOMAIN);
    ("issuer", JStr COVERAGE_TRANSITION_ISSUER); ("issuer_key_id", JStr "transition-1");
    ("algorithm", JStr COVERAGE_TRANSITION_ALGORITHM);
    ("transition_id", JStr (ok_or "" (r ← unsigned_request pinned_hex body; Ok (str_field "transition_id" r))));
    ("body", JDict body)] in
  unsigned ++ [("signature", toy_signature_of (signature_message unsigned))].

Definition sample_body : dict :=
  [("build_id", JStr "build-1"); ("environment", JStr "staging"); ("resource_identity", sample_resource "staging");
   ("publication_cutoff", JStr "2024-01-31"); ("datasets", JList [JStr "equities_bars_daily"]);
   ("dataset_set_digest", JStr toy_digest); ("from_state", JList []); ("from_state_digest", JStr toy_digest);
   ("target_state", JList []); ("target_state_digest", JStr toy_digest); ("coverage_policy_set", JDict []);
   ("coverage_policy_set_digest", JStr toy_digest); ("inventory_set_digest", JStr toy_digest); ("inventory_count", JInt 1);
   ("receipt_set_digest", JStr toy_digest); ("receipt_count", JInt 1); ("issued_at", JStr "2024-01-31T12:00:00Z");
   ("expires_at", JStr "2024-01-31T12:15:00Z")].

Definition authorize_sample (body : dict) (environment : string) (now : datetime) : result authorization :=
  authorize pinned_hex id toy_ed25519 sample_registry_file (JDict (sign_body body)) (JStr environment) now.

Definition sample_now : datetime := ymd2ord 2024 1 31 * day_micros + 43200000000 + 5000001.

(** Signed and current; for the other environment, too late, too long, with a
    time that is not canonical. *)
Example authorized_samples :
  map (fun r => match r with Ok a => utc_z (au_expires a) | Err e => exn_msg e end)
    [authorize_sample sample_body "staging" sample_now;
     authorize_sample sample_body "production" sample_now;
     authorize_sample sample_body "staging" (sample_now + 900000000);
     authorize_sample (dict_set "expires_at" (JStr "2024-01-31T12:15:01Z") sample_body) "staging" sample_now;
     authorize_sample (dict_set "expires_at" (JStr "2024-01-31T12:15:00.0Z") sample_body) "staging" sample_now]
  = ["2024-01-31T12:15:00Z"; "Coverage transition environment mismatch";
     "Coverage transition authorization is not current or expired"; "Coverage transition authorization is not current";
     "must be canonical UTC Z time"].
Proof. by vm_compute. Qed.

Lemma canonical_times_witness :
  parse_utc_z (JStr "2024-01-31T12:00:05Z") = Ok (sample_now - 1) /\
  (parse_utc_z (JStr "2024-01-31T12:00:05.0Z") = Ok (sample_now - 1) <->
     JStr "2024-01-31T12:00:05.0Z" = JStr "2024-01-31T12:00:05Z").
Proof.
  assert (H : parse_utc_z (JStr "2024-01-31T12:00:05Z") = Ok (sample_now - 1)) by (vm_compute; reflexivity).
  split; [exact H|]. destruct (canonical_times _ (JStr "2024-01-31T12:00:05.0Z") _ H) as [Hw _]. exact Hw.
Defined.

Definition sample_authorization (body : dict) : authorization :=
  ok_or (mkAuthorization [] [] 0 0 0) (authorize_sample body "staging" sample_now).

Lemma authorization_sound_witness :
  authorize_sample sample_body "staging" sample_now = Ok (sample_authorization sample_body) /\
  exists key, load_pinned pinned_hex id sample_registry_file (JStr "staging") = Ok [key] /\
    signed_by toy_ed25519 key (au_document (sample_authorization sample_body)).
Proof.
  assert (H : authorize_sample sample_body "staging" sample_now = Ok (sample_authorization sample_body))
    by (vm_compute; reflexivity).
  split; [exact H|].
  destruct (authorization_sound pinned_hex id toy_ed25519 sample_registry_file _ _ _ _ H)
    as (environment & key & _ & _ & Hl & _ & _ & Hs & _). exists key. split; [exact Hl|exact Hs].
Defined.
