(* ===== verification/CoverageTransition.v ===== *)
(** * CoverageTransition: the transition that makes datasets COMPLETE
    (packages/data_plane/storage/coverage_transition.py: the state of a transition,
    its application)

    A signed document names rows that a refresh computed COMPLETE but could only
    store as PARTIAL.  Applying it derives from the database again everything the
    document says, in one transaction: the build and its cut-off, the rows, the
    required inventory and the signed receipts.  It then inserts a tombstone, which
    no later transition can reuse, updates exactly these rows and reads everything
    back before it commits.  What the process sees outside the store (files, clock,
    schema) is an environment. *)

From S2P Require Import Prelude PyDate PyTime Json JsonText SourceCapability CoverageContract CoveragePlan ReceiptCrypto Receipt CoverageEval Transaction LedgerStore Inventory LedgerRefresh Publication CoverageProof TransitionAuthority.

Local Open Scope Z_scope.

Abbreviation refused := CoverageTransitionError (only parsing).

Definition TOMBSTONE_COLUMNS : list string :=
  ["transition_id"; "format"; "authority_domain"; "issuer_key_id"; "build_id"; "publication_cutoff"; "dataset_set_digest";
   "from_state_digest"; "target_state_digest"; "coverage_policy_set_digest"; "inventory_set_digest";
   "receipt_set_digest"; "signed_evidence_json"; "consumed_at"].

Definition TOMBSTONE_TRIGGER_NAMES : list string :=
  ["coverage_complete_transition_tombstones_no_update"; "coverage_complete_transition_tombstones_no_delete"].

(** ** Files *)

(** [Path.is_symlink]: the format bits of the mode. *)
Definition is_symlink (fs : filesystem) (path : string) : bool :=
  match fs_lstat fs path with Some info => Z.land (fi_mode info) 61440 =? 40960 | None => false end.

Definition resolve_db_path (fs : filesystem) (db_path : string) : result string :=
  _ ← ensure (negb (db_path =s "")) TypeError "Coverage transition DB path must be an exact string";
  _ ← ensure (negb (is_symlink fs db_path)) refused "Coverage transition DB cannot be a symlink";
  resolved ← fs_resolve fs db_path;
  _ ← ensure (match fs_stat fs resolved with Some info => fi_regular info | None => false end) refused
        "Coverage transition DB must be a file";
  Ok resolved.

(** The path, and the identity of the file that was opened: the files before and after,
    and the name the connection gives to its main database. *)
Definition open_db (before after : filesystem) (main_path : option string) (db_path : string)
    : result (string * file_info) :=
  path ← resolve_db_path before db_path;
  first ← of_option FileNotFoundError "No such file or directory" (fs_stat before path);
  main ← match main_path with Some m => p ← fs_resolve after m; Ok (Some p) | None => Ok None end;
  second ← of_option FileNotFoundError "No such file or directory" (fs_stat after path);
  _ ← ensure (bool_decide (main = Some path) && samestat first second) refused
        "Coverage transition DB identity changed while opening";
  Ok (path, second).

Definition assert_db_path_identity (fs : filesystem) (path : string) (identity : file_info) : result unit :=
  _ ← ensure (negb (is_symlink fs path)) refused "Coverage transition DB path became a symlink";
  current ← of_option refused "Coverage transition DB path identity is unavailable" (fs_stat fs path);
  ensure (fi_regular current && samestat current identity) refused
    "Coverage transition DB path no longer names the opened database".

(** A file that was opened and read to its end: what [fstat] says before and after,
    with size and time of modification, and the contents. *)
Record opened_file := mkOpenedFile {
  of_before : file_info;
  of_before_times : Z * Z;
  of_content : string;
  of_after : file_info;
  of_after_times : Z * Z;
}.

(** ** The schema *)

(** A row of [PRAGMA table_info]. *)
Record column_info := mkColumn {
  ci_name : string;
  ci_type : string;
  ci_notnull : Z;
  ci_default : option string;
  ci_pk : Z;
}.

Record authority_schema := mkSchema {
  as_migrations : list (Z * string);
  as_coverage_columns : list string;
  as_tombstone_columns : list column_info;
  as_tombstone_triggers : list string;
  as_coverage_triggers : list string;
}.

Definition upper_char (c : ascii) : ascii :=
  let n := N_of_ascii c in if (97 <=? n)%N && (n <=? 122)%N then ascii_of_N (n - 32) else c.

Fixpoint upper (s : string) : string :=
  match s with EmptyString => EmptyString | String c s => String (upper_char c) (upper s) end.

(** No character outside ASCII has T, E or X as its upper case. *)
Definition is_text_type (s : string) : bool := upper s =s "TEXT".

Definition assert_authority_schema (schema : authority_schema) (require_clean_coverage_triggers : bool) : result unit :=
  _ ← ensure (bool_decide (filter (fun m => m.1 = 12) (as_migrations schema)
        = [(12, "phase631_coverage_complete_transition_tombstones")])) refused
        "Coverage transition migration v12 identity is invalid";
  _ ← ensure (bool_decide (as_coverage_columns schema = DATASET_COVERAGE_COLUMNS)) refused
        "Coverage transition aggregate schema is not authority-owned";
  let info := as_tombstone_columns schema in
  _ ← ensure (bool_decide (map ci_name info = TOMBSTONE_COLUMNS) && forallb (fun c => is_text_type (ci_type c)) info
              && bool_decide (map ci_pk info = 1 :: repeat 0 13) && bool_decide (map ci_notnull info = 0 :: repeat 1 13)
              && forallb (fun c => negb (present (ci_default c))) info) refused
        "Coverage transition tombstone schema is not canonical";
  _ ← ensure (same_keys (as_tombstone_triggers schema) TOMBSTONE_TRIGGER_NAMES) refused
        "Coverage transition tombstone trigger ownership is invalid";
  ensure (negb require_clean_coverage_triggers || empty_list (as_coverage_triggers schema)) refused
    "Coverage transition aggregate has unowned triggers".

(** Whether an update and a delete of the tombstone, tried in savepoints that are
    rolled back, are refused. *)
Definition assert_tombstone_immutable (update_refused delete_refused : bool) : result unit :=
  _ ← ensure update_refused refused "Coverage transition tombstone update barrier is absent";
  ensure delete_refused refused "Coverage transition tombstone delete barrier is absent".

(** ** Rows *)

(** A row as the mapping [dict(row)]; its columns have the types of the schema. *)
Definition row_json (r : coverage_row) : dict :=
  [("dataset", JStr (dc_dataset r)); ("status", JStr (dc_status r)); ("policy_version", JStr (dc_policy_version r));
   ("collection_scope", JStr (dc_collection_scope r)); ("history_target_start", JStr (dc_history_target_start r));
   ("history_target_end_rule", JStr (dc_history_target_end_rule r)); ("coverage_mode", JStr (dc_coverage_mode r));
   ("expected_frequency", JStr (dc_expected_frequency r)); ("universe_rule", JStr (dc_universe_rule r));
   ("raw_retention_required", JInt (dc_raw_retention_required r));
   ("structured_reconciliation_required", JInt (dc_structured_reconciliation_required r));
   ("governance_tier", JStr (dc_governance_tier r)); ("observed_start", opt_json (dc_observed_start r));
   ("observed_end", opt_json (dc_observed_end r)); ("row_count", JInt (dc_row_count r));
   ("source_run_id", match dc_source_run_id r with Some n => JInt n | None => JNull end);
   ("evaluated_at", JStr (dc_evaluated_at r)); ("detail_json", JStr (dc_detail_json r))].

(** The columns a policy determines. *)
Definition row_policy (r : coverage_row) : list string * list Z :=
  ([dc_collection_scope r; dc_history_target_start r; dc_history_target_end_rule r; dc_coverage_mode r;
    dc_expected_frequency r; dc_universe_rule r; dc_governance_tier r],
   [dc_raw_retention_required r; dc_structured_reconciliation_required r]).

Definition bit (b : bool) : Z := if b then 1 else 0.

Definition contract_policy (c : CollectionCoverageContract) : list string * list Z :=
  ([collection_scope c; history_target_start c; history_target_end_rule c; coverage_mode c;
    expected_frequency c; universe_rule c; governance_tier c],
   [bit (raw_retention_required c); bit (structured_reconciliation_required c)]).

Definition current_policy_row (contract : CollectionCoverageContract) (version : string) (r : coverage_row) : result unit :=
  _ ← ensure (dc_policy_version r =s version) refused "active Coverage row is not current policy";
  _ ← ensure (bool_decide (row_policy r = contract_policy contract)) refused
        "active Coverage row differs from current policy";
  ensure ((dc_status r ∈? COVERAGE_STATUSES) && negb (dc_status r =s "COMPLETE")) refused
    "first-COMPLETE transition requires non-COMPLETE active state".

Definition first_check (name : string) (checks : list json) : option dict :=
  head (omap (fun c => match c with
                       | JDict d => if bool_decide (getv "check_id" d = JStr name) then Some d else None
                       | _ => None
                       end) checks).

Definition check_failed (c : json) : bool :=
  match c with JDict d => bool_decide (getv "status" d = JStr "fail") | _ => false end.

Definition is_dict (j : json) : bool := match j with JDict _ => true | _ => false end.

(** The checks of a J-Quants candidate. *)
Definition validation_passed (checks : json) : result unit :=
  match checks with
  | JList l =>
      _ ← ensure (negb (empty_list l) && forallb is_dict l) refused "Coverage transition validation evidence is missing";
      let failed := "Coverage transition validation is not PASS" in
      match first_check "C2" l with
      | Some validation =>
          match getv "metrics" validation with
          | JDict metrics =>
              ensure (bool_decide (getv "status" validation = JStr "pass")
                      && bool_decide (getv "source" metrics = JStr "ingestion_validation")
                      && bool_decide (getv "validation_status" metrics = JStr "pass")
                      && negb (existsb check_failed l)) refused failed
          | _ => raise refused failed
          end
      | None => raise refused failed
      end
  | _ => raise refused "Coverage transition validation evidence is missing"
  end.

(** The gate of the refresh computed COMPLETE, and only the authority was missing. *)
Definition candidate_gate (policy_version publication_cutoff : string) (gate : dict) : bool :=
  forallb (fun p => bool_decide (getv p.1 gate = JStr p.2))
    [("mode", "generic_refresh_c10_transition_authority_unavailable"); ("computed_status", "COMPLETE");
     ("persisted_status", "PARTIAL"); ("blocker", "transition_authority_required");
     ("current_policy_version", policy_version); ("inventory_target_end", publication_cutoff)].

Definition counts_complete (required_segments status_counts : json) (inventory_count : Z) : bool :=
  bool_decide (required_segments = JInt inventory_count)
  && match status_counts with
     | JDict d => same_keys (keys d) ["COMPLETE"] && bool_decide (getv "COMPLETE" d = JInt inventory_count)
     | _ => false
     end.

Section Transition.
Variable capabilities : registry.
Variable contracts : coverage_registry.
Variable sha256_hex : string -> string.
Variable float_repr : string -> string.
Variable date_matches : string -> list (Z * Z * Z).
Variable table_rows : string -> list string.
Variable visible_text : string -> string.
Variable verify : CollectionReceipt -> result VerifiedCollectionClosure.
Variable ed25519_verify : string -> string -> string -> bool.
Variable registry_file : string -> option string.

Abbreviation verify_exact := (verify_exact_coverage_complete capabilities contracts sha256_hex float_repr
  date_matches table_rows visible_text verify).
Abbreviation binding_of := (coverage_policy_binding contracts sha256_hex).
Abbreviation digest := (digest_of sha256_hex).
Abbreviation loads := (json_loads float_repr).

Definition regular_file_digest (file : option opened_file) : result string :=
  f ← of_option refused "Coverage DB resource identity is unreadable" file;
  _ ← ensure (fi_regular (of_before f) && (fi_nlink (of_before f) =? 1)) refused "Coverage DB resource identity is unsafe";
  _ ← ensure (samestat (of_before f) (of_after f) && bool_decide (of_before_times f = of_after_times f)) refused
        "Coverage DB changed while hashing";
  Ok ("sha256:" +:+ sha256_hex (of_content f)).

(** The numbers of a row, its policy, its status and the shape of its detail. *)
Definition assert_current_policy_row (r : coverage_row) : result unit :=
  _ ← ensure ((dc_raw_retention_required r ∈? [0; 1]) && (dc_structured_reconciliation_required r ∈? [0; 1])) refused
        "active Coverage row contains a noncanonical boolean value";
  _ ← ensure (0 <=? dc_row_count r) refused "active Coverage row contains an invalid row count";
  _ ← ensure (match dc_source_run_id r with Some n => 0 <? n | None => true end) refused
        "active Coverage row contains an invalid source run id";
  binding ← binding_of (dc_dataset r);
  contract ← coverage_contract_for contracts (dc_dataset r);
  _ ← current_policy_row contract (pb_policy_version binding) r;
  detail ← on_error [ValueError] refused "active Coverage detail is malformed" (loads (dc_detail_json r));
  ensure (is_dict detail) refused "active Coverage detail is not an object".

Definition read_active_rows (t : tables) (datasets : list string) : result (list coverage_row) :=
  let rows := coverage_rows_for t datasets in
  _ ← ensure (bool_decide (map dc_dataset rows = datasets)) refused
        "Coverage transition active dataset membership is incomplete";
  _ ← mapR assert_current_policy_row rows;
  Ok rows.

Definition require_computed_complete_candidate (r : coverage_row) (publication_cutoff : string) (inventory_count : Z)
    : result unit :=
  let no_candidate := "Coverage transition active state is not a computed COMPLETE candidate" in
  detail ← loads (dc_detail_json r);
  match detail with
  | JDict detail =>
      match getv "coverage_v2" detail with
      | JDict coverage =>
          _ ← (match getv "aggregate_complete_gate" coverage with
               | JDict gate => ensure (candidate_gate (dc_policy_version r) publication_cutoff gate) refused no_candidate
               | _ => raise refused no_candidate
               end);
          _ ← ensure (dc_status r =s "PARTIAL") refused "Coverage transition candidate was not persisted PARTIAL";
          _ ← ensure (counts_complete (getv "required_segments" coverage) (getv "status_counts" coverage) inventory_count
                      && bool_decide (getv "global_failures" detail = JList [])) refused
                "Coverage transition computed target is not exact COMPLETE";
          if starts_with "jsda_" (dc_dataset r) then Ok tt else validation_passed (getv "checks" detail)
      | _ => raise refused no_candidate
      end
  | _ => raise AttributeError "'get'"
  end.

(** ** What a document has to say *)

Definition publication_binding (fs : filesystem) (db : database) (main_path db_path build_id policy_version : string)
    : result (string * json) :=
  cutoff ← on_error [CoveragePublicationCutoffError] refused "Coverage transition build/cutoff authority is unavailable"
             (validation_coverage_cutoff_for_build fs db main_path db_path (JStr build_id));
  match publications_of build_id db with
  | [row] =>
      _ ← ensure (forallb (fun s => negb (s =s "")) [pub_build_id row; pub_state row; pub_staging_path row;
                   pub_coverage_policy_version row; pub_created_at row]) refused
            "Coverage transition publication contains noncanonical values";
      _ ← ensure (pub_coverage_policy_version row =s policy_version) refused
            "Coverage transition build policy differs from current policy set";
      path_digest ← digest (JDict [("path", JStr db_path)]);
      Ok (cutoff, JDict [("build_id", JStr (pub_build_id row)); ("state", JStr (pub_state row));
                         ("staging_path_digest", JStr path_digest);
                         ("coverage_policy_version", JStr (pub_coverage_policy_version row));
                         ("created_at", JStr (pub_created_at row)); ("publication_cutoff", JStr cutoff)])
  | _ => raise refused "Coverage transition requires one active publication"
  end.

(** [sorted(..., key=_canonical_bytes)] *)
Definition canonically_sorted (values : list json) : result (list json) :=
  texts ← mapR (fun v => t ← canonical_json v; Ok (t, v)) values;
  Ok (map snd (py_sorted (fun a b => String.leb a.1 b.1) texts)).

Definition inventory_rows (v : ExactCoverageCompleteVerification) : result (list json) :=
  rows ← mapR (fun i => d ← identity_to_dict float_repr i; Ok (JDict d)) (expected_identities (inventory v));
  canonically_sorted rows.

Definition receipt_rows (v : ExactCoverageCompleteVerification) : result (list json) :=
  rows ← mapR (fun c => d ← to_proof_dict c; Ok (JDict d)) (closures v);
  canonically_sorted rows.

Definition policy_set_json (s : policy_set_binding) : json :=
  JDict [("policy_version", JStr (ps_policy_version s)); ("policy_digest", JStr (ps_policy_digest s));
         ("datasets", JList (map binding_json (ps_datasets s)))].

Definition from_entry (r : coverage_row) : result json :=
  binding ← binding_of (dc_dataset r);
  row_digest ← digest (JDict (row_json r));
  Ok (JDict [("dataset", JStr (dc_dataset r)); ("status", JStr (dc_status r));
             ("policy_version", JStr (dc_policy_version r)); ("policy_digest", JStr (pb_policy_digest binding));
             ("row_digest", JStr row_digest)]).

Definition target_entry (inventory_set_digest receipt_set_digest : string) (r : coverage_row) : result json :=
  binding ← binding_of (dc_dataset r);
  Ok (JDict [("dataset", JStr (dc_dataset r)); ("status", JStr "COMPLETE");
             ("policy_version", JStr (dc_policy_version r)); ("policy_digest", JStr (pb_policy_digest binding));
             ("inventory_set_digest", JStr inventory_set_digest); ("receipt_set_digest", JStr receipt_set_digest)]).

Definition from_state_document (publication : json) (rows : list coverage_row) : json :=
  JDict [("publication", publication); ("rows", JList (map (fun r => JDict (row_json r)) rows))].

Definition transition_lifetime (issued expires : datetime) : bool :=
  negb ((expires <=? issued) || (MAX_AUTHORIZATION_SECONDS * 1000000 <? expires - issued)).

(** The verification of the exact inventory, which must be eligible. *)
Definition eligible_verification (t : tables) (datasets : list string) (cutoff : string)
    : result ExactCoverageCompleteVerification :=
  v ← on_error [CoverageInventoryAuthorityUnavailable] refused "Coverage transition exact inventory authority is unavailable"
        (verify_exact t datasets cutoff);
  _ ← ensure (exact (inventory v)) refused "Coverage transition target inventory is not exact";
  _ ← ensure (complete_eligible v) refused "Coverage transition selected signed receipts are incomplete";
  Ok v.

Definition derive_transition_body (fs : filesystem) (db : database) (main_path db_path : string) (build_id : json)
    (datasets : list string) (issued_at expires_at : json) : result dict :=
  id ← build_id_of TypeError "Coverage transition build id must be an exact string" build_id;
  issued ← parse_utc_z issued_at;
  expires ← parse_utc_z expires_at;
  _ ← ensure (transition_lifetime issued expires) refused "Coverage transition authorization lifetime is invalid";
  policy_set ← coverage_policy_set_binding contracts sha256_hex datasets;
  rows ← read_active_rows (db_ledger db) datasets;
  '(cutoff, publication) ← publication_binding fs db main_path db_path id (ps_policy_version policy_set);
  v ← eligible_verification (db_ledger db) datasets cutoff;
  inventory_list ← inventory_rows v;
  receipt_list ← receipt_rows v;
  _ ← mapR (fun r => require_computed_complete_candidate r cutoff
                       (Z.of_nat (length (segments_for (inventory v) (dc_dataset r))))) rows;
  from_state ← mapR from_entry rows;
  inventory_set_digest ← digest (JDict [("inventory", JList inventory_list)]);
  receipt_set_digest ← digest (JDict [("receipts", JList receipt_list)]);
  target_state ← mapR (target_entry inventory_set_digest receipt_set_digest) rows;
  dataset_set_digest ← digest (JDict [("datasets", JList (map JStr datasets))]);
  from_state_digest ← digest (from_state_document publication rows);
  target_state_digest ← digest (JDict [("target", JList target_state)]);
  Ok [("build_id", JStr id); ("publication_cutoff", JStr cutoff); ("datasets", JList (map JStr datasets));
      ("dataset_set_digest", JStr dataset_set_digest); ("from_state", JList from_state);
      ("from_state_digest", JStr from_state_digest); ("target_state", JList target_state);
      ("target_state_digest", JStr target_state_digest); ("coverage_policy_set", policy_set_json policy_set);
      ("coverage_policy_set_digest", JStr (ps_policy_digest policy_set));
      ("inventory_set_digest", JStr inventory_set_digest); ("inventory_count", JInt (Z.of_nat (length inventory_list)));
      ("receipt_set_digest", JStr receipt_set_digest); ("receipt_count", JInt (Z.of_nat (length receipt_list)));
      ("issued_at", issued_at); ("expires_at", expires_at)].

(** ** Applying *)

(** What the process sees while it applies a transition: the files when the path is
    resolved, when the database is open, when the document is derived again, before
    the rows are changed, when they are read back and before the commit; the name of
    the main database; the schema at the start and at the end, and whether the
    tombstones resist; the file of the database; three readings of the clock. *)
Record transition_environment := mkTransitionEnvironment {
  te_files : filesystem;
  te_opened : filesystem;
  te_main_path : option string;
  te_schema : authority_schema;
  te_file : option opened_file;
  te_derive_files : filesystem;
  te_change_files : filesystem;
  te_reread_files : filesystem;
  te_final_schema : authority_schema;
  te_update_refused : bool;
  te_delete_refused : bool;
  te_commit_files : filesystem;
  te_now : datetime;
  te_state_now : datetime;
  te_commit_now : datetime;
}.

Definition main_of (env : transition_environment) : string := default "" (te_main_path env).

Definition expected_tombstone (document body : dict) (consumed_at : string) : result tombstone_row :=
  evidence ← canonical_json (JDict document);
  Ok (mkTombstone (str_field "transition_id" document) (str_field "format" document)
        (str_field "authority_domain" document) (str_field "issuer_key_id" document) (str_field "build_id" body)
        (str_field "publication_cutoff" body) (str_field "dataset_set_digest" body) (str_field "from_state_digest" body)
        (str_field "target_state_digest" body) (str_field "coverage_policy_set_digest" body)
        (str_field "inventory_set_digest" body) (str_field "receipt_set_digest" body) evidence consumed_at).

(** The entry that names the transition in the detail of a row. *)
Definition complete_transition (document body : dict) (candidate_digest : string) : json :=
  JDict ([("format", JStr COVERAGE_TRANSITION_FORMAT); ("transition_id", getv "transition_id" document)]
         ++ map (fun f => (f, getv f body))
              ["build_id"; "publication_cutoff"; "dataset_set_digest"; "coverage_policy_set_digest";
               "inventory_set_digest"; "receipt_set_digest"]
         ++ [("candidate_gate_digest", JStr candidate_digest)]).

(** [{**candidate_gate, ...}] *)
Definition transition_gate (document candidate : dict) : dict :=
  dict_merge candidate
    [("mode", JStr "signed_coverage_transition_authority"); ("persisted_status", JStr "COMPLETE");
     ("inventory_status", JStr "EXACT"); ("selected_receipt_status", JStr "VERIFIED"); ("blocker", JNull);
     ("transition_id", getv "transition_id" document)].

Definition target_detail (document body : dict) (detail_json : string) : result string :=
  parsed ← loads detail_json;
  match parsed with
  | JDict detail =>
      match getv "coverage_v2" detail with
      | JDict coverage =>
          match getv "aggregate_complete_gate" coverage with
          | JDict candidate =>
              candidate_digest ← digest (JDict candidate);
              let coverage := dict_set "complete_transition" (complete_transition document body candidate_digest) coverage in
              let coverage := dict_set "aggregate_complete_gate" (JDict (transition_gate document candidate)) coverage in
              canonical_json (JDict (dict_set "coverage_v2" (JDict coverage) detail))
          | _ => raise refused "Coverage transition candidate gate disappeared before CAS"
          end
      | _ => raise refused "Coverage transition candidate evidence disappeared before CAS"
      end
  | _ => raise AttributeError "'get'"
  end.

Definition expected_target_row (document body : dict) (consumed_at : string) (r : coverage_row) : result coverage_row :=
  detail_json ← target_detail document body (dc_detail_json r);
  Ok (set_evidence "COMPLETE" detail_json consumed_at r).

Definition insert_tombstone (row : tombstone_row) (db : database) : result (database * unit) :=
  _ ← ensure (tombstone_check row) IntegrityError "CHECK constraint failed";
  _ ← ensure (negb (tb_transition_id row ∈? map tb_transition_id (db_tombstones db))
              && negb (bool_decide ((tb_build_id row, tb_dataset_set_digest row)
                                    ∈ map (fun r => (tb_build_id r, tb_dataset_set_digest r)) (db_tombstones db))))
        IntegrityError "UNIQUE constraint failed";
  Ok (with_tombstones (db_tombstones db ++ [row]) db, tt).

(** An update of the row that is exactly the one that was read. *)
Definition update_row (old new : coverage_row) (db : database) : result (database * Z) :=
  '(t, updated) ← update_coverage (fun r => bool_decide (r = old))
                    (set_evidence "COMPLETE" (dc_detail_json new) (dc_evaluated_at new)) (db_ledger db);
  Ok (with_ledger t db, updated).

Definition cas_row (document body : dict) (consumed_at : string) (r : coverage_row) : session coverage_row :=
  expected ← lift (expected_target_row document body consumed_at r);
  updated ← statement (update_row r expected);
  _ ← lift (ensure (updated =? 1) refused "Coverage transition active-state CAS failed");
  mret expected.

Definition apply_cas (document body : dict) (rows : list coverage_row) (consumed_at : string)
    : session (list coverage_row) :=
  tombstone ← lift (expected_tombstone document body consumed_at);
  _ ← statement (insert_tombstone tombstone);
  traverse (cas_row document body consumed_at) rows.

(** [WHERE transition_id=? OR (build_id=? AND dataset_set_digest=?)] *)
Definition consumes (document body : dict) (r : tombstone_row) : bool :=
  (tb_transition_id r =s str_field "transition_id" document)
  || ((tb_build_id r =s str_field "build_id" body) && (tb_dataset_set_digest r =s str_field "dataset_set_digest" body)).

Definition assert_post_apply_state (env : transition_environment) (db : database) (db_path : string)
    (document body : dict) (rows expected_rows : list coverage_row) (consumed_at : string) : result unit :=
  datasets ← normalize_datasets (getv "datasets" body);
  _ ← ensure (bool_decide (coverage_rows_for (db_ledger db) datasets = expected_rows)) refused
        "Coverage transition target rows failed post-CAS verification";
  tombstone ← expected_tombstone document body consumed_at;
  _ ← ensure (bool_decide (filter (fun r => consumes document body r = true) (db_tombstones db) = [tombstone])) refused
        "Coverage transition tombstone failed exact post-CAS verification";
  policy_set ← coverage_policy_set_binding contracts sha256_hex datasets;
  _ ← ensure (py_eq (policy_set_json policy_set) (getv "coverage_policy_set" body)
              && py_eq (JStr (ps_policy_digest policy_set)) (getv "coverage_policy_set_digest" body)) refused
        "Coverage transition policy changed during CAS";
  '(cutoff, publication) ← publication_binding (te_reread_files env) db (main_of env) db_path (str_field "build_id" body)
                             (ps_policy_version policy_set);
  from_state_digest ← digest (from_state_document publication rows);
  _ ← ensure (py_eq (JStr cutoff) (getv "publication_cutoff" body)
              && py_eq (JStr from_state_digest) (getv "from_state_digest" body)) refused
        "Coverage transition publication binding changed during CAS";
  v ← on_error [CoverageInventoryAuthorityUnavailable] refused
        "Coverage transition exact inventory authority disappeared during CAS" (verify_exact (db_ledger db) datasets cutoff);
  _ ← ensure (exact (inventory v) && complete_eligible v) refused "Coverage transition exact evidence changed during CAS";
  inventory_list ← inventory_rows v;
  receipt_list ← receipt_rows v;
  inventory_set_digest ← digest (JDict [("inventory", JList inventory_list)]);
  receipt_set_digest ← digest (JDict [("receipts", JList receipt_list)]);
  _ ← ensure (forallb (fun p => py_eq p.2 (getv p.1 body))
        [("inventory_set_digest", JStr inventory_set_digest); ("inventory_count", JInt (Z.of_nat (length inventory_list)));
         ("receipt_set_digest", JStr receipt_set_digest); ("receipt_count", JInt (Z.of_nat (length receipt_list)))]) refused
        "Coverage transition evidence digests changed during CAS";
  _ ← assert_authority_schema (te_final_schema env) true;
  assert_tombstone_immutable (te_update_refused env) (te_delete_refused env).

Definition resource_digest (body : dict) : json :=
  match getv "resource_identity" body with JDict r => getv "governed_db_content_digest" r | _ => JNull end.

Definition transition_receipt (document body : dict) : dict :=
  [("status", JStr "COMPLETE"); ("transition_id", getv "transition_id" document); ("build_id", getv "build_id" body);
   ("publication_cutoff", getv "publication_cutoff" body); ("dataset_set_digest", getv "dataset_set_digest" body)].

Definition apply_in_transaction (env : transition_environment) (a : authorization) (path : string) (identity : file_info)
    : session dict :=
  let document := au_document a in
  let body := au_body a in
  _ ← lift (assert_authority_schema (te_schema env) false);
  db ← select (fun db => db);
  _ ← lift (ensure (negb (existsb (consumes document body) (db_tombstones db))) CoverageTransitionAlreadyConsumed
        "Coverage transition evidence was already consumed");
  file_digest ← lift (regular_file_digest (te_file env));
  _ ← lift (ensure (py_eq (JStr file_digest) (resource_digest body)) refused
        "Coverage transition does not bind the governed DB resource");
  datasets ← lift (normalize_datasets (getv "datasets" body));
  expected ← lift (derive_transition_body (te_derive_files env) db (main_of env) path (getv "build_id" body) datasets
                     (getv "issued_at" body) (getv "expires_at" body));
  _ ← lift (ensure (forallb (fun p => py_eq (getv p.1 body) p.2) expected) refused
        "Coverage transition does not bind the exact live active/target state");
  rows ← lift (read_active_rows (db_ledger db) datasets);
  final_now ← lift (observe_authorization_time (te_state_now env) (au_issued a) (au_expires a) (Some (au_now a)));
  let consumed_at := dt_isoformat_seconds final_now in
  _ ← lift (assert_db_path_identity (te_change_files env) path identity);
  expected_rows ← apply_cas document body rows consumed_at;
  applied ← select (fun db => db);
  _ ← lift (assert_post_apply_state env applied path document body rows expected_rows consumed_at);
  _ ← lift (assert_db_path_identity (te_commit_files env) path identity);
  _ ← lift (observe_authorization_time (te_commit_now env) (au_issued a) (au_expires a) (Some final_now));
  mret (transition_receipt document body).

(** Nothing of the database is read before the document is authorised; the connection
    is one of its own, in its own transaction. *)
Definition apply_signed_coverage_transition (env : transition_environment) (db_path : string)
    (document expected_environment : json) : session dict :=
  a ← lift (authorize sha256_hex float_repr ed25519_verify registry_file document expected_environment (te_now env));
  '(path, identity) ← lift (open_db (te_files env) (te_opened env) (te_main_path env) db_path);
  owning (apply_in_transaction env a path identity).

(** ** Requests *)

Definition build_coverage_transition_request_from_owned_connection (fs : filesystem) (main_path governed_db_path : string)
    (build_id datasets issued_at expires_at : json) : session dict := fun c =>
  (c, _ ← ensure (in_transaction c) refused "Coverage transition requires an owned frozen read transaction";
      _ ← ensure (starts_with "/" governed_db_path) refused "Coverage governed database path is not absolute";
      selected ← normalize_datasets datasets;
      body ← derive_transition_body fs (view c) main_path governed_db_path build_id selected issued_at expires_at;
      unsigned_request sha256_hex body).

(** A read transaction, which is rolled back. *)
Definition reading {A} (m : session A) : session A := fun c => let r := m (begin_ c) in (rollback r.1, r.2).

Definition build_coverage_transition_request (env : transition_environment) (db_path : string)
    (build_id datasets issued_at expires_at : json) : session dict :=
  selected ← lift (normalize_datasets datasets);
  '(path, identity) ← lift (open_db (te_files env) (te_opened env) (te_main_path env) db_path);
  reading (
    request ← build_coverage_transition_request_from_owned_connection (te_derive_files env) (main_of env) path build_id
                (JList (map JStr selected)) issued_at expires_at;
    _ ← lift (assert_db_path_identity (te_commit_files env) path identity);
    mret request).
End Transition.

(** ** What applying does *)

Lemma normalize_datasets_Ok value datasets : normalize_datasets value = Ok datasets ->
  datasets <> [] /\ NoDup datasets /\ value = JList (map JStr datasets).
Proof.
  unfold normalize_datasets. destruct value as [| | | | |l|]; try done.
  destruct (mapM _ l) as [selected|] eqn:E; [|done]. intros H. apply bind_Ok in H as ([] & Hd%ensure_Ok & [= <-]). bools.
  split; [done|]. split; [done|]. f_equal. apply mapM_Some_1 in E. clear -E.
  induction E as [|x y l l' Hxy _ IH]; [done|]. destruct x as [| | | |s| |]; try done. case_bool_decide; [done|].
  injection Hxy as ->. simpl. by rewrite IH.
Qed.

Lemma elem_of_coverage_rows t datasets r :
  r ∈ coverage_rows_for t datasets <-> r ∈ dataset_coverage t /\ dc_dataset r ∈ datasets.
Proof. unfold coverage_rows_for. rewrite py_sorted_perm, list_elem_of_filter. tauto. Qed.

Lemma exact_list l : exact_json (JList l) = true <-> Forall (fun j => exact_json j = true) l.
Proof. simpl. rewrite forallb_forall, Forall_forall. by setoid_rewrite list_elem_of_In. Qed.

Lemma exact_getv k d : exact_json (JDict d) = true -> exact_json (getv k d) = true.
Proof.
  simpl. intros [_ H]%andb_true_iff. unfold getv. induction d as [|[k' v] d IH]; [done|]. simpl in *.
  apply andb_true_iff in H as [Hv H]. case_bool_decide; [done|by apply IH].
Qed.

Lemma py_eq_list l m : py_eq (JList l) (JList m) = true -> Forall2 (fun a b => py_eq a b = true) l m.
Proof.
  revert m. induction l as [|x l IH]; intros [|y m]; try done. simpl. intros [Hx Hl]%andb_true_iff.
  constructor; [done|by apply IH].
Qed.

Lemma py_eq_members d e : py_eq (JDict d) (JDict e) = true -> length d = length e /\
  Forall (fun p => exists w, get p.1 e = Some w /\ py_eq p.2 w = true) d.
Proof.
  simpl. intros [Hl H]%andb_true_iff. apply Nat.eqb_eq in Hl. split; [done|]. clear Hl.
  induction d as [|[k v] d IH]; [done|]. apply andb_true_iff in H as [Hk H]. constructor; [|by apply IH].
  simpl. destruct (get k e) as [w|]; [|done]. by exists w.
Qed.

Lemma get_Some_key k d w : get k d = Some w -> (k, w) ∈ d.
Proof.
  induction d as [|[k' v] d IH]; [done|]. simpl. case_bool_decide as E; [intros [= ->]; subst; left|]. intros H. right. by apply IH.
Qed.

Lemma get_None_key k d : get k d = None -> k ∉ keys d.
Proof.
  induction d as [|[k' v] d IH]; [intros _; apply not_elem_of_nil|]. simpl. case_bool_decide as E; [done|].
  intros H. apply not_elem_of_cons. split; [congruence|by apply IH].
Qed.

(** Equal mappings have the same texts under the same keys. *)
Lemma py_eq_field d e k s : exact_json (JDict d) = true -> py_eq (JDict d) (JDict e) = true ->
  getv k e = JStr s -> getv k d = JStr s.
Proof.
  intros [Hn%bool_decide_eq_true _]%andb_true_iff [Hl Hd]%py_eq_members He.
  assert (Hk : k ∈ keys e).
  { unfold getv in He. destruct (get k e) eqn:E; [|done]. apply get_Some_key in E. apply list_elem_of_fmap. by eexists (_, _). }
  assert (Hin : keys d ⊆ keys e).
  { intros x (p & -> & Hp)%list_elem_of_fmap. rewrite Forall_forall in Hd. destruct (Hd _ Hp) as (w & Hw & _).
    apply get_Some_key in Hw. apply list_elem_of_fmap. by eexists (_, _). }
  assert (Hkd : k ∈ keys d).
  { apply list_elem_of_In. apply (NoDup_length_incl (l := keys d) (l' := keys e)).
    - by apply NoDup_ListNoDup.
    - unfold keys. rewrite !length_map. lia.
    - intros x. rewrite <- !list_elem_of_In. apply Hin.
    - by apply list_elem_of_In. }
  unfold getv. destruct (get k d) as [v|] eqn:Ev; [|by apply get_None_key in Ev]. simpl.
  rewrite Forall_forall in Hd. destruct (Hd _ (get_Some_key _ _ _ Ev)) as (w & Hw & Hvw). simpl in *.
  unfold getv in He. rewrite Hw in He. simpl in He. subst w. by apply py_eq_right_str in Hvw.
Qed.

Lemma observe_Ok observed issued expires previous now :
  observe_authorization_time observed issued expires previous = Ok now ->
  now = observed /\ issued <= now <= expires /\ (forall p, previous = Some p -> p <= now).
Proof.
  unfold observe_authorization_time. intros H. apply bind_Ok in H as ([] & Hp%ensure_Ok & H).
  apply bind_Ok in H as ([] & Hw%ensure_Ok & [= <-]). bools. split; [done|]. split; [lia|]. intros p ->. bools. lia.
Qed.

Section TransitionFacts.
Context (capabilities : registry) (contracts : coverage_registry) (sha256_hex float_repr : string -> string)
  (date_matches : string -> list (Z * Z * Z)) (table_rows : string -> list string) (visible_text : string -> string)
  (verify : CollectionReceipt -> result VerifiedCollectionClosure)
  (ed25519_verify : string -> string -> string -> bool) (registry_file : string -> option string).

Abbreviation verify_exact := (verify_exact_coverage_complete capabilities contracts sha256_hex float_repr
  date_matches table_rows visible_text verify).
Abbreviation binding_of := (coverage_policy_binding contracts sha256_hex).
Abbreviation derive := (derive_transition_body capabilities contracts sha256_hex float_repr date_matches table_rows
  visible_text verify).
Abbreviation apply_in := (apply_in_transaction capabilities contracts sha256_hex float_repr date_matches table_rows
  visible_text verify).
Abbreviation apply_signed := (apply_signed_coverage_transition capabilities contracts sha256_hex float_repr date_matches
  table_rows visible_text verify ed25519_verify registry_file).
Abbreviation authorize_at := (authorize sha256_hex float_repr ed25519_verify registry_file).
Abbreviation target_row := (expected_target_row sha256_hex float_repr).
Abbreviation cas := (cas_row sha256_hex float_repr).

(** A row that a refresh computed COMPLETE under the policy in force, for this cut-off
    and this number of required segments, and stored as PARTIAL for want of an
    authority. *)
Definition computed_complete (cutoff : string) (count : Z) (r : coverage_row) : Prop :=
  exists binding contract detail coverage gate, binding_of (dc_dataset r) = Ok binding /\
    dc_policy_version r = pb_policy_version binding /\ coverage_contract_for contracts (dc_dataset r) = Ok contract /\
    row_policy r = contract_policy contract /\ dc_status r = "PARTIAL" /\
    json_loads float_repr (dc_detail_json r) = Ok (JDict detail) /\ getv "coverage_v2" detail = JDict coverage /\
    getv "aggregate_complete_gate" coverage = JDict gate /\ getv "computed_status" gate = JStr "COMPLETE" /\
    getv "blocker" gate = JStr "transition_authority_required" /\ getv "inventory_target_end" gate = JStr cutoff /\
    getv "current_policy_version" gate = JStr (dc_policy_version r) /\ getv "required_segments" coverage = JInt count /\
    getv "global_failures" detail = JList [].

Lemma candidate_Ok r cutoff count u u' : assert_current_policy_row contracts sha256_hex float_repr r = Ok u ->
  require_computed_complete_candidate float_repr r cutoff count = Ok u' -> computed_complete cutoff count r.
Proof.
  unfold assert_current_policy_row, require_computed_complete_candidate, current_policy_row. intros H H'.
  apply bind_Ok in H as ([] & _ & H). apply bind_Ok in H as ([] & _ & H). apply bind_Ok in H as ([] & _ & H).
  apply bind_Ok in H as (binding & Hb & H). apply bind_Ok in H as (contract & Hc & H).
  apply bind_Ok in H as ([] & Hp & _). apply bind_Ok in Hp as ([] & Hv%ensure_Ok & Hp).
  apply bind_Ok in Hp as ([] & Hr%ensure_Ok & _). apply bind_Ok in H' as (detail & Hd & H').
  destruct detail as [| | | | | |detail]; try done. destruct (getv "coverage_v2" detail) as [| | | | | |coverage] eqn:Ec; try done.
  apply bind_Ok in H' as ([] & Hg & H'). destruct (getv "aggregate_complete_gate" coverage) as [| | | | | |gate] eqn:Eg; try done.
  apply ensure_Ok in Hg. apply bind_Ok in H' as ([] & Hs%ensure_Ok & H'). apply bind_Ok in H' as ([] & Hn%ensure_Ok & _).
  unfold candidate_gate in Hg. cbn [forallb fst snd] in Hg. unfold counts_complete in Hn. bools.
  exists binding, contract, detail, coverage, gate. by split_and!.
Qed.

(** The target state of a body names a row: its dataset, its policy, COMPLETE. *)
Definition names_row (body : dict) (r : coverage_row) : Prop := exists entries entry,
  getv "target_state" body = JList entries /\ JDict entry ∈ entries /\ getv "dataset" entry = JStr (dc_dataset r) /\
  getv "status" entry = JStr "COMPLETE" /\ getv "policy_version" entry = JStr (dc_policy_version r).

(** The entries of a body that the document has to repeat. *)
Lemma derive_Ok fs db main path build_id datasets issued_at expires_at expected :
  derive fs db main path build_id datasets issued_at expires_at = Ok expected ->
  exists cutoff publication v rows, active_build fs db main path build_id publication /\
    utc_date_text CoveragePublicationCutoffError (pub_created_at publication) = Ok cutoff /\
    verify_exact (db_ledger db) datasets cutoff = Ok v /\ complete_eligible v = true /\
    read_active_rows contracts sha256_hex float_repr (db_ledger db) datasets = Ok rows /\
    Forall (fun r => computed_complete cutoff (Z.of_nat (length (segments_for (inventory v) (dc_dataset r)))) r) rows /\
    ("publication_cutoff", JStr cutoff) ∈ expected /\
    exists target_state inventory_digest receipt_digest, ("target_state", JList target_state) ∈ expected /\
      Forall2 (fun r e => target_entry contracts sha256_hex inventory_digest receipt_digest r = Ok e) rows target_state.
Proof.
  unfold derive_transition_body. intros H. apply bind_Ok in H as (id & [-> Hid]%build_id_Ok & H).
  apply bind_Ok in H as (issued & _ & H). apply bind_Ok in H as (expires & _ & H). apply bind_Ok in H as ([] & _ & H).
  apply bind_Ok in H as (policy_set & _ & H). apply bind_Ok in H as (rows & Hrows & H).
  apply bind_Ok in H as ([cutoff pub_json] & Hb & H). apply bind_Ok in H as (v & Hv & H).
  apply bind_Ok in H as (inventory_list & _ & H). apply bind_Ok in H as (receipt_list & _ & H).
  apply bind_Ok in H as (us & Hcand & H). unfold publication_binding in Hb.
  apply bind_Ok in Hb as (cutoff' & Hcut%on_error_Ok & Hb). apply validation_cutoff_Ok in Hcut as (publication & Hact & Hut).
  destruct (publications_of id db) as [|row []]; try done. apply bind_Ok in Hb as ([] & _ & Hb).
  apply bind_Ok in Hb as ([] & _ & Hb). apply bind_Ok in Hb as (pd & _ & Hb). injection Hb as -> _.
  unfold eligible_verification in Hv. apply bind_Ok in Hv as (v' & Hv'%on_error_Ok & Hv).
  apply bind_Ok in Hv as ([] & _ & Hv). apply bind_Ok in Hv as ([] & He%ensure_Ok & [= ->]).
  exists cutoff, publication, v, rows. split_and!; try done.
  - unfold read_active_rows in Hrows. apply bind_Ok in Hrows as ([] & _ & Hrows).
    apply bind_Ok in Hrows as (us' & Hcur & [= <-]). apply Forall_forall. intros r Hr.
    apply list_elem_of_lookup_1 in Hr as [i Hi]. apply mapR_Ok in Hcur, Hcand.
    destruct (Forall2_lookup_l _ _ _ _ _ Hcur Hi) as (u & _ & Hu).
    destruct (Forall2_lookup_l _ _ _ _ _ Hcand Hi) as (u' & _ & Hu'). by eapply candidate_Ok.
  - do 7 apply bind_Ok in H as (? & _ & H). injection H as <-. right. left.
  - do 3 apply bind_Ok in H as (? & _ & H). apply bind_Ok in H as (target_state & Hts & H).
    do 3 apply bind_Ok in H as (? & _ & H). injection H as <-. exists target_state. eexists _, _.
    split; [do 6 right; left|by apply mapR_Ok].
Qed.

Lemma named_rows body rows target_state inventory_digest receipt_digest : exact_json (JDict body) = true ->
  py_eq (getv "target_state" body) (JList target_state) = true ->
  Forall2 (fun r e => target_entry contracts sha256_hex inventory_digest receipt_digest r = Ok e) rows target_state ->
  Forall (names_row body) rows.
Proof.
  intros Hex%(exact_getv "target_state") Heq Hall. destruct (getv "target_state" body) as [|[]| | | |entries|] eqn:Et; try done.
  apply py_eq_list in Heq. apply Forall_forall. intros r Hr. apply list_elem_of_lookup_1 in Hr as [i Hi].
  destruct (Forall2_lookup_l _ _ _ _ _ Hall Hi) as (e & He & Hentry). apply bind_Ok in Hentry as (binding & _ & [= <-]).
  destruct (Forall2_lookup_r _ _ _ _ _ Heq He) as (x & Hx & Hxe). apply list_elem_of_lookup_2 in Hx.
  destruct x as [|[]| | | | |entry]; try done. exists entries, entry. split; [done|]. split; [done|].
  rewrite exact_list in Hex. rewrite Forall_forall in Hex. specialize (Hex _ Hx).
  by split_and!; apply (py_eq_field _ _ _ _ Hex Hxe).
Qed.

(** ** The change of the rows *)

Lemma update_row_Ok old new db db' n : update_row old new db = Ok (db', n) ->
  exists t, db' = with_ledger t db /\ coverage_segments t = coverage_segments (db_ledger db) /\
    collection_receipts t = collection_receipts (db_ledger db) /\
    dataset_coverage t = map (fun r => if bool_decide (r = old) then
      set_evidence "COMPLETE" (dc_detail_json new) (dc_evaluated_at new) r else r) (dataset_coverage (db_ledger db)).
Proof.
  unfold update_row, update_coverage. intros H. apply bind_Ok in H as ([t n'] & H & [= <- _]).
  apply bind_Ok in H as ([] & _ & [= <- _]). by eexists.
Qed.

(** A row of the table before and after the rows [rows] were changed. *)
Definition changed (document body : dict) (consumed_at : string) (rows : list coverage_row) (r r' : coverage_row) : Prop :=
  if decide (r ∈ rows) then target_row document body consumed_at r = Ok r' else r' = r.

Lemma target_row_dataset document body at_ r r' : target_row document body at_ r = Ok r' ->
  r' = set_evidence "COMPLETE" (dc_detail_json r') at_ r.
Proof. unfold expected_target_row. intros H. by apply bind_Ok in H as (detail & _ & [= <-]). Qed.

Lemma cas_rows document body at_ rows k db c' expected : NoDup (map dc_dataset rows) ->
  traverse (cas document body at_) rows (mkConnection k (Some db)) = (c', Ok expected) ->
  exists t, c' = mkConnection k (Some (with_ledger t db)) /\ coverage_segments t = coverage_segments (db_ledger db) /\
    collection_receipts t = collection_receipts (db_ledger db) /\
    Forall2 (changed document body at_ rows) (dataset_coverage (db_ledger db)) (dataset_coverage t).
Proof.
  revert db expected. induction rows as [|r rows IH]; intros db expected Hn H; simpl in H.
  { injection H as <- _. exists (db_ledger db). split; [by destruct db|]. split; [done|]. split; [done|].
    apply Forall_Forall2_diag, Forall_forall. intros r _. unfold changed. destruct (decide (r ∈ [])) as [Hr|]; [|done].
    by apply elem_of_nil in Hr. }
  apply bind_Ok_action in H as (c1 & new & Hc & H). apply bind_Ok_action in H as (c2 & news & Ht & H). injection H as <- _.
  unfold cas_row in Hc. apply bind_Ok_action in Hc as (? & new' & [-> Hnew]%lift_Ok & Hc).
  apply bind_Ok_action in Hc as (c3 & n & Hs & Hc). apply bind_Ok_action in Hc as (? & [] & [-> _]%lift_Ok & [= -> ->]).
  unfold statement in Hs. change (view (begin_ (mkConnection k (Some db)))) with db in Hs. destruct (update_row r new db) as [[db1 n1]|] eqn:Eu; [|done].
  injection Hs as <- _. apply update_row_Ok in Eu as (t1 & -> & Es & Er & Et).
  apply NoDup_cons in Hn as [Hr Hn]. destruct (IH _ _ Hn Ht) as (t & -> & Es' & Er' & Ht'). exists t.
  split; [by destruct db|]. split; [by rewrite Es', <- Es|]. split; [by rewrite Er', <- Er|]. simpl in Ht'.
  rewrite Et in Ht'. match type of Ht' with Forall2 _ (map ?f ?l) _ => change (map f l) with (f <$> l) in Ht' end.
  rewrite Forall2_fmap_l in Ht'. eapply Forall2_impl; [exact Ht'|]. intros x x' Hx.
  pose proof (target_row_dataset _ _ _ _ _ Hnew) as Hset.
  unfold compose in Hx. unfold changed in *. case_bool_decide as Ex.
  - subst x. rewrite (decide_True (P := r ∈ r :: rows)) by by left. destruct (decide (set_evidence _ _ _ _ ∈ rows)) as [Hin|_].
    + exfalso. apply Hr. change (dc_dataset r ∈ dc_dataset <$> rows). apply list_elem_of_fmap. eexists. by split; [|exact Hin].
    + subst x'. rewrite Hnew. by rewrite Hset.
  - destruct (decide (x ∈ rows)) as [Hin|Hin].
    + rewrite decide_True by by right. done.
    + rewrite decide_False; [done|]. intros [->|]%elem_of_cons; done.
Qed.
(** ** What a successful application shows *)

Abbreviation consumed_at env := (dt_isoformat_seconds (te_state_now env)).

(** Evidence for the rows of the datasets of a document, in the ledger of [db]. *)
Record transition_evidence (env : transition_environment) (db : database) (path : string) (body : dict)
    (datasets : list string) (rows : list coverage_row) : Prop := mkTransitionEvidence {
  ev_datasets : normalize_datasets (getv "datasets" body) = Ok datasets;
  ev_named : Forall (names_row body) rows;
  ev_rows : read_active_rows contracts sha256_hex float_repr (db_ledger db) datasets = Ok rows;
  ev_proved : exists cutoff publication v,
    active_build (te_derive_files env) db (main_of env) path (getv "build_id" body) publication /\
    utc_date_text CoveragePublicationCutoffError (pub_created_at publication) = Ok cutoff /\
    getv "publication_cutoff" body = JStr cutoff /\
    verify_exact (db_ledger db) datasets cutoff = Ok v /\ complete_eligible v = true /\
    Forall (fun r => computed_complete cutoff (Z.of_nat (length (segments_for (inventory v) (dc_dataset r)))) r) rows;
}.

(** The database after it. *)
Record transition_effect (env : transition_environment) (db db' : database) (document body : dict)
    (rows : list coverage_row) : Prop := mkTransitionEffect {
  ef_fresh : existsb (consumes document body) (db_tombstones db) = false;
  ef_written : exists tombstone t, expected_tombstone document body (consumed_at env) = Ok tombstone /\
    db' = with_ledger t (with_tombstones (db_tombstones db ++ [tombstone]) db) /\
    coverage_segments t = coverage_segments (db_ledger db) /\
    collection_receipts t = collection_receipts (db_ledger db) /\
    Forall2 (changed document body (consumed_at env) rows) (dataset_coverage (db_ledger db)) (dataset_coverage t);
}.

Lemma read_active_rows_Ok t datasets rows : read_active_rows contracts sha256_hex float_repr t datasets = Ok rows ->
  rows = coverage_rows_for t datasets /\ map dc_dataset rows = datasets.
Proof.
  unfold read_active_rows. intros H. apply bind_Ok in H as ([] & Hm%ensure_Ok & H). apply bind_Ok in H as (us & _ & [= <-]).
  by bools.
Qed.

Lemma insert_tombstone_Ok row db db' u : insert_tombstone row db = Ok (db', u) ->
  db' = with_tombstones (db_tombstones db ++ [row]) db.
Proof.
  unfold insert_tombstone. intros H. apply bind_Ok in H as ([] & _ & H). by apply bind_Ok in H as ([] & _ & [= <- _]).
Qed.

Lemma apply_in_Ok env a path identity k db c' receipt : exact_json (JDict (au_body a)) = true ->
  apply_in env a path identity (mkConnection k (Some db)) = (c', Ok receipt) ->
  exists datasets rows db', c' = mkConnection k (Some db') /\
    transition_evidence env db path (au_body a) datasets rows /\
    transition_effect env db db' (au_document a) (au_body a) rows /\
    au_now a <= te_state_now env <= te_commit_now env /\ te_commit_now env <= au_expires a.
Proof.
  intros Hexact. unfold apply_in_transaction. cbv zeta. intros H. apply bind_Ok_action in H as (? & [] & [-> _]%lift_Ok & H).
  apply bind_Ok_action in H as (? & db0 & Hs & H). injection Hs as <- <-. change (view _) with db in H.
  apply bind_Ok_action in H as (? & [] & [-> Hf%ensure_Ok]%lift_Ok & H). apply negb_true_iff in Hf.
  apply bind_Ok_action in H as (? & fd & [-> _]%lift_Ok & H). apply bind_Ok_action in H as (? & [] & [-> _]%lift_Ok & H).
  apply bind_Ok_action in H as (? & datasets & [-> Hd]%lift_Ok & H).
  apply bind_Ok_action in H as (? & expected & [-> Hx]%lift_Ok & H).
  apply bind_Ok_action in H as (? & [] & [-> He%ensure_Ok]%lift_Ok & H).
  apply bind_Ok_action in H as (? & rows & [-> Hrows]%lift_Ok & H).
  apply bind_Ok_action in H as (? & final & [-> (-> & _ & Hfinal)%observe_Ok]%lift_Ok & H).
  apply bind_Ok_action in H as (? & [] & [-> _]%lift_Ok & H). apply bind_Ok_action in H as (c1 & news & Hcas & H).
  apply bind_Ok_action in H as (? & db1 & Hs & H). injection Hs as <- <-.
  apply bind_Ok_action in H as (? & [] & [-> _]%lift_Ok & H). apply bind_Ok_action in H as (? & [] & [-> _]%lift_Ok & H).
  apply bind_Ok_action in H as (? & last_ & [-> (-> & [_ Hlast] & Hcommit)%observe_Ok]%lift_Ok & H). injection H as <- _.
  apply derive_Ok in Hx as (cutoff & publication & v & rows' & Hact & Hut & Hver & Hel & Hrows' & Hcand & Hin & Hts).
  rewrite Hrows in Hrows'. injection Hrows' as <-. destruct (read_active_rows_Ok _ _ _ Hrows) as [_ Hmap].
  destruct (normalize_datasets_Ok _ _ Hd) as (_ & Hnodup & _).
  unfold apply_cas in Hcas. apply bind_Ok_action in Hcas as (? & tombstone & [-> Ht]%lift_Ok & Hcas).
  apply bind_Ok_action in Hcas as (c2 & [] & Hins & Hcas). unfold statement in Hins.
  change (view (begin_ (mkConnection k (Some db)))) with db in Hins.
  destruct (insert_tombstone tombstone db) as [[db2 u]|] eqn:Ei; [|done]. injection Hins as <- _.
  apply insert_tombstone_Ok in Ei as ->. rewrite <- Hmap in Hnodup.
  destruct (cas_rows _ _ _ _ _ _ _ _ Hnodup Hcas) as (t & -> & Es & Er & Hch).
  exists datasets, rows. eexists. split; [reflexivity|]. split_and!.
  - rewrite forallb_forall in He. split; [done| |done|].
    + destruct Hts as (target_state & d1 & d2 & Hts & Hall). apply list_elem_of_In in Hts. specialize (He _ Hts). simpl in He.
      by eapply named_rows.
    + exists cutoff, publication, v. split_and!; try done. apply list_elem_of_In in Hin. specialize (He _ Hin).
      simpl in He. by apply py_eq_right_str in He.
  - split; [done|]. exists tombstone, t. by split_and!.
  - by apply Hfinal.
  - by apply Hcommit.
  - done.
Qed.

#[local] Instance uncommitted_apply env a path identity : Uncommitted (apply_in env a path identity).
Proof. unfold apply_in_transaction, apply_cas, cas_row. cbv zeta. apply _. Qed.

Lemma authorize_exact document expected now a : authorize_at document expected now = Ok a ->
  exact_json (JDict (au_body a)) = true.
Proof.
  unfold authorize. intros H. apply bind_Ok in H as (registry & _ & H). apply bind_Ok in H as ([] & _ & H).
  apply bind_Ok in H as ([frozen body] & Hv & H). do 4 apply bind_Ok in H as (? & _ & H).
  apply bind_Ok in H as (now' & _ & [= <-]). destruct (validate_document_Ok _ _ _ _ _ Hv) as (_ & environment & _ & _ & Hw).
  simpl. change (exact_json (JDict body) = true). rewrite <- (wa_body _ _ _ _ Hw). apply exact_getv, (wa_exact _ _ _ _ Hw).
Qed.

Lemma apply_Ok env db_path document expected c c' receipt : in_transaction c = false ->
  apply_signed env db_path document expected c = (c', Ok receipt) ->
  exists a path datasets rows, authorize_at document expected (te_now env) = Ok a /\ pending c' = None /\
    transition_evidence env (committed c) path (au_body a) datasets rows /\
    transition_effect env (committed c) (committed c') (au_document a) (au_body a) rows /\
    au_now a <= te_state_now env <= te_commit_now env /\ te_commit_now env <= au_expires a.
Proof.
  intros Hc H. unfold apply_signed_coverage_transition in H. apply bind_Ok_action in H as (? & a & [-> Ha]%lift_Ok & H).
  apply bind_Ok_action in H as (? & [path identity] & [-> _]%lift_Ok & H).
  apply owning_Ok in H as (c1 & H & ->); [|done]. assert (Hb : begin_ c = mkConnection (committed c) (Some (committed c))).
  { destruct c as [k [p|]]; [done|reflexivity]. }
  rewrite Hb in H.
  destruct (apply_in_Ok _ _ _ _ _ _ _ _ (authorize_exact _ _ _ _ Ha) H) as (datasets & rows & db' & -> & Hev & Hef & Hclock).
  by exists a, path, datasets, rows.
Qed.

Lemma apply_Err env db_path document expected c c' e : in_transaction c = false ->
  apply_signed env db_path document expected c = (c', Err e) -> c' = c.
Proof.
  intros Hc. unfold apply_signed_coverage_transition, mbind, action_bind, lift.
  destruct (authorize _ _ _ _ _ _ _) as [a|e']; [|by intros [= <- _]].
  destruct (open_db _ _ _ _) as [[path identity]|e']; [|by intros [= <- _]].
  apply owning_Err; [apply _|done].
Qed.

(** Claim C3.  A transition is applied only with evidence.  The document is authorised;
    the clock never went back and was within its lifetime when the transaction was
    committed; its cut-off is that of the unique active build; the exact inventory
    up to it is complete with verified receipts; and every row it makes COMPLETE
    was PARTIAL, computed COMPLETE by a refresh for this cut-off under the policy in
    force, and is named in the target state that was signed. *)
Theorem transition_needs_evidence env db_path document expected c c' receipt : in_transaction c = false ->
  apply_signed env db_path document expected c = (c', Ok receipt) -> let db := committed c in
  exists a path datasets rows cutoff publication v, authorize_at document expected (te_now env) = Ok a /\
    au_now a <= te_state_now env <= te_commit_now env /\ te_commit_now env <= au_expires a /\
    getv "datasets" (au_body a) = JList (map JStr datasets) /\ datasets <> [] /\ map dc_dataset rows = datasets /\
    active_build (te_derive_files env) db (main_of env) path (getv "build_id" (au_body a)) publication /\
    utc_date_text CoveragePublicationCutoffError (pub_created_at publication) = Ok cutoff /\
    getv "publication_cutoff" (au_body a) = JStr cutoff /\
    verify_exact (db_ledger db) datasets cutoff = Ok v /\ complete_eligible v = true /\
    Forall (fun r => r ∈ dataset_coverage (db_ledger db) /\ names_row (au_body a) r /\
      computed_complete cutoff (Z.of_nat (length (segments_for (inventory v) (dc_dataset r)))) r) rows.
Proof.
  intros Hc H. destruct (apply_Ok _ _ _ _ _ _ _ Hc H) as (a & path & datasets & rows & Ha & _ & Hev & _ & Hclock & Hexp).
  destruct Hev as [Hd Hnamed Hrows (cutoff & publication & v & Hact & Hut & Hcut & Hver & Hel & Hcand)].
  destruct (normalize_datasets_Ok _ _ Hd) as (Hne & _ & Hds). apply read_active_rows_Ok in Hrows as [-> Hmap].
  exists a, path, datasets. eexists _, cutoff, publication, v. split_and!; try done; try lia.
  rewrite Forall_forall in Hnamed, Hcand. apply Forall_forall. intros r Hr. split; [by apply elem_of_coverage_rows in Hr as []|].
  split; [by apply Hnamed|by apply Hcand].
Qed.

(** Claim C6.  A transition changes exactly what was signed.  It commits: every row of
    the named datasets, each of which has one, becomes COMPLETE with the time of the
    transaction and a detail that names the transition, and keeps its other columns;
    no other row, segment or receipt changes, and one tombstone with the signed text
    is appended; nothing else of the database changes. *)
Theorem transition_changes_exactly env db_path document expected c c' receipt : in_transaction c = false ->
  apply_signed env db_path document expected c = (c', Ok receipt) -> let db := committed c in
  pending c' = None /\ exists a datasets tombstone t, authorize_at document expected (te_now env) = Ok a /\
    getv "datasets" (au_body a) = JList (map JStr datasets) /\
    committed c' = with_ledger t (with_tombstones (db_tombstones db ++ [tombstone]) db) /\
    expected_tombstone (au_document a) (au_body a) (consumed_at env) = Ok tombstone /\
    coverage_segments t = coverage_segments (db_ledger db) /\ collection_receipts t = collection_receipts (db_ledger db) /\
    (forall d, d ∈ datasets -> exists r, r ∈ dataset_coverage (db_ledger db) /\ dc_dataset r = d) /\
    Forall2 (fun r r' => if decide (dc_dataset r ∈ datasets)
                         then exists detail, target_detail sha256_hex float_repr (au_document a) (au_body a) (dc_detail_json r) = Ok detail /\
                                r' = set_evidence "COMPLETE" detail (consumed_at env) r
                         else r' = r)
      (dataset_coverage (db_ledger db)) (dataset_coverage t).
Proof.
  intros Hc H. destruct (apply_Ok _ _ _ _ _ _ _ Hc H) as (a & path & datasets & rows & Ha & Hp & Hev & Hef & _).
  split; [done|]. destruct Hev as [Hd _ Hrows _]. destruct Hef as [_ (tombstone & t & Ht & Hdb & Es & Er & Hch)].
  destruct (normalize_datasets_Ok _ _ Hd) as (_ & _ & Hds). apply read_active_rows_Ok in Hrows as [-> Hmap].
  exists a, datasets, tombstone, t. split_and!; try done.
  - intros d Hin. rewrite <- Hmap in Hin. apply list_elem_of_fmap in Hin as (r & -> & Hr%elem_of_coverage_rows).
    by exists r; destruct Hr.
  - apply Forall2_same_length_lookup_2; [by eapply Forall2_length|]. intros i r r' Hi Hi'.
    pose proof (Forall2_lookup_lr _ _ _ _ _ _ Hch Hi Hi') as Hr. unfold changed in Hr. apply list_elem_of_lookup_2 in Hi.
    destruct (decide (r ∈ _)) as [Hin|Hin], (decide (dc_dataset r ∈ datasets)) as [Hrd|Hrd].
    + apply bind_Ok in Hr as (detail & Hdet & [= <-]). by exists detail.
    + by apply elem_of_coverage_rows in Hin as [].
    + by destruct Hin; apply elem_of_coverage_rows.
    + done.
Qed.

Lemma consumed_refused env db_path document expected c a : in_transaction c = false ->
  authorize_at document expected (te_now env) = Ok a ->
  existsb (consumes (au_document a) (au_body a)) (db_tombstones (committed c)) = true ->
  exists e, apply_signed env db_path document expected c = (c, Err e).
Proof.
  intros Hc Ha Hx. destruct (apply_signed env db_path document expected c) as [c' [receipt|e]] eqn:E.
  - destruct (apply_Ok _ _ _ _ _ _ _ Hc E) as (a' & path & datasets & rows & Ha' & _ & _ & Hef & _).
    rewrite Ha in Ha'. injection Ha' as <-. destruct Hef as [Hf _]. congruence.
  - exists e. by rewrite (apply_Err _ _ _ _ _ _ _ Hc E).
Qed.

(** Claim C8.  A transition is atomic and happens once.  One that raises leaves the
    database as it was.  After one that was applied, in every database that still has
    its tombstone, a document with its identity, or for the same build and the same set
    of datasets, is refused and changes nothing, whoever signed it. *)
Theorem transition_atomic_once env db_path document expected c c' r : in_transaction c = false ->
  apply_signed env db_path document expected c = (c', r) ->
  match r with
  | Err _ => c' = c
  | Ok _ => exists a, authorize_at document expected (te_now env) = Ok a /\
      forall env2 db_path2 document2 expected2 c2 a2, in_transaction c2 = false ->
        Forall (fun tombstone => tombstone ∈ db_tombstones (committed c2)) (db_tombstones (committed c')) ->
        authorize_at document2 expected2 (te_now env2) = Ok a2 ->
        str_field "transition_id" (au_document a2) = str_field "transition_id" (au_document a) \/
        (str_field "build_id" (au_body a2) = str_field "build_id" (au_body a) /\
         str_field "dataset_set_digest" (au_body a2) = str_field "dataset_set_digest" (au_body a)) ->
        exists e, apply_signed_coverage_transition capabilities contracts sha256_hex float_repr date_matches table_rows
          visible_text verify ed25519_verify registry_file env2 db_path2 document2 expected2 c2 = (c2, Err e)
  end.
Proof.
  intros Hc H. destruct r as [receipt|e]; [|by eapply apply_Err].
  destruct (apply_Ok _ _ _ _ _ _ _ Hc H) as (a & path & datasets & rows & Ha & _ & _ & Hef & _).
  destruct Hef as [_ (tombstone & t & Ht & Hdb & _)]. exists a. split; [done|]. intros env2 p2 doc2 exp2 c2 a2 Hc2 Hkept Ha2 Hsame.
  apply (consumed_refused _ _ _ _ _ _ Hc2 Ha2). apply existsb_exists. exists tombstone. split.
  - apply list_elem_of_In. rewrite Forall_forall in Hkept. apply Hkept. rewrite Hdb. apply elem_of_app. right. by left.
  - unfold expected_tombstone in Ht. apply bind_Ok in Ht as (evidence & _ & [= <-]). unfold consumes. simpl.
    destruct Hsame as [->|[-> ->]]; apply orb_true_iff; [left|right]; by rewrite !bool_decide_eq_true_2.
Qed.
End TransitionFacts.


(** ** A transition of the sample ledger *)

(** The sample ledger after a refresh: computed COMPLETE, stored as PARTIAL; in the
    staging database of a build that is validated. *)
Definition candidate_tables : tables := Eval vm_compute in committed (refresh_ledger ledger_arguments (ledger_connection "PARTIAL")).1.

Definition candidate_connection : connection_to database := Eval vm_compute in
  validating_connection candidate_tables "collection-coverage/v3".

Definition sample_schema : authority_schema :=
  mkSchema [(12, "phase631_coverage_complete_transition_tombstones")] DATASET_COVERAGE_COLUMNS
    (match TOMBSTONE_COLUMNS with
     | first :: others => mkColumn first "TEXT" 0 None 1 :: map (fun name => mkColumn name "TEXT" 1 None 0) others
     | [] => []
     end)
    TOMBSTONE_TRIGGER_NAMES [].

Definition sample_environment (now : datetime) : transition_environment :=
  mkTransitionEnvironment staging_fs staging_fs (Some "/staging.db") sample_schema
    (Some (mkOpenedFile staging_info (0, 0) "" staging_info (0, 0))) staging_fs staging_fs staging_fs sample_schema
    true true staging_fs now (now + 1000000) (now + 2000000).

Abbreviation request_sample := (build_coverage_transition_request ledger_capabilities ledger_contracts pinned_hex id
  no_dates no_rows same_text ledger_verify (sample_environment sample_now) "/staging.db" (JStr "build-1")
  (JList [JStr "equities_bars_daily"]) (JStr "2024-01-31T12:00:00Z") (JStr "2024-01-31T12:15:00Z")).

Abbreviation apply_to := (apply_signed_coverage_transition ledger_capabilities ledger_contracts pinned_hex id no_dates
  no_rows same_text ledger_verify toy_ed25519 sample_registry_file).

Abbreviation apply_sample now document := (apply_to (sample_environment now) "/staging.db" document (JStr "staging")).

(** A request, completed with the environment and its resources, and signed. *)
Definition sign_request (request : dict) : json :=
  JDict (sign_body (match getv "body" request with
                    | JDict body => body ++ [("environment", JStr "staging"); ("resource_identity", sample_resource "staging")]
                    | _ => []
                    end)).

Definition sample_transition : json := Eval vm_compute in sign_request (ok_or [] (request_sample candidate_connection).2).

Definition completed_connection : connection_to database := Eval vm_compute in
  (apply_sample sample_now sample_transition candidate_connection).1.

Definition completion_receipt : dict := Eval vm_compute in
  ok_or [] (apply_sample sample_now sample_transition candidate_connection).2.

Definition outcome {A} (m : connection_to database * result A) : list string * nat * string :=
  (map dc_status (dataset_coverage (db_ledger (committed m.1))), length (db_tombstones (committed m.1)),
   match m.2 with Ok _ => "" | Err e => exn_msg e end).

(** It is applied ([sample_applied]), once; not too late, nor with another body, nor to
    rows that were not refreshed, nor to a build under another policy. *)
Example transition_samples :
  [outcome (apply_sample sample_now sample_transition completed_connection);
   outcome (apply_sample (sample_now + 899000000) sample_transition candidate_connection);
   outcome (apply_sample sample_now (JDict (sign_body sample_body)) candidate_connection);
   outcome (apply_sample sample_now sample_transition
     (validating_connection (committed (ledger_connection "PARTIAL")) "collection-coverage/v3"));
   outcome (apply_sample sample_now sample_transition (validating_connection candidate_tables "v2"))]
  = [(["COMPLETE"], 1%nat, "Coverage transition evidence was already consumed");
     (["PARTIAL"], 0%nat, "Coverage transition authorization is not current or expired");
     (["PARTIAL"], 0%nat, "Coverage transition does not bind the exact live active/target state");
     (["PARTIAL"], 0%nat, "Coverage transition active state is not a computed COMPLETE candidate");
     (["PARTIAL"], 0%nat, "Coverage transition build policy differs from current policy set")].
Proof. vm_compute. reflexivity. Qed.

Lemma sample_applied :
  apply_sample sample_now sample_transition candidate_connection = (completed_connection, Ok completion_receipt).
Proof. vm_compute. reflexivity. Qed.

Lemma candidate_ready : in_transaction candidate_connection = false.
Proof. vm_compute. reflexivity. Qed.

Definition sample_clock : datetime := te_now (sample_environment sample_now).

Definition sample_authorized : authorization := Eval vm_compute in
  ok_or (mkAuthorization [] [] 0 0 0)
    (authorize pinned_hex id toy_ed25519 sample_registry_file sample_transition (JStr "staging") sample_clock).

Lemma sample_authorizes :
  authorize pinned_hex id toy_ed25519 sample_registry_file sample_transition (JStr "staging") sample_clock
    = Ok sample_authorized.
Proof. vm_compute. reflexivity. Qed.

Lemma transition_needs_evidence_witness :
  exists a rows datasets, authorize pinned_hex id toy_ed25519 sample_registry_file sample_transition (JStr "staging") sample_clock = Ok a /\
    map dc_dataset rows = datasets /\ datasets <> [] /\
    Forall (fun r => r ∈ dataset_coverage (db_ledger (committed candidate_connection)) /\ names_row (au_body a) r) rows.
Proof.
  destruct (transition_needs_evidence ledger_capabilities ledger_contracts pinned_hex id no_dates no_rows same_text
    ledger_verify toy_ed25519 sample_registry_file (sample_environment sample_now) "/staging.db" sample_transition
    (JStr "staging") candidate_connection _ _ candidate_ready sample_applied)
    as (a & path & datasets & rows & cutoff & publication & v & Ha & _ & _ & _ & Hd & Hrows & _ & _ & _ & _ & _ & Hall).
  exists a, rows, datasets. split; [exact Ha|]. split; [exact Hrows|]. split; [exact Hd|].
  eapply Forall_impl; [exact Hall|]. intros r (Hr & Hn & _). split; [exact Hr|exact Hn].
Defined.

Lemma transition_changes_exactly_witness :
  map dc_status (dataset_coverage (db_ledger (committed completed_connection))) = ["COMPLETE"] /\
  pending completed_connection = None.
Proof.
  split; [vm_compute; reflexivity|].
  destruct (transition_changes_exactly ledger_capabilities ledger_contracts pinned_hex id no_dates no_rows same_text
    ledger_verify toy_ed25519 sample_registry_file (sample_environment sample_now) "/staging.db" sample_transition
    (JStr "staging") candidate_connection _ _ candidate_ready sample_applied) as [Hp _].
  exact Hp.
Defined.

(** Signed again for the same build and datasets, with other times. *)
Definition sign_again (document : json) : json :=
  match document with
  | JDict d => match getv "body" d with
               | JDict body => JDict (sign_body (dict_set "expires_at" (JStr "2024-01-31T12:14:00Z") body))
               | _ => JNull
               end
  | _ => JNull
  end.

Definition second_transition : json := Eval vm_compute in sign_again sample_transition.

Definition second_authorized : authorization := Eval vm_compute in
  ok_or (mkAuthorization [] [] 0 0 0)
    (authorize pinned_hex id toy_ed25519 sample_registry_file second_transition (JStr "staging") sample_clock).

Lemma second_same_set : authorize pinned_hex id toy_ed25519 sample_registry_file second_transition (JStr "staging") sample_clock
    = Ok second_authorized /\
  str_field "build_id" (au_body second_authorized) = str_field "build_id" (au_body sample_authorized) /\
  str_field "dataset_set_digest" (au_body second_authorized) = str_field "dataset_set_digest" (au_body sample_authorized).
Proof. vm_compute. split_and!; reflexivity. Qed.

Lemma Ok_equal {A} (a b : A) : Ok a = Ok b -> a = b.
Proof. by intros [= ->]. Qed.

Lemma transition_atomic_once_witness : in_transaction completed_connection = false /\
  exists e, apply_sample sample_now second_transition completed_connection = (completed_connection, Err e).
Proof.
  assert (Hc : in_transaction completed_connection = false) by (vm_compute; reflexivity). split; [exact Hc|].
  destruct (transition_atomic_once ledger_capabilities ledger_contracts pinned_hex id no_dates no_rows same_text
    ledger_verify toy_ed25519 sample_registry_file (sample_environment sample_now) "/staging.db" sample_transition
    (JStr "staging") candidate_connection _ _ candidate_ready sample_applied) as (a & Ha & Honce).
  fold sample_clock in Ha. rewrite sample_authorizes in Ha. apply Ok_equal in Ha. subst a.
  apply (Honce (sample_environment sample_now) "/staging.db" second_transition (JStr "staging") completed_connection
    second_authorized).
  - exact Hc.
  - apply Forall_forall. intros x Hx. exact Hx.
  - exact (proj1 second_same_set).
  - right. exact (proj2 second_same_set).
Defined.
