(* ===== verification/Provenance.v ===== *)
(** * Provenance: where COMPLETE comes from

    The database is shared: refreshes and synchronisations write its ledger,
    publications write the other tables, and transitions write both.  The file puts
    the clients together as the steps of one world, in any order, transactions opened,
    committed and rolled back at any point, and shows what a COMPLETE in the ledger
    proves about the past. *)

From S2P Require Import Prelude PyDate PyTime Json JsonText Sha256 SourceCapability CoverageContract CoveragePlan ReceiptCrypto Receipt CoverageEval Transaction LedgerStore Inventory LedgerRefresh LedgerSync Publication CoverageProof TransitionAuthority CoverageTransition.

Local Open Scope Z_scope.

(** The ledger of the committed and of the pending database. *)
Definition ledger_of (c : connection_to database) : connection :=
  mkConnection (db_ledger (committed c)) (db_ledger <$> pending c).

(** Tombstones are immutable: none that is committed disappears. *)
Definition tombstones_kept (c c' : connection_to database) : Prop :=
  Forall (fun tombstone => tombstone ∈ db_tombstones (committed c')) (db_tombstones (committed c)).

Section World.
Context (sha256_hex float_repr : string -> string) (ed25519_verify : string -> string -> string -> bool)
  (registry_file : string -> option string).

(** One call of one client, whether it returns or raises: a client of the ledger, with
    anything happening to the other tables; a client of the other tables; an
    application of a document, on a connection of its own. *)
Inductive world_step (c : connection_to database) : connection_to database -> Prop :=
  | world_ledger c' : ledger_step (ledger_of c) (ledger_of c') -> tombstones_kept c c' -> world_step c c'
  | world_other c' : ledger_of c' = ledger_of c -> tombstones_kept c c' -> world_step c c'
  | world_transition capabilities contracts date_matches table_rows visible_text verify env db_path document expected :
      in_transaction c = false ->
      world_step c (apply_signed_coverage_transition capabilities contracts sha256_hex float_repr date_matches table_rows
                      visible_text verify ed25519_verify registry_file env db_path document expected c).1.

(** A tombstone with the text of a document that was authorised and whose signed
    target state names the dataset of the row, under its policy, COMPLETE. *)
Definition signed (tombstones : list tombstone_row) (r : coverage_row) : Prop :=
  exists tombstone document expected now a datasets, tombstone ∈ tombstones /\
    authorize sha256_hex float_repr ed25519_verify registry_file document expected now = Ok a /\
    canonical_json (JDict (au_document a)) = Ok (tb_signed_evidence_json tombstone) /\
    getv "datasets" (au_body a) = JList (map JStr datasets) /\ dc_dataset r ∈ datasets /\ names_row (au_body a) r.

Definition inherited (base : tables) (r : coverage_row) : Prop := exists old, old ∈ dataset_coverage base /\
  dc_dataset old = dc_dataset r /\ dc_policy_version old = dc_policy_version r /\ dc_status old = "COMPLETE".

Definition accounted (base : tables) (tombstones : list tombstone_row) (t : tables) : Prop :=
  tables_ok t /\ forall r, r ∈ dataset_coverage t -> dc_status r = "COMPLETE" -> inherited base r \/ signed tombstones r.

Definition world_ok (base : tables) (c : connection_to database) : Prop :=
  everywhere (accounted base (db_tombstones (committed c))) (ledger_of c).

Lemma signed_transfer tombstones tombstones' r r' : Forall (fun x => x ∈ tombstones') tombstones ->
  dc_dataset r = dc_dataset r' -> dc_policy_version r = dc_policy_version r' -> signed tombstones r -> signed tombstones' r'.
Proof.
  rewrite Forall_forall. intros Hkept Hd Hp (tombstone & document & expected & now & a & datasets & Hin & Ha & Ht & Hds & Hr & Hn).
  exists tombstone, document, expected, now, a, datasets. unfold names_row in *. rewrite <- Hd, <- Hp. by split_and!; auto.
Qed.

Lemma accounted_more base tombstones tombstones' t : Forall (fun x => x ∈ tombstones') tombstones ->
  accounted base tombstones t -> accounted base tombstones' t.
Proof.
  intros Hkept [Hok H]. split; [done|]. intros r Hr Hs. destruct (H r Hr Hs) as [Hi|Hsig]; [by left|right].
  by eapply signed_transfer.
Qed.

Lemma everywhere_impl {T} (P Q : T -> Prop) c : (forall t, P t -> Q t) -> everywhere P c -> everywhere Q c.
Proof. intros H [Hc Hp]. split; [by apply H|]. intros t Ht. by apply H, Hp. Qed.

Lemma world_ledger_ok base c c' : ledger_step (ledger_of c) (ledger_of c') -> tombstones_kept c c' ->
  world_ok base c -> world_ok base c'.
Proof.
  intros Hstep Hkept Hok.
  set (all := mkTables [] [] (dataset_coverage (db_ledger (committed c))
                ++ from_option (fun db => dataset_coverage (db_ledger db)) [] (pending c))).
  assert (Hall : forall r, r ∈ dataset_coverage all -> dc_status r = "COMPLETE" ->
    inherited base r \/ signed (db_tombstones (committed c)) r).
  { intros r [Hr|Hr]%elem_of_app; [by apply Hok|]. destruct (pending c) as [db|] eqn:Ep; [|by apply elem_of_nil in Hr].
    apply (proj2 Hok (db_ledger db)); [|done]. simpl. by rewrite Ep. }
  assert (Hgood : everywhere (good all) (ledger_of c)).
  { destruct Hok as [[Hc _] Hp]. split.
    - split; [done|]. intros r Hr Hs. exists r. split_and!; try done. apply elem_of_app. by left.
    - intros t Ht. split; [by apply Hp|]. intros r Hr Hs. exists r. split_and!; try done. apply elem_of_app. right.
      simpl in Ht. destruct (pending c); [|done]. by injection Ht as <-. }
  apply (step_good _ _ _ Hstep) in Hgood. revert Hgood. apply everywhere_impl. intros t [Ht Hnew]. split; [done|].
  intros r Hr Hs. destruct (Hnew r Hr Hs) as (old & Hold & Hd & Hp & Hso). destruct (Hall old Hold Hso) as [(o & Ho & Hod & Hop & Hos)|Hsig].
  - left. exists o. by split_and!; congruence.
  - right. by eapply signed_transfer.
Qed.

Lemma changed_keeps_ok hash repr document body at_ rows t t' : tables_ok t ->
  coverage_segments t' = coverage_segments t -> collection_receipts t' = collection_receipts t ->
  Forall2 (changed hash repr document body at_ rows) (dataset_coverage t) (dataset_coverage t') -> tables_ok t'.
Proof.
  intros [H1 H2 H3 H4 H5 H6] Es Er H. assert (Hk : map dc_dataset (dataset_coverage t') = map dc_dataset (dataset_coverage t)).
  { clear -H. induction H as [|r r' l l' Hr _ IH]; [done|]. simpl. f_equal; [|exact IH].
    unfold changed in Hr. destruct (decide _); [|by subst]. by rewrite (target_row_dataset _ _ _ _ _ _ _ Hr). }
  split; rewrite ?Es, ?Er, ?Hk; try done. clear -H H6. induction H as [|r r' l l' Hr _ IH]; [done|].
  apply Forall_cons in H6 as [Hc H6]. constructor; [|by apply IH]. unfold changed in Hr. destruct (decide _); [|by subst].
  rewrite (target_row_dataset _ _ _ _ _ _ _ Hr). revert Hc. unfold coverage_check. simpl. rewrite !andb_true_iff.
  intros [[[_ H1] H2] H3]. by split_and!.
Qed.

(** A transition accounts for the rows it makes COMPLETE. *)
Lemma world_transition_ok base capabilities contracts date_matches table_rows visible_text verify env db_path document
    expected c : in_transaction c = false -> world_ok base c ->
  world_ok base (apply_signed_coverage_transition capabilities contracts sha256_hex float_repr date_matches table_rows
                   visible_text verify ed25519_verify registry_file env db_path document expected c).1.
Proof.
  intros Hc Hok. destruct (apply_signed_coverage_transition _ _ _ _ _ _ _ _ _ _ _ _ _ _ c) as [c' [receipt|e]] eqn:E;
    simpl; [|by rewrite (apply_Err _ _ _ _ _ _ _ _ _ _ _ _ _ _ _ _ _ Hc E)].
  destruct (apply_Ok _ _ _ _ _ _ _ _ _ _ _ _ _ _ _ _ _ Hc E) as (a & path & datasets & rows & Ha & Hp & Hev & Hef & _).
  destruct Hev as [Hd Hnamed Hrows _]. destruct Hef as [_ (tombstone & t & Ht & Hdb & Es & Er & Hch)].
  destruct (normalize_datasets_Ok _ _ Hd) as (_ & _ & Hds). apply read_active_rows_Ok in Hrows as [-> Hmap].
  destruct Hok as [[Htok Hrow] _]. simpl in Htok, Hrow. unfold world_ok, ledger_of. rewrite Hp, Hdb. split; [|done]. simpl.
  split; [by eapply changed_keeps_ok|]. intros r' Hr' Hs. apply list_elem_of_lookup_1 in Hr' as [i Hi'].
  destruct (Forall2_lookup_r _ _ _ _ _ Hch Hi') as (r & Hi & Hr). apply list_elem_of_lookup_2 in Hi. unfold changed in Hr.
  destruct (decide (r ∈ _)) as [Hin|_].
  - right. apply target_row_dataset in Hr. exists tombstone, document, expected, (te_now env), a, datasets.
    unfold expected_tombstone in Ht. apply bind_Ok in Ht as (evidence & Hevid & [= <-]). simpl.
    split_and!; try done.
    + apply elem_of_app. right. by left.
    + rewrite Hr. simpl. by apply elem_of_coverage_rows in Hin as [_ ?].
    + rewrite Forall_forall in Hnamed. specialize (Hnamed _ Hin). unfold names_row in *. by rewrite Hr.
  - subst r'. destruct (Hrow r Hi Hs) as [Hinh|Hsig]; [by left|right]. eapply signed_transfer; [| | |exact Hsig]; try done.
    apply Forall_forall. intros x Hx. apply elem_of_app. by left.
Qed.

Lemma world_steps_ok base c c' : world_ok base c -> rtc world_step c c' -> world_ok base c'.
Proof.
  intros Hok H. induction H as [|c1 c2 c3 Hs _ IH]; [done|]. apply IH. destruct Hs as [c2 Hl Hk|c2 Hl Hk|].
  - by eapply world_ledger_ok.
  - unfold world_ok in *. rewrite Hl. revert Hok. apply everywhere_impl. intros t. by apply accounted_more.
  - by apply world_transition_ok.
Qed.

Lemma world_start db : tables_ok (db_ledger db) -> world_ok (db_ledger db) (mkConnection db None).
Proof. intros Hok. split; [|done]. split; [done|]. intros r Hr Hs. left. by exists r. Qed.

(** Claim C1.  Every COMPLETE has an authority.  Whatever the clients of the database do,
    a row of its ledger that is COMPLETE, committed or pending, was COMPLETE at the
    start under the same policy, or there is a committed tombstone with the text of a
    document that the active key of the pinned registry signed, in which the dataset
    of the row is named COMPLETE under this policy. *)
Theorem complete_has_authority db c c' : tables_ok (db_ledger db) -> c = mkConnection db None -> rtc world_step c c' ->
  everywhere (fun t => tables_ok t /\ forall r, r ∈ dataset_coverage t -> dc_status r = "COMPLETE" ->
    (exists old, old ∈ dataset_coverage (db_ledger db) /\ dc_dataset old = dc_dataset r /\
       dc_policy_version old = dc_policy_version r /\ dc_status old = "COMPLETE") \/
    signed (db_tombstones (committed c')) r) (ledger_of c').
Proof. intros Hok -> H. exact (world_steps_ok _ _ _ (world_start db Hok) H). Qed.
End World.

(** ** With the registries of this commit *)

Lemma never_authorized float_repr ed25519_verify document expected now a :
  authorize hexdigest float_repr ed25519_verify checked_in_registry document expected now = Ok a -> False.
Proof.
  unfold authorize. intros H. apply bind_Ok in H as (registry & Hl & H). apply bind_Ok in H as ([] & Hp%ensure_Ok & _).
  assert (registry = []) as ->; [|done]. destruct expected as [| | | |s| |]; try done.
  destruct (decide (s ∈ ENVIRONMENTS)) as [Hs|Hs].
  - rewrite checked_in_empty in Hl by done. by injection Hl.
  - unfold load_pinned, require_environment in Hl. by rewrite bool_decide_eq_false_2 in Hl.
Qed.

(** Claim C11.  With the registries of this commit nothing becomes COMPLETE.  Whatever the
    clients do, documents that are applied included, every dataset that is COMPLETE,
    committed or pending, was COMPLETE at the start under the same policy. *)
Theorem nothing_completes_unprovisioned float_repr ed25519_verify db c c' : tables_ok (db_ledger db) ->
  c = mkConnection db None -> rtc (world_step hexdigest float_repr ed25519_verify checked_in_registry) c c' ->
  everywhere (no_new_complete (db_ledger db)) (ledger_of c').
Proof.
  intros Hok -> H. pose proof (world_steps_ok _ _ _ _ _ _ _ (world_start _ _ _ _ db Hok) H) as Hw. revert Hw.
  apply everywhere_impl. intros t [_ Ht] r Hr Hs. destruct (Ht r Hr Hs) as [Hi|Hsig]; [exact Hi|].
  destruct Hsig as (tombstone & document & expected & now & a & datasets & _ & Ha & _). by apply never_authorized in Ha.
Qed.

(** ** From a collected month to COMPLETE *)

Definition refreshable_connection : connection_to database := Eval vm_compute in
  validating_connection (committed (ledger_connection "PARTIAL")) "collection-coverage/v3".

Lemma sample_refresh : ledger_of candidate_connection = (refresh_ledger ledger_arguments (ledger_of refreshable_connection)).1.
Proof. vm_compute. reflexivity. Qed.

Abbreviation sample_step := (world_step pinned_hex id toy_ed25519 sample_registry_file).

(** A refresh, then a signed transition. *)
Lemma sample_steps : rtc sample_step refreshable_connection completed_connection.
Proof.
  apply (rtc_l _ _ candidate_connection); [|apply rtc_once].
  - apply (world_ledger _ _ _ _ _ candidate_connection); [|vm_compute; constructor]. rewrite sample_refresh. apply step_refresh.
  - replace completed_connection with (apply_sample sample_now sample_transition candidate_connection).1
      by by rewrite sample_applied.
    apply (world_transition pinned_hex id toy_ed25519 sample_registry_file candidate_connection ledger_capabilities ledger_contracts no_dates no_rows same_text ledger_verify
      (sample_environment sample_now) "/staging.db" sample_transition (JStr "staging") candidate_ready).
Qed.

Definition refreshable_database : database := Eval vm_compute in committed refreshable_connection.

Lemma refreshable_start : refreshable_connection = mkConnection refreshable_database None /\
  tables_ok (db_ledger refreshable_database).
Proof.
  split; [vm_compute; reflexivity|]. split; try apply (bool_decide_unpack _); vm_compute; exact I.
Qed.

Lemma complete_has_authority_witness :
  map dc_status (dataset_coverage (db_ledger (committed completed_connection))) = ["COMPLETE"] /\
  Forall (fun r => dc_status r = "COMPLETE" ->
    (exists old, old ∈ dataset_coverage (db_ledger refreshable_database) /\ dc_dataset old = dc_dataset r /\
       dc_policy_version old = dc_policy_version r /\ dc_status old = "COMPLETE") \/
    signed pinned_hex id toy_ed25519 sample_registry_file (db_tombstones (committed completed_connection)) r)
    (dataset_coverage (db_ledger (committed completed_connection))).
Proof.
  split; [vm_compute; reflexivity|]. apply Forall_forall. intros r Hr.
  destruct (complete_has_authority pinned_hex id toy_ed25519 sample_registry_file refreshable_database
    refreshable_connection completed_connection (proj2 refreshable_start) (proj1 refreshable_start) sample_steps) as [[_ H] _].
  exact (H r Hr).
Defined.

(** What the repository's own registries allow of it: the refresh only. *)
Lemma nothing_completes_unprovisioned_witness :
  rtc (world_step hexdigest id toy_ed25519 checked_in_registry) refreshable_connection candidate_connection /\
  everywhere (no_new_complete (db_ledger refreshable_database)) (ledger_of candidate_connection).
Proof.
  assert (H : rtc (world_step hexdigest id toy_ed25519 checked_in_registry) refreshable_connection candidate_connection).
  { eapply rtc_l; [|apply rtc_refl]. apply (world_ledger _ _ _ _ _ candidate_connection); [|vm_compute; constructor].
    rewrite sample_refresh. apply step_refresh. }
  split; [exact H|].
  exact (nothing_completes_unprovisioned id toy_ed25519 refreshable_database refreshable_connection
    candidate_connection (proj2 refreshable_start) (proj1 refreshable_start) H).
Defined.
